(* ===== verification/_CoqProject ===== *)
-Q . S2P
Prelude.v
RustStd.v
Io.v
Plist.v
Json.v
UsbmuxTypes.v
UsbmuxCodec.v
UsbmuxConn.v
UsbmuxSim.v
Text.v
Float.v
Xpc.v
H2.v
RemoteXpc.v
Rsd.v
Tlv8.v
Der.v
Os.v
Lockdown.v
Pairing.v
Version.v
CdTunnel.v
RpCredentials.v
RpSession.v
Tunnel.v
DeviceSession.v
Daemon.v
Dtx.v
DtxConn.v
Afc.v
Services.v
Syslog.v
Archive.v
Cli.v
Output.v
OsLog.v
Launch.v
Xctest.v
Mounter.v
Smoltcp.v
Provision.v
FileCmd.v
Commands.v
Apps.v
Dialog.v
Instruments.v
Perf.v
Results.v
Main.v
