(* ===== verification/Prelude.v ===== *)
(** * ios-rs: a verification development

    ios-rs talks to iOS devices: it reaches them through the usbmux daemon,
    opens lockdown sessions and their services, or speaks the RemoteXPC and
    tunnel protocols of iOS 17, and drives Instruments through DTX.  This
    library models the protocol code of [src/src] as executable functions and
    proves what each layer promises to the one above.

    ** How the parts fit together

    Everything is written on byte streams.  [Io] has the streams of
    [std::io] and the monad [ST] of stateful fallible code, [RustStd] what the
    code uses of the standard library on text and integers, [Plist] the
    property lists of the [plist] crate as a class with its documented laws.
    On them stand eight stacks:
    - usbmux ([UsbmuxTypes], [UsbmuxCodec], [UsbmuxConn], [UsbmuxSim], [Os]):
      src/usbmux.  The codec is a state machine without I/O; the connection
      puts it on a socket; the simulator is the daemon of the tests.
    - RemoteXPC ([Xpc], [H2], [RemoteXpc], [Rsd]): src/xpc, src/remotexpc,
      src/rsd.  XPC messages travel in HTTP/2 DATA frames; service discovery is
      the first client.
    - lockdown ([Lockdown], [Der], [Pairing], [Afc], [Services], [Syslog]):
      src/lockdown.  Sessions over usbmux sockets with an upgrade to TLS, the
      exchange that makes the pair record these sessions need, the file conduit,
      the services that exchange property lists, and the system log.
    - tunnels ([Version], [CdTunnel], [Tlv8], [RpCredentials], [RpSession]):
      src/tunnel.  Remote pairing frames its plists like lockdown, keeps its
      credentials in files, and encrypts requests under the keys it agreed on.
      [Tunnel] opens the tunnel of a device, [DeviceSession] chooses between
      lockdown, a tunnel and the daemon that keeps tunnels open, and [Daemon] is
      that process (src/bin/ios/cmd/tunnel.rs) with its concurrent clients.
      [Smoltcp] is the network stack that runs behind a tunnel.
    - DTX ([Dtx], [DtxConn]): src/dtx/mod.rs.  Messages, and the connection
      that a reading thread shares with any number of calling threads.
    - test runs ([Archive], [Launch], [Xctest]): src/xctest.  [Archive] has the
      keyed archives that are sent, and the decoder of the ps command; [Launch]
      the request that starts the runner; [Xctest] puts [run] with its threads
      on two DTX connections.
    - the command line ([Main] and the files of its commands): src/bin/ios.
      [Main] has the commands with their arguments and runs one of them on a
      standard output; [Cli] chooses the device and opens its session; [Output]
      has the two forms of what is printed, with the numbers of [Float].
      [Commands] are those that ask lockdown and the small services, [FileCmd]
      files and crash reports, [Apps] applications, tests and the orientation,
      [OsLog] the structured log, [Mounter] the developer disk image,
      [Provision] pairing, setup and activation, [Results] what these and the
      commands of [Daemon] print.
    - instruments ([Dialog], [Instruments], [Perf]): ps.rs, location.rs,
      screenshot.rs and perf.rs in src/bin/ios/cmd.  A command is a program of
      calls on a DTX connection ([Dialog]), which runs against the reading
      thread and the threads that forward messages to it.

    ** How the code is modelled

    A Rust function that returns [Result] is a function to [outcome], whose
    [Panic] stands for failed indexing, [unwrap] and checked arithmetic; a
    method with [&mut self] is an [ST] computation on a record with the fields
    of the struct.  Integers are [Z] with their wrap-around written out
    ([wrap], [swrap], [add_w]); additions that could overflow depend on the
    build profile ([BuildProfile]).  A stream is the list of what its coming
    reads will give - pieces of data of any size, errors, and then the end -
    and of what was written to it, so theorems hold however the peer cuts its
    bytes.  Third-party code is a class: [PlistLib], [Tls], [SerdeJson],
    [JsonLib], the keys and signatures of [PairingEnv] and [RpCrypto]; the
    operating system is [Os], [Sys], [Host] and [WallClock], the local file
    systems [LocalFs] and [Files], HTTP and processes [MountEnv] and [Web], the
    terminal and its tables [Terminal], the iteration order of hash maps
    [HashOrder], the smoltcp crate [TcpStack], and the stack as its users see it
    [TunnelStack].  Unicode lower case ([to_lowercase]), the [Debug] text of a
    string ([debug_str]), the text of an IPv6 address ([ipv6_text]) and sorting by
    an order that is none ([sort_unordered]) are arguments.
    Threads are steps that interleave: where a theorem does not quantify over all
    their sequences, a command has the order of its threads as an argument (a
    schedule), and the passing of a deadline is a choice of the schedule.
    Each class with laws has a small instance that shows that they can hold, and
    that the witnesses use.

    Names are those of the source; a prefix keeps apart methods of the same
    name ([conn_list_devices] is [Connection::list_devices]).

    ** Files and theorems

    - [UsbmuxCodec]: frames are decoded alike however the bytes arrive, tags
      stay in range, a connect is answered at most once.
    - [UsbmuxConn]: what a blocking call returns is determined by the bytes of
      the peer; what [open_tunnel] loses.
    - [UsbmuxSim]: client and daemon together list exactly the devices.
    - [Xpc]: round trip of messages; what a decoded message guarantees; the
      inputs on which the decoder panics.
    - [H2], [RemoteXpc], [Rsd]: frames, reassembly of messages from frames with
      the answers sent meanwhile, requests and every way in which they end, the
      handshake, the service table, the relay of bytes.
    - [Lockdown]: request and reply, the upgrade to TLS and what it leaves
      behind when it fails, the life of a session.
    - [Der]: lengths, object identifiers, dates, base64 and PEM against reference
      decoders.  [Pairing]: what an X.509 and a PKCS#7 reader find in what is
      built, and the outcome of [pair], [pair_supervised] and [unpair] on every
      answer of the device.
    - [Afc]: packets and single operations; [read_file] and [put_file] against
      a device that accepts, and one that refuses; every transfer ends.
    - [Services]: request and response for every kind of receiver, the listing
      of applications over several packets, the screenshot exchange; browsing,
      installing and uninstalling end.
    - [Text]: characters, white space and the splitting of lines into words.
      [Syslog]: the entries handed on are those of the bytes received, however
      they are cut; a line of the usual format is read back.
    - [Version], [CdTunnel], [Tlv8]: parsing and printing of versions, the
      tunnel handshake and its packets, the TLV encoding.
    - [RpCredentials]: hexadecimal text, the credential files.  [RpSession]:
      pair-verify against a device that checks the signature, SRP pairing with the
      proof of the very device, the keys of an open session, encrypted requests,
      each of which is sealed with a nonce of its own.
    - [Tunnel], [DeviceSession]: what an open tunnel and an open session are,
      which mode the environment leaves, when the automatic mode fails, the
      attempts of the wait for the daemon, the request to it, the check-in of
      shim services.
    - [Daemon]: threads as sequences of phases, one use of the shared map each; for
      every interleaving the first tunnel of a device stays, what a client is
      connected to belongs to the device and the service of its request; a client
      is served in the steps of its own thread, whichever service it asks for;
      client and daemon together.
    - [Smoltcp]: in every interleaving of packets, requests and turns of the
      loop nothing panics and a request is answered once; a turn keeps the order
      of the bytes of a connection if the pipe writes whole pieces, and what is
      lost when the connection is dropped in it; what is repeated and lost if the
      pipe writes less.
    - [Dtx]: messages and their fragments.
    - [DtxConn]: each critical section of the connection is an action, the
      interleavings of the threads are the sequences of actions; an invariant
      of all reachable states gives that replies reach their call and come from
      the stream, that the reader blocks on nothing but a full queue, and what
      follows when it does.
    - [Archive]: what is archived is read back by the decoder; the decoder ends
      on archives without circles; the process list.  [Launch]: what the service
      finds in the request, in whatever order its maps are iterated.
    - [Xctest]: in every interleaving of the threads the requests of a run come
      in their order and with their arguments, each after the one before has
      succeeded, and the test plan is started at most once; when the deadlines of
      its waits have passed, the main thread returns within a bound, whatever the
      other threads do.
    - [OsLog]: the entries of the documented layout that are selected are
      printed, one line each and in order; the loop ends; which level each name
      of a level selects.
    - [Mounter]: the exchange that mounts an image, whether the device has kept
      its ticket or not, and the contents of the request for a ticket.
    - [Provision]: certificates in files are read back, the percent encoding of
      the activation request is undone by its decoder, what the servers of the
      activation and the device are told.
    - [Float]: the binary64 operations the commands use, on the bits of a number,
      with their decimal texts.  [Output]: sorting is a sorted permutation, the
      document of a property list reads back as its values.
    - [FileCmd]: the listing of a directory has the entries of the device, each
      once and in order.  [Commands]: one line for every event of [watch], for
      every notification, for every selected line of the log; what a relay
      copies; these loops end.
    - [Apps]: what the service of applications reads in a request; the list is a
      sorted permutation of the reply; a test run never reports failure, and a
      test through the daemon is refused.
    - [Dialog]: in every interleaving the calls on the connection are those the
      program makes by itself, and it goes on with the replies to its own calls,
      which have been read from the stream.
      [Instruments]: the requests for the list of processes, which is made from the
      reply to the last of them; a picture that is saved begins as a PNG file does.  [Perf]: a sample comes
      from one message of the device; where its numbers overflow and its names
      panic.
    - [Results], [Main]: what is printed for the daemon's answer, and for the
      events of usbmuxd, on the standard output of the program.

    ** Fuel

    Loops that are not structural take fuel, always computed from the state:
    the number of events of a stream for [read_exact], the bytes left to read
    for loops that read a message or a response in every turn, the length of
    the buffer for decoders that take bytes in every turn.  For each of them a
    lemma shows that it suffices, mostly by excluding [OutOfFuel] from the
    result.  Recursion on the archives of instruments has a depth as its
    argument, since the code does not end on archives with circles; loops that
    wait for messages until a deadline, and the monitor that never ends, have the
    number of their turns.

    ** Not modelled

    The parsers of arguments, which the clap crate derives; the crypto provider;
    what is written to standard error; the commands' effects on the terminal when
    they end ([CursorGuard]).  The result of a command that fails does not have
    what it had printed before, but for [watch], and an XML writer that fails
    leaves nothing behind.  Clones of sockets succeed, but for those of
    external streams.  Memory is not bounded: [Vec::with_capacity] and
    [HashMap::with_capacity] with the count that an XPC array or dictionary
    declares (src/xpc/codec.rs, lines 164 and 179) can ask for more than there is,
    which ends the program.  The writers of [DtxConn] are the streams under their
    [BufWriter]: every write is flushed at once, so the bytes are the same until a
    write fails, after which the buffer keeps what was not written and the model
    drops it.  In [DtxConn] the acknowledgements of one fragmented message
    are written in one action, although another thread's frame may come between
    two of them.

    This file has what all the others share: outcomes, integers and their
    bytes, slices, association lists, the tactics and hint databases. *)

From Stdlib Require Export ZArith Lia Strings.Byte.
From stdpp Require Import countable.
From stdpp Require Export base tactics option strings list_numbers list.

Open Scope Z_scope.

(** ** Outcomes

    What a Rust call can do: return [Ok], return [Err], or panic (an index out
    of range, a failed [unwrap], an arithmetic overflow).  [OutOfFuel] is not a
    behaviour of the program: it marks a fuelled definition that was given too
    little fuel, and every fuelled definition has a theorem excluding it. *)
Inductive outcome (E A : Type) : Type :=
  | Ok (a : A)
  | Err (e : E)
  | Panic
  | OutOfFuel.
Arguments Ok {E A} a.
Arguments Err {E A} e.
Arguments Panic {E A}.
Arguments OutOfFuel {E A}.

Definition obind {E A B} (m : outcome E A) (k : A → outcome E B) : outcome E B :=
  match m with
  | Ok a => k a
  | Err e => Err e
  | Panic => Panic
  | OutOfFuel => OutOfFuel
  end.

Definition omap_err {E F A} (f : E → F) (m : outcome E A) : outcome F A :=
  match m with
  | Ok a => Ok a
  | Err e => Err (f e)
  | Panic => Panic
  | OutOfFuel => OutOfFuel
  end.

Definition ok_or {E A} (o : option A) (e : E) : outcome E A :=
  match o with Some a => Ok a | None => Err e end.

(** [unwrap] of an option, or an index expression: [None] panics. *)
Definition or_panic {E A} (o : option A) : outcome E A :=
  match o with Some a => Ok a | None => Panic end.

Definition is_ok {E A} (m : outcome E A) : bool :=
  match m with Ok _ => true | _ => false end.

(** [Result::ok] *)
Definition to_option {E A} (m : outcome E A) : option A :=
  match m with Ok a => Some a | _ => None end.

Declare Scope rs_scope.
Delimit Scope rs_scope with rs.
Notation "'let?' p ':=' m 'in' k" :=
  (obind m (λ p, k))
  (at level 10, p strict pattern, m at level 200, k at level 200) : rs_scope.
Open Scope rs_scope.

Lemma obind_Ok_inv {E A B} (m : outcome E A) (k : A → outcome E B) b :
  obind m k = Ok b → ∃ a, m = Ok a ∧ k a = Ok b.
Proof. destruct m; simpl; try discriminate. eauto. Qed.

Lemma ok_or_Ok {E A} (o : option A) (e : E) a : ok_or o e = Ok a → o = Some a.
Proof. destruct o; simpl; congruence. Qed.
Lemma omap_err_Ok_inv {E F A} (f : E → F) (m : outcome E A) a :
  omap_err f m = Ok a → m = Ok a.
Proof. destruct m; simpl; congruence. Qed.

(** Splits every [obind]/[ok_or]/[or_panic] that is known to have succeeded. *)
Ltac inv_ok :=
  repeat match goal with
  | H : obind _ _ = Ok _ |- _ =>
      apply obind_Ok_inv in H; destruct H as (? & ? & H)
  | H : omap_err _ _ = Ok _ |- _ => apply omap_err_Ok_inv in H
  | H : Ok _ = Ok _ |- _ => injection H as H
  | H : Err _ = Ok _ |- _ => discriminate H
  | H : Panic = Ok _ |- _ => discriminate H
  | H : OutOfFuel = Ok _ |- _ => discriminate H
  end; simplify_eq/=.

(** Excluding [OutOfFuel]: the hint database [fuel] walks through a
    computation whose fuelled parts are known to have enough. *)
Lemma obind_fuel {E A B} (m : outcome E A) (k : A → outcome E B) :
  m ≠ OutOfFuel → (∀ a, m = Ok a → k a ≠ OutOfFuel) → obind m k ≠ OutOfFuel.
Proof. destruct m; simpl; try done. eauto. Qed.
Lemma ok_or_fuel {E A} (o : option A) (e : E) : ok_or o e ≠ OutOfFuel.
Proof. by destruct o. Qed.
Lemma or_panic_fuel {E A} (o : option A) : or_panic (E:=E) o ≠ OutOfFuel.
Proof. by destruct o. Qed.
Lemma omap_err_fuel {E F A} (f : E → F) (m : outcome E A) :
  m ≠ OutOfFuel → omap_err f m ≠ OutOfFuel.
Proof. by destruct m. Qed.
Lemma Ok_fuel {E A} (a : A) : Ok (E:=E) a ≠ OutOfFuel.
Proof. done. Qed.
Lemma Err_fuel {E A} (e : E) : Err (A:=A) e ≠ OutOfFuel.
Proof. done. Qed.
Lemma Panic_fuel {E A} : @Panic E A ≠ OutOfFuel.
Proof. done. Qed.

Create HintDb fuel.
#[export] Hint Resolve obind_fuel ok_or_fuel or_panic_fuel omap_err_fuel Ok_fuel Err_fuel
  Panic_fuel : fuel.

(** ** Build profile

    Rust arithmetic overflow panics when overflow checks are compiled in (the
    debug profile) and wraps around otherwise (the release profile).  The
    definitions that can overflow take the profile as an instance argument and
    their theorems hold for both. *)
Class BuildProfile := overflow_checks : bool.

Definition debug_profile : BuildProfile := true.
Definition release_profile : BuildProfile := false.

Definition add_w `{BuildProfile} {E} (w a b : Z) : outcome E Z :=
  if a + b <? 2 ^ w then Ok (a + b)
  else if overflow_checks then Panic else Ok ((a + b) mod 2 ^ w).

Definition mul_w `{BuildProfile} {E} (w a b : Z) : outcome E Z :=
  if a * b <? 2 ^ w then Ok (a * b)
  else if overflow_checks then Panic else Ok ((a * b) mod 2 ^ w).

Abbreviation usize_add := (add_w 64).
Abbreviation u32_add := (add_w 32).
Abbreviation u64_add := (add_w 64).

Lemma add_w_ok `{BuildProfile} {E} w a b :
  a + b < 2 ^ w → add_w (E:=E) w a b = Ok (a + b).
Proof. intros. unfold add_w. by rewrite (proj2 (Z.ltb_lt _ _)). Qed.

Lemma mul_w_ok `{BuildProfile} {E} w a b :
  a * b < 2 ^ w → mul_w (E:=E) w a b = Ok (a * b).
Proof. intros. unfold mul_w. by rewrite (proj2 (Z.ltb_lt _ _)). Qed.

Lemma add_w_fuel `{BuildProfile} {E} w a b : add_w (E:=E) w a b ≠ OutOfFuel.
Proof. unfold add_w. by repeat case_match. Qed.
#[export] Hint Resolve add_w_fuel : fuel.

(** [as u16], [as u32], [as u64], [as i32], [as i64]: truncation, and two's
    complement for the signed types. *)
Definition wrap (w z : Z) : Z := z mod 2 ^ w.
Definition swrap (w z : Z) : Z := (z + 2 ^ (w - 1)) mod 2 ^ w - 2 ^ (w - 1).

Definition in_u (w z : Z) : Prop := 0 ≤ z < 2 ^ w.
Definition in_i (w z : Z) : Prop := - 2 ^ (w - 1) ≤ z < 2 ^ (w - 1).

#[export] Instance in_u_dec w z : Decision (in_u w z).
Proof. unfold in_u. apply _. Defined.
#[export] Instance in_i_dec w z : Decision (in_i w z).
Proof. unfold in_i. apply _. Defined.

Lemma wrap_small w z : in_u w z → wrap w z = z.
Proof. intros. apply Z.mod_small, H. Qed.

Lemma wrap_range w z : 0 ≤ w → in_u w (wrap w z).
Proof. intros. apply Z.mod_pos_bound. lia. Qed.

Lemma swrap_wrap w z : 0 < w → in_i w z → swrap w (wrap w z) = z.
Proof.
  unfold in_i, swrap, wrap. intros Hw Hz.
  assert (2 ^ w = 2 * 2 ^ (w - 1)) as Hp.
  { replace w with (Z.succ (w - 1)) at 1 by lia. rewrite Z.pow_succ_r; lia. }
  rewrite Zplus_mod_idemp_l, Z.mod_small by lia. lia.
Qed.
Lemma swrap_small w z : 0 < w → in_i w z → swrap w z = z.
Proof.
  unfold in_i, swrap. intros Hw Hz.
  assert (2 ^ w = 2 * 2 ^ (w - 1)) as Hp.
  { replace w with (Z.succ (w - 1)) at 1 by lia. rewrite Z.pow_succ_r; lia. }
  rewrite Z.mod_small by lia. lia.
Qed.

(** Or-ing into cleared low bits is adding. *)
Lemma lor_shiftl a b n : 0 ≤ n → 0 ≤ b < 2 ^ n → Z.lor (Z.shiftl a n) b = a * 2 ^ n + b.
Proof.
  intros Hn Hb. rewrite <-Z.shiftl_mul_pow2 by done.
  pose proof (Z.add_lor_land (Z.shiftl a n) b) as Hadd.
  assert (Z.land (Z.shiftl a n) b = 0) as Hl; [|lia].
  apply Z.bits_inj'. intros i Hi. rewrite Z.land_spec, Z.bits_0.
  destruct (decide (i < n)).
  - rewrite Z.shiftl_spec_low by lia. done.
  - replace b with (b mod 2 ^ n) by (by apply Z.mod_small).
    rewrite Z.mod_pow2_bits_high by lia. apply andb_false_r.
Qed.

(** ** Bytes and byte-order conversions *)

#[export] Instance byte_eq_decision : EqDecision byte := byte_eq_dec.
Bind Scope byte_scope with byte.

Definition u8 (b : byte) : Z := Z.of_N (Byte.to_N b).

(** [as u8] *)
Definition byte_of (z : Z) : byte :=
  default x00 (Byte.of_N (Z.to_N (z mod 256))).

Lemma u8_range b : 0 ≤ u8 b < 256.
Proof. unfold u8. pose proof (Byte.to_N_bounded b). lia. Qed.

Lemma u8_byte_of z : u8 (byte_of z) = z mod 256.
Proof.
  unfold u8, byte_of. pose proof (Z.mod_pos_bound z 256).
  destruct (Byte.of_N (Z.to_N (z mod 256))) eqn:E; simpl.
  - apply Byte.to_of_N in E. rewrite E. lia.
  - apply Byte.of_N_None_iff in E. lia.
Qed.

Lemma u8_inj b c : u8 b = u8 c → b = c.
Proof.
  unfold u8. intros H%N2Z.inj.
  pose proof (Byte.of_to_N b). pose proof (Byte.of_to_N c). congruence.
Qed.

Lemma byte_of_u8 b : byte_of (u8 b) = b.
Proof.
  apply u8_inj. rewrite u8_byte_of. apply Z.mod_small, u8_range.
Qed.

Lemma byte_of_mod z : byte_of (z mod 256) = byte_of z.
Proof. unfold byte_of. by rewrite Zmod_mod. Qed.

(** [to_le_bytes] of an [n]-byte integer, and [from_le_bytes]. *)
Fixpoint le_bytes (n : nat) (z : Z) : list byte :=
  match n with
  | O => []
  | S n => byte_of z :: le_bytes n (z / 256)
  end.

Fixpoint le_val (l : list byte) : Z :=
  match l with
  | [] => 0
  | b :: l => u8 b + 256 * le_val l
  end.

(** [to_be_bytes] and [from_be_bytes]. *)
Definition be_bytes (n : nat) (z : Z) : list byte := reverse (le_bytes n z).
Definition be_val (l : list byte) : Z := le_val (reverse l).

Lemma length_le_bytes n z : length (le_bytes n z) = n.
Proof. revert z. induction n as [|n IH]; intros z; simpl; [done|by rewrite IH]. Qed.

Lemma le_bytes_lookup n t i :
  (i < n)%nat → le_bytes n t !! i = Some (byte_of (t / 256 ^ Z.of_nat i)).
Proof.
  revert t i. induction n as [|n IH]; intros t i Hi; [lia|]. destruct i as [|i]; cbn [le_bytes].
  - change (256 ^ Z.of_nat 0) with 1. by rewrite Z.div_1_r.
  - cbn. rewrite IH by lia. rewrite Nat2Z.inj_succ, Z.pow_succ_r, Z.div_div by lia. done.
Qed.

Lemma length_be_bytes n z : length (be_bytes n z) = n.
Proof. unfold be_bytes. by rewrite length_reverse, length_le_bytes. Qed.

Lemma le_val_nonneg l : 0 ≤ le_val l.
Proof.
  induction l as [|b l IH]; simpl; [lia|]. pose proof (u8_range b). lia.
Qed.

Lemma le_val_bound l : le_val l < 256 ^ Z.of_nat (length l).
Proof.
  induction l as [|b l IH]; cbn [le_val length]; [lia|].
  rewrite Nat2Z.inj_succ, Z.pow_succ_r by lia. pose proof (u8_range b). lia.
Qed.

Lemma le_val_le_bytes n z : le_val (le_bytes n z) = z mod 256 ^ Z.of_nat n.
Proof.
  revert z. induction n as [|n IH]; intros z; cbn [le_val le_bytes].
  - by rewrite Z.mod_1_r.
  - rewrite IH, u8_byte_of, Nat2Z.inj_succ, Z.pow_succ_r by lia.
    by rewrite Z.rem_mul_r by lia.
Qed.

Lemma le_bytes_le_val l : le_bytes (length l) (le_val l) = l.
Proof.
  induction l as [|b l IH]; cbn [le_val le_bytes length]; [done|].
  pose proof (u8_range b). f_equal.
  - rewrite <-byte_of_mod. rewrite Z.mul_comm, Z_mod_plus_full, byte_of_mod.
    apply byte_of_u8.
  - rewrite Z.mul_comm, Z_div_plus_full by lia.
    by rewrite Z.div_small by lia.
Qed.

Lemma be_val_be_bytes n z : be_val (be_bytes n z) = z mod 256 ^ Z.of_nat n.
Proof. unfold be_val, be_bytes. by rewrite reverse_involutive, le_val_le_bytes. Qed.

Lemma be_bytes_be_val l : be_bytes (length l) (be_val l) = l.
Proof.
  unfold be_val, be_bytes.
  rewrite <-(length_reverse l), le_bytes_le_val. apply reverse_involutive.
Qed.

Lemma pow256 n : 256 ^ Z.of_nat n = 2 ^ (8 * Z.of_nat n).
Proof. rewrite Z.pow_mul_r by lia. done. Qed.

Lemma le_val_u (n : nat) w l :
  w = 8 * Z.of_nat n → length l = n → in_u w (le_val l).
Proof.
  intros -> <-. split; [apply le_val_nonneg|].
  rewrite <-pow256. apply le_val_bound.
Qed.

Lemma be_bytes_mod n z : be_bytes n (z mod 256 ^ Z.of_nat n) = be_bytes n z.
Proof. by rewrite <-be_val_be_bytes, <-(length_be_bytes n z) at 1; rewrite be_bytes_be_val. Qed.
Lemma be_bytes_wrap z : be_bytes 4 (wrap 32 z) = be_bytes 4 z.
Proof. exact (be_bytes_mod 4 z). Qed.
Lemma be_val_u (n : nat) w l :
  w = 8 * Z.of_nat n → length l = n → in_u w (be_val l).
Proof.
  intros ? <-. apply (le_val_u (length l)); [done|]. apply length_reverse.
Qed.

Lemma le_val_le_bytes_small n z :
  in_u (8 * Z.of_nat n) z → le_val (le_bytes n z) = z.
Proof. intros. rewrite le_val_le_bytes, pow256. by apply Z.mod_small. Qed.

Lemma be_val_be_bytes_small n z :
  in_u (8 * Z.of_nat n) z → be_val (be_bytes n z) = z.
Proof. intros. rewrite be_val_be_bytes, pow256. by apply Z.mod_small. Qed.

Lemma be_val_cons b l : be_val (b :: l) = u8 b * 256 ^ Z.of_nat (length l) + be_val l.
Proof.
  unfold be_val. rewrite reverse_cons, <-(length_reverse l).
  generalize (reverse l). intros k. induction k as [|c k IH]; cbn [app le_val length].
  - change (256 ^ Z.of_nat 0) with 1. lia.
  - rewrite IH, Nat2Z.inj_succ, Z.pow_succ_r by lia. lia.
Qed.

Lemma be_val_range l : 0 ≤ be_val l < 256 ^ Z.of_nat (length l).
Proof.
  unfold be_val. rewrite <-(length_reverse l). split; [apply le_val_nonneg|apply le_val_bound].
Qed.

Lemma be_val_3 a b c :
  be_val [a; b; c] = Z.lor (Z.lor (Z.shiftl (u8 a) 16) (Z.shiftl (u8 b) 8)) (u8 c).
Proof.
  pose proof (u8_range a). pose proof (u8_range b). pose proof (u8_range c).
  assert (Z.lor (Z.shiftl (u8 a) 16) (Z.shiftl (u8 b) 8) =
    Z.shiftl (u8 a * 256 + u8 b) 8) as ->.
  { replace (Z.shiftl (u8 a) 16) with (Z.shiftl (Z.shiftl (u8 a) 8) 8)
      by (by rewrite Z.shiftl_shiftl by lia).
    rewrite <-Z.shiftl_lor, lor_shiftl by lia. done. }
  rewrite lor_shiftl by lia. unfold be_val, reverse. simpl. lia.
Qed.

(** Goals about the [nat] lengths of byte strings. *)
Create Rewrite HintDb nlen.
#[export] Hint Rewrite @length_app length_le_bytes length_be_bytes @length_take
  @length_drop @length_cons @length_nil @length_replicate : nlen.
Ltac nlen := autorewrite with nlen; lia.

(** From here on the conversions are reasoned about through their lemmas. *)
#[global] Opaque le_bytes le_val be_bytes be_val.

(** ** Slices

    Positions and lengths that come from the wire are [Z] (a [usize]); a slice
    expression is only turned into list operations once it is known to be in
    range, as in Rust. *)
Definition lenZ {A} (l : list A) : Z := Z.of_nat (length l).

(** [buf.get(a..b)] *)
Definition get_slice {A} (buf : list A) (a b : Z) : option (list A) :=
  if bool_decide (0 ≤ a ∧ a ≤ b ∧ b ≤ lenZ buf) then
    Some (take (Z.to_nat (b - a)) (drop (Z.to_nat a) buf))
  else None.

(** [buf.get(i)] *)
Definition get_at {A} (buf : list A) (i : Z) : option A :=
  if bool_decide (0 ≤ i < lenZ buf) then buf !! Z.to_nat i else None.

(** [&buf[a..b]] and [buf[i]]: panic when out of range. *)
Definition slice {E A} (buf : list A) (a b : Z) : outcome E (list A) :=
  or_panic (get_slice buf a b).
Definition index {E A} (buf : list A) (i : Z) : outcome E A :=
  or_panic (get_at buf i).

Lemma lenZ_nil {A} : lenZ (@nil A) = 0.
Proof. done. Qed.
Lemma lenZ_cons {A} (x : A) l : lenZ (x :: l) = 1 + lenZ l.
Proof. unfold lenZ. simpl. lia. Qed.
Lemma lenZ_app {A} (l k : list A) : lenZ (l ++ k) = lenZ l + lenZ k.
Proof. unfold lenZ. rewrite length_app. lia. Qed.
Lemma lenZ_nonneg {A} (l : list A) : 0 ≤ lenZ l.
Proof. unfold lenZ. lia. Qed.
Lemma lenZ_le_bytes n z : lenZ (le_bytes n z) = Z.of_nat n.
Proof. unfold lenZ. by rewrite length_le_bytes. Qed.
Lemma lenZ_be_bytes n z : lenZ (be_bytes n z) = Z.of_nat n.
Proof. unfold lenZ. by rewrite length_be_bytes. Qed.
Lemma lenZ_replicate {A} n (x : A) : lenZ (replicate n x) = Z.of_nat n.
Proof. unfold lenZ. by rewrite length_replicate. Qed.
Lemma lenZ_0_nil {A} (l : list A) : lenZ l = 0 → l = [].
Proof. destruct l; [done|]. rewrite lenZ_cons. pose proof (lenZ_nonneg l). lia. Qed.

Create Rewrite HintDb len.
#[export] Hint Rewrite @lenZ_nil @lenZ_cons @lenZ_app lenZ_le_bytes lenZ_be_bytes
  @lenZ_replicate : len.

(** Arithmetic goals about lengths. *)
Ltac len_hyps :=
  repeat match goal with
  | |- context [lenZ ?l] =>
      lazymatch goal with
      | _ : 0 ≤ lenZ l |- _ => fail
      | _ => pose proof (lenZ_nonneg l)
      end
  | _ : context [lenZ ?l] |- _ =>
      lazymatch goal with
      | _ : 0 ≤ lenZ l |- _ => fail
      | _ => pose proof (lenZ_nonneg l)
      end
  end.
Ltac len := autorewrite with len in *; len_hyps; lia.

(** Evaluates the comparisons of the goal that the hypotheses decide. *)
Ltac zcmp :=
  repeat match goal with
  | |- context [?a <? ?b] =>
      first [rewrite (proj2 (Z.ltb_lt a b)) by len|rewrite (proj2 (Z.ltb_ge a b)) by len]
  | |- context [?a <=? ?b] =>
      first [rewrite (proj2 (Z.leb_le a b)) by len|rewrite (proj2 (Z.leb_gt a b)) by len]
  | |- context [?a =? ?b] =>
      first [rewrite (proj2 (Z.eqb_eq a b)) by len|rewrite (proj2 (Z.eqb_neq a b)) by len]
  end.

(** Turns the boolean comparisons of the hypotheses into propositions. *)
Ltac zhyps :=
  repeat match goal with
  | H : (_ <? _) = true |- _ => apply Z.ltb_lt in H
  | H : (_ <? _) = false |- _ => apply Z.ltb_ge in H
  | H : (_ <=? _) = true |- _ => apply Z.leb_le in H
  | H : (_ <=? _) = false |- _ => apply Z.leb_gt in H
  | H : (_ =? _) = true |- _ => apply Z.eqb_eq in H
  | H : (_ =? _) = false |- _ => apply Z.eqb_neq in H
  | H : (_ || _) = false |- _ => apply orb_false_iff in H as [? ?]
  | H : (_ && _) = true |- _ => apply andb_true_iff in H as [? ?]
  end.

Lemma get_slice_Some {A} (buf l : list A) a b :
  get_slice buf a b = Some l →
  0 ≤ a ∧ a ≤ b ∧ b ≤ lenZ buf ∧ lenZ l = b - a.
Proof.
  unfold get_slice. case_bool_decide as H; [|done]. intros [= <-].
  repeat split; try lia. unfold lenZ in *.
  rewrite length_take, length_drop. lia.
Qed.

(** The slice of a concatenation that covers exactly the middle part. *)
Lemma get_slice_mid {A} (pre l post : list A) a b :
  a = lenZ pre → b = lenZ pre + lenZ l →
  get_slice (pre ++ l ++ post) a b = Some l.
Proof.
  intros -> ->. unfold get_slice. rewrite bool_decide_true by len.
  replace (lenZ pre + lenZ l - lenZ pre) with (lenZ l) by lia.
  unfold lenZ. rewrite !Nat2Z.id.
  by rewrite drop_app_length, take_app_length.
Qed.

Lemma get_slice_prefix {A} (l post : list A) b :
  b = lenZ l → get_slice (l ++ post) 0 b = Some l.
Proof. intros ->. by apply (get_slice_mid []). Qed.

Lemma get_slice_suffix {A} (pre l : list A) a b :
  a = lenZ pre → b = lenZ pre + lenZ l → get_slice (pre ++ l) a b = Some l.
Proof. intros. rewrite <-(app_nil_r l) at 1. by apply get_slice_mid. Qed.

Lemma get_slice_app_l {A} (l k : list A) a b :
  b ≤ lenZ l → get_slice (l ++ k) a b = get_slice l a b.
Proof.
  intros. unfold get_slice. case_bool_decide as H1; case_bool_decide as H2;
    [|exfalso; len..|done].
  f_equal. unfold lenZ in *. rewrite drop_app_le by lia.
  rewrite take_app_le by (rewrite length_drop; lia). done.
Qed.

Lemma get_at_mid {A} (pre : list A) x post i :
  i = lenZ pre → get_at (pre ++ x :: post) i = Some x.
Proof.
  intros ->. unfold get_at. rewrite bool_decide_true by len.
  unfold lenZ. rewrite Nat2Z.id. by apply list_lookup_middle.
Qed.

Lemma get_slice_too_long {A} (buf : list A) a b :
  lenZ buf < b → get_slice buf a b = None.
Proof. intros. unfold get_slice. by rewrite bool_decide_false by lia. Qed.

Lemma get_slice_take {A} (buf t s : list A) a n :
  get_slice buf a (lenZ buf) = Some t → get_slice buf a (a + n) = Some s →
  s = take (Z.to_nat n) t.
Proof.
  unfold get_slice. case_bool_decide; [|done]. case_bool_decide; [|done].
  intros [= <-] [= <-]. replace (a + n - a) with n by lia.
  rewrite take_take. f_equal. unfold lenZ in *. lia.
Qed.

Lemma slice_ok {E A} (buf l : list A) a b :
  slice (E:=E) buf a b = Ok l → get_slice buf a b = Some l.
Proof. unfold slice. destruct (get_slice buf a b); simpl; congruence. Qed.

Lemma slice_fuel {E A} (buf : list A) a b : slice (E:=E) buf a b ≠ OutOfFuel.
Proof. apply or_panic_fuel. Qed.
Lemma index_fuel {E A} (buf : list A) i : index (E:=E) buf i ≠ OutOfFuel.
Proof. apply or_panic_fuel. Qed.
#[export] Hint Resolve slice_fuel index_fuel : fuel.

(** [has_at buf pos l]: the bytes of [buf] from [pos] on begin with [l]. *)
Definition has_at {A} (buf : list A) (pos : Z) (l : list A) : Prop :=
  ∃ pre post, buf = pre ++ l ++ post ∧ pos = lenZ pre.

Lemma has_at_0 {A} (l post : list A) : has_at (l ++ post) 0 l.
Proof. by exists [], post. Qed.

Lemma has_at_intro {A} (pre l post : list A) pos :
  pos = lenZ pre → has_at (pre ++ l ++ post) pos l.
Proof. intros ->. by exists pre, post. Qed.

Lemma has_at_app {A} (buf : list A) pos l1 l2 :
  has_at buf pos (l1 ++ l2) → has_at buf pos l1 ∧ has_at buf (pos + lenZ l1) l2.
Proof.
  intros (pre & post & -> & ->). split.
  - exists pre, (l2 ++ post). by rewrite <-(assoc_L (++)).
  - exists (pre ++ l1), post. split; [by rewrite <-!(assoc_L (++))|len].
Qed.

Lemma has_at_cons {A} (buf : list A) pos x l :
  has_at buf pos (x :: l) → get_at buf pos = Some x ∧ has_at buf (pos + 1) l.
Proof.
  intros (pre & post & -> & ->). split; [by apply get_at_mid|].
  exists (pre ++ [x]), post. split; [by rewrite <-(assoc_L (++))|len].
Qed.

Lemma has_at_slice {A} (buf l : list A) pos b :
  has_at buf pos l → b = pos + lenZ l → get_slice buf pos b = Some l.
Proof. intros (pre & post & -> & ->) ->. by apply get_slice_mid. Qed.

Lemma has_at_tail {A} (buf l : list A) pos :
  has_at buf pos l → ∃ post, get_slice buf pos (lenZ buf) = Some (l ++ post).
Proof.
  intros (pre & post & -> & ->). exists post. apply get_slice_suffix; len.
Qed.

Lemma has_at_le {A} (buf l : list A) pos :
  has_at buf pos l → 0 ≤ pos ∧ pos + lenZ l ≤ lenZ buf.
Proof. intros (pre & post & -> & ->). split; len. Qed.

Lemma get_slice_drop {A} (l : list A) : get_slice l 0 (lenZ l) = Some l.
Proof. rewrite <-(app_nil_r l) at 1. by apply get_slice_prefix. Qed.

(** Adds up the constants of a position. *)
Ltac closed_sums H :=
  change (Z.of_nat 2) with 2 in H; change (Z.of_nat 4) with 4 in H;
  change (Z.of_nat 8) with 8 in H;
  repeat match type of H with
  | context [?a + ?b] =>
      lazymatch isZcst a with true =>
        lazymatch isZcst b with true =>
          let r := eval vm_compute in (a + b) in change (a + b) with r in H
        end
      end
  end.

Lemma has_at_le_bytes buf pos n v l :
  has_at buf pos (le_bytes n v ++ l) →
  get_slice buf pos (pos + Z.of_nat n) = Some (le_bytes n v) ∧ has_at buf (pos + Z.of_nat n) l.
Proof.
  intros [H1 H2]%has_at_app. rewrite lenZ_le_bytes in H2. split; [|done].
  apply (has_at_slice _ _ _ _ H1). by rewrite lenZ_le_bytes.
Qed.

(** Reads the next little-endian field of [H] in the goal. *)
Ltac next_field H :=
  let H1 := fresh in
  apply has_at_le_bytes in H as [H1 H];
  closed_sums H; closed_sums H1; rewrite H1; clear H1.

(** [saturating_sub] on unsigned integers. *)
Definition saturating_sub (a b : Z) : Z := Z.max 0 (a - b).

(** [slice::chunks]: maximal pieces of [n] elements, the last one shorter. *)
Fixpoint chunks_fuel {A} (fuel n : nat) (l : list A) : list (list A) :=
  match fuel, l with
  | _, [] => []
  | O, _ => []
  | S fuel, _ => take n l :: chunks_fuel fuel n (drop n l)
  end.
Definition chunks {A} (n : nat) (l : list A) : list (list A) :=
  chunks_fuel (length l) n l.

Lemma concat_chunks_fuel {A} fuel n (l : list A) :
  (0 < n)%nat → (length l ≤ fuel)%nat → concat (chunks_fuel fuel n l) = l.
Proof.
  intros Hn. revert l. induction fuel as [|fuel IH]; intros l Hl.
  - destruct l; [done|simpl in Hl; lia].
  - destruct l as [|x l]; [done|].
    change (take n (x :: l) ++ concat (chunks_fuel fuel n (drop n (x :: l))) = x :: l).
    rewrite IH; [apply take_drop|]. rewrite length_drop. simpl in *. lia.
Qed.

Lemma concat_chunks {A} n (l : list A) : (0 < n)%nat → concat (chunks n l) = l.
Proof. intros. by apply concat_chunks_fuel. Qed.

Lemma chunks_fuel_spec {A} fuel n (l c : list A) :
  (0 < n)%nat → (length l ≤ fuel)%nat → c ∈ chunks_fuel fuel n l →
  (0 < length c ≤ n)%nat.
Proof.
  intros Hn. revert l. induction fuel as [|fuel IH]; intros l Hl Hc.
  - destruct l; simpl in Hc; by apply not_elem_of_nil in Hc.
  - destruct l as [|x l]; [by apply not_elem_of_nil in Hc|].
    apply elem_of_cons in Hc as [->|Hc].
    + rewrite length_take. simpl. lia.
    + eapply IH, Hc. rewrite length_drop. simpl in *. lia.
Qed.

Lemma chunks_spec {A} n (l c : list A) :
  (0 < n)%nat → c ∈ chunks n l → (0 < length c ≤ n)%nat.
Proof. intros Hn. by apply chunks_fuel_spec. Qed.

(** ** Maps as association lists

    [plist::Dictionary] keeps its entries in insertion order, and a [HashMap]
    that is iterated is represented by its entries in the order the iteration
    visits them; in both cases a key occurs once.  [al_insert] replaces the
    value of a key that is present and appends a key that is not. *)
Section alist.
Context {K : Type} `{EqDecision K} {V : Type}.
Implicit Types l : list (K * V).

Fixpoint al_lookup (k : K) l : option V :=
  match l with
  | [] => None
  | (k', v) :: l => if decide (k = k') then Some v else al_lookup k l
  end.

Fixpoint al_insert (k : K) (v : V) l : list (K * V) :=
  match l with
  | [] => [(k, v)]
  | (k', v') :: l =>
      if decide (k = k') then (k, v) :: l else (k', v') :: al_insert k v l
  end.

Fixpoint al_remove (k : K) l : list (K * V) :=
  match l with
  | [] => []
  | (k', v') :: l =>
      if decide (k = k') then l else (k', v') :: al_remove k l
  end.

Definition al_keys l : list K := l.*1.
Definition al_wf l : Prop := NoDup (al_keys l).

(** Equality of maps: the same value for every key. *)
Definition al_equiv l1 l2 : Prop := ∀ k, al_lookup k l1 = al_lookup k l2.

#[export] Instance al_equiv_equivalence : Equivalence al_equiv.
Proof.
  split; unfold al_equiv.
  - done.
  - intros ?? H ?. by rewrite H.
  - intros ??? H1 H2 ?. by rewrite H1.
Qed.

Lemma al_lookup_insert_eq k v l : al_lookup k (al_insert k v l) = Some v.
Proof.
  induction l as [|[k' v'] l IH]; simpl; [by rewrite decide_True|].
  case_decide as H; simpl; [by rewrite decide_True|by rewrite decide_False].
Qed.

Lemma al_lookup_insert_ne k k' v l :
  k ≠ k' → al_lookup k' (al_insert k v l) = al_lookup k' l.
Proof.
  intros. induction l as [|[k'' v''] l IH]; simpl; [by rewrite decide_False|].
  case_decide; simplify_eq/=; [by rewrite !decide_False by done|].
  by rewrite IH.
Qed.

Lemma al_lookup_insert k k' v l :
  al_lookup k' (al_insert k v l) =
    if decide (k = k') then Some v else al_lookup k' l.
Proof.
  case_decide; subst; [apply al_lookup_insert_eq|by apply al_lookup_insert_ne].
Qed.

#[export] Instance al_insert_proper k v :
  Proper (al_equiv ==> al_equiv) (al_insert k v).
Proof. intros l1 l2 H k'. rewrite !al_lookup_insert. by case_decide. Qed.

Lemma al_lookup_None k l : al_lookup k l = None ↔ k ∉ al_keys l.
Proof.
  induction l as [|[k' v] l IH]; simpl; [by split; [intros _ ?%not_elem_of_nil|]|].
  rewrite not_elem_of_cons. case_decide; subst; [naive_solver|]. by rewrite IH; naive_solver.
Qed.

Lemma al_insert_fresh k v l : k ∉ al_keys l → al_insert k v l = l ++ [(k, v)].
Proof.
  induction l as [|[k' v'] l IH]; simpl; [done|].
  rewrite not_elem_of_cons. intros [? ?]. rewrite decide_False by done.
  by rewrite IH.
Qed.

Lemma al_keys_insert_elem k v l k' :
  k' ∈ al_keys (al_insert k v l) ↔ k' = k ∨ k' ∈ al_keys l.
Proof.
  induction l as [|[k'' v''] l IH]; simpl.
  - by rewrite list_elem_of_singleton, elem_of_nil; naive_solver.
  - case_decide; subst; simpl; rewrite !elem_of_cons; [naive_solver|].
    rewrite IH. naive_solver.
Qed.

Lemma al_insert_wf k v l : al_wf l → al_wf (al_insert k v l).
Proof.
  unfold al_wf. induction l as [|[k' v'] l IH]; simpl.
  - intros _. apply NoDup_singleton.
  - intros [Hni Hnd]%NoDup_cons. case_decide; subst; simpl.
    + by apply NoDup_cons.
    + apply NoDup_cons. split; [|auto]. rewrite al_keys_insert_elem. naive_solver.
Qed.

Lemma al_lookup_elem k v l : al_wf l → (k, v) ∈ l → al_lookup k l = Some v.
Proof.
  unfold al_wf. induction l as [|[k' v'] l IH]; simpl.
  - by intros _ ?%not_elem_of_nil.
  - intros [Hni Hnd]%NoDup_cons [[= <- <-]|Hin]%elem_of_cons.
    + by rewrite decide_True.
    + rewrite decide_False; [auto|]. intros ->. apply Hni.
      by apply (list_elem_of_fmap_2' fst _ (k', v)).
Qed.

Lemma al_lookup_Some_elem k v l : al_lookup k l = Some v → (k, v) ∈ l.
Proof.
  induction l as [|[k' v'] l IH]; simpl; [done|].
  rewrite elem_of_cons. case_decide; naive_solver.
Qed.

(** Two iteration orders of one map are the same map. *)
Lemma al_permutation_equiv l1 l2 : al_wf l1 → l1 ≡ₚ l2 → al_equiv l1 l2.
Proof.
  intros Hwf Hp k.
  assert (al_wf l2) as Hwf2.
  { unfold al_wf, al_keys in *. by rewrite <-Hp. }
  destruct (al_lookup k l1) as [v|] eqn:E.
  - apply al_lookup_Some_elem in E. symmetry. apply al_lookup_elem; [done|].
    by rewrite <-Hp.
  - symmetry. apply al_lookup_None. apply al_lookup_None in E.
    unfold al_keys in *. by rewrite <-Hp.
Qed.
End alist.
Arguments al_equiv {K _ V} l1 l2.

(** ** Messages

    A formatted error message is kept as its format string and its arguments,
    which determine the text. *)
Inductive fmt_arg : Type :=
  | FStr (s : string)
  | FNum (z : Z)
  | FHex (z : Z)
  | FBytes (l : list byte)
  | FOpt (o : option Z)
  | FMsg (template : string) (args : list fmt_arg).
Record message : Type := Msg { template : string; args : list fmt_arg }.
Definition msg0 (s : string) : message := Msg s [].
(** A value formatted through its own [Display]. *)
Definition FDisplay (m : message) : fmt_arg := FMsg (template m) (args m).

(** A Rust string or byte literal as its UTF-8 bytes, and back. *)
Abbreviation bytes_of := String.list_byte_of_string.
Abbreviation string_of := String.string_of_list_byte.

Lemma string_of_bytes_of s : string_of (bytes_of s) = s.
Proof. apply String.string_of_list_byte_of_string. Qed.
Lemma bytes_of_string_of l : bytes_of (string_of l) = l.
Proof. apply String.list_byte_of_string_of_list_byte. Qed.
#[export] Hint Rewrite string_of_bytes_of bytes_of_string_of : len.

Lemma length_bytes_of s : length (bytes_of s) = String.length s.
Proof.
  unfold bytes_of. induction s as [|a s IH]; [done|]. simpl. by rewrite <-IH.
Qed.
