(* ===== verification/RustStd.v ===== *)
(** * Parts of the Rust standard library the sources use

    UTF-8 validation ([std::str::from_utf8], [String::from_utf8_lossy]),
    integer parsing ([str::parse], [from_str_radix]), splitting, and integer
    formatting ([{}], [{:02}], [{:02x}]). *)

From S2P Require Import Prelude.

(** ** UTF-8 *)

(** One step over a byte string: a valid character of [n] bytes, or [n] bytes
    that begin no valid character (the maximal invalid prefix). *)
Inductive utf8_item : Type :=
  | Utf8Char (n : nat)
  | Utf8Bad (n : nat).

Definition between (a b : Z) (l : list byte) (i : nat) : bool :=
  match l !! i with
  | Some x => (a <=? u8 x) && (u8 x <=? b)
  | None => false
  end.

Definition cont (l : list byte) (i : nat) : bool := between 128 191 l i.

Definition utf8_step (l : list byte) : option utf8_item :=
  match l with
  | [] => None
  | b :: _ =>
      let c := u8 b in
      Some (
        if c <? 128 then Utf8Char 1
        else if (194 <=? c) && (c <=? 223) then
          if cont l 1 then Utf8Char 2 else Utf8Bad 1
        else if (224 <=? c) && (c <=? 239) then
          let ok := if c =? 224 then between 160 191 l 1
                    else if c =? 237 then between 128 159 l 1
                    else cont l 1 in
          if negb ok then Utf8Bad 1
          else if cont l 2 then Utf8Char 3 else Utf8Bad 2
        else if (240 <=? c) && (c <=? 244) then
          let ok := if c =? 240 then between 144 191 l 1
                    else if c =? 244 then between 128 143 l 1
                    else cont l 1 in
          if negb ok then Utf8Bad 1
          else if negb (cont l 2) then Utf8Bad 2
          else if cont l 3 then Utf8Char 4 else Utf8Bad 3
        else Utf8Bad 1)
  end.

Fixpoint utf8_valid_fuel (fuel : nat) (l : list byte) : bool :=
  match fuel with
  | O => bool_decide (l = [])
  | S fuel =>
      match utf8_step l with
      | None => true
      | Some (Utf8Char n) => utf8_valid_fuel fuel (drop n l)
      | Some (Utf8Bad _) => false
      end
  end.

(** Every step consumes at least one byte, so the length is fuel enough. *)
Definition utf8_valid (l : list byte) : bool := utf8_valid_fuel (length l) l.

(** [std::str::from_utf8(l).ok()], with [to_owned] *)
Definition from_utf8 (l : list byte) : option string :=
  if utf8_valid l then Some (string_of l) else None.

(** U+FFFD *)
Definition replacement_char : list byte := [xef; xbf; xbd]%byte.

Fixpoint utf8_lossy_fuel (fuel : nat) (l : list byte) : list byte :=
  match fuel with
  | O => []
  | S fuel =>
      match utf8_step l with
      | None => []
      | Some (Utf8Char n) => take n l ++ utf8_lossy_fuel fuel (drop n l)
      | Some (Utf8Bad n) => replacement_char ++ utf8_lossy_fuel fuel (drop n l)
      end
  end.

(** [String::from_utf8_lossy] *)
Definition from_utf8_lossy (l : list byte) : string :=
  string_of (utf8_lossy_fuel (length l) l).

(** The contents of a Rust [String]. *)
Definition utf8_string (s : string) : Prop := utf8_valid (bytes_of s) = true.
#[export] Instance utf8_string_dec s : Decision (utf8_string s).
Proof. unfold utf8_string. apply _. Defined.

Lemma from_utf8_string s : utf8_string s → from_utf8 (bytes_of s) = Some s.
Proof. unfold from_utf8. intros ->. by rewrite string_of_bytes_of. Qed.

Lemma from_utf8_Some l s : from_utf8 l = Some s → l = bytes_of s ∧ utf8_string s.
Proof.
  unfold from_utf8, utf8_string. destruct (utf8_valid l) eqn:E; [|done].
  intros [= <-]. by rewrite bytes_of_string_of.
Qed.

Lemma utf8_lossy_valid_fuel fuel l :
  utf8_valid_fuel fuel l = true → utf8_lossy_fuel fuel l = l.
Proof.
  revert l. induction fuel as [|fuel IH]; intros l; simpl.
  - by intros ->%bool_decide_eq_true.
  - destruct (utf8_step l) as [[n|n]|] eqn:E; [|done|].
    + intros H. by rewrite IH, take_drop.
    + intros _. destruct l; done.
Qed.

(** On valid UTF-8 the lossy conversion loses nothing. *)
Lemma from_utf8_lossy_string s :
  utf8_string s → from_utf8_lossy (bytes_of s) = s.
Proof.
  intros H. unfold from_utf8_lossy. rewrite utf8_lossy_valid_fuel by done.
  apply string_of_bytes_of.
Qed.

Lemma utf8_valid_ascii l :
  Forall (λ b, u8 b < 128) l → utf8_valid l = true.
Proof.
  unfold utf8_valid. induction 1 as [|b l Hb _ IH]; [done|].
  cbn [length utf8_valid_fuel utf8_step]. rewrite (proj2 (Z.ltb_lt _ _) Hb).
  done.
Qed.

(** ** Parsing integers *)

Definition digit_val (radix : Z) (b : byte) : option Z :=
  let c := u8 b in
  let d := if (48 <=? c) && (c <=? 57) then Some (c - 48)
           else if (97 <=? c) && (c <=? 122) then Some (c - 97 + 10)
           else if (65 <=? c) && (c <=? 90) then Some (c - 65 + 10)
           else None in
  match d with
  | Some n => if n <? radix then Some n else None
  | None => None
  end.

Fixpoint parse_digits (radix max acc : Z) (l : list byte) : option Z :=
  match l with
  | [] => Some acc
  | b :: l =>
      match digit_val radix b with
      | None => None
      | Some d =>
          let acc := acc * radix + d in
          if acc <=? max then parse_digits radix max acc l else None
      end
  end.

(** [uN::from_str_radix(s, radix).ok()]: an optional [+], then one or more
    digits whose value does not exceed the maximum of the type. *)
Definition from_str_radix (w radix : Z) (l : list byte) : option Z :=
  let digits := match l with
                | "+"%byte :: l => l
                | _ => l
                end in
  match digits with
  | [] => None
  | _ => parse_digits radix (2 ^ w - 1) 0 digits
  end.

(** [s.parse::<uN>().ok()] *)
Definition parse_uint (w : Z) (s : string) : option Z :=
  from_str_radix w 10 (bytes_of s).

Lemma parse_digits_range radix max acc l n :
  0 ≤ acc ≤ max → 0 < radix → parse_digits radix max acc l = Some n → 0 ≤ n ≤ max.
Proof.
  intros Hacc Hr. revert acc Hacc. induction l as [|b l IH]; intros acc Hacc; simpl.
  - congruence.
  - destruct (digit_val radix b) as [d|] eqn:Hd; [|done].
    case_match eqn:Hle; [|done]. apply IH. apply Z.leb_le in Hle.
    assert (0 ≤ d) as Hd0.
    { unfold digit_val in Hd. repeat case_match; simplify_eq; lia. }
    nia.
Qed.

Lemma parse_uint_range w s n : 0 ≤ w → parse_uint w s = Some n → in_u w n.
Proof.
  unfold parse_uint, from_str_radix, in_u. intros Hw H.
  assert (0 < 2 ^ w) by (apply Z.pow_pos_nonneg; lia).
  assert (∀ l, parse_digits 10 (2 ^ w - 1) 0 l = Some n → 0 ≤ n < 2 ^ w) as Hp.
  { intros l Hl. apply parse_digits_range in Hl; lia. }
  repeat case_match; try done; eauto.
Qed.

(** ** Splitting *)

(** [l.split(p)]: the (possibly empty) pieces between the separators. *)
Fixpoint split_on {A} (p : A → bool) (l : list A) : list (list A) :=
  match l with
  | [] => [[]]
  | b :: l =>
      if p b then [] :: split_on p l
      else match split_on p l with
           | [] => [[b]]
           | h :: t => (b :: h) :: t
           end
  end.

Definition is_nul (b : byte) : bool := bool_decide (b = x00).

Lemma split_on_none {A} (p : A → bool) l : Forall (λ b, p b = false) l → split_on p l = [l].
Proof. induction 1 as [|b l Hb _ IH]; simpl; [done|]. by rewrite Hb, IH. Qed.

Lemma split_on_app {A} (p : A → bool) l b k :
  Forall (λ b, p b = false) l → p b = true →
  split_on p (l ++ b :: k) = l :: split_on p k.
Proof.
  intros Hl Hb. induction Hl as [|c l Hc _ IH]; simpl; [by rewrite Hb|].
  by rewrite Hc, IH.
Qed.

(** A string without NUL characters. *)
Definition no_nul (s : string) : Prop := Forall (λ b, is_nul b = false) (bytes_of s).
#[export] Instance no_nul_dec s : Decision (no_nul s).
Proof. unfold no_nul. apply _. Defined.

(** [s.contains(p)] *)
Fixpoint contains_sub (p l : list byte) : bool :=
  bool_decide (take (length p) l = p)
  || match l with [] => false | _ :: l => contains_sub p l end.

(** ** Paths *)

(** [Path::join] on Unix *)
Definition path_join (p e : string) : string :=
  match bytes_of e with
  | "/"%byte :: _ => e
  | _ =>
      match last (bytes_of p) with
      | None | Some "/"%byte => string_of (bytes_of p ++ bytes_of e)
      | _ => string_of (bytes_of p ++ "/"%byte :: bytes_of e)
      end
  end.

(** ** Formatting integers *)

(** [{}] on an unsigned integer *)
Fixpoint dec_fuel (fuel : nat) (n : Z) (acc : list byte) : list byte :=
  let acc := byte_of (48 + n mod 10) :: acc in
  if n <? 10 then acc
  else match fuel with
       | O => acc
       | S fuel => dec_fuel fuel (n / 10) acc
       end.
Definition dec (n : Z) : list byte := dec_fuel (Z.to_nat (Z.log2 n)) n [].

(** [{:02}] *)
Definition dec02 (n : Z) : list byte :=
  if n <? 10 then byte_of 48 :: dec n else dec n.

Definition hex_digit (upper : bool) (n : Z) : byte :=
  byte_of (if n <? 10 then 48 + n else (if upper then 55 else 87) + n).

(** [{:02x}] and [{:02X}] on a byte *)
Definition hex02 (upper : bool) (b : byte) : list byte :=
  [hex_digit upper (u8 b / 16); hex_digit upper (u8 b mod 16)].

Lemma u8_byte_of_small z : 0 ≤ z < 256 → u8 (byte_of z) = z.
Proof. intros. rewrite u8_byte_of. by apply Z.mod_small. Qed.

Lemma hex02_inj up b c : hex02 up b = hex02 up c → b = c.
Proof.
  assert (∀ n m, 0 ≤ n < 16 → 0 ≤ m < 16 → hex_digit up n = hex_digit up m → n = m) as Hd.
  { intros n m Hn Hm. unfold hex_digit. intros He%(f_equal u8). revert He. rewrite !u8_byte_of.
    destruct up; repeat case_match; zhyps; rewrite !Z.mod_small; lia. }
  unfold hex02. intros [= H1 H2]. pose proof (u8_range b). pose proof (u8_range c).
  apply Hd in H1; [|split; [apply Z.div_pos; lia|apply Z.div_lt_upper_bound; lia]..].
  apply Hd in H2; [|apply Z.mod_pos_bound; lia..].
  apply u8_inj. pose proof (Z_div_mod_eq_full (u8 b) 16). pose proof (Z_div_mod_eq_full (u8 c) 16).
  lia.
Qed.

Lemma digit_val_dec d : 0 ≤ d < 10 → digit_val 10 (byte_of (48 + d)) = Some d.
Proof.
  intros. unfold digit_val. rewrite u8_byte_of_small by lia.
  rewrite (proj2 (Z.leb_le 48 _)), (proj2 (Z.leb_le _ 57)) by lia. simpl.
  replace (48 + d - 48) with d by lia. by rewrite (proj2 (Z.ltb_lt d 10)) by lia.
Qed.

Lemma parse_digits_dec_fuel max fuel n acc :
  0 ≤ n ≤ max → n < 2 ^ Z.of_nat (S fuel) →
  parse_digits 10 max 0 (dec_fuel fuel n acc) = parse_digits 10 max n acc.
Proof.
  revert n acc. induction fuel as [|fuel IH]; intros n acc Hn Hf;
    pose proof (Z.mod_pos_bound n 10); pose proof (Z_div_mod_eq_full n 10).
  - assert (n < 10) by (simpl in Hf; lia).
    simpl. rewrite (proj2 (Z.ltb_lt n 10)) by lia. cbn [parse_digits].
    rewrite digit_val_dec, Z.mod_small by lia.
    by rewrite (proj2 (Z.leb_le _ max)) by lia.
  - cbn [dec_fuel]. case_match eqn:E; cbn [parse_digits].
    + apply Z.ltb_lt in E. rewrite digit_val_dec, Z.mod_small by lia.
      by rewrite (proj2 (Z.leb_le _ max)) by lia.
    + apply Z.ltb_ge in E.
      rewrite IH; [|split; [apply Z.div_pos; lia|apply Z.div_le_upper_bound; lia]|].
      2:{ rewrite Nat2Z.inj_succ, Z.pow_succ_r in Hf by lia.
          apply Z.div_lt_upper_bound; lia. }
      cbn [parse_digits]. rewrite digit_val_dec by lia.
      replace (n / 10 * 10 + n mod 10) with n by lia.
      by rewrite (proj2 (Z.leb_le _ max)) by lia.
Qed.

Lemma dec_fuel_head fuel n acc :
  0 ≤ n → ∃ d t, 0 ≤ d < 10 ∧ dec_fuel fuel n acc = byte_of (48 + d) :: t.
Proof.
  revert n acc. induction fuel as [|fuel IH]; intros n acc Hn;
    pose proof (Z.mod_pos_bound n 10); cbn [dec_fuel].
  - case_match; eauto 10 with lia.
  - case_match; [eauto 10 with lia|]. apply IH. apply Z.div_pos; lia.
Qed.

(** Parsing inverts formatting. *)
Lemma from_str_radix_dec w n : in_u w n → from_str_radix w 10 (dec n) = Some n.
Proof.
  unfold in_u. intros Hn. unfold from_str_radix, dec.
  destruct (dec_fuel_head (Z.to_nat (Z.log2 n)) n [] ltac:(lia)) as (d & t & Hd & E).
  assert (parse_digits 10 (2 ^ w - 1) 0 (byte_of (48 + d) :: t) = Some n) as Hp.
  { rewrite <-E. rewrite parse_digits_dec_fuel; [done|lia|].
    rewrite Nat2Z.inj_succ, Z2Nat.id by apply Z.log2_nonneg.
    destruct (decide (n = 0)) as [->|]; [done|]. apply Z.log2_spec. lia. }
  rewrite E.
  assert (d = 0 ∨ d = 1 ∨ d = 2 ∨ d = 3 ∨ d = 4 ∨ d = 5 ∨ d = 6 ∨ d = 7 ∨ d = 8 ∨ d = 9)
    as Hds by lia.
  by destruct_or! Hds; subst d.
Qed.

(** ** Parsing IPv6 addresses

    [s.parse::<Ipv6Addr>()]: the recursive-descent parser of [std::net], on the
    bytes not yet consumed.  An address is its eight 16-bit groups. *)

(** [read_number(radix, Some(max_digits), allow_zero_prefix)] *)
Fixpoint read_digits (radix max : Z) (fuel : nat) (acc : Z) (n : nat) (l : list byte) :
    option (Z * nat * list byte) :=
  match l with
  | [] => Some (acc, n, [])
  | b :: l' =>
      match digit_val radix b with
      | None => Some (acc, n, l)
      | Some d =>
          match fuel with
          | O => None
          | S fuel =>
              let acc := acc * radix + d in
              if acc <=? max then read_digits radix max fuel acc (S n) l' else None
          end
      end
  end.

Definition read_number (radix max : Z) (max_digits : nat) (allow_zero_prefix : bool)
    (l : list byte) : option (Z * list byte) :=
  match read_digits radix max max_digits 0 0 l with
  | None | Some (_, O, _) => None
  | Some (acc, n, l') =>
      if negb allow_zero_prefix && bool_decide (head l = Some "0"%byte) && (1 <? n)%nat
      then None else Some (acc, l')
  end.

(** [read_given_char] and [read_separator] *)
Definition read_char (c : byte) (l : list byte) : option (list byte) :=
  match l with
  | b :: l => if decide (b = c) then Some l else None
  | [] => None
  end.

Definition read_separator {A} (sep : byte) (index : nat)
    (inner : list byte → option (A * list byte)) (l : list byte) : option (A * list byte) :=
  match index with
  | O => inner l
  | S _ => l ← read_char sep l; inner l
  end.

Definition read_ipv4 (l : list byte) : option ((Z * Z * Z * Z) * list byte) :=
  let octet := read_number 10 255 3 false in
  r1 ← read_separator "."%byte 0 octet l;
  r2 ← read_separator "."%byte 1 octet r1.2;
  r3 ← read_separator "."%byte 2 octet r2.2;
  r4 ← read_separator "."%byte 3 octet r3.2;
  Some ((r1.1, r2.1, r3.1, r4.1), r4.2).

(** [read_groups] with [limit] slots, from slot [i] on: the groups, whether
    they end in an embedded IPv4 address, and the rest of the input. *)
Fixpoint read_groups (slots i : nat) (l : list byte) : list Z * bool * list byte :=
  match slots with
  | O => ([], false, l)
  | S slots =>
      let v4 := match slots with
                | O => None
                | S _ => read_separator ":"%byte i read_ipv4 l
                end in
      match v4 with
      | Some ((a, b, c, d), l) => ([256 * a + b; 256 * c + d], true, l)
      | None =>
          match read_separator ":"%byte i (read_number 16 65535 4 true) l with
          | Some (g, l) =>
              let '(gs, v4, l) := read_groups slots (S i) l in (g :: gs, v4, l)
          | None => ([], false, l)
          end
      end
  end.

Definition read_ipv6 (l : list byte) : option (list Z * list byte) :=
  let '(head, head_ipv4, l) := read_groups 8 0 l in
  if (length head =? 8)%nat then Some (head, l)
  else if head_ipv4 then None
  else
    l ← read_char ":"%byte l;
    l ← read_char ":"%byte l;
    let limit := (8 - (length head + 1))%nat in
    let '(tail, _, l) := read_groups limit 0 l in
    Some (head ++ replicate (8 - length head - length tail) 0 ++ tail, l).

Definition parse_ipv6 (s : string) : option (list Z) :=
  match read_ipv6 (bytes_of s) with
  | Some (addr, []) => Some addr
  | _ => None
  end.

Example parse_ipv6_full :
  parse_ipv6 "fd3e:c1:0:0:0:0:0:ff02" = Some [0xfd3e; 0xc1; 0; 0; 0; 0; 0; 0xff02].
Proof. reflexivity. Qed.
Example parse_ipv6_short : parse_ipv6 "fe80::1:2" = Some [0xfe80; 0; 0; 0; 0; 0; 1; 2].
Proof. reflexivity. Qed.
Example parse_ipv6_v4 : parse_ipv6 "::ffff:10.0.0.1" = Some [0; 0; 0; 0; 0; 0xffff; 0x0a00; 1].
Proof. reflexivity. Qed.
Example parse_ipv6_bad : parse_ipv6 "1:2:3" = None ∧ parse_ipv6 "1::2::3" = None.
Proof. split; reflexivity. Qed.

Lemma read_number_range radix max n z l g l' :
  0 < radix → 0 ≤ max → read_number radix max n z l = Some (g, l') → 0 ≤ g ≤ max.
Proof.
  intros Hr Hm. unfold read_number.
  destruct (read_digits radix max n 0 0 l) as [[[acc k] l0]|] eqn:E; [|done].
  intros Hg. assert (g = acc) as -> by (by destruct k; repeat case_match; simplify_eq).
  clear Hg. assert (∀ fuel acc0 k0 l, 0 ≤ acc0 ≤ max →
    read_digits radix max fuel acc0 k0 l = Some (acc, k, l0) → 0 ≤ acc ≤ max) as Hgen;
    [|by eapply (Hgen n 0 0%nat l); [lia|]].
  clear E. intros fuel. induction fuel as [|fuel IH]; intros acc0 k0 l1 Hacc;
    destruct l1 as [|b l1]; cbn [read_digits]; try (intros; by simplify_eq);
    destruct (digit_val radix b) as [d|] eqn:Hd; try (intros; by simplify_eq).
  case_match eqn:Hle; [|done]. apply IH. apply Z.leb_le in Hle.
  assert (0 ≤ d) as Hd0; [|nia].
  unfold digit_val in Hd. repeat case_match; simplify_eq; lia.
Qed.

Lemma read_ipv4_range l a b c d l' :
  read_ipv4 l = Some ((a, b, c, d), l') →
  (0 ≤ a ≤ 255 ∧ 0 ≤ b ≤ 255) ∧ 0 ≤ c ≤ 255 ∧ 0 ≤ d ≤ 255.
Proof.
  unfold read_ipv4, read_separator. intros H.
  repeat match goal with
  | H : mbind _ _ = Some _ |- _ => apply bind_Some in H as ([? ?] & ? & H)
  | H : mbind _ _ = Some _ |- _ => apply bind_Some in H as (? & ? & H)
  | H : read_number _ _ _ _ _ = Some _ |- _ => apply read_number_range in H; [|lia..]
  end.
  simpl in *. simplify_eq. lia.
Qed.

Lemma read_groups_ok slots i l :
  let '(gs, _, _) := read_groups slots i l in
  (length gs ≤ slots)%nat ∧ Forall (in_u 16) gs.
Proof.
  revert i l. induction slots as [|slots IH]; intros i l; cbn [read_groups]; [by split|].
  destruct (match slots with O => None | S _ => read_separator ":"%byte i read_ipv4 l end)
    as [p|] eqn:E.
  - destruct p as [[[[a b] c] d] l']. destruct slots; [done|].
    assert (∃ l0, read_ipv4 l0 = Some ((a, b, c, d), l')) as [l0 H0].
    { unfold read_separator in E. destruct i; [eauto|]. apply bind_Some in E as (? & _ & ?). eauto. }
    apply read_ipv4_range in H0. split; [simpl; lia|].
    repeat constructor; simpl; lia.
  - destruct (read_separator ":"%byte i (read_number 16 65535 4 true) l) as [p|] eqn:E2;
      [|by split; [simpl; lia|]]. destruct p as [g l'].
    specialize (IH (S i) l'). destruct (read_groups slots (S i) l') as [[gs v4] l1].
    destruct IH as [Hgl Hgf]. split; [simpl; lia|]. constructor; [|done].
    assert (∃ l0, read_number 16 65535 4 true l0 = Some (g, l')) as [l0 H0].
    { unfold read_separator in E2. destruct i; [eauto|]. apply bind_Some in E2 as (? & _ & ?). eauto. }
    apply read_number_range in H0; [|lia..]. unfold in_u. lia.
Qed.

(** Whatever is parsed is an address. *)
Lemma parse_ipv6_ok s addr :
  parse_ipv6 s = Some addr → length addr = 8%nat ∧ Forall (in_u 16) addr.
Proof.
  unfold parse_ipv6, read_ipv6. pose proof (read_groups_ok 8 0 (bytes_of s)) as Hh.
  destruct (read_groups 8 0 (bytes_of s)) as [[hd v4] l]. destruct Hh as [Hlen Hhd].
  destruct (length hd =? 8)%nat eqn:E8.
  { apply Nat.eqb_eq in E8. case_match; [|done]. intros [= <-]. done. }
  apply Nat.eqb_neq in E8. destruct v4; [done|].
  destruct (read_char ":" l) as [l1|]; [|done]. simpl.
  destruct (read_char ":" l1) as [l2|]; [|done]. simpl.
  pose proof (read_groups_ok (8 - (length hd + 1)) 0 l2) as Ht.
  destruct (read_groups (8 - (length hd + 1)) 0 l2) as [[tl v4'] l3]. destruct Ht as [Htl Hft].
  case_match; [|done]. intros [= <-]. split.
  - rewrite !length_app, length_replicate. lia.
  - rewrite !Forall_app. split_and!; [done| |done].
    apply Forall_replicate. unfold in_u. lia.
Qed.
