(* ===== verification/Io.v ===== *)
(** * Byte streams and the state monad

    [std::io::Read] and [std::io::Write] as the sources use them, the state
    monad in which the stateful code is written, and the [read_exact] loop
    that seven of the source files carry a copy of. *)

From S2P Require Import Prelude.

(** ** State and outcome *)

Definition ST (S E A : Type) : Type := S → outcome E A * S.

Definition sret {S E A} (a : A) : ST S E A := λ s, (Ok a, s).
Definition sbind {S E A B} (m : ST S E A) (k : A → ST S E B) : ST S E B :=
  λ s, match m s with
       | (Ok a, s) => k a s
       | (Err e, s) => (Err e, s)
       | (Panic, s) => (Panic, s)
       | (OutOfFuel, s) => (OutOfFuel, s)
       end.
Definition sfail {S E A} (e : E) : ST S E A := λ s, (Err e, s).
Definition lift {S E A} (m : outcome E A) : ST S E A := λ s, (m, s).
(** [map_err], and the [From] conversion of the [?] operator. *)
Definition smap_err {S E F A} (f : E → F) (m : ST S E A) : ST S F A :=
  λ s, let '(r, s) := m s in (omap_err f r, s).
(** The outcome as a value: the scrutinee of a [match] on a [Result]. *)
Definition stry {S E F A} (m : ST S E A) : ST S F (E + A) :=
  λ s, match m s with
       | (Ok a, s) => (Ok (inr a), s)
       | (Err e, s) => (Ok (inl e), s)
       | (Panic, s) => (Panic, s)
       | (OutOfFuel, s) => (OutOfFuel, s)
       end.
(** [let _ = m;]: run for the effect, ignore the result. *)
Definition signore {S E F A} (m : ST S E A) : ST S F unit :=
  λ s, match m s with
       | (Ok _, s) | (Err _, s) => (Ok tt, s)
       | (Panic, s) => (Panic, s)
       | (OutOfFuel, s) => (OutOfFuel, s)
       end.
Definition smodify {S E} (f : S → S) : ST S E unit := λ s, (Ok tt, f s).
Definition sget {S E} : ST S E S := λ s, (Ok s, s).
(** Run an operation on a component of the state. *)
Definition zoom {S T E A} (get : S → T) (put : T → S → S) (m : ST T E A) : ST S E A :=
  λ s, let '(r, t) := m (get s) in (r, put t s).

Notation "'let!' p ':=' m 'in' k" :=
  (sbind m (λ p, k))
  (at level 10, p strict pattern, m at level 200, k at level 200) : rs_scope.
Notation "m ';;;' k" := (sbind m (λ _, k))
  (at level 100, right associativity) : rs_scope.

(** ** Streams *)

Inductive io_kind : Type :=
  | UnexpectedEof
  | WouldBlock
  | TimedOut
  | InvalidInput
  | Unsupported
  | Interrupted
  | BrokenPipe
  | ConnectionReset
  | InvalidData
  | OtherKind (n : Z).
#[export] Instance io_kind_eq_dec : EqDecision io_kind.
Proof. solve_decision. Defined.

Record io_error : Type := IoError { kind : io_kind; what : string }.

(** What the peer and the operating system will do, one event per read: hand
    over some bytes, or fail.  [RData []] is a read that returns 0.  When the
    events are used up every read returns 0, the end of the stream. *)
Inductive rd_event : Type :=
  | RData (l : list byte)
  | RFail (e : io_error).

(** [wq] decides the fate of the coming writes and flushes, [None] being
    success; when it is empty they all succeed. *)
Record stream : Type := Stream {
  rx : list rd_event;
  tx : list byte;
  wq : list (option io_error)
}.

(** A stream on which nothing has been written and no write will fail. *)
Definition idle (l : list rd_event) : stream := Stream l [] [].

Definition set_rx (l : list rd_event) (s : stream) : stream := Stream l (tx s) (wq s).

(** [s.read(&mut buf[..])] with [n] bytes of buffer *)
Definition read (n : Z) : ST stream io_error (list byte) := λ s,
  match rx s with
  | [] => (Ok [], s)
  | RFail e :: r => (Err e, set_rx r s)
  | RData c :: r =>
      if lenZ c <=? n then (Ok c, set_rx r s)
      else (Ok (take (Z.to_nat n) c), set_rx (RData (drop (Z.to_nat n) c) :: r) s)
  end.

Definition write_all (l : list byte) : ST stream io_error unit := λ s,
  match wq s with
  | [] => (Ok tt, Stream (rx s) (tx s ++ l) [])
  | None :: q => (Ok tt, Stream (rx s) (tx s ++ l) q)
  | Some e :: q => (Err e, Stream (rx s) (tx s) q)
  end.

Definition flush : ST stream io_error unit := λ s,
  match wq s with
  | [] => (Ok tt, s)
  | None :: q => (Ok tt, Stream (rx s) (tx s) q)
  | Some e :: q => (Err e, Stream (rx s) (tx s) q)
  end.

(** ** The [read_exact] loop

    <<
    let mut filled = 0;
    while filled < buf.len() {
        let n = s.read(&mut buf[filled..])?;
        if n == 0 { return Err(eof); }
        filled += n;
    }
    >>
    [wrap] is the conversion of the [?], [eof] the error of the closed stream;
    they are all that the copies in the sources differ in.  Every read uses up
    an event or fills the buffer, so one more iteration than there are events
    is enough ([read_exact_fuel_enough]). *)
Section read_exact.
Context {E : Type} (wrap : io_error → E) (eof : E).

Fixpoint read_loop (fuel : nat) (n : Z) (buf : list byte) : ST stream E (list byte) :=
  if lenZ buf <? n then
    match fuel with
    | O => lift OutOfFuel
    | S fuel =>
        let! c := smap_err wrap (read (n - lenZ buf)) in
        match c with
        | [] => sfail eof
        | _ => read_loop fuel n (buf ++ c)
        end
    end
  else sret buf.

Definition read_exact (n : Z) : ST stream E (list byte) :=
  λ s, read_loop (S (length (rx s))) n [] s.
End read_exact.

(** [delivers r l r']: the events [r] hand over the bytes [l], in pieces of
    any sizes, and [r'] is what comes after them. *)
Inductive delivers : list rd_event → list byte → list rd_event → Prop :=
  | delivers_nil r : delivers r [] r
  | delivers_cons c r l r' :
      c ≠ [] → delivers r l r' → delivers (RData c :: r) (c ++ l) r'.

Lemma delivers_inv r l r' :
  delivers r l r' →
  (l = [] ∧ r = r') ∨
  (∃ c r0 l0, c ≠ [] ∧ delivers r0 l0 r' ∧ r = RData c :: r0 ∧ l = c ++ l0).
Proof. inversion 1; [by left|right; eauto 10]. Qed.

Lemma delivers_one l r : l ≠ [] → delivers (RData l :: r) l r.
Proof. intros. rewrite <-(app_nil_r l) at 2. constructor; [done|constructor]. Qed.

Lemma delivers_app r1 r2 r3 l1 l2 :
  delivers r1 l1 r2 → delivers r2 l2 r3 → delivers r1 (l1 ++ l2) r3.
Proof.
  induction 1 as [|c r l r' Hc _ IH]; simpl; [done|].
  intros. rewrite <-(assoc_L (++)). constructor; auto.
Qed.

(** Any cutting of the bytes into non-empty pieces is a delivery. *)
Lemma delivers_pieces ls r :
  Forall (λ l, l ≠ []) ls → delivers ((RData <$> ls) ++ r) (concat ls) r.
Proof. induction 1; simpl; by constructor. Qed.

(** How much the peer still has to deliver: bounds the iterations of every
    loop that reads. *)
Definition rx_size (r : list rd_event) : nat :=
  sum_list_with (λ ev, match ev with RData l => S (length l) | RFail _ => 1%nat end) r.

Lemma read_delivers n s c r l r' :
  rx s = RData c :: r → c ≠ [] → delivers r l r' → 0 < n →
  ∃ c1 r1 l1,
    read n s = (Ok c1, set_rx r1 s) ∧ c1 ≠ [] ∧ lenZ c1 ≤ n ∧
    c ++ l = c1 ++ l1 ∧ delivers r1 l1 r' ∧
    (lenZ c1 = n ∨ r1 = r).
Proof.
  intros Hrx Hc Hd Hn. unfold read. rewrite Hrx.
  case_match eqn:E.
  - apply Z.leb_le in E. by exists c, r, l; repeat split; [..|right].
  - apply Z.leb_gt in E.
    assert (lenZ (take (Z.to_nat n) c) = n) as Hlen.
    { unfold lenZ in *. rewrite length_take. lia. }
    eexists _, _, (drop (Z.to_nat n) c ++ l). split; [done|].
    split_and!; [intros H; rewrite H in Hlen; unfold lenZ in Hlen; simpl in Hlen; lia| | | |by left].
    + lia.
    + by rewrite (assoc_L (++)), take_drop.
    + constructor; [|done]. intros H%(f_equal lenZ). unfold lenZ in *.
      rewrite length_drop in H. simpl in H. lia.
Qed.

Lemma set_rx_set_rx r1 r2 s : set_rx r1 (set_rx r2 s) = set_rx r1 s.
Proof. done. Qed.
Lemma set_rx_id s : set_rx (rx s) s = s.
Proof. by destruct s. Qed.

Section read_exact_spec.
Context {E : Type} (wrap : io_error → E) (eof : E).
Abbreviation read_loop := (read_loop wrap eof).
Abbreviation read_exact := (read_exact wrap eof).

(** A proper prefix of the delivery that fits is a prefix of the target. *)
Lemma app_split_le (c1 l1 l2 l3 : list byte) :
  l1 ++ l2 = c1 ++ l3 → lenZ c1 ≤ lenZ l1 → ∃ l4, l1 = c1 ++ l4 ∧ l3 = l4 ++ l2.
Proof.
  unfold lenZ. intros H Hle. apply app_eq_app in H as [k [[-> ->]|[-> ->]]]; [eauto|].
  exists []. rewrite length_app in Hle.
  assert (k = []) as -> by (apply length_zero_iff_nil; lia).
  by rewrite !app_nil_r.
Qed.

Lemma read_loop_delivers fuel n buf s l1 l2 r :
  delivers (rx s) (l1 ++ l2) r → n = lenZ buf + lenZ l1 →
  l1 = [] ∨ (length (rx s) ≤ fuel)%nat →
  ∃ r1, read_loop fuel n buf s = (Ok (buf ++ l1), set_rx r1 s) ∧ delivers r1 l2 r.
Proof.
  intros Hd Hn. subst n. revert buf s l1 Hd.
  induction fuel as [|fuel IH]; intros buf s l1 Hd Hf.
  all: destruct (decide (l1 = [])) as [->|Hl1];
    [exists (rx s); cbn [Io.read_loop]; rewrite (proj2 (Z.ltb_ge _ _)) by len;
     unfold sret; by rewrite app_nil_r, set_rx_id|].
  all: destruct Hf as [Hf|Hf]; [done|].
  all: apply delivers_inv in Hd as [[? _]|(c & r0 & l0 & Hc & Hd0 & Heq & Hcl)];
    [by destruct l1|rewrite Heq in Hf; simpl in Hf; try lia].
  assert (0 < lenZ l1) as Hpos by (destruct l1; [done|len]).
  cbn [Io.read_loop]. rewrite (proj2 (Z.ltb_lt _ _)) by lia.
  destruct (read_delivers (lenZ l1) s c r0 l0 r)
    as (c1 & r1 & l3 & Hr & Hc1 & Hle & Hcat & Hd1 & Hor); [done..|].
  unfold sbind, smap_err.
  replace (lenZ buf + lenZ l1 - lenZ buf) with (lenZ l1) by lia.
  rewrite Hr. simpl.
  rewrite <-Hcl in Hcat. apply app_split_le in Hcat as (l4 & -> & ->); [|done].
  destruct c1 as [|b c1]; [done|].
  destruct (IH (buf ++ b :: c1) (set_rx r1 s) l4) as (r2 & Hl & Hd2); [done| |].
  - destruct Hor as [Hor| ->]; [left; apply lenZ_0_nil; len|right; simpl; lia].
  - exists r2. replace (lenZ buf + lenZ ((b :: c1) ++ l4))
      with (lenZ (buf ++ b :: c1) + lenZ l4) by len. by rewrite Hl, <-(assoc_L (++)).
Qed.

(** However the peer cuts its bytes into pieces, [read_exact] returns the
    next [n] of them and leaves the others to be read. *)
Lemma read_exact_delivers n s l1 l2 r :
  delivers (rx s) (l1 ++ l2) r → n = lenZ l1 →
  ∃ r1, read_exact n s = (Ok l1, set_rx r1 s) ∧ delivers r1 l2 r.
Proof.
  intros Hd ->. unfold Io.read_exact.
  destruct (read_loop_delivers (S (length (rx s))) (lenZ l1) [] s l1 l2 r)
    as (r1 & ? & ?); [done|by len|right; lia|eauto].
Qed.

(** The stream ends before [n] bytes. *)
Lemma read_loop_eof fuel n buf s l :
  delivers (rx s) l [] → lenZ buf + lenZ l < n → (length (rx s) < fuel)%nat →
  read_loop fuel n buf s = (Err eof, set_rx [] s).
Proof.
  revert buf s l. induction fuel as [|fuel IH]; intros buf s l Hd Hn Hf; [lia|].
  cbn [Io.read_loop]. rewrite (proj2 (Z.ltb_lt _ _)) by len.
  unfold sbind, smap_err, read.
  apply delivers_inv in Hd as [[-> Heq]|(c & r0 & l0 & Hc & Hd0 & Heq & ->)]; rewrite Heq in *.
  - simpl. by rewrite <-Heq, set_rx_id.
  - rewrite (proj2 (Z.leb_le _ _)) by len. simpl.
    destruct c as [|b c]; [done|].
    rewrite (IH _ (set_rx r0 s) l0); [done|done|len|simpl in *; lia].
Qed.

Lemma read_exact_eof n s l :
  delivers (rx s) l [] → lenZ l < n → read_exact n s = (Err eof, set_rx [] s).
Proof. intros. eapply read_loop_eof; [done|len|lia]. Qed.

(** A read error before [n] bytes. *)
Lemma read_loop_fail fuel n buf s l e r :
  delivers (rx s) l (RFail e :: r) → lenZ buf + lenZ l < n →
  (length (rx s) < fuel)%nat →
  read_loop fuel n buf s = (Err (wrap e), set_rx r s).
Proof.
  revert buf s l. induction fuel as [|fuel IH]; intros buf s l Hd Hn Hf; [lia|].
  cbn [Io.read_loop]. rewrite (proj2 (Z.ltb_lt _ _)) by len.
  unfold sbind, smap_err, read.
  apply delivers_inv in Hd as [[-> Heq]|(c & r0 & l0 & Hc & Hd0 & Heq & ->)]; rewrite Heq in *.
  - done.
  - rewrite (proj2 (Z.leb_le _ _)) by len. simpl.
    destruct c as [|b c]; [done|].
    rewrite (IH _ (set_rx r0 s) l0); [done|done|len|simpl in *; lia].
Qed.

Lemma read_exact_fail n s l e r :
  delivers (rx s) l (RFail e :: r) → lenZ l < n →
  read_exact n s = (Err (wrap e), set_rx r s).
Proof. intros. eapply read_loop_fail; [done|len|lia]. Qed.

(** [read_exact] always returns, never panics, only touches the incoming
    side, and returns [n] bytes when it succeeds. *)
Definition read_result (n : Z) (s : stream) (res : outcome E (list byte) * stream) : Prop :=
  ∃ r1, res.2 = set_rx r1 s ∧ (rx_size r1 ≤ rx_size (rx s))%nat ∧
    match res.1 with
    | Ok l => lenZ l = n ∧ (0 < n → (rx_size r1 < rx_size (rx s))%nat)
    | Err _ => True
    | _ => False
    end.

Lemma read_loop_total fuel n buf s :
  lenZ buf ≤ n → lenZ buf = n ∨ (length (rx s) < fuel)%nat →
  ∃ r1, (read_loop fuel n buf s).2 = set_rx r1 s ∧ (rx_size r1 ≤ rx_size (rx s))%nat ∧
    match (read_loop fuel n buf s).1 with
    | Ok l => lenZ l = n ∧ (lenZ buf < n → (rx_size r1 < rx_size (rx s))%nat)
    | Err _ => True
    | _ => False
    end.
Proof.
  revert buf s. induction fuel as [|fuel IH]; intros buf s Hle Hf; cbn [Io.read_loop].
  - destruct Hf as [Hf|?]; [|lia]. rewrite (proj2 (Z.ltb_ge _ _)) by lia.
    exists (rx s). simpl. rewrite set_rx_id. split_and!; [done|lia|lia|lia].
  - case_match eqn:Elt;
      [|exists (rx s); apply Z.ltb_ge in Elt; simpl; rewrite set_rx_id;
        split_and!; [done|lia|lia|lia]].
    apply Z.ltb_lt in Elt. unfold sbind, smap_err, read.
    destruct (rx s) as [|[c|e] r] eqn:Erx.
    + exists []. rewrite <-(set_rx_id s), Erx. done.
    + destruct (lenZ c <=? n - lenZ buf) eqn:Ec; simpl.
      * apply Z.leb_le in Ec. destruct c as [|b c]; [exists r; simpl; split_and!; [done|lia|done]|].
        destruct (IH (buf ++ b :: c) (set_rx r s)) as (r1 & H1 & H2 & H3);
          [len|right; simpl in *; lia|].
        exists r1. simpl in *. split_and!; [done|lia|].
        destruct (read_loop fuel n (buf ++ b :: c) (set_rx r s)) as [[] ?]; simpl in *; try done.
        split; [tauto|]. intros. lia.
      * apply Z.leb_gt in Ec.
        destruct (take (Z.to_nat (n - lenZ buf)) c) as [|b c1] eqn:Et.
        { exfalso. apply (f_equal length) in Et. unfold lenZ in *.
          rewrite length_take in Et. simpl in Et. lia. }
        assert (lenZ (b :: c1) = n - lenZ buf) as Hl.
        { rewrite <-Et. unfold lenZ in *. rewrite length_take. lia. }
        destruct (IH (buf ++ b :: c1)
          (set_rx (RData (drop (Z.to_nat (n - lenZ buf)) c) :: r) s)) as (r1 & H1 & H2 & H3);
          [len|left; len|].
        exists r1. simpl in *. rewrite length_drop in H2. split_and!; [done|lia|].
        destruct (read_loop fuel n (buf ++ b :: c1) _) as [[] ?]; simpl in *; try done.
        split; [tauto|]. intros. unfold lenZ in *. lia.
    + exists r. simpl. split_and!; [done|lia|done].
Qed.

Lemma read_exact_total n s : 0 ≤ n → read_result n s (read_exact n s).
Proof.
  intros. destruct (read_loop_total (S (length (rx s))) n [] s) as (r1 & H1 & H2 & H3);
    [len|right; lia|]. exists r1. done.
Qed.

Corollary read_exact_fuel_enough n s :
  0 ≤ n → (read_exact n s).1 ≠ OutOfFuel ∧ (read_exact n s).1 ≠ Panic.
Proof.
  intros Hn. destruct (read_exact_total n s Hn) as (r1 & _ & _ & H).
  destruct (read_exact n s) as [[] ?]; simpl in *; done.
Qed.
End read_exact_spec.

(** ** Writes *)

(** No write or flush is going to fail. *)
Definition healthy (s : stream) : Prop := wq s = [].

Definition append_tx (l : list byte) (s : stream) : stream := Stream (rx s) (tx s ++ l) (wq s).

Lemma write_all_healthy l s : healthy s → write_all l s = (Ok tt, append_tx l s).
Proof. unfold healthy, write_all, append_tx. intros ->. done. Qed.
Lemma flush_healthy s : healthy s → flush s = (Ok tt, s).
Proof. unfold healthy, flush. by intros ->. Qed.

Lemma append_tx_app l1 l2 s : append_tx l2 (append_tx l1 s) = append_tx (l1 ++ l2) s.
Proof. unfold append_tx. simpl. by rewrite <-(assoc_L (++)). Qed.
Lemma append_tx_nil s : append_tx [] s = s.
Proof. unfold append_tx. rewrite app_nil_r. by destruct s. Qed.

(** Symbolic execution of stateful code. *)
Create Rewrite HintDb st.
#[export] Hint Rewrite @append_tx_app append_tx_nil set_rx_set_rx set_rx_id : st.

Lemma sbind_ok {S E A B} (m : ST S E A) (k : A → ST S E B) s a s' :
  m s = (Ok a, s') → sbind m k s = k a s'.
Proof. unfold sbind. by intros ->. Qed.
Lemma sbind_err {S E A B} (m : ST S E A) (k : A → ST S E B) s e s' :
  m s = (Err e, s') → sbind m k s = (Err e, s').
Proof. unfold sbind. by intros ->. Qed.
Lemma smap_err_ok {S E F A} (f : E → F) (m : ST S E A) s a s' :
  m s = (Ok a, s') → smap_err f m s = (Ok a, s').
Proof. unfold smap_err. by intros ->. Qed.
Lemma sbind_inv {S E A B} (m : ST S E A) (k : A → ST S E B) s b s' :
  sbind m k s = (Ok b, s') → ∃ a s1, m s = (Ok a, s1) ∧ k a s1 = (Ok b, s').
Proof.
  unfold sbind. destruct (m s) as [[a| | |] s1]; intros; simplify_eq. eauto.
Qed.

Lemma read_size n s c s' :
  0 ≤ n → read n s = (Ok c, s') → (rx_size (rx s') + length c ≤ rx_size (rx s))%nat ∧
    (c ≠ [] → (rx_size (rx s') < rx_size (rx s))%nat).
Proof.
  unfold read. intros Hn. destruct (rx s) as [|[l|e] r] eqn:E; [|case_match|done];
    intros [= <- <-]; simpl; rewrite ?E; simpl.
  - done.
  - lia.
  - rewrite length_take, length_drop. zhyps. unfold lenZ in *. split; [lia|].
    intros Hne. destruct (Z.to_nat n) as [|m]; [done|]. lia.
Qed.

Lemma read_err_size n s e s' :
  read n s = (Err e, s') → (rx_size (rx s') < rx_size (rx s))%nat.
Proof.
  unfold read. destruct (rx s) as [|[l|e0] r] eqn:E; [done|by case_match|].
  intros [= <- <-]. simpl. lia.
Qed.

Lemma delivers_size r l r' : delivers r l r' → (length l + rx_size r' ≤ rx_size r)%nat.
Proof. induction 1; simpl; [lia|]. rewrite length_app. lia. Qed.

Lemma read_bound n s c s' :
  read n s = (Ok c, s') → 0 ≤ n → lenZ c ≤ n ∧ tx s' = tx s ∧ wq s' = wq s.
Proof.
  unfold read. intros Hr Hn. destruct (rx s) as [|[d|e] r]; [|case_match|done];
    injection Hr as <- <-; zhyps; simpl; split_and!; try done; unfold lenZ in *; rewrite ?length_take; simpl; lia.
Qed.

Lemma read_loop_size {E} (wrap : io_error → E) (eof : E) fuel n buf s l s' :
  read_loop wrap eof fuel n buf s = (Ok l, s') →
  lenZ buf ≤ n →
  lenZ l = n ∧ (rx_size (rx s') + length l ≤ rx_size (rx s) + length buf)%nat ∧
  tx s' = tx s ∧ wq s' = wq s.
Proof.
  revert buf s. induction fuel as [|fuel IH]; intros buf s; cbn [read_loop];
    (case_match; [|intros [= <- <-]; zhyps; intros; split_and!; [lia|lia|done..]]); [done|].
  intros Hr Hle. apply sbind_inv in Hr as (c & s1 & Hc & Hr).
  unfold smap_err in Hc. destruct (read (n - lenZ buf) s) as [[c'| | |] s1'] eqn:E'; try done.
  injection Hc as -> ->. zhyps. apply read_size in E' as Hsz; [|lia].
  assert (lenZ c ≤ n - lenZ buf ∧ tx s1 = tx s ∧ wq s1 = wq s) as (Hlc & Htx & Hwq).
  { apply read_bound in E'; [done|lia]. }
  destruct c as [|b c]; [done|]. apply IH in Hr as (? & ? & ? & ?); [|len].
  rewrite length_app in *. split_and!; [done|lia|congruence..].
Qed.

Lemma read_exact_size {E} (wrap : io_error → E) (eof : E) n s l s' :
  read_exact wrap eof n s = (Ok l, s') → 0 ≤ n →
  lenZ l = n ∧ (rx_size (rx s') + length l ≤ rx_size (rx s))%nat ∧
  tx s' = tx s ∧ wq s' = wq s.
Proof.
  intros Hr Hn. apply read_loop_size in Hr as (? & ? & ? & ?); [|len].
  simpl in *. split_and!; [done|lia|done..].
Qed.

(** ** Scopes

    A local that owns a socket: it is open while the body runs, whatever the
    body returns, and closed at its end. *)
Definition scoped {W R E A} (close : R → W → W) (r : R) (body : ST (W * R) E A) : ST W E A :=
  λ w, let '(x, (w', r')) := body (w, r) in (x, close r' w').

Lemma scoped_run {W R E A} close (r : R) (body : ST (W * R) E A) w x w' r' :
  body (w, r) = (x, (w', r')) → scoped close r body w = (x, close r' w').
Proof. unfold scoped. by intros ->. Qed.

(** The two halves of the state of a scope. *)
Definition on_outer {W R E A} (m : ST W E A) : ST (W * R) E A := zoom fst (λ w wr, (w, wr.2)) m.
Definition on_local {W R E A} (m : ST R E A) : ST (W * R) E A := zoom snd (λ r wr, (wr.1, r)) m.

(** Runs a computation on a value that is not part of the state. *)
Definition srun {W S E A} (m : ST S E A) (s : S) : ST W E (A * S) := λ w,
  match m s with
  | (Ok a, s) => (Ok (a, s), w)
  | (Err e, _) => (Err e, w)
  | (Panic, _) => (Panic, w)
  | (OutOfFuel, _) => (OutOfFuel, w)
  end.

Lemma on_outer_run {W R E A} (m : ST W E A) w (r : R) x w' :
  m w = (x, w') → on_outer m (w, r) = (x, (w', r)).
Proof. unfold on_outer, zoom. simpl. by intros ->. Qed.
Lemma on_local_run {W R E A} (m : ST R E A) (w : W) r x r' :
  m r = (x, r') → on_local m (w, r) = (x, (w, r')).
Proof. unfold on_local, zoom. simpl. by intros ->. Qed.

Lemma scoped_inv {W R E A} close (r : R) (body : ST (W * R) E A) w x w' :
  scoped close r body w = (x, w') →
  ∃ wb rb, body (w, r) = (x, (wb, rb)) ∧ w' = close rb wb.
Proof. unfold scoped. destruct (body (w, r)) as [y [wb rb]]. intros [= <- <-]. eauto. Qed.

Lemma on_outer_inv {W R E A} (k : ST W E A) wr x wr' :
  on_outer (R:=R) k wr = (x, wr') → k wr.1 = (x, wr'.1) ∧ wr'.2 = wr.2.
Proof. unfold on_outer, zoom. destruct (k wr.1). by intros [= <- <-]. Qed.
Lemma on_local_inv {W R E A} (k : ST R E A) (wr : W * R) x wr' :
  on_local k wr = (x, wr') → k wr.2 = (x, wr'.2) ∧ wr'.1 = wr.1.
Proof. unfold on_local, zoom. destruct (k wr.2). by intros [= <- <-]. Qed.

Lemma smap_err_inv {S E F A} (f : E → F) (k : ST S E A) s a s' :
  smap_err f k s = (Ok a, s') → k s = (Ok a, s').
Proof. unfold smap_err. destruct (k s) as [[] ?]; intros; simplify_eq/=; done. Qed.

(** ** What an operation leaves alone

    [keeps f m]: whatever [m] returns, the part [f] of the state is as before. *)
Definition keeps {S E A T} (f : S → T) (m : ST S E A) : Prop := ∀ s, f (m s).2 = f s.

Lemma keeps_ret {S E A T} (f : S → T) (a : A) : keeps f (sret (E:=E) a).
Proof. done. Qed.
Lemma keeps_fail {S E A T} (f : S → T) (e : E) : keeps f (sfail (A:=A) e).
Proof. done. Qed.
Lemma keeps_lift {S E A T} (f : S → T) (m : outcome E A) : keeps f (lift m).
Proof. done. Qed.
Lemma keeps_get {S E T} (f : S → T) : keeps f (sget (E:=E)).
Proof. done. Qed.
Lemma keeps_modify {S E T} (f : S → T) (g : S → S) :
  (∀ s, f (g s) = f s) → keeps f (smodify (E:=E) g).
Proof. intros Hg s. apply Hg. Qed.
Lemma keeps_bind {S E A B T} (f : S → T) (m : ST S E A) (k : A → ST S E B) :
  keeps f m → (∀ a, keeps f (k a)) → keeps f (sbind m k).
Proof.
  intros Hm Hk s. unfold sbind. specialize (Hm s). destruct (m s) as [[a| | |] s1]; try done.
  simpl in Hm. by rewrite Hk.
Qed.
Lemma keeps_map_err {S E F A T} (f : S → T) (g : E → F) (m : ST S E A) :
  keeps f m → keeps f (smap_err g m).
Proof. intros Hm s. unfold smap_err. specialize (Hm s). destruct (m s). exact Hm. Qed.
Lemma keeps_try {S E F A T} (f : S → T) (m : ST S E A) : keeps f m → keeps f (stry (F:=F) m).
Proof. intros Hm s. unfold stry. specialize (Hm s). destruct (m s) as [[] ?]; exact Hm. Qed.
Lemma keeps_ignore {S E F A T} (f : S → T) (m : ST S E A) :
  keeps f m → keeps f (signore (F:=F) m).
Proof. intros Hm s. unfold signore. specialize (Hm s). destruct (m s) as [[] ?]; exact Hm. Qed.
Lemma keeps_zoom {S S' E A T} (f : S → T) (get : S → S') put (m : ST S' E A) :
  (∀ t s, f (put t s) = f s) → keeps f (zoom get put m).
Proof. intros Hp s. unfold zoom. destruct (m (get s)). apply Hp. Qed.
Lemma keeps_outer {W R E A T} (f : R → T) (m : ST W E A) :
  keeps (λ wr : W * R, f wr.2) (on_outer m).
Proof. intros s. unfold on_outer, zoom. by destruct (m s.1). Qed.
Lemma keeps_local {W R E A T} (f : R → T) (m : ST R E A) :
  keeps f m → keeps (λ wr : W * R, f wr.2) (on_local m).
Proof. intros Hm s. unfold on_local, zoom. specialize (Hm s.2). destruct (m s.2). exact Hm. Qed.

Create HintDb keeps.
#[export] Hint Resolve keeps_ret keeps_fail keeps_lift keeps_get keeps_map_err keeps_try
  keeps_ignore keeps_outer keeps_local : keeps.

(** Walks through an operation; what is left are its primitive steps. *)
Ltac solve_keeps :=
  repeat first
    [ progress eauto with keeps
    | apply keeps_bind; [|intros ?]
    | apply keeps_local | apply keeps_try
    | apply keeps_modify; intros ?; reflexivity
    | apply keeps_zoom; intros ? ?; reflexivity
    | case_match ].

(** ** Reading ends

    Loops over a stream are bounded by the bytes the peer sends.  [ends μ k m]:
    [m] does not run out of fuel, never has more left to read after than before,
    and has read at least [k] bytes when it succeeds. *)
Definition ends_at {S E A} (μ : S → nat) (k : nat) (m : ST S E A) (s : S) : Prop :=
  match m s with
  | (OutOfFuel, _) => False
  | (Ok _, s') => (μ s' + k ≤ μ s)%nat
  | (_, s') => (μ s' ≤ μ s)%nat
  end.
Definition ends {S E A} (μ : S → nat) (k : nat) (m : ST S E A) : Prop := ∀ s, ends_at μ k m s.

Create HintDb ends.

Section ends.
Context {S E : Type} (μ : S → nat).

Lemma ends_at_bind {A B} k1 k2 (m : ST S E A) (f : A → ST S E B) s :
  ends_at μ k1 m s → (∀ a s', (μ s' + k1 ≤ μ s)%nat → ends_at μ k2 (f a) s') →
  ends_at μ (k1 + k2) (sbind m f) s.
Proof.
  unfold ends_at, sbind. intros Hm Hf. destruct (m s) as [[a|e| |] s1]; try done.
  specialize (Hf a s1 Hm). destruct (f a s1) as [[| | |] s2]; try done; lia.
Qed.
Lemma ends_ret {A} (a : A) : ends (E:=E) μ 0 (sret a).
Proof. intros s. unfold ends_at. simpl. lia. Qed.
Lemma ends_fail {A} k (e : E) : ends μ k (sfail e : ST S E A).
Proof. intros s. unfold ends_at. simpl. lia. Qed.
Lemma ends_bind {A B} k1 k2 (m : ST S E A) (f : A → ST S E B) :
  ends μ k1 m → (∀ a, ends μ k2 (f a)) → ends μ (k1 + k2) (sbind m f).
Proof. intros Hm Hf s. apply ends_at_bind; [done|]. intros a s' _. apply Hf. Qed.
Lemma ends_le_at {A} k1 k2 (m : ST S E A) s :
  ends_at μ k1 m s → (k2 ≤ k1)%nat → ends_at μ k2 m s.
Proof.
  intros Hm Hle. unfold ends_at in *. destruct (m s) as [[| | |] ?]; try done; lia.
Qed.
Lemma ends_le {A} k1 k2 (m : ST S E A) : ends μ k1 m → (k2 ≤ k1)%nat → ends μ k2 m.
Proof. intros Hm Hle s. by eapply ends_le_at. Qed.
Lemma ends_lift {A} (r : outcome E A) : r ≠ OutOfFuel → ends μ 0 (lift r).
Proof. intros Hr s. unfold ends_at, lift. destruct r; try done; lia. Qed.
Lemma ends_get : ends (E:=E) μ 0 sget.
Proof. intros s. unfold ends_at. simpl. lia. Qed.
Lemma ends_at_get {A} k (f : S → ST S E A) s : ends_at μ k (f s) s → ends_at μ k (sbind sget f) s.
Proof. done. Qed.
Lemma ends_modify f : (∀ s, μ (f s) = μ s) → ends (E:=E) μ 0 (smodify f).
Proof. intros Hf s. unfold ends_at. simpl. rewrite Hf. lia. Qed.
Lemma ends_map_err {F A} (g : E → F) k (m : ST S E A) : ends μ k m → ends μ k (smap_err g m).
Proof. intros Hm s. specialize (Hm s). unfold ends_at, smap_err in *. by destruct (m s) as [[] ?]. Qed.
Lemma ends_zoom {T A} (ν : T → nat) (get : T → S) (put : S → T → T) k (m : ST S E A) :
  (∀ t, ν t = μ (get t)) → (∀ s t, ν (put s t) = μ s) →
  ends μ k m → ends ν k (zoom get put m).
Proof.
  intros Hget Hput Hm t. specialize (Hm (get t)). unfold ends_at, zoom in *. rewrite Hget.
  by destruct (m (get t)) as [[] ?]; rewrite ?Hput.
Qed.
End ends.
#[export] Hint Resolve ends_ret ends_fail ends_get : ends.

(** Finds the steps of a function and adds up what they read. *)
Ltac solve_ends :=
  repeat match goal with
         | |- ends _ _ (if ?b then _ else _) => destruct b
         | |- ends _ _ (match ?x with _ => _ end) => destruct x
         end; first [done|by eauto with ends|by apply (ends_le _ 0); eauto with ends].

Definition stream_size (s : stream) : nat := rx_size (rx s).

Lemma ends_write_all l : ends stream_size 0 (write_all l).
Proof. intros s. unfold ends_at, write_all, stream_size. destruct (wq s) as [|[] ?]; simpl; lia. Qed.
Lemma ends_flush : ends stream_size 0 flush.
Proof. intros s. unfold ends_at, flush, stream_size. destruct (wq s) as [|[] ?]; simpl; lia. Qed.
Lemma ends_read_exact {E} (wrap : io_error → E) (eof : E) n :
  0 ≤ n → ends stream_size (Z.to_nat n) (read_exact wrap eof n).
Proof.
  intros Hn s. unfold ends_at, stream_size.
  destruct (read_exact_total wrap eof n s Hn) as (r1 & Hs & Hle & Hr).
  destruct (read_exact wrap eof n s) as [[l|e| |] s'] eqn:E'; simpl in *; try done.
  - apply read_exact_size in E' as (Hl & Hsz & _); [|done]. unfold lenZ in Hl. lia.
  - by rewrite Hs.
Qed.
#[export] Hint Resolve ends_map_err ends_write_all ends_flush : ends.

(** ** [std::io::Read::read_exact]

    The method of the standard library, and the copies of it that try again
    after an interrupted read. *)
Section read_exact_retry.
Context {E : Type} (wrap : io_error → E) (eof : E).

Fixpoint retry_loop (fuel : nat) (n : Z) (buf : list byte) : ST stream E (list byte) :=
  if lenZ buf <? n then
    match fuel with
    | O => lift OutOfFuel
    | S fuel =>
        let! r := stry (read (n - lenZ buf)) in
        match r with
        | inl e => if decide (kind e = Interrupted) then retry_loop fuel n buf else sfail (wrap e)
        | inr [] => sfail eof
        | inr c => retry_loop fuel n (buf ++ c)
        end
    end
  else sret buf.
Definition read_exact_retry (n : Z) : ST stream E (list byte) :=
  λ s, retry_loop (S (length (rx s))) n [] s.

Lemma retry_loop_ok fuel n buf s l s' :
  read_loop wrap eof fuel n buf s = (Ok l, s') → retry_loop fuel n buf s = (Ok l, s').
Proof.
  revert buf s. induction fuel as [|fuel IH]; intros buf s; cbn [read_loop retry_loop];
    (destruct (lenZ buf <? n); [|done]); [done|].
  intros (c & s1 & Hc & Hr)%sbind_inv. apply smap_err_inv in Hc.
  unfold sbind, stry. rewrite Hc. destruct c as [|b c]; [done|]. by apply IH.
Qed.

(** Where no read fails, both read alike. *)
Lemma read_exact_retry_delivers n s l rest r :
  delivers (rx s) (l ++ rest) r → lenZ l = n →
  ∃ r1, read_exact_retry n s = (Ok l, set_rx r1 s) ∧ delivers r1 rest r.
Proof.
  intros Hd Hl. destruct (read_exact_delivers wrap eof n s l rest r Hd (eq_sym Hl)) as (r1 & Hr & Hd1).
  exists r1. split; [|done]. by apply retry_loop_ok.
Qed.

Lemma read_events n s c s' :
  0 < n → read n s = (Ok c, s') → c ≠ [] →
  lenZ c = n ∨ (length (rx s') < length (rx s))%nat.
Proof.
  unfold read. intros Hn. destruct (rx s) as [|[l|e] r] eqn:Erx; [|case_match|done];
    intros [= <- <-]; [done|simpl; lia|].
  intros _. left. zhyps. unfold lenZ in *. rewrite length_take. lia.
Qed.

Lemma ends_retry_loop fuel n buf s :
  0 ≤ n → lenZ buf ≤ n → (length (rx s) < fuel ∨ lenZ buf = n)%nat →
  ends_at stream_size (Z.to_nat (n - lenZ buf)) (retry_loop fuel n buf) s.
Proof.
  intros Hn. revert buf s. induction fuel as [|fuel IH]; intros buf s Hle Hf; cbn [retry_loop].
  - destruct Hf as [?|Hf]; [lia|]. rewrite Hf, Z.ltb_irrefl. unfold ends_at. simpl. lia.
  - destruct (Z.ltb_spec (lenZ buf) n); [|unfold ends_at; simpl; lia].
    destruct Hf as [Hf|?]; [|lia]. unfold ends_at, sbind, stry.
    destruct (read (n - lenZ buf) s) as [[c|e| |] s'] eqn:Er; try by (unfold read in Er; repeat case_match).
    + apply read_bound in Er as Hb; [|lia]. destruct Hb as (Hb & _).
      apply read_size in Er as Hs; [|lia]. destruct Hs as [Hs _].
      destruct c as [|b c]; [unfold stream_size; simpl in *; lia|].
      specialize (IH (buf ++ b :: c) s'). unfold ends_at in IH. rewrite lenZ_app in IH.
      apply read_events in Er as Hev; [|lia|done].
      assert (Z.to_nat (n - lenZ buf) = Z.to_nat (n - (lenZ buf + lenZ (b :: c))) + length (b :: c))%nat as ->.
      { unfold lenZ in *. lia. }
      specialize (IH ltac:(lia) ltac:(lia)).
      destruct (retry_loop fuel n (buf ++ b :: c) s') as [[] ?]; unfold stream_size in *; done || lia.
    + apply read_err_size in Er as Hs.
      assert (length (rx s') < length (rx s))%nat as Hlen.
      { unfold read in Er. destruct (rx s) as [|[l|e'] r]; [done|by case_match|].
        injection Er as <- <-. simpl. lia. }
      case_decide; [|unfold stream_size; simpl; lia]. specialize (IH buf s' Hle ltac:(lia)).
      unfold ends_at in IH. destruct (retry_loop fuel n buf s') as [[] ?]; unfold stream_size in *; try done; lia.
Qed.
Lemma ends_read_exact_retry n : 0 ≤ n → ends stream_size (Z.to_nat n) (read_exact_retry n).
Proof.
  intros Hn s. pose proof (ends_retry_loop (S (length (rx s))) n [] s Hn) as H.
  change (lenZ []) with 0 in H. rewrite Z.sub_0_r in H. apply H; lia.
Qed.
End read_exact_retry.
