(* ===== verification/Plist.v ===== *)
(** * The property-list library, as an interface

    The sources depend on the [plist] crate: they build and match its [Value]
    and call its writers and its reader.  The crate is not part of the
    repository, so the reader and the writers are the operations of a class,
    and what the proofs rely on, that a value written is the value read back,
    is the class of laws [PlistLaws].  [BitPlist] is a concrete instance, used
    only to show that the laws can hold. *)

From stdpp Require Import countable.
From S2P Require Import Prelude RustStd.

(** [plist::Value].  Reals are kept as their bits and dates as an opaque
    number: the sources never look inside them. *)
#[warnings="-non-recursive"]
Inductive pval : Type :=
  | PArray (l : list pval)
  | PDict (d : list (string * pval))
  | PBool (b : bool)
  | PData (l : list byte)
  | PDate (n : Z)
  | PReal (bits : Z)
  | PInt (n : Z)
  | PString (s : string)
  | PUid (n : Z).

Abbreviation dictionary := (list (string * pval)).
Notation "k '=>>' v" := (@pair string pval k%string v) (at level 60) : rs_scope.

Definition as_dictionary (v : pval) : option dictionary :=
  match v with PDict d => Some d | _ => None end.
Definition as_array (v : pval) : option (list pval) :=
  match v with PArray l => Some l | _ => None end.
Definition as_string (v : pval) : option string :=
  match v with PString s => Some s | _ => None end.
Definition as_data (v : pval) : option (list byte) :=
  match v with PData l => Some l | _ => None end.
Definition as_boolean (v : pval) : option bool :=
  match v with PBool b => Some b | _ => None end.
(** The crate's [Integer] holds any [i64] or [u64]. *)
Definition as_unsigned_integer (v : pval) : option Z :=
  match v with
  | PInt n => if bool_decide (in_u 64 n) then Some n else None
  | _ => None
  end.
Definition as_signed_integer (v : pval) : option Z :=
  match v with
  | PInt n => if bool_decide (in_i 64 n) then Some n else None
  | _ => None
  end.

(** [Dictionary::get], [insert] and [remove]; [dict] is a sequence of inserts
    into a new dictionary. *)
Definition dget (k : string) (d : dictionary) : option pval := al_lookup k d.
Definition dict (kvs : list (string * pval)) : dictionary :=
  foldl (λ d kv, al_insert kv.1 kv.2 d) [] kvs.

Lemma dict_wf kvs : al_wf (dict kvs).
Proof.
  unfold dict. assert (al_wf (@nil (string * pval))) as H by constructor.
  revert H. generalize (@nil (string * pval)).
  induction kvs as [|[k v] kvs IH]; simpl; intros d Hd; [done|].
  by apply IH, al_insert_wf.
Qed.

(** A dictionary literal with distinct keys is the list of its entries. *)
Lemma dict_nodup kvs : NoDup kvs.*1 → dict kvs = kvs.
Proof.
  unfold dict. assert (∀ d, NoDup (d ++ kvs).*1 →
    foldl (λ d kv, al_insert kv.1 kv.2 d) d kvs = d ++ kvs) as H; [|apply (H [])].
  induction kvs as [|[k v] kvs IH]; intros d Hnd; simpl; [by rewrite app_nil_r|].
  rewrite fmap_app in Hnd. simpl in Hnd. apply NoDup_app in Hnd as Hnd'.
  rewrite al_insert_fresh.
  - rewrite IH; [by rewrite <-(assoc_L (++))|].
    rewrite <-(assoc_L (++)). simpl. by rewrite fmap_app.
  - intros Hk. destruct Hnd' as (_ & Hdisj & _). apply (Hdisj k Hk). by left.
Qed.

(** Replaces the [dict] literals of the goal by their entries. *)
Ltac dict_lits :=
  repeat match goal with
  | |- context [dict ?kvs] =>
      rewrite (dict_nodup kvs)
        by (apply (bool_decide_eq_true_1 _); vm_compute; reflexivity)
  end.

(** A value the XML format represents exactly: no UIDs, dates or reals,
    integers of the crate's range, dictionaries with distinct keys, text of
    UTF-8 without control characters and without blanks at the ends. *)
Definition text_ok (s : string) : bool :=
  let l := bytes_of s in
  utf8_valid l && forallb (λ b, (32 <=? u8 b) && negb (u8 b =? 127)) l
  && bool_decide (head l ≠ Some " "%byte) && bool_decide (last l ≠ Some " "%byte).

Fixpoint plain (v : pval) : bool :=
  match v with
  | PArray l => forallb plain l
  | PDict d =>
      bool_decide (NoDup (al_keys d)) && forallb (λ kv, text_ok kv.1 && plain kv.2) d
  | PBool _ | PData _ => true
  | PInt n => (- 2 ^ 63 <=? n) && (n <? 2 ^ 64)
  | PString s => text_ok s
  | PDate _ | PReal _ | PUid _ => false
  end.

Lemma plain_dict d :
  NoDup (al_keys d) → forallb (λ kv, text_ok kv.1 && plain kv.2) d = true →
  plain (PDict d) = true.
Proof. intros H1 H2. cbn [plain]. by rewrite bool_decide_true, H2. Qed.

Lemma plain_int n : - 2 ^ 63 ≤ n < 2 ^ 64 → plain (PInt n) = true.
Proof. intros. cbn [plain]. rewrite (proj2 (Z.leb_le _ _)), (proj2 (Z.ltb_lt _ _)); lia. Qed.

Lemma plain_int_u w n : w ≤ 64 → in_u w n → plain (PInt n) = true.
Proof.
  unfold in_u. intros Hw Hn. apply plain_int. split; [lia|].
  destruct (decide (0 ≤ w)); [|rewrite Z.pow_neg_r in Hn; lia].
  pose proof (Z.pow_le_mono_r 2 w 64). lia.
Qed.

(** Proves [plain] of a dictionary literal, leaving its variable parts. *)
Create HintDb plist.
Ltac solve_plain :=
  autounfold with plist; dict_lits; apply plain_dict; [apply (bool_decide_eq_true_1 _); vm_compute; reflexivity|];
  cbn [forallb fst snd app]; rewrite ?andb_true_r, ?andb_true_iff;
  repeat match goal with
  | |- _ ∧ _ => split
  | |- text_ok _ = true => first [assumption|vm_compute; reflexivity]
  | |- plain (PString _) = true => first [assumption|vm_compute; reflexivity]
  | |- plain (PData _) = true => reflexivity
  | |- plain (PBool _) = true => reflexivity
  | |- plain (PInt _) = true =>
      first [apply plain_int; lia|eapply plain_int_u; [|eassumption]; lia]
  end.

(** [to_writer_xml] and [to_writer_binary] into a fresh vector, [from_bytes],
    and the conversion of a value to a [serde_bytes::ByteBuf]. *)
Class PlistLib := {
  to_writer_xml : pval → option (list byte);
  to_writer_binary : pval → option (list byte);
  from_bytes : list byte → option pval;
  de_byte_buf : pval → option (list byte)
}.

Class PlistLaws (P : PlistLib) := {
  xml_roundtrip v : plain v = true →
    ∃ l, to_writer_xml v = Some l ∧ from_bytes l = Some v;
  de_byte_buf_data l : de_byte_buf (PData l) = Some l
}.

(** The bytes of a value that is known to be representable. *)
Definition xml `{PlistLib} (v : pval) : list byte := default [] (to_writer_xml v).

Lemma to_writer_xml_plain `{PlistLaws} v : plain v = true → to_writer_xml v = Some (xml v).
Proof. intros (l & Hl & _)%xml_roundtrip. unfold xml. by rewrite Hl. Qed.
Lemma from_bytes_xml `{PlistLaws} v : plain v = true → from_bytes (xml v) = Some v.
Proof. intros (l & Hl & Hr)%xml_roundtrip. unfold xml. by rewrite Hl. Qed.

(** ** Reading a struct that derives [Deserialize]

    A missing field is [None]; a field of the wrong type, or an integer outside
    the range of the field, fails the whole conversion. *)
Definition de_string (v : pval) : option string := as_string v.
Definition de_bool (v : pval) : option bool := as_boolean v.
Definition de_uint (w : Z) (v : pval) : option Z :=
  match v with
  | PInt n => if bool_decide (in_u w n) then Some n else None
  | _ => None
  end.
Definition de_opt {A} (de : pval → option A) (k : string) (d : dictionary)
    : option (option A) :=
  match dget k d with
  | None => Some None
  | Some v => Some <$> de v
  end.
Definition de_req {A} (de : pval → option A) (k : string) (d : dictionary) : option A :=
  dget k d ≫= de.
Definition de_vec {A} (de : pval → option A) (v : pval) : option (list A) :=
  as_array v ≫= mapM de.

Lemma de_uint_ok w n : in_u w n → de_uint w (PInt n) = Some n.
Proof. intros. simpl. by rewrite bool_decide_true. Qed.

(** ** A concrete instance

    The value as a tree, the tree as a positive number, the number as its
    binary digits, a byte each. *)
Module BitPlist.
Abbreviation leaf := (string + Z + bool)%type.

Fixpoint to_tree (v : pval) : gen_tree leaf :=
  match v with
  | PArray l => GenNode 0 (to_tree <$> l)
  | PDict d => GenNode 1 ((λ kv, GenNode 0 [GenLeaf (inl (inl kv.1)); to_tree kv.2]) <$> d)
  | PBool b => GenLeaf (inr b)
  | PData l => GenNode 2 [GenLeaf (inl (inl (string_of l)))]
  | PDate n => GenNode 3 [GenLeaf (inl (inr n))]
  | PReal n => GenNode 4 [GenLeaf (inl (inr n))]
  | PInt n => GenLeaf (inl (inr n))
  | PString s => GenLeaf (inl (inl s))
  | PUid n => GenNode 5 [GenLeaf (inl (inr n))]
  end.

Fixpoint of_tree (t : gen_tree leaf) : option pval :=
  match t with
  | GenNode 0 l => PArray <$> mapM of_tree l
  | GenNode 1 l =>
      PDict <$> mapM (λ t, match t with
                           | GenNode 0 [GenLeaf (inl (inl k)); t] => pair k <$> of_tree t
                           | _ => None
                           end) l
  | GenLeaf (inr b) => Some (PBool b)
  | GenNode 2 [GenLeaf (inl (inl s))] => Some (PData (bytes_of s))
  | GenNode 3 [GenLeaf (inl (inr n))] => Some (PDate n)
  | GenNode 4 [GenLeaf (inl (inr n))] => Some (PReal n)
  | GenLeaf (inl (inr n)) => Some (PInt n)
  | GenLeaf (inl (inl s)) => Some (PString s)
  | GenNode 5 [GenLeaf (inl (inr n))] => Some (PUid n)
  | _ => None
  end.

Fixpoint bits (p : positive) : list byte :=
  match p with
  | xH => [x01]
  | xO p => x00 :: bits p
  | xI p => x01 :: bits p
  end.
Fixpoint unbits (l : list byte) : option positive :=
  match l with
  | [] => None
  | [_] => Some xH
  | x00 :: l => xO <$> unbits l
  | _ :: l => xI <$> unbits l
  end.

Lemma bits_nonempty p : ∃ b l, bits p = b :: l.
Proof. destruct p; simpl; eauto. Qed.

Lemma unbits_bits p : unbits (bits p) = Some p.
Proof.
  induction p as [p IH|p IH|]; simpl; [..|done];
    destruct (bits_nonempty p) as (b & l & E); rewrite E in *; by rewrite IH.
Qed.

Lemma of_to_tree v : of_tree (to_tree v) = Some v.
Proof.
  revert v. fix IH 1. intros [l|d|b|l|n|n|n|s|n]; try reflexivity.
  - change (PArray <$> mapM of_tree (to_tree <$> l) = Some (PArray l)).
    assert (mapM of_tree (to_tree <$> l) = Some l) as ->; [|reflexivity].
    induction l as [|v l IHl]; [reflexivity|].
    rewrite fmap_cons. simpl mapM. rewrite (IH v), IHl. reflexivity.
  - set (f := λ t, match t with
                   | GenNode 0 [GenLeaf (inl (inl k)); t] => pair k <$> of_tree t
                   | _ => None
                   end).
    set (g := λ kv : string * pval, GenNode 0 [GenLeaf (inl (inl kv.1) : leaf); to_tree kv.2]).
    change (PDict <$> mapM f (g <$> d) = Some (PDict d)).
    assert (mapM f (g <$> d) = Some d) as ->; [|reflexivity].
    induction d as [|[k v] d IHd]; [reflexivity|].
    rewrite fmap_cons. simpl mapM. rewrite IHd. unfold f, g. simpl. rewrite (IH v). reflexivity.
  - simpl. rewrite bytes_of_string_of. reflexivity.
Qed.

#[export] Instance lib : PlistLib := {
  to_writer_xml v := Some (bits (encode (to_tree v)));
  to_writer_binary v := Some (bits (encode (to_tree v)));
  from_bytes l := (unbits l ≫= decode (A:=gen_tree leaf)) ≫= of_tree;
  de_byte_buf v := match v with
                   | PData l => Some l
                   | PString s => Some (bytes_of s)
                   | _ => None
                   end
}.

#[export] Instance laws : PlistLaws lib.
Proof.
  split; [|done]. intros v _. eexists. split; [done|].
  unfold from_bytes, lib. rewrite unbits_bits. simpl.
  rewrite decode_encode. simpl. apply of_to_tree.
Qed.
End BitPlist.
