(* ===== verification/Json.v ===== *)
(** * The JSON library, as an interface

    [serde_json] is not part of the repository: its writer and its parser are
    the class [JsonLib] over JSON texts as trees, an object being its members
    in the order of the text, and [JsonLaws] says that a tree written is the
    tree read back.  What the derives of [serde] and the [Value] of the crate
    do with a tree is written out. *)

From stdpp Require Import countable.
From S2P Require Import Prelude RustStd Plist.

#[warnings="-non-recursive"]
Inductive jval : Type :=
  | JNull
  | JBool (b : bool)
  | JInt (n : Z)
  | JFloat (bits : Z)
  | JString (s : string)
  | JArray (l : list jval)
  | JObject (d : list (string * jval)).

Notation "k '=:>' v" := (@pair string jval k%string v) (at level 60) : rs_scope.

(** A tree whose text is read back exactly. *)
Fixpoint jplain (v : jval) : bool :=
  match v with
  | JNull | JBool _ => true
  | JInt n => (- 2 ^ 63 <=? n) && (n <? 2 ^ 64)
  | JFloat _ => false
  | JString s => bool_decide (utf8_string s)
  | JArray l => forallb jplain l
  | JObject d => forallb (λ kv, bool_decide (utf8_string kv.1) && jplain kv.2) d
  end.

(** [to_vec], [to_vec_pretty] and the parser behind [from_slice]. *)
Class JsonLib := {
  json_to_vec : jval → option (list byte);
  json_to_vec_pretty : jval → option (list byte);
  json_parse : list byte → option jval
}.

Class JsonLaws (J : JsonLib) := {
  json_roundtrip v : jplain v = true →
    ∃ l, json_to_vec v = Some l ∧ json_parse l = Some v;
  json_pretty_roundtrip v : jplain v = true →
    ∃ l, json_to_vec_pretty v = Some l ∧ json_parse l = Some v
}.

(** ** Reading a struct that derives [Deserialize]

    Unknown members are skipped; a member that occurs twice is an error, and so
    is a missing one without a default. *)
Definition jfield {A} (de : jval → option A) (dflt : option A) (k : string)
    (d : list (string * jval)) : option A :=
  match filter (λ kv, kv.1 = k) d with
  | [] => dflt
  | [kv] => de kv.2
  | _ => None
  end.
Definition de_jstring (v : jval) : option string :=
  match v with JString s => Some s | _ => None end.
Definition de_jobject (v : jval) : option (list (string * jval)) :=
  match v with JObject d => Some d | _ => None end.

(** ** [serde_json::Value]

    A repeated member keeps the last value; an index that is not there is
    [Null]. *)
Definition jget (k : string) (v : jval) : jval :=
  match v with
  | JObject d => default JNull (al_lookup k (foldl (λ m kv, al_insert kv.1 kv.2 m) [] d))
  | _ => JNull
  end.
Definition as_u64 (v : jval) : option Z :=
  match v with
  | JInt n => if bool_decide (in_u 64 n) then Some n else None
  | _ => None
  end.

(** ** A concrete instance *)
Module BitJson.
Fixpoint to_tree (v : jval) : gen_tree BitPlist.leaf :=
  match v with
  | JNull => GenNode 0 []
  | JBool b => GenLeaf (inr b)
  | JInt n => GenLeaf (inl (inr n))
  | JFloat n => GenNode 1 [GenLeaf (inl (inr n))]
  | JString s => GenLeaf (inl (inl s))
  | JArray l => GenNode 2 (to_tree <$> l)
  | JObject d => GenNode 3 ((λ kv, GenNode 0 [GenLeaf (inl (inl kv.1)); to_tree kv.2]) <$> d)
  end.

Fixpoint of_tree (t : gen_tree BitPlist.leaf) : option jval :=
  match t with
  | GenNode 0 [] => Some JNull
  | GenNode 1 [GenLeaf (inl (inr n))] => Some (JFloat n)
  | GenNode 2 l => JArray <$> mapM of_tree l
  | GenNode 3 l =>
      JObject <$> mapM (λ t, match t with
                             | GenNode 0 [GenLeaf (inl (inl k)); t] => pair k <$> of_tree t
                             | _ => None
                             end) l
  | GenLeaf (inr b) => Some (JBool b)
  | GenLeaf (inl (inr n)) => Some (JInt n)
  | GenLeaf (inl (inl s)) => Some (JString s)
  | _ => None
  end.

Lemma j_of_to_tree v : of_tree (to_tree v) = Some v.
Proof.
  revert v. fix IH 1. intros [|b|n|n|s|l|d]; try reflexivity.
  - change (JArray <$> mapM of_tree (to_tree <$> l) = Some (JArray l)).
    assert (mapM of_tree (to_tree <$> l) = Some l) as ->; [|reflexivity].
    induction l as [|v l IHl]; [reflexivity|].
    rewrite fmap_cons. simpl mapM. rewrite (IH v), IHl. reflexivity.
  - set (f := λ t, match t with
                   | GenNode 0 [GenLeaf (inl (inl k)); t] => pair k <$> of_tree t
                   | _ => None
                   end).
    set (g := λ kv : string * jval, GenNode 0 [GenLeaf (inl (inl kv.1) : BitPlist.leaf); to_tree kv.2]).
    change (JObject <$> mapM f (g <$> d) = Some (JObject d)).
    assert (mapM f (g <$> d) = Some d) as ->; [|reflexivity].
    induction d as [|[k v] d IHd]; [reflexivity|].
    rewrite fmap_cons. simpl mapM. rewrite IHd. unfold f, g. simpl. rewrite (IH v). reflexivity.
Qed.

Definition write (v : jval) : list byte := BitPlist.bits (encode (to_tree v)).

#[export] Instance lib : JsonLib := {
  json_to_vec v := Some (write v);
  json_to_vec_pretty v := Some (write v);
  json_parse l := (BitPlist.unbits l ≫= decode (A:=gen_tree BitPlist.leaf)) ≫= of_tree
}.

#[export] Instance laws : JsonLaws lib.
Proof.
  split; intros v _; (eexists; split; [done|]); unfold json_parse, lib, write;
    rewrite BitPlist.unbits_bits; simpl; rewrite decode_encode; simpl; apply j_of_to_tree.
Qed.
End BitJson.
