(* ===== verification/UsbmuxTypes.v ===== *)
(** * usbmux: data types and message bodies

    [src/usbmux/types.rs] and [src/usbmux/plist_msg.rs]. *)

From S2P Require Import Prelude RustStd Io Plist.

(** ** [types.rs] *)

Inductive ConnectionType : Type :=
  | Usb
  | Network
  | UnknownConnection (s : string).
#[export] Instance ConnectionType_eq_dec : EqDecision ConnectionType.
Proof. solve_decision. Defined.

Definition ConnectionType_from (s : string) : ConnectionType :=
  if decide (s = "USB"%string) then Usb
  else if decide (s = "Network"%string) then Network
  else UnknownConnection s.

Definition ConnectionType_fmt (c : ConnectionType) : string :=
  match c with
  | Usb => "USB"
  | Network => "Network"
  | UnknownConnection s => s
  end.

Record Device : Type := MkDevice {
  device_id : Z;
  serial : string;
  connection_type : ConnectionType;
  product_id : Z;
  location_id : Z
}.
#[export] Instance Device_eq_dec : EqDecision Device.
Proof. solve_decision. Defined.

Inductive ResultCode : Type :=
  | RcOk
  | BadCommand
  | BadDevice
  | ConnRefused
  | NoSuchService
  | BadVersion
  | UnknownCode (n : Z).
#[export] Instance ResultCode_eq_dec : EqDecision ResultCode.
Proof. solve_decision. Defined.

Definition ResultCode_from (n : Z) : ResultCode :=
  match n with
  | 0 => RcOk
  | 1 => BadCommand
  | 2 => BadDevice
  | 3 => ConnRefused
  | 4 => NoSuchService
  | 6 => BadVersion
  | n => UnknownCode n
  end.

Definition ResultCode_fmt (c : ResultCode) : list byte :=
  match c with
  | RcOk => bytes_of "OK"
  | BadCommand => bytes_of "bad command"
  | BadDevice => bytes_of "bad device"
  | ConnRefused => bytes_of "connection refused"
  | NoSuchService => bytes_of "no such service"
  | BadVersion => bytes_of "bad version"
  | UnknownCode n => bytes_of "unknown error " ++ dec n
  end.

Inductive Event : Type :=
  | DeviceList (l : list Device)
  | DeviceAttached (d : Device)
  | DeviceDetached (device_id : Z)
  | Connected (tag : Z)
  | RequestOk (tag : Z)
  | RequestFailedEv (tag : Z) (code : ResultCode)
  | Buid (s : string)
  | PairRecordEv (udid : string) (record : list byte).
#[export] Instance Event_eq_dec : EqDecision Event.
Proof. solve_decision. Defined.

Inductive ProtoError : Type :=
  | ProtoPlist
  | FrameTooShort (got need : Z)
  | UnexpectedMessage (s : string).
Definition ProtoError_fmt (e : ProtoError) : message :=
  match e with
  | ProtoPlist => msg0 "plist error: {0}"
  | FrameTooShort got need => Msg "frame too short: got {got}, need {need}" [FNum got; FNum need]
  | UnexpectedMessage s => Msg "unexpected message type in response: {0}" [FStr s]
  end.

(** [usbmux/error.rs]; what a [plist::Error] says is not modelled. *)
Inductive Error : Type :=
  | EIo (e : io_error)
  | EProto (e : ProtoError)
  | EConnectFailed (code : ResultCode)
  | EClosed
  | ERequestFailed (code : ResultCode)
  | EConnectionClosed
  | EPlist.

(** [Display] *)
Definition Error_fmt (e : Error) : message :=
  match e with
  | EIo e => Msg "I/O error: {0}" [FStr (what e)]
  | EProto e => Msg "usbmuxd protocol error: {0}" [FDisplay (ProtoError_fmt e)]
  | EConnectFailed code => Msg "usbmuxd connect failed: {0}" [FBytes (ResultCode_fmt code)]
  | EClosed => msg0 "usbmuxd closed connection unexpectedly"
  | ERequestFailed code => Msg "request failed: {0}" [FBytes (ResultCode_fmt code)]
  | EConnectionClosed => msg0 "connection closed"
  | EPlist => msg0 "plist error: {0}"
  end.

(** Only code 0 means success. *)
Lemma ResultCode_from_ok n : ResultCode_from n = RcOk ↔ n = 0.
Proof. destruct n as [|[[|[]|]|[[]|[]|]|]|]; simpl; split; congruence. Qed.

(** ** [plist_msg.rs]: request bodies

    The value each request serializes to, fields in declaration order under
    their renamed keys. *)

Definition client_fields (message_type : string) : dictionary :=
  ["MessageType" =>> PString message_type;
   "ClientVersionString" =>> PString "devicelink-0.1.0";
   "ProgName" =>> PString "devicelink";
   "kLibUSBMuxVersion" =>> PInt 3].

Definition BaseRequest (message_type : string) : pval :=
  PDict (client_fields message_type).
Definition ConnectRequest (device_id port_number : Z) : pval :=
  PDict (client_fields "Connect" ++
    ["DeviceID" =>> PInt device_id; "PortNumber" =>> PInt port_number]).
Definition PairRecordRequest (message_type pair_record_id : string) : pval :=
  PDict (client_fields message_type ++ ["PairRecordID" =>> PString pair_record_id]).
Definition SavePairRecordRequest (pair_record_id : string) (data : list byte) : pval :=
  PDict (client_fields "SavePairRecord" ++
    ["PairRecordID" =>> PString pair_record_id; "PairRecordData" =>> PData data]).

(** ** [plist_msg.rs]: responses *)

Record DeviceProperties : Type := MkDeviceProperties {
  dp_serial_number : option string;
  dp_connection_type : option string;
  dp_product_id : option Z;
  dp_location_id : option Z
}.

Record DeviceEntry : Type := MkDeviceEntry {
  de_device_id : Z;
  de_properties : DeviceProperties
}.

Record Envelope : Type := MkEnvelope {
  message_type : option string;
  number : option Z;
  device_list : option (list DeviceEntry);
  buid : option string;
  env_device_id : option Z;
  properties : option DeviceProperties;
  pair_record_data : option (list byte)
}.

Definition de_DeviceProperties (v : pval) : option DeviceProperties :=
  d ← as_dictionary v;
  s ← de_opt de_string "SerialNumber" d;
  c ← de_opt de_string "ConnectionType" d;
  p ← de_opt (de_uint 16) "ProductID" d;
  l ← de_opt (de_uint 32) "LocationID" d;
  Some (MkDeviceProperties s c p l).

Definition de_DeviceEntry (v : pval) : option DeviceEntry :=
  d ← as_dictionary v;
  i ← de_req (de_uint 32) "DeviceID" d;
  p ← de_req de_DeviceProperties "Properties" d;
  Some (MkDeviceEntry i p).

Definition de_Envelope `{PlistLib} (v : pval) : option Envelope :=
  d ← as_dictionary v;
  m ← de_opt de_string "MessageType" d;
  n ← de_opt (de_uint 32) "Number" d;
  l ← de_opt (de_vec de_DeviceEntry) "DeviceList" d;
  b ← de_opt de_string "BUID" d;
  i ← de_opt (de_uint 32) "DeviceID" d;
  p ← de_opt de_DeviceProperties "Properties" d;
  r ← de_opt de_byte_buf "PairRecordData" d;
  Some (MkEnvelope m n l b i p r).

(** [plist_msg::encode] and [plist_msg::decode] *)
Definition encode `{PlistLib} (v : pval) : option (list byte) := to_writer_xml v.
Definition decode `{PlistLib} (l : list byte) : option Envelope :=
  from_bytes l ≫= de_Envelope.

#[export] Hint Unfold client_fields BaseRequest ConnectRequest PairRecordRequest
  SavePairRecordRequest : plist.

(** The requests are values the library represents exactly. *)
Lemma plain_BaseRequest m : text_ok m = true → plain (BaseRequest m) = true.
Proof. intros. by solve_plain. Qed.

Lemma plain_ConnectRequest i p :
  in_u 32 i → in_u 16 p → plain (ConnectRequest i p) = true.
Proof. intros. by solve_plain. Qed.

Lemma plain_PairRecordRequest m u :
  text_ok m = true → text_ok u = true → plain (PairRecordRequest m u) = true.
Proof. intros. by solve_plain. Qed.

Lemma plain_SavePairRecordRequest u l :
  text_ok u = true → plain (SavePairRecordRequest u l) = true.
Proof. intros. by solve_plain. Qed.
