(* ===== verification/UsbmuxCodec.v ===== *)
(** * usbmux: the sans-I/O codec

    [src/usbmux/codec.rs].  The codec is a state machine: requests are
    appended to [tx] as frames, incoming bytes are appended to [rx] and cut
    into frames, each frame is decoded to at most one event. *)

From S2P Require Import Prelude RustStd Io Plist UsbmuxTypes.

Definition HEADER_LEN : Z := 16.
Definition VERSION_PLIST : Z := 1.
Definition MSGTYPE_PLIST : Z := 8.

Record Codec : Type := MkCodec {
  c_rx : list byte;
  c_tx : list (list byte);
  c_events : list Event;
  c_next_tag : Z;
  c_pending_connects : list Z
}.

Definition new : Codec := MkCodec [] [] [] 1 [].

Definition set_c_rx (l : list byte) (c : Codec) : Codec :=
  MkCodec l (c_tx c) (c_events c) (c_next_tag c) (c_pending_connects c).
Definition push_tx (f : list byte) (c : Codec) : Codec :=
  MkCodec (c_rx c) (c_tx c ++ [f]) (c_events c) (c_next_tag c) (c_pending_connects c).
Definition push_event (e : Event) (c : Codec) : Codec :=
  MkCodec (c_rx c) (c_tx c) (c_events c ++ [e]) (c_next_tag c) (c_pending_connects c).
Definition set_pending (l : list Z) (c : Codec) : Codec :=
  MkCodec (c_rx c) (c_tx c) (c_events c) (c_next_tag c) l.

(** ** Requests *)

Definition alloc_tag : ST Codec Empty_set Z := λ c,
  (Ok (c_next_tag c),
   MkCodec (c_rx c) (c_tx c) (c_events c)
     (Z.max (wrap 32 (c_next_tag c + 1)) 1) (c_pending_connects c)).

(** The 16-byte header: total length, version, message type, tag. *)
Definition frame_header (total tag : Z) : list byte :=
  le_bytes 4 (wrap 32 total) ++ le_bytes 4 VERSION_PLIST ++
  le_bytes 4 MSGTYPE_PLIST ++ le_bytes 4 tag.

Definition enqueue_frame (body : list byte) (tag : Z) : ST Codec Empty_set unit :=
  smodify (push_tx (frame_header (HEADER_LEN + lenZ body) tag ++ body)).

Section codec.
Context `{PlistLib}.

(** [plist_msg::encode(&req).unwrap()] and [self.enqueue_frame(&body, tag)] *)
Definition send_request (req : pval) (tag : Z) : ST Codec Empty_set Z :=
  let! body := lift (or_panic (encode req)) in
  enqueue_frame body tag ;;;
  sret tag.

Definition list_devices : ST Codec Empty_set Z :=
  let! tag := alloc_tag in send_request (BaseRequest "ListDevices") tag.
Definition listen : ST Codec Empty_set Z :=
  let! tag := alloc_tag in send_request (BaseRequest "Listen") tag.
Definition read_buid : ST Codec Empty_set Z :=
  let! tag := alloc_tag in send_request (BaseRequest "ReadBUID") tag.
Definition read_pair_record (udid : string) : ST Codec Empty_set Z :=
  let! tag := alloc_tag in
  send_request (PairRecordRequest "ReadPairRecord" udid) tag.
Definition save_pair_record (udid : string) (record : list byte) : ST Codec Empty_set Z :=
  let! tag := alloc_tag in send_request (SavePairRecordRequest udid record) tag.
Definition delete_pair_record (udid : string) : ST Codec Empty_set Z :=
  let! tag := alloc_tag in
  send_request (PairRecordRequest "DeletePairRecord" udid) tag.

(** [u16::to_be] on a little-endian host: swap the two bytes. *)
Definition to_be16 (port : Z) : Z := le_val (be_bytes 2 port).

Definition connect (device_id port : Z) : ST Codec Empty_set Z :=
  let! tag := alloc_tag in
  smodify (λ c, set_pending (c_pending_connects c ++ [tag]) c) ;;;
  send_request (ConnectRequest device_id (to_be16 port)) tag.

Definition poll_write (c : Codec) : option (list byte) * Codec :=
  match c_tx c with
  | [] => (None, c)
  | f :: t =>
      (Some f, MkCodec (c_rx c) t (c_events c) (c_next_tag c) (c_pending_connects c))
  end.
Definition poll_event (c : Codec) : option Event * Codec :=
  match c_events c with
  | [] => (None, c)
  | e :: t =>
      (Some e, MkCodec (c_rx c) (c_tx c) t (c_next_tag c) (c_pending_connects c))
  end.

(** ** Responses *)

Definition device_from_entry (e : DeviceEntry) : Device :=
  MkDevice (de_device_id e)
    (default ""%string (dp_serial_number (de_properties e)))
    (ConnectionType_from (default ""%string (dp_connection_type (de_properties e))))
    (default 0 (dp_product_id (de_properties e)))
    (default 0 (dp_location_id (de_properties e))).

Definition decode_frame (tag : Z) (payload : list byte) (c : Codec) : option Event * Codec :=
  match decode payload with
  | None => (None, c)
  | Some env =>
      let msg_type := default ""%string (message_type env) in
      if decide (msg_type = "Result"%string) then
        let code := ResultCode_from (default (2 ^ 32 - 1) (number env)) in
        let is_connect := existsb (λ t, t =? tag) (c_pending_connects c) in
        let c := if is_connect
                 then set_pending (filter (λ t, t ≠ tag) (c_pending_connects c)) c
                 else c in
        if is_connect && bool_decide (code = RcOk) then (Some (Connected tag), c)
        else if decide (code = RcOk) then (Some (RequestOk tag), c)
        else (Some (RequestFailedEv tag code), c)
      else if decide (msg_type = ""%string) then
        match device_list env, buid env, pair_record_data env with
        | Some l, _, _ => (Some (DeviceList (device_from_entry <$> l)), c)
        | None, Some b, _ => (Some (Buid b), c)
        | None, None, Some d => (Some (PairRecordEv "" d), c)
        | None, None, None => (None, c)
        end
      else if decide (msg_type = "Attached"%string) then
        match properties env, env_device_id env with
        | Some props, Some i =>
            (Some (DeviceAttached (device_from_entry (MkDeviceEntry i props))), c)
        | _, _ => (None, c)
        end
      else if decide (msg_type = "Detached"%string) then
        match env_device_id env with
        | Some i => (Some (DeviceDetached i), c)
        | None => (None, c)
        end
      else (None, c)
  end.

(** The first complete frame of [rx]: its tag, its payload, the rest. *)
Definition next_frame (rx : list byte) : option (Z * list byte * list byte) :=
  if lenZ rx <? HEADER_LEN then None
  else
    let total := le_val (take 4 rx) in
    if (total <? HEADER_LEN) || (lenZ rx <? total) then None
    else
      let tag := le_val (take 4 (drop 12 rx)) in
      let payload := take (Z.to_nat (total - HEADER_LEN)) (drop 16 rx) in
      Some (tag, payload, drop (Z.to_nat total) rx).

(** Every iteration drops a frame of at least 16 bytes from [rx], so the
    length of [rx] is fuel enough. *)
Fixpoint process_rx_fuel (fuel : nat) (c : Codec) : Codec :=
  match fuel with
  | O => c
  | S fuel =>
      match next_frame (c_rx c) with
      | None => c
      | Some (tag, payload, rest) =>
          let '(ev, c) := decode_frame tag payload (set_c_rx rest c) in
          process_rx_fuel fuel
            (match ev with Some e => push_event e c | None => c end)
      end
  end.
Definition process_rx (c : Codec) : Codec := process_rx_fuel (length (c_rx c)) c.

Definition push_data (data : list byte) (c : Codec) : Codec :=
  process_rx (set_c_rx (c_rx c ++ data) c).
End codec.

(** ** Cutting the byte stream into frames *)

Definition valid_frame (f : Z * list byte) : Prop :=
  in_u 32 f.1 ∧ HEADER_LEN + lenZ f.2 < 2 ^ 32.

(** A frame as a peer sends it. *)
Definition frame (f : Z * list byte) : list byte :=
  frame_header (HEADER_LEN + lenZ f.2) f.1 ++ f.2.

Lemma length_frame_header total tag : length (frame_header total tag) = 16%nat.
Proof. unfold frame_header. by rewrite !length_app, !length_le_bytes. Qed.

Lemma lenZ_frame f : lenZ (frame f) = 16 + lenZ f.2.
Proof. unfold frame. rewrite lenZ_app. unfold lenZ at 1. by rewrite length_frame_header. Qed.

Lemma next_frame_Some rx tag payload rest :
  next_frame rx = Some (tag, payload, rest) →
  (length rest + 16 ≤ length rx)%nat ∧ in_u 32 tag.
Proof.
  unfold next_frame, HEADER_LEN. repeat case_match; try done. intros [= <- <- <-].
  rewrite length_drop. apply Z.ltb_ge in H. apply orb_false_iff in H0 as [?%Z.ltb_ge ?%Z.ltb_ge].
  unfold lenZ in *. split; [lia|]. apply (le_val_u 4); [done|].
  rewrite length_take, length_drop. lia.
Qed.

(** Bytes that arrive later do not change the first frame. *)
Lemma next_frame_app rx more tag payload rest :
  next_frame rx = Some (tag, payload, rest) →
  next_frame (rx ++ more) = Some (tag, payload, rest ++ more).
Proof.
  unfold next_frame, HEADER_LEN.
  destruct (lenZ rx <? 16) eqn:E1; [done|].
  apply Z.ltb_ge in E1. rewrite (proj2 (Z.ltb_ge (lenZ _) 16)) by len.
  assert (16 ≤ length rx)%nat by (unfold lenZ in *; lia).
  rewrite take_app_le by lia.
  destruct (_ || _) eqn:E2; [done|].
  apply orb_false_iff in E2 as [E2%Z.ltb_ge E3%Z.ltb_ge].
  zcmp. simpl.
  assert (Z.to_nat (le_val (take 4 rx)) ≤ length rx)%nat by (unfold lenZ in *; lia).
  rewrite !drop_app_le by lia.
  rewrite !take_app_le by (rewrite length_drop; lia).
  by intros [= <- <- <-].
Qed.

Lemma next_frame_frame f more :
  valid_frame f → next_frame (frame f ++ more) = Some (f.1, f.2, more).
Proof.
  destruct f as [tag body]. intros [Htag Hlen]. simpl in *. unfold HEADER_LEN in *.
  pose proof (lenZ_nonneg body).
  unfold next_frame, frame, frame_header, HEADER_LEN. cbn [fst snd].
  rewrite (proj2 (Z.ltb_ge (lenZ _) 16)) by len.
  rewrite <-!(assoc_L (++)).
  rewrite take_app_length' by nlen.
  rewrite le_val_le_bytes_small by (apply wrap_range; lia).
  rewrite wrap_small by (split; lia).
  zcmp. simpl orb.
  set (h := le_bytes 4 (16 + lenZ body) ++ le_bytes 4 VERSION_PLIST ++ le_bytes 4 MSGTYPE_PLIST).
  assert (length h = 12%nat) as Hh by (unfold h; nlen).
  replace (le_bytes 4 (16 + lenZ body) ++ le_bytes 4 VERSION_PLIST ++
    le_bytes 4 MSGTYPE_PLIST ++ le_bytes 4 tag ++ body ++ more)
    with (h ++ le_bytes 4 tag ++ body ++ more) by (unfold h; by rewrite <-!(assoc_L (++))).
  rewrite (drop_app_length' h) by lia.
  rewrite take_app_length' by nlen.
  rewrite le_val_le_bytes_small by done.
  rewrite !(assoc_L (++)), <-(assoc_L (++) _ body).
  rewrite drop_app_length' by (rewrite length_app, Hh; nlen).
  rewrite take_app_length' by (unfold lenZ; lia).
  rewrite (assoc_L (++) _ body), drop_app_length'; [done|].
  rewrite !length_app, Hh. unfold lenZ. nlen.
Qed.

Section proofs.
Context `{PlistLib}.

(** What one frame does to the codec. *)
Definition step_frame (c : Codec) (f : Z * list byte) : Codec :=
  let '(ev, c) := decode_frame f.1 f.2 c in
  match ev with Some e => push_event e c | None => c end.

Lemma decode_frame_rx tag payload r c :
  decode_frame tag payload (set_c_rx r c) =
    ((decode_frame tag payload c).1, set_c_rx r (decode_frame tag payload c).2).
Proof.
  unfold decode_frame. destruct (decode payload) as [env|]; [|done]. simpl.
  repeat first [case_decide|case_match]; simplify_eq; try done.
Qed.

Lemma step_frame_rx c r f : step_frame (set_c_rx r c) f = set_c_rx r (step_frame c f).
Proof.
  unfold step_frame. rewrite decode_frame_rx.
  by destruct (decode_frame f.1 f.2 c) as [[e|] c'].
Qed.

Lemma step_frame_c_rx c f : c_rx (step_frame c f) = c_rx c.
Proof.
  assert (c = set_c_rx (c_rx c) c) as E by (by destruct c).
  rewrite E at 1. by rewrite step_frame_rx.
Qed.

Lemma process_rx_fuel_step fuel c tag payload rest :
  next_frame (c_rx c) = Some (tag, payload, rest) →
  process_rx_fuel (S fuel) c = process_rx_fuel fuel (set_c_rx rest (step_frame c (tag, payload))).
Proof.
  intros Hn. cbn [process_rx_fuel]. rewrite Hn. rewrite <-step_frame_rx.
  unfold step_frame. simpl. by destruct (decode_frame _ _ _).
Qed.

Lemma process_rx_fuel_enough fuel c :
  (length (c_rx c) ≤ fuel)%nat → process_rx_fuel fuel c = process_rx c.
Proof.
  unfold process_rx. remember (length (c_rx c)) as n eqn:Hn.
  revert fuel c Hn. induction (lt_wf n) as [n _ IH]; intros fuel c Hn Hle.
  destruct (next_frame (c_rx c)) as [[[tag payload] rest]|] eqn:E.
  - pose proof (next_frame_Some _ _ _ _ E) as [Hl _].
    destruct fuel as [|fuel]; [lia|]. destruct n as [|n]; [lia|].
    rewrite !(process_rx_fuel_step _ _ _ _ _ E).
    set (c' := set_c_rx rest _).
    assert (length (c_rx c') = length rest) as Hc' by done.
    rewrite (IH (length rest)), (IH (length rest) ltac:(lia) n); [done|by rewrite Hc'|lia|lia|by rewrite Hc'|lia].
  - destruct fuel, n; simpl; by rewrite ?E.
Qed.

(** The loop of [process_rx], unrolled once. *)
Lemma process_rx_step c tag payload rest :
  next_frame (c_rx c) = Some (tag, payload, rest) →
  process_rx c = process_rx (set_c_rx rest (step_frame c (tag, payload))).
Proof.
  intros E. pose proof (next_frame_Some _ _ _ _ E) as [Hl _].
  rewrite <-(process_rx_fuel_enough (S (length (c_rx c)))) by lia.
  rewrite (process_rx_fuel_step _ _ _ _ _ E).
  apply process_rx_fuel_enough. simpl. lia.
Qed.

Lemma process_rx_done c : next_frame (c_rx c) = None → process_rx c = c.
Proof. intros E. unfold process_rx. destruct (length (c_rx c)); simpl; by rewrite ?E. Qed.

Lemma process_rx_app c b :
  process_rx (set_c_rx (c_rx (process_rx c) ++ b) (process_rx c)) =
    process_rx (set_c_rx (c_rx c ++ b) c).
Proof.
  remember (length (c_rx c)) as n eqn:Hn. revert c Hn.
  induction (lt_wf n) as [n _ IH]; intros c ->.
  destruct (next_frame (c_rx c)) as [[[tag payload] rest]|] eqn:E.
  - pose proof (next_frame_Some _ _ _ _ E) as [Hl _].
    rewrite (process_rx_step _ _ _ _ E).
    rewrite (IH (length rest)); [|lia|done].
    rewrite (process_rx_step (set_c_rx (c_rx c ++ b) c) tag payload (rest ++ b))
      by (by apply next_frame_app).
    by rewrite step_frame_rx.
  - by rewrite (process_rx_done c) by done.
Qed.

Lemma push_data_app_aux c a b : push_data b (push_data a c) = push_data (a ++ b) c.
Proof.
  unfold push_data at 1 3. unfold push_data.
  rewrite (process_rx_app (set_c_rx (c_rx c ++ a) c) b). simpl.
  by rewrite <-(assoc_L (++)).
Qed.

Lemma push_data_concat_aux c ls :
  foldl (λ c l, push_data l c) c ls =
    match ls with [] => c | _ => push_data (concat ls) c end.
Proof.
  destruct ls as [|l ls]; [done|]. revert c l.
  induction ls as [|l' ls IH]; intros c l; simpl; [by rewrite app_nil_r|].
  rewrite <-push_data_app_aux. apply (IH (push_data l c) l').
Qed.

Lemma foldl_step_frame_rx fs r c :
  foldl step_frame (set_c_rx r c) fs = set_c_rx r (foldl step_frame c fs).
Proof.
  revert c. induction fs as [|f fs IH]; intros c; simpl; [done|].
  by rewrite step_frame_rx, IH.
Qed.

Lemma process_rx_frames fs t c :
  Forall valid_frame fs → next_frame t = None →
  c_rx c = concat (frame <$> fs) ++ t →
  process_rx c = set_c_rx t (foldl step_frame c fs).
Proof.
  intros Hfs Ht. revert c. induction Hfs as [|f fs Hf _ IH]; intros c Hrx.
  - simpl in Hrx. subst t. rewrite process_rx_done by done. by destruct c.
  - destruct f as [tag payload]. rewrite fmap_cons in Hrx. simpl in Hrx.
    rewrite <-(assoc_L (++)) in Hrx.
    rewrite (process_rx_step c tag payload (concat (frame <$> fs) ++ t))
      by (rewrite Hrx; by apply (next_frame_frame (tag, payload))).
    rewrite IH by done. simpl. by rewrite foldl_step_frame_rx.
Qed.

(** ** Chunking *)

(** The codec does not depend on how the byte stream is cut into reads:
    pushing the pieces one after the other leaves it in the same state, with
    the same events, as pushing their concatenation at once. *)
Theorem push_data_chunking c l ls :
  foldl (λ c l, push_data l c) c (l :: ls) = push_data (concat (l :: ls)) c.
Proof. apply push_data_concat_aux. Qed.

(** C3. The codec refines the frame-by-frame specification: a sequence of
    well-formed frames followed by an incomplete one, pushed in any pieces
    into a codec with an empty buffer, is decoded frame by frame in order,
    and exactly the incomplete frame stays in the buffer. *)
Theorem push_data_frames c l ls fs t :
  c_rx c = [] → Forall valid_frame fs → next_frame t = None →
  concat (l :: ls) = concat (frame <$> fs) ++ t →
  foldl (λ c l, push_data l c) c (l :: ls) = set_c_rx t (foldl step_frame c fs).
Proof.
  intros Hc Hfs Ht Hcat. rewrite push_data_concat_aux, Hcat. unfold push_data.
  rewrite Hc. simpl.
  rewrite (process_rx_frames fs t) by done.
  by rewrite foldl_step_frame_rx.
Qed.

(** A header that declares fewer than 16 bytes is never skipped: once it
    is at the front of the buffer the codec emits nothing more, whatever
    arrives. *)
Theorem short_length_stalls c data :
  16 ≤ lenZ (c_rx c) → le_val (take 4 (c_rx c)) < HEADER_LEN →
  push_data data c = set_c_rx (c_rx c ++ data) c.
Proof.
  intros H1 H2. unfold push_data. apply process_rx_done. simpl.
  unfold next_frame. case_match; [done|].
  rewrite take_app_le by (unfold lenZ in *; lia).
  by rewrite (proj2 (Z.ltb_lt _ _)).
Qed.
End proofs.

(** ** Tags and connects

    The codec as a transition system: any interleaving of requests, incoming
    data and polls.  The ghost fields record the number of requests, the tags
    the connect requests returned and the events handed out. *)

Inductive request : Type :=
  | RListDevices
  | RListen
  | RReadBuid
  | RReadPairRecord (udid : string)
  | RSavePairRecord (udid : string) (record : list byte)
  | RDeletePairRecord (udid : string)
  | RConnect (device_id port : Z).

Record Sys : Type := MkSys {
  sys_codec : Codec;
  sys_requests : Z;
  sys_connects : list Z;
  sys_polled : list Event
}.

Definition connected_tag (e : Event) : option Z :=
  match e with Connected t => Some t | _ => None end.
Definition connected_tags (l : list Event) : list Z := omap connected_tag l.

Section system.
Context `{PlistLib}.

Definition run_request (r : request) : ST Codec Empty_set Z :=
  match r with
  | RListDevices => list_devices
  | RListen => listen
  | RReadBuid => read_buid
  | RReadPairRecord u => read_pair_record u
  | RSavePairRecord u d => save_pair_record u d
  | RDeletePairRecord u => delete_pair_record u
  | RConnect i p => connect i p
  end.

Inductive step : Sys → Sys → Prop :=
  | step_request r c t c' n ts es :
      run_request r c = (Ok t, c') →
      step (MkSys c n ts es)
        (MkSys c' (n + 1) (match r with RConnect _ _ => ts ++ [t] | _ => ts end) es)
  | step_push data c n ts es :
      step (MkSys c n ts es) (MkSys (push_data data c) n ts es)
  | step_poll_write f c c' n ts es :
      poll_write c = (Some f, c') → step (MkSys c n ts es) (MkSys c' n ts es)
  | step_poll_event e c c' n ts es :
      poll_event c = (Some e, c') → step (MkSys c n ts es) (MkSys c' n ts (es ++ [e])).

Definition initial (s : Sys) : Prop := s = MkSys new 0 [] [].
Inductive reachable : Sys → Prop :=
  | reach_init s : initial s → reachable s
  | reach_step s s' : reachable s → step s s' → reachable s'.

(** Everything a request does besides queueing its frame. *)
Lemma run_request_Ok r c t c' :
  run_request r c = (Ok t, c') →
  t = c_next_tag c ∧ c_next_tag c' = Z.max (wrap 32 (t + 1)) 1 ∧
  c_rx c' = c_rx c ∧ c_events c' = c_events c ∧
  c_pending_connects c' =
    match r with RConnect _ _ => c_pending_connects c ++ [t] | _ => c_pending_connects c end.
Proof.
  destruct r; unfold run_request, list_devices, listen, read_buid, read_pair_record,
    save_pair_record, delete_pair_record, connect, send_request, sbind, alloc_tag, lift,
    enqueue_frame, smodify, sret; simpl;
    match goal with |- context [encode ?v] => destruct (encode v) end; simpl;
    intros [= <- <-]; done.
Qed.

Lemma decode_frame_cases tag payload c ev c' :
  decode_frame tag payload c = (ev, c') →
  c_tx c' = c_tx c ∧ c_events c' = c_events c ∧ c_next_tag c' = c_next_tag c ∧
  (c_pending_connects c' = c_pending_connects c ∨
   c_pending_connects c' = filter (λ t, t ≠ tag) (c_pending_connects c)) ∧
  (∀ t, ev = Some (Connected t) →
    t = tag ∧ tag ∈ c_pending_connects c ∧
    c_pending_connects c' = filter (λ t, t ≠ tag) (c_pending_connects c)).
Proof.
  unfold decode_frame. intros Hd.
  destruct (decode payload) as [env|]; [|by simplify_eq; split_and!; auto].
  destruct (decide (default ""%string (message_type env) = "Result"%string)).
  - destruct (existsb _ (c_pending_connects c)) eqn:Hex.
    + apply existsb_exists in Hex as (t & Hin & Heq). apply Z.eqb_eq in Heq as ->.
      apply list_elem_of_In in Hin.
      repeat first [case_decide|case_match]; simplify_eq/=; split_and!; auto; naive_solver.
    + repeat first [case_decide|case_match]; simplify_eq/=; split_and!; auto; naive_solver.
  - repeat first [case_decide|case_match]; simplify_eq/=; split_and!; auto; naive_solver.
Qed.

Lemma connected_tags_app l k : connected_tags (l ++ k) = connected_tags l ++ connected_tags k.
Proof. apply omap_app. Qed.

(** The part of the invariant that decoding a frame preserves. *)
Definition connect_inv (ts : list Z) (es : list Event) (c : Codec) : Prop :=
  NoDup (connected_tags (es ++ c_events c) ++ c_pending_connects c) ∧
  (∀ t, t ∈ connected_tags (es ++ c_events c) ++ c_pending_connects c → t ∈ ts).

Lemma step_frame_inv ts es c f : connect_inv ts es c → connect_inv ts es (step_frame c f).
Proof.
  unfold connect_inv, step_frame. intros [Hnd Hin].
  destruct (decode_frame f.1 f.2 c) as [ev c'] eqn:E.
  apply decode_frame_cases in E as (_ & He & _ & Hp & Hc).
  apply NoDup_app in Hnd as (Hnd1 & Hdisj & Hnd2).
  assert (∀ t, t ∈ c_pending_connects c' → t ∈ c_pending_connects c) as Hsub.
  { intros t. destruct Hp as [->| ->]; [done|]. by rewrite list_elem_of_filter; intros [_ ?]. }
  assert (NoDup (c_pending_connects c')) as Hnd'.
  { destruct Hp as [->| ->]; [done|]. by apply NoDup_filter. }
  destruct ev as [e|]; simpl; rewrite ?He.
  2:{ split; [apply NoDup_app; split_and!; naive_solver|].
      intros t. rewrite elem_of_app. intros [?|?]; apply Hin, elem_of_app; auto. }
  rewrite (assoc_L (++)), (connected_tags_app (es ++ _)).
  destruct (connected_tag e) as [t|] eqn:Et.
  - assert (e = Connected t) as -> by (destruct e; naive_solver).
    destruct (Hc t eq_refl) as (-> & Hmem & Hp'). rewrite Hp' in *. simpl.
    split.
    + rewrite <-(assoc_L (++)). apply NoDup_app. split_and!; [done| |].
      * intros x Hx. simpl. rewrite elem_of_cons, list_elem_of_filter.
        intros [->|[_ Hx']]; eapply Hdisj; eauto.
      * simpl. apply NoDup_cons. split; [|done]. rewrite list_elem_of_filter. naive_solver.
    + intros x. rewrite !elem_of_app, list_elem_of_singleton, list_elem_of_filter.
      intros [[?| ->]|[_ ?]]; apply Hin, elem_of_app; auto.
  - assert (connected_tags [e] = []) as -> by (unfold connected_tags; simpl; by rewrite Et).
    rewrite app_nil_r. split; [apply NoDup_app; split_and!; naive_solver|].
    intros x. rewrite elem_of_app. intros [?|?]; apply Hin, elem_of_app; auto.
Qed.

(** Induction over the frames [process_rx] consumes. *)
Lemma process_rx_ind (P : Codec → Prop) c :
  (∀ c r, P c → P (set_c_rx r c)) → (∀ c f, P c → P (step_frame c f)) →
  P c → P (process_rx c).
Proof.
  intros Hrx Hst. remember (length (c_rx c)) as n eqn:Hn. revert c Hn.
  induction (lt_wf n) as [n _ IH]; intros c -> Hc.
  destruct (next_frame (c_rx c)) as [[[tag payload] rest]|] eqn:E.
  - pose proof (next_frame_Some _ _ _ _ E) as [Hl _].
    rewrite (process_rx_step _ _ _ _ E). eapply IH; [|reflexivity|by auto]. simpl. lia.
  - by rewrite process_rx_done.
Qed.

Lemma push_data_next_tag data c : c_next_tag (push_data data c) = c_next_tag c.
Proof.
  unfold push_data. apply (process_rx_ind (λ c', c_next_tag c' = c_next_tag c)); [done| |done].
  intros c' f <-. unfold step_frame. destruct (decode_frame f.1 f.2 c') as [ev c''] eqn:E.
  apply decode_frame_cases in E as (_ & _ & E & _). by destruct ev.
Qed.

Lemma push_data_inv ts es data c :
  connect_inv ts es c → connect_inv ts es (push_data data c).
Proof.
  intros. unfold push_data.
  apply (process_rx_ind (connect_inv ts es)); [done| |done].
  intros ??. apply step_frame_inv.
Qed.

Definition sys_inv (s : Sys) : Prop :=
  0 ≤ sys_requests s ∧ 1 ≤ c_next_tag (sys_codec s) < 2 ^ 32 ∧
  (sys_requests s < 2 ^ 32 - 1 →
    c_next_tag (sys_codec s) = 1 + sys_requests s ∧
    (∀ t, t ∈ sys_connects s → 1 ≤ t < c_next_tag (sys_codec s)) ∧
    NoDup (sys_connects s) ∧
    connect_inv (sys_connects s) (sys_polled s) (sys_codec s)).

Lemma connect_inv_mono ts t es c :
  connect_inv ts es c → connect_inv (ts ++ [t]) es c.
Proof.
  intros [? Hin]. split; [done|]. intros x Hx. apply elem_of_app. left. by apply Hin.
Qed.

Lemma step_inv s s' : sys_inv s → step s s' → sys_inv s'.
Proof.
  unfold sys_inv. intros (Hn & Hr & Hinv) Hstep.
  destruct Hstep as [r c t c' n ts es Hrun|data c n ts es|f c c' n ts es Hp|e c c' n ts es Hp];
    simpl in *.
  - apply run_request_Ok in Hrun as (-> & Hnt & _ & Hev & Hpend).
    rewrite Hnt. pose proof (wrap_range 32 (c_next_tag c + 1) ltac:(lia)) as [??].
    split_and!; [lia|lia|lia|]. intros Hlt. destruct Hinv as (Hnx & Hts & Hnd & [Hci1 Hci2]); [lia|].
    rewrite wrap_small by (unfold in_u; lia).
    assert (c_next_tag c ∉ ts) as Hfresh by (intros ?%Hts; lia).
    split; [lia|].
    destruct r; try (split_and!; [intros ? ?%Hts; lia|done|unfold connect_inv; by rewrite Hev, Hpend..]).
    split_and!.
    + intros x. rewrite elem_of_app, list_elem_of_singleton. intros [?%Hts| ->]; lia.
    + apply NoDup_app. split_and!; [done| |apply NoDup_singleton].
      intros x Hx. rewrite list_elem_of_singleton. by intros ->.
    + unfold connect_inv. rewrite Hev, Hpend, (assoc_L (++)). split.
      * apply NoDup_app. split_and!; [done| |apply NoDup_singleton].
        intros x Hx%Hci2. rewrite list_elem_of_singleton. by intros ->.
      * intros x. rewrite !(elem_of_app _ [_]). intros [?%Hci2|?]; auto.
  - rewrite push_data_next_tag. split_and!; [lia..|]. intros Hlt.
    destruct (Hinv Hlt) as (?&?&?&?). split_and!; [done..|]. by apply push_data_inv.
  - unfold poll_write in Hp. destruct (c_tx c); simplify_eq/=. done.
  - unfold poll_event in Hp. destruct (c_events c) as [|e' evs] eqn:Ee; simplify_eq/=.
    split_and!; [lia..|]. intros Hlt. destruct (Hinv Hlt) as (?&?&?& Hci).
    split_and!; [done..|]. unfold connect_inv in *. simpl. rewrite Ee in Hci.
    by rewrite <-(assoc_L (++)).
Qed.

Lemma codec_reachable_inv s : reachable s → sys_inv s.
Proof.
  induction 1 as [s ->|s s' _ IH Hs]; [|by eapply step_inv].
  split_and!; simpl; [lia..|]. intros _. split_and!; [done|by intros ? ?%not_elem_of_nil|constructor|].
  split; [constructor|by intros ? ?%not_elem_of_nil].
Qed.

(** Tags are never 0 and always fit 32 bits, whatever the codec is asked
    to do: the next tag of every reachable codec is in [1, 2^32). *)
Theorem tags_in_range s :
  reachable s → 1 ≤ c_next_tag (sys_codec s) < 2 ^ 32.
Proof. intros Hr. by apply codec_reachable_inv in Hr as (_ & ? & _). Qed.

(** As long as tags have not wrapped around, every connect request is
    answered by at most one [Connected] event, counting those already
    polled, and every [Connected] event answers a connect request. *)
Theorem connected_at_most_once s :
  reachable s → sys_requests s < 2 ^ 32 - 1 →
  NoDup (connected_tags (sys_polled s ++ c_events (sys_codec s))) ∧
  ∀ t, t ∈ connected_tags (sys_polled s ++ c_events (sys_codec s)) → t ∈ sys_connects s.
Proof.
  intros Hr Hlt. apply codec_reachable_inv in Hr as (_ & _ & Hinv).
  destruct (Hinv Hlt) as (_ & _ & _ & Hnd & Hin). apply NoDup_app in Hnd as (Hnd & _ & _).
  split; [done|]. intros t Ht. apply Hin, elem_of_app. by left.
Qed.
End system.

(** ** Request frames *)

Definition request_body (r : request) : pval :=
  match r with
  | RListDevices => BaseRequest "ListDevices"
  | RListen => BaseRequest "Listen"
  | RReadBuid => BaseRequest "ReadBUID"
  | RReadPairRecord u => PairRecordRequest "ReadPairRecord" u
  | RSavePairRecord u d => SavePairRecordRequest u d
  | RDeletePairRecord u => PairRecordRequest "DeletePairRecord" u
  | RConnect i p => ConnectRequest i (to_be16 p)
  end.

(** The arguments are representable: text in the UDID, integers in range. *)
Definition request_ok (r : request) : Prop :=
  match r with
  | RReadPairRecord u | RSavePairRecord u _ | RDeletePairRecord u => text_ok u = true
  | RConnect i p => in_u 32 i ∧ in_u 16 p
  | _ => True
  end.

Lemma to_be16_range p : in_u 16 (to_be16 p).
Proof. apply (le_val_u 2); [done|]. apply length_be_bytes. Qed.

Lemma plain_request_body r : request_ok r → plain (request_body r) = true.
Proof.
  destruct r; cbn [request_ok request_body]; intros Hok.
  - by apply plain_BaseRequest.
  - by apply plain_BaseRequest.
  - by apply plain_BaseRequest.
  - by apply plain_PairRecordRequest.
  - by apply plain_SavePairRecordRequest.
  - by apply plain_PairRecordRequest.
  - destruct Hok. apply plain_ConnectRequest; [done|apply to_be16_range].
Qed.

Definition tick (t : Z) : Z := Z.max (wrap 32 (t + 1)) 1.

Lemma run_request_ok `{PlistLaws} r c :
  request_ok r →
  run_request r c =
    (Ok (c_next_tag c),
     MkCodec (c_rx c) (c_tx c ++ [frame (c_next_tag c, xml (request_body r))]) (c_events c)
       (tick (c_next_tag c))
       (match r with
        | RConnect _ _ => c_pending_connects c ++ [c_next_tag c]
        | _ => c_pending_connects c
        end)).
Proof.
  intros Hok. apply plain_request_body, to_writer_xml_plain in Hok.
  destruct r; simpl in Hok |- *;
    unfold list_devices, listen, read_buid, read_pair_record, save_pair_record,
      delete_pair_record, connect, send_request, sbind, alloc_tag, lift, encode,
      enqueue_frame, smodify, sret; simpl; rewrite Hok; done.
Qed.

(** ** The event queue *)

Definition prepend_events (pre : list Event) (c : Codec) : Codec :=
  MkCodec (c_rx c) (c_tx c) (pre ++ c_events c) (c_next_tag c) (c_pending_connects c).

Section events.
Context `{PlistLib}.

Lemma decode_frame_prepend tag payload pre c :
  decode_frame tag payload (prepend_events pre c) =
    ((decode_frame tag payload c).1, prepend_events pre (decode_frame tag payload c).2).
Proof.
  unfold decode_frame. destruct (decode payload) as [env|]; [|done]. simpl.
  repeat first [case_decide|case_match]; simplify_eq; try done.
Qed.

Lemma step_frame_prepend pre c f :
  step_frame (prepend_events pre c) f = prepend_events pre (step_frame c f).
Proof.
  unfold step_frame. rewrite decode_frame_prepend.
  destruct (decode_frame f.1 f.2 c) as [[e|] c']; simpl; [|done].
  unfold push_event, prepend_events. simpl. by rewrite <-(assoc_L (++)).
Qed.

Lemma process_rx_prepend pre c :
  process_rx (prepend_events pre c) = prepend_events pre (process_rx c).
Proof.
  remember (length (c_rx c)) as n eqn:Hn. revert c Hn.
  induction (lt_wf n) as [n _ IH]; intros c ->.
  destruct (next_frame (c_rx c)) as [[[tag payload] rest]|] eqn:E.
  - pose proof (next_frame_Some _ _ _ _ E) as [Hl _].
    rewrite (process_rx_step (prepend_events pre c) _ _ _ E), (process_rx_step c _ _ _ E).
    rewrite step_frame_prepend. by rewrite <-(IH (length rest)); [|lia|].
  - by rewrite !process_rx_done.
Qed.

Lemma push_data_prepend data pre c :
  push_data data (prepend_events pre c) = prepend_events pre (push_data data c).
Proof. unfold push_data. by rewrite <-process_rx_prepend. Qed.

(** Events only accumulate. *)
Lemma push_data_events data c :
  ∃ new, c_events (push_data data c) = c_events c ++ new ∧
    c_events (push_data data (MkCodec (c_rx c) (c_tx c) [] (c_next_tag c)
      (c_pending_connects c))) = new.
Proof.
  eexists. split; [|reflexivity].
  assert (c = prepend_events (c_events c) (MkCodec (c_rx c) (c_tx c) [] (c_next_tag c)
      (c_pending_connects c))) as E by (destruct c; unfold prepend_events; simpl; by rewrite app_nil_r).
  rewrite E at 1. by rewrite push_data_prepend.
Qed.

(** A frame takes at least 16 bytes and yields at most one event. *)
Lemma process_rx_size c :
  (length (c_events (process_rx c)) + length (c_rx (process_rx c)) ≤
    length (c_events c) + length (c_rx c))%nat.
Proof.
  remember (length (c_rx c)) as n eqn:Hn. revert c Hn.
  induction (lt_wf n) as [n _ IH]; intros c ->.
  destruct (next_frame (c_rx c)) as [[[tag payload] rest]|] eqn:E.
  - pose proof (next_frame_Some _ _ _ _ E) as [Hl _].
    rewrite (process_rx_step c _ _ _ E).
    etrans; [apply (IH (length rest)); [lia|done]|]. simpl.
    unfold step_frame. destruct (decode_frame _ _ c) as [ev c'] eqn:Ed.
    apply decode_frame_cases in Ed as (_ & He & _).
    destruct ev; simpl; rewrite ?length_app, He; simpl; lia.
  - by rewrite process_rx_done.
Qed.

Lemma push_data_size data c :
  (length (c_events (push_data data c)) + length (c_rx (push_data data c)) ≤
    length (c_events c) + length (c_rx c) + length data)%nat.
Proof.
  unfold push_data. etrans; [apply process_rx_size|]. simpl. rewrite length_app. lia.
Qed.

Lemma push_data_tx data c :
  c_tx (push_data data c) = c_tx c ∧ c_next_tag (push_data data c) = c_next_tag c.
Proof.
  split; [|apply push_data_next_tag]. unfold push_data.
  apply (process_rx_ind (λ c', c_tx c' = c_tx c)); [done| |done].
  intros c' f <-. unfold step_frame. destruct (decode_frame f.1 f.2 c') as [ev c''] eqn:E.
  apply decode_frame_cases in E as (E & _). by destruct ev.
Qed.
End events.

(** No complete frame is waiting in the buffer. *)
Definition drained (c : Codec) : Prop := next_frame (c_rx c) = None.

Lemma push_data_nil `{PlistLib} c : drained c → push_data [] c = c.
Proof.
  intros Hd. unfold push_data. rewrite app_nil_r, process_rx_done by done. by destruct c.
Qed.

Lemma push_data_drained `{PlistLib} data c : drained (push_data data c).
Proof.
  unfold push_data. generalize (set_c_rx (c_rx c ++ data) c). clear c data. intros c.
  remember (length (c_rx c)) as n eqn:Hn. revert c Hn.
  induction (lt_wf n) as [n _ IH]; intros c ->.
  destruct (next_frame (c_rx c)) as [[[tag payload] rest]|] eqn:E.
  - pose proof (next_frame_Some _ _ _ _ E) as [Hl _].
    rewrite (process_rx_step c _ _ _ E). eapply (IH (length rest)); [lia|done].
  - by rewrite process_rx_done.
Qed.

(** ** Witnesses *)

Section witnesses.
#[local] Existing Instance BitPlist.lib.

Definition sample_result : list byte :=
  default [] (encode (PDict (dict ["MessageType" =>> PString "Result"; "Number" =>> PInt 0]))).
Definition sample_frames : list (Z * list byte) := [(1, sample_result); (2, []); (3, sample_result)].
Definition sample_bytes : list byte := concat (frame <$> sample_frames) ++ [x10; x00].

Lemma push_data_frames_witness :
  foldl (λ c l, push_data l c) new (take 20 sample_bytes :: [drop 20 sample_bytes]) =
    set_c_rx [x10; x00] (foldl step_frame new sample_frames).
Proof.
  apply push_data_frames.
  - reflexivity.
  - repeat constructor; vm_compute; try reflexivity; discriminate.
  - reflexivity.
  - vm_compute. reflexivity.
Defined.

Lemma short_length_stalls_witness :
  push_data [x2a] (set_c_rx (replicate 16 x00) new) =
    set_c_rx (c_rx (set_c_rx (replicate 16 x00) new) ++ [x2a]) (set_c_rx (replicate 16 x00) new).
Proof.
  apply short_length_stalls.
  - vm_compute. discriminate.
  - vm_compute. reflexivity.
Defined.

(** A connect, its successful reply, and the event handed out. *)
Definition sample_sys : Sys :=
  MkSys (poll_event (push_data (frame (1, sample_result)) (connect 7 62078 new).2)).2
    1 [1] [Connected 1].
Lemma sample_sys_reachable : reachable sample_sys.
Proof.
  eapply (reach_step (MkSys (push_data (frame (1, sample_result)) (connect 7 62078 new).2) 1 [1] [])).
  - eapply (reach_step (MkSys (connect 7 62078 new).2 1 [1] [])).
    + eapply (reach_step (MkSys new 0 [] [])); [by apply reach_init|].
      apply (step_request (RConnect 7 62078) new 1). vm_compute. reflexivity.
    + apply step_push.
  - apply (step_poll_event (Connected 1)). vm_compute. reflexivity.
Qed.

Lemma tags_in_range_witness : 1 ≤ c_next_tag (sys_codec sample_sys) < 2 ^ 32.
Proof. apply (tags_in_range sample_sys), sample_sys_reachable. Defined.

Lemma connected_at_most_once_witness :
  NoDup (connected_tags (sys_polled sample_sys ++ c_events (sys_codec sample_sys))) ∧
  ∀ t, t ∈ connected_tags (sys_polled sample_sys ++ c_events (sys_codec sample_sys)) →
    t ∈ sys_connects sample_sys.
Proof.
  apply (connected_at_most_once sample_sys).
  - apply sample_sys_reachable.
  - vm_compute. reflexivity.
Defined.
End witnesses.
