(* ===== verification/UsbmuxConn.v ===== *)
(** * usbmux: the blocking connection

    [src/usbmux/connection.rs]: a socket and a codec; every request flushes
    the codec's frames and then reads until the event it waits for arrives. *)

From S2P Require Import Prelude RustStd Io Plist UsbmuxTypes UsbmuxCodec.

Record Conn : Type := MkConn { socket : stream; codec : Codec }.

Definition on_socket {A} (m : ST stream io_error A) : ST Conn Error A :=
  zoom socket (λ s c, MkConn s (codec c)) (smap_err EIo m).
(** The codec's requests cannot fail, they can only panic. *)
Definition on_codec {A} (m : ST Codec Empty_set A) : ST Conn Error A :=
  zoom codec (λ k c, MkConn (socket c) k) (smap_err (λ e : Empty_set, match e with end) m).

Definition from_stream (s : stream) : Conn := MkConn s new.

Section conn.
Context `{PlistLib}.

(** The frames leave in order; one write each, then one flush. *)
Fixpoint flush_fuel (fuel : nat) : ST Conn Error unit := λ c,
  match fuel with
  | O => (OutOfFuel, c)
  | S fuel =>
      match poll_write (codec c) with
      | (Some frame, k) =>
          (on_socket (write_all frame) ;;; flush_fuel fuel) (MkConn (socket c) k)
      | (None, k) => on_socket flush (MkConn (socket c) k)
      end
  end.
Definition flush_conn : ST Conn Error unit :=
  λ c, flush_fuel (S (length (c_tx (codec c)))) c.

(** Every iteration returns or consumes something the peer delivers. *)
Fixpoint next_event_fuel (fuel : nat) : ST Conn Error Event := λ c,
  match fuel with
  | O => (OutOfFuel, c)
  | S fuel =>
      match poll_event (codec c) with
      | (Some ev, k) => (Ok ev, MkConn (socket c) k)
      | (None, k) =>
          (let! buf := on_socket (read 4096) in
           match buf with
           | [] => sfail EConnectionClosed
           | _ =>
               smodify (λ c, MkConn (socket c) (push_data buf (codec c))) ;;;
               next_event_fuel fuel
           end) (MkConn (socket c) k)
      end
  end.
Definition next_event : ST Conn Error Event :=
  λ c, next_event_fuel (S (rx_size (rx (socket c)))) c.

(** [loop { match self.next_event()? { .. => return r, _ => continue } }]: the
    handler answers [Some r] to return and [None] to continue. *)
Fixpoint event_loop_fuel {A} (fuel : nat) (h : Event → option (outcome Error A))
    : ST Conn Error A :=
  match fuel with
  | O => lift OutOfFuel
  | S fuel =>
      let! ev := next_event in
      match h ev with
      | Some r => lift r
      | None => event_loop_fuel fuel h
      end
  end.

(** A bound on the events still to come: those queued, and one for every
    byte that is buffered or that the peer delivers. *)
Definition pending_size (c : Conn) : nat :=
  length (c_events (codec c)) + length (c_rx (codec c)) + rx_size (rx (socket c)).
Definition event_loop {A} (h : Event → option (outcome Error A)) : ST Conn Error A :=
  λ c, event_loop_fuel (S (pending_size c)) h c.

Definition conn_list_devices : ST Conn Error (list Device) :=
  let! tag := on_codec list_devices in
  flush_conn ;;;
  event_loop (λ ev, match ev with
                    | DeviceList devs => Some (Ok devs)
                    | RequestFailedEv t _ =>
                        if t =? tag then Some (Err (ERequestFailed BadDevice)) else None
                    | _ => None
                    end).

Definition conn_read_buid : ST Conn Error string :=
  let! _ := on_codec read_buid in
  flush_conn ;;;
  event_loop (λ ev, match ev with Buid b => Some (Ok b) | _ => None end).

Definition conn_read_pair_record (udid : string) : ST Conn Error (list byte) :=
  let! _ := on_codec (read_pair_record udid) in
  flush_conn ;;;
  event_loop (λ ev, match ev with PairRecordEv _ r => Some (Ok r) | _ => None end).

Definition conn_delete_pair_record (udid : string) : ST Conn Error unit :=
  let! _ := on_codec (delete_pair_record udid) in
  flush_conn ;;;
  let! ev := next_event in
  match ev with
  | RequestFailedEv _ _ => sfail (ERequestFailed BadDevice)
  | _ => sret tt
  end.

Definition conn_save_pair_record (udid : string) (record : list byte) : ST Conn Error unit :=
  let! _ := on_codec (save_pair_record udid record) in
  flush_conn ;;;
  let! ev := next_event in
  match ev with
  | RequestFailedEv _ _ => sfail (ERequestFailed BadDevice)
  | _ => sret tt
  end.

(** Consumes the connection: only the socket survives, the codec and what
    it has buffered are dropped. *)
Definition open_tunnel (device_id port : Z) : ST Conn Error stream :=
  let! tag := on_codec (connect device_id port) in
  flush_conn ;;;
  event_loop (λ ev, match ev with
                    | Connected t => if t =? tag then Some (Ok tt) else None
                    | RequestFailedEv _ code => Some (Err (ERequestFailed code))
                    | _ => None
                    end) ;;;
  let! c := sget in sret (socket c).

(** [Connection::listen] returns the connection as a [Listener]. *)
Definition conn_listen : ST Conn Error unit :=
  let! _ := on_codec listen in flush_conn.

(** [Listener::next] *)
Definition listener_next : ST Conn Error Event :=
  event_loop (λ ev, match ev with
                    | DeviceAttached _ | DeviceDetached _ => Some (Ok ev)
                    | RequestFailedEv _ code => Some (Err (ERequestFailed code))
                    | _ => None
                    end).
End conn.

(** ** What the blocking calls return

    The events a connection is going to see are determined by the bytes its
    peer delivers, not by how they are cut into reads: they are those of the
    codec after all the bytes have been pushed. *)

Definition with_events (es : list Event) (k : Codec) : Codec :=
  MkCodec (c_rx k) (c_tx k) es (c_next_tag k) (c_pending_connects k).

Section spec.
Context `{PlistLib}.

(** [sees c kf r]: the peer delivers bytes that take the codec of [c] to
    [kf], and [r] comes after them. *)
Definition sees (c : Conn) (kf : Codec) (r : list rd_event) : Prop :=
  ∃ l, delivers (rx (socket c)) l r ∧ drained (codec c) ∧ push_data l (codec c) = kf.

Definition same_out (c c' : Conn) : Prop :=
  tx (socket c') = tx (socket c) ∧ wq (socket c') = wq (socket c).

Lemma poll_event_cons e es k :
  c_events k = e :: es → poll_event k = (Some e, with_events es k).
Proof. unfold poll_event. by intros ->. Qed.
Lemma poll_event_nil k : c_events k = [] → poll_event k = (None, k).
Proof. unfold poll_event. by intros ->. Qed.

Lemma with_events_prepend e es k :
  c_events k = e :: es → k = prepend_events [e] (with_events es k).
Proof. destruct k; simpl. by intros ->. Qed.

Lemma next_event_sees_fuel fuel c kf r e es :
  (rx_size (rx (socket c)) < fuel)%nat →
  sees c kf r → c_events kf = e :: es →
  ∃ c', next_event_fuel fuel c = (Ok e, c') ∧ sees c' (with_events es kf) r ∧ same_out c c'.
Proof.
  revert c. induction fuel as [|fuel IH]; intros c Hf (l & Hd & Hdr & Hkf) Hev; [lia|].
  cbn [next_event_fuel].
  destruct (c_events (codec c)) as [|e0 es0] eqn:Ee.
  - rewrite (poll_event_nil _ Ee). unfold on_socket, zoom, smap_err, sbind. simpl.
    apply delivers_inv in Hd as [[-> _]|(p & r0 & l0 & Hp & Hd0 & Hrx & ->)].
    { rewrite push_data_nil in Hkf by done. subst kf. congruence. }
    destruct (read_delivers 4096 (socket c) p r0 l0 r)
      as (c1 & r1 & l1 & Hr & Hc1 & _ & Hcat & Hd1 & _); [done..|].
    pose proof (read_size 4096 _ _ _ ltac:(lia) Hr) as [_ Hsz].
    rewrite Hr. simpl. destruct c1 as [|b c1]; [done|].
    unfold smodify. simpl.
    destruct (IH (MkConn (set_rx r1 (socket c)) (push_data (b :: c1) (codec c))))
      as (c' & Hn & Hs & Hsame).
    + specialize (Hsz ltac:(done)). simpl in Hsz |- *. lia.
    + exists l1. simpl. split_and!; [done|apply push_data_drained|].
      by rewrite push_data_app_aux, <-Hcat.
    + done.
    + exists c'. done.
  - rewrite (poll_event_cons _ _ _ Ee).
    rewrite (with_events_prepend _ _ _ Ee), push_data_prepend in Hkf.
    rewrite <-Hkf in Hev. simpl in Hev. injection Hev as -> Hev.
    eexists. split; [done|]. split; [|done].
    exists l. simpl. split_and!; [done|done|].
    rewrite <-Hkf. simpl. rewrite <-Hev. by destruct (push_data l _).
Qed.

Lemma next_event_sees c kf r e es :
  sees c kf r → c_events kf = e :: es →
  ∃ c', next_event c = (Ok e, c') ∧ sees c' (with_events es kf) r ∧ same_out c c'.
Proof. intros. unfold next_event. eapply next_event_sees_fuel; eauto. Qed.

Lemma next_event_closed_fuel fuel c kf :
  (rx_size (rx (socket c)) < fuel)%nat → sees c kf [] → c_events kf = [] →
  ∃ c', next_event_fuel fuel c = (Err EConnectionClosed, c').
Proof.
  revert c. induction fuel as [|fuel IH]; intros c Hf (l & Hd & Hdr & Hkf) Hev; [lia|].
  cbn [next_event_fuel].
  destruct (push_data_events l (codec c)) as (new & Hnew & _).
  rewrite Hkf, Hev in Hnew. symmetry in Hnew. apply app_eq_nil in Hnew as [Ee _].
  rewrite (poll_event_nil _ Ee). unfold on_socket, zoom, smap_err, sbind. simpl.
  apply delivers_inv in Hd as [[-> Hrx]|(p & r0 & l0 & Hp & Hd0 & Hrx & ->)].
  - unfold read. rewrite Hrx. simpl. eauto.
  - destruct (read_delivers 4096 (socket c) p r0 l0 [])
      as (c1 & r1 & l1 & Hr & Hc1 & _ & Hcat & Hd1 & _); [done..|].
    pose proof (read_size 4096 _ _ _ ltac:(lia) Hr) as [_ Hsz].
    rewrite Hr. simpl. destruct c1 as [|b c1]; [done|].
    unfold smodify. simpl. apply IH.
    + specialize (Hsz ltac:(done)). simpl in Hsz |- *. lia.
    + exists l1. simpl. split_and!; [done|apply push_data_drained|].
      by rewrite push_data_app_aux, <-Hcat.
    + done.
Qed.

Lemma next_event_closed c kf :
  sees c kf [] → c_events kf = [] → ∃ c', next_event c = (Err EConnectionClosed, c').
Proof. intros. unfold next_event. eapply next_event_closed_fuel; eauto. Qed.

(** The first event a handler answers, with the events left over. *)
Fixpoint scan {A} (h : Event → option (outcome Error A)) (es : list Event)
    : option (outcome Error A * list Event) :=
  match es with
  | [] => None
  | e :: es => match h e with Some r => Some (r, es) | None => scan h es end
  end.

Lemma event_loop_scan_fuel {A} fuel (h : Event → option (outcome Error A)) c kf r res es :
  (length (c_events kf) < fuel)%nat → sees c kf r →
  scan h (c_events kf) = Some (res, es) →
  ∃ c', event_loop_fuel fuel h c = (res, c') ∧ sees c' (with_events es kf) r ∧ same_out c c'.
Proof.
  revert c kf. induction fuel as [|fuel IH]; intros c kf Hf Hs Hscan; [lia|].
  destruct (c_events kf) as [|e es'] eqn:Ee; [done|]. simpl in Hscan.
  destruct (next_event_sees c kf r e es' Hs Ee) as (c' & Hn & Hs' & Hsame).
  cbn [event_loop_fuel]. unfold sbind. rewrite Hn.
  destruct (h e) as [r'|]; simplify_eq; [by exists c'|].
  destruct (IH c' (with_events es' kf)) as (c'' & Hl & Hs'' & Hsame'); [simpl in *; lia|done|done|].
  exists c''. split_and!; [done|done|]. destruct Hsame, Hsame'. split; congruence.
Qed.

Lemma event_loop_closed_fuel {A} fuel (h : Event → option (outcome Error A)) c kf :
  (length (c_events kf) < fuel)%nat → sees c kf [] →
  scan h (c_events kf) = None →
  ∃ c', event_loop_fuel fuel h c = (Err EConnectionClosed, c').
Proof.
  revert c kf. induction fuel as [|fuel IH]; intros c kf Hf Hs Hscan; [lia|].
  cbn [event_loop_fuel]. unfold sbind.
  destruct (c_events kf) as [|e es'] eqn:Ee.
  - destruct (next_event_closed c kf Hs Ee) as (c' & ->). eauto.
  - simpl in Hscan. destruct (next_event_sees c kf [] e es' Hs Ee) as (c' & -> & Hs' & _).
    destruct (h e) as [r'|]; [done|].
    apply (IH c' (with_events es' kf)); [simpl in *; lia|done|done].
Qed.

Lemma sees_size c kf r : sees c kf r → (length (c_events kf) ≤ pending_size c)%nat.
Proof.
  intros (l & Hd & _ & <-). pose proof (push_data_size l (codec c)).
  pose proof (delivers_size _ _ _ Hd). unfold pending_size. lia.
Qed.

Lemma event_loop_scan {A} (h : Event → option (outcome Error A)) c kf r res es :
  sees c kf r → scan h (c_events kf) = Some (res, es) →
  ∃ c', event_loop h c = (res, c') ∧ sees c' (with_events es kf) r ∧ same_out c c'.
Proof.
  intros Hs. unfold event_loop. apply event_loop_scan_fuel; [|done].
  pose proof (sees_size _ _ _ Hs). lia.
Qed.

Lemma event_loop_closed {A} (h : Event → option (outcome Error A)) c kf :
  sees c kf [] → scan h (c_events kf) = None →
  ∃ c', event_loop h c = (Err EConnectionClosed, c').
Proof.
  intros Hs. unfold event_loop. apply event_loop_closed_fuel; [|done].
  pose proof (sees_size _ _ _ Hs). lia.
Qed.

(** *** What a listener is told *)

Lemma scan_split {A} (h : Event → option (outcome Error A)) es r es' :
  scan h es = Some (r, es') →
  ∃ pre e, es = pre ++ e :: es' ∧ h e = Some r ∧ Forall (λ e, h e = None) pre.
Proof.
  induction es as [|e es IH]; cbn [scan]; [done|]. destruct (h e) as [r'|] eqn:E.
  - intros [= <- <-]. by exists [], e.
  - intros (pre & e' & -> & He & Hp)%IH. exists (e :: pre), e'. split_and!; [done|done|by constructor].
Qed.
Lemma scan_None {A} (h : Event → option (outcome Error A)) es :
  scan h es = None → Forall (λ e, h e = None) es.
Proof.
  induction es as [|e es IH]; cbn [scan]; [by constructor|]. destruct (h e) eqn:E; [done|].
  intros Hs. constructor; [done|by apply IH].
Qed.

Definition presence (e : Event) : bool :=
  match e with DeviceAttached _ | DeviceDetached _ => true | _ => false end.
Definition refusal (e : Event) : bool := match e with RequestFailedEv _ _ => true | _ => false end.
Definition no_refusal (kf : Codec) : Prop := Forall (λ e, refusal e = false) (c_events kf).
(** The devices that come and go, in order *)
Definition told (kf : Codec) : list Event := filter presence (c_events kf).

Lemma filter_absent es : Forall (λ e, presence e = false) es → filter presence es = [].
Proof. induction 1 as [|e es He _ IH]; [done|]. rewrite filter_cons_False; [exact IH|]. rewrite He. by intros []. Qed.

Lemma listener_next_told c kf :
  sees c kf [] → no_refusal kf →
  match told kf with
  | [] => ∃ c', listener_next c = (Err EConnectionClosed, c')
  | e :: es => ∃ c' kf', listener_next c = (Ok e, c') ∧ sees c' kf' [] ∧ no_refusal kf' ∧ told kf' = es
  end.
Proof.
  unfold told, no_refusal, listener_next. intros Hs Hr.
  set (h := λ ev, match ev with
                  | DeviceAttached _ | DeviceDetached _ => Some (Ok ev)
                  | RequestFailedEv _ code => Some (Err (ERequestFailed code))
                  | _ => None
                  end : option (outcome Error Event)).
  assert (∀ es, Forall (λ e, h e = None) es → filter presence es = []) as Hnone.
  { intros es He. apply filter_absent. eapply Forall_impl; [exact He|]. by intros []. }
  destruct (scan h (c_events kf)) as [[r es]|] eqn:E.
  - destruct (event_loop_scan h c kf [] r es Hs E) as (c' & Hc & Hs' & _).
    apply scan_split in E as (pre & e & Hes & He & Hpre%Hnone). rewrite Hes in Hr |- *.
    apply Forall_app in Hr as [_ [Hre Hres]%Forall_cons].
    rewrite filter_app, Hpre. cbn [app].
    destruct e; try done; rewrite filter_cons_True by done; injection He as <-;
      (exists c', (with_events es kf); split_and!; [exact Hc|done|done|done]).
  - rewrite Hnone by (by apply scan_None). by eapply event_loop_closed.
Qed.
Lemma told_size c kf r : sees c kf r → (length (told kf) ≤ pending_size c)%nat.
Proof. intros Hs%sees_size. unfold told. pose proof (length_filter presence (c_events kf)). lia. Qed.

(** ** Every call returns *)

Lemma next_event_fuel_total fuel c :
  (rx_size (rx (socket c)) < fuel)%nat →
  match next_event_fuel fuel c with
  | (Ok _, c') => (pending_size c' < pending_size c)%nat
  | (Err _, _) => True
  | _ => False
  end.
Proof.
  revert c. induction fuel as [|fuel IH]; intros c Hf; [lia|]. cbn [next_event_fuel].
  destruct (c_events (codec c)) as [|e es] eqn:Ee.
  - rewrite (poll_event_nil _ Ee). unfold on_socket, zoom, smap_err, sbind. simpl.
    destruct (read 4096 (socket c)) as [[buf|e| |] s'] eqn:Hr; simpl; try done.
    + pose proof (read_size 4096 _ _ _ ltac:(lia) Hr) as [Hsz Hlt].
      destruct buf as [|b buf]; [done|]. specialize (Hlt ltac:(done)).
      unfold smodify. simpl.
      specialize (IH (MkConn s' (push_data (b :: buf) (codec c)))). simpl in IH.
      specialize (IH ltac:(lia)).
      destruct (next_event_fuel fuel _) as [[ev| | |] c']; try done.
      pose proof (push_data_size (b :: buf) (codec c)).
      unfold pending_size in *. simpl in *. lia.
    + unfold read in Hr. repeat case_match; simplify_eq.
    + unfold read in Hr. repeat case_match; simplify_eq.
  - rewrite (poll_event_cons _ _ _ Ee). unfold pending_size. simpl. rewrite Ee. simpl. lia.
Qed.

Lemma event_loop_total {A} (h : Event → option (outcome Error A)) c :
  (∀ e r, h e = Some r → r ≠ OutOfFuel ∧ r ≠ Panic) →
  (event_loop h c).1 ≠ OutOfFuel ∧ (event_loop h c).1 ≠ Panic.
Proof.
  intros Hh. unfold event_loop.
  assert (pending_size c < S (pending_size c))%nat as Hf by lia.
  revert Hf. generalize (S (pending_size c)). intros fuel. revert c.
  induction fuel as [|fuel IH]; intros c Hf; [lia|]. cbn [event_loop_fuel]. unfold sbind.
  pose proof (next_event_fuel_total (S (rx_size (rx (socket c)))) c ltac:(lia)) as Ht.
  unfold next_event. destruct (next_event_fuel _ c) as [[ev| | |] c']; simpl; try done.
  destruct (h ev) as [r|] eqn:E; [by apply Hh in E|]. apply IH. lia.
Qed.

(** ** Requests *)

Lemma flush_conn_one f k s :
  c_tx k = [f] → healthy s →
  flush_conn (MkConn s k) =
    (Ok tt, MkConn (append_tx f s) (MkCodec (c_rx k) [] (c_events k) (c_next_tag k)
      (c_pending_connects k))).
Proof.
  intros Htx Hs. unfold flush_conn. simpl. rewrite Htx. cbn [length flush_fuel].
  unfold poll_write. simpl. rewrite Htx.
  unfold on_socket, zoom, smap_err, sbind. simpl.
  rewrite write_all_healthy by done. simpl.
  rewrite flush_healthy by done. done.
Qed.
End spec.

(** A request sends its frame, takes the next tag and leaves the codec waiting. *)
Definition after_request (r : request) (k : Codec) : Codec :=
  MkCodec (c_rx k) [] (c_events k) (tick (c_next_tag k))
    (match r with
     | RConnect _ _ => c_pending_connects k ++ [c_next_tag k]
     | _ => c_pending_connects k
     end).

Lemma request_flush `{PlistLaws} {A} r (cont : Z → ST Conn Error A) c :
  request_ok r → healthy (socket c) → c_tx (codec c) = [] →
  (let! tag := on_codec (run_request r) in flush_conn ;;; cont tag) c =
    cont (c_next_tag (codec c))
      (MkConn (append_tx (frame (c_next_tag (codec c), xml (request_body r))) (socket c))
        (after_request r (codec c))).
Proof.
  intros Hok Hs Htx. unfold sbind at 1, on_codec, zoom, smap_err. simpl.
  rewrite run_request_ok by done. simpl. unfold sbind.
  erewrite flush_conn_one; [|simpl; by rewrite Htx|done]. done.
Qed.

Section calls.
Context `{PlistLaws}.

Definition list_devices_handler (tag : Z) (ev : Event) : option (outcome Error (list Device)) :=
  match ev with
  | DeviceList devs => Some (Ok devs)
  | RequestFailedEv t _ => if t =? tag then Some (Err (ERequestFailed BadDevice)) else None
  | _ => None
  end.

(** What a call does on a fresh connection whose peer will deliver [l]. *)
Lemma call_spec {A} r (h : Z → Event → option (outcome Error A)) s l r' :
  request_ok r → healthy s → delivers (rx s) l r' →
  sees (MkConn (append_tx (frame (1, xml (request_body r))) s) (after_request r new))
    (push_data l (after_request r new)) r' ∧
  (let! tag := on_codec (run_request r) in flush_conn ;;; event_loop (h tag)) (from_stream s) =
    event_loop (h 1) (MkConn (append_tx (frame (1, xml (request_body r))) s) (after_request r new)).
Proof.
  intros Hok Hs Hd. split; [by exists l|]. by rewrite request_flush.
Qed.

(** [list_devices] on a fresh connection: the bytes written are exactly
    one ListDevices frame with tag 1; the result is the first device list, or
    the first failure of this very request, among the events that the
    delivered bytes encode, and other events are skipped. *)
Theorem list_devices_result s l r res es :
  healthy s → delivers (rx s) l r →
  scan (list_devices_handler 1) (c_events (push_data l (after_request RListDevices new)))
    = Some (res, es) →
  ∃ c', conn_list_devices (from_stream s) = (res, c') ∧
    tx (socket c') = tx s ++ frame (1, xml (BaseRequest "ListDevices")).
Proof.
  intros Hs Hd Hscan.
  destruct (call_spec RListDevices list_devices_handler s l r) as [Hsees Hrun]; [done..|].
  destruct (event_loop_scan _ _ _ _ _ _ Hsees Hscan) as (c' & Hl & _ & [Htx _]).
  exists c'. split; [|done]. etrans; [apply Hrun|done].
Qed.

(** [read_pair_record] ignores a failed request: when the peer answers
    with anything but a pair record, an error result included, the call does
    not report it but goes on reading until the connection is closed. *)
Theorem read_pair_record_ignores_failure s l udid :
  text_ok udid = true → healthy s → delivers (rx s) l [] →
  (∀ ev, ev ∈ c_events (push_data l (after_request (RReadPairRecord udid) new)) →
    ∀ u d, ev ≠ PairRecordEv u d) →
  ∃ c', conn_read_pair_record udid (from_stream s) = (Err EConnectionClosed, c').
Proof.
  intros Hu Hs Hd Hev.
  destruct (call_spec (RReadPairRecord udid) (λ _ ev, match ev with
      PairRecordEv _ r => Some (Ok r) | _ => None end) s l []) as [Hsees Hrun]; [done..|].
  destruct (event_loop_closed (A:=list byte) (λ ev, match ev with
    PairRecordEv _ r => Some (Ok r) | _ => None end) _ _ Hsees) as (c' & Hl).
  - revert Hev. generalize (c_events (push_data l (after_request (RReadPairRecord udid) new))).
    induction l0 as [|e es IH]; intros Hev; simpl; [done|].
    destruct e; try (apply IH; intros; apply Hev; by right).
    exfalso. eapply Hev; [by left|done].
  - exists c'. etrans; [apply Hrun|done].
Qed.

Lemma next_event_one_read c p r e es :
  rx (socket c) = RData p :: r → lenZ p ≤ 4096 → p ≠ [] → c_events (codec c) = [] →
  c_events (push_data p (codec c)) = e :: es →
  next_event c = (Ok e, MkConn (set_rx r (socket c)) (with_events es (push_data p (codec c)))).
Proof.
  intros Hrx Hlen Hp Hq Hev. unfold next_event. rewrite Hrx.
  cbn [next_event_fuel]. rewrite (poll_event_nil _ Hq).
  unfold sbind, on_socket, zoom, smap_err, read. cbn [socket]. rewrite Hrx.
  rewrite (proj2 (Z.leb_le _ _)) by done. simpl.
  destruct p as [|b p]; [done|]. unfold smodify. cbn [socket codec].
  cbn [length rx_size sum_list_with Nat.add next_event_fuel]. by rewrite (poll_event_cons _ _ _ Hev).
Qed.

(** The reply to a pending connect comes first, whatever follows it. *)
Lemma push_reply_events k body extra :
  c_rx k = [] → c_events k = [] → 1 ∈ c_pending_connects k → valid_frame (1, body) →
  decode body = Some (MkEnvelope (Some "Result"%string) (Some 0) None None None None None) →
  ∃ es, c_events (push_data (frame (1, body) ++ extra) k) = Connected 1 :: es.
Proof.
  intros Hrx Hq Hin Hvf Hdec.
  rewrite <-push_data_app_aux.
  destruct (push_data_events extra (push_data (frame (1, body)) k)) as (new & -> & _).
  exists new. unfold push_data. rewrite Hrx. simpl app.
  rewrite (process_rx_frames [(1, body)] []); [|by constructor|done|by simpl; rewrite !app_nil_r].
  simpl. unfold step_frame, decode_frame. simpl. rewrite Hdec. simpl.
  assert (existsb (λ t, t =? 1) (c_pending_connects k) = true) as ->.
  { apply existsb_exists. exists 1. by rewrite <-list_elem_of_In. }
  simpl. by rewrite Hq.
Qed.

Lemma frame_nonempty f l : frame f ++ l ≠ [].
Proof.
  intros E%(f_equal lenZ). rewrite lenZ_app, lenZ_frame, lenZ_nil in E.
  pose proof (lenZ_nonneg l). pose proof (lenZ_nonneg f.2). lia.
Qed.

Definition open_tunnel_handler (tag : Z) (ev : Event) : option (outcome Error unit) :=
  match ev with
  | Connected t => if t =? tag then Some (Ok tt) else None
  | RequestFailedEv _ code => Some (Err (ERequestFailed code))
  | _ => None
  end.

(** [open_tunnel] loses data: whatever the peer delivers in the same read
    as the successful reply, after it, stays in the dropped codec and is not
    to be read from the returned socket. *)
Theorem open_tunnel_drops_data s device port body extra r :
  in_u 32 device → in_u 16 port → healthy s →
  valid_frame (1, body) → decode body = Some (MkEnvelope (Some "Result"%string) (Some 0)
    None None None None None) →
  rx s = RData (frame (1, body) ++ extra) :: r →
  lenZ (frame (1, body) ++ extra) ≤ 4096 →
  ∃ c' s', open_tunnel device port (from_stream s) = (Ok s', c') ∧ rx s' = r.
Proof.
  intros Hdev Hport Hs Hvf Hdec Hrx Hlen.
  destruct (push_reply_events (after_request (RConnect device port) new) body extra)
    as (es & Hes); [done|done|by left|done|done|].
  pose proof (request_flush (RConnect device port) (λ tag,
    event_loop (open_tunnel_handler tag) ;;; let! c := sget in sret (socket c))
    (from_stream s) ltac:(done) Hs eq_refl) as Hrun.
  change (open_tunnel device port (from_stream s)) with
    ((let! tag := on_codec (run_request (RConnect device port)) in
      flush_conn ;;; event_loop (open_tunnel_handler tag) ;;;
      let! c := sget in sret (socket c)) (from_stream s)).
  rewrite Hrun. clear Hrun. unfold sbind, event_loop. cbn [event_loop_fuel]. unfold sbind.
  erewrite next_event_one_read; [|exact Hrx|done|apply frame_nonempty|done|exact Hes].
  simpl. unfold sget, sret. eexists _, _. split; done.
Qed.
End calls.

(** ** Witnesses *)

Section witnesses.
#[local] Existing Instance BitPlist.lib.
#[local] Existing Instance BitPlist.laws.

Definition sample_list : list byte :=
  frame (0, default [] (encode (PDict (dict ["DeviceList" =>> PArray []])))).

Lemma list_devices_result_witness :
  ∃ c', conn_list_devices (from_stream (idle [RData (take 5 sample_list); RData (drop 5 sample_list)]))
      = (Ok [], c') ∧
    tx (socket c') = [] ++ frame (1, xml (BaseRequest "ListDevices")).
Proof.
  eapply (list_devices_result (idle [RData (take 5 sample_list); RData (drop 5 sample_list)])
    sample_list []).
  - reflexivity.
  - apply (delivers_pieces [take 5 sample_list; drop 5 sample_list] []).
    repeat constructor; vm_compute; discriminate.
  - vm_compute. reflexivity.
Defined.

Lemma read_pair_record_ignores_failure_witness :
  ∃ c', conn_read_pair_record "u" (from_stream (idle [RData (frame (1, default [] (encode
      (PDict (dict ["MessageType" =>> PString "Result"; "Number" =>> PInt 2])))))])) =
    (Err EConnectionClosed, c').
Proof.
  eapply (read_pair_record_ignores_failure _ _ "u").
  - reflexivity.
  - reflexivity.
  - apply delivers_one. vm_compute. discriminate.
  - intros ev Hev u d ->. revert Hev. apply (bool_decide_unpack _). vm_compute. exact I.
Defined.

Lemma open_tunnel_drops_data_witness :
  ∃ c' s', open_tunnel 7 62078 (from_stream
      (idle [RData (frame (1, sample_result) ++ [x2a]); RData [x2b]])) = (Ok s', c') ∧
    rx s' = [RData [x2b]].
Proof.
  apply (open_tunnel_drops_data _ 7 62078 sample_result [x2a] [RData [x2b]]).
  - split; [discriminate|reflexivity].
  - split; [discriminate|reflexivity].
  - reflexivity.
  - split; [split; [discriminate|reflexivity]|vm_compute; reflexivity].
  - vm_compute. reflexivity.
  - reflexivity.
  - vm_compute. discriminate.
Defined.
End witnesses.
