(* ===== verification/UsbmuxSim.v ===== *)
(** * usbmux: the simulated daemon

    [src/usbmux/sim/framing.rs], [handler.rs] and [server.rs]: one client
    connection is a stream, [handle] is what the handler thread does with it, and
    [sim_serve] what becomes of the sockets that the listener accepts. *)

From S2P Require Import Prelude RustStd Io Plist UsbmuxTypes UsbmuxCodec UsbmuxConn.

(** ** [framing.rs] *)

Definition sim_eof : io_error := IoError UnexpectedEof "sim: client closed".
Definition sim_read_exact : Z → ST stream io_error (list byte) := read_exact id sim_eof.

Definition read_frame : ST stream io_error (Z * list byte) :=
  let! hdr := sim_read_exact 16 in
  let! total := lift (slice hdr 0 4) in
  let! tag := lift (slice hdr 12 16) in
  let payload_len := saturating_sub (le_val total) HEADER_LEN in
  let! payload := (if 0 <? payload_len then sim_read_exact payload_len else sret []) in
  sret (le_val tag, payload).

Definition write_frame (tag : Z) (plist : list byte) : ST stream io_error unit :=
  write_all (frame_header (HEADER_LEN + lenZ plist) tag) ;;;
  write_all plist ;;;
  flush.

(** [server.rs]: what a device offers.  A service takes over the socket. *)
Record SimDevice : Type := MkSimDevice {
  sd_serial : string;
  sd_connection_type : string;
  sd_product_id : Z;
  sd_services : list (Z * (stream → stream))
}.

Definition usb (serial : string) : SimDevice := MkSimDevice serial "USB" 4776 [].
Definition network (serial : string) : SimDevice := MkSimDevice serial "Network" 4776 [].
Definition with_service (port : Z) (f : stream → stream) (d : SimDevice) : SimDevice :=
  MkSimDevice (sd_serial d) (sd_connection_type d) (sd_product_id d)
    (sd_services d ++ [(port, f)]).

Definition device_properties (d : SimDevice) : pval :=
  PDict (dict ["SerialNumber" =>> PString (sd_serial d);
               "ConnectionType" =>> PString (sd_connection_type d);
               "ProductID" =>> PInt (sd_product_id d);
               "LocationID" =>> PInt 0]).

(** One entry of the ListDevices response. *)
Definition device_entry (id : Z) (d : SimDevice) : pval :=
  PDict (dict ["DeviceID" =>> PInt id;
               "MessageType" =>> PString "Attached";
               "Properties" =>> device_properties d]).

Section sim.
Context `{PlistLib}.

Definition sim_message_type (plist : list byte) : option string :=
  val ← from_bytes plist;
  d ← as_dictionary val;
  v ← dget "MessageType" d;
  as_string v.

Definition from_be16 (port_be : Z) : Z := be_val (le_bytes 2 port_be).

Definition parse_connect (plist : list byte) : option (Z * Z) :=
  val ← from_bytes plist;
  d ← as_dictionary val;
  device_id ← dget "DeviceID" d ≫= as_unsigned_integer;
  port_be ← dget "PortNumber" d ≫= as_unsigned_integer;
  Some (wrap 32 device_id, from_be16 (wrap 16 port_be)).

(** [to_writer_xml(..).expect("plist encode")] *)
Definition encode_plist {E} (v : pval) : outcome E (list byte) := or_panic (to_writer_xml v).

Definition result_value (code : Z) : pval :=
  PDict (dict ["MessageType" =>> PString "Result"; "Number" =>> PInt code]).
Definition result_plist {E} (code : Z) : outcome E (list byte) := encode_plist (result_value code).

Definition device_list_value (entries : list pval) : pval :=
  PDict (dict ["DeviceList" =>> PArray entries]).
Definition device_list_plist {E} (entries : list pval) : outcome E (list byte) :=
  encode_plist (device_list_value entries).

Definition attached_value (id : Z) (d : SimDevice) : pval :=
  PDict (dict ["DeviceID" =>> PInt id;
               "MessageType" =>> PString "Attached";
               "Properties" =>> device_properties d]).
Definition attached_plist {E} (id : Z) (d : SimDevice) : outcome E (list byte) :=
  encode_plist (attached_value id d).

Definition detached_plist {E} (id : Z) : outcome E (list byte) :=
  encode_plist (PDict (dict ["DeviceID" =>> PInt id; "MessageType" =>> PString "Detached"])).

(** ** [handler.rs] *)

(** The devices numbered from 1. *)
Definition number_devices (devices : list SimDevice) : list (Z * SimDevice) :=
  imap (λ i d, (Z.of_nat i + 1, d)) devices.

Definition sim_list_devices (tag : Z) (devices : list SimDevice) : ST stream io_error unit :=
  let entries := (λ p : Z * SimDevice, device_entry p.1 p.2) <$> number_devices devices in
  let! resp := lift (device_list_plist entries) in
  signore (write_frame tag resp).

Fixpoint emit_attached (l : list (Z * SimDevice)) : ST stream io_error unit :=
  match l with
  | [] => sret tt
  | (id, d) :: l =>
      let! ev := lift (attached_plist (wrap 32 id) d) in
      write_frame 0 ev ;;;
      emit_attached l
  end.

(** Reads until the client closes. *)
Fixpoint drain_fuel (fuel : nat) : ST stream io_error unit :=
  match fuel with
  | O => lift OutOfFuel
  | S fuel =>
      let! r := stry (read 64) in
      match r with
      | inl _ | inr [] => sret tt
      | inr _ => drain_fuel fuel
      end
  end.

Definition sim_listen (tag : Z) (devices : list SimDevice) : ST stream io_error unit :=
  let! ok := lift (result_plist 0) in
  let! r := stry (write_frame tag ok ;;; emit_attached (number_devices devices)) in
  match r with
  | inl _ => sret tt
  | inr _ => λ s, drain_fuel (S (rx_size (rx s))) s
  end.

Definition reply_code (tag code : Z) : ST stream io_error unit :=
  let! resp := lift (result_plist code) in
  signore (write_frame tag resp).

Definition sim_connect (tag : Z) (payload : list byte) (devices : list SimDevice)
    : ST stream io_error unit :=
  match parse_connect payload with
  | None => reply_code tag 1
  | Some (device_id, port) =>
      match get_at devices (saturating_sub device_id 1) with
      | None => reply_code tag 2
      | Some device =>
          match list_find (λ p : Z * (stream → stream), p.1 = port) (sd_services device) with
          | None => reply_code tag 3
          | Some (_, (_, service_fn)) =>
              let! ok := lift (result_plist 0) in
              let! r := stry (write_frame tag ok) in
              match r with
              | inl _ => sret tt
              | inr _ => smodify service_fn
              end
          end
      end
  end.

Definition sim_buid : string := "DEADBEEF-0000-0000-0000-CAFECAFECAFE".
Definition sim_read_buid (tag : Z) : ST stream io_error unit :=
  let! resp := lift (or_panic (to_writer_xml (PDict (dict ["BUID" =>> PString sim_buid])))) in
  signore (write_frame tag resp).

(** The loop of [handle]: every iteration reads a frame of at least 16 bytes. *)
Fixpoint handle_fuel (fuel : nat) (devices : list SimDevice) : ST stream io_error unit :=
  match fuel with
  | O => lift OutOfFuel
  | S fuel =>
      let! r := stry read_frame in
      match r with
      | inl _ => sret tt
      | inr (tag, payload) =>
          match sim_message_type payload with
          | None => sret tt
          | Some msg_type =>
              if decide (msg_type = "ListDevices"%string) then
                sim_list_devices tag devices ;;; handle_fuel fuel devices
              else if decide (msg_type = "Listen"%string) then
                sim_listen tag devices ;;; handle_fuel fuel devices
              else if decide (msg_type = "Connect"%string) then
                sim_connect tag payload devices
              else if decide (msg_type = "ReadBUID"%string) then
                sim_read_buid tag ;;; handle_fuel fuel devices
              else reply_code tag 1
          end
      end
  end.

Definition handle (devices : list SimDevice) : ST stream io_error unit :=
  λ s, handle_fuel (S (rx_size (rx s))) devices s.

(** ** [server.rs] *)

Record UsbmuxSim : Type := MkUsbmuxSim { sim_addr : string * Z; sim_devices : list SimDevice }.
(** [expect]: an error is a panic. *)
Definition expect {S E F A} (m : ST S E A) : ST S F A := λ s,
  match m s with
  | (Ok a, s) => (Ok a, s)
  | (OutOfFuel, s) => (OutOfFuel, s)
  | (_, s) => (Panic, s)
  end.
(** [bind]: the listener on a free port of this computer *)
Definition sim_start {W L E} (bind : ST W io_error L) (local_addr : L → outcome io_error (string * Z))
    (devices : list SimDevice) : ST W E (L * UsbmuxSim) :=
  let! listener := expect bind in
  let! addr := expect (lift (local_addr listener)) in
  sret (listener, MkUsbmuxSim addr devices).
(** What the listener accepts, errors passed over: each socket has a thread of its
    own, which shares only the devices with the others.  The result is the sockets
    when their threads have ended. *)
Definition sim_serve (sim : UsbmuxSim) (incoming : list (io_error + stream)) : list stream :=
  omap (λ i, match i with inl _ => None | inr s => Some (handle (sim_devices sim) s).2 end) incoming.
End sim.

#[export] Hint Unfold device_properties device_entry result_value device_list_value
  attached_value : plist.

(** ** Framing *)

Lemma from_be16_to_be16 p : in_u 16 p → from_be16 (to_be16 p) = p.
Proof.
  intros Hp. unfold from_be16, to_be16.
  rewrite <-(length_be_bytes 2 p) at 1. rewrite le_bytes_le_val.
  by apply (be_val_be_bytes_small 2).
Qed.

Lemma slice_header_len total tag :
  slice (E:=io_error) (frame_header total tag) 0 4 = Ok (le_bytes 4 (wrap 32 total)).
Proof.
  unfold slice, frame_header.
  by rewrite get_slice_prefix by len.
Qed.

Lemma slice_header_tag total tag :
  slice (E:=io_error) (frame_header total tag) 12 16 = Ok (le_bytes 4 tag).
Proof.
  unfold slice, frame_header. rewrite !(assoc_L (++)).
  by rewrite get_slice_suffix by len.
Qed.

(** The daemon reads back the frame the client wrote, whatever the cuts. *)
Lemma read_frame_frame f more s r :
  valid_frame f → delivers (rx s) (frame f ++ more) r →
  ∃ r1, read_frame s = (Ok f, set_rx r1 s) ∧ delivers r1 more r.
Proof.
  destruct f as [tag body]. intros [Htag Hlen] Hd. simpl in *. unfold HEADER_LEN in *.
  unfold frame in Hd. cbn [fst snd] in Hd. rewrite <-(assoc_L (++)) in Hd.
  destruct (read_exact_delivers id sim_eof 16 s _ _ r Hd) as (r1 & Hr & Hd1).
  { unfold lenZ. by rewrite length_frame_header. }
  unfold read_frame, sim_read_exact. rewrite (sbind_ok _ _ _ _ _ Hr).
  unfold sbind, lift. rewrite slice_header_len, slice_header_tag.
  rewrite !le_val_le_bytes_small by (done || by apply wrap_range).
  pose proof (lenZ_nonneg body). unfold HEADER_LEN, saturating_sub.
  rewrite wrap_small by (split; lia).
  replace (Z.max 0 (16 + lenZ body - 16)) with (lenZ body) by lia.
  destruct (0 <? lenZ body) eqn:E; zhyps.
  - destruct (read_exact_delivers id sim_eof (lenZ body) (set_rx r1 s) body more r Hd1 eq_refl)
      as (r2 & -> & Hd2). eauto.
  - assert (body = []) as -> by (apply lenZ_0_nil; lia). eauto.
Qed.

Lemma write_frame_healthy tag plist s :
  healthy s → write_frame tag plist s = (Ok tt, append_tx (frame (tag, plist)) s).
Proof.
  intros Hs. unfold write_frame, sbind.
  rewrite write_all_healthy by done. rewrite write_all_healthy by done.
  rewrite flush_healthy by done. autorewrite with st. done.
Qed.

Section sim_spec.
Context `{PlistLaws}.

Lemma sim_message_type_request r :
  request_ok r →
  sim_message_type (xml (request_body r)) =
    Some (match r with
          | RListDevices => "ListDevices"
          | RListen => "Listen"
          | RReadBuid => "ReadBUID"
          | RReadPairRecord _ => "ReadPairRecord"
          | RSavePairRecord _ _ => "SavePairRecord"
          | RDeletePairRecord _ => "DeletePairRecord"
          | RConnect _ _ => "Connect"
          end)%string.
Proof.
  intros Hok%plain_request_body. unfold sim_message_type. rewrite from_bytes_xml by done.
  by destruct r.
Qed.

(** The daemon understands the client's Connect request: the port survives
    the two byte swaps. *)
Lemma parse_connect_request i p :
  in_u 32 i → in_u 16 p → parse_connect (xml (request_body (RConnect i p))) = Some (i, p).
Proof.
  intros Hi Hp. unfold parse_connect.
  rewrite from_bytes_xml by (by apply plain_request_body).
  pose proof (to_be16_range p) as Hbe. unfold in_u in *.
  simpl. unfold dget. simpl. rewrite !bool_decide_true by (unfold in_u; lia). simpl.
  by rewrite !wrap_small, from_be16_to_be16 by (unfold in_u; lia).
Qed.

(** ** Listing devices, end to end *)

Definition sim_device_ok (d : SimDevice) : Prop :=
  text_ok (sd_serial d) = true ∧ text_ok (sd_connection_type d) = true ∧
  in_u 16 (sd_product_id d).

Definition entries (devices : list SimDevice) : list pval :=
  (λ p : Z * SimDevice, device_entry p.1 p.2) <$> number_devices devices.

(** What the client should see. *)
Definition client_device (p : Z * SimDevice) : Device :=
  MkDevice p.1 (sd_serial p.2) (ConnectionType_from (sd_connection_type p.2))
    (sd_product_id p.2) 0.

Lemma plain_device_entry id d :
  in_u 32 id → sim_device_ok d → plain (device_entry id d) = true.
Proof.
  intros Hid (Hs & Hc & Hp). unfold device_entry. solve_plain.
  unfold device_properties. solve_plain.
Qed.

Lemma number_devices_spec devices p :
  p ∈ number_devices devices → 1 ≤ p.1 ≤ lenZ devices ∧ p.2 ∈ devices.
Proof.
  unfold number_devices. rewrite list_elem_of_lookup. intros [i Hi].
  rewrite list_lookup_imap in Hi. destruct (devices !! i) as [d|] eqn:E; [|done].
  simpl in Hi. simplify_eq. simpl. apply lookup_lt_Some in E as Hlt.
  split; [unfold lenZ; lia|]. rewrite list_elem_of_lookup. eauto.
Qed.

Lemma plain_entries devices :
  Forall sim_device_ok devices → lenZ devices < 2 ^ 32 →
  plain (device_list_value (entries devices)) = true.
Proof.
  intros Hok Hlen. unfold device_list_value. solve_plain. cbn [plain].
  apply forallb_forall. intros v Hv. apply list_elem_of_In in Hv.
  apply list_elem_of_fmap in Hv as (p & -> & Hp).
  apply number_devices_spec in Hp as [Hid Hin].
  apply plain_device_entry; [unfold in_u; lia|]. by eapply Forall_forall in Hok.
Qed.

Lemma de_device_entry id d :
  in_u 32 id → sim_device_ok d →
  de_DeviceEntry (device_entry id d) =
    Some (MkDeviceEntry id (MkDeviceProperties (Some (sd_serial d))
      (Some (sd_connection_type d)) (Some (sd_product_id d)) (Some 0))).
Proof.
  intros Hid (_ & _ & Hp). unfold device_entry, device_properties. dict_lits.
  unfold de_DeviceEntry, de_DeviceProperties, de_req, de_opt, dget. simpl.
  rewrite (bool_decide_true (in_u 32 id)) by done. simpl.
  rewrite (bool_decide_true (in_u 16 _)) by done. simpl.
  done.
Qed.

Lemma decode_device_list devices :
  Forall sim_device_ok devices → lenZ devices < 2 ^ 32 →
  ∃ es, decode (xml (device_list_value (entries devices))) =
      Some (MkEnvelope None None (Some es) None None None None) ∧
    device_from_entry <$> es = client_device <$> number_devices devices.
Proof.
  intros Hok Hlen. unfold decode. rewrite from_bytes_xml by (by apply plain_entries). simpl.
  assert (∃ es, mapM de_DeviceEntry (entries devices) = Some es ∧
    device_from_entry <$> es = client_device <$> number_devices devices) as (es & Hes & Hmap).
  { unfold entries. pose proof (λ p, number_devices_spec devices p) as Hnum.
    induction (number_devices devices) as [|[id d] l IH]; [by exists []|].
    destruct IH as (es & Hes & Hmap); [intros p Hp; apply Hnum; by right|].
    destruct (Hnum (id, d)) as [Hid Hin]; [by left|]. simpl in Hid, Hin.
    eexists (_ :: es).
    change ((λ p : Z * SimDevice, device_entry p.1 p.2) <$> (id, d) :: l) with
      (device_entry id d :: ((λ p : Z * SimDevice, device_entry p.1 p.2) <$> l)).
    cbn [mapM]. rewrite de_device_entry, Hes;
      [|unfold in_u; lia|by eapply Forall_forall in Hok].
    split; [done|]. change (client_device <$> (id, d) :: l) with
      (client_device (id, d) :: (client_device <$> l)). by rewrite <-Hmap. }
  exists es. split; [|done]. unfold device_list_value. dict_lits.
  unfold de_Envelope, de_opt, dget. simpl. unfold de_vec. simpl. by rewrite Hes.
Qed.

(** The daemon's side of one request that is not Connect. *)
Lemma sim_list_devices_run tag devices s :
  Forall sim_device_ok devices → lenZ devices < 2 ^ 32 → healthy s →
  sim_list_devices tag devices s =
    (Ok tt, append_tx (frame (tag, xml (device_list_value (entries devices)))) s).
Proof.
  intros Hok Hlen Hs. unfold sim_list_devices, device_list_plist, encode_plist, sbind, lift.
  fold (entries devices). rewrite to_writer_xml_plain by (by apply plain_entries). simpl.
  unfold signore. by rewrite write_frame_healthy.
Qed.

Lemma handle_closed_fuel fuel devices s :
  rx s = [] → handle_fuel (S fuel) devices s = (Ok tt, s).
Proof.
  intros Hrx. cbn [handle_fuel]. unfold sbind, stry, read_frame, sbind, sim_read_exact.
  rewrite (read_exact_eof _ _ 16 s []); [|rewrite Hrx; constructor|done].
  rewrite <-Hrx, set_rx_id. done.
Qed.

(** C2. Client and simulated daemon together: whatever devices the daemon
    has, and however the bytes are cut into reads in either direction, the
    client's [list_devices] returns exactly these devices, in order, numbered
    from 1. *)
Theorem list_devices_end_to_end devices s :
  Forall sim_device_ok devices → lenZ devices < 2 ^ 32 →
  valid_frame (1, xml (BaseRequest "ListDevices")) →
  valid_frame (1, xml (device_list_value (entries devices))) →
  healthy s → tx s = [] →
  delivers (rx s) (frame (1, xml (BaseRequest "ListDevices"))) [] →
  ∃ s', handle devices s = (Ok tt, s') ∧
    ∀ sc r, healthy sc → delivers (rx sc) (tx s') r →
      ∃ c', conn_list_devices (from_stream sc) =
          (Ok (client_device <$> number_devices devices), c') ∧
        tx (socket c') = tx sc ++ frame (1, xml (BaseRequest "ListDevices")).
Proof.
  intros Hok Hlen Hreq Hresp Hs Htx Hd.
  pose proof (delivers_size _ _ _ Hd) as Hsz.
  assert (16 ≤ rx_size (rx s))%nat as H16.
  { pose proof (lenZ_frame (1, xml (BaseRequest "ListDevices"))).
    unfold lenZ in *. lia. }
  rewrite <-(app_nil_r (frame (1, xml (BaseRequest "ListDevices")))) in Hd.
  destruct (read_frame_frame _ _ _ _ Hreq Hd) as (r1 & Hrf & Hd1).
  apply delivers_inv in Hd1 as [[_ ->]|(c & r0 & l0 & Hc & _ & _ & [-> _]%eq_sym%app_eq_nil)]; [|done].
  set (resp := frame (1, xml (device_list_value (entries devices)))) in *.
  exists (append_tx resp (set_rx [] s)). split.
  - unfold handle. destruct (rx_size (rx s)) as [|fuel]; [lia|].
    remember (S fuel) as f. cbn [handle_fuel]. unfold sbind at 1, stry. rewrite Hrf.
    change (BaseRequest "ListDevices") with (request_body RListDevices) at 1.
    rewrite (sim_message_type_request RListDevices) by done.
    rewrite decide_True by done. unfold sbind.
    rewrite sim_list_devices_run by done. subst f. by apply handle_closed_fuel.
  - intros sc r Hsc Hdc. simpl in Hdc. rewrite Htx in Hdc. simpl in Hdc.
    destruct (decode_device_list devices Hok Hlen) as (es & Hdec & Hes).
    destruct (call_spec RListDevices list_devices_handler sc resp r) as [Hsees Hrun]; [done..|].
    assert (c_events (push_data resp (after_request RListDevices new)) =
      [DeviceList (client_device <$> number_devices devices)]) as Hev.
    { unfold push_data. simpl app.
      rewrite (process_rx_frames [(1, xml (device_list_value (entries devices)))] []);
        [|by constructor|done|by simpl; rewrite !app_nil_r].
      simpl. unfold step_frame, decode_frame. simpl. rewrite Hdec. simpl. by rewrite Hes. }
    destruct (event_loop_scan (list_devices_handler 1) _ _ _
      (Ok (client_device <$> number_devices devices)) [] Hsees) as (c' & Hl & _ & [Htx' _]).
    { by rewrite Hev. }
    exists c'. split; [|done]. etrans; [apply Hrun|done].
Qed.
End sim_spec.

(** ** Witness *)

Section witnesses.
#[local] Existing Instance BitPlist.lib.
#[local] Existing Instance BitPlist.laws.

Definition sample_devices : list SimDevice :=
  [MkSimDevice "0001" "USB" 0x12a8 []; MkSimDevice "0002" "Network" 0x12ab []].
Definition sample_request : list byte := frame (1, xml (BaseRequest "ListDevices")).

Lemma list_devices_end_to_end_witness :
  ∃ s', handle sample_devices (idle [RData (take 3 sample_request); RData (drop 3 sample_request)])
      = (Ok tt, s') ∧
    ∀ sc r, healthy sc → delivers (rx sc) (tx s') r →
      ∃ c', conn_list_devices (from_stream sc) =
          (Ok (client_device <$> number_devices sample_devices), c') ∧
        tx (socket c') = tx sc ++ sample_request.
Proof.
  apply (list_devices_end_to_end sample_devices).
  - repeat constructor; try reflexivity; vm_compute; discriminate.
  - reflexivity.
  - split; [split; [discriminate|reflexivity]|vm_compute; reflexivity].
  - split; [split; [discriminate|reflexivity]|vm_compute; reflexivity].
  - reflexivity.
  - reflexivity.
  - apply (delivers_pieces [take 3 sample_request; drop 3 sample_request] []).
    repeat constructor; vm_compute; discriminate.
Defined.
End witnesses.
