(* ===== verification/Text.v ===== *)
(** * Characters and white space

    What the sources do with text beyond its bytes: the characters of a string,
    [char::is_whitespace], [str::trim], [str::split_whitespace], prefixes and
    padding.  A character is the list of its UTF-8 bytes. *)

From S2P Require Import Prelude RustStd.

(** ** Characters *)

Fixpoint chars_fuel (fuel : nat) (l : list byte) : list (list byte) :=
  match fuel with
  | O => []
  | S fuel =>
      match utf8_step l with
      | None => []
      | Some (Utf8Char n) | Some (Utf8Bad n) => take n l :: chars_fuel fuel (drop n l)
      end
  end.
(** [s.chars()]; every character has a byte, so the length is fuel enough. *)
Definition chars (s : string) : list (list byte) := chars_fuel (length (bytes_of s)) (bytes_of s).
Definition of_chars (l : list (list byte)) : string := string_of (concat l).

Definition char_ok (c : list byte) : Prop := utf8_step c = Some (Utf8Char (length c)).
#[export] Instance utf8_item_eq_dec : EqDecision utf8_item.
Proof. solve_decision. Defined.
#[export] Instance char_ok_dec c : Decision (char_ok c).
Proof. unfold char_ok. apply _. Defined.

(** [char::is_whitespace]: the Unicode property White_Space *)
Definition is_white (c : list byte) : bool :=
  match u8 <$> c with
  | [b] => ((9 <=? b) && (b <=? 13)) || (b =? 32)
  | [a; b] => (a =? 0xc2) && ((b =? 0x85) || (b =? 0xa0))
  | [a; b; d] =>
      ((a =? 0xe1) && (b =? 0x9a) && (d =? 0x80))
      || ((a =? 0xe2) && (b =? 0x80)
          && (((0x80 <=? d) && (d <=? 0x8a)) || (d =? 0xa8) || (d =? 0xa9) || (d =? 0xaf)))
      || ((a =? 0xe2) && (b =? 0x81) && (d =? 0x9f))
      || ((a =? 0xe3) && (b =? 0x80) && (d =? 0x80))
  | _ => false
  end.

Fixpoint drop_while {A} (p : A → bool) (l : list A) : list A :=
  match l with
  | [] => []
  | x :: l' => if p x then drop_while p l' else l
  end.
Definition drop_while_end {A} (p : A → bool) (l : list A) : list A :=
  reverse (drop_while p (reverse l)).

(** [str::trim] *)
Definition trim_chars (l : list (list byte)) : list (list byte) :=
  drop_while_end is_white (drop_while is_white l).
Definition trim (s : string) : string := of_chars (trim_chars (chars s)).

(** [str::split_whitespace] *)
Definition words (l : list (list byte)) : list (list (list byte)) :=
  filter (λ w, w ≠ []) (split_on is_white l).
Definition split_whitespace (s : string) : list string := of_chars <$> words (chars s).

(** [{:>n}] *)
Definition pad_left (n : nat) (s : string) : string :=
  string_of (replicate (n - length (chars s)) " "%byte ++ bytes_of s).

(** [s.rsplit(c).next()], on a character of one byte *)
Definition last_component (c : byte) (s : string) : string :=
  string_of (default [] (last (split_on (λ b, bool_decide (b = c)) (bytes_of s)))).

(** [str::to_lowercase] on text of ASCII *)
Definition lower (b : byte) : byte :=
  if (65 <=? u8 b) && (u8 b <=? 90) then byte_of (u8 b + 32) else b.
Definition ascii_lower (s : string) : string := string_of (lower <$> bytes_of s).

(** [{}] on a signed integer *)
Definition dec_signed (n : Z) : list byte :=
  if n <? 0 then "-"%byte :: dec (- n) else dec n.

(** [s.strip_prefix(p)] on bytes *)
Fixpoint strip_prefix (p l : list byte) : option (list byte) :=
  match p, l with
  | [], _ => Some l
  | b :: p, c :: l => if decide (b = c) then strip_prefix p l else None
  | _ :: _, [] => None
  end.

(** [s.trim_start_matches(p)]; a non-empty prefix takes bytes every time. *)
Fixpoint trim_start_matches_fuel (fuel : nat) (p l : list byte) : list byte :=
  match fuel with
  | O => l
  | S fuel =>
      match strip_prefix p l with
      | Some l' => trim_start_matches_fuel fuel p l'
      | None => l
      end
  end.
Definition trim_start_matches (p l : list byte) : list byte :=
  trim_start_matches_fuel (length l) p l.

(** [s.find(c)] and the two slices around it *)
Fixpoint split_at (p : byte → bool) (l : list byte) : option (list byte * list byte) :=
  match l with
  | [] => None
  | b :: l =>
      if p b then Some ([], l)
      else '(h, t) ← split_at p l; Some (b :: h, t)
  end.

(** [v.join(sep)] *)
Fixpoint join {A} (sep : list A) (l : list (list A)) : list A :=
  match l with
  | [] => []
  | [x] => x
  | x :: l => x ++ sep ++ join sep l
  end.

(** ** Lemmas *)

Lemma char_ok_nonempty c : char_ok c → c ≠ [].
Proof. by intros Hc ->. Qed.

(** A character is recognised by its own bytes. *)
Lemma utf8_step_app c l : char_ok c → utf8_step (c ++ l) = Some (Utf8Char (length c)).
Proof.
  unfold char_ok. destruct c as [|b1 [|b2 [|b3 [|b4 [|b5 c]]]]]; [done|..];
    unfold utf8_step, cont, between; cbn -[Z.leb Z.ltb Z.eqb]; intros H;
    repeat case_match; congruence.
Qed.

Lemma chars_fuel_concat cs fuel :
  Forall char_ok cs → (length (concat cs) ≤ fuel)%nat → chars_fuel fuel (concat cs) = cs.
Proof.
  intros Hcs. revert fuel. induction Hcs as [|c cs Hc _ IH]; intros fuel Hf.
  { by destruct fuel. }
  pose proof (char_ok_nonempty c Hc). destruct c as [|b c]; [done|].
  cbn [concat] in *. rewrite length_app in Hf. destruct fuel as [|fuel]; [simpl in Hf; lia|].
  cbn [chars_fuel]. rewrite utf8_step_app by done.
  rewrite take_app_length, drop_app_length, IH; [done|]. cbn [length] in Hf. lia.
Qed.
Lemma chars_of_chars cs : Forall char_ok cs → chars (of_chars cs) = cs.
Proof.
  intros Hcs. unfold chars, of_chars. rewrite bytes_of_string_of. by apply chars_fuel_concat.
Qed.

Lemma utf8_step_char l n : utf8_step l = Some (Utf8Char n) → char_ok (take n l) ∧ (0 < n ≤ length l)%nat.
Proof.
  destruct l as [|b1 [|b2 [|b3 [|b4 l]]]]; [done|..]; intros H;
    unfold utf8_step, cont, between in H; cbn -[Z.leb Z.ltb Z.eqb] in H; injection H as H;
    repeat case_match; simplify_eq;
    unfold char_ok, utf8_step, cont, between; cbn -[Z.leb Z.ltb Z.eqb];
    repeat match goal with H : ?b = _ |- context [?b] => rewrite H end; split; (done || lia).
Qed.

(** The lossy conversion gives the text of characters. *)
Lemma lossy_chars fuel l : ∃ cs, Forall char_ok cs ∧ utf8_lossy_fuel fuel l = concat cs.
Proof.
  revert l. induction fuel as [|fuel IH]; intros l; cbn [utf8_lossy_fuel]; [by exists []|].
  destruct (utf8_step l) as [[n|n]|] eqn:E; [| |by exists []];
    destruct (IH (drop n l)) as (cs & Hcs & ->).
  - exists (take n l :: cs). split; [|done]. constructor; [by apply utf8_step_char|done].
  - exists (replacement_char :: cs). split; [|done]. by constructor.
Qed.
Lemma from_utf8_lossy_chars l :
  Forall char_ok (chars (from_utf8_lossy l)) ∧ from_utf8_lossy l = of_chars (chars (from_utf8_lossy l)).
Proof.
  unfold from_utf8_lossy. destruct (lossy_chars (length l) l) as (cs & Hcs & ->).
  change (string_of (concat cs)) with (of_chars cs). by rewrite chars_of_chars.
Qed.

(** *** Dropping and splitting *)

Lemma drop_while_suffix {A} (p : A → bool) l : ∃ k, l = k ++ drop_while p l ∧ Forall (λ x, p x = true) k.
Proof.
  induction l as [|x l (k & Hk & Hp)]; [by exists []|]. simpl. destruct (p x) eqn:E.
  - exists (x :: k). split; [by rewrite Hk at 1|by constructor].
  - by exists [].
Qed.
Lemma drop_while_head {A} (p : A → bool) l x l' : drop_while p l = x :: l' → p x = false.
Proof.
  induction l as [|y l IH]; [done|]. simpl. destruct (p y) eqn:E; [done|]. by intros [= <- <-].
Qed.
Lemma drop_while_id {A} (p : A → bool) l :
  (∀ x, head l = Some x → p x = false) → drop_while p l = l.
Proof. destruct l as [|x l]; [done|]. intros H. simpl. by rewrite (H x). Qed.
Lemma drop_while_end_id {A} (p : A → bool) l :
  (∀ x, last l = Some x → p x = false) → drop_while_end p l = l.
Proof.
  intros H. unfold drop_while_end. rewrite drop_while_id; [apply reverse_involutive|].
  intros x Hx. apply H. by rewrite <-(reverse_involutive l), last_reverse.
Qed.

Lemma trim_chars_id l :
  (∀ c, head l = Some c → is_white c = false) → (∀ c, last l = Some c → is_white c = false) →
  trim_chars l = l.
Proof. intros Hh Hl. unfold trim_chars. by rewrite (drop_while_id _ l), drop_while_end_id. Qed.

(** What is trimmed begins and ends with a character that is no white space. *)
Lemma trim_chars_ends l :
  (∀ c, head (trim_chars l) = Some c → is_white c = false) ∧
  (∀ c, last (trim_chars l) = Some c → is_white c = false).
Proof.
  unfold trim_chars. destruct (drop_while_suffix is_white (reverse (drop_while is_white l)))
    as (k & Hk & Hkw). unfold drop_while_end.
  destruct (drop_while is_white (reverse (drop_while is_white l))) as [|x l'] eqn:E; [done|].
  apply drop_while_head in E as Hx. split.
  - intros c Hc. apply (f_equal reverse) in Hk. rewrite reverse_involutive, reverse_app in Hk.
    destruct (reverse (x :: l')) as [|y k'] eqn:E'; [done|]. injection Hc as ->.
    by eapply drop_while_head.
  - intros c Hc. rewrite last_reverse in Hc. by injection Hc as ->.
Qed.

Lemma drop_while_Forall {A} (P : A → Prop) (p : A → bool) l : Forall P l → Forall P (drop_while p l).
Proof. induction 1; simpl; [done|]. case_match; [done|by constructor]. Qed.
Lemma trim_chars_Forall (P : list byte → Prop) l : Forall P l → Forall P (trim_chars l).
Proof.
  intros. unfold trim_chars, drop_while_end. by apply Forall_reverse, drop_while_Forall,
    Forall_reverse, drop_while_Forall.
Qed.

Definition no_white (w : list (list byte)) : Prop := w ≠ [] ∧ Forall (λ c, is_white c = false) w.
#[export] Instance no_white_dec w : Decision (no_white w).
Proof. unfold no_white. apply _. Defined.

(** Words before a white character are split off. *)
Lemma words_nil : words [] = [].
Proof. done. Qed.
Lemma words_cons_white c l : is_white c = true → words (c :: l) = words l.
Proof. intros Hc. unfold words. cbn [split_on]. by rewrite Hc. Qed.
Lemma words_app w c l : no_white w → is_white c = true → words (w ++ c :: l) = w :: words l.
Proof.
  intros [Hne Hw] Hc. unfold words. rewrite split_on_app by done. by rewrite filter_cons_True.
Qed.
Lemma words_one w : no_white w → words w = [w].
Proof. intros [Hne Hw]. unfold words. by rewrite split_on_none, filter_cons_True. Qed.

Definition space : list byte := [" "%byte].
Lemma words_join ws : Forall no_white ws → words (join [space] ws) = ws.
Proof.
  induction 1 as [|w ws Hw Hws IH]; [done|]. destruct ws as [|w' ws].
  - by apply words_one.
  - change (join [space] (w :: w' :: ws)) with (w ++ space :: join [space] (w' :: ws)).
    by rewrite words_app, IH.
Qed.

Lemma words_no_white l : Forall no_white (words l).
Proof.
  unfold words. apply Forall_forall. intros w [Hne Hw]%list_elem_of_filter. split; [done|].
  clear Hne. revert w Hw. induction l as [|c l IH]; intros w; cbn [split_on].
  - intros ->%list_elem_of_singleton. constructor.
  - destruct (is_white c) eqn:E.
    + intros [->|Hw]%elem_of_cons; [constructor|by apply IH].
    + destruct (split_on is_white l) as [|h t].
      * intros ->%list_elem_of_singleton. by repeat constructor.
      * intros [->|Hw]%elem_of_cons; [constructor; [done|]; apply IH; by left|].
        apply IH. by right.
Qed.

(** *** Prefixes *)

Lemma strip_prefix_Some p l l' : strip_prefix p l = Some l' ↔ l = p ++ l'.
Proof.
  revert l. induction p as [|b p IH]; intros l; simpl; [naive_solver|].
  destruct l as [|c l]; [done|]. case_decide; [subst; rewrite IH; naive_solver|].
  split; [done|congruence].
Qed.
Lemma trim_start_matches_id p l : strip_prefix p l = None → trim_start_matches p l = l.
Proof. unfold trim_start_matches. destruct l; [done|]. cbn [length trim_start_matches_fuel]. by intros ->. Qed.

(** Nothing is left to strip. *)
Lemma trim_start_matches_fuel_done fuel p l :
  p ≠ [] → (length l ≤ fuel)%nat → strip_prefix p (trim_start_matches_fuel fuel p l) = None.
Proof.
  intros Hp. revert l. induction fuel as [|fuel IH]; intros l Hf; cbn [trim_start_matches_fuel].
  - destruct l; [|simpl in Hf; lia]. by destruct p.
  - destruct (strip_prefix p l) as [l'|] eqn:E; [|done]. apply IH.
    apply strip_prefix_Some in E. subst. rewrite length_app in Hf. destruct p; [done|]. simpl in Hf. lia.
Qed.

Lemma split_at_Some p l h t :
  split_at p l = Some (h, t) ↔ ∃ b, l = h ++ b :: t ∧ p b = true ∧ Forall (λ b, p b = false) h.
Proof.
  revert h. induction l as [|b l IH]; intros h; simpl.
  - split; [done|]. intros (b & Hl & _). by destruct h.
  - destruct (p b) eqn:E.
    + split.
      * intros [= <- <-]. by exists b.
      * intros (b' & Hl & Hb & Hh). destruct h as [|b1 h]; [by injection Hl as -> ->|].
        injection Hl as -> ->. by apply Forall_cons in Hh as [? _]; congruence.
    + destruct (split_at p l) as [[h' t']|]; simpl; split.
      * intros [= <- <-]. destruct (proj1 (IH h') eq_refl) as (b' & -> & Hb & Hh).
        exists b'. split_and!; [done|done|by constructor].
      * intros (b' & Hl & Hb & Hh). destruct h as [|b1 h]; [injection Hl as -> ->; congruence|].
        injection Hl as -> ->. apply Forall_cons in Hh as [_ Hh].
        assert (Some (h', t') = Some (h, t)) as Heq; [|by injection Heq as -> ->].
        apply IH. by exists b'.
      * done.
      * intros (b' & Hl & Hb & Hh). destruct h as [|b1 h]; [injection Hl as -> ->; congruence|].
        injection Hl as -> ->. apply Forall_cons in Hh as [_ Hh].
        assert (None = Some (h, t)) as Heq; [|done]. apply IH. by exists b'.
Qed.
Lemma split_at_app p h b t :
  Forall (λ b, p b = false) h → p b = true → split_at p (h ++ b :: t) = Some (h, t).
Proof. intros. apply split_at_Some. eauto. Qed.

(** ** Texts *)

Lemma utf8_step_bounds l i :
  utf8_step l = Some i → match i with Utf8Char n | Utf8Bad n => (0 < n)%nat end.
Proof.
  destruct l; [done|]. cbn [utf8_step]. intros H. injection H as H. repeat case_match; simplify_eq; lia.
Qed.
Lemma chars_fuel_all fuel l : (length l ≤ fuel)%nat → concat (chars_fuel fuel l) = l.
Proof.
  revert l. induction fuel as [|fuel IH]; intros l Hf; cbn [chars_fuel].
  - by destruct l; [|simpl in Hf; lia].
  - destruct (utf8_step l) as [i|] eqn:E.
    + assert (l ≠ []) as Hl by (by intros ->). apply utf8_step_bounds in E.
      destruct i as [n|n]; cbn [concat]; rewrite IH; rewrite ?take_drop; try done;
        rewrite length_drop; destruct l; simpl in *; done || lia.
    + by destruct l.
Qed.
Lemma of_chars_chars s : of_chars (chars s) = s.
Proof. unfold of_chars, chars. rewrite chars_fuel_all by done. apply string_of_bytes_of. Qed.

Definition is_text (s : string) : Prop := Forall char_ok (chars s).
#[export] Instance is_text_dec s : Decision (is_text s).
Proof. unfold is_text. apply _. Defined.

Lemma bytes_of_app a b : bytes_of (a ++ b)%string = bytes_of a ++ bytes_of b.
Proof.
  induction a as [|x a IH]; [done|].
  change (Ascii.byte_of_ascii x :: bytes_of (a ++ b)%string = Ascii.byte_of_ascii x :: bytes_of a ++ bytes_of b).
  by rewrite IH.
Qed.
Lemma string_of_app l k : string_of (l ++ k) = (string_of l ++ string_of k)%string.
Proof.
  rewrite <-(string_of_bytes_of (string_of l ++ string_of k)).
  by rewrite bytes_of_app, !bytes_of_string_of.
Qed.
Lemma of_chars_app a b : of_chars (a ++ b) = (of_chars a ++ of_chars b)%string.
Proof.
  unfold of_chars. by rewrite concat_app, string_of_app.
Qed.
Lemma chars_app a b : is_text a → is_text b → chars (a ++ b)%string = chars a ++ chars b.
Proof.
  intros Ha Hb. rewrite <-(of_chars_chars a) at 1. rewrite <-(of_chars_chars b) at 1.
  rewrite <-of_chars_app. apply chars_of_chars. by apply Forall_app.
Qed.
Lemma is_text_app a b : is_text a → is_text b → is_text (a ++ b)%string.
Proof. intros Ha Hb. unfold is_text. rewrite chars_app by done. by apply Forall_app. Qed.

Lemma join_concat (ws : list (list (list byte))) :
  join [" "%byte] (@concat byte <$> ws) = concat (join [space] ws).
Proof.
  induction ws as [|w ws IH]; [done|]. destruct ws as [|w' ws]; [done|].
  change (join [" "%byte] (@concat byte <$> w :: w' :: ws))
    with (concat w ++ [" "%byte] ++ join [" "%byte] (@concat byte <$> w' :: ws)).
  change (join [space] (w :: w' :: ws)) with (w ++ [space] ++ join [space] (w' :: ws)).
  by rewrite IH, !concat_app.
Qed.

Lemma chars_pad_left n s :
  is_text s → chars (pad_left n s) = replicate (n - length (chars s)) space ++ chars s ∧ is_text (pad_left n s).
Proof.
  intros Hs.
  assert (pad_left n s = of_chars (replicate (n - length (chars s)) space ++ chars s)) as ->.
  { unfold pad_left, of_chars. rewrite concat_app. f_equal. f_equal.
    - induction (n - length (chars s))%nat as [|k IH]; [done|]. simpl. by rewrite IH.
    - rewrite <-(of_chars_chars s) at 1. unfold of_chars. by rewrite bytes_of_string_of. }
  assert (Forall char_ok (replicate (n - length (chars s)) space ++ chars s)) as Hok.
  { apply Forall_app. split; [by apply Forall_replicate|done]. }
  unfold is_text. by rewrite chars_of_chars.
Qed.
Lemma words_spaces n l : words (replicate n space ++ l) = words l.
Proof. induction n as [|n IH]; [done|]. simpl. by rewrite words_cons_white. Qed.

(** A word: text without white space. *)
Definition is_word (s : string) : Prop := is_text s ∧ no_white (chars s).
#[export] Instance is_word_dec s : Decision (is_word s).
Proof. unfold is_word. apply _. Defined.

Lemma words_word s l : is_word s → words (chars s ++ space :: l) = chars s :: words l.
Proof. intros [_ Hs]. by apply words_app. Qed.

(** Decides [is_text] of a text that is put together. *)
Ltac solve_text :=
  repeat first [assumption | apply is_text_app | apply chars_pad_left | solve [compute_done]].

Lemma trim_start_matches_once p l :
  p ≠ [] → strip_prefix p l = None → trim_start_matches p (p ++ l) = l.
Proof.
  intros Hp Hl. unfold trim_start_matches. rewrite length_app.
  destruct p as [|b p]; [done|]. cbn [length Nat.add trim_start_matches_fuel].
  rewrite (proj2 (strip_prefix_Some (b :: p) ((b :: p) ++ l) l) eq_refl).
  destruct (length p + length l)%nat; cbn [trim_start_matches_fuel]; by rewrite ?Hl.
Qed.
