(* ===== verification/Float.v ===== *)
(** * Floating-point numbers of the standard library

    [f64] with the operations the commands use - conversions from integers,
    multiplication, division, comparison, [clamp] - as the binary64 format of
    [SpecFloat], and its decimal text: [{:.k}], which rounds the exact value,
    and [{}], the shortest digits that read back as the same number. *)

From Stdlib Require Import SpecFloat.
From S2P Require Import Prelude RustStd Text.

Abbreviation f64 := spec_float.

Module F64.
(** [u64 as f64], [i64 as f64]: to nearest, ties to even *)
Definition of_Z (n : Z) : f64 := binary_normalize 53 1024 n 0 false.
Definition mul : f64 → f64 → f64 := SFmul 53 1024.
Definition div : f64 → f64 → f64 := SFdiv 53 1024.
Definition ltb (x y : f64) : bool := SFltb x y.
Definition leb (x y : f64) : bool := SFleb x y.

(** [f64::from_bits] *)
Definition of_bits (bits : Z) : f64 :=
  let s := Z.testbit bits 63 in
  let ex := Z.land (Z.shiftr bits 52) 0x7ff in
  let frac := Z.land bits (Z.ones 52) in
  if ex =? 0x7ff then if frac =? 0 then S754_infinity s else S754_nan
  else
    let m := if ex =? 0 then frac else frac + 2 ^ 52 in
    match m with
    | Zpos p => S754_finite s p (Z.max ex 1 - 1075)
    | _ => S754_zero s
    end.

(** [x.max(y)] when [y] is a number, and [x.clamp(lo, hi)] *)
Definition fmax (x y : f64) : f64 := match x with S754_nan => y | _ => if ltb x y then y else x end.
Definition clamp (x lo hi : f64) : f64 :=
  let x := if ltb x lo then lo else x in
  if ltb hi x then hi else x.

(** The integer part, and [x as usize], which saturates. *)
Definition trunc (m : positive) (e : Z) : Z :=
  if 0 <=? e then Z.shiftl (Zpos m) e else Z.shiftr (Zpos m) (- e).
Definition to_usize (x : f64) : Z :=
  match x with
  | S754_finite false m e => Z.min (trunc m e) (2 ^ 64 - 1)
  | S754_infinity false => 2 ^ 64 - 1
  | _ => 0
  end.

(** ** Text *)

(** The quotient [n / d] to nearest, ties to even. *)
Definition div_even (n d : Z) : Z :=
  let q := n / d in
  match 2 * (n mod d) ?= d with
  | Lt => q
  | Gt => q + 1
  | Eq => if Z.even q then q else q + 1
  end.
(** [m 2^e] as a fraction *)
Definition num (m : positive) (e : Z) : Z := Zpos m * 2 ^ Z.max e 0.
Definition den (e : Z) : Z := 2 ^ Z.max (- e) 0.

Definition pad_digits (w : nat) (l : list byte) : list byte := replicate (w - length l) "0"%byte ++ l.
(** [n / 10^k] with [k] decimals *)
Definition decimals (k : nat) (n : Z) : list byte :=
  let l := pad_digits (S k) (dec n) in
  match k with
  | O => l
  | _ => take (length l - k) l ++ "."%byte :: drop (length l - k) l
  end.
Definition sign (s : bool) : list byte := if s then ["-"%byte] else [].

(** [{:.k}] *)
Definition fixed (k : nat) (x : f64) : list byte :=
  match x with
  | S754_nan => bytes_of "NaN"
  | S754_infinity s => sign s ++ bytes_of "inf"
  | S754_zero s => sign s ++ decimals k 0
  | S754_finite s m e => sign s ++ decimals k (div_even (num m e * 10 ^ Z.of_nat k) (den e))
  end.

(** The number nearest to [d 10^p]. *)
Definition of_decimal (d p : Z) : f64 :=
  if 0 <=? p then of_Z (d * 10 ^ p)
  else match d, 10 ^ - p with
       | Zpos d, Zpos q => div (S754_finite false d 0) (S754_finite false q 0)
       | _, _ => S754_zero false
       end.
(** Of the two multiples of [10^p] around [n / d], those that read back as [x],
    and of these the nearest. *)
Definition nearest_reading (x : f64) (n d p : Z) : option Z :=
  let a := n * 10 ^ Z.max (- p) 0 in
  let b := d * 10 ^ Z.max p 0 in
  let lo := a / b in
  let reads c := SFeqb (of_decimal c p) x in
  match reads lo, reads (lo + 1) with
  | true, true => Some (div_even a b)
  | true, false => Some lo
  | false, true => Some (lo + 1)
  | false, false => None
  end.
(** The first scale, from coarse to fine, at which there is such a multiple. *)
Fixpoint shortest_from (fuel : nat) (x : f64) (n d p : Z) : Z * Z :=
  match fuel with
  | O => (n / d, 0)
  | S fuel =>
      match nearest_reading x n d p with
      | Some c => (c, p)
      | None => shortest_from fuel x n d (p - 1)
      end
  end.
(** [c 10^p] without an exponent *)
Definition positional (c p : Z) : list byte :=
  if 0 <=? p then dec (c * 10 ^ p) else decimals (Z.to_nat (- p)) c.
(** [{}] *)
Definition display (x : f64) : list byte :=
  match x with
  | S754_nan => bytes_of "NaN"
  | S754_infinity s => sign s ++ bytes_of "inf"
  | S754_zero s => sign s ++ ["0"%byte]
  | S754_finite s m e =>
      (* the number is below [10^top], and a multiple of [10^-1074] *)
      let top := (Z.log2 (Zpos m) + e + 1) * 30103 / 100000 + 2 in
      let '(c, p) := shortest_from (Z.to_nat (top + 1076)) (S754_finite false m e) (num m e) (den e) top in
      sign s ++ positional c p
  end.

(** ** Rounding is to the nearest *)
Lemma div_even_nearest n d : 0 < d → 2 * Z.abs (div_even n d * d - n) ≤ d.
Proof.
  intros Hd. unfold div_even. pose proof (Z.div_mod n d ltac:(lia)) as Hn.
  pose proof (Z.mod_pos_bound n d Hd).
  assert ((n / d) * d - n = - (n mod d)) as Hq by lia.
  assert ((n / d + 1) * d - n = d - n mod d) as Hq1 by lia.
  destruct (Z.compare_spec (2 * (n mod d)) d); [destruct (Z.even _)|..]; rewrite ?Hq, ?Hq1; lia.
Qed.
(** No other multiple is nearer, and the even one is taken when two are as near. *)
Lemma div_even_unique n d q : 0 < d → 2 * Z.abs (q * d - n) < d → div_even n d = q.
Proof. intros Hd Hq. pose proof (div_even_nearest n d Hd). nia. Qed.
Lemma div_even_exact n d : 0 < d → div_even (n * d) d = n.
Proof. intros Hd. apply div_even_unique; [done|]. rewrite Z.sub_diag. cbn. lia. Qed.
Lemma div_even_mono n n' d : 0 < d → n ≤ n' → div_even n d ≤ div_even n' d.
Proof.
  intros Hd Hn. unfold div_even. pose proof (Z.div_le_mono n n' d Hd Hn).
  pose proof (Z.div_mod n d ltac:(lia)). pose proof (Z.div_mod n' d ltac:(lia)).
  destruct (decide (n / d = n' / d)) as [He|He].
  - rewrite <-He in *. assert (n mod d ≤ n' mod d) by lia.
    destruct (Z.compare_spec (2 * (n mod d)) d), (Z.compare_spec (2 * (n' mod d)) d);
      destruct (Z.even (n / d)); lia.
  - destruct (Z.compare_spec (2 * (n mod d)) d), (Z.compare_spec (2 * (n' mod d)) d);
      destruct (Z.even (n / d)), (Z.even (n' / d)); lia.
Qed.
End F64.

Example fixed_samples :
  F64.fixed 1 (F64.of_bits 0x3fd0000000000000) = bytes_of "0.2" ∧
  F64.fixed 2 (F64.of_bits 0xc05edccccccccccd) = bytes_of "-123.45" ∧
  F64.fixed 0 (F64.of_Z 1023) = bytes_of "1023" ∧
  F64.fixed 1 (F64.div (F64.of_Z (2 ^ 64 - 1)) (F64.of_Z (2 ^ 40))) = bytes_of "16777216.0".
Proof. vm_compute. split_and!; reflexivity. Qed.
Example display_samples :
  F64.display (F64.of_bits 0x3fb999999999999a) = bytes_of "0.1" ∧
  F64.display (F64.of_bits 0x4197d78400000000) = bytes_of "100000000" ∧
  F64.display (F64.of_bits 0x3fd5555555555555) = bytes_of "0.3333333333333333" ∧
  F64.display (F64.of_bits 0x44b52d02c7e14af6) = bytes_of "100000000000000000000000" ∧
  F64.display (F64.of_bits 0xc037800000000000) = bytes_of "-23.5".
Proof. vm_compute. split_and!; reflexivity. Qed.
