(* ===== verification/Xpc.v ===== *)
(** * The XPC wire format ([src/xpc])

    [Value], the messages, their encoder and their decoder.  A dictionary is
    the list of its entries in the order in which the [HashMap] visits them;
    a [f64] is its bits.  Positions are unbounded: a Rust slice is shorter
    than [2^63] bytes and every position the decoder forms exceeds the length
    of the buffer by less than [2^33] ([decode_value_next]), so only the
    addition to a length read from the wire can overflow. *)

From stdpp Require Import countable.
From S2P Require Import Prelude RustStd Text.
From S2P Require Float.

Definition WRAPPER_MAGIC : Z := 0x29b00b92.
Definition PAYLOAD_MAGIC : Z := 0x42133742.
Definition PAYLOAD_VERSION : Z := 5.

Module flags.
Definition ALWAYS_SET : Z := 0x1.
Definition DATA_PRESENT : Z := 0x100.
Definition WANTING_REPLY : Z := 0x10000.
Definition REPLY : Z := 0x20000.
Definition INIT_HANDSHAKE : Z := 0x400000.
End flags.

(** ** Values *)

#[warnings="-non-recursive"]
Inductive Value : Type :=
  | Null
  | VBool (b : bool)
  | Int64 (n : Z)
  | Uint64 (n : Z)
  | Double (bits : Z)
  | VData (l : list byte)
  | VString (s : string)
  | Uuid (l : list byte)
  | VArray (l : list Value)
  | Dictionary (d : list (string * Value)).

Definition as_str (v : Value) : option string :=
  match v with VString s => Some s | _ => None end.
Definition as_dict (v : Value) : option (list (string * Value)) :=
  match v with Dictionary d => Some d | _ => None end.
Definition as_array (v : Value) : option (list Value) :=
  match v with VArray a => Some a | _ => None end.
Definition as_u64 (v : Value) : option Z :=
  match v with
  | Uint64 n => Some n
  | Int64 n => Some (wrap 64 n)
  | _ => None
  end.
Definition as_i64 (v : Value) : option Z :=
  match v with
  | Int64 n => Some n
  | Uint64 n => Some (swrap 64 n)
  | _ => None
  end.
Definition as_bool (v : Value) : option bool :=
  match v with VBool b => Some b | _ => None end.

(** [Display]; a number of [Double] is its bits. *)
Definition Value_fmt (v : Value) : list byte :=
  match v with
  | Null => bytes_of "null"
  | VBool b => bytes_of (if b then "true" else "false")
  | Int64 n => dec_signed n
  | Uint64 n => dec n
  | Double d => Float.F64.display (Float.F64.of_bits d)
  | VData b => bytes_of "<" ++ dec (lenZ b) ++ bytes_of " bytes>"
  | VString s => bytes_of s
  | Uuid u => concat (hex02 false <$> u)
  | VArray a => bytes_of "[" ++ dec (lenZ a) ++ bytes_of " items]"
  | Dictionary d => bytes_of "{" ++ dec (lenZ d) ++ bytes_of " keys}"
  end.

Record Message : Type := MkMessage { m_flags : Z; msg_id : Z; body : option Value }.

Definition with_body (msg_id : Z) (body : Value) : Message :=
  MkMessage (Z.lor (Z.lor flags.ALWAYS_SET flags.DATA_PRESENT) flags.WANTING_REPLY)
    msg_id (Some body).
Definition reply (msg_id : Z) (body : Value) : Message :=
  MkMessage (Z.lor (Z.lor flags.ALWAYS_SET flags.DATA_PRESENT) flags.REPLY)
    msg_id (Some body).
Definition init (flags : Z) : Message := MkMessage flags 0 None.

Inductive XpcError : Type :=
  | TooShort (need got : Z)
  | BadMagic (magic : Z)
  | UnknownType (tag : Z)
  | InvalidUtf8.

(** [Display] *)
Definition XpcError_fmt (e : XpcError) : message :=
  match e with
  | TooShort need got => Msg "buffer too short: need {need}, got {got}" [FNum need; FNum got]
  | BadMagic n => Msg "bad magic: {0:#010x}" [FHex n]
  | UnknownType n => Msg "unknown XPC type tag: {0:#010x}" [FHex n]
  | InvalidUtf8 => msg0 "invalid UTF-8 in XPC string"
  end.

(** ** Type tags and helpers *)

Definition TYPE_NULL : Z := 0x1000.
Definition TYPE_BOOL : Z := 0x2000.
Definition TYPE_INT64 : Z := 0x3000.
Definition TYPE_UINT64 : Z := 0x4000.
Definition TYPE_DOUBLE : Z := 0x5000.
Definition TYPE_DATE : Z := 0x7000.
Definition TYPE_DATA : Z := 0x8000.
Definition TYPE_STRING : Z := 0x9000.
Definition TYPE_UUID : Z := 0xa000.
Definition TYPE_ARRAY : Z := 0xe000.
Definition TYPE_DICTIONARY : Z := 0xf000.

(** [(n + 3) & !3] *)
Definition pad4 (n : Z) : Z := Z.ldiff (n + 3) 3.

Abbreviation XR := (outcome XpcError).

Definition read_u32le (buf : list byte) (pos : Z) : XR Z :=
  let? s := ok_or (get_slice buf pos (pos + 4)) (TooShort (pos + 4) (lenZ buf)) in
  Ok (le_val s).

Definition read_u64le (buf : list byte) (pos : Z) : XR Z :=
  let? s := ok_or (get_slice buf pos (pos + 8)) (TooShort (pos + 8) (lenZ buf)) in
  Ok (le_val s).

(** [iter().position(|&b| b == 0)] *)
Fixpoint nul_position (l : list byte) : option Z :=
  match l with
  | [] => None
  | b :: l => if is_nul b then Some 0 else (λ n, 1 + n) <$> nul_position l
  end.

(** ** Decoding

    [decode_items] and [decode_entries] are the two [for _ in 0..count] loops.
    Each step moves at least four bytes forward, so the length of the buffer
    bounds the depth of the recursion and the number of iterations
    ([decode_value_fuel_enough]), whatever the counts on the wire are. *)
Fixpoint decode_value (fuel : nat) (buf : list byte) (pos : Z) : XR (Value * Z) :=
  match fuel with
  | O => OutOfFuel
  | S fuel =>
    let? tag := read_u32le buf pos in
    let p := pos + 4 in
    if tag =? TYPE_NULL then Ok (Null, p)
    else if tag =? TYPE_BOOL then
      let? v := ok_or (get_at buf p) (TooShort (p + 1) (lenZ buf)) in
      Ok (VBool (negb (u8 v =? 0)), p + 4)
    else if tag =? TYPE_INT64 then
      let? s := ok_or (get_slice buf p (p + 8)) (TooShort (p + 8) (lenZ buf)) in
      Ok (Int64 (swrap 64 (le_val s)), p + 8)
    else if tag =? TYPE_UINT64 then
      let? n := read_u64le buf p in Ok (Uint64 n, p + 8)
    else if tag =? TYPE_DOUBLE then
      let? bits := read_u64le buf p in Ok (Double bits, p + 8)
    else if tag =? TYPE_DATA then
      let? len := read_u32le buf p in
      let start := p + 4 in
      let? data := ok_or (get_slice buf start (start + len))
                     (TooShort (start + len) (lenZ buf)) in
      Ok (VData data, start + pad4 len)
    else if tag =? TYPE_STRING then
      let? len := read_u32le buf p in
      let start := p + 4 in
      let? raw := ok_or (get_slice buf start (start + len))
                    (TooShort (start + len) (lenZ buf)) in
      let? s := ok_or (from_utf8 (default raw (head (split_on is_nul raw)))) InvalidUtf8 in
      Ok (VString s, start + pad4 len)
    else if tag =? TYPE_UUID then
      let stop := p + 16 in
      let? u := ok_or (get_slice buf p stop) (TooShort stop (lenZ buf)) in
      Ok (Uuid u, stop)
    else if tag =? TYPE_ARRAY then
      let? total_size := read_u32le buf p in
      let? count := read_u32le buf (p + 4) in
      let stop := p + 4 + total_size in
      let? items := decode_items fuel buf count (p + 8) in
      Ok (VArray items, stop)
    else if tag =? TYPE_DICTIONARY then
      let? total_size := read_u32le buf p in
      let? count := read_u32le buf (p + 4) in
      let stop := p + 4 + total_size in
      let? map := decode_entries fuel buf count (p + 8) [] in
      Ok (Dictionary map, stop)
    else if tag =? TYPE_DATE then
      let? bits := read_u64le buf p in Ok (Double bits, p + 8)
    else Ok (Null, p + 8)
  end
with decode_items (fuel : nat) (buf : list byte) (count cur : Z) : XR (list Value) :=
  if count <=? 0 then Ok []
  else match fuel with
  | O => OutOfFuel
  | S fuel =>
      let? r := decode_value fuel buf cur in
      let? items := decode_items fuel buf (count - 1) r.2 in
      Ok (r.1 :: items)
  end
with decode_entries (fuel : nat) (buf : list byte) (count cur : Z)
    (map : list (string * Value)) : XR (list (string * Value)) :=
  if count <=? 0 then Ok map
  else match fuel with
  | O => OutOfFuel
  | S fuel =>
      let? tail := slice buf cur (lenZ buf) in
      let? nul := ok_or (nul_position tail) InvalidUtf8 in
      let? k := slice buf cur (cur + nul) in
      let? key := ok_or (from_utf8 k) InvalidUtf8 in
      let cur := cur + pad4 (nul + 1) in
      let? r := decode_value fuel buf cur in
      decode_entries fuel buf (count - 1) r.2 (al_insert key r.1 map)
  end.

(** Fuel for a buffer: see [decode_value_fuel_enough]. *)
Definition value_fuel (buf : list byte) : nat := S (length buf).

Definition decode_message `{BuildProfile} (buf : list byte) : XR (Message * Z) :=
  if lenZ buf <? 24 then Err (TooShort 24 (lenZ buf))
  else
    let? magic := read_u32le buf 0 in
    if negb (magic =? WRAPPER_MAGIC) then Err (BadMagic magic)
    else
      let? flags := read_u32le buf 4 in
      let? body_len := read_u64le buf 8 in
      let? msg_id := read_u64le buf 16 in
      let? total := usize_add 24 body_len in
      if lenZ buf <? total then Err (TooShort total (lenZ buf))
      else
        let? body :=
          if 8 <=? body_len then
            let? stop := usize_add 24 body_len in
            let? pb := slice buf 24 stop in
            let? pmag := read_u32le pb 0 in
            if negb (pmag =? PAYLOAD_MAGIC) then Err (BadMagic pmag)
            else let? r := decode_value (value_fuel pb) pb 8 in Ok (Some r.1)
          else Ok None in
        Ok (MkMessage flags msg_id body, total).

(** ** Encoding

    The encoder has no error; the sizes of nested arrays and dictionaries are
    added as [u32]. *)
Definition encode_dict_key (key : string) : list byte :=
  let len := lenZ (bytes_of key) + 1 in
  let pad := pad4 len - len in
  bytes_of key ++ [x00] ++ replicate (Z.to_nat pad) x00.

Fixpoint encode_value `{BuildProfile} {E} (val : Value) : outcome E (list byte) :=
  match val with
  | Null => Ok (le_bytes 4 TYPE_NULL)
  | VBool b => Ok (le_bytes 4 TYPE_BOOL ++ [if b then x01 else x00] ++ [x00; x00; x00])
  | Int64 n => Ok (le_bytes 4 TYPE_INT64 ++ le_bytes 8 n)
  | Uint64 n => Ok (le_bytes 4 TYPE_UINT64 ++ le_bytes 8 n)
  | Double d => Ok (le_bytes 4 TYPE_DOUBLE ++ le_bytes 8 d)
  | VData bytes =>
      let pad := pad4 (lenZ bytes) - lenZ bytes in
      Ok (le_bytes 4 TYPE_DATA ++ le_bytes 4 (wrap 32 (lenZ bytes)) ++ bytes
          ++ replicate (Z.to_nat pad) x00)
  | VString s =>
      let len := lenZ (bytes_of s) + 1 in
      let pad := pad4 len - len in
      Ok (le_bytes 4 TYPE_STRING ++ le_bytes 4 (wrap 32 len) ++ bytes_of s ++ [x00]
          ++ replicate (Z.to_nat pad) x00)
  | Uuid u => Ok (le_bytes 4 TYPE_UUID ++ u)
  | VArray items =>
      let? items_buf :=
        (fix go items := match items with
                         | [] => Ok []
                         | item :: items =>
                             let? a := encode_value item in
                             let? b := go items in Ok (a ++ b)
                         end) items in
      let? total_size := u32_add 4 (wrap 32 (lenZ items_buf)) in
      Ok (le_bytes 4 TYPE_ARRAY ++ le_bytes 4 total_size
          ++ le_bytes 4 (wrap 32 (lenZ items)) ++ items_buf)
  | Dictionary map =>
      let? kv_buf :=
        (fix go map := match map with
                       | [] => Ok []
                       | (key, val) :: map =>
                           let? a := encode_value val in
                           let? b := go map in Ok (encode_dict_key key ++ a ++ b)
                       end) map in
      let? total_size := u32_add 4 (wrap 32 (lenZ kv_buf)) in
      Ok (le_bytes 4 TYPE_DICTIONARY ++ le_bytes 4 total_size
          ++ le_bytes 4 (wrap 32 (lenZ map)) ++ kv_buf)
  end.

Definition encode_message `{BuildProfile} {E} (msg : Message) : outcome E (list byte) :=
  let? payload :=
    match body msg with
    | Some v =>
        let? e := encode_value v in
        Ok (Some (le_bytes 4 PAYLOAD_MAGIC ++ le_bytes 4 PAYLOAD_VERSION ++ e))
    | None => Ok None
    end in
  let body_len := from_option lenZ 0 payload in
  Ok (le_bytes 4 WRAPPER_MAGIC ++ le_bytes 4 (m_flags msg) ++ le_bytes 8 body_len
      ++ le_bytes 8 (msg_id msg) ++ default [] payload).

(** ** The domain of the format *)

Definition key_ok (s : string) : bool := utf8_valid (bytes_of s) && bool_decide (no_nul s).

(** What the format represents: numbers of their type, strings without NUL
    characters, dictionaries with distinct keys. *)
Fixpoint value_ok (v : Value) : bool :=
  match v with
  | Null | VBool _ | VData _ => true
  | Int64 n => bool_decide (in_i 64 n)
  | Uint64 n | Double n => bool_decide (in_u 64 n)
  | VString s => key_ok s
  | Uuid u => lenZ u =? 16
  | VArray l => forallb value_ok l
  | Dictionary d =>
      bool_decide (NoDup (al_keys d)) && forallb (λ kv, key_ok kv.1 && value_ok kv.2) d
  end.

Definition str_size (s : string) : Z := pad4 (lenZ (bytes_of s) + 1).

(** The number of bytes of the encoding ([encode_value_size]). *)
Fixpoint wire_size (v : Value) : Z :=
  match v with
  | Null => 4
  | VBool _ => 8
  | Int64 _ | Uint64 _ | Double _ => 12
  | VData l => 8 + pad4 (lenZ l)
  | VString s => 8 + str_size s
  | Uuid _ => 20
  | VArray l => 12 + foldr (λ v n, wire_size v + n) 0 l
  | Dictionary d => 12 + foldr (λ kv n, str_size kv.1 + wire_size kv.2 + n) 0 d
  end.

Definition items_size : list Value → Z := foldr (λ v n, wire_size v + n) 0.
Definition entries_size : list (string * Value) → Z :=
  foldr (λ kv n, str_size kv.1 + wire_size kv.2 + n) 0.

Section value_ind.
Variable P : Value → Prop.
Hypothesis (HNull : P Null) (HBool : ∀ b, P (VBool b)) (HInt : ∀ n, P (Int64 n))
  (HUint : ∀ n, P (Uint64 n)) (HDouble : ∀ n, P (Double n)) (HData : ∀ l, P (VData l))
  (HString : ∀ s, P (VString s)) (HUuid : ∀ l, P (Uuid l))
  (HArray : ∀ l, Forall P l → P (VArray l))
  (HDict : ∀ d, Forall (λ kv, P kv.2) d → P (Dictionary d)).

Fixpoint Value_nested_ind (v : Value) : P v :=
  match v with
  | Null => HNull
  | VBool b => HBool b
  | Int64 n => HInt n
  | Uint64 n => HUint n
  | Double n => HDouble n
  | VData l => HData l
  | VString s => HString s
  | Uuid l => HUuid l
  | VArray l =>
      HArray l ((fix go l : Forall P l :=
        match l with
        | [] => Forall_nil_2 P
        | v :: l => Forall_cons_2 P v l (Value_nested_ind v) (go l)
        end) l)
  | Dictionary d =>
      HDict d ((fix go d : Forall (λ kv, P kv.2) d :=
        match d with
        | [] => Forall_nil_2 _
        | kv :: d => Forall_cons_2 _ kv d (Value_nested_ind kv.2) (go d)
        end) d)
  end.
End value_ind.

Lemma pad4_spec n : 0 ≤ n → n ≤ pad4 n < n + 4.
Proof.
  intros. unfold pad4. change (Z.ldiff (n + 3) 3) with (Z.ldiff (n + 3) (Z.ones 2)).
  rewrite Z.ldiff_ones_r, Z.shiftl_mul_pow2, Z.shiftr_div_pow2 by lia.
  change (2 ^ 2) with 4.
  pose proof (Z_div_mod_eq_full (n + 3) 4).
  pose proof (Z.mod_pos_bound (n + 3) 4 ltac:(lia)). lia.
Qed.

(** ** Encoding: the size of the output *)
Section encoding.
Context `{BuildProfile} {E : Type}.

Fixpoint encode_items (items : list Value) : outcome E (list byte) :=
  match items with
  | [] => Ok []
  | item :: items =>
      let? a := encode_value item in let? b := encode_items items in Ok (a ++ b)
  end.

Fixpoint encode_entries (map : list (string * Value)) : outcome E (list byte) :=
  match map with
  | [] => Ok []
  | (key, val) :: map =>
      let? a := encode_value val in
      let? b := encode_entries map in Ok (encode_dict_key key ++ a ++ b)
  end.

Lemma encode_array items :
  encode_value (E:=E) (VArray items) =
    let? items_buf := encode_items items in
    let? total_size := u32_add 4 (wrap 32 (lenZ items_buf)) in
    Ok (le_bytes 4 TYPE_ARRAY ++ le_bytes 4 total_size
        ++ le_bytes 4 (wrap 32 (lenZ items)) ++ items_buf).
Proof. reflexivity. Qed.

Lemma encode_dictionary map :
  encode_value (E:=E) (Dictionary map) =
    let? kv_buf := encode_entries map in
    let? total_size := u32_add 4 (wrap 32 (lenZ kv_buf)) in
    Ok (le_bytes 4 TYPE_DICTIONARY ++ le_bytes 4 total_size
        ++ le_bytes 4 (wrap 32 (lenZ map)) ++ kv_buf).
Proof. reflexivity. Qed.

Lemma lenZ_padded l n :
  n = lenZ l → lenZ (l ++ replicate (Z.to_nat (pad4 n - n)) x00) = pad4 n.
Proof. intros ->. pose proof (pad4_spec (lenZ l) (lenZ_nonneg l)). len. Qed.

Lemma lenZ_encode_dict_key k : lenZ (encode_dict_key k) = str_size k.
Proof.
  unfold encode_dict_key, str_size. rewrite (assoc_L (++)). apply lenZ_padded. len.
Qed.

Lemma str_size_pos s : lenZ (bytes_of s) + 1 ≤ str_size s.
Proof. unfold str_size. pose proof (pad4_spec (lenZ (bytes_of s) + 1)). len. Qed.

Lemma wire_size_pos v : 4 ≤ wire_size v.
Proof.
  induction v as [ | | | | | | | |l IH|d IH] using Value_nested_ind; cbn [wire_size]; try lia.
  - pose proof (pad4_spec (lenZ l)). len.
  - pose proof (str_size_pos s). len.
  - induction IH; simpl; lia.
  - induction IH as [|[k v] d Hv _ IHd]; simpl in *; [lia|].
    pose proof (str_size_pos k). len.
Qed.

Lemma items_size_ge l : 4 * lenZ l ≤ items_size l.
Proof.
  induction l as [|v l IH]; [done|].
  change (items_size (v :: l)) with (wire_size v + items_size l).
  pose proof (wire_size_pos v). len.
Qed.

Lemma entries_size_ge d : 4 * lenZ d ≤ entries_size d.
Proof.
  induction d as [|[k v] l IH]; [done|].
  change (entries_size ((k, v) :: l)) with (str_size k + wire_size v + entries_size l).
  pose proof (wire_size_pos v). pose proof (str_size_pos k). len.
Qed.

Definition encodes (v : Value) : Prop :=
  wire_size v < 2 ^ 32 → value_ok v = true →
  ∃ out, encode_value (E:=E) v = Ok out ∧ lenZ out = wire_size v.

Lemma encode_items_size l :
  Forall (encodes) l → items_size l < 2 ^ 32 → forallb value_ok l = true →
  ∃ out, encode_items l = Ok out ∧ lenZ out = items_size l.
Proof.
  induction 1 as [|v l Hv _ IH]; [by exists []|].
  change (items_size (v :: l)) with (wire_size v + items_size l).
  cbn [forallb encode_items].
  intros Hs [Hokv Hokl]%andb_true_iff. pose proof (wire_size_pos v).
  pose proof (items_size_ge l).
  destruct Hv as (a & -> & Ha); [len|done|].
  destruct IH as (b & -> & Hb); [len|done|].
  eexists. split; [done|]. len.
Qed.

Lemma encode_entries_size d :
  Forall (λ kv, encodes kv.2) d → entries_size d < 2 ^ 32 →
  forallb (λ kv, key_ok kv.1 && value_ok kv.2) d = true →
  ∃ out, encode_entries d = Ok out ∧ lenZ out = entries_size d.
Proof.
  induction 1 as [|[k v] d Hv _ IH]; [by exists []|].
  change (entries_size ((k, v) :: d)) with (str_size k + wire_size v + entries_size d).
  cbn [forallb encode_entries fst snd].
  intros Hs [[_ Hokv]%andb_true_iff Hokl]%andb_true_iff. simpl in Hv.
  pose proof (wire_size_pos v). pose proof (entries_size_ge d).
  pose proof (str_size_pos k).
  destruct Hv as (a & -> & Ha); [len|done|].
  destruct IH as (b & -> & Hb); [len|done|].
  eexists. split; [done|]. rewrite !lenZ_app, lenZ_encode_dict_key. len.
Qed.

(** Encoding neither fails nor panics, and fills exactly [wire_size] bytes. *)
Lemma encode_value_size v : encodes v.
Proof.
  unfold encodes. induction v as [ | | | | | | | |l IH|d IH] using Value_nested_ind;
    cbn [wire_size value_ok]; intros Hs Hok; try (eexists; split; [reflexivity|]).
  1-5: try destruct b; len.
  - pose proof (pad4_spec (lenZ l)). len.
  - unfold str_size. pose proof (pad4_spec (lenZ (bytes_of s) + 1)). len.
  - zhyps. len.
  - fold (items_size l) in *. rewrite encode_array.
    destruct (encode_items_size l) as (out & -> & Hout); [done|lia|done|].
    simpl. pose proof (lenZ_nonneg out).
    rewrite wrap_small by (unfold in_u; lia). rewrite add_w_ok by lia.
    eexists. split; [reflexivity|]. len.
  - fold (entries_size d) in *. rewrite encode_dictionary. zhyps.
    destruct (encode_entries_size d) as (out & -> & Hout); [done|lia|done|].
    simpl. pose proof (lenZ_nonneg out).
    rewrite wrap_small by (unfold in_u; lia). rewrite add_w_ok by lia.
    eexists. split; [reflexivity|]. len.
Qed.
End encoding.

Lemma encode_value_fuel `{BuildProfile} {E} v : encode_value (E:=E) v ≠ OutOfFuel.
Proof.
  induction v as [ | | | | | | | |l IH|d IH] using Value_nested_ind; try done.
  - rewrite encode_array. repeat (apply obind_fuel; [|intros; auto with fuel]); auto with fuel.
    induction IH as [|v l Hv _ IHl]; [done|]. cbn [encode_items].
    repeat (apply obind_fuel; [done|intros]). done.
  - rewrite encode_dictionary. repeat (apply obind_fuel; [|intros; auto with fuel]); auto with fuel.
    induction IH as [|[k v] d Hv _ IHd]; [done|]. cbn [encode_entries].
    repeat (apply obind_fuel; [done|intros]). done.
Qed.

Lemma encode_message_fuel `{BuildProfile} {E} m : encode_message (E:=E) m ≠ OutOfFuel.
Proof.
  unfold encode_message. apply obind_fuel; [|done].
  destruct (body m); [|done]. apply obind_fuel; [apply encode_value_fuel|done].
Qed.

(** ** Decoding what was encoded *)

Lemma read_u32le_at buf pos n :
  has_at buf pos (le_bytes 4 n) → in_u 32 n → read_u32le buf pos = Ok n.
Proof.
  intros Hat Hn. unfold read_u32le. rewrite (has_at_slice _ _ _ _ Hat) by len.
  simpl. by rewrite le_val_le_bytes_small.
Qed.

Lemma read_u64le_at buf pos n :
  has_at buf pos (le_bytes 8 n) → in_u 64 n → read_u64le buf pos = Ok n.
Proof.
  intros Hat Hn. unfold read_u64le. rewrite (has_at_slice _ _ _ _ Hat) by len.
  simpl. by rewrite le_val_le_bytes_small.
Qed.

(** Decides the comparisons of type tags in the goal. *)
Ltac tags :=
  repeat match goal with
  | |- context [?a =? ?b] =>
      let r := eval vm_compute in (a =? b) in
      match r with
      | true => change (a =? b) with true
      | false => change (a =? b) with false
      end
  end; cbv beta iota.

Lemma nul_position_app l post :
  Forall (λ b, is_nul b = false) l → nul_position (l ++ x00 :: post) = Some (lenZ l).
Proof.
  induction 1 as [|b l Hb _ IH]; [done|].
  cbn [app nul_position]. rewrite Hb, IH. simpl. f_equal. len.
Qed.

Lemma key_ok_spec s :
  key_ok s = true → from_utf8 (bytes_of s) = Some s ∧ no_nul s.
Proof.
  unfold key_ok. intros [Hu Hn]%andb_true_iff. apply bool_decide_eq_true in Hn.
  split; [by apply from_utf8_string|done].
Qed.

(** The terminator of a key is found where the encoder put it. *)
Lemma dict_key_at {E} buf pos k :
  has_at buf pos (encode_dict_key k) → key_ok k = true →
  ∃ tail, slice (E:=E) buf pos (lenZ buf) = Ok tail ∧
    nul_position tail = Some (lenZ (bytes_of k)) ∧
    slice (E:=E) buf pos (pos + lenZ (bytes_of k)) = Ok (bytes_of k).
Proof.
  intros Hat [_ Hnul]%key_ok_spec. destruct (has_at_tail _ _ _ Hat) as (post & Htail).
  eexists. unfold slice. rewrite Htail. split; [done|]. unfold encode_dict_key in *.
  rewrite <-!(assoc_L (++)). split; [by apply nul_position_app|].
  apply has_at_app in Hat as [Hat _]. by rewrite (has_at_slice _ _ _ _ Hat).
Qed.

(** Splits a hypothesis [has_at] into its fields. *)
Ltac split_at H :=
  repeat lazymatch type of H with
  | has_at _ _ (le_bytes _ _ ++ _) =>
      let H1 := fresh H in apply has_at_app in H as [H1 H];
      rewrite ?lenZ_le_bytes in H; change (Z.of_nat 4) with 4 in H;
      change (Z.of_nat 8) with 8 in H; closed_sums H
  end.

Section round_trip.
Context `{BuildProfile} {E : Type}.

Definition decodes (v : Value) : Prop :=
  ∀ out, wire_size v < 2 ^ 32 → value_ok v = true → encode_value (E:=E) v = Ok out →
  ∀ fuel buf pos, has_at buf pos out → wire_size v ≤ Z.of_nat fuel →
  decode_value fuel buf pos = Ok (v, pos + wire_size v).

Lemma decode_items_encode l :
  Forall decodes l →
  ∀ out, items_size l < 2 ^ 32 → forallb value_ok l = true →
  encode_items (E:=E) l = Ok out →
  ∀ fuel buf pos, has_at buf pos out → 1 + items_size l ≤ Z.of_nat fuel →
  decode_items fuel buf (lenZ l) pos = Ok l.
Proof.
  induction 1 as [|v l Hv _ IH]; intros out Hs Hok Henc fuel buf pos Hat Hf.
  { by destruct fuel. }
  change (items_size (v :: l)) with (wire_size v + items_size l) in *.
  cbn [forallb encode_items] in *. apply andb_true_iff in Hok as [Hokv Hokl].
  pose proof (wire_size_pos v). pose proof (items_size_ge l).
  destruct (encode_value_size (E:=E) v) as (a & Ha & Hla); [len|done|].
  rewrite Ha in Henc. simpl in Henc.
  destruct (encode_items (E:=E) l) as [b| | |] eqn:Hb; try done.
  simpl in Henc. injection Henc as <-.
  apply has_at_app in Hat as [Hat1 Hat2].
  destruct fuel as [|fuel]; [len|]. cbn [decode_items]. zcmp.
  rewrite (Hv a) by (done || len). simpl.
  replace (lenZ (v :: l) - 1) with (lenZ l) by len.
  rewrite <-Hla. rewrite (IH b) by (done || len). done.
Qed.

Lemma decode_entries_encode d :
  Forall (λ kv, decodes kv.2) d →
  ∀ out map, entries_size d < 2 ^ 32 →
  forallb (λ kv, key_ok kv.1 && value_ok kv.2) d = true →
  NoDup (al_keys (map ++ d)) →
  encode_entries (E:=E) d = Ok out →
  ∀ fuel buf pos, has_at buf pos out → 1 + entries_size d ≤ Z.of_nat fuel →
  decode_entries fuel buf (lenZ d) pos map = Ok (map ++ d).
Proof.
  induction 1 as [|[k v] d Hv _ IH];
    intros out map Hs Hok Hnd Henc fuel buf pos Hat Hf.
  { rewrite app_nil_r. by destruct fuel. }
  change (entries_size ((k, v) :: d)) with (str_size k + wire_size v + entries_size d) in *.
  cbn [forallb encode_entries fst snd] in *. zhyps.
  pose proof (wire_size_pos v). pose proof (entries_size_ge d). pose proof (str_size_pos k).
  destruct (encode_value_size (E:=E) v) as (a & Ha & Hla); [len|done|].
  rewrite Ha in Henc. simpl in Henc.
  destruct (encode_entries (E:=E) d) as [b| | |] eqn:Hb; try done.
  simpl in Henc. injection Henc as <-.
  apply has_at_app in Hat as [Hk Hat]. rewrite lenZ_encode_dict_key in Hat.
  apply has_at_app in Hat as [Hat1 Hat2].
  destruct (key_ok_spec k) as [Hkey Hnul]; [done|].
  destruct (dict_key_at (E:=XpcError) _ _ _ Hk) as (tail & Htail & Hpos & Hsl); [done|].
  destruct fuel as [|fuel]; [len|]. cbn [decode_entries]. zcmp.
  rewrite Htail. simpl. rewrite Hpos. simpl. rewrite Hsl. simpl.
  rewrite (proj1 (key_ok_spec k ltac:(done))). simpl. fold (str_size k).
  rewrite (Hv a) by (done || len). simpl.
  rewrite al_insert_fresh.
  - replace (lenZ ((k, v) :: d) - 1) with (lenZ d) by len.
    rewrite <-Hla. rewrite (IH b (map ++ [(k, v)])); [|done || len..| |done|done|len].
    + by rewrite <-(assoc_L (++)).
    + by rewrite <-(assoc_L (++)).
  - unfold al_keys in *. rewrite fmap_app in Hnd. apply NoDup_app in Hnd as (_ & Hd & _).
    intros Hin. apply (Hd k Hin). by left.
Qed.

Ltac decode_start :=
  intros out Hs Hok Henc fuel buf pos Hat Hf; cbn [value_ok] in Hok;
  try (injection Henc as <-);
  (destruct fuel as [|fuel];
    [pose proof (wire_size_pos ltac:(match type of Hf with wire_size ?v ≤ _ => exact v end)); lia|]);
  cbn [decode_value].

Lemma value_decodes_data l : decodes (VData l).
Proof.
  decode_start. cbn [wire_size] in *. pose proof (pad4_spec (lenZ l) (lenZ_nonneg l)).
  split_at Hat. rewrite (read_u32le_at _ _ TYPE_DATA) by done. simpl obind. tags.
  rewrite wrap_small in Hat1 by (unfold in_u; len).
  rewrite (read_u32le_at _ _ (lenZ l)) by (done || unfold in_u; len). simpl obind.
  apply has_at_app in Hat as [Hat _].
  rewrite (has_at_slice _ _ _ _ Hat) by len. simpl. do 2 f_equal. lia.
Qed.
Lemma value_decodes_string s : decodes (VString s).
Proof.
  decode_start. cbn [wire_size] in *. unfold str_size in *.
  pose proof (pad4_spec (lenZ (bytes_of s) + 1)).
  apply key_ok_spec in Hok as [Hutf Hnul].
  split_at Hat. rewrite (read_u32le_at _ _ TYPE_STRING) by done. simpl obind. tags.
  rewrite wrap_small in Hat1 by (unfold in_u; len).
  rewrite (read_u32le_at _ _ (lenZ (bytes_of s) + 1)) by (done || unfold in_u; len).
  simpl obind.
  rewrite (cons_middle x00), (assoc_L (++)) in Hat. apply has_at_app in Hat as [Hat _].
  rewrite (has_at_slice _ _ _ _ Hat) by len.
  simpl obind. rewrite (split_on_app is_nul (bytes_of s) x00 []) by done. simpl.
  rewrite Hutf. simpl. do 2 f_equal. lia.
Qed.
(** After the tag of a container: its length and its count *)
Ltac decode_counts Hat1 Hat2 :=
  rewrite (read_u32le_at _ _ _ Hat1) by (unfold in_u; lia); simpl obind;
  rewrite (read_u32le_at _ _ _ Hat2) by (unfold in_u; lia); simpl obind;
  match goal with |- context [?pos + 4 + 8] => replace (pos + 4 + 8) with (pos + 4 + 4 + 4) by lia end.
Lemma value_decodes_array l : Forall decodes l → decodes (VArray l).
Proof.
  intros IH. decode_start. cbn [wire_size] in *. fold (items_size l) in *. rewrite encode_array in Henc.
  destruct (encode_items_size (E:=E) l) as (b & Hb & Hlb);
    [apply Forall_forall; intros; apply encode_value_size|lia|done|].
  pose proof (items_size_ge l). pose proof (lenZ_nonneg l).
  rewrite Hb in Henc. simpl in Henc.
  rewrite !wrap_small, add_w_ok in Henc by (unfold in_u; lia).
  simpl in Henc. injection Henc as <-. split_at Hat.
  rewrite (read_u32le_at _ _ TYPE_ARRAY) by done. simpl obind. tags. decode_counts Hat1 Hat2.
  rewrite (decode_items_encode l IH b) by (done || lia).
  simpl. do 2 f_equal. lia.
Qed.
Lemma value_decodes_dictionary d : Forall (λ kv, decodes kv.2) d → decodes (Dictionary d).
Proof.
  intros IH. decode_start. cbn [wire_size] in *. fold (entries_size d) in *. rewrite encode_dictionary in Henc.
  apply andb_true_iff in Hok as [Hnd Hok]. apply bool_decide_eq_true in Hnd.
  destruct (encode_entries_size (E:=E) d) as (b & Hb & Hlb);
    [apply Forall_forall; intros; apply encode_value_size|lia|done|].
  pose proof (entries_size_ge d). pose proof (lenZ_nonneg d).
  rewrite Hb in Henc. simpl in Henc.
  rewrite !wrap_small, add_w_ok in Henc by (unfold in_u; lia).
  simpl in Henc. injection Henc as <-. split_at Hat.
  rewrite (read_u32le_at _ _ TYPE_DICTIONARY) by done. simpl obind. tags. decode_counts Hat1 Hat2.
  rewrite (decode_entries_encode d IH b) by (done || lia).
  simpl. do 2 f_equal. lia.
Qed.

Lemma decode_value_encode v : decodes v.
Proof.
  induction v as [ |b|n|n|n|l|s|u|l IH|d IH] using Value_nested_ind;
    try (by first [apply value_decodes_data|apply value_decodes_string|apply value_decodes_array|apply value_decodes_dictionary]);
    decode_start.
  - rewrite (read_u32le_at _ _ TYPE_NULL) by done. simpl obind. tags. done.
  - split_at Hat. rewrite (read_u32le_at _ _ TYPE_BOOL) by done. simpl obind. tags.
    apply has_at_cons in Hat as [-> _]. simpl.
    destruct b; do 2 f_equal; lia.
  - split_at Hat. rewrite (read_u32le_at _ _ TYPE_INT64) by done. simpl obind. tags.
    rewrite (has_at_slice _ _ _ _ Hat) by len. simpl.
    apply bool_decide_eq_true in Hok.
    rewrite le_val_le_bytes. change (256 ^ Z.of_nat 8) with (2 ^ 64).
    fold (wrap 64 n). rewrite swrap_wrap by done. do 2 f_equal. lia.
  - split_at Hat. rewrite (read_u32le_at _ _ TYPE_UINT64) by done. simpl obind. tags.
    apply bool_decide_eq_true in Hok. rewrite (read_u64le_at _ _ n) by done.
    simpl. do 2 f_equal. lia.
  - split_at Hat. rewrite (read_u32le_at _ _ TYPE_DOUBLE) by done. simpl obind. tags.
    apply bool_decide_eq_true in Hok. rewrite (read_u64le_at _ _ n) by done.
    simpl. do 2 f_equal. lia.
  - zhyps. split_at Hat. rewrite (read_u32le_at _ _ TYPE_UUID) by done. simpl obind. tags.
    rewrite (has_at_slice _ _ _ _ Hat) by lia. simpl. do 2 f_equal. lia.
Qed.
End round_trip.

(** ** Termination and positions of the decoder *)


Lemma read_u32le_inv buf pos n :
  read_u32le buf pos = Ok n → pos + 4 ≤ lenZ buf ∧ in_u 32 n.
Proof.
  unfold read_u32le. intros Hr. apply obind_Ok_inv in Hr as (s & Hs%ok_or_Ok & [= <-]).
  apply get_slice_Some in Hs as (? & ? & ? & ?). split; [lia|].
  apply (le_val_u 4); [done|]. unfold lenZ in *. lia.
Qed.

Lemma read_u64le_inv buf pos n :
  read_u64le buf pos = Ok n → pos + 8 ≤ lenZ buf ∧ in_u 64 n.
Proof.
  unfold read_u64le. intros Hr. apply obind_Ok_inv in Hr as (s & Hs%ok_or_Ok & [= <-]).
  apply get_slice_Some in Hs as (? & ? & ? & ?). split; [lia|].
  apply (le_val_u 8); [done|]. unfold lenZ in *. lia.
Qed.

Lemma read_u32le_fuel buf pos : read_u32le buf pos ≠ OutOfFuel.
Proof. unfold read_u32le. auto with fuel. Qed.
Lemma read_u64le_fuel buf pos : read_u64le buf pos ≠ OutOfFuel.
Proof. unfold read_u64le. auto with fuel. Qed.
#[export] Hint Resolve read_u32le_fuel read_u64le_fuel : fuel.

Lemma nul_position_range l n : nul_position l = Some n → 0 ≤ n < lenZ l.
Proof.
  revert n. induction l as [|b l IH]; intros n; cbn [nul_position]; [done|].
  case_match; [intros [= <-]; len|].
  intros (m & Hm & ->)%fmap_Some. specialize (IH _ Hm). len.
Qed.

(** A decoded value takes at least four bytes, and the position after it
    exceeds the end of the buffer by at most a 32-bit size. *)
Lemma decode_value_next fuel buf pos v next :
  decode_value fuel buf pos = Ok (v, next) →
  pos + 4 ≤ lenZ buf ∧ pos + 4 ≤ next ≤ lenZ buf + 2 ^ 32 + 8.
Proof.
  destruct fuel as [|fuel]; [done|]. cbn [decode_value]. intros Hd.
  apply obind_Ok_inv in Hd as (tag & [Htag _]%read_u32le_inv & Hd).
  repeat (case_match; [inv_ok; try match goal with
    | H : read_u32le _ (pos + 4) = Ok ?n |- _ =>
        apply read_u32le_inv in H as [? ?]; pose proof (pad4_spec n); unfold in_u in *
    end; try lia;
    try match goal with
    | H : ok_or _ _ = Ok _ |- _ => apply ok_or_Ok in H; apply get_slice_Some in H
    end; lia|]).
  inv_ok. lia.
Qed.

Lemma decode_value_fuel_enough fuel buf :
  (∀ pos, 0 ≤ pos → Z.max 0 (lenZ buf - pos) < Z.of_nat fuel →
     decode_value fuel buf pos ≠ OutOfFuel) ∧
  (∀ count pos, 0 ≤ pos → 1 + Z.max 0 (lenZ buf - pos) < Z.of_nat fuel →
     decode_items fuel buf count pos ≠ OutOfFuel) ∧
  (∀ count pos map, 0 ≤ pos → 1 + Z.max 0 (lenZ buf - pos) < Z.of_nat fuel →
     decode_entries fuel buf count pos map ≠ OutOfFuel).
Proof.
  induction fuel as [|fuel (IHv & IHi & IHe)]; [split_and!; intros; lia|].
  split_and!.
  - intros pos Hpos Hf. cbn [decode_value].
    apply obind_fuel; [auto with fuel|]. intros tag [Htag _]%read_u32le_inv.
    repeat (case_match; [repeat (apply obind_fuel; [|intros]); auto with fuel|]); [..|done].
    + apply IHi; lia.
    + apply IHe; lia.
  - intros count pos Hpos Hf. cbn [decode_items]. case_match; [done|].
    apply obind_fuel; [apply IHv; lia|]. intros [v next] Hnext%decode_value_next.
    apply obind_fuel; [apply IHi; simpl; lia|]. done.
  - intros count pos map Hpos Hf. cbn [decode_entries]. case_match; [done|].
    apply obind_fuel; [auto with fuel|]. intros tail Htail.
    apply obind_fuel; [auto with fuel|]. intros nul Hnul%ok_or_Ok%nul_position_range.
    repeat (apply obind_fuel; [solve [auto with fuel]|intros ? _]).
    pose proof (pad4_spec (nul + 1)).
    apply obind_fuel; [apply IHv; lia|]. intros [v next] Hnext%decode_value_next.
    apply IHe; simpl; lia.
Qed.

(** ** What the decoder returns is in the domain of the format *)

Lemma head_split_on_nul l :
  ∃ h, head (split_on is_nul l) = Some h ∧ Forall (λ b, is_nul b = false) h.
Proof.
  induction l as [|b l (h & Hh & Hf)]; simpl; [by exists []|].
  destruct (is_nul b) eqn:E; [by exists []|].
  destruct (split_on is_nul l) as [|h' t]; [done|]. simpl in *. simplify_eq.
  exists (b :: h). split; [done|]. by constructor.
Qed.

Lemma nul_position_prefix l n :
  nul_position l = Some n → Forall (λ b, is_nul b = false) (take (Z.to_nat n) l).
Proof.
  revert n. induction l as [|b l IH]; intros n; cbn [nul_position]; [done|].
  case_match eqn:E; [by intros [= <-]; constructor|].
  intros (m & Hm & ->)%fmap_Some. apply nul_position_range in Hm as ?.
  replace (Z.to_nat (1 + m)) with (S (Z.to_nat m)) by lia. simpl. constructor; auto.
Qed.

Lemma from_utf8_key_ok l s :
  from_utf8 l = Some s → Forall (λ b, is_nul b = false) l → key_ok s = true.
Proof.
  intros [-> Hu]%from_utf8_Some Hn. unfold key_ok. apply andb_true_iff.
  split; [done|]. by apply bool_decide_eq_true.
Qed.

Lemma al_insert_forallb {V} (p : string * V → bool) k v d :
  p (k, v) = true → forallb p d = true → forallb p (al_insert k v d) = true.
Proof.
  intros Hp. induction d as [|[k' v'] d IH]; simpl; [by rewrite Hp|].
  intros [H1 H2]%andb_true_iff. case_decide; simpl; rewrite ?Hp, ?H1, ?H2; auto.
Qed.

Lemma swrap_range w z : 0 < w → in_i w (swrap w z).
Proof.
  intros. unfold in_i, swrap.
  assert (2 ^ w = 2 * 2 ^ (w - 1)) as Hp.
  { replace w with (Z.succ (w - 1)) at 1 by lia. rewrite Z.pow_succ_r; lia. }
  pose proof (Z.mod_pos_bound (z + 2 ^ (w - 1)) (2 ^ w)). lia.
Qed.

Definition dict_ok (d : list (string * Value)) : Prop :=
  NoDup (al_keys d) ∧ forallb (λ kv, key_ok kv.1 && value_ok kv.2) d = true.

Lemma decode_value_ok fuel buf :
  (∀ pos r, decode_value fuel buf pos = Ok r → value_ok r.1 = true) ∧
  (∀ count pos l, decode_items fuel buf count pos = Ok l → forallb value_ok l = true) ∧
  (∀ count pos map d, dict_ok map → decode_entries fuel buf count pos map = Ok d → dict_ok d).
Proof.
  induction fuel as [|fuel (IHv & IHi & IHe)].
  { split_and!; [done|..]; cbn [decode_items decode_entries]; intros; case_match; naive_solver. }
  split_and!.
  - intros pos r. cbn [decode_value]. intros Hd.
    apply obind_Ok_inv in Hd as (tag & Htag & Hd).
    repeat (case_match; [clear dependent tag; inv_ok|]); [..|by inv_ok].
    + done.
    + done.
    + apply bool_decide_eq_true. by apply swrap_range.
    + apply read_u64le_inv in H as [_ ?]. by apply bool_decide_eq_true.
    + apply read_u64le_inv in H as [_ ?]. by apply bool_decide_eq_true.
    + done.
    + destruct (head_split_on_nul x0) as (h & Hh & Hn). rewrite Hh in *. simpl in *.
      apply ok_or_Ok in H1. by eapply from_utf8_key_ok.
    + apply ok_or_Ok, get_slice_Some in H. apply Z.eqb_eq. lia.
    + by eapply IHi.
    + edestruct IHe as [Hnd Hf]; [|done|]; [split; [constructor|done]|].
      by rewrite bool_decide_true.
    + apply read_u64le_inv in H as [_ ?]. by apply bool_decide_eq_true.
  - intros count pos l. cbn [decode_items]. case_match; [by intros [= <-]|].
    intros Hd. inv_ok. erewrite IHv by done. by erewrite IHi.
  - intros count pos map d Hmap. cbn [decode_entries]. case_match; [by intros [= <-]|].
    intros Hd. inv_ok. eapply IHe, Hd. destruct Hmap as [Hnd Hf]. split.
    + by apply al_insert_wf.
    + apply al_insert_forallb; [|done]. simpl. rewrite (IHv _ _ H4), andb_true_r.
      apply ok_or_Ok in H3. eapply from_utf8_key_ok; [done|].
      apply ok_or_Ok, nul_position_prefix in H1.
      apply slice_ok in H0, H2. by rewrite (get_slice_take _ _ _ _ _ H0 H2).
Qed.

(** ** Messages *)

Definition message_ok (m : Message) : Prop :=
  in_u 32 (m_flags m) ∧ in_u 64 (msg_id m) ∧
  match body m with
  | Some v => value_ok v = true ∧ wire_size v < 2 ^ 32
  | None => True
  end.
#[export] Instance message_ok_dec m : Decision (message_ok m).
Proof. unfold message_ok. destruct (body m); apply _. Defined.

Definition message_size (m : Message) : Z :=
  match body m with Some v => 32 + wire_size v | None => 24 end.

(** The first sixteen bytes of a message and its length. *)
Definition header (flags body_len msg_id : Z) : list byte :=
  le_bytes 4 WRAPPER_MAGIC ++ le_bytes 4 flags ++ le_bytes 8 body_len ++ le_bytes 8 msg_id.

Lemma lenZ_header f b i : lenZ (header f b i) = 24.
Proof. unfold header. len. Qed.

Section messages.
Context `{BuildProfile}.

(** The decoder on a well-formed header: only the body is left to decode. *)
Lemma decode_message_header f b i rest :
  in_u 32 f → in_u 64 b → in_u 64 i → 24 + b < 2 ^ 64 → b ≤ lenZ rest →
  decode_message (header f b i ++ rest) =
    let? bd :=
      (if 8 <=? b then
         let pb := take (Z.to_nat b) rest in
         let? pmag := read_u32le pb 0 in
         if negb (pmag =? PAYLOAD_MAGIC) then Err (BadMagic pmag)
         else let? r := decode_value (value_fuel pb) pb 8 in Ok (Some r.1)
       else Ok None) in
    Ok (MkMessage f i bd, 24 + b).
Proof.
  intros Hf Hb Hi Hsz Hrest. unfold decode_message.
  pose proof (lenZ_header f b i) as Hh. pose proof (lenZ_nonneg rest).
  rewrite (proj2 (Z.ltb_ge _ 24)) by (rewrite lenZ_app; lia).
  pose proof (has_at_0 (header f b i) rest) as Hat. unfold header in Hat at 2.
  split_at Hat.
  rewrite (read_u32le_at _ _ WRAPPER_MAGIC) by done. simpl obind. tags.
  rewrite (read_u32le_at _ 4 f) by done. simpl obind.
  rewrite (read_u64le_at _ 8 b) by done. simpl obind.
  rewrite (read_u64le_at _ 16 i) by done. simpl obind.
  unfold in_u in *. rewrite add_w_ok by lia. simpl obind.
  rewrite (proj2 (Z.ltb_ge _ (24 + b))) by (rewrite lenZ_app; lia).
  case_match; [|done]. f_equal. unfold slice.
  replace (get_slice (header f b i ++ rest) 24 (24 + b)) with (Some (take (Z.to_nat b) rest));
    [done|symmetry].
  unfold get_slice. rewrite bool_decide_true by (rewrite lenZ_app; lia).
  replace (24 + b - 24) with b by lia. do 2 f_equal.
Qed.

Lemma encode_message_size {E} m :
  message_ok m → ∃ out, encode_message (E:=E) m = Ok out ∧ lenZ out = message_size m.
Proof.
  intros (Hf & Hi & Hb). unfold encode_message, message_size.
  destruct (body m) as [v|]; [|eexists; split; [reflexivity|]; simpl; len].
  destruct Hb as [Hv Hs]. destruct (encode_value_size (E:=E) v) as (e & -> & He); [done..|].
  eexists. split; [reflexivity|]. simpl. len.
Qed.

Lemma encode_message_header {E} m out :
  message_ok m → encode_message (E:=E) m = Ok out →
  ∃ p, out = header (m_flags m) (lenZ p) (msg_id m) ++ p ∧ lenZ p = message_size m - 24 ∧
    message_size m < 2 ^ 33.
Proof.
  intros (Hf & Hi & Hb). unfold encode_message, message_size.
  destruct (body m) as [v|].
  - destruct Hb as [Hv Hs]. destruct (encode_value_size (E:=E) v) as (e & -> & He); [done..|].
    intros [= <-]. eexists. split; [unfold header; by rewrite <-!(assoc_L (++))|]. split; [len|lia].
  - intros [= <-]. exists []. unfold header. by rewrite <-!(assoc_L (++)).
Qed.

Lemma decode_encode_message_aux {E} m out :
  message_ok m → encode_message (E:=E) m = Ok out →
  ∀ post, decode_message (out ++ post) = Ok (m, message_size m).
Proof.
  intros (Hf & Hi & Hb) Henc post. unfold message_size. unfold encode_message in Henc.
  destruct m as [f i [v|]]; cbn [body m_flags msg_id] in *.
  - destruct Hb as [Hv Hs].
    destruct (encode_value_size (E:=E) v) as (e & He & Hle); [done..|].
    rewrite He in Henc. cbn [obind from_option default] in Henc. injection Henc as <-.
    pose proof (wire_size_pos v).
    set (pb := le_bytes 4 PAYLOAD_MAGIC ++ le_bytes 4 PAYLOAD_VERSION ++ e).
    assert (lenZ pb = 8 + wire_size v) as Hpb by (unfold pb; len).
    pose proof (decode_message_header f (lenZ pb) i (pb ++ post)) as Hd.
    unfold header in Hd. rewrite <-!(assoc_L (++)) in Hd. simpl id.
    rewrite <-!(assoc_L (++)). rewrite Hd by (done || (unfold in_u; rewrite ?lenZ_app; len)).
    clear Hd. rewrite (proj2 (Z.leb_le 8 _)) by lia. cbv zeta.
    replace (Z.to_nat (lenZ pb)) with (length pb) by (unfold lenZ; lia).
    rewrite take_app_length.
    assert (has_at pb 0 pb) as Hat by (exists [], []; by rewrite app_nil_r).
    unfold pb in Hat at 2. split_at Hat.
    rewrite (read_u32le_at _ _ PAYLOAD_MAGIC) by done. cbn [obind]. tags. cbn [negb].
    rewrite (decode_value_encode v e) by
      (done || (unfold value_fuel; unfold lenZ in *; lia)).
    cbn [obind]. do 2 f_equal. lia.
  - cbn [obind from_option default] in Henc. injection Henc as <-.
    rewrite app_nil_r.
    pose proof (decode_message_header f 0 i post) as Hd.
    unfold header in Hd. rewrite <-!(assoc_L (++)) in *. rewrite Hd; [done|done..|len].
Qed.

(** C4. Encoding a message of the format's domain neither fails nor panics,
    and decoding the bytes, whatever follows them, gives the message back and
    the number of bytes it took. *)
Theorem decode_encode_message {E} m :
  message_ok m →
  ∃ out, encode_message (E:=E) m = Ok out ∧
    ∀ post, decode_message (out ++ post) = Ok (m, lenZ out).
Proof.
  intros Hm. destruct (encode_message_size (E:=E) m Hm) as (out & Hout & Hlen).
  exists out. split; [done|]. rewrite Hlen. by eapply decode_encode_message_aux.
Qed.

Lemma decode_message_terminates buf : decode_message buf ≠ OutOfFuel.
Proof.
  unfold decode_message.
  case_match; [done|]. apply obind_fuel; [auto with fuel|]. intros magic _.
  case_match; [done|]. do 4 (apply obind_fuel; [auto with fuel|intros ? _]).
  case_match; [done|]. apply obind_fuel; [|done]. case_match; [|done].
  do 3 (apply obind_fuel; [auto with fuel|intros ? _]). case_match; [done|].
  apply obind_fuel; [|done]. apply decode_value_fuel_enough; [lia|].
  unfold value_fuel, lenZ. lia.
Qed.

(** C5. The decoder terminates on every input, hostile counts and sizes
    included; what it accepts lies within the buffer, and the message it
    returns is of the format's domain: numbers of their width, UTF-8 strings
    without NUL, dictionaries without duplicate keys. *)
Theorem decode_message_sound buf :
  decode_message buf ≠ OutOfFuel ∧
  ∀ m n, decode_message buf = Ok (m, n) →
    24 ≤ n ≤ lenZ buf ∧ in_u 32 (m_flags m) ∧ in_u 64 (msg_id m) ∧
    from_option value_ok true (body m) = true.
Proof.
  split; [apply decode_message_terminates|unfold decode_message].
  intros m n Hd. case_match; [done|]. apply obind_Ok_inv in Hd as (magic & _ & Hd).
    case_match; [done|].
    apply obind_Ok_inv in Hd as (f & [_ Hf]%read_u32le_inv & Hd).
    apply obind_Ok_inv in Hd as (b & [_ Hb]%read_u64le_inv & Hd).
    apply obind_Ok_inv in Hd as (i & [_ Hi]%read_u64le_inv & Hd).
    apply obind_Ok_inv in Hd as (total & Htotal & Hd).
    case_match; [done|]. apply obind_Ok_inv in Hd as (bd & Hbd & [= <- <-]). simpl.
    zhyps. split_and!; [|lia|done..|].
    + destruct (8 <=? b) eqn:E8; zhyps.
      * apply obind_Ok_inv in Hbd as (stop & Hstop & Hbd). rewrite Hstop in Htotal. injection Htotal as ->.
        apply obind_Ok_inv in Hbd as (pb & Hpb%slice_ok%get_slice_Some & _). lia.
      * unfold in_u in Hb. rewrite add_w_ok in Htotal by lia. simplify_eq. lia.
    + destruct (8 <=? b); [|by inv_ok].
      apply obind_Ok_inv in Hbd as (stop & _ & Hbd).
      apply obind_Ok_inv in Hbd as (pb & _ & Hbd).
      apply obind_Ok_inv in Hbd as (pmag & _ & Hbd). case_match; [done|].
      apply obind_Ok_inv in Hbd as (r & Hr & [= <-]). by eapply decode_value_ok.
Qed.

(** A body length close to [2^64] in a 24-byte header panics the decoder
    in every build profile: [24 + body_len] overflows, and where overflow is
    not checked the sum wraps to a value below 24, the start of the slice. *)
Theorem decode_message_length_overflow f b i rest :
  in_u 32 f → in_u 64 b → in_u 64 i → 2 ^ 64 - 24 ≤ b →
  decode_message (header f b i ++ rest) = Panic.
Proof.
  intros Hf Hb Hi Hsz. unfold decode_message.
  pose proof (lenZ_header f b i) as Hh. pose proof (lenZ_nonneg rest).
  rewrite (proj2 (Z.ltb_ge _ 24)) by (rewrite lenZ_app; lia).
  pose proof (has_at_0 (header f b i) rest) as Hat. unfold header in Hat at 2.
  split_at Hat.
  rewrite (read_u32le_at _ _ WRAPPER_MAGIC) by done. simpl obind. tags.
  rewrite (read_u32le_at _ 4 f) by done. simpl obind.
  rewrite (read_u64le_at _ 8 b) by done. simpl obind.
  rewrite (read_u64le_at _ 16 i) by done. simpl obind. unfold in_u in *.
  unfold add_w. rewrite (proj2 (Z.ltb_ge _ _)) by lia.
  destruct overflow_checks; [done|]. cbn [obind].
  replace ((24 + b) mod 2 ^ 64) with (24 + b - 2 ^ 64)
    by (apply Z.mod_unique with 1; lia).
  rewrite (proj2 (Z.ltb_ge _ (24 + b - 2 ^ 64))) by (rewrite lenZ_app; lia).
  rewrite (proj2 (Z.leb_le 8 b)) by lia. unfold slice, get_slice.
  by rewrite bool_decide_false by lia.
Qed.

(** A position after the end of the buffer panics the dictionary loop. *)
Lemma decode_entries_past_end fuel buf count pos map :
  0 < count → lenZ buf < pos → decode_entries (S fuel) buf count pos map = Panic.
Proof.
  intros. cbn [decode_entries]. zcmp. unfold slice, get_slice.
  by rewrite bool_decide_false by lia.
Qed.

(** The payload of a dictionary that announces two entries and holds one, an
    empty array that declares [size] bytes. *)
Definition overrun_payload (k : string) (size : Z) : list byte :=
  le_bytes 4 PAYLOAD_MAGIC ++ le_bytes 4 PAYLOAD_VERSION
  ++ le_bytes 4 TYPE_DICTIONARY ++ le_bytes 4 0 ++ le_bytes 4 2
  ++ encode_dict_key k ++ le_bytes 4 TYPE_ARRAY ++ le_bytes 4 size ++ le_bytes 4 0.

(** An element whose declared size reaches beyond the end of the message
    panics the decoder when a dictionary has another entry to read: the
    [buf\[cur..\]] of the next key starts after the end. *)
Theorem decode_message_entry_overrun f i k size :
  in_u 32 f → in_u 64 i → key_ok k = true → str_size k < 2 ^ 32 →
  in_u 32 size → 4 < size →
  let p := overrun_payload k size in
  decode_message (header f (lenZ p) i ++ p) = Panic.
Proof.
  intros Hf Hi Hk Hsk Hsize H4 p. pose proof (str_size_pos k). pose proof (lenZ_nonneg (bytes_of k)).
  assert (lenZ p = 32 + str_size k) as Hp.
  { unfold p, overrun_payload. rewrite !lenZ_app, lenZ_encode_dict_key. len. }
  rewrite decode_message_header by (done || unfold in_u; lia).
  rewrite (proj2 (Z.leb_le 8 _)) by lia. cbv zeta.
  replace (Z.to_nat (lenZ p)) with (length p) by (unfold lenZ; lia).
  rewrite firstn_all.
  assert (has_at p 0 p) as Hat by (exists [], []; by rewrite app_nil_r).
  unfold p in Hat at 2. unfold overrun_payload in Hat. split_at Hat.
  apply has_at_app in Hat as [Hkey Hat]. split_at Hat.
  rewrite (read_u32le_at _ _ PAYLOAD_MAGIC) by done. cbn [obind]. tags. cbn [negb].
  unfold value_fuel. assert (∃ n, length p = S (S (S (S n)))) as [fuel ->].
  { exists (length p - 4)%nat. unfold lenZ in *. lia. }
  cbn [decode_value]. rewrite (read_u32le_at _ _ TYPE_DICTIONARY) by done.
  cbn [obind]. tags. change (8 + 4) with 12. change (12 + 4) with 16.
  rewrite (read_u32le_at _ 12 0) by done. cbn [obind].
  rewrite (read_u32le_at _ 16 2) by done. cbn [obind]. change (12 + 8) with 20.
  destruct (dict_key_at (E:=XpcError) _ _ _ Hkey Hk) as (tail & Htail & Hpos & Hsl).
  cbn [decode_entries]. tags. rewrite Htail. cbn [obind]. rewrite Hpos. cbn [obind ok_or].
  rewrite Hsl. cbn [obind]. rewrite (proj1 (key_ok_spec k Hk)). cbn [obind ok_or].
  fold (str_size k). rewrite lenZ_encode_dict_key in *.
  cbn [decode_value]. rewrite (read_u32le_at _ _ TYPE_ARRAY) by done.
  cbn [obind]. tags.
  rewrite (read_u32le_at _ _ size) by done. cbn [obind].
  rewrite (read_u32le_at _ _ 0) by done. cbn [obind].
  assert (∀ n pos, decode_items n p 0 pos = Ok []) as -> by (by intros []).
  cbn [obind fst snd]. 
  change (2 - 1) with 1.
  cbn [decode_entries]. tags. unfold slice, get_slice.
  by rewrite bool_decide_false by lia.
Qed.
End messages.

(** ** Concrete inputs *)

Definition sample_value : Value :=
  Dictionary [("answer"%string, Uint64 42);
              ("list"%string, VArray [VBool false; VString "two"; Int64 (-1); Null]);
              ("nested"%string, Dictionary [("port"%string, VData [x01; x02; x03])])].

Lemma decode_encode_message_witness :
  message_ok (with_body 2 sample_value) ∧
  ∃ out, encode_message (H:=debug_profile) (E:=XpcError) (with_body 2 sample_value) = Ok out ∧
    ∀ post, decode_message (H:=debug_profile) (out ++ post) =
      Ok (with_body 2 sample_value, lenZ out).
Proof.
  assert (message_ok (with_body 2 sample_value)) as Hok
    by (apply (bool_decide_unpack _); vm_compute; exact I).
  split; [exact Hok|]. apply decode_encode_message. exact Hok.
Defined.

Lemma decode_message_length_overflow_witness :
  decode_message (H:=release_profile) (header 1 (2 ^ 64 - 1) 0 ++ [x00]) = Panic.
Proof. apply decode_message_length_overflow; unfold in_u; lia. Defined.

Lemma decode_message_entry_overrun_witness :
  decode_message (H:=release_profile)
    (header 1 (lenZ (overrun_payload "k" 5)) 0 ++ overrun_payload "k" 5) = Panic.
Proof.
  apply (decode_message_entry_overrun (H:=release_profile) 1 0 "k" 5);
    try (unfold in_u; lia); vm_compute; reflexivity.
Defined.
