(* ===== verification/H2.v ===== *)
(** * HTTP/2 framing ([src/remotexpc/h2.rs])

    The frames RemoteXPC uses, their reader and their writers.  The writers
    are given a [BufWriter]; it hands on the bytes in order, so it is modelled
    as the stream below it. *)

From S2P Require Import Prelude Io Xpc.

(** [src/remotexpc/error.rs] *)
Inductive Error : Type :=
  | Io (e : io_error)
  | Xpc (e : XpcError)
  | H2 (s : string)
  | Closed
  | UnexpectedFrame (n : Z).

(** [Display] *)
Definition Error_fmt (e : Error) : message :=
  match e with
  | Io e => Msg "I/O error: {0}" [FStr (what e)]
  | Xpc e => Msg "XPC codec error: {0}" [FDisplay (XpcError_fmt e)]
  | H2 s => Msg "HTTP/2 protocol error: {0}" [FStr s]
  | Closed => msg0 "connection closed"
  | UnexpectedFrame n => Msg "unexpected frame type {0:#04x}" [FHex n]
  end.

Definition TYPE_DATA : Z := 0x0.
Definition TYPE_HEADERS : Z := 0x1.
Definition TYPE_SETTINGS : Z := 0x4.
Definition TYPE_PING : Z := 0x6.
Definition TYPE_GOAWAY : Z := 0x7.
Definition TYPE_WINDOW_UPDATE : Z := 0x8.
Definition FLAG_ACK : Z := 0x1.
Definition FLAG_END_HEADERS : Z := 0x4.
Definition SETTING_MAX_CONCURRENT_STREAMS : Z := 0x3.
Definition SETTING_INITIAL_WINDOW_SIZE : Z := 0x4.

Definition crlf : list byte := [x0d; x0a].
Definition CLIENT_PREFACE : list byte :=
  bytes_of "PRI * HTTP/2.0" ++ crlf ++ crlf ++ bytes_of "SM" ++ crlf ++ crlf.

Inductive Frame : Type :=
  | Data (stream_id : Z) (payload : list byte)
  | Headers (stream_id flags : Z)
  | Settings (flags : Z) (pairs : list (Z * Z))
  | Ping (ack : bool) (opaque : list byte)
  | GoAway (last_stream error : Z)
  | WindowUpdate (stream_id increment : Z)
  | Unknown (frame_type stream_id : Z) (payload : list byte).

(** ** Reading *)

Definition h2_eof : io_error := IoError UnexpectedEof "connection closed".
Definition h2_read_exact (n : Z) : ST stream io_error (list byte) :=
  read_exact id h2_eof n.

(** The [while i + 6 <= payload.len()] loop over the settings. *)
Fixpoint settings_pairs_fuel (fuel : nat) (payload : list byte) (i : Z) : list (Z * Z) :=
  match get_slice payload i (i + 2), get_slice payload (i + 2) (i + 6), fuel with
  | Some id, Some val, S fuel =>
      (be_val id, be_val val) :: settings_pairs_fuel fuel payload (i + 6)
  | _, _, _ => []
  end.
Definition settings_pairs (payload : list byte) : list (Z * Z) :=
  settings_pairs_fuel (length payload) payload 0.

(** The [match frame_type] of [read_frame]. *)
Definition parse_frame (frame_type flags stream_id : Z) (payload : list byte) :
    outcome Error Frame :=
  if frame_type =? TYPE_DATA then Ok (Data stream_id payload)
  else if frame_type =? TYPE_HEADERS then Ok (Headers stream_id flags)
  else if frame_type =? TYPE_SETTINGS then Ok (Settings flags (settings_pairs payload))
  else if frame_type =? TYPE_PING then
    let ack := negb (Z.land flags FLAG_ACK =? 0) in
    Ok (Ping ack (default (replicate 8 x00) (get_slice payload 0 8)))
  else if frame_type =? TYPE_GOAWAY then
    let last_stream :=
      Z.land (be_val (default (replicate 4 x00) (get_slice payload 0 4))) 0x7fffffff in
    let error := be_val (default (replicate 4 x00) (get_slice payload 4 8)) in
    Ok (GoAway last_stream error)
  else if frame_type =? TYPE_WINDOW_UPDATE then
    let? b := slice payload 0 4 in
    Ok (WindowUpdate stream_id (Z.land (be_val b) 0x7fffffff))
  else Ok (Unknown frame_type stream_id payload).

Definition read_frame : ST stream Error Frame :=
  let! hdr := smap_err Io (h2_read_exact 9) in
  match hdr with
  | [h0; h1; h2; h3; h4; h5; h6; h7; h8] =>
      let length :=
        Z.lor (Z.lor (Z.shiftl (u8 h0) 16) (Z.shiftl (u8 h1) 8)) (u8 h2) in
      let frame_type := u8 h3 in
      let flags := u8 h4 in
      let stream_id := be_val [byte_of (Z.land (u8 h5) 0x7f); h6; h7; h8] in
      let! payload := (if 0 <? length then smap_err Io (h2_read_exact length) else sret []) in
      lift (parse_frame frame_type flags stream_id payload)
  | _ => lift Panic
  end.

(** ** Writing *)

Definition write_frame_raw (frame_type flags stream_id : Z) (payload : list byte) :
    ST stream io_error unit :=
  let len := wrap 32 (lenZ payload) in
  let hdr := [byte_of (Z.shiftr len 16); byte_of (Z.shiftr len 8); byte_of len;
              byte_of frame_type; byte_of flags]
             ++ be_bytes 4 (Z.land stream_id 0x7fffffff) in
  write_all hdr ;;;
  match payload with
  | [] => sret tt
  | _ => write_all payload
  end.

Definition settings_payload (pairs : list (Z * Z)) : list byte :=
  concat ((λ p, be_bytes 2 p.1 ++ be_bytes 4 p.2) <$> pairs).

Definition write_settings (pairs : list (Z * Z)) : ST stream io_error unit :=
  write_frame_raw TYPE_SETTINGS 0 0 (settings_payload pairs).
Definition write_settings_ack : ST stream io_error unit :=
  write_frame_raw TYPE_SETTINGS FLAG_ACK 0 [].
Definition write_window_update (stream_id increment : Z) : ST stream io_error unit :=
  write_frame_raw TYPE_WINDOW_UPDATE 0 stream_id (be_bytes 4 (Z.land increment 0x7fffffff)).
Definition write_headers (stream_id : Z) : ST stream io_error unit :=
  write_frame_raw TYPE_HEADERS FLAG_END_HEADERS stream_id [].
Definition write_data (stream_id : Z) (payload : list byte) : ST stream io_error unit :=
  write_frame_raw TYPE_DATA 0 stream_id payload.
Definition write_ping_ack (opaque : list byte) : ST stream io_error unit :=
  write_frame_raw TYPE_PING FLAG_ACK 0 opaque.

(** ** The bytes of a frame *)

Record raw : Type := Raw { r_type : Z; r_flags : Z; r_stream : Z; r_payload : list byte }.

Definition raw_bytes (f : raw) : list byte :=
  be_bytes 3 (lenZ (r_payload f)) ++ [byte_of (r_type f); byte_of (r_flags f)]
  ++ be_bytes 4 (r_stream f) ++ r_payload f.

Definition raw_ok (f : raw) : Prop :=
  in_u 8 (r_type f) ∧ in_u 8 (r_flags f) ∧ in_u 31 (r_stream f) ∧
  lenZ (r_payload f) < 2 ^ 24.
#[export] Instance raw_ok_dec f : Decision (raw_ok f).
Proof. unfold raw_ok. apply _. Defined.

Definition parse_raw (f : raw) : outcome Error Frame :=
  parse_frame (r_type f) (r_flags f) (r_stream f) (r_payload f).

Transparent be_bytes be_val le_bytes le_val.
Lemma be_bytes_3 n :
  be_bytes 3 n = [byte_of (n / 65536); byte_of (n / 256); byte_of n].
Proof.
  unfold be_bytes. simpl. unfold reverse. simpl.
  by rewrite Z.div_div by lia.
Qed.

Lemma be_bytes_4_cons n :
  ∃ a b c d, be_bytes 4 n = [a; b; c; d] ∧ (in_u 31 n → u8 a < 128).
Proof.
  unfold be_bytes, reverse. simpl. do 4 eexists. split; [reflexivity|].
  intros Hn. rewrite u8_byte_of. unfold in_u in *.
  replace (n / 256 / 256 / 256) with (n / 16777216) by (by rewrite !Z.div_div by lia).
  assert (n / 16777216 < 128) by (apply Z.div_lt_upper_bound; lia).
  assert (0 ≤ n / 16777216) by (apply Z.div_pos; lia).
  rewrite Z.mod_small; lia.
Qed.
Opaque be_bytes be_val le_bytes le_val.

Lemma land_7f a : 0 ≤ a < 128 → Z.land a 0x7f = a.
Proof. intros. change 0x7f with (Z.ones 7). rewrite Z.land_ones by lia. by apply Z.mod_small. Qed.

Lemma land_7fffffff a : in_u 31 a → Z.land a 0x7fffffff = a.
Proof.
  intros. change 0x7fffffff with (Z.ones 31). rewrite Z.land_ones by lia. by apply Z.mod_small.
Qed.

Lemma lenZ_raw_bytes f : lenZ (raw_bytes f) = 9 + lenZ (r_payload f).
Proof. unfold raw_bytes. len. Qed.

(** Reading a frame, however its bytes are cut into reads: the payload is the
    number of bytes that the three bytes of the length field say. *)
Lemma read_frame_header n ty fl st p s l r :
  in_u 8 ty → in_u 8 fl → in_u 31 st → lenZ p = n mod 2 ^ 24 →
  delivers (rx s)
    (be_bytes 3 n ++ [byte_of ty; byte_of fl] ++ be_bytes 4 st ++ p ++ l) r →
  ∃ r1, read_frame s = (parse_frame ty fl st p, set_rx r1 s) ∧ delivers r1 l r.
Proof.
  intros Hty Hfl Hst Hlen Hd.
  destruct (be_bytes_4_cons st) as (a & b & c & d & Hbe & Ha). specialize (Ha Hst).
  assert (be_val [a; b; c; d] = st) as Hstr.
  { rewrite <-Hbe. apply be_val_be_bytes_small. unfold in_u in *. lia. }
  pose proof (lenZ_nonneg p).
  pose proof (be_val_be_bytes 3 n) as Hn. change (256 ^ Z.of_nat 3) with (2 ^ 24) in Hn.
  rewrite <-Hlen in Hn. clear Hlen.
  rewrite be_bytes_3 in Hd, Hn. rewrite be_val_3 in Hn. rewrite Hbe in Hd.
  change (delivers (rx s) ([byte_of (n / 65536); byte_of (n / 256); byte_of n;
      byte_of ty; byte_of fl; a; b; c; d] ++ (p ++ l)) r) in Hd.
  destruct (read_exact_delivers id h2_eof 9 _ _ _ _ Hd) as (r1 & Hr1 & Hd1); [done|].
  unfold read_frame, sbind at 1, smap_err at 1, h2_read_exact at 1. rewrite Hr1.
  cbn [omap_err]. rewrite Hn. unfold in_u in *.
  rewrite !u8_byte_of, !(Z.mod_small _ 256) by lia.
  pose proof (u8_range a). rewrite land_7f, byte_of_u8, Hstr by lia.
  destruct p as [|p0 pl].
  - exists r1. split; [|done]. done.
  - assert (0 < lenZ (p0 :: pl)) by len. zcmp.
    destruct (read_exact_delivers id h2_eof (lenZ (p0 :: pl)) (set_rx r1 s) _ _ _ Hd1)
      as (r2 & Hr2 & Hd2); [done|].
    exists r2. split; [|done]. unfold sbind, smap_err, h2_read_exact. by rewrite Hr2.
Qed.

Lemma read_frame_raw f s l r :
  raw_ok f → delivers (rx s) (raw_bytes f ++ l) r →
  ∃ r1, read_frame s = (parse_raw f, set_rx r1 s) ∧ delivers r1 l r.
Proof.
  intros (Hty & Hfl & Hst & Hlen) Hd. unfold raw_bytes in Hd. pose proof (lenZ_nonneg (r_payload f)).
  apply (read_frame_header (lenZ (r_payload f))); [done..| |].
  - rewrite Z.mod_small; [done|lia].
  - by rewrite <-!(assoc_L (++)) in Hd.
Qed.

(** Writing a frame. *)
Lemma write_frame_raw_healthy f s :
  raw_ok f → healthy s →
  write_frame_raw (r_type f) (r_flags f) (r_stream f) (r_payload f) s =
    (Ok tt, append_tx (raw_bytes f) s).
Proof.
  intros (Hty & Hfl & Hst & Hlen) Hs. unfold write_frame_raw, raw_bytes, sbind.
  pose proof (lenZ_nonneg (r_payload f)).
  rewrite write_all_healthy by done. rewrite land_7fffffff by done.
  rewrite wrap_small by (unfold in_u; lia).
  rewrite be_bytes_3, !Z.shiftr_div_pow2 by lia.
  destruct (r_payload f) as [|p pl]; [unfold sret; by rewrite app_nil_r|].
  rewrite write_all_healthy by done. rewrite append_tx_app. done.
Qed.

(** ** Round trip *)

(** The frames the connection sends. *)
Inductive out_frame : Type :=
  | OutSettings (pairs : list (Z * Z))
  | OutSettingsAck
  | OutWindowUpdate (stream_id increment : Z)
  | OutHeaders (stream_id : Z)
  | OutData (stream_id : Z) (payload : list byte)
  | OutPingAck (opaque : list byte).

Definition write_out (o : out_frame) : ST stream io_error unit :=
  match o with
  | OutSettings pairs => write_settings pairs
  | OutSettingsAck => write_settings_ack
  | OutWindowUpdate i n => write_window_update i n
  | OutHeaders i => write_headers i
  | OutData i p => write_data i p
  | OutPingAck q => write_ping_ack q
  end.

Definition out_raw (o : out_frame) : raw :=
  match o with
  | OutSettings pairs => Raw TYPE_SETTINGS 0 0 (settings_payload pairs)
  | OutSettingsAck => Raw TYPE_SETTINGS FLAG_ACK 0 []
  | OutWindowUpdate i n => Raw TYPE_WINDOW_UPDATE 0 i (be_bytes 4 n)
  | OutHeaders i => Raw TYPE_HEADERS FLAG_END_HEADERS i []
  | OutData i p => Raw TYPE_DATA 0 i p
  | OutPingAck q => Raw TYPE_PING FLAG_ACK 0 q
  end.

(** What the peer reads. *)
Definition frame_of (o : out_frame) : Frame :=
  match o with
  | OutSettings pairs => Settings 0 pairs
  | OutSettingsAck => Settings FLAG_ACK []
  | OutWindowUpdate i n => WindowUpdate i n
  | OutHeaders i => Headers i FLAG_END_HEADERS
  | OutData i p => Data i p
  | OutPingAck q => Ping true q
  end.

Definition out_ok (o : out_frame) : Prop :=
  match o with
  | OutSettings pairs =>
      6 * lenZ pairs < 2 ^ 24 ∧ Forall (λ p, in_u 16 p.1 ∧ in_u 32 p.2) pairs
  | OutSettingsAck => True
  | OutWindowUpdate i n => in_u 31 i ∧ in_u 31 n
  | OutHeaders i => in_u 31 i
  | OutData i p => in_u 31 i ∧ lenZ p < 2 ^ 24
  | OutPingAck q => lenZ q = 8
  end.

Lemma settings_payload_cons i v l :
  settings_payload ((i, v) :: l) = (be_bytes 2 i ++ be_bytes 4 v) ++ settings_payload l.
Proof. reflexivity. Qed.

Lemma lenZ_settings_payload pairs : lenZ (settings_payload pairs) = 6 * lenZ pairs.
Proof.
  induction pairs as [|[i v] l IH]; [done|]. rewrite settings_payload_cons. len.
Qed.

Lemma settings_pairs_payload pairs :
  Forall (λ p, in_u 16 p.1 ∧ in_u 32 p.2) pairs →
  settings_pairs (settings_payload pairs) = pairs.
Proof.
  intros Hok. unfold settings_pairs.
  assert (∀ fuel pre, (length pairs ≤ fuel)%nat →
    settings_pairs_fuel fuel (pre ++ settings_payload pairs) (lenZ pre) = pairs) as Hgen.
  2:{ apply (Hgen _ []). pose proof (lenZ_settings_payload pairs). unfold lenZ in *. lia. }
  induction Hok as [|[i v] l [Hi Hv] _ IH]; intros fuel pre Hfuel.
  - destruct fuel; cbn [settings_pairs_fuel]; by rewrite get_slice_too_long by len.
  - destruct fuel as [|fuel]; [simpl in Hfuel; lia|]. cbn [settings_pairs_fuel].
    assert (has_at (pre ++ settings_payload ((i, v) :: l)) (lenZ pre)
      (be_bytes 2 i ++ be_bytes 4 v)) as Hat.
    { exists pre, (settings_payload l). done. }
    apply has_at_app in Hat as [Hi' Hv']. rewrite lenZ_be_bytes in Hv'.
    change (Z.of_nat 2) with 2 in Hv'.
    rewrite (has_at_slice _ _ _ _ Hi') by len. rewrite (has_at_slice _ _ _ _ Hv') by len.
    simpl in Hi, Hv. rewrite !be_val_be_bytes_small by done. f_equal.
    specialize (IH fuel (pre ++ be_bytes 2 i ++ be_bytes 4 v)).
    rewrite !lenZ_app, !lenZ_be_bytes in IH. rewrite <-IH at 2 by (simpl in Hfuel; lia).
    by rewrite settings_payload_cons, <-!(assoc_L (++)).
Qed.

Lemma out_raw_ok o : out_ok o → raw_ok (out_raw o).
Proof.
  destruct o; simpl; unfold raw_ok; simpl; intros; destruct_and?; split_and!;
    try done; rewrite ?lenZ_settings_payload; len.
Qed.

Lemma write_out_healthy o s :
  out_ok o → healthy s → write_out o s = (Ok tt, append_tx (raw_bytes (out_raw o)) s).
Proof.
  intros Hok Hs. rewrite <-write_frame_raw_healthy; [|by apply out_raw_ok|done].
  destruct o; try done. destruct Hok. simpl. unfold write_window_update.
  by rewrite land_7fffffff.
Qed.

Lemma parse_out o : out_ok o → parse_raw (out_raw o) = Ok (frame_of o).
Proof.
  destruct o; intros Hok; try done; simpl in Hok; cbn [out_raw frame_of].
  - unfold parse_raw, parse_frame. tags. destruct Hok. cbn [r_payload].
    by rewrite settings_pairs_payload.
  - destruct Hok as [_ Hn]. unfold parse_raw, parse_frame. tags.
    unfold slice. cbn [r_payload]. rewrite <-(app_nil_r (be_bytes 4 increment)).
    rewrite get_slice_prefix by len. cbn.
    rewrite be_val_be_bytes_small by (unfold in_u in *; lia). by rewrite land_7fffffff.
  - unfold parse_raw, parse_frame. tags. cbn [r_payload].
    replace 8 with (lenZ opaque). rewrite get_slice_drop. done.
Qed.

(** C15. A frame that fits the format and that is written to a stream that takes it
    reaches the peer as that frame, however the bytes are cut into reads, and the
    bytes after it are left to read.  To fit is: stream identifiers and window
    increments below 2^31, settings of 16 and 32 bits, a PING of 8 bytes, and a
    payload shorter than 2^24 bytes.  (A longer payload is not refused but written
    under its length modulo 2^24, and does not arrive.) *)
Theorem h2_round_trip o s sp l r :
  out_ok o → healthy s →
  ∃ bytes, write_out o s = (Ok tt, append_tx bytes s) ∧
    (delivers (rx sp) (bytes ++ l) r →
     ∃ r1, read_frame sp = (Ok (frame_of o), set_rx r1 sp) ∧ delivers r1 l r).
Proof.
  intros Hok Hs. exists (raw_bytes (out_raw o)). split; [by apply write_out_healthy|].
  intros Hd. rewrite <-parse_out by done. apply read_frame_raw; [by apply out_raw_ok|done].
Qed.

(** A payload of 16 MiB or more is written with its length modulo [2^24]:
    the peer takes that many bytes for the frame, and the rest of the payload
    for the frames that follow. *)
Theorem write_data_truncates i p s sp :
  in_u 31 i → 2 ^ 24 ≤ lenZ p < 2 ^ 32 → healthy s →
  ∃ bytes, write_data i p s = (Ok tt, append_tx bytes s) ∧
    ∀ r, delivers (rx sp) bytes r →
    let n := lenZ p mod 2 ^ 24 in
    ∃ r1, read_frame sp = (Ok (Data i (take (Z.to_nat n) p)), set_rx r1 sp) ∧
      delivers r1 (drop (Z.to_nat n) p) r.
Proof.
  intros Hi Hp Hs. exists (raw_bytes (Raw TYPE_DATA 0 i p)). split.
  - unfold write_data, write_frame_raw, raw_bytes, sbind. cbn [r_type r_flags r_stream r_payload].
    rewrite write_all_healthy by done. rewrite land_7fffffff by done.
    rewrite wrap_small by (unfold in_u; lia).
    rewrite be_bytes_3, !Z.shiftr_div_pow2 by lia.
    destruct p as [|p pl]; [unfold lenZ in *; simpl in *; lia|].
    rewrite write_all_healthy by done. rewrite append_tx_app. done.
  - intros r Hd n. unfold raw_bytes in Hd. cbn [r_type r_flags r_stream r_payload] in Hd.
    rewrite <-(take_drop (Z.to_nat n) p) in Hd at 2.
    pose proof (Z.mod_pos_bound (lenZ p) (2 ^ 24) ltac:(lia)) as Hmod. fold n in Hmod.
    apply (read_frame_header (lenZ p) TYPE_DATA 0 i _ _ _ _); [done..| |].
    + unfold lenZ in *. rewrite length_take. lia.
    + exact Hd.
Qed.

(** A WINDOW_UPDATE frame with a payload of fewer than four bytes panics
    the reader. *)
Theorem short_window_update_panics f s l r :
  raw_ok f → r_type f = TYPE_WINDOW_UPDATE → lenZ (r_payload f) < 4 →
  delivers (rx s) (raw_bytes f ++ l) r → (read_frame s).1 = Panic.
Proof.
  intros Hok Hty Hlen Hd. destruct (read_frame_raw _ _ _ _ Hok Hd) as (r1 & -> & _).
  unfold parse_raw, parse_frame. rewrite Hty. tags. unfold slice.
  by rewrite get_slice_too_long by lia.
Qed.

(** ** Concrete inputs *)

Lemma h2_round_trip_witness :
  out_ok (OutSettings [(3, 100); (4, 1048576)]) ∧
  ∃ bytes, write_out (OutSettings [(3, 100); (4, 1048576)]) (idle []) =
      (Ok tt, append_tx bytes (idle [])) ∧
    (delivers [RData bytes] (bytes ++ []) [] →
     ∃ r1, read_frame (idle [RData bytes]) =
       (Ok (Settings 0 [(3, 100); (4, 1048576)]), set_rx r1 (idle [RData bytes])) ∧
       delivers r1 [] []).
Proof.
  assert (out_ok (OutSettings [(3, 100); (4, 1048576)])) as Hok.
  { split; [done|]. repeat constructor; done. }
  split; [exact Hok|].
  exists (raw_bytes (out_raw (OutSettings [(3, 100); (4, 1048576)]))).
  destruct (h2_round_trip (OutSettings [(3, 100); (4, 1048576)]) (idle [])
    (idle [RData (raw_bytes (out_raw (OutSettings [(3, 100); (4, 1048576)])))]) [] []
    Hok eq_refl) as (bytes & Hw & Hr).
  assert (bytes = raw_bytes (out_raw (OutSettings [(3, 100); (4, 1048576)]))) as ->.
  { rewrite write_out_healthy in Hw by done. injection Hw as Hw. symmetry. exact Hw. }
  split; [exact Hw|exact Hr].
Defined.

Lemma write_data_truncates_witness :
  ∃ bytes, write_data 1 (replicate (Z.to_nat (2 ^ 24 + 5)) x00) (idle []) =
      (Ok tt, append_tx bytes (idle [])) ∧
    ∀ r, delivers [] bytes r →
    let p := replicate (Z.to_nat (2 ^ 24 + 5)) x00 in
    let n := lenZ p mod 2 ^ 24 in
    ∃ r1, read_frame (idle []) = (Ok (Data 1 (take (Z.to_nat n) p)), set_rx r1 (idle [])) ∧
      delivers r1 (drop (Z.to_nat n) p) r.
Proof.
  apply (write_data_truncates 1 (replicate (Z.to_nat (2 ^ 24 + 5)) x00) (idle []) (idle []));
    [done|rewrite lenZ_replicate; lia|done].
Defined.

Lemma short_window_update_panics_witness :
  (read_frame (idle [RData (raw_bytes (Raw TYPE_WINDOW_UPDATE 0 0 [x01]))])).1 = Panic.
Proof.
  apply (short_window_update_panics (Raw TYPE_WINDOW_UPDATE 0 0 [x01]) _ [] []);
    [done..|by apply delivers_one].
Defined.
