(* ===== verification/RemoteXpc.v ===== *)
(** * RemoteXPC connections ([src/remotexpc/conn.rs])

    A connection is the TCP stream, whose reading and writing halves share one
    record here, the bytes received and not yet decoded, and the next message
    id.  The mutexes serialise the operations; an operation is one step. *)

From S2P Require Import Prelude Io Xpc H2.

Definition STREAM_CS : Z := 1.
Definition STREAM_SC : Z := 3.

Record RemoteXpcConn : Type := MkConn {
  sock : stream;
  recv_buf : list byte;
  next_msg_id : Z
}.

Definition set_sock (s : stream) (c : RemoteXpcConn) : RemoteXpcConn :=
  MkConn s (recv_buf c) (next_msg_id c).
Definition set_recv_buf (l : list byte) (c : RemoteXpcConn) : RemoteXpcConn :=
  MkConn (sock c) l (next_msg_id c).

Section conn.
Context `{BuildProfile}.

Definition on_sock {E A} (m : ST stream E A) : ST RemoteXpcConn E A := zoom sock set_sock m.
Definition io {A} (m : ST stream io_error A) : ST RemoteXpcConn Error A :=
  smap_err Io (on_sock m).

(** [*id += 2]: overflow is checked in the debug profile. *)
Definition alloc_msg_id : ST RemoteXpcConn Error Z :=
  let! c := sget in
  let! n := lift (u64_add (next_msg_id c) 2) in
  smodify (λ c, MkConn (sock c) (recv_buf c) n) ;;;
  sret (next_msg_id c).

Definition write_xpc_data (stream_id : Z) (msg : Message) : ST RemoteXpcConn Error unit :=
  let! bytes := lift (encode_message msg) in
  io (write_data stream_id bytes) ;;;
  io flush.

(** Send an XPC value as a request on the CS stream. *)
Definition send (value : Value) : ST RemoteXpcConn Error Z :=
  let! msg_id := alloc_msg_id in
  let msg := MkMessage
    (Z.lor (Z.lor flags.ALWAYS_SET flags.DATA_PRESENT) flags.WANTING_REPLY)
    msg_id (Some value) in
  write_xpc_data STREAM_CS msg ;;;
  sret msg_id.

(** The complete message at the front of [recv_buf], if there is one:
    [None] when more bytes are needed. *)
Definition take_message (buf : list byte) : outcome Error (option (Message * list byte)) :=
  if 24 <=? lenZ buf then
    let? l := slice buf 8 16 in
    let? total := usize_add 24 (le_val l) in
    if total <=? lenZ buf then
      let? m := slice buf 0 total in
      let? r := omap_err Xpc (decode_message m) in
      Ok (Some (r.1, drop (Z.to_nat total) buf))
    else Ok None
  else Ok None.

(** What one frame does to the connection. *)
Definition on_frame (f : Frame) : ST RemoteXpcConn Error unit :=
  match f with
  | Data _ payload =>
      match payload with
      | [] => sret tt
      | _ => smodify (λ c, set_recv_buf (recv_buf c ++ payload) c)
      end
  | Settings fl _ =>
      if Z.land fl FLAG_ACK =? 0 then io write_settings_ack ;;; io flush else sret tt
  | Ping ack opaque =>
      if ack then sret tt else io (write_ping_ack opaque) ;;; io flush
  | GoAway _ _ => sfail Closed
  | _ => sret tt
  end.

(** Block until the next complete XPC message arrives. *)
Fixpoint receive_fuel (fuel : nat) : ST RemoteXpcConn Error Message :=
  let! c := sget in
  let! m := lift (take_message (recv_buf c)) in
  match m with
  | Some (msg, rest) => smodify (set_recv_buf rest) ;;; sret msg
  | None =>
      match fuel with
      | O => lift OutOfFuel
      | S fuel =>
          let! frame := on_sock read_frame in
          on_frame frame ;;;
          receive_fuel fuel
      end
  end.

(** Every frame read uses up some of what the peer delivers. *)
Definition receive : ST RemoteXpcConn Error Message :=
  λ c, receive_fuel (S (rx_size (rx (sock c)))) c.

Fixpoint request_loop (fuel : nat) (id : Z) : ST RemoteXpcConn Error Value :=
  let! msg := receive in
  if (msg_id msg =? id) || negb (Z.land (m_flags msg) flags.REPLY =? 0) then
    lift (ok_or (body msg) Closed)
  else
    match fuel with
    | O => lift OutOfFuel
    | S fuel => request_loop fuel id
    end.

(** Every message that is not the reply uses up bytes. *)
Definition request_fuel (c : RemoteXpcConn) : nat :=
  rx_size (rx (sock c)) + length (recv_buf c).

(** Send a request and wait for the matching reply. *)
Definition request (value : Value) : ST RemoteXpcConn Error Value :=
  let! msg_id := send value in
  λ c, request_loop (request_fuel c) msg_id c.

(** The answer to the server's SETTINGS, step 8 of the handshake. *)
Fixpoint await_settings (fuel : nat) : ST RemoteXpcConn Error unit :=
  let! frame := on_sock read_frame in
  match frame with
  | Settings fl _ =>
      if Z.land fl FLAG_ACK =? 0 then io write_settings_ack ;;; io flush else sret tt
  | _ =>
      match fuel with
      | O => lift OutOfFuel
      | S fuel => await_settings fuel
      end
  end.

Definition handshake : ST RemoteXpcConn Error unit :=
  io (write_all CLIENT_PREFACE) ;;;
  io (write_settings [(SETTING_MAX_CONCURRENT_STREAMS, 100);
                      (SETTING_INITIAL_WINDOW_SIZE, 1048576)]) ;;;
  io (write_window_update 0 983041) ;;;
  io (write_headers STREAM_CS) ;;;
  io (write_headers STREAM_SC) ;;;
  let! init_a := lift (encode_message (init flags.ALWAYS_SET)) in
  io (write_data STREAM_CS init_a) ;;;
  let! init_b := lift (encode_message (init (Z.lor flags.ALWAYS_SET 0x200))) in
  io (write_data STREAM_CS init_b) ;;;
  let! init_c := lift (encode_message (init (Z.lor flags.INIT_HANDSHAKE flags.ALWAYS_SET))) in
  io (write_data STREAM_SC init_c) ;;;
  io flush ;;;
  (λ c, await_settings (rx_size (rx (sock c))) c).

(** [connect], given the stream that [TcpStream::connect] returned. *)
Definition connect (tcp : stream) : outcome Error unit * RemoteXpcConn :=
  handshake (MkConn tcp [] 1).
End conn.

(** ** Size of the input *)

(** What is left to receive: decreases with every frame and every message. *)
Definition conn_size (c : RemoteXpcConn) : nat := rx_size (rx (sock c)) + length (recv_buf c).

Lemma read_frame_size s f s' :
  read_frame s = (Ok f, s') →
  (rx_size (rx s') < rx_size (rx s))%nat ∧
  match f with
  | Data _ p => (rx_size (rx s') + length p < rx_size (rx s))%nat
  | _ => True
  end ∧ tx s' = tx s ∧ wq s' = wq s.
Proof.
  unfold read_frame. intros Hr. apply sbind_inv in Hr as (hdr & s1 & Hhdr & Hr).
  unfold smap_err, h2_read_exact in Hhdr.
  destruct (read_exact id h2_eof 9 s) as [[h| | |] s1'] eqn:E; try done.
  injection Hhdr as -> ->. apply read_exact_size in E as (Hl & Hs1 & Htx1 & Hwq1); [|lia].
  do 9 (destruct hdr as [|? hdr]; [done|]). destruct hdr; [|done].
  apply sbind_inv in Hr as (p & s2 & Hp & Hr). unfold lift in Hr.
  injection Hr as Hf <-. simpl length in Hs1.
  assert ((rx_size (rx s2) + length p ≤ rx_size (rx s1))%nat ∧ tx s2 = tx s1 ∧ wq s2 = wq s1)
    as (Hs2 & Htx2 & Hwq2).
  { case_match; [|injection Hp as <- <-; simpl; split_and!; [lia|done..]].
    unfold smap_err, h2_read_exact in Hp.
    destruct (read_exact id h2_eof _ s1) as [[h'| | |] s2'] eqn:E; try done.
    injection Hp as -> ->. zhyps. apply read_exact_size in E as (? & ? & ? & ?); [done|lia]. }
  split_and!; [lia| |congruence..].
  unfold parse_frame in Hf. repeat case_match; try done; inv_ok; lia.
Qed.

Section receive_spec.
Context `{BuildProfile}.

(** ** Receiving always returns *)

Lemma take_message_size buf m rest :
  take_message buf = Ok (Some (m, rest)) → (length rest < length buf)%nat.
Proof.
  unfold take_message. case_match; [|done]. intros Ht.
  apply obind_Ok_inv in Ht as (l & _ & Ht). apply obind_Ok_inv in Ht as (total & _ & Ht).
  case_match; [|done]. apply obind_Ok_inv in Ht as (p & Hp%slice_ok & Ht).
  apply obind_Ok_inv in Ht as ([m' k] & Hm%omap_err_Ok_inv & Ht).
  injection Ht as -> <-. zhyps. rewrite length_drop.
  assert (24 ≤ lenZ p).
  { destruct (lenZ p <? 24) eqn:E; zhyps; [|lia]. unfold decode_message in Hm.
    by rewrite (proj2 (Z.ltb_lt _ _)) in Hm. }
  apply get_slice_Some in Hp. unfold lenZ in *. lia.
Qed.

Lemma take_message_fuel buf : take_message buf ≠ OutOfFuel.
Proof.
  unfold take_message. case_match; [|done].
  apply obind_fuel; [auto with fuel|intros l _].
  apply obind_fuel; [auto with fuel|intros total _]. case_match; [|done].
  apply obind_fuel; [auto with fuel|intros p _].
  apply obind_fuel; [|done]. apply omap_err_fuel, decode_message_terminates.
Qed.

Lemma read_frame_fuel s : (read_frame s).1 ≠ OutOfFuel.
Proof.
  unfold read_frame, sbind at 1, smap_err at 1, h2_read_exact at 1.
  destruct (read_exact_total id h2_eof 9 s ltac:(lia)) as (r1 & _ & _ & H1).
  destruct (read_exact id h2_eof 9 s) as [[h| | |] s1]; try done. simpl.
  do 9 (destruct h as [|? h]; [done|]). destruct h; [|done].
  unfold sbind. set (n := Z.lor _ _).
  assert (∀ p s, (lift (E:=Error) (parse_frame (u8 b2) (u8 b3)
    (be_val [byte_of (Z.land (u8 b4) 127); b5; b6; b7]) p) s : outcome Error Frame * stream).1
    ≠ OutOfFuel) as Hparse.
  { intros p s0. simpl. unfold parse_frame. repeat case_match; try done.
    apply obind_fuel; [auto with fuel|done]. }
  destruct (0 <? n) eqn:E; [|apply Hparse]. zhyps. unfold smap_err, h2_read_exact.
  destruct (read_exact_total id h2_eof n s1 ltac:(lia)) as (r2 & _ & _ & H2).
  destruct (read_exact id h2_eof n s1) as [[p| | |] s2]; try done. apply Hparse.
Qed.

Lemma write_frame_raw_total ty fl st p s :
  rx (write_frame_raw ty fl st p s).2 = rx s ∧ (write_frame_raw ty fl st p s).1 ≠ OutOfFuel ∧
  (write_frame_raw ty fl st p s).1 ≠ Panic.
Proof.
  unfold write_frame_raw, sbind, write_all.
  destruct (wq s) as [|[e|] q]; simpl; [by destruct p..|].
  destruct p; [done|]. by destruct q as [|[]].
Qed.

Lemma on_frame_total f c :
  (on_frame f c).1 ≠ OutOfFuel ∧ (on_frame f c).1 ≠ Panic ∧
  rx (sock (on_frame f c).2) = rx (sock c).
Proof.
  assert (∀ m : ST stream io_error unit,
    (∀ s, rx (m s).2 = rx s ∧ (m s).1 ≠ OutOfFuel ∧ (m s).1 ≠ Panic) →
    ∀ c, (((io m ;;; io flush) : ST _ _ unit) c).1 ≠ OutOfFuel ∧
      (((io m ;;; io flush) : ST _ _ unit) c).1 ≠ Panic ∧
      rx (sock (((io m ;;; io flush) : ST _ _ unit) c).2) = rx (sock c)) as Hio.
  { intros m Hm c0. unfold io, on_sock, smap_err, zoom, sbind.
    destruct (m (sock c0)) as [r s1] eqn:E. specialize (Hm (sock c0)). rewrite E in Hm.
    destruct r; simpl in *; destruct Hm as (? & ? & ?); try done.
    unfold flush, set_sock. simpl. by destruct (wq s1) as [|[]]. }
  destruct f; simpl; try done.
  - by destruct payload.
  - case_match; [|done]. apply Hio. intros. apply write_frame_raw_total.
  - case_match; [done|]. apply Hio. intros. apply write_frame_raw_total.
Qed.

(** What a frame adds to the buffer and what it is answered with. *)
Definition data_of (f : Frame) : list byte :=
  match f with Data _ p => p | _ => [] end.

Definition reply_of (f : Frame) : list byte :=
  match f with
  | Settings fl _ =>
      if Z.land fl FLAG_ACK =? 0 then raw_bytes (out_raw OutSettingsAck) else []
  | Ping ack q => if ack then [] else raw_bytes (out_raw (OutPingAck q))
  | _ => []
  end.

Lemma on_frame_buf f c c' :
  on_frame f c = (Ok tt, c') → recv_buf c' = recv_buf c ++ data_of f.
Proof.
  assert (∀ (m : ST stream io_error unit) c, ((io m ;;; io flush) c).1 = Ok tt →
    recv_buf ((io m ;;; io flush) c).2 = recv_buf c) as Hio.
  { intros m c0. unfold io, on_sock, smap_err, zoom, sbind.
    destruct (m (sock c0)) as [[] s1]; try done. simpl.
    by destruct (flush s1) as [[] s2]. }
  intros Hf. destruct f; simpl in Hf |- *; try (injection Hf as <-; by rewrite ?app_nil_r).
  - destruct payload; injection Hf as <-; simpl; by rewrite ?app_nil_r.
  - rewrite app_nil_r. case_match; [|by injection Hf as <-].
    pose proof (Hio write_settings_ack c) as Hb. rewrite Hf in Hb. exact (Hb eq_refl).
  - rewrite app_nil_r. destruct ack; [by injection Hf as <-|].
    pose proof (Hio (write_ping_ack opaque) c) as Hb. rewrite Hf in Hb. exact (Hb eq_refl).
  - done.
Qed.

Lemma receive_step fuel c :
  receive_fuel fuel c =
    match take_message (recv_buf c) with
    | Ok (Some (m, rest)) => (Ok m, set_recv_buf rest c)
    | Ok None =>
        match fuel with
        | O => (OutOfFuel, c)
        | S fuel =>
            (let! frame := on_sock read_frame in
             on_frame frame ;;; receive_fuel fuel) c
        end
    | Err e => (Err e, c)
    | Panic => (Panic, c)
    | OutOfFuel => (OutOfFuel, c)
    end.
Proof.
  destruct fuel; cbn [receive_fuel]; unfold sbind at 1, sget, sbind at 1, lift at 1;
    by destruct (take_message (recv_buf c)) as [[[m rest]|]| | |].
Qed.

Lemma receive_fuel_total fuel c :
  (rx_size (rx (sock c)) < fuel)%nat →
  (receive_fuel fuel c).1 ≠ OutOfFuel ∧
  ∀ m c', receive_fuel fuel c = (Ok m, c') → (conn_size c' < conn_size c)%nat.
Proof.
  revert c. induction fuel as [|fuel IH]; intros c Hf; [lia|].
  rewrite receive_step. pose proof (take_message_fuel (recv_buf c)).
  destruct (take_message (recv_buf c)) as [[[m rest]|]| | |] eqn:Ht; try done.
  { simpl. split; [done|]. intros ?? [= <- <-]. apply take_message_size in Ht.
    unfold conn_size. simpl. lia. }
  unfold sbind, on_sock, zoom.
  pose proof (read_frame_fuel (sock c)).
  destruct (read_frame (sock c)) as [[f| | |] s1] eqn:Hr; try done.
  apply read_frame_size in Hr as (Hs1 & Hdata & _).
  pose proof (on_frame_total f (set_sock s1 c)) as (? & ? & Hrx).
  destruct (on_frame f (set_sock s1 c)) as [[[]| | |] c1] eqn:Ho; try done.
  apply on_frame_buf in Ho. simpl in Hrx, Ho.
  destruct (IH c1) as [IH1 IH2]; [rewrite Hrx; lia|]. split; [done|].
  intros m c' Hm. apply IH2 in Hm. unfold conn_size in *. rewrite Ho, Hrx in Hm.
  rewrite length_app in Hm. destruct f; simpl in *; lia.
Qed.

Lemma receive_total c :
  (receive c).1 ≠ OutOfFuel ∧
  ∀ m c', receive c = (Ok m, c') → (conn_size c' < conn_size c)%nat.
Proof. apply receive_fuel_total. lia. Qed.


(** ** Reassembly *)

(** A frame the connection survives: it parses and is not a GOAWAY. *)
Definition benign (f : raw) : Prop :=
  raw_ok f ∧ ∃ fr, parse_raw f = Ok fr ∧ ∀ l e, fr ≠ GoAway l e.

Definition raw_data (f : raw) : list byte :=
  match parse_raw f with Ok fr => data_of fr | _ => [] end.
Definition raw_reply (f : raw) : list byte :=
  match parse_raw f with Ok fr => reply_of fr | _ => [] end.

Abbreviation wire fs := (concat (raw_bytes <$> fs)).
Abbreviation data fs := (concat (raw_data <$> fs)).
Abbreviation replies fs := (concat (raw_reply <$> fs)).

Lemma on_frame_healthy f c :
  healthy (sock c) → (∀ l e, f ≠ GoAway l e) →
  match f with Ping false q => lenZ q = 8 | _ => True end →
  on_frame f c =
    (Ok tt, MkConn (append_tx (reply_of f) (sock c)) (recv_buf c ++ data_of f) (next_msg_id c)).
Proof.
  intros Hs Hg Hp. destruct c as [sk buf id]. cbn [sock recv_buf next_msg_id] in *.
  assert (∀ o, out_ok o → (io (write_out o) ;;; io flush) (MkConn sk buf id) =
    (Ok tt, MkConn (append_tx (raw_bytes (out_raw o)) sk) buf id)) as Hio.
  { intros o Ho. unfold io, on_sock, zoom, smap_err, sbind. cbn [sock].
    rewrite write_out_healthy by done. simpl. by rewrite flush_healthy. }
  destruct f; cbn [on_frame data_of reply_of];
    try (unfold sret; by rewrite ?append_tx_nil, ?app_nil_r).
  - destruct payload; unfold sret, smodify, set_recv_buf; simpl;
      by rewrite ?append_tx_nil, ?app_nil_r.
  - case_match; [|unfold sret; by rewrite ?append_tx_nil, ?app_nil_r].
    rewrite app_nil_r. by apply (Hio OutSettingsAck).
  - destruct ack; [unfold sret; by rewrite ?append_tx_nil, ?app_nil_r|].
    rewrite app_nil_r. by apply (Hio (OutPingAck opaque)).
  - by destruct (Hg last_stream error).
Qed.

Lemma parse_ping f ack q : parse_raw f = Ok (Ping ack q) → lenZ q = 8.
Proof.
  unfold parse_raw, parse_frame. intros Hf. repeat case_match; try done.
  - injection Hf as _ <-. destruct (get_slice _ 0 8) eqn:E; simpl; [|done].
    apply get_slice_Some in E. lia.
  - by inv_ok.
Qed.

(** The frames are consumed until the buffer holds a message. *)
Lemma receive_frames fs c msg rest more r :
  healthy (sock c) → Forall benign fs →
  delivers (rx (sock c)) (wire fs ++ more) r →
  (∀ fs1 fs2, fs = fs1 ++ fs2 → fs2 ≠ [] → take_message (recv_buf c ++ data fs1) = Ok None) →
  take_message (recv_buf c ++ data fs) = Ok (Some (msg, rest)) →
  ∀ fuel, (length fs ≤ fuel)%nat →
  ∃ r1, receive_fuel fuel c =
      (Ok msg, MkConn (append_tx (replies fs) (set_rx r1 (sock c))) rest (next_msg_id c)) ∧
    delivers r1 more r.
Proof.
  intros Hs Hb Hd Hnone Hsome. revert c Hs Hd Hnone Hsome.
  induction Hb as [|f fs [Hok (fr & Hfr & Hg)] _ IH]; intros c Hs Hd Hnone Hsome fuel Hf.
  - exists (rx (sock c)). rewrite receive_step. cbn in Hsome. rewrite app_nil_r in Hsome.
    rewrite Hsome. split; [|done]. rewrite append_tx_nil, set_rx_id. done.
  - destruct fuel as [|fuel]; [simpl in Hf; lia|]. rewrite receive_step.
    specialize (Hnone [] (f :: fs) eq_refl) as Hn. cbn in Hn.
    rewrite app_nil_r in Hn. rewrite Hn by done.
    change (wire (f :: fs)) with (raw_bytes f ++ wire fs) in Hd.
    change (data (f :: fs)) with (raw_data f ++ data fs) in *.
    change (replies (f :: fs)) with (raw_reply f ++ replies fs).
    rewrite <-(assoc_L (++)) in Hd.
    destruct (read_frame_raw _ _ _ _ Hok Hd) as (r1 & Hr & Hd1).
    unfold sbind at 1, on_sock, zoom. rewrite Hr, Hfr. unfold sbind.
    rewrite on_frame_healthy; [|done|done|].
    2:{ destruct fr as [| | |[] q| | |]; try done. by eapply parse_ping. }
    unfold raw_data, raw_reply. rewrite Hfr in *.
    set (c1 := MkConn _ _ _).
    destruct (IH c1) with (fuel := fuel) as (r2 & Hr2 & Hd2); [done|done| | |simpl in Hf; lia|].
    + intros fs1 fs2 -> Hne. simpl. rewrite <-(assoc_L (++)).
      pose proof (Hnone (f :: fs1) fs2 eq_refl Hne) as Hn1.
      change (data (f :: fs1)) with (raw_data f ++ data fs1) in Hn1.
      unfold raw_data in Hn1 at 1. by rewrite Hfr in Hn1.
    + simpl. rewrite <-(assoc_L (++)). unfold raw_data in Hsome at 1. by rewrite Hfr in Hsome.
    + exists r2. split; [|done]. rewrite Hr2. unfold c1. simpl. f_equal. f_equal.
      unfold append_tx, set_rx. simpl. by rewrite <-(assoc_L (++)).
Qed.

Lemma take_message_header buf b :
  24 ≤ lenZ buf → has_at buf 8 (le_bytes 8 b) → 0 ≤ b < 2 ^ 63 →
  take_message buf =
    if 24 + b <=? lenZ buf then
      let? r := omap_err Xpc (decode_message (take (Z.to_nat (24 + b)) buf)) in
      Ok (Some (r.1, drop (Z.to_nat (24 + b)) buf))
    else Ok None.
Proof.
  intros Hlen Hat Hb. unfold take_message. rewrite (proj2 (Z.leb_le 24 _)) by done.
  unfold slice. rewrite (has_at_slice _ _ _ _ Hat) by len. cbn [or_panic obind].
  rewrite le_val_le_bytes_small by (unfold in_u; lia). rewrite add_w_ok by lia. cbn [obind].
  case_match; [|done]. zhyps. unfold get_slice. rewrite bool_decide_true by lia.
  by rewrite Z.sub_0_r.
Qed.

Lemma header_length_at f b i rest : has_at (header f b i ++ rest) 8 (le_bytes 8 b).
Proof.
  exists (le_bytes 4 WRAPPER_MAGIC ++ le_bytes 4 f), (le_bytes 8 i ++ rest).
  unfold header. split; [by rewrite <-!(assoc_L (++))|len].
Qed.

Lemma take_message_complete msg out rest :
  message_ok msg → encode_message (E:=XpcError) msg = Ok out →
  take_message (out ++ rest) = Ok (Some (msg, rest)).
Proof.
  intros Hok Henc.
  destruct (encode_message_header _ _ Hok Henc) as (p & Hout & Hp & Hsz).
  assert (lenZ out = 24 + lenZ p) as Hl by (rewrite Hout, lenZ_app, lenZ_header; done).
  pose proof (lenZ_nonneg p). pose proof (lenZ_nonneg rest).
  rewrite (take_message_header _ (lenZ p)); [|rewrite lenZ_app; lia| |lia].
  2:{ rewrite Hout, <-(assoc_L (++)). apply header_length_at. }
  rewrite (proj2 (Z.leb_le _ _)) by (rewrite lenZ_app; lia).
  replace (Z.to_nat (24 + lenZ p)) with (length out) by (unfold lenZ in *; lia).
  rewrite take_app_length, drop_app_length.
  pose proof (decode_encode_message_aux msg out Hok Henc []) as Hd.
  rewrite app_nil_r in Hd. by rewrite Hd.
Qed.

Lemma take_message_incomplete msg out buf rest :
  message_ok msg → encode_message (E:=XpcError) msg = Ok out →
  out = buf ++ rest → rest ≠ [] → take_message buf = Ok None.
Proof.
  intros Hok Henc Hbuf Hrest.
  destruct (encode_message_header _ _ Hok Henc) as (p & Hout & Hp & Hsz).
  assert (lenZ out = 24 + lenZ p) as Hl by (rewrite Hout, lenZ_app, lenZ_header; done).
  assert (lenZ buf < lenZ out) as Hlt.
  { rewrite Hbuf, lenZ_app. destruct rest; [done|len]. }
  destruct (decide (24 ≤ lenZ buf)) as [H24|H24].
  - rewrite (take_message_header _ (lenZ p)); [|done| |len].
    + by rewrite (proj2 (Z.leb_gt _ _)) by lia.
    + exists (take 8 buf), (drop 16 buf).
      pose proof (header_length_at (m_flags msg) (lenZ p) (msg_id msg) p) as Hat.
      rewrite <-Hout, Hbuf in Hat. apply (has_at_slice _ _ _ 16) in Hat; [|len].
      rewrite get_slice_app_l in Hat by lia. unfold get_slice in Hat.
      rewrite bool_decide_true in Hat by lia. injection Hat as Hat. rewrite <-Hat.
      change (Z.to_nat (16 - 8)) with 8%nat. change (Z.to_nat 8) with 8%nat.
      split; [|unfold lenZ in *; rewrite length_take; lia].
      change 16%nat with (8 + 8)%nat. rewrite <-drop_drop, take_drop. by rewrite take_drop.
  - unfold take_message. by rewrite (proj2 (Z.leb_gt _ _)) by lia.
Qed.

(** C13. [receive] reassembles a message from the DATA frames it is spread
    over, wherever the message and the TCP reads are cut: it returns the
    message that was encoded, keeps the bytes after it for the next call, and
    acknowledges, in order, the SETTINGS and PING frames in between.
    [fs1 ++ [f]] are the frames up to the one that completes the message. *)
Theorem receive_reassembles c msg out fs1 f rest more r :
  message_ok msg → encode_message (E:=XpcError) msg = Ok out →
  healthy (sock c) → Forall benign (fs1 ++ [f]) →
  recv_buf c ++ data (fs1 ++ [f]) = out ++ rest →
  lenZ (recv_buf c ++ data fs1) < lenZ out →
  delivers (rx (sock c)) (wire (fs1 ++ [f]) ++ more) r →
  ∃ r1, receive c =
      (Ok msg, MkConn (append_tx (replies (fs1 ++ [f])) (set_rx r1 (sock c)))
                 rest (next_msg_id c)) ∧
    delivers r1 more r.
Proof.
  intros Hok Henc Hs Hb Hdata Hlt Hd.
  eapply receive_frames; [done|done|done| |by rewrite Hdata; apply take_message_complete|].
  - intros l1 l2 Heq Hne.
    destruct (exists_last Hne) as (l2' & f' & ->). rewrite (assoc_L (++)) in Heq.
    apply app_inj_2 in Heq as [-> _]; [|done].
    rewrite fmap_app, concat_app, (assoc_L (++)) in Hlt.
    rewrite !fmap_app, !concat_app, !(assoc_L (++)) in Hdata.
    set (pre := recv_buf c ++ data l1) in *.
    rewrite <-(assoc_L (++)) in Hdata.
    apply app_eq_app in Hdata as [k [[Hpre _]|[Hout _]]].
    + rewrite Hpre in Hlt. len.
    + eapply take_message_incomplete; [done..|]. intros ->. rewrite app_nil_r in Hout.
      rewrite Hout in Hlt. len.
  - enough (length (fs1 ++ [f]) ≤ rx_size (rx (sock c)))%nat by lia.
    apply delivers_size in Hd. rewrite length_app in Hd.
    assert (∀ fs, length fs ≤ length (wire fs))%nat as Hw; [|specialize (Hw (fs1 ++ [f])); lia].
    induction fs as [|g fs IH]; [done|].
    change (wire (g :: fs)) with (raw_bytes g ++ wire fs).
    rewrite length_app. pose proof (lenZ_raw_bytes g). unfold lenZ in *. simpl. lia.
Qed.
End receive_spec.

Section requests.
Context `{BuildProfile}.

(** The messages that [receive] returns, one call after another. *)
Inductive receives : RemoteXpcConn → list Message → RemoteXpcConn → Prop :=
  | receives_nil c : receives c [] c
  | receives_cons c m c1 ms c2 :
      receive c = (Ok m, c1) → receives c1 ms c2 → receives c (m :: ms) c2.

(** What [request] takes for the reply to message [id]. *)
Definition answers (id : Z) (m : Message) : bool :=
  (msg_id m =? id) || negb (Z.land (m_flags m) flags.REPLY =? 0).

(** The connection after sending [value], encoded as [out]. *)
Definition after_send (out : list byte) (c : RemoteXpcConn) : RemoteXpcConn :=
  MkConn (append_tx (raw_bytes (Raw TYPE_DATA 0 STREAM_CS out)) (sock c)) (recv_buf c)
    (next_msg_id c + 2).

Lemma io_write_out o c :
  out_ok o → healthy (sock c) →
  io (write_out o) c = (Ok tt, set_sock (append_tx (raw_bytes (out_raw o)) (sock c)) c).
Proof.
  intros Ho Hs. unfold io, on_sock, zoom, smap_err. by rewrite write_out_healthy.
Qed.

Lemma io_flush c : healthy (sock c) → io flush c = (Ok tt, c).
Proof.
  intros. unfold io, on_sock, zoom, smap_err. rewrite flush_healthy by done. by destruct c.
Qed.

Lemma send_healthy value c out :
  healthy (sock c) → in_u 64 (next_msg_id c) → next_msg_id c + 2 < 2 ^ 64 →
  encode_message (E:=Error) (with_body (next_msg_id c) value) = Ok out → lenZ out < 2 ^ 24 →
  send value c = (Ok (next_msg_id c), after_send out c).
Proof.
  intros Hs Hid Hid2 Henc Hlen. unfold send, alloc_msg_id, sbind, sget, lift.
  rewrite add_w_ok by done. unfold smodify, sret. unfold write_xpc_data, sbind, lift.
  unfold with_body in Henc. rewrite Henc.
  change (write_data STREAM_CS out) with (write_out (OutData STREAM_CS out)).
  rewrite io_write_out by done. by rewrite io_flush.
Qed.

Lemma receives_size c ms c' : receives c ms c' → (length ms + conn_size c' ≤ conn_size c)%nat.
Proof.
  induction 1 as [|c m c1 ms c2 Hr _ IH]; simpl; [lia|].
  apply receive_total in Hr. lia.
Qed.

Lemma request_loop_receives id c ms c1 m c2 fuel :
  receives c ms c1 → receive c1 = (Ok m, c2) →
  Forall (λ m, answers id m = false) ms → answers id m = true →
  (length ms ≤ fuel)%nat →
  request_loop fuel id c = (ok_or (body m) Closed, c2).
Proof.
  intros Hrs Hr Hno Hyes. revert fuel.
  induction Hrs as [c|c m0 c0 ms c' Hr0 _ IH]; intros fuel Hf.
  - destruct fuel; cbn [request_loop]; unfold sbind; rewrite Hr;
      unfold answers in Hyes; by rewrite Hyes.
  - apply Forall_cons in Hno as [Hno0 Hno]. destruct fuel as [|fuel]; [simpl in Hf; lia|].
    cbn [request_loop]. unfold sbind. rewrite Hr0. unfold answers in Hno0. rewrite Hno0.
    apply IH; [done|done|simpl in Hf; lia].
Qed.

(** A request sends its message on the client-server stream under a
    fresh id and returns the body of the first message received that carries
    the id or is flagged as a reply, whatever id that one has; messages that
    do neither are dropped. *)
Theorem request_returns_reply value c out ms c1 m c2 :
  healthy (sock c) → in_u 64 (next_msg_id c) → next_msg_id c + 2 < 2 ^ 64 →
  encode_message (E:=Error) (with_body (next_msg_id c) value) = Ok out → lenZ out < 2 ^ 24 →
  receives (after_send out c) ms c1 → receive c1 = (Ok m, c2) →
  Forall (λ m, answers (next_msg_id c) m = false) ms → answers (next_msg_id c) m = true →
  request value c = (ok_or (body m) Closed, c2).
Proof.
  intros Hs Hid Hid2 Henc Hlen Hrs Hr Hno Hyes. unfold request, sbind.
  rewrite (send_healthy value c out) by done.
  apply (request_loop_receives _ _ ms c1); try done.
  apply receives_size in Hrs. unfold request_fuel. unfold conn_size in Hrs. lia.
Qed.

(** *** What a request returns *)





(** ** The handshake *)

Definition init_bytes (fl : Z) : list byte := header fl 0 0.

Definition handshake_bytes : list byte :=
  CLIENT_PREFACE
  ++ raw_bytes (out_raw (OutSettings [(SETTING_MAX_CONCURRENT_STREAMS, 100);
                                      (SETTING_INITIAL_WINDOW_SIZE, 1048576)]))
  ++ raw_bytes (out_raw (OutWindowUpdate 0 983041))
  ++ raw_bytes (out_raw (OutHeaders STREAM_CS))
  ++ raw_bytes (out_raw (OutHeaders STREAM_SC))
  ++ raw_bytes (out_raw (OutData STREAM_CS (init_bytes 0x1)))
  ++ raw_bytes (out_raw (OutData STREAM_CS (init_bytes 0x201)))
  ++ raw_bytes (out_raw (OutData STREAM_SC (init_bytes 0x400001))).

Lemma encode_init fl : encode_message (E:=Error) (init fl) = Ok (init_bytes fl).
Proof. unfold encode_message, init_bytes, header. simpl. done. Qed.

Definition is_settings (f : raw) : bool := r_type f =? TYPE_SETTINGS.

Lemma await_settings_frames fs fl p c more r :
  healthy (sock c) → Forall benign fs → Forall (λ f, is_settings f = false) fs →
  raw_ok (Raw TYPE_SETTINGS fl 0 p) →
  delivers (rx (sock c)) (concat (raw_bytes <$> fs) ++ raw_bytes (Raw TYPE_SETTINGS fl 0 p) ++ more) r →
  ∀ fuel, (length fs ≤ fuel)%nat →
  ∃ r1, await_settings fuel c =
      (Ok tt, set_sock (append_tx (raw_reply (Raw TYPE_SETTINGS fl 0 p)) (set_rx r1 (sock c))) c) ∧
    delivers r1 more r.
Proof.
  intros Hs Hb Hset Hok Hd. revert c Hs Hd.
  induction Hb as [|f fs [Hfok (fr & Hfr & Hg)] _ IH]; intros c Hs Hd fuel Hf.
  - destruct (read_frame_raw _ _ _ _ Hok Hd) as (r1 & Hr & Hd1). exists r1. split; [|done].
    assert (parse_raw (Raw TYPE_SETTINGS fl 0 p) = Ok (Settings fl (settings_pairs p))) as Hp
      by done.
    unfold raw_reply. rewrite Hp in *.
    destruct fuel; cbn [await_settings]; unfold sbind at 1, on_sock, zoom; rewrite Hr;
      cbn [reply_of]; case_match;
      try (unfold sret; by rewrite append_tx_nil).
    all: unfold sbind; rewrite (io_write_out OutSettingsAck) by done; by rewrite io_flush.
  - apply Forall_cons in Hset as [Hset0 Hset].
    change (concat (raw_bytes <$> f :: fs)) with (raw_bytes f ++ concat (raw_bytes <$> fs)) in Hd.
    rewrite <-(assoc_L (++)) in Hd.
    destruct (read_frame_raw _ _ _ _ Hfok Hd) as (r1 & Hr & Hd1).
    destruct fuel as [|fuel]; [simpl in Hf; lia|].
    destruct (IH Hset (set_sock (set_rx r1 (sock c)) c)) with (fuel := fuel)
      as (r2 & Hr2 & Hd2); [done|done|simpl in Hf; lia|].
    exists r2. split; [|done]. cbn [await_settings]. unfold sbind at 1, on_sock at 1, zoom.
    rewrite Hr, Hfr.
    assert (∀ a b, fr ≠ Settings a b) as Hns.
    { intros a b ->. unfold is_settings in Hset0. unfold parse_raw, parse_frame in Hfr.
      rewrite Hset0 in Hfr. repeat case_match; try done. by inv_ok. }
    destruct fr; try (by destruct (Hns flags pairs)); rewrite Hr2; done.
Qed.

(** One frame of the handshake. *)
Local Ltac out o :=
  etrans; [eapply sbind_ok; apply (io_write_out o);
    [simpl; repeat split; repeat constructor; discriminate|eassumption]|].
Local Ltac encode := etrans; [eapply sbind_ok; unfold lift; rewrite encode_init; reflexivity|].

(** The handshake sends exactly the client preface, SETTINGS, the window
    update, the two stream openings and the three XPC init messages, skips
    what the server sends before its SETTINGS, and acknowledges these. *)
Theorem handshake_exchange fs fl p tcp more r :
  healthy tcp → Forall benign fs → Forall (λ f, is_settings f = false) fs →
  raw_ok (Raw TYPE_SETTINGS fl 0 p) →
  delivers (rx tcp) (concat (raw_bytes <$> fs) ++ raw_bytes (Raw TYPE_SETTINGS fl 0 p) ++ more) r →
  ∃ r1, connect tcp =
      (Ok tt, MkConn (append_tx (handshake_bytes ++ raw_reply (Raw TYPE_SETTINGS fl 0 p))
                        (set_rx r1 tcp)) [] 1) ∧
    delivers r1 more r.
Proof.
  intros Hs Hb Hset Hok Hd. unfold connect, handshake.
  set (c := MkConn (append_tx handshake_bytes tcp) [] 1).
  destruct (await_settings_frames fs fl p c more r Hs Hb Hset Hok Hd
    (rx_size (rx (sock c)))) as (r1 & Haw & Hd1).
  { apply delivers_size in Hd. rewrite length_app in Hd. simpl.
    assert (∀ fs, length fs ≤ length (concat (raw_bytes <$> fs)))%nat as Hw;
      [|specialize (Hw fs); lia].
    intros l. induction l as [|g l IH]; [done|].
    change (concat (raw_bytes <$> g :: l)) with (raw_bytes g ++ concat (raw_bytes <$> l)).
    rewrite length_app. pose proof (lenZ_raw_bytes g). unfold lenZ in *. simpl. lia. }
  exists r1. split; [|done].
  etrans; [apply (sbind_ok _ _ _ tt (MkConn (append_tx CLIENT_PREFACE tcp) [] 1))|].
  { unfold io, on_sock, zoom, smap_err. by rewrite write_all_healthy. }
  out (OutSettings [(SETTING_MAX_CONCURRENT_STREAMS, 100); (SETTING_INITIAL_WINDOW_SIZE, 1048576)]).
  out (OutWindowUpdate 0 983041).
  out (OutHeaders STREAM_CS).
  out (OutHeaders STREAM_SC).
  encode. out (OutData STREAM_CS (init_bytes 0x1)).
  encode. out (OutData STREAM_CS (init_bytes 0x201)).
  encode. out (OutData STREAM_SC (init_bytes 0x400001)).
  etrans; [eapply sbind_ok; apply io_flush; eassumption|].
  unfold set_sock. cbn [sock recv_buf next_msg_id]. rewrite !append_tx_app.
  fold handshake_bytes. fold c. etrans; [apply Haw|].
  unfold set_sock. cbn [c sock recv_buf next_msg_id].
  change (set_rx r1 (append_tx handshake_bytes tcp)) with
    (append_tx handshake_bytes (set_rx r1 tcp)). by rewrite append_tx_app.
Qed.
End requests.

(** ** Concrete inputs *)

(** A message split over two DATA frames with a PING in between. *)
Definition sample_msg : Message := with_body 1 (VString "hi").
Definition sample_out : list byte :=
  match encode_message (H:=debug_profile) (E:=Error) sample_msg with Ok l => l | _ => [] end.
Definition sample_frames : list raw :=
  [Raw TYPE_DATA 0 1 (take 10 sample_out);
   Raw TYPE_PING 0 0 (replicate 8 x07)].
Definition sample_last : raw := Raw TYPE_DATA 0 1 (drop 10 sample_out ++ [x2a]).
Definition sample_conn : RemoteXpcConn :=
  MkConn (idle [RData (concat (raw_bytes <$> (sample_frames ++ [sample_last])))]) [] 1.

Lemma sample_benign : Forall benign (sample_frames ++ [sample_last]).
Proof.
  repeat constructor; try (eexists; split; [reflexivity|done]); try done;
    vm_compute; reflexivity.
Qed.

Lemma receive_reassembles_witness :
  ∃ r1, receive (H:=debug_profile) sample_conn =
      (Ok sample_msg,
       MkConn (append_tx (concat (raw_reply <$> (sample_frames ++ [sample_last])))
                 (set_rx r1 (sock sample_conn))) [x2a] 1) ∧
    delivers r1 [] [].
Proof.
  apply (receive_reassembles (H:=debug_profile) sample_conn sample_msg sample_out sample_frames
    sample_last [x2a] [] []).
  - apply (bool_decide_unpack _); vm_compute; exact I.
  - vm_compute; reflexivity.
  - reflexivity.
  - exact sample_benign.
  - vm_compute; reflexivity.
  - vm_compute; reflexivity.
  - rewrite app_nil_r. apply delivers_one. vm_compute; discriminate.
Defined.

Lemma request_returns_reply_witness :
  let c := MkConn (idle [RData (concat (raw_bytes <$> (sample_frames ++ [sample_last])))]) [] 1 in
  let out := match encode_message (H:=debug_profile) (E:=Error) (with_body 1 Null) with
             | Ok l => l | _ => [] end in
  request (H:=debug_profile) Null c =
    (Ok (VString "hi"), (receive (H:=debug_profile) (after_send out c)).2).
Proof.
  intros c out.
  apply (request_returns_reply (H:=debug_profile) Null c out [] (after_send out c) sample_msg).
  - reflexivity.
  - unfold in_u; simpl; lia.
  - simpl; lia.
  - vm_compute; reflexivity.
  - vm_compute; reflexivity.
  - constructor.
  - vm_compute; reflexivity.
  - constructor.
  - vm_compute; reflexivity.
Defined.

Lemma handshake_exchange_witness :
  let settings := Raw TYPE_SETTINGS 0 0 [] in
  ∃ r1, connect (H:=release_profile)
      (idle [RData (concat (raw_bytes <$> [Raw TYPE_HEADERS 4 1 []]) ++ raw_bytes settings ++ [])]) =
      (Ok tt, MkConn (append_tx (handshake_bytes ++ raw_reply settings) (set_rx r1
        (idle [RData (concat (raw_bytes <$> [Raw TYPE_HEADERS 4 1 []]) ++ raw_bytes settings ++ [])])))
        [] 1) ∧
    delivers r1 [] [].
Proof.
  apply (handshake_exchange (H:=release_profile) [Raw TYPE_HEADERS 4 1 []] 0 []).
  - reflexivity.
  - repeat constructor; try done. eexists; split; [reflexivity|done].
  - repeat constructor.
  - done.
  - apply delivers_one. vm_compute; discriminate.
Defined.
