(* ===== verification/Rsd.v ===== *)
(** * Remote service discovery ([src/rsd/mod.rs])

    The handshake message of the device, its parser, and the client's start.
    A [HashMap] is the list of its entries in iteration order; the theorems
    about services hold for every order. *)

From S2P Require Import Prelude RustStd Io Xpc H2 RemoteXpc.

Definition RSD_PORT : Z := 58783.

Inductive Error : Type :=
  | Xpc (e : H2.Error)
  | Io (e : io_error)
  | Protocol (s : string).

(** [Display] *)
Definition Error_fmt (e : Error) : message :=
  match e with
  | Xpc e => Msg "remotexpc: {0}" [FDisplay (H2.Error_fmt e)]
  | Io e => Msg "I/O: {0}" [FStr (what e)]
  | Protocol s => Msg "unexpected RSD response: {0}" [FStr s]
  end.

Abbreviation vmap := (list (string * Value)).

Record ServiceEntry : Type := MkServiceEntry {
  port : Z;
  uses_remote_xpc : bool;
  properties : vmap
}.

Record PeerInfo : Type := MkPeerInfo {
  udid : string;
  product_type : string;
  os_version : string;
  build_version : string
}.

Record RsdClient : Type := MkRsdClient {
  conn : RemoteXpcConn;
  peer_info : PeerInfo;
  services : list (string * ServiceEntry)
}.

(** ** Parsing the handshake *)

Definition str_or (d : vmap) (key : string) : string :=
  default ""%string (al_lookup key d ≫= as_str).

Definition parse_service_entry (val : Value) : option ServiceEntry :=
  dict ← as_dict val;
  port ← (v ← al_lookup "Port"%string dict;
          match v with
          | VString s => parse_uint 16 s
          | other => wrap 16 <$> as_u64 other
          end);
  let uses_remote_xpc :=
    default false
      (v ← al_lookup "Properties"%string dict;
       d ← as_dict v;
       v ← al_lookup "UsesRemoteXPC"%string d;
       as_bool v) in
  let properties := default [] (al_lookup "Properties"%string dict ≫= as_dict) in
  Some (MkServiceEntry port uses_remote_xpc properties).

(** The [for (name, entry_val) in svc_map] loop. *)
Fixpoint parse_services (svc_map : vmap) (services : list (string * ServiceEntry)) :
    list (string * ServiceEntry) :=
  match svc_map with
  | [] => services
  | (name, entry_val) :: svc_map =>
      parse_services svc_map
        match parse_service_entry entry_val with
        | Some entry => al_insert name entry services
        | None => services
        end
  end.

Definition parse_handshake (body : Value) :
    outcome Error (PeerInfo * list (string * ServiceEntry)) :=
  let? dict := ok_or (as_dict body) (Protocol "Handshake body not a dict") in
  let? props := ok_or (al_lookup "Properties"%string dict ≫= as_dict)
                  (Protocol "no Properties in Handshake") in
  let peer_info := MkPeerInfo (str_or props "UniqueDeviceID") (str_or props "ProductType")
                     (str_or props "OSVersion") (str_or props "BuildVersion") in
  let services :=
    match al_lookup "Services"%string dict ≫= as_dict with
    | Some svc_map => parse_services svc_map []
    | None => []
    end in
  Ok (peer_info, services).

(** ** The client *)

Section client.
Context `{BuildProfile}.

(** The loop of [from_conn]: every message received takes bytes. *)
Fixpoint await_handshake (fuel : nat) :
    ST RemoteXpcConn Error (PeerInfo * list (string * ServiceEntry)) :=
  let! msg := smap_err Xpc receive in
  let next := match fuel with O => lift OutOfFuel | S fuel => await_handshake fuel end in
  match body msg with
  | None => next
  | Some b =>
      match parse_handshake b with
      | Ok result => sret result
      | Err _ => next
      | Panic => lift Panic
      | OutOfFuel => lift OutOfFuel
      end
  end.

Definition from_conn (c : RemoteXpcConn) : outcome Error RsdClient :=
  match await_handshake (conn_size c) c with
  | (Ok (peer, services), c) => Ok (MkRsdClient c peer services)
  | (Err e, _) => Err e
  | (Panic, _) => Panic
  | (OutOfFuel, _) => OutOfFuel
  end.

Definition rsd_connect (tcp : stream) : outcome Error RsdClient :=
  match connect tcp with
  | (Ok _, c) => from_conn c
  | (Err e, _) => Err (Xpc e)
  | (Panic, _) => Panic
  | (OutOfFuel, _) => OutOfFuel
  end.
End client.

Definition service (c : RsdClient) (name : string) : option ServiceEntry :=
  al_lookup name (services c).

(** ** The check-in of a shim service *)

Definition quote : list byte := [x22].
Definition newline : list byte := [x0a].
Definition quoted (s : string) : list byte := quote ++ bytes_of s ++ quote.

Definition checkin_plist : list byte :=
  bytes_of "<?xml version=" ++ quoted "1.0" ++ bytes_of " encoding=" ++ quoted "UTF-8"
  ++ bytes_of "?>" ++ newline
  ++ bytes_of "<!DOCTYPE plist PUBLIC " ++ quoted "-//Apple//DTD PLIST 1.0//EN"
  ++ bytes_of " " ++ quoted "http://www.apple.com/DTDs/PropertyList-1.0.dtd"
  ++ bytes_of ">" ++ newline
  ++ bytes_of "<plist version=" ++ quoted "1.0" ++ bytes_of "><dict>"
  ++ bytes_of "<key>Label</key><string>devicelink</string>"
  ++ bytes_of "<key>ProtocolVersion</key><string>2</string>"
  ++ bytes_of "<key>Request</key><string>RSDCheckin</string>"
  ++ bytes_of "</dict></plist>" ++ newline.

Definition rsd_checkin : ST stream Error unit :=
  let len := wrap 32 (lenZ checkin_plist) in
  smap_err Io (write_all (be_bytes 4 len)) ;;;
  smap_err Io (write_all checkin_plist) ;;;
  smap_err Io flush.

(** ** One direction of the relay

    The state is the pair of the stream read and the stream written, [size] the
    length of the buffer.  With [retry] an interrupted read is tried again, as
    [std::io::copy] does; the loop of this file gives up. *)
Fixpoint copy_half_fuel (retry : bool) (size : Z) (fuel : nat) (st : stream * stream) : option (stream * stream) :=
  match fuel with
  | O => None
  | S fuel =>
      let '(src, dst) := st in
      match read size src with
      | (Ok [], src) => Some (src, dst)
      | (Err e, src) =>
          if retry && bool_decide (kind e = Interrupted) then copy_half_fuel retry size fuel (src, dst)
          else Some (src, dst)
      | (Ok buf, src) =>
          match write_all buf dst with
          | (Ok _, dst) => copy_half_fuel retry size fuel (src, dst)
          | (_, dst) => Some (src, dst)
          end
      | (_, src) => Some (src, dst)
      end
  end.

Definition copy_half (src dst : stream) : option (stream * stream) :=
  copy_half_fuel false 16384 (S (rx_size (rx src))) (src, dst).

(** ** Lemmas *)

(** Looking a service up after the loop. *)
Lemma parse_services_lookup svc_map acc name :
  al_wf svc_map →
  al_lookup name (parse_services svc_map acc) =
    match al_lookup name svc_map ≫= parse_service_entry with
    | Some entry => Some entry
    | None => al_lookup name acc
    end.
Proof.
  unfold al_wf. revert acc. induction svc_map as [|[k v] m IH]; intros acc Hwf; [done|].
  apply NoDup_cons in Hwf as [Hk Hwf]. cbn [parse_services al_lookup fst] in *.
  rewrite IH by done. case_decide as Hn.
  - subst k. apply al_lookup_None in Hk. rewrite Hk. cbn [mbind option_bind].
    change (Some v ≫= parse_service_entry) with (parse_service_entry v).
    destruct (parse_service_entry v) as [e|]; [apply al_lookup_insert_eq|done].
  - destruct (al_lookup name m ≫= parse_service_entry); [done|].
    destruct (parse_service_entry v); [|done]. by apply al_lookup_insert_ne.
Qed.

(** The services of a handshake are exactly the entries of its catalogue
    that parse, under their names: a malformed entry hides no other. *)
Theorem handshake_services dict props svc name :
  al_lookup "Properties"%string dict = Some (Dictionary props) →
  al_lookup "Services"%string dict = Some (Dictionary svc) → al_wf svc →
  ∃ peer services, parse_handshake (Dictionary dict) = Ok (peer, services) ∧
    al_lookup name services = al_lookup name svc ≫= parse_service_entry ∧
    udid peer = str_or props "UniqueDeviceID" ∧
    product_type peer = str_or props "ProductType" ∧
    os_version peer = str_or props "OSVersion" ∧
    build_version peer = str_or props "BuildVersion".
Proof.
  intros Hp Hs Hwf. unfold parse_handshake. simpl. rewrite Hp, Hs. simpl.
  eexists _, _. split; [done|]. rewrite parse_services_lookup by done. simpl.
  split; [|done]. by destruct (al_lookup name svc ≫= parse_service_entry).
Qed.

(** The order in which a [HashMap] hands out its entries does not matter. *)
Lemma parse_services_order svc1 svc2 :
  al_wf svc1 → svc1 ≡ₚ svc2 → al_equiv (parse_services svc1 []) (parse_services svc2 []).
Proof.
  intros Hwf Hp name.
  assert (al_wf svc2) as Hwf2 by (unfold al_wf, al_keys in *; by rewrite <-Hp).
  rewrite !parse_services_lookup by done. by rewrite (al_permutation_equiv svc1 svc2 Hwf Hp name).
Qed.

(** An integer port is taken modulo [2^16], where a port given as a string
    is refused unless it is a [u16]. *)
Theorem integer_port_wraps dict n s :
  (al_lookup "Port"%string dict = Some (Uint64 n) →
   port <$> parse_service_entry (Dictionary dict) = Some (n mod 2 ^ 16)) ∧
  (al_lookup "Port"%string dict = Some (VString s) →
   port <$> parse_service_entry (Dictionary dict) = parse_uint 16 s).
Proof.
  split; intros Hp; unfold parse_service_entry; simpl; rewrite Hp; simpl; [done|].
  by destruct (parse_uint 16 s).
Qed.

Section client_spec.
Context `{BuildProfile}.

(** A message that [from_conn] passes over. *)
Definition no_handshake (m : Message) : bool :=
  match body m with
  | None => true
  | Some b => match parse_handshake b with Err _ => true | _ => false end
  end.

(** The client takes the first message that is a handshake, whatever
    messages precede it, and keeps the connection as it is after that
    message. *)
Theorem from_conn_first_handshake c ms c1 m c2 b peer svc :
  receives c ms c1 → Forall (λ m, no_handshake m = true) ms →
  receive c1 = (Ok m, c2) → body m = Some b → parse_handshake b = Ok (peer, svc) →
  from_conn c = Ok (MkRsdClient c2 peer svc).
Proof.
  intros Hrs Hno Hr Hb Hp.
  assert (∀ fuel, (length ms ≤ fuel)%nat → await_handshake fuel c = (Ok (peer, svc), c2)) as Hloop.
  { clear -Hrs Hno Hr Hb Hp. induction Hrs as [c|c m0 c0 ms c' Hr0 _ IH]; intros fuel Hf.
    - destruct fuel; cbn [await_handshake]; unfold sbind, smap_err; rewrite Hr; simpl;
        by rewrite Hb, Hp.
    - apply Forall_cons in Hno as [Hno0 Hno]. destruct fuel as [|fuel]; [simpl in Hf; lia|].
      cbn [await_handshake]. unfold sbind, smap_err. rewrite Hr0. simpl.
      unfold no_handshake in Hno0.
      specialize (IH Hno Hr fuel ltac:(simpl in Hf; lia)).
      destruct (body m0) as [b0|]; [|done]. by destruct (parse_handshake b0). }
  unfold from_conn. rewrite Hloop; [done|]. apply receives_size in Hrs. lia.
Qed.

Lemma await_handshake_terminates fuel c :
  (conn_size c ≤ fuel)%nat → (await_handshake fuel c).1 ≠ OutOfFuel.
Proof.
  revert c. induction fuel as [|fuel IH]; intros c Hc; cbn [await_handshake];
    unfold sbind, smap_err; destruct (receive_total c) as [H1 H2];
    destruct (receive c) as [[m| | |] c'] eqn:Hr; try done; simpl;
    specialize (H2 _ _ eq_refl); try lia.
  destruct (body m) as [b|]; [|apply IH; lia].
  destruct (parse_handshake b) eqn:Hp; try done; [apply IH; lia|].
  unfold parse_handshake in Hp. destruct (as_dict b) as [d|]; [|done]. simpl in Hp.
  by destruct (al_lookup "Properties"%string d ≫= as_dict).
Qed.
End client_spec.

(** The copy ends on every stream. *)
Lemma copy_half_fuel_ends retry size src dst :
  0 < size → copy_half_fuel retry size (S (rx_size (rx src))) (src, dst) ≠ None.
Proof.
  intros Hsize.
  assert (∀ fuel src dst, (rx_size (rx src) < fuel)%nat →
    copy_half_fuel retry size fuel (src, dst) ≠ None) as Hgen; [|apply Hgen; lia].
  clear src dst. induction fuel as [|fuel IH]; intros src dst Hf; [lia|]. cbn [copy_half_fuel].
  destruct (read size src) as [[[|b c]|e| |] src'] eqn:Hr; try done.
  2:{ apply read_err_size in Hr. case_match; [apply IH; lia|done]. }
  apply read_size in Hr as [_ Hsz]; [|lia]. specialize (Hsz ltac:(done)).
  destruct (write_all (b :: c) dst) as [[] dst']; try done. apply IH. lia.
Qed.

Lemma copy_half_fuel_relays retry size src dst l r :
  0 < size → healthy dst → delivers (rx src) l r →
  r = [] ∨ (∃ e r', r = RFail e :: r' ∧ (retry = true → kind e ≠ Interrupted)) →
  ∃ src', copy_half_fuel retry size (S (rx_size (rx src))) (src, dst) = Some (src', append_tx l dst) ∧
    (wq src' = wq src ∧ tx src' = tx src).
Proof.
  intros Hsize Hdst Hd Hr.
  assert (∀ fuel src dst l, healthy dst → delivers (rx src) l r → (rx_size (rx src) < fuel)%nat →
    ∃ src', copy_half_fuel retry size fuel (src, dst) = Some (src', append_tx l dst) ∧
      (wq src' = wq src ∧ tx src' = tx src)) as Hgen;
    [|by apply Hgen; [..|lia]].
  clear -Hr Hsize. induction fuel as [|fuel IH]; intros src dst l Hdst Hd Hf; [lia|].
  cbn [copy_half_fuel].
  apply delivers_inv in Hd as [[-> Heq]|(c & r0 & l0 & Hc & Hd0 & Heq & ->)].
  - rewrite append_tx_nil. unfold read. rewrite Heq.
    destruct Hr as [->|(e & r' & -> & He)]; [by eexists|].
    assert (retry && bool_decide (kind e = Interrupted) = false) as ->; [|by eexists].
    destruct retry; [|done]. by apply bool_decide_false, He.
  - destruct (read_delivers size src c r0 l0 r) as (c1 & r1 & l1 & Hrd & Hc1 & _ & Hcat & Hd1 & _);
      [done..|]. rewrite Hrd. destruct c1 as [|b c1]; [done|].
    rewrite write_all_healthy by done.
    apply read_size in Hrd as [_ Hsz]; [|lia]. specialize (Hsz Hc1).
    destruct (IH (set_rx r1 src) (append_tx (b :: c1) dst) l1) as (src' & -> & Hs'); [done..|lia|].
    exists src'. by rewrite append_tx_app, Hcat.
Qed.

(** The relay passes on, in order, every byte up to the end of the source
    or a failed read, and ends. *)
Theorem copy_half_relays src dst l r :
  healthy dst → delivers (rx src) l r → r = [] ∨ (∃ e r', r = RFail e :: r') →
  ∃ src', copy_half src dst = Some (src', append_tx l dst).
Proof.
  intros Hdst Hd Hr. destruct (copy_half_fuel_relays false 16384 src dst l r) as (src' & ? & _);
    [lia|done..| |].
  { destruct Hr as [->|(e & r' & ->)]; [by left|right]. by exists e, r'. }
  by exists src'.
Qed.

(** ** Concrete inputs *)

Definition sample_props : vmap := [("UniqueDeviceID"%string, VString "0000-1111")].
Definition sample_services : vmap :=
  [("com.apple.a"%string, Dictionary [("Port"%string, VString "58783")]);
   ("com.apple.b"%string, Null);
   ("com.apple.c"%string, Dictionary [("Port"%string, Uint64 65541)])].
Definition sample_handshake : Value :=
  Dictionary [("Properties"%string, Dictionary sample_props);
              ("Services"%string, Dictionary sample_services)].

Lemma handshake_services_witness :
  ∃ peer services, parse_handshake sample_handshake = Ok (peer, services) ∧
    al_lookup "com.apple.a"%string services =
      al_lookup "com.apple.a"%string sample_services ≫= parse_service_entry ∧
    udid peer = str_or sample_props "UniqueDeviceID" ∧
    product_type peer = str_or sample_props "ProductType" ∧
    os_version peer = str_or sample_props "OSVersion" ∧
    build_version peer = str_or sample_props "BuildVersion".
Proof.
  apply (handshake_services _ sample_props sample_services "com.apple.a");
    [reflexivity|reflexivity|].
  apply (bool_decide_unpack _); vm_compute; exact I.
Defined.

Lemma integer_port_wraps_witness :
  port <$> parse_service_entry (Dictionary [("Port"%string, Uint64 65541)]) = Some (65541 mod 2 ^ 16).
Proof.
  destruct (integer_port_wraps [("Port"%string, Uint64 65541)] 65541 "") as [Hint _].
  apply Hint. reflexivity.
Defined.

Definition handshake_conn : RemoteXpcConn :=
  MkConn (idle []) match encode_message (H:=debug_profile) (E:=Error) (init 1),
      encode_message (H:=debug_profile) (E:=Error) (with_body 2 sample_handshake) with
    | Ok a, Ok b => a ++ b | _, _ => [] end 1.

Lemma from_conn_first_handshake_witness :
  from_conn (H:=debug_profile) handshake_conn =
    Ok (MkRsdClient (MkConn (idle []) [] 1)
          (MkPeerInfo "0000-1111" "" "" "")
          [("com.apple.a"%string, MkServiceEntry 58783 false []);
           ("com.apple.c"%string, MkServiceEntry 5 false [])]).
Proof.
  eapply (from_conn_first_handshake (H:=debug_profile) handshake_conn [init 1]
    (set_recv_buf (drop 24 (recv_buf handshake_conn)) handshake_conn)
    (with_body 2 sample_handshake) _ sample_handshake).
  - eapply receives_cons; [vm_compute; reflexivity|]. vm_compute. constructor.
  - repeat constructor.
  - vm_compute; reflexivity.
  - reflexivity.
  - vm_compute; reflexivity.
Defined.

Lemma copy_half_relays_witness :
  ∃ src', copy_half (idle [RData [x01; x02]; RData [x03]]) (idle []) =
    Some (src', append_tx [x01; x02; x03] (idle [])).
Proof.
  apply (copy_half_relays _ _ [x01; x02; x03] []); [reflexivity| |left; reflexivity].
  apply (delivers_pieces [[x01; x02]; [x03]] []). repeat constructor; discriminate.
Defined.
