(* ===== verification/Tlv8.v ===== *)
(** * TLV8 ([src/tunnel/remote_pairing/tlv8.rs])

    The type-length-value encoding of the pairing messages.  The decoder's
    [HashMap<u8, Vec<u8>>] is an association list. *)

From stdpp Require Import countable.
From S2P Require Import Prelude.

Definition METHOD : byte := x00.
Definition IDENTIFIER : byte := x01.
Definition SALT : byte := x02.
Definition PUBLIC_KEY : byte := x03.
Definition PROOF : byte := x04.
Definition ENCRYPTED_DATA : byte := x05.
Definition STATE : byte := x06.
Definition ERROR : byte := x07.
Definition SIGNATURE : byte := x0a.
Definition INFO : byte := x11.

Abbreviation tlv_map := (list (byte * list byte)).

(** One fragment: type, length, value. *)
Definition fragment (typ : byte) (chunk : list byte) : list byte :=
  typ :: byte_of (lenZ chunk) :: chunk.

Definition encode_entry (typ : byte) (val : list byte) : list byte :=
  match val with
  | [] => [typ; x00]
  | _ => concat (fragment typ <$> chunks 255 val)
  end.

Definition encode (entries : list (byte * list byte)) : list byte :=
  concat ((λ e, encode_entry e.1 e.2) <$> entries).

(** [map.entry(typ).or_default().extend_from_slice(v)] *)
Definition extend (typ : byte) (v : list byte) (map : tlv_map) : tlv_map :=
  al_insert typ (default [] (al_lookup typ map) ++ v) map.

(** The [while i + 1 < data.len()] loop; every iteration takes two bytes or
    more. *)
Fixpoint decode_loop (fuel : nat) (data : list byte) (i : Z) (map : tlv_map) :
    outcome Empty_set tlv_map :=
  if i + 1 <? lenZ data then
    match fuel with
    | O => OutOfFuel
    | S fuel =>
        let? typ := index data i in
        let? len := index data (i + 1) in
        let i := i + 2 in
        let stop := Z.min (i + u8 len) (lenZ data) in
        let? v := slice data i stop in
        decode_loop fuel data stop (extend typ v map)
    end
  else Ok map.

Definition decode (data : list byte) : outcome Empty_set tlv_map :=
  decode_loop (length data) data 0 [].

Definition get_u8 (map : tlv_map) (key : byte) : option byte :=
  al_lookup key map ≫= head.

(** ** Decoding returns *)

Lemma get_at_lt {A} (l : list A) i : 0 ≤ i < lenZ l → ∃ x, get_at l i = Some x.
Proof.
  intros Hi. unfold get_at. rewrite bool_decide_true by done.
  apply lookup_lt_is_Some_2. unfold lenZ in Hi. lia.
Qed.

Lemma get_slice_le {A} (l : list A) a b :
  0 ≤ a → a ≤ b → b ≤ lenZ l → ∃ v, get_slice l a b = Some v.
Proof. intros. unfold get_slice. rewrite bool_decide_true by lia. eauto. Qed.

(** Decoding returns a map for every input: no index is ever out of range,
    whatever the length bytes say. *)
Theorem decode_total data : ∃ map, decode data = Ok map.
Proof.
  assert (∀ fuel i map, 0 ≤ i → lenZ data - i ≤ Z.of_nat fuel →
    ∃ map', decode_loop fuel data i map = Ok map') as Hgen.
  2:{ apply Hgen; [lia|]. unfold lenZ. lia. }
  induction fuel as [|fuel IH]; intros i map Hi Hf; cbn [decode_loop].
  - rewrite (proj2 (Z.ltb_ge _ _)) by lia. eauto.
  - case_match; [zhyps|eauto]. unfold index, slice.
    destruct (get_at_lt data i ltac:(lia)) as [typ ->].
    destruct (get_at_lt data (i + 1) ltac:(lia)) as [len ->]. simpl.
    pose proof (u8_range len).
    destruct (get_slice_le data (i + 2) (Z.min (i + 2 + u8 len) (lenZ data))) as [v ->]; [lia..|].
    simpl. apply IH; lia.
Qed.

(** ** Round trip *)

(** The values of a type, in order. *)
Definition values_of (typ : byte) (entries : list (byte * list byte)) : list byte :=
  concat ((filter (λ e, e.1 = typ) entries).*2).

Definition extend_all (entries : list (byte * list byte)) (map : tlv_map) : tlv_map :=
  foldl (λ map e, extend e.1 e.2 map) map entries.

Lemma al_lookup_extend t typ v map :
  al_lookup t (extend typ v map) =
    if decide (typ = t) then Some (default [] (al_lookup typ map) ++ v) else al_lookup t map.
Proof. apply al_lookup_insert. Qed.

Lemma extend_extend typ v1 v2 map : extend typ v2 (extend typ v1 map) = extend typ (v1 ++ v2) map.
Proof.
  unfold extend. rewrite al_lookup_insert_eq. simpl. rewrite <-(assoc_L (++)).
  generalize (default [] (al_lookup typ map) ++ v1). intros w1.
  generalize (default [] (al_lookup typ map) ++ v1 ++ v2). intros w2.
  induction map as [|[k v] map IH]; simpl; [by rewrite decide_True by done|].
  case_decide; simpl; [by rewrite decide_True|]. rewrite decide_False by done. by rewrite IH.
Qed.

(** One iteration of the loop on a fragment. *)
Lemma decode_loop_fragment fuel data i map typ chunk :
  has_at data i (fragment typ chunk) → lenZ chunk < 256 →
  decode_loop (S fuel) data i map =
    decode_loop fuel data (i + 2 + lenZ chunk) (extend typ chunk map).
Proof.
  intros Hat Hlen. pose proof (has_at_le _ _ _ Hat) as [Hi Hle].
  unfold fragment in *. pose proof (lenZ_nonneg chunk).
  rewrite !lenZ_cons in Hle. cbn [decode_loop].
  rewrite (proj2 (Z.ltb_lt _ _)) by lia.
  apply has_at_cons in Hat as [Ht Hat]. apply has_at_cons in Hat as [Hl Hat].
  unfold index, slice. rewrite Ht, Hl. cbn [or_panic obind].
  rewrite u8_byte_of, Z.mod_small by lia.
  rewrite Z.min_l by lia. replace (i + 1 + 1) with (i + 2) in Hat by lia.
  by rewrite (has_at_slice _ _ _ _ Hat).
Qed.

Lemma decode_loop_fragments fuel data i map typ cs :
  Forall (λ c, lenZ c < 256) cs → has_at data i (concat (fragment typ <$> cs)) →
  cs ≠ [] →
  decode_loop (length cs + fuel) data i map =
    decode_loop fuel data (i + lenZ (concat (fragment typ <$> cs))) (extend typ (concat cs) map).
Proof.
  intros Hcs. revert i map. induction Hcs as [|c cs Hc Hcs IH]; intros i map Hat Hne; [done|].
  change (concat (fragment typ <$> c :: cs))
    with (fragment typ c ++ concat (fragment typ <$> cs)) in *.
  apply has_at_app in Hat as [Hat1 Hat2].
  change (length (c :: cs) + fuel)%nat with (S (length cs + fuel)).
  rewrite (decode_loop_fragment _ _ _ _ typ c) by done.
  assert (lenZ (fragment typ c) = 2 + lenZ c) as Hl by (unfold fragment; len).
  rewrite lenZ_app, Hl in *. destruct (decide (cs = [])) as [->|Hcs0].
  - simpl. rewrite app_nil_r. f_equal. change (lenZ (@nil byte)) with 0. lia.
  - replace (i + 2 + lenZ c) with (i + (2 + lenZ c)) by lia.
    rewrite IH by done. rewrite extend_extend. f_equal. lia.
Qed.

(** The number of iterations an entry takes does not depend on the state. *)
Lemma decode_loop_entry data i typ val :
  has_at data i (encode_entry typ val) →
  ∃ n, (n ≤ length (encode_entry typ val))%nat ∧ ∀ fuel map,
    decode_loop (n + fuel) data i map =
      decode_loop fuel data (i + lenZ (encode_entry typ val)) (extend typ val map).
Proof.
  intros Hat. destruct val as [|b val].
  - exists 1%nat. split; [simpl; lia|]. intros fuel map. cbn [encode_entry] in *.
    change (1 + fuel)%nat with (S fuel).
    rewrite (decode_loop_fragment _ _ _ _ typ []) by done. f_equal.
    change (lenZ [typ; x00]) with 2. change (lenZ (@nil byte)) with 0. lia.
  - cbn [encode_entry] in *. set (l := b :: val) in *.
    exists (length (chunks 255 l)). split.
    + generalize (chunks 255 l). intros cs. induction cs as [|c cs IH]; [done|].
      change (concat (fragment typ <$> c :: cs))
        with (fragment typ c ++ concat (fragment typ <$> cs)).
      rewrite length_app. simpl. lia.
    + intros fuel map. rewrite (decode_loop_fragments _ _ _ _ typ (chunks 255 l)).
      * by rewrite concat_chunks by lia.
      * apply Forall_forall. intros c Hc%chunks_spec; [|lia]. unfold lenZ. lia.
      * done.
      * intros H%(f_equal (@concat byte)). by rewrite concat_chunks in H by lia.
Qed.

Lemma decode_loop_entries data i entries :
  has_at data i (encode entries) →
  ∃ n, (n ≤ length (encode entries))%nat ∧ ∀ fuel map,
    decode_loop (n + fuel) data i map =
      decode_loop fuel data (i + lenZ (encode entries)) (extend_all entries map).
Proof.
  revert i. induction entries as [|[typ val] es IH]; intros i Hat.
  - exists 0%nat. split; [done|]. intros fuel map. simpl. f_equal.
    change (lenZ (encode [])) with 0. lia.
  - change (encode ((typ, val) :: es)) with (encode_entry typ val ++ encode es) in *.
    apply has_at_app in Hat as [Hat1 Hat2].
    destruct (IH _ Hat2) as (n2 & Hn2 & H2).
    destruct (decode_loop_entry data i typ val Hat1) as (n1 & Hn1 & H1).
    exists (n1 + n2)%nat. rewrite length_app, lenZ_app. split; [lia|]. intros fuel map.
    rewrite <-Nat.add_assoc, H1, H2. f_equal. lia.
Qed.

Lemma values_of_none t entries : t ∉ entries.*1 → values_of t entries = [].
Proof.
  unfold values_of. induction entries as [|[typ val] es IH]; [done|].
  change (((typ, val) :: es).*1) with (typ :: es.*1). rewrite not_elem_of_cons.
  intros [Hne Hin]. rewrite filter_cons_False by (simpl; congruence). by apply IH.
Qed.

Lemma extend_all_lookup t entries map :
  al_lookup t (extend_all entries map) =
    if decide (t ∈ entries.*1) then Some (default [] (al_lookup t map) ++ values_of t entries)
    else al_lookup t map.
Proof.
  revert map. induction entries as [|[typ val] es IH]; intros map.
  - rewrite decide_False by (apply not_elem_of_nil). done.
  - change (extend_all ((typ, val) :: es) map) with (extend_all es (extend typ val map)).
    rewrite IH, al_lookup_extend. unfold values_of. rewrite filter_cons.
    change (((typ, val) :: es).*1) with (typ :: es.*1). cbn [fst].
    destruct (decide (typ = t)) as [->|Hne].
    + rewrite (decide_True (P:=t ∈ t :: es.*1)) by (by left).
      rewrite fmap_cons. cbn [concat snd default]. rewrite (assoc_L (++)).
      case_decide as Hin; [done|].
      fold (values_of t es). by rewrite values_of_none, app_nil_r.
    + destruct (decide (t ∈ es.*1)) as [Hin|Hin].
      * rewrite decide_True by (by right). done.
      * rewrite decide_False; [done|]. by rewrite not_elem_of_cons.
Qed.

Lemma decode_entries entries : decode (encode entries) = Ok (extend_all entries []).
Proof.
  unfold decode. assert (has_at (encode entries) 0 (encode entries)) as Hat.
  { exists [], []. by rewrite app_nil_r. }
  destruct (decode_loop_entries _ _ _ Hat) as (n & Hn & Hd).
  replace (length (encode entries)) with (n + (length (encode entries) - n))%nat by lia.
  rewrite Hd, Z.add_0_l. destruct (length (encode entries) - n)%nat; cbn [decode_loop];
    by rewrite (proj2 (Z.ltb_ge _ _)) by lia.
Qed.

(** Decoding an encoded list of entries gives, for every type that occurs
    in it, the concatenation of its values in order, values of any length being
    reassembled from their fragments, and nothing for the other types. *)
Theorem decode_encode entries t :
  ∃ map, decode (encode entries) = Ok map ∧
    al_lookup t map = if decide (t ∈ entries.*1) then Some (values_of t entries) else None.
Proof.
  exists (extend_all entries []). split; [apply decode_entries|]. by rewrite extend_all_lookup.
Qed.

Lemma decode_encode_witness :
  al_lookup PUBLIC_KEY match decode (encode [(STATE, [x01]); (PUBLIC_KEY, replicate 300 x05)]) with
                       | Ok map => map | _ => [] end
  = Some (replicate 300 x05).
Proof.
  destruct (decode_encode [(STATE, [x01]); (PUBLIC_KEY, replicate 300 x05)] PUBLIC_KEY)
    as (map & -> & Hl). etransitivity; [exact Hl|]. vm_compute. reflexivity.
Defined.
