(* ===== verification/Der.v ===== *)
(** * DER, PEM and dates ([src/lockdown/pairing.rs], the pure helpers)

    The hand-written DER encoder ([der_tag] and the functions over it), the
    DER reader ([peel_length], [peel_tag], [peel_tlv]), the calendar
    computation of a UTCTime, base64 and PEM, and the UUID of a host.  The
    references the theorems compare with are the decoders [oid_arcs],
    [base64_decode] and [pem_decode] and the calendar formula [days_of_ymd]. *)

From S2P Require Import Prelude RustStd.

(** ** Encoding *)

Definition der_tag (tag : byte) (content : list byte) : list byte :=
  let len := lenZ content in
  [tag]
  ++ (if len <? 0x80 then [byte_of len]
      else if len <? 0x100 then [x81; byte_of len]
      else [x82; byte_of (Z.shiftr len 8); byte_of len])
  ++ content.

Definition der_seq (items : list (list byte)) : list byte := der_tag x30 (concat items).

Definition der_ctx (n : Z) (content : list byte) : list byte :=
  der_tag (byte_of (Z.lor 0xa0 n)) content.

(** [v[0]] panics on an empty integer. *)
Definition der_int {E} (v : list byte) : outcome E (list byte) :=
  let? v0 := index v 0 in
  let body := if Z.land (u8 v0) 0x80 =? 0 then [] else [x00] in
  Ok (der_tag x02 (body ++ v)).

Definition der_bool (b : bool) : list byte := der_tag x01 [if b then xff else x00].

(** The loop over [buf]: [buf[i..]] is the list [out], and [i] counts down. *)
Fixpoint base128_loop {E} (i : nat) (a : Z) (out : list byte) : outcome E (list byte) :=
  if 0 <? a then
    match i with
    | O => Panic
    | S i =>
        base128_loop i (Z.shiftr a 7) (byte_of (Z.lor (Z.land a 0x7f) 0x80) :: out)
    end
  else Ok out.
Definition base128 {E} (arc : Z) : outcome E (list byte) :=
  base128_loop 4 (Z.shiftr arc 7) [byte_of (Z.land arc 0x7f)].

Fixpoint base128_all {E} (arcs : list Z) : outcome E (list byte) :=
  match arcs with
  | [] => Ok []
  | arc :: arcs =>
      let? b := base128 arc in
      let? body := base128_all arcs in
      Ok (b ++ body)
  end.

(** [u32] multiplication *)
Definition u32_mul `{BuildProfile} {E} (a b : Z) : outcome E Z :=
  if a * b <? 2 ^ 32 then Ok (a * b)
  else if overflow_checks then Panic else Ok ((a * b) mod 2 ^ 32).

Definition der_oid `{BuildProfile} {E} (arcs : list Z) : outcome E (list byte) :=
  let? a0 := index arcs 0 in
  let? a0 := u32_mul 40 a0 in
  let? a1 := index arcs 1 in
  let? first := u32_add a0 a1 in
  let? rest := slice arcs 2 (lenZ arcs) in
  let? body := base128_all rest in
  Ok (der_tag x06 (byte_of first :: body)).

(** ** Dates *)

Definition is_leap (y : Z) : bool :=
  (y mod 4 =? 0) && (negb (y mod 100 =? 0) || (y mod 400 =? 0)).

(** The year loop: one year per round. *)
Fixpoint year_loop {E} (fuel : nat) (y days : Z) : outcome E (Z * Z) :=
  let dy := if is_leap y then 366 else 365 in
  if days <? dy then Ok (y, days)
  else match fuel with
       | O => OutOfFuel
       | S fuel => year_loop fuel (y + 1) (days - dy)
       end.

Definition months (leap : bool) : list Z :=
  [31; if leap then 29 else 28; 31; 30; 31; 30; 31; 31; 30; 31; 30; 31].

Fixpoint month_loop (ms : list Z) (m days : Z) : Z * Z :=
  match ms with
  | [] => (m, days)
  | dm :: ms => if days <? dm then (m, days) else month_loop ms (m + 1) (days - dm)
  end.

(** A year has at least 365 days. *)
Definition days_to_ymd {E} (days : Z) : outcome E (Z * Z * Z) :=
  let? yd := year_loop (Z.to_nat (days / 365)) 1970 days in
  let '(y, days) := yd in
  let '(m, days) := month_loop (months (is_leap y)) 1 days in
  Ok (y, m, days + 1).

Definition der_utc_time {E} (unix : Z) : outcome E (list byte) :=
  let days := unix / 86400 in
  let rem := unix mod 86400 in
  let h := rem / 3600 in
  let m := (rem mod 3600) / 60 in
  let s := rem mod 60 in
  let? ymd := days_to_ymd days in
  let '(yr, mo, da) := ymd in
  let yr2 := yr mod 100 in
  Ok (der_tag x17
        (dec02 yr2 ++ dec02 mo ++ dec02 da ++ dec02 h ++ dec02 m ++ dec02 s ++ ["Z"%byte])).

Definition sha1_with_rsa_oid `{BuildProfile} {E} : outcome E (list byte) :=
  let? oid := der_oid [1; 2; 840; 113549; 1; 1; 5] in
  Ok (der_seq [oid; [x05; x00]]).

Definition sha1_oid `{BuildProfile} {E} : outcome E (list byte) :=
  let? oid := der_oid [1; 3; 14; 3; 2; 26] in
  Ok (der_seq [oid; [x05; x00]]).

(** ** Reading

    The functions return an [Option]: [None] is [Err tt]. *)

Definition len_step (len : Z) (b : byte) : Z := Z.lor (wrap 64 (Z.shiftl len 8)) (u8 b).

Definition peel_length `{BuildProfile} (buf : list byte) :
    outcome unit (list byte * list byte) :=
  let? first := ok_or (head buf) tt in
  let first := u8 first in
  let? len_start :=
    if first <? 0x80 then Ok (first, 1)
    else
      let n := Z.land first 0x7f in
      if lenZ buf <? 1 + n then Err tt
      else
        let? bs := slice buf 1 (1 + n) in
        Ok (foldl len_step 0 bs, 1 + n) in
  let '(len, start) := len_start in
  let? end_ := usize_add start len in
  if lenZ buf <? end_ then Err tt
  else
    let? content := slice buf start end_ in
    let? rest := slice buf end_ (lenZ buf) in
    Ok (content, rest).

Definition peel_tag `{BuildProfile} (buf : list byte) (expected : byte) :
    outcome unit (list byte * list byte) :=
  if negb (bool_decide (head buf = Some expected)) then Err tt
  else
    let? b := slice buf 1 (lenZ buf) in
    peel_length b.

Definition peel_tlv `{BuildProfile} (buf : list byte) : outcome unit (list byte * list byte) :=
  if bool_decide (buf = []) then Err tt
  else
    let? b := slice buf 1 (lenZ buf) in
    peel_length b.

(** The first component, which the code names [_], is the content. *)
Definition extract_spki_bits `{BuildProfile} (spki : list byte) : outcome unit (list byte) :=
  let? r1 := peel_tag spki x30 in
  let inner := r1.2 in
  let? r2 := peel_tlv inner in
  let rest := r2.2 in
  let? r3 := peel_tag rest x03 in
  let bs_content := r3.2 in
  slice bs_content 1 (lenZ bs_content).

(** ** base64 and PEM *)

Definition TABLE : list byte :=
  bytes_of "ABCDEFGHIJKLMNOPQRSTUVWXYZabcdefghijklmnopqrstuvwxyz0123456789+/".

(** [TABLE[(b >> k) & 63]]; the index is in range. *)
Definition sextet (b k : Z) : byte :=
  default x00 (TABLE !! Z.to_nat (Z.land (Z.shiftr b k) 63)).

(** The while loop, and the final match when fewer than three bytes are left. *)
Fixpoint base64_encode (input : list byte) : list byte :=
  match input with
  | b0 :: b1 :: b2 :: input =>
      let b := Z.lor (Z.lor (Z.shiftl (u8 b0) 16) (Z.shiftl (u8 b1) 8)) (u8 b2) in
      sextet b 18 :: sextet b 12 :: sextet b 6 :: sextet b 0 :: base64_encode input
  | [b0; b1] =>
      let b := Z.lor (Z.shiftl (u8 b0) 16) (Z.shiftl (u8 b1) 8) in
      [sextet b 18; sextet b 12; sextet b 6; "="%byte]
  | [b0] =>
      let b := Z.shiftl (u8 b0) 16 in
      [sextet b 18; sextet b 12; "="%byte; "="%byte]
  | [] => []
  end.

Fixpoint pem_lines {E} (cs : list (list byte)) : outcome E (list byte) :=
  match cs with
  | [] => Ok []
  | c :: cs =>
      let? s := or_panic (from_utf8 c) in
      let? out := pem_lines cs in
      Ok (bytes_of s ++ [x0a] ++ out)
  end.

Definition pem_encode {E} (label : string) (der : list byte) : outcome E (list byte) :=
  let b64 := base64_encode der in
  let? lines := pem_lines (chunks 64 b64) in
  Ok (bytes_of "-----BEGIN " ++ bytes_of label ++ bytes_of "-----" ++ [x0a]
      ++ lines
      ++ bytes_of "-----END " ++ bytes_of label ++ bytes_of "-----" ++ [x0a]).

(** ** Host identifier

    [secs] and [micros] are the two readings of the system clock: the seconds
    since the epoch and the microseconds within the second. *)
Definition random_upper_uuid (secs micros : Z) : string :=
  let t := secs * 1000000 + micros in
  let b i := default x00 (le_bytes 16 t !! i) in
  let X := hex02 true in
  string_of (
    X (b 0%nat) ++ X (b 1%nat) ++ X (b 2%nat) ++ X (b 3%nat) ++ ["-"%byte]
    ++ X (b 4%nat) ++ X (b 5%nat) ++ ["-"%byte]
    ++ X (byte_of (Z.lor (Z.land (u8 (b 6%nat)) 0x0f) 0x40)) ++ X (b 7%nat) ++ ["-"%byte]
    ++ X (byte_of (Z.lor (Z.land (u8 (b 8%nat)) 0x3f) 0x80)) ++ X (b 9%nat) ++ ["-"%byte]
    ++ X (b 10%nat) ++ X (b 11%nat) ++ X (b 12%nat) ++ X (b 13%nat) ++ X (b 14%nat)
    ++ X (b 15%nat)).

(** ** Reading back what was encoded *)

Lemma len_step_spec len b : 0 ≤ len → len_step len b = (len * 256) mod 2 ^ 64 + u8 b.
Proof.
  intros Hl. unfold len_step, wrap. pose proof (u8_range b).
  rewrite Z.shiftl_mul_pow2 by lia. change (2 ^ 8) with 256.
  assert ((len * 256) mod 2 ^ 64 = Z.shiftl (len mod 2 ^ 56) 8) as ->.
  { rewrite Z.shiftl_mul_pow2 by lia. change (2 ^ 64) with (2 ^ 56 * 256).
    change (2 ^ 8) with 256. apply Z.mul_mod_distr_r; lia. }
  rewrite lor_shiftl by lia. rewrite Z.shiftl_mul_pow2 by lia. lia.
Qed.

(** Up to eight bytes the length is the big-endian number. *)
Lemma foldl_len_step bs acc :
  0 ≤ acc → (acc + 1) * 256 ^ Z.of_nat (length bs) ≤ 2 ^ 64 →
  foldl len_step acc bs = acc * 256 ^ Z.of_nat (length bs) + be_val bs.
Proof.
  revert acc. induction bs as [|b bs IH]; intros acc Hacc Hle; cbn [foldl length] in *.
  - change (be_val []) with 0. change (256 ^ Z.of_nat 0) with 1. lia.
  - rewrite Nat2Z.inj_succ, Z.pow_succ_r in * by lia. pose proof (u8_range b).
    assert (0 < 256 ^ Z.of_nat (length bs)) by (apply Z.pow_pos_nonneg; lia).
    assert ((acc + 1) * 256 ≤ 2 ^ 64) by nia.
    rewrite len_step_spec, Z.mod_small by lia.
    rewrite IH by nia. rewrite be_val_cons. lia.
Qed.

Lemma be_val_len_step bs : (length bs ≤ 8)%nat → foldl len_step 0 bs = be_val bs.
Proof.
  intros Hb. rewrite foldl_len_step; [lia|lia|]. rewrite Z.mul_1_l.
  change (2 ^ 64) with (256 ^ 8). apply Z.pow_le_mono_r; lia.
Qed.

Lemma slice_tail {E A} (x : A) l : slice (E:=E) (x :: l) 1 (lenZ (x :: l)) = Ok l.
Proof. unfold slice. rewrite (get_slice_suffix [x] l); [done|done|len]. Qed.

Section der.
Context `{BuildProfile}.

(** The end of [peel_length], once the header is known. *)
Lemma peel_body (hdr c rest : list byte) start len_ :
  start = lenZ hdr → len_ = lenZ c → lenZ hdr + lenZ c < 2 ^ 64 →
  (let? end_ := add_w (E:=unit) 64 start len_ in
   if lenZ (hdr ++ c ++ rest) <? end_ then Err tt
   else
     let? content := slice (hdr ++ c ++ rest) start end_ in
     let? rest' := slice (hdr ++ c ++ rest) end_ (lenZ (hdr ++ c ++ rest)) in
     Ok (content, rest')) = Ok (c, rest).
Proof.
  intros -> -> Hlt. rewrite add_w_ok by done. cbn [obind]. zcmp.
  unfold slice. rewrite get_slice_mid by done. cbn [or_panic obind].
  rewrite (assoc_L (++)) at 1. rewrite get_slice_suffix; [done|len|len].
Qed.

(** [b] codes the length of [c] in the short form. *)
Lemma peel_length_short b c rest :
  u8 b < 0x80 → u8 b = lenZ c → peel_length (b :: c ++ rest) = Ok (c, rest).
Proof.
  intros Hb Hc. unfold peel_length. cbn [head ok_or obind]. zcmp. cbn [obind].
  apply (peel_body [b]); [done|done|len].
Qed.

(** [b] announces the bytes [bs], which are the length of [c]. *)
Lemma peel_length_long b bs c rest :
  u8 b = 0x80 + lenZ bs → (length bs ≤ 8)%nat → be_val bs = lenZ c →
  lenZ c < 2 ^ 64 - 9 → peel_length (b :: bs ++ c ++ rest) = Ok (c, rest).
Proof.
  intros Hb Hbs Hc Hlt. unfold peel_length. cbn [head ok_or obind].
  assert (lenZ bs ≤ 8) as Hbs' by (unfold lenZ; lia). pose proof (lenZ_nonneg bs).
  assert (Z.land (u8 b) 0x7f = lenZ bs) as Hl.
  { rewrite Hb. change 0x7f with (Z.ones 7). rewrite Z.land_ones by lia.
    replace (0x80 + lenZ bs) with (lenZ bs + 1 * 2 ^ 7) by lia.
    rewrite Z_mod_plus_full. apply Z.mod_small. lia. }
  rewrite Hl. zcmp. unfold slice at 1.
  rewrite (get_slice_mid [b] bs (c ++ rest)) by (unfold lenZ; simpl; lia).
  cbn [or_panic obind]. rewrite be_val_len_step by done.
  change (b :: bs ++ c ++ rest) with ((b :: bs) ++ c ++ rest).
  apply peel_body; [len|done|len].
Qed.

Lemma peel_length_der_tag tag c rest :
  lenZ c < 65536 → ∃ l, der_tag tag c = tag :: l ∧ peel_length (l ++ rest) = Ok (c, rest).
Proof.
  intros Hc. unfold der_tag. pose proof (lenZ_nonneg c). repeat case_match; zhyps.
  - eexists. split; [done|]. cbn [app]. apply peel_length_short; rewrite u8_byte_of_small; lia.
  - eexists. split; [done|]. cbn [app]. apply (peel_length_long x81 [byte_of (lenZ c)]).
    + done.
    + simpl. lia.
    + rewrite be_val_cons. change (be_val []) with 0. rewrite u8_byte_of_small; simpl; lia.
    + lia.
  - eexists. split; [done|]. cbn [app].
    apply (peel_length_long x82 [byte_of (Z.shiftr (lenZ c) 8); byte_of (lenZ c)]).
    + done.
    + simpl. lia.
    + rewrite !be_val_cons. change (be_val []) with 0. rewrite Z.shiftr_div_pow2 by lia.
      rewrite u8_byte_of_small by (split; [apply Z.div_pos; lia|apply Z.div_lt_upper_bound; lia]).
      rewrite u8_byte_of. change (256 ^ Z.of_nat (length [byte_of (lenZ c)])) with 256.
      change (256 ^ Z.of_nat (length (@nil byte))) with 1. change (2 ^ 8) with 256.
      pose proof (Z_div_mod_eq_full (lenZ c) 256). lia.
    + lia.
Qed.

Lemma peel_tag_der_tag_aux tag c rest :
  lenZ c < 65536 → peel_tag (der_tag tag c ++ rest) tag = Ok (c, rest).
Proof.
  intros Hc. destruct (peel_length_der_tag tag c rest Hc) as (l & -> & Hl).
  unfold peel_tag. cbn [app head]. rewrite bool_decide_true by done. cbn [negb].
  by rewrite slice_tail.
Qed.

Lemma peel_tlv_der_tag_aux tag c rest :
  lenZ c < 65536 → peel_tlv (der_tag tag c ++ rest) = Ok (c, rest).
Proof.
  intros Hc. destruct (peel_length_der_tag tag c rest Hc) as (l & -> & Hl).
  unfold peel_tlv. cbn [app]. by rewrite slice_tail.
Qed.

Lemma peel_tag_nil tag : peel_tag [] tag = Err tt.
Proof. done. Qed.

(** Every TLV the encoder writes is read back, whatever follows it: the reader
    returns the content and exactly the bytes after it, by its tag and without;
    another tag is refused. *)
Theorem peel_der_tag tag tag' c rest :
  lenZ c < 65536 →
  peel_tag (der_tag tag c ++ rest) tag = Ok (c, rest) ∧
  peel_tlv (der_tag tag c ++ rest) = Ok (c, rest) ∧
  (tag ≠ tag' → peel_tag (der_tag tag c ++ rest) tag' = Err tt).
Proof.
  intros Hc. split; [by apply peel_tag_der_tag_aux|]. split; [by apply peel_tlv_der_tag_aux|].
  intros Hne. unfold peel_tag. change (head (der_tag tag c ++ rest)) with (Some tag).
  by rewrite bool_decide_false by congruence.
Qed.

(** From 65536 bytes on the length field is truncated to sixteen bits, and
    what is read back is a prefix of the content. *)
Theorem der_tag_truncates tag c :
  65536 ≤ lenZ c < 2 ^ 32 →
  peel_tag (der_tag tag c) tag =
    Ok (take (Z.to_nat (lenZ c mod 65536)) c, drop (Z.to_nat (lenZ c mod 65536)) c).
Proof.
  intros Hc. set (n := lenZ c mod 65536). assert (0 ≤ n < 65536) by (apply Z.mod_pos_bound; lia).
  assert (n ≤ lenZ c) by (apply Z.mod_le; lia).
  unfold der_tag. zcmp.
  unfold peel_tag. cbn [app head]. rewrite bool_decide_true by done. cbn [negb].
  rewrite slice_tail. cbn [obind]. rewrite <-(take_drop (Z.to_nat n) c) at 3.
  apply (peel_length_long x82 [byte_of (Z.shiftr (lenZ c) 8); byte_of (lenZ c)]).
  - done.
  - simpl. lia.
  - rewrite !be_val_cons. change (be_val []) with 0. rewrite Z.shiftr_div_pow2 by lia.
    rewrite !u8_byte_of. change (256 ^ Z.of_nat (length [byte_of (lenZ c)])) with 256.
    change (256 ^ Z.of_nat (length (@nil byte))) with 1. change (2 ^ 8) with 256.
    unfold lenZ at 3. rewrite length_take. fold (lenZ c).
    assert (n = lenZ c mod 256 + 256 * ((lenZ c / 256) mod 256)) as Hn
      by (apply (Z.rem_mul_r (lenZ c) 256 256); lia).
    clearbody n. unfold lenZ in *. lia.
  - unfold lenZ at 1. rewrite length_take. lia.
Qed.

(** ** The public key bits

    [peel_tag] returns the content first and the rest second, and
    [extract_spki_bits] keeps the second: it goes past the SEQUENCE it means to
    enter.  On a SubjectPublicKeyInfo, which is one SEQUENCE and nothing else,
    it finds nothing, so the key identifier is not the hash of the key bits. *)
Theorem extract_spki_bits_finds_nothing items :
  lenZ (concat items) < 65536 → extract_spki_bits (der_seq items) = Err tt.
Proof.
  intros Hi. unfold extract_spki_bits, der_seq.
  pose proof (peel_tag_der_tag_aux x30 (concat items) [] Hi) as Hp.
  rewrite app_nil_r in Hp. by rewrite Hp.
Qed.
End der.

(** A length that does not fit the address space makes the reader panic, in
    both build profiles: the addition overflows, or wraps to an end before the
    start. *)
Theorem peel_length_hostile `{BuildProfile} b bs rest :
  u8 b = 0x88 → length bs = 8%nat → 2 ^ 64 - 9 ≤ be_val bs →
  peel_length (b :: bs ++ rest) = Panic.
Proof.
  intros Hb Hbs Hlen. unfold peel_length. cbn [head ok_or obind]. rewrite Hb.
  change (Z.land 0x88 0x7f) with 8. assert (lenZ bs = 8) as Hl by (unfold lenZ; lia).
  zcmp. unfold slice at 1. rewrite (get_slice_mid [b] bs rest) by (unfold lenZ in *; simpl; lia).
  cbn [or_panic obind]. rewrite be_val_len_step by lia.
  pose proof (be_val_range bs) as Hr. rewrite Hbs in Hr.
  change (256 ^ Z.of_nat 8) with (2 ^ 64) in Hr.
  unfold add_w. zcmp. destruct overflow_checks; [done|]. cbn [obind].
  replace ((1 + 8 + be_val bs) mod 2 ^ 64) with (9 + be_val bs - 2 ^ 64)
    by (replace (1 + 8 + be_val bs) with (9 + be_val bs - 2 ^ 64 + 1 * 2 ^ 64) by lia;
        rewrite Z_mod_plus_full, Z.mod_small; lia).
  zcmp. unfold slice, get_slice. by rewrite bool_decide_false by lia.
Qed.

(** ** Object identifiers *)

(** The reference: the arcs of the content of an OBJECT IDENTIFIER. *)
Fixpoint arcs_from (acc : Z) (l : list byte) : list Z :=
  match l with
  | [] => []
  | b :: l =>
      let acc := acc * 128 + u8 b mod 128 in
      if u8 b <? 128 then acc :: arcs_from 0 l else arcs_from acc l
  end.
Definition oid_arcs (content : list byte) : list Z :=
  match content with
  | [] => []
  | b :: l => u8 b / 40 :: u8 b mod 40 :: arcs_from 0 l
  end.

Lemma land_127 a : Z.land a 0x7f = a mod 128.
Proof. change 0x7f with (Z.ones 7). by rewrite Z.land_ones by lia. Qed.

Lemma u8_more a : u8 (byte_of (Z.lor (Z.land a 0x7f) 0x80)) = 128 + a mod 128.
Proof.
  rewrite land_127. pose proof (Z.mod_pos_bound a 128).
  rewrite Z.lor_comm. replace (Z.lor 0x80 (a mod 128)) with (Z.lor (Z.shiftl 1 7) (a mod 128)) by done.
  rewrite lor_shiftl by (simpl; lia).
  rewrite u8_byte_of_small; lia.
Qed.

Lemma base128_loop_spec {E} i a out l :
  0 ≤ a < 2 ^ (7 * Z.of_nat i) →
  ∃ r, base128_loop (E:=E) i a out = Ok r ∧ arcs_from 0 (r ++ l) = arcs_from a (out ++ l).
Proof.
  revert a out. induction i as [|i IH]; intros a out Ha; cbn [base128_loop].
  - assert (a = 0) as -> by (simpl in Ha; lia). by exists out.
  - case_match; zhyps.
    2:{ assert (a = 0) as -> by lia. by exists out. }
    rewrite Nat2Z.inj_succ in Ha.
    replace (7 * Z.succ (Z.of_nat i)) with (7 + 7 * Z.of_nat i) in Ha by lia.
    rewrite Z.pow_add_r in Ha by lia.
    destruct (IH (Z.shiftr a 7) (byte_of (Z.lor (Z.land a 0x7f) 0x80) :: out)) as (r & Hr & Hv).
    { rewrite Z.shiftr_div_pow2 by lia. split; [apply Z.div_pos; lia|].
      apply Z.div_lt_upper_bound; lia. }
    exists r. split; [done|]. rewrite Hv. cbn [app arcs_from]. rewrite u8_more.
    pose proof (Z.mod_pos_bound a 128). zcmp.
    replace (128 + a mod 128) with (a mod 128 + 1 * 128) by lia.
    rewrite Z_mod_plus_full, Z.mod_mod by lia.
    rewrite Z.shiftr_div_pow2 by lia. change (2 ^ 7) with 128.
    f_equal. pose proof (Z_div_mod_eq_full a 128). lia.
Qed.

Lemma base128_spec {E} a l :
  in_u 32 a → ∃ r, base128 (E:=E) a = Ok r ∧ arcs_from 0 (r ++ l) = a :: arcs_from 0 l.
Proof.
  intros Ha. unfold base128, in_u in *.
  destruct (base128_loop_spec (E:=E) 4 (Z.shiftr a 7) [byte_of (Z.land a 0x7f)] l) as (r & Hr & Hv).
  { rewrite Z.shiftr_div_pow2 by lia. split; [apply Z.div_pos; lia|].
    apply Z.div_lt_upper_bound; simpl; lia. }
  exists r. split; [done|]. rewrite Hv. cbn [app arcs_from]. rewrite land_127.
  pose proof (Z.mod_pos_bound a 128). rewrite u8_byte_of_small by lia. zcmp.
  rewrite Z.mod_mod by lia. rewrite Z.shiftr_div_pow2 by lia. change (2 ^ 7) with 128.
  f_equal. pose proof (Z_div_mod_eq_full a 128). lia.
Qed.

Lemma base128_all_spec {E} arcs :
  Forall (in_u 32) arcs → ∃ r, base128_all (E:=E) arcs = Ok r ∧ arcs_from 0 r = arcs.
Proof.
  induction 1 as [|a arcs Ha _ (r & Hr & Hv)]; [by exists []|].
  destruct (base128_spec (E:=E) a r Ha) as (b & Hb & Hbv).
  exists (b ++ r). cbn [base128_all]. rewrite Hb. cbn [obind]. rewrite Hr. cbn [obind].
  by rewrite Hbv, Hv.
Qed.

(** An OID is encoded without overflow or panic, with arcs of any size, and
    decodes to its arcs. *)
Theorem der_oid_arcs `{BuildProfile} {E} a0 a1 arcs :
  0 ≤ a0 ≤ 2 → 0 ≤ a1 < 40 → Forall (in_u 32) arcs →
  ∃ content, der_oid (E:=E) (a0 :: a1 :: arcs) = Ok (der_tag x06 content) ∧
    oid_arcs content = a0 :: a1 :: arcs.
Proof.
  intros H0 H1 Harcs. destruct (base128_all_spec (E:=E) arcs Harcs) as (r & Hr & Hv).
  eexists. split.
  - unfold der_oid, index. rewrite (get_at_mid [] a0 (a1 :: arcs) 0 eq_refl : get_at (a0 :: a1 :: arcs) 0 = _). cbn [or_panic obind].
    unfold u32_mul. rewrite (proj2 (Z.ltb_lt (40 * a0) _)) by lia. cbn [obind].
    rewrite (get_at_mid [a0] a1 arcs 1 eq_refl : get_at (a0 :: a1 :: arcs) 1 = _). cbn [or_panic obind].
    rewrite add_w_ok by lia. cbn [obind].
    unfold slice. change (get_slice (a0 :: a1 :: arcs)) with (get_slice ([a0; a1] ++ arcs)).
    rewrite (get_slice_suffix [a0; a1] arcs 2) by (unfold lenZ; simpl; lia).
    cbn [or_panic obind]. rewrite Hr. reflexivity.
  - cbn [oid_arcs]. rewrite Hv, u8_byte_of_small by lia. f_equal; [|f_equal].
    + rewrite Z.mul_comm, Z.div_add_l by lia. rewrite Z.div_small; lia.
    + rewrite Z.add_comm, Z.mul_comm, Z_mod_plus_full. apply Z.mod_small. lia.
Qed.

(** ** The calendar *)

(** The reference: days from 1970-01-01 to a date, by the Gregorian formula. *)
Definition days_before_year (y : Z) : Z :=
  365 * (y - 1970) + ((y - 1) / 4 - (y - 1) / 100 + (y - 1) / 400 - 477).
Definition days_before_month (leap : bool) (m : Z) : Z :=
  default 0 ([0; 31; 59; 90; 120; 151; 181; 212; 243; 273; 304; 334] !! Z.to_nat (m - 1))
  + (if leap && (2 <? m) then 1 else 0).
Definition days_of_ymd (y m d : Z) : Z :=
  days_before_year y + days_before_month (is_leap y) m + (d - 1).

Definition days_in_month (y m : Z) : Z :=
  if m =? 2 then if is_leap y then 29 else 28
  else if (m =? 4) || (m =? 6) || (m =? 9) || (m =? 11) then 30 else 31.
Definition valid_date (y m d : Z) : Prop :=
  1970 ≤ y ∧ 1 ≤ m ≤ 12 ∧ 1 ≤ d ≤ days_in_month y m.

Lemma is_leap_spec y : is_leap y = true ↔ y mod 4 = 0 ∧ (y mod 100 ≠ 0 ∨ y mod 400 = 0).
Proof.
  unfold is_leap. rewrite andb_true_iff, orb_true_iff, negb_true_iff, !Z.eqb_eq, Z.eqb_neq. done.
Qed.

Lemma days_before_year_succ y :
  days_before_year (y + 1) = days_before_year y + (if is_leap y then 366 else 365).
Proof.
  unfold days_before_year. replace (y + 1 - 1) with y by lia.
  destruct (is_leap y) eqn:E.
  - apply is_leap_spec in E. Z.div_mod_to_equations. lia.
  - assert (¬ (y mod 4 = 0 ∧ (y mod 100 ≠ 0 ∨ y mod 400 = 0))) as E'
      by (rewrite <-is_leap_spec; congruence).
    Z.div_mod_to_equations. lia.
Qed.

Lemma year_loop_spec {E} fuel y days :
  0 ≤ days < 365 * (Z.of_nat fuel + 1) →
  ∃ y' days', year_loop (E:=E) fuel y days = Ok (y', days') ∧ y ≤ y' ∧
    0 ≤ days' < (if is_leap y' then 366 else 365) ∧
    days_before_year y' + days' = days_before_year y + days.
Proof.
  revert y days. induction fuel as [|fuel IH]; intros y days Hd; cbn [year_loop].
  - assert (days <? (if is_leap y then 366 else 365) = true) as Hlt
      by (apply Z.ltb_lt; case_match; lia).
    rewrite Hlt. zhyps. exists y, days. split_and!; try done; lia.
  - case_match; zhyps; [exists y, days; split_and!; try done; lia|].
    destruct (IH (y + 1) (days - (if is_leap y then 366 else 365)))
      as (y' & d' & Hl & Hy & Hd' & He).
    { case_match; lia. }
    exists y', d'. split_and!; try done; [lia..|].
    rewrite He, days_before_year_succ. lia.
Qed.

Lemma month_loop_spec y days :
  0 ≤ days < (if is_leap y then 366 else 365) →
  ∃ m d, month_loop (months (is_leap y)) 1 days = (m, d) ∧ 1 ≤ m ≤ 12 ∧
    0 ≤ d < days_in_month y m ∧ days_before_month (is_leap y) m + d = days.
Proof.
  intros Hd. unfold days_in_month. destruct (is_leap y); cbn [months month_loop];
    repeat (case_match; zhyps;
      [eexists _, _; split; [reflexivity|];
       match goal with
       | |- context [days_before_month ?b ?m] =>
           let r := eval vm_compute in (days_before_month b m) in
           change (days_before_month b m) with r
       end; simpl; lia|]); exfalso; lia.
Qed.

Lemma days_to_ymd_spec {E} days :
  0 ≤ days →
  ∃ y m d, days_to_ymd (E:=E) days = Ok (y, m, d) ∧ valid_date y m d ∧ days_of_ymd y m d = days.
Proof.
  intros Hd. unfold days_to_ymd.
  destruct (year_loop_spec (E:=E) (Z.to_nat (days / 365)) 1970 days)
    as (y & d' & Hl & Hy & Hd' & He).
  { split; [done|]. rewrite Z2Nat.id by (apply Z.div_pos; lia).
    pose proof (Z_div_mod_eq_full days 365). pose proof (Z.mod_pos_bound days 365). lia. }
  destruct (month_loop_spec y d' Hd') as (m & d & Hm & Hmr & Hdr & Hs).
  exists y, m, (d + 1). rewrite Hl. cbn [obind]. rewrite Hm.
  split; [done|]. split; [unfold valid_date; lia|]. unfold days_of_ymd.
  change (days_before_year 1970) with 0 in He. lia.
Qed.

(** The two loops of [days_to_ymd] terminate and compute the Gregorian date:
    a valid date, and the one whose day number by the closed formula is the
    argument. *)
Lemma days_to_ymd_correct {E} days :
  0 ≤ days →
  ∃ y m d, days_to_ymd (E:=E) days = Ok (y, m, d) ∧ valid_date y m d ∧ days_of_ymd y m d = days.
Proof. apply days_to_ymd_spec. Qed.

(** The reference: the time a UTCTime stands for; years before 50 are 20xx. *)
Definition two_digits (a b : byte) : Z := 10 * (u8 a - 48) + (u8 b - 48).
Definition utc_seconds (t : list byte) : option Z :=
  match t with
  | [y1; y2; m1; m2; d1; d2; h1; h2; i1; i2; s1; s2; "Z"%byte] =>
      let yy := two_digits y1 y2 in
      let y := if yy <? 50 then 2000 + yy else 1900 + yy in
      Some (days_of_ymd y (two_digits m1 m2) (two_digits d1 d2) * 86400
            + two_digits h1 h2 * 3600 + two_digits i1 i2 * 60 + two_digits s1 s2)
  | _ => None
  end.

Lemma dec02_two n : 0 ≤ n < 100 → ∃ a b, dec02 n = [a; b] ∧ two_digits a b = n.
Proof.
  intros Hn.
  assert (Forall (λ n, match dec02 n with [a; b] => two_digits a b =? n | _ => false end = true)
    (seqZ 0 100)) as H by (apply (bool_decide_unpack _); vm_compute; exact I).
  rewrite Forall_forall in H. specialize (H n).
  assert (n ∈ seqZ 0 100) as Hin by (apply elem_of_seqZ; lia).
  specialize (H Hin). destruct (dec02 n) as [|a [|b [|]]]; try done. zhyps. eauto.
Qed.

Lemma days_before_month_nonneg leap m : 0 ≤ days_before_month leap m.
Proof.
  unfold days_before_month.
  destruct (_ !! _) as [x|] eqn:E; simpl; [|by case_match].
  assert (Forall (λ n, 0 ≤ n) [0; 31; 59; 90; 120; 151; 181; 212; 243; 273; 304; 334]) as H
    by (apply (bool_decide_unpack _); vm_compute; exact I).
  eapply Forall_lookup_1 in H; [|exact E]. simpl in H. case_match; lia.
Qed.

Lemma days_in_month_le y m : days_in_month y m ≤ 31.
Proof. unfold days_in_month. repeat case_match; lia. Qed.

(** 2050-01-01T00:00:00 *)
Definition utc_limit : Z := 2524608000.

Lemma der_utc_time_roundtrip_aux {E} unix :
  0 ≤ unix < utc_limit →
  ∃ t, der_utc_time (E:=E) unix = Ok (der_tag x17 t) ∧ lenZ t = 13 ∧ utc_seconds t = Some unix.
Proof.
  intros Hu. unfold der_utc_time.
  destruct (days_to_ymd_spec (E:=E) (unix / 86400)) as (y & m & d & -> & Hv & Hd);
    [apply Z.div_pos; lia|].
  destruct Hv as (Hy & Hm & Hdm). pose proof (days_in_month_le y m). cbn [obind].
  assert (y < 2050) as Hy2.
  { assert (unix / 86400 < 29220) by (apply Z.div_lt_upper_bound; unfold utc_limit in Hu; lia).
    pose proof (days_before_month_nonneg (is_leap y) m).
    unfold days_of_ymd, days_before_year in Hd. Z.div_mod_to_equations; lia. }
  pose proof (Z.mod_pos_bound unix 86400 ltac:(lia)) as Hr.
  destruct (dec02_two (y mod 100)) as (y1 & y2 & -> & Ey); [apply Z.mod_pos_bound; lia|].
  destruct (dec02_two m) as (m1 & m2 & -> & Em); [lia|].
  destruct (dec02_two d) as (d1 & d2 & -> & Ed); [lia|].
  destruct (dec02_two (unix mod 86400 / 3600)) as (h1 & h2 & -> & Eh);
    [Z.div_mod_to_equations; lia|].
  destruct (dec02_two (unix mod 86400 mod 3600 / 60)) as (i1 & i2 & -> & Ei);
    [Z.div_mod_to_equations; lia|].
  destruct (dec02_two (unix mod 86400 mod 60)) as (s1 & s2 & -> & Es);
    [Z.div_mod_to_equations; lia|].
  eexists. split; [reflexivity|]. split; [done|].
  cbn [app utc_seconds]. rewrite Ey, Em, Ed, Eh, Ei, Es.
  assert ((if y mod 100 <? 50 then 2000 + y mod 100 else 1900 + y mod 100) = y) as ->
    by (case_match; zhyps; Z.div_mod_to_equations; lia).
  rewrite Hd. f_equal. clear - Hr Hu. Z.div_mod_to_equations. lia.
Qed.

(** A time before 2050 is written as the 13 characters that stand for it. *)
Theorem der_utc_time_roundtrip {E} unix :
  0 ≤ unix < utc_limit →
  ∃ t, der_utc_time (E:=E) unix = Ok (der_tag x17 t) ∧ lenZ t = 13 ∧ utc_seconds t = Some unix.
Proof. apply der_utc_time_roundtrip_aux. Qed.

(** ** base64 *)

(** The reference decoder. *)
Definition b64_val (c : byte) : Z :=
  let x := u8 c in
  if (65 <=? x) && (x <=? 90) then x - 65
  else if (97 <=? x) && (x <=? 122) then x - 71
  else if (48 <=? x) && (x <=? 57) then x + 4
  else if x =? 43 then 62 else if x =? 47 then 63 else 0.

Fixpoint base64_decode (l : list byte) : option (list byte) :=
  match l with
  | [] => Some []
  | a :: b :: c :: d :: l =>
      let v := ((b64_val a * 64 + b64_val b) * 64 + b64_val c) * 64 + b64_val d in
      let bs := be_bytes 3 v in
      if bool_decide (c = "="%byte) then Some (take 1 bs)
      else if bool_decide (d = "="%byte) then Some (take 2 bs)
      else app bs <$> base64_decode l
  | _ => None
  end.

(** The characters of the alphabet. *)
Definition b64_char (c : byte) : bool :=
  (u8 c <? 128) && negb (bool_decide (c = x0a)).

Lemma sextet_spec b k :
  0 ≤ k → b64_val (sextet b k) = (b / 2 ^ k) mod 64 ∧ sextet b k ≠ "="%byte ∧
  b64_char (sextet b k) = true.
Proof.
  intros Hk. unfold sextet.
  rewrite Z.shiftr_div_pow2 by done. change 63 with (Z.ones 6). rewrite Z.land_ones by lia.
  change (2 ^ 6) with 64.
  pose proof (Z.mod_pos_bound (b / 2 ^ k) 64 ltac:(lia)) as Hr.
  generalize dependent ((b / 2 ^ k) mod 64). intros n Hn.
  assert (Forall (λ n, b64_val (default x00 (TABLE !! Z.to_nat n)) = n ∧
    default x00 (TABLE !! Z.to_nat n) ≠ "="%byte ∧
    b64_char (default x00 (TABLE !! Z.to_nat n)) = true) (seqZ 0 64)) as H
    by (apply (bool_decide_unpack _); vm_compute; exact I).
  rewrite Forall_forall in H. apply H, elem_of_seqZ. lia.
Qed.

(** The four sextets of a 24-bit number give it back. *)
Lemma sextets_24 v :
  0 ≤ v < 2 ^ 24 →
  (((v / 2 ^ 18) mod 64 * 64 + (v / 2 ^ 12) mod 64) * 64 + (v / 2 ^ 6) mod 64) * 64
    + (v / 2 ^ 0) mod 64 = v.
Proof.
  intros Hv. change (2 ^ 18) with 262144. change (2 ^ 12) with 4096. change (2 ^ 6) with 64.
  change (2 ^ 0) with 1. Z.div_mod_to_equations. lia.
Qed.

Lemma be_bytes_be_val_3 a b c : be_bytes 3 (be_val [a; b; c]) = [a; b; c].
Proof. apply (be_bytes_be_val [a; b; c]). Qed.

Lemma be_val_2 a b : Z.lor (Z.shiftl (u8 a) 16) (Z.shiftl (u8 b) 8) = be_val [a; b; x00].
Proof. rewrite be_val_3. change (u8 x00) with 0. by rewrite Z.lor_0_r. Qed.
Lemma be_val_1 a : Z.shiftl (u8 a) 16 = be_val [a; x00; x00].
Proof. rewrite <-be_val_2. change (u8 x00) with 0. by rewrite Z.shiftl_0_l, Z.lor_0_r. Qed.

Lemma be_val_3_range a b c : 0 ≤ be_val [a; b; c] < 2 ^ 24.
Proof. apply (be_val_range [a; b; c]). Qed.

(** A final zero byte makes the last sextets zero, which is what ['='] reads as. *)
Lemma be_val_low_zero a b : be_val [a; b; x00] mod 256 = 0.
Proof.
  rewrite !be_val_cons. change (be_val []) with 0. change (u8 x00) with 0.
  cbn [length]. change (256 ^ Z.of_nat 2) with (256 * 256). change (256 ^ Z.of_nat 1) with 256.
  replace (u8 a * (256 * 256) + (u8 b * 256 + (0 * 256 ^ Z.of_nat 0 + 0)))
    with ((u8 a * 256 + u8 b) * 256) by lia. apply Z_mod_mult.
Qed.
Lemma be_val_low_zero_2 a : be_val [a; x00; x00] mod 65536 = 0.
Proof.
  rewrite !be_val_cons. change (be_val []) with 0. change (u8 x00) with 0.
  cbn [length]. change (256 ^ Z.of_nat 2) with 65536.
  replace (u8 a * 65536 + (0 * 256 ^ Z.of_nat 1 + (0 * 256 ^ Z.of_nat 0 + 0)))
    with (u8 a * 65536) by lia. apply Z_mod_mult.
Qed.

Lemma base64_decode_encode_aux l : base64_decode (base64_encode l) = Some l.
Proof.
  revert l. fix IH 1. intros [|b0 [|b1 [|b2 l]]]; [done| | |]; cbn [base64_encode].
  - rewrite be_val_1. pose proof (be_val_3_range b0 x00 x00). pose proof (be_val_low_zero_2 b0).
    set (v := be_val [b0; x00; x00]) in *.
    destruct (sextet_spec v 18) as (E1 & _ & _), (sextet_spec v 12) as (E2 & _ & _); [done..|].
    cbn [base64_decode]. rewrite E1, E2. rewrite bool_decide_true by done.
    change (b64_val "=") with 0.
    replace ((((v / 2 ^ 18) mod 64 * 64 + (v / 2 ^ 12) mod 64) * 64 + 0) * 64 + 0) with v.
    + unfold v. by rewrite be_bytes_be_val_3.
    + change (2 ^ 18) with 262144. change (2 ^ 12) with 4096. clearbody v.
      Z.div_mod_to_equations. lia.
  - rewrite be_val_2. pose proof (be_val_3_range b0 b1 x00). pose proof (be_val_low_zero b0 b1).
    set (v := be_val [b0; b1; x00]) in *.
    destruct (sextet_spec v 18) as (E1 & _ & _), (sextet_spec v 12) as (E2 & _ & _),
      (sextet_spec v 6) as (E3 & N3 & _); [done..|].
    cbn [base64_decode]. rewrite E1, E2, E3. rewrite bool_decide_false, bool_decide_true by done.
    change (b64_val "=") with 0.
    replace ((((v / 2 ^ 18) mod 64 * 64 + (v / 2 ^ 12) mod 64) * 64 + (v / 2 ^ 6) mod 64) * 64 + 0)
      with v.
    + unfold v. by rewrite be_bytes_be_val_3.
    + change (2 ^ 18) with 262144. change (2 ^ 12) with 4096. change (2 ^ 6) with 64. clearbody v.
      Z.div_mod_to_equations. lia.
  - rewrite <-be_val_3. pose proof (be_val_3_range b0 b1 b2).
    set (v := be_val [b0; b1; b2]) in *.
    destruct (sextet_spec v 18) as (E1 & _ & _), (sextet_spec v 12) as (E2 & _ & _),
      (sextet_spec v 6) as (E3 & N3 & _), (sextet_spec v 0) as (E4 & N4 & _); [done..|].
    cbn [base64_decode]. rewrite E1, E2, E3, E4. rewrite !bool_decide_false by done.
    rewrite (IH l), sextets_24 by done. unfold v. by rewrite be_bytes_be_val_3.
Qed.

(** Decoding inverts encoding, and the encoding of [n] bytes has [4 * ceil(n / 3)]
    characters. *)
Theorem base64_roundtrip l :
  base64_decode (base64_encode l) = Some l ∧
  lenZ (base64_encode l) = 4 * ((lenZ l + 2) / 3).
Proof.
  split; [apply base64_decode_encode_aux|].
  revert l. fix IH 1. intros [|b0 [|b1 [|b2 l]]]; [done..|]. cbn [base64_encode].
  rewrite !lenZ_cons, (IH l). Z.div_mod_to_equations. lia.
Qed.

Lemma base64_chars l : Forall (λ c, b64_char c = true) (base64_encode l).
Proof.
  revert l. fix IH 1. intros [|b0 [|b1 [|b2 l]]]; cbn [base64_encode];
    repeat (apply Forall_cons; split; [first [by apply sextet_spec|done]|]);
    [constructor..|apply IH].
Qed.

(** ** PEM *)

Definition is_nl (b : byte) : bool := bool_decide (b = x0a).

(** The reference: exactly the framing lines, and lines of at most 64 characters
    between them. *)
Definition pem_begin (label : string) : list byte :=
  bytes_of "-----BEGIN " ++ bytes_of label ++ bytes_of "-----".
Definition pem_end (label : string) : list byte :=
  bytes_of "-----END " ++ bytes_of label ++ bytes_of "-----".
Definition pem_decode (label : string) (l : list byte) : option (list byte) :=
  match split_on is_nl l with
  | h :: t =>
      match reverse t with
      | [] :: f :: body =>
          if bool_decide (h = pem_begin label ∧ f = pem_end label)
             && forallb (λ c, (length c <=? 64)%nat) body
          then base64_decode (concat (reverse body)) else None
      | _ => None
      end
  | [] => None
  end.

Definition line (c : list byte) : list byte := c ++ [x0a].

Lemma b64_char_ascii c : b64_char c = true → u8 c < 128.
Proof. unfold b64_char. rewrite andb_true_iff. intros [?%Z.ltb_lt _]. done. Qed.
Lemma b64_char_no_nl c : b64_char c = true → is_nl c = false.
Proof. unfold b64_char, is_nl. rewrite andb_true_iff, negb_true_iff. by intros [_ ?]. Qed.

Lemma pem_lines_ok {E} cs :
  Forall (Forall (λ c, b64_char c = true)) cs →
  pem_lines (E:=E) cs = Ok (concat (line <$> cs)).
Proof.
  induction 1 as [|c cs Hc _ IH]; [done|]. cbn [pem_lines].
  unfold from_utf8. rewrite utf8_valid_ascii
    by (eapply Forall_impl; [exact Hc|]; intros; by apply b64_char_ascii).
  cbn [or_panic obind]. rewrite IH. cbn [obind]. rewrite bytes_of_string_of.
  change (concat (line <$> c :: cs)) with ((c ++ [x0a]) ++ concat (line <$> cs)).
  by rewrite <-(assoc_L (++)).
Qed.

Lemma split_lines cs k :
  Forall (Forall (λ c, b64_char c = true)) cs →
  split_on is_nl (concat (line <$> cs) ++ k) = cs ++ split_on is_nl k.
Proof.
  induction 1 as [|c cs Hc _ IH]; [done|]. rewrite fmap_cons. cbn [concat app].
  unfold line at 1. rewrite <-!(assoc_L (++)). cbn [app].
  rewrite split_on_app, IH; [done| |done].
  eapply Forall_impl; [exact Hc|]. intros; by apply b64_char_no_nl.
Qed.

(** A label without newlines. *)
Definition label_ok (label : string) : Prop := Forall (λ b, is_nl b = false) (bytes_of label).

Lemma pem_decode_encode {E} label der :
  label_ok label →
  ∃ out, pem_encode (E:=E) label der = Ok out ∧ pem_decode label out = Some der.
Proof.
  intros Hlab. set (cs := chunks 64 (base64_encode der)).
  assert (concat cs = base64_encode der) as Hcs by (apply concat_chunks; lia).
  assert (Forall (Forall (λ c, b64_char c = true)) cs) as Hall
    by (apply Forall_concat; rewrite Hcs; apply base64_chars).
  assert (∀ a, Forall (λ b, is_nl b = false) a →
    Forall (λ b, is_nl b = false) (a ++ bytes_of label ++ bytes_of "-----")) as Hnl.
  { intros a Ha. rewrite !Forall_app. split_and!; [done..|].
    apply (bool_decide_unpack _). vm_compute. exact I. }
  eexists. split.
  - unfold pem_encode. fold cs. rewrite pem_lines_ok by done. reflexivity.
  - unfold pem_decode.
    replace (bytes_of "-----BEGIN " ++ bytes_of label ++ bytes_of "-----" ++ [x0a]
      ++ concat (line <$> cs) ++ bytes_of "-----END " ++ bytes_of label ++ bytes_of "-----" ++ [x0a])
      with (pem_begin label ++ x0a :: concat (line <$> cs) ++ pem_end label ++ x0a :: [])
      by (unfold pem_begin, pem_end; rewrite <-!app_assoc; reflexivity).
    rewrite split_on_app; [|apply Hnl|done].
    2:{ apply (bool_decide_unpack _). vm_compute. exact I. }
    rewrite split_lines by done. rewrite split_on_app; [|apply Hnl|done].
    2:{ apply (bool_decide_unpack _). vm_compute. exact I. }
    cbn [split_on]. 
    assert (reverse (cs ++ [pem_end label; []]) = [] :: pem_end label :: reverse cs) as ->
      by (by rewrite reverse_app).
    rewrite bool_decide_true by done. cbn [andb].
    assert (forallb (λ c, (length c <=? 64)%nat) (reverse cs) = true) as ->.
    { apply forallb_forall. intros c Hc. apply Nat.leb_le.
      apply (chunks_spec 64 (base64_encode der)); [lia|]. fold cs.
      apply list_elem_of_In in Hc. by rewrite elem_of_reverse in Hc. }
    rewrite reverse_involutive, Hcs. apply base64_decode_encode_aux.
Qed.

(** [pem_encode] never panics on its [from_utf8(..).unwrap()], its lines have at
    most 64 characters, and decoding the text gives back the bytes. *)
Theorem pem_roundtrip {E} label der :
  label_ok label →
  ∃ out, pem_encode (E:=E) label der = Ok out ∧ pem_decode label out = Some der.
Proof. apply pem_decode_encode. Qed.

(** ** The host identifier *)

Lemma uuid_byte6 t :
  0 ≤ t < 2 ^ 52 →
  Z.lor (Z.land (u8 (byte_of (t / 256 ^ 6))) 0x0f) 0x40 = 64 + t / 256 ^ 6.
Proof.
  intros Ht. change (256 ^ 6) with (2 ^ 48).
  assert (0 ≤ t / 2 ^ 48 < 16) by (split; [apply Z.div_pos; lia|apply Z.div_lt_upper_bound; lia]).
  generalize dependent (t / 2 ^ 48). intros n Hn. rewrite u8_byte_of_small by lia.
  change 0x0f with (Z.ones 4). rewrite Z.land_ones by lia. rewrite Z.mod_small by lia.
  rewrite Z.lor_comm. replace (Z.lor 0x40 n) with (Z.lor (Z.shiftl 4 4) n) by done.
  rewrite lor_shiftl by lia. lia.
Qed.

(** The identifier is the clock and nothing else: while the microseconds since
    the epoch fit 52 bits (until 2112), two identifiers are equal exactly when
    the clock readings are. *)
Theorem random_upper_uuid_clock s1 u1 s2 u2 :
  0 ≤ s1 * 1000000 + u1 < 2 ^ 52 → 0 ≤ s2 * 1000000 + u2 < 2 ^ 52 →
  random_upper_uuid s1 u1 = random_upper_uuid s2 u2 ↔
  s1 * 1000000 + u1 = s2 * 1000000 + u2.
Proof.
  unfold random_upper_uuid. generalize (s1 * 1000000 + u1), (s2 * 1000000 + u2).
  intros t1 t2 H1 H2. split; [|by intros ->]. intros He%(f_equal bytes_of).
  rewrite !bytes_of_string_of in He. cbn zeta in He.
  rewrite !le_bytes_lookup in He by lia.
  cbn [default from_option id] in He. change (256 ^ Z.of_nat 6) with (256 ^ 6) in He.
  rewrite !uuid_byte6 in He by done.
  cut (le_bytes 7 t1 = le_bytes 7 t2).
  { intros E%(f_equal le_val). rewrite !le_val_le_bytes_small in E by (unfold in_u; simpl; lia).
    done. }
  assert (Hsplit : ∀ (a b : byte) l k, hex02 true a ++ l = hex02 true b ++ k → a = b ∧ l = k).
  { intros a b l k Hab. apply app_inj_1 in Hab as [Hab ->]; [|done]. by apply hex02_inj in Hab. }
  assert (Hdash : ∀ l k : list byte, ["-"%byte] ++ l = ["-"%byte] ++ k → l = k) by (by intros ?? [=]).
  apply Hsplit in He as [E0 He]. apply Hsplit in He as [E1 He]. apply Hsplit in He as [E2 He].
  apply Hsplit in He as [E3 He]. apply Hdash in He. apply Hsplit in He as [E4 He].
  apply Hsplit in He as [E5 He]. apply Hdash in He. apply Hsplit in He as [E6 _].
  apply list_eq. intros i. destruct (decide (i < 7)%nat) as [Hi|Hi].
  2:{ rewrite !lookup_ge_None_2; [done|rewrite length_le_bytes; lia..]. }
  rewrite !le_bytes_lookup by done. f_equal.
  assert (byte_of (t1 / 256 ^ 6) = byte_of (t2 / 256 ^ 6)) as E6'.
  { apply u8_inj. apply (f_equal u8) in E6. rewrite !u8_byte_of in *.
    assert (∀ t, 0 ≤ t < 2 ^ 52 → 0 ≤ t / 256 ^ 6 < 16) as Hb
      by (intros; split; [apply Z.div_pos; lia|apply Z.div_lt_upper_bound; lia]).
    pose proof (Hb t1 H1). pose proof (Hb t2 H2). rewrite !Z.mod_small in * by lia. lia. }
  destruct i as [|[|[|[|[|[|[|i]]]]]]]; try done. lia.
Qed.

(** ** Witnesses *)

#[local] Existing Instance debug_profile.

Definition sample_content : list byte := replicate 300 x61.

Lemma peel_der_tag_witness :
  peel_tag (der_tag x30 sample_content ++ [x01; x02]) x30 = Ok (sample_content, [x01; x02]).
Proof.
  apply (peel_der_tag x30 x31 sample_content [x01; x02]).
  apply (bool_decide_unpack _). vm_compute. exact I.
Defined.

Lemma extract_spki_bits_finds_nothing_witness :
  extract_spki_bits (der_seq [der_seq []; der_tag x03 [x00; x2a]]) = Err tt.
Proof.
  apply (extract_spki_bits_finds_nothing [der_seq []; der_tag x03 [x00; x2a]]).
  apply (bool_decide_unpack _). vm_compute. exact I.
Defined.

Lemma der_oid_arcs_witness :
  ∃ content, der_oid (E:=unit) [1; 2; 840; 113549; 1; 1; 5] = Ok (der_tag x06 content) ∧
    oid_arcs content = [1; 2; 840; 113549; 1; 1; 5].
Proof.
  apply (der_oid_arcs 1 2 [840; 113549; 1; 1; 5]); [lia|lia|].
  apply (bool_decide_unpack _). vm_compute. exact I.
Defined.

Lemma days_to_ymd_correct_witness :
  ∃ y m d, days_to_ymd (E:=unit) 19782 = Ok (y, m, d) ∧ valid_date y m d ∧
    days_of_ymd y m d = 19782.
Proof. apply (days_to_ymd_correct 19782). lia. Defined.
Example days_to_ymd_leap_day : days_to_ymd (E:=unit) 19782 = Ok (2024, 2, 29).
Proof. reflexivity. Qed.

Lemma der_utc_time_roundtrip_witness :
  ∃ t, der_utc_time (E:=unit) 1709210096 = Ok (der_tag x17 t) ∧ lenZ t = 13 ∧
    utc_seconds t = Some 1709210096.
Proof. apply (der_utc_time_roundtrip 1709210096). unfold utc_limit. lia. Defined.

Lemma pem_roundtrip_witness :
  ∃ out, pem_encode (E:=unit) "CERTIFICATE" sample_content = Ok out ∧
    pem_decode "CERTIFICATE" out = Some sample_content.
Proof.
  apply (pem_roundtrip "CERTIFICATE" sample_content).
  apply (bool_decide_unpack _). vm_compute. exact I.
Defined.

Lemma random_upper_uuid_clock_witness :
  random_upper_uuid 1709210096 5 = random_upper_uuid 1709210096 6 ↔
  1709210096 * 1000000 + 5 = 1709210096 * 1000000 + 6.
Proof. apply (random_upper_uuid_clock 1709210096 5 1709210096 6); lia. Defined.
