(* ===== verification/Os.v ===== *)
(** * The operating system, as an interface, and the usbmuxd socket

    What the sources ask of the operating system when they open connections is
    a class over the state [W] of the rest of the world, so that the clients
    ([MuxSocket::connect] here, the lockdown session and the device session in
    their files) are proved against any system.  [Script] is an instance that
    answers from a list. *)

From S2P Require Import Prelude RustStd Io.

Class Os (W : Type) := {
  getenv : string → option string;
  unix_connect : string → ST W io_error stream;
  tcp_connect : string → Z → ST W io_error stream
}.

(** [src/usbmux/socket.rs]: the kinds of socket, all read and written alike. *)
Inductive MuxSocket : Type :=
  | Unix (s : stream)
  | Tcp (s : stream)
  | External (s : stream).

Definition mux_stream (m : MuxSocket) : stream :=
  match m with Unix s | Tcp s | External s => s end.
Definition set_mux_stream (s : stream) (m : MuxSocket) : MuxSocket :=
  match m with Unix _ => Unix s | Tcp _ => Tcp s | External _ => External s end.
Definition external (s : stream) : MuxSocket := External s.

Definition try_clone (m : MuxSocket) : outcome io_error MuxSocket :=
  match m with
  | Unix s => Ok (Unix s)
  | Tcp s => Ok (Tcp s)
  | External _ => Err (IoError Unsupported "External MuxSocket cannot be cloned")
  end.

(** [str::split_once(c)] *)
Fixpoint split_once (c : byte) (l : list byte) : option (list byte * list byte) :=
  match l with
  | [] => None
  | b :: l =>
      if decide (b = c) then Some ([], l)
      else '(x, y) ← split_once c l; Some (b :: x, y)
  end.

Section mux.
Context {W : Type} `{Os W}.

Definition bad_port : io_error := IoError InvalidInput "bad USBMUXD_SOCKET_ADDRESS port".

Definition mux_connect : ST W io_error MuxSocket :=
  match getenv "USBMUXD_SOCKET_ADDRESS" with
  | Some path =>
      match split_once ":"%byte (bytes_of path) with
      | Some (host, port) =>
          let! port := lift (ok_or (parse_uint 16 (string_of port)) bad_port) in
          let! s := tcp_connect (string_of host) port in sret (Tcp s)
      | None => let! s := unix_connect path in sret (Unix s)
      end
  | None =>
      let! r := stry (unix_connect "/var/run/usbmuxd") in
      match r with
      | inr s => sret (Unix s)
      | inl _ =>
          let! r := stry (unix_connect "/tmp/usbmuxd") in
          match r with
          | inr s => sret (Unix s)
          | inl _ => let! s := tcp_connect "127.0.0.1" 27015 in sret (Tcp s)
          end
      end
  end.

Lemma split_once_app c l k :
  c ∉ l → split_once c (l ++ c :: k) = Some (l, k).
Proof.
  induction l as [|b l IH]; cbn [app split_once]; [by rewrite decide_True|].
  rewrite not_elem_of_cons. intros [? ?]. rewrite decide_False by done. by rewrite IH.
Qed.

(** The override decides alone: with [host:port] set, exactly that
    address is tried, and a port that is not a [u16] is refused before any
    connection is made. *)
Theorem mux_connect_override host port (w : W) :
  ":"%byte ∉ bytes_of host →
  getenv "USBMUXD_SOCKET_ADDRESS" = Some (string_of (bytes_of host ++ ":"%byte :: port)) →
  mux_connect w =
    match parse_uint 16 (string_of port) with
    | Some p => (let! s := tcp_connect host p in sret (Tcp s)) w
    | None => (Err bad_port, w)
    end.
Proof.
  intros Hh He. unfold mux_connect. rewrite He, bytes_of_string_of, split_once_app by done.
  unfold sbind at 1, lift. rewrite string_of_bytes_of.
  by destruct (parse_uint 16 (string_of port)).
Qed.
End mux.

(** ** A scripted system *)
Module Script.
(** The environment variable and the answers to the coming connections. *)
Record world : Type := World { answers : list (io_error + stream) }.

Definition next : ST world io_error stream := λ w,
  match answers w with
  | [] => (Err (IoError (OtherKind 0) "connection refused"), w)
  | inl e :: l => (Err e, World l)
  | inr s :: l => (Ok s, World l)
  end.

Definition os (env : option string) : Os world := {|
  getenv := λ _, env;
  unix_connect := λ _, next;
  tcp_connect := λ _ _, next
|}.
End Script.

Lemma mux_connect_override_witness :
  mux_connect (H:=Script.os (Some "localhost:70000"%string)) (Script.World [inr (idle [])]) =
    (Err bad_port, Script.World [inr (idle [])]).
Proof.
  etransitivity;
    [apply (mux_connect_override (H:=Script.os (Some "localhost:70000"%string)) "localhost"
       (bytes_of "70000"))|reflexivity].
  - apply (bool_decide_unpack _). vm_compute. exact I.
  - reflexivity.
Defined.
