(* ===== verification/Lockdown.v ===== *)
(** * lockdownd ([src/lockdown], without pairing and services)

    The pair record, the device information and the session: plist messages
    with a four-byte length over a stream that starts plain and may be upgraded
    to TLS.  The [rustls] and [rustls_pemfile] crates are the class [Tls]; the
    plaintext side of a TLS connection is again a [stream]. *)

From stdpp Require Import sets.
From S2P Require Import Prelude RustStd Io Plist UsbmuxTypes UsbmuxConn Os.
From S2P Require UsbmuxCodec.

Definition LOCKDOWN_PORT : Z := 62078.

(** [src/lockdown/error.rs] *)
Inductive Error : Type :=
  | Usbmux (e : UsbmuxTypes.Error)
  | Io (e : io_error)
  | PlistError
  | Lockdown (m : message)
  | PairRecordError (m : message)
  | TlsError (m : message)
  | Afc (m : message)
  | Closed.

(** [Display] *)
Definition Error_fmt (e : Error) : message :=
  match e with
  | Usbmux e => Msg "usbmux error: {0}" [FDisplay (UsbmuxTypes.Error_fmt e)]
  | Io e => Msg "I/O error: {0}" [FStr (what e)]
  | PlistError => msg0 "plist error: {0}"
  | Lockdown m => Msg "lockdownd error: {0}" [FDisplay m]
  | PairRecordError m => Msg "pair record error: {0}" [FDisplay m]
  | TlsError m => Msg "TLS error: {0}" [FDisplay m]
  | Afc m => Msg "AFC error: {0}" [FDisplay m]
  | Closed => msg0 "connection closed unexpectedly"
  end.

(** ** The pair record ([pair_record.rs]) *)

Record PairRecord : Type := MkPairRecord {
  host_id : string;
  system_buid : string;
  host_certificate : list byte;
  host_private_key : list byte;
  device_certificate : list byte;
  root_certificate : list byte
}.

Definition pr_string (dict : dictionary) (key : string) : outcome Error string :=
  ok_or (dget key dict ≫= as_string) (PairRecordError (Msg "missing string key {}" [FStr key])).

Definition data_field (dict : dictionary) (key : string) : outcome Error (list byte) :=
  ok_or (v ← dget key dict;
         match v with
         | PData b => Some b
         | PString s => Some (bytes_of s)
         | _ => None
         end)
    (PairRecordError (Msg "missing data key {}" [FStr key])).

Definition from_plist_bytes `{PlistLib} (data : list byte) : outcome Error PairRecord :=
  let? val := ok_or (from_bytes data) (PairRecordError (msg0 "plist parse")) in
  let? dict := ok_or (as_dictionary val) (PairRecordError (msg0 "not a dictionary")) in
  let? host_id := pr_string dict "HostID" in
  let? system_buid := pr_string dict "SystemBUID" in
  let? host_certificate := data_field dict "HostCertificate" in
  let? host_private_key := data_field dict "HostPrivateKey" in
  let? device_certificate := data_field dict "DeviceCertificate" in
  let? root_certificate := data_field dict "RootCertificate" in
  Ok (MkPairRecord host_id system_buid host_certificate host_private_key device_certificate
        root_certificate).

(** ** Types ([types.rs]) *)

Record ServiceInfo : Type := MkServiceInfo { svc_port : Z; enable_service_ssl : bool }.

Record DeviceInfo : Type := MkDeviceInfo {
  device_name : string;
  product_type : string;
  product_version : string;
  serial_number : string;
  hardware_model : string;
  unique_device_id : string;
  cpu_architecture : string;
  extra : dictionary
}.

(** [take_str]: removes the key whatever its value is. *)
Definition take_str (k : string) (d : dictionary) : string * dictionary :=
  (default ""%string (dget k d ≫= as_string), al_remove k d).

Definition from_dict (d : dictionary) : DeviceInfo :=
  let '(device_name, d) := take_str "DeviceName" d in
  let '(product_type, d) := take_str "ProductType" d in
  let '(product_version, d) := take_str "ProductVersion" d in
  let '(serial_number, d) := take_str "SerialNumber" d in
  let '(hardware_model, d) := take_str "HardwareModel" d in
  let '(unique_device_id, d) := take_str "UniqueDeviceID" d in
  let '(cpu_architecture, d) := take_str "CPUArchitecture" d in
  MkDeviceInfo device_name product_type product_version serial_number hardware_model
    unique_device_id cpu_architecture d.

(** ** TLS, as an interface *)

Class Tls := {
  tls_config : Type;
  tls_conn : Type;
  pem_certs : list byte → string + list (list byte);
  pem_private_key : list byte → string + option (list byte);
  with_client_auth_cert : list (list byte) → list byte → string + tls_config;
  server_name : string → option string;
  client_connection : tls_config → string + tls_conn;
  is_handshaking : tls_conn → bool;
  complete_io : ST (tls_conn * stream) io_error unit;
  stream_owned : tls_conn → stream → stream;
  (** how many more times [complete_io] can return while handshaking *)
  flights : tls_conn → nat
}.

(** A handshake has finitely many flights. *)
Class TlsLaws (T : Tls) := {
  complete_io_progress c s c' s' :
    is_handshaking c = true → complete_io (c, s) = (Ok tt, (c', s')) → is_handshaking c' = true →
    (flights c' < flights c)%nat;
  complete_io_returns c s :
    (complete_io (c, s)).1 ≠ OutOfFuel ∧ (complete_io (c, s)).1 ≠ Panic
}.

(** ** The session ([session.rs]) *)

Inductive Stream : Type :=
  | Plain (s : MuxSocket)
  | TlsStream (s : stream)
  | Upgrading.

Record LockdownSession : Type := MkSession {
  ls_stream : Stream;
  session_id : option string;
  ls_device_id : Z;
  pair_record : option PairRecord
}.

Definition set_stream (st : Stream) (s : LockdownSession) : LockdownSession :=
  MkSession st (session_id s) (ls_device_id s) (pair_record s).
Definition set_session_id (i : option string) (s : LockdownSession) : LockdownSession :=
  MkSession (ls_stream s) i (ls_device_id s) (pair_record s).
Definition set_pair_record (p : option PairRecord) (s : LockdownSession) : LockdownSession :=
  MkSession (ls_stream s) (session_id s) (ls_device_id s) p.

(** Reading or writing: [unreachable!] during an upgrade. *)
Definition on_stream {E A} (m : ST stream E A) : ST LockdownSession E A := λ s,
  match ls_stream s with
  | Plain k => let '(r, k') := m (mux_stream k) in (r, set_stream (Plain (set_mux_stream k' k)) s)
  | TlsStream k => let '(r, k') := m k in (r, set_stream (TlsStream k') s)
  | Upgrading => (Panic, s)
  end.

Section framing.
Context `{PlistLib}.

Definition ld_read_exact (n : Z) : ST stream Error (list byte) := read_exact Io Closed n.

Definition send_plist (value : pval) : ST stream Error unit :=
  let! body := lift (ok_or (to_writer_xml value) PlistError) in
  let len := wrap 32 (lenZ body) in
  smap_err Io (write_all (be_bytes 4 len)) ;;;
  smap_err Io (write_all body) ;;;
  smap_err Io flush.

Definition recv_plist : ST stream Error pval :=
  let! len_buf := ld_read_exact 4 in
  let! body := ld_read_exact (be_val len_buf) in
  lift (ok_or (from_bytes body) PlistError).
End framing.

(** The bodies of the requests. *)
Definition opt_field (k : string) (o : option string) : dictionary :=
  match o with Some s => [k =>> PString s] | None => [] end.

Definition StartSessionReq (host_id system_buid : string) : pval :=
  PDict ["Request" =>> PString "StartSession"; "HostID" =>> PString host_id;
         "SystemBUID" =>> PString system_buid; "Label" =>> PString "devicelink"].
Definition StopSessionReq (session_id : string) : pval :=
  PDict ["Request" =>> PString "StopSession"; "SessionID" =>> PString session_id;
         "Label" =>> PString "devicelink"].
Definition Request (request : string) (domain key label service : option string) : pval :=
  PDict (["Request" =>> PString request] ++ opt_field "Domain" domain ++ opt_field "Key" key
         ++ opt_field "Label" label ++ opt_field "Service" service).
Definition SetValueRequest (domain : option string) (key : string) (value : pval) : pval :=
  PDict (["Request" =>> PString "SetValue"] ++ opt_field "Domain" domain
         ++ ["Key" =>> PString key; "Value" =>> value; "Label" =>> PString "devicelink"]).
Definition QueryTypeReq : pval := PDict ["Request" =>> PString "QueryType"].

Record BaseResponse : Type := MkBaseResponse {
  error : option string;
  value : option pval;
  resp_port : option Z;
  resp_enable_service_ssl : option bool;
  resp_session_id : option string;
  enable_session_ssl : option bool
}.

Definition de_BaseResponse (v : pval) : option BaseResponse :=
  d ← as_dictionary v;
  e ← de_opt de_string "Error" d;
  v ← de_opt Some "Value" d;
  p ← de_opt (de_uint 16) "Port" d;
  s ← de_opt de_bool "EnableServiceSSL" d;
  i ← de_opt de_string "SessionID" d;
  x ← de_opt de_bool "EnableSessionSSL" d;
  Some (MkBaseResponse e v p s i x).

Section session.
Context `{PlistLib} `{Tls} {W : Type} `{Os W}.

(** [plist::from_value] into the response, and its error field. *)
Definition expect_response : ST LockdownSession Error BaseResponse :=
  let! val := on_stream recv_plist in
  let! resp := lift (ok_or (de_BaseResponse val) (Lockdown (msg0 "response parse error"))) in
  match error resp with
  | Some err => sfail (Lockdown (Msg "{}" [FStr err]))
  | None => sret resp
  end.

Definition build_tls_config (pair : PairRecord) : outcome Error tls_config :=
  let? cert_chain :=
    match pem_certs (host_certificate pair) with
    | inl e => Err (TlsError (Msg "cert parse: {e}" [FStr e]))
    | inr l => Ok l
    end in
  match cert_chain with
  | [] => Err (TlsError (msg0 "no certificate found in pair record HostCertificate"))
  | _ =>
      let? private_key :=
        match pem_private_key (host_private_key pair) with
        | inl e => Err (TlsError (Msg "key parse: {e}" [FStr e]))
        | inr None => Err (TlsError (msg0 "no private key in pair record HostPrivateKey"))
        | inr (Some k) => Ok k
        end in
      match with_client_auth_cert cert_chain private_key with
      | inl e => Err (TlsError (Msg "{e}" [FStr e]))
      | inr c => Ok c
      end
  end.

(** [ServerName::try_from("localhost")] and [ClientConnection::new] *)
Definition new_client (config : tls_config) : outcome Error tls_conn :=
  match server_name "localhost" with
  | Some e => Err (TlsError (Msg "{e}" [FStr e]))
  | None =>
      match client_connection config with
      | inl e => Err (TlsError (Msg "{e}" [FStr e]))
      | inr c => Ok c
      end
  end.

(** [while conn.is_handshaking() { conn.complete_io(&mut sock)? }] *)
Fixpoint tls_handshake_fuel (fuel : nat) : ST (tls_conn * stream) io_error unit := λ cs,
  if is_handshaking cs.1 then
    match fuel with
    | O => (OutOfFuel, cs)
    | S fuel => (complete_io ;;; tls_handshake_fuel fuel) cs
    end
  else (Ok tt, cs).
Definition tls_handshake : ST (tls_conn * stream) io_error unit :=
  λ cs, tls_handshake_fuel (S (flights cs.1)) cs.

Definition upgrade_to_tls (pair : PairRecord) : ST LockdownSession Error unit :=
  let! config := lift (build_tls_config pair) in
  let! s := sget in
  match ls_stream s with
  | Plain plain =>
      smodify (set_stream Upgrading) ;;;
      let! conn := lift (new_client config) in
      match tls_handshake (conn, mux_stream plain) with
      | (Ok _, (conn, sock)) =>
          smodify (set_stream (TlsStream (stream_owned conn sock)))
      | (Err e, (_, sock)) =>
          smodify (set_stream (Plain (set_mux_stream sock plain))) ;;;
          sfail (TlsError (Msg "TLS handshake: {e}" [FStr (what e)]))
      | (Panic, _) => lift Panic
      | (OutOfFuel, _) => lift OutOfFuel
      end
  | _ => sret tt
  end.

Definition start_session (pair : PairRecord) : ST LockdownSession Error string :=
  on_stream (send_plist (StartSessionReq (host_id pair) (system_buid pair))) ;;;
  let! resp := expect_response in
  let! sid := lift (ok_or (resp_session_id resp)
                      (Lockdown (msg0 "StartSession: no SessionID"))) in
  smodify (set_session_id (Some sid)) ;;;
  smodify (set_pair_record (Some pair)) ;;;
  (if default false (enable_session_ssl resp) then upgrade_to_tls pair else sret tt) ;;;
  sret sid.

Definition stop_session : ST LockdownSession Error unit :=
  let! s := sget in
  match session_id s with
  | None => sret tt
  | Some sid =>
      smodify (set_session_id None) ;;;
      match ls_stream s with
      | Upgrading => sret tt
      | _ =>
          on_stream (send_plist (StopSessionReq sid)) ;;;
          signore (on_stream recv_plist)
      end
  end.

(** [Drop] *)
Definition drop_session : ST LockdownSession Error unit := signore stop_session.

Definition get_all_values : ST LockdownSession Error DeviceInfo :=
  on_stream (send_plist (Request "GetValue" None None (Some "devicelink"%string) None)) ;;;
  let! resp := expect_response in
  match value resp with
  | Some (PDict d) => sret (from_dict d)
  | _ => sfail (Lockdown (msg0 "GetValue returned unexpected payload"))
  end.

Definition set_value (domain : option string) (key : string) (v : pval) :
    ST LockdownSession Error unit :=
  on_stream (send_plist (SetValueRequest domain key v)) ;;;
  let! resp := expect_response in
  match error resp with
  | Some e => sfail (Lockdown (Msg "SetValue({key}): {e}" [FStr key; FStr e]))
  | None => sret tt
  end.

Definition get_value (domain : option string) (key : string) :
    ST LockdownSession Error pval :=
  on_stream (send_plist (Request "GetValue" domain (Some key) (Some "devicelink"%string) None)) ;;;
  let! resp := expect_response in
  lift (ok_or (value resp) (Lockdown (Msg "no Value for key {key}" [FStr key]))).

Definition list_services : ST LockdownSession Error (list string) :=
  let! r := stry (get_value (Some "com.apple.mobile.lockdown"%string) "Services") in
  match r with
  | inr (PDict d) => sret (al_keys d)
  | _ =>
      on_stream (send_plist (Request "GetValue" None None (Some "devicelink"%string) None)) ;;;
      let! resp := expect_response in
      match value resp with
      | Some (PDict d) =>
          match dget "Services" d with
          | Some (PDict svc) => sret (al_keys svc)
          | _ => sret []
          end
      | _ => sret []
      end
  end.

Definition start_service (name : string) : ST LockdownSession Error ServiceInfo :=
  on_stream (send_plist
    (Request "StartService" None None (Some "devicelink"%string) (Some name))) ;;;
  let! resp := expect_response in
  match resp_port resp with
  | Some port => sret (MkServiceInfo port (default false (resp_enable_service_ssl resp)))
  | None =>
      sfail (Lockdown (Msg "StartService({name}) failed: {}"
               [FStr name; FStr (default "no port returned"%string (error resp))]))
  end.

Definition query_type : ST LockdownSession Error string :=
  on_stream (send_plist QueryTypeReq) ;;;
  let! val := on_stream recv_plist in
  match val with
  | PDict d =>
      lift (ok_or (dget "Type" d ≫= as_string)
              (Lockdown (msg0 "QueryType: no Type field")))
  | _ => sfail (Lockdown (msg0 "QueryType: unexpected response"))
  end.

Definition send_raw (v : pval) : ST LockdownSession Error unit := on_stream (send_plist v).
Definition recv_raw : ST LockdownSession Error pval := on_stream recv_plist.

(** ** Operations that open connections to usbmuxd *)

(** [Connection::open] followed by an operation on the connection.  The
    connection ends with the operation; the tunnel's socket is its result. *)
Definition mux_tunnel (device_id port : Z) : ST W Error MuxSocket :=
  let! m := smap_err (λ e, Usbmux (EIo e)) mux_connect in
  match open_tunnel device_id port (from_stream (mux_stream m)) with
  | (Ok s, _) => sret (set_mux_stream s m)
  | (Err e, _) => sfail (Usbmux e)
  | (Panic, _) => lift Panic
  | (OutOfFuel, _) => lift OutOfFuel
  end.

Definition ld_connect (device_id : Z) : ST W Error LockdownSession :=
  let! stream := mux_tunnel device_id LOCKDOWN_PORT in
  sret (MkSession (Plain stream) None device_id None).

Definition read_from_usbmuxd (udid : string) : ST W Error PairRecord :=
  let! m := smap_err (λ e, Usbmux (EIo e)) mux_connect in
  match conn_read_pair_record udid (from_stream (mux_stream m)) with
  | (Ok raw, _) => lift (from_plist_bytes raw)
  | (Err e, _) => sfail (Usbmux e)
  | (Panic, _) => lift Panic
  | (OutOfFuel, _) => lift OutOfFuel
  end.

Definition open_paired (device_id : Z) (udid : string) : ST W Error LockdownSession :=
  let! session := ld_connect device_id in
  let! pr := read_from_usbmuxd udid in
  match start_session pr session with
  | (Ok _, session) => sret session
  | (Err e, _) => sfail e
  | (Panic, _) => lift Panic
  | (OutOfFuel, _) => lift OutOfFuel
  end.

(** The state is the system and the session. *)
Definition on_session {E A} (m : ST LockdownSession E A) : ST (W * LockdownSession) E A :=
  zoom snd (λ s ws, (ws.1, s)) m.
Definition on_os {E A} (m : ST W E A) : ST (W * LockdownSession) E A :=
  zoom fst (λ w ws, (w, ws.2)) m.

Definition connect_service (name : string) : ST (W * LockdownSession) Error MuxSocket :=
  let! svc := on_session (start_service name) in
  let! ws := sget in
  let! socket := on_os (mux_tunnel (ls_device_id ws.2) (svc_port svc)) in
  if enable_service_ssl svc then
    let! pr := lift (ok_or (pair_record ws.2)
      (TlsError (Msg "service {name} requires SSL but no pair record" [FStr name]))) in
    let! config := lift (build_tls_config pr) in
    let! conn := lift (new_client config) in
    match tls_handshake (conn, mux_stream socket) with
    | (Ok _, (conn, sock)) => sret (external (stream_owned conn sock))
    | (Err e, _) => sfail (TlsError (Msg "service TLS handshake: {e}" [FStr (what e)]))
    | (Panic, _) => lift Panic
    | (OutOfFuel, _) => lift OutOfFuel
    end
  else sret socket.
End session.

(** ** Device information *)

Definition info_keys : list string :=
  ["DeviceName"; "ProductType"; "ProductVersion"; "SerialNumber"; "HardwareModel";
   "UniqueDeviceID"; "CPUArchitecture"]%string.

Lemma al_lookup_remove {V} (k k' : string) (d : list (string * V)) :
  al_wf d → al_lookup k' (al_remove k d) = if decide (k = k') then None else al_lookup k' d.
Proof.
  unfold al_wf. induction d as [|[k0 v] d IH]; simpl; [by case_decide|].
  intros [Hk Hd]%NoDup_cons. destruct (decide (k = k0)) as [->|Hne].
  - destruct (decide (k0 = k')) as [->|Hne'].
    + by apply al_lookup_None.
    + by rewrite decide_False by done.
  - simpl. rewrite IH by done. destruct (decide (k' = k0)) as [->|]; [|done].
    by rewrite decide_False by done.
Qed.

Lemma al_remove_keys {V} (k k' : string) (d : list (string * V)) :
  k' ∈ al_keys (al_remove k d) → k' ∈ al_keys d.
Proof.
  induction d as [|[k0 v] d IH]; simpl; [done|]. case_decide; simpl; [by right|].
  rewrite !elem_of_cons. naive_solver.
Qed.

Lemma al_remove_wf {V} (k : string) (d : list (string * V)) : al_wf d → al_wf (al_remove k d).
Proof.
  unfold al_wf. induction d as [|[k0 v] d IH]; simpl; [done|].
  intros [Hk Hd]%NoDup_cons. case_decide; [done|]. simpl. apply NoDup_cons. split; [|auto].
  contradict Hk. by eapply al_remove_keys.
Qed.

(** [from_dict] loses nothing it does not name: a key that is not one of
    the seven fields keeps its value in [extra], and these seven are not in
    [extra], so a field whose value is no string disappears. *)
Theorem from_dict_extra d k :
  al_wf d →
  dget k (extra (from_dict d)) = if decide (k ∈ info_keys) then None else dget k d.
Proof.
  intros Hwf. unfold from_dict, take_str, dget. cbn [extra].
  repeat (rewrite al_lookup_remove by (repeat apply al_remove_wf; done)).
  unfold info_keys. repeat (case_decide; subst; [rewrite decide_True; [done|]; set_solver|]).
  rewrite decide_False; [done|]. rewrite !not_elem_of_cons.
  split_and!; try congruence. apply not_elem_of_nil.
Qed.

(** ** Framing *)

Section framing_spec.
Context `{PlistLaws}.

Definition ld_frame (v : pval) : list byte := be_bytes 4 (lenZ (xml v)) ++ xml v.
Definition ld_ok (v : pval) : Prop := plain v = true ∧ lenZ (xml v) < 2 ^ 32.

Lemma send_plist_healthy v s :
  ld_ok v → healthy s → send_plist v s = (Ok tt, append_tx (ld_frame v) s).
Proof.
  intros [Hv Hlen] Hs. unfold send_plist, sbind, lift. rewrite to_writer_xml_plain by done.
  cbn [ok_or]. pose proof (lenZ_nonneg (xml v)).
  rewrite wrap_small by (unfold in_u; lia). unfold smap_err.
  rewrite write_all_healthy by done. cbn [omap_err]. rewrite write_all_healthy by done.
  cbn [omap_err]. rewrite flush_healthy by done. by rewrite append_tx_app.
Qed.

Lemma recv_plist_frame v s l r :
  ld_ok v → delivers (rx s) (ld_frame v ++ l) r →
  ∃ r1, recv_plist s = (Ok v, set_rx r1 s) ∧ delivers r1 l r.
Proof.
  intros [Hv Hlen] Hd. unfold ld_frame in Hd. rewrite <-(assoc_L (++)) in Hd.
  pose proof (lenZ_nonneg (xml v)).
  destruct (read_exact_delivers Io Closed 4 _ _ _ _ Hd) as (r1 & Hr1 & Hd1); [len|].
  destruct (read_exact_delivers Io Closed (lenZ (xml v)) (set_rx r1 s) _ _ _ Hd1)
    as (r2 & Hr2 & Hd2); [done|].
  exists r2. split; [|done]. unfold recv_plist, sbind, ld_read_exact, lift. rewrite Hr1.
  rewrite be_val_be_bytes_small by (unfold in_u; lia).
  rewrite Hr2. by rewrite from_bytes_xml.
Qed.
End framing_spec.

(** The stream of a session that is not being upgraded. *)
Definition inner (s : LockdownSession) : option stream :=
  match ls_stream s with
  | Plain k => Some (mux_stream k)
  | TlsStream k => Some k
  | Upgrading => None
  end.
Definition set_inner (k : stream) (s : LockdownSession) : LockdownSession :=
  match ls_stream s with
  | Plain m => set_stream (Plain (set_mux_stream k m)) s
  | TlsStream _ => set_stream (TlsStream k) s
  | Upgrading => s
  end.

Lemma inner_set_inner k s : is_Some (inner s) → inner (set_inner k s) = Some k.
Proof. unfold inner, set_inner. intros [? ?]. destruct (ls_stream s) as [[]| |]; done. Qed.
Lemma set_inner_set_inner k k' s : set_inner k (set_inner k' s) = set_inner k s.
Proof. unfold set_inner. by destruct s as [[[]| |] ? ? ?]. Qed.

Lemma on_stream_ok {E A} (m : ST stream E A) s k r k' :
  inner s = Some k → m k = (r, k') → on_stream m s = (r, set_inner k' s).
Proof.
  unfold inner, on_stream, set_inner. intros Hs Hm.
  destruct (ls_stream s) as [m0|k0|]; simplify_eq; by rewrite Hm.
Qed.

Section session_spec.
Context `{PlistLaws} `{Tls} {W : Type} `{Os W}.

(** One exchange: the request leaves, the response is what the device sent. *)
Lemma exchange req resp s k l r :
  inner s = Some k → healthy k → ld_ok req → ld_ok resp →
  delivers (rx k) (ld_frame resp ++ l) r →
  ∃ r1, (on_stream (send_plist req) ;;; on_stream recv_plist) s =
      (Ok resp, set_inner (append_tx (ld_frame req) (set_rx r1 k)) s) ∧ delivers r1 l r.
Proof.
  intros Hs Hk Hreq Hresp Hd.
  destruct (recv_plist_frame resp (append_tx (ld_frame req) k) l r Hresp Hd) as (r1 & Hr & Hd1).
  exists r1. split; [|done]. unfold sbind.
  rewrite (on_stream_ok _ _ _ _ _ Hs (send_plist_healthy _ _ Hreq Hk)).
  erewrite on_stream_ok; [|apply inner_set_inner; by eexists|done].
  by rewrite set_inner_set_inner.
Qed.

(** What a response means for a request that looks for [f] in it. *)
Definition response_to {A} (f : BaseResponse → outcome Error A) (resp : pval) :
    outcome Error A :=
  match de_BaseResponse resp with
  | None => Err (Lockdown (msg0 "response parse error"))
  | Some b =>
      match error b with
      | Some e => Err (Lockdown (Msg "{}" [FStr e]))
      | None => f b
      end
  end.

Lemma request_response {A} (f : BaseResponse → outcome Error A) req resp s k l r :
  inner s = Some k → healthy k → ld_ok req → ld_ok resp →
  delivers (rx k) (ld_frame resp ++ l) r →
  ∃ r1, (on_stream (send_plist req) ;;; let! b := expect_response in lift (f b)) s =
      (response_to f resp, set_inner (append_tx (ld_frame req) (set_rx r1 k)) s) ∧
    delivers r1 l r.
Proof.
  intros Hs Hk Hreq Hresp Hd.
  destruct (exchange req resp s k l r) as (r1 & He & Hd1); [done..|].
  exists r1. split; [|done]. unfold sbind at 1 in He. unfold sbind at 1.
  destruct (on_stream (send_plist req) s) as [[[]| | |] s1]; try done.
  unfold expect_response, sbind. rewrite He. unfold response_to, lift.
  destruct (de_BaseResponse resp) as [b|]; [|done]. simpl. by destruct (error b).
Qed.

(** [get_value] sends the one request and returns the value of the
    response, or its error, over a plain and over a TLS stream alike,
    however the response is cut into reads. *)
Theorem get_value_exchange domain key resp s k l r :
  inner s = Some k → healthy k →
  ld_ok (Request "GetValue" domain (Some key) (Some "devicelink"%string) None) → ld_ok resp →
  delivers (rx k) (ld_frame resp ++ l) r →
  ∃ r1, get_value domain key s =
      (response_to (λ b, ok_or (value b) (Lockdown (Msg "no Value for key {key}" [FStr key]))) resp,
       set_inner (append_tx (ld_frame
         (Request "GetValue" domain (Some key) (Some "devicelink"%string) None)) (set_rx r1 k)) s) ∧
    delivers r1 l r.
Proof. intros. by apply request_response. Qed.

(** ** Upgrading to TLS *)

Lemma tls_handshake_total `{!TlsLaws H0} fuel cs :
  (flights cs.1 < fuel)%nat →
  (tls_handshake_fuel fuel cs).1 ≠ OutOfFuel ∧ (tls_handshake_fuel fuel cs).1 ≠ Panic.
Proof.
  revert cs. induction fuel as [|fuel IH]; intros [c s0] Hf; [lia|]. cbn [tls_handshake_fuel].
  destruct (is_handshaking (c, s0).1) eqn:Hh; [|done]. simpl in *.
  destruct (complete_io_returns c s0) as [Ho Hp]. unfold sbind.
  destruct (complete_io (c, s0)) as [[[]| | |] [c' s']] eqn:Hc; try done.
  destruct (is_handshaking c') eqn:Hh'.
  - apply IH. simpl. pose proof (complete_io_progress _ _ _ _ Hh Hc Hh'). lia.
  - destruct fuel; cbn [tls_handshake_fuel]; simpl; by rewrite Hh'.
Qed.

(** C17. An upgrade that reaches the handshake ends it, whatever the peer
    does, and leaves the session usable: on TLS when it succeeds, on the
    plain socket when it fails. *)
Theorem upgrade_leaves_usable `{!TlsLaws H0} pr s m config conn :
  ls_stream s = Plain m → build_tls_config pr = Ok config → new_client config = Ok conn →
  ∃ r s', upgrade_to_tls pr s = (r, s') ∧ is_Some (inner s') ∧ r ≠ Panic ∧ r ≠ OutOfFuel ∧
    match r with
    | Ok _ => ∃ k, ls_stream s' = TlsStream k
    | _ => ∃ k, ls_stream s' = Plain (set_mux_stream k m)
    end ∧ session_id s' = session_id s ∧ pair_record s' = pair_record s.
Proof.
  intros Hs Hb Hc. unfold upgrade_to_tls. rewrite Hb. unfold sbind, lift, sget. rewrite Hs.
  unfold smodify. rewrite Hc.
  destruct (tls_handshake_total (S (flights conn)) (conn, mux_stream m) ltac:(simpl; lia))
    as [Ho Hp]. unfold tls_handshake. cbn [fst].
  destruct (tls_handshake_fuel (S (flights conn)) (conn, mux_stream m))
    as [[[]|e| |] [c' k']]; try done.
  - eexists _, _. split; [done|]. split_and!; try done; by eexists.
  - eexists _, _. split; [done|]. split_and!; try done; by eexists.
Qed.

(** When the TLS client cannot be created, the session is left in the
    state that is never to be seen: the next operation panics. *)
Theorem tls_init_failure_poisons pr s m config e domain key :
  ls_stream s = Plain m → build_tls_config pr = Ok config → new_client config = Err e →
  upgrade_to_tls pr s = (Err e, set_stream Upgrading s) ∧
  get_value domain key (set_stream Upgrading s) = (Panic, set_stream Upgrading s).
Proof.
  intros Hs Hb Hc. split; [|done]. unfold upgrade_to_tls. rewrite Hb.
  unfold sbind, lift, sget. rewrite Hs. unfold smodify. by rewrite Hc.
Qed.

(** Starting a session records its id and the pair record and upgrades
    the stream exactly when the device asks for it; a failed upgrade keeps
    both, so the session is still stopped later. *)
Theorem start_session_records pr resp b sid s k l r :
  let req := StartSessionReq (host_id pr) (system_buid pr) in
  inner s = Some k → healthy k → ld_ok req → ld_ok resp →
  de_BaseResponse resp = Some b → error b = None → resp_session_id b = Some sid →
  delivers (rx k) (ld_frame resp ++ l) r →
  ∃ r1, delivers r1 l r ∧
    let s1 := set_pair_record (Some pr) (set_session_id (Some sid)
                (set_inner (append_tx (ld_frame req) (set_rx r1 k)) s)) in
    start_session pr s =
      match enable_session_ssl b with
      | Some true => (upgrade_to_tls pr ;;; sret sid) s1
      | _ => (Ok sid, s1)
      end.
Proof.
  intros req Hs Hk Hreq Hresp Hb He Hsid Hd.
  destruct (exchange req resp s k l r) as (r1 & Hx & Hd1); [done..|].
  exists r1. split; [done|]. unfold start_session. unfold sbind at 1 in Hx. unfold sbind at 1.
  fold req. destruct (on_stream (send_plist req) s) as [[[]| | |] s1]; try done.
  unfold expect_response. unfold sbind at 1, sbind at 1. rewrite Hx.
  unfold sbind at 1, lift at 1. rewrite Hb. cbn [ok_or]. rewrite He. unfold sret at 1.
  unfold sbind at 1, lift. rewrite Hsid. cbn [ok_or]. unfold smodify, sbind.
  by destruct (enable_session_ssl b) as [[]|].
Qed.

Lemma on_stream_session_id {E A} (m : ST stream E A) s :
  session_id (on_stream m s).2 = session_id s.
Proof.
  unfold on_stream. destruct (ls_stream s) as [k|k|]; [| |done].
  - by destruct (m (mux_stream k)).
  - by destruct (m k).
Qed.

Lemma sbind_session_id {E A B} (m : ST LockdownSession E A) (f : A → ST LockdownSession E B) s :
  session_id (m s).2 = session_id s → (∀ a s, session_id (f a s).2 = session_id s) →
  session_id (sbind m f s).2 = session_id s.
Proof.
  unfold sbind. intros Hm Hf. destruct (m s) as [[a| | |] s1]; simpl in *; try done.
  by rewrite Hf.
Qed.

(** A session is stopped at most once: after [stop_session], even one
    that failed, no session id is left and stopping again (as [Drop] does)
    sends nothing. *)
Theorem stop_session_once s r s' :
  stop_session s = (r, s') → session_id s' = None ∧ stop_session s' = (Ok tt, s').
Proof.
  assert (∀ s, session_id s = None → stop_session s = (Ok tt, s)) as Hnone.
  { intros s0 H0'. unfold stop_session, sbind, sget. by rewrite H0'. }
  intros Hst. assert (session_id s' = None) as Hn; [|by auto].
  unfold stop_session, sbind at 1, sget in Hst. destruct (session_id s) as [sid|] eqn:Hsid;
    [|unfold sret in Hst; by simplify_eq].
  unfold sbind at 1, smodify in Hst.
  assert (∀ q, session_id ((on_stream (send_plist q) ;;; signore (E:=Error) (F:=Error)
    (on_stream recv_plist)) (set_session_id None s)).2 = None) as Hk.
  { intros q. rewrite sbind_session_id; [done|apply on_stream_session_id|].
    intros _ s0. rewrite <-(on_stream_session_id recv_plist s0). unfold signore.
    by destruct (on_stream recv_plist s0) as [[] ?]. }
  specialize (Hk (StopSessionReq sid)).
  destruct (ls_stream s); [by rewrite Hst in Hk..|unfold sret in Hst; by simplify_eq].
Qed.
End session_spec.

(** ** Concrete inputs *)

(** A TLS library whose handshake takes three flights and whose records are
    the plain bytes. *)
Module ToyTls.
#[export] Instance lib : Tls := {|
  tls_config := unit;
  tls_conn := nat;
  pem_certs l := inr [l];
  pem_private_key l := inr (Some l);
  with_client_auth_cert _ _ := inr tt;
  server_name _ := None;
  client_connection _ := inr 3%nat;
  is_handshaking c := (0 <? c)%nat;
  complete_io cs := (Ok tt, (Nat.pred cs.1, cs.2));
  stream_owned _ s := s;
  flights c := c
|}.

#[export] Instance laws : TlsLaws lib.
Proof.
  split; [|done]. intros c s c' s' Hc Hio _. simpl in *. injection Hio as <- <-.
  apply Nat.ltb_lt in Hc. lia.
Qed.

(** The same library without client connections. *)
Definition broken : Tls := {|
  tls_config := unit;
  tls_conn := nat;
  pem_certs l := inr [l];
  pem_private_key l := inr (Some l);
  with_client_auth_cert _ _ := inr tt;
  server_name _ := None;
  client_connection _ := inl "no provider"%string;
  is_handshaking c := (0 <? c)%nat;
  complete_io cs := (Ok tt, (Nat.pred cs.1, cs.2));
  stream_owned _ s := s;
  flights c := c
|}.
End ToyTls.

Section witnesses.
Import BitPlist ToyTls.

Definition sample_pair : PairRecord := MkPairRecord "host" "buid" [x01] [x02] [x03] [x04].
Definition sample_value : pval :=
  PDict ["Request" =>> PString "GetValue"; "Value" =>> PString "17.4"].
Definition sample_start : pval :=
  PDict ["SessionID" =>> PString "S1"; "EnableSessionSSL" =>> PBool true].
Definition session_on (v : pval) : LockdownSession :=
  MkSession (Plain (Tcp (idle [RData (ld_frame v)]))) None 1 None.

Lemma from_dict_extra_witness :
  dget "Color" (extra (from_dict ["DeviceName" =>> PInt 3; "Color" =>> PString "red"])) =
    Some (PString "red").
Proof.
  etransitivity; [apply from_dict_extra|vm_compute; reflexivity].
  apply (bool_decide_unpack _). vm_compute. exact I.
Defined.

Lemma get_value_exchange_witness :
  ∃ r1, get_value None "ProductVersion" (session_on sample_value) =
      (Ok (PString "17.4"),
       set_inner (append_tx (ld_frame (Request "GetValue" None (Some "ProductVersion"%string)
         (Some "devicelink"%string) None)) (set_rx r1 (idle [RData (ld_frame sample_value)])))
         (session_on sample_value)) ∧
    delivers r1 [] [].
Proof.
  apply (get_value_exchange None "ProductVersion" sample_value (session_on sample_value)
    (idle [RData (ld_frame sample_value)]) [] []).
  - reflexivity.
  - reflexivity.
  - split; vm_compute; reflexivity.
  - split; vm_compute; reflexivity.
  - rewrite app_nil_r. apply delivers_one. vm_compute. discriminate.
Defined.

Lemma upgrade_leaves_usable_witness :
  ∃ r s', upgrade_to_tls (H0:=ToyTls.lib) sample_pair (session_on sample_value) = (r, s') ∧
    is_Some (inner s') ∧ r ≠ Panic ∧ r ≠ OutOfFuel ∧
    match r with
    | Ok _ => ∃ k, ls_stream s' = TlsStream k
    | _ => ∃ k, ls_stream s' = Plain (set_mux_stream k (Tcp (idle [RData (ld_frame sample_value)])))
    end ∧ session_id s' = None ∧ pair_record s' = None.
Proof.
  apply (upgrade_leaves_usable (H0:=ToyTls.lib) sample_pair (session_on sample_value) _ tt 3%nat);
    reflexivity.
Defined.

Lemma tls_init_failure_poisons_witness :
  upgrade_to_tls (H0:=ToyTls.broken) sample_pair (session_on sample_value) =
    (Err (TlsError (Msg "{e}" [FStr "no provider"])),
     set_stream Upgrading (session_on sample_value)) ∧
  get_value None "k" (set_stream Upgrading (session_on sample_value)) =
    (Panic, set_stream Upgrading (session_on sample_value)).
Proof.
  apply (tls_init_failure_poisons (H0:=ToyTls.broken) sample_pair (session_on sample_value)
    (Tcp (idle [RData (ld_frame sample_value)])) tt); reflexivity.
Defined.

Lemma start_session_records_witness :
  let req := StartSessionReq "host" "buid" in
  ∃ r1, delivers r1 [] [] ∧
    let s1 := set_pair_record (Some sample_pair) (set_session_id (Some "S1"%string)
                (set_inner (append_tx (ld_frame req) (set_rx r1 (idle [RData (ld_frame sample_start)])))
                   (session_on sample_start))) in
    start_session (H0:=ToyTls.lib) sample_pair (session_on sample_start) =
      (upgrade_to_tls (H0:=ToyTls.lib) sample_pair ;;; sret "S1"%string) s1.
Proof.
  apply (start_session_records (H0:=ToyTls.lib) sample_pair sample_start
    (MkBaseResponse None None None None (Some "S1"%string) (Some true)) "S1"
    (session_on sample_start) (idle [RData (ld_frame sample_start)]) [] []);
    try reflexivity.
  - split; vm_compute; reflexivity.
  - split; vm_compute; reflexivity.
  - rewrite app_nil_r. apply delivers_one. vm_compute. discriminate.
Defined.

Lemma stop_session_once_witness :
  session_id (stop_session (session_on sample_value)).2 = None ∧
  stop_session (stop_session (session_on sample_value)).2 =
    (Ok tt, (stop_session (session_on sample_value)).2).
Proof.
  apply (stop_session_once (session_on sample_value) (stop_session (session_on sample_value)).1).
  destruct (stop_session (session_on sample_value)). reflexivity.
Defined.
End witnesses.
