(* ===== verification/Pairing.v ===== *)
(** * Pairing ([src/lockdown/pairing.rs])

    The certificates, the PKCS#7 message of a supervised pairing, and the
    three entry points [pair], [pair_supervised] and [unpair] over the usbmuxd
    connection of [UsbmuxConn], the session of [Lockdown] and the operating
    system.  The [rsa] and [sha1] crates, the clock and the random numbers are
    the class [PairingEnv]; closing a socket hands it to the world ([hang_up]),
    which is how a theorem can say what a peer has been sent. *)

From S2P Require Import Prelude RustStd Io Plist UsbmuxTypes UsbmuxConn Os Der Lockdown.
From S2P Require UsbmuxCodec.

Class PairingEnv (W : Type) := {
  rsa_private : Type;
  rsa_public : Type;
  rsa_generate : ST W string rsa_private;
  to_public_key : rsa_private → rsa_public;
  from_pkcs1_pem : string → string + rsa_public;
  to_public_key_der : rsa_public → string + list byte;
  to_pkcs1_pem : rsa_private → string + string;
  private_pkcs8_pem : string → string + rsa_private;
  private_pkcs1_pem : string → string + rsa_private;
  private_pkcs8_der : list byte → string + rsa_private;
  private_pkcs1_der : list byte → string + rsa_private;
  (** [Signer::sign] panics when the key cannot sign *)
  sign_sha1 : rsa_private → list byte → option (list byte);
  sha1 : list byte → list byte;
  (** the [Debug] text of a property list value *)
  debug_value : pval → string;
  (** the microseconds since the epoch, [None] before it *)
  clock : W → option Z * W;
  hang_up : stream → W → W
}.

Definition err (m : message) : Error := Lockdown m.

(** [map_err(|e| err(..))] on a result of one of the crates *)
Definition of_sum {A} (t : string) (r : string + A) : outcome Error A :=
  match r with inl e => Err (err (Msg t [FStr e])) | inr a => Ok a end.

Inductive CertKind : Type := Root | Leaf.

Section certs.
Context `{BuildProfile} {W : Type} `{PairingEnv W}.

(** ** Certificates *)

Definition ski_hash (spki_der : list byte) : outcome Error (list byte) :=
  match extract_spki_bits spki_der with
  | Ok inner => Ok (sha1 inner)
  | Err _ => Ok (sha1 spki_der)
  | Panic => Panic
  | OutOfFuel => OutOfFuel
  end.

Definition build_extensions (ski : list byte) (kind : CertKind) :
    outcome Error (list (list byte)) :=
  let? ski_oid := der_oid [2; 5; 29; 14] in
  let ext := der_seq [ski_oid; der_tag x04 (der_tag x04 ski)] in
  match kind with
  | Root =>
      let bc_inner := der_seq [der_bool true] in
      let? oid := der_oid [2; 5; 29; 19] in
      Ok [ext; der_seq [oid; der_bool true; der_tag x04 bc_inner]]
  | Leaf =>
      let ku_bits := der_tag x03 [x05; xa0] in
      let? oid := der_oid [2; 5; 29; 15] in
      Ok [ext; der_seq [oid; der_bool true; der_tag x04 ku_bits]]
  end.

Definition build_cert (pub_key : rsa_public) (kind : CertKind) (signing_key : rsa_private)
    (not_before not_after : Z) : outcome Error (list byte) :=
  let? spki_der := of_sum "encode spki: {e}" (to_public_key_der pub_key) in
  let? ski := ski_hash spki_der in
  let? version := der_int [x02] in
  let? serial := der_int [x00] in
  let? alg := sha1_with_rsa_oid in
  let? not_before := der_utc_time not_before in
  let? not_after := der_utc_time not_after in
  let? exts := build_extensions ski kind in
  let tbs := der_seq [
    der_ctx 0 version;
    serial;
    alg;
    der_seq [];
    der_seq [not_before; not_after];
    der_seq [];
    spki_der;
    der_ctx 3 (der_seq exts)] in
  let? sig_bytes := or_panic (sign_sha1 signing_key tbs) in
  let bit_string_content := x00 :: sig_bytes in
  Ok (der_seq [tbs; alg; der_tag x03 bit_string_content]).

Definition unix_now {E} : ST W E Z := λ w,
  let '(t, w) := clock w in (Ok (default 0 t / 1000000), w).

(** [random_upper_uuid()]: two readings of the clock *)
Definition new_uuid {E} : ST W E string :=
  let! secs := unix_now in
  λ w, let '(t, w) := clock w in
       (Ok (random_upper_uuid secs (default 0 t mod 1000000)), w).

Record PairingCerts : Type := MkPairingCerts {
  root_cert : list byte; host_cert : list byte; device_cert : list byte;
  root_key : list byte; host_key : list byte
}.

Definition create_pairing_certs (device_pub_pem : list byte) : ST W Error PairingCerts :=
  let! root_key := smap_err (λ e, err (Msg "root keygen: {e}" [FStr e])) rsa_generate in
  let! host_key := smap_err (λ e, err (Msg "host keygen: {e}" [FStr e])) rsa_generate in
  let! pem := lift (ok_or (from_utf8 device_pub_pem) (err (msg0 "device key not utf8"))) in
  let! device_pub := lift (of_sum "parse device public key: {e}" (from_pkcs1_pem pem)) in
  let! now := unix_now in
  let! then_ := lift (u64_add now (10 * 365 * 24 * 3600)) in
  let! root_cert := lift (build_cert (to_public_key root_key) Root root_key now then_) in
  let! host_cert := lift (build_cert (to_public_key host_key) Leaf root_key now then_) in
  let! device_cert := lift (build_cert device_pub Leaf root_key now then_) in
  let! root_pem := lift (pem_encode "CERTIFICATE" root_cert) in
  let! host_pem := lift (pem_encode "CERTIFICATE" host_cert) in
  let! device_pem := lift (pem_encode "CERTIFICATE" device_cert) in
  let! root_key_pem := lift (of_sum "root key pem: {e}" (to_pkcs1_pem root_key)) in
  let! host_key_pem := lift (of_sum "host key pem: {e}" (to_pkcs1_pem host_key)) in
  sret (MkPairingCerts root_pem host_pem device_pem (bytes_of root_key_pem)
          (bytes_of host_key_pem)).

(** ** Supervised pairing *)

Definition extract_pairing_challenge (resp : dictionary) : outcome Error (list byte) :=
  let error := default ""%string (dget "Error" resp ≫= as_string) in
  if negb (bool_decide (error = "MCChallengeRequired"%string)) then
    Err (err (Msg "expected MCChallengeRequired, got: {error:?}" [FStr error]))
  else
    let? ext := ok_or (dget "ExtendedResponse" resp ≫= as_dictionary)
                  (err (msg0 "missing ExtendedResponse")) in
    match dget "PairingChallenge" ext with
    | Some (PData b) => Ok b
    | Some other =>
        Err (err (Msg "missing PairingChallenge: Some({other:?})" [FStr (debug_value other)]))
    | None => Err (err (msg0 "missing PairingChallenge: None"))
    end.

Definition parse_rsa_key_bytes (bytes : list byte) : outcome Error rsa_private :=
  let from_pem :=
    match from_utf8 bytes with
    | Some s =>
        if contains_sub (bytes_of "-----") bytes then
          match private_pkcs8_pem s with
          | inr k => Some k
          | inl _ =>
              match private_pkcs1_pem s with
              | inr k => Some k
              | inl _ => None
              end
          end
        else None
    | None => None
    end in
  match from_pem with
  | Some k => Ok k
  | None =>
      match private_pkcs8_der bytes with
      | inr k => Ok k
      | inl _ =>
          of_sum "parse supervision key (tried PEM+PKCS8+PKCS1 DER): {e}" (private_pkcs1_der bytes)
      end
  end.

(** [.ok_or_else(|| err(..))] on what the reader of DER returns *)
Definition or_bad {A} (t : string) (r : outcome unit A) : outcome Error A :=
  omap_err (λ _, err (msg0 t)) r.

Definition extract_issuer_serial (cert_der : list byte) :
    outcome Error (list byte * list byte) :=
  let? cert := or_bad "cert: bad outer SEQUENCE" (peel_tag cert_der x30) in
  let? tbs := or_bad "cert: bad TBSCertificate SEQUENCE" (peel_tag cert.1 x30) in
  let pos := tbs.1 in
  let? pos :=
    if bool_decide (head pos = Some xa0) then
      let? r := or_bad "cert: bad version" (peel_tlv pos) in Ok r.2
    else Ok pos in
  (* [serial_end] is computed from this and not used; its subtractions do not
     underflow, the header being at least as long as the shortest one. *)
  let? _ := or_bad "cert: bad serial" (peel_tag pos x02) in
  let? serial := or_bad "cert: bad serial INTEGER" (peel_tag pos x02) in
  let? serial_der := slice pos 0 (lenZ pos - lenZ serial.2) in
  let? r := or_bad "cert: bad serial advance" (peel_tag pos x02) in
  let pos := r.2 in
  let? r := or_bad "cert: bad sigAlgo" (peel_tlv pos) in
  let pos := r.2 in
  let? issuer := or_bad "cert: bad issuer SEQUENCE" (peel_tag pos x30) in
  let? issuer_der := slice pos 0 (lenZ pos - lenZ issuer.2) in
  Ok (issuer_der, serial_der).

Definition build_pkcs7_signed_data (content cert_der : list byte) (key : rsa_private) :
    outcome Error (list byte) :=
  let? ids := extract_issuer_serial cert_der in
  let '(issuer_der, serial_der) := ids in
  let digest := sha1 content in
  let? oid_content_type := der_oid [1; 2; 840; 113549; 1; 9; 3] in
  let? oid_data := der_oid [1; 2; 840; 113549; 1; 7; 1] in
  let attr_content_type := der_seq [oid_content_type; der_tag x31 oid_data] in
  let? oid_digest := der_oid [1; 2; 840; 113549; 1; 9; 4] in
  let attr_message_digest := der_seq [oid_digest; der_tag x31 (der_tag x04 digest)] in
  let attrs_body := attr_content_type ++ attr_message_digest in
  let signed_attrs_for_signing := der_tag x31 attrs_body in
  let? sig_bytes := or_panic (sign_sha1 key signed_attrs_for_signing) in
  let signed_attrs_implicit := der_tag xa0 attrs_body in
  let? version := der_int [x01] in
  let? sha1_alg := sha1_oid in
  let? sig_alg := sha1_with_rsa_oid in
  let signer_info := der_seq [
    version;
    der_seq [issuer_der; serial_der];
    sha1_alg;
    signed_attrs_implicit;
    sig_alg;
    der_tag x04 sig_bytes] in
  let signed_data := der_seq [
    version;
    der_tag x31 sha1_alg;
    der_seq [oid_data; der_tag xa0 (der_tag x04 content)];
    der_tag xa0 cert_der;
    der_tag x31 signer_info] in
  let? oid_signed := der_oid [1; 2; 840; 113549; 1; 7; 2] in
  Ok (der_seq [oid_signed; der_tag xa0 signed_data]).
End certs.

Section pairing.
Context `{BuildProfile} `{PlistLib} `{Tls} {W : Type} `{Os W} `{PairingEnv W}.

Definition close_conn (c : Conn) (w : W) : W := hang_up (socket c) w.
(** Dropping the session stops it and closes its stream. *)
Definition close_session (s : LockdownSession) (w : W) : W :=
  let s := (drop_session s).2 in
  match ls_stream s with
  | Plain k => hang_up (mux_stream k) w
  | TlsStream k => hang_up k w
  | Upgrading => w
  end.

(** [let mut usbmux = MuxConn::open()?; ..] *)
Definition with_usbmux {A} (body : ST (W * Conn) Error A) : ST W Error A :=
  let! m := smap_err (λ e, Usbmux (EIo e)) mux_connect in
  scoped close_conn (from_stream (mux_stream m)) body.

(** [let mut session = LockdownSession::connect(device_id)?; ..] *)
Definition with_session {A} (device_id : Z) (body : ST (W * LockdownSession) Error A) :
    ST W Error A :=
  let! s := ld_connect device_id in
  scoped close_session s body.

(** A call of the connection whose error is reported under a name. *)
Definition on_conn {A} (t : string) (m : ST Conn UsbmuxTypes.Error A) : ST (W * Conn) Error A :=
  on_local (smap_err (λ e, err (Msg t [FDisplay (UsbmuxTypes.Error_fmt e)])) m).

(** ** The dictionaries *)

Definition pair_record_dict (certs : PairingCerts) (buid host_id : string) : dictionary :=
  dict ["DeviceCertificate" =>> PData (device_cert certs);
        "HostCertificate" =>> PData (host_cert certs);
        "RootCertificate" =>> PData (root_cert certs);
        "SystemBUID" =>> PString buid;
        "HostID" =>> PString host_id].

Definition pair_request (record opts : dictionary) : pval :=
  PDict (dict ["Label" =>> PString "ios-rs"; "ProtocolVersion" =>> PString "2";
               "Request" =>> PString "Pair"; "PairRecord" =>> PDict record;
               "PairingOptions" =>> PDict opts]).

Definition save_record (certs : PairingCerts) (escrow_bag : list byte)
    (wifi_mac host_id buid : string) : dictionary :=
  dict ["DeviceCertificate" =>> PData (device_cert certs);
        "HostPrivateKey" =>> PData (host_key certs);
        "HostCertificate" =>> PData (host_cert certs);
        "RootPrivateKey" =>> PData (root_key certs);
        "RootCertificate" =>> PData (root_cert certs);
        "EscrowBag" =>> PData escrow_bag;
        "WiFiMACAddress" =>> PString wifi_mac;
        "HostID" =>> PString host_id;
        "SystemBUID" =>> PString buid].

(** ** The entry points *)

Definition read_device_key : ST (W * LockdownSession) Error (list byte) :=
  let! v := on_local (get_value None "DevicePublicKey") in
  match v with
  | PData b => sret b
  | other => sfail (err (Msg "DevicePublicKey unexpected type: {other:?}"
                           [FStr (debug_value other)]))
  end.
Definition read_wifi_mac : ST (W * LockdownSession) Error string :=
  let! v := on_local (get_value None "WiFiAddress") in
  match v with
  | PString s => sret s
  | other => sfail (err (Msg "WiFiAddress unexpected type: {other:?}" [FStr (debug_value other)]))
  end.

(** Writing the record with usbmuxd, over a second connection. *)
Definition save_pairing {R} (t udid : string) (record : dictionary) : ST (W * R) Error unit :=
  let! raw := lift (ok_or (to_writer_xml (PDict record)) PlistError) in
  on_outer (with_usbmux (on_conn t (conn_save_pair_record udid raw))).

Definition pair (device_id : Z) (udid : string) : ST W Error unit :=
  with_usbmux (
    let! buid := on_conn "read BUID: {e}" conn_read_buid in
    on_outer (with_session device_id (
      let! pub_key_pem := read_device_key in
      let! wifi_mac := read_wifi_mac in
      let! certs := on_outer (create_pairing_certs pub_key_pem) in
      let! host_id := on_outer new_uuid in
      let opts := dict ["ExtendedPairingErrors" =>> PBool true] in
      let req := pair_request (pair_record_dict certs buid host_id) opts in
      on_local (send_raw req) ;;;
      let! resp := on_local recv_raw in
      let! resp_dict := lift (ok_or (as_dictionary resp)
                                (err (msg0 "Pair response not a dictionary"))) in
      match dget "Error" resp_dict with
      | Some (PString e) =>
          if bool_decide (e = "PairingDialogResponsePending"%string) then
            sfail (err (msg0 "trust dialog open — accept 'Trust This Computer' on the device, then run 'ios pair' again"))
          else sfail (err (Msg "lockdownd error: {e}" [FStr e]))
      | _ =>
          match dget "EscrowBag" resp_dict with
          | Some (PData escrow_bag) =>
              save_pairing "save pair record: {e}" udid
                (save_record certs escrow_bag wifi_mac host_id buid)
          | _ => sfail (err (msg0 "no EscrowBag in pair response"))
          end
      end))).

Definition pair_supervised (device_id : Z) (udid : string)
    (supervision_cert_der supervision_key_pem : list byte) : ST W Error unit :=
  let! supervision_key := lift (parse_rsa_key_bytes supervision_key_pem) in
  with_usbmux (
    let! buid := on_conn "read BUID: {e}" conn_read_buid in
    on_outer (with_session device_id (
      let! pub_key_pem := read_device_key in
      let! wifi_mac := read_wifi_mac in
      let! certs := on_outer (create_pairing_certs pub_key_pem) in
      let! host_id := on_outer new_uuid in
      let pair_record := pair_record_dict certs buid host_id in
      let opts := dict ["SupervisorCertificate" =>> PData supervision_cert_der;
                        "ExtendedPairingErrors" =>> PBool true] in
      on_local (send_raw (pair_request pair_record opts)) ;;;
      let! resp1 := on_local recv_raw in
      let! resp1_dict := lift (ok_or (as_dictionary resp1)
                                 (err (msg0 "first Pair response not a dictionary"))) in
      let! challenge := lift (extract_pairing_challenge resp1_dict) in
      let! signed := lift (build_pkcs7_signed_data challenge supervision_cert_der
                             supervision_key) in
      let opts2 := dict ["ChallengeResponse" =>> PData signed] in
      on_local (send_raw (pair_request pair_record opts2)) ;;;
      let! resp2 := on_local recv_raw in
      let! resp2_dict := lift (ok_or (as_dictionary resp2)
                                 (err (msg0 "second Pair response not a dictionary"))) in
      match dget "Error" resp2_dict with
      | Some (PString e) => sfail (err (Msg "supervised pair error: {e}" [FStr e]))
      | _ =>
          match dget "EscrowBag" resp2_dict with
          | Some (PData escrow_bag) =>
              save_pairing "save supervised pair record: {e}" udid
                (save_record certs escrow_bag wifi_mac host_id buid)
          | _ => sfail (err (msg0 "no EscrowBag in supervised pair response"))
          end
      end))).

(** The body of [if let Ok(mut session) = connect(..)]; the [?] on
    [MuxConn::open] in it leaves [unpair]. *)
Definition send_unpair (udid : string) : ST (W * LockdownSession) Error unit :=
  let req := dict ["Label" =>> PString "ios-rs"; "Request" =>> PString "Unpair"] in
  let! raw := on_outer (with_usbmux
                (on_local (stry (F:=Error) (conn_read_pair_record udid)))) in
  let req :=
    match raw with
    | inr raw =>
        match from_plist_bytes raw with
        | Ok pr =>
            al_insert "PairRecord"%string
              (PDict (dict ["HostID" =>> PString (host_id pr);
                            "SystemBUID" =>> PString (system_buid pr)])) req
        | _ => req
        end
    | inl _ => req
    end in
  on_local (signore (send_raw (PDict req))).

Definition unpair (device_id : Z) (udid : string) : ST W Error unit :=
  let! session := stry (ld_connect device_id) in
  match session with
  | inr s => scoped close_session s (send_unpair udid)
  | inl _ => sret tt
  end ;;;
  with_usbmux (on_conn "delete pair record: {e}" (conn_delete_pair_record udid)).
End pairing.

(** ** What a reader of X.509 and PKCS#7 sees

    The reference readers take the messages apart with the DER reader. *)
Section readers.
Context `{BuildProfile}.

Definition peel (tag : byte) (l : list byte) : option (list byte * list byte) :=
  to_option (peel_tag l tag).
(** The content of a TLV that is all of [l]. *)
Definition peel_all (tag : byte) (l : list byte) : option (list byte) :=
  match peel tag l with Some (c, []) => Some c | _ => None end.
(** The TLV itself, header included, and the rest. *)
Definition peel_raw (tag : byte) (l : list byte) : option (list byte * list byte) :=
  match peel tag l with
  | Some (_, rest) => Some (take (length l - length rest) l, rest)
  | None => None
  end.

Lemma peel_der tag c rest :
  lenZ c < 65536 → peel tag (der_tag tag c ++ rest) = Some (c, rest).
Proof. intros. unfold peel. by rewrite peel_tag_der_tag_aux. Qed.
Lemma peel_all_der tag c : lenZ c < 65536 → peel_all tag (der_tag tag c) = Some c.
Proof.
  intros. unfold peel_all. rewrite <-(app_nil_r (der_tag tag c)). by rewrite peel_der.
Qed.
Lemma peel_raw_der tag c rest :
  lenZ c < 65536 → peel_raw tag (der_tag tag c ++ rest) = Some (der_tag tag c, rest).
Proof.
  intros. unfold peel_raw. rewrite peel_der by done. repeat f_equal.
  rewrite length_app, Nat.add_sub. apply take_app_length.
Qed.

Record CertView : Type := MkCertView {
  cv_tbs : list byte;            (* what is signed *)
  cv_version : list byte;
  cv_serial : list byte;
  cv_issuer : list byte;
  cv_not_before : option Z;
  cv_not_after : option Z;
  cv_spki : list byte;
  cv_key_id : list byte;         (* the content of the key identifier *)
  cv_constraint : list byte;     (* the second extension, an OID and its value *)
  cv_signature : list byte
}.

Record SignedView : Type := MkSignedView {
  sv_content : list byte;
  sv_cert : list byte;
  sv_issuer_serial : list byte;
  sv_digest : list byte;         (* the messageDigest attribute *)
  sv_attrs : list byte;          (* the signed attributes *)
  sv_signature : list byte
}.

Definition read_signed (msg : list byte) : option SignedView :=
  body ← peel_all x30 msg;
  '(_, body) ← peel x06 body;
  sd ← peel_all xa0 body;
  sd ← peel_all x30 sd;
  '(_, sd) ← peel x02 sd;
  '(_, sd) ← peel x31 sd;
  '(ci, sd) ← peel x30 sd;
  '(_, ci) ← peel x06 ci;
  ci ← peel_all xa0 ci;
  content ← peel_all x04 ci;
  '(cert, sd) ← peel xa0 sd;
  si ← peel_all x31 sd;
  si ← peel_all x30 si;
  '(_, si) ← peel x02 si;
  '(issuer_serial, si) ← peel x30 si;
  '(_, si) ← peel x30 si;
  '(attrs, si) ← peel xa0 si;
  '(_, si) ← peel x30 si;
  sig ← peel_all x04 si;
  '(_, md) ← peel x30 attrs;
  md ← peel_all x30 md;
  '(_, md) ← peel x06 md;
  md ← peel_all x31 md;
  digest ← peel_all x04 md;
  Some (MkSignedView content cert issuer_serial digest attrs sig).

Definition read_cert (cert : list byte) : option CertView :=
  body ← peel_all x30 cert;
  '(tbs, body) ← peel_raw x30 body;
  '(_, body) ← peel x30 body;
  bits ← peel_all x03 body;
  fields ← peel_all x30 tbs;
  '(v, fields) ← peel xa0 fields;
  version ← peel_all x02 v;
  '(serial, fields) ← peel x02 fields;
  '(_, fields) ← peel x30 fields;
  '(issuer, fields) ← peel x30 fields;
  '(validity, fields) ← peel x30 fields;
  '(nb, validity) ← peel x17 validity;
  na ← peel_all x17 validity;
  '(_, fields) ← peel x30 fields;
  '(spki, fields) ← peel_raw x30 fields;
  exts ← peel_all xa3 fields;
  exts ← peel_all x30 exts;
  '(ski, exts) ← peel x30 exts;
  constraint ← peel_all x30 exts;
  '(_, ski) ← peel x06 ski;
  ski ← peel_all x04 ski;
  ski ← peel_all x04 ski;
  Some (MkCertView tbs version serial issuer (utc_seconds nb) (utc_seconds na) spki ski
          constraint (drop 1 bits)).

Lemma lenZ_der_tag tag c : lenZ c + 2 ≤ lenZ (der_tag tag c) ≤ lenZ c + 4.
Proof.
  unfold der_tag. repeat case_match; zhyps; rewrite !lenZ_app; unfold lenZ; simpl; lia.
Qed.
End readers.

(** Bounds on the lengths of nested encodings: an upper bound is computed along
    the structure of the encoding. *)
Lemma ub_tag t c n : lenZ c ≤ n → lenZ (der_tag t c) ≤ n + 4.
Proof. pose proof (lenZ_der_tag t c). lia. Qed.
Lemma ub_app {A} (l k : list A) n m : lenZ l ≤ n → lenZ k ≤ m → lenZ (l ++ k) ≤ n + m.
Proof. len. Qed.
Lemma ub_cons {A} (x : A) l n : lenZ l ≤ n → lenZ (x :: l) ≤ 1 + n.
Proof. len. Qed.

Ltac der_ub :=
  lazymatch goal with
  | |- lenZ (der_tag _ _) ≤ _ => eapply ub_tag; der_ub
  | |- lenZ (_ ++ _) ≤ _ => eapply ub_app; [der_ub|der_ub]
  | |- lenZ (_ :: _) ≤ _ => eapply ub_cons; der_ub
  | |- lenZ [] ≤ _ => apply Z.le_refl
  | |- _ => eassumption
  end.
Ltac der_small := eapply Z.le_lt_trans; [der_ub|vm_compute; reflexivity].

(** Runs a reader on an encoding, one bind at a time. *)
Lemma peel_bind `{BuildProfile} {A} tag c rest (f : list byte * list byte → option A) :
  lenZ c < 65536 → peel tag (der_tag tag c ++ rest) ≫= f = f (c, rest).
Proof. intros. by rewrite peel_der. Qed.
Lemma peel_raw_bind `{BuildProfile} {A} tag c rest (f : list byte * list byte → option A) :
  lenZ c < 65536 → peel_raw tag (der_tag tag c ++ rest) ≫= f = f (der_tag tag c, rest).
Proof. intros. by rewrite peel_raw_der. Qed.
Lemma peel_all_bind `{BuildProfile} {A} tag c (f : list byte → option A) :
  lenZ c < 65536 → peel_all tag (der_tag tag c) ≫= f = f c.
Proof. intros. by rewrite peel_all_der. Qed.

Ltac peel_steps :=
  repeat (first [rewrite peel_all_bind by der_small|rewrite peel_raw_bind by der_small
                |rewrite peel_bind by der_small]; cbv beta iota).

Ltac der_len :=
  repeat match goal with
  | _ : context [der_tag ?t ?c] |- _ =>
      lazymatch goal with
      | _ : lenZ c + 2 ≤ lenZ (der_tag t c) ≤ lenZ c + 4 |- _ => fail
      | _ => pose proof (lenZ_der_tag t c)
      end
  end; len.

Section cert_spec.
Context `{BuildProfile} {W : Type} `{PairingEnv W}.

(** What the second extension says. *)
Definition constraint_of (kind : CertKind) : list byte :=
  match kind with
  | Root => [x06; x03; x55; x1d; x13; x01; x01; xff; x04; x05; x30; x03; x01; x01; xff]
  | Leaf => [x06; x03; x55; x1d; x0f; x01; x01; xff; x04; x04; x03; x02; x05; xa0]
  end.

Lemma build_extensions_ok ski kind :
  build_extensions ski kind =
    Ok [der_seq [der_tag x06 [x55; x1d; x0e]; der_tag x04 (der_tag x04 ski)];
        der_tag x30 (constraint_of kind)].
Proof. by destruct kind. Qed.

(** The walk through the SubjectPublicKeyInfo finds no bit string, so it is the
    whole of it that is hashed. *)
Lemma ski_hash_whole items :
  lenZ (concat items) < 65536 → ski_hash (der_seq items) = Ok (sha1 (der_seq items)).
Proof.
  intros. unfold ski_hash. by rewrite extract_spki_bits_finds_nothing.
Qed.
Lemma sha1_with_rsa_oid_ok {E} :
  sha1_with_rsa_oid (E:=E) =
    Ok (der_tag x30 [x06; x09; x2a; x86; x48; x86; xf7; x0d; x01; x01; x05; x05; x00]).
Proof. reflexivity. Qed.
Lemma sha1_oid_ok {E} :
  sha1_oid (E:=E) = Ok (der_tag x30 [x06; x05; x2b; x0e; x03; x02; x1a; x05; x00]).
Proof. reflexivity. Qed.

Lemma der_utc_time_read {E} t :
  0 ≤ t < utc_limit →
  ∃ s, der_utc_time (E:=E) t = Ok (der_tag x17 s) ∧ lenZ s = 13 ∧ utc_seconds s = Some t.
Proof. apply der_utc_time_roundtrip_aux. Qed.

(** C36. A certificate is read back with an X.509 reader: version 3, serial number 0,
    no issuer, the validity that was asked for (up to 2049), the public key
    unchanged, a subject key identifier that is what [ski_hash] gives for this key,
    the extension of its kind, and the signature over exactly the bytes that were
    signed. *)
Theorem build_cert_read pub kind key nb na items sig :
  let spki := der_seq items in
  to_public_key_der pub = inr spki → (∀ tbs, sign_sha1 key tbs = Some (sig tbs)) →
  0 ≤ nb < utc_limit → 0 ≤ na < utc_limit →
  lenZ spki ≤ 16384 → (∀ l, lenZ (sha1 l) ≤ 20) → (∀ tbs, lenZ (sig tbs) ≤ 16384) →
  ∃ cert tbs ski, ski_hash spki = Ok ski ∧ build_cert pub kind key nb na = Ok cert ∧
    read_cert cert = Some (MkCertView tbs [x02] [x00] [] (Some nb) (Some na) spki
      ski (constraint_of kind) (sig tbs)).
Proof.
  intros spki Hspki Hsig Hnb Hna Hlen Hsha1 Hlsig. pose proof (Hsha1 spki) as Hsha.
  destruct (der_utc_time_read (E:=Error) nb Hnb) as (b1 & Eb & Lb & Rb).
  destruct (der_utc_time_read (E:=Error) na Hna) as (a1 & Ea & La & Ra).
  set (algc := [x06; x09; x2a; x86; x48; x86; xf7; x0d; x01; x01; x05; x05; x00]).
  set (alg := der_tag x30 algc).
  set (exts := [der_seq [der_tag x06 [x55; x1d; x0e]; der_tag x04 (der_tag x04 (sha1 spki))];
        der_tag x30 (constraint_of kind)]).
  set (tbs := der_seq [der_ctx 0 (der_tag x02 [x02]); der_tag x02 [x00]; alg; der_seq [];
    der_seq [der_tag x17 b1; der_tag x17 a1]; der_seq []; spki; der_ctx 3 (der_seq exts)]).
  assert (ski_hash spki = Ok (sha1 spki)) as Hski
    by (apply ski_hash_whole; unfold spki, der_seq in Hlen; der_len).
  exists (der_seq [tbs; alg; der_tag x03 (x00 :: sig tbs)]), tbs, (sha1 spki). split; [done|]. clear Hsha1. split.
  - unfold build_cert. rewrite Hspki. cbn [of_sum obind]. rewrite Hski. cbn [obind].
    change (der_int (E:=Error) [x02]) with (Ok (E:=Error) (der_tag x02 [x02])).
    change (der_int (E:=Error) [x00]) with (Ok (E:=Error) (der_tag x02 [x00])).
    rewrite sha1_with_rsa_oid_ok, Eb, Ea, build_extensions_ok. cbn [obind].
    rewrite Hsig. reflexivity.
  - assert (lenZ (constraint_of kind) ≤ 15) as Hc by (by destruct kind).
    clear Hski. subst spki tbs exts. unfold der_ctx.
    change (byte_of (Z.lor 0xa0 0)) with xa0. change (byte_of (Z.lor 0xa0 3)) with xa3.
    revert Hlen Hsha. unfold der_seq. generalize (concat items). clear items Hspki Eb Ea.
    intros items Hlen Hsha. cbn [concat]. rewrite !app_nil_r.
    assert (lenZ items ≤ 16384) by der_len.
    assert (lenZ b1 ≤ 13) by lia. assert (lenZ a1 ≤ 13) by lia.
    assert (lenZ algc ≤ 13) as Halg by done. subst alg. clearbody algc.
    match goal with |- context [sig ?t] => pose proof (Hlsig t); set (sg := sig t) in * end.
    clearbody sg. unfold read_cert. peel_steps.
    rewrite Rb, Ra. reflexivity.
Qed.

(** ** Supervised pairing: the signed challenge *)

(** A certificate as far as the reader of issuer and serial goes, with its
    optional version. *)
Definition cert_of (version : option (list byte)) (serial : list byte) (sigalg : byte * list byte)
    (issuer more more' : list byte) : list byte :=
  der_tag x30
    (der_tag x30
       (match version with Some v => der_tag xa0 v | None => [] end
        ++ der_tag x02 serial ++ der_tag sigalg.1 sigalg.2 ++ der_tag x30 issuer ++ more)
     ++ more').

Lemma slice_front {E A} (a b : list A) :
  slice (E:=E) (a ++ b) 0 (lenZ (a ++ b) - lenZ b) = Ok a.
Proof. unfold slice. rewrite get_slice_prefix; [done|len]. Qed.

Lemma extract_issuer_serial_ok version serial sigalg issuer more more' :
  lenZ (cert_of version serial sigalg issuer more more') < 65536 →
  extract_issuer_serial (cert_of version serial sigalg issuer more more') =
    Ok (der_tag x30 issuer, der_tag x02 serial).
Proof.
  intros Hlen. unfold extract_issuer_serial, cert_of in *.
  set (pos := der_tag x02 serial ++ der_tag sigalg.1 sigalg.2 ++ der_tag x30 issuer ++ more) in *.
  set (tbs := match version with Some v => der_tag xa0 v | None => [] end ++ pos) in *.
  assert (lenZ tbs < 65536) as Ht by (clearbody tbs; der_len).
  assert (lenZ pos < 65536) as Hp by (subst tbs; clearbody pos; len).
  assert (∀ r, peel_tag (der_tag x30 (der_tag x30 tbs ++ more') ++ r) x30 =
    Ok (der_tag x30 tbs ++ more', r)) as Hc.
  { intros r. apply peel_tag_der_tag_aux. clearbody tbs. der_len. }
  specialize (Hc []). rewrite app_nil_r in Hc. rewrite Hc. cbn [or_bad omap_err obind fst].
  rewrite peel_tag_der_tag_aux by done. cbn [or_bad omap_err obind fst].
  assert ((if bool_decide (head tbs = Some xa0)
    then let? r := or_bad "cert: bad version" (peel_tlv tbs) in Ok r.2 else Ok tbs) = Ok pos) as ->.
  { unfold tbs in *. destruct version as [v|].
    - change (head (der_tag xa0 v ++ pos)) with (Some xa0). rewrite bool_decide_true by done.
      rewrite peel_tlv_der_tag_aux by (clearbody pos; der_len). done.
    - cbn [app]. by rewrite bool_decide_false. }
  cbn [obind]. subst pos.
  rewrite peel_tag_der_tag_aux by der_len. cbn [or_bad omap_err obind snd].
  rewrite slice_front. cbn [obind].
  rewrite peel_tlv_der_tag_aux by der_len. cbn [or_bad omap_err obind snd].
  rewrite peel_tag_der_tag_aux by der_len. cbn [or_bad omap_err obind snd].
  by rewrite slice_front.
Qed.

Lemma pkcs_oids {E} :
  let pkcs9 x := Ok (E:=E) (der_tag x06 [x2a; x86; x48; x86; xf7; x0d; x01; x09; x]) in
  let pkcs7 x := Ok (E:=E) (der_tag x06 [x2a; x86; x48; x86; xf7; x0d; x01; x07; x]) in
  der_oid [1; 2; 840; 113549; 1; 9; 3] = pkcs9 x03 ∧
  der_oid [1; 2; 840; 113549; 1; 7; 1] = pkcs7 x01 ∧
  der_oid [1; 2; 840; 113549; 1; 9; 4] = pkcs9 x04 ∧
  der_oid [1; 2; 840; 113549; 1; 7; 2] = pkcs7 x02.
Proof. by split_and!. Qed.
Lemma der_int_1 {E} : der_int (E:=E) [x01] = Ok (der_tag x02 [x01]).
Proof. reflexivity. Qed.

(** The signed data of a supervised pairing: a PKCS#7 reader finds the content,
    the certificate, its issuer and serial number, and the signature of the
    content. *)
Theorem build_pkcs7_read content version serial sigalg issuer more more' key sig :
  let cert := cert_of version serial sigalg issuer more more' in
  lenZ content ≤ 8192 → lenZ cert ≤ 8192 → lenZ (sha1 content) ≤ 20 →
  (∀ m, sign_sha1 key m = Some (sig m)) → (∀ m, lenZ (sig m) ≤ 4096) →
  ∃ msg attrs, build_pkcs7_signed_data content cert key = Ok msg ∧
    read_signed msg = Some (MkSignedView content cert (der_tag x30 issuer ++ der_tag x02 serial)
      (sha1 content) attrs (sig (der_tag x31 attrs))).
Proof.
  intros cert Hcontent Hcert Hsha Hsig Hlsig. unfold build_pkcs7_signed_data.
  assert (lenZ (der_tag x30 issuer) ≤ 8192) as Hiss by (unfold cert, cert_of in Hcert; der_len).
  assert (lenZ (der_tag x02 serial) ≤ 8192) as Hser by (unfold cert, cert_of in Hcert; der_len).
  unfold cert at 1. rewrite extract_issuer_serial_ok by (fold cert; lia). cbn [obind].
  fold cert. clearbody cert. revert Hiss Hser.
  generalize (der_tag x30 issuer) (der_tag x02 serial). intros iss ser Hiss Hser.
  destruct (pkcs_oids (E:=Error)) as (-> & -> & -> & ->). rewrite der_int_1.
  cbn [obind]. rewrite sha1_oid_ok, sha1_with_rsa_oid_ok, Hsig. cbn [or_panic obind].
  match goal with |- context [sig (der_tag x31 ?a)] => set (attrs := a) end.
  eexists _, attrs. split; [reflexivity|]. pose proof (Hlsig (der_tag x31 attrs)) as Hs.
  revert Hs. generalize (sig (der_tag x31 attrs)). intros sg Hs. subst attrs.
  unfold der_seq. cbn [concat]. rewrite !app_nil_r.
  unfold read_signed. peel_steps. reflexivity.
Qed.
End cert_spec.

(** The identifier of the host is plain text. *)
Lemma printable_text_ok l : Forall (λ b, 33 ≤ u8 b ≤ 126) l → text_ok (string_of l) = true.
Proof.
  intros Hl. assert (∀ b, b ∈ l → b ≠ " "%byte) as Hsp.
  { intros b Hb ->. rewrite Forall_forall in Hl. apply Hl in Hb. change (u8 " ") with 32 in Hb. lia. }
  unfold text_ok. rewrite bytes_of_string_of, utf8_valid_ascii
    by (eapply Forall_impl; [exact Hl|]; simpl; lia).
  rewrite !bool_decide_true.
  - cbn [andb]. rewrite !andb_true_r. apply forallb_forall. intros b Hb%list_elem_of_In.
    rewrite Forall_forall in Hl. apply Hl in Hb.
    apply andb_true_iff. split; [apply Z.leb_le; lia|].
    apply negb_true_iff, Z.eqb_neq. lia.
  - intros Hs. apply last_Some_elem_of in Hs. by apply Hsp in Hs.
  - intros Hs. destruct l; [done|]. injection Hs as ->. by apply (Hsp " "%byte); [left|].
Qed.

Lemma hex02_printable b : Forall (λ b, 33 ≤ u8 b ≤ 126) (hex02 true b).
Proof.
  assert (∀ n, 0 ≤ n < 16 → 33 ≤ u8 (hex_digit true n) ≤ 126) as Hd.
  { intros n Hn. unfold hex_digit. case_match; zhyps; rewrite u8_byte_of_small; lia. }
  pose proof (u8_range b). unfold hex02.
  repeat (apply Forall_cons; split; [apply Hd|]); [..|constructor].
  - split; [apply Z.div_pos; lia|apply Z.div_lt_upper_bound; lia].
  - apply Z.mod_pos_bound. lia.
Qed.

Lemma uuid_text_ok secs micros : text_ok (random_upper_uuid secs micros) = true.
Proof.
  apply printable_text_ok. cbn zeta. rewrite !Forall_app.
  split_and!; try apply hex02_printable; by repeat constructor.
Qed.

(** ** The pairing exchange *)
Section pair_spec.
Context `{BuildProfile} `{PL : PlistLib} `{!PlistLaws PL} `{Tls} {W : Type} `{Os W} `{PairingEnv W}.

Lemma with_usbmux_run {A} (body : ST (W * Conn) Error A) w m w1 x w2 c :
  mux_connect w = (Ok m, w1) → body (w1, from_stream (mux_stream m)) = (x, (w2, c)) →
  with_usbmux body w = (x, hang_up (socket c) w2).
Proof.
  intros Hm Hb. unfold with_usbmux. erewrite sbind_ok by (apply smap_err_ok; exact Hm).
  by rewrite (scoped_run _ _ _ _ _ _ _ Hb).
Qed.

Lemma with_session_run {A} id (body : ST (W * LockdownSession) Error A) w s w1 x w2 s2 :
  ld_connect id w = (Ok s, w1) → body (w1, s) = (x, (w2, s2)) →
  with_session id body w = (x, close_session s2 w2).
Proof.
  intros Hm Hb. unfold with_session. erewrite sbind_ok by exact Hm.
  by rewrite (scoped_run _ _ _ _ _ _ _ Hb).
Qed.

(** A saved record with texts the format can represent. *)
Definition texts_ok (wifi host_id buid : string) : Prop :=
  text_ok wifi = true ∧ text_ok host_id = true ∧ text_ok buid = true.

Lemma save_record_plain certs bag wifi host_id buid :
  texts_ok wifi host_id buid → plain (PDict (save_record certs bag wifi host_id buid)) = true.
Proof. intros (? & ? & ?). unfold save_record. solve_plain. Qed.

(** The record that is saved reads back, for the sessions to come, as the pair
    record with exactly these certificates, key and identifiers. *)
Theorem saved_record_read certs bag wifi host_id buid :
  texts_ok wifi host_id buid →
  from_plist_bytes (xml (PDict (save_record certs bag wifi host_id buid))) =
    Ok (MkPairRecord host_id buid (host_cert certs) (host_key certs) (device_cert certs)
          (root_cert certs)).
Proof.
  intros Ht. unfold from_plist_bytes. rewrite from_bytes_xml by by apply save_record_plain.
  cbn [ok_or obind as_dictionary]. unfold save_record. dict_lits. reflexivity.
Qed.

(** The meaning of the response to the Pair request: a message for the user, or
    the escrow bag. *)
Definition pair_verdict (resp : pval) : message + list byte :=
  match resp with
  | PDict d =>
      match dget "Error" d with
      | Some (PString e) =>
          inl (if bool_decide (e = "PairingDialogResponsePending"%string) then
                 msg0 "trust dialog open — accept 'Trust This Computer' on the device, then run 'ios pair' again"
               else Msg "lockdownd error: {e}" [FStr e])
      | _ =>
          match dget "EscrowBag" d with
          | Some (PData bag) => inr bag
          | _ => inl (msg0 "no EscrowBag in pair response")
          end
      end
  | _ => inl (msg0 "Pair response not a dictionary")
  end.

Definition supervised_verdict (resp : pval) : message + list byte :=
  match resp with
  | PDict d =>
      match dget "Error" d with
      | Some (PString e) => inl (Msg "supervised pair error: {e}" [FStr e])
      | _ =>
          match dget "EscrowBag" d with
          | Some (PData bag) => inr bag
          | _ => inl (msg0 "no EscrowBag in supervised pair response")
          end
      end
  | _ => inl (msg0 "second Pair response not a dictionary")
  end.

Lemma save_pairing_run {R} t udid record (r : R) w :
  plain (PDict record) = true →
  save_pairing t udid record (w, r) =
    let '(x, w') := with_usbmux (on_conn t (conn_save_pair_record udid (xml (PDict record)))) w in
    (x, (w', r)).
Proof.
  intros Hp. unfold save_pairing, sbind, lift. rewrite to_writer_xml_plain by done. cbn [ok_or].
  unfold on_outer, zoom. simpl. by destruct (with_usbmux _ _).
Qed.

Lemma read_device_key_run w s pub s' :
  get_value None "DevicePublicKey" s = (Ok (PData pub), s') →
  read_device_key (w, s) = (Ok pub, (w, s')).
Proof.
  intros Hg. unfold read_device_key. by erewrite sbind_ok by (apply on_local_run; exact Hg).
Qed.
Lemma read_wifi_mac_run (w : W) s wifi s' :
  get_value None "WiFiAddress" s = (Ok (PString wifi), s') →
  read_wifi_mac (w, s) = (Ok wifi, (w, s')).
Proof.
  intros Hg. unfold read_wifi_mac. by erewrite sbind_ok by (apply on_local_run; exact Hg).
Qed.

(** A run up to the Pair request: the host's identifier from usbmuxd, the
    device's values, the certificates and the new identifier. *)
Section exchange.
Variables (id : Z) (udid : string) (w : W) (m : MuxSocket) (w1 : W) (buid : string) (c1 : Conn)
  (s0 : LockdownSession) (w2 : W) (pub : list byte) (s1 : LockdownSession) (wifi : string)
  (s2 : LockdownSession) (certs : PairingCerts) (w3 : W) (host_id : string) (w4 : W).
Hypothesis Hm : mux_connect w = (Ok m, w1).
Hypothesis Hbuid : conn_read_buid (from_stream (mux_stream m)) = (Ok buid, c1).
Hypothesis Hs0 : ld_connect id w1 = (Ok s0, w2).
Hypothesis Hpub : get_value None "DevicePublicKey" s0 = (Ok (PData pub), s1).
Hypothesis Hwifi : get_value None "WiFiAddress" s1 = (Ok (PString wifi), s2).
Hypothesis Hcerts : create_pairing_certs pub w2 = (Ok certs, w3).
Hypothesis Huuid : new_uuid (E:=Error) w3 = (Ok host_id, w4).
Hypothesis Ht : text_ok wifi = true ∧ text_ok buid = true.

Let record : dictionary := pair_record_dict certs buid host_id.
(** The end of the run, with the session and the world as they are then. *)
Let finish (r : outcome Error unit) (s : LockdownSession) (w : W) : outcome Error unit * W :=
  (r, close_conn c1 (close_session s w)).
(** Saving the record with the escrow bag [bag]. *)
Let save (t : string) (bag : list byte) (s : LockdownSession) : outcome Error unit * W :=
  let '(r, w5) := with_usbmux (on_conn t (conn_save_pair_record udid
    (xml (PDict (save_record certs bag wifi host_id buid))))) w4 in
  finish r s w5.

Lemma exchange_texts : texts_ok wifi host_id buid.
Proof.
  unfold new_uuid, sbind, unix_now in Huuid.
  destruct (clock w3) as [t1 wa], (clock wa) as [t2 wb]. injection Huuid as <- <-.
  destruct Ht. split_and!; [done|apply uuid_text_ok|done].
Qed.

(** Runs an entry point up to the certificates. *)
Local Ltac run_prefix :=
  pose proof (read_device_key_run w2 _ _ _ Hpub) as Hk;
  pose proof (read_wifi_mac_run w2 _ _ _ Hwifi) as Hw;
  unfold with_usbmux at 1; erewrite sbind_ok by (apply smap_err_ok; exact Hm);
  unfold scoped at 1; erewrite sbind_ok by (apply on_local_run, smap_err_ok; exact Hbuid);
  unfold on_outer at 1, zoom at 1; cbn [fst snd];
  unfold with_session; erewrite sbind_ok by exact Hs0; unfold scoped at 1;
  erewrite sbind_ok by exact Hk; erewrite sbind_ok by exact Hw;
  erewrite sbind_ok by (apply on_outer_run; exact Hcerts);
  erewrite sbind_ok by (apply on_outer_run; exact Huuid).

(** C34. The whole of [pair] once the device has answered: on every verdict but the
    escrow bag it fails with the message and makes no further connection, so
    nothing is saved; with the bag it saves the record, and the outcome of that
    is its own. *)
Theorem pair_outcome s3 resp s4 :
  send_raw (pair_request record (dict ["ExtendedPairingErrors" =>> PBool true])) s2 = (Ok tt, s3) →
  recv_raw s3 = (Ok resp, s4) →
  pair id udid w =
    match pair_verdict resp with
    | inl msg => finish (Err (err msg)) s4 w4
    | inr bag => save "save pair record: {e}" bag s4
    end.
Proof.
  intros Hsend Hrecv. pose proof exchange_texts as Hts. unfold pair. run_prefix.
  erewrite sbind_ok by (apply on_local_run; exact Hsend).
  erewrite sbind_ok by (apply on_local_run; exact Hrecv).
  destruct resp; try reflexivity. unfold pair_verdict.
  erewrite sbind_ok by reflexivity. unfold save.
  destruct (dget "Error" d) as [[| | | | | | |e|]|]; try case_bool_decide; try reflexivity;
    (destruct (dget "EscrowBag" d) as [[| | |bag| | | | |]|]; try reflexivity);
    rewrite save_pairing_run by (by apply save_record_plain);
    by destruct (with_usbmux _ w4).
Qed.

(** A supervised pairing answers the challenge of the device: the first request
    carries the supervision certificate; unless the device asks for a challenge
    to be signed and the signed message can be built, that is all that is sent
    and nothing is saved; otherwise the second request carries that message and
    its response decides, as for [pair]. *)
Theorem pair_supervised_outcome cert key_pem key s3 d1 s4 :
  parse_rsa_key_bytes key_pem = Ok key →
  send_raw (pair_request record (dict ["SupervisorCertificate" =>> PData cert;
    "ExtendedPairingErrors" =>> PBool true])) s2 = (Ok tt, s3) →
  recv_raw s3 = (Ok (PDict d1), s4) →
  pair_supervised id udid cert key_pem w =
    match (let? ch := extract_pairing_challenge d1 in build_pkcs7_signed_data ch cert key) with
    | Ok signed =>
        match (send_raw (pair_request record (dict ["ChallengeResponse" =>> PData signed])) ;;;
               recv_raw) s4 with
        | (Ok resp2, s5) =>
            match supervised_verdict resp2 with
            | inl msg => finish (Err (err msg)) s5 w4
            | inr bag => save "save supervised pair record: {e}" bag s5
            end
        | (Err e, s5) => finish (Err e) s5 w4
        | (Panic, s5) => finish Panic s5 w4
        | (OutOfFuel, s5) => finish OutOfFuel s5 w4
        end
    | Err e => finish (Err e) s4 w4
    | Panic => finish Panic s4 w4
    | OutOfFuel => finish OutOfFuel s4 w4
    end.
Proof.
  intros Hkey Hsend Hrecv. pose proof exchange_texts as Hts. unfold pair_supervised.
  erewrite sbind_ok by (unfold lift; rewrite Hkey; reflexivity). run_prefix.
  erewrite sbind_ok by (apply on_local_run; exact Hsend).
  erewrite sbind_ok by (apply on_local_run; exact Hrecv).
  erewrite sbind_ok by reflexivity.
  unfold sbind at 1, lift at 1.
  destruct (extract_pairing_challenge d1) as [ch|e| |]; try reflexivity. cbn [obind].
  unfold sbind at 1, lift at 1.
  destruct (build_pkcs7_signed_data ch cert key) as [signed|e| |]; try reflexivity.
  fold record. unfold sbind at 1, on_local at 1, zoom at 1. cbn [fst snd].
  match goal with
  | |- context [sbind ?a (λ _, recv_raw) s4] =>
      change (sbind a (λ _, recv_raw) s4) with
        (match a s4 with
         | (Ok _, s) => recv_raw s
         | (Err e, s) => (Err e, s)
         | (Panic, s) => (Panic, s)
         | (OutOfFuel, s) => (OutOfFuel, s)
         end)
  end.
  destruct (send_raw _ s4) as [[[]|e| |] s4']; try reflexivity.
  unfold sbind at 1, on_local at 1, zoom at 1. cbn [fst snd].
  destruct (recv_raw s4') as [[resp2|e| |] s5]; try reflexivity.
  destruct resp2; try reflexivity. unfold supervised_verdict.
  erewrite sbind_ok by reflexivity. unfold save.
  destruct (dget "Error" d) as [[| | | | | | |e|]|]; try reflexivity;
    (destruct (dget "EscrowBag" d) as [[| | |bag| | | | |]|]; try reflexivity);
    rewrite save_pairing_run by (by apply save_record_plain);
    by destruct (with_usbmux _ w4).
Qed.
End exchange.

(** ** What success means

    Whatever the device, the daemon and the system do: the other direction, from
    the result back to what has happened. *)

(** A call over a connection of its own. *)
Lemma with_usbmux_inv {A} t (k : ST Conn UsbmuxTypes.Error A) w a w' :
  with_usbmux (on_conn t k) w = (Ok a, w') →
  ∃ m wb c, mux_connect w = (Ok m, wb) ∧ k (from_stream (mux_stream m)) = (Ok a, c) ∧
    w' = hang_up (socket c) wb.
Proof.
  intros (m & wb & Hm%smap_err_inv & Hs)%sbind_inv. apply scoped_inv in Hs as (wc & c & Hk & ->).
  apply on_local_inv in Hk as [Hk%smap_err_inv ?]. simpl in *. subst. eauto 10.
Qed.

Lemma with_session_inv {A} id (body : ST (W * LockdownSession) Error A) w a w' :
  with_session id body w = (Ok a, w') →
  ∃ s wb wc sc, ld_connect id w = (Ok s, wb) ∧ body (wb, s) = (Ok a, (wc, sc)) ∧
    w' = close_session sc wc.
Proof.
  intros (s & wb & Hm & Hs)%sbind_inv. apply scoped_inv in Hs as (wc & c & Hk & ->). eauto 10.
Qed.

(** When [pair] returns [Ok], the device has answered with an escrow bag, and
    usbmuxd has accepted, without refusing, the record made of that bag and of
    certificates generated in this run. *)
Theorem pair_ok_saved id udid w w' :
  pair id udid w = (Ok tt, w') →
  ∃ pub certs wc wc' wd s resp s' bag wifi host_id buid raw m we c,
    create_pairing_certs pub wc = (Ok certs, wc') ∧
    recv_raw s = (Ok resp, s') ∧ pair_verdict resp = inr bag ∧
    to_writer_xml (PDict (save_record certs bag wifi host_id buid)) = Some raw ∧
    mux_connect wd = (Ok m, we) ∧
    conn_save_pair_record udid raw (from_stream (mux_stream m)) = (Ok tt, c).
Proof.
  unfold pair. intros (m & w1 & _ & Hp)%sbind_inv.
  apply scoped_inv in Hp as (w2 & c1 & Hp & _).
  apply sbind_inv in Hp as (buid & wc2 & _ & Hp). apply on_outer_inv in Hp as [Hp _].
  apply with_session_inv in Hp as (s & w3 & w4 & s1 & _ & Hp & _).
  apply sbind_inv in Hp as (pub & ws1 & _ & Hp). apply sbind_inv in Hp as (wifi & ws2 & _ & Hp).
  apply sbind_inv in Hp as (certs & ws3 & Hcerts & Hp). apply on_outer_inv in Hcerts as [Hcerts _].
  apply sbind_inv in Hp as (host_id & ws4 & _ & Hp). apply sbind_inv in Hp as (? & ws5 & _ & Hp).
  apply sbind_inv in Hp as (resp & ws6 & Hresp & Hp). apply on_local_inv in Hresp as [Hresp _].
  apply sbind_inv in Hp as (d & ws7 & Hd & Hp). unfold lift in Hd. injection Hd as Hd ->.
  destruct resp as [|d'| | | | | | |]; try done. injection Hd as ->.
  assert (∃ bag, pair_verdict (PDict d) = inr bag ∧
    save_pairing "save pair record: {e}" udid (save_record certs bag wifi host_id buid) ws7 =
      (Ok tt, (w4, s1))) as (bag & Hv & Hs).
  { cbn [pair_verdict]. destruct (dget "Error" d) as [[| | | | | | |e|]|];
      try (by case_bool_decide);
      (destruct (dget "EscrowBag" d) as [[| | |bag| | | | |]|]; try done; by exists bag). }
  apply sbind_inv in Hs as (raw & ws8 & Hraw & Hs). unfold lift in Hraw. injection Hraw as Hraw <-.
  destruct (to_writer_xml _) as [raw'|] eqn:Hx; [|done]. injection Hraw as ->.
  apply on_outer_inv in Hs as [Hs _]. apply with_usbmux_inv in Hs as (mf & wf & cf & Hmf & Hsave & _).
  exists pub, certs, ws2.1, ws3.1, ws7.1, ws5.2, (PDict d), ws7.2, bag, wifi, host_id, buid, raw, mf,
    wf, cf. done.
Qed.

(** When [unpair] returns [Ok], usbmuxd has been asked to delete the record and
    has not refused, whatever became of the message to the device. *)
Theorem unpair_ok_deleted id udid w w' :
  unpair id udid w = (Ok tt, w') →
  ∃ wa m wb c, mux_connect wa = (Ok m, wb) ∧
    conn_delete_pair_record udid (from_stream (mux_stream m)) = (Ok tt, c) ∧
    w' = hang_up (socket c) wb.
Proof.
  intros (se & wa & _ & H4)%sbind_inv. apply sbind_inv in H4 as (u & wb & _ & H4).
  apply with_usbmux_inv in H4 as (m & wc & c & ? & ? & ?). eauto 10.
Qed.
End pair_spec.

(** ** Witnesses *)

(** A world with a scripted network, a clock that stands still and keys that are
    numbers; it keeps the sockets that have been closed. *)
Module ToyPairing.
Record world : Type := World { script : Script.world; closed : list stream }.

Definition on_script {E A} (m : ST Script.world E A) : ST world E A :=
  zoom script (λ s w, World s (closed w)) m.

#[export] Instance os : Os world := {|
  getenv := λ _, None;
  unix_connect := λ _, on_script Script.next;
  tcp_connect := λ _ _, on_script Script.next
|}.

Definition toy_spki : list byte := der_seq [der_seq []; der_tag x03 [x00; x2a]].

#[export] Instance env : PairingEnv world := {|
  rsa_private := nat;
  rsa_public := nat;
  rsa_generate := sret 7%nat;
  to_public_key := λ k, k;
  from_pkcs1_pem := λ _, inr 8%nat;
  to_public_key_der := λ _, inr toy_spki;
  to_pkcs1_pem := λ _, inr "KEY"%string;
  private_pkcs8_pem := λ _, inl "no"%string;
  private_pkcs1_pem := λ _, inl "no"%string;
  private_pkcs8_der := λ _, inr 9%nat;
  private_pkcs1_der := λ _, inl "no"%string;
  sign_sha1 := λ _ l, Some (replicate 4 x55);
  sha1 := λ l, replicate 20 (byte_of (lenZ l));
  debug_value := λ _, "value"%string;
  clock := λ w, (Some 1709210096000005, w);
  hang_up := λ s w, World (script w) (s :: closed w)
|}.
End ToyPairing.

Section witnesses.
Import ToyPairing.
#[local] Existing Instance debug_profile.
#[local] Existing Instance BitPlist.lib.
#[local] Existing Instance BitPlist.laws.
#[local] Existing Instance ToyTls.lib.

Definition mux_frame (tag : Z) (v : pval) : rd_event :=
  RData (UsbmuxCodec.frame (tag, default [] (to_writer_binary v))).
Definition mux_ok : pval := PDict ["MessageType" =>> PString "Result"; "Number" =>> PInt 0].
Definition mux_buid : stream := idle [mux_frame 1 (PDict ["BUID" =>> PString "B1"])].

Definition pending : pval := PDict ["Error" =>> PString "PairingDialogResponsePending"].
Definition granted : pval := PDict ["Request" =>> PString "Pair"; "EscrowBag" =>> PData [x01; x02]].
Definition challenge : pval :=
  PDict ["Error" =>> PString "MCChallengeRequired";
         "ExtendedResponse" =>> PDict ["PairingChallenge" =>> PData [x41; x42]]].

(** The device: its two values, then the given responses. *)
Definition device_stream (resps : list pval) : stream :=
  idle (mux_frame 1 mux_ok
    :: ((λ v, RData (ld_frame v)) <$>
          ([PDict ["Value" =>> PData (bytes_of "PEM")]; PDict ["Value" =>> PString "a0:b1"]]
           ++ resps))).

Definition toy_world (resps : list pval) : world :=
  World (Script.World [inr mux_buid; inr (device_stream resps); inr (idle [mux_frame 1 mux_ok])]) [].

Lemma build_cert_read_witness :
  ∃ cert tbs ski, @ski_hash debug_profile world env toy_spki = Ok ski ∧
    @build_cert debug_profile world env 8%nat Root 7%nat 1709210096 2024570096 = Ok cert ∧
    read_cert cert = Some (MkCertView tbs [x02] [x00] [] (Some 1709210096) (Some 2024570096)
      toy_spki ski (constraint_of Root) (replicate 4 x55)).
Proof.
  apply (@build_cert_read debug_profile world env 8%nat Root 7%nat 1709210096 2024570096
    [der_seq []; der_tag x03 [x00; x2a]] (λ _, replicate 4 x55)); try reflexivity;
    try (unfold utc_limit; lia); intros; by vm_compute.
Defined.

Lemma build_pkcs7_read_witness :
  ∃ msg attrs, @build_pkcs7_signed_data debug_profile world env [x41]
      (cert_of (Some [x02; x01; x02]) [x05] (x30, []) [] [] []) 9%nat = Ok msg ∧
    read_signed msg = Some (MkSignedView [x41]
      (cert_of (Some [x02; x01; x02]) [x05] (x30, []) [] [] []) (der_tag x30 [] ++ der_tag x02 [x05])
      (sha1 [x41]) attrs (replicate 4 x55)).
Proof.
  apply (@build_pkcs7_read debug_profile world env [x41] (Some [x02; x01; x02]) [x05] (x30, []) [] [] [] 9%nat
    (λ _, replicate 4 x55)); by vm_compute.
Defined.

Lemma saved_record_read_witness :
  from_plist_bytes (xml (PDict (save_record (MkPairingCerts [x01] [x02] [x03] [x04] [x05]) [x06]
    "a0:b1" "H" "B1"))) = Ok (MkPairRecord "H" "B1" [x02] [x05] [x03] [x01]).
Proof. apply saved_record_read. split_and!; reflexivity. Defined.

(** The states of a run on [toy_world]. *)
Definition no_session : LockdownSession := MkSession Upgrading None 0 None.
Definition val {S E A} (d : A) (r : outcome E A * S) : A :=
  match r.1 with Ok a => a | _ => d end.

Section run.
Variable resps : list pval.
Definition t_w1 : world := (mux_connect (toy_world resps)).2.
Definition t_c1 : Conn := (conn_read_buid (from_stream mux_buid)).2.
Definition t_s0 : LockdownSession := val no_session (ld_connect 3 t_w1).
Definition t_w2 : world := (ld_connect 3 t_w1).2.
Definition t_s1 : LockdownSession := (get_value None "DevicePublicKey" t_s0).2.
Definition t_s2 : LockdownSession := (get_value None "WiFiAddress" t_s1).2.
Definition t_certs : PairingCerts :=
  val (MkPairingCerts [] [] [] [] []) (create_pairing_certs (bytes_of "PEM") t_w2).
Definition t_uuid : string := random_upper_uuid 1709210096 5.
Definition t_request (opts : dictionary) : pval :=
  pair_request (pair_record_dict t_certs "B1" t_uuid) opts.
Definition t_plain : dictionary := dict ["ExtendedPairingErrors" =>> PBool true].
Definition t_cert : list byte := cert_of (Some [x02; x01; x02]) [x05] (x30, []) [] [] [].
Definition t_super : dictionary :=
  dict ["SupervisorCertificate" =>> PData t_cert; "ExtendedPairingErrors" =>> PBool true].
Definition t_s3 (opts : dictionary) : LockdownSession := (send_raw (t_request opts) t_s2).2.
Definition t_s4 (opts : dictionary) : LockdownSession := (recv_raw (t_s3 opts)).2.
End run.

(** A closed equation, by evaluation, without writing down the result. *)
Ltac vm_eq := match goal with |- _ = ?b => vm_cast_no_check (eq_refl b) end.

Lemma pair_outcome_witness :
  (pair 3 "u" (toy_world [pending])).1 =
    Err (err (msg0 "trust dialog open — accept 'Trust This Computer' on the device, then run 'ios pair' again")).
Proof.
  rewrite (pair_outcome 3 "u" (toy_world [pending]) (Unix mux_buid) (t_w1 [pending]) "B1" t_c1
    (t_s0 [pending]) (t_w2 [pending]) (bytes_of "PEM") (t_s1 [pending]) "a0:b1" (t_s2 [pending])
    (t_certs [pending]) (t_w2 [pending]) t_uuid (t_w2 [pending]))
    with (s3 := t_s3 [pending] t_plain) (resp := pending) (s4 := t_s4 [pending] t_plain).
  - vm_eq.
  - vm_eq.
  - vm_eq.
  - vm_eq.
  - vm_eq.
  - vm_eq.
  - vm_eq.
  - vm_eq.
  - vm_compute. done.
  - vm_eq.
  - vm_eq.
Defined.

Lemma pair_supervised_outcome_witness :
  (pair_supervised 3 "u" t_cert [x01] (toy_world [challenge; granted])).1 = Ok tt.
Proof.
  rewrite (pair_supervised_outcome 3 "u" (toy_world [challenge; granted]) (Unix mux_buid)
    (t_w1 [challenge; granted]) "B1" t_c1
    (t_s0 [challenge; granted]) (t_w2 [challenge; granted]) (bytes_of "PEM")
    (t_s1 [challenge; granted]) "a0:b1" (t_s2 [challenge; granted])
    (t_certs [challenge; granted]) (t_w2 [challenge; granted]) t_uuid (t_w2 [challenge; granted]))
    with (key := 9%nat) (s3 := t_s3 [challenge; granted] t_super)
      (d1 := default [] (as_dictionary challenge)) (s4 := t_s4 [challenge; granted] t_super).
  - vm_eq.
  - vm_eq.
  - vm_eq.
  - vm_eq.
  - vm_eq.
  - vm_eq.
  - vm_eq.
  - vm_eq.
  - vm_compute. done.
  - vm_eq.
  - vm_eq.
  - vm_eq.
Defined.

Lemma pair_ok_saved_witness :
  ∃ pub certs wc wc' wd s resp s' bag wifi host_id buid raw m we c,
    create_pairing_certs pub wc = (Ok certs, wc') ∧
    recv_raw s = (Ok resp, s') ∧ pair_verdict resp = inr bag ∧
    to_writer_xml (PDict (save_record certs bag wifi host_id buid)) = Some raw ∧
    mux_connect (W:=world) wd = (Ok m, we) ∧
    conn_save_pair_record "u" raw (from_stream (mux_stream m)) = (Ok tt, c).
Proof.
  apply (pair_ok_saved 3 "u" (toy_world [granted]) (pair 3 "u" (toy_world [granted])).2).
  apply injective_projections; [cbn [fst]; vm_eq|reflexivity].
Defined.

Definition deaf_world : world :=
  World (Script.World (replicate 3 (inl (IoError TimedOut "")) ++ [inr (idle [mux_frame 1 mux_ok])]))
    [].
Lemma unpair_ok_deleted_witness :
  ∃ wa m wb c, mux_connect wa = (Ok m, wb) ∧
    conn_delete_pair_record "u" (from_stream (mux_stream m)) = (Ok tt, c) ∧
    (unpair 3 "u" deaf_world).2 = hang_up (socket c) wb.
Proof.
  apply (unpair_ok_deleted 3 "u" deaf_world (unpair 3 "u" deaf_world).2).
  apply injective_projections; [cbn [fst]; vm_eq|reflexivity].
Defined.
End witnesses.
