(* ===== verification/Version.v ===== *)
(** * iOS versions and connection modes

    [src/tunnel/version.rs], [mode.rs] and [error.rs]. *)

From S2P Require Import Prelude RustStd Io Plist.
From S2P Require UsbmuxTypes Lockdown Rsd.

(** [src/tunnel/error.rs] *)
Inductive Error : Type :=
  | Io (e : io_error)
  | Usbmux (e : UsbmuxTypes.Error)
  | Lockdown (e : Lockdown.Error)
  | Rsd (e : Rsd.Error)
  | Json
  | Protocol (m : message)
  | NoDevice
  | VersionError (m : message).

(** [Display] *)
Definition Error_fmt (e : Error) : message :=
  match e with
  | Io e => Msg "I/O: {0}" [FStr (what e)]
  | Usbmux e => Msg "usbmux: {0}" [FDisplay (UsbmuxTypes.Error_fmt e)]
  | Lockdown e => Msg "lockdown: {0}" [FDisplay (Lockdown.Error_fmt e)]
  | Rsd e => Msg "rsd: {0}" [FDisplay (Rsd.Error_fmt e)]
  | Json => msg0 "JSON: {0}"
  | Protocol m => Msg "CDTunnel protocol: {0}" [FDisplay m]
  | NoDevice => msg0 "no device connected"
  | VersionError m => Msg "iOS version parse error: {0}" [FDisplay m]
  end.

(** ** [version.rs] *)

Record IosVersion : Type := MkVersion { major : Z; minor : Z; patch : Z }.
#[export] Instance IosVersion_eq_dec : EqDecision IosVersion.
Proof. solve_decision. Defined.

(** The derived [Ord]: lexicographic in the order of the fields. *)
Definition version_cmp (a b : IosVersion) : comparison :=
  match major a ?= major b with
  | Eq => match minor a ?= minor b with
          | Eq => patch a ?= patch b
          | c => c
          end
  | c => c
  end.
Definition version_ge (a b : IosVersion) : bool :=
  match version_cmp a b with Lt => false | _ => true end.

Definition supports_core_device_proxy (v : IosVersion) : bool := version_ge v (MkVersion 17 4 0).
Definition supports_rsd (v : IosVersion) : bool := 17 <=? major v.
Definition is_legacy_version (v : IosVersion) : bool := major v <? 17.

Definition dot : byte := "."%byte.
Definition is_dot (b : byte) : bool := bool_decide (b = dot).

Definition version_fmt (v : IosVersion) : list byte :=
  dec (major v) ++ [dot] ++ dec (minor v) ++ [dot] ++ dec (patch v).

Definition parse_u32 (p : list byte) : option Z := from_str_radix 32 10 p.

Definition parse_version (s : string) : outcome Error IosVersion :=
  let parts := split_on is_dot (bytes_of s) in
  let? major := ok_or (head parts ≫= parse_u32)
                  (VersionError (Msg "bad version: {s}" [FStr s])) in
  let minor := default 0 (parts !! 1%nat ≫= parse_u32) in
  let patch := default 0 (parts !! 2%nat ≫= parse_u32) in
  Ok (MkVersion major minor patch).

Section detect.
Context `{PlistLib} `{Lockdown.Tls} {W : Type} `{Os.Os W}.

(** [Drop] of the session ends the function. *)
Definition detect_version (device_id : Z) : ST W Error IosVersion :=
  let! session := smap_err Lockdown (Lockdown.ld_connect device_id) in
  match Lockdown.get_value None "ProductVersion" session with
  | (Ok val, _) =>
      match val with
      | PString s => lift (parse_version s)
      | _ => sfail (VersionError (msg0 "ProductVersion not a string"))
      end
  | (Err e, _) => sfail (Lockdown e)
  | (Panic, _) => lift Panic
  | (OutOfFuel, _) => lift OutOfFuel
  end.
End detect.

(** ** [mode.rs] *)

Inductive ConnectionMode : Type := Auto | Legacy | RsdMode.
#[export] Instance ConnectionMode_eq_dec : EqDecision ConnectionMode.
Proof. solve_decision. Defined.

(** [env] is the value of [IOS_LEGACY], when it is set and is UTF-8. *)
Definition from_env (env : option string) : ConnectionMode :=
  match env with
  | Some s =>
      if decide (s = "1"%string ∨ s = "true"%string ∨ s = "yes"%string) then Legacy else Auto
  | None => Auto
  end.

Definition with_legacy_flag (m : ConnectionMode) (legacy : bool) : ConnectionMode :=
  if legacy then Legacy else m.
Definition is_legacy (m : ConnectionMode) : bool := bool_decide (m = Legacy).
Definition is_rsd (m : ConnectionMode) : bool := bool_decide (m = RsdMode).
Definition mode_fmt (m : ConnectionMode) : string :=
  match m with Auto => "auto" | Legacy => "legacy" | RsdMode => "rsd" end.

(** ** Properties *)

(** A decimal number has no dots. *)
Lemma dec_fuel_no_dot fuel n acc :
  0 ≤ n → Forall (λ b, is_dot b = false) acc → Forall (λ b, is_dot b = false) (dec_fuel fuel n acc).
Proof.
  revert n acc. induction fuel as [|fuel IH]; intros n acc Hn Hacc; cbn [dec_fuel];
    assert (is_dot (byte_of (48 + n mod 10)) = false) as Hd.
  1, 3: pose proof (Z.mod_pos_bound n 10 ltac:(lia)); unfold is_dot;
    apply bool_decide_eq_false; intros Heq%(f_equal u8);
    rewrite u8_byte_of_small in Heq by lia; change (u8 dot) with 46 in Heq; lia.
  - case_match; by constructor.
  - case_match; [by constructor|]. apply IH; [apply Z.div_pos; lia|by constructor].
Qed.

Lemma dec_no_dot n : 0 ≤ n → Forall (λ b, is_dot b = false) (dec n).
Proof. intros. by apply dec_fuel_no_dot. Qed.

(** Parsing a formatted version gives the version back. *)
Theorem parse_version_fmt v :
  in_u 32 (major v) → in_u 32 (minor v) → in_u 32 (patch v) →
  parse_version (string_of (version_fmt v)) = Ok v.
Proof.
  intros Ha Hb Hc. unfold parse_version, version_fmt. rewrite bytes_of_string_of.
  unfold in_u in *. cbn [app].
  rewrite (split_on_app is_dot (dec (major v)) dot) by (done || (apply dec_no_dot; lia)).
  rewrite (split_on_app is_dot (dec (minor v)) dot) by (done || (apply dec_no_dot; lia)).
  rewrite split_on_none by (apply dec_no_dot; lia). cbn.
  unfold parse_u32. rewrite !from_str_radix_dec by done. simpl. by destruct v.
Qed.

(** The three predicates split the versions as the tunnel code assumes:
    legacy is before 17, RSD is the rest, and the CoreDeviceProxy versions are
    those from 17.4 on. *)
Theorem version_paths v :
  in_u 32 (major v) → in_u 32 (minor v) → in_u 32 (patch v) →
  is_legacy_version v = negb (supports_rsd v) ∧
  (supports_core_device_proxy v = true → supports_rsd v = true) ∧
  (supports_core_device_proxy v = true ↔ 17 < major v ∨ major v = 17 ∧ 4 ≤ minor v).
Proof.
  intros Ha Hb Hc. unfold in_u in *.
  assert (supports_core_device_proxy v = true ↔ 17 < major v ∨ major v = 17 ∧ 4 ≤ minor v) as Hcdp.
  { unfold supports_core_device_proxy, version_ge, version_cmp. cbn [major minor patch].
    destruct (Z.compare_spec (major v) 17); [|split; [done|lia]|split; [lia|done]].
    destruct (Z.compare_spec (minor v) 4); [|split; [done|lia]|split; [lia|done]].
    destruct (Z.compare_spec (patch v) 0); [split; [lia|done]|lia|split; [lia|done]]. }
  unfold supports_rsd, is_legacy_version. split_and!; [|rewrite Hcdp, Z.leb_le; lia|done].
  destruct (17 <=? major v) eqn:E; zhyps; [by apply Z.ltb_ge|by apply Z.ltb_lt].
Qed.

Lemma parse_version_fmt_witness :
  parse_version (string_of (version_fmt (MkVersion 17 4 1))) = Ok (MkVersion 17 4 1).
Proof. apply parse_version_fmt; unfold in_u; simpl; lia. Defined.

Lemma version_paths_witness :
  is_legacy_version (MkVersion 17 3 9) = negb (supports_rsd (MkVersion 17 3 9)) ∧
  (supports_core_device_proxy (MkVersion 17 3 9) = true → supports_rsd (MkVersion 17 3 9) = true) ∧
  (supports_core_device_proxy (MkVersion 17 3 9) = true ↔ 17 < 17 ∨ 17 = 17 ∧ 4 ≤ 3).
Proof. apply (version_paths (MkVersion 17 3 9)); unfold in_u; simpl; lia. Defined.
