(* ===== verification/CdTunnel.v ===== *)
(** * CDTunnel ([src/tunnel/cdtunnel.rs])

    The framed JSON handshake and the unframed IPv6 packets after it.  The
    [serde_json] crate is the class [SerdeJson], restricted to the two structs. *)

From S2P Require Import Prelude RustStd Io Version.

Record ClientParams : Type := MkClientParams { address : string; cp_mtu : Z }.
Record ServerHandshake : Type := MkServerHandshake {
  server_address : string;
  sh_rsd_port : Z;
  client_parameters : ClientParams
}.

(** [serde_json::to_vec] of a [ClientHandshake] and [from_slice] of a
    [ServerHandshake]. *)
Class SerdeJson := {
  to_vec : string → Z → option (list byte);
  from_slice : list byte → option ServerHandshake
}.

Record TunnelParams : Type := MkTunnelParams {
  client_addr : list Z;
  server_addr : list Z;
  server_rsd_port : Z;
  mtu : Z
}.

Record CdTunnelConn : Type := MkCdTunnel { cd_stream : stream; params : TunnelParams }.

Definition MAGIC : list byte := bytes_of "CDTunnel".

Definition cd_eof : io_error := IoError UnexpectedEof "CDTunnel: connection closed".
Definition cd_read_exact (n : Z) : ST stream io_error (list byte) := read_exact id cd_eof n.

Definition send_frame (body : list byte) : ST stream io_error unit :=
  write_all MAGIC ;;;
  write_all (be_bytes 2 (wrap 16 (lenZ body))) ;;;
  write_all body ;;;
  flush.

Definition recv_frame : ST stream Error (list byte) :=
  let! magic := smap_err Io (cd_read_exact 8) in
  if decide (magic = MAGIC) then
    let! len_buf := smap_err Io (cd_read_exact 2) in
    smap_err Io (cd_read_exact (be_val len_buf))
  else sfail (Protocol (Msg "bad CDTunnel magic: {:?}" [FBytes magic])).

Definition do_handshake `{SerdeJson} : ST stream Error TunnelParams :=
  let! req := lift (ok_or (to_vec "clientHandshakeRequest" 1280) Json) in
  smap_err Io (send_frame req) ;;;
  let! body := recv_frame in
  let! resp := lift (ok_or (from_slice body) Json) in
  let! client_addr := lift (ok_or (parse_ipv6 (address (client_parameters resp)))
                              (Protocol (msg0 "bad client IPv6"))) in
  let! server_addr := lift (ok_or (parse_ipv6 (server_address resp))
                              (Protocol (msg0 "bad server IPv6"))) in
  sret (MkTunnelParams client_addr server_addr (sh_rsd_port resp)
          (cp_mtu (client_parameters resp))).

Definition cd_handshake `{SerdeJson} (stream : stream) : outcome Error CdTunnelConn :=
  match do_handshake stream with
  | (Ok p, s) => Ok (MkCdTunnel s p)
  | (Err e, _) => Err e
  | (Panic, _) => Panic
  | (OutOfFuel, _) => OutOfFuel
  end.

(** Read a full raw IPv6 packet. *)
Definition recv_ipv6 : ST stream io_error (list byte) :=
  let! hdr := cd_read_exact 40 in
  let! l := lift (slice hdr 4 6) in
  let! rest := cd_read_exact (be_val l) in
  sret (hdr ++ rest).

Definition on_cd {E A} (m : ST stream E A) : ST CdTunnelConn E A :=
  zoom cd_stream (λ s c, MkCdTunnel s (params c)) m.
Definition send_ipv6_packet (packet : list byte) : ST CdTunnelConn io_error unit :=
  on_cd (write_all packet).
Definition recv_ipv6_packet : ST CdTunnelConn io_error (list byte) := on_cd recv_ipv6.

Definition try_recv_ipv6_packet : ST CdTunnelConn io_error (option (list byte)) :=
  let! r := stry recv_ipv6_packet in
  match r with
  | inr p => sret (Some p)
  | inl e =>
      if decide (kind e = WouldBlock) then sret None
      else if decide (kind e = TimedOut) then sret None
      else sfail e
  end.

(** ** Frames *)

Definition cd_frame (body : list byte) : list byte :=
  MAGIC ++ be_bytes 2 (lenZ body) ++ body.

Lemma send_frame_healthy body s :
  healthy s →
  send_frame body s = (Ok tt, append_tx (MAGIC ++ be_bytes 2 (wrap 16 (lenZ body)) ++ body) s).
Proof.
  intros Hs. unfold send_frame, sbind.
  do 3 (rewrite write_all_healthy by done). rewrite flush_healthy by done.
  by rewrite !append_tx_app.
Qed.

(** C31. A frame of any size is received as its first [n] bytes, where [n] is
    its size modulo [2^16]: bodies under 64 KiB arrive whole and leave the
    stream where they end, longer ones are cut, and their tail is what the next
    read sees. *)
Theorem recv_frame_of_send body s sp l r :
  healthy s →
  ∃ bytes, send_frame body s = (Ok tt, append_tx bytes s) ∧
    (delivers (rx sp) (bytes ++ l) r →
     let n := Z.to_nat (lenZ body mod 2 ^ 16) in
     ∃ r1, recv_frame sp = (Ok (take n body), set_rx r1 sp) ∧
       delivers r1 (drop n body ++ l) r).
Proof.
  intros Hs. eexists. split; [by apply send_frame_healthy|]. intros Hd n.
  set (len := lenZ body mod 2 ^ 16) in *.
  pose proof (Z.mod_pos_bound (lenZ body) (2 ^ 16) ltac:(lia)) as Hm. fold len in Hm.
  change (wrap 16 (lenZ body)) with len in Hd.
  rewrite <-(take_drop n body) in Hd at 1. rewrite <-!(assoc_L (++)) in Hd.
  destruct (read_exact_delivers id cd_eof 8 _ _ _ _ Hd) as (r1 & Hr1 & Hd1); [done|].
  destruct (read_exact_delivers id cd_eof 2 (set_rx r1 sp) _ _ _ Hd1) as (r2 & Hr2 & Hd2); [len|].
  assert (lenZ (take n body) = len) as Hlen.
  { unfold lenZ. rewrite length_take. unfold n, len, lenZ in *.
    assert (Z.of_nat (length body) mod 2 ^ 16 ≤ Z.of_nat (length body)) by (apply Z.mod_le; lia).
    lia. }
  destruct (read_exact_delivers id cd_eof len (set_rx r2 sp) _ _ _ Hd2) as (r3 & Hr3 & Hd3);
    [done|].
  exists r3. split; [|done]. unfold recv_frame, sbind, smap_err, cd_read_exact. rewrite Hr1.
  cbn [omap_err]. rewrite decide_True by done. rewrite Hr2. cbn [omap_err].
  rewrite be_val_be_bytes_small by (unfold in_u; lia). rewrite set_rx_set_rx. by rewrite Hr3.
Qed.

(** ** Packets *)

(** A whole IPv6 packet: a header of 40 bytes with the payload length. *)
Definition packet_ok (p : list byte) : Prop :=
  40 ≤ lenZ p ∧ ∃ l, get_slice p 4 6 = Some l ∧ lenZ p = 40 + be_val l.

Lemma recv_ipv6_packet_aux p s l r :
  packet_ok p → delivers (rx s) (p ++ l) r →
  ∃ r1, recv_ipv6 s = (Ok p, set_rx r1 s) ∧ delivers r1 l r.
Proof.
  intros (H40 & v & Hv & Hlen) Hd.
  rewrite <-(take_drop 40 p) in Hd. rewrite <-(assoc_L (++)) in Hd.
  assert (lenZ (take 40 p) = 40) as Ht by (unfold lenZ in *; rewrite length_take; lia).
  destruct (read_exact_delivers id cd_eof 40 _ _ _ _ Hd) as (r1 & Hr1 & Hd1); [done|].
  destruct (read_exact_delivers id cd_eof (be_val v) (set_rx r1 s) _ _ _ Hd1)
    as (r2 & Hr2 & Hd2).
  { unfold lenZ in *. rewrite length_drop. lia. }
  exists r2. split; [|done]. unfold recv_ipv6, sbind, cd_read_exact, lift. rewrite Hr1.
  unfold slice. rewrite <-(take_drop 40 p) in Hv. rewrite get_slice_app_l in Hv by lia.
  rewrite Hv. cbn [or_panic]. rewrite Hr2. unfold sret. by rewrite take_drop.
Qed.

Fixpoint recv_many (n : nat) : ST stream io_error (list (list byte)) :=
  match n with
  | O => sret []
  | S n => let! p := recv_ipv6 in let! ps := recv_many n in sret (p :: ps)
  end.

(** The packets written one after another on the tunnel are received one
    after another, with the boundaries they had, however the stream is cut. *)
Theorem recv_ipv6_packets ps s l r :
  Forall packet_ok ps → delivers (rx s) (concat ps ++ l) r →
  ∃ r1, recv_many (length ps) s = (Ok ps, set_rx r1 s) ∧ delivers r1 l r.
Proof.
  intros Hps. revert s. induction Hps as [|p ps Hp _ IH]; intros s Hd.
  - exists (rx s). simpl. unfold sret. by rewrite set_rx_id.
  - cbn [concat] in Hd. rewrite <-(assoc_L (++)) in Hd.
    destruct (recv_ipv6_packet_aux p s _ r Hp Hd) as (r1 & Hr1 & Hd1).
    destruct (IH (set_rx r1 s) Hd1) as (r2 & Hr2 & Hd2).
    exists r2. split; [|done]. cbn [length recv_many]. unfold sbind. rewrite Hr1, Hr2. done.
Qed.

(** A timeout in the middle of a packet loses what was read of it: the
    poll reports that no packet has arrived, and the bytes are gone, so that
    the next packet is read from the middle of this one. *)
Theorem try_recv_loses_partial c l e r :
  delivers (rx (cd_stream c)) l (RFail e :: r) → lenZ l < 40 →
  kind e = WouldBlock ∨ kind e = TimedOut →
  try_recv_ipv6_packet c = (Ok None, MkCdTunnel (set_rx r (cd_stream c)) (params c)).
Proof.
  intros Hd Hl He. unfold try_recv_ipv6_packet, recv_ipv6_packet, on_cd, zoom, stry, sbind at 1.
  unfold recv_ipv6, sbind at 1, cd_read_exact.
  rewrite (read_exact_fail id cd_eof 40 _ l e r) by done. simpl.
  destruct (decide (kind e = WouldBlock)); [done|].
  destruct He as [He|He]; [done|]. by rewrite decide_True.
Qed.

(** The handshake sends one frame with the request and returns the
    addresses, the port and the MTU of the response, the addresses being eight
    16-bit groups. *)
Theorem do_handshake_result `{SerdeJson} req body resp caddr saddr s l r :
  to_vec "clientHandshakeRequest" 1280 = Some req → from_slice body = Some resp →
  parse_ipv6 (address (client_parameters resp)) = Some caddr →
  parse_ipv6 (server_address resp) = Some saddr →
  healthy s → lenZ req < 2 ^ 16 → lenZ body < 2 ^ 16 →
  delivers (rx s) (cd_frame body ++ l) r →
  ∃ r1, do_handshake s =
      (Ok (MkTunnelParams caddr saddr (sh_rsd_port resp) (cp_mtu (client_parameters resp))),
       append_tx (cd_frame req) (set_rx r1 s)) ∧
    delivers r1 l r ∧
    (length caddr = 8%nat ∧ Forall (in_u 16) caddr) ∧
    (length saddr = 8%nat ∧ Forall (in_u 16) saddr).
Proof.
  intros Hreq Hbody Hc Hsv Hs Hlr Hlb Hd.
  pose proof (lenZ_nonneg req). pose proof (lenZ_nonneg body).
  unfold cd_frame in Hd. rewrite <-!(assoc_L (++)) in Hd.
  destruct (read_exact_delivers id cd_eof 8 (append_tx (cd_frame req) s) _ _ _ Hd)
    as (r1 & Hr1 & Hd1); [done|].
  destruct (read_exact_delivers id cd_eof 2 (set_rx r1 (append_tx (cd_frame req) s)) _ _ _ Hd1)
    as (r2 & Hr2 & Hd2); [len|].
  destruct (read_exact_delivers id cd_eof (lenZ body) (set_rx r2 (append_tx (cd_frame req) s))
    _ _ _ Hd2) as (r3 & Hr3 & Hd3); [done|].
  exists r3. split_and!; [|done|by eapply parse_ipv6_ok..].
  unfold do_handshake. unfold sbind at 1, lift at 1. rewrite Hreq. cbn [ok_or].
  unfold sbind at 1, smap_err at 1. rewrite send_frame_healthy by done.
  rewrite wrap_small by (unfold in_u; lia). cbn [omap_err]. fold (cd_frame req).
  unfold recv_frame, sbind, smap_err, cd_read_exact, lift. rewrite Hr1.
  cbn [omap_err]. rewrite decide_True by done. rewrite Hr2. cbn [omap_err].
  rewrite be_val_be_bytes_small by (unfold in_u; lia). rewrite set_rx_set_rx.
  rewrite Hr3. cbn [omap_err].
  rewrite Hbody. cbn [ok_or]. rewrite Hc. cbn [ok_or]. rewrite Hsv. done.
Qed.

(** ** Concrete inputs *)

Lemma recv_frame_of_send_witness :
  ∃ bytes, send_frame [x7b; x7d] (idle []) = (Ok tt, append_tx bytes (idle [])) ∧
    (delivers [RData (cd_frame [x7b; x7d])] (bytes ++ []) [] →
     ∃ r1, recv_frame (idle [RData (cd_frame [x7b; x7d])]) =
         (Ok (take (Z.to_nat (lenZ [x7b; x7d] mod 2 ^ 16)) [x7b; x7d]),
          set_rx r1 (idle [RData (cd_frame [x7b; x7d])])) ∧
       delivers r1 (drop (Z.to_nat (lenZ [x7b; x7d] mod 2 ^ 16)) [x7b; x7d] ++ []) []).
Proof.
  apply (recv_frame_of_send [x7b; x7d] (idle []) (idle [RData (cd_frame [x7b; x7d])]) [] []).
  reflexivity.
Defined.

(** A header announcing one byte of payload, and that byte. *)
Definition sample_packet : list byte := replicate 4 x60 ++ [x00; x01] ++ replicate 34 x00 ++ [x2a].

Lemma sample_packet_ok : packet_ok sample_packet.
Proof. split; [vm_compute; discriminate|]. exists [x00; x01]. split; vm_compute; reflexivity. Qed.

Lemma recv_ipv6_packets_witness :
  ∃ r1, recv_many 2 (idle [RData (sample_packet ++ [x60]); RData (drop 1 sample_packet)]) =
      (Ok [sample_packet; sample_packet],
       set_rx r1 (idle [RData (sample_packet ++ [x60]); RData (drop 1 sample_packet)])) ∧
    delivers r1 [] [].
Proof.
  apply (recv_ipv6_packets [sample_packet; sample_packet] _ [] []).
  - repeat constructor; apply sample_packet_ok.
  - apply (delivers_pieces [sample_packet ++ [x60]; drop 1 sample_packet] []).
    repeat constructor; discriminate.
Defined.

Lemma try_recv_loses_partial_witness :
  let p := MkTunnelParams [] [] 0 1280 in
  try_recv_ipv6_packet
    (MkCdTunnel (idle [RData [x60; x00]; RFail (IoError WouldBlock "timeout")]) p) =
    (Ok None, MkCdTunnel (idle []) p).
Proof.
  intros p. apply (try_recv_loses_partial (MkCdTunnel
    (idle [RData [x60; x00]; RFail (IoError WouldBlock "timeout")]) p)
    [x60; x00] (IoError WouldBlock "timeout") []).
  - apply delivers_one. discriminate.
  - reflexivity.
  - left. reflexivity.
Defined.

(** A JSON library that knows one response. *)
Definition toy_json : SerdeJson := {|
  to_vec _ _ := Some [x7b; x7d];
  from_slice l :=
    if decide (l = [x7b; x7d]) then
      Some (MkServerHandshake "fd00::1" 58783 (MkClientParams "fd00::2" 1280))
    else None
|}.

Lemma do_handshake_result_witness :
  ∃ r1, do_handshake (H:=toy_json) (idle [RData (cd_frame [x7b; x7d])]) =
      (Ok (MkTunnelParams [0xfd00; 0; 0; 0; 0; 0; 0; 2] [0xfd00; 0; 0; 0; 0; 0; 0; 1] 58783 1280),
       append_tx (cd_frame [x7b; x7d]) (set_rx r1 (idle [RData (cd_frame [x7b; x7d])]))) ∧
    delivers r1 [] [] ∧
    (length [0xfd00; 0; 0; 0; 0; 0; 0; 2] = 8%nat ∧ Forall (in_u 16) [0xfd00; 0; 0; 0; 0; 0; 0; 2]) ∧
    (length [0xfd00; 0; 0; 0; 0; 0; 0; 1] = 8%nat ∧ Forall (in_u 16) [0xfd00; 0; 0; 0; 0; 0; 0; 1]).
Proof.
  apply (do_handshake_result (H:=toy_json) [x7b; x7d] [x7b; x7d]
    (MkServerHandshake "fd00::1" 58783 (MkClientParams "fd00::2" 1280))); try reflexivity.
  rewrite app_nil_r. apply delivers_one. vm_compute. discriminate.
Defined.
