(* ===== verification/RpCredentials.v ===== *)
(** * Remote pairing: credentials and framing

    [src/tunnel/remote_pairing/credentials.rs] and [framing.rs].  The files are
    the class [Files] over the state of the world, the key generator and the
    random numbers the class [RpRandom]. *)

From S2P Require Import Prelude RustStd Io Plist Json Os Version.

Class Files (W : Type) := {
  file_read : string → ST W io_error (list byte);
  file_create_dir_all : string → ST W io_error unit;
  file_write : string → list byte → ST W io_error unit;
  file_remove : string → ST W io_error unit
}.

(** A file that has been written is read back. *)
Class FilesLaws {W} (F : Files W) := {
  file_write_read p l w w' :
    file_write p l w = (Ok tt, w') → file_read p w' = (Ok l, w')
}.

Class RpRandom (W : Type) := {
  (** [n] random bytes *)
  rp_random : nat → W → list byte * W;
  (** [SigningKey::generate]: the seed *)
  ed_generate : W → list byte * W
}.

Record OurIdentity : Type := MkOurIdentity { identifier : string; our_signing_key : string }.
Record PeerCredentials : Type := MkPeer { peer_identifier : string; peer_public_key : string }.
Record RemotePairingRecord : Type := MkRpRecord { our : OurIdentity; peer : PeerCredentials }.

(** The derived [Serialize] and [Deserialize]. *)
Definition ser_record (r : RemotePairingRecord) : jval :=
  JObject
    ["our" =:> JObject ["identifier" =:> JString (identifier (our r));
                        "signing_key" =:> JString (our_signing_key (our r))];
     "peer" =:> JObject ["peer_identifier" =:> JString (peer_identifier (peer r));
                         "peer_public_key" =:> JString (peer_public_key (peer r))]].

Definition de_our (v : jval) : option OurIdentity :=
  d ← de_jobject v;
  i ← jfield de_jstring None "identifier" d;
  k ← jfield de_jstring None "signing_key" d;
  Some (MkOurIdentity i k).
(** [#[serde(default)]] on the key of the peer *)
Definition de_peer (v : jval) : option PeerCredentials :=
  d ← de_jobject v;
  i ← jfield de_jstring None "peer_identifier" d;
  k ← jfield de_jstring (Some ""%string) "peer_public_key" d;
  Some (MkPeer i k).
Definition de_record (v : jval) : option RemotePairingRecord :=
  d ← de_jobject v;
  o ← jfield de_our None "our" d;
  p ← jfield de_peer None "peer" d;
  Some (MkRpRecord o p).

(** ** Hexadecimal *)

Definition hex_encode (b : list byte) : string := string_of (concat (hex02 false <$> b)).

(** [s.is_char_boundary(i)], and the slice [&s[a..b]], which panics. *)
Definition is_char_boundary (l : list byte) (i : nat) : bool :=
  match l !! i with
  | Some b => negb ((128 <=? u8 b) && (u8 b <? 192))
  | None => (i =? length l)%nat
  end.
Definition str_slice {E} (l : list byte) (a b : nat) : outcome E (list byte) :=
  if is_char_boundary l a && is_char_boundary l b && (b <=? length l)%nat
  then Ok (take (b - a) (drop a l)) else Panic.

(** The iterator over [(0..s.len()).step_by(2)], collected up to the first
    error. *)
Fixpoint hex_decode_from (fuel i : nat) (l : list byte) : outcome string (list byte) :=
  if (i <? length l)%nat then
    match fuel with
    | O => OutOfFuel
    | S fuel =>
        let? s := str_slice l i (i + 2) in
        let? n := ok_or (from_str_radix 8 16 s) "invalid digit found in string"%string in
        let? rest := hex_decode_from fuel (i + 2) l in
        Ok (byte_of n :: rest)
    end
  else Ok [].
Definition hex_decode (s : string) : outcome string (list byte) :=
  hex_decode_from (length (bytes_of s)) 0 (bytes_of s).

(** ** UUIDs *)

Definition set_bits (b : byte) (keep mark : Z) : byte := byte_of (Z.lor (Z.land (u8 b) keep) mark).
Definition uuid_bytes (bytes : list byte) : list byte :=
  alter (λ b, set_bits b 0x3f 0x80) 8%nat (alter (λ b, set_bits b 0x0f 0x40) 6%nat bytes).
Definition uuid_fmt (bytes : list byte) : string :=
  let x i := hex02 false (default x00 (bytes !! i)) in
  string_of (
    x 0%nat ++ x 1%nat ++ x 2%nat ++ x 3%nat ++ ["-"%byte]
    ++ x 4%nat ++ x 5%nat ++ ["-"%byte] ++ x 6%nat ++ x 7%nat ++ ["-"%byte]
    ++ x 8%nat ++ x 9%nat ++ ["-"%byte]
    ++ x 10%nat ++ x 11%nat ++ x 12%nat ++ x 13%nat ++ x 14%nat ++ x 15%nat).

(** [to_uppercase] on ASCII *)
Definition upper (b : byte) : byte :=
  if (97 <=? u8 b) && (u8 b <=? 122) then byte_of (u8 b - 32) else b.
Definition to_uppercase (s : string) : string := string_of (upper <$> bytes_of s).

Section credentials.
Context {W : Type} `{Os W} `{Files W} `{RpRandom W} `{JsonLib}.

Definition record_path (udid : string) : option string :=
  home ← getenv "HOME";
  Some (path_join (path_join home ".local/share/devicelink/remote-pairing")
          (string_of (bytes_of udid ++ bytes_of ".json"))).

(** [Path::parent] of a path whose last component is a file name *)
Fixpoint before_slash (l : list byte) : option (list byte) :=
  match l with
  | [] => None
  | b :: l =>
      match before_slash l with
      | Some p => Some (b :: p)
      | None => if bool_decide (b = "/"%byte) then Some [] else None
      end
  end.
Definition path_parent (p : string) : string :=
  match before_slash (bytes_of p) with
  | Some [] => "/"
  | Some d => string_of d
  | None => ""
  end%string.

Definition load (udid : string) : ST W Error (option RemotePairingRecord) :=
  match record_path udid with
  | None => sret None
  | Some path =>
      let! data := stry (file_read path) in
      match data with
      | inl _ => sret None
      | inr data => sret (json_parse data ≫= de_record)
      end
  end.

Definition save (r : RemotePairingRecord) (udid : string) : ST W Error unit :=
  let! path := lift (ok_or (record_path udid)
                       (Protocol (msg0 "cannot determine home directory"))) in
  smap_err Io (file_create_dir_all (path_parent path)) ;;;
  let! json := lift (or_panic (json_to_vec_pretty (ser_record r))) in
  smap_err Io (file_write path json).

Definition delete (udid : string) : ST W Error unit :=
  match record_path udid with
  | Some p => signore (file_remove p)
  | None => sret tt
  end.

(** [SigningKey::from_bytes] keeps the 32 bytes of the seed. *)
Definition signing_key (r : RemotePairingRecord) : outcome Error (list byte) :=
  let? bytes := omap_err (λ e, Protocol (Msg "bad signing key hex: {e}" [FStr e]))
                  (hex_decode (our_signing_key (our r))) in
  if (length bytes =? 32)%nat then Ok bytes
  else Err (Protocol (msg0 "signing key must be 32 bytes")).

Definition new_v4 : ST W Error string := λ w,
  let '(bytes, w) := rp_random 16 w in (Ok (uuid_fmt (uuid_bytes bytes)), w).

Definition new_identity (udid : string) : ST W Error RemotePairingRecord := λ w,
  let '(sk, w) := ed_generate w in
  (let! ident := new_v4 in
   sret (MkRpRecord (MkOurIdentity (to_uppercase ident) (hex_encode sk)) (MkPeer "" ""))) w.
End credentials.

(** ** Framing ([framing.rs]) *)

Section framing.
Context `{PlistLib}.

Definition rp_send (msg : pval) : ST stream Error unit :=
  let! body := lift (ok_or (to_writer_xml msg) (Protocol (msg0 "plist encode: {e}"))) in
  smap_err Io (write_all (be_bytes 4 (wrap 32 (lenZ body)))) ;;;
  smap_err Io (write_all body) ;;;
  smap_err Io flush.

Definition rp_read_exact (n : Z) : ST stream Error (list byte) :=
  read_exact Io (Protocol (msg0 "RemotePairing: connection closed")) n.

Definition rp_recv : ST stream Error pval :=
  let! len_buf := rp_read_exact 4 in
  let! body := rp_read_exact (be_val len_buf) in
  lift (ok_or (from_bytes body) (Protocol (msg0 "RemotePairing plist recv: {e}"))).
End framing.

(** ** Hexadecimal *)

Lemma hex_digit_val n : 0 ≤ n < 16 → digit_val 16 (hex_digit false n) = Some n.
Proof.
  intros Hn. assert (Forall (λ n, digit_val 16 (hex_digit false n) = Some n) (seqZ 0 16)) as Hall
    by (apply (bool_decide_unpack _); vm_compute; exact I).
  rewrite Forall_forall in Hall. apply Hall, elem_of_seqZ. lia.
Qed.
Lemma hex_digit_ascii n : 0 ≤ n < 16 → u8 (hex_digit false n) < 128 ∧ hex_digit false n ≠ "+"%byte.
Proof.
  intros Hn. assert (Forall (λ n, u8 (hex_digit false n) < 128 ∧ hex_digit false n ≠ "+"%byte)
    (seqZ 0 16)) as Hall by (apply (bool_decide_unpack _); vm_compute; exact I).
  rewrite Forall_forall in Hall. apply Hall, elem_of_seqZ. lia.
Qed.

Lemma nibbles b : 0 ≤ u8 b / 16 < 16 ∧ 0 ≤ u8 b mod 16 < 16 ∧ u8 b = u8 b / 16 * 16 + u8 b mod 16.
Proof. pose proof (u8_range b). Z.div_mod_to_equations. lia. Qed.

Lemma from_str_radix_hex02 b : from_str_radix 8 16 (hex02 false b) = Some (u8 b).
Proof.
  destruct (nibbles b) as (Hh & Hl & He). pose proof (u8_range b).
  unfold from_str_radix, hex02. destruct (hex_digit_ascii _ Hh) as [_ Hplus].
  assert (match hex_digit false (u8 b / 16) with
    | "+"%byte => [hex_digit false (u8 b mod 16)]
    | _ => [hex_digit false (u8 b / 16); hex_digit false (u8 b mod 16)]
    end = [hex_digit false (u8 b / 16); hex_digit false (u8 b mod 16)]) as Hd
    by (by destruct (hex_digit false (u8 b / 16))).
  assert (parse_digits 16 (2 ^ 8 - 1) 0
    [hex_digit false (u8 b / 16); hex_digit false (u8 b mod 16)] = Some (u8 b)) as Hp.
  { cbn [parse_digits]. rewrite !hex_digit_val by done. zcmp. f_equal. lia. }
  destruct (hex_digit false (u8 b / 16)); try exact Hp. done.
Qed.

Lemma str_slice_ascii {E} pre l post :
  Forall (λ b, u8 b < 128) (pre ++ l ++ post) →
  str_slice (E:=E) (pre ++ l ++ post) (length pre) (length pre + length l) = Ok l.
Proof.
  intros Ha. set (s := pre ++ l ++ post) in *. unfold str_slice.
  assert (∀ i, (i ≤ length s)%nat → is_char_boundary s i = true) as Hb.
  { intros i Hi. unfold is_char_boundary. destruct (s !! i) as [b|] eqn:Hi'.
    - eapply Forall_lookup_1 in Ha; [|exact Hi']. cbn in Ha. apply negb_true_iff, andb_false_iff. left.
      apply Z.leb_gt. lia.
    - apply lookup_ge_None in Hi'. apply Nat.eqb_eq. lia. }
  rewrite !Hb by (unfold s; rewrite !length_app; lia).
  rewrite (proj2 (Nat.leb_le _ _)) by (unfold s; rewrite !length_app; lia).
  cbn [andb]. f_equal. replace (length pre + length l - length pre)%nat with (length l) by lia.
  unfold s. by rewrite drop_app_length, take_app_length.
Qed.

Lemma hex_ascii bs : Forall (λ b, u8 b < 128) (concat (hex02 false <$> bs)).
Proof.
  induction bs as [|b bs IH]; [constructor|]. rewrite fmap_cons. cbn [concat].
  apply Forall_app. split; [|done]. destruct (nibbles b) as (Hh & Hl & _).
  unfold hex02. repeat (apply Forall_cons; split; [by apply hex_digit_ascii|]). constructor.
Qed.

Lemma hex_decode_from_spec pre bs rest fuel :
  Forall (λ b, u8 b < 128) pre → Forall (λ b, u8 b < 128) rest →
  hex_decode_from (length bs + fuel) (length pre) (pre ++ concat (hex02 false <$> bs) ++ rest) =
    let? r := hex_decode_from fuel (length pre + 2 * length bs)
                (pre ++ concat (hex02 false <$> bs) ++ rest) in Ok (bs ++ r).
Proof.
  intros Hpre Hrest. revert pre Hpre. induction bs as [|b bs IH]; intros pre Hpre.
  - cbn [length app]. rewrite Nat.add_0_r. by destruct (hex_decode_from _ _ _).
  - rewrite fmap_cons. cbn [concat length]. rewrite <-(assoc_L (++)).
    set (tl := concat (hex02 false <$> bs) ++ rest).
    assert (Forall (λ b, u8 b < 128) (pre ++ hex02 false b ++ tl)) as Hall.
    { rewrite !Forall_app. split_and!; [done| |unfold tl; rewrite Forall_app; split;
        [apply hex_ascii|done]].
      pose proof (hex_ascii [b]) as Hb. cbn in Hb. by rewrite ?app_nil_r in Hb. }
    change (S (length bs) + fuel)%nat with (S (length bs + fuel)). cbn [hex_decode_from].
    rewrite (proj2 (Nat.ltb_lt _ _)) by (rewrite !length_app; simpl; lia).
    pose proof (str_slice_ascii (E:=string) pre (hex02 false b) tl Hall) as Hs.
    change (length (hex02 false b)) with 2%nat in Hs. rewrite Hs. cbn [obind].
    rewrite from_str_radix_hex02. cbn [ok_or obind].
    replace (pre ++ hex02 false b ++ tl) with ((pre ++ hex02 false b) ++ tl)
      by (by rewrite <-(assoc_L (++))).
    replace (length pre + 2)%nat with (length (pre ++ hex02 false b))
      by (by rewrite length_app).
    unfold tl. rewrite IH by (rewrite Forall_app in Hall; rewrite Forall_app in Hall;
      rewrite Forall_app; tauto).
    rewrite length_app. change (length (hex02 false b)) with 2%nat.
    replace (length pre + 2 + 2 * length bs)%nat with (length pre + 2 * S (length bs))%nat by lia.
    rewrite byte_of_u8. by destruct (hex_decode_from fuel _ _).
Qed.

Lemma hex_decode_encode_aux bs : hex_decode (hex_encode bs) = Ok bs.
Proof.
  unfold hex_decode, hex_encode. rewrite bytes_of_string_of.
  assert (length (concat (hex02 false <$> bs)) = length bs + length bs)%nat as Hl.
  { induction bs as [|b bs IH]; [done|]. rewrite fmap_cons. cbn [concat].
    rewrite length_app, IH. simpl. lia. }
  rewrite Hl. pose proof (hex_decode_from_spec [] bs [] (length bs)) as Hd.
  cbn [app length] in Hd. rewrite app_nil_r in Hd. rewrite Hd by constructor.
  assert (∀ fuel, hex_decode_from fuel (0 + 2 * length bs) (concat (hex02 false <$> bs)) = Ok []) as He.
  { intros fuel. destruct fuel; cbn [hex_decode_from];
      by rewrite (proj2 (Nat.ltb_ge _ _)) by lia. }
  rewrite He. cbn [obind]. by rewrite app_nil_r.
Qed.

(** Hexadecimal text of any bytes decodes to them; one character more, and the
    decoder panics. *)
Theorem hex_roundtrip bs c :
  hex_decode (hex_encode bs) = Ok bs ∧
  (u8 c < 128 → hex_decode (string_of (bytes_of (hex_encode bs) ++ [c])) = Panic).
Proof.
  split; [apply hex_decode_encode_aux|]. intros Hc.
  unfold hex_decode, hex_encode. rewrite !bytes_of_string_of.
  assert (length (concat (hex02 false <$> bs)) = length bs + length bs)%nat as Hl.
  { induction bs as [|b bs IH]; [done|]. rewrite fmap_cons. cbn [concat].
    rewrite length_app, IH. simpl. lia. }
  rewrite length_app, Hl. cbn [length].
  pose proof (hex_decode_from_spec [] bs [c] (length bs + 1)) as Hd. cbn [app length] in Hd.
  replace (length bs + length bs + 1)%nat with (length bs + (length bs + 1))%nat by lia.
  rewrite Hd by (repeat constructor; done). rewrite Nat.add_1_r. cbn [hex_decode_from].
  rewrite (proj2 (Nat.ltb_lt _ _)) by (rewrite length_app, Hl; simpl; lia).
  assert (∀ E, str_slice (E:=E) (concat (hex02 false <$> bs) ++ [c]) (0 + 2 * length bs)
    (0 + 2 * length bs + 2) = Panic) as Hs.
  { intros E. unfold str_slice.
    rewrite (proj2 (Nat.leb_gt _ _)) by (rewrite length_app, Hl; simpl; lia).
    by rewrite andb_false_r. }
  by rewrite Hs.
Qed.

(** ** Records on disk *)
Section records.
Context {W : Type} `{Os W} `{F : Files W} `{!FilesLaws F} `{RpRandom W} `{J : JsonLib} `{!JsonLaws J}.

(** The fields are Rust strings. *)
Definition record_ok (r : RemotePairingRecord) : Prop :=
  utf8_string (identifier (our r)) ∧ utf8_string (our_signing_key (our r)) ∧
  utf8_string (peer_identifier (peer r)) ∧ utf8_string (peer_public_key (peer r)).

Lemma de_ser_record r : de_record (ser_record r) = Some r.
Proof. by destruct r as [[] []]. Qed.

Lemma ser_record_plain r : record_ok r → jplain (ser_record r) = true.
Proof.
  intros (H1 & H2 & H3 & H4). unfold ser_record. cbn [jplain forallb fst snd].
  by rewrite !(bool_decide_true (utf8_string _)) by (done || (by vm_compute)).
Qed.

Lemma save_load_aux r udid w w' :
  record_ok r → save r udid w = (Ok tt, w') → load udid w' = (Ok (Some r), w').
Proof.
  intros Hr Hs. unfold save in Hs. apply sbind_inv in Hs as (path & w1 & Hp & Hs).
  unfold lift in Hp. injection Hp as Hp <-. unfold load.
  destruct (record_path udid) as [path'|]; [|done]. injection Hp as ->.
  apply sbind_inv in Hs as (_ & w2 & _ & Hs). apply sbind_inv in Hs as (json & w3 & Hj & Hs).
  unfold lift in Hj. injection Hj as Hj <-.
  destruct (json_pretty_roundtrip (ser_record r)) as (l & Hl & Hpl); [by apply ser_record_plain|].
  rewrite Hl in Hj. injection Hj as ->. apply smap_err_inv in Hs. apply file_write_read in Hs.
  unfold stry, sbind. rewrite Hs. simpl. by rewrite Hpl, <-(de_ser_record r).
Qed.

(** A record that has been saved is loaded again, for the same device. *)
Theorem save_load r udid w w' :
  record_ok r → save r udid w = (Ok tt, w') → load udid w' = (Ok (Some r), w').
Proof. apply save_load_aux. Qed.

(** The key of a fresh identity is the key that was generated, and its fields
    can be saved. *)
Lemma hex_encode_utf8 l : utf8_string (hex_encode l).
Proof. unfold utf8_string, hex_encode. rewrite bytes_of_string_of. apply utf8_valid_ascii, hex_ascii. Qed.

Lemma signing_key_hex o sk p :
  length sk = 32%nat → signing_key (MkRpRecord (MkOurIdentity o (hex_encode sk)) p) = Ok sk.
Proof.
  intros Hl. unfold signing_key. cbn [our our_signing_key]. rewrite hex_decode_encode_aux.
  cbn [omap_err obind]. by rewrite Hl.
Qed.
End records.

Lemma hex_roundtrip_witness :
  hex_decode (hex_encode [x0a; xff]) = Ok [x0a; xff] ∧
  hex_decode (string_of (bytes_of (hex_encode [x0a; xff]) ++ ["7"%byte])) = Panic.
Proof.
  destruct (hex_roundtrip [x0a; xff] "7"%byte) as [H1 H2]. split; [exact H1|apply H2; done].
Defined.

(** Files in memory. *)
Module RpFs.
Definition world := list (string * list byte).
#[export] Instance files : Files world := {|
  file_read p := λ w, match al_lookup p w with
                      | Some l => (Ok l, w)
                      | None => (Err (IoError (OtherKind 2) "not found"), w)
                      end;
  file_create_dir_all _ := sret tt;
  file_write p l := λ w, (Ok tt, al_insert p l w);
  file_remove p := λ w, (Ok tt, al_remove p w)
|}.
#[export] Instance laws : FilesLaws files.
Proof.
  split. intros p l w w' [= <-]. unfold file_read, files. by rewrite al_lookup_insert_eq.
Qed.
#[export] Instance os : Os world := {|
  getenv _ := Some "/root"%string;
  unix_connect _ := sfail (IoError (OtherKind 0) "");
  tcp_connect _ _ := sfail (IoError (OtherKind 0) "")
|}.
#[export] Instance random : RpRandom world := {|
  rp_random n w := (replicate n x5a, w);
  ed_generate w := (replicate 32 x07, w)
|}.
End RpFs.

Section witnesses.
Import RpFs BitJson.
Definition sample_record : RemotePairingRecord :=
  MkRpRecord (MkOurIdentity "HOST" (hex_encode (replicate 32 x07))) (MkPeer "PEER" "").

Lemma save_load_witness :
  load "u1" (save sample_record "u1" []).2 =
    (Ok (Some sample_record), (save sample_record "u1" []).2).
Proof.
  apply (save_load sample_record "u1" []); [split_and!; vm_compute; reflexivity|].
  vm_compute. reflexivity.
Defined.
End witnesses.
