(* ===== verification/RpSession.v ===== *)
(** * Remote pairing: the session ([src/tunnel/remote_pairing/session.rs])

    Pair-verify, SRP pairing and the encrypted requests.  The cryptographic
    crates are the class [RpCrypto], with the laws the protocol needs in
    [RpCryptoLaws]: both sides of the key agreement compute the same secret,
    decryption inverts encryption, signatures verify. *)

From S2P Require Import Prelude RustStd Io Plist Json Os Version RpCredentials.
From S2P Require Tlv8 Lockdown.

Class RpCrypto (W : Type) := {
  x_secret : Type;
  x_random : W → x_secret * W;
  x_public : x_secret → list byte;
  x_dh : x_secret → list byte → list byte;
  (** salt, input key material and info, to 32 bytes *)
  hkdf512 : option (list byte) → list byte → list byte → string + list byte;
  ed_sign : list byte → list byte → list byte;
  ed_public : list byte → list byte;
  (** key, nonce, text *)
  aead_encrypt : list byte → list byte → list byte → string + list byte;
  aead_decrypt : list byte → list byte → list byte → string + list byte;
  srp_verifier : Type;
  srp_public : list byte → list byte;
  (** private ephemeral, user, password, salt, public ephemeral of the server *)
  srp_process : list byte → list byte → list byte → list byte → list byte → string + srp_verifier;
  srp_proof : srp_verifier → list byte;
  srp_key : srp_verifier → list byte;
  srp_verify_server : srp_verifier → list byte → string + unit;
  rp_debug : pval → string
}.

Class RpCryptoLaws {W} (C : RpCrypto W) := {
  x_dh_agree a b : x_dh a (x_public b) = x_dh b (x_public a);
  x_public_length a : length (x_public a) = 32%nat;
  aead_inverse k n p c : aead_encrypt k n p = inr c → aead_decrypt k n c = inr p;
  (** what a verifier of signatures accepts *)
  ed_verify : list byte → list byte → list byte → bool;
  ed_verify_sign k m : ed_verify (ed_public k) m (ed_sign k m) = true
}.

Definition WIRE_PROTOCOL_VERSION : Z := 19.
Definition SRP_USERNAME : string := "Pair-Setup".
Definition SRP_PIN : string := "000000".

Record Session : Type := MkSession {
  rs_stream : stream;
  rs_record : RemotePairingRecord;
  rs_seq : Z;
  client_key : option (list byte);
  server_key : option (list byte);
  enc_seq : Z
}.

Definition set_rs_stream (k : stream) (s : Session) : Session :=
  MkSession k (rs_record s) (rs_seq s) (client_key s) (server_key s) (enc_seq s).
Definition set_rs_record (r : RemotePairingRecord) (s : Session) : Session :=
  MkSession (rs_stream s) r (rs_seq s) (client_key s) (server_key s) (enc_seq s).
Definition set_rs_seq (n : Z) (s : Session) : Session :=
  MkSession (rs_stream s) (rs_record s) n (client_key s) (server_key s) (enc_seq s).
Definition set_client_key (k : list byte) (s : Session) : Session :=
  MkSession (rs_stream s) (rs_record s) (rs_seq s) (Some k) (server_key s) (enc_seq s).
Definition set_server_key (k : list byte) (s : Session) : Session :=
  MkSession (rs_stream s) (rs_record s) (rs_seq s) (client_key s) (Some k) (enc_seq s).
Definition set_enc_seq (n : Z) (s : Session) : Session :=
  MkSession (rs_stream s) (rs_record s) (rs_seq s) (client_key s) (server_key s) n.

Definition proto {A} (s : string) : ST Session Error A := sfail (Protocol (msg0 s)).
Definition of_proto {A} (t : string) (r : string + A) : outcome Error A :=
  match r with inl e => Err (Protocol (Msg t [FStr e])) | inr a => Ok a end.

(** [i64] increment *)
Definition i64_incr `{BuildProfile} {E} (a : Z) : outcome E Z :=
  if a + 1 <? 2 ^ 63 then Ok (a + 1) else if overflow_checks then Panic else Ok (- 2 ^ 63).

Section session.
Context `{BuildProfile} `{PlistLib} `{JsonLib} {W : Type} `{Os W} `{Files W} `{RpRandom W}
  `{C : RpCrypto W}.

(** ** The helpers *)

Definition hkdf32 (ikm salt info : list byte) : outcome Error (list byte) :=
  let salt_opt := match salt with [] => None | _ => Some salt end in
  of_proto "HKDF: {e}" (hkdf512 salt_opt ikm info).
Definition chacha_encrypt (key nonce plaintext : list byte) : outcome Error (list byte) :=
  of_proto "ChaCha encrypt: {e}" (aead_encrypt key nonce plaintext).
Definition chacha_decrypt (key nonce ciphertext : list byte) : outcome Error (list byte) :=
  of_proto "ChaCha decrypt: {e}" (aead_decrypt key nonce ciphertext).
Definition enc_nonce (seq : Z) : list byte := le_bytes 8 seq ++ replicate 4 x00.
Definition nonce_of (s : string) : list byte := bytes_of s ++ replicate 4 x00.

(** ** Messages *)

Definition on_rs {A} (m : ST stream Error A) : ST Session Error A := zoom rs_stream set_rs_stream m.

Definition send (msg : pval) : ST Session Error unit :=
  let! s := sget in
  let! seq := lift (i64_incr (rs_seq s)) in
  smodify (set_rs_seq seq) ;;;
  on_rs (rp_send msg).
Definition recv : ST Session Error pval := on_rs rp_recv.

Definition pairing_message (k : string) (new_session : bool) (tlv : list byte) : pval :=
  PDict (dict ["pairingData" =>> PDict (dict ["_0" =>> PDict (dict ["data" =>> PData tlv])]);
               "kind" =>> PString k;
               "startNewSession" =>> PBool new_session]).
Definition send_pairing_data (k : string) (new_session : bool) (tlv : list byte) :
    ST Session Error unit :=
  send (pairing_message k new_session tlv).

(** The data of a response, or the error in it. *)
Definition pairing_data (val : pval) : outcome Error (list byte) :=
  let? d := ok_or (as_dictionary val) (Protocol (msg0 "pairing response: not a dict")) in
  match dget "error" d with
  | Some e =>
      let msg := match e with PString s => s | other => rp_debug other end in
      Err (Protocol (Msg "RemotePairing error: {msg}" [FStr msg]))
  | None =>
      ok_or (d ← dget "pairingData" d ≫= as_dictionary;
             d ← dget "_0" d ≫= as_dictionary;
             dget "data" d ≫= as_data)
        (Protocol (msg0 "pairing response: no pairingData"))
  end.
Definition recv_pairing_data : ST Session Error (list byte) :=
  let! val := recv in lift (pairing_data val).

(** [tlv8::decode] cannot fail. *)
Definition tlv_decode (l : list byte) : outcome Error Tlv8.tlv_map :=
  omap_err (λ e : Empty_set, match e with end) (Tlv8.decode l).
Definition recv_tlv : ST Session Error Tlv8.tlv_map :=
  let! resp := recv_pairing_data in lift (tlv_decode resp).

Definition tlv_get (k : byte) (t : Tlv8.tlv_map) : option (list byte) := al_lookup k t.
(** [if let Some(e) = tlv.get(&tlv8::ERROR) { return Err(..) }] *)
Definition no_error (t : string) (tlv : Tlv8.tlv_map) : outcome Error unit :=
  match tlv_get Tlv8.ERROR tlv with
  | Some e => Err (Protocol (Msg t [FBytes e]))
  | None => Ok tt
  end.

(** ** Pair-verify *)

Definition device_public_key (tlv : Tlv8.tlv_map) : outcome Error (list byte) :=
  let? b := ok_or (tlv_get Tlv8.PUBLIC_KEY tlv) (Protocol (msg0 "pair-verify: no PUBLIC_KEY")) in
  if negb (length b =? 32)%nat then Err (Protocol (msg0 "pair-verify: bad key len")) else Ok b.

(** The payload of the third message, and what it signs. *)
Definition verify_signed (r : RemotePairingRecord) (pk dev_pk : list byte) : list byte :=
  pk ++ bytes_of (identifier (our r)) ++ dev_pk.
Definition verify_inner (r : RemotePairingRecord) (sig : list byte) : list byte :=
  Tlv8.encode [(Tlv8.IDENTIFIER, bytes_of (identifier (our r))); (Tlv8.SIGNATURE, sig)].

Definition set_session_keys (secret : list byte) : ST Session Error unit :=
  let! ck := lift (hkdf32 secret [] (bytes_of "ClientEncrypt-main")) in
  smodify (set_client_key ck) ;;;
  let! sk := lift (hkdf32 secret [] (bytes_of "ServerEncrypt-main")) in
  smodify (set_server_key sk).

(** Everything after the key pair has been drawn. *)
Definition pair_verify_with (sk : x_secret) : ST Session Error unit :=
  let pk := x_public sk in
  send_pairing_data "verifyManualPairing" true
    (Tlv8.encode [(Tlv8.STATE, [x01]); (Tlv8.PUBLIC_KEY, pk)]) ;;;
  let! tlv := recv_tlv in
  let! dev_pk := lift (device_public_key tlv) in
  let shared := x_dh sk dev_pk in
  let! enc_key := lift (hkdf32 shared (bytes_of "Pair-Verify-Encrypt-Salt")
                          (bytes_of "Pair-Verify-Encrypt-Info")) in
  let! s := sget in
  let! signing := lift (signing_key (rs_record s)) in
  let sig := ed_sign signing (verify_signed (rs_record s) pk dev_pk) in
  let! enc := lift (chacha_encrypt enc_key (nonce_of "PV-Msg03")
                      (verify_inner (rs_record s) sig)) in
  send_pairing_data "verifyManualPairing" false
    (Tlv8.encode [(Tlv8.STATE, [x03]); (Tlv8.ENCRYPTED_DATA, enc)]) ;;;
  let! tlv := recv_tlv in
  lift (no_error "pair-verify: device error {e:02x?}" tlv) ;;;
  match Tlv8.get_u8 tlv Tlv8.STATE with
  | Some x04 => set_session_keys shared
  | s => sfail (Protocol (Msg "pair-verify: bad state {s:02x?}" [FOpt (u8 <$> s)]))
  end.

Definition pair_verify : ST (W * Session) Error unit :=
  let! sk := on_outer (λ w, let '(sk, w) := x_random w in (Ok sk, w)) in
  on_local (pair_verify_with sk).

(** ** SRP pairing *)

Definition setup_signed (ctrl_key : list byte) (r : RemotePairingRecord) (vk : list byte) :
    list byte := ctrl_key ++ bytes_of (identifier (our r)) ++ vk.
Definition setup_inner (r : RemotePairingRecord) (vk sig : list byte) : list byte :=
  Tlv8.encode [(Tlv8.IDENTIFIER, bytes_of (identifier (our r))); (Tlv8.PUBLIC_KEY, vk);
               (Tlv8.SIGNATURE, sig)].

Definition set_peer (p : PeerCredentials) (r : RemotePairingRecord) : RemotePairingRecord :=
  MkRpRecord (our r) p.

(** What the record learns from the encrypted identity of the device: nothing
    when it is missing or does not decrypt. *)
Definition learn_peer (setup_enc : list byte) (tlv : Tlv8.tlv_map) (r : RemotePairingRecord) :
    outcome Error RemotePairingRecord :=
  match tlv_get Tlv8.ENCRYPTED_DATA tlv with
  | None => Ok r
  | Some enc =>
      match chacha_decrypt setup_enc (nonce_of "PS-Msg06") enc with
      | Ok plain =>
          let? dev_tlv := tlv_decode plain in
          let r := match tlv_get Tlv8.IDENTIFIER dev_tlv with
                   | Some i => set_peer (MkPeer (from_utf8_lossy i) (peer_public_key (peer r))) r
                   | None => r
                   end in
          Ok (match tlv_get Tlv8.PUBLIC_KEY dev_tlv with
              | Some pk => set_peer (MkPeer (peer_identifier (peer r)) (hex_encode pk)) r
              | None => r
              end)
      | Err _ => Ok r
      | Panic => Panic
      | OutOfFuel => OutOfFuel
      end
  end.

Definition srp_pair (udid : string) : ST (W * Session) Error RemotePairingRecord :=
  on_local (send_pairing_data "setupManualPairing" true
    (Tlv8.encode [(Tlv8.METHOD, [x00]); (Tlv8.STATE, [x01])])) ;;;
  let! tlv := on_local recv_tlv in
  lift (no_error "SRP start error: {e:02x?}" tlv) ;;;
  let! salt := lift (ok_or (tlv_get Tlv8.SALT tlv) (Protocol (msg0 "SRP: no SALT"))) in
  let! b_pub := lift (ok_or (tlv_get Tlv8.PUBLIC_KEY tlv) (Protocol (msg0 "SRP: no PUBLIC_KEY"))) in
  let! a_priv := on_outer (λ w, let '(b, w) := rp_random 64 w in (Ok b, w)) in
  let a_pub := srp_public a_priv in
  let! verifier := lift (of_proto "SRP compute: {e}"
    (srp_process a_priv (bytes_of SRP_USERNAME) (bytes_of SRP_PIN) salt b_pub)) in
  on_local (send_pairing_data "setupManualPairing" false
    (Tlv8.encode [(Tlv8.STATE, [x03]); (Tlv8.PUBLIC_KEY, a_pub);
                  (Tlv8.PROOF, srp_proof verifier)])) ;;;
  let! tlv := on_local recv_tlv in
  lift (no_error "SRP proof error: {e:02x?}" tlv) ;;;
  let! m2 := lift (ok_or (tlv_get Tlv8.PROOF tlv) (Protocol (msg0 "SRP: no server PROOF"))) in
  lift (of_proto "SRP server proof: {e}" (srp_verify_server verifier m2)) ;;;
  let session_key := srp_key verifier in
  let! setup_enc := lift (hkdf32 session_key (bytes_of "Pair-Setup-Encrypt-Salt")
                            (bytes_of "Pair-Setup-Encrypt-Info")) in
  let! ws := sget in
  let! record :=
    if bool_decide (our_signing_key (our (rs_record ws.2)) = ""%string)
    then on_outer (new_identity udid)
    else sret (rs_record ws.2) in
  let! signing := lift (signing_key record) in
  let vk_bytes := ed_public signing in
  let! ctrl_key := lift (hkdf32 session_key (bytes_of "Pair-Setup-Controller-Sign-Salt")
                           (bytes_of "Pair-Setup-Controller-Sign-Info")) in
  let sig := ed_sign signing (setup_signed ctrl_key record vk_bytes) in
  let! enc := lift (chacha_encrypt setup_enc (nonce_of "PS-Msg05")
                      (setup_inner record vk_bytes sig)) in
  on_local (send_pairing_data "setupManualPairing" false
    (Tlv8.encode [(Tlv8.STATE, [x05]); (Tlv8.ENCRYPTED_DATA, enc)])) ;;;
  let! tlv := on_local recv_tlv in
  lift (no_error "SRP identity error: {e:02x?}" tlv) ;;;
  let! record := lift (learn_peer setup_enc tlv record) in
  on_local (set_session_keys session_key) ;;;
  on_local (smodify (set_rs_record record)) ;;;
  on_outer (save record udid) ;;;
  sret record.

(** ** Opening *)

Definition host_hello : pval :=
  PDict (dict ["hostOptions" =>> PDict (dict ["attemptPairVerify" =>> PBool true]);
               "wireProtocolVersion" =>> PInt WIRE_PROTOCOL_VERSION]).

Definition has_creds (r : RemotePairingRecord) : bool :=
  negb (bool_decide (our_signing_key (our r) = ""%string))
  && negb (bool_decide (peer_identifier (peer r) = ""%string)).

Definition open_session (udid : string) : ST (W * Session) Error RemotePairingRecord :=
  let! ws := sget in
  let creds := has_creds (rs_record ws.2) in
  on_local (send host_hello) ;;;
  let! _ := on_local recv in
  if creds then
    let! r := stry pair_verify in
    match r with
    | inr _ => let! ws := sget in sret (rs_record ws.2)
    | inl _ => srp_pair udid
    end
  else srp_pair udid.

Definition fresh_session (k : stream) (r : RemotePairingRecord) : Session :=
  MkSession k r 0 None None 0.
Definition rp_open (k : stream) (r : RemotePairingRecord) (udid : string) :
    ST W Error (Session * RemotePairingRecord) := λ w,
  match open_session udid (w, fresh_session k r) with
  | (Ok updated, (w, s)) => (Ok (s, updated), w)
  | (Err e, (w, _)) => (Err e, w)
  | (Panic, (w, _)) => (Panic, w)
  | (OutOfFuel, (w, _)) => (OutOfFuel, w)
  end.

(** ** Encrypted requests *)

Definition encrypted_message (cipher : list byte) (seq : Z) : pval :=
  PDict (dict ["message" =>> PDict (dict ["streamEncrypted" =>> PDict (dict ["_0" =>> PData cipher])]);
               "originatedBy" =>> PString "host";
               "sequenceNumber" =>> PInt (swrap 64 seq)]).

Definition response_cipher (d : dictionary) : option (list byte) :=
  d ← dget "message" d ≫= as_dictionary;
  d ← dget "streamEncrypted" d ≫= as_dictionary;
  dget "_0" d ≫= as_data.
Definition response_seq (seq : Z) (d : dictionary) : Z :=
  wrap 64 (default (swrap 64 seq) (dget "sequenceNumber" d ≫= as_signed_integer)).

Definition encrypted_request (req : jval) : ST Session Error jval :=
  let! s := sget in
  let! ck := lift (ok_or (client_key s) (Protocol (msg0 "no session key"))) in
  let! sk := lift (or_panic (server_key s)) in
  let! plaintext := lift (ok_or (json_to_vec req) Json) in
  let seq := enc_seq s in
  let! next := lift (u64_add (enc_seq s) 1) in
  smodify (set_enc_seq next) ;;;
  let! cipher := lift (chacha_encrypt ck (enc_nonce seq) plaintext) in
  send (encrypted_message cipher seq) ;;;
  let! resp := recv in
  let! resp_dict := lift (ok_or (as_dictionary resp)
                            (Protocol (msg0 "encrypted response: not a dict"))) in
  let! cipher_bytes := lift (ok_or (response_cipher resp_dict)
                               (Protocol (msg0 "encrypted response: no ciphertext data"))) in
  let! plain := lift (chacha_decrypt sk (enc_nonce (response_seq seq resp_dict)) cipher_bytes) in
  lift (ok_or (json_parse plain) (Protocol (msg0 "decrypt JSON: {e}"))).
End session.

(** ** Messages on the wire *)
Section wire.
Context `{BuildProfile} `{PL : PlistLib} `{!PlistLaws PL} `{J : JsonLib} `{!JsonLaws J}
  {W : Type} `{Os W} `{F : Files W} `{RpRandom W} `{C : RpCrypto W} `{CL : !RpCryptoLaws C}.
Notation frame := Lockdown.ld_frame.
Notation frame_ok := Lockdown.ld_ok.

Lemma rp_send_healthy v k :
  frame_ok v → healthy k → rp_send v k = (Ok tt, append_tx (frame v) k).
Proof.
  intros [Hv Hlen] Hk. unfold rp_send, sbind, lift. rewrite to_writer_xml_plain by done.
  cbn [ok_or]. pose proof (lenZ_nonneg (xml v)).
  rewrite wrap_small by (unfold in_u; lia). unfold smap_err.
  rewrite write_all_healthy by done. cbn [omap_err]. rewrite write_all_healthy by done.
  cbn [omap_err]. rewrite flush_healthy by done. by rewrite append_tx_app.
Qed.

Lemma rp_recv_frame v k l r :
  frame_ok v → delivers (rx k) (frame v ++ l) r →
  ∃ r1, rp_recv k = (Ok v, set_rx r1 k) ∧ delivers r1 l r.
Proof.
  intros [Hv Hlen] Hd. unfold Lockdown.ld_frame in Hd. rewrite <-(assoc_L (++)) in Hd.
  pose proof (lenZ_nonneg (xml v)).
  set (eof := Protocol (msg0 "RemotePairing: connection closed")).
  destruct (read_exact_delivers Io eof 4 _ _ _ _ Hd) as (r1 & Hr1 & Hd1); [len|].
  destruct (read_exact_delivers Io eof (lenZ (xml v)) (set_rx r1 k) _ _ _ Hd1)
    as (r2 & Hr2 & Hd2); [done|].
  exists r2. split; [|done]. unfold rp_recv, sbind, rp_read_exact, lift. fold eof. rewrite Hr1.
  rewrite be_val_be_bytes_small by (unfold in_u; lia).
  rewrite Hr2. by rewrite from_bytes_xml.
Qed.

(** The session after it has sent [m] and received up to [r]. *)
Definition after (m : pval) (r : list rd_event) (s : Session) : Session :=
  set_rs_stream (append_tx (frame m) (set_rx r (rs_stream s))) (set_rs_seq (rs_seq s + 1) s).

(** A message and its response, whatever the pieces the response arrives in. *)
Lemma exchange_run {A} m v (k : pval → ST Session Error A) s l r :
  frame_ok m → frame_ok v → healthy (rs_stream s) → rs_seq s + 1 < 2 ^ 63 →
  delivers (rx (rs_stream s)) (frame v ++ l) r →
  ∃ r1, (send m ;;; let! x := recv in k x) s = k v (after m r1 s) ∧ delivers r1 l r.
Proof.
  intros Hm Hv Hk Hseq Hd.
  destruct (rp_recv_frame v (append_tx (frame m) (rs_stream s)) l r Hv Hd) as (r1 & Hr & Hd1).
  exists r1. split; [|done]. unfold send, sbind, sget, lift, i64_incr.
  rewrite (proj2 (Z.ltb_lt _ _)) by done. unfold smodify, on_rs, zoom.
  cbn [rs_stream set_rs_seq]. rewrite rp_send_healthy by done.
  unfold recv, on_rs, zoom. cbn [rs_stream set_rs_stream]. rewrite Hr. done.
Qed.

(** The same for the TLV of a pairing response. *)
Lemma pairing_exchange {A} kd new tlv v entries (K : Tlv8.tlv_map → ST Session Error A) s l r :
  frame_ok (pairing_message kd new tlv) → frame_ok v → healthy (rs_stream s) →
  rs_seq s + 1 < 2 ^ 63 → pairing_data v = Ok (Tlv8.encode entries) →
  delivers (rx (rs_stream s)) (frame v ++ l) r →
  ∃ r1, (send_pairing_data kd new tlv ;;; let! t := recv_tlv in K t) s =
      K (Tlv8.extend_all entries []) (after (pairing_message kd new tlv) r1 s) ∧
    delivers r1 l r.
Proof.
  intros Hm Hv Hk Hseq He Hd.
  destruct (exchange_run (pairing_message kd new tlv) v
    (λ v, let! resp := lift (pairing_data v) in let! t := lift (tlv_decode resp) in K t)
    s l r Hm Hv Hk Hseq Hd) as (r1 & Hx & Hd1).
  exists r1. split; [|done]. etransitivity; [|etransitivity; [exact Hx|]].
  - unfold send_pairing_data, recv_tlv, recv_pairing_data, sbind.
    destruct (send (pairing_message kd new tlv) s) as [[[]| | |] s1]; try done.
    destruct (recv s1) as [[x| | |] s2]; try done. unfold lift.
    by destruct (pairing_data x).
  - unfold sbind, lift. rewrite He. unfold tlv_decode. by rewrite Tlv8.decode_entries.
Qed.

Lemma after_healthy m r s : healthy (rs_stream s) → healthy (rs_stream (after m r s)).
Proof. done. Qed.

(** A response that carries the given TLV entries. *)
Definition pairing_response (entries : list (byte * list byte)) : pval :=
  PDict ["pairingData" =>> PDict ["_0" =>> PDict ["data" =>> PData (Tlv8.encode entries)]]].
Lemma pairing_response_data entries : pairing_data (pairing_response entries) = Ok (Tlv8.encode entries).
Proof. done. Qed.

(** ** Pair-verify against the device

    The device draws its own key pair [dsk] and checks the third message: it
    decrypts with the key it derives on its side, and verifies the signature
    over both public keys and the identifier with the key [vk] it knows. *)
Definition device_check (dsk : x_secret) (host_pk vk : list byte) (m3 : pval) :
    option (list byte * bool) :=
  data ← to_option (pairing_data m3);
  tlv ← to_option (tlv_decode data);
  enc ← tlv_get Tlv8.ENCRYPTED_DATA tlv;
  ek ← to_option (hkdf32 (x_dh dsk host_pk) (bytes_of "Pair-Verify-Encrypt-Salt")
                    (bytes_of "Pair-Verify-Encrypt-Info"));
  plain ← to_option (chacha_decrypt ek (nonce_of "PV-Msg03") enc);
  inner ← to_option (tlv_decode plain);
  i ← tlv_get Tlv8.IDENTIFIER inner;
  sig ← tlv_get Tlv8.SIGNATURE inner;
  Some (i, ed_verify vk (host_pk ++ i ++ x_public dsk) sig).

Definition verify_message1 (pk : list byte) : pval :=
  pairing_message "verifyManualPairing" true
    (Tlv8.encode [(Tlv8.STATE, [x01]); (Tlv8.PUBLIC_KEY, pk)]).
Definition verify_message3 (enc : list byte) : pval :=
  pairing_message "verifyManualPairing" false
    (Tlv8.encode [(Tlv8.STATE, [x03]); (Tlv8.ENCRYPTED_DATA, enc)]).

(** The two continuations of [pair_verify_with]. *)
Definition verify_finish (shared : list byte) (tlv : Tlv8.tlv_map) : ST Session Error unit :=
  lift (no_error "pair-verify: device error {e:02x?}" tlv) ;;;
  match Tlv8.get_u8 tlv Tlv8.STATE with
  | Some x04 => set_session_keys shared
  | s => sfail (Protocol (Msg "pair-verify: bad state {s:02x?}" [FOpt (u8 <$> s)]))
  end.
Definition verify_respond (sk : x_secret) (tlv : Tlv8.tlv_map) : ST Session Error unit :=
  let! dev_pk := lift (device_public_key tlv) in
  let! enc_key := lift (hkdf32 (x_dh sk dev_pk) (bytes_of "Pair-Verify-Encrypt-Salt")
                          (bytes_of "Pair-Verify-Encrypt-Info")) in
  let! s := sget in
  let! signing := lift (signing_key (rs_record s)) in
  let sig := ed_sign signing (verify_signed (rs_record s) (x_public sk) dev_pk) in
  let! enc := lift (chacha_encrypt enc_key (nonce_of "PV-Msg03")
                      (verify_inner (rs_record s) sig)) in
  send_pairing_data "verifyManualPairing" false
    (Tlv8.encode [(Tlv8.STATE, [x03]); (Tlv8.ENCRYPTED_DATA, enc)]) ;;;
  let! tlv := recv_tlv in verify_finish (x_dh sk dev_pk) tlv.

Lemma lift_ok {S E A} (m : outcome E A) a (s : S) : m = Ok a → lift m s = (Ok a, s).
Proof. by intros ->. Qed.

Lemma device_public_key_entries dsk :
  device_public_key (Tlv8.extend_all [(Tlv8.STATE, [x02]); (Tlv8.PUBLIC_KEY, x_public dsk)] []) =
    Ok (x_public dsk).
Proof.
  unfold device_public_key. change (tlv_get Tlv8.PUBLIC_KEY _) with (Some (x_public dsk)).
  cbn [ok_or obind]. by rewrite x_public_length.
Qed.

(** C18. Pair-verify between the host and a device that draws the key pair [dsk]:
    the device decrypts the third message with the key it derives on its side,
    reads the identifier of the host, and the signature over both public keys
    and the identifier is valid under the host's key; the host ends with the
    two session keys of the shared secret, two messages on the wire, and what
    follows the two responses unread. *)
Theorem pair_verify_agrees w s sk w1 dsk seed ek enc ck svk l r :
  let pk := x_public sk in
  let dev_pk := x_public dsk in
  let shared := x_dh dsk pk in
  let sig := ed_sign seed (verify_signed (rs_record s) pk dev_pk) in
  x_random w = (sk, w1) →
  healthy (rs_stream s) → rs_seq s + 2 < 2 ^ 63 →
  signing_key (rs_record s) = Ok seed →
  hkdf32 shared (bytes_of "Pair-Verify-Encrypt-Salt") (bytes_of "Pair-Verify-Encrypt-Info") = Ok ek →
  chacha_encrypt ek (nonce_of "PV-Msg03") (verify_inner (rs_record s) sig) = Ok enc →
  hkdf32 shared [] (bytes_of "ClientEncrypt-main") = Ok ck →
  hkdf32 shared [] (bytes_of "ServerEncrypt-main") = Ok svk →
  let resp1 := pairing_response [(Tlv8.STATE, [x02]); (Tlv8.PUBLIC_KEY, dev_pk)] in
  let resp2 := pairing_response [(Tlv8.STATE, [x04])] in
  frame_ok (verify_message1 pk) → frame_ok (verify_message3 enc) →
  frame_ok resp1 → frame_ok resp2 →
  delivers (rx (rs_stream s)) (frame resp1 ++ frame resp2 ++ l) r →
  ∃ r1 r2, pair_verify (w, s) =
      (Ok tt, (w1, set_server_key svk (set_client_key ck
        (after (verify_message3 enc) r2 (after (verify_message1 pk) r1 s))))) ∧
    delivers r2 l r ∧
    device_check dsk pk (ed_public seed) (verify_message3 enc) =
      Some (bytes_of (identifier (our (rs_record s))), true).
Proof.
  intros pk dev_pk shared sig Hx Hk Hseq Hseed Hek Henc Hck Hsvk resp1 resp2 Hm1 Hm3 Hr1 Hr2 Hd.
  assert (x_dh sk dev_pk = shared) as Hshared by apply x_dh_agree.
  destruct (pairing_exchange "verifyManualPairing" true
    (Tlv8.encode [(Tlv8.STATE, [x01]); (Tlv8.PUBLIC_KEY, pk)]) resp1
    [(Tlv8.STATE, [x02]); (Tlv8.PUBLIC_KEY, dev_pk)]
    (verify_respond sk) s (frame resp2 ++ l) r) as (r1 & Hx1 & Hd1); [done|done|done|lia|done|done|].
  destruct (pairing_exchange "verifyManualPairing" false
    (Tlv8.encode [(Tlv8.STATE, [x03]); (Tlv8.ENCRYPTED_DATA, enc)]) resp2 [(Tlv8.STATE, [x04])]
    (verify_finish shared) (after (verify_message1 pk) r1 s) l r)
    as (r2 & Hx2 & Hd2); [done|done|done|simpl; lia|done|exact Hd1|].
  exists r1, r2. split; [|split; [done|]].
  - unfold pair_verify. erewrite sbind_ok by (apply on_outer_run; rewrite Hx; reflexivity).
    apply on_local_run. etransitivity; [exact Hx1|]. unfold verify_respond.
    erewrite sbind_ok by (apply lift_ok; apply (device_public_key_entries dsk)).
    fold dev_pk. rewrite Hshared. erewrite sbind_ok by (apply lift_ok; exact Hek).
    erewrite sbind_ok by reflexivity.
    erewrite sbind_ok by (apply lift_ok; exact Hseed).
    erewrite sbind_ok by (apply lift_ok; exact Henc).
    etransitivity; [exact Hx2|]. unfold verify_finish.
    erewrite sbind_ok by reflexivity. unfold set_session_keys.
    change (Tlv8.get_u8 _ Tlv8.STATE) with (Some x04). cbv iota.
    erewrite sbind_ok by (apply lift_ok; exact Hck). erewrite sbind_ok by reflexivity.
    by erewrite sbind_ok by (apply lift_ok; exact Hsvk).
  - unfold device_check, verify_message3.
    change (pairing_data (pairing_message _ _ ?t)) with (Ok (E:=Error) t).
    cbn [to_option mbind option_bind]. unfold tlv_decode. rewrite Tlv8.decode_entries.
    cbn [omap_err to_option mbind option_bind].
    change (tlv_get Tlv8.ENCRYPTED_DATA _) with (Some enc). cbn [mbind option_bind].
    fold shared. rewrite Hek. cbn [to_option mbind option_bind].
    unfold chacha_decrypt. unfold chacha_encrypt, of_proto in Henc.
    destruct (aead_encrypt ek (nonce_of "PV-Msg03") _) as [|c] eqn:He; [done|].
    injection Henc as ->. rewrite (aead_inverse _ _ _ _ He). cbn [of_proto to_option mbind option_bind].
    unfold verify_inner. rewrite Tlv8.decode_entries. cbn [omap_err to_option mbind option_bind].
    change (tlv_get Tlv8.IDENTIFIER _) with (Some (bytes_of (identifier (our (rs_record s))))).
    cbn [mbind option_bind]. change (tlv_get Tlv8.SIGNATURE _) with (Some sig).
    cbn [mbind option_bind]. unfold sig at 1. fold dev_pk.
    by rewrite (ed_verify_sign seed (verify_signed (rs_record s) pk dev_pk)).
Qed.

(** ** Encrypted requests *)

(** The device's view of a request: the ciphertext and the sequence number of
    the message, decrypted with the key of the host. *)
Definition device_request (ck : list byte) (m : pval) : option jval :=
  d ← as_dictionary m;
  c ← response_cipher d;
  plain ← to_option (chacha_decrypt ck (enc_nonce (response_seq 0 d)) c);
  json_parse plain.

Lemma response_seq_message c n m :
  in_u 64 n → response_seq m (match encrypted_message c n with PDict d => d | _ => [] end) = n.
Proof.
  intros Hn. unfold encrypted_message. dict_lits. unfold response_seq, dget.
  change (al_lookup _ _) with (Some (PInt (swrap 64 n))). cbn [mbind option_bind as_signed_integer].
  assert (in_i 64 (swrap 64 n)) as Hi.
  { unfold in_i, swrap. pose proof (Z.mod_pos_bound (n + 2 ^ (64 - 1)) (2 ^ 64) ltac:(lia)). lia. }
  rewrite bool_decide_true by done. cbn [default from_option id].
  unfold wrap, swrap, in_u in *. rewrite Zminus_mod_idemp_l.
  replace (n + 2 ^ (64 - 1) - 2 ^ (64 - 1)) with n by lia. by apply Z.mod_small.
Qed.

Lemma encrypt_decrypt k n p c : chacha_encrypt k n p = Ok c → chacha_decrypt k n c = Ok p.
Proof.
  unfold chacha_encrypt, chacha_decrypt, of_proto. destruct (aead_encrypt k n p) eqn:He; [done|].
  intros [= ->]. by rewrite (aead_inverse _ _ _ _ He).
Qed.

(** C20. One request and its response: the device decrypts the JSON that was asked,
    the host returns the JSON that was answered, with the sequence number the
    device chose, and the next request will use the next number. *)
Theorem encrypted_request_exchange req v s ck svk p c m pv cv l r :
  let n := enc_seq s in
  client_key s = Some ck → server_key s = Some svk →
  jplain req = true → jplain v = true → json_to_vec req = Some p → json_to_vec v = Some pv →
  0 ≤ n < 2 ^ 64 - 1 → in_u 64 m → healthy (rs_stream s) → rs_seq s + 1 < 2 ^ 63 →
  chacha_encrypt ck (enc_nonce n) p = Ok c → chacha_encrypt svk (enc_nonce m) pv = Ok cv →
  frame_ok (encrypted_message c n) → frame_ok (encrypted_message cv m) →
  delivers (rx (rs_stream s)) (frame (encrypted_message cv m) ++ l) r →
  ∃ r1, encrypted_request req s =
      (Ok v, after (encrypted_message c n) r1 (set_enc_seq (n + 1) s)) ∧
    delivers r1 l r ∧ device_request ck (encrypted_message c n) = Some req.
Proof.
  intros n Hck Hsk Hreq Hv Hp Hpv Hn Hm Hk Hseq Hc Hcv Hf1 Hf2 Hd.
  assert (∀ u pu, jplain u = true → json_to_vec u = Some pu → json_parse pu = Some u) as Hjson.
  { intros u pu Hu Hpu. destruct (json_roundtrip u Hu) as (l0 & E1 & E2). congruence. }
  destruct (exchange_run (encrypted_message c n) (encrypted_message cv m)
    (λ resp,
      let! resp_dict := lift (ok_or (as_dictionary resp)
                                (Protocol (msg0 "encrypted response: not a dict"))) in
      let! cipher_bytes := lift (ok_or (response_cipher resp_dict)
                                   (Protocol (msg0 "encrypted response: no ciphertext data"))) in
      let! plain := lift (chacha_decrypt svk (enc_nonce (response_seq n resp_dict)) cipher_bytes) in
      lift (ok_or (json_parse plain) (Protocol (msg0 "decrypt JSON: {e}"))))
    (set_enc_seq (n + 1) s) l r) as (r1 & Hx & Hd1); [done..|].
  exists r1. split; [|split; [done|]].
  - unfold encrypted_request. erewrite sbind_ok by reflexivity.
    rewrite Hck, Hsk, Hp. do 3 erewrite sbind_ok by reflexivity. fold n.
    erewrite sbind_ok by (apply lift_ok, add_w_ok; lia). erewrite sbind_ok by reflexivity.
    erewrite sbind_ok by (apply lift_ok; exact Hc).
    etransitivity; [exact Hx|]. pose proof (response_seq_message cv m n Hm) as Hrs.
    unfold encrypted_message at 1. erewrite sbind_ok by reflexivity.
    change (response_cipher _) with (Some cv). erewrite sbind_ok by reflexivity.
    unfold encrypted_message in Hrs. rewrite Hrs.
    erewrite sbind_ok by (apply lift_ok, encrypt_decrypt; exact Hcv).
    by rewrite (Hjson v pv).
  - pose proof (response_seq_message c n 0) as Hrs. unfold device_request.
    unfold encrypted_message in *. cbn [as_dictionary mbind option_bind].
    change (response_cipher _) with (Some c). cbn [mbind option_bind].
    rewrite Hrs by (unfold in_u; lia). rewrite (encrypt_decrypt _ _ _ _ Hc).
    cbn [to_option mbind option_bind]. by apply Hjson.
Qed.

(** ** What an open session has established *)

(** The session keys come from [secret]. *)
Definition keys_from (secret : list byte) (s : Session) : Prop :=
  ∃ ck sk, hkdf32 secret [] (bytes_of "ClientEncrypt-main") = Ok ck ∧
    hkdf32 secret [] (bytes_of "ServerEncrypt-main") = Ok sk ∧
    client_key s = Some ck ∧ server_key s = Some sk.

Lemma set_session_keys_inv secret s s' :
  set_session_keys secret s = (Ok tt, s') →
  keys_from secret s' ∧ rs_record s' = rs_record s ∧ enc_seq s' = enc_seq s.
Proof.
  unfold set_session_keys. intros Hs. apply sbind_inv in Hs as (ck & s1 & Hck & Hs).
  apply sbind_inv in Hs as (? & s2 & [= -> <-] & Hs). apply sbind_inv in Hs as (sk & s3 & Hsk & Hs).
  unfold lift in Hck, Hsk. injection Hck as Hck <-. injection Hsk as Hsk <-.
  unfold smodify in Hs. injection Hs as Hs. subst s'. split; [|done]. by exists ck, sk.
Qed.

Lemma lift_inv {S E A} (m : outcome E A) (s : S) a s' : lift m s = (Ok a, s') → m = Ok a ∧ s' = s.
Proof. unfold lift. by intros [= -> ->]. Qed.

Lemma learn_peer_our ek tlv r r' : learn_peer ek tlv r = Ok r' → our r' = our r.
Proof.
  unfold learn_peer. destruct (tlv_get Tlv8.ENCRYPTED_DATA tlv) as [enc|]; [|by intros [= ->]].
  destruct (chacha_decrypt _ _ _) as [plain| | |]; try (by intros [= ->]); [|done..].
  destruct (tlv_decode plain) as [t| | |]; [|done..]. cbn [obind].
  repeat case_match; by intros [= <-].
Qed.

(** Sending leaves what is to be read; what has been received is the next
    message on the stream. *)
Lemma send_keeps_rx m : keeps (λ s, rx (rs_stream s)) (send m).
Proof.
  intros s. unfold send, sbind at 1, sget, sbind at 1, lift.
  destruct (i64_incr (rs_seq s)) as [n| | |]; try done.
  unfold sbind at 1, smodify, on_rs, zoom. cbn [rs_stream set_rs_seq].
  assert (keeps rx (rp_send m)) as Hk.
  { assert (∀ l, keeps rx (write_all l)) as Hw by (intros l k; unfold write_all; by destruct (wq k) as [|[]]).
    assert (keeps rx flush) as Hf by (intros k; unfold flush; by destruct (wq k) as [|[]]).
    unfold rp_send. apply keeps_bind; [apply keeps_lift|intros]. solve_keeps. }
  specialize (Hk (rs_stream s)). by destruct (rp_send m (rs_stream s)).
Qed.

Lemma send_pairing_rx kd b t s x s' :
  send_pairing_data kd b t s = (x, s') → rx (rs_stream s') = rx (rs_stream s).
Proof. intros Hs. pose proof (send_keeps_rx (pairing_message kd b t) s) as Hk. unfold send_pairing_data in Hs. by rewrite Hs in Hk. Qed.
Lemma of_proto_inv {A} t (x : string + A) a : of_proto t x = Ok a → x = inr a.
Proof. destruct x; [done|by intros [= ->]]. Qed.

Definition response_tlv (v : pval) : outcome Error Tlv8.tlv_map :=
  let? l := pairing_data v in tlv_decode l.
Lemma recv_tlv_inv v l r s t s' :
  frame_ok v → delivers (rx (rs_stream s)) (frame v ++ l) r → recv_tlv s = (Ok t, s') →
  response_tlv v = Ok t ∧ ∃ r1, rx (rs_stream s') = r1 ∧ delivers r1 l r.
Proof.
  intros Hv Hd. destruct (rp_recv_frame v (rs_stream s) l r Hv Hd) as (r1 & Hr & Hd1).
  unfold recv_tlv, recv_pairing_data, recv, on_rs, sbind, zoom, lift. rewrite Hr. unfold response_tlv.
  destruct (pairing_data v) as [d| | |]; try done. intros [= <- <-]. split; [done|].
  by exists r1.
Qed.

(** What a successful pairing has done with the first two responses. *)
Lemma srp_pair_inv udid ws rec ws' v1 v2 l r :
  srp_pair udid ws = (Ok rec, ws') →
  (frame_ok v1 → frame_ok v2 → delivers (rx (rs_stream ws.2)) (frame v1 ++ frame v2 ++ l) r →
   ∃ t1 t2 salt b_pub proof verifier,
     response_tlv v1 = Ok t1 ∧ tlv_get Tlv8.SALT t1 = Some salt ∧ tlv_get Tlv8.PUBLIC_KEY t1 = Some b_pub ∧
     response_tlv v2 = Ok t2 ∧ tlv_get Tlv8.PROOF t2 = Some proof ∧
     srp_process (rp_random 64 ws.1).1 (bytes_of SRP_USERNAME) (bytes_of SRP_PIN) salt b_pub = inr verifier ∧
     srp_verify_server verifier proof = inr tt ∧ keys_from (srp_key verifier) ws'.2) ∧
  (∃ verifier, keys_from (srp_key verifier) ws'.2) ∧
  is_ok (signing_key rec) = true ∧ rs_record ws'.2 = rec ∧
  ∃ w, save rec udid w = (Ok tt, ws'.1).
Proof.
  intros Hs. unfold srp_pair in Hs.
  apply sbind_inv in Hs as (? & w1 & [Hsend1 Hw1]%on_local_inv & Hs).
  apply sbind_inv in Hs as (tlv1 & w2 & [Htlv1 Hw2]%on_local_inv & Hs).
  apply sbind_inv in Hs as (? & w3 & [_ ->]%lift_inv & Hs).
  apply sbind_inv in Hs as (salt & w4 & [Hsalt ->]%lift_inv & Hs).
  apply sbind_inv in Hs as (b_pub & w5 & [Hbpub ->]%lift_inv & Hs).
  apply sbind_inv in Hs as (a_priv & w6 & [Hrand Hw6]%on_outer_inv & Hs).
  apply sbind_inv in Hs as (vf & w7 & [Hvf ->]%lift_inv & Hs).
  apply sbind_inv in Hs as (? & w8 & [Hsend2 Hw8]%on_local_inv & Hs).
  apply sbind_inv in Hs as (tlv2 & w9 & [Htlv2 Hw9]%on_local_inv & Hs).
  apply sbind_inv in Hs as (? & w10 & [_ ->]%lift_inv & Hs).
  apply sbind_inv in Hs as (m2 & w11 & [Hm2 ->]%lift_inv & Hs).
  apply sbind_inv in Hs as (? & w12 & [Hver ->]%lift_inv & Hs).
  apply sbind_inv in Hs as (ek & w13 & _ & Hs). apply sbind_inv in Hs as (ws0 & w14 & _ & Hs).
  apply sbind_inv in Hs as (rec0 & w15 & _ & Hs).
  apply sbind_inv in Hs as (seed & w16 & [Hseed _]%lift_inv & Hs).
  apply sbind_inv in Hs as (ck & w17 & _ & Hs). apply sbind_inv in Hs as (enc & w18 & _ & Hs).
  apply sbind_inv in Hs as (? & w19 & _ & Hs). apply sbind_inv in Hs as (tlv3 & w20 & _ & Hs).
  apply sbind_inv in Hs as (? & w21 & _ & Hs).
  apply sbind_inv in Hs as (rec1 & w22 & [Hlearn _]%lift_inv & Hs).
  apply sbind_inv in Hs as ([] & w23 & [Hkeys Hw23]%on_local_inv & Hs).
  apply sbind_inv in Hs as (? & w24 & [Hset Hw24]%on_local_inv & Hs).
  apply sbind_inv in Hs as ([] & w25 & [Hsave Hw25]%on_outer_inv & Hs).
  unfold sret in Hs. injection Hs as -> ->. unfold smodify in Hset. injection Hset as _ Hset.
  apply set_session_keys_inv in Hkeys as (Hkeys & _).
  assert (keys_from (srp_key vf) ws'.2) as Hk.
  { rewrite Hw25, <-Hset. destruct Hkeys as (c & k & ? & ? & ? & ?). by exists c, k. }
  split_and!; [|by exists vf| |by rewrite Hw25, <-Hset|by eexists].
  - intros Hv1 Hv2 Hd. apply send_pairing_rx in Hsend1 as Hrx1. rewrite <-Hrx1 in Hd.
    destruct (recv_tlv_inv v1 _ _ _ _ _ Hv1 Hd Htlv1) as (Ht1 & r1 & Hr1 & Hd1).
    apply send_pairing_rx in Hsend2 as Hrx2. rewrite Hw6, Hr1 in Hrx2. rewrite <-Hrx2 in Hd1.
    destruct (recv_tlv_inv v2 _ _ _ _ _ Hv2 Hd1 Htlv2) as (Ht2 & _).
    exists tlv1, tlv2, salt, b_pub, m2, vf.
    apply ok_or_Ok in Hsalt, Hbpub, Hm2. apply of_proto_inv in Hvf, Hver. destruct x3.
    rewrite Hw2, Hw1 in Hrand. destruct (rp_random 64 ws.1) as [b wr]. injection Hrand as -> _.
    by split_and!.
  - apply learn_peer_our in Hlearn as Hour. unfold signing_key in *. rewrite Hour. by rewrite Hseed.
Qed.

(** C32. When SRP pairing succeeds on a stream whose next two messages are [v1] and
    [v2], it is an SRP exchange with the sender of these: the verifier is computed
    from the 64 random bytes that were drawn, the fixed user name and pin, and the
    salt and the public key in [v1]; the proof in [v2] has been verified with it; and
    both session keys are derived from its key.  The record has a valid signing key,
    is the record of the session, and is the one that will be loaded for the device
    the next time. *)
Theorem srp_pair_ok `{!FilesLaws F} udid w s rec w' s' v1 v2 l r :
  frame_ok v1 → frame_ok v2 → delivers (rx (rs_stream s)) (frame v1 ++ frame v2 ++ l) r →
  srp_pair udid (w, s) = (Ok rec, (w', s')) →
  (∃ t1 t2 salt b_pub proof verifier,
     response_tlv v1 = Ok t1 ∧ tlv_get Tlv8.SALT t1 = Some salt ∧ tlv_get Tlv8.PUBLIC_KEY t1 = Some b_pub ∧
     response_tlv v2 = Ok t2 ∧ tlv_get Tlv8.PROOF t2 = Some proof ∧
     srp_process (rp_random 64 w).1 (bytes_of "Pair-Setup") (bytes_of "000000") salt b_pub = inr verifier ∧
     srp_verify_server verifier proof = inr tt ∧ keys_from (srp_key verifier) s') ∧
  is_ok (signing_key rec) = true ∧ rs_record s' = rec ∧
  (record_ok rec → load udid w' = (Ok (Some rec), w')).
Proof.
  intros Hv1 Hv2 Hd (Hk & _ & Hs & Hr & w0 & Hsave)%(srp_pair_inv _ _ _ _ v1 v2 l r).
  split_and!; [by apply Hk|done..|]. intros Hrec. by eapply save_load_aux.
Qed.

Lemma pair_verify_ok ws ws' :
  pair_verify ws = (Ok tt, ws') → ∃ sk dev_pk, keys_from (x_dh sk dev_pk) ws'.2.
Proof.
  unfold pair_verify. intros Hs. apply sbind_inv in Hs as (sk & w1 & _ & Hs).
  apply on_local_inv in Hs as [Hs _]. unfold pair_verify_with in Hs.
  apply sbind_inv in Hs as (? & s1 & _ & Hs). apply sbind_inv in Hs as (tlv1 & s2 & _ & Hs).
  apply sbind_inv in Hs as (dev_pk & s3 & _ & Hs). apply sbind_inv in Hs as (ek & s4 & _ & Hs).
  apply sbind_inv in Hs as (? & s5 & _ & Hs). apply sbind_inv in Hs as (seed & s6 & _ & Hs).
  apply sbind_inv in Hs as (enc & s7 & _ & Hs). apply sbind_inv in Hs as (? & s8 & _ & Hs).
  apply sbind_inv in Hs as (tlv2 & s9 & _ & Hs). apply sbind_inv in Hs as (? & s10 & _ & Hs).
  exists sk, dev_pk. destruct (Tlv8.get_u8 tlv2 Tlv8.STATE) as [[]|]; try done.
  by apply set_session_keys_inv in Hs as (Hk & _).
Qed.

Lemma send_keeps {T} (f : Session → T) m :
  (∀ n s, f (set_rs_seq n s) = f s) → (∀ k s, f (set_rs_stream k s) = f s) → keeps f (send m).
Proof.
  intros H1' H2'. unfold send. apply keeps_bind; [apply keeps_get|intros s].
  apply keeps_bind; [apply keeps_lift|intros n]. apply keeps_bind; [by apply keeps_modify|intros _].
  by apply keeps_zoom.
Qed.
Lemma recv_keeps {T} (f : Session → T) : (∀ k s, f (set_rs_stream k s) = f s) → keeps f recv.
Proof. intros. by apply keeps_zoom. Qed.

Lemma pairing_keeps {T} (f : Session → T) :
  (∀ n s, f (set_rs_seq n s) = f s) → (∀ k s, f (set_rs_stream k s) = f s) →
  (∀ kd b t, keeps f (send_pairing_data kd b t)) ∧ keeps f recv_tlv.
Proof.
  intros H1' H2'. split; [intros; by apply send_keeps|].
  unfold recv_tlv, recv_pairing_data. solve_keeps. by apply recv_keeps.
Qed.

Lemma open_session_enc_seq udid : keeps (λ ws, enc_seq ws.2) (open_session udid).
Proof.
  destruct (pairing_keeps enc_seq) as [Hsend Hrecv]; [done..|].
  assert (∀ m, keeps enc_seq (send m)) as Hs by (intros; by apply send_keeps).
  assert (keeps enc_seq recv) as Hr by (by apply recv_keeps).
  unfold open_session, pair_verify, pair_verify_with, srp_pair, set_session_keys. solve_keeps.
Qed.

(** A session that is handed out has both keys, derived from a key agreement
    or from an SRP exchange; its counter of encrypted messages is at zero. *)
Lemma rp_open_keys k r udid w s rec w' :
  rp_open k r udid w = (Ok (s, rec), w') →
  enc_seq s = 0 ∧
  ((∃ sk dev_pk, keys_from (x_dh sk dev_pk) s) ∨
   (∃ verifier, keys_from (srp_key verifier) s)).
Proof.
  unfold rp_open. pose proof (open_session_enc_seq udid (w, fresh_session k r)) as Hseq.
  destruct (open_session udid (w, fresh_session k r)) as [[rec0|e| |] [w0 s0]] eqn:Ho; [|done..].
  intros [= -> -> ->]. simpl in Hseq. split; [done|].
  unfold open_session in Ho. apply sbind_inv in Ho as (ws & w1 & _ & Ho).
  apply sbind_inv in Ho as (? & w2 & _ & Ho). apply sbind_inv in Ho as (? & w3 & _ & Ho).
  assert (∀ w3, srp_pair udid w3 = (Ok rec, (w', s)) → ∃ verifier,
    keys_from (srp_key verifier) s) as Hsrp.
  { intros w4 Hs. by apply (srp_pair_inv _ _ _ _ (PBool true) (PBool true) [] []) in Hs as (_ & ? & _). }
  destruct (has_creds (rs_record ws.2)); [|right; by eapply Hsrp].
  apply sbind_inv in Ho as (vr & w4 & Hv & Ho). destruct vr as [e|[]]; [right; by eapply Hsrp|].
  left. unfold stry in Hv. destruct (pair_verify w3) as [[[]|e| |] w5] eqn:Hpv; try done.
  injection Hv as <-. apply sbind_inv in Ho as (? & w6 & [= _ <-] & Ho). injection Ho as _ Ho.
  apply pair_verify_ok in Hpv as (sk & dpk & Hk). exists sk, dpk. by rewrite Ho in Hk.
Qed.

(** ** Nonces *)

Lemma enc_nonce_inj n m : in_u 64 n → in_u 64 m → enc_nonce n = enc_nonce m → n = m.
Proof.
  intros Hn Hm He. unfold enc_nonce in He. apply app_inj_1 in He as [He _];
    [|by rewrite !length_le_bytes].
  apply (f_equal le_val) in He. by rewrite !le_val_le_bytes_small in He.
Qed.

(** A stream that takes what it is given gets a message as a whole, or nothing
    when the message cannot be encoded. *)
Lemma rp_send_whole v k :
  healthy k → (rp_send v k).2 = k ∨ (rp_send v k).2 = append_tx (frame v) k.
Proof.
  intros Hk. unfold rp_send, Lockdown.ld_frame, xml, sbind, lift.
  destruct (to_writer_xml v) as [l|]; [right|by left]. cbn [ok_or default from_option id].
  unfold smap_err. rewrite write_all_healthy by done. cbn [omap_err].
  rewrite write_all_healthy by done. cbn [omap_err]. rewrite flush_healthy by done. cbn [snd].
  by rewrite append_tx_app, be_bytes_wrap.
Qed.

Lemma rp_recv_keeps_tx : keeps (λ k, (tx k, wq k)) rp_recv.
Proof.
  assert (∀ n, 0 ≤ n → keeps (λ k, (tx k, wq k)) (rp_read_exact n)) as Hr.
  { intros n Hn k. unfold rp_read_exact.
    by destruct (read_exact_total Io (Protocol (msg0 "RemotePairing: connection closed")) n k Hn)
      as (r1 & -> & _). }
  unfold rp_recv. apply keeps_bind; [by apply Hr|]. intros l. apply keeps_bind; [apply Hr, be_val_range|].
  intros. apply keeps_lift.
Qed.

(** A session without its counter of plain messages and without what it has to
    read. *)
Definition secure_part (s : Session) : Z * option (list byte) * option (list byte) * list byte * list (option io_error) :=
  (enc_seq s, client_key s, server_key s, tx (rs_stream s), wq (rs_stream s)).

Lemma send_secure m s :
  healthy (rs_stream s) →
  secure_part (send m s).2 = secure_part s ∨
  secure_part (send m s).2 = secure_part (set_rs_stream (append_tx (frame m) (rs_stream s)) s).
Proof.
  intros Hk. unfold send, sbind, sget, lift, smodify, on_rs, zoom.
  destruct (i64_incr (rs_seq s)) as [n| | |]; try by left. cbn [rs_stream set_rs_seq].
  destruct (rp_send_whole m (rs_stream s) Hk) as [He|He]; [left|right];
    destruct (rp_send m (rs_stream s)) as [x k']; cbn [snd] in He |- *; unfold secure_part; cbn; by rewrite He.
Qed.

Lemma recv_secure : keeps secure_part recv.
Proof.
  intros s. unfold recv, on_rs, zoom. pose proof (rp_recv_keeps_tx (rs_stream s)) as Hk.
  destruct (rp_recv (rs_stream s)) as [x k']. cbn [snd] in Hk |- *.
  unfold secure_part. cbn. congruence.
Qed.

(** What one request does to it: nothing leaves the host, or the one message
    with the text of the request under the key and the nonce of its number. *)
Lemma encrypted_request_sends req s ck :
  client_key s = Some ck → healthy (rs_stream s) → 0 ≤ enc_seq s → enc_seq s + 1 < 2 ^ 64 →
  let '(n, ck', sk', t, q) := secure_part (encrypted_request req s).2 in
  ck' = Some ck ∧ sk' = server_key s ∧ q = [] ∧
  ((t = tx (rs_stream s) ∧ enc_seq s ≤ n ≤ enc_seq s + 1) ∨
   (n = enc_seq s + 1 ∧ ∃ p c, json_to_vec req = Some p ∧ chacha_encrypt ck (enc_nonce (enc_seq s)) p = Ok c ∧
    t = tx (rs_stream s) ++ frame (encrypted_message c (enc_seq s)))).
Proof.
  intros Hck Hk H0' Hlt. unfold encrypted_request. erewrite sbind_ok by reflexivity. rewrite Hck.
  erewrite sbind_ok by reflexivity.
  assert (∀ n, enc_seq s ≤ n ≤ enc_seq s + 1 → let '(n, ck', sk', t, q) := secure_part (set_enc_seq n s) in
    ck' = Some ck ∧ sk' = server_key s ∧ q = [] ∧
    ((t = tx (rs_stream s) ∧ enc_seq s ≤ n ≤ enc_seq s + 1) ∨
     (n = enc_seq s + 1 ∧ ∃ p c, json_to_vec req = Some p ∧ chacha_encrypt ck (enc_nonce (enc_seq s)) p = Ok c ∧
      t = tx (rs_stream s) ++ frame (encrypted_message c (enc_seq s))))) as Hnone.
  { intros n Hn. cbn. split_and!; [done..|]. by left. }
  assert (set_enc_seq (enc_seq s) s = s) as Hid by (by destruct s).
  pose proof (Hnone (enc_seq s) ltac:(lia)) as Hsame. rewrite Hid in Hsame.
  destruct (server_key s) as [sk|] eqn:Hsk; [|exact Hsame]. erewrite sbind_ok by reflexivity.
  destruct (json_to_vec req) as [p|] eqn:Hp; [|exact Hsame]. erewrite sbind_ok by reflexivity.
  erewrite sbind_ok by (apply lift_ok, add_w_ok; lia). erewrite sbind_ok by reflexivity.
  specialize (Hnone (enc_seq s + 1) ltac:(lia)).
  destruct (chacha_encrypt ck (enc_nonce (enc_seq s)) p) as [c| | |] eqn:Hc; try exact Hnone.
  erewrite sbind_ok by (apply lift_ok; reflexivity).
  match goal with |- context [sbind (send ?m) ?k ?s1] =>
    assert (∀ u, keeps secure_part (k u)) as Hrest;
    [intros u; apply keeps_bind; [apply recv_secure|intros ?; solve_keeps]|];
    assert (secure_part (sbind (send m) k s1).2 = secure_part (send m s1).2) as ->;
    [unfold sbind; destruct (send m s1) as [[u| | |] s2]; [exact (Hrest u s2)|done..]|];
    destruct (send_secure m s1 Hk) as [-> | ->]
  end; [exact Hnone|].
  cbn. split_and!; [done..|]. right. split; [done|]. by exists p, c.
Qed.

(** The requests, one after the other, whatever becomes of each. *)
Fixpoint run_requests (reqs : list jval) (s : Session) : Session :=
  match reqs with
  | [] => s
  | req :: reqs => run_requests reqs (encrypted_request req s).2
  end.

Lemma run_requests_sent reqs s ck :
  client_key s = Some ck → healthy (rs_stream s) →
  0 ≤ enc_seq s → enc_seq s + Z.of_nat (length reqs) < 2 ^ 64 →
  let s' := run_requests reqs s in
  client_key s' = Some ck ∧ server_key s' = server_key s ∧
  ∃ sent, tx (rs_stream s') =
      tx (rs_stream s) ++ concat ((λ x, frame (encrypted_message x.2 x.1.2)) <$> sent) ∧
    sent.*1.*1 `sublist_of` reqs ∧
    Forall (λ x, ∃ p, json_to_vec x.1.1 = Some p ∧ chacha_encrypt ck (enc_nonce x.1.2) p = Ok x.2) sent ∧
    NoDup ((λ x, enc_nonce x.1.2) <$> sent) ∧ Forall (λ x, enc_seq s ≤ x.1.2 < 2 ^ 64) sent.
Proof.
  revert s. induction reqs as [|req reqs IH]; intros s Hck Hk H0' Hlen; cbn [run_requests length] in *.
  { split_and!; [done..|]. exists []. split_and!; try constructor. cbn. by rewrite app_nil_r. }
  pose proof (encrypted_request_sends req s ck Hck Hk H0' ltac:(lia)) as Hone.
  set (s1 := (encrypted_request req s).2) in *. unfold secure_part in Hone.
  destruct Hone as (Hck1 & Hsk1 & Hk1 & Htx).
  destruct (IH s1 Hck1 Hk1) as (Hck2 & Hsk2 & sent & Htx2 & Hsub & Hsealed & Hnd & Hge);
    [destruct Htx as [[_ ?]|[? _]]; lia..|]. split_and!; [done|congruence|].
  destruct Htx as [[Htx Hn]|(Hn & p & c & Hp & Hc & Htx)].
  - exists sent. rewrite Htx2, Htx. split_and!; [done|by apply sublist_cons|done|done|].
    eapply Forall_impl; [exact Hge|]. intros x ?. cbn in *. lia.
  - exists ((req, enc_seq s, c) :: sent). split_and!.
    + rewrite Htx2, Htx. cbn. by rewrite <-(assoc_L (++)).
    + cbn. by apply sublist_skip.
    + constructor; [by exists p|done].
    + cbn. apply NoDup_cons. split; [|done]. intros (x & He & Hx)%list_elem_of_fmap.
      rewrite Forall_forall in Hge. specialize (Hge x Hx). cbn in Hge.
      apply enc_nonce_inj in He; unfold in_u; lia.
    + constructor; [cbn; lia|]. eapply Forall_impl; [exact Hge|]. intros x ?. cbn in *. lia.
Qed.

(** C19. No nonce is used twice.  Over any sequence of requests on a session, failed
    ones included, that does not take its counter of encrypted messages to 2^64, on
    a stream that takes what it is given: what the host has written are messages for
    some of the requests, in their order, each with the text of its request encrypted
    with the client key of the session and the nonce of the number in the message;
    the nonces of these encryptions are pairwise different; and both keys are still
    those of before. *)
Theorem nonces_distinct reqs s ck :
  client_key s = Some ck → healthy (rs_stream s) →
  0 ≤ enc_seq s → enc_seq s + Z.of_nat (length reqs) < 2 ^ 64 →
  let s' := run_requests reqs s in
  client_key s' = Some ck ∧ server_key s' = server_key s ∧
  ∃ sent, tx (rs_stream s') =
      tx (rs_stream s) ++ concat ((λ x, frame (encrypted_message x.2 x.1.2)) <$> sent) ∧
    sent.*1.*1 `sublist_of` reqs ∧
    Forall (λ x, ∃ p, json_to_vec x.1.1 = Some p ∧ chacha_encrypt ck (enc_nonce x.1.2) p = Ok x.2) sent ∧
    NoDup ((λ x, enc_nonce x.1.2) <$> sent).
Proof.
  intros Hck Hk H0' Hlen.
  destruct (run_requests_sent reqs s ck Hck Hk H0' Hlen) as (H1' & H2' & sent & H3' & H4' & H5' & H6' & _).
  split_and!; [done..|]. exists sent. by split_and!.
Qed.
End wire.

(** ** Witnesses *)

(** A toy instance: secrets are bytes and the agreement adds them, encryption
    puts key and nonce before the text, a signature is the key and the text. *)
Module ToyCrypto.
Import RpFs.

Definition agree (a : byte) (pk : list byte) : list byte :=
  replicate 32 (byte_of (u8 a + u8 (default x00 (head pk)))).
Definition strip (p l : list byte) : string + list byte :=
  if bool_decide (take (length p) l = p) then inr (drop (length p) l) else inl "bad tag"%string.

#[export] Instance crypto : RpCrypto world := {|
  x_secret := byte;
  x_random w := (x05, w);
  x_public a := replicate 32 a;
  x_dh := agree;
  hkdf512 salt ikm info := inr (take 32 (ikm ++ info));
  ed_sign k m := k ++ m;
  ed_public k := k;
  aead_encrypt k n p := inr ((k ++ n) ++ p);
  aead_decrypt k n c := strip (k ++ n) c;
  srp_verifier := list byte;
  srp_public a := a;
  srp_process _ _ _ salt _ := inr salt;
  srp_proof v := v;
  srp_key v := v;
  srp_verify_server v p := if bool_decide (p = v) then inr tt else inl "bad proof"%string;
  rp_debug _ := "value"%string
|}.

#[export] Instance laws : RpCryptoLaws crypto.
Proof.
  refine {| ed_verify pk m sig := bool_decide (sig = pk ++ m) |}.
  - intros a b. unfold x_dh, x_public, crypto, agree. cbn [head replicate default from_option id].
    by rewrite Z.add_comm.
  - intros a. unfold x_public, crypto. by rewrite length_replicate.
  - intros k n p c [= <-]. unfold aead_decrypt, crypto, strip.
    rewrite take_app_length, drop_app_length. by rewrite bool_decide_true.
  - intros k m. by apply bool_decide_true.
Defined.
End ToyCrypto.

Section witnesses.
Import RpFs BitJson ToyCrypto.
#[local] Existing Instance debug_profile.
#[local] Existing Instance BitPlist.lib.
#[local] Existing Instance BitPlist.laws.
#[local] Existing Instance RpFs.laws.
#[local] Existing Instance BitJson.laws.
#[local] Existing Instance ToyCrypto.laws.

Ltac vm_eq := match goal with |- _ = ?b => vm_cast_no_check (eq_refl b) end.
Ltac vm_frame := split; [vm_eq|apply Z.ltb_lt; vm_eq].

Definition frames (l : list pval) : stream := idle ((λ v, RData (Lockdown.ld_frame v)) <$> l).
Definition verify_reply1 : pval :=
  pairing_response [(Tlv8.STATE, [x02]); (Tlv8.PUBLIC_KEY, replicate 32 x09)].
Definition verify_reply2 : pval := pairing_response [(Tlv8.STATE, [x04])].
Definition sample_session : Session := fresh_session (frames [verify_reply1; verify_reply2]) sample_record.
Definition sample_secret : list byte := replicate 32 (byte_of 14).
Definition sample_signature : list byte :=
  replicate 32 x07 ++ verify_signed sample_record (replicate 32 x05) (replicate 32 x09).

Lemma pair_verify_agrees_witness : (pair_verify ([] : world, sample_session)).1 = Ok tt.
Proof.
  destruct (pair_verify_agrees (C:=crypto) ([] : world) sample_session x05 [] x09 (replicate 32 x07)
    sample_secret ((sample_secret ++ nonce_of "PV-Msg03") ++ verify_inner sample_record sample_signature)
    sample_secret sample_secret [] []) as (r1 & r2 & -> & _); try reflexivity;
    try vm_frame.
  apply (delivers_pieces [Lockdown.ld_frame verify_reply1; Lockdown.ld_frame verify_reply2] []).
  repeat constructor; vm_compute; discriminate.
Defined.

(** An open session, over pair-verify and over SRP. *)
Definition hello_reply : pval := PDict ["wireProtocolVersion" =>> PInt 19].
Definition srp_replies : list pval :=
  [pairing_response [(Tlv8.SALT, [x11]); (Tlv8.PUBLIC_KEY, [x12])];
   pairing_response [(Tlv8.PROOF, [x11])];
   pairing_response [(Tlv8.STATE, [x06])]].
Definition unpaired : RemotePairingRecord := MkRpRecord (MkOurIdentity "" "") (MkPeer "" "").
Definition srp_run : outcome Error RemotePairingRecord * (world * Session) :=
  Eval vm_compute in srp_pair "u1" ([], fresh_session (frames srp_replies) unpaired).
Definition open_run : outcome Error (Session * RemotePairingRecord) * world :=
  Eval vm_compute in rp_open (frames (hello_reply :: verify_reply1 :: verify_reply2 :: [])) sample_record "u1" [].
Definition opened : Session * RemotePairingRecord :=
  match open_run.1 with Ok a => a | _ => (sample_session, unpaired) end.
Definition srp_rec : RemotePairingRecord := match srp_run.1 with Ok a => a | _ => unpaired end.

Lemma srp_pair_ok_witness : load "u1" srp_run.2.1 = (Ok (Some srp_rec), srp_run.2.1).
Proof.
  apply (srp_pair_ok "u1" [] (fresh_session (frames srp_replies) unpaired) srp_rec srp_run.2.1 srp_run.2.2
    (pairing_response [(Tlv8.SALT, [x11]); (Tlv8.PUBLIC_KEY, [x12])])
    (pairing_response [(Tlv8.PROOF, [x11])])
    (Lockdown.ld_frame (pairing_response [(Tlv8.STATE, [x06])]) ++ []) []); try vm_frame.
  - apply (delivers_pieces
      [Lockdown.ld_frame (pairing_response [(Tlv8.SALT, [x11]); (Tlv8.PUBLIC_KEY, [x12])]);
       Lockdown.ld_frame (pairing_response [(Tlv8.PROOF, [x11])]);
       Lockdown.ld_frame (pairing_response [(Tlv8.STATE, [x06])])] []).
    repeat constructor; vm_compute; discriminate.
  - apply injective_projections; [vm_eq|apply injective_projections; vm_eq].
  - split_and!; vm_compute; reflexivity.
Defined.

Lemma rp_open_keys_witness : enc_seq opened.1 = 0.
Proof.
  apply (rp_open_keys (frames (hello_reply :: verify_reply1 :: verify_reply2 :: [])) sample_record
    "u1" [] opened.1 opened.2 open_run.2).
  apply injective_projections; [vm_eq|vm_eq].
Defined.

Definition ask : jval := JObject ["request" =:> JString "createListener"].
Definition answer : jval := JObject ["port" =:> JInt 5].
Definition answer_cipher : list byte := (sample_secret ++ enc_nonce 3) ++ BitJson.write answer.
Definition keyed : Session :=
  MkSession (frames [encrypted_message answer_cipher 3]) sample_record 0 (Some sample_secret)
    (Some sample_secret) 7.

Lemma encrypted_request_exchange_witness : (encrypted_request ask keyed).1 = Ok answer.
Proof.
  destruct (encrypted_request_exchange ask answer keyed sample_secret sample_secret
    (BitJson.write ask) ((sample_secret ++ enc_nonce 7) ++ BitJson.write ask) 3
    (BitJson.write answer) answer_cipher [] []) as (r1 & -> & _); try reflexivity;
    try vm_frame; try (split; [discriminate|reflexivity]).
  apply (delivers_pieces [Lockdown.ld_frame (encrypted_message answer_cipher 3)] []).
  repeat constructor; vm_compute; discriminate.
Defined.

Lemma nonces_distinct_witness :
  let s' := run_requests [ask; ask] keyed in
  client_key s' = Some sample_secret ∧ server_key s' = Some sample_secret ∧
  ∃ sent, tx (rs_stream s') =
      [] ++ concat ((λ x, Lockdown.ld_frame (encrypted_message x.2 x.1.2)) <$> sent) ∧
    sent.*1.*1 `sublist_of` [ask; ask] ∧
    Forall (λ x, ∃ p, json_to_vec x.1.1 = Some p ∧
      chacha_encrypt (W:=world) sample_secret (enc_nonce x.1.2) p = Ok x.2) sent ∧
    NoDup ((λ x, enc_nonce x.1.2) <$> sent).
Proof. apply (nonces_distinct [ask; ask] keyed sample_secret); [done|done|discriminate|reflexivity]. Defined.
End witnesses.
