(* ===== verification/Tunnel.v ===== *)
(** * Opening the tunnel of a device

    [src/tunnel/ios17.rs], [remote_pairing/mod.rs] and [RsdClient::connect_stream]
    of [rsd/mod.rs]: from a device number to a running network stack.  The
    stack itself ([smoltcp_stack.rs]) is the interface [TunnelStack], what the
    code asks of the operating system beyond sockets to usbmuxd is [Sys].  The
    locals of a function that are closed at its end are values here, so their
    [Drop] leaves no trace. *)

From S2P Require Import Prelude RustStd Io Plist Json Os Version CdTunnel.
From S2P Require UsbmuxTypes UsbmuxConn H2 RemoteXpc Rsd Lockdown RpCredentials RpSession.

(** ** Interfaces *)

(** The stack that runs behind a tunnel: what [SmoltcpTunnel] offers. *)
Class TunnelStack (W : Type) := {
  stack : Type;
  stack_params : stack → TunnelParams;
  stack_new : CdTunnelConn → ST W Error stack;
  stack_new_stream : stream → TunnelParams → ST W Error stack;
  stack_connect : stack → list Z → Z → ST W Error stream
}.

(** Both constructors keep the parameters they are given. *)
Class TunnelStackLaws {W} (T : TunnelStack W) := {
  stack_new_params c t w w' : stack_new c w = (Ok t, w') → stack_params t = params c;
  stack_new_stream_params s p t w w' :
    stack_new_stream s p w = (Ok t, w') → stack_params t = p
}.

(** The clock, sleeping, processes, the timeout of a socket, listeners on the
    loopback interface, and the text of an error. *)
Class Sys (W : Type) := {
  clock_ns : W → Z;
  sleep_ns : Z → W → W;
  current_exe : ST W io_error string;
  spawn : string → list string → ST W io_error unit;
  process_id : Z;
  (** [None] is no timeout; on a TLS stream it is the timeout of its socket *)
  set_read_timeout : option Z → ST stream io_error unit;
  listener : Type;
  tcp_bind : string → Z → ST W io_error listener;
  local_addr : listener → outcome io_error (string * Z);
  (** [relay l s c]: the socket [c], connected to the listener [l], once a thread
      accepts the connection and copies bytes between it and [s] in both
      directions until the end or an error *)
  relay : listener → stream → stream → stream;
  to_string : message → string
}.

(** Bytes relayed are the bytes sent; how they are cut may differ.  The clock is
    monotonic. *)
Class SysLaws {W} `{Os W} (S : Sys W) := {
  relay_delivers l s c bytes r :
    delivers (rx s) bytes r → ∃ r', delivers (rx (relay l s c)) bytes r';
  relay_healthy l s c : healthy s → healthy c → healthy (relay l s c);
  sleep_advances d w : 0 ≤ d → clock_ns w + d ≤ clock_ns (sleep_ns d w);
  connect_clock p w : clock_ns w ≤ clock_ns (unix_connect p w).2;
  connect_returns p w :
    match (unix_connect p w).1 with Ok _ | Err _ => True | _ => False end
}.
Definition CORE_DEVICE_PROXY : string := "com.apple.internal.devicecompute.CoreDeviceProxy".
Definition HANDSHAKE_TIMEOUT : Z := 10000.
Definition POLL_READ_TIMEOUT : Z := 2.

Record Ios17Tunnel `{TunnelStack W} : Type := MkTunnel { t_stack : stack; t_version : IosVersion }.

(** ** TLS of the service ([build_tls_config], [tls_wrap]) *)
Section tls.
Context `{T : Lockdown.Tls}.

Definition build_tls_config (pair : Lockdown.PairRecord) : outcome Error Lockdown.tls_config :=
  let? cert_chain :=
    match Lockdown.pem_certs (Lockdown.host_certificate pair) with
    | inl e => Err (Protocol (Msg "cert: {e}" [FStr e]))
    | inr l => Ok l
    end in
  let? key :=
    match Lockdown.pem_private_key (Lockdown.host_private_key pair) with
    | inl e => Err (Protocol (Msg "key: {e}" [FStr e]))
    | inr None => Err (Protocol (msg0 "no private key"))
    | inr (Some k) => Ok k
    end in
  match Lockdown.with_client_auth_cert cert_chain key with
  | inl e => Err (Protocol (Msg "{e}" [FStr e]))
  | inr c => Ok c
  end.

Definition tls_wrap (plain : stream) (pair : Lockdown.PairRecord) : outcome Error stream :=
  let? config := build_tls_config pair in
  match Lockdown.server_name "localhost" with
  | Some e => Err (Protocol (Msg "{e}" [FStr e]))
  | None =>
      match Lockdown.client_connection config with
      | inl e => Err (Protocol (Msg "TLS init: {e}" [FStr e]))
      | inr conn =>
          match Lockdown.tls_handshake (conn, plain) with
          | (Ok _, (conn, sock)) => Ok (Lockdown.stream_owned conn sock)
          | (Err e, _) => Err (Protocol (Msg "service TLS handshake: {e}" [FStr (what e)]))
          | (Panic, _) => Panic
          | (OutOfFuel, _) => OutOfFuel
          end
      end
  end.
End tls.

Section tunnel.
Context `{BuildProfile} `{PL : PlistLib} `{T : Lockdown.Tls} `{SJ : SerdeJson}
  {W : Type} `{OS : Os W} `{TS : TunnelStack W} `{Y : Sys W}.

(** ** Loopback relays *)

(** [unix_to_tcp]: the relay starts after the connection is made. *)
Definition unix_to_tcp (unix : stream) : ST W io_error stream :=
  let! listener := tcp_bind "127.0.0.1" 0 in
  let! addr := lift (local_addr listener) in
  let! client := tcp_connect addr.1 addr.2 in
  sret (relay listener unix client).

(** [RsdClient::connect_stream]: the thread is started before the connection,
    and waits for it. *)
Definition connect_stream (s : stream) : ST W Rsd.Error Rsd.RsdClient :=
  let io e := Rsd.Xpc (H2.Io e) in
  let! listener := smap_err io (tcp_bind "127.0.0.1" 0) in
  let! local_addr := smap_err io (lift (local_addr listener)) in
  let! client := smap_err io (tcp_connect local_addr.1 local_addr.2) in
  lift (Rsd.rsd_connect (relay listener s client)).

(** ** The handshake of the tunnel *)

Definition cdtunnel_over_tcp (tcp : stream) : ST W Error stack :=
  let! cdtunnel := lift (cd_handshake tcp) in
  stack_new cdtunnel.

Definition cdtunnel_over_tls (tls : stream) : ST W Error stack :=
  let! (params, tls) := srun do_handshake tls in
  let! (_, tls) := srun (smap_err Io (set_read_timeout (Some POLL_READ_TIMEOUT))) tls in
  stack_new_stream tls params.

(** [MuxConn::open()?.open_tunnel(device_id, port)?] *)
Definition usbmux_tunnel (device_id port : Z) : ST W Error MuxSocket :=
  let! m := smap_err (λ e, Usbmux (UsbmuxTypes.EIo e)) mux_connect in
  let! (s, _) := srun (smap_err Usbmux (UsbmuxConn.open_tunnel device_id port))
                    (UsbmuxConn.from_stream (mux_stream m)) in
  sret (set_mux_stream s m).

(** The first socket of [connect_via_lockdown_udid], as a TCP stream. *)
Definition proxy_socket (device_id port : Z) : ST W Error stream :=
  let! socket := usbmux_tunnel device_id port in
  match socket with
  | Tcp s => sret s
  | Unix unix =>
      smap_err (λ e, Protocol (Msg "Unix→TCP relay: {e}" [FStr (what e)])) (unix_to_tcp unix)
  | External _ => sfail (Protocol (msg0 "CoreDeviceProxy requires a socket stream"))
  end.

(** The [UniqueDeviceID] of the device, empty when it does not say. *)
Definition lookup_udid (device_id : Z) : ST W Error string :=
  let! s := smap_err Lockdown (Lockdown.ld_connect device_id) in
  let! (r, _) := srun (stry (Lockdown.get_value None "UniqueDeviceID")) s in
  match r with
  | inr (PString s) => sret s
  | _ => sret ""%string
  end.

Definition connect_via_lockdown_udid (device_id : Z) (udid : option string)
    (version : IosVersion) : ST W Error Ios17Tunnel :=
  let! udid := match udid with Some u => sret u | None => lookup_udid device_id end in
  let! session := smap_err Lockdown (Lockdown.open_paired device_id udid) in
  let! (svc, session) :=
    srun (smap_err Lockdown (Lockdown.start_service CORE_DEVICE_PROXY)) session in
  let! tcp := proxy_socket device_id (Lockdown.svc_port svc) in
  let! stack :=
    if Lockdown.enable_service_ssl svc then
      let! pr := smap_err Lockdown (Lockdown.read_from_usbmuxd udid) in
      let! tls := lift (tls_wrap tcp pr) in
      let! (_, tls) := srun (smap_err Io (set_read_timeout (Some HANDSHAKE_TIMEOUT))) tls in
      cdtunnel_over_tls tls
    else
      let! (_, tcp) := srun (smap_err Io (set_read_timeout (Some HANDSHAKE_TIMEOUT))) tcp in
      cdtunnel_over_tcp tcp in
  sret (MkTunnel _ _ stack version).

Definition connect_via_lockdown (device_id : Z) (version : IosVersion) : ST W Error Ios17Tunnel :=
  connect_via_lockdown_udid device_id None version.

Definition version_msg (t : string) (v : IosVersion) : message :=
  Msg t [FStr (string_of (version_fmt v))].

Definition ios17_connect (device_id : Z) : ST W Error Ios17Tunnel :=
  let! version := detect_version device_id in
  if supports_core_device_proxy version then
    connect_via_lockdown_udid device_id None version
  else if supports_rsd version then
    sfail (Protocol (version_msg "iOS {version}: USB-Ethernet tunnel not yet implemented" version))
  else sfail (Protocol (version_msg "iOS {version} uses legacy lockdown-only path" version)).

(** [Ios17Tunnel::connect_rsd] *)
Definition tunnel_connect_rsd (t : Ios17Tunnel) : ST W Error Rsd.RsdClient :=
  let p := stack_params (t_stack t) in
  let! stream := stack_connect (t_stack t) (server_addr p) (server_rsd_port p) in
  smap_err (λ e, Protocol (Msg "RSD connect: {e}" [FDisplay (Rsd.Error_fmt e)]))
    (connect_stream stream).

(** ** [establish_tunnel]: the listener of a remote pairing session *)

Definition same_ignoring_case (a b : string) : bool :=
  bool_decide (RpCredentials.upper <$> bytes_of a = RpCredentials.upper <$> bytes_of b).

Definition find_device (udid : string) (devices : list UsbmuxTypes.Device) :
    option UsbmuxTypes.Device :=
  find (λ d, same_ignoring_case (UsbmuxTypes.serial d) udid) devices.

(** [Connection::open()?.list_devices()?] *)
Definition connected_devices : ST W UsbmuxTypes.Error (list UsbmuxTypes.Device) :=
  let! m := smap_err UsbmuxTypes.EIo mux_connect in
  let! (devices, _) := srun UsbmuxConn.conn_list_devices (UsbmuxConn.from_stream (mux_stream m)) in
  sret devices.

Section remote_pairing.
Context `{JL : JsonLib} `{FS : RpCredentials.Files W} `{RR : RpCredentials.RpRandom W}
  `{C : RpSession.RpCrypto W}.

Definition create_listener : jval :=
  JObject ["request" =:> JObject ["_0" =:> JObject ["createListener" =:> JObject [
    "key" =:> JString "";
    "peerConnectionsInfo" =:> JArray [JObject [
      "owningPID" =:> JInt process_id;
      "owningProcessName" =:> JString "devicelink"]];
    "transportProtocolType" =:> JString "tcp"]]]].

Definition tunnel_socket (udid : string) (port : Z) : ST W Error MuxSocket :=
  let! devices := smap_err Usbmux connected_devices in
  let! dev := lift (ok_or (find_device udid devices)
                (Protocol (Msg "device {udid} not found for CDTunnel" [FStr udid]))) in
  usbmux_tunnel (UsbmuxTypes.device_id dev) port.

Definition establish_tunnel (service_stream : stream) (udid : string) : ST W Error stack :=
  let! stored := RpCredentials.load udid in
  let! record := match stored with
                 | Some r => sret r
                 | None => RpCredentials.new_identity udid
                 end in
  let! (session, _) := RpSession.rp_open service_stream record udid in
  let! (resp, session) := srun (RpSession.encrypted_request create_listener) session in
  let! port := lift (ok_or (as_u64 (jget "port" (jget "createListener" resp)))
                 (Protocol (Msg "createListener response missing port: {resp}"
                    [FStr (string_of (default [] (json_to_vec resp)))]))) in
  let port := wrap 16 port in
  let! tunnel_socket := tunnel_socket udid port in
  let! tcp :=
    match tunnel_socket with
    | Tcp s => sret s
    | Unix _ => sfail (Protocol (msg0
        "CDTunnel requires TCP; set USBMUXD_SOCKET_ADDRESS=127.0.0.1:27015"))
    | External _ => sfail (Protocol (msg0 "CDTunnel requires TCP socket"))
    end in
  let! cdtunnel := lift (cd_handshake tcp) in
  smap_err (λ e, Protocol (Msg "smoltcp init: {e}" [FDisplay (Error_fmt e)])) (stack_new cdtunnel).
End remote_pairing.
End tunnel.

(** ** What an open tunnel is *)
Section tunnel_spec.
Context `{BuildProfile} `{PL : PlistLib} `{T : Lockdown.Tls} `{SJ : SerdeJson}
  {W : Type} `{OS : Os W} `{TS : TunnelStack W} `{TSL : !TunnelStackLaws TS} `{Y : Sys W}.

Lemma srun_inv {S E A} (m : ST S E A) (s : S) (w : W) a s' w' :
  srun m s w = (Ok (a, s'), w') → m s = (Ok a, s') ∧ w' = w.
Proof. unfold srun. destruct (m s) as [[] ?]; intros; simplify_eq; done. Qed.

Lemma cd_handshake_inv k c : cd_handshake k = Ok c → do_handshake k = (Ok (params c), cd_stream c).
Proof. unfold cd_handshake. destruct (do_handshake k) as [[] ?]; intros; by simplify_eq. Qed.

Lemma connect_via_lockdown_udid_inv device_id udid version w t w' :
  connect_via_lockdown_udid device_id udid version w = (Ok t, w') →
  t_version t = version ∧ ∃ k k', do_handshake k = (Ok (stack_params (t_stack t)), k').
Proof.
  unfold connect_via_lockdown_udid. intros (u & w1 & _ & Ht)%sbind_inv.
  apply sbind_inv in Ht as (s & w2 & _ & Ht). apply sbind_inv in Ht as ([svc s'] & w3 & _ & Ht).
  apply sbind_inv in Ht as (tcp & w4 & _ & Ht). apply sbind_inv in Ht as (st & w5 & Hst & Ht).
  injection Ht as <- _. split; [done|]. cbn [t_stack]. destruct (Lockdown.enable_service_ssl svc).
  - apply sbind_inv in Hst as (pr & w6 & _ & Hst). apply sbind_inv in Hst as (tls & w7 & _ & Hst).
    apply sbind_inv in Hst as ([[] tls'] & w8 & _ & Hst).
    apply sbind_inv in Hst as ([p k] & w9 & [Hp _]%srun_inv & Hst).
    apply sbind_inv in Hst as ([[] k'] & w10 & _ & Hst).
    apply stack_new_stream_params in Hst as ->. by eexists _, _.
  - apply sbind_inv in Hst as ([[] tcp'] & w6 & _ & Hst).
    apply sbind_inv in Hst as (c & w7 & Hc & Hst). injection Hc as Hc _.
    apply cd_handshake_inv in Hc. apply stack_new_params in Hst as ->. by eexists _, _.
Qed.

Lemma do_handshake_addresses k p k' :
  do_handshake k = (Ok p, k') →
  (length (client_addr p) = 8%nat ∧ Forall (in_u 16) (client_addr p)) ∧
  (length (server_addr p) = 8%nat ∧ Forall (in_u 16) (server_addr p)).
Proof.
  unfold do_handshake. intros (req & k1 & _ & Hp)%sbind_inv.
  apply sbind_inv in Hp as ([] & k2 & _ & Hp). apply sbind_inv in Hp as (body & k3 & _ & Hp).
  apply sbind_inv in Hp as (resp & k4 & _ & Hp). apply sbind_inv in Hp as (ca & k5 & Hca & Hp).
  apply sbind_inv in Hp as (sa & k6 & Hsa & Hp). injection Hp as <- _.
  injection Hca as Hca _. injection Hsa as Hsa _. cbn [client_addr server_addr].
  destruct (parse_ipv6 (address _)) eqn:H1; [|done]. destruct (parse_ipv6 (server_address _)) eqn:H2; [|done].
  cbn in Hca, Hsa. simplify_eq. split; eapply parse_ipv6_ok; eassumption.
Qed.

(** A tunnel that [Ios17Tunnel::connect] returns: the device has a version with
    CoreDeviceProxy, and the parameters of the stack are those the device gave in
    a completed handshake - two addresses of eight 16-bit groups - over the plain
    socket and over TLS alike. *)
Theorem ios17_connect_ok device_id w t w' :
  ios17_connect device_id w = (Ok t, w') →
  (∃ w1, detect_version device_id w = (Ok (t_version t), w1)) ∧
  supports_core_device_proxy (t_version t) = true ∧
  let p := stack_params (t_stack t) in
  (∃ k k', do_handshake k = (Ok p, k')) ∧
  (length (client_addr p) = 8%nat ∧ Forall (in_u 16) (client_addr p)) ∧
  (length (server_addr p) = 8%nat ∧ Forall (in_u 16) (server_addr p)).
Proof.
  unfold ios17_connect. intros (v & w1 & Hv & Ht)%sbind_inv.
  destruct (supports_core_device_proxy v) eqn:Hs; [|by destruct (supports_rsd v)].
  apply connect_via_lockdown_udid_inv in Ht as (<- & k & k' & Hk).
  split; [by exists w1|]. split; [done|]. split; [by eexists _, _|].
  by eapply do_handshake_addresses.
Qed.
End tunnel_spec.

(** ** Concrete inputs *)

(** A system whose daemon accepts connections after five seconds and then
    sends the given bytes; usbmuxd is a script; every service of a tunnel says
    the number of its port. *)
Module ToyTunnel.
Record world : Type := World { script : Script.world; now : Z; daemon_says : stream }.
Definition daemon_from : Z := 5000000000.

Definition set_now (t : Z) (w : world) : world := World (script w) t (daemon_says w).
Definition refused : io_error := IoError (OtherKind 0) "connection refused".
Definition daemon_connect : ST world io_error stream := λ w,
  (if daemon_from <=? now w then Ok (daemon_says w) else Err refused, set_now (now w + 1000) w).
Definition on_script {E A} (m : ST Script.world E A) : ST world E A :=
  zoom script (λ s w, World s (now w) (daemon_says w)) m.

#[export] Instance os : Os world := {|
  getenv := λ _, None;
  unix_connect p := if bool_decide (p = "/tmp/ios-rsd.sock"%string) then daemon_connect else on_script Script.next;
  tcp_connect := λ _ _, on_script Script.next
|}.

#[export] Instance tunnels : TunnelStack world := {|
  stack := TunnelParams;
  stack_params p := p;
  stack_new c := sret (params c);
  stack_new_stream _ p := sret p;
  stack_connect _ _ p := sret (idle [RData [byte_of p]])
|}.
#[export] Instance tunnels_laws : TunnelStackLaws tunnels.
Proof. split; [by intros c t w w' [= <- _]|by intros s p t w w' [= <- _]]. Qed.

#[export] Instance sys : Sys world := {|
  clock_ns := now;
  sleep_ns d w := set_now (now w + d) w;
  current_exe := sret "/usr/bin/ios"%string;
  spawn _ _ := sret tt;
  process_id := 42;
  set_read_timeout _ := sret tt;
  listener := unit;
  tcp_bind _ _ := sret tt;
  local_addr _ := Ok ("127.0.0.1"%string, 50000);
  relay _ s c := Stream (rx s) (tx c) (wq c);
  to_string m := template m
|}.
#[export] Instance sys_laws : SysLaws sys.
Proof.
  split.
  - intros l s c bytes r Hd. by exists r.
  - by intros l s c _ Hc.
  - intros d w _. cbn. lia.
  - intros p w. unfold unix_connect, os. destruct (bool_decide _); cbn; [lia|].
    unfold on_script, zoom. destruct (Script.next (script w)). cbn. lia.
  - intros p w. unfold unix_connect, os. destruct (bool_decide _); [cbn; by destruct (_ <=? _)|].
    unfold on_script, zoom. by destruct w as [[[|[]]]].
Qed.
End ToyTunnel.

Section witnesses.
Import ToyTunnel.
#[local] Existing Instance debug_profile.
#[local] Existing Instance BitPlist.lib.
#[local] Existing Instance Lockdown.ToyTls.lib.
#[local] Existing Instance toy_json.

Definition mux_frame (tag : Z) (v : pval) : rd_event :=
  RData (UsbmuxCodec.frame (tag, default [] (to_writer_binary v))).
Definition mux_ok : pval := PDict ["MessageType" =>> PString "Result"; "Number" =>> PInt 0].
Definition lockdown_says (vs : list pval) : stream :=
  idle (mux_frame 1 mux_ok :: ((λ v, RData (Lockdown.ld_frame v)) <$> vs)).
Definition version_17_4 : pval := PDict ["Value" =>> PString "17.4"].
Definition session_started : pval := PDict ["SessionID" =>> PString "S1"].
Definition stored_pair : pval :=
  PDict ["HostID" =>> PString "H"; "SystemBUID" =>> PString "B"; "HostCertificate" =>> PData [x01];
         "HostPrivateKey" =>> PData [x02]; "DeviceCertificate" =>> PData [x03];
         "RootCertificate" =>> PData [x04]].
Definition mux_pair : stream := idle [mux_frame 1 (PDict ["PairRecordData" =>> PData (xml stored_pair)])].

Definition proxy_service : pval := PDict ["Port" =>> PInt 1234].
Definition tunnel_world : world :=
  World (Script.World (inr <$> [
    lockdown_says [version_17_4];
    lockdown_says [PDict ["Value" =>> PString "u1"]];
    lockdown_says [session_started; proxy_service];
    mux_pair;
    idle [mux_frame 1 mux_ok; RData (cd_frame [x7b; x7d])];
    idle []])) 0 (idle []).
Definition tunnel_run : outcome Error Ios17Tunnel * world := Eval vm_compute in ios17_connect 3 tunnel_world.
Definition open_tunnel_17 : Ios17Tunnel :=
  match tunnel_run.1 with Ok t => t | _ => MkTunnel _ _ (MkTunnelParams [] [] 0 0 : @stack world tunnels) (MkVersion 0 0 0) end.
Lemma ios17_connect_ok_witness :
  length (client_addr (stack_params (t_stack open_tunnel_17))) = 8%nat.
Proof.
  apply (ios17_connect_ok 3 tunnel_world open_tunnel_17 tunnel_run.2).
  match goal with |- _ = ?b => vm_cast_no_check (eq_refl b) end.
Defined.
End witnesses.
