(* ===== verification/DeviceSession.v ===== *)
(** * Device sessions ([src/tunnel/device_session.rs])

    The choice between the lockdown path, the tunnel daemon and a tunnel of
    one's own, the wait for the daemon, the requests to the daemon, and the
    connections to services that a session offers. *)

From S2P Require Import Prelude RustStd Io Plist Os Version CdTunnel Tunnel.
From S2P Require UsbmuxTypes H2 Rsd Lockdown.

Definition DAEMON_SOCKET : string := "/tmp/ios-rsd.sock".

Inductive ActivePath : Type := PathLegacy | PathRsd.
#[export] Instance ActivePath_eq_dec : EqDecision ActivePath.
Proof. solve_decision. Defined.

Definition ActivePath_fmt (p : ActivePath) : string :=
  match p with
  | PathLegacy => "legacy (usbmux → lockdownd)"
  | PathRsd => "rsd (CDTunnel → RSD)"
  end.

Definition proto {S A} (t : string) (args : list fmt_arg) : ST S Error A :=
  sfail (Protocol (Msg t args)).

(** ** Requests to the daemon *)
Section client.
Context `{PL : PlistLib}.

Definition daemon_read_exact (n : Z) : ST stream Error (list byte) :=
  read_exact (λ e, Protocol (Msg "daemon read: {e}" [FStr (what e)]))
    (Protocol (msg0 "daemon: unexpected EOF")) n.

Definition daemon_request (udid service : string) : pval :=
  PDict (dict ["UDID" =>> PString udid; "Service" =>> PString service]).

Definition daemon_status (dict : dictionary) : outcome Error unit :=
  match dget "Status" dict ≫= as_string with
  | Some s =>
      if bool_decide (s = "Ok"%string) then Ok tt
      else if bool_decide (s = "Error"%string) then
        let msg := default "unknown"%string (dget "Error" dict ≫= as_string) in
        Err (Protocol (Msg "daemon: {msg}" [FStr msg]))
      else Err (Protocol (msg0 "daemon: unexpected status in response"))
  | None => Err (Protocol (msg0 "daemon: unexpected status in response"))
  end.

(** The exchange on the open socket. *)
Definition daemon_exchange (udid service : string) : ST stream Error unit :=
  let! body := lift (ok_or (to_writer_xml (daemon_request udid service))
                       (Protocol (msg0 "plist encode: {e}"))) in
  smap_err (λ e, Protocol (Msg "daemon write: {e}" [FStr (what e)]))
    (write_all (be_bytes 4 (wrap 32 (lenZ body))) ;;; write_all body ;;; flush) ;;;
  let! len_buf := daemon_read_exact 4 in
  let n := be_val len_buf in
  if (n =? 0) || (1048576 <? n) then
    proto "daemon: bad response length {n}" [FNum n]
  else
    let! resp_body := daemon_read_exact n in
    let! resp := lift (ok_or (from_bytes resp_body) (Protocol (msg0 "daemon plist: {e}"))) in
    let! dict := lift (ok_or (as_dictionary resp) (Protocol (msg0 "daemon: response not a dict"))) in
    lift (daemon_status dict).

(** ** The check-in of a shim service

    The daemon has a copy of the loop, with other errors. *)

Definition checkin_text : list byte :=
  bytes_of "<?xml version=" ++ Rsd.quoted "1.0" ++ bytes_of " encoding=" ++ Rsd.quoted "UTF-8"
  ++ bytes_of "?>" ++ Rsd.newline
  ++ bytes_of "<!DOCTYPE plist PUBLIC " ++ Rsd.quoted "-//Apple//DTD PLIST 1.0//EN"
  ++ bytes_of " " ++ Rsd.quoted "http://www.apple.com/DTDs/PropertyList-1.0.dtd"
  ++ bytes_of ">" ++ Rsd.newline
  ++ bytes_of "<plist version=" ++ Rsd.quoted "1.0" ++ bytes_of "><dict>" ++ Rsd.newline
  ++ bytes_of "<key>Label</key><string>devicelink</string>" ++ Rsd.newline
  ++ bytes_of "<key>ProtocolVersion</key><string>2</string>" ++ Rsd.newline
  ++ bytes_of "<key>Request</key><string>RSDCheckin</string>" ++ Rsd.newline
  ++ bytes_of "</dict></plist>" ++ Rsd.newline.

(** A message that ends the check-in. *)
Definition is_start (body : list byte) : bool :=
  match from_bytes body with
  | Some (PDict d) => bool_decide (dget "Request" d ≫= as_string = Some "StartService"%string)
  | _ => false
  end.

(** [for _ in 0..n]: read a message, stop at [StartService]. *)
Fixpoint await_start {E} (read_len read_body : Z → ST stream E (list byte)) (n : nat) :
    ST stream E unit :=
  match n with
  | O => sret tt
  | S n =>
      let! len_buf := read_len 4 in
      let! resp_body := read_body (be_val len_buf) in
      if is_start resp_body then sret tt else await_start read_len read_body n
  end.

Definition ds_read_exact (t : string) (n : Z) : ST stream Error (list byte) :=
  smap_err (λ e, Protocol (Msg t [FStr (what e)])) (read_exact id (IoError UnexpectedEof "eof") n).

Definition shim_checkin : ST stream Error unit :=
  smap_err (λ e, Protocol (Msg "RSDCheckin write: {e}" [FStr (what e)]))
    (write_all (be_bytes 4 (wrap 32 (lenZ checkin_text))) ;;; write_all checkin_text ;;; flush) ;;;
  await_start (ds_read_exact "RSDCheckin read len: {e}")
    (ds_read_exact "RSDCheckin read body: {e}") 4.
End client.

Section session.
Context `{BuildProfile} `{PL : PlistLib} `{T : Lockdown.Tls} `{SJ : SerdeJson}
  {W : Type} `{OS : Os W} `{TS : TunnelStack W} `{Y : Sys W}.

Inductive Inner : Type :=
  | ILegacy (lockdown : Lockdown.LockdownSession)
  | IRsd (tunnel : stack) (lockdown : Lockdown.LockdownSession)
  | IDaemon (lockdown : Lockdown.LockdownSession) (udid : string).

Record DeviceSession : Type := MkDeviceSession {
  ds_device : UsbmuxTypes.Device;
  ds_version : IosVersion;
  active_path : ActivePath;
  ds_inner : Inner
}.

(** ** The paths *)

Definition open_legacy (device_id : Z) (serial : string) : ST W Error Lockdown.LockdownSession :=
  smap_err Lockdown (Lockdown.open_paired device_id serial).

Definition daemon_is_running {E} : ST W E bool :=
  let! r := stry (unix_connect DAEMON_SOCKET) in
  sret (match r with inr _ => true | inl _ => false end).

Definition spawn_daemon : ST W Error unit :=
  let! exe := smap_err (λ e, Protocol (Msg "current_exe: {e}" [FStr (what e)])) current_exe in
  smap_err (λ e, Protocol (Msg "spawn daemon: {e}" [FStr (what e)]))
    (spawn exe ["tunnel"; "daemon"]%string).

(** [n] is the number of sleeps that are left. *)
Fixpoint wait_loop (n : nat) (deadline : Z) : ST W Error unit :=
  let! up := daemon_is_running in
  if (up : bool) then sret tt
  else λ w,
    if deadline <=? clock_ns w then
      proto "tunnel daemon did not start within 15 s" [] w
    else match n with
         | O => (OutOfFuel, w)
         | S n => wait_loop n deadline (sleep_ns 200000000 w)
         end.

(** A sleep of 200 ms fits 75 times into 15 seconds. *)
Definition wait_for_daemon : ST W Error unit := λ w,
  wait_loop 75 (clock_ns w + 15000000000) w.

Definition try_daemon_path (udid : string) (device_id : Z) : ST W Error (Inner * ActivePath) :=
  let! up := daemon_is_running in
  (if (up : bool) then sret tt else spawn_daemon ;;; wait_for_daemon) ;;;
  let! lockdown := open_legacy device_id udid in
  sret (IDaemon lockdown udid, PathRsd).

Definition try_rsd (device : UsbmuxTypes.Device) (version : IosVersion) :
    ST W Error (Inner * ActivePath) :=
  let! tunnel :=
    smap_err (λ e, Protocol (Msg "CDTunnel/RemotePairing failed: {e}" [FDisplay (Error_fmt e)]))
      (connect_via_lockdown_udid (UsbmuxTypes.device_id device)
         (Some (UsbmuxTypes.serial device)) version) in
  let! lockdown := open_legacy (UsbmuxTypes.device_id device) (UsbmuxTypes.serial device) in
  sret (IRsd (t_stack tunnel) lockdown, PathRsd).

(** [try_daemon_path(..).or_else(|e| try_rsd(..))] *)
Definition daemon_or_direct (device : UsbmuxTypes.Device) (version : IosVersion) :
    ST W Error (Inner * ActivePath) :=
  let! r := stry (try_daemon_path (UsbmuxTypes.serial device) (UsbmuxTypes.device_id device)) in
  match r with
  | inr x => sret x
  | inl _ => try_rsd device version
  end.

Definition legacy_path (device : UsbmuxTypes.Device) : ST W Error (Inner * ActivePath) :=
  let! s := open_legacy (UsbmuxTypes.device_id device) (UsbmuxTypes.serial device) in
  sret (ILegacy s, PathLegacy).

Definition effective_mode (mode : ConnectionMode) : ConnectionMode :=
  let env_mode := from_env (getenv "IOS_LEGACY") in
  if bool_decide (env_mode = Legacy) then Legacy
  else if bool_decide (mode = RsdMode) then RsdMode
  else with_legacy_flag env_mode (is_legacy mode).

Definition choose_path (device : UsbmuxTypes.Device) (version : IosVersion)
    (effective : ConnectionMode) : ST W Error (Inner * ActivePath) :=
  match effective with
  | Legacy => legacy_path device
  | RsdMode =>
      if supports_core_device_proxy version then
        smap_err (λ e, Protocol (Msg "RSD mode forced but failed: {e}" [FDisplay (Error_fmt e)]))
          (daemon_or_direct device version)
      else
        sfail (Protocol (version_msg
          "iOS {version} does not support RSD via CoreDeviceProxy (requires iOS 17.4+)" version))
  | Auto =>
      if supports_core_device_proxy version then
        let! rsd := stry (daemon_or_direct device version) in
        match rsd with
        | inr result => sret result
        | inl _ => legacy_path device
        end
      else legacy_path device
  end.

Definition ds_open (device : UsbmuxTypes.Device) (mode : ConnectionMode) :
    ST W Error DeviceSession :=
  let effective := effective_mode mode in
  let! version := detect_version (UsbmuxTypes.device_id device) in
  let! (inner, active_path) := choose_path device version effective in
  sret (MkDeviceSession device version active_path inner).

(** ** What a session offers *)

Definition ds_lockdown (s : DeviceSession) : Lockdown.LockdownSession :=
  match ds_inner s with ILegacy l | IRsd _ l | IDaemon l _ => l end.
Definition smoltcp_tunnel_ref (s : DeviceSession) : option stack :=
  match ds_inner s with IRsd t _ => Some t | _ => None end.
Definition ds_is_rsd (s : DeviceSession) : bool := bool_decide (active_path s = PathRsd).

Definition daemon_connect_service (udid service : string) : ST W Error stream :=
  let! sock := smap_err (λ e, Protocol (Msg "daemon connect: {e}" [FStr (what e)]))
                 (unix_connect DAEMON_SOCKET) in
  let! (_, sock) := srun (daemon_exchange udid service) sock in
  sret sock.

Definition connect_rsd (s : DeviceSession) : ST W Error Rsd.RsdClient :=
  match ds_inner s with
  | IDaemon _ udid =>
      let! sock := daemon_connect_service udid "_rsd" in
      smap_err (λ e, Protocol (Msg "RSD via daemon: {e}" [FDisplay (Rsd.Error_fmt e)]))
        (connect_stream sock)
  | _ =>
      let! tunnel := lift (ok_or (smoltcp_tunnel_ref s)
                             (Protocol (msg0 "RSD not available on legacy path"))) in
      let p := stack_params tunnel in
      let! stream := stack_connect tunnel (server_addr p) (server_rsd_port p) in
      smap_err (λ e, Protocol (Msg "RSD connect: {e}" [FDisplay (Rsd.Error_fmt e)]))
        (connect_stream stream)
  end.

(** The direct path of both service connections: the port from the catalogue,
    then a connection through the tunnel. *)
Definition direct_connect (s : DeviceSession) (service_name : string) : ST W Error stream :=
  let! rsd := connect_rsd s in
  let! entry := lift (ok_or (Rsd.service rsd service_name)
                        (Protocol (Msg "RSD service '{service_name}' not in catalog"
                           [FStr service_name]))) in
  let! tunnel := lift (ok_or (smoltcp_tunnel_ref s) (Protocol (msg0 "no CDTunnel available"))) in
  stack_connect tunnel (server_addr (stack_params tunnel)) (Rsd.port entry).

Definition connect_rsd_shim (s : DeviceSession) (service_name : string) : ST W Error MuxSocket :=
  match ds_inner s with
  | IDaemon _ udid =>
      let! sock := daemon_connect_service udid service_name in
      sret (external sock)
  | _ =>
      let! stream := direct_connect s service_name in
      let! (_, stream) := srun shim_checkin stream in
      sret (external stream)
  end.

Definition connect_rsd_service (s : DeviceSession) (service_name : string) : ST W Error stream :=
  match ds_inner s with
  | IDaemon _ udid => daemon_connect_service udid service_name
  | _ => direct_connect s service_name
  end.
End session.

(** ** Which path a session takes *)
Section paths.
Context `{BuildProfile} `{PL : PlistLib} `{T : Lockdown.Tls} `{SJ : SerdeJson}
  {W : Type} `{OS : Os W} `{TS : TunnelStack W} `{Y : Sys W}.

(** The state of a session agrees with the path it reports. *)
Definition path_wf (device : UsbmuxTypes.Device) (x : Inner (W:=W) * ActivePath) : Prop :=
  match x.1 with
  | ILegacy _ => x.2 = PathLegacy
  | IRsd _ _ => x.2 = PathRsd
  | IDaemon _ udid => x.2 = PathRsd ∧ udid = UsbmuxTypes.serial device
  end.
Definition session_wf (s : DeviceSession (W:=W)) : Prop :=
  path_wf (ds_device s) (ds_inner s, active_path s).

Lemma stry_inv {S E F A} (m : ST S E A) (s : S) (r : E + A) (s' : S) :
  stry (F:=F) m s = (Ok r, s') →
  m s = (match r with inr a => Ok a | inl e => Err e end, s').
Proof. unfold stry. destruct (m s) as [[]]; intros [= <- <-]; done. Qed.

Lemma legacy_path_inv device w x w' :
  legacy_path device w = (Ok x, w') → path_wf device x ∧ x.2 = PathLegacy.
Proof. unfold legacy_path. intros (s & w1 & _ & Hx)%sbind_inv. by injection Hx as <- _. Qed.

Lemma daemon_or_direct_inv device version w x w' :
  daemon_or_direct device version w = (Ok x, w') → path_wf device x ∧ x.2 = PathRsd.
Proof.
  unfold daemon_or_direct. intros (r & w1 & Hd%stry_inv & Hx)%sbind_inv.
  destruct r as [e|y].
  - unfold try_rsd in Hx. apply sbind_inv in Hx as (t & w2 & _ & (l & w3 & _ & Hx)%sbind_inv).
    by injection Hx as <- _.
  - injection Hx as -> _. unfold try_daemon_path in Hd.
    apply sbind_inv in Hd as (up & w2 & _ & (u & w3 & _ & Hd)%sbind_inv).
    apply sbind_inv in Hd as (l & w4 & _ & Hd). by injection Hd as <- _.
Qed.

(** The variable wins over every mode, [RsdMode] too. *)
Lemma env_overrides_mode device mode w s w' :
  from_env (getenv "IOS_LEGACY") = Legacy → ds_open device mode w = (Ok s, w') →
  active_path s = PathLegacy.
Proof.
  unfold ds_open, choose_path, effective_mode. intros -> (v & w1 & _ & Hs)%sbind_inv.
  apply sbind_inv in Hs as ([inner p] & w2 & Hc & Hs). injection Hs as <- _.
  rewrite bool_decide_true in Hc by done. by apply legacy_path_inv in Hc as [_ Hp].
Qed.

(** C24. What an opened session is: its state agrees with the path it reports, the
    version is the one the device gave, and the path is the one that was asked for.
    [Legacy] gives the lockdown path; so does [Auto] when [IOS_LEGACY] asks for it;
    [RsdMode], when [IOS_LEGACY] does not ask for the contrary, gives the tunnel; and
    the tunnel is taken only on versions that have CoreDeviceProxy, from 17.4 on.
    (Nothing is said here of [RsdMode] together with [IOS_LEGACY].) *)
Theorem ds_open_wf device mode w s w' :
  ds_open device mode w = (Ok s, w') →
  session_wf s ∧ ds_device s = device ∧
  (∃ w1, detect_version (UsbmuxTypes.device_id device) w = (Ok (ds_version s), w1)) ∧
  match mode with
  | Legacy => active_path s = PathLegacy
  | Auto => from_env (getenv "IOS_LEGACY") = Legacy → active_path s = PathLegacy
  | RsdMode => from_env (getenv "IOS_LEGACY") ≠ Legacy → active_path s = PathRsd
  end ∧
  (active_path s = PathRsd → supports_core_device_proxy (ds_version s) = true).
Proof.
  unfold ds_open. intros (v & w1 & Hv & Hs)%sbind_inv.
  apply sbind_inv in Hs as ([inner p] & w2 & Hc & Hs). injection Hs as <- _. unfold session_wf.
  cbn [ds_device ds_version ds_inner active_path] in *.
  assert (∀ w, legacy_path device w = (Ok (inner, p), w2) →
    path_wf device (inner, p) ∧ p = PathLegacy) as Hleg by (by intros w0 [? ?]%legacy_path_inv).
  assert (∀ w, daemon_or_direct device v w = (Ok (inner, p), w2) →
    path_wf device (inner, p) ∧ p = PathRsd) as Hdir by (by intros w0 [? ?]%daemon_or_direct_inv).
  unfold choose_path, effective_mode in Hc.
  destruct (from_env (getenv "IOS_LEGACY")) eqn:He; rewrite ?bool_decide_false, ?bool_decide_true in Hc by done.
  2: { apply Hleg in Hc as [Hwf ->]. destruct mode; by split_and!; eauto. }
  2: { exfalso. unfold from_env in He. repeat case_match; done. }
  destruct mode; rewrite ?bool_decide_false, ?bool_decide_true in Hc by done; cbn in Hc.
  - destruct (supports_core_device_proxy v) eqn:Hsup.
    + apply sbind_inv in Hc as (r & w3 & Hd%stry_inv & Hr). destruct r as [e|x].
      * apply Hleg in Hr as [Hwf ->]. split_and!; eauto; naive_solver.
      * injection Hr as -> ->. apply Hdir in Hd as [Hwf ->]. split_and!; eauto; naive_solver.
    + apply Hleg in Hc as [Hwf ->]. split_and!; eauto; naive_solver.
  - apply Hleg in Hc as [Hwf ->]. split_and!; eauto; naive_solver.
  - destruct (supports_core_device_proxy v) eqn:Hsup; [|done].
    apply smap_err_inv, Hdir in Hc as [Hwf ->]. split_and!; eauto; naive_solver.
Qed.

(** C26. In automatic mode trouble with the daemon or the tunnel is never reported:
    the session fails only when the version cannot be read, or when the lockdown
    path fails as well, and then with that error. *)
Theorem ds_open_auto_fails device mode w e w' :
  effective_mode mode = Auto →
  ds_open device mode w = (Err e, w') →
  detect_version (UsbmuxTypes.device_id device) w = (Err e, w') ∨
  ∃ w1, open_legacy (UsbmuxTypes.device_id device) (UsbmuxTypes.serial device) w1 = (Err e, w').
Proof.
  intros Hm. unfold ds_open. rewrite Hm. unfold sbind at 1.
  destruct (detect_version (UsbmuxTypes.device_id device) w) as [[v|e0| |] w1]; try done;
    [|intros [= <- <-]; by left].
  intros Hs. right.
  assert (∀ w2, legacy_path device w2 = (Err e, w') →
    ∃ w1, open_legacy (UsbmuxTypes.device_id device) (UsbmuxTypes.serial device) w1 = (Err e, w')) as Hl.
  { intros w2 Hl. exists w2. unfold legacy_path, sbind in Hl. destruct (open_legacy _ _ w2) as [[]]; simplify_eq; done. }
  assert (choose_path device v Auto w1 = (Err e, w')) as Hc.
  { unfold sbind in Hs. destruct (choose_path device v Auto w1) as [[[]| | |]]; simplify_eq; done. }
  unfold choose_path in Hc. destruct (supports_core_device_proxy v); [|by eapply Hl].
  unfold sbind, stry in Hc.
  destruct (daemon_or_direct device v w1) as [[x|e1| |] w2]; try done. by eapply Hl.
Qed.

(** ** Waiting for the daemon *)
Context `{YL : !SysLaws Y}.

Lemma daemon_is_running_spec {E} w :
  ∃ up, daemon_is_running (E:=E) w = (Ok up, (unix_connect DAEMON_SOCKET w).2) ∧
    up = is_ok (unix_connect DAEMON_SOCKET w).1.
Proof.
  unfold daemon_is_running, sbind, stry. pose proof (connect_returns DAEMON_SOCKET w) as Hc.
  destruct (unix_connect DAEMON_SOCKET w) as [[k|e| |] w1]; try done; by eexists.
Qed.

(** The state after [n] attempts, each followed by a sleep. *)
Fixpoint retry (n : nat) (w : W) : W :=
  match n with
  | O => w
  | S n => retry n (sleep_ns 200000000 (unix_connect DAEMON_SOCKET w).2)
  end.

(** [n] sleeps are enough when the deadline is [n] sleeps away. *)
Lemma wait_loop_attempts n deadline w :
  deadline ≤ clock_ns w + Z.of_nat n * 200000000 →
  ∃ k, (k ≤ n)%nat ∧
    (∀ j, (j < k)%nat → let x := unix_connect DAEMON_SOCKET (retry j w) in
       is_ok x.1 = false ∧ clock_ns x.2 < deadline) ∧
    let x := unix_connect DAEMON_SOCKET (retry k w) in
    clock_ns w ≤ clock_ns x.2 ∧
    if is_ok x.1 then wait_loop n deadline w = (Ok tt, x.2)
    else wait_loop n deadline w = proto "tunnel daemon did not start within 15 s" [] x.2 ∧
         deadline ≤ clock_ns x.2.
Proof.
  revert w. induction n as [|n IH]; intros w Hd; cbn [wait_loop]; unfold sbind;
    destruct (daemon_is_running_spec (E:=Error) w) as (up & -> & Hup);
    pose proof (connect_clock DAEMON_SOCKET w) as Hc;
    set (x := unix_connect DAEMON_SOCKET w) in *.
  all: destruct up; [exists 0%nat; cbn [retry]; fold x; rewrite <-Hup; split_and!; [lia|lia|done|done]|].
  - exists 0%nat. cbn [retry]. fold x. rewrite <-Hup. rewrite (proj2 (Z.leb_le _ _)) by lia.
    split_and!; [lia|lia|done|done|lia].
  - destruct (Z.leb_spec deadline (clock_ns x.2)).
    + exists 0%nat. cbn [retry]. fold x. rewrite <-Hup. split_and!; [lia|lia|done..].
    + pose proof (sleep_advances 200000000 x.2) as Hs.
      destruct (IH (sleep_ns 200000000 x.2)) as (k & Hk & Hj & Hle & Hr); [lia|].
      exists (S k). cbn [retry]. fold x. split_and!; [lia| |lia|done].
      intros [|j] Hlt; cbn [retry]; fold x; [by rewrite <-Hup|]. apply Hj. lia.
Qed.

(** C25. The wait for the daemon always ends: after at most 75 attempts that failed
    before the deadline of 15 seconds, each followed by a sleep of 200 ms, there is a
    last attempt to connect; if it succeeds so does the wait, and otherwise the
    deadline has passed and the wait is the error.  So a daemon that never accepts
    is reported after no less than 15 seconds, and one that accepts from the time
    [t] on is found when an attempt, which takes no longer than [d], still fits
    between [t] and the deadline. *)
Theorem wait_for_daemon_ends w :
  let attempt j := unix_connect DAEMON_SOCKET (retry j w) in
  let deadline := clock_ns w + 15000000000 in
  let failed := Err (Protocol (msg0 "tunnel daemon did not start within 15 s")) in
  (∃ k, (k ≤ 75)%nat ∧
    (∀ j, (j < k)%nat → is_ok (attempt j).1 = false ∧ clock_ns (attempt j).2 < deadline) ∧
    if is_ok (attempt k).1 then wait_for_daemon w = (Ok tt, (attempt k).2)
    else wait_for_daemon w = (failed, (attempt k).2) ∧ deadline ≤ clock_ns (attempt k).2) ∧
  ((∀ w1, is_ok (unix_connect DAEMON_SOCKET w1).1 = false) →
    (wait_for_daemon w).1 = failed ∧ deadline ≤ clock_ns (wait_for_daemon w).2) ∧
  (∀ t d, (∀ w1, t ≤ clock_ns w1 → is_ok (unix_connect DAEMON_SOCKET w1).1 = true) →
    (∀ w1, clock_ns (unix_connect DAEMON_SOCKET w1).2 ≤ clock_ns w1 + d) →
    t + d ≤ deadline → (wait_for_daemon w).1 = Ok tt).
Proof.
  intros attempt deadline failed. unfold wait_for_daemon.
  change (clock_ns w + 15000000000) with deadline.
  destruct (wait_loop_attempts 75 deadline w) as (k & Hk & Hj & _ & Hr); [lia|].
  change (unix_connect DAEMON_SOCKET (retry k w)) with (attempt k) in Hr. split_and!.
  - exists k. by split_and!.
  - intros Hno. unfold attempt in Hr. rewrite Hno in Hr. destruct Hr as [-> Hr]. done.
  - intros t d Ht Hd Htd. destruct (is_ok (attempt k).1) eqn:Hok; [by rewrite Hr|].
    destruct Hr as [_ Hr]. exfalso. specialize (Hd (retry k w)). fold (attempt k) in Hd.
    unfold attempt in Hok. rewrite Ht in Hok; [done|]. unfold deadline in *. lia.
Qed.
End paths.

(** ** The exchange with the daemon *)
Section exchange.
Context `{PL : PlistLib} `{PLL : !PlistLaws PL}.
Notation frame := Lockdown.ld_frame.
Notation frame_ok := Lockdown.ld_ok.

Lemma write_parts_healthy len body k :
  healthy k →
  (write_all len ;;; write_all body ;;; flush) k = (Ok tt, append_tx (len ++ body) k).
Proof.
  intros Hk. unfold sbind. do 2 (rewrite write_all_healthy by done). rewrite flush_healthy by done.
  by rewrite append_tx_app.
Qed.

(** What the response of the daemon means. *)
Definition response_means (resp : pval) : outcome Error unit :=
  match resp with
  | PDict d => daemon_status d
  | _ => Err (Protocol (msg0 "daemon: response not a dict"))
  end.

Lemma daemon_exchange_aux udid service k n body l r :
  healthy k → frame_ok (daemon_request udid service) → in_u 32 n →
  delivers (rx k) (be_bytes 4 n ++ body ++ l) r →
  lenZ body = (if (n =? 0) || (1048576 <? n) then 0 else n) →
  ∃ r1, daemon_exchange udid service k =
      (if (n =? 0) || (1048576 <? n) then
         Err (Protocol (Msg "daemon: bad response length {n}" [FNum n]))
       else match from_bytes body with
            | None => Err (Protocol (msg0 "daemon plist: {e}"))
            | Some resp => response_means resp
            end,
       append_tx (frame (daemon_request udid service)) (set_rx r1 k)) ∧
    delivers r1 l r.
Proof.
  intros Hk [Hplain Hlen] Hn Hd Hbody. unfold daemon_exchange.
  rewrite (to_writer_xml_plain _ Hplain). erewrite sbind_ok by reflexivity.
  erewrite sbind_ok by (apply smap_err_ok, write_parts_healthy, Hk).
  unfold frame. rewrite wrap_small by (unfold in_u; len).
  set (k1 := append_tx _ k).
  unfold daemon_read_exact.
  match goal with |- context [read_exact ?w ?e 4] =>
    destruct (read_exact_delivers w e 4 k1 (be_bytes 4 n) (body ++ l) r) as (r1 & Hr1 & Hd1);
      [done|len|]
  end.
  erewrite sbind_ok by exact Hr1. rewrite be_val_be_bytes_small by done.
  destruct ((n =? 0) || (1048576 <? n)).
  { exists r1. split; [done|]. destruct body; [done|]. by rewrite lenZ_cons in Hbody; len. }
  match goal with |- context [read_exact ?w ?e n] =>
    destruct (read_exact_delivers w e n (set_rx r1 k1) body l r) as (r2 & Hr2 & Hd2); [done..|]
  end.
  erewrite sbind_ok by exact Hr2. exists r2. split; [|done].
  destruct (from_bytes body) as [v|]; [|done]. by destruct v.
Qed.

(** One request to the daemon: the request leaves as one frame, the result is
    what the response says, and what the daemon sends after its response stays
    on the socket for the caller; a length of zero or above one MiB is refused
    before anything of the body is read. *)
Theorem daemon_exchange_result udid service k n body l r :
  healthy k → frame_ok (daemon_request udid service) → in_u 32 n →
  delivers (rx k) (be_bytes 4 n ++ body ++ l) r →
  lenZ body = (if (n =? 0) || (1048576 <? n) then 0 else n) →
  ∃ r1, daemon_exchange udid service k =
      (if (n =? 0) || (1048576 <? n) then
         Err (Protocol (Msg "daemon: bad response length {n}" [FNum n]))
       else match from_bytes body with
            | None => Err (Protocol (msg0 "daemon plist: {e}"))
            | Some resp => response_means resp
            end,
       append_tx (frame (daemon_request udid service)) (set_rx r1 k)) ∧
    delivers r1 l r.
Proof. apply daemon_exchange_aux. Qed.

(** ** The check-in *)

(** The messages a check-in of [n] turns reads: up to the first [StartService],
    or [n] others. *)
Inductive checkin_seq : nat → list (list byte) → Prop :=
  | seq_none : checkin_seq 0 []
  | seq_start n b : is_start b = true → checkin_seq (S n) [b]
  | seq_skip n b bs : is_start b = false → checkin_seq n bs → checkin_seq (S n) (b :: bs).

Definition raw_frame (body : list byte) : list byte := be_bytes 4 (lenZ body) ++ body.

Lemma await_start_seq {E} (rd1 rd2 : Z → ST stream E (list byte)) n bodies k l r :
  (∀ rd, rd = rd1 ∨ rd = rd2 → ∀ m k l1 l2 r, delivers (rx k) (l1 ++ l2) r → m = lenZ l1 →
    ∃ r1, rd m k = (Ok l1, set_rx r1 k) ∧ delivers r1 l2 r) →
  checkin_seq n bodies → Forall (λ b, lenZ b < 2 ^ 32) bodies →
  delivers (rx k) (concat (raw_frame <$> bodies) ++ l) r →
  ∃ r1, await_start rd1 rd2 n k = (Ok tt, set_rx r1 k) ∧ delivers r1 l r.
Proof.
  intros Hrd Hseq. revert k. induction Hseq as [|n b Hb|n b bs Hb _ IH]; intros k Hlen Hd.
  - exists (rx k). by rewrite set_rx_id.
  - apply Forall_cons in Hlen as [Hlen _]. cbn [fmap list_fmap concat] in Hd.
    unfold raw_frame in Hd. rewrite app_nil_r, <-(assoc_L (++)) in Hd. cbn [await_start].
    destruct (Hrd rd1 (or_introl eq_refl) 4 k _ _ _ Hd) as (r1 & Hr1 & Hd1); [len|].
    erewrite sbind_ok by exact Hr1. rewrite be_val_be_bytes_small by (pose proof (lenZ_nonneg b); unfold in_u; lia).
    destruct (Hrd rd2 (or_intror eq_refl) (lenZ b) (set_rx r1 k) _ _ _ Hd1) as (r2 & Hr2 & Hd2); [done|].
    erewrite sbind_ok by exact Hr2. rewrite Hb. by exists r2.
  - apply Forall_cons in Hlen as [Hlen Hrest]. cbn [fmap list_fmap concat] in Hd.
    unfold raw_frame in Hd at 1. rewrite <-!(assoc_L (++)) in Hd. cbn [await_start].
    destruct (Hrd rd1 (or_introl eq_refl) 4 k _ _ _ Hd) as (r1 & Hr1 & Hd1); [len|].
    erewrite sbind_ok by exact Hr1. rewrite be_val_be_bytes_small by (pose proof (lenZ_nonneg b); unfold in_u; lia).
    destruct (Hrd rd2 (or_intror eq_refl) (lenZ b) (set_rx r1 k) _ _ _ Hd1) as (r2 & Hr2 & Hd2); [done|].
    erewrite sbind_ok by exact Hr2. rewrite Hb.
    destruct (IH (set_rx r2 k) Hrest Hd2) as (r3 & Hr3 & Hd3). by exists r3.
Qed.

Lemma ds_read_exact_delivers t m k l1 l2 r :
  delivers (rx k) (l1 ++ l2) r → m = lenZ l1 →
  ∃ r1, ds_read_exact t m k = (Ok l1, set_rx r1 k) ∧ delivers r1 l2 r.
Proof.
  intros Hd ->. destruct (read_exact_delivers id (IoError UnexpectedEof "eof") _ _ _ _ _ Hd eq_refl)
    as (r1 & Hr1 & Hd1). exists r1. split; [|done]. unfold ds_read_exact. by apply smap_err_ok.
Qed.

(** The check-in of a shim service: the request leaves as one frame, and the
    stream is handed out where the service starts to speak: behind the message
    that announces [StartService] - or behind the fourth message when none of
    them did, which counts as success. *)
Theorem shim_checkin_done k bodies l r :
  healthy k → checkin_seq 4 bodies → Forall (λ b, lenZ b < 2 ^ 32) bodies →
  delivers (rx k) (concat (raw_frame <$> bodies) ++ l) r →
  ∃ r1, shim_checkin k = (Ok tt, append_tx (raw_frame checkin_text) (set_rx r1 k)) ∧
    delivers r1 l r.
Proof.
  intros Hk Hseq Hlen Hd. unfold shim_checkin.
  erewrite sbind_ok by (apply smap_err_ok, write_parts_healthy, Hk).
  change (be_bytes 4 (wrap 32 (lenZ checkin_text)) ++ checkin_text) with (raw_frame checkin_text).
  set (k1 := append_tx (raw_frame checkin_text) k).
  destruct (await_start_seq (ds_read_exact "RSDCheckin read len: {e}")
    (ds_read_exact "RSDCheckin read body: {e}") 4 bodies k1 l r) as (r1 & Hr1 & Hd1); [|done..|].
  { intros rd [-> | ->]; apply ds_read_exact_delivers. }
  exists r1. by rewrite Hr1.
Qed.
End exchange.

(** ** Concrete inputs *)


Section witnesses.
Import ToyTunnel.
#[local] Existing Instance debug_profile.
#[local] Existing Instance BitPlist.lib.
#[local] Existing Instance BitPlist.laws.
#[local] Existing Instance Lockdown.ToyTls.lib.
#[local] Existing Instance toy_json.

Ltac vm_eq := match goal with |- _ = ?b => vm_cast_no_check (eq_refl b) end.

Definition toy_device : UsbmuxTypes.Device :=
  UsbmuxTypes.MkDevice 3 "u1" UsbmuxTypes.Usb 0 0.
(** usbmuxd for [detect_version] and then the given streams; the daemon answers
    5 s after the start. *)
Definition toy_world (ss : list stream) : world :=
  World (Script.World (inr <$> lockdown_says [version_17_4] :: ss)) 0 (idle []).
Definition run_auto : outcome Error (DeviceSession (W:=world)) * world :=
  Eval vm_compute in
    ds_open toy_device Auto (toy_world [lockdown_says [session_started]; mux_pair]).
Definition opened : DeviceSession (W:=world) :=
  match run_auto.1 with Ok s => s | _ => MkDeviceSession toy_device (MkVersion 0 0 0) PathLegacy
    (ILegacy (Lockdown.MkSession Lockdown.Upgrading None 0 None)) end.

Lemma ds_open_wf_witness :
  session_wf opened ∧ supports_core_device_proxy (ds_version opened) = true.
Proof.
  destruct (ds_open_wf toy_device Auto (toy_world [lockdown_says [session_started]; mux_pair])
    opened run_auto.2) as (Hwf & _ & _ & _ & Hp); [vm_eq|].
  split; [exact Hwf|]. apply Hp. reflexivity.
Defined.

(** No pair record: the daemon path, the tunnel and the lockdown path fail. *)
Definition unpaired_world : world := toy_world [].
Definition run_fails : outcome Error (DeviceSession (W:=world)) * world :=
  Eval vm_compute in ds_open toy_device Auto unpaired_world.
Lemma ds_open_auto_fails_witness :
  ∃ w1, open_legacy 3 "u1" w1 =
    (Err (Lockdown (Lockdown.Usbmux (UsbmuxTypes.EIo refused))), run_fails.2).
Proof.
  destruct (ds_open_auto_fails toy_device Auto unpaired_world
    (Lockdown (Lockdown.Usbmux (UsbmuxTypes.EIo refused))) run_fails.2) as [H|H];
    [reflexivity|vm_eq|exfalso; vm_compute in H; discriminate|exact H].
Defined.

Lemma wait_for_daemon_ends_witness : (wait_for_daemon (toy_world [])).1 = Ok tt.
Proof.
  apply (proj2 (proj2 (wait_for_daemon_ends (toy_world []))) daemon_from 1000); [| |vm_compute; discriminate].
  - intros w1 Hw. unfold unix_connect, os. rewrite bool_decide_true by done. unfold daemon_connect. cbn in Hw |- *.
    apply Z.leb_le in Hw. by rewrite Hw.
  - intros w1. unfold unix_connect, os. rewrite bool_decide_true by done. cbn. lia.
Defined.

Definition catalogue_says : stream :=
  idle [RData (Lockdown.ld_frame (PDict ["Status" =>> PString "Ok"])); RData [x2a]].
Lemma daemon_exchange_result_witness :
  ∃ r1, daemon_exchange "u1" "_rsd" catalogue_says =
      (Ok tt, append_tx (Lockdown.ld_frame (daemon_request "u1" "_rsd")) (set_rx r1 catalogue_says)) ∧
    delivers r1 [x2a] [].
Proof.
  destruct (daemon_exchange_result "u1" "_rsd" catalogue_says
    (lenZ (xml (PDict ["Status" =>> PString "Ok"]))) (xml (PDict ["Status" =>> PString "Ok"])) [x2a] [])
    as (r1 & -> & Hd); [..|exists r1; split; [f_equal; vm_compute; reflexivity|exact Hd]].
  - reflexivity.
  - split; vm_compute; reflexivity.
  - split; vm_compute; [discriminate|reflexivity].
  - apply (delivers_pieces [Lockdown.ld_frame (PDict ["Status" =>> PString "Ok"]); [x2a]] []).
    repeat constructor; vm_compute; discriminate.
  - vm_compute. reflexivity.
Defined.

(** A first message that is no announcement, then the announcement, then data. *)
Definition checkin_reply : list byte := xml (PDict ["Request" =>> PString "RSDCheckin"]).
Definition start_message : list byte := xml (PDict ["Request" =>> PString "StartService"]).
Definition shim_says : stream := idle [RData (raw_frame checkin_reply); RData (raw_frame start_message); RData [x2a]].
Lemma shim_checkin_done_witness :
  ∃ r1, shim_checkin shim_says = (Ok tt, append_tx (raw_frame checkin_text) (set_rx r1 shim_says)) ∧
    delivers r1 [x2a] [].
Proof.
  apply (shim_checkin_done shim_says [checkin_reply; start_message] [x2a] []).
  - reflexivity.
  - apply seq_skip; [vm_compute; reflexivity|]. apply seq_start. vm_compute. reflexivity.
  - repeat constructor; vm_compute; reflexivity.
  - apply (delivers_pieces [raw_frame checkin_reply; raw_frame start_message; [x2a]] []).
    repeat constructor; vm_compute; discriminate.
Defined.
End witnesses.
