(* ===== verification/Daemon.v ===== *)
(** * The tunnel daemon ([src/bin/ios/cmd/tunnel.rs])

    One process holds the tunnels of all devices in a map behind a mutex and
    serves each client on a thread of its own, while another thread removes the
    tunnels of devices that leave.  A client is served in phases between which
    other threads can run: every use of the map is one phase, since the code
    holds the lock for that long, and so is the work between two uses.  The
    [HashMap] is the list of its entries in iteration order. *)

From stdpp Require Import gmap.
From S2P Require Import Prelude RustStd Io Plist Os Version CdTunnel RpCredentials Tunnel DeviceSession.
From S2P Require UsbmuxTypes Rsd Lockdown.

Definition PID_PATH : string := "/tmp/ios-rsd.pid".

(** [anyhow::Error]: the contexts, outermost first, and the cause. *)
Abbreviation anyhow := (list message).

(** [format!("{e:#}")] *)
Fixpoint chain_fmt (e : anyhow) : message :=
  match e with
  | [] => msg0 ""
  | [m] => m
  | m :: e => Msg "{}: {}" [FDisplay m; FDisplay (chain_fmt e)]
  end.
(** [.context(t)] on an error that has a [Display] *)
Definition ctx {S E A} (t : message) (fmt : E → message) (m : ST S E A) : ST S anyhow A :=
  smap_err (λ e, [t; fmt e]) m.
Definition io_fmt (e : io_error) : message := Msg "{e}" [FStr (what e)].
Definition any_io {S A} (m : ST S io_error A) : ST S anyhow A := smap_err (λ e, [io_fmt e]) m.

(** ** Framing *)
Section framing.
Context `{PL : PlistLib}.

Definition send_plist (val : pval) : ST stream anyhow unit :=
  let! body := lift (ok_or (to_writer_xml val) [msg0 "{e}"]) in
  any_io (write_all (be_bytes 4 (wrap 32 (lenZ body)))) ;;;
  any_io (write_all body) ;;;
  any_io flush.

Definition dm_read_exact (n : Z) : ST stream anyhow (list byte) :=
  read_exact (λ e, [io_fmt e]) [msg0 "unexpected EOF"] n.

Definition recv_plist : ST stream anyhow pval :=
  let! len_buf := dm_read_exact 4 in
  let n := be_val len_buf in
  if (0 <? n) && (n <? 1048576) then
    let! body := dm_read_exact n in
    lift (ok_or (from_bytes body) [msg0 "{e}"])
  else sfail [Msg "bad plist length {n}" [FNum n]].

Definition ok_response : pval := PDict (dict ["Status" =>> PString "Ok"]).
Definition err_response (msg : string) : pval :=
  PDict (dict ["Status" =>> PString "Error"; "Error" =>> PString msg]).
Definition send_ok : ST stream anyhow unit := send_plist ok_response.
Definition send_err (msg : string) : ST stream anyhow unit := send_plist (err_response msg).

(** [rsd_checkin] *)
Definition dm_rsd_checkin : ST stream anyhow unit :=
  any_io (write_all (be_bytes 4 (wrap 32 (lenZ Rsd.checkin_plist)))) ;;;
  any_io (write_all Rsd.checkin_plist) ;;;
  any_io flush ;;;
  await_start dm_read_exact dm_read_exact 4.
End framing.

(** [proxy]: both directions until their end, [io::copy] with its buffer of
    8 KiB.  The directions share nothing, so the threads are run in turn. *)
Definition proxy (ipc smc : stream) : option (stream * stream) :=
  '(ipc, smc) ← Rsd.copy_half_fuel true 8192 (S (rx_size (rx ipc))) (ipc, smc);
  '(smc, ipc) ← Rsd.copy_half_fuel true 8192 (S (rx_size (rx smc))) (smc, ipc);
  Some (ipc, smc).

Section daemon.
Context `{BuildProfile} `{PL : PlistLib} `{T : Lockdown.Tls} `{SJ : SerdeJson}
  {W : Type} `{OS : Os W} `{FS : Files W} `{TS : TunnelStack W} `{Y : Sys W}.

Record DeviceTunnel : Type := MkDeviceTunnel {
  dt_tunnel : stack;
  dt_services : list (string * Rsd.ServiceEntry);
  dt_device_id : Z
}.
Definition State : Type := list (string * DeviceTunnel).

(** ** What a thread does with the map: one critical section each *)

(** [ensure_tunnel]'s first look *)
Definition has_tunnel (udid : string) (st : State) : bool :=
  match al_lookup udid st with Some _ => true | None => false end.
(** [map.entry(udid).or_insert(dt)] *)
Definition or_insert (udid : string) (dt : DeviceTunnel) (st : State) : State :=
  if has_tunnel udid st then st else al_insert udid dt st.
(** [map.retain(..)] for a device that has left *)
Definition detach (id : Z) (st : State) : State :=
  filter (λ kv, dt_device_id kv.2 ≠ id) st.
Definition list_response (st : State) : pval :=
  PDict (dict ["Status" =>> PString "Ok";
               "Devices" =>> PArray ((λ kv, PDict (dict ["UDID" =>> PString kv.1;
                  "Services" =>> PInt (swrap 64 (lenZ (dt_services kv.2)))])) <$> st)]).

(** The work of [ensure_tunnel] between its two critical sections. *)
Definition make_tunnel (udid : string) : ST W anyhow DeviceTunnel :=
  let! m := ctx (msg0 "usbmux open") (λ e, UsbmuxTypes.Error_fmt (UsbmuxTypes.EIo e)) mux_connect in
  let! (devices, _) := srun (ctx (msg0 "list devices") UsbmuxTypes.Error_fmt
                              UsbmuxConn.conn_list_devices) (UsbmuxConn.from_stream (mux_stream m)) in
  let! device := lift (ok_or (find_device udid devices)
                         [Msg "device {udid} not connected" [FStr udid]]) in
  let device_id := UsbmuxTypes.device_id device in
  let! version := ctx (msg0 "detect version") Error_fmt (detect_version device_id) in
  let! t := ctx (msg0 "CDTunnel") Error_fmt
              (connect_via_lockdown_udid device_id (Some udid) version) in
  let! rsd := ctx (msg0 "RSD handshake") Error_fmt (tunnel_connect_rsd t) in
  sret (MkDeviceTunnel (t_stack t) (Rsd.services rsd) device_id).

(** ** Serving a client *)

Inductive phase : Type :=
  | Reading
  | Ensure (udid service : string)
  | Making (udid service : string)
  | Inserting (udid service : string) (dt : DeviceTunnel)
  | Serving (udid service : string)
  | PortKnown (udid service : string) (port : Z)
  | Connecting (tunnel : stack) (port : Z) (shim : bool)
  | Proxying (smc : stream)
  | Listing
  | Shutdown
  | Finished (r : anyhow + unit)
  | Panicked
  | Exited.

Record client : Type := MkClient { cl_ipc : stream; cl_phase : phase }.

(** [service.ends_with(".shim.remote")] *)
Definition ends_with (suffix s : string) : bool :=
  let l := bytes_of s in
  bool_decide (drop (length l - length (bytes_of suffix)) l = bytes_of suffix).

(** The request, as far as [handle_client] looks at it. *)
Definition classify_request (dict : dictionary) : phase :=
  let rt := dget "Request" dict ≫= as_string in
  if bool_decide (rt = Some "List"%string) then Listing
  else if bool_decide (rt = Some "Shutdown"%string) then Shutdown
  else
    match dget "UDID" dict ≫= as_string with
    | None => Finished (inl [msg0 "no UDID"])
    | Some udid =>
        match dget "Service" dict ≫= as_string with
        | None => Finished (inl [msg0 "no Service"])
        | Some service => Ensure udid service
        end
    end.

(** A response that ends the thread. *)
Definition respond (m : ST stream anyhow unit) : ST (W * State * stream) anyhow phase :=
  on_local m ;;; sret (Finished (inr tt)).

(** One phase of the thread; an error is the result of [handle_client]. *)
Definition client_step (p : phase) : ST (W * State * stream) anyhow phase :=
  match p with
  | Reading =>
      let! r := on_local (stry recv_plist) in
      match r with
      | inl _ => sret (Finished (inr tt))
      | inr req =>
          let! dict := lift (ok_or (as_dictionary req) [msg0 "request not a dict"]) in
          sret (classify_request dict)
      end
  | Ensure udid service =>
      let! s := sget in
      sret (if has_tunnel udid s.1.2 then Serving udid service else Making udid service)
  | Making udid service =>
      let! r := on_outer (on_outer (stry (make_tunnel udid))) in
      match r with
      | inr dt => sret (Inserting udid service dt)
      | inl e => respond (send_err (to_string (chain_fmt e)))
      end
  | Inserting udid service dt =>
      on_outer (smodify (λ ws, (ws.1, or_insert udid dt ws.2))) ;;;
      sret (Serving udid service)
  | Serving udid service =>
      let! s := sget in
      match al_lookup udid s.1.2 with
      | None => sfail [msg0 "tunnel vanished"]
      | Some dt =>
          if bool_decide (service = "_rsd"%string) then
            sret (Connecting (dt_tunnel dt) (server_rsd_port (stack_params (dt_tunnel dt))) false)
          else
            match al_lookup service (dt_services dt) with
            | Some e => sret (PortKnown udid service (Rsd.port e))
            | None =>
                respond (send_err (to_string
                  (Msg "service '{service}' not in RSD catalog" [FStr service])))
            end
      end
  | PortKnown udid service port =>
      let! s := sget in
      match al_lookup udid s.1.2 with
      | None => sfail [msg0 "tunnel vanished"]
      | Some dt => sret (Connecting (dt_tunnel dt) port (ends_with ".shim.remote" service))
      end
  | Connecting tunnel port shim =>
      let! r := on_outer (on_outer
                  (stry (stack_connect tunnel (server_addr (stack_params tunnel)) port))) in
      match r with
      | inl e => respond (send_err (to_string (Error_fmt e)))
      | inr smc =>
          let! (r, smc) := srun (if (shim : bool) then stry dm_rsd_checkin else sret (inr tt)) smc in
          match r with
          | inl e =>
              respond (send_err (to_string (Msg "RSDCheckin: {e}" [FDisplay (hd (msg0 "") e)])))
          | inr _ => on_local send_ok ;;; sret (Proxying smc)
          end
      end
  | Proxying smc =>
      let! s := sget in
      match proxy s.2 smc with
      | Some (ipc, _) => on_local (smodify (λ _, ipc)) ;;; sret (Finished (inr tt))
      | None => lift OutOfFuel
      end
  | Listing =>
      let! s := sget in
      respond (send_plist (list_response s.1.2))
  | Shutdown =>
      on_local (signore send_ok) ;;;
      on_outer (on_outer (signore (file_remove DAEMON_SOCKET))) ;;;
      on_outer (on_outer (signore (file_remove PID_PATH))) ;;;
      sret Exited
  | _ => sret p
  end.

(** ** The process

    The main thread accepts connections, a client thread takes its next phase,
    the watcher handles a detached device.  [Exited] stands for the end of the
    process; a thread that panics holds no lock. *)

Record daemon : Type := MkDaemon {
  d_world : W;
  d_state : State;
  d_clients : gmap nat client
}.

Inductive action : Type :=
  | AConnect (t : nat) (ipc : stream)
  | AStep (t : nat)
  | ADetach (id : Z).

Definition finished (p : phase) : bool :=
  match p with Finished _ | Panicked | Exited => true | _ => false end.

Definition set_client (t : nat) (c : client) (d : daemon) : daemon :=
  MkDaemon (d_world d) (d_state d) (<[t := c]> (d_clients d)).

Definition thread_step (t : nat) (c : client) (d : daemon) : option daemon :=
  if finished (cl_phase c) then None
  else
    let '(r, ((w, st), ipc)) := client_step (cl_phase c) ((d_world d, d_state d), cl_ipc c) in
    let next p := Some (MkDaemon w st (<[t := MkClient ipc p]> (d_clients d))) in
    match r with
    | Ok p => next p
    | Err e => next (Finished (inl e))
    | Panic => next Panicked
    | OutOfFuel => None
    end.

Definition daemon_step (a : action) (d : daemon) : option daemon :=
  match a with
  | AConnect t ipc =>
      match d_clients d !! t with
      | None => Some (set_client t (MkClient ipc Reading) d)
      | Some _ => None
      end
  | AStep t => c ← d_clients d !! t; thread_step t c d
  | ADetach id => Some (MkDaemon (d_world d) (detach id (d_state d)) (d_clients d))
  end.

Fixpoint run (l : list action) (d : daemon) : option daemon :=
  match l with
  | [] => Some d
  | a :: l => d ← daemon_step a d; run l d
  end.

(** What one event of usbmuxd makes the watcher do. *)
Definition watch_event (ev : UsbmuxTypes.Event) : option action :=
  match ev with
  | UsbmuxTypes.DeviceDetached id => Some (ADetach id)
  | _ => None
  end.

(** ** The commands of the client *)

Definition dm_connect (t : string) : ST W anyhow stream :=
  ctx (msg0 t) io_fmt (unix_connect DAEMON_SOCKET).

(** [start]; the result says whether the daemon was running already. *)
Definition dm_start : ST W anyhow bool :=
  let! up := daemon_is_running in
  if (up : bool) then sret true
  else
    let! exe := ctx (msg0 "current_exe") io_fmt current_exe in
    ctx (msg0 "spawn daemon") io_fmt (spawn exe ["tunnel"; "daemon"]%string) ;;;
    smap_err (λ _, [msg0 "daemon did not start within 15 s"]) wait_for_daemon ;;;
    sret false.

Definition dm_stop : ST W anyhow unit :=
  let! s := dm_connect "daemon not running" in
  let! _ := srun (send_plist (PDict (dict ["Request" =>> PString "Shutdown"]))) s in
  sret tt.

Definition list_entry (entry : pval) : option (string * Z) :=
  dd ← as_dictionary entry;
  Some (default "?"%string (dget "UDID" dd ≫= as_string),
        default 0 (dget "Services" dd ≫= as_unsigned_integer)).
Definition list_devices (resp : pval) : outcome anyhow (list pval) :=
  let? dict := ok_or (as_dictionary resp) [msg0 "bad response"] in
  if bool_decide (dget "Status" dict ≫= as_string = Some "Ok"%string) then
    Ok (default [] (dget "Devices" dict ≫= as_array))
  else
    Err [Msg "daemon error: {err}" [FStr (default "unknown"%string (dget "Error" dict ≫= as_string))]].
Definition list_request : pval := PDict (dict ["Request" =>> PString "List"]).
(** The devices of the response, and what [list] reads of each *)
Definition dm_devices : ST W anyhow (list pval) :=
  let! s := dm_connect "daemon not running (start with: ios tunnel start)" in
  let! (_, s) := srun (send_plist list_request) s in
  let! (resp, _) := srun recv_plist s in
  lift (list_devices resp).
Definition dm_list : ST W anyhow (list (string * Z)) :=
  let! devices := dm_devices in sret (omap list_entry devices).

(** ** The process

    [daemon]: the socket and the empty map, the watcher's connection to usbmuxd,
    then the threads in whatever order they get their turns. *)

(** What the listener accepts, a thread for each; an error is passed over. *)
Fixpoint accepted (t : nat) (incoming : list (io_error + stream)) : list action :=
  match incoming with
  | [] => []
  | inl _ :: incoming => accepted t incoming
  | inr ipc :: incoming => AConnect t ipc :: accepted (S t) incoming
  end.

(** What the watcher does with the events of its connection, until it fails. *)
Fixpoint watch_loop (fuel : nat) : ST UsbmuxConn.Conn anyhow (list action) :=
  let! r := stry UsbmuxConn.listener_next in
  match r with
  | inl _ => sret []
  | inr ev =>
      match fuel with
      | O => lift OutOfFuel
      | S fuel =>
          let! more := watch_loop fuel in
          sret (match watch_event ev with Some a => [a] | None => [] end ++ more)
      end
  end.
Definition watch_connection : ST UsbmuxConn.Conn anyhow (list action) := λ c,
  watch_loop (UsbmuxConn.pending_size c) c.
Definition watch_devices : ST W anyhow (list action) :=
  let! r := stry mux_connect in
  match r with
  | inl _ => sret []
  | inr m =>
      let! (r, conn) := srun (stry UsbmuxConn.conn_listen) (UsbmuxConn.from_stream (mux_stream m)) in
      match r with
      | inl _ => sret []
      | inr _ => let! (l, _) := srun watch_connection conn in sret l
      end
  end.

(** [unix_bind]: the listener on [DAEMON_SOCKET] *)
Definition daemon_open (unix_bind : ST W io_error unit) : ST W anyhow daemon :=
  signore (file_write PID_PATH (dec process_id)) ;;;
  signore (file_remove DAEMON_SOCKET) ;;;
  ctx (Msg "bind {DAEMON_SOCKET}" [FStr DAEMON_SOCKET]) io_fmt unix_bind ;;;
  λ w, (Ok (MkDaemon w [] ∅), w).

(** The order of a schedule is free but for that of each thread. *)
Definition is_connect (a : action) : bool := match a with AConnect _ _ => true | _ => false end.
Definition is_detach (a : action) : bool := match a with ADetach _ => true | _ => false end.
Definition schedules (incoming : list (io_error + stream)) (detaches l : list action) : Prop :=
  filter is_connect l = accepted 0 incoming ∧ filter is_detach l = detaches.
(** The daemon for as long as a schedule lasts *)
Definition dm_daemon (unix_bind : ST W io_error unit) (sched : daemon → list action) : ST W anyhow unit :=
  let! d := daemon_open unix_bind in
  λ w, match run (sched d) d with
       | Some d => (Ok tt, d_world d)
       | None => (OutOfFuel, w)
       end.
End daemon.

(** ** The watcher

    What it does is one detachment for every device that usbmuxd reports as gone,
    in that order. *)
Section watcher.
Context `{BuildProfile} `{PL : PlistLib} `{T : Lockdown.Tls} `{SJ : SerdeJson}
  {W : Type} `{OS : Os W} `{FS : Files W} `{TS : TunnelStack W} `{Y : Sys W}.
Import UsbmuxConn.

Lemma watch_loop_detaches fuel c kf :
  (length (told kf) ≤ fuel)%nat → sees c kf [] → no_refusal kf →
  ∃ c', watch_loop fuel c = (Ok (omap watch_event (told kf)), c').
Proof.
  revert c kf. induction fuel as [|fuel IH]; intros c kf Hf Hs Hr;
    pose proof (listener_next_told c kf Hs Hr) as Hn;
    destruct (told kf) as [|e es]; cbn [watch_loop]; try (cbn in Hf; lia).
  1, 2: destruct Hn as (c' & Hn); exists c'; unfold sbind, stry; by rewrite Hn.
  destruct Hn as (c' & kf' & Hn & Hs' & Hr' & Ht).
  erewrite sbind_ok by (unfold stry; by rewrite Hn). cbv beta iota.
  destruct (IH c' kf') as (c2 & Hc2); [rewrite Ht; cbn in Hf; lia|done|done|].
  rewrite Ht in Hc2. erewrite sbind_ok by exact Hc2. exists c2. cbn. by destruct (watch_event e).
Qed.
Lemma omap_told (es : list UsbmuxTypes.Event) : omap watch_event (filter presence es) = omap watch_event es.
Proof.
  induction es as [|e es IH]; [done|].
  destruct e; first [rewrite filter_cons_True by done|rewrite filter_cons_False by (by intros [])];
    cbn; by rewrite <-IH.
Qed.
Lemma watch_detaches c kf :
  sees c kf [] → no_refusal kf →
  ∃ c', watch_connection c = (Ok (omap watch_event (UsbmuxCodec.c_events kf)), c').
Proof.
  intros Hs Hr. unfold watch_connection. rewrite <-omap_told.
  apply watch_loop_detaches; [by eapply told_size|done|done].
Qed.

(** The daemon starts with no tunnel and no client, on a socket of its own. *)
Lemma daemon_open_empty unix_bind (w : W) d w' :
  daemon_open unix_bind w = (Ok d, w') → d = MkDaemon w' [] ∅.
Proof.
  unfold daemon_open. intros ([] & w1 & _ & ([] & w2 & _ & ([] & w3 & _ & [= <- <-])%sbind_inv)%sbind_inv)%sbind_inv.
  done.
Qed.
End watcher.

(** ** The map under any interleaving *)
Section interleaving.
Context `{BuildProfile} `{PL : PlistLib} `{T : Lockdown.Tls} `{SJ : SerdeJson}
  {W : Type} `{OS : Os W} `{FS : Files W} `{TS : TunnelStack W} `{Y : Sys W}.
Implicit Types (d : daemon (W:=W)) (st : State (W:=W)).

Definition state_of (s : W * State (W:=W) * stream) : State := s.1.2.

Lemma keeps_srun {S0 S1 E A B} (f : S0 → B) (m : ST S1 E A) s : keeps f (srun m s).
Proof. intros w. unfold srun. by destruct (m s) as [[]]. Qed.
Lemma keeps_world {E A} (m : ST W E A) : keeps state_of (on_outer (on_outer m)).
Proof. intros [[w st] k]. unfold on_outer, zoom. cbn. by destruct (m w). Qed.
Lemma keeps_ipc {E A} (m : ST stream E A) : keeps state_of (on_local m).
Proof. by apply keeps_zoom. Qed.
#[local] Hint Resolve keeps_srun keeps_world keeps_ipc : keeps.

(** Only one phase changes the map. *)
Lemma client_step_state p s :
  state_of (client_step p s).2 =
    match p with Inserting udid _ dt => or_insert udid dt (state_of s) | _ => state_of s end.
Proof.
  revert s.
  assert (∀ p, match p with Inserting _ _ _ => True | _ => keeps state_of (client_step p) end) as Hk.
  { clear p. intros []; try done; unfold client_step, respond; solve_keeps. }
  intros s. specialize (Hk p). destruct p; try apply Hk. by destruct s as [[w st] k].
Qed.

Lemma or_insert_lookup udid udid' dt dt' st :
  al_lookup udid st = Some dt → al_lookup udid (or_insert udid' dt' st) = Some dt.
Proof.
  intros Hl. unfold or_insert, has_tunnel.
  destruct (al_lookup udid' st) eqn:Hl'; [done|]. rewrite al_lookup_insert_ne; [done|congruence].
Qed.
Lemma detach_lookup id udid dt st :
  al_lookup udid st = Some dt → dt_device_id dt ≠ id → al_lookup udid (detach id st) = Some dt.
Proof.
  intros Hl Hid. unfold detach, State in *. induction st as [|[k v] st IH]; [done|]. cbn [al_lookup fst] in Hl.
  rewrite filter_cons. cbn [snd]. repeat case_decide; simplify_eq; cbn [al_lookup fst];
    rewrite ?decide_True, ?decide_False by done; auto.
Qed.

Lemma thread_step_inv t c d d' :
  thread_step t c d = Some d' →
  ∃ r w ipc p, client_step (cl_phase c) ((d_world d, d_state d), cl_ipc c) =
      (r, ((w, d_state d'), ipc)) ∧
    (r = Ok p ∨ p = Panicked ∨ ∃ e, p = Finished (inl e)) ∧
    d_clients d' = <[t := MkClient ipc p]> (d_clients d) ∧
    d_state d' = match cl_phase c with
                 | Inserting udid _ dt => or_insert udid dt (d_state d)
                 | _ => d_state d
                 end.
Proof.
  unfold thread_step. destruct (finished (cl_phase c)); [done|].
  pose proof (client_step_state (cl_phase c) ((d_world d, d_state d), cl_ipc c)) as Hs.
  destruct (client_step (cl_phase c) _) as [r [[w st] ipc]]. cbn [state_of snd fst] in Hs.
  destruct r as [p|e| |]; intros [= <-]; cbn [d_state d_clients].
  - exists (Ok p), w, ipc, p. eauto 10.
  - exists (Err e), w, ipc, (Finished (inl e)). eauto 10.
  - exists Panic, w, ipc, Panicked. eauto 10.
Qed.

(** One action keeps the tunnel of a device that is not detached. *)
Lemma daemon_step_keeps a d d' udid dt :
  daemon_step a d = Some d' → a ≠ ADetach (dt_device_id dt) →
  al_lookup udid (d_state d) = Some dt → al_lookup udid (d_state d') = Some dt.
Proof.
  intros Hs Ha Hl. destruct a as [t ipc|t|id]; cbn [daemon_step] in Hs.
  - destruct (d_clients d !! t); by simplify_eq.
  - destruct (d_clients d !! t) as [c|]; [|done].
    apply thread_step_inv in Hs as (r & w & ipc & p & _ & _ & _ & ->).
    destruct (cl_phase c); try done. by apply or_insert_lookup.
  - injection Hs as <-. apply detach_lookup; congruence.
Qed.

(** The first tunnel wins: once a device has a tunnel, every later lookup gives
    that tunnel, whatever clients do - connecting, racing to make another one,
    failing - until the device is detached. *)
Lemma first_tunnel_wins l d d' udid dt :
  run l d = Some d' → ADetach (dt_device_id dt) ∉ l →
  al_lookup udid (d_state d) = Some dt → al_lookup udid (d_state d') = Some dt.
Proof.
  revert d. induction l as [|a l IH]; intros d Hr Hl Hd; cbn [run] in Hr; [by simplify_eq|].
  apply not_elem_of_cons in Hl as [Ha Hl].
  destruct (daemon_step a d) as [d1|] eqn:Hs; [|done]. eapply IH; [done|done|].
  eapply daemon_step_keeps; [done|congruence|done].
Qed.

(** A response ends the thread. *)
Lemma respond_inv m s p s' : respond m s = (Ok p, s') → p = Finished (inr tt).
Proof. unfold respond. intros ([] & s1 & _ & Hr)%sbind_inv. by injection Hr as <- _. Qed.

(** ** Every client is served in finitely many steps *)

Lemma proxy_ends ipc smc : proxy ipc smc ≠ None.
Proof.
  unfold proxy. pose proof (Rsd.copy_half_fuel_ends true 8192 ipc smc) as H1.
  destruct (Rsd.copy_half_fuel _ _ _ (ipc, smc)) as [[ipc1 smc1]|]; [|by destruct H1].
  cbn [mbind option_bind]. pose proof (Rsd.copy_half_fuel_ends true 8192 smc1 ipc1) as H2.
  destruct (Rsd.copy_half_fuel _ _ _ (smc1, ipc1)) as [[]|]; [done|by destruct H2].
Qed.

Definition rank (p : phase (W:=W)) : nat :=
  match p with
  | Reading => 8
  | Ensure _ _ => 7
  | Making _ _ => 6
  | Inserting _ _ _ => 5
  | Serving _ _ => 4
  | PortKnown _ _ _ => 3
  | Connecting _ _ _ => 2
  | Proxying _ | Listing | Shutdown => 1
  | Finished _ | Panicked | Exited => 0
  end.

Lemma client_step_rank p s q s' :
  finished p = false → client_step p s = (Ok q, s') → (rank q < rank p)%nat.
Proof.
  intros Hf Hs.
  destruct p as [|u sv|u sv|u sv dt|u sv|u sv port|tun port shim|smc| | |r| |]; try done;
    cbn [client_step rank] in *.
  - apply sbind_inv in Hs as ([e|req] & s1 & _ & Hs); [injection Hs as <- _; cbn; lia|].
    apply sbind_inv in Hs as (req' & s2 & _ & Hs). injection Hs as <- _.
    unfold classify_request. repeat case_match; cbn; lia.
  - unfold sbind, sget in Hs. injection Hs as <- _. destruct (has_tunnel _ _); cbn; lia.
  - apply sbind_inv in Hs as ([e|dt] & s1 & _ & Hs); [|injection Hs as <- _; cbn; lia].
    apply respond_inv in Hs as ->. cbn. lia.
  - injection Hs as <- _. cbn. lia.
  - unfold sbind at 1, sget in Hs. destruct (al_lookup u _) as [dt|]; [|done].
    destruct (bool_decide _); [injection Hs as <- _; cbn; lia|].
    destruct (al_lookup sv _) as [e|]; [injection Hs as <- _; cbn; lia|].
    apply respond_inv in Hs as ->. cbn. lia.
  - unfold sbind at 1, sget in Hs. destruct (al_lookup u _) as [dt|]; [|done].
    injection Hs as <- _. cbn. lia.
  - apply sbind_inv in Hs as ([e|smc] & s1 & _ & Hs); [apply respond_inv in Hs as ->; cbn; lia|].
    apply sbind_inv in Hs as ([[e|[]] k] & s2 & _ & Hs); [apply respond_inv in Hs as ->; cbn; lia|].
    apply sbind_inv in Hs as ([] & s3 & _ & Hs). injection Hs as <- _. cbn. lia.
  - unfold sbind at 1, sget in Hs. destruct (proxy _ _) as [[a b]|]; [|done].
    apply sbind_inv in Hs as ([] & s1 & _ & Hs). injection Hs as <- _. cbn. lia.
  - unfold sbind at 1, sget in Hs. apply respond_inv in Hs as ->. cbn. lia.
  - apply sbind_inv in Hs as ([] & s1 & _ & Hs). apply sbind_inv in Hs as ([] & s2 & _ & Hs).
    apply sbind_inv in Hs as ([] & s3 & _ & Hs). injection Hs as <- _. cbn. lia.
Qed.

Definition is_step (t : nat) (a : action) : bool :=
  match a with AStep t' => bool_decide (t' = t) | _ => false end.
Fixpoint steps_of (t : nat) (l : list action) : nat :=
  match l with
  | [] => 0
  | a :: l => (if is_step t a then 1 else 0) + steps_of t l
  end.

Definition rank_of (t : nat) d : nat :=
  match d_clients d !! t with Some c => rank (cl_phase c) | None => 0 end.

Lemma daemon_step_rank a d d' t c :
  d_clients d !! t = Some c → daemon_step a d = Some d' →
  ∃ c', d_clients d' !! t = Some c' ∧
    ((if is_step t a then 1 else 0) + rank (cl_phase c') ≤ rank (cl_phase c))%nat.
Proof.
  intros Ht Hs. destruct a as [t' ipc|t'|id]; cbn [daemon_step is_step] in *.
  - destruct (d_clients d !! t') eqn:Ht'; [done|]. injection Hs as <-. exists c.
    split; [|lia]. cbn. rewrite lookup_insert_ne; congruence.
  - destruct (d_clients d !! t') as [c0|] eqn:Ht'; [|done]. cbn [mbind option_bind] in Hs.
    assert (finished (cl_phase c0) = false) as Hf.
    { unfold thread_step in Hs. by destruct (finished (cl_phase c0)). }
    apply thread_step_inv in Hs as (r & w & ipc & p & Hstep & Hr & -> & _).
    destruct (decide (t' = t)) as [->|Hne].
    + rewrite bool_decide_true by done. assert (c0 = c) as -> by congruence.
      eexists. split; [apply lookup_insert_eq|]. cbn [cl_phase].
      destruct Hr as [->|Hp]; [apply client_step_rank in Hstep; [lia|done]|].
      assert (rank p = 0)%nat as -> by (by destruct Hp as [->|(e & ->)]).
      destruct (cl_phase c); cbn in *; try done; lia.
    + rewrite bool_decide_false by done. exists c. rewrite lookup_insert_ne by done. split; [done|lia].
  - injection Hs as <-. by exists c.
Qed.

(** The thread of a client takes at most eight steps, whatever the other threads
    do between them; the last of them is the relay, which ends on all streams. *)
Theorem client_steps_bounded l d d' t k :
  run l d = Some d' → d_clients d !! t = Some (MkClient k Reading) →
  (steps_of t l ≤ 8)%nat ∧ ∀ ipc smc, proxy ipc smc ≠ None.
Proof.
  intros Hr Ht. split; [|apply proxy_ends].
  assert (∀ c, d_clients d !! t = Some c → (steps_of t l ≤ rank (cl_phase c))%nat) as Hgen;
    [|apply (Hgen _ Ht)].
  clear Ht. revert d Hr. induction l as [|a l IH]; intros d Hr c Hc; cbn [steps_of]; [lia|].
  cbn [run] in Hr. destruct (daemon_step a d) as [d1|] eqn:Hs; [|done].
  destruct (daemon_step_rank a d d1 t c Hc Hs) as (c' & Hc' & Hle).
  specialize (IH d1 Hr c' Hc'). lia.
Qed.

Lemma daemon_step_run t k p d q w st k' :
  d_clients d !! t = Some (MkClient k p) → finished p = false →
  client_step p ((d_world d, d_state d), k) = (Ok q, ((w, st), k')) →
  daemon_step (AStep t) d = Some (MkDaemon w st (<[t := MkClient k' q]> (d_clients d))).
Proof.
  intros Ht Hf Hs. cbn [daemon_step]. rewrite Ht. cbn [mbind option_bind].
  unfold thread_step. cbn [cl_phase cl_ipc]. by rewrite Hf, Hs.
Qed.

Lemma run_step a l d d1 : daemon_step a d = Some d1 → run (a :: l) d = run l d1.
Proof. intros Hs. cbn [run]. by rewrite Hs. Qed.

(** Between the two looks of one client at the map a device can leave and come
    back: the client then takes the port from the catalogue of the old tunnel and
    connects to it through the new one. *)
Theorem stale_port w udid service dt1 dt2 e1 t1 t2 k1 k2 :
  t1 ≠ t2 → service ≠ "_rsd"%string →
  al_lookup service (dt_services dt1) = Some e1 →
  let d := MkDaemon w [(udid, dt1)]
             (<[t1 := MkClient k1 (Serving udid service)]>
               {[t2 := MkClient k2 (Inserting udid service dt2)]}) in
  ∃ d', run [AStep t1; ADetach (dt_device_id dt1); AStep t2; AStep t1] d = Some d' ∧
    al_lookup udid (d_state d') = Some dt2 ∧
    cl_phase <$> d_clients d' !! t1 =
      Some (Connecting (dt_tunnel dt2) (Rsd.port e1) (ends_with ".shim.remote" service)).
Proof.
  intros Ht Hsv He d. subst d.
  assert (detach (dt_device_id dt1) [(udid, dt1)] = []) as Hdetach.
  { unfold detach, State. by rewrite filter_cons_False by (cbn; auto). }
  erewrite run_step; [|eapply daemon_step_run; [apply lookup_insert_eq|done|]].
  2: { cbn [client_step]. unfold sbind, sget. cbn [snd fst d_state al_lookup].
       rewrite decide_True by done. rewrite bool_decide_false by done. by rewrite He. }
  erewrite run_step by reflexivity. cbn [d_state]. rewrite Hdetach.
  erewrite run_step; [|eapply daemon_step_run;
    [cbn [d_clients]; rewrite !lookup_insert_ne by done; apply lookup_singleton_eq|done|reflexivity]].
  change (or_insert udid dt2 _) with [(udid, dt2)]. cbn [d_state d_clients d_world].
  erewrite run_step; [|eapply daemon_step_run;
    [cbn [d_clients]; rewrite lookup_insert_ne by done; apply lookup_insert_eq|done|]].
  2: { cbn [client_step]. unfold sbind, sget. cbn [snd fst d_state al_lookup].
       by rewrite decide_True. }
  eexists. split; [done|]. cbn [d_state d_clients]. rewrite lookup_insert_eq. split; [|done].
  cbn. by rewrite decide_True.
Qed.
End interleaving.

(** ** A client and the daemon together *)
Section together.
Context `{BuildProfile} `{PL : PlistLib} `{PLL : !PlistLaws PL} `{T : Lockdown.Tls} `{SJ : SerdeJson}
  {W : Type} `{OS : Os W} `{FS : Files W} `{TS : TunnelStack W} `{Y : Sys W}.
Notation frame := Lockdown.ld_frame.

(** A value whose text both sides accept. *)
Definition small_frame (v : pval) : Prop := plain v = true ∧ 0 < lenZ (xml v) < 1048576.

Lemma send_plist_ok v k :
  small_frame v → healthy k → send_plist v k = (Ok tt, append_tx (frame v) k).
Proof.
  intros [Hv Hlen] Hk. unfold send_plist, any_io. rewrite (to_writer_xml_plain _ Hv).
  erewrite sbind_ok by reflexivity.
  erewrite sbind_ok by (apply smap_err_ok, write_all_healthy, Hk).
  erewrite sbind_ok by (apply smap_err_ok, write_all_healthy; exact Hk).
  erewrite smap_err_ok by (apply flush_healthy; exact Hk).
  rewrite append_tx_app. unfold frame. rewrite wrap_small by (unfold in_u; lia). done.
Qed.

Lemma recv_plist_ok v k l r :
  small_frame v → delivers (rx k) (frame v ++ l) r →
  ∃ r1, recv_plist k = (Ok v, set_rx r1 k) ∧ delivers r1 l r.
Proof.
  intros [Hv Hlen] Hd. unfold frame in Hd. rewrite <-(assoc_L (++)) in Hd.
  unfold recv_plist, dm_read_exact.
  match goal with |- context [read_exact ?w ?e 4] =>
    destruct (read_exact_delivers w e 4 k _ _ r Hd) as (r1 & Hr1 & Hd1); [len|];
    destruct (read_exact_delivers w e (lenZ (xml v)) (set_rx r1 k) _ _ r Hd1) as (r2 & Hr2 & Hd2); [done|]
  end.
  exists r2. split; [|done]. erewrite sbind_ok by exact Hr1.
  rewrite be_val_be_bytes_small by (unfold in_u; lia).
  rewrite (proj2 (Z.ltb_lt 0 _)), (proj2 (Z.ltb_lt _ 1048576)) by lia. cbn [andb].
  erewrite sbind_ok by exact Hr2. by rewrite from_bytes_xml.
Qed.

(** The port that a service has in the catalogue of a tunnel. *)
Definition service_port (service : string) (dt : DeviceTunnel) : option Z :=
  if bool_decide (service = "_rsd"%string) then Some (server_rsd_port (stack_params (dt_tunnel dt)))
  else Rsd.port <$> al_lookup service (dt_services dt).

(** ** One client from its request on *)
Section one_client.
Variables (st0 : State (W:=W)) (req : dictionary) (udid service : string).
Hypothesis Hreq : small_frame (PDict req).
Hypothesis Hudid : dget "UDID" req ≫= as_string = Some udid.
Hypothesis Hservice : dget "Service" req ≫= as_string = Some service.

(** A tunnel that was there before or that has been made for this device. *)
Definition made (u : string) (dt : DeviceTunnel (W:=W)) : Prop :=
  al_lookup u st0 = Some dt ∨ ∃ w w', make_tunnel u w = (Ok dt, w').
Definition registered (st : State (W:=W)) : Prop := ∀ u dt, al_lookup u st = Some dt → made u dt.

(** What the thread of the client has in hand is what its client has asked for. *)
Definition asked (st : State (W:=W)) (c : client (W:=W)) : Prop :=
  match cl_phase c with
  | Reading => ∃ l r, delivers (rx (cl_ipc c)) (frame (PDict req) ++ l) r
  | Ensure u sv | Making u sv | Inserting u sv _ | Serving u sv => u = udid ∧ sv = service
  | PortKnown u sv port =>
      u = udid ∧ sv = service ∧ service ≠ "_rsd"%string ∧
      ∃ dt, al_lookup udid st = Some dt ∧ service_port service dt = Some port
  | Connecting tunnel port shim =>
      ∃ dt, al_lookup udid st = Some dt ∧ tunnel = dt_tunnel dt ∧
        service_port service dt = Some port ∧ shim = ends_with ".shim.remote" service
  | _ => True
  end.
(** What any thread is about to register has been made for its device. *)
Definition makes (c : client (W:=W)) : Prop :=
  match cl_phase c with Inserting u _ dt => made u dt | _ => True end.

Lemma asked_insert u dt st c : asked st c → asked (or_insert u dt st) c.
Proof.
  unfold asked. destruct (cl_phase c); try done.
  - intros (? & ? & ? & dt' & Hl & Hr). split_and!; [done..|]. exists dt'. split; [by apply or_insert_lookup|done].
  - intros (dt' & Hl & Hr). exists dt'. split; [by apply or_insert_lookup|done].
Qed.
Lemma registered_insert u dt st : made u dt → registered st → registered (or_insert u dt st).
Proof.
  intros Hm Hst u' dt'. unfold or_insert. destruct (has_tunnel u st); [by apply Hst|].
  destruct (decide (u = u')) as [->|Hne].
  - rewrite al_lookup_insert_eq. by intros [= <-].
  - rewrite al_lookup_insert_ne by done. apply Hst.
Qed.

Lemma client_step_makes p s p' s' :
  client_step p s = (Ok p', s') → makes (MkClient s.2 p) → makes (MkClient s'.2 p').
Proof.
  intros Hs Hp. destruct s as [[w st] ipc]. unfold makes in *. cbn [cl_phase snd] in *.
  destruct p as [|u sv|u sv|u sv dt|u sv|u sv port|tun port shim|smc| | |r| |]; cbn [client_step] in Hs;
    try (by injection Hs as <- _).
  - apply sbind_inv in Hs as ([e|rq] & s1 & _ & Hs); [by injection Hs as <- _|].
    apply sbind_inv in Hs as (d & s2 & _ & Hs). injection Hs as <- _.
    unfold classify_request. by repeat case_match.
  - unfold sbind, sget in Hs. injection Hs as <- _. by destruct (has_tunnel _ _).
  - apply sbind_inv in Hs as ([e|dt] & s1 & Hm & Hs); [by apply respond_inv in Hs as ->|].
    injection Hs as <- _. right. apply on_outer_inv in Hm as [Hm _]. apply on_outer_inv in Hm as [Hm _].
    unfold stry in Hm. cbn [fst] in Hm. destruct (make_tunnel u w) as [[dt'|e| |] w1] eqn:E; try done.
    injection Hm as <- _. by exists w, w1.
  - unfold sbind, sget in Hs. cbn [snd fst] in Hs. destruct (al_lookup u st) as [dt|]; [|done].
    destruct (bool_decide (sv = _)); [by injection Hs as <- _|].
    destruct (al_lookup sv _) as [e|]; [by injection Hs as <- _|by apply respond_inv in Hs as ->].
  - unfold sbind, sget in Hs. cbn [snd fst] in Hs. destruct (al_lookup u st); [by injection Hs as <- _|done].
  - apply sbind_inv in Hs as ([e|smc] & s1 & _ & Hs); [by apply respond_inv in Hs as ->|].
    apply sbind_inv in Hs as ([[e|[]] k] & s2 & _ & Hs); [by apply respond_inv in Hs as ->|].
    apply sbind_inv in Hs as ([] & s3 & _ & Hs). by injection Hs as <- _.
  - unfold sbind at 1, sget in Hs. destruct (proxy _ _) as [[a b]|]; [|done].
    apply sbind_inv in Hs as ([] & s1 & _ & Hs). by injection Hs as <- _.
  - unfold sbind at 1, sget in Hs. by apply respond_inv in Hs as ->.
  - apply sbind_inv in Hs as ([] & s1 & _ & Hs). apply sbind_inv in Hs as ([] & s2 & _ & Hs).
    apply sbind_inv in Hs as ([] & s3 & _ & Hs). by injection Hs as <- _.
Qed.

Lemma classify_asked st k : asked st (MkClient k (classify_request req)).
Proof. unfold asked, classify_request. rewrite Hudid, Hservice. by do 2 (case_bool_decide; [done|]). Qed.

Lemma client_step_asked p s p' s' :
  client_step p s = (Ok p', s') → asked (state_of s) (MkClient s.2 p) → asked (state_of s) (MkClient s'.2 p').
Proof.
  intros Hs Hp. destruct s as [[w st] ipc]. unfold state_of in *. cbn [fst snd] in *.
  destruct p as [|u sv|u sv|u sv dt|u sv|u sv port|tun port shim|smc| | |r| |]; cbn [client_step] in Hs;
    unfold asked in Hp; cbn [cl_phase] in Hp; try (by injection Hs as <- _).
  - apply sbind_inv in Hs as (x & s1 & Hrecv & Hs).
    destruct Hp as (l & r & Hd). destruct (recv_plist_ok _ ipc l r Hreq Hd) as (r1 & Hr1 & _).
    unfold on_local, zoom, stry in Hrecv. cbn [snd fst] in Hrecv. cbn [cl_ipc] in Hr1. rewrite Hr1 in Hrecv.
    injection Hrecv as <- _. cbv beta iota in Hs.
    apply sbind_inv in Hs as (d & s2 & Hd2 & Hs). unfold lift in Hd2. injection Hd2 as <- _.
    injection Hs as <- _. apply classify_asked.
  - unfold sbind, sget in Hs. injection Hs as <- _. by destruct (has_tunnel _ _).
  - apply sbind_inv in Hs as ([e|dt] & s1 & _ & Hs); [by apply respond_inv in Hs as ->|by injection Hs as <- _].
  - destruct Hp as [-> ->]. unfold sbind, sget in Hs. cbn [snd fst] in Hs.
    destruct (al_lookup udid st) as [dt|] eqn:Hl; [|done]. case_bool_decide as Hrsd.
    + injection Hs as <- _. exists dt. unfold service_port. rewrite bool_decide_true by done.
      split_and!; [done..|]. by rewrite Hrsd.
    + destruct (al_lookup service (dt_services dt)) as [e|] eqn:He; [|by apply respond_inv in Hs as ->].
      injection Hs as <- _. split_and!; [done..|]. exists dt. split; [done|].
      unfold service_port. by rewrite bool_decide_false, He.
  - destruct Hp as (-> & -> & _ & dt & Hl & Hport). unfold sbind, sget in Hs. cbn [snd fst] in Hs.
    rewrite Hl in Hs. injection Hs as <- _. by exists dt.
  - apply sbind_inv in Hs as ([e|smc] & s1 & _ & Hs); [by apply respond_inv in Hs as ->|].
    apply sbind_inv in Hs as ([[e|[]] k] & s2 & _ & Hs); [by apply respond_inv in Hs as ->|].
    apply sbind_inv in Hs as ([] & s3 & _ & Hs). by injection Hs as <- _.
  - unfold sbind at 1, sget in Hs. destruct (proxy _ _) as [[a b]|]; [|done].
    apply sbind_inv in Hs as ([] & s1 & _ & Hs). by injection Hs as <- _.
  - unfold sbind at 1, sget in Hs. by apply respond_inv in Hs as ->.
  - apply sbind_inv in Hs as ([] & s1 & _ & Hs). apply sbind_inv in Hs as ([] & s2 & _ & Hs).
    apply sbind_inv in Hs as ([] & s3 & _ & Hs). by injection Hs as <- _.
Qed.

Record serves (t : nat) (d : daemon (W:=W)) : Prop := {
  sv_asked c : d_clients d !! t = Some c → asked (d_state d) c;
  sv_makes u c : d_clients d !! u = Some c → makes c;
  sv_map : registered (d_state d)
}.

Lemma daemon_step_serves t a d d' :
  (∀ id, a ≠ ADetach id) → (∀ k, a = AConnect t k → ∃ l r, delivers (rx k) (frame (PDict req) ++ l) r) →
  daemon_step a d = Some d' → serves t d → serves t d'.
Proof.
  intros Ha Hc Hs [H1 H2 H3]. destruct a as [t' ipc|t'|id]; cbn [daemon_step] in Hs; [| |by destruct (Ha id)].
  - destruct (d_clients d !! t') eqn:Ht; [done|]. injection Hs as <-.
    split; cbn [set_client d_clients d_state]; [| |done].
    + intros c [[-> <-]|[_ Hcl]]%lookup_insert_Some; [by apply Hc|by apply H1].
    + intros u c [[_ <-]|[_ Hcl]]%lookup_insert_Some; [done|by eapply H2].
  - destruct (d_clients d !! t') as [c|] eqn:Ht; [|done]. cbn [mbind option_bind] in Hs.
    apply thread_step_inv in Hs as (r & w & ipc & p & Hstep & Hr & Hcl & Hst).
    assert (∀ q, asked (d_state d) q → asked (d_state d') q) as Hmono.
    { intros q Hq. rewrite Hst. destruct (cl_phase c); try done. by apply asked_insert. }
    split; rewrite ?Hcl.
    + intros c' [[-> <-]|[_ Hc']]%lookup_insert_Some; [|by apply Hmono, H1]. apply Hmono.
      destruct Hr as [->|[->|(e & ->)]]; [|done..]. destruct c as [k q].
      exact (client_step_asked q _ _ _ Hstep (H1 _ Ht)).
    + intros u c' [[_ <-]|[_ Hc']]%lookup_insert_Some; [|by eapply H2].
      destruct Hr as [->|[->|(e & ->)]]; [|done..]. destruct c as [k q].
      exact (client_step_makes q _ _ _ Hstep (H2 _ _ Ht)).
    + specialize (H2 _ _ Ht). rewrite Hst. unfold makes in H2.
      destruct (cl_phase c); try done. by apply registered_insert.
Qed.
End one_client.

(** C21. A client asks for a service of a device, among any other clients and in any
    order of the steps of their threads, while no device is detached.  When its
    thread is about to connect, it does so through the tunnel that is registered
    for the device the request names; that tunnel was in the map at the start or
    has been made for this device; the port is the one the catalogue of this very
    tunnel has for the requested service (its RSD port for [_rsd]), and the check-in
    is done exactly for a name that ends in [.shim.remote]. *)
Theorem connects_by_catalogue l d d' t req udid service ipc tunnel port shim :
  small_frame (PDict req) → dget "UDID" req ≫= as_string = Some udid →
  dget "Service" req ≫= as_string = Some service →
  run l d = Some d' → (∀ id, ADetach id ∉ l) → d_clients d = ∅ →
  (∀ k, AConnect t k ∈ l → ∃ more r, delivers (rx k) (frame (PDict req) ++ more) r) →
  d_clients d' !! t = Some (MkClient ipc (Connecting tunnel port shim)) →
  ∃ dt, al_lookup udid (d_state d') = Some dt ∧ tunnel = dt_tunnel dt ∧
    (al_lookup udid (d_state d) = Some dt ∨ ∃ w w', make_tunnel udid w = (Ok dt, w')) ∧
    (if bool_decide (service = "_rsd"%string) then port = server_rsd_port (stack_params tunnel)
     else ∃ e, al_lookup service (dt_services dt) = Some e ∧ port = Rsd.port e) ∧
    shim = ends_with ".shim.remote" service.
Proof.
  intros Hreq Hu Hsv Hr Hl Hd Hc Ht.
  assert (serves (d_state d) req udid service t d) as Hok.
  { split; [by intros c; rewrite Hd, lookup_empty|by intros u c; rewrite Hd, lookup_empty|]. intros u dt. by left. }
  assert (serves (d_state d) req udid service t d') as [Hok' _ Hmap'].
  { clear Hd Ht. revert Hok. generalize (d_state d) at 1 2. intros st0 Hok.
    revert d Hr Hl Hc Hok. induction l as [|a l IH]; intros d Hr Hl Hc Hok; cbn [run] in Hr; [by simplify_eq|].
    destruct (daemon_step a d) as [d1|] eqn:Hs; [|done]. apply (IH d1 Hr).
    - intros id Hin. apply (Hl id). by right.
    - intros k Hin. apply Hc. by right.
    - eapply daemon_step_serves; [done|done|done| | |done|done].
      + intros id ->. apply (Hl id). by left.
      + intros k ->. apply Hc. by left. }
  destruct (Hok' _ Ht) as (dt & Hdt & -> & Hport & ->). exists dt.
  split_and!; [done..|by apply Hmap'| |done]. unfold service_port in Hport. case_bool_decide; [by injection Hport|].
  destruct (al_lookup service _) as [e|]; [|done]. exists e. by injection Hport as <-.
Qed.

(** [proxy] ends for any two streams that work, and has then copied each side's
    bytes to the other. *)
Lemma proxy_relays ipc smc up down :
  healthy ipc → healthy smc → delivers (rx ipc) up [] → delivers (rx smc) down [] →
  ∃ ipc' smc', proxy ipc smc = Some (ipc', smc') ∧
    tx ipc' = tx ipc ++ down ∧ tx smc' = tx smc ++ up.
Proof.
  intros Hi Hs Hu Hd. unfold proxy.
  destruct (Rsd.copy_half_fuel_relays true 8192 ipc smc up []) as (ipc1 & -> & Hw1 & Ht1); [lia|done|done|auto|].
  cbn [mbind option_bind].
  destruct (Rsd.copy_half_fuel_relays true 8192 (append_tx up smc) ipc1 down []) as (smc1 & -> & Hw2 & Ht2);
    [lia|unfold healthy in *; congruence|done|auto|].
  exists (append_tx down ipc1), smc1. cbn [append_tx tx] in *. by rewrite Ht1, Ht2.
Qed.

Lemma ipc_step {A} (m : ST stream anyhow A) (ws : W * State (W:=W)) k x k' :
  m k = (x, k') → on_local m (ws, k) = (x, (ws, k')).
Proof. intros Hm. unfold on_local, zoom. cbn. by rewrite Hm. Qed.
Lemma world_step {E A} (m : ST W E A) w (st : State (W:=W)) (k : stream) x w' :
  m w = (x, w') → on_outer (on_outer m) ((w, st), k) = (x, ((w', st), k)).
Proof. intros Hm. unfold on_outer, zoom. cbn. by rewrite Hm. Qed.

Lemma insert_client_step t (cs : gmap nat (client (W:=W))) k p w st l q w1 st1 k1 :
  finished p = false →
  client_step p ((w, st), k) = (Ok q, ((w1, st1), k1)) →
  run (AStep t :: l) (MkDaemon w st (<[t := MkClient k p]> cs)) =
    run l (MkDaemon w1 st1 (<[t := MkClient k1 q]> cs)).
Proof.
  intros Hf Hs. erewrite run_step; [|eapply daemon_step_run; [apply lookup_insert_eq|done|exact Hs]].
  cbn [d_clients]. by rewrite insert_insert_eq.
Qed.

Lemma connecting_step tunnel port shim w st smc0 w' smc (ipc : stream) :
  stack_connect tunnel (server_addr (stack_params tunnel)) port w = (Ok smc0, w') →
  (if (shim : bool) then dm_rsd_checkin smc0 = (Ok tt, smc) else smc0 = smc) →
  small_frame ok_response → healthy ipc →
  client_step (Connecting tunnel port shim) ((w, st), ipc) =
    (Ok (Proxying smc), ((w', st), append_tx (frame ok_response) ipc)).
Proof.
  intros Hconn Hshim Hok Hipc. cbn [client_step].
  erewrite sbind_ok; [|apply world_step; unfold stry; by rewrite Hconn]. cbv beta iota.
  assert (srun (if shim then stry (F:=anyhow) dm_rsd_checkin else sret (inr tt)) smc0
    ((w', st), ipc) = (Ok (inr tt, smc), ((w', st), ipc))) as Hcheck.
  { unfold srun. destruct shim; [unfold stry; by rewrite Hshim|by subst smc]. }
  erewrite sbind_ok by exact Hcheck. cbv beta iota.
  erewrite sbind_ok; [reflexivity|]. apply ipc_step. by apply send_plist_ok.
Qed.

(** C22. A client asks for a service of a device that has a tunnel, among any other
    clients, and the stack connects to the port of the service: [_rsd], one of the
    catalogue, or one whose name ends in [.shim.remote], in which case the RSD
    check-in must succeed first.  On streams that work, with request and answer of
    less than 1 MiB, the daemon has after four or five steps of the thread answered
    [Ok] and nothing else; from then on it relays, in both directions, all the bytes
    after the request, and after the check-in if there is one; and the client that
    gets the answer returns its socket where these begin. *)
Theorem daemon_serves_client udid service dt port t cs w w' st ipc smc0 smc up down k l r :
  al_lookup udid st = Some dt → service_port service dt = Some port →
  stack_connect (dt_tunnel dt) (server_addr (stack_params (dt_tunnel dt))) port w = (Ok smc0, w') →
  (if ends_with ".shim.remote" service then dm_rsd_checkin smc0 = (Ok tt, smc) else smc0 = smc) →
  small_frame (daemon_request udid service) → small_frame ok_response →
  healthy ipc → delivers (rx ipc) (frame (daemon_request udid service) ++ up) [] →
  healthy smc → delivers (rx smc) down [] →
  healthy k → delivers (rx k) (frame ok_response ++ l) r →
  (∃ ipc1 ipc2 smc2,
    run (replicate (if bool_decide (service = "_rsd"%string) then 4 else 5) (AStep t))
        (MkDaemon w st (<[t := MkClient ipc Reading]> cs)) =
      Some (MkDaemon w' st (<[t := MkClient ipc1 (Proxying smc)]> cs)) ∧
    proxy ipc1 smc = Some (ipc2, smc2) ∧
    tx ipc2 = tx ipc ++ frame ok_response ++ down ∧ tx smc2 = tx smc ++ up) ∧
  (∃ r1, daemon_exchange udid service k =
      (Ok tt, append_tx (frame (daemon_request udid service)) (set_rx r1 k)) ∧ delivers r1 l r).
Proof.
  intros Hdt Hport Hconn Hshim Hreq Hok Hipc Hup Hsmc Hdown Hk Hd. split.
  - destruct (recv_plist_ok _ ipc up [] Hreq Hup) as (r1 & Hr1 & Hd1).
    set (ipc1 := set_rx r1 ipc) in *.
    destruct (proxy_relays (append_tx (frame ok_response) ipc1) smc up down)
      as (ipc2 & smc2 & Hp & Ht1 & Ht2); [done..|].
    exists (append_tx (frame ok_response) ipc1), ipc2, smc2.
    split; [|split; [done|split; [by rewrite Ht1, (assoc_L (++))|done]]].
    assert (∀ l, run (AStep t :: l) (MkDaemon w st (<[t := MkClient ipc1
        (Connecting (dt_tunnel dt) port (ends_with ".shim.remote" service))]> cs)) =
      run l (MkDaemon w' st (<[t := MkClient (append_tx (frame ok_response) ipc1) (Proxying smc)]> cs))) as Hlast.
    { intros l0. apply insert_client_step; [done|]. by apply (connecting_step _ _ _ _ _ smc0). }
    unfold service_port in Hport. case_bool_decide as Hrsd; cbn [replicate].
    all: erewrite insert_client_step; [|done|cbn [client_step];
      (erewrite sbind_ok by (apply ipc_step; unfold stry; by rewrite Hr1)); reflexivity].
    all: change (classify_request _) with (Ensure (W:=W) udid service).
    all: erewrite insert_client_step; [|done|cbn [client_step]; unfold sbind, sget; cbn [snd fst];
      unfold has_tunnel; rewrite Hdt; reflexivity].
    + subst service. injection Hport as <-.
      erewrite insert_client_step; [|done|cbn [client_step]; unfold sbind, sget; cbn [snd fst];
        rewrite Hdt, bool_decide_true by done; reflexivity].
      apply Hlast.
    + destruct (al_lookup service (dt_services dt)) as [e|] eqn:He; [|done]. injection Hport as <-.
      erewrite insert_client_step; [|done|cbn [client_step]; unfold sbind, sget; cbn [snd fst];
        rewrite Hdt, bool_decide_false, He by done; reflexivity].
      erewrite insert_client_step; [|done|cbn [client_step]; unfold sbind, sget; cbn [snd fst];
        rewrite Hdt; reflexivity].
      apply Hlast.
  - destruct Hreq as [Hplain Hlen], Hok as [Hplain' Hlen']. unfold frame in Hd at 1.
    rewrite <-(assoc_L (++)) in Hd.
    destruct (daemon_exchange_aux udid service k (lenZ (xml ok_response)) (xml ok_response) l r)
      as (r1 & Hx & Hd1); [done|split; [done|lia]|unfold in_u; lia|done| |].
    + by rewrite (proj2 (Z.eqb_neq _ _)), (proj2 (Z.ltb_ge _ _)) by lia.
    + exists r1. split; [|done]. rewrite Hx.
      rewrite (proj2 (Z.eqb_neq _ _)), (proj2 (Z.ltb_ge _ _)) by lia. cbn [orb].
      by rewrite from_bytes_xml.
Qed.

Definition listed_devices (st : State (W:=W)) : list pval :=
  (λ kv, PDict (dict ["UDID" =>> PString kv.1; "Services" =>> PInt (swrap 64 (lenZ (dt_services kv.2)))])) <$> st.
Lemma list_devices_response (st : State (W:=W)) : list_devices (list_response st) = Ok (listed_devices st).
Proof. unfold list_devices, list_response. cbn [as_dictionary ok_or obind]. by rewrite bool_decide_true. Qed.
Lemma list_entries_response (st : State (W:=W)) :
  Forall (λ kv, lenZ (dt_services kv.2) < 2 ^ 63) st →
  omap list_entry (listed_devices st) = (λ kv, (kv.1, lenZ (dt_services kv.2))) <$> st.
Proof.
  unfold listed_devices. induction 1 as [|[u dt] st Hdt _ IH]; [done|]. cbn [fmap list_fmap omap list_omap] in *.
  cbn [fst snd] in *. pose proof (lenZ_nonneg (dt_services dt)).
  rewrite swrap_small by (unfold in_i; lia).
  assert (list_entry (PDict (dict ["UDID" =>> PString u; "Services" =>> PInt (lenZ (dt_services dt))]))
    = Some (u, lenZ (dt_services dt))) as ->.
  { unfold list_entry. cbn [as_dictionary mbind option_bind].
    change (dget "Services" _) with (Some (PInt (lenZ (dt_services dt)))).
    cbn [mbind option_bind as_unsigned_integer]. by rewrite bool_decide_true by (unfold in_u; lia). }
  by rewrite IH.
Qed.

Lemma dm_devices_ok st k w0 w1 r' :
  small_frame list_request → small_frame (list_response st) →
  unix_connect DAEMON_SOCKET w0 = (Ok k, w1) →
  healthy k → delivers (rx k) (frame (list_response st)) r' →
  dm_devices w0 = (Ok (listed_devices st), w1).
Proof.
  intros Hreq Hresp Hconn Hk Hdk.
  unfold dm_devices, dm_connect, ctx. erewrite sbind_ok by (apply smap_err_ok, Hconn).
  erewrite sbind_ok by (unfold srun; by rewrite (send_plist_ok _ k Hreq Hk)). cbv beta iota.
  rewrite <-(app_nil_r (frame (list_response st))) in Hdk.
  destruct (recv_plist_ok _ (append_tx (frame list_request) k) [] _ Hresp Hdk) as (r1 & Hr1 & _).
  erewrite sbind_ok by (unfold srun; by rewrite Hr1). cbv beta iota.
  by rewrite list_devices_response.
Qed.

(** [ios tunnel list] against the daemon: the daemon answers with its map in two
    steps of the thread and ends the connection, and the client reports exactly
    the devices of the map, each with the number of its services. *)
Theorem list_end_to_end t cs w w0 w1 st ipc k r r' :
  Forall (λ kv, lenZ (dt_services kv.2) < 2 ^ 63) st →
  small_frame list_request → small_frame (list_response st) →
  healthy ipc → delivers (rx ipc) (frame list_request) r →
  unix_connect DAEMON_SOCKET w0 = (Ok k, w1) →
  healthy k → delivers (rx k) (frame (list_response st)) r' →
  (∃ ipc1, run [AStep t; AStep t] (MkDaemon w st (<[t := MkClient ipc Reading]> cs)) =
      Some (MkDaemon w st (<[t := MkClient ipc1 (Finished (inr tt))]> cs)) ∧
    tx ipc1 = tx ipc ++ frame (list_response st)) ∧
  dm_list w0 = (Ok ((λ kv, (kv.1, lenZ (dt_services kv.2))) <$> st), w1).
Proof.
  intros Hst Hreq Hresp Hipc Hdi Hconn Hk Hdk. split.
  - rewrite <-(app_nil_r (frame list_request)) in Hdi.
    destruct (recv_plist_ok _ ipc [] _ Hreq Hdi) as (r1 & Hr1 & _).
    exists (append_tx (frame (list_response st)) (set_rx r1 ipc)). split; [|done].
    erewrite insert_client_step; [|done|].
    2: { cbn [client_step]. erewrite sbind_ok; [|apply ipc_step; unfold stry; by rewrite Hr1].
         reflexivity. }
    change (classify_request _) with (Listing (W:=W)).
    erewrite insert_client_step; [reflexivity|done|]. cbn [client_step].
    erewrite sbind_ok by reflexivity. unfold respond.
    erewrite sbind_ok; [reflexivity|]. apply ipc_step. by apply send_plist_ok.
  - unfold dm_list. erewrite sbind_ok by (by eapply dm_devices_ok). unfold sret.
    by rewrite list_entries_response.
Qed.
End together.

(** ** Concrete inputs *)
Section witnesses.
Import ToyTunnel.
#[local] Existing Instance debug_profile.
#[local] Existing Instance BitPlist.lib.
#[local] Existing Instance BitPlist.laws.
#[local] Existing Instance Lockdown.ToyTls.lib.
#[local] Existing Instance toy_json.

#[local] Instance toy_files : Files world := {|
  file_read _ := sret [];
  file_create_dir_all _ := sret tt;
  file_write _ _ := sret tt;
  file_remove _ := sret tt
|}.

Definition toy_params : TunnelParams := MkTunnelParams [1] [2] 58783 1280.
Definition hub : string := "com.apple.instruments.dtservicehub".
Definition toy_tunnel (port : Z) : DeviceTunnel (W:=world) :=
  MkDeviceTunnel (toy_params : @stack world tunnels) [(hub, Rsd.MkServiceEntry port false [])] 3.
Definition toy_ipc : stream := idle [RData (Lockdown.ld_frame (daemon_request "u1" hub)); RData [x07]].
Definition quiet : world := World (Script.World []) 0 (idle []).
Definition toy_daemon (st : State) (p : phase) : daemon :=
  MkDaemon quiet st {[1%nat := MkClient toy_ipc p]}.

Lemma first_tunnel_wins_witness :
  ∃ d', run [AConnect 2 toy_ipc; AStep 1] (toy_daemon [("u1"%string, toy_tunnel 5)]
    (Inserting "u1" hub (toy_tunnel 9))) = Some d' ∧
  al_lookup "u1"%string (d_state d') = Some (toy_tunnel 5).
Proof.
  eexists. split; [reflexivity|].
  eapply (first_tunnel_wins [AConnect 2 toy_ipc; AStep 1] (toy_daemon [("u1"%string, toy_tunnel 5)]
    (Inserting "u1" hub (toy_tunnel 9)))); [reflexivity| |reflexivity].
  rewrite !not_elem_of_cons. split_and!; [discriminate|discriminate|apply not_elem_of_nil].
Defined.

Definition fresh : daemon := MkDaemon quiet [("u1"%string, toy_tunnel 5)] ∅.
Definition served : option daemon :=
  Eval vm_compute in run [AConnect 1 toy_ipc; AStep 1; AStep 1; AStep 1; AStep 1] fresh.
Definition served_d : daemon := match served with Some d => d | None => fresh end.
Lemma two_pieces_deliver a b :
  a ≠ [] → b ≠ [] → delivers [RData a; RData b] (a ++ b) [].
Proof.
  intros. pose proof (delivers_pieces [a; b] []) as Hd. cbn in Hd. rewrite app_nil_r in Hd.
  apply Hd. by repeat constructor.
Qed.

Definition toy_request : dictionary :=
  match daemon_request "u1" hub with PDict d => d | _ => [] end.
Lemma connects_by_catalogue_witness :
  ∃ dt, al_lookup "u1"%string (d_state served_d) = Some dt ∧ toy_params = dt_tunnel dt ∧
    (al_lookup "u1"%string (d_state fresh) = Some dt ∨ ∃ w w', make_tunnel "u1" w = (Ok dt, w')) ∧
    (∃ e, al_lookup hub (dt_services dt) = Some e ∧ 5 = Rsd.port e) ∧
    false = ends_with ".shim.remote" hub.
Proof.
  apply (connects_by_catalogue [AConnect 1 toy_ipc; AStep 1; AStep 1; AStep 1; AStep 1] fresh served_d
    1%nat toy_request "u1" hub (idle [RData [x07]]) (toy_params : @stack world tunnels) 5 false).
  - split; [reflexivity|split; vm_compute; reflexivity].
  - reflexivity.
  - reflexivity.
  - match goal with |- _ = ?b => vm_cast_no_check (eq_refl b) end.
  - intros id. rewrite !not_elem_of_cons. split_and!; try discriminate. apply not_elem_of_nil.
  - reflexivity.
  - intros k [[= ->]|Hk]%elem_of_cons.
    + exists [x07], []. by apply two_pieces_deliver; vm_compute.
    + exfalso. repeat (apply elem_of_cons in Hk as [Hk|Hk]; [discriminate Hk|]). by apply elem_of_nil in Hk.
  - reflexivity.
Defined.

Lemma client_steps_bounded_witness :
  (steps_of 1 [AStep 1; AStep 1; AStep 1; AStep 1] ≤ 8)%nat.
Proof.
  apply (client_steps_bounded [AStep 1; AStep 1; AStep 1; AStep 1]
    (toy_daemon [("u1"%string, toy_tunnel 5)] Reading) served_d 1%nat toy_ipc);
    [match goal with |- _ = ?b => vm_cast_no_check (eq_refl b) end|reflexivity].
Defined.

Lemma stale_port_witness :
  ∃ d', run [AStep 1; ADetach 3; AStep 2; AStep 1]
      (MkDaemon quiet [("u1"%string, toy_tunnel 5)]
        (<[1%nat := MkClient toy_ipc (Serving "u1" hub)]>
          {[2%nat := MkClient toy_ipc (Inserting "u1" hub (toy_tunnel 9))]})) = Some d' ∧
    al_lookup "u1"%string (d_state d') = Some (toy_tunnel 9) ∧
    cl_phase <$> d_clients d' !! 1%nat = Some (Connecting (toy_params : @stack world tunnels) 5 false).
Proof.
  apply (stale_port quiet "u1" hub (toy_tunnel 5) (toy_tunnel 9) (Rsd.MkServiceEntry 5 false [])
    1%nat 2%nat toy_ipc toy_ipc); [discriminate|discriminate|reflexivity].
Defined.

Lemma daemon_serves_client_witness :
  ∃ r1, daemon_exchange "u1" hub (idle [RData (Lockdown.ld_frame ok_response); RData [x05]]) =
      (Ok tt, append_tx (Lockdown.ld_frame (daemon_request "u1" hub))
         (set_rx r1 (idle [RData (Lockdown.ld_frame ok_response); RData [x05]]))) ∧
    delivers r1 [x05] [].
Proof.
  refine (proj2 (daemon_serves_client "u1" hub (toy_tunnel 5) 5 1%nat ∅
    quiet quiet [("u1"%string, toy_tunnel 5)] toy_ipc (idle [RData [x05]]) (idle [RData [x05]]) [x07] [x05]
    (idle [RData (Lockdown.ld_frame ok_response); RData [x05]]) [x05] []
    _ _ _ _ _ _ _ _ _ _ _ _)); try reflexivity; try discriminate;
    try (split; [reflexivity|split; vm_compute; reflexivity]);
    try (apply two_pieces_deliver; vm_compute; discriminate).
  by apply (delivers_one [x05] []).
Defined.

Definition lister : stream := idle [RData (Lockdown.ld_frame list_request)].
Definition listed : stream :=
  idle [RData (Lockdown.ld_frame (list_response [("u1"%string, toy_tunnel 5)]))].
Definition up_world : world := World (Script.World []) daemon_from listed.
Lemma list_end_to_end_witness :
  dm_list up_world = (Ok [("u1"%string, 1)], set_now (daemon_from + 1000) up_world).
Proof.
  refine (proj2 (list_end_to_end 1%nat ∅ quiet up_world (set_now (daemon_from + 1000) up_world)
    [("u1"%string, toy_tunnel 5)] lister listed [] [] _ _ _ _ _ _ _ _)); try reflexivity;
    try (split; [reflexivity|split; vm_compute; reflexivity]);
    try (apply delivers_one; vm_compute; discriminate).
  repeat constructor.
Defined.
End witnesses.
