(* ===== verification/Dtx.v ===== *)
(** * DTX messages ([src/dtx/mod.rs], encoding and decoding)

    The binary message format of testmanagerd and Instruments: the encoders,
    the reader with its fragment reassembly, and the auxiliary values.  The
    connection with its reader thread is in [DtxConn]. *)

From S2P Require Import Prelude RustStd Io Plist.

Inductive Error : Type :=
  | EIo (e : io_error)
  | EPlist
  | EBadMagic (n : Z)
  | EProtocol (m : message)
  | EClosed.

(** [Display] *)
Definition Error_fmt (e : Error) : message :=
  match e with
  | EIo e => Msg "I/O: {0}" [FStr (what e)]
  | EPlist => msg0 "plist: {0}"
  | EBadMagic n => Msg "bad DTX magic: {0:#010x}" [FHex n]
  | EProtocol m => Msg "protocol: {0}" [FDisplay m]
  | EClosed => msg0 "DTX connection closed"
  end.

Inductive MsgType : Type := Ack | Unknown1 | MethodInvoke | Reply | ErrorMsg.

Definition msg_type_val (t : MsgType) : Z :=
  match t with Ack => 0 | Unknown1 => 1 | MethodInvoke => 2 | Reply => 3 | ErrorMsg => 4 end.
Definition try_from (v : Z) : MsgType + Z :=
  match v with
  | 0 => inl Ack | 1 => inl Unknown1 | 2 => inl MethodInvoke | 3 => inl Reply | 4 => inl ErrorMsg
  | n => inr n
  end.

Inductive AuxValue : Type :=
  | AInt32 (n : Z)
  | AInt64 (n : Z)
  | ABytes (l : list byte).

Record DtxMessage : Type := MkDtx {
  msg_id : Z;
  conv_id : Z;
  channel : Z;
  expects_reply : bool;
  msg_type : Z;
  aux : list AuxValue;
  payload : option pval
}.

Definition MAGIC : list byte := [x79; x5b; x3d; x1f].
Definition T_NULL : Z := 0x0a.
Definition T_UINT32 : Z := 0x03.
Definition T_INT64 : Z := 0x06.
Definition T_BYTEARRAY : Z := 0x02.
Definition AUX_MAGIC : Z := 0x1f0.

(** ** Encoding *)

(** The 32-byte header of an unfragmented message. *)
Definition dtx_header (index count len msg_id conv_id channel : Z) (expects : bool) : list byte :=
  MAGIC ++ le_bytes 4 32 ++ le_bytes 2 index ++ le_bytes 2 count ++ le_bytes 4 len
  ++ le_bytes 4 msg_id ++ le_bytes 4 conv_id ++ le_bytes 4 (wrap 32 channel)
  ++ le_bytes 4 (if expects then 1 else 0).

Definition encode_ack_raw (msg_id conv_id channel : Z) : list byte :=
  dtx_header 0 1 16 msg_id conv_id channel false
  ++ le_bytes 4 (msg_type_val Ack) ++ replicate 12 x00.

Definition encode_ack `{BuildProfile} {E} (msg : DtxMessage) : outcome E (list byte) :=
  let? conv := u32_add (conv_id msg) 1 in
  Ok (dtx_header 0 1 16 (msg_id msg) conv (channel msg) false
      ++ le_bytes 4 (msg_type_val Ack) ++ replicate 12 x00).

Definition encode_aux_entry (arg : AuxValue) : list byte :=
  le_bytes 4 T_NULL ++
  match arg with
  | AInt32 v => le_bytes 4 T_UINT32 ++ le_bytes 4 (wrap 32 v)
  | AInt64 v => le_bytes 4 T_INT64 ++ le_bytes 8 (wrap 64 v)
  | ABytes b => le_bytes 4 T_BYTEARRAY ++ le_bytes 4 (wrap 32 (lenZ b)) ++ b
  end.
Definition encode_aux_entries (args : list AuxValue) : list byte :=
  concat (encode_aux_entry <$> args).

Definition encode_raw (msg_id conv_id channel : Z) (expects_reply : bool) (msg_type : MsgType)
    (aux : list AuxValue) (payload : list byte) : list byte :=
  let aux_entries := encode_aux_entries aux in
  let aux_entry_len := lenZ aux_entries in
  let aux_len_with_hdr := if 0 <? aux_entry_len then aux_entry_len + 16 else 0 in
  let total_payload := aux_len_with_hdr + lenZ payload in
  let message_len := if 0 <? total_payload then 16 + total_payload else 0 in
  let hdr := dtx_header 0 1 (wrap 32 message_len) msg_id conv_id channel expects_reply in
  if message_len =? 0 then hdr
  else
    hdr ++ le_bytes 4 (msg_type_val msg_type) ++ le_bytes 4 (wrap 32 aux_len_with_hdr)
    ++ le_bytes 4 (wrap 32 total_payload) ++ le_bytes 4 0
    ++ (if 0 <? aux_entry_len then
          le_bytes 4 AUX_MAGIC ++ le_bytes 4 0 ++ le_bytes 4 (wrap 32 aux_entry_len)
          ++ le_bytes 4 0 ++ aux_entries
        else [])
    ++ payload.

Definition encode_reply `{BuildProfile} {E} (req : DtxMessage) (payload_bytes : list byte) :
    outcome E (list byte) :=
  let? conv := u32_add (conv_id req) 1 in
  Ok (encode_raw (msg_id req) conv (channel req) false Reply [] payload_bytes).

(** ** NSKeyedArchiver primitives *)

Definition archive_root (top : pval) (objects : list pval) : pval :=
  PDict ["$version" =>> PInt 100000; "$archiver" =>> PString "NSKeyedArchiver";
         "$top" =>> PDict ["root" =>> top]; "$objects" =>> PArray objects].

Section archive.
Context `{PlistLib} {E : Type}.

Definition archive_primitive (v : pval) : outcome E (list byte) :=
  or_panic (to_writer_binary (archive_root (PUid 1) [PString "$null"; v])).
Definition archive_string (s : string) : outcome E (list byte) := archive_primitive (PString s).
Definition archive_u64 (n : Z) : outcome E (list byte) := archive_primitive (PInt n).
Definition archive_bool (b : bool) : outcome E (list byte) := archive_primitive (PBool b).

Definition archive_capabilities_dict : outcome E (list byte) :=
  let objects :=
    [PString "$null";
     PDict ["$classname" =>> PString "NSDictionary";
            "$classes" =>> PArray [PString "NSDictionary"; PString "NSObject"]];
     PString "com.apple.private.DTXBlockCompression";
     PString "com.apple.private.DTXConnection";
     PInt 0;
     PInt 1;
     PDict ["NS.keys" =>> PArray [PUid 2; PUid 3];
            "NS.objects" =>> PArray [PUid 4; PUid 5];
            "$class" =>> PUid 1]] in
  or_panic (to_writer_binary (archive_root (PUid 6) objects)).

Definition encode_call (msg_id conv_id channel : Z) (expects_reply : bool) (selector : string)
    (aux : list AuxValue) : outcome E (list byte) :=
  let? payload := archive_string selector in
  Ok (encode_raw msg_id conv_id channel expects_reply MethodInvoke aux payload).
End archive.

(** ** Decoding *)

Definition dtx_eof : io_error := IoError UnexpectedEof "dtx eof".

(** A field of a header that is known to have 32 bytes. *)
Definition field (hdr : list byte) (a b : Z) : Z := le_val (default [] (get_slice hdr a b)).

(** The [while pos + 4 <= data.len()] loop; every turn of it takes at least
    eight bytes or ends it. *)
Fixpoint decode_aux_loop (fuel : nat) (data : list byte) (pos : Z) : list AuxValue :=
  match fuel with
  | O => []
  | S fuel =>
      match get_slice data pos (pos + 4), get_slice data (pos + 4) (pos + 8) with
      | Some key_type, Some val_type =>
          if negb (le_val key_type =? T_NULL) then []
          else
            let val_type := le_val val_type in
            let pos := pos + 8 in
            if val_type =? T_UINT32 then
              match get_slice data pos (pos + 4) with
              | Some v => AInt32 (swrap 32 (le_val v)) :: decode_aux_loop fuel data (pos + 4)
              | None => []
              end
            else if val_type =? T_INT64 then
              match get_slice data pos (pos + 8) with
              | Some v => AInt64 (swrap 64 (le_val v)) :: decode_aux_loop fuel data (pos + 8)
              | None => []
              end
            else if val_type =? T_BYTEARRAY then
              match get_slice data pos (pos + 4) with
              | Some len =>
                  let pos := pos + 4 in
                  match get_slice data pos (pos + le_val len) with
                  | Some b => ABytes b :: decode_aux_loop fuel data (pos + le_val len)
                  | None => []
                  end
              | None => []
              end
            else []
      | _, _ => []
      end
  end.

Definition decode_aux_entries (data : list byte) : list AuxValue :=
  decode_aux_loop (length data) data 0.

(** The state of the reading functions: the stream read, and the stream to
    which fragments are acknowledged, when there is one. *)
Definition rw : Type := stream * option stream.
Definition on_reader {A} (m : ST stream io_error A) : ST rw Error A :=
  zoom fst (λ s p, (s, p.2)) (smap_err EIo m).

(** [if let Ok(mut lock) = w.lock() { let _ = write_all; let _ = flush; }] *)
Definition write_ignoring (l : list byte) (s : stream) : stream :=
  (flush (write_all l s).2).2.

Section reading.
Context `{BuildProfile} `{PlistLib}.

Definition dtx_read_exact (n : Z) : ST stream io_error (list byte) := read_exact id dtx_eof n.

(** The [for _fi in 1..fragment_count] loop. *)
Fixpoint read_fragments (n : nat) (data : list byte) : ST rw Error (list byte) :=
  match n with
  | O => sret data
  | S n =>
      let! fhdr := on_reader (dtx_read_exact 32) in
      let flen := field fhdr 12 16 in
      let fid := field fhdr 16 20 in
      let fconv := field fhdr 20 24 in
      let fchannel := swrap 32 (field fhdr 24 28) in
      let fexp := negb (field fhdr 28 32 =? 0) in
      let! p := sget in
      (match fexp, p.2 with
       | true, Some _ =>
           let! conv := lift (u32_add fconv 1) in
           smodify (λ p, (p.1, write_ignoring (encode_ack_raw fid conv fchannel) <$> p.2))
       | _, _ => sret tt
       end) ;;;
      let! d := (if 0 <? flen then on_reader (dtx_read_exact flen) else sret []) in
      read_fragments n (data ++ d)
  end.

(** The payload header, the auxiliary values and the body. *)
Definition decode_payload (payload : list byte) :
    outcome Error (Z * list AuxValue * option pval) :=
  let? t := slice payload 0 4 in
  let? a := slice payload 4 8 in
  let? n := slice payload 8 12 in
  let msg_type := le_val t in
  let aux_len := le_val a in
  let total := le_val n in
  let? aux :=
    if 0 <? aux_len then
      let entries_size := saturating_sub aux_len 16 in
      if 32 + entries_size <=? lenZ payload then
        let? e := slice payload 32 (32 + entries_size) in Ok (decode_aux_entries e)
      else Ok []
    else Ok [] in
  let body_start := 16 + aux_len in
  let body_len := saturating_sub total aux_len in
  let? body :=
    if (0 <? body_len) && (body_start + body_len <=? lenZ payload) then
      let? b := slice payload body_start (body_start + body_len) in
      let? v := ok_or (from_bytes b) EPlist in Ok (Some v)
    else Ok None in
  Ok (msg_type, aux, body).

Definition read_message_inner : ST rw Error DtxMessage :=
  let! hdr := on_reader (dtx_read_exact 32) in
  let magic := be_val (default [] (get_slice hdr 0 4)) in
  if negb (magic =? 0x795b3d1f) then sfail (EBadMagic magic)
  else
    let fragment_index := field hdr 8 10 in
    let fragment_count := field hdr 10 12 in
    let msg_len := field hdr 12 16 in
    let msg_id := field hdr 16 20 in
    let conv_id := field hdr 20 24 in
    let channel := swrap 32 (field hdr 24 28) in
    let expects := negb (field hdr 28 32 =? 0) in
    if msg_len =? 0 then sret (MkDtx msg_id conv_id channel expects 0 [] None)
    else
      let! payload :=
        (if (fragment_index =? 0) && (1 <? fragment_count) then
           read_fragments (Z.to_nat (fragment_count - 1)) []
         else on_reader (dtx_read_exact msg_len)) in
      let! r := lift (decode_payload payload) in
      sret (MkDtx msg_id conv_id channel expects r.1.1 r.1.2 r.2).

(** [read_message]: without a writer. *)
Definition read_message : ST stream Error DtxMessage := λ s,
  let '(r, p) := read_message_inner (s, None) in (r, p.1).
End reading.

(** ** Auxiliary values: round trip *)

Definition aux_ok (a : AuxValue) : Prop :=
  match a with
  | AInt32 n => in_i 32 n
  | AInt64 n => in_i 64 n
  | ABytes l => lenZ l < 2 ^ 32
  end.
#[export] Instance aux_ok_dec a : Decision (aux_ok a).
Proof. destruct a; simpl; apply _. Defined.

Lemma encode_aux_cons a l : encode_aux_entries (a :: l) = encode_aux_entry a ++ encode_aux_entries l.
Proof. reflexivity. Qed.

Lemma lenZ_encode_aux_entry a :
  lenZ (encode_aux_entry a) =
    match a with AInt32 _ => 12 | AInt64 _ => 16 | ABytes b => 12 + lenZ b end.
Proof. unfold encode_aux_entry. destruct a; len. Qed.

Lemma swrap_le_val_32 v : in_i 32 v → swrap 32 (le_val (le_bytes 4 (wrap 32 v))) = v.
Proof.
  intros. rewrite le_val_le_bytes_small by (apply wrap_range; lia). by apply swrap_wrap.
Qed.
Lemma swrap_le_val_64 v : in_i 64 v → swrap 64 (le_val (le_bytes 8 (wrap 64 v))) = v.
Proof.
  intros. rewrite le_val_le_bytes_small by (apply wrap_range; lia). by apply swrap_wrap.
Qed.

Lemma decode_aux_loop_encode args fuel data pos post :
  Forall aux_ok args → has_at data pos (encode_aux_entries args) →
  lenZ data = pos + lenZ (encode_aux_entries args) + post → 0 ≤ post < 4 →
  (length args < fuel)%nat →
  decode_aux_loop fuel data pos = args.
Proof.
  intros Hok. revert fuel pos. induction Hok as [|a args Ha _ IH]; intros fuel pos Hat Hlen Hp Hf;
    (destruct fuel as [|fuel]; [simpl in Hf; lia|]); cbn [decode_aux_loop].
  - change (lenZ (encode_aux_entries [])) with 0 in Hlen.
    by rewrite get_slice_too_long by lia.
  - rewrite encode_aux_cons in *. rewrite lenZ_app, lenZ_encode_aux_entry in Hlen.
    apply has_at_app in Hat as [Hat Hrest]. rewrite lenZ_encode_aux_entry in Hrest.
    unfold encode_aux_entry in Hat. simpl in Hf.
    next_field Hat.
    destruct a as [v|v|b]; replace (pos + 8) with (pos + 4 + 4) by lia.
    + next_field Hat. rewrite !le_val_le_bytes_small by done.
      rewrite <-(app_nil_r (le_bytes 4 (wrap 32 v))) in Hat. next_field Hat.
      simpl in Ha. change (T_NULL =? T_NULL) with true. change (T_UINT32 =? T_UINT32) with true.
      cbv beta iota delta [negb]. rewrite swrap_le_val_32 by done. f_equal.
      apply IH; [by replace (pos + 4 + 4 + 4) with (pos + 12) by lia|lia|done|lia].
    + next_field Hat. rewrite !le_val_le_bytes_small by done.
      rewrite <-(app_nil_r (le_bytes 8 (wrap 64 v))) in Hat. next_field Hat.
      simpl in Ha. change (T_NULL =? T_NULL) with true. change (T_INT64 =? T_UINT32) with false.
      change (T_INT64 =? T_INT64) with true.
      cbv beta iota delta [negb]. rewrite swrap_le_val_64 by done. f_equal.
      apply IH; [by replace (pos + 4 + 4 + 8) with (pos + 16) by lia|lia|done|lia].
    + simpl in Ha. pose proof (lenZ_nonneg b).
      next_field Hat. rewrite !le_val_le_bytes_small by done.
      next_field Hat. rewrite wrap_small by (unfold in_u; lia).
      rewrite le_val_le_bytes_small by (unfold in_u; lia).
      change (T_NULL =? T_NULL) with true. change (T_BYTEARRAY =? T_UINT32) with false.
      change (T_BYTEARRAY =? T_INT64) with false. change (T_BYTEARRAY =? T_BYTEARRAY) with true.
      cbv beta iota delta [negb]. rewrite (has_at_slice _ _ _ _ Hat) by lia. f_equal.
      apply IH; [|lia|done|lia].
      by replace (pos + 4 + 4 + 4 + lenZ b) with (pos + (12 + lenZ b)) by lia.
Qed.

Lemma decode_encode_aux args :
  Forall aux_ok args → decode_aux_entries (encode_aux_entries args) = args.
Proof.
  intros Hok. unfold decode_aux_entries. destruct args as [|a args]; [done|].
  apply (decode_aux_loop_encode _ _ _ _ 0); [done| |lia|lia|].
  - exists [], []. by rewrite app_nil_r.
  - assert (∀ l, length l ≤ length (encode_aux_entries l))%nat as Hl.
    { induction l as [|x l IHl]; [done|]. rewrite encode_aux_cons, length_app.
      pose proof (lenZ_encode_aux_entry x). unfold lenZ in *. simpl. destruct x; lia. }
    rewrite encode_aux_cons, length_app. specialize (Hl args).
    pose proof (lenZ_encode_aux_entry a). unfold lenZ in *. simpl. destruct a; lia.
Qed.

(** ** Messages: round trip *)

Lemma lenZ_dtx_header i c len id conv ch e : lenZ (dtx_header i c len id conv ch e) = 32.
Proof. unfold dtx_header. change (lenZ (MAGIC ++ ?x)) with (4 + lenZ x). len. Qed.

(** The fields the reader takes from a header. *)
Lemma dtx_header_fields i c len id conv ch e :
  in_u 16 i → in_u 16 c → in_u 32 len → in_u 32 id → in_u 32 conv → in_i 32 ch →
  let h := dtx_header i c len id conv ch e in
  be_val (default [] (get_slice h 0 4)) = 0x795b3d1f ∧
  field h 8 10 = i ∧ field h 10 12 = c ∧ field h 12 16 = len ∧ field h 16 20 = id ∧
  field h 20 24 = conv ∧ swrap 32 (field h 24 28) = ch ∧
  negb (field h 28 32 =? 0) = e.
Proof.
  intros Hi Hc Hlen Hid Hconv Hch h.
  assert (has_at h 0 h) as Hat by (exists [], []; by rewrite app_nil_r).
  unfold h in Hat at 2. unfold dtx_header in Hat.
  apply has_at_app in Hat as [Hm Hat]. change (lenZ MAGIC) with 4 in Hat. rewrite Z.add_0_l in Hat.
  rewrite (has_at_slice _ _ _ _ Hm) by done. unfold field.
  apply has_at_le_bytes in Hat as [_ Hat]. closed_sums Hat.
  do 6 next_field Hat. rewrite <-(app_nil_r (le_bytes 4 (if e then 1 else 0))) in Hat.
  next_field Hat. simpl from_option. unfold in_u, in_i in *.
  rewrite !le_val_le_bytes_small by (unfold in_u; try apply wrap_range; simpl; destruct e; lia).
  split_and!; try done; [by apply swrap_wrap|by destruct e].
Qed.

Section round_trip.
Context `{BuildProfile} `{PlistLib}.

(** The part of a message after its header. *)
Definition aux_part (args : list AuxValue) : list byte :=
  match args with
  | [] => []
  | _ =>
      le_bytes 4 AUX_MAGIC ++ le_bytes 4 0 ++ le_bytes 4 (wrap 32 (lenZ (encode_aux_entries args)))
      ++ le_bytes 4 0 ++ encode_aux_entries args
  end.
Definition payload_part (ty : MsgType) (args : list AuxValue) (payload : list byte) : list byte :=
  let aux_len := lenZ (aux_part args) in
  le_bytes 4 (msg_type_val ty) ++ le_bytes 4 aux_len ++ le_bytes 4 (aux_len + lenZ payload)
  ++ le_bytes 4 0 ++ aux_part args ++ payload.

(** The body [b] is what the payload bytes hold. *)
Definition parses (payload : list byte) (b : option pval) : Prop :=
  match payload with
  | [] => b = None
  | _ => ∃ v, from_bytes payload = Some v ∧ b = Some v
  end.

Lemma aux_entries_pos a args : 12 ≤ lenZ (encode_aux_entries (a :: args)).
Proof.
  rewrite encode_aux_cons, lenZ_app, lenZ_encode_aux_entry.
  pose proof (lenZ_nonneg (encode_aux_entries args)). destruct a; try lia.
  pose proof (lenZ_nonneg l). lia.
Qed.

Lemma lenZ_aux_part args :
  lenZ (aux_part args) = match args with [] => 0 | _ => 16 + lenZ (encode_aux_entries args) end.
Proof. destruct args; [done|]. unfold aux_part. len. Qed.

Lemma lenZ_payload_part ty args payload :
  lenZ (payload_part ty args payload) = 16 + lenZ (aux_part args) + lenZ payload.
Proof. unfold payload_part. len. Qed.

(** What [encode_raw] writes. *)
Lemma encode_raw_parts id conv ch e ty args payload :
  (args ≠ [] ∨ payload ≠ []) → lenZ (payload_part ty args payload) < 2 ^ 32 →
  encode_raw id conv ch e ty args payload =
    dtx_header 0 1 (lenZ (payload_part ty args payload)) id conv ch e
    ++ payload_part ty args payload.
Proof.
  intros Hne Hlen. rewrite lenZ_payload_part in *. unfold encode_raw.
  pose proof (lenZ_nonneg payload). rewrite lenZ_aux_part in *.
  destruct args as [|a args].
  - change (lenZ (encode_aux_entries [])) with 0. change (0 <? 0) with false. cbv iota.
    rewrite Z.add_0_l. assert (0 < lenZ payload).
    { destruct payload; [by destruct Hne|]. len. }
    rewrite (proj2 (Z.ltb_lt 0 (lenZ payload))) by lia. cbv iota.
    rewrite (proj2 (Z.eqb_neq _ 0)) by lia. rewrite !wrap_small by (unfold in_u; lia).
    unfold payload_part, aux_part. change (lenZ (@nil byte)) with 0. rewrite !Z.add_0_l.
    by replace (16 + 0 + lenZ payload) with (16 + lenZ payload) by lia.
  - pose proof (aux_entries_pos a args).
    rewrite (proj2 (Z.ltb_lt 0 (lenZ (encode_aux_entries (a :: args))))) by lia. cbv iota.
    rewrite (proj2 (Z.ltb_lt 0 _)) by lia. cbv iota.
    rewrite (proj2 (Z.eqb_neq _ 0)) by lia. unfold payload_part. rewrite lenZ_aux_part.
    unfold aux_part. rewrite !wrap_small by (unfold in_u; lia).
    rewrite <-!(assoc_L (++)).
    replace (lenZ (encode_aux_entries (a :: args)) + 16)
      with (16 + lenZ (encode_aux_entries (a :: args))) by lia.
    by rewrite !Z.add_assoc.
Qed.

Lemma decode_payload_part ty args payload b :
  Forall aux_ok args → parses payload b → lenZ (payload_part ty args payload) < 2 ^ 32 →
  decode_payload (payload_part ty args payload) = Ok (msg_type_val ty, args, b).
Proof.
  intros Hargs Hb Hlen. set (P := payload_part ty args payload) in *.
  assert (lenZ P = 16 + lenZ (aux_part args) + lenZ payload) as HP by apply lenZ_payload_part.
  pose proof (lenZ_nonneg payload). pose proof (lenZ_nonneg (aux_part args)).
  assert (has_at P 0 P) as Hat by (exists [], []; by rewrite app_nil_r).
  unfold P in Hat at 2. unfold payload_part in Hat.
  unfold decode_payload, slice. do 3 next_field Hat. cbn [or_panic obind].
  apply has_at_le_bytes in Hat as [_ Hat]. closed_sums Hat.
  rewrite !le_val_le_bytes_small by (unfold in_u; try (destruct ty; simpl); lia).
  apply has_at_app in Hat as [Haux Hpay].
  unfold saturating_sub. replace (lenZ (aux_part args) + lenZ payload - lenZ (aux_part args))
    with (lenZ payload) by lia. rewrite (Z.max_r 0 (lenZ payload)) by lia.
  assert ((if 0 <? lenZ (aux_part args) then
      if 32 + Z.max 0 (lenZ (aux_part args) - 16) <=? lenZ P then
        let? e := or_panic (get_slice P 32 (32 + Z.max 0 (lenZ (aux_part args) - 16))) in
        Ok (decode_aux_entries e)
      else Ok []
    else Ok (E:=Error) []) = Ok args) as ->.
  { rewrite lenZ_aux_part in *. destruct args as [|a args]; [done|].
    pose proof (aux_entries_pos a args).
    rewrite (proj2 (Z.ltb_lt 0 _)) by lia.
    rewrite (Z.max_r 0) by lia.
    replace (16 + lenZ (encode_aux_entries (a :: args)) - 16)
      with (lenZ (encode_aux_entries (a :: args))) by lia.
    rewrite (proj2 (Z.leb_le _ (lenZ P))) by lia. unfold aux_part in Haux.
    do 4 (apply has_at_le_bytes in Haux as [_ Haux]; closed_sums Haux).
    rewrite (has_at_slice _ _ _ _ Haux) by done. simpl. by rewrite decode_encode_aux. }
  cbn [obind]. destruct payload as [|p0 pl].
  - simpl in Hb. by subst b.
  - destruct Hb as (v & Hv & ->). assert (0 < lenZ (p0 :: pl)) by len.
    rewrite (proj2 (Z.ltb_lt 0 _)) by lia. rewrite (proj2 (Z.leb_le _ (lenZ P))) by lia.
    cbn [andb]. rewrite (has_at_slice _ _ _ _ Hpay) by lia. cbn [or_panic obind].
    by rewrite Hv.
Qed.

(** The message of a header and a payload. *)
Definition finish (id conv ch : Z) (e : bool) (payload : list byte) : outcome Error DtxMessage :=
  let? r := decode_payload payload in Ok (MkDtx id conv ch e r.1.1 r.1.2 r.2).

Definition header_ok (id conv ch : Z) : Prop := in_u 32 id ∧ in_u 32 conv ∧ in_i 32 ch.

Lemma on_reader_exact n s w l1 l2 r :
  delivers (rx s) (l1 ++ l2) r → n = lenZ l1 →
  ∃ r1, on_reader (dtx_read_exact n) (s, w) = (Ok l1, (set_rx r1 s, w)) ∧ delivers r1 l2 r.
Proof.
  intros Hd Hn. destruct (read_exact_delivers id dtx_eof n s l1 l2 r Hd Hn) as (r1 & Hr & Hd1).
  exists r1. split; [|done]. unfold on_reader, zoom, smap_err, dtx_read_exact. simpl.
  by rewrite Hr.
Qed.

(** A message in one piece. *)
Lemma read_whole id conv ch e p s w l r :
  header_ok id conv ch → 0 < lenZ p < 2 ^ 32 →
  delivers (rx s) (dtx_header 0 1 (lenZ p) id conv ch e ++ p ++ l) r →
  ∃ r1, read_message_inner (s, w) = (finish id conv ch e p, (set_rx r1 s, w)) ∧
    delivers r1 l r.
Proof.
  intros (Hid & Hconv & Hch) Hp Hd.
  destruct (dtx_header_fields 0 1 (lenZ p) id conv ch e)
    as (Hm & Hi & Hc & Hl & Hfid & Hfc & Hfch & Hfe); [unfold in_u in *; lia..|done|].
  destruct (on_reader_exact 32 s w _ _ _ Hd) as (r1 & Hr1 & Hd1); [by rewrite lenZ_dtx_header|].
  destruct (on_reader_exact (lenZ p) (set_rx r1 s) w _ _ _ Hd1) as (r2 & Hr2 & Hd2); [done|].
  exists r2. split; [|done]. unfold read_message_inner, sbind at 1. rewrite Hr1.
  rewrite Hm. change (negb (0x795b3d1f =? 0x795b3d1f)) with false. cbv iota.
  rewrite Hi, Hc, Hl, Hfid, Hfc, Hfch, Hfe. rewrite (proj2 (Z.eqb_neq (lenZ p) 0)) by lia.
  change ((0 =? 0) && (1 <? 1)) with false. cbv iota.
  unfold sbind, lift. rewrite Hr2. unfold finish. by destruct (decode_payload p) as [[[]]| | |].
Qed.

(** C7. A message written by [encode_raw] is read back with all its fields,
    auxiliary values and body, wherever the stream is cut; a message with
    neither auxiliary values nor payload loses its type, which the empty
    message does not carry. *)
Theorem read_encoded_message id conv ch e ty args payload b s l r :
  header_ok id conv ch → Forall aux_ok args → parses payload b →
  lenZ (payload_part ty args payload) < 2 ^ 32 →
  delivers (rx s) (encode_raw id conv ch e ty args payload ++ l) r →
  ∃ r1, read_message s =
      (Ok (MkDtx id conv ch e
             (if decide (args = [] ∧ payload = []) then 0 else msg_type_val ty) args b),
       set_rx r1 s) ∧
    delivers r1 l r.
Proof.
  intros Hok Hargs Hb Hlen Hd. destruct (decide (args = [] ∧ payload = [])) as [[-> ->]|Hne].
  - simpl in Hb. subst b. change (encode_raw id conv ch e ty [] []) with
      (dtx_header 0 1 0 id conv ch e) in Hd.
    destruct Hok as (Hid & Hconv & Hch).
    destruct (dtx_header_fields 0 1 0 id conv ch e)
      as (Hm & Hi & Hc & Hl & Hfid & Hfc & Hfch & Hfe); [unfold in_u in *; lia..|done|].
    destruct (on_reader_exact 32 s None _ _ _ Hd) as (r1 & Hr1 & Hd1); [by rewrite lenZ_dtx_header|].
    exists r1. split; [|done]. unfold read_message, read_message_inner, sbind at 1. rewrite Hr1.
    rewrite Hm. change (negb (0x795b3d1f =? 0x795b3d1f)) with false. cbv iota.
    rewrite Hl, Hfid, Hfc, Hfch, Hfe. done.
  - rewrite encode_raw_parts in Hd; [|destruct args, payload; naive_solver|done].
    rewrite <-(assoc_L (++)) in Hd.
    pose proof (lenZ_payload_part ty args payload). pose proof (lenZ_nonneg payload).
    pose proof (lenZ_nonneg (aux_part args)).
    destruct (read_whole id conv ch e (payload_part ty args payload) s None l r Hok ltac:(lia) Hd) as (r1 & Hr1 & Hd1).
    exists r1. split; [|done]. unfold read_message. rewrite Hr1. unfold finish.
    by rewrite (decode_payload_part _ _ _ b).
Qed.

(** *** Fragments *)

(** One fragment after the first. *)
Record fragment : Type := Frag {
  f_id : Z; f_conv : Z; f_channel : Z; f_expects : bool; f_data : list byte
}.
Definition fragment_ok (f : fragment) : Prop :=
  in_u 32 (f_id f) ∧ in_u 32 (f_conv f + 1) ∧ in_u 32 (f_conv f) ∧ in_i 32 (f_channel f) ∧
  lenZ (f_data f) < 2 ^ 32.
Definition fragment_bytes (i count : Z) (f : fragment) : list byte :=
  dtx_header i count (lenZ (f_data f)) (f_id f) (f_conv f) (f_channel f) (f_expects f)
  ++ f_data f.
Fixpoint fragments_bytes (i count : Z) (fs : list fragment) : list byte :=
  match fs with
  | [] => []
  | f :: fs => fragment_bytes i count f ++ fragments_bytes (i + 1) count fs
  end.
(** The acknowledgements of the fragments that ask for one. *)
Definition ack_bytes (f : fragment) : list byte :=
  if f_expects f then encode_ack_raw (f_id f) (f_conv f + 1) (f_channel f) else [].
Definition fragment_acks (fs : list fragment) : list byte := concat (ack_bytes <$> fs).

Lemma write_ignoring_healthy l s : healthy s → write_ignoring l s = append_tx l s.
Proof.
  intros Hs. unfold write_ignoring. rewrite write_all_healthy by done.
  by rewrite flush_healthy by done.
Qed.

(** The acknowledgement of one fragment, and its data *)
Lemma acknowledge_fragment f (s w : stream) :
  in_u 32 (f_conv f + 1) → healthy w →
  (if f_expects f then
     let! conv := lift (u32_add (f_conv f) 1) in
     smodify (λ p : rw, (p.1, write_ignoring (encode_ack_raw (f_id f) conv (f_channel f)) <$> p.2))
   else sret tt) (s, Some w) = (Ok (E:=Error) tt, (s, Some (append_tx (ack_bytes f) w))).
Proof.
  intros Hc Hw. unfold ack_bytes. destruct (f_expects f); [|by rewrite append_tx_nil].
  unfold in_u in Hc. unfold sbind, lift. rewrite add_w_ok by (unfold in_u; lia).
  unfold smodify. cbn [fst snd fmap option_fmap option_map]. by rewrite write_ignoring_healthy.
Qed.
Lemma read_fragment_data data s w l r :
  delivers (rx s) (data ++ l) r →
  ∃ r1, (if 0 <? lenZ data then on_reader (dtx_read_exact (lenZ data)) else sret []) (s, w) =
      (Ok data, (set_rx r1 s, w)) ∧ delivers r1 l r.
Proof.
  intros Hd. destruct data as [|b data].
  - exists (rx s). split; [by destruct s|done].
  - rewrite (proj2 (Z.ltb_lt 0 _)) by len. by apply (on_reader_exact _ s w (b :: data)).
Qed.

Lemma read_fragments_all fs i count data s w l r :
  Forall fragment_ok fs → 0 ≤ i → i + lenZ fs ≤ count → in_u 16 count → healthy w →
  delivers (rx s) (fragments_bytes i count fs ++ l) r →
  ∃ r1, read_fragments (length fs) data (s, Some w) =
      (Ok (data ++ concat (f_data <$> fs)), (set_rx r1 s, Some (append_tx (fragment_acks fs) w))) ∧
    delivers r1 l r.
Proof.
  intros Hok. revert i data s w. induction Hok as [|f fs Hf _ IH];
    intros i data s w Hi Hc Hcount Hw Hd.
  - exists (rx s). simpl. rewrite app_nil_r, append_tx_nil. split; [|done]. by destruct s.
  - destruct Hf as (Hid & Hconv1 & Hconv & Hch & Hlen).
    assert (lenZ (f :: fs) = 1 + lenZ fs) as Hfs by len. pose proof (lenZ_nonneg fs).
    pose proof (lenZ_nonneg (f_data f)).
    cbn [fragments_bytes] in Hd. unfold fragment_bytes in Hd. rewrite <-!(assoc_L (++)) in Hd.
    destruct (dtx_header_fields i count (lenZ (f_data f)) (f_id f) (f_conv f) (f_channel f)
                (f_expects f)) as (_ & _ & _ & Hl & Hfid & Hfc & Hfch & Hfe);
      [unfold in_u in *; lia..|done|].
    destruct (on_reader_exact 32 s (Some w) _ _ _ Hd) as (r1 & Hr1 & Hd1);
      [by rewrite lenZ_dtx_header|].
    pose proof (acknowledge_fragment f (set_rx r1 s) w Hconv1 Hw) as Hack.
    set (w1 := append_tx (ack_bytes f) w) in *. assert (healthy w1) as Hw1 by (by destruct w).
    destruct (read_fragment_data (f_data f) (set_rx r1 s) (Some w1) _ r Hd1) as (r2 & Hr2 & Hd2).
    destruct (IH (i + 1) (data ++ f_data f) (set_rx r2 (set_rx r1 s)) w1) as (r3 & Hr3 & Hd3);
      [lia..|done|done|done|].
    exists r3. split; [|done]. cbn [length read_fragments]. erewrite sbind_ok by exact Hr1.
    rewrite Hl, Hfid, Hfc, Hfch, Hfe. erewrite (sbind_ok sget) by reflexivity. cbn [snd].
    erewrite sbind_ok by exact Hack. erewrite sbind_ok by exact Hr2. rewrite Hr3.
    unfold w1. rewrite !set_rx_set_rx, append_tx_app, <-(assoc_L (++)). done.
Qed.

Lemma decode_short_payload p : lenZ p < 12 → decode_payload p = Panic.
Proof.
  intros Hp. unfold decode_payload, slice. pose proof (lenZ_nonneg p).
  rewrite (get_slice_too_long p 8 12) by lia.
  destruct (get_slice p 0 4); [|done]. by destruct (get_slice p 4 8).
Qed.

(** C6. A message cut into fragments is read as the message it was cut
    from, with the identification of its first header; each fragment that
    asks for it is acknowledged under its own identification, and nothing
    else is written. *)
Theorem fragments_reassemble id conv ch e ty args payload b fs s w l r :
  header_ok id conv ch → Forall aux_ok args → parses payload b →
  concat (f_data <$> fs) = payload_part ty args payload →
  lenZ (payload_part ty args payload) < 2 ^ 32 →
  Forall fragment_ok fs → 0 < lenZ fs < 2 ^ 16 - 1 → healthy w →
  delivers (rx s)
    (dtx_header 0 (1 + lenZ fs) (lenZ (payload_part ty args payload)) id conv ch e
     ++ fragments_bytes 1 (1 + lenZ fs) fs ++ l) r →
  ∃ r1, read_message_inner (s, Some w) =
      (Ok (MkDtx id conv ch e (msg_type_val ty) args b),
       (set_rx r1 s, Some (append_tx (fragment_acks fs) w))) ∧
    delivers r1 l r.
Proof.
  intros (Hid & Hconv & Hch) Hargs Hb Hp Hlen Hfs Hn Hw Hd.
  pose proof (lenZ_payload_part ty args payload) as HP. pose proof (lenZ_nonneg payload).
  pose proof (lenZ_nonneg (aux_part args)).
  destruct (dtx_header_fields 0 (1 + lenZ fs) (lenZ (payload_part ty args payload)) id conv ch e)
    as (Hm & Hi & Hc & Hl & Hfid & Hfc & Hfch & Hfe); [unfold in_u in *; lia..|done|].
  destruct (on_reader_exact 32 s (Some w) _ _ _ Hd) as (r1 & Hr1 & Hd1);
    [by rewrite lenZ_dtx_header|].
  destruct (read_fragments_all fs 1 (1 + lenZ fs) [] (set_rx r1 s) w l r)
    as (r2 & Hr2 & Hd2); [done|lia|lia|unfold in_u; lia|done|done|].
  exists r2. split; [|done]. unfold read_message_inner. erewrite sbind_ok by exact Hr1.
  rewrite Hm. change (negb (0x795b3d1f =? 0x795b3d1f)) with false. cbv iota.
  rewrite Hi, Hc, Hl, Hfid, Hfc, Hfch, Hfe. rewrite (proj2 (Z.eqb_neq (lenZ _) 0)) by lia.
  rewrite (proj2 (Z.ltb_lt 1 _)) by lia. change ((0 =? 0) && true) with true. cbv iota.
  replace (Z.to_nat (1 + lenZ fs - 1)) with (length fs) by (unfold lenZ; lia).
  erewrite sbind_ok by exact Hr2. simpl ([] ++ _). rewrite Hp. unfold sbind, lift.
  by rewrite (decode_payload_part _ _ _ b).
Qed.

(** A message whose length field is between 1 and 11 stops the reading
    thread: the payload header is read from a slice that is too short. *)
Theorem short_message_panics id conv ch e p s w l r :
  header_ok id conv ch → 0 < lenZ p < 12 →
  delivers (rx s) (dtx_header 0 1 (lenZ p) id conv ch e ++ p ++ l) r →
  (read_message_inner (s, w)).1 = Panic.
Proof.
  intros Hok Hp Hd.
  destruct (read_whole id conv ch e p s w l r Hok ltac:(lia) Hd) as (r1 & -> & _).
  unfold finish. by rewrite decode_short_payload by lia.
Qed.
End round_trip.

(** ** Witnesses *)

Definition sample_fragments : list fragment :=
  let p := payload_part Reply [AInt32 (-1)] [] in
  [Frag 9 1 7 true (take 20 p); Frag 9 2 7 false []; Frag 9 3 7 true (drop 20 p)].

Lemma read_encoded_message_witness :
  ∃ r1, read_message (H:=debug_profile) (H0:=BitPlist.lib)
      (idle [RData (encode_raw 9 1 (-7) true Reply [AInt32 (-1); ABytes [xff]] [])]) =
    (Ok (MkDtx 9 1 (-7) true 3 [AInt32 (-1); ABytes [xff]] None),
     set_rx r1 (idle [RData (encode_raw 9 1 (-7) true Reply [AInt32 (-1); ABytes [xff]] [])])) ∧
    delivers r1 [] [].
Proof.
  apply (read_encoded_message (H:=debug_profile) (H0:=BitPlist.lib) 9 1 (-7) true Reply
    [AInt32 (-1); ABytes [xff]] [] None
    (idle [RData (encode_raw 9 1 (-7) true Reply [AInt32 (-1); ABytes [xff]] [])]) [] []).
  - apply (bool_decide_unpack _); vm_compute; exact I.
  - apply (bool_decide_unpack _); vm_compute; exact I.
  - reflexivity.
  - reflexivity.
  - rewrite app_nil_r. apply delivers_one. vm_compute. discriminate.
Defined.

Definition sample_fragmented : list byte :=
  dtx_header 0 4 (lenZ (payload_part Reply [AInt32 (-1)] [])) 9 1 7 false
  ++ fragments_bytes 1 4 sample_fragments.

Lemma fragments_reassemble_witness :
  ∃ r1, read_message_inner (H:=debug_profile) (H0:=BitPlist.lib)
      (idle [RData (take 100 sample_fragmented); RData (drop 100 sample_fragmented)],
       Some (idle [])) =
    (Ok (MkDtx 9 1 7 false 3 [AInt32 (-1)] None),
     (set_rx r1 (idle [RData (take 100 sample_fragmented); RData (drop 100 sample_fragmented)]),
      Some (append_tx (encode_ack_raw 9 2 7 ++ encode_ack_raw 9 4 7) (idle [])))) ∧
    delivers r1 [] [].
Proof.
  apply (fragments_reassemble (H:=debug_profile) (H0:=BitPlist.lib) 9 1 7 false Reply
    [AInt32 (-1)] [] None sample_fragments
    (idle [RData (take 100 sample_fragmented); RData (drop 100 sample_fragmented)]) (idle []) [] []).
  - apply (bool_decide_unpack _); vm_compute; exact I.
  - apply (bool_decide_unpack _); vm_compute; exact I.
  - reflexivity.
  - reflexivity.
  - reflexivity.
  - repeat constructor; vm_compute; discriminate.
  - split; reflexivity.
  - reflexivity.
  - apply (delivers_pieces [take 100 sample_fragmented; drop 100 sample_fragmented] []).
    repeat constructor; vm_compute; discriminate.
Defined.

Lemma short_message_panics_witness :
  (read_message_inner (H:=debug_profile) (H0:=BitPlist.lib)
     (idle [RData (dtx_header 0 1 1 0 0 0 false ++ [x00])], None)).1 = Panic.
Proof.
  apply (short_message_panics (H:=debug_profile) (H0:=BitPlist.lib) 0 0 0 false [x00]
    (idle [RData (dtx_header 0 1 1 0 0 0 false ++ [x00])]) None [] []).
  - apply (bool_decide_unpack _); vm_compute; exact I.
  - split; reflexivity.
  - apply delivers_one. vm_compute. discriminate.
Defined.
