(* ===== verification/DtxConn.v ===== *)
(** * The DTX connection ([src/dtx/mod.rs], [DtxConn] and [reader_loop])

    A connection is shared by its reading thread and by the threads that call
    it.  Each action below is one critical section of the code, so that every
    interleaving of the threads is a sequence of actions; an action that is
    not enabled is a thread that blocks.

    The writer is the stream under the [BufWriter] of the code, which is flushed
    after every frame: what a failed write leaves in that buffer is not modelled. *)

From stdpp Require Import gmap.
From S2P Require Import Prelude RustStd Io Plist Dtx.

(** ** State *)

(** What [call], [call_async] and [request_channel] return. *)
Inductive ret : Type := RetReply (m : DtxMessage) | RetSent | RetChannel (code : Z).

Inductive kind : Type := KCall | KAsync | KChannel (code : Z).

Inductive caller_pc : Type :=
  | Allocated
  | Inserted
  | Waiting
  | Done (r : outcome Error ret).

(** A thread in [call], [call_async] or [request_channel].  [slot] is the
    [sync_channel(1)] the reply comes through; its sender is the entry of
    [waiters] that names this thread. *)
Record caller : Type := Caller {
  k_kind : kind;
  k_id : Z;
  k_channel : Z;
  k_selector : string;
  k_aux : list AuxValue;
  k_pc : caller_pc;
  slot : option DtxMessage
}.

Inductive reader_pc : Type :=
  | RIdle
  | RReply (m : DtxMessage)
  | RCheck (m : DtxMessage)
  | RAck (m : DtxMessage)
  | RDispatch (m : DtxMessage)
  | RSending (m : DtxMessage) (q : nat)
  | RExited.

(** A [sync_channel(32)] and whether its receiver still exists. *)
Record queue : Type := Queue { q_items : list DtxMessage; q_open : bool }.

Record DtxConn : Type := MkConn {
  c_rx : stream;
  writer : stream;
  next_id : Z;
  next_chan : option Z;
  waiters : gmap Z nat;
  dispatchers : gmap Z nat;
  reader : reader_pc;
  callers : list caller;
  queues : list queue
}.

Definition new_conn (rx tx : stream) : DtxConn :=
  MkConn rx tx 5 (Some 1) ∅ ∅ RIdle [] [].

Definition set_writer (w : stream) (c : DtxConn) : DtxConn :=
  MkConn (c_rx c) w (next_id c) (next_chan c) (waiters c) (dispatchers c) (reader c)
    (callers c) (queues c).
Definition set_next_id (n : Z) (c : DtxConn) : DtxConn :=
  MkConn (c_rx c) (writer c) n (next_chan c) (waiters c) (dispatchers c) (reader c)
    (callers c) (queues c).
Definition set_next_chan (n : option Z) (c : DtxConn) : DtxConn :=
  MkConn (c_rx c) (writer c) (next_id c) n (waiters c) (dispatchers c) (reader c)
    (callers c) (queues c).
Definition set_waiters (w : gmap Z nat) (c : DtxConn) : DtxConn :=
  MkConn (c_rx c) (writer c) (next_id c) (next_chan c) w (dispatchers c) (reader c)
    (callers c) (queues c).
Definition set_dispatchers (d : gmap Z nat) (c : DtxConn) : DtxConn :=
  MkConn (c_rx c) (writer c) (next_id c) (next_chan c) (waiters c) d (reader c)
    (callers c) (queues c).
Definition set_reader (r : reader_pc) (c : DtxConn) : DtxConn :=
  MkConn (c_rx c) (writer c) (next_id c) (next_chan c) (waiters c) (dispatchers c) r
    (callers c) (queues c).
Definition set_callers (l : list caller) (c : DtxConn) : DtxConn :=
  MkConn (c_rx c) (writer c) (next_id c) (next_chan c) (waiters c) (dispatchers c) (reader c)
    l (queues c).
Definition set_queues (l : list queue) (c : DtxConn) : DtxConn :=
  MkConn (c_rx c) (writer c) (next_id c) (next_chan c) (waiters c) (dispatchers c) (reader c)
    (callers c) l.
Definition set_rx_tx (r w : stream) (c : DtxConn) : DtxConn :=
  MkConn r w (next_id c) (next_chan c) (waiters c) (dispatchers c) (reader c)
    (callers c) (queues c).

Definition set_pc (p : caller_pc) (k : caller) : caller :=
  Caller (k_kind k) (k_id k) (k_channel k) (k_selector k) (k_aux k) p (slot k).
Definition set_slot (m : option DtxMessage) (k : caller) : caller :=
  Caller (k_kind k) (k_id k) (k_channel k) (k_selector k) (k_aux k) (k_pc k) m.
Definition update_caller (t : nat) (f : caller → caller) (c : DtxConn) : DtxConn :=
  set_callers (alter f t (callers c)) c.

(** ** The calling threads *)

Definition alloc_id (c : DtxConn) : Z * DtxConn :=
  (next_id c, set_next_id (Z.max ((next_id c + 1) mod 2 ^ 32) 1) c).

(** [write_bytes] *)
Definition write_bytes (l : list byte) : ST stream Error unit :=
  smap_err EIo (write_all l) ;;; smap_err EIo flush.

Section conn.
Context `{BuildProfile} `{PlistLib}.

(** [call] and [call_full] begin by taking an identifier. *)
Definition start (k : kind) (channel : Z) (selector : string)
    (aux : list AuxValue) (c : DtxConn) : DtxConn :=
  let '(id, c) := alloc_id c in
  set_callers (callers c ++ [Caller k id channel selector aux Allocated None]) c.

Definition call (channel : Z) (selector : string) (aux : list AuxValue) : DtxConn → DtxConn :=
  start KCall channel selector aux.
Definition call_async (channel : Z) (selector : string) (aux : list AuxValue) :
    DtxConn → DtxConn :=
  start KAsync channel selector aux.


Definition handshake (c : DtxConn) : outcome Error unit * DtxConn :=
  match archive_capabilities_dict (E:=Error) with
  | Ok caps => (Ok tt, call_async 0 "_notifyOfPublishedCapabilities:" [ABytes caps] c)
  | _ => (Panic, c)
  end.

(** [*c += 1] on the [i32] behind [next_chan]: the overflow panics with the
    lock held where overflow is checked, and the lock is then poisoned. *)
Definition request_channel (identifier : string) (c : DtxConn) : outcome Error unit * DtxConn :=
  match next_chan c with
  | None => (Panic, c)
  | Some code =>
      if (2 ^ 31 <=? code + 1) && overflow_checks then (Panic, set_next_chan None c)
      else
        let c := set_next_chan (Some (swrap 32 (wrap 32 (code + 1)))) c in
        match archive_string (E:=Error) identifier with
        | Ok s =>
            (Ok tt, start (KChannel code) 0 "_requestChannelWithCode:identifier:"
                      [AInt32 code; ABytes s] c)
        | _ => (Panic, c)
        end
  end.

(** [self.waiters.lock().unwrap().insert(id, tx)], in the calls that wait. *)
Definition insert_waiter (t : nat) (c : DtxConn) : option DtxConn :=
  match callers c !! t with
  | Some k =>
      match k_pc k, k_kind k with
      | Allocated, KAsync => Some (update_caller t (set_pc Inserted) c)
      | Allocated, _ =>
          Some (update_caller t (set_pc Inserted) (set_waiters (<[k_id k := t]> (waiters c)) c))
      | _, _ => None
      end
  | None => None
  end.

Definition waits (k : kind) : bool := match k with KAsync => false | _ => true end.

(** [encode_call] and [write_bytes] *)
Definition send_call (t : nat) (c : DtxConn) : option DtxConn :=
  match callers c !! t with
  | Some k =>
      match k_pc k with
      | Inserted =>
          let frame :=
            encode_call (k_id k) 0 (k_channel k) (waits (k_kind k)) (k_selector k) (k_aux k) in
          Some (
            match frame with
            | Ok frame =>
                let '(r, w) := write_bytes frame (writer c) in
                update_caller t (set_pc
                  (match r with
                   | Ok _ => if waits (k_kind k) then Waiting else Done (Ok RetSent)
                   | Err e => Done (Err e)
                   | Panic => Done Panic
                   | OutOfFuel => Done OutOfFuel
                   end)) (set_writer w c)
            | Err e => update_caller t (set_pc (Done (Err e))) c
            | Panic => update_caller t (set_pc (Done Panic)) c
            | OutOfFuel => update_caller t (set_pc (Done OutOfFuel)) c
            end)
      | _ => None
      end
  | None => None
  end.

Definition timed_out (selector : string) : Error :=
  EProtocol (Msg "DTX call '{}' timed out" [FStr selector]).

Definition finish_call (k : caller) (m : DtxMessage) : outcome Error ret :=
  match k_kind k with KChannel code => Ok (RetChannel code) | _ => Ok (RetReply m) end.

(** [rx.recv_timeout(self.timeout)]: the message, or the end of the sender,
    which is the entry of [waiters]; [expired] when the deadline has passed. *)
Definition recv_timeout (expired : bool) (t : nat) (c : DtxConn) : option DtxConn :=
  match callers c !! t with
  | Some k =>
      match k_pc k, slot k with
      | Waiting, Some m => Some (update_caller t (set_pc (Done (finish_call k m))) c)
      | Waiting, None =>
          if decide (waiters c !! k_id k = Some t) then
            if expired then
              Some (update_caller t (set_pc (Done (Err (timed_out (k_selector k))))) c)
            else None
          else Some (update_caller t (set_pc (Done (Err EClosed))) c)
      | _, _ => None
      end
  | None => None
  end.

(** The lock on [dispatchers] is held while the reader sends to a queue. *)
Definition dispatchers_locked (c : DtxConn) : bool :=
  match reader c with RSending _ _ => true | _ => false end.

Definition register_channel (channel : Z) (c : DtxConn) : option DtxConn :=
  if dispatchers_locked c then None
  else
    Some (set_queues (queues c ++ [Queue [] true])
           (set_dispatchers (<[channel := length (queues c)]> (dispatchers c)) c)).

(** [Receiver::recv] and the end of a receiver, in the client code. *)
Definition queue_recv (q : nat) (c : DtxConn) : option (DtxMessage * DtxConn) :=
  match queues c !! q with
  | Some (Queue (m :: l) true) => Some (m, set_queues (<[q := Queue l true]> (queues c)) c)
  | _ => None
  end.
Definition queue_drop (q : nat) (c : DtxConn) : option DtxConn :=
  match queues c !! q with
  | Some (Queue _ true) => Some (set_queues (<[q := Queue [] false]> (queues c)) c)
  | _ => None
  end.

Definition lift_writer {A} (m : ST stream Error A) (c : DtxConn) : outcome Error A * DtxConn :=
  let '(r, w) := m (writer c) in (r, set_writer w c).
Definition ack (req : DtxMessage) (c : DtxConn) : outcome Error unit * DtxConn :=
  lift_writer (let! frame := lift (encode_ack req) in write_bytes frame) c.
Definition reply (req : DtxMessage) (payload : list byte) (c : DtxConn) :
    outcome Error unit * DtxConn :=
  lift_writer (let! frame := lift (encode_reply req payload) in write_bytes frame) c.

(** ** The reading thread *)

(** What the loop does with a message before it takes a lock. *)
Definition classify (m : DtxMessage) : reader_pc :=
  if 0 <? conv_id m then RReply m
  else if msg_type m =? msg_type_val Ack then RIdle
  else RCheck m.

(** [read_message_inner]; an error ends the thread, and so does a panic. *)
Definition reader_read (c : DtxConn) : DtxConn :=
  let '(r, p) := read_message_inner (c_rx c, Some (writer c)) in
  set_reader (match r with Ok m => classify m | _ => RExited end)
    (set_rx_tx p.1 (default (writer c) p.2) c).

(** [waiters.lock().unwrap().remove(&msg.msg_id)] and the send.  The channel
    has room for one message, and a receiver that is gone is ignored. *)
Definition reader_reply (m : DtxMessage) (c : DtxConn) : option DtxConn :=
  match waiters c !! msg_id m with
  | None => Some (set_reader RIdle c)
  | Some t =>
      let c' := set_reader RIdle (set_waiters (delete (msg_id m) (waiters c)) c) in
      match callers c !! t with
      | None => Some c'
      | Some k =>
          match k_pc k, slot k with
          | Done _, _ => Some c'
          | _, Some _ => None
          | _, None => Some (update_caller t (set_slot (Some m)) c')
          end
      end
  end.

Definition reader_check (m : DtxMessage) (c : DtxConn) : DtxConn :=
  let has_handler := bool_decide (is_Some (dispatchers c !! channel m)) in
  set_reader (if expects_reply m && negb has_handler then RAck m else RDispatch m) c.

Definition reader_ack (m : DtxMessage) (c : DtxConn) : DtxConn :=
  match encode_ack (E:=Error) m with
  | Ok l => set_reader (RDispatch m) (set_writer (write_ignoring l (writer c)) c)
  | _ => set_reader RExited c
  end.

Definition reader_dispatch (m : DtxMessage) (c : DtxConn) : DtxConn :=
  match dispatchers c !! channel m with
  | Some q => set_reader (RSending m q) c
  | None => set_reader RIdle c
  end.

(** [tx.send(msg)] blocks on a queue of 32 messages. *)
Definition reader_send (m : DtxMessage) (q : nat) (c : DtxConn) : option DtxConn :=
  match queues c !! q with
  | Some (Queue l true) =>
      if lenZ l <? 32 then
        Some (set_reader RIdle (set_queues (<[q := Queue (l ++ [m]) true]> (queues c)) c))
      else None
  | _ => Some (set_reader RIdle c)
  end.

Definition reader_step (c : DtxConn) : option DtxConn :=
  match reader c with
  | RIdle => Some (reader_read c)
  | RReply m => reader_reply m c
  | RCheck m => Some (reader_check m c)
  | RAck m => Some (reader_ack m c)
  | RDispatch m => Some (reader_dispatch m c)
  | RSending m q => reader_send m q c
  | RExited => None
  end.

(** ** Interleavings *)

Inductive action : Type :=
  | ACall (channel : Z) (selector : string) (aux : list AuxValue)
  | AAsync (channel : Z) (selector : string) (aux : list AuxValue)
  | AHandshake
  | ARequestChannel (identifier : string)
  | AInsert (t : nat)
  | ASend (t : nat)
  | ARecv (expired : bool) (t : nat)
  | ARegister (channel : Z)
  | AQueueRecv (q : nat)
  | AQueueDrop (q : nat)
  | AAck (req : DtxMessage)
  | AReply (req : DtxMessage) (payload : list byte)
  | AReader.

Definition exec (a : action) (c : DtxConn) : option DtxConn :=
  match a with
  | ACall ch s aux => Some (call ch s aux c)
  | AAsync ch s aux => Some (call_async ch s aux c)
  | AHandshake => Some (handshake c).2
  | ARequestChannel i => Some (request_channel i c).2
  | AInsert t => insert_waiter t c
  | ASend t => send_call t c
  | ARecv e t => recv_timeout e t c
  | ARegister ch => register_channel ch c
  | AQueueRecv q => snd <$> queue_recv q c
  | AQueueDrop q => queue_drop q c
  | AAck m => Some (ack m c).2
  | AReply m p => Some (reply m p c).2
  | AReader => reader_step c
  end.

Fixpoint run (l : list action) (c : DtxConn) : option DtxConn :=
  match l with
  | [] => Some c
  | a :: l => match exec a c with Some c => run l c | None => None end
  end.

Inductive steps : DtxConn → list action → DtxConn → Prop :=
  | steps_nil c : steps c [] c
  | steps_cons a c c' l c'' : exec a c = Some c' → steps c' l c'' → steps c (a :: l) c''.
Definition reachable (c : DtxConn) : Prop :=
  ∃ rx tx l, steps (new_conn rx tx) l c.

(** ** Where messages come from

    The messages the reading thread has read one after the other, and the stream
    it is at then. *)
Inductive reads (rx : stream) : list DtxMessage → stream → Prop :=
  | reads_nil : reads rx [] rx
  | reads_snoc l s w m p :
      reads rx l s → read_message_inner (s, Some w) = (Ok m, p) → reads rx (l ++ [m]) p.1.

(** A message that the connection holds outside of its queues. *)
Definition reader_message (r : reader_pc) : option DtxMessage :=
  match r with
  | RReply m | RCheck m | RAck m | RDispatch m | RSending m _ => Some m
  | RIdle | RExited => None
  end.
Definition caller_holds (m : DtxMessage) (k : caller) : Prop :=
  slot k = Some m ∨ k_pc k = Done (Ok (RetReply m)).
Definition holds (m : DtxMessage) (c : DtxConn) : Prop :=
  reader_message (reader c) = Some m ∨ ∃ t k, callers c !! t = Some k ∧ caller_holds m k.

Lemma holds_reader m c c' :
  callers c' = callers c → (reader_message (reader c') = Some m → reader_message (reader c) = Some m) →
  holds m c' → holds m c.
Proof. unfold holds. intros -> Hr [?|?]; auto. Qed.
Lemma holds_update m c c' t k f :
  callers c !! t = Some k → callers c' = alter f t (callers c) → reader c' = reader c →
  (caller_holds m (f k) → caller_holds m k) → holds m c' → holds m c.
Proof.
  unfold holds. intros Hk -> -> Hf [?|(i & k' & Hi & Hm)]; [auto|right].
  destruct (decide (i = t)) as [->|Hne].
  - rewrite list_lookup_alter_eq, Hk in Hi. injection Hi as <-. exists t, k. auto.
  - rewrite list_lookup_alter_ne in Hi by done. eauto.
Qed.
Lemma holds_start m kd ch sel au c : holds m (start kd ch sel au c) → holds m c.
Proof.
  intros [?|(t & k & Hk & Hm)]; [by left|right]. cbn in Hk.
  apply lookup_app_Some in Hk as [Hk|[_ Hk]]; [eauto|]. apply list_lookup_singleton_Some in Hk as [_ <-].
  by destruct Hm.
Qed.

(** No thread but the reading one brings in a message. *)
Lemma client_holds a c c' :
  a ≠ AReader → exec a c = Some c' →
  c_rx c' = c_rx c ∧ reader c' = reader c ∧ ∀ m, holds m c' → holds m c.
Proof.
  intros Ha He. destruct a as [ch sel au|ch sel au| |name|t|t|e t|ch|q|q|req|req l|]; cbn [exec] in He; [..|done].
  - injection He as <-. split_and!; [done..|]. intros m; apply holds_start.
  - injection He as <-. split_and!; [done..|]. intros m; apply holds_start.
  - injection He as <-. unfold handshake. destruct archive_capabilities_dict; split_and!; try done. intros m; apply holds_start.
  - injection He as <-. unfold request_channel. destruct (next_chan c); [|done]. case_match; [done|].
    destruct (archive_string name); split_and!; try done. intros m; apply holds_start.
  - unfold insert_waiter in He. destruct (callers c !! t) as [k|] eqn:Ek; [|done].
    destruct (k_pc k) eqn:Ep; try done. destruct (k_kind k); injection He as <-; split_and!; try done;
      (intros m; eapply (holds_update _ _ _ t k); [done..|]; intros [?|?]; [by left|done]).
  - unfold send_call in He. destruct (callers c !! t) as [k|] eqn:Ek; [|done].
    destruct (k_pc k) eqn:Ep; try done.
    destruct (encode_call _ _ _ _ _ _) as [l|e0| |]; [destruct (write_bytes l (writer c)) as [[u|e0| |] w]|..];
      injection He as <-; split_and!; try done;
      (intros m; eapply (holds_update _ _ _ t k); [done..|]; intros [?|Hd]; [by left|]; cbn in Hd;
       try destruct (waits (k_kind k)); done).
  - unfold recv_timeout in He. destruct (callers c !! t) as [k|] eqn:Ek; [|done].
    destruct (k_pc k) eqn:Ep; try done. destruct (slot k) as [m0|] eqn:Es.
    + injection He as <-. split_and!; [done..|]. intros m. eapply (holds_update _ _ _ t k); [done..|]. intros [?|Hd]; [by left|].
      unfold finish_call in Hd. cbn in Hd. left. destruct (k_kind k); congruence.
    + repeat case_decide; [destruct e; [|done]|]; injection He as <-; split_and!; try done;
        (intros m; eapply (holds_update _ _ _ t k); [done..|]; intros [?|Hd]; [by left|done]).
  - unfold register_channel in He. case_match; [done|]. by injection He as <-.
  - unfold queue_recv in He. by repeat case_match; simplify_eq/=.
  - unfold queue_drop in He. by repeat case_match; simplify_eq/=.
  - injection He as <-. unfold ack, lift_writer. by case_match.
  - injection He as <-. unfold reply, lift_writer. by case_match.
Qed.

(** A message that has been read from the stream [rx]. *)
Definition received (rx : stream) (m : DtxMessage) : Prop := ∃ l s, reads rx l s ∧ m ∈ l.

(** Whatever the threads do, a message that is held has been read from the stream. *)
Definition from_stream (rx : stream) (c : DtxConn) : Prop :=
  ∃ l s, reads rx l s ∧ (reader c ≠ RExited → c_rx c = s) ∧ ∀ m, holds m c → m ∈ l.

Lemma reader_step_from_stream rx c c' : reader_step c = Some c' → from_stream rx c → from_stream rx c'.
Proof.
  intros He (l & s & Hl & Hs & Hm). unfold reader_step in He.
  assert (∀ c', c_rx c' = c_rx c → reader c ≠ RExited → (∀ m, holds m c' → holds m c) → from_stream rx c') as Hsame.
  { intros c1 Hrx Hne Hh. exists l, s. split_and!; [done|by intros _; rewrite Hrx; apply Hs|auto]. }
  destruct (reader c) as [|m|m|m|m|m q|] eqn:Er; [..|done].
  - injection He as <-. unfold reader_read.
    destruct (read_message_inner (c_rx c, Some (writer c))) as [r p] eqn:E.
    assert (∀ m c1, callers c1 = callers c → reader_message (reader c1) = None → holds m c1 → m ∈ l) as Hquiet.
    { intros m c1 Hc Hn [Hr|Hx]; [congruence|]. apply Hm. right. by rewrite <-Hc. }
    destruct r as [m| | |]; [|exists l, s; split_and!; [done|done|intros m; by apply Hquiet]..].
    rewrite Hs in E by done. exists (l ++ [m]), p.1. split_and!; [by eapply reads_snoc|done|].
    intros m' [Hr|Hx]; rewrite elem_of_app, list_elem_of_singleton; cbn in *.
    + right. unfold classify in Hr. repeat case_match; cbn in Hr; congruence.
    + left. apply Hm. by right.
  - unfold reader_reply in He. destruct (waiters c !! msg_id m) as [t|];
      [|injection He as <-; apply Hsame; [done..|]; intros m'; by apply holds_reader].
    destruct (callers c !! t) as [k|] eqn:Ek;
      [|injection He as <-; apply Hsame; [done..|]; intros m'; by apply holds_reader].
    destruct (k_pc k), (slot k); try done; injection He as <-; (apply Hsame; [done..|]); intros m';
      try (by apply holds_reader).
    all: intros [Hr|(i & k' & Hi & Hk)]; [done|]; cbn in Hi;
      destruct (decide (i = t)) as [->|Hne];
      [rewrite list_lookup_alter_eq, Ek in Hi; injection Hi as <-; destruct Hk as [[= ->]|Hk];
         [left; by rewrite Er|right; exists t, k; split; [done|by right]]
      |rewrite list_lookup_alter_ne in Hi by done; right; by exists i, k'].
  - injection He as <-. apply Hsame; [done..|]. intros m'. apply holds_reader; [done|].
    rewrite Er. unfold reader_check. cbn. by case_match.
  - injection He as <-. unfold reader_ack. destruct (encode_ack m); (apply Hsame; [done..|]); intros m';
      apply holds_reader; rewrite ?Er; done.
  - injection He as <-. unfold reader_dispatch.
    destruct (dispatchers c !! channel m); (apply Hsame; [done..|]); intros m'; apply holds_reader; rewrite ?Er; done.
  - unfold reader_send in He. repeat case_match; simplify_eq/=; (apply Hsame; [done..|]); intros m';
      by apply holds_reader.
Qed.

Lemma exec_from_stream rx a c c' : exec a c = Some c' → from_stream rx c → from_stream rx c'.
Proof.
  intros He Hc. assert (a = AReader ∨ a ≠ AReader) as [->|Ha] by (destruct a; auto).
  - by eapply reader_step_from_stream.
  - destruct Hc as (l & s & Hl & Hs & Hm). exists l, s. split_and!; [done| |].
    + destruct (client_holds a c c' Ha He) as (-> & -> & _). apply Hs.
    + intros m Hh. apply Hm. by apply (client_holds a c c' Ha He).
Qed.

Lemma steps_from_stream rx tx l c : steps (new_conn rx tx) l c → from_stream rx c.
Proof.
  assert (from_stream rx (new_conn rx tx)) as Hnew.
  { exists [], rx. split_and!; [constructor|done|]. by intros m [?|(t & k & Hk & _)]. }
  revert Hnew. generalize (new_conn rx tx). intros c0 Hnew Hs. induction Hs as [|a c1 c2 l c3 He _ IH]; [done|].
  apply IH. by eapply exec_from_stream.
Qed.

(** A call that has returned a reply has been given one from the stream. *)
Lemma reply_received rx tx l c t k m :
  steps (new_conn rx tx) l c → callers c !! t = Some k → k_pc k = Done (Ok (RetReply m)) → received rx m.
Proof.
  intros (ms & s & Hr & _ & Hm)%steps_from_stream Hk Hd. exists ms, s. split; [done|].
  apply Hm. right. exists t, k. split; [done|by right].
Qed.

(** ** Identifiers and waiters *)

(** The identifier of the [n]-th call: 5, 6, and round through 1. *)
Definition nth_id (n : nat) : Z := 1 + (4 + Z.of_nat n) mod (2 ^ 32 - 1).

Definition matches (k : caller) (m : DtxMessage) : Prop :=
  msg_id m = k_id k ∧ 0 < conv_id m.

Record caller_ok (t : nat) (k : caller) : Prop := {
  ok_id : k_id k = nth_id t;
  ok_slot : ∀ m, slot k = Some m → matches k m;
  ok_fresh : k_pc k = Allocated → slot k = None;
  ok_done : ∀ m, k_pc k = Done (Ok (RetReply m)) → matches k m
}.
(** The entry [id] of [waiters] names the call [k]. *)
Record waiter_of (id : Z) (k : caller) : Prop := {
  w_id : k_id k = id;
  w_slot : slot k = None;
  w_pc : k_pc k ≠ Allocated
}.
(** A call that waits and has no message has its entry in [waiters]. *)
Record live_ok (w : gmap Z nat) (t : nat) (k : caller) : Prop := {
  live_waits : waits (k_kind k) = true → slot k = None → k_pc k = Inserted ∨ k_pc k = Waiting →
    w !! k_id k = Some t;
  live_kind : k_pc k = Waiting → waits (k_kind k) = true;
  live_closed : k_pc k ≠ Done (Err EClosed)
}.
Record calls_ok (n : Z) (w : gmap Z nat) (ks : list caller) : Prop := {
  ok_next : n = nth_id (length ks);
  ok_callers : ∀ t k, ks !! t = Some k → caller_ok t k;
  ok_waiters : ∀ id t, w !! id = Some t → ∃ k, ks !! t = Some k ∧ waiter_of id k;
  ok_live : lenZ ks ≤ 2 ^ 32 - 1 → ∀ t k, ks !! t = Some k → live_ok w t k
}.
Definition calls_inv (c : DtxConn) : Prop := calls_ok (next_id c) (waiters c) (callers c).

Lemma nth_id_next n : Z.max ((nth_id n + 1) mod 2 ^ 32) 1 = nth_id (S n).
Proof.
  unfold nth_id. rewrite Nat2Z.inj_succ.
  replace (4 + Z.succ (Z.of_nat n)) with (4 + Z.of_nat n + 1) by lia. set (x := 4 + Z.of_nat n).
  pose proof (Z.mod_pos_bound x (2 ^ 32 - 1) ltac:(lia)).
  rewrite <-(Z.add_mod_idemp_l x 1) by lia. set (y := x mod (2 ^ 32 - 1)) in *.
  destruct (decide (y = 2 ^ 32 - 2)) as [->|].
  - done.
  - rewrite !Z.mod_small by lia. lia.
Qed.

Lemma nth_id_inj t t' n : (t < n)%nat → (t' < n)%nat → Z.of_nat n ≤ 2 ^ 32 - 1 → nth_id t = nth_id t' → t = t'.
Proof.
  unfold nth_id. intros Ht Ht' Hn Heq.
  assert ((4 + Z.of_nat t) mod (2 ^ 32 - 1) = (4 + Z.of_nat t') mod (2 ^ 32 - 1)) as Hm by lia.
  pose proof (Z.div_mod (4 + Z.of_nat t) (2 ^ 32 - 1) ltac:(lia)).
  pose proof (Z.div_mod (4 + Z.of_nat t') (2 ^ 32 - 1) ltac:(lia)).
  rewrite Hm in *. nia.
Qed.

Implicit Types (t : nat) (f : caller → caller) (ks : list caller).

Lemma lookup_update t f ks t' k' :
  alter f t ks !! t' = Some k' →
  (t' = t ∧ ∃ k, ks !! t = Some k ∧ k' = f k) ∨ (t' ≠ t ∧ ks !! t' = Some k').
Proof.
  intros Hk. destruct (decide (t' = t)) as [->|].
  - rewrite list_lookup_alter_eq in Hk. destruct (ks !! t) as [k|] eqn:E; [|done].
    injection Hk as <-. left. eauto.
  - rewrite list_lookup_alter_ne in Hk by done. auto.
Qed.
Lemma lookup_updated t f ks k :
  ks !! t = Some k → alter f t ks !! t = Some (f k).
Proof. intros E. by rewrite list_lookup_alter_eq, E. Qed.

Lemma lenZ_alter {A} t (f : A → A) l : lenZ (alter f t l) = lenZ l.
Proof. unfold lenZ. by rewrite length_alter. Qed.

(** A new call. *)
Lemma calls_ok_start n w ks k :
  calls_ok n w ks → k_id k = n → k_pc k = Allocated → slot k = None →
  calls_ok (Z.max ((n + 1) mod 2 ^ 32) 1) w (ks ++ [k]).
Proof.
  intros [Hn Hc Hw Hl] Hid Hpc Hslot. split.
  - rewrite Hn, nth_id_next, length_app. simpl. f_equal. lia.
  - intros t k' Hk. apply lookup_app_Some in Hk as [Hk|[Hle Hk]]; [by apply Hc|].
    apply list_lookup_singleton_Some in Hk as [Ht <-]. split; try congruence.
    rewrite Hid, Hn. f_equal. lia.
  - intros id t Ht. destruct (Hw id t Ht) as (k' & Hk' & ?). exists k'.
    split; [|done]. by apply lookup_app_l_Some.
  - intros Hlen t k' Hk. apply lookup_app_Some in Hk as [Hk|[Hle Hk]].
    + apply Hl; [|done]. rewrite lenZ_app in Hlen. pose proof (lenZ_nonneg [k]). lia.
    + apply list_lookup_singleton_Some in Hk as [Ht <-]. split; [|congruence..].
      intros _ _ []; congruence.
Qed.

(** A call that moves on. *)
Lemma calls_ok_pc n w ks t k p :
  calls_ok n w ks → ks !! t = Some k → p ≠ Allocated →
  (∀ m, p = Done (Ok (RetReply m)) → matches k m) →
  (lenZ ks ≤ 2 ^ 32 - 1 → live_ok w t (set_pc p k)) →
  calls_ok n w (alter (set_pc p) t ks).
Proof.
  intros [Hn Hc Hw Hl] Hk Hp Hm Hlive. split.
  - by rewrite length_alter.
  - intros t' k' Hk'. apply lookup_update in Hk' as [(-> & k0 & Hk0 & ->)|[? Hk']]; [|by apply Hc].
    assert (k0 = k) as -> by congruence. destruct (Hc _ _ Hk). by split.
  - intros id t' Ht'. destruct (Hw id t' Ht') as (k' & Hk' & [? ? ?]).
    destruct (decide (t' = t)) as [->|].
    + exists (set_pc p k). split; [by apply lookup_updated|]. assert (k' = k) as -> by congruence.
      by split.
    + exists k'. split; [|done]. by rewrite list_lookup_alter_ne.
  - rewrite lenZ_alter. intros Hlen t' k' Hk'.
    apply lookup_update in Hk' as [(-> & k0 & Hk0 & ->)|[? Hk']]; [|by apply Hl].
    assert (k0 = k) as -> by congruence. by apply Hlive.
Qed.

(** A call that begins to wait. *)
Lemma calls_ok_insert n w ks t k :
  calls_ok n w ks → ks !! t = Some k → k_pc k = Allocated →
  calls_ok n (<[k_id k := t]> w) (alter (set_pc Inserted) t ks).
Proof.
  intros [Hn Hc Hw Hl] Hk Hpc. split.
  - by rewrite length_alter.
  - intros t' k' Hk'. apply lookup_update in Hk' as [(-> & k0 & Hk0 & ->)|[? Hk']]; [|by apply Hc].
    assert (k0 = k) as -> by congruence. destruct (Hc _ _ Hk). by split.
  - intros id t' Ht'. destruct (decide (id = k_id k)) as [->|].
    + rewrite lookup_insert_eq in Ht'. injection Ht' as <-. exists (set_pc Inserted k).
      split; [by apply lookup_updated|]. split; [done| |done]. by apply (ok_fresh _ _ (Hc _ _ Hk)).
    + rewrite lookup_insert_ne in Ht' by done. destruct (Hw id t' Ht') as (k' & Hk' & [? ? ?]).
      exists k'. split; [|done]. rewrite list_lookup_alter_ne; [done|]. congruence.
  - rewrite lenZ_alter. intros Hlen t' k' Hk'.
    apply lookup_update in Hk' as [(-> & k0 & Hk0 & ->)|[? Hk']].
    + assert (k0 = k) as -> by congruence. split; [|done..]. simpl. by rewrite lookup_insert_eq.
    + destruct (Hl Hlen t' k' Hk'). split; [|done..]. intros. rewrite lookup_insert_ne; [auto|].
      destruct (Hc _ _ Hk) as [-> _ _ _], (Hc _ _ Hk') as [-> _ _ _]. intros Heq.
      apply (nth_id_inj _ _ (length ks)) in Heq; [done|by eapply lookup_lt_Some..|done].
Qed.

(** A reply that is delivered, or whose call has gone. *)
Lemma calls_ok_deliver n w ks t k m :
  calls_ok n w ks → w !! msg_id m = Some t → ks !! t = Some k → 0 < conv_id m →
  calls_ok n (delete (msg_id m) w) (alter (set_slot (Some m)) t ks).
Proof.
  intros [Hn Hc Hw Hl] Ht Hk Hm. destruct (Hw _ _ Ht) as (k1 & Hk1 & [Hid Hs Hpc]).
  assert (k1 = k) as -> by congruence. split.
  - by rewrite length_alter.
  - intros t' k' Hk'. apply lookup_update in Hk' as [(-> & k0 & Hk0 & ->)|[? Hk']]; [|by apply Hc].
    assert (k0 = k) as -> by congruence. destruct (Hc _ _ Hk). split; [done| |simpl; congruence|done].
    intros m' [= <-]. by split.
  - intros id t' Ht'. apply lookup_delete_Some in Ht' as [Hne Ht'].
    destruct (Hw id t' Ht') as (k' & Hk' & []). exists k'.
    split; [|done]. rewrite list_lookup_alter_ne; [done|]. congruence.
  - rewrite lenZ_alter. intros Hlen t' k' Hk'.
    apply lookup_update in Hk' as [(-> & k0 & Hk0 & ->)|[? Hk']].
    + assert (k0 = k) as -> by congruence. destruct (Hl Hlen _ _ Hk). by split.
    + destruct (Hl Hlen _ _ Hk'). split; [|done..]. intros. rewrite lookup_delete_ne; [auto|].
      intros Heq. rewrite Heq in Ht. rewrite live_waits0 in Ht by done. congruence.
Qed.
Lemma calls_ok_delete n w ks t k m r :
  calls_ok n w ks → w !! msg_id m = Some t → ks !! t = Some k → k_pc k = Done r →
  calls_ok n (delete (msg_id m) w) ks.
Proof.
  intros [Hn Hc Hw Hl] Ht Hk Hpc. split; [done..| |].
  - intros id t' Ht'. apply lookup_delete_Some in Ht' as [Hne Ht']. by apply Hw.
  - intros Hlen t' k' Hk'. destruct (Hl Hlen _ _ Hk'). split; [|done..].
    intros ? ? Hp. rewrite lookup_delete_ne; [auto|]. intros Heq. rewrite Heq in Ht.
    rewrite live_waits0 in Ht by done. injection Ht as ->.
    assert (k' = k) as -> by congruence. destruct Hp; congruence.
Qed.

(** ** The reader and the queues *)

(** A message that goes to the queue of its channel. *)
Definition unsolicited (m : DtxMessage) : Prop :=
  ¬ 0 < conv_id m ∧ msg_type m ≠ msg_type_val Ack.

Definition reader_ok (d : gmap Z nat) (r : reader_pc) : Prop :=
  match r with
  | RReply m => 0 < conv_id m
  | RCheck m | RAck m | RDispatch m => unsolicited m
  | RSending m q => unsolicited m ∧ d !! channel m = Some q
  | RIdle | RExited => True
  end.

Record queue_ok (d : gmap Z nat) (i : nat) (q : queue) : Prop := {
  q_bound : lenZ (q_items q) ≤ 32;
  q_msgs : Forall unsolicited (q_items q);
  q_channel : ∀ ch, d !! ch = Some i → Forall (λ m, channel m = ch) (q_items q)
}.
Record queues_ok (d : gmap Z nat) (qs : list queue) : Prop := {
  ok_registered : ∀ ch i, d !! ch = Some i → (i < length qs)%nat;
  ok_own : ∀ ch ch' i, d !! ch = Some i → d !! ch' = Some i → ch = ch';
  ok_queue : ∀ i q, qs !! i = Some q → queue_ok d i q
}.
Record inv (c : DtxConn) : Prop := {
  inv_calls : calls_inv c;
  inv_reader : reader_ok (dispatchers c) (reader c);
  inv_queues : queues_ok (dispatchers c) (queues c)
}.

Lemma classify_ok d m : reader_ok d (classify m).
Proof.
  unfold classify. destruct (0 <? conv_id m) eqn:E; zhyps; [done|].
  destruct (msg_type m =? msg_type_val Ack) eqn:E'; zhyps; [done|]. split; [lia|done].
Qed.

Lemma queues_ok_update d qs i q l b :
  queues_ok d qs → qs !! i = Some q →
  (queue_ok d i q → queue_ok d i (Queue l b)) → queues_ok d (<[i := Queue l b]> qs).
Proof.
  intros [Hr Ho Hq] Hi Hl. split; [|done|].
  - intros ch j Hj. rewrite length_insert. eauto.
  - intros j q' Hj. destruct (decide (j = i)) as [->|].
    + rewrite list_lookup_insert_eq in Hj by by eapply lookup_lt_Some.
      injection Hj as <-. auto.
    + rewrite list_lookup_insert_ne in Hj by done. auto.
Qed.

Lemma queues_ok_register d qs ch :
  queues_ok d qs → queues_ok (<[ch := length qs]> d) (qs ++ [Queue [] true]).
Proof.
  intros [Hr Ho Hq]. split.
  - intros ch' i Hi. rewrite length_app. simpl.
    apply lookup_insert_Some in Hi as [[_ <-]|[_ Hi]]; [lia|]. apply Hr in Hi. lia.
  - intros ch1 ch2 i H1 H2.
    apply lookup_insert_Some in H1 as [[<- <-]|[? H1]], H2 as [[<- H2]|[? H2]]; try done;
      [by apply Hr in H2; lia|subst i; by apply Hr in H1; lia|eauto].
  - intros i q Hi. apply lookup_app_Some in Hi as [Hi|[Hle Hi]].
    + destruct (Hq _ _ Hi). split; [done..|]. intros ch' Hch.
      apply lookup_insert_Some in Hch as [[_ Heq]|[_ Hch]]; [|auto].
      apply lookup_lt_Some in Hi. lia.
    + apply list_lookup_singleton_Some in Hi as [_ <-]. by split.
Qed.

Lemma inv_new rx tx : inv (new_conn rx tx).
Proof.
  split; [|done|].
  - by split.
  - by split.
Qed.

Lemma start_inv k ch s aux c : inv c → inv (start k ch s aux c).
Proof.
  intros [Hc Hr Hq]. split; [|done..]. unfold start, calls_inv. simpl.
  by apply calls_ok_start.
Qed.

Lemma insert_waiter_inv t c c' : insert_waiter t c = Some c' → inv c → inv c'.
Proof.
  unfold insert_waiter. intros He [Hc Hr Hq]. destruct (callers c !! t) as [k|] eqn:Hk; [|done].
  destruct (k_pc k) eqn:Hpc; try done. destruct (k_kind k) eqn:Hkind; simplify_eq;
    (split; [|done..]); [by apply calls_ok_insert| |by apply calls_ok_insert].
  apply (calls_ok_pc _ _ _ _ k); try done. intros Hlen. split; [|done..].
  simpl. by rewrite Hkind.
Qed.

Lemma write_bytes_open l s : write_bytes l s ≠ (Err EClosed, (write_bytes l s).2).
Proof.
  unfold write_bytes, sbind, smap_err.
  by destruct (write_all l s) as [[] s1]; [destruct (flush s1) as [[] ?]|..].
Qed.

Lemma send_call_inv t c c' : send_call t c = Some c' → inv c → inv c'.
Proof.
  unfold send_call. intros He [Hc Hr Hq]. destruct (callers c !! t) as [k|] eqn:Hk; [|done].
  destruct (k_pc k) eqn:Hpc; try done.
  assert (∀ p, p ≠ Allocated → (∀ m, p ≠ Done (Ok (RetReply m))) → p ≠ Done (Err EClosed) →
    (p = Waiting → waits (k_kind k) = true) → p ≠ Inserted →
    calls_ok (next_id c) (waiters c) (alter (set_pc p) t (callers c))) as Hset.
  { intros p Ha Hm Hcl Hw Hi. apply (calls_ok_pc _ _ _ _ k); [done..| |].
    - by intros m ?%Hm.
    - intros Hlen. destruct (ok_live _ _ _ Hc Hlen _ _ Hk) as [Hlw _ _].
      split; [|done..]. simpl. intros ? ? _. auto. }
  destruct (encode_call _ _ _ _ _ _) as [frame|e| |] eqn:Hf; simplify_eq.
  - pose proof (write_bytes_open frame (writer c)) as Hwb.
    destruct (write_bytes frame (writer c)) as [r w]. simplify_eq.
    split; [|done..]. unfold calls_inv. simpl. apply Hset; destruct r; try done;
      try by destruct (waits (k_kind k)). simpl in Hwb. congruence.
  - split; [|done..]. apply Hset; try done. unfold encode_call in Hf.
    destruct (archive_string _) as [| | |] eqn:Ha in Hf; simplify_eq/=.
    unfold archive_string, archive_primitive, or_panic in Ha. by case_match.
  - split; [|done..]. by apply Hset.
  - split; [|done..]. by apply Hset.
Qed.

Lemma recv_timeout_inv e t c c' : recv_timeout e t c = Some c' → inv c → inv c'.
Proof.
  unfold recv_timeout. intros He [Hc Hr Hq]. destruct (callers c !! t) as [k|] eqn:Hk; [|done].
  destruct (k_pc k) eqn:Hpc; try done. destruct (slot k) as [m|] eqn:Hs.
  - simplify_eq. split; [|done..]. apply (calls_ok_pc _ _ _ _ k); try done.
    + unfold finish_call. intros m'. destruct (k_kind k); intros [= <-];
        by apply (ok_slot _ _ (ok_callers _ _ _ Hc _ _ Hk)).
    + intros Hlen. split; simpl; try done; [by intros _ _ []|].
      unfold finish_call. by destruct (k_kind k).
  - destruct (decide _) as [Hw|Hw]; [destruct e; [|done]|]; simplify_eq; (split; [|done..]);
      (apply (calls_ok_pc _ _ _ _ k); [done|done|done|by intros m [=]|intros Hlen]).
    + split; simpl; [by intros _ _ []|done|]. intros [=].
    + destruct (ok_live _ _ _ Hc Hlen _ _ Hk) as [Hlw Hlk _]. destruct Hw; auto.
Qed.

Lemma reader_reply_inv m c c' :
  reader_reply m c = Some c' → 0 < conv_id m → inv c → inv c'.
Proof.
  unfold reader_reply. intros He Hm [Hc Hr Hq]. destruct (waiters c !! msg_id m) as [t|] eqn:Ht.
  - destruct (ok_waiters _ _ _ Hc _ _ Ht) as (k & Hk & [Hid Hs Hpc]). rewrite Hk, Hs in He.
    destruct (k_pc k) eqn:E; simplify_eq; (split; [|done..]);
      [by eapply calls_ok_deliver..|by eapply calls_ok_delete].
  - simplify_eq. by split.
Qed.

Lemma reader_send_inv m q c c' :
  reader_send m q c = Some c' → unsolicited m → dispatchers c !! channel m = Some q →
  inv c → inv c'.
Proof.
  unfold reader_send. intros He Hm Hd [Hc Hr Hq].
  destruct (queues c !! q) as [[l []]|] eqn:E; [destruct (lenZ l <? 32) eqn:El; [|done]|..];
    simplify_eq; (split; [done..|]); try done.
  eapply queues_ok_update; [done..|]. zhyps. intros [Hb Hu Hch]. simpl in *. split; simpl.
  - rewrite lenZ_app. change (lenZ [m]) with 1. lia.
  - by apply Forall_app_2; [|constructor].
  - intros ch Hch'. apply Forall_app_2; [by apply Hch|]. constructor; [|done].
    by eapply (ok_own _ _ Hq).
Qed.

Lemma reader_step_inv c c' : reader_step c = Some c' → inv c → inv c'.
Proof.
  unfold reader_step. intros He Hi. pose proof (inv_reader _ Hi) as Hr.
  destruct (reader c) as [|m|m|m|m|m q|] eqn:E; simpl in Hr.
  - simplify_eq. destruct Hi as [Hc _ Hq]. unfold reader_read.
    destruct (read_message_inner _) as [[m| | |] p]; split; try done. apply classify_ok.
  - by eapply reader_reply_inv.
  - simplify_eq. destruct Hi as [Hc _ Hq]. unfold reader_check. split; [done| |done].
    simpl. by destruct (_ && _).
  - simplify_eq. destruct Hi as [Hc _ Hq]. unfold reader_ack. by destruct (encode_ack m).
  - simplify_eq. destruct Hi as [Hc _ Hq]. unfold reader_dispatch.
    by destruct (dispatchers c !! channel m) eqn:Ed.
  - destruct Hr. by eapply reader_send_inv.
  - done.
Qed.

Lemma queue_recv_inv q c m c' : queue_recv q c = Some (m, c') → inv c → inv c'.
Proof.
  unfold queue_recv. intros He [Hc Hr Hq]. destruct (queues c !! q) as [[[|m' l] []]|] eqn:E; try done.
  simplify_eq. split; [done..|]. eapply queues_ok_update; [done..|]. intros [Hb Hu Hch].
  simpl in *. split; simpl.
  - rewrite lenZ_cons in Hb. lia.
  - by apply Forall_cons_1 in Hu as [_ ?].
  - intros ch Hd. by apply Hch, Forall_cons_1 in Hd as [_ ?].
Qed.
Lemma queue_drop_inv q c c' : queue_drop q c = Some c' → inv c → inv c'.
Proof.
  unfold queue_drop. intros He [Hc Hr Hq]. destruct (queues c !! q) as [[l []]|] eqn:E; try done.
  simplify_eq. split; [done..|]. by eapply queues_ok_update.
Qed.

Lemma lift_writer_inv {A} (m : ST stream Error A) c : inv c → inv (lift_writer m c).2.
Proof. unfold lift_writer. intros [Hc Hr Hq]. by destruct (m (writer c)). Qed.

(** Every critical section keeps the invariant. *)
Lemma exec_inv a c c' : exec a c = Some c' → inv c → inv c'.
Proof.
  destruct a; simpl; intros He Hi; simplify_eq; try by apply start_inv.
  - unfold handshake. destruct (archive_capabilities_dict); try done. by apply start_inv.
  - unfold request_channel. destruct (next_chan c); [|done].
    destruct (_ && _); [by destruct Hi|].
    destruct (archive_string _); try apply start_inv; by destruct Hi.
  - by eapply insert_waiter_inv.
  - by eapply send_call_inv.
  - by eapply recv_timeout_inv.
  - unfold register_channel in He. destruct (dispatchers_locked c) eqn:El; simplify_eq.
    destruct Hi as [Hc Hr Hq]. split; [done| |by apply queues_ok_register].
    simpl. unfold dispatchers_locked in El. by destruct (reader c).
  - destruct (queue_recv q c) as [[m c1]|] eqn:E; simplify_eq/=. by eapply queue_recv_inv.
  - by eapply queue_drop_inv.
  - by apply lift_writer_inv.
  - by apply lift_writer_inv.
  - by eapply reader_step_inv.
Qed.

Lemma steps_inv c l c' : steps c l c' → inv c → inv c'.
Proof. induction 1; eauto using exec_inv. Qed.
Lemma reachable_inv c : reachable c → inv c.
Proof. intros (rx & tx & l & Hs). eapply steps_inv; [done|apply inv_new]. Qed.

(** ** Without the reader *)

(** The call [k] has the reply [m], returned or waiting in its channel. *)
Definition has_reply (k : caller) (m : DtxMessage) : Prop :=
  slot k = Some m ∨ k_pc k = Done (Ok (RetReply m)).
(** No call of [c'] has a reply that it had not in [c]. *)
Definition no_new_reply (c c' : DtxConn) : Prop :=
  ∀ t k m, callers c' !! t = Some k → has_reply k m →
    ∃ k0, callers c !! t = Some k0 ∧ has_reply k0 m.

#[export] Instance no_new_reply_preorder : PreOrder no_new_reply.
Proof.
  split.
  - intros c t k m Hk Hm. eauto.
  - intros c1 c2 c3 H12 H23 t k m Hk Hm. destruct (H23 _ _ _ Hk Hm) as (k' & Hk' & Hm'). eauto.
Qed.

Lemma no_new_reply_start k ch s aux c : no_new_reply c (start k ch s aux c).
Proof.
  intros t k' m Hk Hm. simpl in Hk. apply lookup_app_Some in Hk as [Hk|[_ Hk]]; [eauto|].
  apply list_lookup_singleton_Some in Hk as [_ <-]. by destruct Hm.
Qed.
Lemma no_new_reply_pc c c' t p :
  callers c' = alter (set_pc p) t (callers c) →
  (∀ m k, callers c !! t = Some k → p = Done (Ok (RetReply m)) → has_reply k m) →
  no_new_reply c c'.
Proof.
  intros Hc Hp t' k' m Hk' Hm. rewrite Hc in Hk'.
  apply lookup_update in Hk' as [(-> & k & Hk & ->)|[_ Hk']]; [|eauto].
  exists k. split; [done|]. destruct Hm as [Hm|Hm]; [by left|]. by apply Hp.
Qed.
Lemma no_new_reply_same c c' : callers c' = callers c → no_new_reply c c'.
Proof. intros Hc t k m Hk Hm. rewrite Hc in Hk. eauto. Qed.

Lemma lift_writer_frame {A} (m : ST stream Error A) c :
  callers (lift_writer m c).2 = callers c ∧ reader (lift_writer m c).2 = reader c ∧
  queues (lift_writer m c).2 = queues c.
Proof. unfold lift_writer. by destruct (m (writer c)). Qed.

Lemma exec_client_replies a c c' : a ≠ AReader → exec a c = Some c' → no_new_reply c c'.
Proof.
  intros Ha He. destruct a; simpl in He; simplify_eq; try apply no_new_reply_start.
  - unfold handshake. destruct (archive_capabilities_dict); try done. apply no_new_reply_start.
  - unfold request_channel. destruct (next_chan c); [|done].
    destruct (_ && _); [by apply no_new_reply_same|].
    destruct (archive_string _); try by apply no_new_reply_same.
    etrans; [|apply no_new_reply_start]. by apply no_new_reply_same.
  - unfold insert_waiter in He. destruct (callers c !! t) as [k|] eqn:Hk; [|done].
    destruct (k_pc k); try done. destruct (k_kind k); simplify_eq; by eapply no_new_reply_pc.
  - unfold send_call in He. destruct (callers c !! t) as [k|] eqn:Hk; [|done].
    destruct (k_pc k); try done. destruct (encode_call _ _ _ _ _ _); simplify_eq;
      try by eapply no_new_reply_pc.
    destruct (write_bytes _ _) as [r w]. eapply no_new_reply_pc; [done|].
    intros m k'. destruct r; try done. by destruct (waits (k_kind k)).
  - unfold recv_timeout in He. destruct (callers c !! t) as [k|] eqn:Hk; [|done].
    destruct (k_pc k); try done. destruct (slot k) as [m|] eqn:Hs.
    + simplify_eq. eapply no_new_reply_pc; [done|]. intros m' k' Hk'.
      assert (k' = k) as -> by congruence. unfold finish_call.
      destruct (k_kind k); intros; simplify_eq; by left.
    + destruct (decide _); [destruct expired; [|done]|]; simplify_eq; by eapply no_new_reply_pc.
  - unfold register_channel in He. destruct (dispatchers_locked c); simplify_eq.
    by apply no_new_reply_same.
  - unfold queue_recv in He. destruct (queues c !! q) as [[[|? ?] []]|]; simplify_eq/=.
    by apply no_new_reply_same.
  - unfold queue_drop in He. destruct (queues c !! q) as [[? []]|]; simplify_eq/=.
    by apply no_new_reply_same.
  - apply no_new_reply_same, lift_writer_frame.
  - apply no_new_reply_same, lift_writer_frame.
Qed.

Lemma start_frame k ch s aux c :
  reader (start k ch s aux c) = reader c ∧ queues (start k ch s aux c) = queues c.
Proof. done. Qed.

Lemma exec_client_reader a c c' i q :
  a ≠ AReader → exec a c = Some c' → a ≠ AQueueRecv i → a ≠ AQueueDrop i →
  queues c !! i = Some q → reader c' = reader c ∧ queues c' !! i = Some q.
Proof.
  intros Ha He Hr Hd Hq. destruct a; simpl in He; simplify_eq; try done.
  - unfold handshake. by destruct (archive_capabilities_dict).
  - unfold request_channel. destruct (next_chan c); [|done].
    destruct (_ && _); [done|]. by destruct (archive_string _).
  - unfold insert_waiter in He. destruct (callers c !! t) as [k|]; [|done].
    destruct (k_pc k); try done. by destruct (k_kind k); simplify_eq.
  - unfold send_call in He. destruct (callers c !! t) as [k|]; [|done].
    destruct (k_pc k); try done. destruct (encode_call _ _ _ _ _ _); simplify_eq; try done.
    by destruct (write_bytes _ _).
  - unfold recv_timeout in He. destruct (callers c !! t) as [k|]; [|done].
    destruct (k_pc k); try done. destruct (slot k); simplify_eq; try done.
    by destruct (decide _); [destruct expired; [|done]|]; simplify_eq.
  - unfold register_channel in He. destruct (dispatchers_locked c); simplify_eq. simpl.
    split; [done|]. by apply lookup_app_l_Some.
  - unfold queue_recv in He. destruct (queues c !! q0) as [[[|? ?] []]|] eqn:E; simplify_eq/=.
    split; [done|]. rewrite list_lookup_insert_ne; [done|]. congruence.
  - unfold queue_drop in He. destruct (queues c !! q0) as [[? []]|] eqn:E; simplify_eq/=.
    split; [done|]. rewrite list_lookup_insert_ne; [done|]. congruence.
  - unfold ack. by rewrite !(proj1 (proj2 (lift_writer_frame _ _))), !(proj2 (proj2 (lift_writer_frame _ _))).
  - unfold reply. by rewrite !(proj1 (proj2 (lift_writer_frame _ _))), !(proj2 (proj2 (lift_writer_frame _ _))).
Qed.

(** The reader blocks on the queue [i], which is full. *)
Definition blocked_on (i : nat) (c : DtxConn) : Prop :=
  ∃ m l, reader c = RSending m i ∧ queues c !! i = Some (Queue l true) ∧ 32 ≤ lenZ l.

Lemma blocked_reader_step i c : blocked_on i c → reader_step c = None.
Proof.
  intros (m & l & Hr & Hq & Hl). unfold reader_step. rewrite Hr. unfold reader_send.
  rewrite Hq. by rewrite (proj2 (Z.ltb_ge _ _)).
Qed.

Lemma blocked_steps i c l c' :
  blocked_on i c → steps c l c' → AQueueRecv i ∉ l → AQueueDrop i ∉ l →
  blocked_on i c' ∧ no_new_reply c c'.
Proof.
  intros Hb Hs. induction Hs as [c|a c c1 l c2 He Hs IH]; intros Hr Hd; [done|].
  apply not_elem_of_cons in Hr as [Hr1 Hr], Hd as [Hd1 Hd].
  assert (a ≠ AReader) as Ha.
  { intros ->. simpl in He. by rewrite (blocked_reader_step i) in He. }
  destruct Hb as (m & l0 & Hread & Hq & Hl).
  destruct (exec_client_reader a c c1 i (Queue l0 true)) as [Hread1 Hq1]; [congruence..|].
  destruct IH as [Hb' Hn]; [exists m, l0; split; [congruence|done]|done|done|].
  split; [done|]. etrans; [|done]. by eapply exec_client_replies.
Qed.

(** A full queue of one channel stalls the whole connection: until its
    receiver takes a message or goes away, whatever else happens, the reader
    stays where it is, no call gets a reply that it had not, and
    [register_channel] blocks. *)
Theorem full_queue_stalls i c l c' :
  blocked_on i c → steps c l c' → AQueueRecv i ∉ l → AQueueDrop i ∉ l →
  blocked_on i c' ∧ no_new_reply c c' ∧ reader_step c' = None ∧
  ∀ ch, register_channel ch c' = None.
Proof.
  intros Hb Hs Hr Hd. destruct (blocked_steps i c l c' Hb Hs Hr Hd) as [Hb' Hn].
  split_and!; [done..|by eapply blocked_reader_step|].
  destruct Hb' as (m & l' & Hread & _). intros ch.
  unfold register_channel, dispatchers_locked. by rewrite Hread.
Qed.

(** C9. In every reachable state the reading thread can go on, unless it
    has ended or the queue it sends to has 32 messages and a receiver: it
    never blocks on delivering a reply. *)
Theorem reader_blocks_only_on_full_queue c :
  reachable c →
  (reader_step c = None ↔ reader c = RExited ∨ ∃ i, blocked_on i c).
Proof.
  intros Hi%reachable_inv. split.
  - unfold reader_step. destruct (reader c) as [|m|m|m|m|m q|] eqn:Hr; try done; [| |by left].
    + unfold reader_reply. destruct (waiters c !! msg_id m) as [t|] eqn:Ht; [|done].
      destruct (ok_waiters _ _ _ (inv_calls _ Hi) _ _ Ht) as (k & -> & [_ -> _]).
      by destruct (k_pc k).
    + unfold reader_send. destruct (queues c !! q) as [[l []]|] eqn:E; [|done..].
      destruct (lenZ l <? 32) eqn:El; [done|]. zhyps. intros _. right. by exists q, m, l.
  - intros [Hr|[i Hb]]; [|by eapply blocked_reader_step]. unfold reader_step. by rewrite Hr.
Qed.

(** C1. A call returns only a reply to its own identifier, in whatever
    order the threads run and the replies come. *)
Theorem reply_matches_call c t k m :
  reachable c → callers c !! t = Some k → k_pc k = Done (Ok (RetReply m)) →
  msg_id m = k_id k ∧ 0 < conv_id m.
Proof.
  intros Hi%reachable_inv Hk. by apply (ok_done _ _ (ok_callers _ _ _ (inv_calls _ Hi) _ _ Hk)).
Qed.

(** The identifiers are 5, 6 and so on, never 0, and come round to 1
    after 2^32 - 1: two calls share one only if that many calls lie between
    them. *)
Theorem call_ids c t k :
  reachable c → callers c !! t = Some k →
  k_id k = 1 + (4 + Z.of_nat t) mod (2 ^ 32 - 1) ∧
  ∀ t' k', callers c !! t' = Some k' → k_id k' = k_id k → lenZ (callers c) ≤ 2 ^ 32 - 1 → t' = t.
Proof.
  intros Hi%reachable_inv Hk. pose proof (ok_callers _ _ _ (inv_calls _ Hi)) as Hc.
  split; [by apply (ok_id _ _ (Hc _ _ Hk))|]. intros t' k' Hk' Heq Hlen.
  rewrite (ok_id _ _ (Hc _ _ Hk)), (ok_id _ _ (Hc _ _ Hk')) in Heq.
  apply (nth_id_inj _ _ (length (callers c))) in Heq; [done|by eapply lookup_lt_Some..|done].
Qed.

(** As long as the identifiers have not come round, no call returns
    [Error::Closed], not even once the reading thread has ended: a call that
    waits keeps its entry in [waiters], so that it can only time out. *)
Theorem calls_never_closed c t k :
  reachable c → lenZ (callers c) ≤ 2 ^ 32 - 1 → callers c !! t = Some k →
  k_pc k ≠ Done (Err EClosed) ∧
  (k_pc k = Waiting → slot k = None →
     recv_timeout false t c = None ∧
     recv_timeout true t c =
       Some (update_caller t (set_pc (Done (Err (timed_out (k_selector k))))) c)).
Proof.
  intros Hi%reachable_inv Hlen Hk.
  destruct (ok_live _ _ _ (inv_calls _ Hi) Hlen _ _ Hk) as [Hw Hkind Hcl].
  split; [done|]. intros Hpc Hs. unfold recv_timeout. rewrite Hk, Hpc, Hs.
  by rewrite !decide_True by auto.
Qed.

(** C8. A call that waits gets the reply the reader reads next, if it
    carries the call's identifier. *)
Theorem call_returns_reply c t k m p :
  reachable c → lenZ (callers c) ≤ 2 ^ 32 - 1 →
  callers c !! t = Some k → k_pc k = Waiting → slot k = None → reader c = RIdle →
  read_message_inner (c_rx c, Some (writer c)) = (Ok m, p) →
  msg_id m = k_id k → 0 < conv_id m →
  ∃ c', run [AReader; AReader; ARecv false t] c = Some c' ∧
    (∃ k', callers c' !! t = Some k' ∧ k_pc k' = Done (finish_call k m)) ∧
    waiters c' !! k_id k = None ∧ reader c' = RIdle.
Proof.
  intros Hi%reachable_inv Hlen Hk Hpc Hs Hread Hmsg Hid Hm.
  destruct (ok_live _ _ _ (inv_calls _ Hi) Hlen _ _ Hk) as [Hw Hkind _].
  specialize (Hw (Hkind Hpc) Hs (or_intror Hpc)). rewrite <-Hid in *.
  cbn [run exec]. unfold reader_step at 1. rewrite Hread. unfold reader_read. rewrite Hmsg.
  unfold classify. rewrite (proj2 (Z.ltb_lt _ _)) by done.
  unfold reader_step, reader_reply. simpl. rewrite Hw. simpl. rewrite Hk, Hpc, Hs.
  unfold recv_timeout. simpl. rewrite (lookup_updated _ _ _ _ Hk). simpl. rewrite Hpc.
  eexists. split; [done|]. simpl. split_and!.
  - eexists. split; [apply lookup_updated; by apply lookup_updated|done].
  - by rewrite lookup_delete_eq.
  - done.
Qed.

(** A registered queue holds at most 32 messages, all of its channel,
    and neither replies nor bare acknowledgements. *)
Theorem queue_messages c ch i q :
  reachable c → dispatchers c !! ch = Some i → queues c !! i = Some q →
  lenZ (q_items q) ≤ 32 ∧
  Forall (λ m, channel m = ch ∧ ¬ 0 < conv_id m ∧ msg_type m ≠ msg_type_val Ack) (q_items q).
Proof.
  intros Hi%reachable_inv Hd Hq.
  destruct (ok_queue _ _ (inv_queues _ Hi) _ _ Hq) as [Hb Hu Hch].
  split; [done|]. rewrite Forall_and. split; [by apply Hch|done].
Qed.
End conn.

(** ** Witnesses *)

Lemma run_steps `{BuildProfile} `{PlistLib} l c c' : run l c = Some c' → steps c l c'.
Proof.
  revert c. induction l as [|a l IH]; intros c; simpl.
  - intros [= ->]. constructor.
  - destruct (exec a c) as [c1|] eqn:E; [|done]. intros. econstructor; eauto.
Qed.
Lemma run_reachable `{BuildProfile} `{PlistLib} l rx tx c :
  run l (new_conn rx tx) = Some c → reachable c.
Proof. intros. exists rx, tx, l. by apply run_steps. Qed.

Section witnesses.
#[local] Existing Instance debug_profile.
#[local] Existing Instance BitPlist.lib.

(** A device that answers the first call and says nothing else. *)
Definition sample_rx : stream := idle [RData (encode_raw 5 1 0 false Reply [AInt32 7] [])].
Definition after (l : list action) (c : DtxConn) : DtxConn := default c (run l c).
Definition to_waiting : list action := [ACall 0 "a:" [AInt32 1]; AInsert 0; ASend 0].
Definition to_answered : list action := [AReader; AReader; ARecv false 0].
Definition sample_waiting : DtxConn := after to_waiting (new_conn sample_rx (idle [])).
Definition sample_answered : DtxConn :=
  after (to_waiting ++ to_answered) (new_conn sample_rx (idle [])).

(** A device that sends 33 messages of channel 1. *)
Definition sample_flood : stream :=
  idle ((λ i, RData (encode_raw (Z.of_nat i) 0 1 true MethodInvoke [AInt32 (Z.of_nat i)] []))
          <$> seq 0 33).
Definition to_full : list action := ARegister 1 :: replicate 131 AReader.
Definition sample_full : DtxConn := after to_full (new_conn sample_flood (idle [])).

Lemma run_after l c : is_Some (run l c) → run l c = Some (after l c).
Proof. unfold after. by intros [c' ->]. Qed.
Lemma after_reachable l rx tx :
  bool_decide (is_Some (run l (new_conn rx tx))) = true → reachable (after l (new_conn rx tx)).
Proof. intros Hs%bool_decide_eq_true. eapply run_reachable. by apply run_after. Qed.

Lemma sample_waiting_reachable : reachable sample_waiting.
Proof. apply after_reachable. vm_compute. reflexivity. Qed.
Lemma sample_answered_reachable : reachable sample_answered.
Proof. apply after_reachable. vm_compute. reflexivity. Qed.
Lemma sample_full_reachable : reachable sample_full.
Proof. apply after_reachable. vm_compute. reflexivity. Qed.
Lemma sample_full_blocked : blocked_on 0 sample_full.
Proof.
  unfold blocked_on. do 2 eexists. split_and!; [vm_compute; reflexivity..|].
  vm_compute. discriminate.
Qed.

Definition to_stalled : list action := [ACall 1 "b:" []; AInsert 0; ASend 0; ARecv true 0].
Definition sample_stalled : DtxConn := after to_stalled sample_full.

Lemma full_queue_stalls_witness :
  blocked_on 0 sample_stalled ∧
  no_new_reply sample_full sample_stalled ∧
  reader_step sample_stalled = None ∧
  ∀ ch, register_channel ch sample_stalled = None.
Proof.
  apply (full_queue_stalls 0 sample_full to_stalled).
  - apply sample_full_blocked.
  - apply run_steps, run_after, (bool_decide_unpack _). vm_compute. exact I.
  - intros Hin. repeat (apply elem_of_cons in Hin as [Hin|Hin]; [discriminate|]).
    by apply elem_of_nil in Hin.
  - intros Hin. repeat (apply elem_of_cons in Hin as [Hin|Hin]; [discriminate|]).
    by apply elem_of_nil in Hin.
Defined.

Lemma reader_blocks_only_on_full_queue_witness :
  reader_step sample_full = None ↔ reader sample_full = RExited ∨ ∃ i, blocked_on i sample_full.
Proof. apply (reader_blocks_only_on_full_queue sample_full), sample_full_reachable. Defined.

Definition sample_reply : DtxMessage := MkDtx 5 1 0 false 3 [AInt32 7] None.

Lemma reply_matches_call_witness : msg_id sample_reply = 5 ∧ 0 < conv_id sample_reply.
Proof.
  apply (reply_matches_call sample_answered 0
    (Caller KCall 5 0 "a:" [AInt32 1] (Done (Ok (RetReply sample_reply))) (Some sample_reply))).
  - apply sample_answered_reachable.
  - vm_compute. reflexivity.
  - reflexivity.
Defined.

Definition sample_caller : caller := Caller KCall 5 0 "a:" [AInt32 1] Waiting None.

Lemma call_ids_witness :
  k_id sample_caller = 1 + (4 + 0) mod (2 ^ 32 - 1) ∧
  ∀ t' k', callers sample_waiting !! t' = Some k' → k_id k' = k_id sample_caller →
    lenZ (callers sample_waiting) ≤ 2 ^ 32 - 1 → t' = 0%nat.
Proof.
  apply (call_ids sample_waiting 0 sample_caller).
  - apply sample_waiting_reachable.
  - vm_compute. reflexivity.
Defined.

Lemma calls_never_closed_witness :
  k_pc sample_caller ≠ Done (Err EClosed) ∧
  (k_pc sample_caller = Waiting → slot sample_caller = None →
   recv_timeout false 0 sample_waiting = None ∧
   recv_timeout true 0 sample_waiting =
     Some (update_caller 0 (set_pc (Done (Err (timed_out "a:")))) sample_waiting)).
Proof.
  apply (calls_never_closed sample_waiting 0 sample_caller).
  - apply sample_waiting_reachable.
  - vm_compute. discriminate.
  - vm_compute. reflexivity.
Defined.

Lemma call_returns_reply_witness :
  ∃ c', run [AReader; AReader; ARecv false 0] sample_waiting = Some c' ∧
    (∃ k', callers c' !! 0%nat = Some k' ∧ k_pc k' = Done (Ok (RetReply sample_reply))) ∧
    waiters c' !! 5 = None ∧ reader c' = RIdle.
Proof.
  eapply (call_returns_reply sample_waiting 0 sample_caller sample_reply).
  - apply sample_waiting_reachable.
  - vm_compute. discriminate.
  - vm_compute. reflexivity.
  - reflexivity.
  - reflexivity.
  - vm_compute. reflexivity.
  - vm_compute. reflexivity.
  - reflexivity.
  - reflexivity.
Defined.

Lemma queue_messages_witness :
  lenZ (q_items (default (Queue [] true) (queues sample_full !! 0%nat))) ≤ 32 ∧
  Forall (λ m, channel m = 1 ∧ ¬ 0 < conv_id m ∧ msg_type m ≠ msg_type_val Ack)
    (q_items (default (Queue [] true) (queues sample_full !! 0%nat))).
Proof.
  apply (queue_messages sample_full 1 0).
  - apply sample_full_reachable.
  - vm_compute. reflexivity.
  - vm_compute. reflexivity.
Defined.
End witnesses.
