(* ===== verification/Afc.v ===== *)
(** * The file conduit ([src/lockdown/services/afc.rs])

    The AFC client: packets with a counter, one response for each request, and
    on them the operations on directories, paths and file handles, whole-file
    transfers and the house-arrest preamble.  The local file system is a class
    ([LocalFs]), used by the transfers between files. *)

From stdpp Require Import gmap strings.
From S2P Require Import Prelude RustStd Io Plist Os Lockdown.

Definition AFC_SERVICE : string := "com.apple.afc".
Definition MAGIC : list byte := bytes_of "CFA6LPAA".
Definition HEADER_SIZE : Z := 40.
Definition READ_CHUNK : Z := 4 * 1024 * 1024.
Definition WRITE_CHUNK : Z := 256 * 1024.

Definition OP_STATUS : Z := 0x01.
Definition OP_DATA : Z := 0x02.
Definition OP_READ_DIR : Z := 0x03.
Definition OP_REMOVE_PATH : Z := 0x08.
Definition OP_MAKE_DIR : Z := 0x09.
Definition OP_GET_FILE_INFO : Z := 0x0a.
Definition OP_GET_DEVINFO : Z := 0x0b.
Definition OP_FILE_OPEN : Z := 0x0d.
Definition OP_FILE_OPEN_RES : Z := 0x0e.
Definition OP_FILE_READ : Z := 0x0f.
Definition OP_FILE_WRITE : Z := 0x10.
Definition OP_FILE_CLOSE : Z := 0x14.
Definition OP_RENAME_PATH : Z := 0x22.
Definition OP_MAKE_LINK : Z := 0x28.

Definition FOPEN_RDONLY : Z := 0x01.
Definition FOPEN_WR : Z := 0x04.

Definition STATUS_SUCCESS : Z := 0.
Definition STATUS_OBJECT_EXISTS : Z := 16.
Definition STATUS_END_OF_DATA : Z := 14.

(** ** Helpers *)

Definition nul_str (s : string) : list byte := bytes_of s ++ [x00].

Definition le_u64 (buf : list byte) (offset : Z) : Z :=
  match get_slice buf offset (offset + 8) with
  | Some l => le_val l
  | None => 0
  end.

Definition parse_nul_strings (data : list byte) : list string :=
  from_utf8_lossy <$> filter (λ s, s ≠ []) (split_on is_nul data).

(** A map of strings: [collect] inserts the pairs in order. *)
Definition parse_kv_pairs (data : list byte) : gmap string string :=
  foldl (λ m c, match c with [k; v] => <[k := v]> m | _ => m end) ∅
    (chunks 2 (parse_nul_strings data)).

Definition is_slash (b : byte) : bool := bool_decide (b = "/"%byte).
Definition leaf (path : string) : string :=
  string_of (default (bytes_of path) (last (split_on is_slash (bytes_of path)))).

Definition status_text (code : Z) : string :=
  match code with
  | 0 => "success"
  | 1 => "unknown error"
  | 2 => "invalid header"
  | 3 => "no resources"
  | 4 => "read error"
  | 5 => "write error"
  | 6 => "unknown packet type"
  | 7 => "invalid arg"
  | 8 => "not found"
  | 9 => "is a directory"
  | 10 => "permission denied"
  | 11 => "not connected"
  | 12 => "timeout"
  | 13 => "too much data"
  | 14 => "end of data"
  | 15 => "not supported"
  | 16 => "object exists"
  | 17 => "object busy"
  | 18 => "no space left"
  | 20 => "I/O error"
  | _ => "unknown"
  end.
(** The arguments of [{name} (code {code})]. *)
Definition status_name (code : Z) : list fmt_arg := [FStr (status_text code); FNum code].

(** ** What the device tells of a file *)

Inductive FileType : Type := Regular | Directory | Symlink | Other.
#[export] Instance FileType_eq_dec : EqDecision FileType.
Proof. solve_decision. Defined.

Definition FileType_from_str (s : string) : FileType :=
  if decide (s = "S_IFREG"%string) then Regular
  else if decide (s = "S_IFDIR"%string) then Directory
  else if decide (s = "S_IFLNK"%string) then Symlink
  else Other.
Definition indicator (t : FileType) : byte :=
  match t with Regular => "-" | Directory => "d" | Symlink => "l" | Other => "?" end%byte.

Record FileInfo : Type := MkFileInfo {
  name : string;
  file_type : FileType;
  size : Z;
  modified_nanos : Z;
  link_target : option string
}.

Definition num_or_0 (o : option string) : Z := default 0 (o ≫= parse_uint 64).

Definition FileInfo_parse (name : string) (data : list byte) : FileInfo :=
  let pairs := parse_kv_pairs data in
  MkFileInfo name
    (default Other (FileType_from_str <$> pairs !! "st_ifmt"%string))
    (num_or_0 (pairs !! "st_size"%string))
    (num_or_0 (pairs !! "st_mtime"%string))
    (pairs !! "LinkTarget"%string).

Record AfcDeviceInfo : Type := MkAfcDeviceInfo {
  model : string;
  total_bytes : Z;
  free_bytes : Z;
  block_size : Z
}.

Definition AfcDeviceInfo_parse (data : list byte) : AfcDeviceInfo :=
  let pairs := parse_kv_pairs data in
  MkAfcDeviceInfo (default ""%string (pairs !! "Model"%string))
    (num_or_0 (pairs !! "FSTotalBytes"%string))
    (num_or_0 (pairs !! "FSFreeBytes"%string))
    (num_or_0 (pairs !! "FSBlockSize"%string)).

(** ** The client *)

Record AfcClient : Type := MkAfc { afc_stream : MuxSocket; packet_num : Z }.

Definition afc_from_stream (stream : MuxSocket) : AfcClient := MkAfc stream 0.

Definition afc_sock (c : AfcClient) : stream := mux_stream (afc_stream c).
Definition set_afc_sock (s : stream) (c : AfcClient) : AfcClient :=
  MkAfc (set_mux_stream s (afc_stream c)) (packet_num c).
Definition on_afc {A} (m : ST stream Error A) : ST AfcClient Error A :=
  zoom afc_sock set_afc_sock m.

Definition afc_read_exact (n : Z) : ST stream Error (list byte) := read_exact Io Closed n.

(** [vec![0u8; n]]: a capacity of more than [isize::MAX] bytes panics. *)
Definition alloc_zeroed {E} (n : Z) : outcome E unit := if n <? 2 ^ 63 then Ok tt else Panic.

Definition afc_err {A} (template : string) (args : list fmt_arg) : ST AfcClient Error A :=
  sfail (Afc (Msg template args)).

Definition write_nonempty (l : list byte) : ST stream Error unit :=
  match l with [] => sret tt | _ => smap_err Io (write_all l) end.

Section client.
Context `{BuildProfile}.

Definition packet_header (entire this num op : Z) : list byte :=
  MAGIC ++ le_bytes 8 entire ++ le_bytes 8 this ++ le_bytes 8 num ++ le_bytes 8 op.

Definition send_request (op : Z) (args file_data : list byte) : ST AfcClient Error unit :=
  let this_length := HEADER_SIZE + lenZ args in
  let entire_length := this_length + lenZ file_data in
  let! c := sget in
  let! n := lift (u64_add (packet_num c) 1) in
  smodify (λ c, MkAfc (afc_stream c) n) ;;;
  on_afc (
    smap_err Io (write_all (packet_header entire_length this_length n op)) ;;;
    write_nonempty args ;;;
    write_nonempty file_data ;;;
    smap_err Io flush).

Definition recv_response : ST AfcClient Error (Z * list byte) :=
  let! hdr := on_afc (afc_read_exact HEADER_SIZE) in
  if negb (bool_decide (get_slice hdr 0 8 = Some MAGIC)) then
    sfail (Afc (msg0 "bad AFC magic in response"))
  else
    let entire_length := le_u64 hdr 8 in
    let this_length := le_u64 hdr 16 in
    let op := le_u64 hdr 32 in
    let args_len := saturating_sub this_length HEADER_SIZE in
    let data_len := saturating_sub entire_length this_length in
    let! n := lift (usize_add args_len data_len) in
    lift (alloc_zeroed n) ;;;
    let! payload := (if 0 <? n then on_afc (afc_read_exact n) else sret []) in
    sret (op, payload).

Definition expect_status (context : list fmt_arg) : ST AfcClient Error unit :=
  let! r := recv_response in
  if r.1 =? OP_STATUS then
    let code := le_u64 r.2 0 in
    if code =? STATUS_SUCCESS then sret tt
    else afc_err "{context}: {}" (context ++ status_name code)
  else afc_err "{context}: unexpected op {op:#x}" (context ++ [FHex r.1]).

(** *** Directories *)

Definition list_dir (path : string) : ST AfcClient Error (list string) :=
  send_request OP_READ_DIR (nul_str path) [] ;;;
  let! r := recv_response in
  if r.1 =? OP_DATA then
    sret (filter (λ n, n ≠ "."%string ∧ n ≠ ".."%string) (parse_nul_strings r.2))
  else if r.1 =? OP_STATUS then
    afc_err "list_dir {path}: {}" (FStr path :: status_name (le_u64 r.2 0))
  else afc_err "list_dir: unexpected op {op:#x}" [FHex r.1].

Definition get_file_info (path : string) : ST AfcClient Error FileInfo :=
  send_request OP_GET_FILE_INFO (nul_str path) [] ;;;
  let! r := recv_response in
  if r.1 =? OP_DATA then sret (FileInfo_parse (leaf path) r.2)
  else if r.1 =? OP_STATUS then
    afc_err "stat {path}: {}" (FStr path :: status_name (le_u64 r.2 0))
  else afc_err "stat: unexpected op {op:#x}" [FHex r.1].

Definition device_info : ST AfcClient Error AfcDeviceInfo :=
  send_request OP_GET_DEVINFO [] [] ;;;
  let! r := recv_response in
  if r.1 =? OP_DATA then sret (AfcDeviceInfo_parse r.2)
  else if r.1 =? OP_STATUS then
    afc_err "device_info: {}" (status_name (le_u64 r.2 0))
  else afc_err "device_info: unexpected op {op:#x}" [FHex r.1].

Definition mkdir (path : string) : ST AfcClient Error unit :=
  send_request OP_MAKE_DIR (nul_str path) [] ;;;
  let! r := recv_response in
  if r.1 =? OP_STATUS then
    let code := le_u64 r.2 0 in
    if (code =? STATUS_SUCCESS) || (code =? STATUS_OBJECT_EXISTS) then sret tt
    else afc_err "mkdir {path}: {}" (FStr path :: status_name code)
  else afc_err "mkdir: unexpected op {op:#x}" [FHex r.1].

(** *** Paths *)

Definition remove_path (path : string) : ST AfcClient Error unit :=
  send_request OP_REMOVE_PATH (nul_str path) [] ;;;
  expect_status [FStr "remove"; FStr path].

Definition rename (from to : string) : ST AfcClient Error unit :=
  send_request OP_RENAME_PATH (nul_str from ++ nul_str to) [] ;;;
  expect_status [FStr "rename"; FStr from; FStr "->"; FStr to].

Definition make_link (hard : bool) (target link_name : string) : ST AfcClient Error unit :=
  let link_type := if hard then 1 else 2 in
  send_request OP_MAKE_LINK (le_bytes 8 link_type ++ nul_str target ++ nul_str link_name) [] ;;;
  expect_status [FStr "make_link"; FStr link_name].

(** *** File handles *)

Definition open_with_mode (path : string) (mode : Z) : ST AfcClient Error Z :=
  send_request OP_FILE_OPEN (le_bytes 8 mode ++ nul_str path) [] ;;;
  let! r := recv_response in
  if r.1 =? OP_FILE_OPEN_RES then sret (le_u64 r.2 0)
  else if r.1 =? OP_STATUS then
    afc_err "file_open {path}: {}" (FStr path :: status_name (le_u64 r.2 0))
  else afc_err "file_open: unexpected op {op:#x}" [FHex r.1].
Definition file_open_read (path : string) : ST AfcClient Error Z :=
  open_with_mode path FOPEN_RDONLY.
Definition file_open (path : string) : ST AfcClient Error Z := open_with_mode path FOPEN_WR.

Definition file_read (handle size : Z) : ST AfcClient Error (list byte) :=
  send_request OP_FILE_READ (le_bytes 8 handle ++ le_bytes 8 size) [] ;;;
  let! r := recv_response in
  if r.1 =? OP_DATA then sret r.2
  else if r.1 =? OP_STATUS then
    let code := le_u64 r.2 0 in
    if (code =? STATUS_SUCCESS) || (code =? STATUS_END_OF_DATA) then sret []
    else afc_err "file_read: {}" (status_name code)
  else afc_err "file_read: unexpected op {op:#x}" [FHex r.1].

Definition file_write (handle : Z) (data : list byte) : ST AfcClient Error unit :=
  send_request OP_FILE_WRITE (le_bytes 8 handle) data ;;;
  expect_status [FStr "file_write"].

Definition file_close (handle : Z) : ST AfcClient Error unit :=
  send_request OP_FILE_CLOSE (le_bytes 8 handle) [] ;;;
  expect_status [FStr "file_close"].

(** [match self.op { Ok(a) => a, Err(e) => { let _ = self.file_close(handle);
    return Err(e); } }] *)
Definition or_close {A} (handle : Z) (m : ST AfcClient Error A) : ST AfcClient Error A :=
  let! r := stry m in
  match r with
  | inr a => sret a
  | inl e => signore (file_close handle) ;;; sfail e
  end.

(** *** Whole files *)

(** The loop of [read_file]; every response it reads has at least 40 bytes. *)
Fixpoint read_chunks (fuel : nat) (handle : Z) (buf : list byte) :
    ST AfcClient Error (list byte) :=
  match fuel with
  | O => lift OutOfFuel
  | S fuel =>
      let! chunk := or_close handle (file_read handle READ_CHUNK) in
      match chunk with
      | [] => sret buf
      | _ => read_chunks fuel handle (buf ++ chunk)
      end
  end.

Definition read_file (path : string) : ST AfcClient Error (list byte) :=
  let! handle := file_open_read path in
  let! c := sget in
  let! buf := read_chunks (S (rx_size (rx (afc_sock c)))) handle [] in
  file_close handle ;;;
  sret buf.

(** [remote_path.rfind('/')] and the slice before it *)
Fixpoint before_last_slash (l : list byte) : option (list byte) :=
  match l with
  | [] => None
  | b :: l =>
      match before_last_slash l with
      | Some p => Some (b :: p)
      | None => if is_slash b then Some [] else None
      end
  end.

Fixpoint write_chunks (handle : Z) (cs : list (list byte)) : ST AfcClient Error unit :=
  match cs with
  | [] => sret tt
  | c :: cs => or_close handle (file_write handle c) ;;; write_chunks handle cs
  end.

Definition put_file (remote_path : string) (data : list byte) : ST AfcClient Error unit :=
  (match before_last_slash (bytes_of remote_path) with
   | Some (b :: dir) => mkdir (string_of (b :: dir))
   | _ => sret tt
   end) ;;;
  let! handle := file_open remote_path in
  write_chunks handle (chunks (Z.to_nat WRITE_CHUNK) data) ;;;
  file_close handle.
End client.

(** ** House arrest *)

Section house_arrest.
Context `{PlistLib}.

(** Like [read_exact], but the end of the stream leaves zeros. *)
Fixpoint eof_ok_loop (fuel : nat) (n : Z) (buf : list byte) : ST stream Error (list byte) :=
  if lenZ buf <? n then
    match fuel with
    | O => lift OutOfFuel
    | S fuel =>
        let! r := stry (read (n - lenZ buf)) in
        match r with
        | inr [] => sret buf
        | inr c => eof_ok_loop fuel n (buf ++ c)
        | inl e => if decide (kind e = UnexpectedEof) then sret buf else sfail (Io e)
        end
    end
  else sret buf.
Definition read_exact_eof_ok (n : Z) : ST stream Error (list byte) := λ s,
  (let! l := eof_ok_loop (S (length (rx s))) n [] in
   sret (l ++ replicate (Z.to_nat (n - lenZ l)) x00)) s.

Definition vend_request (command bundle_id : string) : pval :=
  PDict (dict ["Command" =>> PString command; "Identifier" =>> PString bundle_id]).

Definition house_arrest_steps (command bundle_id : string) : ST stream Error unit :=
  let! body := lift (ok_or (to_writer_xml (vend_request command bundle_id)) PlistError) in
  smap_err Io (write_all (be_bytes 4 (wrap 32 (lenZ body)))) ;;;
  smap_err Io (write_all body) ;;;
  smap_err Io flush ;;;
  let! len_buf := read_exact_eof_ok 4 in
  let resp_len := be_val len_buf in
  if (resp_len =? 0) || (1024 * 1024 <? resp_len) then
    sfail (Afc (Msg "house_arrest({bundle_id}): service closed without response"
                  [FStr bundle_id]))
  else
    let! resp_body := read_exact_eof_ok resp_len in
    let! resp := lift (ok_or (from_bytes resp_body) PlistError) in
    let field k := (d ← as_dictionary resp; v ← dget k d; as_string v) in
    match field "Error"%string with
    | Some err =>
        sfail (Afc (Msg "house_arrest({bundle_id}): {desc}"
                      [FStr bundle_id; FStr (default err (field "ErrorDescription"%string))]))
    | None => sret tt
    end.

Definition house_arrest_on_stream (stream : MuxSocket) (command bundle_id : string) :
    outcome Error AfcClient :=
  let '(r, s) := house_arrest_steps command bundle_id (mux_stream stream) in
  let? _ := r in Ok (MkAfc (set_mux_stream s stream) 0).

Definition connect_app_shim (stream : MuxSocket) (bundle_id : string) : outcome Error AfcClient :=
  house_arrest_on_stream stream "VendContainer" bundle_id.
Definition connect_app_documents_shim (stream : MuxSocket) (bundle_id : string) :
    outcome Error AfcClient :=
  house_arrest_on_stream stream "VendDocuments" bundle_id.
End house_arrest.

Section connect.
Context {W : Type} `{Os W} `{PlistLib} `{Tls}.

Definition afc_connect : ST (W * LockdownSession) Error AfcClient :=
  let! s := connect_service AFC_SERVICE in sret (afc_from_stream s).
Definition connect_app (bundle_id : string) : ST (W * LockdownSession) Error AfcClient :=
  let! s := connect_service "com.apple.mobile.house_arrest" in
  lift (house_arrest_on_stream s "VendContainer" bundle_id).
Definition connect_app_documents (bundle_id : string) : ST (W * LockdownSession) Error AfcClient :=
  let! s := connect_service "com.apple.mobile.house_arrest" in
  lift (house_arrest_on_stream s "VendDocuments" bundle_id).
End connect.

(** ** Transfers between files *)

(** What the transfers use of [std::fs]: the state [W] of the rest of the
    world, and open files. *)
Class LocalFs (W : Type) := {
  File : Type;
  create_dir_all : string → ST W io_error unit;
  file_create : string → ST W io_error File;
  fs_open : string → ST W io_error File;
  fs_write_all : File → list byte → ST W io_error unit;
  fs_read : File → Z → ST W io_error (list byte);
  fs_is_dir : string → ST W io_error bool;
  fs_read_dir : string → ST W io_error (list (io_error + string))
}.
(** The system calls end, and a read of at least a byte that returns nothing
    is the end of the file. *)
Class LocalFsLaws {W} (F : LocalFs W) := {
  create_dir_all_ends p w : (create_dir_all p w).1 ≠ OutOfFuel;
  file_create_ends p w : (file_create p w).1 ≠ OutOfFuel;
  fs_open_ends p w : (fs_open p w).1 ≠ OutOfFuel;
  fs_write_all_ends f l w : (fs_write_all f l w).1 ≠ OutOfFuel;
  fs_read_ends f n w : (fs_read f n w).1 ≠ OutOfFuel;
  fs_is_dir_ends p w : (fs_is_dir p w).1 ≠ OutOfFuel;
  fs_read_dir_ends p w : (fs_read_dir p w).1 ≠ OutOfFuel
}.

(** [s.trim_end_matches('/')] *)
Fixpoint trim_slashes (l : list byte) : list byte :=
  match l with
  | [] => []
  | b :: l =>
      match trim_slashes l with
      | [] => if is_slash b then [] else [b]
      | l => b :: l
      end
  end.
Definition remote_join (path entry : string) : string :=
  string_of (trim_slashes (bytes_of path) ++ "/"%byte :: bytes_of entry).

Section transfers.
Context {W : Type} `{LocalFs W} `{BuildProfile}.

Definition on_fs {A} (m : ST W io_error A) (template : string) (args : list fmt_arg) :
    ST (W * AfcClient) Error A :=
  zoom fst (λ w p, (w, p.2)) (smap_err (λ e, Afc (Msg template (args ++ [FStr (what e)]))) m).
Definition on_client {A} (m : ST AfcClient Error A) : ST (W * AfcClient) Error A :=
  zoom snd (λ c p, (p.1, c)) m.

(** The download loop; [progress] acts on the world. *)
Fixpoint pull_chunks (fuel : nat) (handle : Z) (out : File) (done total : Z)
    (progress : Z → Z → W → W) : ST (W * AfcClient) Error unit :=
  match fuel with
  | O => lift OutOfFuel
  | S fuel =>
      let! chunk := on_client (or_close handle (file_read handle READ_CHUNK)) in
      match chunk with
      | [] => sret tt
      | _ =>
          on_fs (fs_write_all out chunk) "write local: {e}" [] ;;;
          let! done := lift (u64_add done (lenZ chunk)) in
          smodify (λ p, (progress done total p.1, p.2)) ;;;
          pull_chunks fuel handle out done total progress
      end
  end.

Definition client_size (p : W * AfcClient) : nat := rx_size (rx (afc_sock p.2)).

(** [pull_file_dyn]: the depth of the recursion is bounded by the bytes the
    device sends, since every level begins with a response. *)
Fixpoint pull_file_dyn (fuel : nat) (progress : Z → Z → W → W) (remote_path local_path : string) :
    ST (W * AfcClient) Error unit :=
  match fuel with
  | O => lift OutOfFuel
  | S fuel =>
      let! info := on_client (get_file_info remote_path) in
      if decide (file_type info = Directory) then
        on_fs (create_dir_all local_path) "create_dir {}: {e}" [FStr local_path] ;;;
        let! names := on_client (list_dir remote_path) in
        (fix each (names : list string) : ST (W * AfcClient) Error unit :=
           match names with
           | [] => sret tt
           | entry :: names =>
               pull_file_dyn fuel progress (remote_join remote_path entry)
                 (path_join local_path entry) ;;;
               each names
           end) names
      else
        let! handle := on_client (file_open_read remote_path) in
        let! out := on_fs (file_create local_path) "create {}: {e}" [FStr local_path] in
        let! p := sget in
        pull_chunks (S (client_size p)) handle out 0 (size info) progress ;;;
        on_client (file_close handle)
  end.
Definition pull_file (progress : Z → Z → W → W) (remote_path local_path : string) :
    ST (W * AfcClient) Error unit :=
  λ p, pull_file_dyn (S (client_size p)) progress remote_path local_path p.

(** The loop of [put_file_from_path], for the reads the file still gives. *)
Fixpoint put_loop (fuel : nat) (f : File) (handle : Z) : ST (W * AfcClient) Error unit :=
  match fuel with
  | O => lift OutOfFuel
  | S fuel =>
      let! buf := on_fs (fs_read f WRITE_CHUNK) "read local: {e}" [] in
      match buf with
      | [] => sret tt
      | _ => on_client (or_close handle (file_write handle buf)) ;;; put_loop fuel f handle
      end
  end.
(** Every [file_write] that succeeds has read a response. *)
Definition put_file_from_path (local remote_path : string) : ST (W * AfcClient) Error unit :=
  let! f := on_fs (fs_open local) "open {}: {e}" [FStr local] in
  let! handle := on_client (file_open remote_path) in
  let! p := sget in
  put_loop (S (client_size p)) f handle ;;;
  on_client (file_close handle).

(** [push_file], where [metadata] tells directories and an entry of [read_dir]
    is its name or an error; every level begins with a response, too. *)
Fixpoint push_dyn (fuel : nat) (local_path remote_path : string) : ST (W * AfcClient) Error unit :=
  match fuel with
  | O => lift OutOfFuel
  | S fuel =>
      let! is_dir := on_fs (fs_is_dir local_path) "stat {}: {e}" [FStr local_path] in
      if (is_dir : bool) then
        on_client (mkdir remote_path) ;;;
        let! entries := on_fs (fs_read_dir local_path) "read_dir: {e}" [] in
        (fix each (entries : list (io_error + string)) : ST (W * AfcClient) Error unit :=
           match entries with
           | [] => sret tt
           | inl e :: _ => sfail (Afc (Msg "dir entry: {e}" [FStr (what e)]))
           | inr name :: entries =>
               push_dyn fuel (path_join local_path name) (remote_join remote_path name) ;;;
               each entries
           end) entries
      else put_file_from_path local_path remote_path
  end.
Definition push_file (local_path remote_path : string) : ST (W * AfcClient) Error unit :=
  λ p, push_dyn (S (client_size p)) local_path remote_path p.
End transfers.

(** ** Packets *)

Definition afc_packet (num op : Z) (args data : list byte) : list byte :=
  packet_header (HEADER_SIZE + lenZ args + lenZ data) (HEADER_SIZE + lenZ args) num op
  ++ args ++ data.

(** A response of the device. *)
Record response : Type := Resp { r_num : Z; r_op : Z; r_args : list byte; r_data : list byte }.
Definition response_ok (p : response) : Prop :=
  in_u 64 (r_num p) ∧ in_u 64 (r_op p) ∧ HEADER_SIZE + lenZ (r_args p) + lenZ (r_data p) < 2 ^ 63.
#[export] Instance response_ok_dec p : Decision (response_ok p).
Proof. unfold response_ok. apply _. Defined.
Definition response_bytes (p : response) : list byte :=
  afc_packet (r_num p) (r_op p) (r_args p) (r_data p).
Definition response_body (p : response) : list byte := r_args p ++ r_data p.

(** A request: operation, arguments, file data. *)
Definition req : Type := Z * list byte * list byte.
(** The requests, numbered from [n + 1]. *)
Fixpoint packets (n : Z) (reqs : list req) : list byte :=
  match reqs with
  | [] => []
  | (op, a, d) :: reqs => afc_packet (n + 1) op a d ++ packets (n + 1) reqs
  end.

Lemma packets_app n l k : packets n (l ++ k) = packets n l ++ packets (n + lenZ l) k.
Proof.
  revert n. induction l as [|[[op a] d] l IH]; intros n.
  - cbn [packets app]. by rewrite lenZ_nil, Z.add_0_r.
  - change (((op, a, d) :: l) ++ k) with ((op, a, d) :: (l ++ k)). cbn [packets].
    rewrite IH, <-(assoc_L (++)), lenZ_cons.
    by replace (n + 1 + lenZ l) with (n + (1 + lenZ l)) by lia.
Qed.

Lemma lenZ_packet_header e t n op : lenZ (packet_header e t n op) = 40.
Proof. unfold packet_header. change (lenZ (MAGIC ++ ?x)) with (8 + lenZ x). len. Qed.

Lemma packet_fields e t n op :
  in_u 64 e → in_u 64 t → in_u 64 op →
  let h := packet_header e t n op in
  get_slice h 0 8 = Some MAGIC ∧ le_u64 h 8 = e ∧ le_u64 h 16 = t ∧ le_u64 h 32 = op.
Proof.
  intros He Ht Hop h.
  assert (has_at h 0 h) as Hat by (exists [], []; by rewrite app_nil_r).
  unfold h in Hat at 2. unfold packet_header in Hat.
  apply has_at_app in Hat as [Hm Hat]. change (lenZ MAGIC) with 8 in Hat. rewrite Z.add_0_l in Hat.
  split; [by apply (has_at_slice _ _ _ _ Hm)|]. unfold le_u64.
  change (8 + 8) with 16. change (16 + 8) with 24. change (32 + 8) with 40.
  do 2 next_field Hat. apply has_at_le_bytes in Hat as [_ Hat]. closed_sums Hat.
  rewrite <-(app_nil_r (le_bytes 8 op)) in Hat. next_field Hat.
  by rewrite !le_val_le_bytes_small.
Qed.

(** The client [c] after it has sent [out] and has [r] left to read, the last
    packet being number [n]. *)
Definition client_at (c : AfcClient) (r : list rd_event) (out : list byte) (n : Z) : AfcClient :=
  MkAfc (set_mux_stream (Io.Stream r (tx (afc_sock c) ++ out) (wq (afc_sock c))) (afc_stream c)) n.

Lemma client_at_id c : client_at c (rx (afc_sock c)) [] (packet_num c) = c.
Proof.
  unfold client_at, afc_sock. rewrite app_nil_r. destruct c as [[s|s|s] n]; simpl; by destruct s.
Qed.
Lemma afc_sock_at c r out n :
  afc_sock (client_at c r out n) = Io.Stream r (tx (afc_sock c) ++ out) (wq (afc_sock c)).
Proof. unfold client_at, afc_sock. by destruct (afc_stream c). Qed.
Lemma set_afc_sock_at c r out n s :
  set_afc_sock s (client_at c r out n) = MkAfc (set_mux_stream s (afc_stream c)) n.
Proof. unfold client_at, set_afc_sock. by destruct (afc_stream c). Qed.

Section exchange.
Context `{BuildProfile}.

Lemma write_nonempty_healthy l s : healthy s → write_nonempty l s = (Ok tt, append_tx l s).
Proof.
  intros Hs. destruct l; [by rewrite append_tx_nil|]. unfold write_nonempty, smap_err.
  by rewrite write_all_healthy.
Qed.
Lemma write_packet_healthy h args data s :
  healthy s →
  (smap_err Io (write_all h) ;;; write_nonempty args ;;; write_nonempty data ;;;
   smap_err Io flush) s = (Ok tt, append_tx (h ++ args ++ data) s).
Proof.
  intros Hs. erewrite sbind_ok by (apply smap_err_ok; by apply write_all_healthy).
  erewrite sbind_ok by (by apply write_nonempty_healthy).
  erewrite sbind_ok by (by apply write_nonempty_healthy).
  erewrite smap_err_ok by (by apply flush_healthy). by autorewrite with st.
Qed.

Lemma send_request_at c r out n op args data :
  healthy (afc_sock c) → n + 1 < 2 ^ 64 →
  send_request op args data (client_at c r out n) =
    (Ok tt, client_at c r (out ++ afc_packet (n + 1) op args data) (n + 1)).
Proof.
  intros Hs Hn. unfold send_request.
  erewrite (sbind_ok sget) by reflexivity. cbn [packet_num client_at].
  rewrite add_w_ok by done. erewrite (sbind_ok (lift _)) by reflexivity.
  erewrite (sbind_ok (smodify _)) by reflexivity.
  change (MkAfc (afc_stream (client_at c r out n)) (n + 1)) with (client_at c r out (n + 1)).
  unfold on_afc, zoom. rewrite afc_sock_at.
  set (s0 := Io.Stream r (tx (afc_sock c) ++ out) (wq (afc_sock c))).
  rewrite (write_packet_healthy _ _ _ s0) by done. rewrite set_afc_sock_at.
  unfold client_at, append_tx, s0. cbn [rx tx wq]. by rewrite <-(assoc_L (++) (tx _)).
Qed.

Lemma afc_read_exact_at c r out n l1 l2 r' :
  delivers r (l1 ++ l2) r' →
  ∃ r1, on_afc (afc_read_exact (lenZ l1)) (client_at c r out n) = (Ok l1, client_at c r1 out n) ∧
    delivers r1 l2 r'.
Proof.
  intros Hd. set (s0 := Io.Stream r (tx (afc_sock c) ++ out) (wq (afc_sock c))).
  destruct (read_exact_delivers Io Closed (lenZ l1) s0 l1 l2 r' Hd eq_refl) as (r1 & Hr & Hd1).
  exists r1. split; [|done]. unfold on_afc, zoom. rewrite afc_sock_at. fold s0.
  unfold afc_read_exact. rewrite Hr. by rewrite set_afc_sock_at.
Qed.

Lemma recv_response_at c r out n p l r' :
  response_ok p → delivers r (response_bytes p ++ l) r' →
  ∃ r1, recv_response (client_at c r out n) = (Ok (r_op p, response_body p), client_at c r1 out n) ∧
    delivers r1 l r'.
Proof.
  intros (Hnum & Hop & Hlen) Hd.
  pose proof (lenZ_nonneg (r_args p)). pose proof (lenZ_nonneg (r_data p)).
  unfold response_bytes, afc_packet in Hd. unfold HEADER_SIZE in *.
  rewrite <-!(assoc_L (++)) in Hd.
  destruct (packet_fields (40 + lenZ (r_args p) + lenZ (r_data p)) (40 + lenZ (r_args p))
    (r_num p) (r_op p)) as (Hm & He & Ht & Ho); [unfold in_u; lia..|done|].
  destruct (afc_read_exact_at c r out n _ _ _ Hd) as (r1 & Hr1 & Hd1).
  rewrite lenZ_packet_header in Hr1. rewrite (assoc_L (++)) in Hd1.
  fold (response_body p) in Hd1.
  assert (lenZ (response_body p) < 2 ^ 63) as Hb by (unfold response_body; len).
  assert (∃ r2, (if 0 <? lenZ (response_body p)
                 then on_afc (afc_read_exact (lenZ (response_body p))) else sret [])
                (client_at c r1 out n) = (Ok (response_body p), client_at c r2 out n) ∧
                delivers r2 l r') as (r2 & Hr2 & Hd2).
  { destruct (0 <? lenZ (response_body p)) eqn:E; zhyps; [by apply afc_read_exact_at|].
    pose proof (lenZ_nonneg (response_body p)).
    assert (response_body p = []) as Hnil by (apply lenZ_0_nil; lia).
    rewrite Hnil in *. by exists r1. }
  exists r2. split; [|done]. unfold recv_response, HEADER_SIZE.
  erewrite sbind_ok by exact Hr1. rewrite bool_decide_true by done. cbv zeta beta iota delta [negb].
  rewrite He, Ht, Ho. unfold saturating_sub.
  rewrite !Z.max_r by lia. rewrite add_w_ok by lia.
  replace (40 + lenZ (r_args p) - 40 + (40 + lenZ (r_args p) + lenZ (r_data p) - (40 + lenZ (r_args p))))
    with (lenZ (response_body p)) by (unfold response_body; len).
  erewrite (sbind_ok (lift _)) by reflexivity. unfold alloc_zeroed.
  rewrite (proj2 (Z.ltb_lt _ _)) by done. erewrite (sbind_ok (lift _)) by reflexivity.
  erewrite sbind_ok by exact Hr2. done.
Qed.

(** One request and its response. *)
Lemma exchange_at c r out n op args data p l r' :
  healthy (afc_sock c) → n + 1 < 2 ^ 64 → response_ok p →
  delivers r (response_bytes p ++ l) r' →
  ∃ r1, (∀ A (k : Z * list byte → ST AfcClient Error A),
      (send_request op args data ;;; let! q := recv_response in k q) (client_at c r out n) =
        k (r_op p, response_body p)
          (client_at c r1 (out ++ afc_packet (n + 1) op args data) (n + 1))) ∧
    delivers r1 l r'.
Proof.
  intros Hs Hn Hp Hd.
  destruct (recv_response_at c r (out ++ afc_packet (n + 1) op args data) (n + 1) p l r' Hp Hd)
    as (r1 & Hr & Hd1).
  exists r1. split; [|done]. intros A k. erewrite sbind_ok by (by apply send_request_at).
  by erewrite sbind_ok by exact Hr.
Qed.

(** *** Single operations *)

(** A status response with a code. *)
Definition is_status (code : Z) (p : response) : Prop :=
  response_ok p ∧ r_op p = OP_STATUS ∧ le_u64 (response_body p) 0 = code.
(** What [file_read] makes of a response. *)
Definition read_answer (p : response) : option (list byte) :=
  if r_op p =? OP_DATA then Some (response_body p)
  else if (r_op p =? OP_STATUS) &&
          ((le_u64 (response_body p) 0 =? STATUS_SUCCESS)
           || (le_u64 (response_body p) 0 =? STATUS_END_OF_DATA)) then Some []
  else None.

Lemma expect_status_at ctx c r out n p code l r' :
  is_status code p → delivers r (response_bytes p ++ l) r' →
  ∃ r1, expect_status ctx (client_at c r out n) =
      (if code =? STATUS_SUCCESS then Ok tt
       else Err (Afc (Msg "{context}: {}" (ctx ++ status_name code))), client_at c r1 out n) ∧
    delivers r1 l r'.
Proof.
  intros (Hp & Hop & Hcode) Hd.
  destruct (recv_response_at c r out n p l r' Hp Hd) as (r1 & Hr & Hd1).
  exists r1. split; [|done]. unfold expect_status. erewrite sbind_ok by exact Hr.
  cbn [fst snd]. rewrite Hop, Hcode. change (OP_STATUS =? OP_STATUS) with true. cbv iota zeta.
  by destruct (code =? STATUS_SUCCESS).
Qed.

Definition read_req (handle : Z) : req :=
  (OP_FILE_READ, le_bytes 8 handle ++ le_bytes 8 READ_CHUNK, []).
Definition write_req (handle : Z) (data : list byte) : req :=
  (OP_FILE_WRITE, le_bytes 8 handle, data).
Definition close_req (handle : Z) : req := (OP_FILE_CLOSE, le_bytes 8 handle, []).
Definition open_req (path : string) (mode : Z) : req :=
  (OP_FILE_OPEN, le_bytes 8 mode ++ nul_str path, []).
Definition mkdir_req (path : string) : req := (OP_MAKE_DIR, nul_str path, []).

Lemma packets_one n op a d : packets n [(op, a, d)] = afc_packet (n + 1) op a d.
Proof. cbn [packets]. apply app_nil_r. Qed.

Lemma file_read_at h c r out n p d l r' :
  healthy (afc_sock c) → n + 1 < 2 ^ 64 → response_ok p → read_answer p = Some d →
  delivers r (response_bytes p ++ l) r' →
  ∃ r1, or_close h (file_read h READ_CHUNK) (client_at c r out n) =
      (Ok d, client_at c r1 (out ++ packets n [read_req h]) (n + 1)) ∧ delivers r1 l r'.
Proof.
  intros Hs Hn Hp Hans Hd. unfold read_req. rewrite packets_one.
  unfold or_close, file_read. unfold sbind at 1, stry.
  destruct (exchange_at c r out n OP_FILE_READ (le_bytes 8 h ++ le_bytes 8 READ_CHUNK) [] p l r'
    Hs Hn Hp Hd) as (r1 & Hr & Hd1).
  exists r1. split; [|done]. rewrite Hr. cbn [fst snd]. unfold read_answer in Hans.
  destruct (r_op p =? OP_DATA); [by injection Hans as ->|].
  destruct (r_op p =? OP_STATUS); [|done].
  destruct (_ || _); [by injection Hans as ->|done].
Qed.

Lemma open_at path mode c r out n p l r' :
  healthy (afc_sock c) → n + 1 < 2 ^ 64 → response_ok p → r_op p = OP_FILE_OPEN_RES →
  delivers r (response_bytes p ++ l) r' →
  ∃ r1, open_with_mode path mode (client_at c r out n) =
      (Ok (le_u64 (response_body p) 0),
       client_at c r1 (out ++ packets n [open_req path mode]) (n + 1)) ∧
    delivers r1 l r'.
Proof.
  intros Hs Hn Hp Hop Hd. unfold open_req. rewrite packets_one. unfold open_with_mode.
  destruct (exchange_at c r out n OP_FILE_OPEN (le_bytes 8 mode ++ nul_str path) [] p l r'
    Hs Hn Hp Hd) as (r1 & Hr & Hd1).
  exists r1. split; [|done]. rewrite Hr. cbn [fst snd]. by rewrite Hop.
Qed.

Lemma mkdir_at path c r out n p code l r' :
  healthy (afc_sock c) → n + 1 < 2 ^ 64 →
  is_status code p → code = STATUS_SUCCESS ∨ code = STATUS_OBJECT_EXISTS →
  delivers r (response_bytes p ++ l) r' →
  ∃ r1, mkdir path (client_at c r out n) =
      (Ok tt, client_at c r1 (out ++ packets n [mkdir_req path]) (n + 1)) ∧
    delivers r1 l r'.
Proof.
  intros Hs Hn (Hp & Hop & Hcode) Hc Hd. unfold mkdir_req. rewrite packets_one. unfold mkdir.
  destruct (exchange_at c r out n OP_MAKE_DIR (nul_str path) [] p l r' Hs Hn Hp Hd)
    as (r1 & Hr & Hd1).
  exists r1. split; [|done]. rewrite Hr. cbn [fst snd]. rewrite Hop, Hcode.
  by destruct Hc as [-> | ->].
Qed.

Lemma request_status_at op a d ctx c r out n p code l r' :
  healthy (afc_sock c) → n + 1 < 2 ^ 64 → is_status code p →
  delivers r (response_bytes p ++ l) r' →
  ∃ r1, (send_request op a d ;;; expect_status ctx) (client_at c r out n) =
      (if code =? STATUS_SUCCESS then Ok tt
       else Err (Afc (Msg "{context}: {}" (ctx ++ status_name code))),
       client_at c r1 (out ++ packets n [(op, a, d)]) (n + 1)) ∧
    delivers r1 l r'.
Proof.
  intros Hs Hn Hp Hd. rewrite packets_one.
  destruct (expect_status_at ctx c r (out ++ afc_packet (n + 1) op a d) (n + 1) p code l r' Hp Hd)
    as (r1 & Hr & Hd1).
  exists r1. split; [|done]. erewrite sbind_ok by (by apply send_request_at). exact Hr.
Qed.

(** *** Whole files *)

Lemma length_response p : (40 ≤ length (response_bytes p))%nat.
Proof.
  unfold response_bytes, afc_packet. rewrite length_app.
  pose proof (lenZ_packet_header (HEADER_SIZE + lenZ (r_args p) + lenZ (r_data p))
    (HEADER_SIZE + lenZ (r_args p)) (r_num p) (r_op p)). unfold lenZ in *. lia.
Qed.
Lemma length_responses ps : (length ps ≤ length (concat (response_bytes <$> ps)))%nat.
Proof.
  induction ps as [|p ps IH]; [done|]. rewrite fmap_cons. cbn [concat length].
  rewrite length_app. pose proof (length_response p). lia.
Qed.

Definition gives_chunk (p : response) (d : list byte) : Prop :=
  response_ok p ∧ read_answer p = Some d ∧ d ≠ [].

Lemma read_chunks_at fuel h buf c r out n ps cs e l r' :
  healthy (afc_sock c) → n + lenZ ps + 1 < 2 ^ 64 → (length ps < fuel)%nat →
  Forall2 gives_chunk ps cs → response_ok e → read_answer e = Some [] →
  delivers r (concat (response_bytes <$> ps) ++ response_bytes e ++ l) r' →
  ∃ r1, read_chunks fuel h buf (client_at c r out n) =
      (Ok (buf ++ concat cs),
       client_at c r1 (out ++ packets n (replicate (S (length ps)) (read_req h)))
         (n + lenZ ps + 1)) ∧
    delivers r1 l r'.
Proof.
  intros Hs Hn Hf Hps He Hans. revert fuel buf r out n Hn Hf.
  induction Hps as [|p d ps cs (Hp & Hpd & Hne) _ IH]; intros fuel buf r out n Hn Hf Hd;
    (destruct fuel as [|fuel]; [simpl in Hf; lia|]); cbn [read_chunks].
  - destruct (file_read_at h c r out n e [] l r') as (r1 & Hr & Hd1); [done|len|done..|].
    exists r1. split; [|done]. erewrite sbind_ok by exact Hr. cbn [concat].
    rewrite app_nil_r, lenZ_nil, Z.add_0_r. done.
  - rewrite lenZ_cons in Hn. pose proof (lenZ_nonneg ps). rewrite fmap_cons in Hd.
    cbn [concat] in Hd. rewrite <-(assoc_L (++)) in Hd.
    destruct (file_read_at h c r out n p d _ r' Hs ltac:(lia) Hp Hpd Hd) as (r1 & Hr & Hd1).
    destruct (IH fuel (buf ++ d) r1 (out ++ packets n [read_req h]) (n + 1)) as (r2 & Hr2 & Hd2);
      [lia|simpl in Hf; lia|done|].
    exists r2. split; [|done]. erewrite sbind_ok by exact Hr. destruct d as [|b d]; [done|].
    rewrite Hr2. cbn [concat length]. rewrite lenZ_cons, <-!(assoc_L (++)).
    change (replicate (S (S (length ps))) (read_req h)) with
      ([read_req h] ++ replicate (S (length ps)) (read_req h)).
    rewrite packets_app. change (lenZ [read_req h]) with 1.
    by replace (n + 1 + lenZ ps + 1) with (n + (1 + lenZ ps) + 1) by lia.
Qed.

(** C11. [read_file] returns the chunks the device sends, in order, up to
    the first empty one or the end-of-data status, however the bytes are cut
    into reads; it has then opened the file, asked once for every chunk and
    once more, and closed the handle it was given. *)
Theorem read_file_result path c o ps cs e z l r' :
  healthy (afc_sock c) → packet_num c + lenZ ps + 3 < 2 ^ 64 →
  response_ok o → r_op o = OP_FILE_OPEN_RES →
  Forall2 gives_chunk ps cs → response_ok e → read_answer e = Some [] →
  is_status STATUS_SUCCESS z →
  delivers (rx (afc_sock c))
    (response_bytes o ++ concat (response_bytes <$> ps) ++ response_bytes e
     ++ response_bytes z ++ l) r' →
  let h := le_u64 (response_body o) 0 in
  ∃ r1, read_file path c =
      (Ok (concat cs),
       client_at c r1
         (packets (packet_num c)
            ([open_req path FOPEN_RDONLY] ++ replicate (S (length ps)) (read_req h)
             ++ [close_req h]))
         (packet_num c + lenZ ps + 3)) ∧
    delivers r1 l r'.
Proof.
  intros Hs Hn Ho Hop Hps He Hans Hz Hd h. pose proof (lenZ_nonneg ps).
  set (n := packet_num c) in *.
  replace (read_file path c) with (read_file path (client_at c (rx (afc_sock c)) [] n))
    by (by rewrite client_at_id).
  destruct (open_at path FOPEN_RDONLY c _ [] n o _ r' Hs ltac:(lia) Ho Hop Hd) as (r1 & Hr1 & Hd1).
  cbn [app] in Hr1. fold h in Hr1.
  destruct (read_chunks_at (S (rx_size r1)) h [] c r1
    (packets n [open_req path FOPEN_RDONLY]) (n + 1) ps cs e (response_bytes z ++ l) r') as (r2 & Hr2 & Hd2);
    [done|lia| |done..|].
  { apply delivers_size in Hd1. rewrite length_app in Hd1. pose proof (length_responses ps). lia. }
  destruct (request_status_at OP_FILE_CLOSE (le_bytes 8 h) [] [FStr "file_close"] c r2
    (packets n [open_req path FOPEN_RDONLY]
     ++ packets (n + 1) (replicate (S (length ps)) (read_req h)))
    (n + 1 + lenZ ps + 1) z STATUS_SUCCESS l r') as (r3 & Hr3 & Hd3); [done|lia|done..|].
  exists r3. split; [|done]. unfold read_file, file_open_read.
  erewrite sbind_ok by exact Hr1. erewrite (sbind_ok sget) by reflexivity.
  rewrite afc_sock_at. cbn [rx]. erewrite sbind_ok by exact Hr2.
  fold (file_close h) in Hr3. erewrite sbind_ok by exact Hr3. unfold sret.
  change ([] ++ concat cs) with (concat cs).
  rewrite !packets_app, <-(assoc_L (++)). change (lenZ [open_req path FOPEN_RDONLY]) with 1.
  assert (lenZ (replicate (S (length ps)) (read_req h)) = 1 + lenZ ps) as ->
    by (unfold lenZ; rewrite length_replicate; lia).
  replace (n + 1 + (1 + lenZ ps)) with (n + 1 + lenZ ps + 1) by lia.
  by replace (n + 1 + lenZ ps + 1 + 1) with (n + lenZ ps + 3) by lia.
Qed.

Definition write_reqs (h : Z) (data : list byte) : list req :=
  write_req h <$> chunks (Z.to_nat WRITE_CHUNK) data.
(** The parent directory that [put_file] makes first. *)
Definition parent_reqs (path : string) : list req :=
  match before_last_slash (bytes_of path) with
  | Some (b :: dir) => [mkdir_req (string_of (b :: dir))]
  | _ => []
  end.

Lemma file_write_at h d c r out n p code l r' :
  healthy (afc_sock c) → n + 1 < 2 ^ 64 → is_status code p →
  delivers r (response_bytes p ++ l) r' →
  ∃ r1, file_write h d (client_at c r out n) =
      (if code =? STATUS_SUCCESS then Ok tt
       else Err (Afc (Msg "{context}: {}" (FStr "file_write" :: status_name code))),
       client_at c r1 (out ++ packets n [write_req h d]) (n + 1)) ∧
    delivers r1 l r'.
Proof. intros. by eapply request_status_at. Qed.

Lemma write_chunks_at h ds c r out n ws l r' :
  healthy (afc_sock c) → n + lenZ ds < 2 ^ 64 → length ws = length ds →
  Forall (is_status STATUS_SUCCESS) ws →
  delivers r (concat (response_bytes <$> ws) ++ l) r' →
  ∀ k, ∃ r1, write_chunks h (ds ++ k) (client_at c r out n) =
      write_chunks h k (client_at c r1 (out ++ packets n (write_req h <$> ds)) (n + lenZ ds)) ∧
    delivers r1 l r'.
Proof.
  intros Hs Hn Hlen Hws Hd k. revert ds r out n Hn Hlen Hd.
  induction Hws as [|w ws Hw _ IH]; intros [|d ds] r out n Hn Hlen Hd; simpl in Hlen; try done.
  - exists r. rewrite lenZ_nil, Z.add_0_r. change (packets n (write_req h <$> [])) with (@nil byte).
    by rewrite app_nil_r.
  - rewrite lenZ_cons in *. pose proof (lenZ_nonneg ds). rewrite fmap_cons in Hd.
    cbn [concat] in Hd. rewrite <-(assoc_L (++)) in Hd.
    destruct (file_write_at h d c r out n w _ _ r' Hs ltac:(lia) Hw Hd) as (r1 & Hr1 & Hd1).
    destruct (IH ds r1 (out ++ packets n [write_req h d]) (n + 1)) as (r2 & Hr2 & Hd2);
      [lia|lia|done|].
    exists r2. split; [|done]. cbn [app write_chunks]. unfold or_close.
    unfold sbind at 1 2, stry. rewrite Hr1. change (STATUS_SUCCESS =? STATUS_SUCCESS) with true.
    cbn [sret]. unfold sret. rewrite Hr2. rewrite fmap_cons, <-(assoc_L (++)).
    change (write_req h d :: (write_req h <$> ds)) with
      ([write_req h d] ++ (write_req h <$> ds)).
    rewrite packets_app. change (lenZ [write_req h d]) with 1.
    by replace (n + 1 + lenZ ds) with (n + (1 + lenZ ds)) by lia.
Qed.

Lemma parent_at path c r out n ms l r' :
  healthy (afc_sock c) → n + lenZ (parent_reqs path) < 2 ^ 64 →
  length ms = length (parent_reqs path) →
  Forall (λ p, is_status STATUS_SUCCESS p ∨ is_status STATUS_OBJECT_EXISTS p) ms →
  delivers r (concat (response_bytes <$> ms) ++ l) r' →
  ∃ r1, (match before_last_slash (bytes_of path) with
         | Some (b :: dir) => mkdir (string_of (b :: dir))
         | _ => sret tt
         end) (client_at c r out n) =
      (Ok tt, client_at c r1 (out ++ packets n (parent_reqs path)) (n + lenZ (parent_reqs path))) ∧
    delivers r1 l r'.
Proof.
  unfold parent_reqs. intros Hs Hn Hlen Hms Hd.
  assert (∀ r, ∃ r1, (Ok (E:=Error) tt, client_at c r out n) =
    (Ok tt, client_at c r1 (out ++ packets n []) (n + lenZ (@nil req))) ∧
    (delivers r l r' → delivers r1 l r')) as Hnil.
  { intros r0. exists r0. split; [|done]. cbn [packets]. by rewrite app_nil_r, lenZ_nil, Z.add_0_r. }
  destruct (before_last_slash _) as [[|b dir]|]; [| |].
  1,3: destruct ms; [|done]; destruct (Hnil r) as (r1 & ? & Hd1); exists r1; split; [done|by apply Hd1].
  destruct ms as [|m [|??]]; [done| |done]. apply Forall_cons_1 in Hms as [Hm _].
  change (concat (response_bytes <$> [m])) with (response_bytes m ++ []) in Hd.
  rewrite app_nil_r in Hd. change (lenZ [mkdir_req (string_of (b :: dir))]) with 1 in *.
  destruct Hm as [Hm|Hm]; eapply mkdir_at; eauto.
Qed.

(** C10. [put_file] sends exactly the data, in pieces of at most 256 KiB:
    when the device accepts everything, it has made the parent directory,
    opened the file, written the pieces in order under the handle it was
    given, and closed it. *)
Theorem put_file_result path data c ms o ws z l r' :
  healthy (afc_sock c) →
  let h := le_u64 (response_body o) 0 in
  let reqs := parent_reqs path ++ [open_req path FOPEN_WR] ++ write_reqs h data ++ [close_req h] in
  packet_num c + lenZ reqs < 2 ^ 64 →
  length ms = length (parent_reqs path) →
  Forall (λ p, is_status STATUS_SUCCESS p ∨ is_status STATUS_OBJECT_EXISTS p) ms →
  response_ok o → r_op o = OP_FILE_OPEN_RES →
  length ws = length (write_reqs h data) → Forall (is_status STATUS_SUCCESS) ws →
  is_status STATUS_SUCCESS z →
  delivers (rx (afc_sock c))
    (concat (response_bytes <$> ms) ++ response_bytes o ++ concat (response_bytes <$> ws)
     ++ response_bytes z ++ l) r' →
  (∃ r1, put_file path data c =
      (Ok tt, client_at c r1 (packets (packet_num c) reqs) (packet_num c + lenZ reqs)) ∧
    delivers r1 l r') ∧
  concat (snd <$> write_reqs h data) = data ∧
  Forall (λ q, 0 < lenZ q.2 ≤ WRITE_CHUNK) (write_reqs h data).
Proof.
  intros Hs h reqs Hn Hms Hmk Ho Hop Hlw Hws Hz Hd. split.
  - set (n := packet_num c) in *. set (ds := chunks (Z.to_nat WRITE_CHUNK) data).
    assert (lenZ (write_reqs h data) = lenZ ds) as Hds
      by (unfold write_reqs, lenZ; by rewrite length_fmap).
    assert (lenZ reqs = lenZ (parent_reqs path) + 1 + lenZ ds + 1) as Hreqs.
    { unfold reqs. rewrite !lenZ_app, Hds. change (lenZ [_]) with 1. lia. }
    rewrite Hreqs in *. unfold write_reqs in Hlw. rewrite length_fmap in Hlw. fold ds in Hlw.
    pose proof (lenZ_nonneg ds). pose proof (lenZ_nonneg (parent_reqs path)).
    replace (put_file path data c) with (put_file path data (client_at c (rx (afc_sock c)) [] n))
      by (by rewrite client_at_id).
    destruct (parent_at path c _ [] n ms _ r' Hs ltac:(lia) Hms Hmk Hd) as (r1 & Hr1 & Hd1).
    destruct (open_at path FOPEN_WR c r1 ([] ++ packets n (parent_reqs path))
      (n + lenZ (parent_reqs path)) o _ r'
      Hs ltac:(lia) Ho Hop Hd1) as (r2 & Hr2 & Hd2).
    set (o1 := ([] ++ packets n (parent_reqs path)) ++ packets _ _) in Hr2.
    destruct (write_chunks_at h ds c r2 o1 (n + lenZ (parent_reqs path) + 1) ws _ r' Hs
      ltac:(lia) Hlw Hws Hd2 []) as (r3 & Hr3 & Hd3).
    set (o2 := o1 ++ packets _ _) in Hr3.
    destruct (request_status_at OP_FILE_CLOSE (le_bytes 8 h) [] [FStr "file_close"] c r3 o2
      (n + lenZ (parent_reqs path) + 1 + lenZ ds) z STATUS_SUCCESS l r' Hs ltac:(lia) Hz Hd3)
      as (r4 & Hr4 & Hd4).
    exists r4. split; [|done]. unfold put_file. erewrite sbind_ok by exact Hr1.
    erewrite sbind_ok by exact Hr2. fold h ds. rewrite app_nil_r in Hr3.
    erewrite sbind_ok by exact Hr3. etrans; [exact Hr4|]. unfold o2, o1.
    unfold reqs. rewrite !packets_app, Hds. change (lenZ [open_req path FOPEN_WR]) with 1.
    rewrite <-!(assoc_L (++)). cbn [app].
    by replace (n + lenZ (parent_reqs path) + 1 + lenZ ds + 1) with
      (n + (lenZ (parent_reqs path) + 1 + lenZ ds + 1)) by lia.
  - unfold write_reqs. rewrite <-list_fmap_compose. split.
    + rewrite <-(concat_chunks (Z.to_nat WRITE_CHUNK) data) at 2 by (unfold WRITE_CHUNK; lia).
      f_equal. rewrite <-(list_fmap_id (chunks _ data)) at 2. by apply list_fmap_ext.
    + apply Forall_fmap, Forall_forall. intros d Hd'%chunks_spec; [|unfold WRITE_CHUNK; lia].
      simpl. unfold lenZ. lia.
Qed.

Lemma or_close_err {A} h (m : ST AfcClient Error A) s e s1 r s2 :
  m s = (Err e, s1) → file_close h s1 = (r, s2) →
  match r with Ok _ | Err _ => True | _ => False end →
  or_close h m s = (Err e, s2).
Proof.
  intros Hm Hc Hr. unfold or_close, sbind, stry, signore. rewrite Hm, Hc. by destruct r.
Qed.

(** A refused piece: the client writes nothing more, closes the handle
    whatever the device answers to that, and returns the device's status. *)
Theorem put_file_refused path data c ms o ws ds d rest w code z l r' :
  healthy (afc_sock c) →
  let h := le_u64 (response_body o) 0 in
  let reqs := parent_reqs path ++ [open_req path FOPEN_WR]
              ++ (write_req h <$> ds) ++ [write_req h d; close_req h] in
  packet_num c + lenZ reqs < 2 ^ 64 →
  length ms = length (parent_reqs path) →
  Forall (λ p, is_status STATUS_SUCCESS p ∨ is_status STATUS_OBJECT_EXISTS p) ms →
  response_ok o → r_op o = OP_FILE_OPEN_RES →
  chunks (Z.to_nat WRITE_CHUNK) data = ds ++ d :: rest →
  length ws = length ds → Forall (is_status STATUS_SUCCESS) ws →
  is_status code w → code ≠ STATUS_SUCCESS → (∃ any, is_status any z) →
  delivers (rx (afc_sock c))
    (concat (response_bytes <$> ms) ++ response_bytes o ++ concat (response_bytes <$> ws)
     ++ response_bytes w ++ response_bytes z ++ l) r' →
  ∃ r1, put_file path data c =
      (Err (Afc (Msg "{context}: {}" (FStr "file_write" :: status_name code))),
       client_at c r1 (packets (packet_num c) reqs) (packet_num c + lenZ reqs)) ∧
    delivers r1 l r'.
Proof.
  intros Hs h reqs Hn Hms Hmk Ho Hop Hds Hlw Hws Hw Hcode (any & Hz) Hd.
  set (n := packet_num c) in *.
  assert (lenZ (write_req h <$> ds) = lenZ ds) as Hl by (unfold lenZ; by rewrite length_fmap).
  assert (lenZ reqs = lenZ (parent_reqs path) + 1 + lenZ ds + 2) as Hreqs.
  { unfold reqs. rewrite !lenZ_app, Hl. change (lenZ [_]) with 1. change (lenZ [_; _]) with 2. lia. }
  rewrite Hreqs in *. pose proof (lenZ_nonneg ds). pose proof (lenZ_nonneg (parent_reqs path)).
  replace (put_file path data c) with (put_file path data (client_at c (rx (afc_sock c)) [] n))
    by (by rewrite client_at_id).
  destruct (parent_at path c _ [] n ms _ r' Hs ltac:(lia) Hms Hmk Hd) as (r1 & Hr1 & Hd1).
  destruct (open_at path FOPEN_WR c r1 ([] ++ packets n (parent_reqs path))
    (n + lenZ (parent_reqs path)) o _ r' Hs ltac:(lia) Ho Hop Hd1) as (r2 & Hr2 & Hd2).
  set (o1 := ([] ++ packets n (parent_reqs path)) ++ packets _ _) in Hr2.
  destruct (write_chunks_at h ds c r2 o1 (n + lenZ (parent_reqs path) + 1) ws _ r' Hs
    ltac:(lia) Hlw Hws Hd2 (d :: rest)) as (r3 & Hr3 & Hd3).
  set (o2 := o1 ++ packets _ _) in Hr3.
  destruct (file_write_at h d c r3 o2 (n + lenZ (parent_reqs path) + 1 + lenZ ds) w code _ r'
    Hs ltac:(lia) Hw Hd3) as (r4 & Hr4 & Hd4).
  rewrite (proj2 (Z.eqb_neq _ _)) in Hr4 by done.
  set (o3 := o2 ++ packets _ _) in Hr4.
  destruct (request_status_at OP_FILE_CLOSE (le_bytes 8 h) [] [FStr "file_close"] c r4 o3
    (n + lenZ (parent_reqs path) + 1 + lenZ ds + 1) z any l r' Hs ltac:(lia) Hz Hd4)
    as (r5 & Hr5 & Hd5).
  exists r5. split; [|done]. unfold put_file. erewrite sbind_ok by exact Hr1.
  erewrite sbind_ok by exact Hr2. fold h. rewrite Hds. unfold sbind at 1. rewrite Hr3.
  cbn [write_chunks]. fold (file_close h) in Hr5.
  rewrite (sbind_err (E:=Error) _ _ _ _ _ (or_close_err _ _ _ _ _ _ _ Hr4 Hr5 ltac:(by destruct (any =? _)))).
  unfold o3, o2, o1, reqs. rewrite !packets_app, Hl. change (lenZ [open_req path FOPEN_WR]) with 1.
  change [write_req h d; close_req h] with ([write_req h d] ++ [close_req h]).
  rewrite packets_app. change (lenZ [write_req h d]) with 1. rewrite <-!(assoc_L (++)). cbn [app].
  replace (n + lenZ (parent_reqs path) + 1 + lenZ ds + 1 + 1) with
      (n + (lenZ (parent_reqs path) + 1 + lenZ ds + 2)) by lia.
  done.
Qed.
End exchange.

(** ** Names and attributes *)

(** A string the device can send: text, not empty, without NUL. *)
Definition name_ok (s : string) : Prop := utf8_string s ∧ no_nul s ∧ bytes_of s ≠ [].
#[export] Instance name_ok_dec s : Decision (name_ok s).
Proof. unfold name_ok. apply _. Defined.

Definition nul_strings (l : list string) : list byte := concat (nul_str <$> l).
Definition pair_list (l : list (string * string)) : list (list string) :=
  (λ kv, [kv.1; kv.2]) <$> l.
Definition kv_bytes (l : list (string * string)) : list byte := nul_strings (concat (pair_list l)).

Lemma split_nul_strings l :
  Forall name_ok l → split_on is_nul (nul_strings l) = (bytes_of <$> l) ++ [[]].
Proof.
  induction 1 as [|s l (_ & Hs & _) _ IH]; [done|]. unfold nul_strings.
  rewrite !fmap_cons. cbn [concat]. unfold nul_str at 1. rewrite <-(assoc_L (++)).
  change ([x00] ++ ?x) with (x00 :: x). rewrite split_on_app by done.
  fold (nul_strings l). by rewrite IH.
Qed.

Lemma parse_nul_strings_ok l : Forall name_ok l → parse_nul_strings (nul_strings l) = l.
Proof.
  intros Hl. unfold parse_nul_strings. rewrite split_nul_strings by done.
  induction Hl as [|s l (Hu & _ & Hne) _ IH]; [done|].
  rewrite fmap_cons, <-app_comm_cons, filter_cons_True by done. rewrite fmap_cons.
  rewrite from_utf8_lossy_string by done. by f_equal.
Qed.

Lemma pair_list_cons k v l : concat (pair_list ((k, v) :: l)) = k :: v :: concat (pair_list l).
Proof. done. Qed.

Lemma chunks_pairs l : chunks 2 (concat (pair_list l)) = pair_list l.
Proof.
  unfold chunks. generalize (Nat.le_refl (length (concat (pair_list l)))).
  generalize (length (concat (pair_list l))) at 2 3. induction l as [|[k v] l IH]; intros fuel Hf.
  - by destruct fuel.
  - rewrite pair_list_cons in *. simpl in Hf. destruct fuel as [|fuel]; [lia|].
    change (chunks_fuel (S fuel) 2 (k :: v :: ?x)) with ([k; v] :: chunks_fuel fuel 2 x).
    rewrite IH by lia. done.
Qed.

(** The attributes of a file or of the device are read back as they were
    sent; of two values for a key the last one counts. *)
Theorem parse_kv_pairs_map l :
  Forall (λ kv, name_ok kv.1 ∧ name_ok kv.2) l →
  parse_kv_pairs (kv_bytes l) = list_to_map (reverse l).
Proof.
  intros Hl. unfold parse_kv_pairs, kv_bytes. rewrite parse_nul_strings_ok, chunks_pairs.
  - clear Hl. rewrite <-(right_id_L ∅ (∪) (list_to_map _)).
    generalize (∅ : gmap string string). induction l as [|[k v] l IH]; intros m.
    + change (list_to_map (reverse [])) with (∅ : gmap string string). simpl.
      by rewrite (left_id_L ∅ (∪)).
    + change (pair_list ((k, v) :: l)) with ([k; v] :: pair_list l). cbn [foldl]. rewrite IH.
      rewrite reverse_cons, list_to_map_app, <-(assoc_L (∪)). f_equal. simpl.
      by rewrite insert_empty, insert_union_singleton_l.
  - induction Hl as [|[k v] l [Hk Hv] _ IH]; [constructor|]. rewrite pair_list_cons.
    constructor; [done|]. by constructor.
Qed.

(** ** Every transfer ends

    The loops and the recursion of the downloads are bounded by the bytes the
    device sends. *)
Definition afc_size (c : AfcClient) : nat := stream_size (afc_sock c).

Section client_ends.
Context `{BuildProfile}.

Lemma ends_on_afc {A} k (m : ST stream Error A) : ends stream_size k m → ends afc_size k (on_afc m).
Proof.
  apply ends_zoom; [done|]. intros s c. unfold afc_size, afc_sock, set_afc_sock.
  by destruct (afc_stream c).
Qed.

Lemma ends_write_nonempty l : ends stream_size 0 (write_nonempty l).
Proof. destruct l; [apply ends_ret|apply ends_map_err, ends_write_all]. Qed.
Lemma ends_afc_read_exact n : 0 ≤ n → ends stream_size (Z.to_nat n) (afc_read_exact n).
Proof. apply ends_read_exact. Qed.

Lemma ends_send_request op args data : ends afc_size 0 (send_request op args data).
Proof.
  unfold send_request. apply (ends_bind _ 0 0); [apply ends_get|intros c].
  apply (ends_bind _ 0 0); [apply ends_lift, add_w_fuel|intros n].
  apply (ends_bind _ 0 0); [by apply ends_modify|intros _]. apply ends_on_afc.
  apply (ends_bind _ 0 0); [apply ends_map_err, ends_write_all|intros _].
  apply (ends_bind _ 0 0); [apply ends_write_nonempty|intros _].
  apply (ends_bind _ 0 0); [apply ends_write_nonempty|intros _]. apply ends_map_err, ends_flush.
Qed.

Lemma ends_recv_response : ends afc_size 40 recv_response.
Proof.
  unfold recv_response. apply (ends_bind _ 40 0); [by apply ends_on_afc, ends_afc_read_exact|intros hdr].
  destruct (negb _); [apply ends_fail|].
  apply (ends_bind _ 0 0); [apply ends_lift, add_w_fuel|intros n].
  apply (ends_bind _ 0 0); [apply ends_lift; unfold alloc_zeroed; by destruct (_ <? _)|intros _].
  apply (ends_bind _ 0 0); [|intros; apply ends_ret].
  destruct (0 <? n) eqn:E; zhyps; [|apply ends_ret].
  apply ends_on_afc. eapply ends_le; [apply ends_afc_read_exact; lia|lia].
Qed.

Lemma ends_exchange {A} op args data (k : Z * list byte → ST AfcClient Error A) :
  (∀ r, ends afc_size 0 (k r)) →
  ends afc_size 40 (send_request op args data ;;; let! r := recv_response in k r).
Proof.
  intros Hk. apply (ends_bind _ 0 40); [apply ends_send_request|intros _].
  apply (ends_bind _ 40 0); [apply ends_recv_response|done].
Qed.
Lemma ends_status op args data ctx :
  ends afc_size 40 (send_request op args data ;;; expect_status ctx).
Proof.
  apply ends_exchange. intros r. destruct (_ =? _); [cbv zeta; destruct (_ =? _)|]; solve_ends.
Qed.

Lemma ends_get_file_info path : ends afc_size 40 (get_file_info path).
Proof. apply ends_exchange. intros r. repeat destruct (_ =? _); solve_ends. Qed.
Lemma ends_list_dir path : ends afc_size 40 (list_dir path).
Proof. apply ends_exchange. intros r. repeat destruct (_ =? _); solve_ends. Qed.
Lemma ends_open path mode : ends afc_size 40 (open_with_mode path mode).
Proof. apply ends_exchange. intros r. repeat destruct (_ =? _); solve_ends. Qed.
Lemma ends_file_read h n : ends afc_size 40 (file_read h n).
Proof.
  apply ends_exchange. intros r. destruct (_ =? _); [solve_ends|].
  destruct (_ =? _); [cbv zeta; destruct (_ || _)|]; solve_ends.
Qed.

Lemma ends_mkdir path : ends afc_size 40 (mkdir path).
Proof.
  apply ends_exchange. intros r. destruct (_ =? _); [cbv zeta; destruct (_ || _)|]; solve_ends.
Qed.

Lemma ends_or_close {A} k h (m : ST AfcClient Error A) : ends afc_size k m → ends afc_size k (or_close h m).
Proof.
  intros Hm c. specialize (Hm c). unfold ends_at, or_close, sbind, stry, signore in *.
  destruct (m c) as [[a|e| |] c1]; try done.
  pose proof (ends_status OP_FILE_CLOSE (le_bytes 8 h) [] [FStr "file_close"] c1) as Hc.
  unfold ends_at in Hc. fold (file_close h) in Hc.
  destruct (file_close h c1) as [[| | |] c2]; simpl; try done; lia.
Qed.
End client_ends.


Section transfer_ends.
Context `{BuildProfile}.

Lemma ends_read_chunks fuel h buf c :
  (afc_size c < fuel)%nat → ends_at afc_size 0 (read_chunks fuel h buf) c.
Proof.
  revert buf c. induction fuel as [|fuel IH]; intros buf c Hf; [lia|]. cbn [read_chunks].
  apply (ends_le_at _ 40); [|lia]. apply (ends_at_bind _ 40 0).
  - apply ends_or_close, ends_file_read.
  - intros d c' Hc. destruct d; [apply ends_ret|]. apply IH. lia.
Qed.

Lemma ends_read_file path : ends afc_size 40 (read_file path).
Proof.
  unfold read_file. apply (ends_bind _ 40 0); [apply ends_open|intros h].
  intros c. apply ends_at_get. apply (ends_at_bind _ 0 0).
  - apply ends_read_chunks. unfold afc_size, stream_size. lia.
  - intros buf c' _. apply (ends_le_at _ (40 + 0)); [|lia].
    apply ends_bind; [apply ends_status|intros; apply ends_ret].
Qed.

(** [read_file] ends, whatever the device sends: it returns the file or
    an error. *)
Theorem read_file_ends path c : (read_file path c).1 ≠ OutOfFuel.
Proof.
  pose proof (ends_read_file path c) as He. unfold ends_at in He.
  by destruct (read_file path c) as [[] ?].
Qed.

(** *** Downloads to the file system *)

Context {W : Type} `{!LocalFs W} `{!LocalFsLaws (W:=W) _}.
Abbreviation pull_size := (client_size (W:=W)).

Lemma ends_on_client {A} k (m : ST AfcClient Error A) :
  ends afc_size k m → ends pull_size k (on_client m).
Proof. by apply ends_zoom. Qed.
Lemma ends_on_fs {A} (m : ST W io_error A) t args :
  (∀ w, (m w).1 ≠ OutOfFuel) → ends pull_size 0 (on_fs m t args).
Proof.
  intros Hm [w c]. unfold ends_at, on_fs, zoom, smap_err. simpl. specialize (Hm w).
  destruct (m w) as [[] w1]; unfold client_size; simpl in *; try done; lia.
Qed.

Lemma ends_pull_chunks fuel h out done total progress p :
  (pull_size p < fuel)%nat → ends_at pull_size 0 (pull_chunks fuel h out done total progress) p.
Proof.
  revert done p. induction fuel as [|fuel IH]; intros done p Hf; [lia|]. cbn [pull_chunks].
  apply (ends_le_at _ 40); [|lia]. apply (ends_at_bind _ 40 0).
  - apply ends_on_client, ends_or_close, ends_file_read.
  - intros d p1 Hp1. destruct d as [|b d]; [apply ends_ret|].
    apply (ends_at_bind _ 0 0); [apply ends_on_fs, fs_write_all_ends|intros _ p2 Hp2].
    apply (ends_at_bind _ 0 0); [apply ends_lift, add_w_fuel|intros n p3 Hp3].
    apply (ends_at_bind _ 0 0); [by apply ends_modify|intros _ p4 Hp4].
    apply IH. lia.
Qed.

Lemma ends_pull_dyn fuel progress remote local p :
  (pull_size p < fuel)%nat → ends_at pull_size 0 (pull_file_dyn fuel progress remote local) p.
Proof.
  revert remote local p. induction fuel as [|fuel IH]; intros remote local p Hf; [lia|].
  cbn [pull_file_dyn]. apply (ends_le_at _ 40); [|lia]. apply (ends_at_bind _ 40 0).
  { apply ends_on_client, ends_get_file_info. }
  intros info p1 Hp1. destruct (decide _).
  - apply (ends_at_bind _ 0 0); [apply ends_on_fs, create_dir_all_ends|intros _ p2 Hp2].
    apply (ends_le_at _ 40); [|lia].
    apply (ends_at_bind _ 40 0); [apply ends_on_client, ends_list_dir|intros names p3 Hp3].
    assert (pull_size p3 < fuel)%nat as Hp3' by lia. clear Hp1 Hp2 Hp3. revert p3 Hp3'.
    induction names as [|entry names IHn]; intros p3 Hp3; [apply ends_ret|].
    apply (ends_at_bind _ 0 0); [by apply IH|]. intros _ p4 Hp4. apply IHn. lia.
  - apply (ends_le_at _ 40); [|lia].
    apply (ends_at_bind _ 40 0); [apply ends_on_client, ends_open|intros h p2 Hp2].
    apply (ends_at_bind _ 0 0); [apply ends_on_fs, file_create_ends|intros out p3 Hp3].
    apply ends_at_get. apply (ends_at_bind _ 0 0); [apply ends_pull_chunks; lia|intros _ p4 Hp4].
    apply (ends_le_at _ 40); [|lia]. apply ends_on_client, ends_status.
Qed.

(** A download ends, whatever tree of directories the device invents:
    every level and every chunk takes a response from the stream. *)
Theorem pull_file_ends progress remote local p :
  (pull_file progress remote local p).1 ≠ OutOfFuel.
Proof.
  pose proof (ends_pull_dyn (S (pull_size p)) progress remote local p ltac:(lia)) as He.
  unfold ends_at in He. unfold pull_file. by destruct (pull_file_dyn _ _ _ _ p) as [[] ?].
Qed.

Lemma ends_put_loop fuel f h p :
  (pull_size p < fuel)%nat → ends_at pull_size 0 (put_loop fuel f h) p.
Proof.
  revert p. induction fuel as [|fuel IH]; intros p Hf; [lia|]. cbn [put_loop].
  apply (ends_at_bind _ 0 0); [apply ends_on_fs; intros; apply fs_read_ends|intros d p1 Hp1].
  destruct d as [|b d]; [apply ends_ret|]. apply (ends_le_at _ 40); [|lia].
  apply (ends_at_bind _ 40 0).
  { apply ends_on_client, ends_or_close, ends_status. }
  intros _ p2 Hp2. apply IH. lia.
Qed.

Lemma ends_put_file_from_path local remote p :
  ends_at pull_size 0 (put_file_from_path local remote) p.
Proof.
  unfold put_file_from_path.
  apply (ends_at_bind _ 0 0); [apply ends_on_fs; intros; apply fs_open_ends|intros f p1 _].
  apply (ends_le_at _ 40); [|lia].
  apply (ends_at_bind _ 40 0); [apply ends_on_client, ends_open|intros h p2 _].
  apply ends_at_get. apply (ends_at_bind _ 0 0); [apply ends_put_loop; lia|intros _ p4 _].
  apply (ends_le_at _ 40); [|lia]. apply ends_on_client, ends_status.
Qed.

(** So does an upload of a file, even of one that never ends: every
    piece is answered by a response or stops the upload. *)
Theorem put_file_from_path_ends local remote p :
  (put_file_from_path local remote p).1 ≠ OutOfFuel.
Proof.
  pose proof (ends_put_file_from_path local remote p) as He.
  unfold ends_at in He. by destruct (put_file_from_path local remote p) as [[] ?].
Qed.

Lemma ends_push_dyn fuel local remote p :
  (pull_size p < fuel)%nat → ends_at pull_size 0 (push_dyn fuel local remote) p.
Proof.
  revert local remote p. induction fuel as [|fuel IH]; intros local remote p Hf; [lia|].
  cbn [push_dyn]. apply (ends_at_bind _ 0 0); [apply ends_on_fs; intros; apply fs_is_dir_ends|].
  intros [] p1 Hp1; [|apply ends_put_file_from_path].
  apply (ends_le_at _ 40); [|lia].
  apply (ends_at_bind _ 40 0); [apply ends_on_client, ends_mkdir|intros _ p2 Hp2].
  apply (ends_at_bind _ 0 0); [apply ends_on_fs; intros; apply fs_read_dir_ends|intros entries p3 Hp3].
  assert (pull_size p3 < fuel)%nat as Hp3' by lia. clear Hp1 Hp2 Hp3. revert p3 Hp3'.
  induction entries as [|[e|name] entries IHn]; intros p3 Hp3; [apply ends_ret|apply ends_fail|].
  apply (ends_at_bind _ 0 0); [by apply IH|]. intros _ p4 Hp4. apply IHn. lia.
Qed.

(** And so does the upload of a directory, even of one that contains itself: every
    level takes a response from the stream. *)
Theorem push_file_ends local remote p : (push_file local remote p).1 ≠ OutOfFuel.
Proof.
  pose proof (ends_push_dyn (S (pull_size p)) local remote p ltac:(lia)) as He.
  unfold ends_at in He. unfold push_file. by destruct (push_dyn _ _ _ p) as [[] ?].
Qed.
End transfer_ends.

(** ** Witnesses *)

(** A file system in memory; reading takes the bytes away. *)
Module MemFs.
Definition world : Type := gmap string (list byte).
Definition content (f : string) (w : world) : list byte := default [] (w !! f).

#[export] Instance fs : LocalFs world := {
  File := string;
  create_dir_all p := sret tt;
  file_create p := λ w, (Ok p, <[p := []]> w);
  fs_open p := λ w, (if decide (is_Some (w !! p)) then Ok p
                     else Err (IoError (OtherKind 2) "not found"), w);
  fs_write_all f l := λ w, (Ok tt, <[f := content f w ++ l]> w);
  fs_read f n := λ w,
    (Ok (take (Z.to_nat n) (content f w)), <[f := drop (Z.to_nat n) (content f w)]> w);
  fs_is_dir p := sret (bool_decide (p = "dir"%string));
  fs_read_dir p := sret [inr "f"%string]
}.
#[export] Instance laws : LocalFsLaws fs.
Proof. split; simpl; try done. intros p w. by destruct (decide _). Qed.
End MemFs.

Section witnesses.
#[local] Existing Instance debug_profile.
#[local] Existing Instance MemFs.fs.
#[local] Existing Instance MemFs.laws.

Definition status_resp (code : Z) : response := Resp 0 OP_STATUS (le_bytes 8 code) [].
Definition open_resp (h : Z) : response := Resp 0 OP_FILE_OPEN_RES (le_bytes 8 h) [].
Definition data_resp (l : list byte) : response := Resp 0 OP_DATA [] l.
Definition afc_on (l : list byte) : AfcClient :=
  afc_from_stream (Tcp (idle [RData (take 50 l); RData (drop 50 l)])).

Definition read_script : list byte :=
  response_bytes (open_resp 7)
  ++ concat (response_bytes <$> [data_resp [x01; x02]; data_resp [x03]])
  ++ response_bytes (status_resp 14) ++ response_bytes (status_resp 0) ++ [].

Lemma sample_delivers l :
  lenZ l > 50 → delivers (rx (afc_sock (afc_on l))) l [].
Proof.
  intros Hl. assert (concat [take 50 l; drop 50 l] = l) as Hc.
  { cbn [concat]. by rewrite app_nil_r, take_drop. }
  assert (Forall (λ l, l ≠ []) [take 50 l; drop 50 l]) as Hne.
  { apply Forall_cons; split; [|apply Forall_cons; split; [|by apply Forall_nil]]; intros E;
      apply (f_equal length) in E; rewrite ?length_take, ?length_drop in E; unfold lenZ in Hl;
      change (length []) with 0%nat in E; lia. }
  pose proof (delivers_pieces [take 50 l; drop 50 l] [] Hne) as Hd. rewrite Hc in Hd. exact Hd.
Qed.

Lemma read_file_result_witness :
  ∃ r1, read_file "/f" (afc_on read_script) =
      (Ok [x01; x02; x03],
       client_at (afc_on read_script) r1
         (packets 0 ([open_req "/f" FOPEN_RDONLY] ++ [read_req 7; read_req 7; read_req 7]
                     ++ [close_req 7])) 5) ∧
    delivers r1 [] [].
Proof.
  apply (read_file_result "/f" (afc_on read_script) (open_resp 7)
    [data_resp [x01; x02]; data_resp [x03]] [[x01; x02]; [x03]] (status_resp 14)
    (status_resp 0) [] []).
  - reflexivity.
  - reflexivity.
  - apply (bool_decide_unpack _). vm_compute. exact I.
  - reflexivity.
  - constructor; [|constructor; [|constructor]];
      (split; [apply (bool_decide_unpack _); vm_compute; exact I|split; [reflexivity|discriminate]]).
  - apply (bool_decide_unpack _). vm_compute. exact I.
  - reflexivity.
  - split; [apply (bool_decide_unpack _); vm_compute; exact I|split; reflexivity].
  - apply sample_delivers. reflexivity.
Defined.

Lemma sample_status code : in_u 64 code → is_status code (status_resp code).
Proof.
  intros Hc. split; [|split; [done|]].
  - split; [unfold in_u; simpl; lia|split; [unfold in_u; simpl; unfold OP_STATUS; lia|]].
    unfold status_resp, HEADER_SIZE. cbn [r_args r_data]. len.
  - unfold le_u64, response_body, status_resp. cbn [r_args r_data].
    change (0 + 8) with 8. rewrite get_slice_prefix by len. by apply le_val_le_bytes_small.
Qed.

Definition put_script (code : Z) : list byte :=
  concat (response_bytes <$> [status_resp 16]) ++ response_bytes (open_resp 7)
  ++ concat (response_bytes <$> []) ++ response_bytes (status_resp code)
  ++ response_bytes (status_resp 0) ++ [].

Lemma put_file_refused_witness :
  ∃ r1, put_file "/d/f" [x2a] (afc_on (put_script 18)) =
      (Err (Afc (Msg "{context}: {}" [FStr "file_write"; FStr "no space left"; FNum 18])),
       client_at (afc_on (put_script 18)) r1
         (packets 0 [mkdir_req "/d"; open_req "/d/f" FOPEN_WR; write_req 7 [x2a]; close_req 7]) 4) ∧
    delivers r1 [] [].
Proof.
  apply (put_file_refused "/d/f" [x2a] (afc_on (put_script 18)) [status_resp 16] (open_resp 7)
    [] [] [x2a] [] (status_resp 18) 18 (status_resp 0) [] []).
  - reflexivity.
  - reflexivity.
  - reflexivity.
  - constructor; [right; apply sample_status; split; [discriminate|reflexivity]|constructor].
  - apply (bool_decide_unpack _). vm_compute. exact I.
  - reflexivity.
  - vm_compute. reflexivity.
  - reflexivity.
  - constructor.
  - apply sample_status; split; [discriminate|reflexivity].
  - discriminate.
  - exists 0. apply sample_status; split; [discriminate|reflexivity].
  - apply sample_delivers. reflexivity.
Defined.

Definition put_ok_script : list byte :=
  concat (response_bytes <$> [status_resp 16]) ++ response_bytes (open_resp 7)
  ++ concat (response_bytes <$> [status_resp 0]) ++ response_bytes (status_resp 0) ++ [].

Lemma put_file_result_witness :
  (∃ r1, put_file "/d/f" [x2a] (afc_on put_ok_script) =
      (Ok tt, client_at (afc_on put_ok_script) r1
         (packets 0 (parent_reqs "/d/f" ++ [open_req "/d/f" FOPEN_WR]
                     ++ write_reqs 7 [x2a] ++ [close_req 7]))
         (0 + lenZ (parent_reqs "/d/f" ++ [open_req "/d/f" FOPEN_WR]
                     ++ write_reqs 7 [x2a] ++ [close_req 7]))) ∧
    delivers r1 [] []) ∧
  concat (snd <$> write_reqs 7 [x2a]) = [x2a] ∧
  Forall (λ q, 0 < lenZ q.2 ≤ WRITE_CHUNK) (write_reqs 7 [x2a]).
Proof.
  apply (put_file_result "/d/f" [x2a] (afc_on put_ok_script) [status_resp 16] (open_resp 7)
    [status_resp 0] (status_resp 0) [] []).
  - reflexivity.
  - vm_compute. reflexivity.
  - reflexivity.
  - constructor; [right; apply sample_status; split; [discriminate|reflexivity]|constructor].
  - apply (bool_decide_unpack _). vm_compute. exact I.
  - reflexivity.
  - vm_compute. reflexivity.
  - constructor; [|constructor]. apply sample_status; split; [discriminate|reflexivity].
  - apply sample_status; split; [discriminate|reflexivity].
  - apply sample_delivers. reflexivity.
Defined.

Definition sample_attributes : list (string * string) :=
  [("st_size", "5"); ("st_ifmt", "S_IFDIR"); ("st_ifmt", "S_IFREG")]%string.
Lemma parse_kv_pairs_map_witness :
  parse_kv_pairs (kv_bytes sample_attributes) = list_to_map (reverse sample_attributes).
Proof.
  apply parse_kv_pairs_map. apply (bool_decide_unpack _). vm_compute. exact I.
Defined.

Lemma pull_file_ends_witness :
  (pull_file (W:=MemFs.world) (λ _ _ w, w) "/f" "f" (∅, afc_on read_script)).1 ≠ OutOfFuel.
Proof. apply (pull_file_ends (W:=MemFs.world)). Defined.

Lemma push_file_ends_witness :
  (push_file (W:=MemFs.world) "dir" "/d" (∅, afc_on (put_script 18))).1 ≠ OutOfFuel.
Proof. apply (push_file_ends (W:=MemFs.world)). Defined.
End witnesses.
