(* ===== verification/Services.v ===== *)
(** * The property-list services of lockdownd ([src/lockdown/services])

    Activation, AMFI, diagnostics, the installation proxy, MCInstall,
    screenshots, SpringBoard and wireless: clients that exchange plists in
    frames with a four-byte length.  Each source file has its own copy of the
    framing; they differ in the longest response they accept.  The state of a
    client is the stream of its socket. *)

From S2P Require Import Prelude RustStd Io Plist Os Lockdown.

(** ** Framing *)

(** [read_exact] of every file *)
Abbreviation svc_read_exact := ld_read_exact.

Section framing.
Context `{PL : PlistLib}.

(** [recv] of the files that bound the length of a response. *)
Definition recv_bounded (max : Z) (bad : Z → Error) : ST stream Error pval :=
  let! len_buf := svc_read_exact 4 in
  let len := be_val len_buf in
  if (len =? 0) || (max <? len) then sfail (bad len)
  else
    let! body := svc_read_exact len in
    lift (ok_or (from_bytes body) PlistError).

(** A request, and what its response means. *)
Definition call {A} (recv : ST stream Error pval) (req : pval) (f : pval → outcome Error A) :
    ST stream Error A :=
  send_plist req ;;; let! resp := recv in lift (f resp).
End framing.

(** [v.as_dictionary().and_then(|d| d.get(k))] *)
Definition field (k : string) (v : pval) : option pval := as_dictionary v ≫= dget k.
Definition text_field (k : string) (v : pval) : option string := field k v ≫= as_string.

(** The response, unless it carries an [Error]. *)
Definition unless_error {A} (mk : message → Error) (t : string) (args : list fmt_arg)
    (resp : pval) (ok : outcome Error A) : outcome Error A :=
  match text_field "Error" resp with
  | Some err => Err (mk (Msg t (args ++ [FStr err])))
  | None => ok
  end.

Section services.
Context `{PL : PlistLib} `{T : Tls} {W : Type} `{OS : Os W}.

(** ** Activation ([activation.rs]) *)

Definition ACTIVATION : string := "com.apple.mobileactivationd".
Definition activation_connect : ST (W * LockdownSession) Error MuxSocket :=
  connect_service ACTIVATION.
Definition activation_recv : ST stream Error pval :=
  recv_bounded (8 * 1024 * 1024)
    (λ len, Lockdown (Msg "activation: bad response length {len}" [FNum len])).

(** The dictionary under [Value]. *)
Definition value_dict (t : string) (resp : pval) : outcome Error dictionary :=
  ok_or (field "Value" resp ≫= as_dictionary) (Lockdown (msg0 t)).

Definition create_tunnel1_session_info : ST stream Error dictionary :=
  call activation_recv
    (PDict (dict ["Command" =>> PString "CreateTunnel1SessionInfoRequest"]))
    (value_dict "activation: no Value in session info response").

Definition create_activation_info (drm_bytes : list byte) : ST stream Error dictionary :=
  let opts := dict ["BasebandWaitCount" =>> PInt 90] in
  call activation_recv
    (PDict (dict ["Command" =>> PString "CreateActivationInfoRequest";
                  "Value" =>> PData drm_bytes; "Options" =>> PDict opts]))
    (value_dict "activation: no Value in activation info response").

Definition handle_activation_with_session (activation_response : list byte)
    (headers : dictionary) : ST stream Error unit :=
  call activation_recv
    (PDict (dict ["Command" =>> PString "HandleActivationInfoWithSessionRequest";
                  "Value" =>> PData activation_response;
                  "ActivationResponseHeaders" =>> PDict headers]))
    (λ resp, unless_error Lockdown "handle activation: {err}" [] resp (Ok tt)).

Definition deactivate : ST stream Error unit :=
  call activation_recv (PDict (dict ["Request" =>> PString "Deactivate"])) (λ _, Ok tt).

(** ** Developer mode ([amfi.rs]) *)

Definition AMFI : string := "com.apple.amfi.lockdown".
Definition amfi_connect : ST (W * LockdownSession) Error MuxSocket := connect_service AMFI.
Definition amfi_recv : ST stream Error pval :=
  recv_bounded (1024 * 1024) (λ len, Lockdown (Msg "amfi: bad response length {len}" [FNum len])).

Definition bool_field (k : string) (v : pval) : bool :=
  default false (field k v ≫= as_boolean).

Definition developer_mode_status : ST stream Error bool :=
  call amfi_recv (PDict (dict ["EnableDeveloperMode" =>> PBool false]))
    (λ resp, unless_error Lockdown "amfi status: {err}" [] resp
               (Ok (bool_field "DeveloperModeEnabled" resp))).
Definition enable_developer_mode : ST stream Error bool :=
  call amfi_recv (PDict (dict ["EnableDeveloperMode" =>> PBool true]))
    (λ resp, unless_error Lockdown "amfi enable: {err}" [] resp
               (Ok (bool_field "RebootRequired" resp))).

(** ** Diagnostics ([diagnostics.rs]) *)

Definition DIAGNOSTICS : string := "com.apple.mobile.diagnostics_relay".
Definition diagnostics_connect : ST (W * LockdownSession) Error MuxSocket :=
  connect_service DIAGNOSTICS.
Definition diagnostics_recv : ST stream Error pval :=
  recv_bounded (4 * 1024 * 1024)
    (λ len, Afc (Msg "diagnostics: implausible length {len}" [FNum len])).

Record BatteryInfo : Type := MkBatteryInfo {
  capacity_pct : Z;
  voltage_mv : Z;
  cycle_count : Z;
  design_capacity : Z;
  full_capacity : Z;
  is_charging : bool;
  external_connected : bool;
  fully_charged : bool
}.

Definition diag_request (req : string) : pval := PDict (dict ["Request" =>> PString req]).

(** [request]: an empty or missing status passes. *)
Definition diag_status (req : string) (resp : pval) : outcome Error unit :=
  let status := default ""%string (text_field "Status" resp) in
  if bool_decide (status = "Success"%string) || bool_decide (status = ""%string) then Ok tt
  else Err (Afc (Msg "diagnostics {req}: status {status:?}" [FStr req; FStr status])).
Definition request (req : string) : ST stream Error unit :=
  call diagnostics_recv (diag_request req) (diag_status req).

Definition diag_diagnostics (req : string) (resp : pval) : outcome Error dictionary :=
  unless_error Afc "diagnostics {req}: {err}" [FStr req] resp
    (ok_or (field "Diagnostics" resp ≫= as_dictionary)
       (Afc (Msg "diagnostics {req}: no Diagnostics in response" [FStr req]))).
Definition query (req : string) : ST stream Error dictionary :=
  call diagnostics_recv (diag_request req) (diag_diagnostics req).

Definition restart : ST stream Error unit := request "Restart".
Definition shutdown : ST stream Error unit := request "Shutdown".
Definition sleep : ST stream Error unit := request "Sleep".
Definition all : ST stream Error dictionary := query "All".

(** A number of either signedness, as [u64]. *)
Definition any_u64 (v : pval) : option Z :=
  match as_unsigned_integer v with
  | Some n => Some n
  | None => wrap 64 <$> as_signed_integer v
  end.
Definition gg_u64 (d : dictionary) (key : string) : Z := default 0 (dget key d ≫= any_u64).
Definition gg_bool (d : dictionary) (key : string) : bool :=
  default false (dget key d ≫= as_boolean).

Definition battery_info (gg : dictionary) : BatteryInfo :=
  MkBatteryInfo (gg_u64 gg "BatteryCurrentCapacity") (gg_u64 gg "BatteryVoltage")
    (gg_u64 gg "CycleCount") (gg_u64 gg "DesignCapacity") (gg_u64 gg "FullChargeCapacity")
    (gg_bool gg "BatteryIsCharging") (gg_bool gg "ExternalConnected") (gg_bool gg "FullyCharged").
Definition battery : ST stream Error BatteryInfo :=
  let! diag := query "GasGauge" in
  let! gg := lift (ok_or (dget "GasGauge" diag ≫= as_dictionary)
                     (Afc (msg0 "diagnostics: no GasGauge in response"))) in
  sret (battery_info gg).

(** ** Applications ([installation_proxy.rs]) *)

Definition INSTALLATION_PROXY : string := "com.apple.mobile.installation_proxy".
Definition installation_connect : ST (W * LockdownSession) Error MuxSocket :=
  connect_service INSTALLATION_PROXY.

Inductive AppType : Type := User | System | Any.
Definition AppType_as_str (t : AppType) : string :=
  match t with User => "User" | System => "System" | Any => "Any" end.

Record AppInfo : Type := MkAppInfo {
  bundle_id : string;
  app_name : string;
  app_version : string;
  short_version : string;
  app_type : string;
  app_path : string
}.

Definition parse_app_info (v : pval) : option AppInfo :=
  d ← as_dictionary v;
  let s key := default ""%string (dget key d ≫= as_string) in
  let name :=
    let display := s "CFBundleDisplayName"%string in
    if bool_decide (display = ""%string) then s "CFBundleName"%string else display in
  Some (MkAppInfo (s "CFBundleIdentifier"%string) name (s "CFBundleVersion"%string)
          (s "CFBundleShortVersionString"%string) (s "ApplicationType"%string) (s "Path"%string)).

Definition browse_request (app_type : AppType) : pval :=
  PDict (dict ["Command" =>> PString "Browse";
    "ClientOptions" =>> PDict (dict [
      "ApplicationType" =>> PString (AppType_as_str app_type);
      "ReturnAttributes" =>> PArray [
        PString "CFBundleIdentifier"; PString "CFBundleDisplayName"; PString "CFBundleName";
        PString "CFBundleShortVersionString"; PString "CFBundleVersion";
        PString "ApplicationType"; PString "Path"]])]).

(** The applications of one packet. *)
Definition packet_apps (d : dictionary) : list AppInfo :=
  match dget "CurrentList" d with
  | Some (PArray l) => omap parse_app_info l
  | _ => []
  end.

(** What a packet does to the loop: [None] goes on. *)
Definition browse_status (d : dictionary) : option (outcome Error unit) :=
  match dget "Status" d ≫= as_string with
  | Some s =>
      if bool_decide (s = "Complete"%string) then Some (Ok tt)
      else if bool_decide (s = "BrowsingApplications"%string) then None
      else Some (Err (Lockdown (Msg "browse: unexpected status {s}" [FStr s])))
  | None =>
      match dget "Error" d ≫= as_string with
      | Some e => Some (Err (Lockdown (Msg "{}" [FStr e])))
      | None => Some (Ok tt)
      end
  end.

(** Every packet takes bytes of the stream. *)
Fixpoint browse_loop (fuel : nat) (apps : list AppInfo) : ST stream Error (list AppInfo) :=
  let! resp := recv_plist in
  match resp with
  | PDict d =>
      let apps := apps ++ packet_apps d in
      match browse_status d with
      | Some r => lift (let? _ := r in Ok apps)
      | None => match fuel with O => lift OutOfFuel | S fuel => browse_loop fuel apps end
      end
  | _ => sfail (Lockdown (msg0 "unexpected browse response"))
  end.

Definition list_apps (app_type : AppType) : ST stream Error (list AppInfo) :=
  send_plist (browse_request app_type) ;;;
  λ s, browse_loop (rx_size (rx s)) [] s.

Definition progress (op : string) (d : dictionary) : option (outcome Error unit) :=
  match dget "Error" d ≫= as_string with
  | Some e =>
      let desc := default ""%string (dget "ErrorDescription" d ≫= as_string) in
      Some (Err (Lockdown (Msg "{op} error: {e} — {desc}" [FStr op; FStr e; FStr desc])))
  | None =>
      match dget "Status" d ≫= as_string with
      | Some s => if bool_decide (s = "Complete"%string) then Some (Ok tt) else None
      | None => Some (Err (Lockdown (Msg "{op}: no Status in response" [FStr op])))
      end
  end.

Fixpoint await_loop (fuel : nat) (op : string) : ST stream Error unit :=
  let! resp := recv_plist in
  match resp with
  | PDict d =>
      match progress op d with
      | Some r => lift r
      | None => match fuel with O => lift OutOfFuel | S fuel => await_loop fuel op end
      end
  | _ => sfail (Lockdown (Msg "{op}: unexpected response" [FStr op]))
  end.
Definition await_complete (op : string) : ST stream Error unit :=
  λ s, await_loop (rx_size (rx s)) op s.

Definition uninstall (bundle_id : string) : ST stream Error unit :=
  send_plist (PDict (dict ["Command" =>> PString "Uninstall";
                           "ApplicationIdentifier" =>> PString bundle_id])) ;;;
  await_complete "uninstall".
Definition install_staged (staged_path : string) : ST stream Error unit :=
  send_plist (PDict (dict ["Command" =>> PString "Install";
                           "PackagePath" =>> PString staged_path])) ;;;
  await_complete "install".
(** ** Profiles and supervision ([mcinstall.rs]) *)

Definition MCINSTALL : string := "com.apple.mobile.MCInstall".
Definition SKIP_SETUP_KEYS : list string :=
  ["Accessibility"; "AccessibilityAppearance"; "ActionButton"; "AgeAssurance";
   "AgeBasedSafetySettings"; "Android"; "Appearance"; "AppleID"; "AppStore"; "Avatar";
   "Biometric"; "CameraButton"; "CloudStorage"; "DeviceProtection"; "DeviceToDeviceMigration";
   "Diagnostics"; "Display"; "EnableLockdownMode"; "ExpressLanguage"; "FileVault";
   "iCloudDiagnostics"; "iCloudStorage"; "iMessageAndFaceTime"; "IntendedUser"; "Intelligence";
   "Keyboard"; "Language"; "LanguageAndLocale"; "Location"; "LockdownMode";
   "MessagingActivationUsingPhoneNumber"; "Multitasking"; "OSShowCase"; "Passcode"; "Payment";
   "PreferredLanguage"; "Privacy"; "Region"; "Registration"; "Restore"; "RestoreCompleted";
   "Safety"; "SafetyAndHandling"; "ScreenSaver"; "ScreenTime"; "SIMSetup"; "Siri";
   "SoftwareUpdate"; "SpokenLanguage"; "TapToSetup"; "TermsOfAddress"; "Tips"; "Tone"; "TOS";
   "TouchID"; "TrueToneDisplay"; "TVHomeScreenSync"; "TVProviderSignIn"; "TVRoom";
   "UnlockWithWatch"; "UpdateCompleted"; "Wallpaper"; "WatchMigration"; "WebContentFiltering";
   "Welcome"; "WiFi"]%string.

Definition mcinstall_connect : ST (W * LockdownSession) Error MuxSocket :=
  connect_service MCINSTALL.
Definition mcinstall_recv : ST stream Error pval :=
  recv_bounded (8 * 1024 * 1024)
    (λ len, Lockdown (Msg "MCInstall: bad response length {len}" [FNum len])).

Definition check_status (op : string) (d : dictionary) : outcome Error unit :=
  match dget "Status" d ≫= as_string with
  | None => Ok tt
  | Some s =>
      if bool_decide (s = "Acknowledged"%string) then Ok tt
      else
        let detail := match dget "Error" d ≫= as_string with
                      | Some e => Msg ": {e}" [FStr e]
                      | None => msg0 ""
                      end in
        Err (Lockdown (Msg "MCInstall {op}: status {s:?}{detail}" [FStr op; FStr s; FDisplay detail]))
  end.

Definition mc_ack (op : string) (resp : pval) : outcome Error unit :=
  let? d := ok_or (as_dictionary resp)
              (Lockdown (Msg "MCInstall {op}: response not a dict" [FStr op])) in
  check_status op d.
Definition send_recv_ack (req : pval) (op : string) : ST stream Error unit :=
  call mcinstall_recv req (mc_ack op).

Definition mc_request (t : string) (more : list (string * pval)) : pval :=
  PDict (dict (("RequestType" =>> PString t) :: more)).

Definition mc_flush : ST stream Error unit := send_recv_ack (mc_request "Flush" []) "Flush".
Definition get_cloud_config : ST stream Error dictionary :=
  call mcinstall_recv (mc_request "GetCloudConfiguration" [])
    (λ resp, ok_or (as_dictionary resp)
       (Lockdown (msg0 "MCInstall: GetCloudConfiguration response not a dict"))).
Definition hello : ST stream Error unit :=
  call mcinstall_recv (mc_request "HelloHostIdentifier" []) (λ _, Ok tt).
Definition set_cloud_config (config : dictionary) : ST stream Error unit :=
  send_recv_ack (mc_request "SetCloudConfiguration" ["CloudConfiguration" =>> PDict config])
    "SetCloudConfiguration".

Definition challenge_of (resp : pval) : outcome Error (list byte) :=
  let? d := ok_or (as_dictionary resp) (Lockdown (msg0 "MCInstall Escalate: response not a dict")) in
  let? _ := check_status "Escalate" d in
  match dget "Challenge" d with
  | Some (PData b) => Ok b
  | _ => Err (Lockdown (msg0 "MCInstall Escalate: no Challenge in response"))
  end.
Definition escalate (supervisor_cert_der : list byte) : ST stream Error (list byte) :=
  call mcinstall_recv
    (mc_request "Escalate" ["SupervisorCertificate" =>> PData supervisor_cert_der]) challenge_of.
Definition escalate_response (signed : list byte) : ST stream Error unit :=
  send_recv_ack (mc_request "EscalateResponse" ["SignedRequest" =>> PData signed])
    "EscalateResponse".
Definition proceed_keybag_migration : ST stream Error unit :=
  send_recv_ack (mc_request "ProceedWithKeybagMigration" []) "ProceedWithKeybagMigration".

(** ** Screenshots ([screenshot.rs]) *)

Definition SCREENSHOTR : string := "com.apple.mobile.screenshotr".
Definition screenshot_connect : ST (W * LockdownSession) Error MuxSocket :=
  connect_service SCREENSHOTR.
Definition screenshot_recv : ST stream Error pval :=
  recv_bounded (32 * 1024 * 1024)
    (λ len, Afc (Msg "screenshot: implausible message length {len}" [FNum len])).

Definition ss_array (v : pval) (context : string) : outcome Error (list pval) :=
  ok_or (as_array v) (Afc (Msg "screenshot: expected array for {context}" [FStr context])).

Definition dl_version (arr : list pval) : Z :=
  default 300 (v ← arr !! 2%nat; a ← as_array v; v ← head a; any_u64 v).
Definition version_ok (version : Z) : pval :=
  PArray [PString "DLMessageVersionExchange"; PString "DLVersionsOk"; PInt (swrap 64 version)].
Definition screenshot_request : pval :=
  PArray [PString "DLMessageProcessMessage"; PDict (dict ["MessageType" =>> PString "ScreenShotRequest"])].
Definition png_of (reply_arr : list pval) : outcome Error (list byte) :=
  let? payload := ok_or (reply_arr !! 1%nat ≫= as_dictionary)
                    (Afc (msg0 "screenshot: missing payload dict in reply")) in
  match dget "ScreenShotData" payload with
  | Some (PData b) => Ok b
  | _ => Err (Afc (msg0 "screenshot: no ScreenShotData in reply"))
  end.

Definition take_screenshot : ST stream Error (list byte) :=
  let! msg := screenshot_recv in
  let! arr := lift (ss_array msg "DLMessageVersionExchange") in
  send_plist (version_ok (dl_version arr)) ;;;
  let! ready := screenshot_recv in
  let! ready_arr := lift (ss_array ready "DLMessageDeviceReady") in
  let msg_type := default ""%string (head ready_arr ≫= as_string) in
  if bool_decide (msg_type = "DLMessageDeviceReady"%string) then
    send_plist screenshot_request ;;;
    let! reply := screenshot_recv in
    let! reply_arr := lift (ss_array reply "ScreenShotReply") in
    lift (png_of reply_arr)
  else
    sfail (Afc (Msg "screenshot: expected DLMessageDeviceReady, got {msg_type:?}" [FStr msg_type])).

(** ** SpringBoard ([springboard.rs]) *)

Definition SPRINGBOARD : string := "com.apple.springboardservices".
Definition springboard_connect : ST (W * LockdownSession) Error MuxSocket :=
  connect_service SPRINGBOARD.

Inductive Orientation : Type := Portrait | PortraitUpsideDown | LandscapeRight | LandscapeLeft.
Definition orientation_value (o : Orientation) : Z :=
  match o with Portrait => 1 | PortraitUpsideDown => 2 | LandscapeRight => 3 | LandscapeLeft => 4 end.
Definition Orientation_as_str (o : Orientation) : string :=
  match o with
  | Portrait => "portrait"
  | PortraitUpsideDown => "portrait_upside_down"
  | LandscapeRight => "landscape_right"
  | LandscapeLeft => "landscape_left"
  end.

(** [to_lowercase] and [replace('-', "_")] on the letters that matter: no other
    character has a lower case that occurs in the names. *)
Definition normal_byte (b : byte) : byte :=
  if (65 <=? u8 b) && (u8 b <=? 90) then byte_of (u8 b + 32)
  else if bool_decide (b = "-"%byte) then "_"%byte else b.
Definition Orientation_parse (s : string) : option Orientation :=
  let s := string_of (normal_byte <$> bytes_of s) in
  if bool_decide (s = "portrait" ∨ s = "1")%string then Some Portrait
  else if bool_decide (s = "portrait_upside_down" ∨ s = "2")%string then Some PortraitUpsideDown
  else if bool_decide (s = "landscape_right" ∨ s = "3")%string then Some LandscapeRight
  else if bool_decide (s = "landscape_left" ∨ s = "4")%string then Some LandscapeLeft
  else None.

Definition sb_command (c : string) (more : list (string * pval)) : pval :=
  PDict (dict (("command" =>> PString c) :: more)).

Definition get_foreground_app : ST stream Error string :=
  call recv_plist (sb_command "getFrontMostDisplayIdentifier" [])
    (λ resp, ok_or (text_field "displayIdentifier" resp)
       (Lockdown (msg0 "no displayIdentifier in response"))).
Definition set_orientation (o : Orientation) : ST stream Error unit :=
  call recv_plist (sb_command "setInterfaceOrientation" ["value" =>> PInt (orientation_value o)])
    (λ _, Ok tt).
Definition orientation_of (n : Z) : outcome Error Orientation :=
  if n =? 1 then Ok Portrait else if n =? 2 then Ok PortraitUpsideDown
  else if n =? 3 then Ok LandscapeRight else if n =? 4 then Ok LandscapeLeft
  else Err (Lockdown (Msg "unknown orientation value: {n}" [FNum n])).
Definition read_orientation (resp : pval) : outcome Error Orientation :=
  let? n := ok_or (field "interfaceOrientation" resp ≫= as_signed_integer)
              (Lockdown (msg0 "no interfaceOrientation in response")) in
  orientation_of n.
Definition get_orientation : ST stream Error Orientation :=
  call recv_plist (sb_command "getInterfaceOrientation" []) read_orientation.

(** ** Wireless ([wireless.rs]) *)

Definition WIRELESS : string := "com.apple.mobile.wireless_lockdown".
Definition wireless_connect : ST (W * LockdownSession) Error MuxSocket := connect_service WIRELESS.
Definition wireless_recv : ST stream Error pval :=
  recv_bounded (1024 * 1024)
    (λ len, Lockdown (Msg "wireless: bad response length {len}" [FNum len])).
Definition check_error (resp : pval) (op : string) : outcome Error unit :=
  unless_error Lockdown "wireless {op}: {err}" [FStr op] resp (Ok tt).

Definition get_wifi_enabled : ST stream Error bool :=
  call wireless_recv (PDict (dict ["Request" =>> PString "GetWifiConnections"]))
    (λ resp, let? _ := check_error resp "GetWifiConnections" in Ok (bool_field "EnableWifi" resp)).
Definition set_wifi_enabled (enabled : bool) : ST stream Error unit :=
  call wireless_recv
    (PDict (dict ["Request" =>> PString "EnableWifiConnections"; "EnableWifi" =>> PBool enabled]))
    (λ resp, check_error resp "EnableWifiConnections").
End services.

(** ** Request and response *)

(** A receiver reads frames of the lengths it accepts. *)
Class Receiver `{PlistLib} (recv : ST stream Error pval) (accepts : Z → Prop) := {
  recv_frame v s l r :
    plain v = true → accepts (lenZ (xml v)) → delivers (rx s) (ld_frame v ++ l) r →
    ∃ r1, recv s = (Ok v, set_rx r1 s) ∧ delivers r1 l r
}.

Section exchange.
Context `{PL : PlistLib} `{PLL : !PlistLaws PL}.

#[export] Instance recv_plist_receiver : Receiver recv_plist (λ n, n < 2 ^ 32).
Proof. split. intros v s l r Hp Hn Hd. by apply recv_plist_frame. Qed.

(** What a bounded receiver does with a declared length: it is refused before
    anything of the body is read, or the body is read and parsed. *)
Lemma recv_bounded_result max bad n body s l r :
  in_u 32 n → delivers (rx s) (be_bytes 4 n ++ body ++ l) r →
  lenZ body = (if (n =? 0) || (max <? n) then 0 else n) →
  ∃ r1, recv_bounded max bad s =
      (if (n =? 0) || (max <? n) then Err (bad n) else ok_or (from_bytes body) PlistError,
       set_rx r1 s) ∧
    delivers r1 l r.
Proof.
  intros Hn Hd Hb. unfold recv_bounded, ld_read_exact.
  destruct (read_exact_delivers Io Closed 4 s _ _ r Hd) as (r1 & Hr1 & Hd1); [len|].
  erewrite sbind_ok by exact Hr1. rewrite be_val_be_bytes_small by done.
  destruct ((n =? 0) || (max <? n)).
  { exists r1. split; [done|]. destruct body; [done|]. by rewrite lenZ_cons in Hb; len. }
  destruct (read_exact_delivers Io Closed n (set_rx r1 s) body l r) as (r2 & Hr2 & Hd2); [done..|].
  erewrite sbind_ok by exact Hr2. by exists r2.
Qed.

#[export] Instance recv_bounded_receiver max bad :
  Receiver (recv_bounded max bad) (λ n, 0 < n ≤ max ∧ n < 2 ^ 32).
Proof.
  split. intros v s l r Hp [Hn Hn32] Hd. unfold ld_frame in Hd. rewrite <-(assoc_L (++)) in Hd.
  assert (((lenZ (xml v) =? 0) || (max <? lenZ (xml v))) = false) as Hb.
  { apply orb_false_iff. split; [apply Z.eqb_neq; lia|apply Z.ltb_ge; lia]. }
  destruct (recv_bounded_result max bad (lenZ (xml v)) (xml v) s l r) as (r1 & Hr1 & Hd1);
    [unfold in_u; lia|done|by rewrite Hb|].
  exists r1. split; [|done]. rewrite Hr1, Hb. by rewrite from_bytes_xml.
Qed.

(** Every operation that is one exchange: the request leaves as one frame, the
    result is what the response means, and what follows the response is left on
    the stream. *)
Lemma call_result {A} recv acc `{!Receiver recv acc} req (f : pval → outcome Error A) resp s l r :
  healthy s → ld_ok req → plain resp = true → acc (lenZ (xml resp)) →
  delivers (rx s) (ld_frame resp ++ l) r →
  ∃ r1, call recv req f s = (f resp, append_tx (ld_frame req) (set_rx r1 s)) ∧ delivers r1 l r.
Proof.
  intros Hs Hreq Hp Ha Hd. unfold call. erewrite sbind_ok by (by apply send_plist_healthy).
  destruct (recv_frame resp (append_tx (ld_frame req) s) l r Hp Ha Hd) as (r1 & Hr1 & Hd1).
  erewrite sbind_ok by exact Hr1. by exists r1.
Qed.

(** ** Applications *)

Lemma ends_recv_plist : ends stream_size 4 recv_plist.
Proof.
  unfold recv_plist. apply (ends_bind _ 4 0); [by apply (ends_read_exact Io Closed 4)|intros lb].
  apply (ends_bind _ 0 0); [|intros b; apply ends_lift; by destruct (from_bytes b)].
  eapply ends_le; [apply ends_read_exact, be_val_range|lia].
Qed.
Lemma ends_send_plist v : ends stream_size 0 (send_plist v).
Proof.
  unfold send_plist. apply (ends_bind _ 0 0); [apply ends_lift; by destruct (to_writer_xml v)|intros b].
  do 2 (apply (ends_bind _ 0 0); [auto with ends|intros _]). auto with ends.
Qed.

Lemma browse_status_returns d r : browse_status d = Some r → r ≠ OutOfFuel.
Proof. unfold browse_status. intros Hr. by repeat case_match; simplify_eq. Qed.
Lemma progress_returns op d r : progress op d = Some r → r ≠ OutOfFuel.
Proof. unfold progress. intros Hr. by repeat case_match; simplify_eq. Qed.

Lemma ends_browse_loop fuel apps s :
  (stream_size s ≤ fuel)%nat → ends_at stream_size 0 (browse_loop fuel apps) s.
Proof.
  revert apps s. induction fuel as [|fuel IH]; intros apps s Hf; cbn [browse_loop];
    (eapply (ends_le_at _ (4 + 0)); [apply ends_at_bind; [apply ends_recv_plist|intros v s1 Hs1]|lia]);
    destruct v as [|d| | | | | | |]; try apply ends_fail;
    (destruct (browse_status d) as [r|] eqn:Hr;
     [apply ends_lift; apply browse_status_returns in Hr; by destruct r|]).
  - lia.
  - apply IH. lia.
Qed.
Lemma ends_await_loop fuel op s :
  (stream_size s ≤ fuel)%nat → ends_at stream_size 0 (await_loop fuel op) s.
Proof.
  revert s. induction fuel as [|fuel IH]; intros s Hf; cbn [await_loop];
    (eapply (ends_le_at _ (4 + 0)); [apply ends_at_bind; [apply ends_recv_plist|intros v s1 Hs1]|lia]);
    destruct v as [|d| | | | | | |]; try apply ends_fail;
    (destruct (progress op d) as [r|] eqn:Hr; [by apply ends_lift, (progress_returns op d)|]).
  - lia.
  - apply IH. lia.
Qed.

(** Browsing, installing and uninstalling end, whatever the service sends and
    however many progress reports it makes. *)
Theorem app_operations_end t id path s :
  (list_apps t s).1 ≠ OutOfFuel ∧ (uninstall id s).1 ≠ OutOfFuel ∧
  (install_staged path s).1 ≠ OutOfFuel.
Proof.
  assert (∀ A req (m : ST stream Error A), (∀ s, ends_at stream_size 0 m s) →
    (sbind (send_plist req) (λ _, m) s).1 ≠ OutOfFuel) as Hgen.
  { intros A req m Hm. pose proof (ends_bind stream_size 0 0 (send_plist req) (λ _, m)
      (ends_send_plist req) (λ _, Hm) s) as He.
    unfold ends_at in He. destruct (sbind _ _ s) as [[] ?]; done. }
  split_and!; apply Hgen; intros s'; unfold await_complete;
    [apply ends_browse_loop|apply ends_await_loop|apply ends_await_loop]; done.
Qed.

(** A frame that is delivered is no longer than what is to be read. *)
Lemma frames_size (ds : list dictionary) s l r :
  delivers (rx s) (concat ((λ d, ld_frame (PDict d)) <$> ds) ++ l) r → (length ds ≤ stream_size s)%nat.
Proof.
  intros Hd%delivers_size. unfold stream_size. rewrite length_app in Hd.
  assert (length ds ≤ length (concat ((λ d, ld_frame (PDict d)) <$> ds)))%nat; [|lia].
  clear Hd. induction ds as [|d ds IH]; [done|]. cbn [fmap list_fmap concat length].
  unfold ld_frame at 1. rewrite !length_app, length_be_bytes. lia.
Qed.

Lemma browse_loop_packets packets last r0 fuel apps s l r :
  Forall (λ d, browse_status d = None ∧ ld_ok (PDict d)) packets →
  browse_status last = Some r0 → ld_ok (PDict last) → (length packets ≤ fuel)%nat →
  delivers (rx s) (concat ((λ d, ld_frame (PDict d)) <$> packets) ++ ld_frame (PDict last) ++ l) r →
  ∃ r1, browse_loop fuel apps s =
      ((let? _ := r0 in Ok (apps ++ concat (packet_apps <$> packets) ++ packet_apps last)), set_rx r1 s) ∧
    delivers r1 l r.
Proof.
  intros Hp. revert fuel apps s. induction Hp as [|d packets [Hd0 Hok] _ IH];
    intros fuel apps s Hlast Hlok Hf Hd; cbn [fmap list_fmap concat app] in *.
  - destruct (recv_plist_frame _ s l r Hlok Hd) as (r1 & Hr1 & Hd1). exists r1. split; [|done].
    destruct fuel; cbn [browse_loop]; (erewrite sbind_ok by exact Hr1); cbv beta iota; by rewrite Hlast.
  - destruct fuel as [|fuel]; [cbn in Hf; lia|]. rewrite <-(assoc_L (++)) in Hd.
    destruct (recv_plist_frame _ s _ r Hok Hd) as (r1 & Hr1 & Hd1). cbn [browse_loop].
    erewrite sbind_ok by exact Hr1. cbv beta iota. rewrite Hd0.
    destruct (IH fuel (apps ++ packet_apps d) (set_rx r1 s)) as (r2 & Hr2 & Hd2);
      [done|done|cbn in Hf; lia|done|].
    exists r2. split; [|done]. rewrite Hr2, set_rx_set_rx. by rewrite <-!(assoc_L (++)).
Qed.

(** C29. [list_apps] gathers the applications of every packet of the answer, in
    order, up to the packet that ends it; what that packet says decides between
    the list and an error, and what follows is left on the stream. *)
Theorem list_apps_result t packets last r0 s l r :
  healthy s → ld_ok (browse_request t) →
  Forall (λ d, browse_status d = None ∧ ld_ok (PDict d)) packets →
  browse_status last = Some r0 → ld_ok (PDict last) →
  delivers (rx s) (concat ((λ d, ld_frame (PDict d)) <$> packets) ++ ld_frame (PDict last) ++ l) r →
  ∃ r1, list_apps t s =
      ((let? _ := r0 in Ok (concat (packet_apps <$> packets) ++ packet_apps last)),
       append_tx (ld_frame (browse_request t)) (set_rx r1 s)) ∧
    delivers r1 l r.
Proof.
  intros Hs Hreq Hp Hlast Hlok Hd. unfold list_apps.
  erewrite sbind_ok by (by apply send_plist_healthy).
  destruct (browse_loop_packets packets last r0 (stream_size s) []
    (append_tx (ld_frame (browse_request t)) s) l r) as (r1 & Hr1 & Hd1);
    [done|done|done|by eapply frames_size|done|].
  exists r1. split; [exact Hr1|done].
Qed.

(** ** Screenshots *)

(** A screenshot against a device that offers [version], is ready, and answers
    with an image: the client acknowledges that version, asks once, and returns
    the image. *)
Theorem take_screenshot_exchange a0 a1 version more ready payload pre post png s l r :
  let m1 := PArray (a0 :: a1 :: PArray (PInt version :: more) :: []) in
  let m2 := PArray (PString "DLMessageDeviceReady" :: ready) in
  let m3 := PArray (pre :: PDict payload :: post) in
  dget "ScreenShotData" payload = Some (PData png) → 0 ≤ version < 2 ^ 63 →
  healthy s → ld_ok (version_ok version) → ld_ok screenshot_request →
  Forall (λ m, plain m = true ∧ 0 < lenZ (xml m) ≤ 32 * 1024 * 1024) [m1; m2; m3] →
  delivers (rx s) (ld_frame m1 ++ ld_frame m2 ++ ld_frame m3 ++ l) r →
  ∃ r1, take_screenshot s =
      (Ok png, append_tx (ld_frame (version_ok version) ++ ld_frame screenshot_request) (set_rx r1 s)) ∧
    delivers r1 l r.
Proof.
  intros m1 m2 m3 Hpng Hv Hs Hvok Hreq Hall Hd.
  apply Forall_cons in Hall as [[Hp1 Hl1] Hall]. apply Forall_cons in Hall as [[Hp2 Hl2] Hall].
  apply Forall_cons in Hall as [[Hp3 Hl3] _].
  assert (∀ n, 0 < n ≤ 32 * 1024 * 1024 → 0 < n ≤ 32 * 1024 * 1024 ∧ n < 2 ^ 32) as Hacc by lia.
  unfold take_screenshot. pose proof (recv_bounded_receiver (32 * 1024 * 1024)
    (λ len, Afc (Msg "screenshot: implausible message length {len}" [FNum len]))) as [Hrecv].
  fold screenshot_recv in Hrecv.
  destruct (Hrecv m1 s _ r Hp1 (Hacc _ Hl1) Hd) as (r1 & Hr1 & Hd1).
  erewrite sbind_ok by exact Hr1. erewrite sbind_ok by reflexivity.
  assert (dl_version (a0 :: a1 :: PArray (PInt version :: more) :: []) = version) as ->.
  { unfold dl_version. cbn [lookup list_lookup mbind option_bind as_array head].
    unfold any_u64, as_unsigned_integer. by rewrite bool_decide_true by (unfold in_u; lia). }
  erewrite sbind_ok by (by apply send_plist_healthy).
  destruct (Hrecv m2 (append_tx (ld_frame (version_ok version)) (set_rx r1 s)) _ r Hp2
    (Hacc _ Hl2) Hd1) as (r2 & Hr2 & Hd2).
  erewrite sbind_ok by exact Hr2. erewrite sbind_ok by reflexivity. cbn [head mbind option_bind as_string default].
  rewrite bool_decide_true by done. erewrite sbind_ok by (by apply send_plist_healthy).
  destruct (Hrecv m3 (append_tx (ld_frame screenshot_request)
    (set_rx r2 (append_tx (ld_frame (version_ok version)) (set_rx r1 s)))) _ r Hp3
    (Hacc _ Hl3) Hd2) as (r3 & Hr3 & Hd3).
  erewrite sbind_ok by exact Hr3. erewrite sbind_ok by reflexivity.
  exists r3. split; [|done]. rewrite <-append_tx_app. unfold png_of. cbn [lookup list_lookup mbind option_bind as_dictionary ok_or obind].
  by rewrite Hpng.
Qed.

(** ** SpringBoard *)

(** Every orientation is recognised by its name, in either case and with hyphens,
    by its number, and by what the device reports after it has been set. *)
Theorem orientation_roundtrip o :
  Orientation_parse (Orientation_as_str o) = Some o ∧
  Orientation_parse (string_of (dec (orientation_value o))) = Some o ∧
  read_orientation (PDict ["interfaceOrientation" =>> PInt (orientation_value o)]) = Ok o ∧
  ∀ n, orientation_of n = Ok o ↔ n = orientation_value o.
Proof.
  split; [by destruct o|]. split; [by destruct o|]. split; [by destruct o|].
  intros n. unfold orientation_of.
  destruct (Z.eqb_spec n 1), (Z.eqb_spec n 2), (Z.eqb_spec n 3), (Z.eqb_spec n 4), o;
    cbn [orientation_value]; split; intros; simplify_eq; (done || lia).
Qed.
End exchange.

Section witnesses.
#[local] Existing Instance BitPlist.lib.
#[local] Existing Instance BitPlist.laws.

Definition app_entry (id : string) : pval :=
  PDict ["CFBundleIdentifier" =>> PString id; "CFBundleName" =>> PString "n"].
Definition packet (status : string) (apps : list pval) : dictionary :=
  ["Status" =>> PString status; "CurrentList" =>> PArray apps].
Definition packet_one : dictionary := packet "BrowsingApplications" [app_entry "a"; PInt 1; app_entry "b"].
Definition packet_last : dictionary := packet "Complete" [app_entry "c"].
Definition browse_says : stream :=
  idle [RData (ld_frame (PDict packet_one)); RData (ld_frame (PDict packet_last)); RData [x2a]].

Lemma list_apps_result_witness :
  ∃ r1, list_apps Any browse_says =
      (Ok [MkAppInfo "a" "n" "" "" "" ""; MkAppInfo "b" "n" "" "" "" "";
           MkAppInfo "c" "n" "" "" "" ""],
       append_tx (ld_frame (browse_request Any)) (set_rx r1 browse_says)) ∧ delivers r1 [x2a] [].
Proof.
  apply (list_apps_result Any [packet_one] packet_last (Ok tt) browse_says [x2a] []).
  - reflexivity.
  - split; vm_compute; reflexivity.
  - repeat constructor; vm_compute; reflexivity.
  - reflexivity.
  - split; vm_compute; reflexivity.
  - cbn [concat fmap list_fmap]. rewrite app_nil_r.
    apply (delivers_pieces [ld_frame (PDict packet_one); ld_frame (PDict packet_last); [x2a]] []).
    repeat constructor; vm_compute; discriminate.
Defined.

Definition dl_offer : pval :=
  PArray [PString "DLMessageVersionExchange"; PInt 1; PArray [PInt 400; PInt 300]].
Definition dl_ready : pval := PArray [PString "DLMessageDeviceReady"].
Definition dl_image : dictionary := ["ScreenShotData" =>> PData [x01; x02]].
Definition dl_reply : pval := PArray [PString "DLMessageProcessMessage"; PDict dl_image].
Definition screen_says : stream :=
  idle [RData (ld_frame dl_offer); RData (ld_frame dl_ready); RData (ld_frame dl_reply); RData [x2a]].

Lemma take_screenshot_exchange_witness :
  ∃ r1, take_screenshot screen_says =
      (Ok [x01; x02],
       append_tx (ld_frame (version_ok 400) ++ ld_frame screenshot_request) (set_rx r1 screen_says)) ∧
    delivers r1 [x2a] [].
Proof.
  apply (take_screenshot_exchange (PString "DLMessageVersionExchange") (PInt 1) 400 [PInt 300] []
    dl_image (PString "DLMessageProcessMessage") [] [x01; x02] screen_says [x2a] []).
  - reflexivity.
  - lia.
  - reflexivity.
  - split; vm_compute; reflexivity.
  - split; vm_compute; reflexivity.
  - repeat constructor; vm_compute; congruence.
  - apply (delivers_pieces [ld_frame dl_offer; ld_frame dl_ready; ld_frame dl_reply; [x2a]] []).
    repeat constructor; vm_compute; discriminate.
Defined.
End witnesses.
