(* ===== verification/Syslog.v ===== *)
(** * The system log ([src/lockdown/services/syslog.rs])

    The parser of log lines and the loop that cuts the stream into lines and
    hands each to a callback. *)

From S2P Require Import Prelude RustStd Text Io Plist Os Lockdown.

Definition SYSLOG : string := "com.apple.syslog_relay".
Definition BUF_SIZE : Z := 4 * 1024.

Definition syslog_connect `{PL : PlistLib} `{T : Tls} {W} `{OS : Os W} :
    ST (W * LockdownSession) Error MuxSocket :=
  connect_service SYSLOG.

(** ** Entries *)

Record SyslogEntry : Type := MkSyslogEntry {
  raw : string;
  timestamp : string;
  process : string;
  level : string;
  message : string
}.

(** The level and the message of what follows the process. *)
Definition level_message (rest : string) : string * string :=
  match strip_prefix ["<"%byte] (bytes_of rest) with
  | Some stripped =>
      match split_at (λ b, bool_decide (b = ">"%byte)) stripped with
      | Some (lv, msg) => (string_of lv, string_of (trim_start_matches [":"%byte; " "%byte] msg))
      | None => (""%string, rest)
      end
  | None => (""%string, rest)
  end.

(** [iter.next().unwrap_or("")] *)
Definition next_word (l : list string) : string * list string :=
  match l with [] => (""%string, []) | w :: l => (w, l) end.

Definition parse (raw : string) : SyslogEntry :=
  let iter := split_whitespace raw in
  let (month, iter) := next_word iter in
  let (day, iter) := next_word iter in
  let (time, iter) := next_word iter in
  let (_, iter) := next_word iter in
  let (proc, iter) := next_word iter in
  let rest := string_of (join [" "%byte] (bytes_of <$> iter)) in
  let timestamp :=
    if bool_decide (month = ""%string) then ""%string
    else (month ++ " " ++ pad_left 2 day ++ " " ++ time)%string in
  let (level, message) := level_message rest in
  MkSyslogEntry raw timestamp proc level message.

Example parse_standard_line :
  parse "Apr  5 12:34:56 iPhone SpringBoard[1234] <Notice>: some log message" =
  MkSyslogEntry "Apr  5 12:34:56 iPhone SpringBoard[1234] <Notice>: some log message"
    "Apr  5 12:34:56" "SpringBoard[1234]" "Notice" "some log message".
Proof. vm_compute. reflexivity. Qed.
Example parse_no_level :
  level (parse "Dec 15 08:00:01 iPhone someproc[99] something without angle brackets") = ""%string.
Proof. vm_compute. reflexivity. Qed.
Example parse_empty : parse "" = MkSyslogEntry "" "" "" "" "".
Proof. vm_compute. reflexivity. Qed.
(** Runs of spaces in a message are not kept. *)
Lemma parse_collapses :
  message (parse "Dec 15 08:00:01 iPhone p[1] <Error>: a   b") = "a b"%string.
Proof. vm_compute. reflexivity. Qed.

(** ** The stream *)

Definition is_interrupted (e : io_error) : bool :=
  match kind e with
  | Interrupted | BrokenPipe | ConnectionReset | UnexpectedEof => true
  | _ => false
  end.

(** Entries are terminated by NUL, or by a newline. *)
Definition is_end (b : byte) : bool := bool_decide (b = x00) || bool_decide (b = x0a).

Section stream.
Context {C : Type} (callback : SyslogEntry → C → bool * C).

(** The lines that are complete: [None] when the callback stops the stream,
    and otherwise what is carried over. *)
Fixpoint drain (fuel : nat) (carry : list byte) : ST C Error (option (list byte)) :=
  match split_at is_end carry with
  | None => sret (Some carry)
  | Some (raw_bytes, carry) =>
      match fuel with
      | O => lift OutOfFuel
      | S fuel =>
          let raw := trim (from_utf8_lossy raw_bytes) in
          if bool_decide (raw = ""%string) then drain fuel carry
          else
            let! go := (λ c, let (go, c) := callback (parse raw) c in (Ok go, c)) in
            if (go : bool) then drain fuel carry else sret None
      end
  end.

Fixpoint stream_loop (fuel : nat) (carry : list byte) : ST (Io.stream * C) Error unit :=
  let! r := stry (on_outer (read BUF_SIZE)) in
  match r with
  | inr [] => sret tt
  | inr buf =>
      let carry := carry ++ buf in
      let! kept := on_local (drain (length carry) carry) in
      match kept with
      | None => sret tt
      | Some carry =>
          match fuel with O => lift OutOfFuel | S fuel => stream_loop fuel carry end
      end
  | inl e => if is_interrupted e then sret tt else sfail (Lockdown.Io e)
  end.

(** Every turn reads bytes of the stream. *)
Definition syslog_stream : ST (Io.stream * C) Error unit :=
  λ s, stream_loop (rx_size (rx s.1)) [] s.

(** ** Reference: the entries of a text *)

(** The entry of one line, if there is anything in it. *)
Definition entry_of (line : list byte) : option SyslogEntry :=
  let raw := trim (from_utf8_lossy line) in
  if bool_decide (raw = ""%string) then None else Some (parse raw).

(** Those of the lines that are terminated. *)
Definition entries (l : list byte) : list SyslogEntry :=
  omap entry_of (removelast (split_on is_end l)).

(** The callback on a list of entries, until it has enough. *)
Fixpoint feed (es : list SyslogEntry) (c : C) : bool * C :=
  match es with
  | [] => (true, c)
  | e :: es => let (go, c) := callback e c in if go then feed es c else (false, c)
  end.

(** What arrives before the stream ends, and the error it ends with. *)
Fixpoint received (r : list rd_event) : list byte * option io_error :=
  match r with
  | [] | RData [] :: _ => ([], None)
  | RFail e :: _ => ([], Some e)
  | RData c :: r => let (l, e) := received r in (c ++ l, e)
  end.

(** The result at the end of the stream. *)
Definition end_result (e : option io_error) : outcome Error unit :=
  match e with
  | Some e => if is_interrupted e then Ok tt else Err (Lockdown.Io e)
  | None => Ok tt
  end.

(** ** Lines and their rest *)

Definition rest_of (l : list byte) : list byte := default [] (last (split_on is_end l)).

Lemma split_on_nonempty {A} (p : A → bool) l : split_on p l ≠ [].
Proof. destruct l; simpl; [done|]. by repeat case_match. Qed.

Lemma entries_end h b t :
  is_end b = true → Forall (λ b, is_end b = false) h →
  entries (h ++ b :: t) = omap entry_of [h] ++ entries t ∧ rest_of (h ++ b :: t) = rest_of t.
Proof.
  intros Hb Hh. unfold entries, rest_of. rewrite split_on_app by done.
  pose proof (split_on_nonempty is_end t). destruct (split_on is_end t) as [|x l] eqn:E; [done|].
  split; [|done]. change (removelast (h :: x :: l)) with (h :: removelast (x :: l)).
  cbn [omap list_omap]. by destruct (entry_of h).
Qed.
Lemma entries_open l :
  split_at is_end l = None → entries l = [] ∧ rest_of l = l.
Proof.
  intros Hl. unfold entries, rest_of. assert (split_on is_end l = [l]) as ->; [|done].
  apply split_on_none. revert Hl. induction l as [|b l IH]; [by constructor|]. cbn [split_at].
  destruct (is_end b) eqn:E; [done|]. intros Hl. constructor; [done|]. apply IH.
  by destruct (split_at is_end l) as [[]|].
Qed.

(** The lines of a text are its terminated lines, then what its rest becomes. *)
Lemma lines_ind (P : list byte → Prop) :
  (∀ l, split_at is_end l = None → P l) →
  (∀ h b t, is_end b = true → Forall (λ b, is_end b = false) h → P t → P (h ++ b :: t)) →
  ∀ l, P l.
Proof.
  intros Hopen Hend l. induction l as [l IH] using (induction_ltof1 _ (@length byte)).
  destruct (split_at is_end l) as [[h t]|] eqn:E; [|by apply Hopen].
  apply split_at_Some in E as (b & -> & Hb & Hh). apply Hend; [done..|]. apply IH.
  unfold ltof. rewrite length_app. simpl. lia.
Qed.

Lemma entries_app l k : entries (l ++ k) = entries l ++ entries (rest_of l ++ k).
Proof.
  induction l as [l Hl|h b t Hb Hh IH] using lines_ind.
  - by destruct (entries_open l Hl) as [-> ->].
  - rewrite <-(assoc_L (++)). cbn [app]. destruct (entries_end h b (t ++ k) Hb Hh) as [-> _].
    destruct (entries_end h b t Hb Hh) as [-> ->]. by rewrite IH, (assoc_L (++)).
Qed.
Lemma rest_of_open l : split_at is_end (rest_of l) = None.
Proof.
  induction l as [l Hl|h b t Hb Hh IH] using lines_ind.
  - by destruct (entries_open l Hl) as [_ ->].
  - by destruct (entries_end h b t Hb Hh) as [_ ->].
Qed.

Lemma feed_app es es' c :
  feed (es ++ es') c = let (go, c) := feed es c in if go then feed es' c else (false, c).
Proof.
  revert c. induction es as [|e es IH]; intros c; simpl; [done|].
  destruct (callback e c) as [[] c1]; [apply IH|done].
Qed.

(** The callback sees the entries of the lines that are complete, and what is
    carried over is the rest. *)
Lemma drain_entries l fuel c :
  (length l ≤ fuel)%nat →
  drain fuel l c = let (go, c) := feed (entries l) c in
                   (Ok (if go then Some (rest_of l) else None), c).
Proof.
  revert fuel c. induction l as [l Hl|h b t Hb Hh IH] using lines_ind; intros fuel c Hf.
  - destruct (entries_open l Hl) as [-> ->]. destruct fuel; cbn [drain]; by rewrite Hl.
  - rewrite length_app in Hf. simpl in Hf. destruct fuel as [|fuel]; [lia|]. cbn [drain].
    rewrite split_at_app by done. destruct (entries_end h b t Hb Hh) as [-> ->].
    cbn [omap list_omap]. unfold entry_of. case_bool_decide; [apply IH; lia|].
    cbn [app feed]. unfold sbind. destruct (callback _ c) as [[] c1]; [apply IH; lia|done].
Qed.

(** ** Reading *)

Lemma read_received n s :
  0 < n →
  match read n s with
  | (Ok [], _) => received (rx s) = ([], None)
  | (Ok buf, s') => received (rx s) = let (l, e) := received (rx s') in (buf ++ l, e)
  | (Err e, _) => received (rx s) = ([], Some e)
  | _ => False
  end ∧ tx (read n s).2 = tx s.
Proof.
  intros Hn. unfold read. destruct (rx s) as [|[[|b l]|e] r] eqn:E; [done| | |by simpl].
  - change (lenZ []) with 0. by rewrite (proj2 (Z.leb_le 0 n)) by lia.
  - destruct (lenZ (b :: l) <=? n) eqn:El; [done|]. split; [|done]. apply Z.leb_gt in El.
    destruct (Z.to_nat n) as [|m] eqn:Em; [lia|]. cbn [take drop].
    destruct (drop m l) as [|b' l'] eqn:Ed.
    + exfalso. apply (f_equal length) in Ed. rewrite length_drop in Ed. unfold lenZ in El. simpl in *. lia.
    + cbn [received set_rx rx app]. destruct (received r) as [k e].
      rewrite <-(take_drop m l) at 1. by rewrite Ed, <-(assoc_L (++)).
Qed.

Lemma stream_loop_entries fuel carry s c :
  split_at is_end carry = None → (rx_size (rx s) ≤ fuel)%nat →
  ∃ s', tx s' = tx s ∧
    stream_loop fuel carry (s, c) =
      (let (l, e) := received (rx s) in
       let (go, c) := feed (entries (carry ++ l)) c in
       (if go then end_result e else Ok tt, (s', c))).
Proof.
  revert carry s c. induction fuel as [|fuel IH]; intros carry s c Hc Hf;
    pose proof (read_received BUF_SIZE s ltac:(done)) as [Hr Htx]; cbn [stream_loop];
    unfold sbind, stry, on_outer, on_local, zoom; cbn [fst snd];
    destruct (entries_open carry Hc) as [Hen Hro];
    (destruct (read BUF_SIZE s) as [[[|b buf]|e| |] s'] eqn:E; try done;
     [exists s'; rewrite Hr, app_nil_r, Hen; done| |
      exists s'; rewrite Hr, app_nil_r, Hen; simpl; by destruct (is_interrupted e)]);
    (apply read_size in E as [_ Hlt]; [|done]); specialize (Hlt ltac:(done)); [lia|].
  rewrite drain_entries by done. rewrite Hr. destruct (received (rx s')) as [l e] eqn:El.
  rewrite (assoc_L (++)), (entries_app (carry ++ b :: buf) l), feed_app. cbn [fst snd].
  destruct (feed (entries (carry ++ b :: buf)) c) as [[] c1]; [|by exists s'].
  destruct (IH (rest_of (carry ++ b :: buf)) s' c1) as (s2 & Htx2 & ->);
    [apply rest_of_open|lia|].
  exists s2. rewrite El. split; [by rewrite Htx2|done].
Qed.

(** C30. The stream of the system log hands exactly the entries of the bytes that
    arrive to the callback, in order and until it has enough, however the bytes
    are cut into reads; it always returns, with the result the end of the stream
    calls for, and writes nothing. *)
Theorem syslog_stream_entries s c :
  ∃ s', tx s' = tx s ∧
    syslog_stream (s, c) =
      (let (l, e) := received (rx s) in
       let (go, c) := feed (entries l) c in
       (if go then end_result e else Ok tt, (s', c))).
Proof. unfold syslog_stream. by apply stream_loop_entries. Qed.
End stream.

(** ** Lines of the usual format *)

(** The header of a line: the time stamp, the host and the process. *)
Definition stamp (month day time : string) : string :=
  (month ++ " " ++ pad_left 2 day ++ " " ++ time)%string.
Definition format_line (month day time host proc lv msg : string) : string :=
  (stamp month day time ++ " " ++ host ++ " " ++ proc ++ " <" ++ lv ++ ">: " ++ msg)%string.

(** The level as a word of the line. *)
Definition level_word (lv : string) : string := ("<" ++ lv ++ ">:")%string.
Definition no_bracket (s : string) : Prop := Forall (λ b, b ≠ ">"%byte) (bytes_of s).
#[export] Instance no_bracket_dec s : Decision (no_bracket s).
Proof. unfold no_bracket. apply _. Defined.

Lemma level_word_ok lv :
  is_text lv → Forall (λ c, is_white c = false) (chars lv) → is_word (level_word lv).
Proof.
  intros Ht Hw. unfold level_word.
  assert (is_text "<" ∧ is_text ">:") as [H1 H2] by (split; by compute_done).
  assert (is_text (lv ++ ">:")) as H3 by (by apply is_text_app).
  split; [by apply is_text_app|]. rewrite !chars_app by done. split; [done|].
  rewrite !Forall_app. split_and!; [by compute_done|done|by compute_done].
Qed.

Lemma words_line month day time host proc lv msg :
  Forall is_word [month; day; time; host; proc] → is_text lv → is_text msg →
  Forall (λ c, is_white c = false) (chars lv) →
  words (chars (format_line month day time host proc lv msg)) =
    (chars <$> [month; day; time; host; proc; level_word lv]) ++ words (chars msg).
Proof.
  intros Hws Hlv Hmsg Hlw. pose proof (level_word_ok lv Hlv Hlw) as Hl.
  rewrite !Forall_cons in Hws. destruct Hws as (Hm & Hd & Ht & Hh & Hp & _).
  pose proof (proj1 Hm); pose proof (proj1 Hd); pose proof (proj1 Ht);
    pose proof (proj1 Hh); pose proof (proj1 Hp).
  assert (chars (format_line month day time host proc lv msg) =
    chars month ++ space :: replicate (2 - length (chars day)) space ++ chars day ++ space ::
    chars time ++ space :: chars host ++ space :: chars proc ++ space ::
    chars (level_word lv) ++ space :: chars msg) as ->.
  { unfold format_line, stamp, level_word. rewrite !chars_app by solve_text.
    rewrite (proj1 (chars_pad_left 2 day ltac:(done))). by rewrite <-!(assoc_L (++)). }
  rewrite words_word, words_spaces, !words_word by done. done.
Qed.

(** A line of the usual format is taken apart into its fields.  The message
    keeps its words but not the white space between them: a run becomes one
    space, so it is returned as it was when its words are one space apart. *)
Theorem parse_format_line month day time host proc lv msg :
  Forall is_word [month; day; time; host; proc] → is_text lv → is_text msg →
  Forall (λ c, is_white c = false) (chars lv) → no_bracket lv →
  words (chars msg) ≠ [] → strip_prefix [":"; " "]%byte (bytes_of msg) = None →
  join [space] (words (chars msg)) = chars msg →
  parse (format_line month day time host proc lv msg) =
    MkSyslogEntry (format_line month day time host proc lv msg)
      (stamp month day time) proc lv msg.
Proof.
  intros Hws Hlv Hmsg Hlw Hnb Hne Hsp Hj. unfold parse, split_whitespace.
  rewrite words_line by done. cbn [fmap list_fmap app]. rewrite !of_chars_chars. cbn [next_word].
  rewrite !Forall_cons in Hws. destruct Hws as (Hm & _).
  rewrite bool_decide_false; [|intros ->; by destruct Hm as [_ [Hm _]]].
  assert (join [" "%byte] (bytes_of <$> level_word lv :: (of_chars <$> words (chars msg))) =
    bytes_of (level_word lv) ++ [" "%byte] ++ bytes_of msg) as ->.
  { destruct (words (chars msg)) as [|w ws] eqn:E; [done|].
    change (join ?a (bytes_of <$> ?x :: ?l)) with (bytes_of x ++ a ++ join a (bytes_of <$> l)).
    do 2 f_equal. rewrite <-list_fmap_compose.
    rewrite (list_fmap_ext _ (@concat byte)) by (intros ? ? _; apply bytes_of_string_of).
    rewrite join_concat, Hj. by rewrite <-(of_chars_chars msg) at 2; unfold of_chars;
      rewrite bytes_of_string_of. }
  unfold level_message, level_word. rewrite bytes_of_string_of, !bytes_of_app, <-!(assoc_L (++)).
  change (strip_prefix _ _) with
    (Some (bytes_of lv ++ ">"%byte :: [":"; " "]%byte ++ bytes_of msg)). cbn iota.
  rewrite split_at_app; [|by eapply Forall_impl; [exact Hnb|]; intros b Hb;
    apply bool_decide_false|done].
  by rewrite trim_start_matches_once, !string_of_bytes_of by done.
Qed.

(** An empty message becomes a colon: the space before it has been trimmed. *)
Lemma parse_empty_message : message (parse (trim (format_line "Apr" "5" "12:34:56" "h" "p[1]" "Notice" ""))) = ":"%string.
Proof. vm_compute. reflexivity. Qed.

Lemma parse_format_line_witness :
  parse "Apr  5 12:34:56 phone kernel[0] <Error>: disk full" =
    MkSyslogEntry "Apr  5 12:34:56 phone kernel[0] <Error>: disk full"
      "Apr  5 12:34:56" "kernel[0]" "Error" "disk full".
Proof.
  apply (parse_format_line "Apr" "5" "12:34:56" "phone" "kernel[0]" "Error" "disk full");
    [compute_done|compute_done|compute_done|compute_done|compute_done|
     vm_compute; discriminate|reflexivity|reflexivity].
Defined.
