(* ===== verification/Archive.v ===== *)
(** * Keyed archives ([src/xctest/mod.rs], [src/xctest/config.rs],
      [src/bin/ios/cmd/ps.rs], [src/bin/ios/cmd/perf.rs])

    The objects of Apple's NSKeyedArchiver as the sources build and read them: a
    table of objects that refer to each other by index.  The builders append to
    the table; the reader follows the references from the root. *)

From Stdlib Require Import Sorting.Sorted.
From stdpp Require Import sets.
From S2P Require Import Prelude RustStd Io Plist.
From S2P Require Dtx.

(** ** Reading *)

Definition as_uid (v : pval) : option Z := match v with PUid n => Some n | _ => None end.
Definition has_key (k : string) (d : dictionary) : bool := bool_decide (is_Some (dget k d)).
(** The array under a key, empty when there is none. *)
Definition array_or_empty (k : string) (d : dictionary) : list pval :=
  default [] (dget k d ≫= as_array).

Section decode.
(** [format!("{v:?}")] of a plist value, the text of the crate. *)
Context (debug_value : pval → string).

Definition key_string (v : pval) : string :=
  match v with PString s => s | v => debug_value v end.

(** [None]: the recursion goes on for ever. *)
Fixpoint nska_decode_value (fuel : nat) (objects : list pval) (v : pval) : option pval :=
  match fuel with
  | O => None
  | S fuel =>
      let dec := nska_decode_value fuel objects in
      match v with
      | PUid uid =>
          match objects !! Z.to_nat uid with
          | Some o => dec o
          | None => Some (PString "$null")
          end
      | PDict d =>
          if has_key "NS.keys" d && has_key "NS.objects" d then
            let keys := array_or_empty "NS.keys" d in
            let vals := array_or_empty "NS.objects" d in
            out ← mapM (λ kv : pval * pval,
                    k ← dec kv.1; v ← dec kv.2; Some (key_string k, v)) (zip keys vals);
            Some (PDict (dict out))
          else
            match dget "NS.objects" d ≫= as_array with
            | Some arr => PArray <$> mapM dec arr
            | None =>
                out ← mapM (λ kv : string * pval, v ← dec kv.2; Some (kv.1, v))
                        (filter (λ kv, kv.1 ≠ "$class"%string) d);
                Some (PDict (dict out))
            end
      | PArray arr => PArray <$> mapM dec arr
      | other => Some other
      end
  end.

Definition nska_decode_array (fuel : nat) (root : pval) (objects : list pval) : option (list pval) :=
  decoded ← nska_decode_value fuel objects root;
  match decoded with
  | PArray arr => Some arr
  | PDict d =>
      if has_key "NS.objects" d then
        mapM (nska_decode_value fuel objects) (array_or_empty "NS.objects" d)
      else Some []
  | _ => Some []
  end.

(** The table and the object under [root]; [None] when the plist is no archive. *)
Definition archive_parts (v : pval) : option (list pval * pval) :=
  d ← as_dictionary v;
  objects ← dget "$objects" d ≫= as_array;
  top ← dget "$top" d ≫= as_dictionary;
  root_uid ← dget "root" top ≫= as_uid;
  root ← objects !! Z.to_nat root_uid;
  Some (objects, root).

(** [inl tt]: no array; [inr None]: no end. *)
Definition nska_root_array (fuel : nat) (v : pval) : unit + option (list pval) :=
  match archive_parts v with
  | Some (objects, root) => inr (nska_decode_array fuel root objects)
  | None => inl tt
  end.

(** ** The list of processes ([ps.rs]) *)

Record ProcessInfo : Type := MkProcessInfo {
  pid : Z;
  name : string;
  real_app_name : string;
  is_application : bool
}.

Definition process_of (item : pval) : option ProcessInfo :=
  d ← as_dictionary item;
  Some (MkProcessInfo (default 0 (dget "pid" d ≫= as_unsigned_integer))
    (default ""%string (dget "name" d ≫= as_string))
    (default ""%string (dget "realAppName" d ≫= as_string))
    (default false (dget "isApplication" d ≫= as_boolean))).

(** [sort_by_key(|p| p.pid)], a stable sort *)
Fixpoint insert_by_pid (p : ProcessInfo) (l : list ProcessInfo) : list ProcessInfo :=
  match l with
  | [] => [p]
  | q :: l' => if pid p <=? pid q then p :: l else q :: insert_by_pid p l'
  end.
Definition sort_by_pid (l : list ProcessInfo) : list ProcessInfo := foldr insert_by_pid [] l.

Definition parse_process_list (fuel : nat) (v : pval) : outcome string (list ProcessInfo) :=
  match nska_root_array fuel v with
  | inl _ => Err "unexpected runningProcesses response shape"%string
  | inr None => OutOfFuel
  | inr (Some arr) => Ok (sort_by_pid (omap process_of arr))
  end.

(** The archive in a reply: its payload, or the first argument that is a plist. *)
Definition reply_value `{PlistLib} (reply : Dtx.DtxMessage) : option pval :=
  match Dtx.payload reply with
  | Some v => Some v
  | None => head (omap (λ a, match a with Dtx.ABytes b => from_bytes b | _ => None end) (Dtx.aux reply))
  end.
Definition processes_of_reply `{PlistLib} (fuel : nat) (reply : Dtx.DtxMessage) :
    outcome string (list ProcessInfo) :=
  let? v := ok_or (reply_value reply) "runningProcesses returned no data"%string in
  parse_process_list fuel v.
End decode.

(** ** Building *)

Section build.
Context {E : Type}.
Abbreviation table := (list pval).

(** [let uid = Uid::new(objects.len() as u64); objects.push(v);] *)
Definition push_val (v : pval) : ST table E Z := λ objects, (Ok (lenZ objects), objects ++ [v]).
Definition push_str (s : string) : ST table E Z := push_val (PString s).

Definition class_dict (classname : string) (superclasses : list string) : pval :=
  PDict (dict ["$classname" =>> PString classname;
               "$classes" =>> PArray (PString classname :: (PString <$> superclasses))]).
Definition push_class (classname : string) (supers : list string) : ST table E Z :=
  push_val (class_dict classname supers).

Definition push_nsset (set_class : Z) (items : list string) : ST table E Z :=
  push_val (PDict (dict ["NS.objects" =>> PArray (PString <$> items); "$class" =>> PUid set_class])).

(** An NSDictionary of objects that are already in the table. *)
Definition push_dict (cls : Z) (keys vals : list Z) : ST table E Z :=
  push_val (PDict (dict ["NS.keys" =>> PArray (PUid <$> keys);
                         "NS.objects" =>> PArray (PUid <$> vals); "$class" =>> PUid cls])).

Fixpoint smapM {A B} (f : A → ST table E B) (l : list A) : ST table E (list B) :=
  match l with
  | [] => sret []
  | x :: l => let! y := f x in let! ys := smapM f l in sret (y :: ys)
  end.

(** The finished archive of the object that a builder returns. *)
Definition archive_of (m : ST table E Z) : outcome E pval :=
  match m [PString "$null"] with
  | (Ok root, objects) => Ok (Dtx.archive_root (PUid root) objects)
  | (Err e, _) => Err e
  | (Panic, _) => Panic
  | (OutOfFuel, _) => OutOfFuel
  end.
Definition to_bin `{PlistLib} (v : pval) : outcome E (list byte) := or_panic (to_writer_binary v).

(** *** Small archives ([xctest/mod.rs]) *)

Definition uuid_objects (bytes : list byte) : ST table E Z :=
  let! class_idx := push_class "NSUUID" ["NSObject"] in
  push_val (PDict (dict ["NS.uuidbytes" =>> PData bytes; "$class" =>> PUid class_idx])).
Definition archive_uuid `{PlistLib} (bytes : list byte) : outcome E (list byte) :=
  let? v := archive_of (uuid_objects bytes) in to_bin v.

Definition url_objects (url : string) : ST table E Z :=
  let! class_idx := push_class "NSURL" ["NSObject"] in
  let! str_idx := push_str url in
  push_val (PDict (dict ["NS.base" =>> PUid 0; "NS.relative" =>> PUid str_idx;
                         "$class" =>> PUid class_idx])).
Definition archive_url `{PlistLib} (url : string) : outcome E (list byte) :=
  let? v := archive_of (url_objects url) in to_bin v.

(** The entries in the order of the map's iteration. *)
Definition capabilities_objects (caps : list (string * pval)) : ST table E Z :=
  let! xctcaps_class := push_class "XCTCapabilities" ["NSObject"] in
  let! nsdict_class := push_class "NSDictionary" ["NSObject"] in
  let! uids := smapM (λ kv : string * pval,
    let! ku := push_str kv.1 in let! vu := push_val kv.2 in sret (ku, vu)) caps in
  let! nsdict_uid := push_dict nsdict_class uids.*1 uids.*2 in
  push_val (PDict (dict ["capabilities-dictionary" =>> PUid nsdict_uid;
                         "$class" =>> PUid xctcaps_class])).
Definition archive_xct_capabilities `{PlistLib} (caps : list (string * pval)) : outcome E (list byte) :=
  let? v := archive_of (capabilities_objects caps) in to_bin v.
End build.

(** ** The test configuration ([config.rs]) *)

Record XCTestConfigArgs : Type := MkXCTestConfigArgs {
  session_id : list byte;
  test_bundle_path : string;
  product_module_name : string;
  target_bundle_id : string;
  target_path : string;
  tests_to_run : list string;
  tests_to_skip : list string;
  is_xctest : bool;
  initialize_for_ui : bool;
  app_dependencies : list (string * string);
  runner_bundle_id : string
}.

Definition cap_keys_1 : list string :=
  ["XCTIssue capability"; "daemon container sandbox extension"; "delayed attachment transfer";
   "expected failure test capability"; "in-process test parallelization capability";
   "request diagnostics for specific devices"; "runner plan"; "skipped suite capability";
   "skipped test capability"; "test case run configurations"; "test timeout capability";
   "traits"; "ubiquitous test identifiers"; "unified issue recorded"]%string.
Definition AUTOMATION_PATH : string :=
  "/System/Developer/Library/PrivateFrameworks/XCTAutomationSupport.framework".

Section config.
Context {E : Type}.
Abbreviation table := (list pval).

(** The null object for an empty list or text. *)
Definition unless_empty {A} (empty : bool) (m : ST table E A) (null : A) : ST table E A :=
  if empty then sret null else m.
Definition is_empty (s : string) : bool := bool_decide (s = ""%string).
Definition no_items {A} (l : list A) : bool := match l with [] => true | _ => false end.

Definition ide_capabilities (nsdict_class xctcaps_class : Z) : ST table E Z :=
  let! true_uid := push_val (PInt 1) in
  let! two_uid := push_val (PInt 2) in
  let! key_uids := smapM push_str cap_keys_1 in
  let! iter_uid := push_str "test iterations" in
  let! nsdict_uid := push_dict nsdict_class (key_uids ++ [iter_uid])
                       (replicate (length key_uids) true_uid ++ [two_uid]) in
  push_val (PDict (dict ["capabilities-dictionary" =>> PUid nsdict_uid;
                         "$class" =>> PUid xctcaps_class])).

Definition app_deps (nsdict_class : Z) (deps : list (string * string)) : ST table E Z :=
  let! uids := smapM (λ d : string * string,
    let! ku := push_str d.1 in let! vu := push_str d.2 in sret (ku, vu)) deps in
  push_dict nsdict_class uids.*1 uids.*2.

(** An entry that is left out for the null object. *)
Definition entry_unless_null (k : string) (uid : Z) : list (string * pval) :=
  if uid =? 0 then [] else [k =>> PUid uid].

(** The entries of the configuration object. *)
Definition configuration_entries (args : XCTestConfigArgs) (xctestconfig_class session_uid
    bundle_url_uid module_name_uid tests_to_run_uid tests_to_skip_uid agg_stats_uid
    automation_path_uid ide_caps_uid app_deps_uid target_bundle_uid target_path_uid : Z) :
    list (string * pval) :=
  [
    "$class" =>> PUid xctestconfig_class;
    "aggregateStatisticsBeforeCrash" =>> PUid agg_stats_uid;
    "automationFrameworkPath" =>> PUid automation_path_uid;
    "baselineFileRelativePath" =>> PUid 0;
    "baselineFileURL" =>> PUid 0;
    "defaultTestExecutionTimeAllowance" =>> PUid 0;
    "disablePerformanceMetrics" =>> PBool false;
    "emitOSLogs" =>> PBool false;
    "gatherLocalizableStringsData" =>> PBool false;
    "initializeForUITesting" =>> PBool (initialize_for_ui args);
    "maximumTestExecutionTimeAllowance" =>> PUid 0;
    "randomExecutionOrderingSeed" =>> PUid 0;
    "reportActivities" =>> PBool true;
    "reportResultsToIDE" =>> PBool true;
    "sessionIdentifier" =>> PUid session_uid;
    "systemAttachmentLifetime" =>> PInt 2;
    "testApplicationUserOverrides" =>> PUid 0;
    "testBundleRelativePath" =>> PUid 0;
    "testBundleURL" =>> PUid bundle_url_uid;
    "testExecutionOrdering" =>> PInt 0;
    "testTimeoutsEnabled" =>> PBool false;
    "testsDrivenByIDE" =>> PBool false;
    "testsMustRunOnMainThread" =>> PBool true;
    "treatMissingBaselinesAsFailures" =>> PBool false;
    "userAttachmentLifetime" =>> PInt 1;
    "preferredScreenCaptureFormat" =>> PInt 2;
    "IDECapabilities" =>> PUid ide_caps_uid;
    "productModuleName" =>> PUid module_name_uid;
    "testApplicationDependencies" =>> PUid app_deps_uid]
    ++ entry_unless_null "testsToRun" tests_to_run_uid
    ++ entry_unless_null "testsToSkip" tests_to_skip_uid
    ++ entry_unless_null "targetApplicationBundleID" target_bundle_uid
    ++ entry_unless_null "targetApplicationPath" target_path_uid.

Definition configuration_objects (args : XCTestConfigArgs) : ST table E Z :=
  let! xctestconfig_class := push_class "XCTestConfiguration" ["NSObject"] in
  let! nsuuid_class := push_class "NSUUID" ["NSObject"] in
  let! nsurl_class := push_class "NSURL" ["NSObject"] in
  let! nsset_class := push_class "NSSet" ["NSObject"] in
  let! nsdict_class := push_class "NSDictionary" ["NSObject"] in
  let! xctcaps_class := push_class "XCTCapabilities" ["NSObject"] in
  let! nsmarray_class := push_class "NSMutableArray" ["NSArray"; "NSObject"] in
  let! session_uid := push_val (PDict (dict ["NS.uuidbytes" =>> PData (session_id args);
                                             "$class" =>> PUid nsuuid_class])) in
  let! str_idx := push_str ("file://" ++ test_bundle_path args)%string in
  let! bundle_url_uid := push_val (PDict (dict ["NS.base" =>> PUid 0; "NS.relative" =>> PUid str_idx;
                                                "$class" =>> PUid nsurl_class])) in
  let! module_name_uid := push_str (product_module_name args) in
  let! tests_to_run_uid := unless_empty (no_items (tests_to_run args))
                             (push_nsset nsset_class (tests_to_run args)) 0 in
  let! tests_to_skip_uid := unless_empty (no_items (tests_to_skip args))
                              (push_nsset nsset_class (tests_to_skip args)) 0 in
  let! agg_stats_uid := push_val (PDict (dict ["XCSuiteRecordsKey" =>> PDict [];
                                               "$class" =>> PUid nsdict_class])) in
  let! automation_path_uid := push_str AUTOMATION_PATH in
  let! ide_caps_uid := ide_capabilities nsdict_class xctcaps_class in
  let! app_deps_uid := app_deps nsdict_class (app_dependencies args) in
  let! target_bundle_uid := unless_empty (is_empty (target_bundle_id args))
                              (push_str (target_bundle_id args)) 0 in
  let! target_path_uid := unless_empty (is_empty (target_path args))
                            (push_str (target_path args)) 0 in
  push_val (PDict (dict (configuration_entries args xctestconfig_class session_uid bundle_url_uid
    module_name_uid tests_to_run_uid tests_to_skip_uid agg_stats_uid automation_path_uid
    ide_caps_uid app_deps_uid target_bundle_uid target_path_uid))).

Definition build_xctest_configuration_bytes `{PlistLib} (args : XCTestConfigArgs) :
    outcome E (list byte) :=
  let? v := archive_of (configuration_objects args) in to_bin v.

(** ** The configuration of the performance monitor ([perf.rs]) *)

Definition FALLBACK_PROC_ATTRS : list string :=
  ["memVirtualSize"; "cpuUsage"; "ctxSwitch"; "intWakeups"; "physFootprint"; "memResidentSize";
   "memAnon"; "pid"; "ppid"; "name"]%string.
Definition FALLBACK_SYS_ATTRS : list string :=
  ["physMemSize"; "vmUsedCount"; "vmFreeCount"; "__vmSwapUsage"; "diskBytesRead";
   "diskBytesWritten"; "netBytesIn"; "netBytesOut"; "threadCount"]%string.

(** The closure [make_arr] *)
Definition make_arr (cls_array : Z) (strs : list string) : ST table E Z :=
  let! uids := smapM push_str strs in
  push_val (PDict (dict ["NS.objects" =>> PArray (PUid <$> uids); "$class" =>> PUid cls_array])).

Definition monitor_objects (ns : Z) (proc_attrs sys_attrs : list string) : ST table E Z :=
  let! cls_dict := push_class "NSMutableDictionary" ["NSDictionary"; "NSObject"] in
  let! cls_array := push_class "NSArray" ["NSObject"] in
  let! v_ur := push_val (PInt 1) in
  let! v_bm := push_val (PInt 0) in
  let! v_si := push_val (PInt ns) in
  let! v_true := push_val (PBool true) in
  let! v_proc := make_arr cls_array proc_attrs in
  let! v_sys := make_arr cls_array sys_attrs in
  let! k_ur := push_str "ur" in
  let! k_bm := push_str "bm" in
  let! k_si := push_str "sampleInterval" in
  let! k_cpu := push_str "cpuUsage" in
  let! k_phys := push_str "physFootprint" in
  let! k_proc := push_str "procAttrs" in
  let! k_sys := push_str "sysAttrs" in
  push_dict cls_dict [k_ur; k_bm; k_si; k_cpu; k_phys; k_proc; k_sys]
    [v_ur; v_bm; v_si; v_true; v_true; v_proc; v_sys].

Definition build_config `{BuildProfile} `{PlistLib} (interval_ms : Z)
    (proc_attrs sys_attrs : list string) : outcome E (list byte) :=
  let? ns := mul_w 64 interval_ms 1000000 in
  let? v := archive_of (monitor_objects (swrap 64 ns) proc_attrs sys_attrs) in to_bin v.
End config.

(** ** What an archive means

    [decodes objects v r]: the reader turns [v] into [r] in every table that
    extends [objects]. *)
Section meaning.
Context (debug_value : pval → string).
Abbreviation decode := (nska_decode_value debug_value).

Definition decodes (objects : list pval) (v r : pval) : Prop :=
  ∃ n, ∀ more, decode n (objects ++ more) v = Some r.

Lemma mapM_mono {A B} (f g : A → option B) l ks :
  (∀ x y, f x = Some y → g x = Some y) → mapM f l = Some ks → mapM g l = Some ks.
Proof.
  intros Hfg. rewrite !mapM_Some. intros H. eapply Forall2_impl; [exact H|]. auto.
Qed.

(** More fuel gives the same result. *)
Lemma decode_mono n m objects v r :
  (n ≤ m)%nat → decode n objects v = Some r → decode m objects v = Some r.
Proof.
  revert m v r. induction n as [|n IH]; intros m v r Hle; [done|]. destruct m as [|m]; [lia|].
  assert (∀ x y, decode n objects x = Some y → decode m objects x = Some y) as Hd
    by (intros; apply IH; [lia|done]).
  cbn [nska_decode_value]. destruct v as [l|d| | | | | | |uid]; try done.
  - destruct (mapM (decode n objects) l) as [ks|] eqn:E; [|done]. intros [= <-].
    by rewrite (mapM_mono _ (decode m objects) _ _ Hd E).
  - destruct (has_key "NS.keys" d && has_key "NS.objects" d).
    + intros (out & Hout & [= <-])%bind_Some. erewrite mapM_mono; [reflexivity| |exact Hout].
      cbn beta. intros kv [k v]. intros (k1 & Hk1 & (v1 & Hv1 & [= <- <-])%bind_Some)%bind_Some.
      by rewrite (Hd _ _ Hk1), (Hd _ _ Hv1).
    + destruct (dget "NS.objects" d ≫= as_array) as [arr|].
      * destruct (mapM (decode n objects) arr) as [ks|] eqn:E; [|done]. intros [= <-].
        by rewrite (mapM_mono _ (decode m objects) _ _ Hd E).
      * intros (out & Hout & [= <-])%bind_Some. erewrite mapM_mono; [reflexivity| |exact Hout].
        cbn beta. intros kv [k v]. intros (v1 & Hv1 & [= <- <-])%bind_Some.
        by rewrite (Hd _ _ Hv1).
  - destruct (objects !! Z.to_nat uid); [apply Hd|done].
Qed.

Lemma decodes_ext objects objects' v r :
  objects `prefix_of` objects' → decodes objects v r → decodes objects' v r.
Proof. intros [k ->] [n Hn]. exists n. intros more. rewrite <-(assoc_L (++)). apply Hn. Qed.

Lemma decodes_fuel objects v r : decodes objects v r → ∃ n, decode n objects v = Some r.
Proof. intros [n Hn]. exists n. rewrite <-(app_nil_r objects) at 1. apply Hn. Qed.

(** A list of values, with one fuel for all. *)
Lemma decodes_list objects l rs :
  Forall2 (decodes objects) l rs →
  ∃ n, ∀ m more, (n ≤ m)%nat → mapM (decode m (objects ++ more)) l = Some rs.
Proof.
  induction 1 as [|v r l rs [n1 Hv] _ [n2 Hl]]; [by exists 0%nat|].
  exists (n1 `max` n2)%nat. intros m more Hle. cbn [mapM].
  rewrite (decode_mono n1 m _ v r), Hl; [done|lia|lia|apply Hv].
Qed.

Definition is_leaf (v : pval) : bool :=
  match v with PArray _ | PDict _ | PUid _ => false | _ => true end.
Lemma decodes_leaf objects v : is_leaf v = true → decodes objects v v.
Proof. intros Hv. exists 1%nat. intros more. by destruct v. Qed.

Lemma decodes_uid objects n o r :
  objects !! Z.to_nat n = Some o → decodes objects o r → decodes objects (PUid n) r.
Proof.
  intros Ho [k Hk]. exists (S k). intros more. cbn [nska_decode_value].
  by rewrite (lookup_app_l_Some _ _ _ _ Ho), Hk.
Qed.

Lemma decodes_array objects l rs :
  Forall2 (decodes objects) l rs → decodes objects (PArray l) (PArray rs).
Proof.
  intros (n & Hn)%decodes_list. exists (S n). intros more. cbn [nska_decode_value].
  by rewrite Hn by done.
Qed.

(** NSArray and NSSet. *)
Lemma decodes_items objects d arr rs :
  dget "NS.keys" d = None → dget "NS.objects" d = Some (PArray arr) →
  Forall2 (decodes objects) arr rs → decodes objects (PDict d) (PArray rs).
Proof.
  intros Hk Ho (n & Hn)%decodes_list. exists (S n). intros more. cbn [nska_decode_value].
  unfold has_key. rewrite Hk, Ho. cbn. by rewrite Hn by done.
Qed.

(** NSDictionary. *)
Lemma decodes_keyed objects d keys vals ks rs :
  dget "NS.keys" d = Some (PArray keys) → dget "NS.objects" d = Some (PArray vals) →
  Forall2 (λ k s, decodes objects k (PString s)) keys ks → Forall2 (decodes objects) vals rs →
  decodes objects (PDict d) (PDict (dict (zip ks rs))).
Proof.
  intros Hk Ho Hks Hrs.
  assert (∃ n, ∀ m more, (n ≤ m)%nat →
    mapM (λ kv : pval * pval, k ← decode m (objects ++ more) kv.1; v ← decode m (objects ++ more) kv.2;
            Some (key_string debug_value k, v)) (zip keys vals) = Some (zip ks rs)) as [n Hn].
  { clear Hk Ho. revert vals rs Hrs. induction Hks as [|k s keys ks [n1 Hk] _ IH]; intros vals rs Hrs.
    - by exists 0%nat.
    - destruct Hrs as [|v r vals rs [n2 Hv] Hrs]; [by exists 0%nat|].
      destruct (IH vals rs Hrs) as [n3 Hn]. exists (n1 + n2 + n3)%nat. intros m more Hle.
      cbn [zip zip_with mapM fst snd].
      rewrite (decode_mono n1 m _ k (PString s)), (decode_mono n2 m _ v r);
        [|lia|apply Hv|lia|apply Hk]. cbn [mbind option_bind].
      by rewrite Hn by lia. }
  exists (S n). intros more. cbn [nska_decode_value]. unfold has_key, array_or_empty.
  rewrite Hk, Ho. cbn -[zip mapM]. by rewrite Hn by done.
Qed.

(** Any other object: its fields, without the class. *)
Lemma decodes_object objects d rs :
  dget "NS.keys" d = None → dget "NS.objects" d = None →
  Forall2 (λ kv kr : string * pval, kr.1 = kv.1 ∧ decodes objects kv.2 kr.2)
    (filter (λ kv, kv.1 ≠ "$class"%string) d) rs →
  decodes objects (PDict d) (PDict (dict rs)).
Proof.
  intros Hk Ho Hrs.
  assert (∃ n, ∀ m more, (n ≤ m)%nat →
    mapM (λ kv : string * pval, v ← decode m (objects ++ more) kv.2; Some (kv.1, v))
      (filter (λ kv, kv.1 ≠ "$class"%string) d) = Some rs) as [n Hn].
  { induction Hrs as [|[k v] [k' r] l rs [Heq [n1 Hv]] _ [n2 Hl]]; [by exists 0%nat|].
    cbn [fst snd] in *. subst k'. exists (n1 + n2)%nat. intros m more Hle. cbn [mapM fst snd].
    rewrite (decode_mono n1 m _ v r); [|lia|apply Hv]. cbn [mbind option_bind].
    by rewrite Hl by lia. }
  exists (S n). intros more. cbn [nska_decode_value]. unfold has_key. rewrite Hk, Ho.
  cbn -[filter mapM]. by rewrite Hn by done.
Qed.
End meaning.

(** ** What the builders build

    [built objects m Q]: on the table [objects], [m] succeeds and appends to it,
    and [Q] holds of the new table and the result. *)
Section built.
Context (debug_value : pval → string) {E : Type}.
Abbreviation table := (list pval).
Abbreviation decodes := (decodes debug_value).

Definition built {A} (objects : table) (m : ST table E A) (Q : table → A → Prop) : Prop :=
  ∃ a more, m objects = (Ok a, objects ++ more) ∧ Q (objects ++ more) a.

Lemma built_ret {A} objects (a : A) (Q : table → A → Prop) : Q objects a → built objects (sret a) Q.
Proof. intros HQ. exists a, []. by rewrite app_nil_r. Qed.

Lemma built_bind {A B} objects (m : ST table E A) (k : A → ST table E B) P Q :
  built objects m P →
  (∀ objects' a, objects `prefix_of` objects' → P objects' a → built objects' (k a) Q) →
  built objects (sbind m k) Q.
Proof.
  intros (a & more & Hm & HP) Hk.
  destruct (Hk (objects ++ more) a) as (b & more' & Hkm & HQ); [by exists more|done|].
  exists b, (more ++ more'). rewrite (sbind_ok _ _ _ _ _ Hm), (assoc_L (++)). done.
Qed.

Lemma built_impl {A} objects (m : ST table E A) (P Q : table → A → Prop) :
  built objects m P → (∀ objects' a, objects `prefix_of` objects' → P objects' a → Q objects' a) →
  built objects m Q.
Proof. intros (a & more & Hm & HP) Hi. exists a, more. split; [done|]. apply Hi; [by exists more|done]. Qed.

(** The table begins with the null object. *)
Definition null_first (objects : table) : Prop := head objects = Some (PString "$null").
(** The index [u] of [objects] is that of [r], and not that of the null object. *)
Definition refers (objects : table) (u : Z) (r : pval) : Prop :=
  u ≠ 0 ∧ ∃ o, objects !! Z.to_nat u = Some o ∧ decodes objects o r.
Lemma refers_decodes objects u r : refers objects u r → decodes objects (PUid u) r.
Proof. intros (_ & o & Ho & Hd). by eapply decodes_uid. Qed.

Lemma null_first_ext objects objects' :
  objects `prefix_of` objects' → null_first objects → null_first objects'.
Proof. intros [k ->] Hn. by destruct objects. Qed.
Lemma refers_ext objects objects' u r :
  objects `prefix_of` objects' → refers objects u r → refers objects' u r.
Proof.
  intros Hp (? & o & Ho & Hd). split; [done|]. exists o. split; [|by eapply decodes_ext].
  destruct Hp as [k ->]. by apply lookup_app_l_Some.
Qed.
Lemma refers_list_ext objects objects' us rs :
  objects `prefix_of` objects' → Forall2 (refers objects) us rs → Forall2 (refers objects') us rs.
Proof. intros Hp H. eapply Forall2_impl; [exact H|]. intros u r. by apply refers_ext. Qed.
Lemma decodes_null objects : null_first objects → decodes objects (PUid 0) (PString "$null").
Proof.
  intros Hn. destruct objects as [|v l]; [done|]. injection Hn as ->.
  by eapply decodes_uid; [|apply decodes_leaf].
Qed.

(** A pushed value is found under its index. *)
Lemma built_push objects v r :
  null_first objects → decodes objects v r →
  built objects (push_val v) (λ objects' u, null_first objects' ∧ refers objects' u r).
Proof.
  intros Hn Hv. exists (lenZ objects), [v]. split; [done|].
  assert (objects `prefix_of` objects ++ [v]) as Hp by (by exists [v]).
  split; [by eapply null_first_ext|]. split.
  - destruct objects as [|w l]; [done|]. rewrite lenZ_cons. pose proof (lenZ_nonneg l). lia.
  - exists v. split; [|by eapply decodes_ext].
    unfold lenZ. rewrite Nat2Z.id, lookup_app_r, Nat.sub_diag by done. done.
Qed.
Lemma built_str objects s :
  null_first objects →
  built objects (push_str s) (λ objects' u, null_first objects' ∧ refers objects' u (PString s)).
Proof. intros Hn. by apply built_push, decodes_leaf. Qed.
Lemma built_class objects n supers :
  null_first objects → built objects (push_class n supers) (λ objects' _, null_first objects').
Proof.
  intros Hn. exists (lenZ objects), [class_dict n supers]. split; [done|].
  eapply null_first_ext; [by eexists|done].
Qed.

Lemma built_smapM {A B} (f : A → ST table E B) (R : table → A → B → Prop) objects l :
  (∀ o o' x y, o `prefix_of` o' → R o x y → R o' x y) →
  (∀ o x, null_first o → built o (f x) (λ o' y, null_first o' ∧ R o' x y)) →
  null_first objects →
  built objects (smapM f l) (λ o ys, null_first o ∧ Forall2 (R o) l ys).
Proof.
  intros Hext Hf. revert objects. induction l as [|x l IH]; intros objects Hn; cbn [smapM].
  { by apply built_ret. }
  eapply built_bind; [by apply Hf|]. intros o1 y Hp1 [Hn1 Hy].
  eapply built_bind; [by apply IH|]. intros o2 ys Hp2 [Hn2 Hys].
  apply built_ret. split; [done|]. constructor; [by eapply Hext|done].
Qed.

(** *** Dictionaries *)

Definition plain_keys (kvs : list (string * pval)) : bool :=
  bool_decide (NoDup ("$class" :: "NS.keys" :: "NS.objects" :: kvs.*1)%string).
Definition field_of (objects : table) (kv kr : string * pval) : Prop :=
  kr.1 = kv.1 ∧ decodes objects kv.2 kr.2.

Lemma filter_class pre c (post : list (string * pval)) :
  "$class"%string ∉ (pre ++ post).*1 →
  filter (λ kv : string * pval, kv.1 ≠ "$class"%string) (pre ++ ("$class" =>> c) :: post) = pre ++ post.
Proof.
  intros Hn. rewrite filter_app, filter_cons_False by (cbn; tauto). rewrite <-filter_app.
  induction (pre ++ post) as [|[k v] l IH]; [done|].
  rewrite filter_cons_True; [by rewrite IH by set_solver|]. cbn in *. set_solver.
Qed.

(** A dictionary with a class decodes to its fields. *)
Lemma decodes_fields objects pre c post rs :
  plain_keys (pre ++ post) = true → Forall2 (field_of objects) (pre ++ post) rs →
  decodes objects (PDict (dict (pre ++ ("$class" =>> c) :: post))) (PDict (dict rs)).
Proof.
  intros Hk%bool_decide_eq_true Hrs.
  apply NoDup_cons in Hk as [Hc Hk]. apply NoDup_cons in Hk as [Hnk Hk].
  apply NoDup_cons in Hk as [Hno Hk].
  assert (NoDup (pre ++ ("$class" =>> c) :: post).*1) as Hnd.
  { rewrite fmap_app, fmap_cons, <-Permutation_middle, <-fmap_app. constructor; [set_solver|done]. }
  rewrite dict_nodup by done. apply decodes_object.
  - apply al_lookup_None. unfold al_keys. rewrite fmap_app, fmap_cons. set_solver.
  - apply al_lookup_None. unfold al_keys. rewrite fmap_app, fmap_cons. set_solver.
  - rewrite filter_class by set_solver. done.
Qed.

Lemma decodes_refs objects us rs :
  Forall2 (refers objects) us rs → Forall2 (decodes objects) (PUid <$> us) rs.
Proof. induction 1 as [|u r us rs Hu _ IH]; constructor; [by apply refers_decodes|done]. Qed.

Lemma built_dict objects c keys ks vals rs :
  null_first objects →
  Forall2 (refers objects) keys (PString <$> ks) → Forall2 (refers objects) vals rs →
  built objects (push_dict c keys vals)
    (λ o u, null_first o ∧ refers o u (PDict (dict (zip ks rs)))).
Proof.
  intros Hn Hks Hrs. apply built_push; [done|].
  apply decodes_keyed with (keys:=PUid <$> keys) (vals:=PUid <$> vals); [done|done| |by apply decodes_refs].
  rewrite Forall2_fmap_r in Hks. apply Forall2_fmap_l. eapply Forall2_impl; [exact Hks|].
  intros u k. apply refers_decodes.
Qed.

Lemma built_nsset objects c items :
  null_first objects →
  built objects (push_nsset c items)
    (λ o u, null_first o ∧ refers o u (PArray (PString <$> items))).
Proof.
  intros Hn. apply built_push; [done|].
  apply decodes_items with (arr:=PString <$> items); [done|done|].
  induction items as [|x items IH]; constructor; [by apply decodes_leaf|done].
Qed.

Lemma archive_parts_root u objects :
  archive_parts (Dtx.archive_root (PUid u) objects) =
    (root ← objects !! Z.to_nat u; Some (objects, root)).
Proof. reflexivity. Qed.

(** The archive of a builder, and what is read back from its root. *)
Definition means (v r : pval) : Prop :=
  ∃ objects root n, archive_parts v = Some (objects, root) ∧
    nska_decode_value debug_value n objects root = Some r.

Lemma archive_of_means (m : ST table E Z) r :
  (∀ objects, null_first objects → built objects m (λ o u, null_first o ∧ refers o u r)) →
  ∃ v, archive_of m = Ok v ∧ means v r.
Proof.
  intros Hm. destruct (Hm [PString "$null"] eq_refl) as (u & more & Hr & _ & _ & o & Ho & Hd).
  unfold archive_of. rewrite Hr. eexists. split; [done|].
  apply decodes_fuel in Hd as [n Hn]. exists ([PString "$null"] ++ more), o, n. split; [|done].
  by rewrite archive_parts_root, Ho.
Qed.

Lemma built_object objects pre c post rs :
  null_first objects → plain_keys (pre ++ post) = true → Forall2 (field_of objects) (pre ++ post) rs →
  built objects (push_val (PDict (dict (pre ++ ("$class" =>> c) :: post))))
    (λ o u, null_first o ∧ refers o u (PDict (dict rs))).
Proof. intros. apply built_push; [done|]. by apply decodes_fields. Qed.

Lemma built_items objects c us rs :
  null_first objects → Forall2 (refers objects) us rs →
  built objects (push_val (PDict (dict ["NS.objects" =>> PArray (PUid <$> us); "$class" =>> PUid c])))
    (λ o u, null_first o ∧ refers o u (PArray rs)).
Proof.
  intros Hn Hus. apply built_push; [done|].
  apply decodes_items with (arr:=PUid <$> us); [done|done|by apply decodes_refs].
Qed.

Lemma built_strs objects l :
  null_first objects →
  built objects (smapM push_str l) (λ o us, null_first o ∧ Forall2 (refers o) us (PString <$> l)).
Proof.
  intros Hn. eapply built_impl.
  - apply built_smapM with (R:=λ o s u, refers o u (PString s)); [| |done].
    + intros o o' s u Hp. by apply refers_ext.
    + intros o s. apply built_str.
  - intros o us _ [Hn' Hus]. split; [done|]. by apply Forall2_fmap_r, Forall2_flip.
Qed.
(** The null object, or a value. *)
Definition maybe (objects : table) (u : Z) (empty : bool) (r : pval) : Prop :=
  if empty then u = 0 else refers objects u r.
Lemma built_unless (objects : table) (empty : bool) (m : ST table E Z) r :
  null_first objects →
  built objects m (λ o u, null_first o ∧ refers o u r) →
  built objects (unless_empty empty m 0) (λ o u, null_first o ∧ maybe o u empty r).
Proof. intros Hn Hm. unfold unless_empty, maybe. destruct empty; [by apply built_ret|done]. Qed.
Lemma maybe_ext objects objects' u empty r :
  objects `prefix_of` objects' → maybe objects u empty r → maybe objects' u empty r.
Proof. unfold maybe. destruct empty; [done|]. apply refers_ext. Qed.
End built.

(** One step of a builder, by the lemma of its operation; what is known of the
    table before the step is carried over to the table after it. *)
Ltac extend Hp :=
  match type of Hp with
  | ?o `prefix_of` ?o' =>
      repeat match goal with
      | H : refers _ o _ _ |- _ => apply (refers_ext _ o o') in H; [|exact Hp]
      | H : Forall2 (refers _ o) _ _ |- _ =>
          apply (refers_list_ext _ o o') in H; [|exact Hp]
      | H : maybe _ o _ _ _ |- _ => apply (maybe_ext _ o o') in H; [|exact Hp]
      end
  end.
Tactic Notation "step" uconstr(lem) :=
  eapply built_bind;
  [eapply lem; try done
  |let o := fresh "o" in let u := fresh "u" in let Hp := fresh "Hp" in let H := fresh "H" in
   intros o u Hp H; cbn beta in H;
   match type of H with
   | _ ∧ _ => let Hn := fresh "Hn" in let Hu := fresh "Hu" in destruct H as [Hn Hu]
   | _ => idtac
   end; extend Hp; clear Hp].
(** The fields of an object, each a leaf or known to be in the table. *)
Ltac fields :=
  repeat (constructor; [split; [reflexivity|];
    first [by apply decodes_leaf | by apply refers_decodes | by apply decodes_null]|]);
  try by constructor.

Section archives.
Context (debug_value : pval → string) {E : Type}.
Abbreviation table := (list pval).
Abbreviation means := (means debug_value).

Definition uuid_value (bytes : list byte) : pval := PDict (dict ["NS.uuidbytes" =>> PData bytes]).
Definition url_value (url : string) : pval :=
  PDict (dict ["NS.base" =>> PString "$null"; "NS.relative" =>> PString url]).

Lemma built_uuid (objects : table) c bytes :
  null_first objects →
  built objects (push_val (E:=E) (PDict (dict ["NS.uuidbytes" =>> PData bytes; "$class" =>> PUid c])))
    (λ o u, null_first o ∧ refers debug_value o u (uuid_value bytes)).
Proof.
  intros Hn. eapply (built_object debug_value _ ["NS.uuidbytes" =>> PData bytes] _ []); [done|done|fields].
Qed.
Lemma built_url (objects : table) c n url :
  null_first objects → refers debug_value objects n (PString url) →
  built objects (push_val (E:=E) (PDict (dict ["NS.base" =>> PUid 0; "NS.relative" =>> PUid n;
                                               "$class" =>> PUid c])))
    (λ o u, null_first o ∧ refers debug_value o u (url_value url)).
Proof.
  intros Hn Hu. eapply (built_object debug_value _ ["NS.base" =>> PUid 0; "NS.relative" =>> PUid n] _ []);
    [done|done|fields].
Qed.

Lemma uuid_archive bytes : ∃ v, archive_of (E:=E) (uuid_objects bytes) = Ok v ∧ means v (uuid_value bytes).
Proof.
  apply archive_of_means. intros objects Hn. unfold uuid_objects. step built_class.
  by apply built_uuid.
Qed.
Lemma url_archive url : ∃ v, archive_of (E:=E) (url_objects url) = Ok v ∧ means v (url_value url).
Proof.
  apply archive_of_means. intros objects Hn. unfold url_objects. step built_class. step (built_str debug_value).
  by apply built_url.
Qed.

(** Keys and values that are pushed in turn. *)
Lemma built_pairs {A} (objects : table) (key : A → string) (val : A → pval) l :
  null_first objects → Forall (λ x, is_leaf (val x) = true) l →
  built objects (smapM (E:=E) (λ x, let! ku := push_str (key x) in
                                    let! vu := push_val (val x) in sret (ku, vu)) l)
    (λ o us, null_first o ∧
       Forall2 (refers debug_value o) us.*1 (PString <$> (key <$> l)) ∧
       Forall2 (refers debug_value o) us.*2 (val <$> l)).
Proof.
  intros Hn Hl. revert objects Hn. induction Hl as [|x l Hx _ IH]; intros objects Hn; cbn [smapM].
  { apply built_ret. by repeat constructor. }
  eapply built_bind with (P:=λ o kv, null_first o ∧ refers debug_value o kv.1 (PString (key x)) ∧
    refers debug_value o kv.2 (val x)).
  { step (built_str debug_value). step (built_push debug_value); [by apply decodes_leaf|]. by apply built_ret. }
  intros o1 [ku vu] _ (Hn1 & Hk & Hv). cbn [fst snd] in *.
  eapply built_bind; [by apply IH|]. intros o2 us Hp (Hn2 & Hks & Hvs).
  apply built_ret. cbn [fmap list_fmap fst snd]. split_and!; [done|constructor; [|done]..];
    by eapply refers_ext.
Qed.

Definition capabilities_value (caps : list (string * pval)) : pval :=
  PDict (dict ["capabilities-dictionary" =>> PDict (dict caps)]).

Lemma built_capabilities_object (objects : table) c n d :
  null_first objects → refers debug_value objects n d →
  built objects (push_val (E:=E) (PDict (dict ["capabilities-dictionary" =>> PUid n; "$class" =>> PUid c])))
    (λ o u, null_first o ∧ refers debug_value o u (PDict (dict ["capabilities-dictionary" =>> d]))).
Proof.
  intros Hn Hu. eapply (built_object debug_value _ ["capabilities-dictionary" =>> PUid n] _ []);
    [done|done|fields].
Qed.

(** The capabilities that are archived are those that are read back. *)
Lemma capabilities_archive caps :
  Forall (λ kv : string * pval, is_leaf kv.2 = true) caps →
  ∃ v, archive_of (E:=E) (capabilities_objects caps) = Ok v ∧ means v (capabilities_value caps).
Proof.
  intros Hl. apply archive_of_means. intros objects Hn. unfold capabilities_objects.
  step built_class. step built_class. step (built_pairs _ fst snd). destruct Hu as [Hks Hvs].
  step (built_dict debug_value). rewrite zip_fst_snd in Hu. by apply built_capabilities_object.
Qed.

(** *** The test configuration *)

Definition null_or (empty : bool) (v : pval) : pval := if empty then PString "$null" else v.
Definition entry_unless (empty : bool) (k : string) (v : pval) : list (string * pval) :=
  if empty then [] else [k =>> v].

Definition ide_value : pval :=
  capabilities_value (((λ k, k =>> PInt 1) <$> cap_keys_1) ++ ["test iterations" =>> PInt 2]).

Definition deps_value (deps : list (string * string)) : pval :=
  PDict (dict ((λ d : string * string, d.1 =>> PString d.2) <$> deps)).

(** What the device's unarchiver is meant to find. *)
Definition configuration_value (args : XCTestConfigArgs) : pval :=
  let null := PString "$null" in
  PDict (dict ([
    "aggregateStatisticsBeforeCrash" =>> PDict ["XCSuiteRecordsKey" =>> PDict []];
    "automationFrameworkPath" =>> PString AUTOMATION_PATH;
    "baselineFileRelativePath" =>> null;
    "baselineFileURL" =>> null;
    "defaultTestExecutionTimeAllowance" =>> null;
    "disablePerformanceMetrics" =>> PBool false;
    "emitOSLogs" =>> PBool false;
    "gatherLocalizableStringsData" =>> PBool false;
    "initializeForUITesting" =>> PBool (initialize_for_ui args);
    "maximumTestExecutionTimeAllowance" =>> null;
    "randomExecutionOrderingSeed" =>> null;
    "reportActivities" =>> PBool true;
    "reportResultsToIDE" =>> PBool true;
    "sessionIdentifier" =>> uuid_value (session_id args);
    "systemAttachmentLifetime" =>> PInt 2;
    "testApplicationUserOverrides" =>> null;
    "testBundleRelativePath" =>> null;
    "testBundleURL" =>> url_value ("file://" ++ test_bundle_path args);
    "testExecutionOrdering" =>> PInt 0;
    "testTimeoutsEnabled" =>> PBool false;
    "testsDrivenByIDE" =>> PBool false;
    "testsMustRunOnMainThread" =>> PBool true;
    "treatMissingBaselinesAsFailures" =>> PBool false;
    "userAttachmentLifetime" =>> PInt 1;
    "preferredScreenCaptureFormat" =>> PInt 2;
    "IDECapabilities" =>> ide_value;
    "productModuleName" =>> PString (product_module_name args);
    "testApplicationDependencies" =>>
      deps_value (app_dependencies args)]
    ++ entry_unless (no_items (tests_to_run args)) "testsToRun"
         (PArray (PString <$> tests_to_run args))
    ++ entry_unless (no_items (tests_to_skip args)) "testsToSkip"
         (PArray (PString <$> tests_to_skip args))
    ++ entry_unless (is_empty (target_bundle_id args)) "targetApplicationBundleID"
         (PString (target_bundle_id args))
    ++ entry_unless (is_empty (target_path args)) "targetApplicationPath"
         (PString (target_path args)))).

Lemma built_ide (objects : table) c1 c2 :
  null_first objects →
  built objects (ide_capabilities (E:=E) c1 c2) (λ o u, null_first o ∧ refers debug_value o u ide_value).
Proof.
  intros Hn. unfold ide_capabilities.
  step (built_push debug_value); [by apply decodes_leaf|]. step (built_push debug_value); [by apply decodes_leaf|].
  step (built_strs debug_value). step (built_str debug_value).
  pose proof (Forall2_length _ _ _ Hu1) as Hlen. rewrite length_fmap in Hlen.
  step (built_dict debug_value _ _ _ (cap_keys_1 ++ ["test iterations"%string])
    _ (replicate (length cap_keys_1) (PInt 1) ++ [PInt 2])).
  - rewrite fmap_app. apply Forall2_app; [done|]. constructor; [done|constructor].
  - rewrite Hlen. apply Forall2_app; [by apply Forall2_replicate|].
    constructor; [done|constructor].
  - by apply built_capabilities_object.
Qed.

Lemma maybe_field objects k u empty r :
  maybe debug_value objects u empty r →
  Forall2 (field_of debug_value objects) (entry_unless_null k u) (entry_unless empty k r).
Proof.
  unfold maybe, entry_unless_null, entry_unless. destruct empty; [by intros ->|].
  intros Hu. rewrite (proj2 (Z.eqb_neq u 0)) by apply Hu. fields.
Qed.
Lemma maybe_keys objects k u empty r :
  maybe debug_value objects u empty r → (entry_unless_null k u).*1 = if empty then [] else [k].
Proof.
  unfold maybe, entry_unless_null. destruct empty; [by intros ->|]. intros Hu.
  by rewrite (proj2 (Z.eqb_neq u 0)) by apply Hu.
Qed.

Lemma built_deps (objects : table) c deps :
  null_first objects →
  built objects (app_deps (E:=E) c deps) (λ o u, null_first o ∧ refers debug_value o u (deps_value deps)).
Proof.
  intros Hn. unfold app_deps. step (built_pairs _ fst (λ d, PString d.2)); [by apply Forall_true|].
  destruct Hu as [Hks Hvs]. eapply built_impl; [by apply (built_dict debug_value)|].
  intros o' u' _ [Hn' Hu']. split; [done|]. unfold deps_value.
  assert ((λ d : string * string, d.1 =>> PString d.2) <$> deps =
    zip (fst <$> deps) ((λ d, PString d.2) <$> deps)) as ->; [|done].
  clear. induction deps as [|d deps IH]; [done|]. cbn. by f_equal.
Qed.

(** The archived configuration is read back field by field: every index leads
    to the object that was meant, whatever parts are left out. *)
Lemma built_configuration (objects : table) args :
  null_first objects →
  built objects (configuration_objects (E:=E) args)
    (λ o u, null_first o ∧ refers debug_value o u (configuration_value args)).
Proof.
  intros Hn. unfold configuration_objects. do 7 step built_class.
  step (built_uuid). step (built_str debug_value). step built_url.
  step (built_str debug_value).
  step (built_unless debug_value); [by apply built_nsset|].
  step (built_unless debug_value); [by apply built_nsset|].
  step (built_object debug_value _ ["XCSuiteRecordsKey" =>> PDict []] _ []
    ["XCSuiteRecordsKey" =>> PDict []]).
  { constructor; [|constructor]. split; [done|]. by eapply (decodes_object _ _ [] []). }
  step (built_str debug_value). step built_ide. step built_deps.
  step (built_unless debug_value); [by apply built_str|].
  step (built_unless debug_value); [by apply built_str|].
  unfold configuration_value, configuration_entries.
  eapply (built_object debug_value _ [] _ _ _); [done| |].
  - unfold plain_keys. cbn [app fmap list_fmap fst]. rewrite !fmap_app.
    rewrite (maybe_keys _ _ _ _ _ Hu3), (maybe_keys _ _ _ _ _ Hu4), (maybe_keys _ _ _ _ _ Hu9),
      (maybe_keys _ _ _ _ _ Hu10).
    destruct (no_items _), (no_items _), (is_empty _), (is_empty _); vm_compute; reflexivity.
  - cbn [app]. do 28 (constructor; [split; [reflexivity|];
      first [by apply decodes_leaf | by apply refers_decodes | by apply decodes_null]|]).
    repeat apply Forall2_app; by apply maybe_field.
Qed.

(** C40. The test configuration that is sent to the device is an archive of the
    configuration that was asked for: from the root, every field leads to the
    object that was meant, whichever parts are left out. *)
Theorem configuration_read_back args :
  ∃ v, archive_of (E:=E) (configuration_objects args) = Ok v ∧ means v (configuration_value args).
Proof. apply archive_of_means. intros objects Hn. by apply built_configuration. Qed.

(** *** The monitor's configuration *)

Definition monitor_value (ns : Z) (proc_attrs sys_attrs : list string) : pval :=
  PDict (dict ["ur" =>> PInt 1; "bm" =>> PInt 0; "sampleInterval" =>> PInt ns;
    "cpuUsage" =>> PBool true; "physFootprint" =>> PBool true;
    "procAttrs" =>> PArray (PString <$> proc_attrs); "sysAttrs" =>> PArray (PString <$> sys_attrs)]).

Lemma built_arr (objects : table) c strs :
  null_first objects →
  built objects (make_arr (E:=E) c strs)
    (λ o u, null_first o ∧ refers debug_value o u (PArray (PString <$> strs))).
Proof. intros Hn. unfold make_arr. step (built_strs debug_value). by apply built_items. Qed.

Lemma monitor_archive ns proc_attrs sys_attrs :
  ∃ v, archive_of (E:=E) (monitor_objects ns proc_attrs sys_attrs) = Ok v ∧
    means v (monitor_value ns proc_attrs sys_attrs).
Proof.
  apply archive_of_means. intros objects Hn. unfold monitor_objects. do 2 step built_class.
  do 4 (step (built_push debug_value); [by apply decodes_leaf|]). do 2 step built_arr.
  do 7 step (built_str debug_value).
  eapply built_impl; [eapply (built_dict debug_value _ _ _
    ["ur"; "bm"; "sampleInterval"; "cpuUsage"; "physFootprint"; "procAttrs"; "sysAttrs"]%string);
    [done|repeat (constructor; [eassumption|]); constructor..]|].
  intros o' u' _ Hu'. exact Hu'.
Qed.
End archives.

(** ** The end of the recursion *)

Fixpoint depth (v : pval) : nat :=
  match v with
  | PArray l => S (foldr (λ v n, depth v `max` n)%nat 0%nat l)
  | PDict d => S (foldr (λ kv n, depth kv.2 `max` n)%nat 0%nat d)
  | _ => 1
  end.

(** [v] refers to objects below the rank [r] only; classes are not followed. *)
Fixpoint below (rank : nat → nat) (r : nat) (v : pval) : bool :=
  match v with
  | PArray l => forallb (below rank r) l
  | PDict d => forallb (λ kv, bool_decide (kv.1 = "$class"%string) || below rank r kv.2) d
  | PUid n => (rank (Z.to_nat n) <? r)%nat
  | _ => true
  end.
(** Every object refers to objects of a smaller rank. *)
Definition acyclic (rank : nat → nat) (objects : list pval) : Prop :=
  ∀ i o, objects !! i = Some o → below rank (rank i) o = true.

Section ends.
Context (debug_value : pval → string).
Abbreviation decode := (nska_decode_value debug_value).

Lemma mapM_not_None {A B} (f : A → option B) l : (∀ x, x ∈ l → f x ≠ None) → mapM f l ≠ None.
Proof.
  induction l as [|x l IH]; intros Hf; [done|]. cbn [mapM].
  destruct (f x) as [y|] eqn:E; [|by destruct (Hf x); [left|]]. cbn [mbind option_bind].
  destruct (mapM f l) eqn:E'; [done|]. destruct IH; [|done]. intros z Hz. apply Hf. by right.
Qed.
Lemma max_elem {A} (f : A → nat) l x : x ∈ l → (f x ≤ foldr (λ y n, f y `max` n) 0 l)%nat.
Proof. induction 1 as [|x y l _ IH]; simpl; lia. Qed.

Lemma array_elem k d x :
  x ∈ array_or_empty k d → ∃ l, (k, PArray l) ∈ d ∧ x ∈ l.
Proof.
  unfold array_or_empty, dget. destruct (al_lookup k d) as [[]|] eqn:E; cbn; intros Hx;
    try by apply elem_of_nil in Hx. exists l. split; [by apply al_lookup_Some_elem|done].
Qed.

(** What a step of the recursion looks into is not deeper and refers to nothing
    else. *)
Definition part (x v : pval) : Prop :=
  (depth x < depth v)%nat ∧ ∀ rank r, below rank r v = true → below rank r x = true.
Lemma part_array x l : x ∈ l → part x (PArray l).
Proof.
  intros Hx. split.
  - cbn [depth]. pose proof (max_elem depth l x Hx). lia.
  - intros rank r Hb. cbn [below] in Hb. rewrite forallb_forall in Hb. apply Hb.
    by apply list_elem_of_In.
Qed.
Lemma part_field k x d : (k, x) ∈ d → k ≠ "$class"%string → part x (PDict d).
Proof.
  intros Hx Hk. split.
  - cbn [depth]. pose proof (max_elem (λ kv : string * pval, depth kv.2) d (k, x) Hx) as H.
    cbn [snd] in H. lia.
  - intros rank r Hb. cbn [below] in Hb. rewrite forallb_forall in Hb.
    specialize (Hb (k, x)). rewrite <-list_elem_of_In in Hb. specialize (Hb Hx). cbn in Hb.
    by rewrite bool_decide_false in Hb.
Qed.
Lemma part_trans x y v : part x y → part y v → part x v.
Proof. intros [? H1] [? H2]. split; [lia|]. auto. Qed.
Lemma part_items k x d : x ∈ array_or_empty k d → k ≠ "$class"%string → part x (PDict d).
Proof.
  intros (l & Hl & Hx)%array_elem Hk. eapply part_trans; [by apply part_array|by eapply part_field].
Qed.

(** A value is decoded when the values in it are. *)
Lemma decode_step n objects v :
  (∀ x, part x v → decode n objects x ≠ None) →
  (∀ u o, v = PUid u → objects !! Z.to_nat u = Some o → decode n objects o ≠ None) →
  decode (S n) objects v ≠ None.
Proof.
  intros Hp Hu. cbn [nska_decode_value]. destruct v as [l|d| | | | | | |u]; try done.
  - intros Heq%fmap_None. revert Heq. apply mapM_not_None. intros x Hx. by apply Hp, part_array.
  - destruct (_ && _).
    + intros Heq. apply bind_None in Heq as [Heq|(? & _ & ?)]; [|done]. revert Heq.
      apply mapM_not_None. intros [k x] Hkx. cbn [fst snd].
      assert (k ∈ array_or_empty "NS.keys" d ∧ x ∈ array_or_empty "NS.objects" d) as [Hk Hx]
        by (split; [by eapply elem_of_zip_l|by eapply elem_of_zip_r]).
      destruct (decode n objects k) as [k'|] eqn:Ek; [|by destruct (Hp k); [eapply part_items|]].
      destruct (decode n objects x) as [x'|] eqn:Ex; [done|]. by destruct (Hp x); [eapply part_items|].
    + destruct (dget "NS.objects" d ≫= as_array) as [arr|] eqn:Ea.
      * intros Heq%fmap_None. revert Heq. apply mapM_not_None. intros x Hx. apply Hp.
        apply (part_items "NS.objects"); [|done]. unfold array_or_empty. by rewrite Ea.
      * intros Heq. apply bind_None in Heq as [Heq|(? & _ & ?)]; [|done]. revert Heq.
        apply mapM_not_None. intros [k x] [Hk Hkx]%list_elem_of_filter. cbn [fst snd] in *.
        destruct (decode n objects x) as [x'|] eqn:Ex; [done|]. by destruct (Hp x); [eapply part_field|].
  - destruct (objects !! Z.to_nat u) as [o|] eqn:Eo; [|done]. by eapply Hu.
Qed.

Lemma decode_acyclic rank objects D n r v :
  acyclic rank objects → (∀ i o, objects !! i = Some o → (depth o ≤ D)%nat) →
  below rank r v = true → (depth v + r * S D ≤ n)%nat → decode n objects v ≠ None.
Proof.
  intros Hac HD. revert r v. induction n as [|n IH]; intros r v Hb Hn.
  { destruct v; cbn [depth] in Hn; lia. }
  apply decode_step.
  - intros x [Hd Hx]. apply (IH r); [by apply Hx|lia].
  - intros u o -> Ho. apply (IH (rank (Z.to_nat u))); [by apply Hac|].
    cbn [below] in Hb. apply Nat.ltb_lt in Hb. pose proof (HD _ _ Ho). cbn [depth] in Hn. nia.
Qed.

(** Reading an archive whose objects do not refer to each other in a circle
    ends. *)
Lemma decode_ends rank objects root o :
  acyclic rank objects → objects !! Z.to_nat root = Some o →
  ∃ n r, ∀ m, (n ≤ m)%nat → decode m objects (PUid root) = Some r.
Proof.
  intros Hac Ho. set (D := foldr (λ o n, depth o `max` n)%nat 0%nat objects).
  set (n := (1 + S (rank (Z.to_nat root)) * S D)%nat).
  assert (decode n objects (PUid root) ≠ None) as Hn.
  { apply (decode_acyclic rank objects D _ (S (rank (Z.to_nat root)))); [done| |by apply Nat.ltb_lt; lia|done].
    intros i o' Ho'. apply max_elem. by eapply list_elem_of_lookup_2. }
  destruct (decode n objects (PUid root)) as [r|] eqn:E; [|done]. exists n, r.
  intros m Hm. by eapply decode_mono.
Qed.

(** An object that is a reference to itself is followed for ever: such an
    archive exhausts the stack. *)
Lemma decode_circle i objects n : objects !! i = Some (PUid (Z.of_nat i)) → decode n objects (PUid (Z.of_nat i)) = None.
Proof.
  intros Hi. induction n as [|n IH]; [done|]. cbn [nska_decode_value]. by rewrite Nat2Z.id, Hi.
Qed.

(** *** The list of processes *)

Lemma insert_by_pid_perm p l : insert_by_pid p l ≡ₚ p :: l.
Proof.
  induction l as [|q l IH]; [done|]. cbn [insert_by_pid]. case_match; [done|].
  rewrite IH. apply Permutation_swap.
Qed.
Lemma sort_by_pid_perm l : sort_by_pid l ≡ₚ l.
Proof. induction l as [|p l IH]; [done|]. cbn. by rewrite insert_by_pid_perm, IH. Qed.
Definition by_pid (p q : ProcessInfo) : Prop := pid p ≤ pid q.
Lemma insert_by_pid_sorted p l : StronglySorted by_pid l → StronglySorted by_pid (insert_by_pid p l).
Proof.
  induction 1 as [|q l Hl IH Hq]; cbn [insert_by_pid]; [by repeat constructor|].
  destruct (Z.leb_spec (pid p) (pid q)).
  - constructor; [by constructor|]. constructor; [done|]. eapply Forall_impl; [exact Hq|].
    unfold by_pid. intros. lia.
  - constructor; [done|]. rewrite insert_by_pid_perm. constructor; [unfold by_pid; lia|done].
Qed.
Lemma sort_by_pid_sorted l : StronglySorted by_pid (sort_by_pid l).
Proof. induction l as [|p l IH]; [constructor|]. by apply insert_by_pid_sorted. Qed.

(** From an archive of an array of processes every process is listed once, by
    its number. *)
Theorem processes_listed v items :
  means debug_value v (PArray items) →
  ∃ l n, (∀ m, (n ≤ m)%nat → parse_process_list debug_value m v = Ok l) ∧
    l ≡ₚ omap process_of items ∧ StronglySorted by_pid l.
Proof.
  intros (objects & root & n & Hv & Hn). exists (sort_by_pid (omap process_of items)), n.
  split_and!; [|apply sort_by_pid_perm|apply sort_by_pid_sorted].
  intros m Hm. unfold parse_process_list, nska_root_array, nska_decode_array. rewrite Hv.
  by rewrite (decode_mono _ _ _ _ _ _ Hm Hn).
Qed.
End ends.

Section witnesses.

(** Two processes as the device archives them. *)
Definition proc_entry (n : Z) : pval :=
  PDict ["NS.keys" =>> PArray [PUid 3; PUid 4]; "NS.objects" =>> PArray [PUid n; PUid (n + 1)];
         "$class" =>> PUid 1].
Definition proc_objects : list pval :=
  [PString "$null"; PDict ["$classname" =>> PString "NSDictionary"];
   PDict ["NS.objects" =>> PArray [PUid 9; PUid 10]; "$class" =>> PUid 1];
   PString "pid"; PString "name"; PInt 77; PString "b"; PInt 5; PString "a";
   proc_entry 5; proc_entry 7].
Definition proc_rank (i : nat) : nat :=
  match i with 2%nat => 2 | 9%nat | 10%nat => 1 | _ => 0 end.

Lemma decode_ends_witness :
  ∃ n r, ∀ m, (n ≤ m)%nat →
    nska_decode_value (λ _, ""%string) m proc_objects (PUid 2) = Some r.
Proof.
  apply (decode_ends (λ _, ""%string) proc_rank proc_objects 2
    (PDict ["NS.objects" =>> PArray [PUid 9; PUid 10]; "$class" =>> PUid 1])).
  - intros i o Ho. do 11 (destruct i as [|i]; [injection Ho as <-; reflexivity|]). done.
  - reflexivity.
Defined.

Definition proc_item (p : Z) (n : string) : pval := PDict ["pid" =>> PInt p; "name" =>> PString n].
Lemma processes_listed_witness :
  ∃ l n, (∀ m, (n ≤ m)%nat →
      parse_process_list (λ _, ""%string) m (Dtx.archive_root (PUid 2) proc_objects) = Ok l) ∧
    l ≡ₚ omap process_of [proc_item 77 "b"; proc_item 5 "a"] ∧ StronglySorted by_pid l.
Proof.
  apply (processes_listed (λ _, ""%string) (Dtx.archive_root (PUid 2) proc_objects)).
  exists proc_objects, (PDict ["NS.objects" =>> PArray [PUid 9; PUid 10]; "$class" =>> PUid 1]), 6%nat.
  split; vm_compute; reflexivity.
Defined.

(** The reader and a table that loops. *)
Example loop_never_ends : nska_decode_value (λ _, ""%string) 50 [PString "$null"; PUid 1] (PUid 1) = None.
Proof. vm_compute. reflexivity. Qed.
End witnesses.
