(* ===== verification/Cli.v ===== *)
(** * Devices and sessions of the command line ([src/bin/ios/cmd/mod.rs])

    The device a command is meant for, and the session it opens, with the errors
    of [anyhow] that the commands return. *)

From S2P Require Import Prelude RustStd Io Plist Os Version CdTunnel Tunnel DeviceSession.
From S2P Require UsbmuxTypes Lockdown Daemon.

Abbreviation anyhow := Daemon.anyhow.

(** [bail!] and [anyhow!] *)
Definition bail {S A} (t : string) (args : list fmt_arg) : ST S anyhow A := sfail [Msg t args].
(** [.context(t)] on an error that is [anyhow] already *)
Definition context {S A} (t : string) (m : ST S anyhow A) : ST S anyhow A :=
  smap_err (λ e, msg0 t :: e) m.

Section cli.
Context `{BuildProfile} `{PL : PlistLib} `{T : Lockdown.Tls} `{SJ : SerdeJson}
  {W : Type} `{OS : Os W} `{TS : TunnelStack W} `{Y : Sys W}.

(** The device with the UDID of the option or of [IOS_UDID], or the first. *)
Definition choose_device (udid : option string) (devices : list UsbmuxTypes.Device) :
    outcome anyhow UsbmuxTypes.Device :=
  match devices with
  | [] => Err [msg0 "no iOS devices connected"]
  | d :: _ =>
      match udid with
      | None => Ok d
      | Some u => ok_or (find_device u devices) [Msg "device {u} not found" [FStr u]]
      end
  end.
Definition resolve_device (udid : option string) : ST W anyhow UsbmuxTypes.Device :=
  let udid := match udid with Some u => Some u | None => getenv "IOS_UDID" end in
  let! devices := smap_err (λ e, [UsbmuxTypes.Error_fmt e]) connected_devices in
  lift (choose_device udid devices).

Definition open_session (udid : option string) (mode : ConnectionMode) : ST W anyhow DeviceSession :=
  let! device := resolve_device udid in
  smap_err (λ e, [Msg "{e}" [FDisplay (Error_fmt e)]]) (ds_open device mode).

(** ** What the commands do with a session *)

Definition set_lockdown (l : Lockdown.LockdownSession) (s : DeviceSession) : DeviceSession :=
  MkDeviceSession (ds_device s) (ds_version s) (active_path s)
    (match ds_inner s with
     | ILegacy _ => ILegacy l
     | IRsd t _ => IRsd t l
     | IDaemon _ u => IDaemon l u
     end).
(** A call on [session.lockdown()]. *)
Definition on_lockdown {E A} (m : ST (W * Lockdown.LockdownSession) E A) : ST (W * DeviceSession) E A :=
  zoom (λ ws, (ws.1, ds_lockdown ws.2)) (λ wl ws, (wl.1, set_lockdown wl.2 ws.2)) m.
(** A command opens its session and keeps it to the end. *)
Definition with_session {A} (udid : option string) (mode : ConnectionMode)
    (body : ST (W * DeviceSession) anyhow A) : ST W anyhow A :=
  let! session := open_session udid mode in scoped (λ _ w, w) session body.

(** [.context(t)] on an error of lockdown, and [?] without a context *)
Definition ld_context {S A} (t : string) (m : ST S Lockdown.Error A) : ST S anyhow A :=
  Daemon.ctx (msg0 t) Lockdown.Error_fmt m.
Definition ld_any {S A} (m : ST S Lockdown.Error A) : ST S anyhow A :=
  smap_err (λ e, [Lockdown.Error_fmt e]) m.
(** [.context(t)] on an error of the tunnel *)
Definition tn_context {S A} (t : string) (m : ST S Error A) : ST S anyhow A :=
  Daemon.ctx (msg0 t) Error_fmt m.
(** The service through its shim if the session is on the RSD path, and
    through lockdown if not. *)
Definition shim_or_lockdown (shim shim_context : string)
    (connect : ST (W * Lockdown.LockdownSession) Lockdown.Error MuxSocket) (connect_context : string) :
    ST (W * DeviceSession) anyhow MuxSocket :=
  let! ws := sget in
  if ds_is_rsd ws.2 then on_outer (tn_context shim_context (connect_rsd_shim ws.2 shim))
  else on_lockdown (ld_context connect_context connect).
End cli.

(** A device that is chosen is connected; with a UDID it has it, whatever its
    case, and without one it is the first. *)
Lemma choose_device_result udid devices d :
  choose_device udid devices = Ok d →
  d ∈ devices ∧
  match udid with
  | Some u => same_ignoring_case (UsbmuxTypes.serial d) u = true
  | None => head devices = Some d
  end.
Proof.
  unfold choose_device. destruct devices as [|d0 l]; [done|]. destruct udid as [u|].
  - unfold find_device. destruct (find _ (d0 :: l)) as [d1|] eqn:Ef; [|done]. intros [= ->].
    apply find_some in Ef as [Hin Hs]. split; [by apply list_elem_of_In|done].
  - intros [= ->]. split; [by left|done].
Qed.
