(* ===== verification/Output.v ===== *)
(** * What the commands print ([src/bin/ios/cmd/output.rs])

    A command that succeeds prints a text for people or a document for programs.
    Here its result is the text on its standard output; what goes to standard
    error is left out. *)

From Stdlib Require Import Sorted.
From S2P Require Import Prelude RustStd Text Io Plist Json.
From S2P Require Float Daemon.

Abbreviation anyhow := Daemon.anyhow.

(** The terminal, the tables of the crate [comfy-table], and the [Debug] text
    of the values of the crate [plist]. *)
Class Terminal := {
  is_terminal : bool;
  table_text : list string → list (list string) → list byte;
  debug_date : Z → string;
  debug_plist : pval → string
}.

Inductive OutputMode : Type := Auto | Text | Json.
Definition is_json `{Terminal} (m : OutputMode) : bool :=
  match m with Json => true | Text => false | Auto => negb is_terminal end.

(** [println!] *)
Definition line (l : list byte) : list byte := l ++ [x0a].
Definition println (s : string) : list byte := line (bytes_of s).
Definition print_json `{JsonLib} (v : jval) : outcome anyhow (list byte) :=
  let? l := ok_or (json_to_vec_pretty v) [msg0 "{e}"] in Ok (line l).
(** A command that has nothing left to do but print. *)
Definition report `{Terminal} `{JsonLib} (m : OutputMode) (document : jval) (text : list byte) :
    outcome anyhow (list byte) :=
  if is_json m then print_json document else Ok text.

(** [ActionResult], and the document that is derived for it *)
Record ActionResult : Type := MkActionResult { ok : bool; message : option string }.
Definition ActionResult_ok : ActionResult := MkActionResult true None.
Definition with_msg (msg : string) : ActionResult := MkActionResult true (Some msg).
Definition action_json (a : ActionResult) : jval :=
  JObject (("ok" =:> JBool (ok a))
           :: match message a with Some m => ["message" =:> JString m] | None => [] end).

Definition jopt (o : option string) : jval := match o with Some s => JString s | None => JNull end.

(** A [for] loop that keeps what each turn makes. *)
Fixpoint traverse {S E A B} (f : A → ST S E B) (l : list A) : ST S E (list B) :=
  match l with
  | [] => sret []
  | x :: l => let! y := f x in let! ys := traverse f l in sret (y :: ys)
  end.

(** ** The order of texts *)

(** [str::cmp]: the order of the bytes *)
Fixpoint bytes_leb (l k : list byte) : bool :=
  match l, k with
  | [], _ => true
  | _ :: _, [] => false
  | b :: l, c :: k => if u8 b =? u8 c then bytes_leb l k else u8 b <? u8 c
  end.
Definition str_leb (s t : string) : bool := bytes_leb (bytes_of s) (bytes_of t).

(** [sort_by] with a total order: stable *)
Section sorting.
Context {A : Type} (le : A → A → bool).
Fixpoint insert (x : A) (l : list A) : list A :=
  match l with
  | [] => [x]
  | y :: l' => if le x y then x :: l else y :: insert x l'
  end.
Definition sort (l : list A) : list A := foldr insert [] l.
End sorting.
Definition sort_strings : list string → list string := sort str_leb.
(** [sort_by_key] *)
Definition sort_by {A} (key : A → string) : list A → list A := sort (λ x y, str_leb (key x) (key y)).

(** ** Property lists as documents *)

(** [collect] into a [serde_json::Map], which is ordered by its keys *)
Definition jmap (kvs : list (string * jval)) : list (string * jval) :=
  sort_by fst (foldl (λ d kv, al_insert kv.1 kv.2 d) [] kvs).

Definition hex_text (l : list byte) : string := string_of (concat (hex02 false <$> l)).

(** [json!] on a float: there is no document for NaN and the infinities *)
Definition jfloat (bits : Z) : jval :=
  match Float.F64.of_bits bits with
  | SpecFloat.S754_nan | SpecFloat.S754_infinity _ => JNull
  | _ => JFloat bits
  end.

Fixpoint plist_to_json `{Terminal} (v : pval) : jval :=
  match v with
  | PString s => JString s
  | PBool b => JBool b
  | PInt _ =>
      match as_signed_integer v with
      | Some n => JInt n
      | None => JInt (default 0 (as_unsigned_integer v))
      end
  | PReal f => jfloat f
  | PData b => JString (hex_text b)
  | PArray arr => JArray (plist_to_json <$> arr)
  | PDict d => JObject (jmap ((λ kv, (kv.1, plist_to_json kv.2)) <$> d))
  | PDate d => JString (debug_date d)
  | PUid _ => JNull
  end.

Lemma traverse_inv {S E A B} (f : A → ST S E B) l s ys s' :
  traverse f l s = (Ok ys, s') → Forall2 (λ x y, ∃ s1 s2, f x s1 = (Ok y, s2)) l ys.
Proof.
  revert s ys. induction l as [|x l IH]; intros s ys; cbn [traverse]; [by intros [= <- <-]|].
  intros (y & s1 & Hy & (ys' & s2 & Hys & [= <- <-])%sbind_inv)%sbind_inv.
  constructor; [by eauto|]. by eapply IH.
Qed.

(** ** Sorting *)
Section sorting.
Context {A : Type} (le : A → A → bool).
Context (le_total : ∀ x y, le x y = true ∨ le y x = true)
  (le_trans : ∀ x y z, le x y = true → le y z = true → le x z = true).

Lemma insert_perm x l : insert le x l ≡ₚ x :: l.
Proof.
  induction l as [|y l IH]; [done|]. cbn [insert]. case_match; [done|].
  rewrite IH. by constructor.
Qed.
Lemma sort_perm l : sort le l ≡ₚ l.
Proof. unfold sort. induction l as [|x l IH]; [done|]. cbn [foldr]. by rewrite insert_perm, IH. Qed.

Lemma insert_sorted x l :
  StronglySorted (λ x y, le x y = true) l → StronglySorted (λ x y, le x y = true) (insert le x l).
Proof.
  induction 1 as [|y l Hl IH Hy]; cbn [insert]; [by repeat constructor|].
  case_match eqn:Hle.
  - constructor; [by constructor|]. constructor; [done|].
    eapply Forall_impl; [exact Hy|]. intros z Hz. by eapply le_trans.
  - constructor; [done|]. rewrite insert_perm. constructor; [|done].
    destruct (le_total x y); congruence.
Qed.
Lemma sort_sorted l : StronglySorted (λ x y, le x y = true) (sort le l).
Proof. unfold sort. induction l as [|x l IH]; [constructor|]. by apply insert_sorted. Qed.
End sorting.

Lemma bytes_leb_total l k : bytes_leb l k = true ∨ bytes_leb k l = true.
Proof.
  revert k. induction l as [|b l IH]; intros [|c k]; cbn [bytes_leb]; [by left|by left|by right|].
  rewrite (Z.eqb_sym (u8 c)). destruct (Z.eqb_spec (u8 b) (u8 c)); [apply IH|].
  rewrite !Z.ltb_lt. lia.
Qed.
Lemma bytes_leb_trans l k m : bytes_leb l k = true → bytes_leb k m = true → bytes_leb l m = true.
Proof.
  revert k m. induction l as [|b l IH]; intros [|c k] [|d m]; cbn [bytes_leb]; try done.
  destruct (Z.eqb_spec (u8 b) (u8 c)) as [E1|E1], (Z.eqb_spec (u8 c) (u8 d)) as [E2|E2];
    rewrite ?Z.ltb_lt; intros H1 H2.
  - rewrite (proj2 (Z.eqb_eq _ _)) by congruence. by eapply IH.
  - rewrite (proj2 (Z.eqb_neq _ _)) by congruence. apply Z.ltb_lt. lia.
  - rewrite (proj2 (Z.eqb_neq _ _)) by congruence. apply Z.ltb_lt. lia.
  - rewrite (proj2 (Z.eqb_neq _ _)) by lia. apply Z.ltb_lt. lia.
Qed.
Lemma sort_by_perm {A} (key : A → string) l : sort_by key l ≡ₚ l.
Proof. apply sort_perm. Qed.
Lemma sort_by_sorted {A} (key : A → string) l :
  StronglySorted (λ x y, str_leb (key x) (key y) = true) (sort_by key l).
Proof.
  apply sort_sorted; intros *; unfold str_leb; [apply bytes_leb_total|apply bytes_leb_trans].
Qed.

(** ** The document of a property list *)

Lemma foldl_insert_fresh {A} (kvs d : list (string * A)) :
  NoDup (al_keys (d ++ kvs)) → foldl (λ d kv, al_insert kv.1 kv.2 d) d kvs = d ++ kvs.
Proof.
  revert d. induction kvs as [|[k v] kvs IH]; intros d Hd; cbn [foldl]; [by rewrite app_nil_r|].
  rewrite al_insert_fresh, IH; rewrite <-?(assoc_L (++)); [done|done|].
  unfold al_keys in *. rewrite fmap_app, NoDup_app in Hd. destruct Hd as (_ & Hd & _).
  intros Hk. apply (Hd _ Hk). by left.
Qed.
Lemma jmap_perm kvs : NoDup (al_keys kvs) → jmap kvs ≡ₚ kvs.
Proof. intros Hk. unfold jmap. by rewrite sort_by_perm, foldl_insert_fresh. Qed.

Section documents.
Context `{Terminal} `{J : JsonLib}.

Lemma keys_to_json (d : dictionary) :
  al_keys ((λ kv : string * pval, (kv.1, plist_to_json kv.2)) <$> d) = al_keys d.
Proof. unfold al_keys. rewrite <-list_fmap_compose. done. Qed.

Lemma text_ok_utf8 s : text_ok s = true → utf8_string s.
Proof. unfold text_ok. intros [[[? _]%andb_true_iff _]%andb_true_iff _]%andb_true_iff. done. Qed.
Lemma hex_text_utf8 l : utf8_string (hex_text l).
Proof.
  unfold hex_text, utf8_string. rewrite bytes_of_string_of. apply utf8_valid_ascii, Forall_concat, Forall_fmap, Forall_true.
  intros b. destruct b; repeat constructor.
Qed.

Lemma plist_to_json_plain v : plain v = true → jplain (plist_to_json v) = true.
Proof.
  revert v. fix IH 1. intros [l|d|b|l|n|bits|n|s|n] Hv; cbn [plist_to_json]; try done.
  - cbn [plain jplain] in *. rewrite forallb_forall in Hv. revert Hv. induction l as [|v l IHl]; intros Hv; [done|].
    cbn [fmap list_fmap forallb]. rewrite IH by (apply Hv; by left). apply IHl. intros x Hx. apply Hv. by right.
  - cbn [plain] in Hv. apply andb_true_iff in Hv as [Hk Hv]. apply bool_decide_eq_true in Hk.
    cbn [jplain]. apply forallb_forall. intros kv Hin.
    assert (kv ∈ (λ kv : string * pval, (kv.1, plist_to_json kv.2)) <$> d) as Hin'.
    { rewrite <-(jmap_perm ((λ kv : string * pval, (kv.1, plist_to_json kv.2)) <$> d)) by (by rewrite keys_to_json).
      by apply list_elem_of_In. }
    clear Hin Hk. revert Hv Hin'. induction d as [|[k v] d IHd]; cbn [fmap list_fmap forallb];
      [by intros _ ?%elem_of_nil|].
    intros [[Ht Hv]%andb_true_iff Hd]%andb_true_iff [->|Hin]%elem_of_cons; [|by apply IHd].
    cbn [fst snd] in *. rewrite IH by done. rewrite bool_decide_true; [done|by apply text_ok_utf8].
  - cbn [jplain]. apply bool_decide_eq_true, hex_text_utf8.
  - cbn [as_signed_integer as_unsigned_integer]. cbn [plain] in Hv. zhyps.
    repeat case_bool_decide; cbn; unfold in_i, in_u in *; apply andb_true_iff; split;
      rewrite ?Z.leb_le, ?Z.ltb_lt; lia.
  - cbn. by rewrite bool_decide_true by (by apply text_ok_utf8).
Qed.

(** What is printed for a property list is a document that reads back as its
    values, each under its key. *)
Lemma print_json_read_back `{!JsonLaws J} v :
  plain v = true →
  ∃ l, print_json (plist_to_json v) = Ok (line l) ∧ json_parse l = Some (plist_to_json v).
Proof.
  intros (l & Hl & Hp)%plist_to_json_plain%json_pretty_roundtrip.
  exists l. unfold print_json. by rewrite Hl.
Qed.
Lemma document_lookup d k v :
  plain (PDict d) = true → dget k d = Some v →
  jget k (plist_to_json (PDict d)) = plist_to_json v.
Proof.
  intros [Hk _]%andb_true_iff Hv. apply bool_decide_eq_true in Hk. cbn [plist_to_json jget].
  set (m := (λ kv : string * pval, (kv.1, plist_to_json kv.2)) <$> d).
  assert (NoDup (al_keys m)) as Hm by (unfold m; by rewrite keys_to_json).
  assert (jmap m ≡ₚ m) as Hj by (by apply jmap_perm).
  assert (NoDup (al_keys (jmap m))) as Hmj by (unfold al_keys in *; by rewrite Hj).
  rewrite foldl_insert_fresh by done. cbn [app].
  rewrite (al_lookup_elem k (plist_to_json v) (jmap m)); [done|done|].
  rewrite Hj. apply list_elem_of_fmap. exists (k, v). split; [done|].
  by apply al_lookup_Some_elem.
Qed.
End documents.
