(* ===== verification/OsLog.v ===== *)
(** * The structured log ([src/bin/ios/cmd/oslog.rs])

    The request and the response that start the stream of the os_trace relay,
    the parser of its binary entries, and the loop that filters and prints them. *)

From S2P Require Import Prelude RustStd Text Io Plist.
From S2P Require RpCredentials Lockdown Os Version CdTunnel Tunnel DeviceSession Daemon Cli.

Abbreviation anyhow := Daemon.anyhow.

Definition SHIM : string := "com.apple.os_trace_relay.shim.remote".

(** ** Reading *)

Definition log_eof : io_error := IoError UnexpectedEof "eof".
Definition log_read_exact (n : Z) : ST stream io_error (list byte) := read_exact_retry id log_eof n.

(** ** Starting the stream *)

Definition start_activity : pval :=
  PDict (dict ["Request" =>> PString "StartActivity"; "Pid" =>> PInt (-1);
               "MessageFilter" =>> PInt 0xFFFF; "StreamFlags" =>> PInt 0x20]).

(** [plist_len = (plist_len << 8) | b] on [u64] *)
Definition shift_in (acc : Z) (b : byte) : Z := Z.lor (wrap 64 (Z.shiftl acc 8)) (u8 b).

Definition check_started (resp : pval) : outcome anyhow unit :=
  match resp with
  | PDict d =>
      let status := default ""%string (dget "Status" d ≫= as_string) in
      if bool_decide (status = "RequestSuccessful"%string) then Ok tt
      else Err [msg0 "StartActivity failed: {resp:?}"]
  | _ => Ok tt
  end.

(** [vec![0u8; n]] panics beyond [isize::MAX]. *)
Definition read_vec (t : string) (n : Z) : ST stream anyhow (list byte) :=
  if n <? 2 ^ 63 then Daemon.ctx (msg0 t) Daemon.io_fmt (log_read_exact n) else lift Panic.

Definition start_log `{PlistLib} : ST stream anyhow unit :=
  Daemon.send_plist start_activity ;;;
  let! ll_buf := Daemon.ctx (msg0 "read length-length") Daemon.io_fmt (log_read_exact 4) in
  let length_length := le_val ll_buf in
  let! len_bytes := read_vec "read plist length bytes" length_length in
  let plist_len := foldl shift_in 0 (reverse len_bytes) in
  let! plist_buf := read_vec "read StartActivity response" plist_len in
  let! resp := lift (ok_or (from_bytes plist_buf) [msg0 "{e}"]) in
  lift (check_started resp).

(** ** Entries *)

Record LogEntry : Type := MkLogEntry {
  pid : Z;
  timestamp : string;
  level : string;
  level_num : Z;
  process : string;
  subsystem : string;
  category : string;
  message : string
}.

Definition level_name (l : Z) : string :=
  if l =? 0x00 then "Default" else if l =? 0x01 then "Info" else if l =? 0x02 then "Debug"
  else if l =? 0x10 then "Error" else if l =? 0x11 then "Fault" else "Unknown".

(** The case of letters does not matter; no other character has a lower case
    that occurs in the names. *)
Definition parse_level (s : string) : Z :=
  let s := ascii_lower s in
  if bool_decide (s = "error"%string) then 0x10
  else if bool_decide (s = "fault"%string) then 0x11
  else 0.

Definition APPLE_EPOCH_OFFSET : Z := 978307200.

(** [{n:0w}] *)
Definition pad_zeros (w : nat) (n : Z) : list byte :=
  replicate (w - length (dec n)) "0"%byte ++ dec n.

(** [Duration::new] carries whole seconds over, and adding the duration to the
    epoch panics beyond the seconds of an [i64]. *)
Definition format_timestamp `{BuildProfile} {E} (sec usec : Z) : outcome E string :=
  let unix := Z.min (sec + APPLE_EPOCH_OFFSET) (2 ^ 64 - 1) in
  let? nanos := mul_w 32 usec 1000 in
  let secs := unix + nanos / 1000000000 in
  if secs <? 2 ^ 63 then
    let h := secs mod 86400 / 3600 in
    let m := secs mod 3600 / 60 in
    let s := secs mod 60 in
    Ok (string_of (dec02 h ++ [":"%byte] ++ dec02 m ++ [":"%byte] ++ dec02 s ++ ["."%byte]
                   ++ pad_zeros 6 usec))
  else Panic.

(** [path.rsplit('/').next()] *)
Definition basename (path : string) : string := last_component "/" path.

(** The text and the offset after it. *)
Definition read_cstring (data : list byte) (off len : Z) : string * Z :=
  if (len =? 0) || (lenZ data <? off + len) then (""%string, off)
  else
    let slice := default [] (get_slice data off (off + len)) in
    let s := if bool_decide (last slice = Some x00) then removelast slice else slice in
    (from_utf8_lossy s, off + len).

(** The little-endian field at [a..b]. *)
Definition le_field {E} (data : list byte) (a b : Z) : outcome E Z :=
  let? l := slice data a b in Ok (le_val l).

Definition parse_entry `{BuildProfile} (data : list byte) : outcome anyhow LogEntry :=
  if lenZ data <? 129 then Err [Msg "entry too short: {} bytes" [FNum (lenZ data)]]
  else
    let? pid := le_field data 9 13 in
    let? procpath_len := le_field data 37 39 in
    let? time_sec := le_field data 55 63 in
    let? time_usec := le_field data 63 67 in
    let? level := index data 68 in
    let? imagepath_len := le_field data 107 109 in
    let? message_len := le_field data 109 113 in
    let? subsystem_len := le_field data 117 119 in
    let? category_len := le_field data 121 123 in
    let? ts := format_timestamp time_sec time_usec in
    let off := 129 in
    let (process, off) := read_cstring data off procpath_len in
    let (_, off) := read_cstring data off imagepath_len in
    let (message, off) := read_cstring data off message_len in
    let (subsystem, off) := read_cstring data off subsystem_len in
    let (category, off) := read_cstring data off category_len in
    Ok (MkLogEntry pid ts (level_name (u8 level)) (u8 level) (basename process) subsystem
          category message).

Definition read_entry `{BuildProfile} : ST stream io_error LogEntry :=
  let! magic := log_read_exact 1 in
  if negb (le_val magic =? 0x02) then sfail (IoError InvalidData "bad magic")
  else
    let! len_buf := log_read_exact 4 in
    let! data := log_read_exact (le_val len_buf) in
    smap_err (λ _, IoError InvalidData "entry too short") (lift (parse_entry data)).

(** ** Printing *)

(** [format!("{s:<n$}")] of a short text; a long one is cut at a byte, which
    panics inside a character. *)
Definition pad_right (n : nat) (s : string) : string :=
  string_of (bytes_of s ++ replicate (n - length (chars s)) " "%byte).
Definition ellipsis : list byte := [xe2; x80; xa6]%byte.
Definition truncate {E} (s : string) (n : nat) : outcome E string :=
  if (length (bytes_of s) <=? n)%nat then Ok (pad_right n s)
  else
    let? cut := RpCredentials.str_slice (bytes_of s) 0 (n - 1) in
    Ok (string_of (cut ++ ellipsis)).

Definition escape (b : byte) : list byte :=
  if bool_decide (b = x5c) then [x5c; x5c]
  else if bool_decide (b = x22) then [x5c; x22]
  else [b].
Definition json_str (s : string) : list byte := [x22] ++ concat (escape <$> bytes_of s) ++ [x22].

Definition text_line {E} (e : LogEntry) : outcome E (list byte) :=
  let? proc := truncate (process e) 20 in
  Ok (bytes_of (timestamp e) ++ bytes_of "  "
      ++ bytes_of (pad_left 6 (string_of (dec (pid e)))) ++ bytes_of "  "
      ++ bytes_of (pad_right 8 (level e)) ++ bytes_of "  "
      ++ bytes_of (pad_right 20 proc) ++ bytes_of "  " ++ bytes_of (message e)).

Definition json_field (k : string) (v : list byte) : list byte := json_str k ++ [":"%byte] ++ v.
Definition json_line (e : LogEntry) : list byte :=
  ["{"%byte] ++ join [","%byte] [
    json_field "ts" ([x22] ++ bytes_of (timestamp e) ++ [x22]);
    json_field "pid" (dec (pid e));
    json_field "level" ([x22] ++ bytes_of (level e) ++ [x22]);
    json_field "process" (json_str (process e));
    json_field "subsystem" (json_str (subsystem e));
    json_field "category" (json_str (category e));
    json_field "message" (json_str (message e))] ++ ["}"%byte].

(** ** The loop *)
Section loop.
Context `{BuildProfile}.
(** [str::to_lowercase], the Unicode mapping of the standard library *)
Context (to_lowercase : string → string).

Definition selected (min_level : Z) (proc : option string) (e : LogEntry) : bool :=
  (min_level <=? level_num e)
  && match proc with
     | Some p => contains_sub (bytes_of (to_lowercase p)) (bytes_of (to_lowercase (process e)))
     | None => true
     end.

Definition line_of {E} (json : bool) (e : LogEntry) : outcome E (list byte) :=
  if json then Ok (json_line e) else text_line e.

(** The standard output is another stream; the loop ends when an entry cannot
    be read, whatever the reason, or a line cannot be written. *)
Fixpoint log_loop (fuel : nat) (json : bool) (min_level : Z) (proc : option string) :
    ST (stream * stream) anyhow unit :=
  let! r := stry (on_outer read_entry) in
  match r with
  | inl _ => sret tt
  | inr e =>
      let next := match fuel with O => lift OutOfFuel | S fuel => log_loop fuel json min_level proc end in
      if selected min_level proc e then
        let! line := lift (line_of json e) in
        let! w := stry (on_local (write_all (line ++ [x0a]) ;;; flush)) in
        match w with inl _ => sret tt | inr _ => next end
      else next
  end.

Definition log_run (json : bool) (level process : option string) : ST (stream * stream) anyhow unit :=
  let min_level := parse_level (default "default"%string level) in
  λ s, log_loop (rx_size (rx s.1)) json min_level process s.
End loop.

Section command.
Context `{BuildProfile} `{PL : PlistLib} `{T : Lockdown.Tls} `{SJ : CdTunnel.SerdeJson}
  {W : Type} `{OS : Os.Os W} `{TS : Tunnel.TunnelStack W} `{Y : Tunnel.Sys W}.
Context (to_lowercase : string → string).

(** [run]; the result is what has been printed. *)
Definition oslog (udid process level : option string) (json : bool) (stdout : stream) :
    ST W anyhow stream :=
  let! session := Cli.open_session udid Version.RsdMode in
  let! sock := Daemon.ctx (msg0 "connect os_trace shim") Version.Error_fmt
                 (DeviceSession.connect_rsd_shim session SHIM) in
  let! (_, s) := srun start_log (Os.mux_stream sock) in
  let! (_, st) := srun (log_run to_lowercase json level process) (s, stdout) in
  sret st.2.
End command.

(** ** The layout of an entry *)

Definition cstr (s : string) : list byte := bytes_of s ++ [x00].
Definition clen (s : string) : Z := lenZ (cstr s).

(** The parts of the header that are not looked at. *)
Record filler : Type := MkFiller {
  f_type : list byte;      (* 9 bytes: marker, type and header size *)
  f_ids : list byte;       (* 24 bytes *)
  f_times : list byte;     (* 16 bytes *)
  f_pad : byte;
  f_uuids : list byte;     (* 38 bytes *)
  f_a : list byte;         (* 4 bytes *)
  f_b : list byte;         (* 2 bytes *)
  f_c : list byte          (* 6 bytes *)
}.
Definition filler_ok (f : filler) : Prop :=
  lenZ (f_type f) = 9 ∧ lenZ (f_ids f) = 24 ∧ lenZ (f_times f) = 16 ∧ lenZ (f_uuids f) = 38 ∧
  lenZ (f_a f) = 4 ∧ lenZ (f_b f) = 2 ∧ lenZ (f_c f) = 6.

Record entry_data : Type := MkEntryData {
  d_pid : Z;
  d_sec : Z;
  d_usec : Z;
  d_level : Z;
  d_process : string;
  d_image : string;
  d_message : string;
  d_subsystem : string;
  d_category : string
}.

Definition entry_bytes (f : filler) (d : entry_data) : list byte :=
  f_type f ++ le_bytes 4 (d_pid d) ++ f_ids f ++ le_bytes 2 (clen (d_process d)) ++ f_times f
  ++ le_bytes 8 (d_sec d) ++ le_bytes 4 (d_usec d) ++ f_pad f :: byte_of (d_level d) :: f_uuids f
  ++ le_bytes 2 (clen (d_image d)) ++ le_bytes 4 (clen (d_message d)) ++ f_a f
  ++ le_bytes 2 (clen (d_subsystem d)) ++ f_b f ++ le_bytes 2 (clen (d_category d)) ++ f_c f
  ++ cstr (d_process d) ++ cstr (d_image d) ++ cstr (d_message d) ++ cstr (d_subsystem d)
  ++ cstr (d_category d).

(** Text of UTF-8 whose length fits the field; the time is one that exists. *)
Definition entry_ok (d : entry_data) : Prop :=
  in_u 32 (d_pid d) ∧ 0 ≤ d_sec d < 2 ^ 62 ∧ 0 ≤ d_usec d < 1000000 ∧ in_u 8 (d_level d) ∧
  Forall utf8_string [d_process d; d_image d; d_message d; d_subsystem d; d_category d] ∧
  Forall (λ s, in_u 16 (clen s)) [d_process d; d_image d; d_subsystem d; d_category d] ∧
  in_u 32 (clen (d_message d)).

(** The time of day, in microseconds. *)
Definition time_text (sec usec : Z) : string :=
  let t := sec + APPLE_EPOCH_OFFSET in
  string_of (dec02 (t / 3600 mod 24) ++ [":"%byte] ++ dec02 (t / 60 mod 60) ++ [":"%byte]
             ++ dec02 (t mod 60) ++ ["."%byte] ++ pad_zeros 6 usec).

(** What the parser keeps of an entry. *)
Definition entry_of (d : entry_data) : LogEntry :=
  MkLogEntry (d_pid d) (time_text (d_sec d) (d_usec d)) (level_name (d_level d)) (d_level d)
    (basename (d_process d)) (d_subsystem d) (d_category d) (d_message d).

(** An entry on the wire. *)
Definition frame (fd : filler * entry_data) : list byte :=
  let l := entry_bytes fd.1 fd.2 in x02 :: le_bytes 4 (lenZ l) ++ l.
Definition frame_ok (fd : filler * entry_data) : Prop :=
  filler_ok fd.1 ∧ entry_ok fd.2 ∧ in_u 32 (lenZ (entry_bytes fd.1 fd.2)).

Section layout.
Context `{BuildProfile}.

Lemma format_timestamp_ok {E} sec usec :
  0 ≤ sec < 2 ^ 62 → 0 ≤ usec < 1000000 →
  format_timestamp (E:=E) sec usec = Ok (time_text sec usec).
Proof.
  intros Hs Hu. unfold format_timestamp, time_text, APPLE_EPOCH_OFFSET.
  rewrite Z.min_l by lia. rewrite mul_w_ok by lia. cbn [obind].
  rewrite (Z.div_small (usec * 1000)), Z.add_0_r by lia.
  rewrite (proj2 (Z.ltb_lt _ _)) by lia.
  set (t := sec + 978307200). assert (0 ≤ t) by lia.
  assert (t mod 86400 / 3600 = t / 3600 mod 24) as -> by (Z.to_euclidean_division_equations; lia).
  assert (t mod 3600 / 60 = t / 60 mod 60) as -> by (Z.to_euclidean_division_equations; lia).
  done.
Qed.

Lemma le_field_at {E} data a n v l :
  has_at data a (le_bytes n v ++ l) → in_u (8 * Z.of_nat n) v →
  le_field (E:=E) data a (a + Z.of_nat n) = Ok v ∧ has_at data (a + Z.of_nat n) l.
Proof.
  intros [Hs Hat]%has_at_le_bytes Hv. split; [|done]. unfold le_field, slice. rewrite Hs. cbn.
  by rewrite le_val_le_bytes_small.
Qed.
Lemma skip_at {A} (data : list A) a f l n :
  has_at data a (f ++ l) → lenZ f = n → has_at data (a + n) l.
Proof. by intros [_ Hat]%has_at_app <-. Qed.

Lemma read_cstring_at data off s l :
  has_at data off (cstr s ++ l) → utf8_string s →
  read_cstring data off (clen s) = (s, off + clen s) ∧ has_at data (off + clen s) l.
Proof.
  intros [Hs Hl]%has_at_app Hu. split; [|done]. unfold read_cstring, clen.
  pose proof (has_at_le _ _ _ Hs) as Hle.
  assert (0 < lenZ (cstr s)) by (unfold cstr; len).
  rewrite (proj2 (Z.eqb_neq _ 0)), (proj2 (Z.ltb_ge _ _)) by lia. cbn [orb].
  rewrite (has_at_slice _ _ _ _ Hs) by done. cbn [default from_option id].
  assert (last (cstr s) = Some x00) as Hlast by (unfold cstr; by rewrite last_snoc).
  rewrite bool_decide_true by done. unfold cstr. rewrite removelast_last. by rewrite from_utf8_lossy_string.
Qed.

(** The steps of the parser over the layout: unread bytes, and a field. *)
Ltac skip Hat n := apply (skip_at _ _ _ _ n) in Hat; [|done]; closed_sums Hat.
Ltac field Hat :=
  let Hf := fresh in
  apply (le_field_at (E:=anyhow)) in Hat as [Hf Hat]; [|unfold in_u in *; lia];
  closed_sums Hf; closed_sums Hat; rewrite Hf; clear Hf; cbn [obind].

(** An entry of the documented layout is read back: its fields, the name of the
    process without its path, and the time of day. *)
Lemma parse_entry_bytes f d :
  filler_ok f → entry_ok d → parse_entry (entry_bytes f d) = Ok (entry_of d).
Proof.
  intros (H1 & H2 & H3 & H4 & H5 & H6 & H7) (Hpid & Hsec & Husec & Hlv & Hu & Hl & Hm).
  rewrite !Forall_cons in Hu. rewrite !Forall_cons in Hl.
  destruct Hu as (Up & Ui & Um & Us & Uc & _).
  destruct Hl as (Lp & Li & Ls & Lc & _).
  assert (has_at (entry_bytes f d) 0 (entry_bytes f d)) as Hat
    by (rewrite <-(app_nil_r (entry_bytes f d)) at 1; apply has_at_0).
  pose proof (has_at_le _ _ _ Hat) as [_ Hlen].
  unfold parse_entry. unfold entry_bytes in Hat at 2.
  assert (129 ≤ lenZ (entry_bytes f d)) as H129.
  { unfold entry_bytes. autorewrite with len. rewrite H1, H2, H3, H4, H5, H6, H7. len. }
  rewrite (proj2 (Z.ltb_ge _ _) H129).
  skip Hat 9. field Hat. skip Hat 24. field Hat. skip Hat 16. field Hat. field Hat.
  apply has_at_cons in Hat as [_ Hat]. closed_sums Hat.
  apply has_at_cons in Hat as [Hlev Hat]. closed_sums Hat.
  unfold index. rewrite Hlev. cbn [or_panic obind].
  skip Hat 38. field Hat. field Hat. skip Hat 4. field Hat. skip Hat 2. field Hat. skip Hat 6.
  rewrite format_timestamp_ok by done. cbn [obind].
  apply read_cstring_at in Hat as [-> Hat]; [|done].
  apply read_cstring_at in Hat as [-> Hat]; [|done].
  apply read_cstring_at in Hat as [-> Hat]; [|done].
  apply read_cstring_at in Hat as [-> Hat]; [|done].
  rewrite <-(app_nil_r (cstr (d_category d))) in Hat.
  apply read_cstring_at in Hat as [-> Hat]; [|done].
  by rewrite u8_byte_of_small by done.
Qed.

Lemma read_entry_frame s fd rest r :
  frame_ok fd → delivers (rx s) (frame fd ++ rest) r →
  ∃ r1, read_entry s = (Ok (entry_of fd.2), set_rx r1 s) ∧ delivers r1 rest r.
Proof.
  destruct fd as [f d]. intros (Hf & Hd & Hl) Hrx. cbn [fst snd] in *. unfold frame in Hrx. cbn [fst snd] in Hrx.
  rewrite <-!app_comm_cons, <-!(assoc_L (++)) in Hrx.
  destruct (read_exact_retry_delivers id log_eof 1 s [x02] _ r Hrx eq_refl) as (r1 & H1 & Hd1).
  destruct (read_exact_retry_delivers id log_eof 4 (set_rx r1 s) _ _ r Hd1 eq_refl) as (r2 & H2 & Hd2).
  destruct (read_exact_retry_delivers id log_eof _ (set_rx r2 s) _ _ r Hd2 eq_refl) as (r3 & H3 & Hd3).
  exists r3. split; [|done]. unfold read_entry, log_read_exact. erewrite sbind_ok by exact H1.
  change (negb _) with false. cbn match. erewrite sbind_ok by (rewrite set_rx_set_rx in H2; exact H2).
  rewrite le_val_le_bytes_small by done. erewrite sbind_ok by (rewrite set_rx_set_rx in H3; exact H3).
  unfold smap_err, lift. by rewrite parse_entry_bytes.
Qed.
End layout.

(** ** The loop over a stream of entries *)
Section run.
Context `{BuildProfile} (to_lowercase : string → string).

Lemma parse_entry_fuel data : parse_entry data ≠ OutOfFuel.
Proof.
  unfold parse_entry. destruct (_ <? _); [done|]. unfold le_field, format_timestamp, mul_w.
  repeat (apply obind_fuel; [repeat (case_match || apply obind_fuel || intros); auto with fuel|intros ? _]).
  by repeat case_match.
Qed.

Lemma ends_read_entry : ends stream_size 1 read_entry.
Proof.
  apply (ends_bind _ 1 0); [by apply (ends_read_exact_retry id log_eof 1)|]. intros magic.
  destruct (negb _); [apply ends_fail|]. apply (ends_bind _ 0 0).
  { by eapply ends_le; [by apply (ends_read_exact_retry id log_eof 4)|lia]. }
  intros b. apply (ends_bind _ 0 0).
  { eapply ends_le; [apply (ends_read_exact_retry id log_eof)|lia]. apply le_val_nonneg. }
  intros data. apply ends_map_err, ends_lift, parse_entry_fuel.
Qed.

Lemma line_of_fuel {E} json e : line_of (E:=E) json e ≠ OutOfFuel.
Proof.
  destruct json; [done|]. unfold line_of, text_line, truncate. apply obind_fuel; [|done].
  case_match; [done|]. apply obind_fuel; [|done].
  unfold RpCredentials.str_slice. by repeat case_match.
Qed.

Lemma log_loop_ends fuel json lv proc s out :
  (stream_size s ≤ fuel)%nat → (log_loop to_lowercase fuel json lv proc (s, out)).1 ≠ OutOfFuel.
Proof.
  revert s out. induction fuel as [|fuel IH]; intros s out Hf; cbn [log_loop];
    pose proof (ends_read_entry s) as He; unfold ends_at in He;
    unfold sbind at 1, stry at 1, on_outer, zoom; cbn [fst snd];
    destruct (read_entry s) as [[e|e| |] s1]; try done; [lia|].
  assert (∀ out, (log_loop to_lowercase fuel json lv proc (s1, out)).1 ≠ OutOfFuel) as Hn
    by (intros; apply IH; lia).
  destruct (selected _ _ _ _); [|apply Hn]. unfold sbind at 1, lift.
  pose proof (line_of_fuel (E:=anyhow) json e) as Hl.
  destruct (line_of json e) as [l|?| |]; try done. unfold sbind, stry, on_local, zoom. cbn [fst snd].
  unfold write_all, flush. destruct (wq out) as [|[] ?]; simpl; try apply Hn; try done.
  by destruct l0 as [|[] ?]; simpl; try apply Hn.
Qed.

(** Whatever arrives, the command's loop ends. *)
Lemma log_run_ends json level proc st : (log_run to_lowercase json level proc st).1 ≠ OutOfFuel.
Proof. destruct st as [s out]. by apply log_loop_ends. Qed.

Lemma read_entry_eof s : rx s = [] → read_entry s = (Err log_eof, s).
Proof.
  intros Hr. unfold read_entry, log_read_exact, read_exact_retry, sbind at 1. rewrite Hr. cbn [length retry_loop].
  change (lenZ [] <? 1) with true. cbn match. unfold sbind, stry, read. by rewrite Hr.
Qed.

Lemma frame_size fds r : (length fds ≤ length (concat (frame <$> fds)) + r)%nat.
Proof. induction fds as [|fd fds IH]; [simpl; lia|]. cbn [fmap list_fmap concat frame length app]. rewrite !length_app. simpl. lia. Qed.

Lemma log_loop_prints fuel json lv proc s out fds lines :
  Forall frame_ok fds → delivers (rx s) (concat (frame <$> fds)) [] → healthy out →
  Forall2 (λ e l, line_of (E:=anyhow) json e = Ok l)
    (filter (selected to_lowercase lv proc) (entry_of ∘ snd <$> fds)) lines →
  (length fds ≤ fuel)%nat →
  log_loop to_lowercase fuel json lv proc (s, out) =
    (Ok tt, (set_rx [] s, append_tx (concat ((λ l, l ++ [x0a]) <$> lines)) out)).
Proof.
  intros Hok. revert fuel s out lines.
  induction Hok as [|fd fds Hfd _ IH]; intros fuel s out lines Hd Hh Hl Hf.
  - apply delivers_inv in Hd as [[_ Hr]|(c & r0 & l0 & Hc & _ & _ & Hn)].
    + apply Forall2_nil_inv_l in Hl as ->. cbn [fmap list_fmap concat]. rewrite append_tx_nil.
      assert (set_rx [] s = s) as -> by (rewrite <-Hr; apply set_rx_id).
      destruct fuel; cbn [log_loop]; unfold sbind at 1, stry at 1, on_outer, zoom; cbn [fst snd];
        by rewrite read_entry_eof.
    + by destruct c.
  - destruct fuel as [|fuel]; [simpl in Hf; lia|]. cbn [log_loop].
    destruct (read_entry_frame s fd _ _ Hfd Hd) as (r1 & Hr & Hd1).
    erewrite sbind_ok by (unfold stry, on_outer, zoom; cbn [fst snd]; by rewrite Hr).
    cbn beta iota. cbn [fmap list_fmap] in Hl. rewrite filter_cons in Hl. unfold compose at 1 in Hl.
    case_decide as Hs; [apply Is_true_true in Hs as ->|apply Is_true_false in Hs as ->].
    + apply Forall2_cons_inv_l in Hl as (l & ls & Hl & Hls & ->).
      unfold compose in Hl. erewrite sbind_ok by (unfold lift; by rewrite Hl).
      erewrite sbind_ok.
      2:{ unfold stry, on_local, zoom, sbind. cbn [fst snd]. by rewrite write_all_healthy, flush_healthy. }
      cbn beta iota. rewrite (IH fuel (set_rx r1 s) (append_tx (l ++ [x0a]) out) ls) by (done || simpl in *; lia).
      by rewrite set_rx_set_rx, append_tx_app.
    + rewrite (IH fuel (set_rx r1 s) out lines) by (done || simpl in *; lia).
      by rewrite set_rx_set_rx.
Qed.

(** A name that is short enough, or that can be cut before its 20th byte: there, as
    at the start of every text, a character begins. *)
Definition fits_column (s : string) : bool :=
  (length (bytes_of s) <=? 20)%nat
  || RpCredentials.is_char_boundary (bytes_of s) 0 && RpCredentials.is_char_boundary (bytes_of s) 19.
Definition name_column (s : string) : list byte :=
  if (length (bytes_of s) <=? 20)%nat then bytes_of (pad_right 20 s)
  else take 19 (bytes_of s) ++ ellipsis.
(** The line of an entry. *)
Definition printed (json : bool) (e : LogEntry) : list byte :=
  if json then json_line e
  else bytes_of (timestamp e) ++ bytes_of "  " ++ bytes_of (pad_left 6 (string_of (dec (pid e))))
       ++ bytes_of "  " ++ bytes_of (pad_right 8 (level e)) ++ bytes_of "  "
       ++ bytes_of (pad_right 20 (string_of (name_column (process e)))) ++ bytes_of "  " ++ bytes_of (message e).

Lemma line_of_printed {E} json e :
  json = true ∨ fits_column (process e) = true → line_of (E:=E) json e = Ok (printed json e).
Proof.
  intros Hc. destruct json; [done|]. destruct Hc as [|Hc]; [done|]. unfold line_of, text_line, printed, name_column, truncate.
  unfold fits_column in Hc. destruct (length (bytes_of (process e)) <=? 20)%nat eqn:Hl.
  - cbn [obind]. by rewrite string_of_bytes_of.
  - cbn [orb] in Hc. apply Nat.leb_gt in Hl. unfold RpCredentials.str_slice. change (20 - 1)%nat with 19%nat.
    rewrite Hc, (proj2 (Nat.leb_le 19 _)) by lia. done.
Qed.

(** The severity that is asked for, and the least number that is shown. *)
Definition severities : list (option string * Z) :=
  [(None, 0); (Some "default", 0); (Some "error", 0x10); (Some "fault", 0x11)]%string.

(** C37. The entries that arrive, however their bytes are cut into reads, are printed
    one line each, in the order of their arrival and with the fields of the documented
    layout; the command ends with the stream.  Without a level, or with [default],
    these are the entries of all severities, with [error] and [fault] those of at least
    that severity, and of them those of the process that is asked for.  The five texts
    of an entry end with a NUL, its time exists, its lengths fit their fields; and the
    output is JSON, or each process name that is shown has at most 20 bytes or a
    character that begins with the 20th. *)
Theorem log_run_prints json level min proc s out fds :
  (ascii_lower <$> level, min) ∈ severities →
  Forall frame_ok fds → delivers (rx s) (concat (frame <$> fds)) [] → healthy out →
  let shown := filter (λ e, min ≤ level_num e ∧
                 match proc with
                 | Some p => contains_sub (bytes_of (to_lowercase p)) (bytes_of (to_lowercase (process e)))
                 | None => true
                 end = true) (entry_of ∘ snd <$> fds) in
  (json = true ∨ Forall (λ e, fits_column (process e) = true) shown) →
  log_run to_lowercase json level proc (s, out) =
    (Ok tt, (set_rx [] s, append_tx (concat ((λ e, printed json e ++ [x0a]) <$> shown)) out)).
Proof.
  intros Hlv Hok Hd Hh shown Hfit.
  assert (parse_level (default "default"%string level) = min) as Hmin.
  { unfold severities in Hlv. destruct level as [lv|]; rewrite !elem_of_cons in Hlv.
    - cbn [fmap option_fmap option_map default from_option id] in *. unfold parse_level.
      destruct Hlv as [[=]|[[= -> ->]|[[= -> ->]|[[= -> ->]|[]%elem_of_nil]]]]; done.
    - destruct Hlv as [[= ->]|[[=]|[[=]|[[=]|[]%elem_of_nil]]]]; done. }
  unfold log_run. rewrite Hmin. cbn [fst].
  assert (filter (selected to_lowercase min proc) (entry_of ∘ snd <$> fds) = shown) as Hsel.
  { unfold shown. apply list_filter_iff. intros e. unfold selected. rewrite Is_true_true, andb_true_iff, Z.leb_le. done. }
  rewrite (log_loop_prints (rx_size (rx s)) json min proc s out fds (printed json <$> shown)); [|done..| |].
  - do 3 f_equal. by rewrite <-list_fmap_compose.
  - rewrite Hsel. apply Forall2_fmap_r, Forall_Forall2_diag.
    destruct Hfit as [->|Hfit]; [apply Forall_forall; intros; apply line_of_printed; by left|].
    eapply Forall_impl; [exact Hfit|]. intros e ?. apply line_of_printed. by right.
  - apply delivers_size in Hd. pose proof (frame_size fds 0). simpl in *. lia.
Qed.

(** [info] and [debug] show every entry, the ones of severity default and the
    others. *)
Lemma level_names_ignored lv : lv = "info"%string ∨ lv = "debug"%string → parse_level lv = parse_level "default".
Proof. by intros [-> | ->]. Qed.
End run.

(** Two entries, of which one is an error of the process asked for. *)
Definition demo_filler : filler :=
  MkFiller (replicate 9 x00) (replicate 24 x00) (replicate 16 x00) x00 (replicate 38 x00)
    (replicate 4 x00) (replicate 2 x00) (replicate 6 x00).
Definition demo_entry (l : Z) (m : string) : filler * entry_data :=
  (demo_filler, MkEntryData 77 0 42 l "/usr/libexec/backboardd" "/img" m "com.apple" "cat").
Definition demo_frames : list (filler * entry_data) := [demo_entry 1 "quiet"; demo_entry 16 "loud"].

Lemma log_run_prints_witness :
  let fds := demo_frames in
  let s := idle [RData (concat (frame <$> fds))] in
  Forall frame_ok fds ∧ delivers (rx s) (concat (frame <$> fds)) [] ∧
  log_run (H:=debug_profile) id false (Some "ERROR"%string) (Some "board"%string) (s, idle []) =
    (Ok tt, (set_rx [] s, append_tx (bytes_of "00:00:00.000042      77  Error     backboardd            loud" ++ [x0a]) (idle []))).
Proof.
  assert (Forall frame_ok demo_frames) as Hok by (repeat constructor; compute_done).
  assert (delivers (rx (idle [RData (concat (frame <$> demo_frames))])) (concat (frame <$> demo_frames)) [])
    as Hd by (by apply delivers_one; vm_compute).
  cbn zeta. split_and!; [done|done|].
  apply (log_run_prints (H:=debug_profile) id false (Some "ERROR"%string) 0x10 (Some "board"%string)
           _ (idle []) demo_frames); [|done..|].
  - do 2 right. left.
  - right. vm_compute. repeat constructor.
Defined.

(** A process name whose byte 19 is inside a character. *)
Lemma truncate_panics :
  text_line (E:=anyhow) (MkLogEntry 1 "" "Info" 1 (string_of (bytes_of "PlayerOfBeautifulM" ++ [xc3; xbc; xc3; xbc])) "" "" "")
  = Panic.
Proof. vm_compute. reflexivity. Qed.

(** A line break in a message is not escaped in the JSON output. *)
Lemma json_control s : bytes_of s = [x0a] → json_str s = [x22; x0a; x22].
Proof. unfold json_str. by intros ->. Qed.
