(* ===== verification/Launch.v ===== *)
(** * Launching a test runner ([src/xctest/mod.rs], [launch_test_runner])

    The request to [com.apple.coredevice.appservice] that starts the test
    runner with its environment, and the process identifier in the reply.  A
    [HashMap] is the list of its entries; the order in which it is iterated is
    the parameter [HashOrder]. *)

From S2P Require Import Prelude RustStd Text Io Plist Os Version CdTunnel Tunnel Xpc.
From S2P Require H2 RemoteXpc.

(** ** Maps and clocks *)

Class HashOrder := hash_order : ∀ {A : Type}, list (string * A) → list (string * A).
Class HashOrderLaws (O : HashOrder) := hash_order_perm : ∀ A (l : list (string * A)), hash_order l ≡ₚ l.

(** [collect] and [insert] *)
Definition hmap {A} (kvs : list (string * A)) : list (string * A) :=
  foldl (λ d kv, al_insert kv.1 kv.2 d) [] kvs.
Definition hmap_extend {A} (d kvs : list (string * A)) : list (string * A) :=
  foldl (λ d kv, al_insert kv.1 kv.2 d) d kvs.

(** The nanoseconds since the epoch, at another time at every reading. *)
Class WallClock (W : Type) := unix_nanos : W → Z * W.

(** ** Identifiers *)

Definition rand_uuid `{WallClock W} {E} : ST W E (list byte) := λ w,
  let (t, w) := unix_nanos w in
  let b := le_bytes 16 t in
  let b := alter (λ b6, byte_of (Z.lor (Z.land (u8 b6) 0x0f) 0x40)) 6%nat b in
  (Ok (alter (λ b8, byte_of (Z.lor (Z.land (u8 b8) 0x3f) 0x80)) 8%nat b), w).

Definition uuid_to_upper_string (bytes : list byte) : string :=
  let X a b := concat (hex02 true <$> take (b - a) (drop a bytes)) in
  string_of (X 0 4 ++ ["-"%byte] ++ X 4 6 ++ ["-"%byte] ++ X 6 8 ++ ["-"%byte] ++ X 8 10
             ++ ["-"%byte] ++ X 10 16)%nat.

(** ** The request *)
Section request.
Context `{HashOrder}.

Definition xdict (kvs : list (string * Value)) : Value := Dictionary (hash_order (hmap kvs)).

Definition core_device_version : Value :=
  xdict [("stringValue", VString "348.1"); ("originalComponentsCount", Int64 2);
         ("components", VArray [Uint64 348; Uint64 1; Uint64 0; Uint64 0; Uint64 0])]%string.

(** [invocation] is the text of the identifier drawn for the call. *)
Definition build_coredevice_request (device_id feature invocation : string) (input : option Value) : Value :=
  xdict [("CoreDevice.CoreDeviceDDIProtocolVersion", Int64 0);
         ("CoreDevice.action", xdict []);
         ("CoreDevice.coreDeviceVersion", core_device_version);
         ("CoreDevice.deviceIdentifier", VString device_id);
         ("CoreDevice.featureIdentifier", VString feature);
         ("CoreDevice.invocationIdentifier", VString invocation);
         ("CoreDevice.input", default Null input)]%string.

Definition launch_options (env opts : list (string * Value)) (platform_opts : list byte) : Value :=
  Dictionary (hash_order (hmap_extend
    (hmap [("arguments", VArray []);
           ("environmentVariables", Dictionary (hash_order env));
           ("platformSpecificOptions", VData platform_opts);
           ("standardIOUsesPseudoterminals", VBool true);
           ("startStopped", VBool false);
           ("terminateExisting", VBool true);
           ("user", xdict [("active", VBool true)]);
           ("workingDirectory", Null)])
    (hash_order opts)))%string.

Definition build_launch_input (bundle_id : string) (env opts : list (string * Value))
    (platform_opts stdio_uuid : list byte) : Value :=
  xdict [("applicationSpecifier",
            xdict [("bundleIdentifier", xdict [("_0", VString bundle_id)])]);
         ("options", launch_options env opts platform_opts);
         ("standardIOIdentifiers",
            xdict [("standardInput", Uuid stdio_uuid); ("standardOutput", Uuid stdio_uuid);
                   ("standardError", Uuid stdio_uuid)])]%string.

(** The environment: what is not empty of the fixed variables, and then the
    caller's. *)
Definition bundle_path_for_env (initialize_for_ui : bool) (test_bundle_path : string) : string :=
  if initialize_for_ui then test_bundle_path
  else ("PlugIns/" ++ last_component "/" test_bundle_path)%string.

Definition base_env (is_xctest initialize_for_ui : bool) (test_bundle_path session_id : string) :
    list (string * string) :=
  let libraries :=
    if is_xctest then "/System/Developer/usr/lib/libXCTestBundleInject.dylib" else "" in
  [("DYLD_INSERT_LIBRARIES", libraries);
   ("DYLD_FRAMEWORK_PATH", if initialize_for_ui then "/System/Developer/Library/Frameworks" else "");
   ("DYLD_LIBRARY_PATH", if initialize_for_ui then "/System/Developer/usr/lib" else "");
   ("NSUnbufferedIO", "YES");
   ("OS_ACTIVITY_DT_MODE", "YES");
   ("SQLITE_ENABLE_THREAD_ASSERTIONS", "1");
   ("XCTestBundlePath", bundle_path_for_env initialize_for_ui test_bundle_path);
   ("XCTestConfigurationFilePath", "");
   ("XCTestManagerVariant", "DDI");
   ("XCTestSessionIdentifier", session_id)]%string.

Definition launch_env (is_xctest initialize_for_ui : bool) (test_bundle_path session_id : string)
    (extra_env : list (string * string)) : list (string * Value) :=
  let env := filter (λ kv, kv.2 ≠ ""%string) (base_env is_xctest initialize_for_ui test_bundle_path session_id) in
  hmap_extend (hmap (prod_map id VString <$> env)) (prod_map id VString <$> hash_order extra_env).

Definition launch_opts (is_xctest initialize_for_ui : bool) : list (string * Value) :=
  if initialize_for_ui && negb is_xctest then
    hmap [("ActivateSuspended", Uint64 1); ("StartSuspendedKey", Uint64 0);
          ("__ActivateSuspended", Uint64 1)]%string
  else [].

Definition launch_payload (device_id invocation bundle_id session_id test_bundle_path : string)
    (extra_env : list (string * string)) (is_xctest initialize_for_ui : bool)
    (platform_opts stdio_uuid : list byte) : Value :=
  build_coredevice_request device_id "com.apple.coredevice.feature.launchapplication" invocation
    (Some (build_launch_input bundle_id
             (launch_env is_xctest initialize_for_ui test_bundle_path session_id extra_env)
             (launch_opts is_xctest initialize_for_ui) platform_opts stdio_uuid)).
End request.

(** [reply.as_dict()?.get("CoreDevice.output")?...] *)
Definition xfield (k : string) (v : Value) : option Value := as_dict v ≫= al_lookup k.
Definition launched_pid (reply : Value) : option Z :=
  output ← xfield "CoreDevice.output" reply;
  token ← xfield "processToken" output;
  pid ← xfield "processIdentifier" token;
  as_i64 pid.

Section launch.
Context `{HashOrder} `{BuildProfile} `{PL : PlistLib} {W : Type} `{OS : Os W}
  `{TS : TunnelStack W} `{Y : Sys W} `{WC : WallClock W}.

Definition proto_err {A} (t : string) (m : message) : ST W Error A :=
  sfail (Protocol (Msg t [FDisplay m])).

(** [RemoteXpcConn::connect] *)
Definition xpc_connect (listener : listener) (addr : string * Z) (s : stream) :
    ST W H2.Error RemoteXpc.RemoteXpcConn :=
  let! tcp := smap_err H2.Io (tcp_connect addr.1 addr.2) in
  let! (_, c) := srun RemoteXpc.handshake (RemoteXpc.MkConn (relay listener s tcp) [] 1) in
  sret c.

(** Two identifiers are drawn before the one of the request; the second is not
    used. *)
Definition launch_test_runner (t : stack) (server_addr : list Z) (app_svc_port : Z)
    (bundle_id session_id test_bundle_path : string) (extra_env : list (string * string))
    (is_xctest initialize_for_ui : bool) (stdio_uuid : list byte) : ST W Error Z :=
  let! stream := smap_err (λ e, Protocol (Msg "appservice connect: {e}" [FDisplay (Error_fmt e)]))
                   (stack_connect t server_addr app_svc_port) in
  let! listener := smap_err (λ e, Protocol (Msg "tcp listener: {e}" [FStr (what e)]))
                     (tcp_bind "127.0.0.1" 0) in
  let! relay_addr := smap_err (λ e, Protocol (Msg "local_addr: {e}" [FStr (what e)]))
                       (lift (local_addr listener)) in
  let! xpc_conn := smap_err (λ e, Protocol (Msg "remotexpc: {e}" [FDisplay (H2.Error_fmt e)]))
                     (xpc_connect listener relay_addr stream) in
  let! platform_opts := lift (or_panic (to_writer_binary (PDict []))) in
  let! device_id := rand_uuid in
  let! _ := rand_uuid in
  let! invocation := rand_uuid in
  let payload := launch_payload (ascii_lower (uuid_to_upper_string device_id))
                   (uuid_to_upper_string invocation) bundle_id session_id test_bundle_path
                   extra_env is_xctest initialize_for_ui platform_opts stdio_uuid in
  let! (reply, _) := srun (smap_err (λ e, Protocol (Msg "appservice request: {e}" [FDisplay (H2.Error_fmt e)]))
                             (RemoteXpc.request payload)) xpc_conn in
  lift (ok_or (launched_pid reply) (Protocol (msg0 "no PID in appservice reply: {reply:?}"))).
End launch.

(** ** Maps *)
Section maps.
Context {A : Type}.
Implicit Types d kvs : list (string * A).

Lemma hmap_extend_wf d kvs : al_wf d → al_wf (hmap_extend d kvs).
Proof.
  unfold hmap_extend. revert d. induction kvs as [|[k v] kvs IH]; intros d Hd; simpl; [done|].
  by apply IH, al_insert_wf.
Qed.
Lemma hmap_wf kvs : al_wf (hmap kvs).
Proof. apply hmap_extend_wf. constructor. Qed.

Lemma hmap_extend_lookup d kvs k :
  al_wf kvs →
  al_lookup k (hmap_extend d kvs) =
    match al_lookup k kvs with Some v => Some v | None => al_lookup k d end.
Proof.
  unfold hmap_extend, al_wf. revert d. induction kvs as [|[k' v'] kvs IH]; intros d Hd; simpl; [done|].
  apply NoDup_cons in Hd as [Hk Hd]. rewrite IH by done. rewrite al_lookup_insert.
  destruct (decide (k = k')) as [->|Hne].
  - rewrite (proj2 (al_lookup_None k' kvs)) by done. by rewrite decide_True.
  - rewrite (decide_False (P:=k' = k)) by done. done.
Qed.
Lemma hmap_lookup kvs k : al_wf kvs → al_lookup k (hmap kvs) = al_lookup k kvs.
Proof.
  intros Hk. change (hmap kvs) with (hmap_extend [] kvs). rewrite hmap_extend_lookup by done.
  by destruct (al_lookup k kvs).
Qed.

Lemma hash_order_lookup `{O : HashOrder} `{!HashOrderLaws O} d k :
  al_wf d → al_lookup k (hash_order d) = al_lookup k d.
Proof. intros Hd. symmetry. apply al_permutation_equiv; [done|]. by rewrite hash_order_perm. Qed.
Lemma hash_order_wf `{O : HashOrder} `{!HashOrderLaws O} d : al_wf d → al_wf (hash_order d).
Proof. unfold al_wf, al_keys. by rewrite hash_order_perm. Qed.
End maps.

Lemma prod_map_wf {A B} (f : A → B) (d : list (string * A)) :
  al_wf d → al_wf (prod_map id f <$> d).
Proof. unfold al_wf, al_keys. rewrite <-list_fmap_compose. by rewrite (list_fmap_ext (fst ∘ prod_map id f) fst d). Qed.
Lemma prod_map_lookup {A B} (f : A → B) (d : list (string * A)) k :
  al_lookup k (prod_map id f <$> d) = f <$> al_lookup k d.
Proof. induction d as [|[k' v] d IH]; simpl; [done|]. by case_decide. Qed.

(** ** What the service finds in the request *)

(** The value under a path of keys. *)
Fixpoint xpath (ks : list string) (v : Value) : option Value :=
  match ks with
  | [] => Some v
  | k :: ks => x ← xfield k v; xpath ks x
  end.

Definition literal_keys {A} (kvs : list (string * A)) : bool := bool_decide (NoDup kvs.*1).

Section read.
Context `{O : HashOrder} `{!HashOrderLaws O}.

Lemma xfield_xdict k kvs : literal_keys kvs = true → xfield k (xdict kvs) = al_lookup k kvs.
Proof.
  intros Hk%bool_decide_eq_true_1. unfold xdict, xfield. cbn [as_dict mbind option_bind].
  rewrite hash_order_lookup by apply hmap_wf. by apply hmap_lookup.
Qed.

Lemma xpath_xdict k ks kvs v :
  literal_keys kvs = true → al_lookup k kvs = Some v → xpath (k :: ks) (xdict kvs) = xpath ks v.
Proof. intros Hk Hv. cbn [xpath]. by rewrite xfield_xdict, Hv. Qed.

Lemma launch_env_wf x ui p s extra : al_wf (launch_env x ui p s extra).
Proof. apply hmap_extend_wf, hmap_wf. Qed.

Lemma filter_lookup {A} (P : A → Prop) `{∀ x, Decision (P x)} (d : list (string * A)) k :
  al_wf d →
  al_lookup k (filter (λ kv, P kv.2) d) =
    match al_lookup k d with Some v => if decide (P v) then Some v else None | None => None end.
Proof.
  unfold al_wf. induction d as [|[k' v] d IH]; simpl; intros Hd; [done|].
  apply NoDup_cons in Hd as [Hk Hd]. rewrite filter_cons. cbn [snd].
  destruct (decide (k = k')) as [->|Hne].
  - case_decide; simpl; [by rewrite decide_True|]. rewrite IH by done.
    by rewrite (proj2 (al_lookup_None k' d)).
  - case_decide; simpl; [rewrite decide_False by done|]; by apply IH.
Qed.

(** A variable has the caller's value, or else the fixed one unless it is
    empty. *)
Lemma launch_env_lookup x ui p s extra k :
  al_wf extra →
  al_lookup k (launch_env x ui p s extra) =
    VString <$> match al_lookup k extra with
                | Some v => Some v
                | None => match al_lookup k (base_env x ui p s) with
                          | Some v => if decide (v = ""%string) then None else Some v
                          | None => None
                          end
                end.
Proof.
  intros He. unfold launch_env. rewrite hmap_extend_lookup by (by apply prod_map_wf, hash_order_wf).
  rewrite prod_map_lookup, hash_order_lookup by done.
  destruct (al_lookup k extra) as [v|]; [done|]. cbn [fmap option_fmap option_map].
  assert (al_wf (base_env x ui p s)) as Hb
    by (unfold al_wf, al_keys, base_env; cbn [fmap list_fmap fst]; by compute_done).
  rewrite hmap_lookup.
  - rewrite prod_map_lookup.
    pose proof (filter_lookup (λ v, v ≠ ""%string) (base_env x ui p s) k Hb) as ->.
    destruct (al_lookup k (base_env x ui p s)) as [v|]; [|done].
    destruct (decide (v = ""%string)) as [->|Hv]; [done|]. by rewrite decide_True.
  - apply prod_map_wf. unfold al_wf, al_keys in *. eapply sublist_NoDup; [exact Hb|].
    apply fmap_sublist, sublist_filter.
Qed.

Lemma launch_opts_wf x ui : al_wf (launch_opts x ui).
Proof. unfold launch_opts. destruct (_ && _); [apply hmap_wf|constructor]. Qed.

Lemma launch_options_lookup env opts po k :
  al_wf opts →
  xfield k (launch_options env opts po) =
    match al_lookup k opts with
    | Some v => Some v
    | None => xfield k (launch_options env [] po)
    end.
Proof.
  intros Ho. unfold launch_options, xfield. cbn [as_dict mbind option_bind].
  rewrite !hash_order_lookup by apply hmap_extend_wf, hmap_wf.
  rewrite hmap_extend_lookup by (by apply hash_order_wf). rewrite hash_order_lookup by done.
  destruct (al_lookup k opts); [done|]. rewrite hmap_extend_lookup by (apply hash_order_wf; constructor).
  by rewrite hash_order_lookup by constructor.
Qed.
Lemma launch_options_base env po k :
  xfield k (launch_options env [] po) =
    al_lookup k [("arguments", VArray []);
           ("environmentVariables", Dictionary (hash_order env));
           ("platformSpecificOptions", VData po);
           ("standardIOUsesPseudoterminals", VBool true);
           ("startStopped", VBool false);
           ("terminateExisting", VBool true);
           ("user", xdict [("active", VBool true)]);
           ("workingDirectory", Null)]%string.
Proof.
  unfold launch_options, xfield. cbn [as_dict mbind option_bind].
  rewrite hash_order_lookup by apply hmap_extend_wf, hmap_wf.
  rewrite hmap_extend_lookup by (apply hash_order_wf; constructor).
  rewrite hash_order_lookup by constructor. cbn [al_lookup].
  rewrite hmap_lookup; [done|]. unfold al_wf, al_keys. cbn [fmap list_fmap fst]. by compute_done.
Qed.

Lemma launch_input_at ks di inv b s p e x ui po u :
  xpath ("CoreDevice.input"%string :: ks) (launch_payload di inv b s p e x ui po u) =
  xpath ks (build_launch_input b (launch_env x ui p s e) (launch_opts x ui) po u).
Proof. unfold launch_payload, build_coredevice_request. cbn [xpath]. by rewrite xfield_xdict. Qed.

Lemma xdict_single k v : xdict [(k, v)] = Dictionary [(k, v)].
Proof.
  unfold xdict. f_equal. change (hmap [(k, v)]) with [(k, v)].
  apply Permutation_singleton_r, hash_order_perm.
Qed.

(** The environment in the request, before what is empty is left out. *)
Lemma launch_env_read di inv b s p e x ui po u k :
  al_wf e →
  xpath ["CoreDevice.input"; "options"; "environmentVariables"; k]%string (launch_payload di inv b s p e x ui po u) =
    VString <$> match al_lookup k e with
                | Some w => Some w
                | None => match al_lookup k (base_env x ui p s) with
                          | Some w => if decide (w = ""%string) then None else Some w
                          | None => None
                          end
                end.
Proof.
  intros He. rewrite launch_input_at. unfold build_launch_input.
  erewrite xpath_xdict by reflexivity. cbn [xpath].
  rewrite launch_options_lookup by apply launch_opts_wf.
  assert (al_lookup "environmentVariables"%string (launch_opts x ui) = None) as ->
    by (unfold launch_opts; by destruct (_ && _)).
  rewrite launch_options_base. change (al_lookup "environmentVariables"%string _) with (Some (Dictionary (hash_order (launch_env x ui p s e)))).
  unfold xfield. cbn [as_dict mbind option_bind].
  rewrite hash_order_lookup by apply launch_env_wf. rewrite launch_env_lookup by done.
  by destruct (match al_lookup k e with Some _ => _ | None => _ end).
Qed.

(** The names of the maps that are searched for [k], one after the other. *)
Ltac by_key k :=
  cbn [concat al_lookup app];
  repeat match goal with
         | |- context [decide (k = ?c)] => destruct (decide (k = c)) as [->|?]; [by cbn; repeat case_decide|]
         end.

(** C39. In whatever order the maps are iterated, the service reads the feature, the
    application and the identifier of the standard streams that were asked for;
    every option but the environment, those for suspended activation when they
    are wanted; and an environment that has the variables of the caller and,
    for any other name, those of the runner: a variable that would be empty is
    left out. *)
Theorem launch_request_read di inv b s p e x ui po u :
  al_wf e →
  let v := launch_payload di inv b s p e x ui po u in
  let path := if ui then p else ("PlugIns/" ++ last_component "/" p)%string in
  let given (k w : string) := if decide (w = ""%string) then [] else [(k, w)] in
  xpath ["CoreDevice.featureIdentifier"]%string v =
    Some (VString "com.apple.coredevice.feature.launchapplication") ∧
  xpath ["CoreDevice.input"; "applicationSpecifier"; "bundleIdentifier"; "_0"]%string v = Some (VString b) ∧
  (∀ k, xpath ["CoreDevice.input"; "options"; "environmentVariables"; k]%string v =
     VString <$> match al_lookup k e with
                 | Some w => Some w
                 | None =>
                     al_lookup k (concat
                       [if x then [("DYLD_INSERT_LIBRARIES",
                                    "/System/Developer/usr/lib/libXCTestBundleInject.dylib")] else [];
                        if ui then [("DYLD_FRAMEWORK_PATH", "/System/Developer/Library/Frameworks");
                                    ("DYLD_LIBRARY_PATH", "/System/Developer/usr/lib")] else [];
                        [("NSUnbufferedIO", "YES"); ("OS_ACTIVITY_DT_MODE", "YES");
                         ("SQLITE_ENABLE_THREAD_ASSERTIONS", "1"); ("XCTestManagerVariant", "DDI")];
                        given "XCTestBundlePath" path;
                        given "XCTestSessionIdentifier" s]%string)
                 end) ∧
  (∀ k, k ∈ ["standardInput"; "standardOutput"; "standardError"]%string →
     xpath ["CoreDevice.input"; "standardIOIdentifiers"; k]%string v = Some (Uuid u)) ∧
  ∀ k, k ≠ "environmentVariables"%string →
    xpath ["CoreDevice.input"; "options"; k]%string v =
    al_lookup k (concat
      [[("arguments", VArray []); ("platformSpecificOptions", VData po);
        ("standardIOUsesPseudoterminals", VBool true); ("startStopped", VBool false);
        ("terminateExisting", VBool true); ("user", Dictionary [("active", VBool true)]);
        ("workingDirectory", Null)];
       if ui && negb x
       then [("ActivateSuspended", Uint64 1); ("StartSuspendedKey", Uint64 0);
             ("__ActivateSuspended", Uint64 1)]
       else []]%string).
Proof.
  intros He v path given. subst v. split_and!.
  - unfold launch_payload, build_coredevice_request. by erewrite xpath_xdict by reflexivity.
  - rewrite launch_input_at. unfold build_launch_input.
    by do 3 erewrite xpath_xdict by reflexivity.
  - intros k. rewrite launch_env_read by done. destruct (al_lookup k e); [done|]. f_equal.
    subst given. unfold base_env.
    change (bundle_path_for_env ui p) with path. generalize path as bundle. intros bundle.
    destruct x, ui; destruct (decide (bundle = ""%string)), (decide (s = ""%string)); by by_key k.
  - intros k Hk. rewrite launch_input_at. unfold build_launch_input.
    erewrite xpath_xdict by reflexivity. rewrite !elem_of_cons, elem_of_nil in Hk.
    destruct Hk as [->|[->|[->|[]]]]; by erewrite xpath_xdict by reflexivity.
  - intros k Hk. rewrite launch_input_at. unfold build_launch_input.
    erewrite xpath_xdict by reflexivity. cbn [xpath].
    rewrite launch_options_lookup by apply launch_opts_wf. rewrite launch_options_base, xdict_single.
    unfold launch_opts. destruct (_ && _); [|by by_key k].
    rewrite hmap_lookup by (unfold al_wf, al_keys; cbn [fmap list_fmap fst]; by compute_done).
    by by_key k.
Qed.
End read.

(** A map iterated backwards, and a runner with a variable of its own. *)
Definition backwards : HashOrder := λ _, reverse.
Lemma backwards_laws : HashOrderLaws backwards.
Proof. intros A l. unfold hash_order, backwards. apply reverse_Permutation. Qed.

Lemma launch_request_read_witness :
  let e := [("XCTestManagerVariant", "X"); ("LANG", "de")]%string in
  al_wf e ∧
  xpath ["CoreDevice.input"; "options"; "environmentVariables"; "XCTestManagerVariant"]%string
    (launch_payload (H:=backwards) "d" "i" "b" "s" "p" e true true [] []) = Some (VString "X").
Proof.
  cbn zeta. assert (al_wf [("XCTestManagerVariant", "X"); ("LANG", "de")]%string) as Hwf
    by (unfold al_wf; by compute_done).
  split; [done|].
  destruct (launch_request_read (O:=backwards) (HashOrderLaws0:=backwards_laws) "d" "i" "b" "s" "p"
    [("XCTestManagerVariant", "X"); ("LANG", "de")]%string true true [] [] Hwf) as (_ & _ & He & _).
  by rewrite He.
Defined.

(** ** Identifiers *)

(** Nothing but the clock: the last seven bytes are always zero. *)
Lemma rand_uuid_clock {W : Type} `{C : WallClock W} {E} w :
  0 ≤ (unix_nanos w).1 < 2 ^ 64 →
  ∃ b, rand_uuid (E:=E) w = (Ok b, (unix_nanos w).2) ∧ drop 9 b = replicate 7 x00.
Proof.
  unfold rand_uuid. destruct (unix_nanos w) as [t w']. cbn [fst snd]. intros Ht.
  eexists; split; [reflexivity|].
  rewrite !drop_alter_lt by lia. apply list_eq. intros i.
  destruct (decide (i < 7)%nat) as [Hi|Hi].
  - rewrite lookup_drop, le_bytes_lookup by lia. rewrite lookup_replicate_2 by done. f_equal.
    assert (t / 256 ^ Z.of_nat (9 + i) = 0) as ->; [|done].
    apply Z.div_small. split; [lia|]. eapply Z.lt_le_trans; [apply Ht|].
    change (2 ^ 64) with (256 ^ 8). apply Z.pow_le_mono_r; lia.
  - rewrite !lookup_ge_None_2; [done|..]; rewrite ?length_drop, ?length_le_bytes, ?length_replicate; lia.
Qed.

Lemma uuid_text_inj b c :
  length b = 16%nat → length c = 16%nat → uuid_to_upper_string b = uuid_to_upper_string c → b = c.
Proof.
  intros Hb Hc He%(f_equal bytes_of). unfold uuid_to_upper_string in He.
  rewrite !bytes_of_string_of in He.
  do 16 (destruct b as [|? b]; [done|]). do 16 (destruct c as [|? c]; [done|]).
  destruct b; [|done]. destruct c; [|done].
  cbn [take drop fmap list_fmap concat Nat.sub] in He. rewrite ?app_nil_r, <-?(assoc_L (++)) in He.
  assert (Hsplit : ∀ (x y : byte) l k, hex02 true x ++ l = hex02 true y ++ k → x = y ∧ l = k).
  { intros x y l k Hxy. apply app_inj_1 in Hxy as [Hxy ->]; [|done]. by apply hex02_inj in Hxy. }
  assert (Hdash : ∀ l k : list byte, ["-"%byte] ++ l = ["-"%byte] ++ k → l = k) by (by intros ?? [=]).
  repeat first [apply Hsplit in He as [-> He] | apply Hdash in He].
  done.
Qed.
