(* ===== verification/Xctest.v ===== *)
(** * Running tests ([src/xctest/mod.rs], [run])

    [run] opens two DTX connections to testmanagerd and a socket with the
    output of the test runner, starts the runner, and waits.  Besides the main
    thread there are the two reading threads of the connections ([DtxConn]), a
    thread that watches for the channel of the runner, one that answers the
    runner's calls, and one that forwards its output.  As in [DtxConn] each step
    of a thread is one critical section, and an interleaving of the threads is a
    sequence of steps. *)

From stdpp Require Import gmap.
From S2P Require Import Prelude RustStd Text Io Plist Os Version CdTunnel Tunnel Dtx DtxConn.
From S2P Require Xpc Rsd Archive Launch.

(** ** The configuration *)

Record RunConfig : Type := MkRunConfig {
  bundle_id : string;
  bundle_path : string;
  test_runner_bundle_id : string;
  xctest_config_name : string;
  tests_to_run : list string;
  tests_to_skip : list string;
  is_xctest : bool;
  initialize_for_ui : bool;
  extra_env : list (string * string)
}.

Definition chan_name : string :=
  "dtxproxy:XCTestManager_IDEInterface:XCTestManager_DaemonConnectionInterface".
Definition driver_chan_name : string := "dtxproxy:XCTestDriverInterface:XCTestManager_IDEInterface".

(** [s.trim_end_matches(".xctest")] *)
Definition trim_end_matches (p s : string) : string :=
  string_of (reverse (trim_start_matches (reverse (bytes_of p)) (reverse (bytes_of s)))).

(** [s.contains(p)] *)
Definition contains (s p : string) : bool := contains_sub (bytes_of p) (bytes_of s).

Definition local_cap_names : list string :=
  ["XCTIssue capability"; "daemon container sandbox extension"; "delayed attachment transfer";
   "expected failure test capability"; "request diagnostics for specific devices";
   "skipped test capability"; "test case run configurations"; "test iterations";
   "test timeout capability"; "ubiquitous test identifiers"]%string.
Definition build_caps `{Launch.HashOrder} (entries : list (string * bool)) : list (string * pval) :=
  Launch.hash_order (Launch.hmap (prod_map id PBool <$> entries)).
Definition local_caps `{Launch.HashOrder} : list (string * pval) :=
  build_caps ((λ k, (k, true)) <$> local_cap_names).

(** ** Messages of the runner *)

(** The text of an archived string. *)
Definition archived_string (v : pval) : option string :=
  d ← as_dictionary v;
  a ← dget "$objects" d;
  arr ← as_array a;
  s ← arr !! 1%nat;
  as_string s.
Definition decode_aux_str `{PlistLib} (a : AuxValue) : option string :=
  match a with
  | ABytes b => v ← from_bytes b; archived_string v
  | _ => None
  end.

(** The channel the runner asks for in [_requestChannelWithCode:identifier:],
    when it is the one of the driver interface. *)
Definition driver_code `{PlistLib} (m : DtxMessage) : option Z :=
  let sel := default ""%string (payload m ≫= archived_string) in
  if contains sel "requestChannelWithCode" then
    code ← (match head (aux m) with Some (AInt32 v) => Some v | _ => None end);
    ident ← (aux m !! 1%nat ≫= decode_aux_str);
    if contains ident "XCTestDriverInterface" then Some code else None
  else None.

(** What the handler of a message does, in order. *)
Inductive effect : Type :=
  | EAck (m : DtxMessage)
  | EReply (m : DtxMessage)
  | EFinished          (* [done_tx.try_send(())] *)
  | EStart             (* begins [call_async] on the channel known by now *)
  | ECall (t : nat)    (* the rest of that call *)
  | EStop.             (* [break] *)

Definition ack_if (m : DtxMessage) : list effect := if expects_reply m then [EAck m] else [].

(** [finished]: a test case has finished; [started]: the plan was started. *)
Definition on_message `{PlistLib} (m : DtxMessage) (finished started : bool) :
    bool * bool * list effect :=
  let selector := default ""%string (payload m ≫= archived_string) in
  let aux0 := default ""%string (head (aux m) ≫= decode_aux_str) in
  if contains selector "testRunnerReadyWithCapabilities" then (finished, started, [EReply m])
  else if contains selector "didFinishExecutingTestPlan" then
    (finished, started, ack_if m ++ [EFinished; EStop])
  else if contains selector "testCaseWithIdentifier:didFinishWithStatus:duration:"
       || contains selector "testCaseDidFinishForTestClass:method:" then
    (true, started, ack_if m)
  else if finished && contains selector "testSuiteWithIdentifier:didFinishAt:" then
    (finished, started, ack_if m ++ [EFinished])
  else if negb started && contains aux0 "requesting ready for testing" then
    (finished, true, ack_if m ++ [EStart])
  else (finished, started, ack_if m).

(** ** State *)

(** The calls the main thread makes, in the order it makes them. *)
Inductive stage : Type :=
  | SHandshake1
  | SHandshake2
  | SChannel1
  | SInitiate (ide : Z)
  | SDriver
  | SChannel2 (pid : Z)
  | SControl (chan pid : Z)
  | SAuthorize (chan pid : Z).

Inductive main_pc : Type :=
  | MBegin (s : stage)
  | MIn (s : stage) (t : nat)      (* as the calling thread [t] of its connection *)
  | MRegisterIde (ide : Z)
  | MRegister0 (ide : Z)
  | MSpawn
  | MLaunch
  | MPoll
  | MPollDone
  | MFlush
  | MDone (r : outcome Version.Error bool).

Inductive dispatch_pc : Type := DNone | DBusy (l : list effect) | DEnded.
Record dispatcher : Type := MkDispatcher {
  d_pc : dispatch_pc;
  d_config : list byte;
  finished : bool;
  plan_started : bool
}.

Inductive stdio_pc : Type := SRead | SSend (l : list byte) | SEnded.
(** The socket with the output, the thread that reads it, and the
    [sync_channel(64)] to the main thread. *)
Record stdio_state : Type := MkStdio {
  s_stream : stream;
  s_pc : stdio_pc;
  s_queue : list (list byte)
}.

(** The queues of the first connection, in the order of their registration. *)
Definition IDE_QUEUE : nat := 0.
Definition ZERO_QUEUE : nat := 1.

Record session (W : Type) : Type := MkSession {
  x_world : W;
  conn1 : DtxConn;
  conn2 : DtxConn;
  main : main_pc;
  session_id : list byte;
  driver_invoke_chan : Z;
  watcher : bool;
  dispatch : dispatcher;
  done : bool;
  stdio : stdio_state;
  log_out : stream
}.
Arguments MkSession {W}.
Arguments x_world {W}. Arguments conn1 {W}. Arguments conn2 {W}. Arguments main {W}.
Arguments session_id {W}. Arguments driver_invoke_chan {W}. Arguments watcher {W}.
Arguments dispatch {W}. Arguments done {W}. Arguments stdio {W}. Arguments log_out {W}.

Section setters.
Context {W : Type}.
Definition set_world (w : W) (x : session W) : session W := MkSession w (conn1 x) (conn2 x) (main x) (session_id x)
  (driver_invoke_chan x) (watcher x) (dispatch x) (done x) (stdio x) (log_out x).
Definition set_conn1 c (x : session W) : session W := MkSession (x_world x) c (conn2 x) (main x) (session_id x)
  (driver_invoke_chan x) (watcher x) (dispatch x) (done x) (stdio x) (log_out x).
Definition set_conn2 c (x : session W) : session W := MkSession (x_world x) (conn1 x) c (main x) (session_id x)
  (driver_invoke_chan x) (watcher x) (dispatch x) (done x) (stdio x) (log_out x).
Definition set_main m (x : session W) : session W := MkSession (x_world x) (conn1 x) (conn2 x) m (session_id x)
  (driver_invoke_chan x) (watcher x) (dispatch x) (done x) (stdio x) (log_out x).
Definition set_session_id i (x : session W) : session W := MkSession (x_world x) (conn1 x) (conn2 x) (main x) i
  (driver_invoke_chan x) (watcher x) (dispatch x) (done x) (stdio x) (log_out x).
Definition set_chan n (x : session W) : session W := MkSession (x_world x) (conn1 x) (conn2 x) (main x) (session_id x)
  n (watcher x) (dispatch x) (done x) (stdio x) (log_out x).
Definition set_watcher b (x : session W) : session W := MkSession (x_world x) (conn1 x) (conn2 x) (main x) (session_id x)
  (driver_invoke_chan x) b (dispatch x) (done x) (stdio x) (log_out x).
Definition set_dispatch d (x : session W) : session W := MkSession (x_world x) (conn1 x) (conn2 x) (main x) (session_id x)
  (driver_invoke_chan x) (watcher x) d (done x) (stdio x) (log_out x).
Definition set_done b (x : session W) : session W := MkSession (x_world x) (conn1 x) (conn2 x) (main x) (session_id x)
  (driver_invoke_chan x) (watcher x) (dispatch x) b (stdio x) (log_out x).
Definition set_stdio s (x : session W) : session W := MkSession (x_world x) (conn1 x) (conn2 x) (main x) (session_id x)
  (driver_invoke_chan x) (watcher x) (dispatch x) (done x) s (log_out x).
Definition set_log s (x : session W) : session W := MkSession (x_world x) (conn1 x) (conn2 x) (main x) (session_id x)
  (driver_invoke_chan x) (watcher x) (dispatch x) (done x) (stdio x) s.
End setters.

Definition set_d_pc (p : dispatch_pc) (d : dispatcher) : dispatcher :=
  MkDispatcher p (d_config d) (finished d) (plan_started d).

(** ** Opening *)
Section open.
Context `{Launch.HashOrder} `{BuildProfile} `{PL : PlistLib} {W : Type} `{OS : Os W}
  `{TS : TunnelStack W} `{Y : Sys W} `{WC : Launch.WallClock W}.

Definition io_text {S A} (t : string) (m : ST S io_error A) : ST S Version.Error A :=
  smap_err (λ e, Protocol (Msg t [FStr (what e)])) m.

(** [unix_to_tcp_pair]: both streams are the one connection, read through the
    first and written through the second. *)
Definition unix_to_tcp_pair (unix : stream) : ST W io_error (stream * stream) :=
  let! listener := tcp_bind "127.0.0.1" 0 in
  let! addr := lift (local_addr listener) in
  let! client := tcp_connect addr.1 addr.2 in
  let client := relay listener unix client in
  sret (client, client).

Definition read_all (n : Z) : ST stream io_error (list byte) :=
  read_exact id (IoError UnexpectedEof "eof") n.

Definition unix_to_tcp_relay_read_uuid (unix : stream) : ST W io_error (stream * list byte) :=
  let! (r, _) := unix_to_tcp_pair unix in
  let! (uuid, r) := srun (read_all 16) r in
  sret (r, uuid).

(** The error of the stack, as text in an [io::Error]. *)
Definition open_dtx (t : stack) (server_addr : list Z) (port : Z) : ST W io_error DtxConn :=
  let! stream := smap_err (λ e, IoError (OtherKind 0) (to_string (Version.Error_fmt e)))
                   (stack_connect t server_addr port) in
  let! (tcp_r, tcp_w) := unix_to_tcp_pair stream in
  sret (new_conn tcp_r tcp_w).

Definition no_service (t : string) : Version.Error := Protocol (msg0 t).

(** What the threads share without changing it. *)
Record setting : Type := MkSetting {
  t_stack : stack;
  t_server_addr : list Z;
  app_svc_port : Z;
  runner_path : string;
  stdio_uuid : list byte;
  config : RunConfig
}.

Definition service_ports (rsd : Rsd.RsdClient) : outcome Version.Error (Z * Z * Z) :=
  let? tm := ok_or (Rsd.service rsd "com.apple.dt.testmanagerd.remote")
               (no_service "testmanagerd.remote not in RSD catalog") in
  let? app := ok_or (Rsd.service rsd "com.apple.coredevice.appservice")
                (no_service "coredevice.appservice not in RSD catalog") in
  let? stdio := ok_or (Rsd.service rsd "com.apple.coredevice.openstdiosocket")
                  (no_service "coredevice.openstdiosocket not in RSD catalog") in
  Ok (Rsd.port tm, Rsd.port app, Rsd.port stdio).

Definition runner_bundle_path (app_bundles : list (string * Rsd.ServiceEntry)) (config : RunConfig) :
    outcome Version.Error string :=
  let? info := ok_or (al_lookup (test_runner_bundle_id config) app_bundles)
                 (Protocol (Msg "test runner '{}' not installed" [FStr (test_runner_bundle_id config)])) in
  Ok (default ""%string (al_lookup "Path"%string (Rsd.properties info) ≫= Xpc.as_str)).

(** [run] up to the first call; [log] is where the caller wants the output. *)
Definition run_open (t : stack) (rsd : Rsd.RsdClient) (app_bundles : list (string * Rsd.ServiceEntry))
    (config : RunConfig) (log : stream) : ST W Version.Error (setting * session W) :=
  let! ports := lift (service_ports rsd) in
  let '(tm_port, app_svc_port, stdio_port) := ports in
  let! path := lift (runner_bundle_path app_bundles config) in
  let addr := server_addr (stack_params t) in
  let! stdio_stream := smap_err (λ e, Protocol (Msg "openstdiosocket: {e}" [FDisplay (Version.Error_fmt e)]))
                         (stack_connect t addr stdio_port) in
  let! (tcp, uuid) := io_text "stdio relay: {e}" (unix_to_tcp_relay_read_uuid stdio_stream) in
  let! conn1 := io_text "testmanagerd conn1: {e}" (open_dtx t addr tm_port) in
  let! conn2 := io_text "testmanagerd conn2: {e}" (open_dtx t addr tm_port) in
  λ w, (Ok (MkSetting t addr app_svc_port path uuid config,
            MkSession w conn1 conn2 (MBegin SHandshake1) [] (-1) false
              (MkDispatcher DNone [] false false) false (MkStdio tcp SRead []) log), w).

(** ** The steps of the main thread *)

Definition on_first (s : stage) : bool :=
  match s with SHandshake1 | SChannel1 | SInitiate _ | SDriver => true | _ => false end.
Definition conn_of (s : stage) (x : session W) : DtxConn := if on_first s then conn1 x else conn2 x.
Definition set_conn (s : stage) (c : DtxConn) (x : session W) : session W :=
  if on_first s then set_conn1 c x else set_conn2 c x.

(** A call whose arguments are archives. *)
Definition call_archived (ch : Z) (sel : string) (args : outcome Error (list (list byte)))
    (c : DtxConn) : outcome Error unit * DtxConn :=
  match args with
  | Ok l => (Ok tt, call ch sel (ABytes <$> l) c)
  | _ => (Panic, c)
  end.

Definition begin_call (sid : list byte) (s : stage) : DtxConn → outcome Error unit * DtxConn :=
  match s with
  | SHandshake1 | SHandshake2 => handshake
  | SChannel1 | SChannel2 _ => request_channel chan_name
  | SInitiate ide =>
      call_archived ide "_IDE_initiateSessionWithIdentifier:capabilities:"
        (let? id := Archive.archive_uuid sid in
         let? caps := Archive.archive_xct_capabilities local_caps in
         Ok [id; caps])
  | SDriver => request_channel driver_chan_name
  | SControl chan _ =>
      call_archived chan "_IDE_initiateControlSessionWithCapabilities:"
        (let? caps := Archive.archive_xct_capabilities [] in Ok [caps])
  | SAuthorize chan pid =>
      call_archived chan "_IDE_authorizeTestSessionWithProcessID:"
        (let? pid := archive_u64 (wrap 64 pid) in Ok [pid])
  end.

Definition stage_text (s : stage) : string :=
  match s with
  | SHandshake1 => "conn1 handshake: {e}"
  | SHandshake2 => "conn2 handshake: {e}"
  | SChannel1 => "request channel conn1: {e}"
  | SInitiate _ => "initiateSession: {e}"
  | SDriver => "request driver channel: {e}"
  | SChannel2 _ => "request channel conn2: {e}"
  | SControl _ _ => "initiateControlSession: {e}"
  | SAuthorize _ _ => "authorizeTestSession: {e}"
  end.
Definition failed {A} (s : stage) (r : outcome Error A) : main_pc :=
  MDone (match r with
         | Err e => Err (Protocol (Msg (stage_text s) [FDisplay (Dtx.Error_fmt e)]))
         | OutOfFuel => OutOfFuel
         | _ => Panic
         end).

(** [request_channel] returns a channel, and nothing else does. *)
Definition ret_channel (r : ret) : Z := match r with RetChannel code => code | _ => 0 end.

Definition next_step (s : stage) (r : ret) : main_pc :=
  match s with
  | SHandshake1 => MBegin SHandshake2
  | SHandshake2 => MBegin SChannel1
  | SChannel1 => MRegisterIde (ret_channel r)
  | SInitiate _ => MBegin SDriver
  | SDriver => MSpawn
  | SChannel2 pid => MBegin (SControl (ret_channel r) pid)
  | SControl chan pid => MBegin (SAuthorize chan pid)
  | SAuthorize _ _ => MPoll
  end.

(** The actions of a thread in a call; [None] when it is blocked. *)
Definition call_result (t : nat) (c : DtxConn) : option (outcome Error ret) :=
  match callers c !! t with
  | Some k => match k_pc k with Done r => Some r | _ => None end
  | None => None
  end.
Definition drive_call (expired : bool) (t : nat) (c : DtxConn) : option DtxConn :=
  match callers c !! t with
  | Some k =>
      match k_pc k with
      | Allocated => insert_waiter t c
      | Inserted => send_call t c
      | Waiting => recv_timeout expired t c
      | Done _ => None
      end
  | None => None
  end.

Context (env : setting).

Definition test_bundle_path : string :=
  (runner_path env ++ "/PlugIns/" ++ xctest_config_name (config env))%string.

Definition app_deps : list (string * string) :=
  let c := config env in
  (test_runner_bundle_id c, runner_path env)
  :: (if bool_decide (bundle_id c = ""%string) || bool_decide (bundle_path c = ""%string) then []
      else [(bundle_id c, bundle_path c)]).

Definition xctest_config (sid : list byte) : Archive.XCTestConfigArgs :=
  let c := config env in
  Archive.MkXCTestConfigArgs sid test_bundle_path (trim_end_matches ".xctest" (xctest_config_name c))
    (bundle_id c) (bundle_path c) (tests_to_run c) (tests_to_skip c) (is_xctest c)
    (initialize_for_ui c) app_deps (test_runner_bundle_id c).

Definition launch (sid : list byte) : ST W Version.Error Z :=
  let c := config env in
  smap_err (λ e, Protocol (Msg "launch test runner: {e}" [FDisplay (Version.Error_fmt e)]))
    (Launch.launch_test_runner (t_stack env) (t_server_addr env) (app_svc_port env)
       (test_runner_bundle_id c) (Launch.uuid_to_upper_string sid) test_bundle_path (extra_env c)
       (is_xctest c) (initialize_for_ui c) (stdio_uuid env)).

Definition write_log (l : list byte) (x : session W) : session W :=
  set_log (write_all l (log_out x)).2 x.
Definition launched_line (pid : Z) : list byte :=
  bytes_of "[ios-rs] Test runner launched (pid=" ++ dec_signed pid ++ bytes_of ")" ++ [x0a].

(** The session identifier is drawn before the call it goes into. *)
Definition main_begin (s : stage) (x : session W) : session W :=
  let x := match s with
           | SInitiate _ =>
               match Launch.rand_uuid (E:=Version.Error) (x_world x) with
               | (Ok id, w) => set_session_id id (set_world w x)
               | _ => x
               end
           | _ => x
           end in
  let c := conn_of s x in
  let '(r, c') := begin_call (session_id x) s c in
  set_main (match r with Ok _ => MIn s (length (callers c)) | _ => failed s r end) (set_conn s c' x).

Definition main_in (expired : bool) (s : stage) (t : nat) (x : session W) : option (session W) :=
  match call_result t (conn_of s x) with
  | Some (Ok r) => Some (set_main (next_step s r) x)
  | Some r => Some (set_main (failed s r) x)
  | None => (λ c, set_conn s c x) <$> drive_call expired t (conn_of s x)
  end.

(** The configuration is built, and the two threads are started. *)
Definition main_spawn (x : session W) : session W :=
  match Archive.build_xctest_configuration_bytes (E:=Version.Error) (xctest_config (session_id x)) with
  | Ok bytes =>
      set_main MLaunch (set_watcher true (set_dispatch (MkDispatcher (DBusy []) bytes false false) x))
  | _ => set_main (MDone Panic) x
  end.

Definition main_launch (x : session W) : session W :=
  let '(r, w) := launch (session_id x) (x_world x) in
  let x := set_world w x in
  match r with
  | Ok pid => set_main (MBegin (SChannel2 pid)) (write_log (launched_line pid) x)
  | Err e => set_main (MDone (Err e)) x
  | Panic => set_main (MDone Panic) x
  | OutOfFuel => set_main (MDone OutOfFuel) x
  end.

(** [stdio_rx.try_recv()]: a piece of output, or else what to do. *)
Definition take_output (none : main_pc) (x : session W) : session W :=
  match s_queue (stdio x) with
  | l :: q => write_log l (set_stdio (MkStdio (s_stream (stdio x)) (s_pc (stdio x)) q) x)
  | [] => set_main none x
  end.
Definition main_poll (x : session W) : session W :=
  match s_queue (stdio x), s_pc (stdio x) with
  | [], SEnded => set_main MFlush x
  | [], _ => set_main MPollDone x
  | _ :: _, _ => set_main MPollDone (take_output MPollDone x)
  end.

(** [expired]: the deadline of five minutes has passed. *)
Definition main_poll_done (expired : bool) (x : session W) : session W :=
  if done x then set_main MFlush (set_done false x)
  else if expired then set_main MFlush x
  else set_main MPoll x.

Definition main_step (expired : bool) (x : session W) : option (session W) :=
  match main x with
  | MBegin s => Some (main_begin s x)
  | MIn s t => main_in expired s t x
  | MRegisterIde ide =>
      (λ c, set_main (MRegister0 ide) (set_conn1 c x)) <$> register_channel ide (conn1 x)
  | MRegister0 ide =>
      (λ c, set_main (MBegin (SInitiate ide)) (set_conn1 c x)) <$> register_channel 0 (conn1 x)
  | MSpawn => Some (main_spawn x)
  | MLaunch => Some (main_launch x)
  | MPoll => Some (main_poll x)
  | MPollDone => Some (main_poll_done expired x)
  | MFlush => Some (take_output (MDone (Ok true)) x)
  | MDone _ => None
  end.

(** ** The other threads *)

(** A thread that ends drops its receiver. *)
Definition drop_queue (q : nat) (c : DtxConn) : DtxConn := default c (queue_drop q c).

(** [-code] on an [i32] *)
Definition watch_step (x : session W) : option (session W) :=
  if watcher x then
    mc ← queue_recv ZERO_QUEUE (conn1 x);
    let '(m, c) := mc in
    let x := set_conn1 c x in
    Some (match driver_code m with
          | Some code =>
              if (code =? - 2 ^ 31) && overflow_checks then
                set_watcher false (set_conn1 (drop_queue ZERO_QUEUE c) x)
              else set_chan (swrap 32 (- code)) x
          | None => x
          end)
  else None.

Definition end_dispatch (x : session W) : session W :=
  set_dispatch (set_d_pc DEnded (dispatch x)) (set_conn1 (drop_queue IDE_QUEUE (conn1 x)) x).

(** The result of a reply is ignored; a panic ends the thread. *)
Definition after_send (l : list effect) (rc : outcome Error unit * DtxConn) (x : session W) : session W :=
  let x := set_conn1 rc.2 x in
  match rc.1 with
  | Panic => end_dispatch x
  | _ => set_dispatch (set_d_pc (DBusy l) (dispatch x)) x
  end.

Definition run_effect (e : effect) (l : list effect) (x : session W) : option (session W) :=
  let continue l x := set_dispatch (set_d_pc (DBusy l) (dispatch x)) x in
  match e with
  | EAck m => Some (after_send l (ack m (conn1 x)) x)
  | EReply m => Some (after_send l (reply m (d_config (dispatch x)) (conn1 x)) x)
  | EFinished => Some (continue l (set_done true x))
  | EStart =>
      match archive_u64 (E:=Error) 36 with
      | Ok b =>
          Some (continue (ECall (length (callers (conn1 x))) :: l)
                  (set_conn1 (call_async (driver_invoke_chan x)
                     "_IDE_startExecutingTestPlanWithProtocolVersion:" [ABytes b] (conn1 x)) x))
      | _ => Some (end_dispatch x)
      end
  | ECall t =>
      match call_result t (conn1 x) with
      | Some Panic => Some (end_dispatch x)
      | Some _ => Some (continue l x)
      | None => (λ c, set_conn1 c x) <$> drive_call false t (conn1 x)
      end
  | EStop => Some (end_dispatch x)
  end.

Definition dispatch_step (x : session W) : option (session W) :=
  match d_pc (dispatch x) with
  | DBusy [] =>
      mc ← queue_recv IDE_QUEUE (conn1 x);
      let '(m, c) := mc in
      let '(fin, start, l) := on_message m (finished (dispatch x)) (plan_started (dispatch x)) in
      Some (set_dispatch (MkDispatcher (DBusy l) (d_config (dispatch x)) fin start) (set_conn1 c x))
  | DBusy (e :: l) => run_effect e l x
  | DNone | DEnded => None
  end.

(** The receiver of the output is gone when [run] has returned. *)
Definition output_gone (x : session W) : bool := match main x with MDone _ => true | _ => false end.
Definition stdio_step (x : session W) : option (session W) :=
  let s := stdio x in
  match s_pc s with
  | SRead =>
      let '(r, st) := read 4096 (s_stream s) in
      Some (set_stdio (MkStdio st (match r with Ok (b :: l) => SSend (b :: l) | _ => SEnded end)
                         (s_queue s)) x)
  | SSend l =>
      if output_gone x then Some (set_stdio (MkStdio (s_stream s) SRead (s_queue s)) x)
      else if lenZ (s_queue s) <? 64 then
        Some (set_stdio (MkStdio (s_stream s) SRead (s_queue s ++ [l])) x)
      else None
  | SEnded => None
  end.

(** ** Interleavings *)

Inductive thread : Type := TMain (expired : bool) | TReader1 | TReader2 | TWatch | TDispatch | TStdio.

Definition step (t : thread) (x : session W) : option (session W) :=
  match t with
  | TMain expired => main_step expired x
  | TReader1 => (λ c, set_conn1 c x) <$> reader_step (conn1 x)
  | TReader2 => (λ c, set_conn2 c x) <$> reader_step (conn2 x)
  | TWatch => watch_step x
  | TDispatch => dispatch_step x
  | TStdio => stdio_step x
  end.

Inductive steps_from (x : session W) : session W → Prop :=
  | steps_refl : steps_from x x
  | steps_snoc t y z : steps_from x y → step t y = Some z → steps_from x z.

Fixpoint run_threads (l : list thread) (x : session W) : option (session W) :=
  match l with
  | [] => Some x
  | t :: l => y ← step t x; run_threads l y
  end.
End open.

(** ** What a connection keeps *)

(** What a call asks for, whatever has become of it. *)
Definition request : Type := kind * Z * string * list AuxValue.
Definition req_of (k : caller) : request := (k_kind k, k_channel k, k_selector k, k_aux k).
Definition reqs (c : DtxConn) : list request := req_of <$> callers c.

Definition settled (k : caller) : bool := match k_pc k with Done (Ok _) => true | _ => false end.
(** A request for a channel returns the channel it has asked for. *)
Definition ret_ok (k : caller) : Prop :=
  match k_pc k, k_kind k with Done (Ok r), KChannel code => r = RetChannel code | _, _ => True end.

(** What a call has before it. *)
Definition pc_left (k : caller) : nat :=
  match k_pc k with Allocated => 4 | Inserted => 3 | Waiting => 2 | Done _ => 1 end.

Definition evolves (k k' : caller) : Prop :=
  req_of k' = req_of k ∧ (settled k = true → settled k' = true) ∧ (ret_ok k → ret_ok k') ∧
  (pc_left k' ≤ pc_left k)%nat ∧ (∀ r, k_pc k = Done r → k_pc k' = Done r).
Definition frame (c c' : DtxConn) : Prop :=
  Forall2 evolves (callers c) (callers c') ∧ next_chan c' = next_chan c.

#[export] Instance evolves_refl : Reflexive evolves.
Proof. done. Qed.
#[export] Instance evolves_trans : Transitive evolves.
Proof. intros k1 k2 k3 (R1 & S1 & T1 & L1 & D1) (R2 & S2 & T2 & L2 & D2). split_and!; [congruence|naive_solver..|lia|auto]. Qed.
#[export] Instance frame_preorder : PreOrder frame.
Proof.
  split.
  - intros c. split; [|done]. reflexivity.
  - intros c1 c2 c3 [H12 E12] [H23 E23]. split; [|congruence].
    by etrans.
Qed.

Lemma frame_same c c' : callers c' = callers c → next_chan c' = next_chan c → frame c c'.
Proof. intros Hc Hn. split; [|done]. rewrite Hc. reflexivity. Qed.
Lemma frame_alter c c' t f :
  callers c' = alter f t (callers c) → next_chan c' = next_chan c →
  (∀ k, callers c !! t = Some k → evolves k (f k)) → frame c c'.
Proof.
  intros Hc Hn Hf. split; [|done]. rewrite Hc. apply Forall2_same_length_lookup.
  split; [by rewrite length_alter|]. intros i k k' Hk Hk'.
  destruct (decide (i = t)) as [->|Hne].
  - rewrite list_lookup_alter_eq, Hk in Hk'. injection Hk' as <-. by apply Hf.
  - rewrite list_lookup_alter_ne, Hk in Hk' by done. by injection Hk' as <-.
Qed.

Section frames.
Context `{BuildProfile} `{PlistLib}.

(** A new place in the code, of a call that is not over. *)
Lemma evolves_pc k p :
  match k_pc k with Done _ => False | _ => True end → (pc_left (set_pc p k) ≤ pc_left k)%nat →
  (∀ r code, p = Done (Ok r) → k_kind k = KChannel code → r = RetChannel code) →
  evolves k (set_pc p k).
Proof.
  intros Hk Hl Hp. unfold evolves. split_and!; [done| | |done|by intros r Hr; rewrite Hr in Hk].
  - unfold settled. by destruct (k_pc k).
  - intros _. unfold ret_ok. cbn [set_pc k_pc k_kind].
    destruct p as [| | |[r| | |]]; try done. destruct (k_kind k) eqn:Ek; try done. by eapply Hp.
Qed.

(** The call moves on from where [Ep] says it is. *)
Ltac pc_step Ep := apply evolves_pc; [by rewrite Ep|unfold pc_left; rewrite Ep; cbn;
  repeat match goal with |- context [if ?b then _ else _] => destruct b end; lia|].

Lemma drive_call_frame e t c c' : drive_call e t c = Some c' → frame c c'.
Proof.
  unfold drive_call. destruct (callers c !! t) as [k|] eqn:Ek; [|done].
  destruct (k_pc k) eqn:Ep; [| | |done].
  - unfold insert_waiter. rewrite Ek, Ep. destruct (k_kind k) eqn:Ekk; intros [= <-];
      (eapply frame_alter; [done..|]); intros k0 Hk0; simplify_eq;
      by pc_step Ep.
  - unfold send_call. rewrite Ek, Ep. destruct (encode_call _ _ _ _ _ _) as [l|e0| |] eqn:El;
      [destruct (write_bytes l (writer c)) as [[u|e0| |] w] eqn:Ew|..]; intros [= <-];
      (eapply frame_alter; [done..|]); intros k0 Hk0; simplify_eq;
      pc_step Ep; try done.
    intros r code Hr Hkk. rewrite Hkk in Hr. done.
  - unfold recv_timeout. rewrite Ek, Ep. destruct (slot k) as [m|] eqn:Es.
    + intros [= <-]. eapply frame_alter; [done..|]. intros k0 Hk0. simplify_eq.
      pc_step Ep. unfold finish_call. intros r code Hr Hkk.
      rewrite Hkk in Hr. by injection Hr as <-.
    + case_decide; [destruct e; [|done]|]; intros [= <-];
        (eapply frame_alter; [done..|]); intros k0 Hk0; simplify_eq; by pc_step Ep.
Qed.

Lemma evolves_slot k m : evolves k (set_slot m k).
Proof. split_and!; done. Qed.

Lemma reader_step_frame c c' : reader_step c = Some c' → frame c c'.
Proof.
  unfold reader_step. destruct (reader c) as [|m|m|m|m|m q|].
  - unfold reader_read. destruct (read_message_inner _) as [r p]. intros [= <-]. by apply frame_same.
  - unfold reader_reply. destruct (waiters c !! msg_id m) as [t|]; [|intros [= <-]; by apply frame_same].
    destruct (callers c !! t) as [k|] eqn:Ek; [|intros [= <-]; by apply frame_same].
    destruct (k_pc k), (slot k); try done; intros [= <-]; try by apply frame_same.
    all: eapply frame_alter; [done..|]; intros; apply evolves_slot.
  - intros [= <-]. by apply frame_same.
  - intros [= <-]. unfold reader_ack. destruct (encode_ack m); by apply frame_same.
  - intros [= <-]. unfold reader_dispatch. destruct (dispatchers c !! channel m); by apply frame_same.
  - unfold reader_send. repeat case_match; try done; intros [= <-]; by apply frame_same.
  - done.
Qed.

Lemma queue_recv_frame q c m c' : queue_recv q c = Some (m, c') → frame c c'.
Proof. unfold queue_recv. repeat case_match; try done. intros [= <- <-]. by apply frame_same. Qed.
Lemma drop_queue_frame q c : frame c (drop_queue q c).
Proof. unfold drop_queue, queue_drop. repeat case_match; by apply frame_same. Qed.
Lemma lift_writer_frames {A} (m : ST stream Error A) c : frame c (lift_writer m c).2.
Proof. unfold lift_writer. destruct (m (writer c)). by apply frame_same. Qed.
Lemma register_channel_frame ch c c' : register_channel ch c = Some c' → frame c c'.
Proof. unfold register_channel. case_match; [done|]. intros [= <-]. by apply frame_same. Qed.

Lemma frame_reqs c c' : frame c c' → reqs c' = reqs c.
Proof.
  intros [Hf _]. unfold reqs. induction Hf as [|k k' l l' (Hr & _) _ IH]; [done|].
  by rewrite !fmap_cons, Hr, IH.
Qed.
End frames.

(** ** The requests of a run *)
Section plan.
Context `{Launch.HashOrder} `{BuildProfile} `{PL : PlistLib}.

Definition the_arg (o : outcome Error (list byte)) : AuxValue :=
  ABytes (match o with Ok l => l | _ => [] end).

Definition channel_req (code : Z) (name : string) : request :=
  (KChannel code, 0, "_requestChannelWithCode:identifier:"%string,
   [AInt32 code; the_arg (archive_string name)]).

(** What a stage asks of its connection. *)
Definition stage_req (sid : list byte) (s : stage) : request :=
  match s with
  | SHandshake1 | SHandshake2 =>
      (KAsync, 0, "_notifyOfPublishedCapabilities:"%string, [the_arg archive_capabilities_dict])
  | SChannel1 | SChannel2 _ => channel_req 1 chan_name
  | SDriver => channel_req 2 driver_chan_name
  | SInitiate ide =>
      (KCall, ide, "_IDE_initiateSessionWithIdentifier:capabilities:"%string,
       [the_arg (Archive.archive_uuid sid); the_arg (Archive.archive_xct_capabilities local_caps)])
  | SControl chan _ =>
      (KCall, chan, "_IDE_initiateControlSessionWithCapabilities:"%string,
       [the_arg (Archive.archive_xct_capabilities [])])
  | SAuthorize chan pid =>
      (KCall, chan, "_IDE_authorizeTestSessionWithProcessID:"%string,
       [the_arg (archive_u64 (wrap 64 pid))])
  end.

(** The stages of a run whose runner is the process [pid]. *)
Definition stages (pid : Z) : list stage :=
  [SHandshake1; SHandshake2; SChannel1; SInitiate 1; SDriver; SChannel2 pid; SControl 1 pid;
   SAuthorize 1 pid].
Definition side (b : bool) (l : list stage) : list stage := filter (λ s, on_first s = b) l.
Definition reqs_on (b : bool) (sid : list byte) (pid : Z) (n : nat) : list request :=
  stage_req sid <$> side b (take n (stages pid)).

Definition is_channel (s : stage) : bool :=
  match s with SChannel1 | SDriver | SChannel2 _ => true | _ => false end.
Definition chans (b : bool) (pid : Z) (n : nat) : Z :=
  1 + lenZ (filter (λ s, is_channel s = true) (side b (take n (stages pid)))).

(** The message that starts the test plan, on the channel [ch]. *)
Definition plan_req (ch : Z) : request :=
  (KAsync, ch, "_IDE_startExecutingTestPlanWithProtocolVersion:"%string, [the_arg (archive_u64 36)]).

(** A call is one more calling thread. *)
Definition extends (c : DtxConn) (r : request) (n : Z) (c' : DtxConn) : Prop :=
  (∃ k, callers c' = callers c ++ [k] ∧ req_of k = r ∧ ret_ok k) ∧ next_chan c' = Some n.

Lemma call_archived_spec ch sel args l c r c' n :
  call_archived ch sel args c = (r, c') → next_chan c = Some n →
  (∀ bs, args = Ok bs → ABytes <$> bs = l) →
  (r = Ok tt ∧ extends c (KCall, ch, sel, l) n c') ∨ (r = Panic ∧ callers c' = callers c).
Proof.
  unfold call_archived. intros Hc Hn Hl. destruct args as [bs|e0| |]; injection Hc as <- <-;
    [left|by right..]. split; [done|]. rewrite (Hl bs eq_refl). by split; [eexists|].
Qed.

Lemma request_channel_spec name code c r c' :
  request_channel name c = (r, c') → next_chan c = Some code → 0 ≤ code < 100 →
  (r = Ok tt ∧ extends c (channel_req code name) (code + 1) c') ∨ (r = Panic ∧ callers c' = callers c).
Proof.
  unfold request_channel. intros Hc Hn Hcode. rewrite Hn in Hc.
  rewrite (proj2 (Z.leb_gt (2 ^ 31) (code + 1))) in Hc by lia. cbn [andb] in Hc.
  assert (swrap 32 (wrap 32 (code + 1)) = code + 1) as Hw.
  { unfold swrap, wrap. rewrite (Z.mod_small (code + 1)) by lia. rewrite Z.mod_small by lia. lia. }
  rewrite Hw in Hc. unfold channel_req, the_arg.
  destruct (archive_string name) as [b|e0| |]; injection Hc as <- <-; [left|by right..].
  split; [done|]. by split; [eexists|].
Qed.

Lemma begin_call_spec sid s c r c' (n : nat) pid b :
  begin_call sid s c = (r, c') → stages pid !! n = Some s → b = on_first s →
  next_chan c = Some (chans b pid n) →
  (r = Ok tt ∧ extends c (stage_req sid s) (chans b pid (S n)) c')
  ∨ (r = Panic ∧ callers c' = callers c).
Proof.
  intros Hb Hs -> Hn.
  destruct n as [|[|[|[|[|[|[|[|n]]]]]]]]; [injection Hs as <-; cbn [begin_call on_first] in Hb, Hn |- *..|done].
  1,2: unfold handshake in Hb; unfold stage_req, the_arg;
    destruct archive_capabilities_dict as [l|e0| |]; injection Hb as <- <-; [left|by right..];
    split; [done|]; by split; [eexists|].
  all: change (chans _ _ _) with 1 in Hn || change (chans _ _ _) with 2 in Hn.
  - by apply (request_channel_spec _ _ _ _ _ Hb Hn).
  - eapply call_archived_spec; [exact Hb|exact Hn|]. unfold the_arg.
    destruct (Archive.archive_uuid sid) as [l| | |]; [|done..]. cbn [obind].
    destruct (Archive.archive_xct_capabilities local_caps) as [l2| | |]; [|done..]. by intros bs [= <-].
  - by apply (request_channel_spec _ _ _ _ _ Hb Hn).
  - by apply (request_channel_spec _ _ _ _ _ Hb Hn).
  - eapply call_archived_spec; [exact Hb|exact Hn|]. unfold the_arg.
    destruct (Archive.archive_xct_capabilities []) as [l| | |]; [|done..]. by intros bs [= <-].
  - eapply call_archived_spec; [exact Hb|exact Hn|]. unfold the_arg.
    destruct (archive_u64 _) as [l| | |]; [|done..]. by intros bs [= <-].
Qed.
End plan.

(** ** The invariant of a run *)

Fixpoint starts (l : list effect) : nat :=
  match l with [] => 0 | EStart :: l => S (starts l) | _ :: l => starts l end.
Definition starts_left (d : dispatcher) : nat :=
  match d_pc d with DBusy l => starts l | _ => 0 end.

(** [n] stages have begun. *)
Definition stage_count (b : bool) (pid : Z) (n : nat) : nat := length (side b (take n (stages pid))).

Section invariant.
Context `{Launch.HashOrder} `{BuildProfile} `{PL : PlistLib} {W : Type} `{OS : Os W}
  `{TS : TunnelStack W} `{Y : Sys W} `{WC : Launch.WallClock W}.
Implicit Types x : session W.

(** The first [n] stages have begun and the first [m] are over. *)
Definition main_at (pid : Z) (pc : main_pc) (n m : nat) : Prop :=
  match pc with
  | MBegin s => stages pid !! n = Some s ∧ m = n
  | MIn s t => stages pid !! m = Some s ∧ n = S m ∧ t = stage_count (on_first s) pid m
  | MRegisterIde ide | MRegister0 ide => ide = 1 ∧ n = 3%nat ∧ m = 3%nat
  | MSpawn | MLaunch => n = 5%nat ∧ m = 5%nat
  | MPoll | MPollDone | MFlush => n = 8%nat ∧ m = 8%nat
  | MDone (Ok b) => b = true ∧ n = 8%nat ∧ m = 8%nat
  | MDone _ => (m ≤ n ≤ S m)%nat ∧ (n ≤ 8)%nat
  end.

(** The plan is started at most once, by the dispatcher, which exists once
    five stages are over. *)
Definition dispatch_ok (d : dispatcher) (plan : list request) (pc : main_pc) (m : nat) : Prop :=
  (d_pc d = DNone → plan = []) ∧ (d_pc d ≠ DNone → (5 ≤ m)%nat ∧ pc ≠ MSpawn) ∧
  (starts_left d + length plan ≤ if plan_started d then 1 else 0)%nat ∧
  Forall (λ r, ∃ ch, r = plan_req ch) plan.

Definition settled_upto (c : DtxConn) (n : nat) : Prop :=
  ∀ i, (i < n)%nat → ∃ k, callers c !! i = Some k ∧ settled k = true.

Record inv x (n m : nat) (pid : Z) (plan : list request) : Prop := {
  inv_at : main_at pid (main x) n m;
  inv_first : reqs (conn1 x) = reqs_on true (session_id x) pid n ++ plan;
  inv_second : reqs (conn2 x) = reqs_on false (session_id x) pid n;
  inv_done1 : settled_upto (conn1 x) (stage_count true pid m);
  inv_done2 : settled_upto (conn2 x) (stage_count false pid m);
  inv_rets1 : Forall ret_ok (callers (conn1 x));
  inv_rets2 : Forall ret_ok (callers (conn2 x));
  inv_chans : match main x with
              | MDone _ => True
              | _ => next_chan (conn1 x) = Some (chans true pid n) ∧
                     next_chan (conn2 x) = Some (chans false pid n)
              end;
  inv_dispatch : dispatch_ok (dispatch x) plan (main x) m
}.

Lemma frame_settled c c' n : frame c c' → settled_upto c n → settled_upto c' n.
Proof.
  intros [Hf _] Hs i Hi. destruct (Hs i Hi) as (k & Hk & Hd).
  destruct (Forall2_lookup_l _ _ _ _ _ Hf Hk) as (k' & Hk' & _ & Hev & _). eauto.
Qed.
Lemma frame_rets c c' : frame c c' → Forall ret_ok (callers c) → Forall ret_ok (callers c').
Proof.
  intros [Hf _] Hr. apply Forall_lookup. intros i k' Hk'.
  destruct (Forall2_lookup_r _ _ _ _ _ Hf Hk') as (k & Hk & _ & _ & Hev & _).
  apply Hev. by eapply Forall_lookup_1.
Qed.

(** A step that is neither a call nor a move of the main thread. *)
Lemma inv_frame x x' n m pid plan :
  inv x n m pid plan → frame (conn1 x) (conn1 x') → frame (conn2 x) (conn2 x') →
  main x' = main x → session_id x' = session_id x → dispatch_ok (dispatch x') plan (main x') m →
  inv x' n m pid plan.
Proof.
  intros [Ha Hf Hs Hd1 Hd2 Hr1 Hr2 Hc Hd] F1 F2 Em Es Hd'. rewrite Em in Hd'.
  split; rewrite ?Em, ?Es, ?(frame_reqs _ _ F1), ?(frame_reqs _ _ F2); try done;
    [by eapply frame_settled..|by eapply frame_rets|by eapply frame_rets|].
  destruct F1 as [_ ->], F2 as [_ ->]. done.
Qed.

(** A move of the main thread between calls. *)
Lemma inv_move x x' n m pid plan :
  inv x n m pid plan → frame (conn1 x) (conn1 x') → frame (conn2 x) (conn2 x') →
  main_at pid (main x') n m →
  match main x with MDone _ => False | _ => True end →
  session_id x' = session_id x → dispatch_ok (dispatch x') plan (main x') m →
  inv x' n m pid plan.
Proof.
  intros [Ha Hf Hs Hd1 Hd2 Hr1 Hr2 Hc Hd] F1 F2 Hat Hnd Es Hd'.
  split; rewrite ?Es, ?(frame_reqs _ _ F1), ?(frame_reqs _ _ F2); try done;
    [by eapply frame_settled..|by eapply frame_rets|by eapply frame_rets|].
  destruct F1 as [_ ->], F2 as [_ ->]. destruct (main x); by try (destruct (main x')).
Qed.

Lemma reqs_on_S b sid pid n s :
  stages pid !! n = Some s →
  reqs_on b sid pid (S n) = reqs_on b sid pid n ++ (if decide (on_first s = b) then [stage_req sid s] else []).
Proof.
  intros Hs. unfold reqs_on, side. rewrite (take_S_r _ _ _ Hs), filter_app, fmap_app.
  f_equal. rewrite filter_cons. by case_decide.
Qed.
Lemma stage_count_S b pid n s :
  stages pid !! n = Some s →
  stage_count b pid (S n) = (stage_count b pid n + if decide (on_first s = b) then 1 else 0)%nat.
Proof.
  intros Hs. unfold stage_count, side. rewrite (take_S_r _ _ _ Hs), filter_app, length_app.
  f_equal. rewrite filter_cons. by case_decide.
Qed.
Lemma chans_S b pid n s :
  stages pid !! n = Some s → on_first s ≠ b → chans b pid (S n) = chans b pid n.
Proof.
  intros Hs Hb. unfold chans, side. rewrite (take_S_r _ _ _ Hs), filter_app, filter_cons.
  rewrite decide_False by done. by rewrite app_nil_r.
Qed.

(** A stage on the first connection begins before there is a dispatcher. *)
Lemma first_no_plan x n pid plan s :
  inv x n n pid plan → stages pid !! n = Some s → on_first s = true → plan = [].
Proof.
  intros Hi Hs Hf. destruct (inv_dispatch _ _ _ _ _ Hi) as (Hn & H5 & _).
  assert (d_pc (dispatch x) = DNone ∨ d_pc (dispatch x) ≠ DNone) as [Hd|Hd]
    by (destruct (d_pc (dispatch x)); by (left + right)).
  { by apply Hn. }
  destruct (H5 Hd) as [H5' _]. destruct n as [|[|[|[|[|[|[|[|n]]]]]]]]; [lia..|by injection Hs as <-|
    by injection Hs as <-|by injection Hs as <-|done].
Qed.

Lemma extends_reqs c r n c' : extends c r n c' → reqs c' = reqs c ++ [r].
Proof. intros [(k & Hc & <- & _) _]. unfold reqs. by rewrite Hc, fmap_app. Qed.
Lemma extends_settled c r n c' j : extends c r n c' → settled_upto c j → settled_upto c' j.
Proof.
  intros [(k & Hc & _) _] Hs i Hi. destruct (Hs i Hi) as (k' & Hk' & Hd).
  exists k'. rewrite Hc. by rewrite lookup_app, Hk'.
Qed.
Lemma extends_rets c r n c' : extends c r n c' → Forall ret_ok (callers c) → Forall ret_ok (callers c').
Proof. intros [(k & -> & _ & Hk) _] Hr. by apply Forall_app_2; [|constructor]. Qed.

Lemma length_reqs c : length (callers c) = length (reqs c).
Proof. unfold reqs. by rewrite length_fmap. Qed.
Lemma length_reqs_on b sid pid n : length (reqs_on b sid pid n) = stage_count b pid n.
Proof. unfold reqs_on. by rewrite length_fmap. Qed.

(** The identifier drawn for the fourth stage is in none before it. *)
Lemma reqs_on_sid b sid sid' pid : reqs_on b sid pid 3 = reqs_on b sid' pid 3.
Proof. by destruct b. Qed.

(** A call that is begun. *)
Lemma inv_begin_call x n pid plan s r c' :
  inv x n n pid plan → main x = MBegin s →
  begin_call (session_id x) s (conn_of s x) = (r, c') →
  inv (set_main (match r with Ok _ => MIn s (length (callers (conn_of s x))) | _ => failed s r end)
         (set_conn s c' x)) (match r with Ok _ => S n | _ => n end) n pid plan.
Proof.
  intros Hi Em Hb. pose proof Hi as [Ha Hf Hs Hd1 Hd2 Hr1 Hr2 Hc Hd].
  rewrite Em in Ha, Hc. destruct Ha as [Hst _], Hc as [Hc1 Hc2].
  assert (next_chan (conn_of s x) = Some (chans (on_first s) pid n)) as Hn
    by (unfold conn_of; by destruct (on_first s)).
  destruct (begin_call_spec _ _ _ _ _ n pid _ Hb Hst eq_refl Hn) as [[-> Hx]|[-> Hx]].
  - pose proof (first_no_plan _ _ _ _ s Hi Hst) as Hpl.
    pose proof (extends_reqs _ _ _ _ Hx) as Hrq. pose proof Hx as [_ Hnx].
    unfold conn_of, set_conn in *. destruct (on_first s) eqn:Eo.
    + specialize (Hpl eq_refl) as ->. rewrite app_nil_r in Hf.
      split; cbn [set_main set_conn1 conn1 conn2 main session_id dispatch].
      * split_and!; [done..|]. by rewrite length_reqs, Hf, length_reqs_on, Eo.
      * by rewrite Hrq, Hf, (reqs_on_S _ _ _ _ s), decide_True, app_nil_r.
      * by rewrite Hs, (reqs_on_S _ _ _ _ s), Eo, app_nil_r.
      * by eapply extends_settled.
      * done.
      * by eapply extends_rets.
      * done.
      * split; [done|]. rewrite Hc2. by rewrite (chans_S _ _ _ s) by (done || by rewrite Eo).
      * destruct Hd as (H1 & H2 & H3 & H4). split_and!; [done|intros Hp; by destruct (H2 Hp)|done..].
    + split; cbn [set_main set_conn2 conn1 conn2 main session_id dispatch].
      * split_and!; [done..|]. by rewrite length_reqs, Hs, length_reqs_on, Eo.
      * by rewrite Hf, (reqs_on_S _ _ _ _ s), Eo, app_nil_r.
      * by rewrite Hrq, Hs, (reqs_on_S _ _ _ _ s), decide_True.
      * done.
      * by eapply extends_settled.
      * done.
      * by eapply extends_rets.
      * split; [|done]. rewrite Hc1. by rewrite (chans_S _ _ _ s) by (done || by rewrite Eo).
      * destruct Hd as (H1 & H2 & H3 & H4). split_and!; [done|intros Hp; by destruct (H2 Hp)|done..].
  - assert (n < 8)%nat as Hn8 by (apply lookup_lt_Some in Hst; simpl in Hst; lia).
    unfold conn_of, set_conn in *. unfold failed, reqs, settled_upto in *.
    destruct (on_first s); split; cbn [set_main set_conn1 set_conn2 conn1 conn2 main session_id dispatch main_at];
      unfold reqs, settled_upto; rewrite ?Hx; try done; try lia;
      destruct Hd as (H1 & H2 & H3 & H4); (split_and!; [done|intros Hp; by destruct (H2 Hp)|done..]).
Qed.

Lemma settled_result t c r : call_result t c = Some (Ok r) → ∃ k, callers c !! t = Some k ∧ settled k = true ∧ k_pc k = Done (Ok r).
Proof.
  unfold call_result. destruct (callers c !! t) as [k|] eqn:Ek; [|done].
  destruct (k_pc k) as [| | |r'] eqn:Ep; try done. intros [= ->]. exists k. split_and!; [done| |done].
  unfold settled. by rewrite Ep.
Qed.

Lemma settled_upto_S c i k :
  settled_upto c i → callers c !! i = Some k → settled k = true → settled_upto c (i + 1).
Proof.
  intros Hs Hk Hd j Hj. destruct (decide (j = i)) as [->|]; [eauto|]. apply Hs. lia.
Qed.

(** A stage that is over. *)
Lemma inv_settled x n m pid plan s t r :
  inv x n m pid plan → main x = MIn s t → call_result t (conn_of s x) = Some (Ok r) →
  ∀ pc, main_at pid pc n n → inv (set_main pc x) n n pid plan.
Proof.
  intros [Ha Hf Hs Hd1 Hd2 Hr1 Hr2 Hc Hd] Em Hcr pc Hpc.
  rewrite Em in Ha, Hc. destruct Ha as (Hst & -> & ->).
  destruct (settled_result _ _ _ Hcr) as (k & Hk & Hks & _).
  split; cbn [set_main conn1 conn2 main session_id dispatch]; try done.
  3: by destruct pc.
  3: { destruct Hd as (H1 & H2 & H3 & H4). split_and!; [done| |done..]. intros Hp.
       destruct (H2 Hp) as [H5 _]. split; [lia|]. intros ->. destruct Hpc as [Hpc _]. lia. }
  all: rewrite (stage_count_S _ _ _ s) by done; unfold conn_of in Hk; destruct (on_first s) eqn:Eo;
    rewrite ?(decide_True (P:=true = true)), ?(decide_True (P:=false = false)),
      ?(decide_False (P:=true = false)), ?(decide_False (P:=false = true)), ?Nat.add_0_r by done;
    try done; by eapply settled_upto_S.
Qed.

(** The channel of the reply is the one of the request. *)
Lemma channel_ret c reqs_l t code name r :
  reqs c = reqs_l → reqs_l !! t = Some (channel_req code name) → Forall ret_ok (callers c) →
  call_result t c = Some (Ok r) → ret_channel r = code.
Proof.
  intros <- Hl Hr Hcr. destruct (settled_result _ _ _ Hcr) as (k & Hk & _ & Hp).
  unfold reqs in Hl. rewrite list_lookup_fmap, Hk in Hl. injection Hl as Hkind _ _ _.
  pose proof (Forall_lookup_1 _ _ _ _ Hr Hk) as Hok. unfold ret_ok in Hok. rewrite Hp, Hkind in Hok.
  by rewrite Hok.
Qed.

(** ** Every step keeps it *)

Lemma main_at_failed {A} pid s (r : outcome Error A) n m :
  (m ≤ n ≤ S m)%nat → (n ≤ 8)%nat → main_at pid (failed s r) n m.
Proof. by destruct r. Qed.
Lemma main_at_le pid pc n m : main_at pid pc n m → (m ≤ n ≤ S m)%nat ∧ (n ≤ 8)%nat.
Proof.
  destruct pc as [s|s t| | | | | | | |[[]| | |]]; cbn [main_at].
  1: intros [Hs ->].
  2: intros (Hs & -> & _).
  1, 2: pose proof (lookup_lt_Some _ _ _ Hs); simpl in *.
  all: lia.
Qed.

(** The dispatcher is left as it is. *)
Lemma dispatch_ok_pc d plan pc pc' m :
  dispatch_ok d plan pc m → pc' ≠ MSpawn → dispatch_ok d plan pc' m.
Proof. intros (H1 & H2 & H3 & H4) Hne. split_and!; [done| |done..]. intros Hp. by destruct (H2 Hp). Qed.

Definition prepare (s : stage) (x : session W) : session W :=
  match s with
  | SInitiate _ =>
      match Launch.rand_uuid (E:=Version.Error) (x_world x) with
      | (Ok id, w) => set_session_id id (set_world w x)
      | _ => x
      end
  | _ => x
  end.

Lemma inv_prepare x n pid plan s :
  inv x n n pid plan → main x = MBegin s → inv (prepare s x) n n pid plan ∧ main (prepare s x) = MBegin s.
Proof.
  intros Hi Em. unfold prepare. destruct s; try done.
  destruct (Launch.rand_uuid (x_world x)) as [[sid| | |] w]; try done. split; [|done].
  pose proof (inv_at _ _ _ _ _ Hi) as Ha. rewrite Em in Ha. destruct Ha as [Ha _].
  assert (n = 3%nat) as -> by (by destruct n as [|[|[|[|[|[|[|[|n]]]]]]]]; try discriminate).
  destruct Hi as [Ha' Hf Hs Hd1 Hd2 Hr1 Hr2 Hc Hd].
  split; try done; cbn [set_session_id set_world conn1 conn2 session_id];
    by rewrite (reqs_on_sid _ _ (session_id x)).
Qed.

Lemma inv_main_begin x n m pid plan s :
  inv x n m pid plan → main x = MBegin s → ∃ n', inv (main_begin s x) n' m pid plan.
Proof.
  intros Hi Em. pose proof (inv_at _ _ _ _ _ Hi) as Ha. rewrite Em in Ha. destruct Ha as [_ ->].
  destruct (inv_prepare _ _ _ _ _ Hi Em) as [Hi' Em'].
  unfold main_begin. fold (prepare s x).
  destruct (begin_call (session_id (prepare s x)) s (conn_of s (prepare s x))) as [r c'] eqn:Eb.
  eexists. by apply inv_begin_call.
Qed.

Lemma next_step_at x n m pid plan s t r :
  inv x n m pid plan → main x = MIn s t → call_result t (conn_of s x) = Some (Ok r) →
  main_at pid (next_step s r) n n.
Proof.
  intros [Ha Hf Hs Hd1 Hd2 Hr1 Hr2 Hc Hd] Em Hcr. rewrite Em in Ha. destruct Ha as (Hst & -> & ->).
  destruct m as [|[|[|[|[|[|[|[|m]]]]]]]]; try done; injection Hst as <-; try done.
  - split; [|done]. unfold conn_of in Hcr. cbn [on_first] in Hcr.
    by eapply (channel_ret _ _ _ 1 chan_name); [exact Hf| |exact Hr1|exact Hcr].
  - cbn [next_step main_at]. unfold conn_of in Hcr. cbn [on_first] in Hcr.
    erewrite (channel_ret _ _ _ 1 chan_name); [done|exact Hs| |exact Hr2|exact Hcr]. done.
Qed.

Lemma inv_main_in e x n m pid plan s t x' :
  inv x n m pid plan → main x = MIn s t → main_in e s t x = Some x' → ∃ m', inv x' n m' pid plan.
Proof.
  intros Hi Em Hx. unfold main_in in Hx.
  destruct (call_result t (conn_of s x)) as [r|] eqn:Er.
  - assert (∀ A (r : outcome Error A), inv (set_main (failed s r) x) n m pid plan) as Hfail.
    { intros A r0. apply (inv_move x); [done|done|done| |by rewrite Em|done|].
      - apply main_at_failed; by eapply main_at_le, (inv_at _ _ _ _ _ Hi).
      - eapply dispatch_ok_pc; [apply (inv_dispatch _ _ _ _ _ Hi)|done]. }
    destruct r as [r|e0| |]; injection Hx as <-; [|by exists m..].
    exists n. eapply inv_settled; [done..|]. by eapply next_step_at.
  - destruct (drive_call e t (conn_of s x)) as [c|] eqn:Ed; [|done]. injection Hx as <-.
    apply drive_call_frame in Ed. exists m. unfold conn_of, set_conn in *.
    destruct (on_first s); apply (inv_frame x); try done; apply (inv_dispatch _ _ _ _ _ Hi).
Qed.

Lemma inv_launched x plan pid pid' x' :
  inv x 5 5 pid plan → main x = MLaunch → main x' = MBegin (SChannel2 pid') →
  conn1 x' = conn1 x → conn2 x' = conn2 x → session_id x' = session_id x → dispatch x' = dispatch x →
  inv x' 5 5 pid' plan.
Proof.
  intros [Ha Hf Hs Hd1 Hd2 Hr1 Hr2 Hc Hd] Em Em' E1 E2 Es Edp. rewrite Em in Hc, Hd.
  split; rewrite ?E1, ?E2, ?Es, ?Em', ?Edp; try done. by eapply dispatch_ok_pc.
Qed.

Context (env : setting).

(** The runner has been launched, going by [n] and the place of the main thread. *)
Definition past_launch x (n : nat) (pid : Z) : Prop := (5 < n)%nat ∨ main x = MBegin (SChannel2 pid).

(** A step either is the launch, which returns [pid'], or keeps the process. *)
Definition keeps_pid x x' (n n' : nat) (pid pid' : Z) : Prop :=
  (∃ w1, main x = MLaunch ∧ launch env (session_id x) (x_world x) = (Ok pid', w1) ∧
     session_id x' = session_id x) ∨
  pid' = pid ∧ (past_launch x' n' pid → past_launch x n pid ∧ session_id x' = session_id x).

Lemma main_begin_pid x n m n' pid plan s :
  inv x n m pid plan → main x = MBegin s → (n' ≤ S n)%nat → keeps_pid x (main_begin s x) n n' pid pid.
Proof.
  intros Hi Em Hn. right. split; [done|]. pose proof (inv_at _ _ _ _ _ Hi) as Ha. rewrite Em in Ha.
  destruct Ha as [Hs _].
  assert (session_id (main_begin s x) = session_id (prepare s x)) as ->.
  { unfold main_begin. fold (prepare s x). destruct (begin_call _ _ _). unfold set_conn. by destruct (on_first s). }
  intros [Hlt|Hm].
  - assert (5 ≤ n)%nat as H5 by lia. unfold past_launch. rewrite Em.
    destruct n as [|[|[|[|[|[|[|[|n]]]]]]]]; try lia; [..|done]; injection Hs as <-; (split; [|done]);
      first [by right|left; lia].
  - exfalso. revert Hm. unfold main_begin. destruct (begin_call _ _ _) as [[] ?]; done.
Qed.
Lemma main_in_pid e x n pid s t x' :
  main x = MIn s t → main_in e s t x = Some x' → keeps_pid x x' n n pid pid.
Proof.
  intros Em Hx. right. split; [done|]. unfold main_in in Hx.
  assert (session_id x' = session_id x ∧ main x' ≠ MBegin (SChannel2 pid)) as [Hid Hne].
  { destruct (call_result t (conn_of s x)) as [[r|e0| |]|].
    1: injection Hx as <-; split; [done|by destruct s].
    1,2,3: injection Hx as <-; split; done.
    destruct (drive_call e t (conn_of s x)); [|done]. injection Hx as <-. unfold set_conn.
    destruct (on_first s); (split; [done|]); cbn [set_conn1 set_conn2 main]; by rewrite Em. }
  intros [Hlt|Hm]; [|done]. split; [by left|done].
Qed.
Lemma move_pid x x' n pid :
  session_id x' = session_id x → main x' ≠ MBegin (SChannel2 pid) → keeps_pid x x' n n pid pid.
Proof. intros Hid Hne. right. split; [done|]. intros [Hlt|Hm]; [|done]. split; [by left|done]. Qed.
Lemma same_pid x x' n pid :
  session_id x' = session_id x → main x' = main x → keeps_pid x x' n n pid pid.
Proof. intros Hid Hm. right. split; [done|]. unfold past_launch. by rewrite Hm. Qed.

Lemma inv_main_step e x n m pid plan x' :
  inv x n m pid plan → main_step env e x = Some x' →
  ∃ n' m' pid', inv x' n' m' pid' plan ∧ keeps_pid x x' n n' pid pid'.
Proof.
  intros Hi Hx. unfold main_step in Hx. pose proof (inv_at _ _ _ _ _ Hi) as Ha.
  pose proof (inv_dispatch _ _ _ _ _ Hi) as Hd.
  destruct (main x) as [s|s t|ide|ide| | | | | |r] eqn:Em; cbn [main_at] in Ha.
  - injection Hx as <-. destruct (inv_main_begin _ _ _ _ _ _ Hi Em) as [n' Hi']. exists n', m, pid.
    split; [done|]. destruct Ha as [_ ->]. eapply main_begin_pid; [done..|].
    pose proof (main_at_le _ _ _ _ (inv_at _ _ _ _ _ Hi')). lia.
  - destruct (inv_main_in _ _ _ _ _ _ _ _ _ Hi Em Hx) as [m' ?]. exists n, m', pid.
    split; [done|]. by eapply main_in_pid.
  - destruct (register_channel ide (conn1 x)) as [c|] eqn:Er; [|done]. injection Hx as <-.
    apply register_channel_frame in Er. exists n, m, pid. split; [|by apply move_pid].
    apply (inv_move x); [done|done|done|done|by rewrite Em|done|by eapply dispatch_ok_pc].
  - destruct (register_channel 0 (conn1 x)) as [c|] eqn:Er; [|done]. injection Hx as <-.
    apply register_channel_frame in Er. exists n, m, pid. split; [|by apply move_pid].
    destruct Ha as (-> & -> & ->).
    apply (inv_move x); [done|done|done|done|by rewrite Em|done|by eapply dispatch_ok_pc].
  - injection Hx as <-. exists n, m, pid. unfold main_spawn. destruct Ha as [-> ->].
    destruct Hd as (H1 & H2 & H3 & H4). assert (d_pc (dispatch x) = DNone) as Hnone
      by (destruct (d_pc (dispatch x)); try done; by destruct H2).
    rewrite (H1 Hnone) in *. destruct (Archive.build_xctest_configuration_bytes _);
      (split; [|by apply move_pid]);
      (apply (inv_move x); [done|done|done|try done; simpl; lia|by rewrite Em|done|]);
      split_and!; try done; by rewrite ?Hnone.
  - injection Hx as <-. destruct Ha as [-> ->]. unfold main_launch.
    destruct (launch env (session_id x) (x_world x)) as [[p|e0| |] w] eqn:El;
      [exists 5%nat, 5%nat, p; split; [by eapply inv_launched|left; by exists w]
      |exists 5%nat, 5%nat, pid..]; (split; [|by apply move_pid]);
      (apply (inv_move x); [done|done|done|simpl; lia|by rewrite Em|done|by eapply dispatch_ok_pc]).
  - injection Hx as <-. exists n, m, pid. unfold main_poll, take_output.
    destruct (s_queue (stdio x)); [destruct (s_pc (stdio x))|]; (split; [|by apply move_pid]);
      (apply (inv_move x); [done|done|done|done|by rewrite Em|done|by eapply dispatch_ok_pc]).
  - injection Hx as <-. exists n, m, pid. unfold main_poll_done.
    destruct (done x); [|destruct e]; (split; [|by apply move_pid]);
      (apply (inv_move x); [done|done|done|done|by rewrite Em|done|by eapply dispatch_ok_pc]).
  - injection Hx as <-. exists n, m, pid. unfold take_output.
    destruct (s_queue (stdio x)).
    + split; [|by apply move_pid].
      apply (inv_move x); [done|done|done|done|by rewrite Em|done|by eapply dispatch_ok_pc].
    + split; [|by apply same_pid]. apply (inv_frame x); try done.
      cbn [write_log set_log set_stdio dispatch main]. by rewrite Em.
  - done.
Qed.

Lemma starts_ack m l : starts (ack_if m ++ l) = starts l.
Proof. unfold ack_if. by destruct (expects_reply m). Qed.
Lemma on_message_starts m f s f' s' l :
  on_message m f s = (f', s', l) →
  (starts l + (if s then 1 else 0) ≤ if s' then 1 else 0)%nat.
Proof.
  unfold on_message.
  assert (starts (ack_if m) = 0%nat) as Ha by (unfold ack_if; by destruct (expects_reply m)).
  destruct (contains _ _); [|destruct (contains _ _); [|
    destruct (_ || _); [|destruct (f && _); [|destruct s; cbn [negb andb]; [|destruct (contains _ _)]]]]].
  all: intros Heq; simplify_eq; rewrite ?starts_ack, ?Ha; simpl; lia.
Qed.

Lemma inv_end_dispatch x n m pid plan :
  inv x n m pid plan → d_pc (dispatch x) ≠ DNone → inv (end_dispatch x) n m pid plan.
Proof.
  intros Hi Hp. destruct (inv_dispatch _ _ _ _ _ Hi) as (H1 & H2 & H3 & H4).
  apply (inv_frame x); [done|apply drop_queue_frame|done..|].
  split_and!; [done|intros _; by apply H2| |done]. unfold starts_left in *. simpl in *.
  destruct (d_pc (dispatch x)); lia.
Qed.

(** The first effect has been dealt with. *)
Lemma inv_continue x c n m pid plan e l :
  inv x n m pid plan → d_pc (dispatch x) = DBusy (e :: l) → frame (conn1 x) c → ∀ x',
  conn1 x' = c → conn2 x' = conn2 x → main x' = main x → session_id x' = session_id x →
  dispatch x' = set_d_pc (DBusy l) (dispatch x) → inv x' n m pid plan.
Proof.
  intros Hi Hp Hf x' <- E2 Em Es Ed. destruct (inv_dispatch _ _ _ _ _ Hi) as (H1 & H2 & H3 & H4).
  apply (inv_frame x); [done|done|by rewrite E2|done|done|]. rewrite Ed, Em.
  split_and!; [done|intros _; apply H2; by rewrite Hp| |done].
  unfold starts_left in *. rewrite Hp in H3. simpl in *. destruct e; lia.
Qed.

Lemma inv_after_send x n m pid plan e l rc :
  inv x n m pid plan → d_pc (dispatch x) = DBusy (e :: l) → frame (conn1 x) rc.2 →
  inv (after_send l rc x) n m pid plan.
Proof.
  intros Hi Hp Hf. unfold after_send.
  assert (inv (set_conn1 rc.2 x) n m pid plan) as Hi1
    by (apply (inv_frame x); try done; apply (inv_dispatch _ _ _ _ _ Hi)).
  destruct rc.1; try by eapply inv_continue.
  apply inv_end_dispatch; [done|]. cbn [set_conn1 dispatch]. by rewrite Hp.
Qed.

(** The plan is started on the channel known by then. *)
Lemma inv_start x n m pid plan l b :
  inv x n m pid plan → d_pc (dispatch x) = DBusy (EStart :: l) → archive_u64 (E:=Error) 36 = Ok b →
  inv (set_dispatch (set_d_pc (DBusy (ECall (length (callers (conn1 x))) :: l)) (dispatch x))
         (set_conn1 (call_async (driver_invoke_chan x)
            "_IDE_startExecutingTestPlanWithProtocolVersion:" [ABytes b] (conn1 x)) x))
    n m pid [plan_req (driver_invoke_chan x)].
Proof.
  intros [Ha Hf Hs Hd1 Hd2 Hr1 Hr2 Hc (H1 & H2 & H3 & H4)] Hp Hb.
  unfold starts_left in H3. rewrite Hp in H3. cbn [starts] in H3.
  destruct (plan_started (dispatch x)) eqn:Est; [|lia].
  assert (plan = []) as -> by (destruct plan; [done|simpl in H3; lia]). rewrite app_nil_r in Hf.
  split; cbn [set_dispatch set_conn1 conn1 conn2 main session_id dispatch]; try done.
  - unfold reqs, call_async, start. cbn [set_callers callers alloc_id set_next_id].
    rewrite fmap_app. fold (reqs (conn1 x)). rewrite Hf. unfold plan_req, the_arg. by rewrite Hb.
  - intros i Hi. destruct (Hd1 i Hi) as (k & Hk & Hks). exists k. split; [|done].
    unfold call_async, start. cbn. by rewrite lookup_app, Hk.
  - unfold call_async, start. cbn. apply Forall_app_2; [done|]. by constructor.
  - split_and!; [done|intros _; apply H2; by rewrite Hp| |].
    + unfold starts_left. cbn. rewrite Est. lia.
    + constructor; [|done]. by eexists.
Qed.

Lemma inv_dispatch_step x n m pid plan x' :
  inv x n m pid plan → dispatch_step x = Some x' → ∃ plan', inv x' n m pid plan'.
Proof.
  intros Hi Hx. unfold dispatch_step in Hx.
  destruct (d_pc (dispatch x)) as [|[|e l]|] eqn:Hp; [done| | |done].
  - exists plan. destruct (queue_recv IDE_QUEUE (conn1 x)) as [[msg c]|] eqn:Eq; [|done].
    cbn [mbind option_bind] in Hx.
    destruct (on_message _ _ _) as [[f s] l] eqn:Eo. injection Hx as <-.
    apply queue_recv_frame in Eq. apply on_message_starts in Eo.
    destruct (inv_dispatch _ _ _ _ _ Hi) as (H1 & H2 & H3 & H4).
    apply (inv_frame x); try done. split_and!; [done|intros _; apply H2; by rewrite Hp| |done].
    unfold starts_left in *. rewrite Hp in H3. simpl in *. lia.
  - destruct e; cbn [run_effect] in Hx.
    + injection Hx as <-. exists plan. eapply inv_after_send; [done..|]. apply lift_writer_frames.
    + injection Hx as <-. exists plan. eapply inv_after_send; [done..|]. apply lift_writer_frames.
    + injection Hx as <-. exists plan. by eapply inv_continue.
    + destruct (archive_u64 36) as [b|e0| |] eqn:Eb; injection Hx as <-;
        [eexists; by eapply inv_start|exists plan; apply inv_end_dispatch; by rewrite ?Hp..].
    + destruct (call_result t (conn1 x)) as [[r|e0| |]|] eqn:Er.
      1,2,4: injection Hx as <-; exists plan; by eapply inv_continue.
      * injection Hx as <-. exists plan. apply inv_end_dispatch; by rewrite ?Hp.
      * destruct (drive_call false t (conn1 x)) as [c|] eqn:Ed; [|done]. injection Hx as <-.
        apply drive_call_frame in Ed. exists plan. apply (inv_frame x); try done.
        apply (inv_dispatch _ _ _ _ _ Hi).
    + injection Hx as <-. exists plan. apply inv_end_dispatch; by rewrite ?Hp.
Qed.

Lemma inv_watch_step x n m pid plan x' :
  inv x n m pid plan → watch_step x = Some x' → inv x' n m pid plan.
Proof.
  intros Hi Hx. unfold watch_step in Hx. destruct (watcher x); [|done].
  destruct (queue_recv ZERO_QUEUE (conn1 x)) as [[msg c]|] eqn:Eq; [|done].
  cbn [mbind option_bind] in Hx. injection Hx as <-. apply queue_recv_frame in Eq.
  destruct (driver_code msg) as [code|]; [case_match|];
    (apply (inv_frame x); [done| |done|done|done|apply (inv_dispatch _ _ _ _ _ Hi)]); try done.
  cbn. etrans; [done|apply drop_queue_frame].
Qed.

Lemma inv_stdio_step x n m pid plan x' :
  inv x n m pid plan → stdio_step x = Some x' → inv x' n m pid plan.
Proof.
  intros Hi Hx. unfold stdio_step in Hx.
  destruct (s_pc (stdio x)); [destruct (read 4096 _)| |done]; repeat case_match; try done;
    injection Hx as <-; apply (inv_frame x); try done; apply (inv_dispatch _ _ _ _ _ Hi).
Qed.

(** A step of another thread leaves the main thread where it is. *)
Lemma other_step_main t x x' :
  step env t x = Some x' → match t with TMain _ => False | _ => True end →
  main x' = main x ∧ session_id x' = session_id x.
Proof.
  intros Hx Ht. destruct t as [e| | | | |]; [done|..]; cbn [step] in Hx.
  - destruct (reader_step (conn1 x)); [|done]. by injection Hx as <-.
  - destruct (reader_step (conn2 x)); [|done]. by injection Hx as <-.
  - unfold watch_step in Hx. destruct (watcher x); [|done]. destruct (queue_recv _ _) as [[msg c]|]; [|done].
    cbn [mbind option_bind] in Hx. injection Hx as <-. destruct (driver_code msg); [by case_match|done].
  - unfold dispatch_step in Hx. destruct (d_pc (dispatch x)) as [|[|e l]|]; [done| | |done].
    + destruct (queue_recv _ _) as [[msg c]|]; [|done]. cbn [mbind option_bind] in Hx.
      destruct (on_message _ _ _) as [[f s] l]. by injection Hx as <-.
    + destruct e; cbn [run_effect] in Hx; unfold after_send in Hx;
        [..|destruct (call_result t (conn1 x)) as [[]|]; [..|destruct (drive_call _ _ _)]|];
        repeat case_match; try done; by injection Hx as <-.
  - unfold stdio_step in Hx. destruct (s_pc (stdio x)); [destruct (read 4096 _)| |done];
      repeat case_match; try done; by injection Hx as <-.
Qed.

Lemma inv_step t x n m pid plan x' :
  inv x n m pid plan → step env t x = Some x' →
  ∃ n' m' pid' plan', inv x' n' m' pid' plan' ∧ keeps_pid x x' n n' pid pid'.
Proof.
  intros Hi Hx.
  assert (match t with TMain _ => False | _ => True end → keeps_pid x x' n n pid pid) as Hk
    by (intros Ht; by apply same_pid; apply (other_step_main t)).
  destruct t as [e| | | | |]; cbn [step] in Hx.
  - destruct (inv_main_step _ _ _ _ _ _ _ Hi Hx) as (n' & m' & pid' & ? & ?). by exists n', m', pid', plan.
  - destruct (reader_step (conn1 x)) as [c|] eqn:Er; [|done]. injection Hx as <-.
    apply reader_step_frame in Er. exists n, m, pid, plan. split; [|by apply Hk].
    apply (inv_frame x); try done; apply (inv_dispatch _ _ _ _ _ Hi).
  - destruct (reader_step (conn2 x)) as [c|] eqn:Er; [|done]. injection Hx as <-.
    apply reader_step_frame in Er. exists n, m, pid, plan. split; [|by apply Hk].
    apply (inv_frame x); try done; apply (inv_dispatch _ _ _ _ _ Hi).
  - exists n, m, pid, plan. split; [by eapply inv_watch_step|by apply Hk].
  - destruct (inv_dispatch_step _ _ _ _ _ _ Hi Hx) as [plan' ?]. exists n, m, pid, plan'.
    split; [done|by apply Hk].
  - exists n, m, pid, plan. split; [by eapply inv_stdio_step|by apply Hk].
Qed.

(** The state [run_open] leaves behind. *)
Definition fresh (x : session W) : Prop :=
  callers (conn1 x) = [] ∧ callers (conn2 x) = [] ∧ next_chan (conn1 x) = Some 1 ∧
  next_chan (conn2 x) = Some 1 ∧ main x = MBegin SHandshake1 ∧ d_pc (dispatch x) = DNone.

Lemma run_open_fresh t rsd apps cfg log w st x w' :
  run_open t rsd apps cfg log w = (Ok (st, x), w') → fresh x.
Proof.
  assert (∀ t addr port w c w', open_dtx t addr port w = (Ok c, w') →
    callers c = [] ∧ next_chan c = Some 1) as Hdtx.
  { unfold open_dtx. intros t0 addr port w0 c w0' Hr.
    apply sbind_inv in Hr as (s & w1 & _ & Hr). apply sbind_inv in Hr as ([r1 r2] & w2 & _ & Hr).
    by injection Hr as <- <-. }
  unfold run_open. intros Hr. apply sbind_inv in Hr as ([[p1 p2] p3] & w1 & _ & Hr).
  apply sbind_inv in Hr as (path & w2 & _ & Hr). apply sbind_inv in Hr as (s & w3 & _ & Hr).
  apply sbind_inv in Hr as ([tcp uuid] & w4 & _ & Hr).
  apply sbind_inv in Hr as (c1 & w5 & H1 & Hr). apply sbind_inv in Hr as (c2 & w6 & H2 & Hr).
  apply smap_err_inv in H1. apply smap_err_inv in H2.
  apply Hdtx in H1 as [? ?]. apply Hdtx in H2 as [? ?]. injection Hr as _ <- _.
  by split_and!.
Qed.

Lemma fresh_inv x : fresh x → inv x 0 0 0 [].
Proof.
  intros (H1 & H2 & H3 & H4 & H5 & H6).
  split; rewrite ?H5; unfold reqs, settled_upto; rewrite ?H1, ?H2; try done.
  - intros i Hi. change (stage_count true 0 0) with 0%nat in Hi. lia.
  - intros i Hi. change (stage_count false 0 0) with 0%nat in Hi. lia.
  - unfold dispatch_ok, starts_left. rewrite H6. split_and!; try done. simpl. lia.
Qed.

(** [pid] is what the launch has returned, in a state on the way to [x] with the
    session identifier of [x]. *)
Definition from_launch x0 x (pid : Z) : Prop :=
  ∃ y w1, steps_from env x0 y ∧ main y = MLaunch ∧ session_id y = session_id x ∧
    launch env (session_id x) (x_world y) = (Ok pid, w1).

Lemma run_steps_inv x0 x :
  fresh x0 → steps_from env x0 x →
  ∃ n m pid plan, inv x n m pid plan ∧ (past_launch x n pid → from_launch x0 x pid).
Proof.
  intros Hfr. induction 1 as [|t y z Hy (n & m & pid & plan & Hi & Hl) Hs].
  - exists 0%nat, 0%nat, 0, []. split; [by apply fresh_inv|].
    destruct Hfr as (_ & _ & _ & _ & Hm & _). intros [?|Hm']; [lia|congruence].
  - destruct (inv_step _ _ _ _ _ _ _ Hi Hs) as (n' & m' & pid' & plan' & Hi' & Hk).
    exists n', m', pid', plan'. split; [done|]. intros Hp.
    destruct Hk as [(w1 & Hm & Hla & Hid)|(-> & Hk)].
    + exists y, w1. rewrite Hid. by split_and!.
    + destruct (Hk Hp) as [Hp' Hid]. destruct (Hl Hp') as (y0 & w1 & H1 & H2 & H3 & H4).
      exists y0, w1. rewrite Hid. by split_and!.
Qed.
End invariant.

(** ** What a run asks for, and when it ends *)
Section run.
Context `{Launch.HashOrder} `{BuildProfile} `{PL : PlistLib} {W : Type} `{OS : Os W}
  `{TS : TunnelStack W} `{Y : Sys W} `{WC : Launch.WallClock W}.
Implicit Types x : session W.

(** C35. However the threads interleave, the requests on the two connections are
    those of the stages, in their order and with their arguments - the session
    identifier of the run, the channels granted, the process - each made only after
    the one before has succeeded.  Every request after the first five is made once the
    runner has been launched, with that same session identifier, and the process that
    is authorized is the one that this launch has returned.  Besides these there is at
    most one request to start the test plan, once all four requests of the first
    connection have succeeded.  When [run] returns a verdict, all have been made and
    have succeeded. *)
Theorem run_calls_in_order t rsd apps cfg log w env x0 w' x :
  run_open t rsd apps cfg log w = (Ok (env, x0), w') → steps_from env x0 x →
  ∃ n m pid plan,
    reqs (conn1 x) = reqs_on true (session_id x) pid n ++ plan ∧
    reqs (conn2 x) = reqs_on false (session_id x) pid n ∧
    (m ≤ n ≤ S m)%nat ∧
    settled_upto (conn1 x) (stage_count true pid m) ∧ settled_upto (conn2 x) (stage_count false pid m) ∧
    ((5 < n)%nat → ∃ y w1, steps_from env x0 y ∧ main y = MLaunch ∧ session_id y = session_id x ∧
       launch env (session_id x) (x_world y) = (Ok pid, w1)) ∧
    (plan = [] ∨ (5 ≤ m)%nat ∧ ∃ ch, plan = [plan_req ch]) ∧
    (∀ b, main x = MDone (Ok b) → m = 8%nat).
Proof.
  intros Ho Hs. apply run_open_fresh in Ho.
  destruct (run_steps_inv _ _ _ Ho Hs) as (n & m & pid & plan & [Ha Hf Hs' Hd1 Hd2 _ _ _ Hd] & Hl).
  exists n, m, pid, plan. split_and!; try done.
  - apply main_at_le in Ha. lia.
  - apply main_at_le in Ha. lia.
  - intros Hn. apply Hl. by left.
  - destruct Hd as (H1 & H2 & H3 & H4). destruct plan as [|r [|r' plan]]; [by left| |].
    + right. split; [apply H2; intros E; by specialize (H1 E)|].
      apply Forall_inv in H4 as [ch ->]. by exists ch.
    + simpl in H3. destruct (plan_started _); lia.
  - intros b Hb. rewrite Hb in Ha. by destruct Ha as (_ & _ & ->).
Qed.

(** The result does not depend on what the runner reports. *)
Lemma run_always_passes env x0 x b : fresh x0 → steps_from env x0 x → main x = MDone (Ok b) → b = true.
Proof.
  intros Hfr Hs Hb. destruct (run_steps_inv _ _ _ Hfr Hs) as (n & m & pid & plan & [Ha _ _ _ _ _ _ _ _] & _).
  rewrite Hb in Ha. by destruct Ha as [-> _].
Qed.

(** The message that starts the plan goes to the channel -1, where nobody is,
    when the runner's message is handled before the thread that watches has seen
    its channel; and it is not sent again. *)
Lemma start_before_registration env x m c f b :
  d_pc (dispatch x) = DBusy [] → driver_invoke_chan x = -1 → archive_u64 (E:=Error) 36 = Ok b →
  queue_recv IDE_QUEUE (conn1 x) = Some (m, c) →
  on_message m (finished (dispatch x)) (plan_started (dispatch x)) = (f, true, [EStart]) →
  ∃ y, run_threads env [TDispatch; TDispatch] x = Some y ∧
    reqs (conn1 y) = reqs c ++ [plan_req (-1)] ∧ plan_started (dispatch y) = true.
Proof.
  intros Hp Hch Hb Hq Hm. unfold run_threads, step, dispatch_step. rewrite Hp, Hq. cbn [mbind option_bind].
  rewrite Hm. cbn [mbind option_bind d_pc set_dispatch dispatch run_effect]. rewrite Hb.
  eexists. split; [reflexivity|]. split; [|done].
  cbn [set_dispatch set_conn1 conn1 driver_invoke_chan]. rewrite Hch.
  unfold reqs, call_async, start. cbn [set_callers callers alloc_id set_next_id].
  rewrite fmap_app. unfold plan_req, the_arg. by rewrite Hb.
Qed.

(** *** The end of a run *)

Definition stage_rank (s : stage) : nat :=
  match s with
  | SHandshake1 => 11 | SHandshake2 => 10 | SChannel1 => 9 | SInitiate _ => 6 | SDriver => 5
  | SChannel2 _ => 2 | SControl _ _ => 1 | SAuthorize _ _ => 0
  end.
Definition call_left (t : nat) (c : DtxConn) : nat :=
  match callers c !! t with
  | Some k => pc_left k
  | None => 0
  end.
(** The turns the main thread takes at most when every wait runs out. *)
Definition main_left x : nat :=
  match main x with
  | MBegin s => 10 * stage_rank s + 9 + length (s_queue (stdio x))
  | MIn s t => 10 * stage_rank s + 4 + call_left t (conn_of s x) + length (s_queue (stdio x))
  | MRegisterIde _ => 89 + length (s_queue (stdio x))
  | MRegister0 _ => 79 + length (s_queue (stdio x))
  | MSpawn => 49 + length (s_queue (stdio x))
  | MLaunch => 39 + length (s_queue (stdio x))
  | MPoll => 3 + length (s_queue (stdio x))
  | MPollDone => 2 + length (s_queue (stdio x))
  | MFlush => 1 + length (s_queue (stdio x))
  | MDone _ => 0
  end%nat.

(** The pieces of output that may still come. *)
Definition output_left x : nat :=
  rx_size (rx (s_stream (stdio x))) + match s_pc (stdio x) with SSend _ => 1 | _ => 0 end.

Lemma next_step_left x s t r :
  main x = MIn s t → (0 < call_left t (conn_of s x))%nat →
  (main_left (set_main (next_step s r) x) < main_left x)%nat.
Proof. intros Em Hl. unfold main_left. rewrite Em. destruct s; simpl in *; lia. Qed.

Lemma drive_call_left e t c c' : drive_call e t c = Some c' → (call_left t c' < call_left t c)%nat.
Proof.
  unfold drive_call, call_left. destruct (callers c !! t) as [k|] eqn:Ek; [|done].
  assert (∀ p c0, callers c0 = callers c → callers (update_caller t (set_pc p) c0) !! t = Some (set_pc p k)) as Hu.
  { intros p c0 Hc. unfold update_caller. cbn. by rewrite list_lookup_alter_eq, Hc, Ek. }
  unfold pc_left. destruct (k_pc k) eqn:Ep; [| | |done].
  - unfold insert_waiter. rewrite Ek, Ep. destruct (k_kind k); intros [= <-]; rewrite Hu by done; simpl; lia.
  - unfold send_call. rewrite Ek, Ep. destruct (encode_call _ _ _ _ _ _) as [l|e0| |];
      [destruct (write_bytes l (writer c)) as [[u|e0| |] w]|..]; intros [= <-]; rewrite Hu by done; simpl;
      try destruct (waits (k_kind k)); lia.
  - unfold recv_timeout. rewrite Ek, Ep.
    destruct (slot k); [|case_decide; [destruct e; [|done]|]]; intros [= <-]; rewrite Hu by done; simpl; lia.
Qed.
Lemma drive_call_enabled t c k :
  callers c !! t = Some k → call_result t c = None → is_Some (drive_call true t c).
Proof.
  unfold drive_call, call_result, insert_waiter, send_call, recv_timeout. intros Ek. rewrite !Ek.
  destruct (k_pc k) eqn:Ep; rewrite ?Ep; try done; intros _.
  - destruct (k_kind k); by eexists.
  - destruct (slot k); [by eexists|]. case_decide; by eexists.
Qed.
Lemma call_left_le t c : (call_left t c ≤ 4)%nat.
Proof. unfold call_left, pc_left. repeat case_match; lia. Qed.
Lemma frame_call_left t c c' : frame c c' → (call_left t c' ≤ call_left t c)%nat.
Proof.
  intros [Hf _]. unfold call_left. destruct (callers c' !! t) as [k'|] eqn:Ek'; [|lia].
  destruct (Forall2_lookup_r _ _ _ _ _ Hf Ek') as (k & -> & _ & _ & _ & Hl & _). done.
Qed.

(** A turn of the main thread uses up some of what it has left. *)
Lemma main_begin_left x s :
  main x = MBegin s → (main_left (main_begin s x) < main_left x)%nat ∧ stdio (main_begin s x) = stdio x.
Proof.
  intros Em. unfold main_begin. fold (prepare s x).
  assert (stdio (prepare s x) = stdio x) as Es
    by (unfold prepare; destruct s; try done; by destruct (Launch.rand_uuid (x_world x)) as [[] ?]).
  destruct (begin_call (session_id (prepare s x)) s (conn_of s (prepare s x))) as [r c'].
  assert (∀ y : session W, stdio (set_conn s c' y) = stdio y) as Hset
    by (intros y; unfold set_conn; by destruct (on_first s)).
  split; [|by cbn [set_main stdio]; rewrite Hset].
  unfold main_left at 2. rewrite Em, <-Es.
  destruct r as [u|e0| |]; unfold main_left; cbn [set_main main failed stdio]; try lia.
  rewrite Hset.
  pose proof (call_left_le (length (callers (conn_of s (prepare s x))))
    (conn_of s (set_main (MIn s (length (callers (conn_of s (prepare s x))))) (set_conn s c' (prepare s x))))).
  lia.
Qed.

Lemma main_in_left x s t x' :
  main x = MIn s t → main_in true s t x = Some x' →
  (main_left x' < main_left x)%nat ∧ stdio x' = stdio x.
Proof.
  intros Em Hx. unfold main_in in Hx. destruct (call_result _ (conn_of s x)) as [r|] eqn:Er.
  - assert (0 < call_left t (conn_of s x))%nat as Hl.
    { unfold call_left, call_result in *. destruct (callers _ !! t) as [k|]; [|done].
      unfold pc_left. destruct (k_pc k); lia. }
    destruct r as [r|e0| |]; injection Hx as <-; split; try done;
      [by eapply next_step_left|unfold main_left; rewrite Em; cbn [set_main main failed]; lia..].
  - destruct (drive_call true t (conn_of s x)) as [c'|] eqn:Hc; [|done]. injection Hx as <-.
    apply drive_call_left in Hc. unfold main_left, conn_of, set_conn in *.
    destruct (on_first s) eqn:Eo; cbn [set_conn1 set_conn2 main stdio conn1 conn2]; rewrite Em, Eo;
      cbn [set_conn1 set_conn2 conn1 conn2]; (split; [lia|done]).
Qed.

Lemma main_step_left env x x' :
  main_step env true x = Some x' →
  (main_left x' + output_left x' < main_left x + output_left x)%nat.
Proof.
  assert (∀ y : session W, stdio y = stdio x → (main_left y < main_left x)%nat →
    (main_left y + output_left y < main_left x + output_left x)%nat) as Hsame.
  { intros y Hy Hl. unfold output_left. rewrite Hy. lia. }
  unfold main_step. intros Hx.
  destruct (main x) as [s|s t|ide|ide| | | | | |r] eqn:Em; [| | | | | | | | |done].
  - injection Hx as <-. apply main_begin_left in Em as [? ?]. by apply Hsame.
  - apply main_in_left in Hx as [? ?]; [|done]. by apply Hsame.
  - destruct (register_channel ide (conn1 x)); [|done]. injection Hx as <-.
    apply Hsame; [done|]. unfold main_left. rewrite Em. cbn [set_main set_conn1 main stdio]. lia.
  - destruct (register_channel 0 (conn1 x)); [|done]. injection Hx as <-.
    apply Hsame; [done|]. unfold main_left. rewrite Em. cbn [set_main set_conn1 main stdio stage_rank]. lia.
  - injection Hx as <-. unfold main_spawn.
    destruct (Archive.build_xctest_configuration_bytes _);
      (apply Hsame; [done|]; unfold main_left; rewrite Em; simpl; lia).
  - injection Hx as <-. unfold main_launch.
    destruct (launch env _ _) as [[] ?]; (apply Hsame; [done|]; unfold main_left; rewrite Em; simpl; lia).
  - injection Hx as <-. unfold main_poll, take_output.
    destruct (s_queue (stdio x)) eqn:Eq; [destruct (s_pc (stdio x)) eqn:Ep|];
      [apply Hsame; [done|]; unfold main_left; rewrite Em; simpl; rewrite ?Eq; simpl; lia..|].
    unfold output_left, main_left. rewrite Em, Eq. simpl. lia.
  - injection Hx as <-. unfold main_poll_done.
    destruct (done x); (apply Hsame; [done|]; unfold main_left; rewrite Em; simpl; lia).
  - injection Hx as <-. unfold take_output.
    destruct (s_queue (stdio x)) eqn:Eq.
    + apply Hsame; [done|]. unfold main_left. rewrite Em. simpl. lia.
    + unfold output_left, main_left. simpl. rewrite Em, Eq. simpl. lia.
Qed.

(** The other threads give it nothing more to do, but for the output that comes. *)
Lemma calls_left x x' :
  main x' = main x → stdio x' = stdio x →
  (∀ s t, main x = MIn s t → (call_left t (conn_of s x') ≤ call_left t (conn_of s x))%nat) →
  (main_left x' + output_left x' ≤ main_left x + output_left x)%nat.
Proof.
  intros Hm Hs Hc. unfold output_left, main_left. rewrite Hm, Hs. destruct (main x) as [|s t| | | | | | | |]; try lia.
  specialize (Hc s t eq_refl). lia.
Qed.
Lemma frames_left x x' :
  main x' = main x → stdio x' = stdio x → frame (conn1 x) (conn1 x') → frame (conn2 x) (conn2 x') →
  (main_left x' + output_left x' ≤ main_left x + output_left x)%nat.
Proof.
  intros Hm Hs F1 F2. apply calls_left; [done|done|]. intros s t _. unfold conn_of.
  destruct (on_first s); by apply frame_call_left.
Qed.

Lemma dispatch_step_rest x x' :
  dispatch_step x = Some x' → main x' = main x ∧ stdio x' = stdio x ∧ conn2 x' = conn2 x.
Proof.
  unfold dispatch_step. intros Hx. destruct (d_pc (dispatch x)) as [|[|e l]|]; [done| | |done].
  - destruct (queue_recv _ _) as [[msg c]|]; [|done]. cbn [mbind option_bind] in Hx.
    destruct (on_message _ _ _) as [[f s] l]. by injection Hx as <-.
  - destruct e; cbn [run_effect] in Hx; unfold after_send in Hx;
      [..|destruct (call_result t (conn1 x)) as [[]|]; [..|destruct (drive_call _ _ _)]|];
      repeat case_match; try done; by injection Hx as <-.
Qed.
Lemma stdio_step_left x x' :
  stdio_step x = Some x' → (main_left x' + output_left x' ≤ main_left x + output_left x)%nat.
Proof.
  unfold stdio_step. intros Hx. unfold output_left. destruct (s_pc (stdio x)) eqn:Ep; [| |done].
  - destruct (read 4096 (s_stream (stdio x))) as [r st] eqn:Er. injection Hx as <-.
    assert (main_left (set_stdio (MkStdio st (match r with Ok (b :: l) => SSend (b :: l) | _ => SEnded end)
      (s_queue (stdio x))) x) = main_left x) as -> by (unfold main_left; cbn [set_stdio main stdio s_queue]; by destruct (main x)).
    cbn [set_stdio stdio s_stream s_pc].
    destruct r as [l|e| |]; [|apply read_err_size in Er; lia|exfalso; unfold read in Er; repeat case_match; simplify_eq..].
    apply read_size in Er as [Hle Hlt]; [|done]. destruct l as [|b l]; [lia|]. specialize (Hlt ltac:(done)). lia.
  - destruct (output_gone x) eqn:Eg; [|destruct (lenZ (s_queue (stdio x)) <? 64); [|done]]; injection Hx as <-.
    + assert (main_left (set_stdio (MkStdio (s_stream (stdio x)) SRead (s_queue (stdio x))) x) = main_left x) as ->
        by (unfold main_left; cbn [set_stdio main stdio s_queue]; by destruct (main x)). cbn. lia.
    + assert (main_left (set_stdio (MkStdio (s_stream (stdio x)) SRead (s_queue (stdio x) ++ [l])) x) ≤
        S (main_left x))%nat; [|cbn; lia].
      unfold main_left. cbn [set_stdio main stdio s_queue]. destruct (main x);
        rewrite ?length_app; cbn [length]; unfold conn_of; cbn [set_stdio conn1 conn2]; lia.
Qed.

Lemma other_step_left env t x x' n m pid plan :
  inv x n m pid plan → step env t x = Some x' → match t with TMain _ => False | _ => True end →
  (main_left x' + output_left x' ≤ main_left x + output_left x)%nat.
Proof.
  intros Hi Hx Ht. destruct t as [e| | | | |]; [done|..]; cbn [step] in Hx.
  - destruct (reader_step (conn1 x)) as [c|] eqn:Er; [|done]. injection Hx as <-.
    apply reader_step_frame in Er. by apply frames_left.
  - destruct (reader_step (conn2 x)) as [c|] eqn:Er; [|done]. injection Hx as <-.
    apply reader_step_frame in Er. by apply frames_left.
  - unfold watch_step in Hx. destruct (watcher x); [|done].
    destruct (queue_recv ZERO_QUEUE (conn1 x)) as [[msg c]|] eqn:Eq; [|done].
    cbn [mbind option_bind] in Hx. injection Hx as <-. apply queue_recv_frame in Eq.
    destruct (driver_code msg) as [code|]; [case_match|]; apply frames_left; try done.
    cbn. etrans; [done|apply drop_queue_frame].
  - apply dispatch_step_rest in Hx as Hrest. destruct Hrest as (Em & Es & E2). apply calls_left; [done|done|].
    intros s u Hin. destruct (inv_dispatch _ _ _ _ _ Hi) as (_ & Hd & _).
    pose proof (inv_at _ _ _ _ _ Hi) as Ha. rewrite Hin in Ha. destruct Ha as (Hst & _ & _).
    assert (5 ≤ m)%nat as Hm.
    { apply Hd. intros Hn. unfold dispatch_step in Hx. by rewrite Hn in Hx. }
    assert (on_first s = false) as Hf.
    { destruct m as [|[|[|[|[|[|[|[|m]]]]]]]]; try lia; [..|done]; by injection Hst as <-. }
    unfold conn_of. rewrite Hf, E2. lia.
  - by eapply stdio_step_left.
Qed.

(** Where a turn is not possible. *)
Lemma main_step_ready env x n m pid plan :
  inv x n m pid plan →
  (∃ r, main x = MDone r) ∨ is_Some (main_step env true x) ∨
  (∃ ide, main x = MRegisterIde ide ∨ main x = MRegister0 ide) ∧ dispatchers_locked (conn1 x) = true.
Proof.
  intros [Ha Hf Hs _ _ _ _ _ _]. unfold main_step.
  destruct (main x) as [s|s t|ide|ide| | | | | |r] eqn:Em; [| | | | | | | | |left; by eexists]; right;
    try (left; by eexists).
  - left. destruct Ha as (Hst & -> & ->). unfold main_in.
    assert (∃ k, callers (conn_of s x) !! stage_count (on_first s) pid m = Some k) as [k Hk].
    { apply lookup_lt_is_Some_2. rewrite length_reqs. unfold conn_of.
      destruct (on_first s) eqn:Eo; rewrite ?Hf, ?Hs, ?length_app, length_reqs_on,
        (stage_count_S _ _ _ s), Eo by done; rewrite decide_True by done; lia. }
    destruct (call_result _ (conn_of s x)) as [r|] eqn:Er; [destruct r; by eexists|].
    destruct (drive_call_enabled _ _ _ Hk Er) as [c' Hc]. rewrite Hc. by eexists.
  - unfold register_channel. destruct (dispatchers_locked (conn1 x)); [right; eauto|left; by eexists].
  - unfold register_channel. destruct (dispatchers_locked (conn1 x)); [right; eauto|left; by eexists].
Qed.

(** The turns of the main thread among the steps of all. *)
Fixpoint main_turns (l : list thread) : nat :=
  match l with
  | [] => 0
  | TMain _ :: l => S (main_turns l)
  | _ :: l => main_turns l
  end.

(** C33. Once the deadlines of its waits have passed, [run] comes to its end.  From any
    state the threads can bring about, and however they interleave from then on, the
    main thread takes no more than [main_left + output_left] turns: at most 119 for the
    calls and waits of a run, one for each piece of output in its queue, one for each
    piece that the socket of the runner can still give.  At any time it either has
    returned, or can take its next turn, or is about to register a queue while the
    reader of the first connection holds the lock.  (The turn that launches the runner
    is one turn, whatever time the application service takes for it, which has no
    deadline of its own.) *)
Theorem run_ends t rsd apps cfg log w env x0 w' x l y :
  run_open t rsd apps cfg log w = (Ok (env, x0), w') → steps_from env x0 x →
  run_threads env l x = Some y → TMain false ∉ l →
  (main_turns l + main_left y + output_left y ≤ main_left x + output_left x)%nat ∧
  ((∃ r, main y = MDone r) ∨ is_Some (step env (TMain true) y) ∨
   (∃ ide, main y = MRegisterIde ide ∨ main y = MRegister0 ide) ∧ dispatchers_locked (conn1 y) = true).
Proof.
  intros Ho Hs. apply run_open_fresh in Ho.
  destruct (run_steps_inv _ _ _ Ho Hs) as (n & m & pid & plan & Hi & _). clear Ho Hs.
  revert x n m pid plan Hi. induction l as [|a l IH]; intros x n m pid plan Hi Hr Hl; cbn [run_threads] in Hr.
  - injection Hr as <-. split; [cbn; lia|]. by eapply main_step_ready.
  - destruct (step env a x) as [x1|] eqn:Hst; [|done]. cbn [mbind option_bind] in Hr.
    apply not_elem_of_cons in Hl as [Ha Hl].
    destruct (inv_step env _ _ _ _ _ _ _ Hi Hst) as (n' & m' & pid' & plan' & Hi' & _).
    destruct (IH x1 n' m' pid' plan' Hi' Hr Hl) as [Hle Hready]. split; [|done].
    destruct a as [[]| | | | |]; [apply main_step_left in Hst; cbn [main_turns]; lia|done|..];
      (eapply other_step_left in Hst; [|exact Hi|done]; cbn [main_turns]; lia).
Qed.
End run.

(** ** A run against a scripted device *)
Module Demo.
Import ToyTunnel.
#[local] Existing Instance debug_profile.
#[local] Existing Instance BitPlist.lib.

Definition order : Launch.HashOrder := λ _ l, l.
#[local] Existing Instance order.
Definition clock : Launch.WallClock world := λ w, (now w, set_now (now w + 1) w).
#[local] Existing Instance clock.
(** The stack connects to the services of the script, in their order. *)
Definition stacks : TunnelStack world := {|
  stack := TunnelParams;
  stack_params p := p;
  stack_new c := sret (params c);
  stack_new_stream _ p := sret p;
  stack_connect _ _ _ := smap_err Io (on_script Script.next)
|}.
#[local] Existing Instance stacks.

Definition archived (v : pval) : list byte :=
  match archive_primitive (E:=Error) v with Ok l => l | _ => [] end.
Definition dtx_reply (id : Z) : rd_event := RData (encode_raw id 1 0 false Reply [] []).
Definition dtx_call (id ch : Z) (sel : string) (args : list AuxValue) : rd_event :=
  RData (encode_raw id 0 ch true MethodInvoke args (archived (PString sel))).

Definition first_says : stream := idle [
  dtx_reply 6; dtx_reply 7; dtx_reply 8;
  dtx_call 1 0 "_requestChannelWithCode:identifier:" [AInt32 9; ABytes (archived (PString "dtxproxy:XCTestDriverInterface"))];
  dtx_call 2 1 "_XCT_logDebugMessage:" [ABytes (archived (PString "requesting ready for testing"))];
  dtx_call 3 1 "_XCT_didFinishExecutingTestPlan" []].
Definition second_says : stream := idle [dtx_reply 6; dtx_reply 7; dtx_reply 8].

Definition launched : Xpc.Value :=
  Xpc.Dictionary [("CoreDevice.output", Xpc.Dictionary [("processToken",
    Xpc.Dictionary [("processIdentifier", Xpc.Int64 321)])])]%string.
Definition appservice_says : stream := idle [
  RData (H2.raw_bytes (H2.Raw H2.TYPE_SETTINGS 0 0 []));
  RData (H2.raw_bytes (H2.Raw H2.TYPE_DATA 0 1
    (match Xpc.encode_message (E:=H2.Error) (Xpc.reply 1 launched) with Ok l => l | _ => [] end)))].

Definition device : world :=
  World (Script.World (inr <$> [
    idle [RData (replicate 16 x07); RData (bytes_of "Test passed")]; idle [];
    first_says; idle []; second_says; idle []; appservice_says; idle []])) 1000 (idle []).

Definition config : RunConfig :=
  MkRunConfig "" "" "com.example.runner" "Tests.xctest" [] [] false true [].
Definition runner_entry : Rsd.ServiceEntry :=
  Rsd.MkServiceEntry 0 false [("Path"%string, Xpc.VString "/private/Runner.app")].
Definition catalogue : Rsd.RsdClient :=
  Rsd.MkRsdClient (RemoteXpc.MkConn (idle []) [] 1) (Rsd.MkPeerInfo "" "" "" "")
    ((λ s, (s, Rsd.MkServiceEntry 5 true [])) <$>
     ["com.apple.dt.testmanagerd.remote"; "com.apple.coredevice.appservice";
      "com.apple.coredevice.openstdiosocket"]%string).

Definition opened : outcome Version.Error (setting * session world) * world :=
  run_open (MkTunnelParams [1] [2] 58783 1280) catalogue [("com.example.runner"%string, runner_entry)]
    config (idle []) device.

(** Calls and their replies in turn; then the runner's messages and its output. *)
Definition mains (n : nat) : list thread := replicate n (TMain false).
Definition answered (r : thread) : list thread := mains 3 ++ [r; r] ++ mains 2.
Definition schedule : list thread :=
  mains 8 ++ answered TReader1 ++ mains 2 ++ answered TReader1 ++ answered TReader1 ++ mains 2
  ++ answered TReader2 ++ answered TReader2 ++ answered TReader2
  ++ replicate 12 TReader1 ++ [TWatch] ++ replicate 12 TDispatch ++ [TStdio; TStdio] ++ mains 4.

(** As many steps as can be taken. *)
Fixpoint run_on (env : setting) (l : list thread) (x : session world) : session world :=
  match l with
  | [] => x
  | t :: l => run_on env l (default x (step env t x))
  end.
Lemma run_on_steps env l x : steps_from env x (run_on env l x).
Proof.
  assert (∀ x y, steps_from env x y → steps_from env x (run_on env l y)) as H; [|apply H; constructor].
  induction l as [|t l IH]; intros y z Hz; [done|]. cbn [run_on]. apply IH.
  destruct (step env t z) eqn:E; [by econstructor|done].
Qed.

Definition no_setting : setting := MkSetting (MkTunnelParams [] [] 0 0) [] 0 "" [] config.
Definition no_conn : DtxConn := new_conn (idle []) (idle []).
Definition no_session : session world :=
  MkSession device no_conn no_conn MSpawn [] 0 false (MkDispatcher DNone [] false false) false
    (MkStdio (idle []) SRead []) (idle []).
Definition env : setting := match opened.1 with Ok (e, _) => e | _ => no_setting end.
Definition begun : session world := match opened.1 with Ok (_, x) => x | _ => no_session end.
Definition ended : session world := run_on env schedule begun.

Lemma opened_ok : opened = (Ok (env, begun), opened.2).
Proof.
  assert (is_ok opened.1 = true) as H by (vm_compute; reflexivity).
  unfold env, begun. by destruct opened as [[[e x]| | |] w].
Qed.
Lemma ended_passed : main ended = MDone (Ok true).
Proof. vm_compute. reflexivity. Qed.
End Demo.

Section witnesses.
Import ToyTunnel Demo.
#[local] Existing Instance debug_profile.
#[local] Existing Instance BitPlist.lib.
#[local] Existing Instance order.
#[local] Existing Instance clock.
#[local] Existing Instance stacks.

Lemma run_calls_in_order_witness :
  main ended = MDone (Ok true) ∧
  ∃ pid plan, reqs (conn1 ended) = reqs_on true (session_id ended) pid 8 ++ plan.
Proof.
  split; [exact ended_passed|].
  destruct (run_calls_in_order _ _ _ _ _ _ _ _ _ ended opened_ok (run_on_steps env schedule begun))
    as (n & m & pid & plan & Hf & _ & Hnm & _ & _ & _ & _ & Hb).
  exists pid, plan. pose proof (Hb true ended_passed) as ->.
  assert (n = 8 ∨ n = 9)%nat as [->| ->] by lia; exact Hf.
Defined.

Lemma run_ends_witness :
  ∃ y, run_threads env (replicate 8 (TMain true)) begun = Some y ∧
  (8 + main_left y + output_left y ≤ main_left begun + output_left begun)%nat ∧
  ((∃ r, main y = MDone r) ∨ is_Some (step env (TMain true) y) ∨
   (∃ ide, main y = MRegisterIde ide ∨ main y = MRegister0 ide) ∧ dispatchers_locked (conn1 y) = true).
Proof.
  assert (is_Some (run_threads env (replicate 8 (TMain true)) begun)) as [y Hy] by (vm_compute; by eexists).
  exists y. split; [exact Hy|].
  apply (run_ends _ _ _ _ _ _ env begun _ begun (replicate 8 (TMain true)) y opened_ok); [constructor|exact Hy|].
  cbn. repeat (apply not_elem_of_cons; split; [discriminate|]). apply not_elem_of_nil.
Defined.
End witnesses.
