(* ===== verification/Mounter.v ===== *)
(** * Mounting the developer disk image ([src/bin/ios/cmd/mounter.rs])

    The image is fetched from the cache, the local CoreDevice files or the
    network, a ticket is taken from the device or from Apple's signing server,
    and the image is sent to the device and mounted.  The hash, HTTP, processes
    and the existence of files are the class [MountEnv]. *)

From S2P Require Import Prelude RustStd Text Io Plist Os Version CdTunnel Tunnel.
From S2P Require RpCredentials Lockdown DeviceSession Daemon Cli.

Abbreviation anyhow := Daemon.anyhow.

Class MountEnv (W : Type) := {
  sha384 : list byte → list byte;
  path_exists : string → W → bool;
  (** a process that has ended: whether it succeeded, and its standard error *)
  command : string → list string → ST W io_error (bool * list byte);
  (** the body of the answer *)
  http_get : string → ST W message stream;
  http_post : string → list (string * string) → list byte → ST W message stream
}.

Definition SHIM : string := "com.apple.mobile.mobile_image_mounter.shim.remote".
Definition DDI_REPO : string := "doronz88/DeveloperDiskImage".
Definition DDI_IMAGE : string := "PersonalizedImages/Xcode_iOS_DDI_Personalized/Image.dmg".
Definition DDI_MANIFEST : string := "PersonalizedImages/Xcode_iOS_DDI_Personalized/BuildManifest.plist".
Definition DDI_TRUSTCACHE : string :=
  "PersonalizedImages/Xcode_iOS_DDI_Personalized/Image.dmg.trustcache".

(** [plist_dict!] *)
Definition plist_dict (kvs : list (string * pval)) : pval := PDict (dict kvs).
(** [v.as_dictionary().and_then(|d| d.get(k))] *)
Definition pget (k : string) (v : pval) : option pval := as_dictionary v ≫= dget k.
Definition bail {A} (t : string) : outcome anyhow A := Err [msg0 t].

(** ** Messages *)
Section messages.
Context `{PL : PlistLib}.

Definition send_plist (v : pval) : ST stream anyhow unit := Daemon.send_plist v.

Definition mt_read_exact (n : Z) : ST stream anyhow (list byte) :=
  smap_err (λ e, [Daemon.io_fmt e])
    (read_exact_retry id (IoError UnexpectedEof "failed to fill whole buffer") n).
Definition recv_plist : ST stream anyhow pval :=
  let! len_buf := mt_read_exact 4 in
  let n := be_val len_buf in
  if (n =? 0) || (64 * 1024 * 1024 <? n) then
    Cli.bail "recv_plist: implausible length {n}" [FNum n]
  else
    let! body := mt_read_exact n in
    lift (ok_or (from_bytes body) [msg0 "{e}"]).

Definition resp_image_present (resp : pval) : bool :=
  default false (pget "ImagePresent" resp ≫= as_boolean).
Definition int_from_plist (d : dictionary) (key : string) : outcome anyhow Z :=
  ok_or (dget key d ≫= as_unsigned_integer) [Msg "missing or non-integer key {key:?}" [FStr key]].
Definition status_of (v : pval) : string := default ""%string (pget "Status" v ≫= as_string).

(** ** What is asked of the device *)

Definition lookup_request (img_type : string) : pval :=
  plist_dict ["Command" =>> PString "LookupImage"; "ImageType" =>> PString img_type].
Definition manifest_request (image_sha384 : list byte) : pval :=
  plist_dict ["Command" =>> PString "QueryPersonalizationManifest";
              "PersonalizedImageType" =>> PString "DeveloperDiskImage";
              "ImageType" =>> PString "DeveloperDiskImage";
              "ImageSignature" =>> PData image_sha384].
Definition identifiers_request : pval :=
  plist_dict ["Command" =>> PString "QueryPersonalizationIdentifiers";
              "PersonalizedImageType" =>> PString "DeveloperDiskImage"].
Definition nonce_request : pval :=
  plist_dict ["Command" =>> PString "QueryNonce";
              "PersonalizedImageType" =>> PString "DeveloperDiskImage"].
Definition receive_request (image im4m : list byte) : pval :=
  plist_dict ["Command" =>> PString "ReceiveBytes";
              "ImageType" =>> PString "Personalized";
              "ImageSize" =>> PInt (swrap 64 (lenZ image));
              "ImageSignature" =>> PData im4m].
Definition mount_request (im4m trustcache : list byte) : pval :=
  plist_dict ["Command" =>> PString "MountImage";
              "ImageType" =>> PString "Personalized";
              "ImageSignature" =>> PData im4m;
              "ImageTrustCache" =>> PData trustcache].

Definition lookup_image (img_type : string) : ST stream anyhow bool :=
  send_plist (lookup_request img_type) ;;;
  let! resp := recv_plist in
  sret (resp_image_present resp).

(** The ticket the device has kept; whatever else it says, or no answer, is
    none. *)
Definition query_manifest (image_sha384 : list byte) : ST stream anyhow (option (list byte)) :=
  send_plist (manifest_request image_sha384) ;;;
  let! r := stry recv_plist in
  sret (match r with
        | inr resp => match pget "ImageSignature" resp with Some (PData b) => Some b | _ => None end
        | inl _ => None
        end).

Definition expect_status (want t : string) (v : pval) : ST stream anyhow unit :=
  if bool_decide (status_of v = want) then sret tt else Cli.bail t [FStr (status_of v)].

(** Steps 8 and 9. *)
Definition upload (image im4m : list byte) : ST stream anyhow unit :=
  send_plist (receive_request image im4m) ;;;
  let! ack := Cli.context "ReceiveBytes ack" recv_plist in
  expect_status "ReceiveBytesAck" "ReceiveBytes: unexpected status {status:?}" ack ;;;
  Daemon.ctx (msg0 "write Image.dmg") Daemon.io_fmt (write_all image) ;;;
  Daemon.any_io flush ;;;
  let! complete := Cli.context "upload complete" recv_plist in
  expect_status "Complete" "upload: unexpected status {status2:?}" complete.
Definition mount_image (im4m trustcache : list byte) : ST stream anyhow unit :=
  send_plist (mount_request im4m trustcache) ;;;
  let! resp := Cli.context "MountImage" recv_plist in
  expect_status "Complete" "MountImage: {status:?}  full: {resp:?}" resp.

(** [status], on the socket: an answer that does not come does not count. *)
Definition status_one (img_type : string) : ST stream anyhow (list (string * bool)) :=
  send_plist (lookup_request img_type) ;;;
  let! r := stry recv_plist in
  sret (match r with inr resp => [(img_type, resp_image_present resp)] | inl _ => [] end).
(** The types that were answered for, each with whether it is mounted *)
Definition query_status : ST stream anyhow (list (string * bool)) :=
  let! personalized := status_one "Personalized" in
  let! developer := status_one "Developer" in
  sret (personalized ++ developer).

(** ** The ticket request *)

Definition parse_hex_or_dec (s : string) : option Z :=
  let s := bytes_of (trim s) in
  match s with
  | "0"%byte :: "x"%byte :: l | "0"%byte :: "X"%byte :: l => from_str_radix 64 16 l
  | _ => from_str_radix 64 10 s
  end.

Definition number_at (k : string) (v : pval) : option Z :=
  x ← pget k v; s ← as_string x; parse_hex_or_dec s.
(** The identity of the manifest for a board and a chip. *)
Definition identity_matches (board_id chip_id : Z) (v : pval) : bool :=
  bool_decide (number_at "ApBoardID" v = Some board_id)
  && bool_decide (number_at "ApChipID" v = Some chip_id).
Definition find_identity (identities : list pval) (board_id chip_id : Z) : option pval :=
  find (identity_matches board_id chip_id) identities.

(** Not random: the bits of the two identifiers. *)
Definition tss_uuid (ecid chip_id : Z) : string :=
  let b i := byte_of (Z.lxor (Z.shiftr ecid (Z.of_nat i mod 8)) (Z.shiftr chip_id (Z.of_nat i mod 4))) in
  let X l := concat (hex02 true <$> reverse (b <$> l)) in
  string_of (X [0; 1; 2; 3] ++ ["-"%byte] ++ X [4; 5] ++ ["-"%byte] ++ X [6; 7] ++ ["-"%byte]
             ++ X [8; 9] ++ ["-"%byte] ++ X [10; 11; 12; 13; 14; 15])%nat.

Definition condition_met (kv : string * pval) : bool :=
  if bool_decide (kv.1 ∈ ["ApRawProductionMode"; "ApCurrentProductionMode"; "ApRawSecurityMode";
                          "ApRequiresImage4"]%string)
  then bool_decide (as_boolean kv.2 = Some true) else true.
Definition insert_all (d kvs : dictionary) : dictionary :=
  foldl (λ d kv, al_insert kv.1 kv.2 d) d kvs.

Definition apply_rule (entry : dictionary) (rule : pval) : dictionary :=
  match as_dictionary rule with
  | None => entry
  | Some rule =>
      let all_met := match dget "Conditions" rule ≫= as_dictionary with
                     | Some conds => forallb condition_met conds
                     | None => true
                     end in
      match dget "Actions" rule ≫= as_array with
      | Some actions =>
          if all_met then
            foldl (λ e a, match as_dictionary a with Some d => insert_all e d | None => e end) entry actions
          else entry
      | None => entry
      end
  end.
Definition apply_restore_request_rules (entry : dictionary) (rules : list pval) : dictionary :=
  foldl apply_rule entry rules.

(** What is sent for a component of the manifest; only trusted ones are. *)
Definition tss_entry (component : string) (entry_val : pval) : option dictionary :=
  if bool_decide (component = "Info"%string) then None
  else
    entry ← as_dictionary entry_val;
    if default false (dget "Trusted" entry ≫= as_boolean) then
      let e := match dget "Digest" entry with
               | Some digest => al_insert "Digest"%string digest []
               | None => []
               end in
      let e := al_insert "Trusted"%string (PBool true) e in
      let rules := (info ← dget "Info" entry; rules ← pget "RestoreRequestRules" info; as_array rules) in
      Some (match rules with Some rules => apply_restore_request_rules e rules | None => e end)
    else None.

Definition starts_with (p s : string) : bool :=
  bool_decide (is_Some (strip_prefix (bytes_of p) (bytes_of s))).

Definition tss_base (board_id chip_id ecid : Z) (nonce : list byte) : dictionary :=
  dict ["@HostPlatformInfo" =>> PString "mac";
        "@VersionInfo" =>> PString "libauthinstall-1104.0.9";
        "@UUID" =>> PString (tss_uuid ecid chip_id);
        "@ApImg4Ticket" =>> PBool true;
        "@BBTicket" =>> PBool true;
        "ApBoardID" =>> PInt (swrap 64 board_id);
        "ApChipID" =>> PInt (swrap 64 chip_id);
        "ApECID" =>> PInt (swrap 64 ecid);
        "ApNonce" =>> PData nonce;
        "ApSecurityDomain" =>> PInt 1;
        "ApProductionMode" =>> PBool true;
        "ApSecurityMode" =>> PBool true;
        "SepNonce" =>> PData (replicate 20 x00);
        "UID_MODE" =>> PBool false].

Definition tss_body (board_id chip_id ecid : Z) (nonce : list byte) (ids manifest_entries : dictionary) :
    dictionary :=
  let req := tss_base board_id chip_id ecid nonce in
  let req := insert_all req (filter (λ kv, starts_with "Ap," kv.1 = true) ids) in
  foldl (λ req kv, match tss_entry kv.1 kv.2 with
                   | Some e => al_insert kv.1 (PDict e) req
                   | None => req
                   end) req manifest_entries.

(** The request for a manifest. *)
Definition tss_request_body (manifest_bytes : list byte) (board_id chip_id ecid : Z) (nonce : list byte)
    (ids : dictionary) : outcome anyhow (list byte) :=
  let? mfst := ok_or (from_bytes manifest_bytes) [msg0 "parse BuildManifest.plist"; msg0 "{e}"] in
  let? identities := ok_or (pget "BuildIdentities" mfst ≫= as_array)
                       [msg0 "no BuildIdentities in manifest"] in
  let? identity := ok_or (find_identity identities board_id chip_id)
                     [Msg "no BuildIdentity for board_id={board_id:#x} chip_id={chip_id:#x}"
                        [FHex board_id; FHex chip_id]] in
  let? entries := ok_or (pget "Manifest" identity ≫= as_dictionary)
                    [msg0 "no Manifest in BuildIdentity"] in
  ok_or (to_writer_xml (PDict (tss_body board_id chip_id ecid nonce ids entries))) [msg0 "{e}"].

(** [s.split(p).nth(1)] *)
Fixpoint after_first (p l : list byte) : option (list byte) :=
  match strip_prefix p l with
  | Some rest => Some rest
  | None => match l with [] => None | _ :: l => after_first p l end
  end.
Fixpoint before_first (p l : list byte) : list byte :=
  match strip_prefix p l with
  | Some _ => []
  | None => match l with [] => [] | b :: l => b :: before_first p l end
  end.
Definition split_nth1 (p l : list byte) : option (list byte) := before_first p <$> after_first p l.

Definition tss_ticket (resp_body : string) : outcome anyhow (list byte) :=
  let? plist_str := ok_or (split_nth1 (bytes_of "REQUEST_STRING=") (bytes_of resp_body))
                      [Msg "TSS response missing REQUEST_STRING: {resp_body}" [FStr resp_body]] in
  let? v := ok_or (from_bytes plist_str) [msg0 "parse TSS response plist"; msg0 "{e}"] in
  match pget "ApImg4Ticket" v with
  | Some (PData b) => Ok b
  | _ => Err [msg0 "no ApImg4Ticket in TSS response"]
  end.
End messages.

(** [read_to_end] and [read_to_string]; a read that is interrupted is tried
    again. *)
Fixpoint read_to_end (evs : list rd_event) : outcome io_error (list byte) :=
  match evs with
  | [] => Ok []
  | RData [] :: _ => Ok []
  | RData c :: evs => let? l := read_to_end evs in Ok (c ++ l)
  | RFail e :: evs => if decide (kind e = Interrupted) then read_to_end evs else Err e
  end.
Definition read_to_string (evs : list rd_event) : outcome io_error string :=
  let? l := read_to_end evs in
  ok_or (from_utf8 l) (IoError InvalidData "stream did not contain valid UTF-8").

Section mounter.
Context `{BuildProfile} `{PL : PlistLib} `{T : Lockdown.Tls} `{SJ : CdTunnel.SerdeJson}
  {W : Type} `{OS : Os W} `{TS : TunnelStack W} `{Y : Sys W} `{FS : RpCredentials.Files W}
  `{ME : MountEnv W}.
(** [cfg(target_os = "macos")] *)
Context (macos : bool).

(** ** The files of the image *)

Definition dirs_or_home : string :=
  let home := getenv "HOME" in
  if macos then
    match home with
    | Some h => path_join (path_join h "Library") "Caches"
    | None => "/tmp"
    end
  else
    match getenv "XDG_CACHE_HOME" with
    | Some d => d
    | None => match home with Some h => path_join h ".cache" | None => "/tmp" end
    end.
Definition cache_dir : string := path_join (path_join dirs_or_home "ios-rs") "ddi".

Definition fs_read (p : string) : ST W anyhow (list byte) := Daemon.any_io (RpCredentials.file_read p).
Definition fs_write (p : string) (l : list byte) : ST W anyhow unit :=
  Daemon.any_io (RpCredentials.file_write p l).
Definition exists_ {E} (p : string) : ST W E bool := λ w, (Ok (path_exists p w), w).

(** [GET {url}], read to its end. *)
Definition github_download (repo path : string) : ST W anyhow (list byte) :=
  let url := ("https://raw.githubusercontent.com/" ++ repo ++ "/refs/heads/main/" ++ path)%string in
  let! body := Daemon.ctx (Msg "GET {url}" [FStr url]) id (http_get url) in
  lift (omap_err (λ e, [Daemon.io_fmt e]) (read_to_end (rx body))).

Definition mount_point : string := "/tmp/ios-rs-ddi-extract".
Definition CORE_DEVICE_DDI : string := "/Library/Developer/CoreDevice/CandidateDDIs/iOS_DDI.dmg".

(** The path of a component in the manifest. *)
Definition component_path (entries : dictionary) (component : string) : option string :=
  c ← dget component entries; info ← pget "Info" c; p ← pget "Path" info; as_string p.

Definition read_extracted : ST W anyhow (list byte * list byte * list byte) :=
  let restore := path_join mount_point "Restore" in
  let! manifest_bytes := Cli.context "read BuildManifest.plist"
                           (fs_read (path_join restore "BuildManifest.plist")) in
  let! manifest := lift (ok_or (from_bytes manifest_bytes) [msg0 "parse BuildManifest.plist"; msg0 "{e}"]) in
  let! identity := lift (ok_or (l ← pget "BuildIdentities" manifest ≫= as_array; head l)
                           [msg0 "no BuildIdentities"]) in
  let! entries := lift (ok_or (pget "Manifest" identity ≫= as_dictionary)
                          [msg0 "no Manifest in BuildIdentity"]) in
  let! img_rel := lift (ok_or (component_path entries "PersonalizedDMG")
                          [msg0 "no PersonalizedDMG/Info/Path"]) in
  let! tc_rel := lift (ok_or (component_path entries "LoadableTrustCache")
                         [msg0 "no LoadableTrustCache/Info/Path"]) in
  let! image_bytes := Cli.context "read PersonalizedDMG" (fs_read (path_join restore img_rel)) in
  let! trustcache_bytes := Cli.context "read trustcache" (fs_read (path_join restore tc_rel)) in
  sret (image_bytes, manifest_bytes, trustcache_bytes).

(** The volume is detached whether or not the files could be read. *)
Definition extract_from_core_device_ddi (ddi_path : string) :
    ST W anyhow (list byte * list byte * list byte) :=
  signore (command "hdiutil" ["detach"; mount_point; "-quiet"; "-force"]%string) ;;;
  let! (success, stderr) := Daemon.ctx (msg0 "hdiutil attach") Daemon.io_fmt
    (command "hdiutil" ["attach"; ddi_path; "-readonly"; "-mountpoint"; mount_point; "-quiet";
                        "-nobrowse"]%string) in
  if negb success then Cli.bail "hdiutil attach failed: {}" [FStr (from_utf8_lossy stderr)]
  else
    let! result := stry read_extracted in
    signore (command "hdiutil" ["detach"; mount_point; "-quiet"]%string) ;;;
    match result with inr files => sret files | inl e => sfail e end.

Definition download_files (img_path mfst_path tc_path : string) :
    ST W anyhow (list byte * list byte * list byte) :=
  let! manifest_bytes := Cli.context "download BuildManifest.plist" (github_download DDI_REPO DDI_MANIFEST) in
  fs_write mfst_path manifest_bytes ;;;
  let! image_bytes := Cli.context "download Image.dmg" (github_download DDI_REPO DDI_IMAGE) in
  fs_write img_path image_bytes ;;;
  let! trustcache_bytes := Cli.context "download Image.dmg.trustcache"
                             (github_download DDI_REPO DDI_TRUSTCACHE) in
  fs_write tc_path trustcache_bytes ;;;
  sret (image_bytes, manifest_bytes, trustcache_bytes).

Definition fetch_ddi_files : ST W anyhow (list byte * list byte * list byte) :=
  let dir := cache_dir in
  Daemon.any_io (RpCredentials.file_create_dir_all dir) ;;;
  let img_path := path_join dir "Image.dmg" in
  let mfst_path := path_join dir "BuildManifest.plist" in
  let tc_path := path_join dir "Image.dmg.trustcache" in
  let! e1 := exists_ img_path in
  let! e2 := exists_ mfst_path in
  let! e3 := exists_ tc_path in
  if (e1 : bool) && (e2 : bool) && (e3 : bool) then
    let! img := fs_read img_path in
    let! mfst := fs_read mfst_path in
    let! tc := fs_read tc_path in
    sret (img, mfst, tc)
  else
    let! core := exists_ CORE_DEVICE_DDI in
    let! extracted :=
      if (core : bool) then
        let! r := stry (extract_from_core_device_ddi CORE_DEVICE_DDI) in
        sret (match r with inr files => Some files | inl _ => None end)
      else sret None in
    match extracted with
    | Some (img, mfst, tc) =>
        fs_write img_path img ;;;
        fs_write mfst_path mfst ;;;
        fs_write tc_path tc ;;;
        sret (img, mfst, tc)
    | None => download_files img_path mfst_path tc_path
    end.

(** ** The ticket *)

Definition tss_request (manifest_bytes : list byte) (board_id chip_id ecid : Z) (nonce : list byte)
    (ids : dictionary) : ST W anyhow (list byte) :=
  let! body := lift (tss_request_body manifest_bytes board_id chip_id ecid nonce ids) in
  let! resp := Daemon.ctx (msg0 "TSS POST") id
    (http_post "http://gs.apple.com/TSS/controller?action=2"
       [("Content-Type"%string, string_of (bytes_of "text/xml; charset=" ++ [x22] ++ bytes_of "utf-8" ++ [x22]));
        ("User-Agent", "InetURL/1.0"); ("Cache-Control", "no-cache")]%string body) in
  let! text := lift (omap_err (λ e, [Daemon.io_fmt e]) (read_to_string (rx resp))) in
  lift (tss_ticket text).

(** The world, the session, and the socket of the service. *)
Definition mstate : Type := (W * DeviceSession.DeviceSession) * stream.
Definition on_world {E A} (m : ST W E A) : ST mstate E A := on_outer (on_outer m).
Definition on_sock {A} (m : ST stream anyhow A) : ST mstate anyhow A := on_local m.
Definition on_lockdown {E A} (m : ST Lockdown.LockdownSession E A) : ST mstate E A :=
  on_outer (on_local (zoom DeviceSession.ds_lockdown Cli.set_lockdown m)).

(** [*sock = session.connect_rsd_shim(..).context(t)?] *)
Definition connect_shim (t : string) : ST mstate anyhow unit :=
  let! st := sget in
  let! sock := on_world (Daemon.ctx (msg0 t) Version.Error_fmt
                           (DeviceSession.connect_rsd_shim st.1.2 SHIM)) in
  smodify (λ st : mstate, (st.1, mux_stream sock)).

Definition tss_flow (manifest_bytes : list byte) : ST mstate anyhow (list byte) :=
  on_sock (send_plist identifiers_request) ;;;
  let! resp_ids := on_sock (Cli.context "QueryPersonalizationIdentifiers" recv_plist) in
  let! ids := lift (ok_or (pget "PersonalizationIdentifiers" resp_ids ≫= as_dictionary)
                      [msg0 "no PersonalizationIdentifiers in response"]) in
  let! board_id := lift (int_from_plist ids "BoardId") in
  let! chip_id := lift (int_from_plist ids "ChipID") in
  on_sock (send_plist nonce_request) ;;;
  let! resp_nonce := on_sock (Cli.context "QueryNonce" recv_plist) in
  let! nonce := lift (match pget "PersonalizationNonce" resp_nonce with
                      | Some (PData b) => Ok b
                      | _ => bail "no PersonalizationNonce"
                      end) in
  let! chip := on_lockdown (Daemon.ctx (msg0 "get UniqueChipID") Lockdown.Error_fmt
                              (Lockdown.get_value None "UniqueChipID")) in
  let! ecid := lift (ok_or (as_unsigned_integer chip) [msg0 "UniqueChipID not integer"]) in
  let! im4m := on_world (Cli.context "TSS request"
                 (tss_request manifest_bytes board_id chip_id ecid nonce ids)) in
  connect_shim "reconnect mounter shim (post-TSS)" ;;;
  sret im4m.

(** ** The commands *)

Definition obtain_ticket (manifest_bytes image_sha384 : list byte) : ST mstate anyhow (list byte) :=
  let! cached := on_sock (query_manifest image_sha384) in
  match cached with
  | Some b => sret b
  | None => connect_shim "reconnect mounter shim" ;;; tss_flow manifest_bytes
  end.

(** From the open socket on; whether there was anything to do. *)
Definition mount_on (image manifest trustcache : list byte) : ST mstate anyhow bool :=
  let! present := on_sock (lookup_image "Personalized") in
  if (present : bool) then sret false
  else
    let! im4m := obtain_ticket manifest (sha384 image) in
    on_sock (upload image im4m) ;;;
    on_sock (mount_image im4m trustcache) ;;;
    sret true.

(** The result and the socket as it is at the end. *)
Definition mount (udid : option string) : ST W anyhow (bool * stream) :=
  let! session := Cli.open_session udid RsdMode in
  let! files := Cli.context "download DDI files" fetch_ddi_files in
  let '(image, manifest, trustcache) := files in
  let! socket := Daemon.ctx (msg0 "connect mounter shim") Version.Error_fmt
                   (DeviceSession.connect_rsd_shim session SHIM) in
  λ w, match mount_on image manifest trustcache ((w, session), mux_stream socket) with
       | (Ok b, ((w, _), s)) => (Ok (b, s), w)
       | (Err e, ((w, _), _)) => (Err e, w)
       | (Panic, ((w, _), _)) => (Panic, w)
       | (OutOfFuel, ((w, _), _)) => (OutOfFuel, w)
       end.

Definition status (udid : option string) : ST W anyhow (list (string * bool)) :=
  let! session := Cli.open_session udid RsdMode in
  let! sock := Daemon.ctx (msg0 "connect mounter shim") Version.Error_fmt
                 (DeviceSession.connect_rsd_shim session SHIM) in
  let! (answers, _) := srun query_status (mux_stream sock) in
  sret answers.
End mounter.

(** ** Exchanges *)

Notation frame := Lockdown.ld_frame.

Section exchange.
Context `{LW : PlistLaws}.

(** An answer of a length that is accepted. *)
Definition answer_ok (v : pval) : Prop := plain v = true ∧ 0 < lenZ (xml v) ≤ 64 * 1024 * 1024.

Lemma mt_send_plist_ok v k : Lockdown.ld_ok v → healthy k → send_plist v k = (Ok tt, append_tx (frame v) k).
Proof.
  intros [Hv Hlen] Hk. unfold send_plist, Daemon.send_plist, Daemon.any_io.
  rewrite (to_writer_xml_plain _ Hv). erewrite sbind_ok by reflexivity.
  erewrite sbind_ok by (apply smap_err_ok, write_all_healthy, Hk).
  erewrite sbind_ok by (apply smap_err_ok, write_all_healthy; exact Hk).
  erewrite smap_err_ok by (apply flush_healthy; exact Hk).
  rewrite append_tx_app. pose proof (lenZ_nonneg (xml v)). unfold frame.
  by rewrite wrap_small by (unfold in_u; lia).
Qed.

Lemma mt_recv_plist_ok v k l r :
  answer_ok v → delivers (rx k) (frame v ++ l) r →
  ∃ r1, recv_plist k = (Ok v, set_rx r1 k) ∧ delivers r1 l r.
Proof.
  intros [Hv Hlen] Hd. unfold frame in Hd. rewrite <-(assoc_L (++)) in Hd.
  unfold recv_plist, mt_read_exact.
  match goal with |- context [read_exact_retry ?w ?e 4] =>
    destruct (read_exact_retry_delivers w e 4 k _ _ r Hd) as (r1 & Hr1 & Hd1); [len|];
    destruct (read_exact_retry_delivers w e (lenZ (xml v)) (set_rx r1 k) _ _ r Hd1) as (r2 & Hr2 & Hd2); [done|]
  end.
  exists r2. split; [|done]. erewrite sbind_ok by (apply smap_err_ok; exact Hr1).
  rewrite be_val_be_bytes_small by (unfold in_u; lia).
  rewrite (proj2 (Z.eqb_neq _ 0)), (proj2 (Z.ltb_ge _ _)) by lia. cbn [orb].
  erewrite sbind_ok by (apply smap_err_ok; exact Hr2). by rewrite from_bytes_xml.
Qed.

(** A request and the answer to it. *)
Lemma exchange_ok v a k l r :
  Lockdown.ld_ok v → answer_ok a → healthy k → delivers (rx k) (frame a ++ l) r →
  ∃ r1, (∀ B (f : pval → ST stream anyhow B), (send_plist v ;;; (let! x := recv_plist in f x)) k
           = f a (append_tx (frame v) (set_rx r1 k))) ∧ delivers r1 l r.
Proof.
  intros Hv Ha Hk Hd. destruct (mt_recv_plist_ok a (append_tx (frame v) k) l r Ha Hd) as (r1 & Hr & Hd1).
  exists r1. split; [|done]. intros B f. erewrite sbind_ok by (by apply mt_send_plist_ok).
  by erewrite sbind_ok by exact Hr.
Qed.

Lemma expect_status_ok want t v k :
  status_of v = want → expect_status want t v k = (Ok tt, k).
Proof. intros <-. unfold expect_status. by rewrite bool_decide_true. Qed.

Lemma upload_ok image im4m a1 a2 k l r :
  Lockdown.ld_ok (receive_request image im4m) → answer_ok a1 → answer_ok a2 → healthy k →
  status_of a1 = "ReceiveBytesAck"%string → status_of a2 = "Complete"%string →
  delivers (rx k) (frame a1 ++ frame a2 ++ l) r →
  ∃ r1, upload image im4m k =
    (Ok tt, append_tx (frame (receive_request image im4m) ++ image) (set_rx r1 k)) ∧ delivers r1 l r.
Proof.
  intros Hv H1 H2 Hk S1 S2 Hd.
  destruct (mt_recv_plist_ok a1 (append_tx (frame (receive_request image im4m)) k) _ r H1 Hd) as (r1 & Hr1 & Hd1).
  destruct (mt_recv_plist_ok a2 (append_tx (frame (receive_request image im4m) ++ image) (set_rx r1 k)) _ r H2 Hd1)
    as (r2 & Hr2 & Hd2).
  exists r2. split; [|done]. unfold upload. erewrite sbind_ok by (by apply mt_send_plist_ok).
  unfold Cli.context. erewrite sbind_ok by (apply smap_err_ok; exact Hr1).
  erewrite sbind_ok by (by apply expect_status_ok).
  erewrite sbind_ok by (apply smap_err_ok, write_all_healthy; exact Hk).
  erewrite sbind_ok by (apply smap_err_ok, flush_healthy; exact Hk).
  change (append_tx image (set_rx r1 (append_tx ?a k))) with (append_tx image (append_tx a (set_rx r1 k))).
  rewrite append_tx_app. erewrite sbind_ok by (apply smap_err_ok; exact Hr2).
  by rewrite expect_status_ok.
Qed.

Lemma mount_image_ok im4m tc a k l r :
  Lockdown.ld_ok (mount_request im4m tc) → answer_ok a → healthy k → status_of a = "Complete"%string →
  delivers (rx k) (frame a ++ l) r →
  ∃ r1, mount_image im4m tc k = (Ok tt, append_tx (frame (mount_request im4m tc)) (set_rx r1 k)) ∧ delivers r1 l r.
Proof.
  intros Hv Ha Hk Hs Hd.
  destruct (mt_recv_plist_ok a (append_tx (frame (mount_request im4m tc)) k) _ r Ha Hd) as (r1 & Hr1 & Hd1).
  exists r1. split; [|done]. unfold mount_image. erewrite sbind_ok by (by apply mt_send_plist_ok).
  unfold Cli.context. erewrite sbind_ok by (apply smap_err_ok; exact Hr1).
  by rewrite expect_status_ok.
Qed.

Context `{BP : BuildProfile} `{T : Lockdown.Tls} `{SJ : CdTunnel.SerdeJson}
  {W : Type} `{OS : Os W} `{TS : TunnelStack W} `{Y : Sys W} `{FS : RpCredentials.Files W}
  `{ME : MountEnv W}.

Lemma on_sock_run {A} (m : ST stream anyhow A) (ws : W * DeviceSession.DeviceSession) k x k' :
  m k = (x, k') → on_sock m (ws, k) = (x, (ws, k')).
Proof. intros Hm. unfold on_sock, on_local, zoom. cbn. by rewrite Hm. Qed.

(** An image that is mounted already is left alone. *)
Lemma mount_on_present image manifest tc ws k a r :
  Lockdown.ld_ok (lookup_request "Personalized") → answer_ok a → healthy k →
  resp_image_present a = true → delivers (rx k) (frame a) r →
  mount_on image manifest tc (ws, k) =
    (Ok false, (ws, append_tx (frame (lookup_request "Personalized")) (set_rx r k))).
Proof.
  intros Hv Ha Hk Hp Hd. rewrite <-(app_nil_r (frame a)) in Hd.
  destruct (exchange_ok _ _ k _ _ Hv Ha Hk Hd) as (r1 & He & Hd1).
  apply delivers_inv in Hd1 as [[_ ->]|(c & ? & l0 & Hc & _ & _ & Hn)]; [|by destruct c].
  unfold mount_on. erewrite sbind_ok; [|apply on_sock_run, (He _ (λ resp, sret (resp_image_present resp)))]. by rewrite Hp.
Qed.

(** C16. A device that has kept the ticket of the image is asked nothing else: the
    image goes to it as it is, after the request that announces its size with
    the ticket, and is mounted with its trust cache. *)
Theorem mount_on_cached image manifest tc ws k a1 a2 a3 a4 a5 im4m l r :
  healthy k → Forall answer_ok [a1; a2; a3; a4; a5] →
  Forall Lockdown.ld_ok [lookup_request "Personalized"; manifest_request (sha384 image);
                         receive_request image im4m; mount_request im4m tc] →
  delivers (rx k) (frame a1 ++ frame a2 ++ frame a3 ++ frame a4 ++ frame a5 ++ l) r →
  resp_image_present a1 = false → pget "ImageSignature" a2 = Some (PData im4m) →
  status_of a3 = "ReceiveBytesAck"%string → status_of a4 = "Complete"%string →
  status_of a5 = "Complete"%string →
  ∃ r1, mount_on image manifest tc (ws, k) =
    (Ok true, (ws, append_tx (frame (lookup_request "Personalized")
                              ++ frame (manifest_request (sha384 image))
                              ++ frame (receive_request image im4m) ++ image
                              ++ frame (mount_request im4m tc)) (set_rx r1 k))) ∧
    delivers r1 l r.
Proof.
  intros Hk Ha Hv Hd Hp Hs S3 S4 S5. rewrite !Forall_cons in Ha. rewrite !Forall_cons in Hv.
  destruct Ha as (A1 & A2 & A3 & A4 & A5 & _), Hv as (V1 & V2 & V3 & V4 & _).
  destruct (exchange_ok _ _ k _ _ V1 A1 Hk Hd) as (r1 & E1 & D1).
  set (k1 := append_tx (frame (lookup_request "Personalized")) (set_rx r1 k)).
  destruct (mt_recv_plist_ok a2 (append_tx (frame (manifest_request (sha384 image))) k1) _ _ A2 D1) as (r2 & R2 & D2).
  set (k2 := append_tx (frame (manifest_request (sha384 image))) (set_rx r2 k1)).
  assert (query_manifest (sha384 image) k1 = (Ok (Some im4m), k2)) as E2.
  { unfold query_manifest. erewrite sbind_ok by (by apply mt_send_plist_ok).
    unfold stry, sbind. rewrite R2. by rewrite Hs. }
  destruct (upload_ok _ _ _ _ k2 _ _ V3 A3 A4 Hk S3 S4 D2) as (r3 & E3 & D3).
  set (k3 := append_tx (frame (receive_request image im4m) ++ image) (set_rx r3 k2)) in E3.
  destruct (mount_image_ok _ _ _ k3 _ _ V4 A5 Hk S5 D3) as (r4 & E4 & D4).
  exists r4. split; [|done]. unfold mount_on. erewrite sbind_ok; [|apply on_sock_run, (E1 _ (λ resp, sret (resp_image_present resp)))]. rewrite Hp.
  erewrite sbind_ok; [|unfold obtain_ticket; erewrite sbind_ok; [|apply on_sock_run, E2]; reflexivity].
  erewrite sbind_ok; [|apply on_sock_run, E3]. erewrite sbind_ok; [|apply on_sock_run, E4].
  unfold sret, k3, k2, k1. do 2 f_equal. unfold append_tx, set_rx. cbn [rx tx wq].
  by rewrite <-!(assoc_L (++)).
Qed.
End exchange.

(** ** What is asked of the signing server *)
Section request.
Context `{PL : PlistLib}.

Lemma foldl_al_lookup {A} (f : string → pval → option A) (g : A → pval) kvs d k :
  al_wf kvs →
  dget k (foldl (λ d kv, match f kv.1 kv.2 with Some a => al_insert kv.1 (g a) d | None => d end) d kvs) =
    match dget k kvs ≫= f k with Some a => Some (g a) | None => dget k d end.
Proof.
  unfold dget. revert d. induction kvs as [|[k' v] kvs IH]; intros d Hwf; [done|].
  unfold al_wf, al_keys in Hwf. cbn [fmap list_fmap fst] in Hwf. apply NoDup_cons in Hwf as [Hk Hwf].
  cbn [foldl fst snd]. rewrite IH by done. cbn [al_lookup]. case_decide as E.
  - subst k'. rewrite (proj2 (al_lookup_None k kvs)) by done. cbn [mbind option_bind].
    destruct (f k v); [by rewrite al_lookup_insert_eq|done].
  - destruct (al_lookup k kvs ≫= f k); [done|]. destruct (f k' v); [by rewrite al_lookup_insert_ne|done].
Qed.
Lemma dget_insert_all kvs d k :
  al_wf kvs → dget k (insert_all d kvs) = match dget k kvs with Some v => Some v | None => dget k d end.
Proof.
  intros Hwf. pose proof (foldl_al_lookup (λ _, Some) id kvs d k Hwf) as Hf.
  unfold insert_all. cbn in Hf. rewrite Hf. by destruct (dget k kvs).
Qed.

Lemma filter_wf (P : string → bool) (d : dictionary) : al_wf d → al_wf (filter (λ kv, P kv.1 = true) d).
Proof.
  unfold al_wf, al_keys. induction d as [|[k v] d IH]; cbn [fmap list_fmap fst]; [done|].
  intros [Hk Hd]%NoDup_cons. rewrite filter_cons. case_decide; [|by apply IH].
  cbn [fmap list_fmap fst]. apply NoDup_cons. split; [|by apply IH].
  intros (kv & -> & Hin)%list_elem_of_fmap_1. apply list_elem_of_filter in Hin as [_ Hin].
  apply Hk. by apply list_elem_of_fmap_2.
Qed.
Lemma dget_filter (P : string → bool) (d : dictionary) k :
  dget k (filter (λ kv, P kv.1 = true) d) = if P k then dget k d else None.
Proof.
  unfold dget. induction d as [|[k' v] d IH]; [by destruct (P k)|]. rewrite filter_cons.
  case_decide as Hp; cbn [al_lookup fst] in *.
  - case_decide; [|done]. subst. by rewrite Hp.
  - rewrite IH. case_decide; [|done]. subst. by destruct (P k').
Qed.

(** The request for a ticket holds, under every key, the component of the
    manifest of that name if it is trusted, as its rules have made it; else the
    identifier of the device of that name, if it is one of the forwarded; else
    what is sent for every device. *)
Lemma tss_body_lookup board_id chip_id ecid nonce ids entries k :
  al_wf ids → al_wf entries →
  dget k (tss_body board_id chip_id ecid nonce ids entries) =
    match dget k entries ≫= tss_entry k with
    | Some e => Some (PDict e)
    | None =>
        match (if starts_with "Ap," k then dget k ids else None) with
        | Some v => Some v
        | None => dget k (tss_base board_id chip_id ecid nonce)
        end
    end.
Proof.
  intros Hi He. unfold tss_body. rewrite (foldl_al_lookup tss_entry PDict) by done.
  destruct (dget k entries ≫= tss_entry k); [done|].
  rewrite dget_insert_all by (apply (filter_wf (starts_with "Ap,")), Hi).
  by rewrite (dget_filter (starts_with "Ap,")).
Qed.

(** Nothing but trusted components is sent. *)
Lemma tss_entry_trusted k v e :
  tss_entry k v = Some e → k ≠ "Info"%string ∧ pget "Trusted" v = Some (PBool true).
Proof.
  unfold tss_entry, pget. case_bool_decide; [done|]. destruct (as_dictionary v) as [d|]; cbn [mbind option_bind]; [|done].
  destruct (dget "Trusted" d) as [[]|]; cbn; try done. by destruct b.
Qed.
End request.

(** ** What a success means *)
Section sent.
Context `{PL : PlistLib}.

Definition wire (body : list byte) : list byte := be_bytes 4 (wrap 32 (lenZ body)) ++ body.

Lemma read_tx n : keeps tx (read n).
Proof. intros s. unfold read. repeat case_match; done. Qed.
Lemma retry_loop_tx {E} (wr : io_error → E) eof fuel n buf : keeps tx (retry_loop wr eof fuel n buf).
Proof.
  revert buf. induction fuel as [|fuel IH]; intros buf; cbn [retry_loop]; (destruct (lenZ buf <? n); [|apply keeps_ret]).
  - apply keeps_lift.
  - apply keeps_bind; [apply keeps_try, read_tx|]. intros [e|[|b c]]; [case_decide; [apply IH|apply keeps_fail]|apply keeps_fail|apply IH].
Qed.
Lemma recv_plist_tx : keeps tx recv_plist.
Proof.
  assert (∀ n, keeps tx (mt_read_exact n)) as Hr.
  { intros n. apply keeps_map_err. intros s. apply retry_loop_tx. }
  unfold recv_plist. apply keeps_bind; [apply Hr|]. intros b. case_match; [apply keeps_fail|].
  apply keeps_bind; [apply Hr|]. intros l. apply keeps_lift.
Qed.
Lemma expect_status_tx want t v : keeps tx (expect_status want t v).
Proof. unfold expect_status, Cli.bail. case_match; [apply keeps_ret|apply keeps_fail]. Qed.

Lemma write_all_sent l s u s' : write_all l s = (Ok u, s') → tx s' = tx s ++ l.
Proof. unfold write_all. destruct (wq s) as [|[e|] q]; intros [= <- <-]; done. Qed.
Lemma flush_tx : keeps tx flush.
Proof. intros s. unfold flush. by destruct (wq s) as [|[]]. Qed.

Lemma kept {A} (m : ST stream anyhow A) s a s' : keeps tx m → m s = (a, s') → tx s' = tx s.
Proof. intros Hk Hm. specialize (Hk s). by rewrite Hm in Hk. Qed.

Lemma send_plist_sent v s u s' :
  send_plist v s = (Ok u, s') → ∃ b, to_writer_xml v = Some b ∧ tx s' = tx s ++ wire b.
Proof.
  unfold send_plist, Daemon.send_plist, Daemon.any_io.
  intros (b & s1 & Hb & Hr)%sbind_inv. destruct (to_writer_xml v) as [b'|]; [|done]. injection Hb as <- <-.
  apply sbind_inv in Hr as (? & s2 & H1 & Hr). apply sbind_inv in Hr as (? & s3 & H2 & H3).
  apply smap_err_inv in H1, H2, H3. apply write_all_sent in H1, H2.
  pose proof (flush_tx s3) as Hf. rewrite H3 in Hf. cbn in Hf.
  exists b'. split; [done|]. rewrite Hf, H2, H1. unfold wire. by rewrite (assoc_L (++)).
Qed.

Lemma upload_sent image im4m s u s' :
  upload image im4m s = (Ok u, s') →
  ∃ b, to_writer_xml (receive_request image im4m) = Some b ∧ tx s' = tx s ++ wire b ++ image.
Proof.
  unfold upload, Cli.context, Daemon.ctx, Daemon.any_io.
  intros (? & s1 & H1 & Hr)%sbind_inv. apply send_plist_sent in H1 as (b & Hb & H1).
  apply sbind_inv in Hr as (a & s2 & H2 & Hr). apply sbind_inv in Hr as (? & s3 & H3 & Hr).
  apply sbind_inv in Hr as (? & s4 & H4 & Hr). apply sbind_inv in Hr as (? & s5 & H5 & Hr).
  apply sbind_inv in Hr as (c & s6 & H6 & H7).
  apply smap_err_inv in H4. apply write_all_sent in H4.
  apply kept in H2; [|apply keeps_map_err, recv_plist_tx]. apply kept in H3; [|apply expect_status_tx].
  apply kept in H5; [|apply keeps_map_err, flush_tx].
  apply kept in H6; [|apply keeps_map_err, recv_plist_tx]. apply kept in H7; [|apply expect_status_tx].
  exists b. split; [done|]. rewrite H7, H6, H5, H4, H3, H2, H1. by rewrite <-(assoc_L (++)).
Qed.
Lemma mount_image_sent im4m tc s u s' :
  mount_image im4m tc s = (Ok u, s') →
  ∃ b, to_writer_xml (mount_request im4m tc) = Some b ∧ tx s' = tx s ++ wire b.
Proof.
  unfold mount_image, Cli.context.
  intros (? & s1 & H1 & Hr)%sbind_inv. apply send_plist_sent in H1 as (b & Hb & H1).
  apply sbind_inv in Hr as (a & s2 & H2 & H3).
  apply kept in H2; [|apply keeps_map_err, recv_plist_tx]. apply kept in H3; [|apply expect_status_tx].
  exists b. split; [done|]. by rewrite H3, H2, H1.
Qed.

Context `{BP : BuildProfile} `{T : Lockdown.Tls} `{SJ : CdTunnel.SerdeJson}
  {W : Type} `{OS : Os W} `{TS : TunnelStack W} `{Y : Sys W} `{FS : RpCredentials.Files W}
  `{ME : MountEnv W}.

(** Wherever the ticket came from, an image is reported as mounted only after
    the request that announces it, the whole image and the request to mount it
    have gone, with one ticket, to the socket last connected. *)
Lemma mount_on_sent image manifest tc st st' :
  mount_on image manifest tc st = (Ok true, st') →
  ∃ im4m sent b1 b2,
    to_writer_xml (receive_request image im4m) = Some b1 ∧
    to_writer_xml (mount_request im4m tc) = Some b2 ∧
    tx st'.2 = sent ++ wire b1 ++ image ++ wire b2.
Proof.
  unfold mount_on. intros (present & s1 & _ & Hr)%sbind_inv. destruct present; [done|].
  apply sbind_inv in Hr as (im4m & s2 & _ & Hr). apply sbind_inv in Hr as (? & s3 & H3 & Hr).
  apply sbind_inv in Hr as (? & s4 & H4 & H5). injection H5 as <-.
  apply on_local_inv in H3 as [H3 _]. apply on_local_inv in H4 as [H4 _].
  apply upload_sent in H3 as (b1 & Hb1 & H3). apply mount_image_sent in H4 as (b2 & Hb2 & H4).
  exists im4m, (tx s2.2), b1, b2. split_and!; [done..|]. rewrite H4, H3. by rewrite <-!(assoc_L (++)).
Qed.
End sent.

(** ** Concrete inputs *)

Section witnesses.
Import ToyTunnel.
#[local] Existing Instance debug_profile.
#[local] Existing Instance BitPlist.lib.
#[local] Existing Instance BitPlist.laws.
#[local] Existing Instance Lockdown.ToyTls.lib.
#[local] Existing Instance toy_json.

Definition toy_ticket : list byte := [x49; x4d].
Definition signed : list byte :=
  bytes_of "STATUS=0&MESSAGE=SUCCESS&REQUEST_STRING="
  ++ xml (PDict ["ApImg4Ticket" =>> PData toy_ticket]).
#[local] Instance toy_env : MountEnv world := {|
  sha384 l := l;
  path_exists _ _ := false;
  command _ _ := sret (true, []);
  http_get _ := sret (idle []);
  http_post _ _ _ := sret (idle [RData signed; RFail (IoError Interrupted ""); RData []])
|}.

Definition toy_session : DeviceSession.DeviceSession (W:=world) :=
  DeviceSession.MkDeviceSession (UsbmuxTypes.MkDevice 3 "u1" UsbmuxTypes.Usb 0 0) (MkVersion 17 4 0)
    DeviceSession.PathRsd
    (DeviceSession.IDaemon
       (Lockdown.session_on (PDict ["Request" =>> PString "GetValue"; "Value" =>> PInt 77])) "u1").

Definition image_absent : pval := PDict ["ImagePresent" =>> PBool false].
Definition ticket_kept : pval := PDict ["ImageSignature" =>> PData toy_ticket].
Definition no_ticket : pval := PDict ["Error" =>> PString "no manifest"].
Definition bytes_wanted : pval := PDict ["Status" =>> PString "ReceiveBytesAck"].
Definition completed : pval := PDict ["Status" =>> PString "Complete"].
Definition says (l : list pval) : stream := idle (RData <$> (frame <$> l)).

Definition toy_image : list byte := [x01; x02; x03].
Definition kept_says : stream := says [image_absent; ticket_kept; bytes_wanted; completed; completed; PInt 7].
Definition quiet : world := World (Script.World []) daemon_from (idle []).

Lemma mount_on_cached_witness :
  ∃ r1, mount_on toy_image [] [x09] ((quiet, toy_session), kept_says) =
    (Ok true, ((quiet, toy_session),
       append_tx (frame (lookup_request "Personalized") ++ frame (manifest_request (sha384 toy_image))
                  ++ frame (receive_request toy_image toy_ticket) ++ toy_image
                  ++ frame (mount_request toy_ticket [x09])) (set_rx r1 kept_says))) ∧
    delivers r1 (frame (PInt 7)) [].
Proof.
  apply (mount_on_cached toy_image [] [x09] (quiet, toy_session) kept_says
    image_absent ticket_kept bytes_wanted completed completed toy_ticket (frame (PInt 7)) []).
  - reflexivity.
  - repeat constructor; vm_compute; congruence.
  - repeat constructor; vm_compute; congruence.
  - assert (Forall (.≠ []) (frame <$> [image_absent; ticket_kept; bytes_wanted; completed; completed; PInt 7])) as Hp
      by (repeat constructor; vm_compute; discriminate).
    exact (delivers_pieces _ [] Hp).
  - reflexivity.
  - reflexivity.
  - reflexivity.
  - reflexivity.
  - reflexivity.
Defined.

(** The device has no ticket: the service is connected again for the identifiers
    and the nonce, and once more for the image. *)
Definition toy_manifest : pval :=
  PDict ["BuildIdentities" =>> PArray [PDict [
    "ApBoardID" =>> PString "0x10"; "ApChipID" =>> PString "33";
    "Manifest" =>> PDict ["Cryptex" =>> PDict ["Trusted" =>> PBool true; "Digest" =>> PData [x05]]]]]].
(** The daemon gives the same stream each time. *)
Definition again_says : list pval :=
  [PDict ["Status" =>> PString "Ok"];
   PDict (dict ["PersonalizationIdentifiers" =>> PDict ["BoardId" =>> PInt 16; "ChipID" =>> PInt 33];
                "Status" =>> PString "ReceiveBytesAck"]);
   PDict (dict ["PersonalizationNonce" =>> PData [x06]; "Status" =>> PString "Complete"]); completed].
Definition signing : world := World (Script.World []) daemon_from (says again_says).
Definition unkept_says : stream := says [image_absent; no_ticket].

Definition signed_run : outcome anyhow bool * mstate :=
  Eval vm_compute in
    mount_on toy_image (xml toy_manifest) [x09] ((signing, toy_session), unkept_says).

Lemma mount_on_sent_witness :
  ∃ im4m sent b1 b2,
    to_writer_xml (receive_request toy_image im4m) = Some b1 ∧
    to_writer_xml (mount_request im4m [x09]) = Some b2 ∧
    tx signed_run.2.2 = sent ++ wire b1 ++ toy_image ++ wire b2.
Proof.
  apply (mount_on_sent toy_image (xml toy_manifest) [x09] ((signing, toy_session), unkept_says) signed_run.2).
  match goal with |- _ = ?b => vm_cast_no_check (eq_refl b) end.
Defined.

Lemma tss_body_lookup_witness :
  dget "Ap,Name" (tss_body 16 33 77 [x06]
    ["BoardId" =>> PInt 16; "Ap,Name" =>> PString "n"]
    ["Cryptex" =>> PDict ["Trusted" =>> PBool true]; "Ap,Name" =>> PDict ["Trusted" =>> PBool false]])
  = Some (PString "n").
Proof.
  rewrite (tss_body_lookup 16 33 77 [x06]
    ["BoardId" =>> PInt 16; "Ap,Name" =>> PString "n"]
    ["Cryptex" =>> PDict ["Trusted" =>> PBool true]; "Ap,Name" =>> PDict ["Trusted" =>> PBool false]]);
    [reflexivity|apply (bool_decide_unpack _); vm_compute; exact I..].
Defined.
End witnesses.
