(* ===== verification/Smoltcp.v ===== *)
(** * The user-space network stack ([src/tunnel/smoltcp_stack.rs])

    The poll loop puts a TCP/IP library on the packets of a tunnel and gives
    the user of a connection one end of a pair of local sockets.  The library
    is the class [TcpStack], whose laws are the documented behaviour of the
    socket buffers; the device it polls, the two loops, the promotion of
    connections and the copying between sockets and pipes are the definitions
    here.  What other threads do - the reader of packets and the callers of
    [connect] - are actions that come between the turns of the loop. *)

From stdpp Require Import gmap relations.
From S2P Require Import Prelude RustStd Io Version CdTunnel.

Abbreviation packet := (list byte).

(** ** The device *)
Module Device.
Record TunnelDevice : Type := MkDevice { d_rx : list packet; d_tx : list packet; d_mtu : Z }.

Definition push_rx (l : list packet) (d : TunnelDevice) : TunnelDevice :=
  MkDevice (d_rx d ++ l) (d_tx d) (d_mtu d).
Definition set_tx (l : list packet) (d : TunnelDevice) : TunnelDevice :=
  MkDevice (d_rx d) l (d_mtu d).

(** [IpTxToken::consume]: [f] fills a buffer of zeros of the length asked for. *)
Definition tx_consume (len : Z) (f : packet → packet) (d : TunnelDevice) : TunnelDevice :=
  set_tx (d_tx d ++ [f (replicate (Z.to_nat len) x00)]) d.
(** [receive], and [IpRxToken::consume] with the packet it holds. *)
Definition receive (d : TunnelDevice) : option (packet * TunnelDevice) :=
  match d_rx d with
  | [] => None
  | pkt :: rx => Some (pkt, MkDevice rx (d_tx d) (d_mtu d))
  end.
Definition max_transmission_unit (d : TunnelDevice) : Z := d_mtu d.

(** What a user of the device can do to it. *)
Inductive device_step : TunnelDevice → TunnelDevice → Prop :=
  | device_receives pkt d d' : receive d = Some (pkt, d') → device_step d d'
  | device_sends len f d : device_step d (tx_consume len f d).

(** Packets are taken in the order in which they came, and those sent come
    after those that wait to be sent. *)
Lemma device_steps d d' :
  rtc device_step d d' →
  ∃ taken sent, d_rx d = taken ++ d_rx d' ∧ d_tx d' = d_tx d ++ sent ∧ d_mtu d' = d_mtu d.
Proof.
  induction 1 as [d|d d1 d2 Hs _ (taken & sent & IH1 & IH2 & IH3)].
  - exists [], []. by rewrite app_nil_r.
  - destruct Hs as [pkt d d1 Hr|len f d].
    + unfold receive in Hr. destruct (d_rx d) as [|p l] eqn:E; [done|]. injection Hr as -> <-.
      cbn in *. exists (pkt :: taken), sent. by rewrite IH1.
    + cbn in *. exists taken, (f (replicate (Z.to_nat len) x00) :: sent). by rewrite IH2, <-(assoc_L (++)).
Qed.
End Device.
Import Device.

(** ** The pipe to the user of a connection

    The end of the pair of Unix sockets that the loop keeps; it does not block.
    A write takes some of the bytes, or fails with nothing written. *)
Inductive wr_event : Type :=
  | WTake (k : Z)
  | WFail (e : io_error).
Record pipe : Type := MkPipe { p_rx : list rd_event; p_tx : list byte; p_wr : list wr_event }.

Definition pipe_read (n : Z) : ST pipe io_error (list byte) :=
  zoom (λ p, idle (p_rx p)) (λ s p, MkPipe (rx s) (p_tx p) (p_wr p)) (read n).
Definition pipe_write (l : list byte) : ST pipe io_error Z := λ p,
  match p_wr p with
  | [] => (Ok (lenZ l), MkPipe (p_rx p) (p_tx p ++ l) [])
  | WTake k :: q => (Ok (lenZ (take (Z.to_nat k) l)), MkPipe (p_rx p) (p_tx p ++ take (Z.to_nat k) l) q)
  | WFail e :: q => (Err e, MkPipe (p_rx p) (p_tx p) q)
  end.

(** [Write::write_all] of the standard library: what was written before an
    error stays written. *)
Fixpoint write_all_loop (fuel : nat) (l : list byte) : ST pipe io_error unit :=
  match l with
  | [] => sret tt
  | _ =>
      match fuel with
      | O => lift OutOfFuel
      | S fuel =>
          let! r := stry (pipe_write l) in
          match r with
          | inr n =>
              if n =? 0 then sfail (IoError (OtherKind 23) "failed to write whole buffer")
              else write_all_loop fuel (drop (Z.to_nat n) l)
          | inl e => if decide (kind e = Interrupted) then write_all_loop fuel l else sfail e
          end
      end
  end.
Definition pipe_write_all (l : list byte) : ST pipe io_error unit :=
  λ p, write_all_loop (S (length (p_wr p))) l p.

(** ** The TCP/IP library *)
Inductive State : Type :=
  | Closed | Listen | SynSent | SynReceived | Established
  | FinWait1 | FinWait2 | CloseWait | Closing | LastAck | TimeWait.
#[export] Instance State_eq_dec : EqDecision State.
Proof. solve_decision. Defined.

(** [smoltcp]: sockets with their two buffers, the interface, and the set of
    sockets with its handles.  The contents and the sizes of the buffers are
    what the documentation speaks of; the code cannot see them. *)
Class TcpStack := {
  socket : Type;
  interface : Type;
  socket_new : Z → Z → socket;
  state : socket → State;
  rx_buf : socket → list byte;
  tx_buf : socket → list byte;
  tx_capacity : socket → Z;
  can_recv : socket → bool;
  can_send : socket → bool;
  recv_slice : Z → socket → (string + list byte) * socket;
  send_slice : list byte → socket → (string + Z) * socket;
  close : socket → socket;
  tcp_connect : interface → list Z * Z → Z → socket → (string + unit) * (interface * socket);
  (** an interface with one address and the length of its prefix, at a time *)
  interface_new : list Z → Z → Z → interface;
  poll : Z → interface → TunnelDevice → gmap nat socket →
         interface * TunnelDevice * gmap nat socket;
  new_handle : gmap nat socket → nat
}.

Class TcpStackLaws (T : TcpStack) := {
  can_recv_spec s : can_recv s = true ↔ rx_buf s ≠ [];
  recv_slice_spec n s : can_recv s = true → 0 < n →
    ∃ s', recv_slice n s = (inr (take (Z.to_nat n) (rx_buf s)), s') ∧
      rx_buf s' = drop (Z.to_nat n) (rx_buf s) ∧ tx_buf s' = tx_buf s ∧
      tx_capacity s' = tx_capacity s ∧ state s' = state s ∧ can_send s' = can_send s;
  send_slice_spec l s : can_send s = true →
    let k := Z.min (lenZ l) (tx_capacity s - lenZ (tx_buf s)) in
    ∃ s', send_slice l s = (inr k, s') ∧
      tx_buf s' = tx_buf s ++ take (Z.to_nat k) l ∧ rx_buf s' = rx_buf s ∧
      tx_capacity s' = tx_capacity s ∧ state s' = state s ∧
      (lenZ (tx_buf s') < tx_capacity s' → can_send s' = true);
  can_send_room s : can_send s = true → lenZ (tx_buf s) < tx_capacity s;
  close_spec s : can_send (close s) = false ∧ rx_buf (close s) = rx_buf s ∧ tx_buf (close s) = tx_buf s;
  poll_sockets t i d m : dom (poll t i d m).2 = dom m;
  poll_device t i d m : rtc device_step d (poll t i d m).1.2;
  new_handle_fresh m : m !! new_handle m = None
}.

(** The clock in milliseconds, pairs of connected Unix sockets - the end that
    is given away and the end that stays -, clones of a TCP socket, threads. *)
Class Host (W : Type) := {
  local_end : Type;
  now : W → Z * W;
  unix_pair : ST W io_error (local_end * pipe);
  clone_tcp : stream → outcome io_error stream;
  spawn_thread : string → outcome io_error unit
}.
Class HostLaws {W} (H : Host W) := {
  unix_pair_returns w : match (unix_pair w).1 with Ok _ | Err _ => True | _ => False end
}.

(** ** Between a socket and its pipe *)
Section bridge.
Context `{T : TcpStack}.

Record conn : Type := MkConn { c_sock : socket; c_proxy : pipe; c_write_buf : list byte }.
Definition on_proxy {E A} (m : ST pipe E A) : ST conn E A :=
  zoom c_proxy (λ p c, MkConn (c_sock c) p (c_write_buf c)) m.
Definition on_socket {E A} (f : socket → A * socket) : ST conn E A := λ c,
  let '(a, s) := f (c_sock c) in (Ok a, MkConn s (c_proxy c) (c_write_buf c)).
Definition set_write_buf {E} (l : list byte) : ST conn E unit :=
  smodify (λ c, MkConn (c_sock c) (c_proxy c) l).
Definition asks {E A} (f : socket → A) : ST conn E A := λ c, (Ok (f (c_sock c)), c).

(** Whether what was kept from earlier turns has gone, so that the turn goes on. *)
Definition flush_kept : ST conn Empty_set bool :=
  let! c := sget in
  match c_write_buf c with
  | [] => sret true
  | l =>
      let! r := stry (on_proxy (pipe_write_all l)) in
      match r with
      | inr _ => set_write_buf [] ;;; sret true
      | inl _ => sret false
      end
  end.

(** From the socket to the pipe. *)
Fixpoint recv_loop (fuel : nat) : ST conn Empty_set unit :=
  let! more := asks can_recv in
  if (more : bool) then
    match fuel with
    | O => lift OutOfFuel
    | S fuel =>
        let! r := on_socket (recv_slice 8192) in
        match r with
        | inl _ | inr [] => sret tt
        | inr l =>
            let! w := stry (on_proxy (pipe_write_all l)) in
            match w with
            | inr _ => recv_loop fuel
            | inl _ => smodify (λ c, MkConn (c_sock c) (c_proxy c) (c_write_buf c ++ l))
            end
        end
    end
  else sret tt.

(** From the pipe to the socket. *)
Fixpoint send_loop (fuel : nat) : ST conn Empty_set unit :=
  let! room := asks can_send in
  if (room : bool) then
    match fuel with
    | O => lift OutOfFuel
    | S fuel =>
        let! r := stry (on_proxy (pipe_read 8192)) in
        match r with
        | inr [] => on_socket (λ s, (tt, close s))
        | inr l => on_socket (send_slice l) ;;; send_loop fuel
        | inl e =>
            if decide (kind e = WouldBlock) then sret tt
            else on_socket (λ s, (tt, close s))
        end
    end
  else sret tt.

Definition is_closed (s : State) : bool := bool_decide (s = Closed ∨ s = TimeWait).

(** One turn for a connection; whether it stays. *)
Definition bridge_conn : ST conn Empty_set bool :=
  let! go_on := flush_kept in
  if (go_on : bool) then
    (let! c := sget in recv_loop (S (length (rx_buf (c_sock c))))) ;;;
    (let! c := sget in send_loop (S (rx_size (p_rx (c_proxy c))))) ;;;
    let! over := asks (λ s, is_closed (state s) && negb (can_recv s)) in
    sret (negb over)
  else sret true.
End bridge.

(** ** The loops *)
Section loops.
Context `{T : TcpStack} {W : Type} `{HO : Host W}.

(** The receiving end of [result_tx] is a number. *)
Record ConnectReq : Type := MkConnectReq { cr_addr : list Z; cr_port : Z; result_tx : nat }.
Abbreviation answer := (string + local_end)%type.

(** The variables of a loop, the world, and the answers sent so far. *)
Record vars : Type := MkVars {
  v_world : W;
  device : TunnelDevice;
  iface : interface;
  sockets : gmap nat socket;
  pending : list (nat * nat);
  active : list (nat * pipe * list byte);
  next_port : Z;
  results : list (nat * answer)
}.
Abbreviation LM := (ST vars Empty_set).

Definition set_world (w : W) (v : vars) : vars :=
  MkVars w (device v) (iface v) (sockets v) (pending v) (active v) (next_port v) (results v).
Definition set_device (d : TunnelDevice) (v : vars) : vars :=
  MkVars (v_world v) d (iface v) (sockets v) (pending v) (active v) (next_port v) (results v).
Definition set_iface (i : interface) (v : vars) : vars :=
  MkVars (v_world v) (device v) i (sockets v) (pending v) (active v) (next_port v) (results v).
Definition set_sockets (m : gmap nat socket) (v : vars) : vars :=
  MkVars (v_world v) (device v) (iface v) m (pending v) (active v) (next_port v) (results v).
Definition set_pending (l : list (nat * nat)) (v : vars) : vars :=
  MkVars (v_world v) (device v) (iface v) (sockets v) l (active v) (next_port v) (results v).
Definition set_active (l : list (nat * pipe * list byte)) (v : vars) : vars :=
  MkVars (v_world v) (device v) (iface v) (sockets v) (pending v) l (next_port v) (results v).
Definition set_next_port (n : Z) (v : vars) : vars :=
  MkVars (v_world v) (device v) (iface v) (sockets v) (pending v) (active v) n (results v).
Definition add_result (ch : nat) (a : answer) (v : vars) : vars :=
  MkVars (v_world v) (device v) (iface v) (sockets v) (pending v) (active v) (next_port v)
    (results v ++ [(ch, a)]).

Definition send_result (ch : nat) (a : answer) : LM unit := smodify (add_result ch a).
Definition the_time : LM Z := λ v, let '(t, w) := now (v_world v) in (Ok t, set_world w v).
(** [get_mut], which panics on a handle that is not in the set. *)
Definition get_socket (h : nat) : LM socket := λ v, (or_panic (sockets v !! h), v).

(** The state before the first turn. *)
Definition loop_start (client_addr : list Z) (mtu : Z) (w : W) : vars :=
  let '(t, w) := now w in
  MkVars w (MkDevice [] [] mtu) (interface_new client_addr 64 t) ∅ [] [] 49152 [].

Definition take_request (req : ConnectReq) : LM unit :=
  let! v := sget in
  let port := next_port v in
  smodify (set_next_port (Z.max (wrap 16 (port + 1)) 49152)) ;;;
  match tcp_connect (iface v) (cr_addr req, cr_port req) port (socket_new 524288 524288) with
  | (inr _, (i, sock)) =>
      smodify (set_iface i) ;;;
      smodify (λ v, let h := new_handle (sockets v) in
                    set_pending (pending v ++ [(h, result_tx req)]) (set_sockets (<[h := sock]> (sockets v)) v))
  | (inl e, (i, _)) => smodify (set_iface i) ;;; send_result (result_tx req) (inl e)
  end.
(** [while let Ok(req) = connect_rx.try_recv()] *)
Fixpoint take_requests (reqs : list ConnectReq) : LM unit :=
  match reqs with
  | [] => sret tt
  | req :: reqs => take_request req ;;; take_requests reqs
  end.

Definition iface_poll : LM unit :=
  let! t := the_time in
  smodify (λ v, let '(i, d, m) := poll t (iface v) (device v) (sockets v) in
                set_iface i (set_device d (set_sockets m v))).

(** Whether the connection stays pending. *)
Definition promote_one (p : nat * nat) : LM bool :=
  let '(handle, result_tx) := p in
  let! sock := get_socket handle in
  match state sock with
  | Established =>
      let! r := stry (zoom v_world set_world unix_pair) in
      match r with
      | inr (local, proxy) =>
          smodify (λ v, set_active (active v ++ [(handle, proxy, [])]) v) ;;;
          send_result result_tx (inr local)
      | inl e => send_result result_tx (inl (what e))
      end ;;;
      sret false
  | Closed | TimeWait =>
      send_result result_tx (inl "connection refused or timed out"%string) ;;; sret false
  | _ => sret true
  end.
(** [pending.retain(..)] *)
Fixpoint promote (ps : list (nat * nat)) : LM (list (nat * nat)) :=
  match ps with
  | [] => sret []
  | p :: ps =>
      let! stays := promote_one p in
      let! ps := promote ps in
      sret (if (stays : bool) then p :: ps else ps)
  end.

(** One turn for an active connection; what is left of it. *)
Definition bridge_one (a : nat * pipe * list byte) : LM (option (nat * pipe * list byte)) :=
  let '(handle, proxy, write_buf) := a in
  let! sock := get_socket handle in
  let! (stays, c) := srun bridge_conn (MkConn sock proxy write_buf) in
  if (stays : bool) then
    smodify (λ v, set_sockets (<[handle := c_sock c]> (sockets v)) v) ;;;
    sret (Some (handle, c_proxy c, c_write_buf c))
  else
    smodify (λ v, set_sockets (delete handle (sockets v)) v) ;;;
    sret None.
Fixpoint bridge_all (l : list (nat * pipe * list byte)) : LM (list (nat * pipe * list byte)) :=
  match l with
  | [] => sret []
  | a :: l =>
      let! a := bridge_one a in
      let! l := bridge_all l in
      sret (match a with Some a => a :: l | None => l end)
  end.

Definition promote_and_bridge : LM unit :=
  let! v := sget in
  let! ps := promote (pending v) in
  smodify (set_pending ps) ;;;
  let! v := sget in
  let! l := bridge_all (active v) in
  smodify (set_active l).
End loops.

(** ** The threads *)
Section threads.
Context `{T : TcpStack} {W : Type} `{HO : Host W}.

Fixpoint send_packets (l : list packet) : ST CdTunnelConn Empty_set unit :=
  match l with
  | [] => sret tt
  | pkt :: l => signore (send_ipv6_packet pkt) ;;; send_packets l
  end.
Definition drain_tx : ST (vars (W:=W)) Empty_set (list packet) :=
  λ v, (Ok (d_tx (device v)), set_device (set_tx [] (device v)) v).
Definition take_packets (l : list packet) : ST (vars (W:=W)) Empty_set unit :=
  smodify (λ v, set_device (push_rx l (device v)) v).

(** A turn of [poll_loop], with the packets and the requests it finds. *)
Definition poll_turn (rx : list packet) (reqs : list ConnectReq) : ST (vars * CdTunnelConn) Empty_set unit :=
  on_outer (take_packets rx) ;;;
  on_outer (take_requests reqs) ;;;
  on_outer iface_poll ;;;
  let! pkts := on_outer drain_tx in
  on_local (send_packets pkts) ;;;
  on_outer promote_and_bridge.

(** [while let Some(pkt) = device.tx.pop_front()] of [unified_loop], which an
    error ends. *)
Fixpoint write_packets (l : list packet) : ST stream io_error unit :=
  match l with
  | [] => sret tt
  | pkt :: l => write_all pkt ;;; write_packets l
  end.

(** A turn of [unified_loop]; whether there is another one. *)
Definition unified_turn (reqs : list ConnectReq) : ST (vars * stream) Empty_set bool :=
  let! r := stry (on_local recv_ipv6) in
  let go_on := match r with
               | inr _ => true
               | inl e => bool_decide (kind e = WouldBlock ∨ kind e = TimedOut)
               end in
  if go_on then
    on_outer (take_packets (match r with inr pkt => [pkt] | inl _ => [] end)) ;;;
    on_outer (take_requests reqs) ;;;
    on_outer iface_poll ;;;
    let! pkts := on_outer drain_tx in
    let! w := stry (on_local (write_packets pkts)) in
    match w with
    | inl _ => sret false
    | inr _ =>
        signore (on_local flush) ;;;
        on_outer promote_and_bridge ;;;
        sret true
    end
  else sret false.

(** The state of a tunnel of [new]: the poll thread, the two queues, and the
    reader unless it has ended. *)
Record tunnel : Type := MkTunnel {
  tn_vars : vars (W:=W);
  rx_queue : list packet;
  connect_rx : list ConnectReq;
  tn_conn : CdTunnelConn;
  reader : option stream
}.

(** [SmoltcpTunnel::new] *)
Definition new (cdtunnel : CdTunnelConn) (w : W) : outcome Error (TunnelParams * tunnel) :=
  let err t (e : io_error) := Protocol (Msg t [FStr (what e)]) in
  let? reader_s := omap_err (err "clone stream: {e}"%string) (clone_tcp (cd_stream cdtunnel)) in
  let? _ := omap_err (err "reader thread: {e}"%string) (spawn_thread "cdtunnel-reader") in
  let? _ := omap_err (err "poll thread: {e}"%string) (spawn_thread "smoltcp-poll") in
  let p := params cdtunnel in
  Ok (p, MkTunnel (loop_start (client_addr p) (mtu p) w) [] [] cdtunnel (Some reader_s)).

(** [SmoltcpTunnel::new_stream], with the state of its one thread. *)
Definition new_stream (s : stream) (p : TunnelParams) (w : W) :
    outcome Error (TunnelParams * (vars (W:=W) * stream)) :=
  let? _ := omap_err (λ e, Protocol (Msg "unified thread: {e}" [FStr (what e)]))
              (spawn_thread "smoltcp-unified") in
  Ok (p, (loop_start (client_addr p) (mtu p) w, s)).

(** What happens next: a caller of [connect] sends its request, the reader
    thread reads a packet, the poll thread takes a turn. *)
Inductive action : Type := AConnect (req : ConnectReq) | ARead | ATurn.

(** A caller waits while the queue is full. *)
Definition connect_step (req : ConnectReq) (t : tunnel) : tunnel :=
  if bool_decide (length (connect_rx t) < 32)%nat then
    MkTunnel (tn_vars t) (rx_queue t) (connect_rx t ++ [req]) (tn_conn t) (reader t)
  else t.
Definition reader_step (t : tunnel) : tunnel :=
  match reader t with
  | None => t
  | Some s =>
      match recv_ipv6 s with
      | (Ok pkt, s) => MkTunnel (tn_vars t) (rx_queue t ++ [pkt]) (connect_rx t) (tn_conn t) (Some s)
      | _ => MkTunnel (tn_vars t) (rx_queue t) (connect_rx t) (tn_conn t) None
      end
  end.
Definition turn_step (t : tunnel) : outcome Empty_set tunnel :=
  let '(r, (v, c)) := poll_turn (rx_queue t) (connect_rx t) (tn_vars t, tn_conn t) in
  let? _ := r in Ok (MkTunnel v [] [] c (reader t)).
Definition tunnel_step (a : action) (t : tunnel) : outcome Empty_set tunnel :=
  match a with
  | AConnect req => Ok (connect_step req t)
  | ARead => Ok (reader_step t)
  | ATurn => turn_step t
  end.
Fixpoint tunnel_run (l : list action) (t : tunnel) : outcome Empty_set tunnel :=
  match l with
  | [] => Ok t
  | a :: l => let? t := tunnel_step a t in tunnel_run l t
  end.

(** What [connect] returns once its request is in the queue: nothing yet, or the
    answer, or an error when the thread has dropped the other end. *)
Definition connect_result (alive : bool) (rs : list (nat * (string + local_end))) (ch : nat) :
    option (outcome Error local_end) :=
  match al_lookup ch rs with
  | Some (inr local) => Some (Ok local)
  | Some (inl t) => Some (Err (Protocol (msg0 t)))
  | None => if alive then None else Some (Err (Protocol (msg0 "smoltcp poll thread gone")))
  end.
End threads.

(** ** Postconditions *)

(** [m] succeeds from [s], with a result and a state for which [Q] holds. *)
Definition runs {S E A} (m : ST S E A) (s : S) (Q : A → S → Prop) : Prop :=
  match m s with (Ok a, s') => Q a s' | _ => False end.

Lemma runs_bind {S E A B} (m : ST S E A) (k : A → ST S E B) s Q :
  runs m s (λ a s', runs (k a) s' Q) → runs (sbind m k) s Q.
Proof. unfold runs, sbind. by destruct (m s) as [[] ?]. Qed.
Lemma runs_mono {S E A} (m : ST S E A) s (Q1 Q2 : A → S → Prop) :
  runs m s Q1 → (∀ a s', Q1 a s' → Q2 a s') → runs m s Q2.
Proof. unfold runs. destruct (m s) as [[] ?]; auto. Qed.
Lemma runs_eq {S E A} (m : ST S E A) s a s' (Q : A → S → Prop) :
  m s = (Ok a, s') → Q a s' → runs m s Q.
Proof. unfold runs. by intros ->. Qed.
Lemma runs_inv {S E A} (m : ST S E A) s (Q : A → S → Prop) :
  runs m s Q → ∃ a s', m s = (Ok a, s') ∧ Q a s'.
Proof. unfold runs. destruct (m s) as [[] ?]; naive_solver. Qed.
Lemma runs_zoom {S T E A} get put (m : ST T E A) (s : S) Q :
  runs m (get s) (λ a t, Q a (put t s)) → runs (zoom get put m) s Q.
Proof. unfold runs, zoom. by destruct (m (get s)) as [[] ?]. Qed.
(** A computation that returns, with or without an error. *)
Definition returns {S E A} (m : ST S E A) (s : S) (Q : E + A → S → Prop) : Prop :=
  match m s with (Ok a, s') => Q (inr a) s' | (Err e, s') => Q (inl e) s' | _ => False end.
Lemma runs_try {S E F A} (m : ST S E A) s Q : returns m s Q → runs (stry (F:=F) m) s Q.
Proof. unfold runs, returns, stry. by destruct (m s) as [[] ?]. Qed.
Lemma returns_zoom {S T E A} get put (m : ST T E A) (s : S) Q :
  returns m (get s) (λ a t, Q a (put t s)) → returns (zoom get put m) s Q.
Proof. unfold returns, zoom. by destruct (m (get s)) as [[] ?]. Qed.
Lemma returns_mono {S E A} (m : ST S E A) s (Q1 Q2 : E + A → S → Prop) :
  returns m s Q1 → (∀ a s', Q1 a s' → Q2 a s') → returns m s Q2.
Proof. unfold returns. destruct (m s) as [[] ?]; auto. Qed.

(** ** Pipes *)

Lemma returns_bind {S E A B} (m : ST S E A) (k : A → ST S E B) s Q :
  runs m s (λ a s', returns (k a) s' Q) → returns (sbind m k) s Q.
Proof. unfold runs, returns, sbind. by destruct (m s) as [[] ?]. Qed.

Lemma pipe_write_returns l p :
  returns (pipe_write l) p (λ r p', p_rx p' = p_rx p ∧
    match r with
    | inr n => 0 ≤ n ∧ p_tx p' = p_tx p ++ take (Z.to_nat n) l ∧
               (n = lenZ l ∨ (length (p_wr p') < length (p_wr p))%nat)
    | inl _ => p_tx p' = p_tx p ∧ (length (p_wr p') < length (p_wr p))%nat
    end).
Proof.
  unfold returns, pipe_write. destruct (p_wr p) as [|[k|e] q] eqn:Ew; cbn.
  - split; [done|]. split_and!; [len| |by left]. unfold lenZ. by rewrite Nat2Z.id, firstn_all.
  - split; [done|]. split_and!; [len| |by right; lia]. unfold lenZ. rewrite Nat2Z.id, length_take.
    f_equal. destruct (decide (Z.to_nat k ≤ length l)%nat); [by f_equal; lia|].
    rewrite !take_ge by lia. done.
  - split_and!; [done..|lia].
Qed.

Lemma write_all_loop_returns fuel l p :
  (length (p_wr p) < fuel)%nat ∨ l = [] →
  returns (write_all_loop fuel l) p (λ r p', ∃ k,
    p_tx p' = p_tx p ++ take k l ∧ p_rx p' = p_rx p ∧ (r = inr tt → take k l = l)).
Proof.
  revert l p. induction fuel as [|fuel IH]; intros [|b l] p Hf.
  1,3: exists 0%nat; cbn; by rewrite app_nil_r.
  - destruct Hf; [lia|done].
  - destruct Hf as [Hf|]; [|done]. cbn [write_all_loop]. apply returns_bind, runs_try.
    eapply returns_mono; [apply pipe_write_returns|]. intros [e|n] p1 [Hrx Hw].
    + destruct Hw as [Htx Hw]. case_decide; [|exists 0%nat; by rewrite app_nil_r].
      eapply returns_mono; [apply IH; left; lia|]. cbn beta. by rewrite Htx, Hrx.
    + destruct Hw as (Hn & Htx & Hw). destruct (Z.eqb_spec n 0) as [->|Hn0].
      { exists 0%nat. by rewrite Htx. }
      eapply returns_mono; [apply IH|].
      { destruct Hw as [->|Hw]; [right|left; lia]. apply drop_ge. unfold lenZ. lia. }
      intros r p2 (k & H1 & H2 & H3). exists (Z.to_nat n + k)%nat.
      rewrite <-take_take_drop, (assoc_L (++)), <-Htx, H1, H2. split_and!; [done..|].
      intros Hr. by rewrite (H3 Hr), take_drop.
Qed.
Lemma pipe_write_all_returns l p :
  returns (pipe_write_all l) p (λ r p', ∃ k,
    p_tx p' = p_tx p ++ take k l ∧ p_rx p' = p_rx p ∧ (r = inr tt → take k l = l)).
Proof. apply write_all_loop_returns. lia. Qed.

(** A pipe that takes a piece of the size of the copying buffer at once or not
    at all. *)
Definition whole (p : pipe) : Prop :=
  Forall (λ ev, match ev with WTake k => 8192 ≤ k | WFail _ => True end) (p_wr p).

Lemma write_all_loop_whole fuel l p :
  whole p → lenZ l ≤ 8192 →
  let '(r, p') := write_all_loop fuel l p in
  whole p' ∧ p_tx p' = p_tx p ++ (match r with Ok _ => l | _ => [] end).
Proof.
  revert l p. induction fuel as [|fuel IH]; intros [|b l] p Hw Hl; cbn [write_all_loop].
  1-3: by cbn; rewrite app_nil_r.
  unfold sbind, stry, pipe_write. unfold whole in Hw. destruct (p_wr p) as [|[k|e] q] eqn:Ew.
  - rewrite (proj2 (Z.eqb_neq _ 0)) by len. rewrite drop_ge by (unfold lenZ; lia).
    destruct fuel; cbn; split; try done; by apply Forall_nil.
  - apply Forall_cons in Hw as [Hk Hw].
    rewrite take_ge by (unfold lenZ in Hl; lia).
    rewrite (proj2 (Z.eqb_neq _ 0)) by len. rewrite drop_ge by (unfold lenZ; lia).
    destruct fuel; cbn; done.
  - apply Forall_cons in Hw as [_ Hw]. case_decide.
    + apply (IH (b :: l) (MkPipe (p_rx p) (p_tx p) q)); done.
    + cbn. by rewrite app_nil_r.
Qed.

(** A pipe that refuses nothing for want of room. *)
Definition eager (p : pipe) : Prop :=
  Forall (λ ev, match ev with WTake k => 8192 ≤ k | WFail e => kind e = Interrupted end) (p_wr p).

Lemma write_all_loop_eager fuel l p :
  eager p → lenZ l ≤ 8192 →
  match write_all_loop fuel l p with (Err _, _) => False | (_, p') => eager p' end.
Proof.
  revert l p. induction fuel as [|fuel IH]; intros [|b l] p Hp Hl; cbn [write_all_loop]; [done..|].
  unfold sbind, stry, pipe_write. unfold eager in Hp. destruct (p_wr p) as [|[k|e] q] eqn:Ew.
  - rewrite (proj2 (Z.eqb_neq _ 0)) by len. rewrite drop_ge by (unfold lenZ; lia).
    destruct fuel; cbn; by apply Forall_nil.
  - apply Forall_cons in Hp as [Hk Hp].
    rewrite take_ge by (unfold lenZ in Hl; lia).
    rewrite (proj2 (Z.eqb_neq _ 0)) by len. rewrite drop_ge by (unfold lenZ; lia).
    destruct fuel; cbn; done.
  - apply Forall_cons in Hp as [He Hp]. rewrite decide_True by done.
    apply (IH (b :: l) (MkPipe (p_rx p) (p_tx p) q)); done.
Qed.

Lemma pipe_write_all_spec l p :
  returns (pipe_write_all l) p (λ r p', p_rx p' = p_rx p ∧ (∃ m, p_tx p' = p_tx p ++ m) ∧
    (lenZ l ≤ 8192 →
      (whole p → whole p' ∧ p_tx p' = p_tx p ++ (if r is inr _ then l else [])) ∧
      (eager p → eager p' ∧ r = inr tt))).
Proof.
  pose proof (pipe_write_all_returns l p) as Hr.
  pose proof (write_all_loop_whole (S (length (p_wr p))) l p) as Hx.
  pose proof (write_all_loop_eager (S (length (p_wr p))) l p) as He.
  unfold returns, pipe_write_all in *.
  destruct (write_all_loop _ _ _) as [[[]|e| |] ?]; try done; destruct Hr as (k & Htx & Hr & _);
    (split_and!; [done|by eexists|]); intros Hl; (split; [by auto|]); intros Hp; by specialize (He Hp Hl).
Qed.

(** ** One connection *)
Section bridge_spec.
Context `{T : TcpStack} `{TL : !TcpStackLaws T}.

(** What the user of the connection has got and will get of what has arrived:
    what is in the pipe, what is kept for it, what the socket holds. *)
Definition incoming (c : conn) : list byte :=
  p_tx (c_proxy c) ++ c_write_buf c ++ rx_buf (c_sock c).

Lemma flush_kept_runs c :
  runs flush_kept c (λ b c', c_sock c' = c_sock c ∧ (b = true → c_write_buf c' = []) ∧
    (lenZ (c_write_buf c) ≤ 8192 →
      (whole (c_proxy c) →
         whole (c_proxy c') ∧ lenZ (c_write_buf c') ≤ 8192 ∧ incoming c' = incoming c) ∧
      (eager (c_proxy c) → b = true ∧ eager (c_proxy c')))).
Proof.
  unfold flush_kept. apply runs_bind. eapply runs_eq; [reflexivity|].
  destruct (c_write_buf c) as [|b l] eqn:E.
  - cbn. rewrite E. done.
  - set (l' := b :: l) in *. apply runs_bind, runs_try, returns_zoom.
    eapply returns_mono; [apply pipe_write_all_spec|].
    intros [e|[]] p' (_ & _ & Hx); cbn; (split_and!; [done|done|]); intros Hl; destruct (Hx Hl) as [Hx1 He]; split.
    + intros [H1 H2]%Hx1. split_and!; [done|by rewrite E|]. unfold incoming. cbn. by rewrite H2, app_nil_r.
    + by intros [_ ?]%He.
    + intros [H1 H2]%Hx1. split_and!; [done|len|]. unfold incoming. cbn. by rewrite H2, E, <-(assoc_L (++)).
    + by intros [? _]%He.
Qed.

Lemma recv_loop_runs fuel c :
  c_write_buf c = [] → (length (rx_buf (c_sock c)) < fuel)%nat →
  runs (recv_loop fuel) c (λ _ c', (∃ m, p_tx (c_proxy c') = p_tx (c_proxy c) ++ m) ∧
    (whole (c_proxy c) → whole (c_proxy c') ∧ lenZ (c_write_buf c') ≤ 8192 ∧ incoming c' = incoming c) ∧
    (eager (c_proxy c) → c_write_buf c' = [])).
Proof.
  revert c. induction fuel as [|fuel IH]; intros c Hb Hf; [lia|]. cbn [recv_loop].
  apply runs_bind. eapply runs_eq; [reflexivity|]. destruct (can_recv (c_sock c)) eqn:Ec.
  2: { cbn. rewrite Hb. split_and!; [|done..]. exists []. by rewrite app_nil_r. }
  destruct (recv_slice_spec 8192 (c_sock c) Ec) as (s' & Hs & Hrx & Htx & Hcap & _ & Hcs); [lia|].
  apply runs_bind. eapply runs_eq; [unfold on_socket; by rewrite Hs|].
  set (l := take (Z.to_nat 8192) (rx_buf (c_sock c))) in *.
  apply can_recv_spec in Ec.
  assert (l ≠ []) as Hl by (unfold l; destruct (rx_buf (c_sock c)); [done|]; by intros ?).
  assert (lenZ l ≤ 8192) as Hlen by (unfold l, lenZ; rewrite length_take; lia).
  assert (l ++ rx_buf s' = rx_buf (c_sock c)) as Hcat by (rewrite Hrx; apply take_drop).
  assert (length (rx_buf s') < length (rx_buf (c_sock c)))%nat as Hdec.
  { rewrite <-Hcat, length_app. destruct l; [done|cbn; lia]. }
  clearbody l. destruct l as [|b l]; [done|]. set (l' := b :: l) in *.
  apply runs_bind, runs_try, returns_zoom. cbn [c_proxy c_sock c_write_buf].
  eapply returns_mono; [apply pipe_write_all_spec|].
  intros [e|[]] p' (_ & [m Hm] & [Hx He]%(λ f, f Hlen)); cbn beta.
  - unfold smodify. cbn. split_and!; [by eexists| |by intros [_ ?]%He]. intros [H1 H2]%Hx.
    rewrite Hb. split_and!; [done..|]. unfold incoming. cbn. by rewrite H2, app_nil_r, Hb, <-Hcat.
  - eapply runs_mono; [apply IH; cbn [c_write_buf c_sock]; [done|lia]|]. cbn.
    intros _ c' ([m2 H1] & H2 & H3). split_and!; [|intros [H6 H7]%Hx|by intros [? _]%He; apply H3].
    + exists (m ++ m2). by rewrite H1, Hm, <-(assoc_L (++)).
    + destruct (H2 H6) as (H8 & H9 & H10). split_and!; [done..|].
      rewrite H10. unfold incoming. cbn. rewrite H7, Hb, <-(assoc_L (++)). cbn. by rewrite <-Hcat.
Qed.

Lemma pipe_read_returns n p :
  0 ≤ n → returns (pipe_read n) p (λ r p', p_tx p' = p_tx p ∧ p_wr p' = p_wr p ∧
    (r ≠ inr [] → (rx_size (p_rx p') < rx_size (p_rx p))%nat)).
Proof.
  intros Hn. unfold pipe_read. apply returns_zoom.
  assert (∀ x s', read n (idle (p_rx p)) = (x, s') →
    match x with Ok _ | Err _ => True | _ => False end) as Hx.
  { intros x s'. unfold read. repeat case_match; intros [= <- <-]; done. }
  unfold returns. destruct (read n (idle (p_rx p))) as [[l|e| |] s'] eqn:E;
    [..|by specialize (Hx _ _ eq_refl)|by specialize (Hx _ _ eq_refl)].
  - apply read_size in E as [_ E]; [|done]. split_and!; [done..|]. intros Hl. apply E. congruence.
  - apply read_err_size in E. done.
Qed.

Lemma send_loop_runs fuel c :
  (rx_size (p_rx (c_proxy c)) < fuel)%nat →
  runs (send_loop fuel) c (λ _ c',
    rx_buf (c_sock c') = rx_buf (c_sock c) ∧ c_write_buf c' = c_write_buf c ∧
    p_tx (c_proxy c') = p_tx (c_proxy c) ∧ p_wr (c_proxy c') = p_wr (c_proxy c)).
Proof.
  revert c. induction fuel as [|fuel IH]; intros c Hf; [lia|]. cbn [send_loop].
  apply runs_bind. eapply runs_eq; [reflexivity|]. destruct (can_send (c_sock c)) eqn:Ec; [|done].
  apply runs_bind, runs_try, returns_zoom.
  eapply returns_mono; [by apply pipe_read_returns|]. intros r p' (H1 & H2 & H3).
  assert (∀ k, runs (on_socket (E:=Empty_set) (λ s, (tt, close s))) (MkConn (c_sock c) p' k)
    (λ _ c', rx_buf (c_sock c') = rx_buf (c_sock c) ∧ c_write_buf c' = k ∧
             p_tx (c_proxy c') = p_tx (c_proxy c) ∧ p_wr (c_proxy c') = p_wr (c_proxy c))) as Hclose.
  { intros k. eapply runs_eq; [reflexivity|]. cbn. by destruct (close_spec (c_sock c)) as (_ & -> & _). }
  destruct r as [e|[|b l]].
  - case_decide; [|apply Hclose]. cbn. done.
  - apply Hclose.
  - destruct (send_slice_spec (b :: l) (c_sock c) Ec) as (s' & Hs & _ & Hrx & _).
    apply runs_bind. eapply runs_eq; [unfold on_socket; cbn [c_sock]; by rewrite Hs|].
    eapply runs_mono; [apply IH; cbn [c_proxy]; specialize (H3 ltac:(done)); lia|].
    cbn. intros _ c' (H4 & H5 & H6 & H7). by rewrite H4, H5, H6, H7, Hrx.
Qed.

(** One turn for a connection.  If the connection is over, the socket is closed
    and has been emptied, and what was kept from earlier turns is in the pipe. *)
Lemma bridge_conn_runs c :
  runs bridge_conn c (λ b c',
    (b = false → is_closed (state (c_sock c')) = true ∧ rx_buf (c_sock c') = []) ∧
    (lenZ (c_write_buf c) ≤ 8192 →
      (whole (c_proxy c) →
        incoming c' = incoming c ∧ whole (c_proxy c') ∧ lenZ (c_write_buf c') ≤ 8192 ∧
        (b = false → ∃ m, p_tx (c_proxy c') = p_tx (c_proxy c) ++ c_write_buf c ++ m)) ∧
      (eager (c_proxy c) → c_write_buf c' = []))).
Proof.
  unfold bridge_conn. apply runs_bind. eapply runs_mono; [by apply flush_kept_runs|].
  intros [] c1 (Hs & Hb & Hl1).
  2: { split_and!; [done|]. intros [Hw1 He1]%Hl1.
       split; [intros (? & ? & ?)%Hw1; by split_and!|by intros [? _]%He1]. }
  apply runs_bind, runs_bind. eapply runs_eq; [reflexivity|].
  eapply runs_mono; [apply recv_loop_runs; [by apply Hb|lia]|]. intros _ c2 ([m Hm] & Hw2 & He2).
  apply runs_bind, runs_bind. eapply runs_eq; [reflexivity|].
  eapply runs_mono; [apply send_loop_runs; lia|]. intros _ c3 (H1 & H2 & H3 & H4).
  apply runs_bind. eapply runs_eq; [reflexivity|]. cbn. rewrite H2. split.
  { intros [Hc Hr%negb_true_iff]%negb_false_iff%andb_true_iff. split; [done|].
    destruct (decide (rx_buf (c_sock c3) = [])) as [|Hne%can_recv_spec]; [done|congruence]. }
  intros [Hw1 He1]%Hl1. split.
  - intros Hw. destruct (Hw1 Hw) as (Hwh1 & _ & Hi1), (Hw2 Hwh1) as (Hwh2 & Hl2 & Hi2).
    split_and!; [|unfold whole in *; by rewrite H4|done|].
    + unfold incoming in *. by rewrite H1, H2, H3, Hi2, Hi1.
    + intros _. exists m. rewrite H3, Hm, (assoc_L (++)). f_equal.
      unfold incoming in Hi1. rewrite Hb, Hs, (assoc_L (++)), app_nil_r in Hi1 by done.
      rewrite (assoc_L (++)) in Hi1. by apply app_inv_tail in Hi1.
  - intros [_ He]%He1. by apply He2.
Qed.

Lemma pipe_read_delivers n p c r l r' :
  p_rx p = RData c :: r → c ≠ [] → delivers r l r' → 0 < n →
  ∃ c1 r1 l1, pipe_read n p = (Ok c1, MkPipe r1 (p_tx p) (p_wr p)) ∧ c1 ≠ [] ∧
    c ++ l = c1 ++ l1 ∧ delivers r1 l1 r'.
Proof.
  intros Hp Hc Hd Hn.
  destruct (read_delivers n (idle (p_rx p)) c r l r' Hp Hc Hd Hn) as (c1 & r1 & l1 & Hr & H1 & _ & H2 & H3 & _).
  exists c1, r1, l1. split_and!; [|done..]. unfold pipe_read, zoom. by rewrite Hr.
Qed.

(** What the user has written goes to the socket in order, if there is room
    for all of it. *)
Lemma send_loop_sends fuel c l e r :
  delivers (p_rx (c_proxy c)) l (RFail e :: r) → kind e = WouldBlock → can_send (c_sock c) = true →
  lenZ l < tx_capacity (c_sock c) - lenZ (tx_buf (c_sock c)) →
  (rx_size (p_rx (c_proxy c)) < fuel)%nat →
  runs (send_loop fuel) c (λ _ c', tx_buf (c_sock c') = tx_buf (c_sock c) ++ l ∧
    state (c_sock c') = state (c_sock c) ∧ p_rx (c_proxy c') = r).
Proof.
  revert c l. induction fuel as [|fuel IH]; intros c l Hd He Hc Hroom Hf; [lia|]. cbn [send_loop].
  apply runs_bind. eapply runs_eq; [reflexivity|]. rewrite Hc.
  apply runs_bind, runs_try, returns_zoom.
  apply delivers_inv in Hd as [[-> Hp]|(x & r0 & l0 & Hx & Hd & Hp & ->)].
  - unfold returns, pipe_read, zoom, read. rewrite Hp. cbn. rewrite He. cbn. by rewrite app_nil_r.
  - destruct (pipe_read_delivers 8192 (c_proxy c) x r0 l0 _ Hp Hx Hd) as (c1 & r1 & l1 & Hr & Hc1 & Hcat & Hd1); [done|].
    pose proof (pipe_read_returns 8192 (c_proxy c) ltac:(done)) as Hsz. unfold returns in Hsz |- *.
    rewrite Hr in Hsz |- *. destruct Hsz as (_ & _ & Hsz). cbn [p_rx] in Hsz.
    destruct c1 as [|b c1]; [done|]. specialize (Hsz ltac:(done)).
    rewrite Hcat in Hroom |- *. rewrite lenZ_app in Hroom. pose proof (lenZ_nonneg l1).
    destruct (send_slice_spec (b :: c1) (c_sock c) Hc) as (s' & Hs & Htx & _ & Hcap & Hst & Hsend).
    rewrite Z.min_l in Hs, Htx by lia.
    rewrite take_ge in Htx by (unfold lenZ; lia).
    apply runs_bind. eapply runs_eq; [unfold on_socket; cbn [c_sock]; by rewrite Hs|].
    assert (lenZ (tx_buf s') = lenZ (tx_buf (c_sock c)) + lenZ (b :: c1)) as Hlen by (by rewrite Htx, lenZ_app).
    eapply runs_mono; [apply (IH _ l1); cbn [c_sock c_proxy p_rx]; [done|done|apply Hsend; lia|lia|lia]|].
    cbn [c_sock]. intros _ c' (H1 & H2 & H3). split_and!; [|congruence|done].
    by rewrite H1, Htx, <-(assoc_L (++)).
Qed.

(** A piece for which the socket has not enough room is cut: the rest has been
    read from the pipe and is sent nowhere. *)
Lemma full_socket_drops fuel c l r :
  p_rx (c_proxy c) = RData l :: r → can_send (c_sock c) = true → (2 ≤ fuel)%nat →
  let room := tx_capacity (c_sock c) - lenZ (tx_buf (c_sock c)) in
  room < lenZ l ≤ 8192 →
  runs (send_loop fuel) c (λ _ c',
    tx_buf (c_sock c') = tx_buf (c_sock c) ++ take (Z.to_nat room) l ∧ p_rx (c_proxy c') = r).
Proof.
  intros Hp Hc Hf room Hroom. destruct fuel as [|[|fuel]]; [lia..|].
  pose proof (can_send_room _ Hc) as Hpos. fold room in Hpos.
  destruct l as [|b l]; [unfold lenZ in Hroom; cbn in Hroom; subst room; lia|].
  cbn [send_loop]. apply runs_bind. eapply runs_eq; [reflexivity|]. rewrite Hc.
  apply runs_bind, runs_try, returns_zoom. unfold returns, pipe_read, zoom, read. cbn [rx idle].
  rewrite Hp, (proj2 (Z.leb_le _ _)) by lia. cbn [rx p_rx].
  destruct (send_slice_spec (b :: l) (c_sock c) Hc) as (s' & Hs & Htx & _ & Hcap & _ & _).
  fold room in Hs, Htx. rewrite Z.min_r in Hs, Htx by lia.
  apply runs_bind. eapply runs_eq; [unfold on_socket; cbn [c_sock]; by rewrite Hs|].
  apply runs_bind. eapply runs_eq; [reflexivity|]. cbn [c_sock].
  destruct (can_send s') eqn:Hc'; [|done]. apply can_send_room in Hc'.
  rewrite Htx, lenZ_app in Hc'. unfold lenZ in Hc' at 2. rewrite length_take in Hc'.
  unfold room, lenZ in *. lia.
Qed.

(** A write that takes a part before it fails: the part is in the pipe, and the
    whole piece is kept to be written again. *)
Lemma pipe_write_all_partial l p k e :
  p_wr p = [WTake k; WFail e] → kind e ≠ Interrupted → 0 < k < lenZ l →
  pipe_write_all l p = (Err e, MkPipe (p_rx p) (p_tx p ++ take (Z.to_nat k) l) []).
Proof.
  intros Hw He Hk. unfold pipe_write_all. rewrite Hw. cbn [length].
  assert (lenZ (take (Z.to_nat k) l) = k) as Hlen by (unfold lenZ in *; rewrite length_take; lia).
  assert (drop (Z.to_nat k) l ≠ []) as Hdrop.
  { intros Hd%(f_equal length). rewrite length_drop in Hd. unfold lenZ in Hk. cbn in Hd. lia. }
  destruct l as [|b l]; [change (lenZ []) with 0 in Hk; lia|].
  remember 2%nat as fuel eqn:Hf. cbn [write_all_loop].
  unfold sbind at 1, stry, pipe_write at 1. cbn beta. rewrite Hw, Hlen, (proj2 (Z.eqb_neq _ 0)) by lia.
  destruct (drop _ _) as [|b' l2]; [done|]. subst fuel. cbn [write_all_loop].
  unfold sbind, stry, pipe_write. cbn [p_wr]. by rewrite decide_False.
Qed.

Lemma partial_write_repeats fuel c k e :
  c_write_buf c = [] → p_wr (c_proxy c) = [WTake k; WFail e] → kind e ≠ Interrupted →
  0 < k < lenZ (rx_buf (c_sock c)) → lenZ (rx_buf (c_sock c)) ≤ 8192 → (1 ≤ fuel)%nat →
  runs (recv_loop fuel) c (λ _ c',
    p_tx (c_proxy c') = p_tx (c_proxy c) ++ take (Z.to_nat k) (rx_buf (c_sock c)) ∧
    c_write_buf c' = rx_buf (c_sock c)).
Proof.
  intros Hb Hw He Hk Hl Hf. destruct fuel as [|fuel]; [lia|]. cbn [recv_loop].
  apply runs_bind. eapply runs_eq; [reflexivity|].
  assert (can_recv (c_sock c) = true) as Hc.
  { apply can_recv_spec. intros H0. rewrite H0 in Hk. change (lenZ []) with 0 in Hk. lia. }
  rewrite Hc. destruct (recv_slice_spec 8192 (c_sock c) Hc) as (s' & Hs & _); [lia|].
  rewrite take_ge in Hs by (unfold lenZ in Hl; lia).
  apply runs_bind. eapply runs_eq; [unfold on_socket; by rewrite Hs|].
  destruct (rx_buf (c_sock c)) as [|b l]; [change (lenZ []) with 0 in Hk; lia|].
  apply runs_bind, runs_try, returns_zoom. unfold returns. cbn [c_proxy].
  rewrite (pipe_write_all_partial _ _ _ _ Hw He Hk). eapply runs_eq; [reflexivity|]. cbn. by rewrite Hb.
Qed.
End bridge_spec.

(** ** The loop *)
Section loop_spec.
Context `{T : TcpStack} `{TL : !TcpStackLaws T} {W : Type} `{HO : Host W} `{HL : !HostLaws HO}.

(** Distinct handles, each of a socket in the set. *)
Definition live (hs : list nat) (m : gmap nat socket) : Prop :=
  NoDup hs ∧ Forall (λ h, is_Some (m !! h)) hs.
Definition handles (ps : list (nat * nat)) (l : list (nat * pipe * list byte)) : list nat :=
  ps.*1 ++ l.*1.*1.

#[export] Instance live_perm : Proper ((≡ₚ) ==> eq ==> iff) live.
Proof. intros l1 l2 Hl m ? <-. unfold live. by rewrite Hl. Qed.

Lemma live_insert hs m h s : live hs m → m !! h = None → live (hs ++ [h]) (<[h := s]> m).
Proof.
  intros [Hn Hs] Hh. rewrite Forall_forall in Hs. split.
  - apply NoDup_app. split_and!; [done| |apply NoDup_singleton].
    intros x Hx ->%list_elem_of_singleton. destruct (Hs _ Hx). congruence.
  - apply Forall_app. split; [|by rewrite Forall_singleton, lookup_insert_eq].
    apply Forall_forall. intros x Hx. destruct (decide (h = x)) as [->|Hne]; [by rewrite lookup_insert_eq|].
    rewrite lookup_insert_ne by done. auto.
Qed.
Lemma live_update hs m h s : live hs m → live hs (<[h := s]> m).
Proof.
  intros [Hn Hs]. split; [done|]. eapply Forall_impl; [done|]. intros x Hx.
  destruct (decide (h = x)) as [->|Hne]; [by rewrite lookup_insert_eq|by rewrite lookup_insert_ne].
Qed.
Lemma live_cons_inv h hs m : live (h :: hs) m → is_Some (m !! h) ∧ live hs m ∧ live hs (delete h m).
Proof.
  intros [[Hh Hn]%NoDup_cons [Hs Hf]%Forall_cons]. split_and!; [done|done|]. split; [done|].
  rewrite Forall_forall in Hf |- *. intros x Hx. rewrite lookup_delete_ne by (intros ->; done). auto.
Qed.
Lemma live_dom hs m m' : dom m' = dom m → live hs m → live hs m'.
Proof.
  intros Hd [Hn Hs]. split; [done|]. eapply Forall_impl; [done|]. intros h Hh. cbn in Hh |- *.
  rewrite <-elem_of_dom in Hh |- *. by rewrite Hd.
Qed.

(** Every request that was taken is pending or has been answered, once. *)
Record loop_inv (asked : list nat) (v : vars (W:=W)) : Prop := {
  inv_live : live (handles (pending v) (active v)) (sockets v);
  inv_port : 49152 ≤ next_port v < 2 ^ 16;
  inv_asked : (results v).*1 ++ (pending v).*2 ≡ₚ asked
}.

Lemma loop_inv_device asked d v : loop_inv asked v → loop_inv asked (set_device d v).
Proof. intros [H1 H2 H3]. by split; [exact H1|exact H2|exact H3]. Qed.

Lemma take_request_runs asked req v :
  loop_inv asked v → runs (take_request req) v (λ _ v', loop_inv (asked ++ [result_tx req]) v').
Proof.
  intros [Hl Hp Ha]. unfold take_request. apply runs_bind. eapply runs_eq; [reflexivity|].
  apply runs_bind. eapply runs_eq; [reflexivity|].
  assert (49152 ≤ Z.max (wrap 16 (next_port v + 1)) 49152 < 2 ^ 16) as Hp'.
  { pose proof (Z.mod_pos_bound (next_port v + 1) (2 ^ 16) ltac:(lia)). unfold wrap. lia. }
  destruct (tcp_connect _ _ _ _) as [[e|[]] [i sock]].
  - apply runs_bind. eapply runs_eq; [reflexivity|]. eapply runs_eq; [reflexivity|].
    split; [exact Hl|exact Hp'|]. cbn. rewrite fmap_app. cbn. rewrite <-Ha. solve_Permutation.
  - apply runs_bind. eapply runs_eq; [reflexivity|]. eapply runs_eq; [reflexivity|].
    split; cbn; [|exact Hp'|].
    + unfold handles in *. rewrite fmap_app. cbn.
      rewrite <-(assoc_L (++)), (Permutation_app_comm [_]), (assoc_L (++)).
      apply live_insert; [done|apply new_handle_fresh].
    + rewrite fmap_app. cbn. by rewrite (assoc_L (++)), Ha.
Qed.
Lemma take_requests_runs asked reqs v :
  loop_inv asked v → runs (take_requests reqs) v (λ _ v', loop_inv (asked ++ (result_tx <$> reqs)) v').
Proof.
  revert asked v. induction reqs as [|req reqs IH]; intros asked v Hv; cbn.
  - by rewrite app_nil_r.
  - apply runs_bind. eapply runs_mono; [by apply take_request_runs|]. intros ? v1 Hv1.
    eapply runs_mono; [exact (IH _ v1 Hv1)|]. intros ? v2. by rewrite <-(assoc_L (++)).
Qed.

Lemma iface_poll_runs asked v : loop_inv asked v → runs iface_poll v (λ _ v', loop_inv asked v').
Proof.
  intros [Hl Hp Ha]. unfold iface_poll, the_time. unfold runs, sbind.
  destruct (now (v_world v)) as [t w]. unfold smodify. cbn.
  pose proof (poll_sockets t (iface v) (device v) (sockets v)) as Hd.
  destruct (poll _ _ _ _) as [[i d] m]. split; cbn; [|done|done]. by eapply live_dom.
Qed.

Lemma live_drop h hs m : live (h :: hs) m → live hs m.
Proof. by intros (_ & ? & _)%live_cons_inv. Qed.

(** What promotion and bridging leave alone. *)
Definition same_rest (v v' : vars (W:=W)) : Prop :=
  pending v' = pending v ∧ next_port v' = next_port v.

Lemma promote_one_runs kept p ps v :
  live (handles (kept ++ p :: ps) (active v)) (sockets v) →
  runs (promote_one p) v (λ stays v',
    live (handles ((if (stays : bool) then kept ++ [p] else kept) ++ ps) (active v')) (sockets v') ∧
    same_rest v v' ∧ (results v').*1 ++ (if stays then [p.2] else []) ≡ₚ (results v).*1 ++ [p.2]).
Proof.
  destruct p as [h ch]. intros Hl.
  assert (live (h :: handles (kept ++ ps) (active v)) (sockets v)) as Hl'.
  { revert Hl. unfold handles. rewrite !fmap_app. cbn.
    rewrite <-!(assoc_L (++)), <-app_comm_cons. by rewrite <-Permutation_middle. }
  destruct (live_cons_inv _ _ _ Hl') as ([sock Hsock] & Hd & _).
  unfold promote_one. apply runs_bind. eapply runs_eq; [unfold get_socket; by rewrite Hsock|].
  assert (∀ a, runs (send_result ch a ;;; sret false) v (λ (stays : bool) v',
    live (handles ((if stays then kept ++ [(h, ch)] else kept) ++ ps) (active v')) (sockets v') ∧
    same_rest v v' ∧ (results v').*1 ++ (if stays then [ch] else []) ≡ₚ (results v).*1 ++ [ch])) as Hfail.
  { intros a. apply runs_bind. eapply runs_eq; [reflexivity|].
    split_and!; [exact Hd|done|]. cbn. by rewrite fmap_app, app_nil_r. }
  assert (runs (sret (E:=Empty_set) true) v (λ (stays : bool) v',
    live (handles ((if stays then kept ++ [(h, ch)] else kept) ++ ps) (active v')) (sockets v') ∧
    same_rest v v' ∧ (results v').*1 ++ (if stays then [ch] else []) ≡ₚ (results v).*1 ++ [ch])) as Hstay.
  { unfold runs, sret. rewrite <-(assoc_L (++)). split_and!; [exact Hl|done|done]. }
  destruct (state sock); try apply Hfail; try exact Hstay.
  apply runs_bind, runs_try, returns_zoom. unfold returns.
  pose proof (unix_pair_returns (v_world v)) as Hu.
  destruct (unix_pair (v_world v)) as [[[local proxy]|e| |] w]; try done.
  - eapply runs_eq; [reflexivity|].
    split_and!; [|done|cbn; by rewrite fmap_app, app_nil_r]. revert Hl'. unfold handles. rewrite !fmap_app. cbn.
    rewrite <-Permutation_cons_append, <-!(assoc_L (++)). by rewrite !Permutation_middle.
  - eapply runs_eq; [reflexivity|].
    split_and!; [exact Hd|done|]. cbn. by rewrite fmap_app, app_nil_r.
Qed.

Lemma promote_runs kept ps v :
  live (handles (kept ++ ps) (active v)) (sockets v) →
  runs (promote ps) v (λ ps' v',
    live (handles (kept ++ ps') (active v')) (sockets v') ∧ same_rest v v' ∧
    (results v').*1 ++ ps'.*2 ≡ₚ (results v).*1 ++ ps.*2).
Proof.
  revert kept v. induction ps as [|p ps IH]; intros kept v Hl; [done|]. cbn [promote].
  apply runs_bind. eapply runs_mono; [by apply promote_one_runs|].
  intros stays v1 (Hl1 & [Hp1 Hn1] & Hr1). apply runs_bind. eapply runs_mono; [exact (IH _ _ Hl1)|].
  intros ps' v2 (Hl2 & [Hp2 Hn2] & Hr2). destruct stays; cbn [runs sret].
  - rewrite <-(assoc_L (++)) in Hl2. split_and!; [exact Hl2|split; congruence|].
    cbn. rewrite <-!Permutation_middle, Hr2. rewrite <-Permutation_cons_append in Hr1.
    rewrite <-Permutation_cons_append in Hr1. apply Permutation_cons_inv in Hr1. by rewrite Hr1.
  - split_and!; [exact Hl2|split; congruence|]. rewrite app_nil_r in Hr1. cbn.
    rewrite Hr2, Hr1. by rewrite <-(assoc_L (++)).
Qed.

Lemma runs_srun {S E A} (m : ST S E A) (t : S) (v : vars (W:=W)) Q :
  runs m t (λ a t', Q (a, t') v) → runs (srun m t) v Q.
Proof. unfold runs, srun. by destruct (m t) as [[] ?]. Qed.

(** What bridging leaves alone. *)
Definition same_requests (v v' : vars (W:=W)) : Prop :=
  same_rest v v' ∧ results v' = results v.

Lemma bridge_one_runs ps kept a l v :
  live (handles ps (kept ++ a :: l)) (sockets v) →
  runs (bridge_one a) v (λ a' v',
    live (handles ps ((match a' with Some a' => kept ++ [a'] | None => kept end) ++ l)) (sockets v') ∧
    same_requests v v').
Proof.
  destruct a as [[h proxy] buf]. intros Hl.
  assert (live (h :: handles ps (kept ++ l)) (sockets v)) as Hl'.
  { revert Hl. unfold handles. rewrite !fmap_app. cbn. by rewrite <-!Permutation_middle. }
  destruct (live_cons_inv _ _ _ Hl') as ([sock Hsock] & _ & Hdel).
  unfold bridge_one. apply runs_bind. eapply runs_eq; [unfold get_socket; by rewrite Hsock|].
  apply runs_bind, runs_srun. eapply runs_mono; [by apply bridge_conn_runs|]. intros [] c _.
  - eapply runs_eq; [reflexivity|]. split; [|done]. apply live_update.
    revert Hl. unfold handles. by rewrite !fmap_app, <-!(assoc_L (++)).
  - eapply runs_eq; [reflexivity|]. split; [|done]. exact Hdel.
Qed.

(** C12. What has arrived for the user of a connection: a turn for it, in
    [promote_and_bridge], neither repeats nor moves any of it, as long as the pipe
    takes a piece of the copying buffer at once or not at all.  If the connection
    stays, nothing is lost either: the bytes in the pipe, the bytes kept for it and
    the bytes in the socket are together the same bytes in the same order.  It is
    dropped only when its socket is closed and has been emptied; then the bytes of
    earlier turns are in the pipe, and what of the last ones is missing there is one
    piece of at most 8192 bytes that the pipe has refused in this very turn (none,
    if the pipe refuses nothing). *)
Theorem bridge_keeps_order v handle sock proxy write_buf :
  sockets v !! handle = Some sock → whole proxy → lenZ write_buf ≤ 8192 →
  runs (bridge_one (handle, proxy, write_buf)) v (λ left v', ∃ c',
    incoming c' = p_tx proxy ++ write_buf ++ rx_buf sock ∧ lenZ (c_write_buf c') ≤ 8192 ∧
    match left with
    | Some a => a = (handle, c_proxy c', c_write_buf c') ∧ whole (c_proxy c') ∧
                v' = set_sockets (<[handle := c_sock c']> (sockets v)) v
    | None => v' = set_sockets (delete handle (sockets v)) v ∧
              bridge_conn (MkConn sock proxy write_buf) = (Ok false, c') ∧
              (state (c_sock c') = Closed ∨ state (c_sock c') = TimeWait) ∧
              rx_buf (c_sock c') = [] ∧ (∃ m, p_tx (c_proxy c') = p_tx proxy ++ write_buf ++ m) ∧
              (eager proxy → p_tx (c_proxy c') = p_tx proxy ++ write_buf ++ rx_buf sock)
    end).
Proof.
  intros Hs Hw Hl. unfold bridge_one. apply runs_bind. eapply runs_eq; [unfold get_socket; by rewrite Hs|].
  destruct (runs_inv _ _ _ (bridge_conn_runs (MkConn sock proxy write_buf)))
    as ([] & c' & Hb & Hend & Hk); destruct (Hk Hl) as [Hwh He];
    destruct (Hwh Hw) as (Hi & Hw' & Hl' & Hp); unfold runs, srun, sbind; rewrite Hb; cbn; exists c'.
  - by split_and!.
  - destruct Hend as [Hc Hr]; [done|]. split_and!; [done..| |done|by apply Hp|].
    + by apply bool_decide_eq_true in Hc.
    + intros Hpe. unfold incoming in Hi. by rewrite He, Hr, !app_nil_r in Hi.
Qed.

Lemma bridge_all_runs ps kept l v :
  live (handles ps (kept ++ l)) (sockets v) →
  runs (bridge_all l) v (λ l' v', live (handles ps (kept ++ l')) (sockets v') ∧ same_requests v v').
Proof.
  revert kept v. induction l as [|a l IH]; intros kept v Hl; [done|]. cbn [bridge_all].
  apply runs_bind. eapply runs_mono; [by apply bridge_one_runs|].
  intros a' v1 [Hl1 [[H1 H2] H3]]. apply runs_bind. eapply runs_mono; [exact (IH _ _ Hl1)|].
  intros l' v2 [Hl2 [[H4 H5] H6]]. eapply runs_eq; [reflexivity|].
  split; [|unfold same_requests, same_rest; split_and!; congruence].
  destruct a'; [by rewrite <-(assoc_L (++)) in Hl2|exact Hl2].
Qed.

Lemma promote_and_bridge_runs asked v :
  loop_inv asked v → runs promote_and_bridge v (λ _ v', loop_inv asked v').
Proof.
  intros [Hl Hp Ha]. unfold promote_and_bridge. apply runs_bind. eapply runs_eq; [reflexivity|].
  apply runs_bind. eapply runs_mono; [exact (promote_runs [] (pending v) v Hl)|].
  intros ps v1 (Hl1 & [H1 H2] & Hr1). apply runs_bind. eapply runs_eq; [reflexivity|].
  apply runs_bind. eapply runs_eq; [reflexivity|]. cbn [sockets active set_pending].
  apply runs_bind. eapply runs_mono; [exact (bridge_all_runs ps [] (active v1) (set_pending ps v1) Hl1)|].
  intros l v2 (Hl2 & [H3 H4] & H5). eapply runs_eq; [reflexivity|]. cbn in H3, H4, H5.
  split; cbn; [by rewrite H3|by rewrite H4, H2|by rewrite H3, H5, Hr1].
Qed.

Lemma runs_outer {S R E A} (m : ST S E A) (s : S) (r : R) Q :
  runs m s (λ a s', Q a (s', r)) → runs (on_outer m) (s, r) Q.
Proof. intros H. by apply runs_zoom. Qed.
Lemma runs_local {S R E A} (m : ST R E A) (s : S) (r : R) Q :
  runs m r (λ a r', Q a (s, r')) → runs (on_local m) (s, r) Q.
Proof. intros H. by apply runs_zoom. Qed.

Lemma send_packets_runs l c : runs (send_packets l) c (λ _ _, True).
Proof.
  revert c. induction l as [|pkt l IH]; intros c; [done|]. cbn [send_packets]. apply runs_bind.
  unfold runs at 1, signore, send_ipv6_packet, on_cd, zoom, write_all.
  destruct (wq (cd_stream c)) as [|[]]; apply IH.
Qed.

Lemma poll_turn_runs asked rx reqs v c :
  loop_inv asked v →
  runs (poll_turn rx reqs) (v, c) (λ _ vc, loop_inv (asked ++ (result_tx <$> reqs)) vc.1).
Proof.
  intros Hv. unfold poll_turn. apply runs_bind, runs_outer. eapply runs_eq; [reflexivity|].
  apply runs_bind, runs_outer. eapply runs_mono.
  { apply take_requests_runs, loop_inv_device, Hv. }
  intros ? v1 Hv1. apply runs_bind, runs_outer. eapply runs_mono; [exact (iface_poll_runs _ _ Hv1)|].
  intros ? v2 Hv2. apply runs_bind, runs_outer. eapply runs_eq; [reflexivity|].
  apply runs_bind, runs_local. eapply runs_mono; [apply send_packets_runs|]. intros _ c' _.
  apply runs_outer. eapply runs_mono.
  { apply promote_and_bridge_runs, loop_inv_device, Hv2. }
  done.
Qed.

(** The requests that got into the queue. *)
Definition accepts (a : action) (t : tunnel (W:=W)) : list nat :=
  match a with
  | AConnect req => if bool_decide (length (connect_rx t) < 32)%nat then [result_tx req] else []
  | _ => []
  end.
Fixpoint accepted (l : list action) (t : tunnel (W:=W)) : list nat :=
  match l with
  | [] => []
  | a :: l => match tunnel_step a t with Ok t' => accepts a t ++ accepted l t' | _ => [] end
  end.

Definition tunnel_inv (asked : list nat) (t : tunnel (W:=W)) : Prop :=
  ∃ taken, loop_inv taken (tn_vars t) ∧ taken ++ (result_tx <$> connect_rx t) ≡ₚ asked.

Lemma tunnel_step_inv asked a t :
  tunnel_inv asked t → ∃ t', tunnel_step a t = Ok t' ∧ tunnel_inv (asked ++ accepts a t) t'.
Proof.
  intros (taken & Hv & Hq). destruct a as [req| |]; cbn [tunnel_step accepts].
  - eexists. split; [done|]. unfold connect_step. case_bool_decide.
    + exists taken. split; [done|]. cbn. by rewrite fmap_app, (assoc_L (++)), Hq.
    + exists taken. by rewrite app_nil_r.
  - eexists. split; [done|]. exists taken. rewrite app_nil_r. unfold reader_step.
    destruct (reader t) as [s|]; [|done]. destruct (recv_ipv6 s) as [[] ?]; done.
  - destruct (runs_inv _ _ _ (poll_turn_runs taken (rx_queue t) (connect_rx t) (tn_vars t) (tn_conn t) Hv))
      as (u & [v c] & Hr & Hv').
    unfold turn_step. rewrite Hr. cbn. eexists. split; [done|]. exists (taken ++ (result_tx <$> connect_rx t)).
    split; [exact Hv'|]. cbn. by rewrite !app_nil_r.
Qed.

Lemma tunnel_run_inv acts asked t :
  tunnel_inv asked t → ∃ t', tunnel_run acts t = Ok t' ∧ tunnel_inv (asked ++ accepted acts t) t'.
Proof.
  revert asked t. induction acts as [|a acts IH]; intros asked t Ht; cbn.
  - exists t. by rewrite app_nil_r.
  - destruct (tunnel_step_inv asked a t Ht) as (t1 & Hs & H1). rewrite Hs. cbn.
    rewrite (assoc_L (++)). by apply IH.
Qed.

Lemma new_inv cd w p t : new cd w = Ok (p, t) → tunnel_inv [] t ∧ p = params cd.
Proof.
  unfold new. intros Hn. inv_ok. unfold loop_start. destruct (now w) as [tm w'].
  split; [|done]. exists []. split; [|done]. by split; cbn; [split; constructor|lia|].
Qed.

(** C27. Whatever the order in which packets, requests and turns of the loop come:
    the loop does not panic and is never stuck in a turn, the local ports are
    ephemeral ones, and a request that was accepted waits in the queue, or is
    pending, or has been answered, and no request twice. *)
Theorem tunnel_answers_once cd w p t0 acts :
  new cd w = Ok (p, t0) →
  ∃ t, tunnel_run acts t0 = Ok t ∧ 49152 ≤ next_port (tn_vars t) < 2 ^ 16 ∧
    (results (tn_vars t)).*1 ++ (pending (tn_vars t)).*2 ++ (result_tx <$> connect_rx t)
      ≡ₚ accepted acts t0.
Proof.
  intros [Hi _]%new_inv. destruct (tunnel_run_inv acts [] t0 Hi) as (t & Hr & taken & [_ Hp Ha] & Hq).
  exists t. split_and!; [done|lia..|]. by rewrite (assoc_L (++)), Ha, Hq.
Qed.

Lemma recv_ipv6_returns s : returns recv_ipv6 s (λ _ _, True).
Proof.
  unfold recv_ipv6. assert (∀ n s, 0 ≤ n → returns (cd_read_exact n) s (λ r _, ∀ l, r = inr l → lenZ l = n)) as Hr.
  { intros n s0 Hn. destruct (read_exact_total id cd_eof n s0 Hn) as (r1 & _ & _ & H).
    unfold returns, cd_read_exact. destruct (read_exact _ _ _ _) as [[l|e| |] ?]; cbn in H; try done.
    destruct H as [H _]. by intros ? [= <-]. }
  pose proof (Hr 40 s ltac:(done)) as Hh. unfold returns, sbind, lift in *.
  destruct (cd_read_exact 40 s) as [[hdr|e| |] s1]; try done. specialize (Hh hdr eq_refl).
  unfold slice, get_slice. rewrite bool_decide_true by lia. cbn [andb or_panic].
  set (n := be_val _). assert (0 ≤ n) as Hn by apply be_val_range.
  pose proof (Hr n s1 Hn) as Hb. unfold sret. by destruct (cd_read_exact n s1) as [[] ?].
Qed.

Lemma write_packets_returns l s : returns (write_packets l) s (λ _ _, True).
Proof.
  revert s. induction l as [|pkt l IH]; intros s; [done|]. cbn [write_packets]. unfold returns, sbind, write_all.
  destruct (wq s) as [|[]]; [|done|]; apply IH.
Qed.

(** The same for a turn of the single thread, which is over when its stream fails. *)
Lemma unified_turn_runs asked reqs v s :
  loop_inv asked v →
  runs (unified_turn reqs) (v, s) (λ go_on vs,
    loop_inv (asked ++ (result_tx <$> reqs)) vs.1 ∨ go_on = false ∧ loop_inv asked vs.1).
Proof.
  intros Hv. unfold unified_turn. apply runs_bind, runs_try, returns_zoom.
  eapply returns_mono; [apply recv_ipv6_returns|]. intros r s1 _. cbn [fst].
  destruct (match r with inl e => _ | inr _ => true end); [|right; done].
  apply runs_bind, runs_outer. eapply runs_eq; [reflexivity|].
  apply runs_bind, runs_outer. eapply runs_mono.
  { apply take_requests_runs, loop_inv_device, Hv. }
  intros ? v1 Hv1. apply runs_bind, runs_outer. eapply runs_mono; [exact (iface_poll_runs _ _ Hv1)|].
  intros ? v2 Hv2. apply runs_bind, runs_outer. eapply runs_eq; [reflexivity|].
  pose proof (loop_inv_device _ (set_tx [] (device v2)) _ Hv2) as Hv3.
  apply runs_bind, runs_try, returns_zoom. eapply returns_mono; [apply write_packets_returns|].
  intros [e|[]] s2 _; [by left|]. apply runs_bind.
  unfold runs at 1, signore, on_local, zoom, flush. cbn [snd fst].
  destruct (wq s2) as [|[]]; (apply runs_bind, runs_outer; eapply runs_mono;
    [by apply promote_and_bridge_runs|]; intros ? v4 Hv4; by left).
Qed.

(** A socket of a connection that failed stays in the set, with its buffers. *)
Lemma refused_socket_kept h ch v sock :
  sockets v !! h = Some sock → state sock = Closed →
  promote_one (h, ch) v =
    (Ok false, add_result ch (inl "connection refused or timed out"%string) v).
Proof. intros Hs Hc. unfold promote_one, get_socket, sbind. rewrite Hs. cbn. by rewrite Hc. Qed.

(** A connection that the peer has closed before the loop saw it established is
    in none of the states that end the wait. *)
Lemma closed_early_waits h ch v sock :
  sockets v !! h = Some sock → state sock = CloseWait → promote_one (h, ch) v = (Ok true, v).
Proof. intros Hs Hc. unfold promote_one, get_socket, sbind. rewrite Hs. cbn. by rewrite Hc. Qed.
End loop_spec.

(** ** A small library and host *)
Module ToyNet.
Record sock : Type := MkSock { st : State; rxb : list byte; txb : list byte; cap : Z; may_send : bool }.
Definition has_room (s : sock) : bool := may_send s && (lenZ (txb s) <? cap s).

(** A packet names a socket by its first byte.  The first one of a connection
    decides whether it is established; what follows the header of the others
    arrives. *)
Definition on_packet (m : gmap nat sock) (pkt : packet) : gmap nat sock :=
  match pkt with
  | [] => m
  | h :: l =>
      alter (λ s, match st s with
                  | SynSent => match drop 39 l with
                               | [] => MkSock Closed [] [] (cap s) false
                               | _ => MkSock Established [] [] (cap s) true
                               end
                  | _ => MkSock (st s) (rxb s ++ drop 39 l) (txb s) (cap s) (may_send s)
                  end) (Z.to_nat (u8 h)) m
  end.

#[export] Instance lib : TcpStack := {|
  socket := sock;
  interface := unit;
  socket_new _ tx := MkSock Closed [] [] tx false;
  state := st;
  rx_buf := rxb;
  tx_buf := txb;
  tx_capacity := cap;
  can_recv s := negb (bool_decide (rxb s = []));
  can_send := has_room;
  recv_slice n s := (inr (take (Z.to_nat n) (rxb s)),
                     MkSock (st s) (drop (Z.to_nat n) (rxb s)) (txb s) (cap s) (may_send s));
  send_slice l s := let k := Z.min (lenZ l) (cap s - lenZ (txb s)) in
                    (inr k, MkSock (st s) (rxb s) (txb s ++ take (Z.to_nat k) l) (cap s) (may_send s));
  close s := MkSock FinWait1 (rxb s) (txb s) (cap s) false;
  tcp_connect i _ _ s := (inr tt, (i, MkSock SynSent [] [] (cap s) false));
  interface_new _ _ _ := tt;
  poll _ i d m := (i, MkDevice [] (d_tx d) (d_mtu d), foldl on_packet m (d_rx d));
  new_handle m := fresh (dom m)
|}.

Lemma on_packets_dom l m : dom (foldl on_packet m l) = dom m.
Proof.
  revert m. induction l as [|[|h pkt] l IH]; intros m; [done|apply IH|].
  cbn [foldl]. rewrite IH. apply (dom_alter_L (D:=gset nat)).
Qed.

#[export] Instance laws : TcpStackLaws lib.
Proof.
  split; cbn.
  - intros s. rewrite negb_true_iff. by case_bool_decide.
  - intros n s _ _. by eexists.
  - intros l s [Hm Hr%Z.ltb_lt]%andb_true_iff. eexists. split_and!; [done..|].
    cbn. intros Hlt. apply andb_true_iff. split; [done|]. by apply Z.ltb_lt.
  - intros s [_ Hr%Z.ltb_lt]%andb_true_iff. done.
  - done.
  - intros _ _ d m. apply on_packets_dom.
  - intros _ _ d m. destruct d as [rx tx mtu]. cbn. induction rx as [|pkt rx IH]; [done|].
    eapply rtc_l; [by eapply device_receives|]. exact IH.
  - intros m. apply (not_elem_of_dom (D:=gset nat)), is_fresh.
Qed.

(** The pairs of sockets of the coming connections. *)
#[export] Instance host : Host (list (io_error + pipe)) := {|
  local_end := nat;
  now w := (0, w);
  unix_pair w := match w with
                 | [] => (Err (IoError (OtherKind 24) "too many open files"), [])
                 | inl e :: w => (Err e, w)
                 | inr p :: w => (Ok (length w, p), w)
                 end;
  clone_tcp s := Ok s;
  spawn_thread _ := Ok tt
|}.
#[export] Instance host_laws : HostLaws host.
Proof. split. by intros [|[] ?]. Qed.
End ToyNet.

Section witnesses.
Import ToyNet.

(** For the socket of a handle. *)
Definition packet_for (h : Z) (l : list byte) : packet :=
  byte_of h :: replicate 3 x00 ++ be_bytes 2 (lenZ l) ++ replicate 34 x00 ++ l.
Definition blocked : io_error := IoError WouldBlock "resource temporarily unavailable".

Definition toy_params : TunnelParams := MkTunnelParams [1] [2] 58783 1280.
Definition toy_conn : CdTunnelConn :=
  MkCdTunnel (idle [RData (packet_for 0 [x01]); RData (packet_for 1 []); RData (packet_for 0 [x02; x03])])
    toy_params.
Definition toy_pairs : list (io_error + pipe) :=
  [inr (MkPipe [RData [x07]; RFail blocked] [] [])].

Definition opened : outcome Error (TunnelParams * tunnel (W:=list (io_error + pipe))) :=
  Eval vm_compute in new toy_conn toy_pairs.
Definition toy_tunnel : tunnel (W:=list (io_error + pipe)) :=
  match opened with
  | Ok (_, t) => t
  | _ => MkTunnel (loop_start [] 0 []) [] [] toy_conn None
  end.
Definition toy_actions : list action :=
  [AConnect (MkConnectReq [2] 62078 1); AConnect (MkConnectReq [2] 62078 2); ATurn; ARead; ARead; ATurn; ARead; ATurn].

Lemma tunnel_answers_once_witness :
  ∃ t, tunnel_run toy_actions toy_tunnel = Ok t ∧ 49152 ≤ next_port (tn_vars t) < 2 ^ 16 ∧
    (results (tn_vars t)).*1 ++ (pending (tn_vars t)).*2 ++ (result_tx <$> connect_rx t) ≡ₚ [1; 2]%nat.
Proof.
  apply (tunnel_answers_once toy_conn toy_pairs toy_params toy_tunnel toy_actions).
  vm_compute. reflexivity.
Defined.

(** A closed socket with three bytes, and a pipe that has been told to take two
    more. *)
Definition toy_socket : sock := MkSock Closed [x01; x02; x03] [] 10 false.
Definition toy_proxy : pipe := MkPipe [RData [x09]; RFail blocked] [x00] [].
Definition toy_vars : vars (W:=list (io_error + pipe)) :=
  set_sockets {[ 3%nat := toy_socket ]} (loop_start [] 1280 []).
Lemma bridge_keeps_order_witness :
  runs (bridge_one (3%nat, toy_proxy, [x04; x05])) toy_vars (λ left v', ∃ c',
    incoming c' = [x00; x04; x05; x01; x02; x03] ∧ lenZ (c_write_buf c') ≤ 8192 ∧
    match left with
    | Some a => a = (3%nat, c_proxy c', c_write_buf c') ∧ whole (c_proxy c') ∧
                v' = set_sockets (<[3%nat := c_sock c']> (sockets toy_vars)) toy_vars
    | None => v' = set_sockets (delete 3%nat (sockets toy_vars)) toy_vars ∧
              bridge_conn (MkConn toy_socket toy_proxy [x04; x05]) = (Ok false, c') ∧
              (state (c_sock c') = Closed ∨ state (c_sock c') = TimeWait) ∧
              rx_buf (c_sock c') = [] ∧ (∃ m, p_tx (c_proxy c') = [x00; x04; x05] ++ m) ∧
              (eager toy_proxy → p_tx (c_proxy c') = [x00; x04; x05; x01; x02; x03])
    end).
Proof.
  apply (bridge_keeps_order toy_vars 3%nat toy_socket toy_proxy [x04; x05]);
    [by vm_compute|by apply Forall_nil|by vm_compute].
Defined.

(** A connection that is over while the pipe is full: the bytes that were kept
    for the pipe go with it. *)
Lemma closed_connection_drops :
  let full := MkPipe [RFail blocked] [] [WFail blocked] in
  ∃ c', bridge_conn (MkConn toy_socket full []) = (Ok false, c') ∧
    p_tx (c_proxy c') = [] ∧ c_write_buf c' = [x01; x02; x03].
Proof. eexists. by vm_compute. Qed.
End witnesses.
