(* ===== verification/Provision.v ===== *)
(** * Pairing, setting up and activating a device from the command line

    [src/bin/ios/cmd/pair.rs], [setup.rs] and [activate.rs]: certificates and keys
    are read from files, the operations are those of [Pairing] and [Services], and
    the activation server of Apple is the class [Web].  What the commands print
    is in [Results]. *)

From S2P Require Import Prelude RustStd Text Io Plist Os Version CdTunnel Tunnel Services.
From S2P Require UsbmuxTypes UsbmuxConn Lockdown DeviceSession Daemon Cli Der Pairing RpCredentials Launch.

Abbreviation anyhow := Daemon.anyhow.

(** ** Certificates in files *)
Module CertFile.
(** [load_der_or_pem_cert] and its helpers, of which [pair.rs] and [setup.rs] have
    a copy each. *)

Definition TABLE : list byte := Der.TABLE.
(** [map[c]]: the position in the table, and 255 for every other byte. *)
Definition sextet_of (c : byte) : Z :=
  match list_find (λ t, t = c) TABLE with Some (i, _) => Z.of_nat i | None => 0xff end.

Definition skipped (b : byte) : bool :=
  bool_decide (b = "="%byte) || bool_decide (b = x0a) || bool_decide (b = x0d).

Definition join2 (b0 b1 : Z) : byte := byte_of (Z.lor (wrap 8 (Z.shiftl b0 2)) (Z.shiftr b1 4)).
Definition join4 (b1 b2 : Z) : byte := byte_of (Z.lor (wrap 8 (Z.shiftl b1 4)) (Z.shiftr b2 2)).
Definition join6 (b2 b3 : Z) : byte := byte_of (Z.lor (wrap 8 (Z.shiftl b2 6)) b3).

(** The loop over [bytes.chunks(4)]. *)
Fixpoint decode_chunks (l : list byte) : list byte :=
  match l with
  | c0 :: c1 :: c2 :: c3 :: l =>
      join2 (sextet_of c0) (sextet_of c1) :: join4 (sextet_of c1) (sextet_of c2)
        :: join6 (sextet_of c2) (sextet_of c3) :: decode_chunks l
  | [c0; c1; c2] =>
      [join2 (sextet_of c0) (sextet_of c1); join4 (sextet_of c1) (sextet_of c2)]
  | [c0; c1] => [join2 (sextet_of c0) (sextet_of c1)]
  | _ => []
  end.
Definition base64_decode (s : list byte) : list byte :=
  decode_chunks (filter (λ b, skipped b = false) s).

(** [str::lines]: without the line ends, and without an empty line at the end *)
Definition strip_cr (l : list byte) : list byte :=
  match reverse l with x0d :: r => reverse r | _ => l end.
Definition lines (l : list byte) : list (list byte) :=
  match reverse (split_on Der.is_nl l) with
  | [] => []
  | [] :: r => strip_cr <$> reverse r
  | last :: r => (strip_cr <$> reverse r) ++ [last]
  end.

Definition starts_with (p l : list byte) : bool := bool_decide (is_Some (strip_prefix p l)).
(** The text between the first BEGIN line and the first END line. *)
Fixpoint pem_body (in_block : bool) (ls : list (list byte)) : list byte :=
  match ls with
  | [] => []
  | line :: ls =>
      if starts_with (bytes_of "-----BEGIN") line then pem_body true ls
      else if starts_with (bytes_of "-----END") line then []
      else if in_block then line ++ pem_body in_block ls
      else pem_body in_block ls
  end.
Definition dashes : list byte := bytes_of "-----".

Definition cert_of_bytes (raw : list byte) : outcome anyhow (list byte) :=
  if contains_sub dashes raw then
    let? _ := ok_or (from_utf8 raw) [msg0 "invalid utf-8 sequence"] in
    Ok (base64_decode (pem_body false (lines raw)))
  else Ok raw.

Section load.
Context {W : Type} `{FS : RpCredentials.Files W}.
Definition load_der_or_pem_cert (path : string) : ST W anyhow (list byte) :=
  let! raw := Daemon.any_io (RpCredentials.file_read path) in
  lift (cert_of_bytes raw).
End load.

(** *** Reading what the library writes *)

Lemma sextet_of_spec b k :
  0 ≤ k → sextet_of (Der.sextet b k) = (b / 2 ^ k) mod 64 ∧ skipped (Der.sextet b k) = false.
Proof.
  intros Hk. unfold Der.sextet.
  rewrite Z.shiftr_div_pow2 by done. change 63 with (Z.ones 6). rewrite Z.land_ones by lia.
  change (2 ^ 6) with 64.
  pose proof (Z.mod_pos_bound (b / 2 ^ k) 64 ltac:(lia)) as Hr.
  generalize dependent ((b / 2 ^ k) mod 64). intros n Hn.
  assert (Forall (λ n, sextet_of (default x00 (Der.TABLE !! Z.to_nat n)) = n ∧
    skipped (default x00 (Der.TABLE !! Z.to_nat n)) = false) (seqZ 0 64)) as H
    by (apply (bool_decide_unpack _); vm_compute; exact I).
  rewrite Forall_forall in H. apply H, elem_of_seqZ. lia.
Qed.

(** Two sextets make a byte. *)
Lemma joins x y :
  0 ≤ x < 64 → 0 ≤ y < 64 →
  join2 x y = byte_of (x * 4 + y / 16) ∧ join4 x y = byte_of (x mod 16 * 16 + y / 4) ∧
  join6 x y = byte_of (x mod 4 * 64 + y).
Proof.
  intros Hx Hy.
  assert (forallb (λ x, forallb (λ y, bool_decide (join2 x y = byte_of (x * 4 + y / 16))
    && bool_decide (join4 x y = byte_of (x mod 16 * 16 + y / 4))
    && bool_decide (join6 x y = byte_of (x mod 4 * 64 + y))) (seqZ 0 64)) (seqZ 0 64) = true) as H
    by (vm_compute; reflexivity).
  rewrite forallb_forall in H. specialize (H x). rewrite <-list_elem_of_In, elem_of_seqZ in H.
  specialize (H ltac:(lia)). rewrite forallb_forall in H. specialize (H y).
  rewrite <-list_elem_of_In, elem_of_seqZ in H. specialize (H ltac:(lia)).
  rewrite !andb_true_iff in H. destruct H as [[H1 H2] H3].
  by apply bool_decide_eq_true in H1, H2, H3.
Qed.

Lemma byte_of_u8_eq z b : z = u8 b → byte_of z = b.
Proof. intros ->. apply byte_of_u8. Qed.

(** The bytes of a 24-bit number from its sextets. *)
Lemma sextets_bytes b0 b1 b2 (s := λ k, (be_val [b0; b1; b2] / 2 ^ k) mod 64) :
  join2 (s 18) (s 12) = b0 ∧ join4 (s 12) (s 6) = b1 ∧ join6 (s 6) (s 0) = b2.
Proof.
  assert (∀ k, 0 ≤ s k < 64) as Hs by (intros k; apply Z.mod_pos_bound; lia).
  destruct (joins (s 18) (s 12)) as (-> & _ & _); [apply Hs..|].
  destruct (joins (s 12) (s 6)) as (_ & -> & _); [apply Hs..|].
  destruct (joins (s 6) (s 0)) as (_ & _ & ->); [apply Hs..|].
  assert (be_val [b0; b1; b2] = u8 b0 * 65536 + u8 b1 * 256 + u8 b2) as Hv.
  { rewrite !be_val_cons. change (be_val []) with 0. cbn [length]. lia. }
  pose proof (u8_range b0). pose proof (u8_range b1). pose proof (u8_range b2).
  unfold s. rewrite Hv. change (2 ^ 18) with 262144. change (2 ^ 12) with 4096. change (2 ^ 6) with 64.
  change (2 ^ 0) with 1.
  split_and!; apply byte_of_u8_eq; Z.div_mod_to_equations; lia.
Qed.

Lemma filter_sextet b k l :
  0 ≤ k → filter (λ b, skipped b = false) (Der.sextet b k :: l) =
          Der.sextet b k :: filter (λ b, skipped b = false) l.
Proof. intros Hk. by rewrite filter_cons_True by apply sextet_of_spec, Hk. Qed.

Lemma base64_decode_encode l : base64_decode (Der.base64_encode l) = l.
Proof.
  unfold base64_decode. revert l. fix IH 1. intros [|b0 [|b1 [|b2 l]]]; [done| | |]; cbn [Der.base64_encode].
  - rewrite Der.be_val_1, !filter_sextet by done.
    change (filter _ _) with (@nil byte). cbn [decode_chunks].
    destruct (sextets_bytes b0 x00 x00) as (E & _).
    destruct (sextet_of_spec (be_val [b0; x00; x00]) 18) as [-> _]; [done|].
    destruct (sextet_of_spec (be_val [b0; x00; x00]) 12) as [-> _]; [done|]. by rewrite E.
  - rewrite Der.be_val_2, !filter_sextet by done.
    change (filter _ _) with (@nil byte). cbn [decode_chunks].
    destruct (sextets_bytes b0 b1 x00) as (E1 & E2 & _).
    destruct (sextet_of_spec (be_val [b0; b1; x00]) 18) as [-> _]; [done|].
    destruct (sextet_of_spec (be_val [b0; b1; x00]) 12) as [-> _]; [done|].
    destruct (sextet_of_spec (be_val [b0; b1; x00]) 6) as [-> _]; [done|]. by rewrite E1, E2.
  - rewrite <-be_val_3, !filter_sextet by done. cbn [decode_chunks]. rewrite IH.
    destruct (sextets_bytes b0 b1 b2) as (E1 & E2 & E3).
    destruct (sextet_of_spec (be_val [b0; b1; b2]) 18) as [-> _]; [done|].
    destruct (sextet_of_spec (be_val [b0; b1; b2]) 12) as [-> _]; [done|].
    destruct (sextet_of_spec (be_val [b0; b1; b2]) 6) as [-> _]; [done|].
    destruct (sextet_of_spec (be_val [b0; b1; b2]) 0) as [-> _]; [done|]. by rewrite E1, E2, E3.
Qed.

(** A line of base64 text is no framing line. *)
Lemma starts_with_spec p l : starts_with p l = true ↔ ∃ l', l = p ++ l'.
Proof.
  unfold starts_with. rewrite bool_decide_eq_true. split.
  - intros [l' Hl]. exists l'. by apply strip_prefix_Some.
  - intros [l' ->]. exists l'. by apply strip_prefix_Some.
Qed.
Definition plain_text (b : byte) : bool := negb (bool_decide (b = "-"%byte)) && negb (bool_decide (b = x0d)).
Lemma sextet_plain b k : 0 ≤ k → plain_text (Der.sextet b k) = true.
Proof.
  intros Hk. unfold Der.sextet.
  rewrite Z.shiftr_div_pow2 by done. change 63 with (Z.ones 6). rewrite Z.land_ones by lia.
  pose proof (Z.mod_pos_bound (b / 2 ^ k) (2 ^ 6) ltac:(lia)) as Hr.
  generalize dependent ((b / 2 ^ k) mod 2 ^ 6). intros n Hn.
  assert (Forall (λ n, plain_text (default x00 (Der.TABLE !! Z.to_nat n)) = true) (seqZ 0 64)) as H
    by (apply (bool_decide_unpack _); vm_compute; exact I).
  rewrite Forall_forall in H. apply H, elem_of_seqZ. lia.
Qed.
Lemma base64_plain l : Forall (λ b, plain_text b = true) (Der.base64_encode l).
Proof.
  revert l. fix IH 1. intros [|b0 [|b1 [|b2 l]]]; cbn [Der.base64_encode];
    repeat (apply Forall_cons; split; [first [by apply sextet_plain|done]|]);
    [constructor..|apply IH].
Qed.

Lemma strip_cr_id l : Forall (λ b, plain_text b = true) l → strip_cr l = l.
Proof.
  intros Hl. unfold strip_cr. destruct (reverse l) as [|b r] eqn:E; [done|].
  assert (plain_text b = true) as Hb.
  { rewrite Forall_forall in Hl. apply Hl, elem_of_reverse. rewrite E. by left. }
  destruct b; done.
Qed.
Lemma pem_body_lines cs k :
  Forall (Forall (λ b, plain_text b = true)) cs → pem_body true (cs ++ k) = concat cs ++ pem_body true k.
Proof.
  induction 1 as [|c cs Hc _ IH]; [done|]. cbn [app pem_body concat].
  assert (∀ l, starts_with ("-"%byte :: l) c = false) as Hn.
  { intros l. apply not_true_iff_false. intros [l' ->]%starts_with_spec.
    cbn in Hc. by apply Forall_cons in Hc as [? _]. }
  change (bytes_of "-----BEGIN") with ("-"%byte :: bytes_of "----BEGIN").
  change (bytes_of "-----END") with ("-"%byte :: bytes_of "----END").
  rewrite !Hn, IH. by rewrite <-(assoc_L (++)).
Qed.

(** Text of one byte per character, without line ends. *)
Definition label_text (label : string) : Prop :=
  Forall (λ b, u8 b < 128 ∧ b ≠ x0a ∧ b ≠ x0d) (bytes_of label).
#[export] Instance label_text_dec label : Decision (label_text label).
Proof. unfold label_text. apply _. Defined.

Lemma strip_cr_dash l : strip_cr (l ++ bytes_of "-----") = l ++ bytes_of "-----".
Proof. unfold strip_cr. rewrite reverse_app. reflexivity. Qed.

Lemma lines_pem label cs :
  Forall (Forall (λ b, Der.b64_char b = true)) cs → Forall (Forall (λ b, plain_text b = true)) cs →
  label_text label →
  lines (Der.pem_begin label ++ x0a :: concat (Der.line <$> cs) ++ Der.pem_end label ++ x0a :: []) =
    Der.pem_begin label :: cs ++ [Der.pem_end label].
Proof.
  intros Hb Hp Hl. unfold lines.
  assert (∀ a, Forall (λ b, Der.is_nl b = false) a →
    Forall (λ b, Der.is_nl b = false) (a ++ bytes_of label ++ dashes)) as Hnl.
  { intros a Ha. rewrite !Forall_app. split_and!; [done| |apply (bool_decide_unpack _); vm_compute; exact I].
    eapply Forall_impl; [exact Hl|]. intros b (_ & ? & _). unfold Der.is_nl. by rewrite bool_decide_false. }
  rewrite split_on_app; [|apply Hnl|done]; [|apply (bool_decide_unpack _); vm_compute; exact I].
  rewrite Der.split_lines by done.
  rewrite split_on_app; [|apply Hnl|done]; [|apply (bool_decide_unpack _); vm_compute; exact I].
  cbn [split_on]. set (pb := Der.pem_begin label). set (pe := Der.pem_end label).
  assert (reverse (pb :: cs ++ [pe; []]) = [] :: pe :: reverse cs ++ [pb]) as ->
    by (by rewrite reverse_cons, reverse_app).
  assert (reverse (pe :: reverse cs ++ [pb]) = pb :: cs ++ [pe]) as ->
    by (by rewrite reverse_cons, reverse_app, reverse_involutive).
  rewrite fmap_cons, fmap_app. cbn [fmap list_fmap].
  assert (strip_cr <$> cs = cs) as ->.
  { rewrite <-(list_fmap_id cs) at 2. apply list_fmap_ext. intros i c Hc. cbn.
    apply strip_cr_id. rewrite Forall_forall in Hp. apply Hp. by eapply list_elem_of_lookup_2. }
  unfold pb, pe, Der.pem_begin, Der.pem_end. by rewrite !(assoc_L (++)), !strip_cr_dash.
Qed.

Lemma contains_front p l : contains_sub p (p ++ l) = true.
Proof. destruct (p ++ l) eqn:E; cbn [contains_sub]; rewrite <-E, take_app_length, bool_decide_true; done. Qed.

(** A certificate in the PEM form that the library itself writes is read as the
    bytes it was written from, whatever its label; a file without five dashes is
    taken as it is. *)
Lemma cert_read_back label der out :
  label_text label → Der.pem_encode (E:=anyhow) label der = Ok out →
  cert_of_bytes out = Ok der ∧ (contains_sub dashes der = false → cert_of_bytes der = Ok der).
Proof.
  intros Hl Hout. split; [|by intros Hd; unfold cert_of_bytes; rewrite Hd].
  set (cs := chunks 64 (Der.base64_encode der)).
  assert (concat cs = Der.base64_encode der) as Hcs by (apply concat_chunks; lia).
  assert (Forall (Forall (λ c, Der.b64_char c = true)) cs) as Hb
    by (apply Forall_concat; rewrite Hcs; apply Der.base64_chars).
  assert (Forall (Forall (λ c, plain_text c = true)) cs) as Hp
    by (apply Forall_concat; rewrite Hcs; apply base64_plain).
  unfold Der.pem_encode in Hout. fold cs in Hout. rewrite Der.pem_lines_ok in Hout by done.
  assert (out = Der.pem_begin label ++ x0a :: concat (Der.line <$> cs) ++ Der.pem_end label ++ [x0a]) as ->
    by (injection Hout as <-; unfold Der.pem_begin, Der.pem_end; by rewrite <-!(assoc_L (++))).
  clear Hout. unfold cert_of_bytes.
  assert (∀ k, contains_sub dashes (Der.pem_begin label ++ k) = true) as ->.
  { intros k. unfold Der.pem_begin. rewrite <-!(assoc_L (++)). apply (contains_front dashes). }
  assert (∀ k, Forall (λ b, u8 b < 128) k → ∃ s, from_utf8 k = Some s) as Hu.
  { intros k Hk. unfold from_utf8. rewrite utf8_valid_ascii by done. eauto. }
  destruct (Hu (Der.pem_begin label ++ x0a :: concat (Der.line <$> cs) ++ Der.pem_end label ++ [x0a])) as [s ->].
  { assert (Forall (λ b, u8 b < 128) (bytes_of label)) as Hlab
      by (eapply Forall_impl; [exact Hl|]; intros b (? & _); done).
    assert (∀ t : string, forallb (λ b, u8 b <? 128) (bytes_of t) = true → Forall (λ b, u8 b < 128) (bytes_of t)) as Ht.
    { intros t Hf. apply Forall_forall. intros b Hin. rewrite forallb_forall in Hf.
      apply Z.ltb_lt, Hf. by apply list_elem_of_In. }
    assert (Forall (λ b, u8 b < 128) (concat (Der.line <$> cs))) as Hc.
    { apply Forall_concat, Forall_fmap. eapply Forall_impl; [exact Hb|]. intros c Hc. cbn. unfold Der.line.
      apply Forall_app. split; [|by constructor]. eapply Forall_impl; [exact Hc|]. apply Der.b64_char_ascii. }
    unfold Der.pem_begin, Der.pem_end. rewrite !Forall_app, !Forall_cons, !Forall_app.
    split_and!; try done; try (by apply Ht); by constructor. }
  cbn [obind ok_or]. rewrite lines_pem by done. f_equal.
  cbn [pem_body]. rewrite (proj2 (starts_with_spec _ (Der.pem_begin label))).
  2: { exists (" "%byte :: bytes_of label ++ dashes). reflexivity. }
  rewrite pem_body_lines by done. cbn [pem_body].
  rewrite (proj2 (starts_with_spec (bytes_of "-----END") (Der.pem_end label))).
  2: { exists (" "%byte :: bytes_of label ++ dashes). reflexivity. }
  assert (starts_with (bytes_of "-----BEGIN") (Der.pem_end label) = false) as -> by reflexivity.
  rewrite app_nil_r, Hcs. apply base64_decode_encode.
Qed.

Definition sample_cert : list byte := [x30; x03; x02; x01; x05; xff].
Definition sample_pem : list byte :=
  Eval vm_compute in match Der.pem_encode (E:=anyhow) "CERTIFICATE" sample_cert with Ok l => l | _ => [] end.
Lemma cert_read_back_witness :
  cert_of_bytes sample_pem = Ok sample_cert ∧
  (contains_sub dashes sample_cert = false → cert_of_bytes sample_cert = Ok sample_cert).
Proof.
  apply (cert_read_back "CERTIFICATE" sample_cert sample_pem).
  - apply (bool_decide_unpack _). vm_compute. exact I.
  - vm_compute. reflexivity.
Defined.

(** A binary certificate in which five dashes happen to occur is taken for text
    and is lost. *)
Lemma dashes_lost : cert_of_bytes ([x30; x05] ++ dashes) = Ok [].
Proof. reflexivity. Qed.
End CertFile.
Import CertFile.

(** ** Pair records and pairing ([pair.rs]) *)

Section pairing.
Context `{BP : BuildProfile} `{PL : PlistLib} `{T : Lockdown.Tls} `{SJ : CdTunnel.SerdeJson}
  {W : Type} `{OS : Os W} `{TS : TunnelStack W} `{Y : Sys W} `{FS : RpCredentials.Files W}
  `{PE : Pairing.PairingEnv W}.

Definition mux_error (e : UsbmuxTypes.Error) : anyhow := [UsbmuxTypes.Error_fmt e].
(** [Connection::open()?] *)
Definition open_connection : ST W anyhow UsbmuxConn.Conn :=
  let! m := smap_err (λ e, mux_error (UsbmuxTypes.EIo e)) mux_connect in
  sret (UsbmuxConn.from_stream (mux_stream m)).
Definition read_file (context : message) (path : string) : ST W anyhow (list byte) :=
  Daemon.ctx context Daemon.io_fmt (RpCredentials.file_read path).

(** The path of the file that was written. *)
Definition export (udid path : option string) : ST W anyhow string :=
  let! device := Cli.resolve_device udid in
  let! conn := open_connection in
  let! (raw, _) := srun (Daemon.ctx (msg0 "read pair record from usbmuxd") UsbmuxTypes.Error_fmt
                           (UsbmuxConn.conn_read_pair_record (UsbmuxTypes.serial device))) conn in
  let out_path := default (UsbmuxTypes.serial device ++ ".plist")%string path in
  Daemon.ctx (Msg "write {out_path}" [FStr out_path]) Daemon.io_fmt
    (RpCredentials.file_write out_path raw) ;;;
  sret out_path.

Definition import (udid : option string) (path : string) : ST W anyhow unit :=
  let! device := Cli.resolve_device udid in
  let! raw := read_file (Msg "read {path}" [FStr path]) path in
  let! _ := lift (ok_or (from_bytes raw) [Msg "{path} is not a valid plist" [FStr path]; msg0 "{e}"]) in
  let! conn := open_connection in
  let! _ := srun (Daemon.ctx (msg0 "save pair record to usbmuxd") UsbmuxTypes.Error_fmt
                    (UsbmuxConn.conn_save_pair_record (UsbmuxTypes.serial device) raw)) conn in
  sret tt.

(** [.with_context(..)] on the loading of a certificate *)
Definition load_cert (path : string) : ST W anyhow (list byte) :=
  smap_err (cons (Msg "read supervision cert {cert_path}" [FStr path])) (load_der_or_pem_cert path).
Definition load_key (path : string) : ST W anyhow (list byte) :=
  read_file (Msg "read supervision key {key_path}" [FStr path]) path.

Definition pair (udid supervision_cert supervision_key : option string) : ST W anyhow unit :=
  let! device := Cli.resolve_device udid in
  let id := UsbmuxTypes.device_id device in
  let serial := UsbmuxTypes.serial device in
  match supervision_cert, supervision_key with
  | Some cert_path, Some key_path =>
      let! cert_bytes := load_cert cert_path in
      let! key_bytes := load_key key_path in
      Cli.ld_context "supervised pairing" (Pairing.pair_supervised id serial cert_bytes key_bytes)
  | None, None => Cli.ld_context "pairing" (Pairing.pair id serial)
  | _, _ => Cli.bail "--supervision-cert and --supervision-key must both be provided" []
  end.

Definition unpair (udid : option string) : ST W anyhow unit :=
  let! device := Cli.resolve_device udid in
  Cli.ld_context "unpair" (Pairing.unpair (UsbmuxTypes.device_id device) (UsbmuxTypes.serial device)).

(** ** The setup assistant ([setup.rs]) *)

Record SetupStatus : Type := MkSetupStatus {
  supervised : bool;
  organization : option string;
  complete : bool
}.
Definition flag (k : string) (config : dictionary) : bool := default false (dget k config ≫= as_boolean).
Definition setup_status_of (config : dictionary) : SetupStatus :=
  MkSetupStatus (flag "IsSupervised" config) (dget "OrganizationName" config ≫= as_string)
    (flag "CloudConfigurationIsComplete" config).

Definition connect_mc : ST (W * DeviceSession.DeviceSession) anyhow stream :=
  let! mc := Cli.on_lockdown (Cli.ld_context "connect MCInstall" mcinstall_connect) in
  sret (mux_stream mc).

(** What each command does with the service. *)
Definition status_steps : ST stream anyhow SetupStatus :=
  Cli.ld_context "flush" mc_flush ;;;
  let! config := Cli.ld_context "GetCloudConfiguration" get_cloud_config in
  sret (setup_status_of config).
Definition setup_status (udid : option string) (mode : ConnectionMode) : ST W anyhow SetupStatus :=
  Cli.with_session udid mode (
    let! mc := connect_mc in
    let! (r, _) := srun status_steps mc in
    sret r).

Definition skip_keys : pval := PArray (PString <$> SKIP_SETUP_KEYS).
Definition skip_config : dictionary :=
  dict ["AllowPairing" =>> PBool true; "SkipSetup" =>> skip_keys].
Definition skip_steps : ST stream anyhow unit :=
  Cli.ld_context "flush" mc_flush ;;;
  Cli.ld_context "hello" hello ;;;
  Cli.ld_context "SetCloudConfiguration" (set_cloud_config skip_config).
Definition skip (udid : option string) (mode : ConnectionMode) : ST W anyhow unit :=
  Cli.with_session udid mode (
    let! mc := connect_mc in
    let! _ := srun skip_steps mc in
    sret tt).
End pairing.

(** *** Enrolment *)

(** [{:0wX}] of a number of at most [4 w] bits *)
Definition hex_upper (w : nat) (z : Z) : list byte :=
  (λ i, hex_digit true (Z.shiftr z (4 * i) `mod` 16)) <$> rev (seqZ 0 (Z.of_nat w)).

(** The nanoseconds of the clock in the form of a version 4 identifier. *)
Definition uuid_digits (n : Z) : string :=
  string_of
    (hex_upper 8 (wrap 32 (Z.shiftr n 96)) ++ ["-"%byte] ++ hex_upper 4 (wrap 16 (Z.shiftr n 80))
     ++ bytes_of "-4" ++ hex_upper 3 (Z.land (wrap 16 (Z.shiftr n 68)) 0xfff) ++ ["-"%byte]
     ++ hex_upper 4 (Z.lor (Z.land (wrap 16 (Z.shiftr n 52)) 0x3fff) 0x8000) ++ ["-"%byte]
     ++ hex_upper 12 (Z.land (wrap 64 n) 0xffffffffffff)).

Section enrolment.
Context `{BP : BuildProfile} `{PL : PlistLib} `{T : Lockdown.Tls} `{SJ : CdTunnel.SerdeJson}
  {W : Type} `{OS : Os W} `{TS : TunnelStack W} `{Y : Sys W} `{FS : RpCredentials.Files W}
  `{PE : Pairing.PairingEnv W} `{C : Launch.WallClock W}.

Definition random_uuid {E} : ST W E string := λ w,
  let (n, w) := Launch.unix_nanos w in (Ok (uuid_digits n), w).

Definition enroll_config (org org_magic : string) (cert_der : list byte) : dictionary :=
  dict ["AllowPairing" =>> PBool true; "IsSupervised" =>> PBool true; "IsMultiUser" =>> PBool false;
        "OrganizationName" =>> PString org; "OrganizationMagic" =>> PString org_magic;
        "SkipSetup" =>> skip_keys; "SupervisorHostCertificates" =>> PArray [PData cert_der]].

Definition enroll_steps (org org_magic : string) (cert_der : list byte) (key : Pairing.rsa_private) :
    ST stream anyhow unit :=
  Cli.ld_context "flush" mc_flush ;;;
  Cli.ld_context "hello" hello ;;;
  Cli.ld_context "SetCloudConfiguration" (set_cloud_config (enroll_config org org_magic cert_der)) ;;;
  let! challenge := Cli.ld_context "Escalate" (escalate cert_der) in
  let! signed := smap_err (λ e, [Msg "sign escalation challenge: {e}" [FDisplay (Lockdown.Error_fmt e)]])
                   (lift (Pairing.build_pkcs7_signed_data challenge cert_der key)) in
  Cli.ld_context "EscalateResponse" (escalate_response signed) ;;;
  Cli.ld_context "ProceedWithKeybagMigration" proceed_keybag_migration.

Definition enroll (udid : option string) (mode : ConnectionMode) (org cert_path key_path : string) :
    ST W anyhow unit :=
  let! cert_der := load_cert cert_path in
  let! key_bytes := load_key key_path in
  let! key := smap_err (λ e, [Msg "{e}" [FDisplay (Lockdown.Error_fmt e)]])
                (lift (Pairing.parse_rsa_key_bytes key_bytes)) in
  let! org_magic := random_uuid in
  Cli.with_session udid mode (
    let! mc := connect_mc in
    let! _ := srun (enroll_steps org org_magic cert_der key) mc in
    sret tt).
End enrolment.

(** ** Activation ([activate.rs]) *)

Definition DRM_HANDSHAKE_URL : string := "https://albert.apple.com/deviceservices/drmHandshake".
Definition ACTIVATION_URL : string := "https://albert.apple.com/deviceservices/deviceActivation".
Definition USER_AGENT : string := "iOS Device Activator (MobileActivation-592.103.2)".

Definition hex_char (nibble : Z) : byte :=
  if nibble <? 10 then byte_of (48 + nibble) else byte_of (65 + nibble - 10).
Definition unreserved (b : byte) : bool :=
  let z := u8 b in
  ((65 <=? z) && (z <=? 90)) || ((97 <=? z) && (z <=? 122)) || ((48 <=? z) && (z <=? 57))
  || (z =? 45) || (z =? 95) || (z =? 46) || (z =? 126).
Fixpoint percent_encode (data : list byte) : list byte :=
  match data with
  | [] => []
  | b :: data =>
      (if unreserved b then [b]
       else ["%"%byte; hex_char (Z.shiftr (u8 b) 4); hex_char (Z.land (u8 b) 0xf)]) ++ percent_encode data
  end.

(** The client of the web server: [ureq]. *)
Class Web (W : Type) := {
  Response : Type;
  headers_names : Response → list string;
  header : Response → string → option string;
  web_post : string → list (string * string) → list byte → ST W message Response;
  (** [into_reader().read_to_end()] *)
  read_to_end : Response → ST W io_error (list byte)
}.

Section activation.
Context `{BP : BuildProfile} `{PL : PlistLib} `{T : Lockdown.Tls} `{SJ : CdTunnel.SerdeJson}
  {W : Type} `{OS : Os W} `{TS : TunnelStack W} `{Y : Sys W} `{WB : Web W}.

(** A request and all of its response; the URL with its headers is the page. *)
Definition post (url content_type accept what_sent what_read : string) (body : list byte) :
    ST W anyhow (Response * list byte) :=
  let! r := smap_err (λ e, [msg0 what_sent; e])
              (web_post url [("Content-Type"%string, content_type); ("Accept"%string, accept);
                             ("User-Agent"%string, USER_AGENT)] body) in
  let! buf := Daemon.ctx (msg0 what_read) Daemon.io_fmt (read_to_end r) in
  sret (r, buf).

Definition response_headers (r : Response) : dictionary :=
  foldl (λ d n, match header r n with Some v => al_insert n (PString v) d | None => d end) []
    (headers_names r).

(** A dictionary of the service in XML. *)
Definition serialize (t : string) (d : dictionary) : outcome anyhow (list byte) :=
  ok_or (to_writer_xml (PDict d)) [msg0 t; msg0 "{e}"].

(** A call on the activation service, whose connection is part of the state. *)
Definition on_client {A} (t : string) (m : ST stream Lockdown.Error A) :
    ST (W * stream) anyhow A :=
  on_local (Cli.ld_context t m).

(** What follows the connection to the service. *)
Definition activate_steps : ST (W * stream) anyhow unit :=
  let! session_info := on_client "CreateTunnel1SessionInfoRequest" create_tunnel1_session_info in
  let! session_info_xml := lift (serialize "serialize session info" session_info) in
  let! (_, drm_bytes) := on_outer (post DRM_HANDSHAKE_URL "application/x-apple-plist" "application/xml"
                           "drmHandshake request" "read drmHandshake response" session_info_xml) in
  let! activation_info := on_client "CreateActivationInfoRequest" (create_activation_info drm_bytes) in
  let! activation_info_xml := lift (serialize "serialize activation info" activation_info) in
  let body := bytes_of "activation-info=" ++ percent_encode activation_info_xml in
  let! (apple_resp, activation_response) :=
    on_outer (post ACTIVATION_URL "application/x-www-form-urlencoded" "*/*"
                "deviceActivation request" "read activation response" body) in
  match activation_response with
  | [] => Cli.bail "Apple activation server returned an empty response" []
  | _ => on_client "HandleActivationInfoWithSessionRequest"
           (handle_activation_with_session activation_response (response_headers apple_resp))
  end.

Definition connect_activation : ST (W * DeviceSession.DeviceSession) anyhow stream :=
  let! m := Cli.on_lockdown (Cli.ld_context "connect activation service" activation_connect) in
  sret (mux_stream m).

(** [false]: the device was activated before. *)
Definition activate (udid : option string) (mode : ConnectionMode) : ST W anyhow bool :=
  Cli.with_session udid mode (
    let! r := stry (Cli.on_lockdown (on_local (Lockdown.get_value None "ActivationState"))) in
    let state := match r with inr v => default ""%string (as_string v) | inl _ => ""%string end in
    if bool_decide (state = "Activated"%string) then sret false
    else
      let! client := connect_activation in
      on_outer (scoped (λ _ w, w) client activate_steps) ;;;
      sret true).

Definition deactivate (udid : option string) (mode : ConnectionMode) : ST W anyhow unit :=
  Cli.with_session udid mode (
    let! client := connect_activation in
    let! _ := srun (Cli.ld_context "deactivate" Services.deactivate) client in
    sret tt).
End activation.

(** ** What the identifier of an organisation looks like

    The first ninety bits of a 128-bit count of nanoseconds are zero for
    centuries, so that the identifiers differ only in their last two groups. *)
Definition uuid_front (n : Z) : list byte := take 19 (bytes_of (uuid_digits n)).

Lemma hex_upper_length w z : length (hex_upper w z) = w.
Proof. unfold hex_upper. rewrite length_fmap, length_rev, length_seqZ. lia. Qed.

Lemma uuid_front_zero n :
  0 ≤ n < 2 ^ 68 → uuid_front n = bytes_of "00000000-0000-4000-".
Proof.
  intros Hn. unfold uuid_front, uuid_digits. rewrite bytes_of_string_of.
  assert (∀ k, 68 ≤ k → Z.shiftr n k = 0) as Hz.
  { intros k Hk. rewrite Z.shiftr_div_pow2 by lia. apply Z.div_small.
    split; [lia|]. eapply Z.lt_le_trans; [apply Hn|]. by apply Z.pow_le_mono_r. }
  rewrite !Hz by lia.
  change (hex_upper 8 (wrap 32 0)) with (bytes_of "00000000").
  change (hex_upper 4 (wrap 16 0)) with (bytes_of "0000").
  change (hex_upper 3 (Z.land (wrap 16 0) 0xfff)) with (bytes_of "000").
  reflexivity.
Qed.

(** ** The form sent to the activation server *)
Section percent.
Definition unhex (b : byte) : option Z := digit_val 16 b.
(** The reference: how a server reads the form. *)
Fixpoint percent_decode (l : list byte) : option (list byte) :=
  match l with
  | [] => Some []
  | "%"%byte :: h :: k :: l =>
      h ← unhex h; k ← unhex k; l ← percent_decode l; Some (byte_of (16 * h + k) :: l)
  | "%"%byte :: _ => None
  | b :: l => l ← percent_decode l; Some (b :: l)
  end.
Definition form_safe (b : byte) : bool := unreserved b || bool_decide (b = "%"%byte).
Definition escaped (b : byte) : list byte :=
  if unreserved b then [b]
  else ["%"%byte; hex_char (Z.shiftr (u8 b) 4); hex_char (Z.land (u8 b) 0xf)].

Lemma percent_encode_cons b l : percent_encode (b :: l) = escaped b ++ percent_encode l.
Proof. done. Qed.
(** One byte at a time, for each of the 256. *)
Lemma escaped_decodes b l :
  percent_decode (escaped b ++ l) = (l ← percent_decode l; Some (b :: l)).
Proof. destruct b; reflexivity. Qed.
Lemma escaped_safe b : Forall (λ c, form_safe c = true) (escaped b).
Proof. destruct b; repeat constructor. Qed.

(** Whatever the device said reaches the server unchanged, as one field: the form
    has no character that a form gives a meaning to. *)
Lemma form_read_back data :
  percent_decode (percent_encode data) = Some data ∧
  Forall (λ c, form_safe c = true) (percent_encode data).
Proof.
  induction data as [|b data [IH1 IH2]]; [done|]. rewrite percent_encode_cons.
  rewrite escaped_decodes, IH1, Forall_app. split_and!; [done|apply escaped_safe|done].
Qed.
End percent.

(** ** The conversations *)
Section exchange.
Context `{BP : BuildProfile} `{PL : PlistLib} `{PLL : !PlistLaws PL} `{T : Lockdown.Tls}
  `{SJ : CdTunnel.SerdeJson} {W : Type} `{OS : Os W} `{TS : TunnelStack W} `{Y : Sys W}.

(** A response of at most 8 MiB, the limit of both services *)
Definition reply_ok (v : pval) : Prop := plain v = true ∧ 0 < lenZ (xml v) ≤ 8 * 1024 * 1024.

Definition short (n : Z) : Prop := 0 < n ≤ 8 * 1024 * 1024 ∧ n < 2 ^ 32.
#[local] Instance activation_receiver : Receiver activation_recv short := recv_bounded_receiver _ _.
#[local] Instance mcinstall_receiver : Receiver mcinstall_recv short := recv_bounded_receiver _ _.

(** One call in a longer conversation. *)
Lemma ld_call_ok {A} t recv `{!Receiver recv short} req (f : pval → outcome Lockdown.Error A) resp s l r a :
  healthy s → Lockdown.ld_ok req → reply_ok resp → f resp = Ok a →
  delivers (rx s) (Lockdown.ld_frame resp ++ l) r →
  ∃ r1, Cli.ld_context t (call recv req f) s =
      (Ok a, append_tx (Lockdown.ld_frame req) (set_rx r1 s)) ∧ delivers r1 l r.
Proof.
  intros Hs Hreq [Hp Hl] Hf Hd.
  destruct (call_result recv short req f resp s l r) as (r1 & H1 & D1);
    [done..|unfold short; lia|done|].
  exists r1. split; [|done]. apply smap_err_ok. by rewrite H1, Hf.
Qed.

(** *** Activation *)
Definition tunnel_request : pval :=
  PDict (dict ["Command" =>> PString "CreateTunnel1SessionInfoRequest"]).
Definition info_request (drm : list byte) : pval :=
  PDict (dict ["Command" =>> PString "CreateActivationInfoRequest"; "Value" =>> PData drm;
               "Options" =>> PDict ["BasebandWaitCount" =>> PInt 90]]).
Definition record_request (record : list byte) (headers : dictionary) : pval :=
  PDict (dict ["Command" =>> PString "HandleActivationInfoWithSessionRequest";
               "Value" =>> PData record; "ActivationResponseHeaders" =>> PDict headers]).
Definition drm_post `{Web W} (info : list byte) : ST W anyhow (Response * list byte) :=
  post DRM_HANDSHAKE_URL "application/x-apple-plist" "application/xml"
    "drmHandshake request" "read drmHandshake response" info.
Definition activation_post `{Web W} (info : list byte) : ST W anyhow (Response * list byte) :=
  post ACTIVATION_URL "application/x-www-form-urlencoded" "*/*"
    "deviceActivation request" "read activation response"
    (bytes_of "activation-info=" ++ percent_encode info).

Lemma value_dict_ok t d v : dget "Value" d = Some (PDict v) → value_dict t (PDict d) = Ok v.
Proof. unfold value_dict, field. cbn. by intros ->. Qed.

(** The device and the server of the vendor talk through the command: what the
    device says first goes to the server as it is, the answer goes to the device,
    the device's second answer goes to the server in a form, and the record that
    comes back is installed with the headers it came with. *)
Lemma activation_relays `{WB : Web W} w k d1 v1 x1 d2 v2 x2 a3 r1 drm w1 r2 record w2 l r :
  healthy k → Forall reply_ok [PDict d1; PDict d2; a3] →
  dget "Value" d1 = Some (PDict v1) → to_writer_xml (PDict v1) = Some x1 →
  drm_post x1 w = (Ok (r1, drm), w1) →
  dget "Value" d2 = Some (PDict v2) → to_writer_xml (PDict v2) = Some x2 →
  activation_post x2 w1 = (Ok (r2, record), w2) → record ≠ [] → text_field "Error" a3 = None →
  Forall Lockdown.ld_ok [tunnel_request; info_request drm; record_request record (response_headers r2)] →
  delivers (rx k) (Lockdown.ld_frame (PDict d1) ++ Lockdown.ld_frame (PDict d2) ++ Lockdown.ld_frame a3 ++ l) r →
  ∃ r', activate_steps (w, k) =
    (Ok tt, (w2, append_tx (Lockdown.ld_frame tunnel_request ++ Lockdown.ld_frame (info_request drm)
                   ++ Lockdown.ld_frame (record_request record (response_headers r2))) (set_rx r' k))) ∧
    delivers r' l r.
Proof.
  intros Hk Ha V1 X1 P1 V2 X2 P2 Hr He Hq Hd. rewrite !Forall_cons in Ha, Hq.
  destruct Ha as (A1 & A2 & A3 & _), Hq as (Q1 & Q2 & Q3 & _).
  destruct (ld_call_ok "CreateTunnel1SessionInfoRequest" activation_recv _ _ _ k _ r _ Hk Q1 A1
    (value_dict_ok "activation: no Value in session info response" _ _ V1) Hd) as (i1 & E1 & D1).
  destruct (ld_call_ok "CreateActivationInfoRequest" activation_recv _ _ _
    (append_tx (Lockdown.ld_frame tunnel_request) (set_rx i1 k)) _ r _ Hk Q2 A2
    (value_dict_ok "activation: no Value in activation info response" _ _ V2) D1) as (i2 & E2 & D2).
  destruct (ld_call_ok "HandleActivationInfoWithSessionRequest" activation_recv _
    (λ resp, unless_error Lockdown.Lockdown "handle activation: {err}" [] resp (Ok tt)) a3
    (append_tx (Lockdown.ld_frame (info_request drm))
      (set_rx i2 (append_tx (Lockdown.ld_frame tunnel_request) (set_rx i1 k)))) l r tt Hk Q3 A3
    ltac:(unfold unless_error; by rewrite He) D2) as (i3 & E3 & D3).
  exists i3. split; [|done]. unfold activate_steps, on_client.
  erewrite sbind_ok; [|apply on_local_run, E1].
  erewrite sbind_ok; [|unfold lift, serialize; rewrite X1; reflexivity].
  erewrite sbind_ok; [|apply on_outer_run, P1]. cbv beta iota.
  erewrite sbind_ok; [|apply on_local_run, E2].
  erewrite sbind_ok; [|unfold lift, serialize; rewrite X2; reflexivity].
  erewrite sbind_ok; [|apply on_outer_run, P2]. cbv beta iota.
  destruct record as [|b record]; [done|].
  erewrite on_local_run; [|exact E3]. do 2 f_equal. unfold append_tx, set_rx. cbn [rx tx wq].
  by rewrite <-!(assoc_L (++)).
Qed.

(** *** Enrolment *)
Definition escalate_request (cert : list byte) : pval :=
  mc_request "Escalate" ["SupervisorCertificate" =>> PData cert].
Definition signed_request (signed : list byte) : pval :=
  mc_request "EscalateResponse" ["SignedRequest" =>> PData signed].

(** The device is given its configuration before the host asks to be its
    supervisor; the challenge of that request, signed with the certificate it
    named, is what the host answers with; and the migration is asked for last. *)
Lemma enrolment_conversation `{PE : Pairing.PairingEnv W} org magic cert key challenge signed
    k a1 a2 a3 a4 a5 a6 l r :
  let config := mc_request "SetCloudConfiguration"
                  ["CloudConfiguration" =>> PDict (enroll_config org magic cert)] in
  let requests := [mc_request "Flush" []; mc_request "HelloHostIdentifier" []; config;
                   escalate_request cert; signed_request signed;
                   mc_request "ProceedWithKeybagMigration" []] in
  healthy k → Forall reply_ok [a1; a2; a3; a4; a5; a6] → Forall Lockdown.ld_ok requests →
  mc_ack "Flush" a1 = Ok tt → mc_ack "SetCloudConfiguration" a3 = Ok tt →
  challenge_of a4 = Ok challenge →
  Pairing.build_pkcs7_signed_data challenge cert key = Ok signed →
  mc_ack "EscalateResponse" a5 = Ok tt → mc_ack "ProceedWithKeybagMigration" a6 = Ok tt →
  delivers (rx k) (concat (Lockdown.ld_frame <$> [a1; a2; a3; a4; a5; a6]) ++ l) r →
  ∃ r', enroll_steps org magic cert key k =
      (Ok tt, append_tx (concat (Lockdown.ld_frame <$> requests)) (set_rx r' k)) ∧
    delivers r' l r.
Proof.
  intros config requests Hk Ha Hq S1 S3 S4 Hs S5 S6 Hd. unfold requests in *. clear requests.
  rewrite !Forall_cons in Ha, Hq. destruct Ha as (A1 & A2 & A3 & A4 & A5 & A6 & _).
  destruct Hq as (Q1 & Q2 & Q3 & Q4 & Q5 & Q6 & _).
  cbn [fmap list_fmap concat] in Hd |- *. rewrite <-!(assoc_L (++)) in Hd. cbn [app] in Hd.
  destruct (ld_call_ok "flush" mcinstall_recv _ _ _ k _ r _ Hk Q1 A1 S1 Hd) as (r1 & E1 & D1).
  match type of E1 with _ = (_, ?k1) => set (k1' := k1) in * end.
  destruct (ld_call_ok "hello" mcinstall_recv _ (λ _, Ok tt) a2 k1' _ r tt Hk Q2 A2 eq_refl D1) as (r2 & E2 & D2).
  match type of E2 with _ = (_, ?k2) => set (k2' := k2) in * end.
  destruct (ld_call_ok "SetCloudConfiguration" mcinstall_recv _ _ _ k2' _ r _ Hk Q3 A3 S3 D2) as (r3 & E3 & D3).
  match type of E3 with _ = (_, ?k3) => set (k3' := k3) in * end.
  destruct (ld_call_ok "Escalate" mcinstall_recv _ _ _ k3' _ r _ Hk Q4 A4 S4 D3) as (r4 & E4 & D4).
  match type of E4 with _ = (_, ?k4) => set (k4' := k4) in * end.
  destruct (ld_call_ok "EscalateResponse" mcinstall_recv _ _ _ k4' _ r _ Hk Q5 A5 S5 D4) as (r5 & E5 & D5).
  match type of E5 with _ = (_, ?k5) => set (k5' := k5) in * end.
  destruct (ld_call_ok "ProceedWithKeybagMigration" mcinstall_recv _ _ _ k5' l r _ Hk Q6 A6 S6 D5) as (r6 & E6 & D6).
  exists r6. split; [|done]. unfold enroll_steps.
  erewrite sbind_ok by exact E1. erewrite sbind_ok by exact E2. erewrite sbind_ok by exact E3.
  erewrite sbind_ok by exact E4. erewrite sbind_ok by (unfold lift; rewrite Hs; reflexivity).
  erewrite sbind_ok by exact E5. etransitivity; [exact E6|].
  unfold k5', k4', k3', k2', k1', append_tx, set_rx. cbn [rx tx wq]. by rewrite <-!(assoc_L (++)), app_nil_r.
Qed.
End exchange.

(** ** Concrete inputs *)
Section witnesses.
Import Pairing.ToyPairing.
#[local] Existing Instance debug_profile.
#[local] Existing Instance BitPlist.lib.
#[local] Existing Instance BitPlist.laws.

Definition toy_replies (l : list pval) : stream := idle (RData <$> (Lockdown.ld_frame <$> l)).

(** A server that answers with the length of what it is sent. *)
#[local] Instance toy_web : Web nat := {|
  Response := nat;
  headers_names _ := ["Server"; "Gone"]%string;
  header _ n := if bool_decide (n = "Server"%string) then Some "s1"%string else None;
  web_post _ _ body := λ w, (Ok (length body), S w);
  read_to_end n := sret [byte_of (Z.of_nat n)]
|}.
Definition info1 : dictionary := ["Value" =>> PDict ["Session" =>> PBool true]].
Definition info2 : dictionary := ["Value" =>> PDict ["Info" =>> PData [x01]]].
Definition activation_replies : stream := toy_replies [PDict info1; PDict info2; PInt 1; PInt 7].
Definition drm_of : list byte := Eval vm_compute in
  match drm_post (xml (PDict ["Session" =>> PBool true])) 0%nat with (Ok (_, l), _) => l | _ => [] end.
Definition record_of : list byte := Eval vm_compute in
  match activation_post (xml (PDict ["Info" =>> PData [x01]])) 1%nat with (Ok (_, l), _) => l | _ => [] end.
Definition posted : nat := Eval vm_compute in
  match activation_post (xml (PDict ["Info" =>> PData [x01]])) 1%nat with (Ok (n, _), _) => n | _ => 0%nat end.

Lemma activation_relays_witness :
  ∃ r', activate_steps (0%nat, activation_replies) =
    (Ok tt, (2%nat, append_tx (Lockdown.ld_frame tunnel_request ++ Lockdown.ld_frame (info_request drm_of)
       ++ Lockdown.ld_frame (record_request record_of ["Server" =>> PString "s1"]))
       (set_rx r' activation_replies))) ∧
    delivers r' (Lockdown.ld_frame (PInt 7)) [].
Proof.
  apply (activation_relays (WB:=toy_web) 0%nat activation_replies info1 ["Session" =>> PBool true]
    (xml (PDict ["Session" =>> PBool true])) info2 ["Info" =>> PData [x01]]
    (xml (PDict ["Info" =>> PData [x01]])) (PInt 1)
    (length (xml (PDict ["Session" =>> PBool true]))) drm_of 1%nat posted record_of 2%nat).
  - reflexivity.
  - repeat constructor; vm_compute; congruence.
  - reflexivity.
  - reflexivity.
  - vm_compute. reflexivity.
  - reflexivity.
  - reflexivity.
  - vm_compute. reflexivity.
  - discriminate.
  - reflexivity.
  - repeat constructor; vm_compute; congruence.
  - assert (Forall (.≠ []) (Lockdown.ld_frame <$> [PDict info1; PDict info2; PInt 1; PInt 7])) as Hp
      by (repeat constructor; vm_compute; discriminate).
    exact (delivers_pieces _ [] Hp).
Defined.

Definition acked : pval := PDict ["Status" =>> PString "Acknowledged"].
Definition challenged : pval := PDict ["Challenge" =>> PData [x41]].
Definition enrol_replies : stream :=
  toy_replies [acked; PInt 1; acked; challenged; acked; acked; PInt 7].
Definition toy_cert : list byte :=
  Eval vm_compute in Pairing.cert_of (Some [x02; x01; x02]) [x05] (x30, []) [] [] [].
Definition toy_signed : list byte := Eval vm_compute in
  match @Pairing.build_pkcs7_signed_data debug_profile world env [x41] toy_cert 9%nat with
  | Ok l => l
  | _ => []
  end.

Lemma enrolment_conversation_witness :
  ∃ r', enroll_steps (PE:=env) "Org" "M" toy_cert 9%nat enrol_replies =
    (Ok tt, append_tx (concat (Lockdown.ld_frame <$>
       [mc_request "Flush" []; mc_request "HelloHostIdentifier" [];
        mc_request "SetCloudConfiguration"
          ["CloudConfiguration" =>> PDict (enroll_config "Org" "M" toy_cert)];
        escalate_request toy_cert; signed_request toy_signed;
        mc_request "ProceedWithKeybagMigration" []])) (set_rx r' enrol_replies)) ∧
    delivers r' (Lockdown.ld_frame (PInt 7)) [].
Proof.
  apply (enrolment_conversation (PE:=env) "Org" "M" toy_cert 9%nat [x41] toy_signed enrol_replies
    acked (PInt 1) acked challenged acked acked).
  - reflexivity.
  - repeat constructor; vm_compute; congruence.
  - repeat constructor; vm_compute; congruence.
  - reflexivity.
  - reflexivity.
  - reflexivity.
  - vm_compute. reflexivity.
  - reflexivity.
  - reflexivity.
  - assert (Forall (.≠ []) (Lockdown.ld_frame <$> [acked; PInt 1; acked; challenged; acked; acked; PInt 7])) as Hp
      by (repeat constructor; vm_compute; discriminate).
    exact (delivers_pieces _ [] Hp).
Defined.

(** What a device that is up to date says of itself. *)
Example setup_status_sample :
  setup_status_of ["IsSupervised" =>> PBool true; "OrganizationName" =>> PString "Org"] =
    MkSetupStatus true (Some "Org"%string) false.
Proof. reflexivity. Qed.
End witnesses.
