(* ===== verification/FileCmd.v ===== *)
(** * Files of the device from the command line

    [src/bin/ios/cmd/afc.rs] and [crash.rs]: the file conduit on the media
    partition, in the container of an application, or on the crash reports.  The
    progress of a download goes to standard error and is left out. *)

From S2P Require Import Prelude RustStd Text Io Plist Json Os Version CdTunnel Tunnel Afc Output.
From S2P Require Float Lockdown DeviceSession Daemon Cli.

Abbreviation DeviceSession := DeviceSession.DeviceSession.

(** ** Names and sizes *)

(** The last component of a path of the device *)
Definition leaf (path : string) : string :=
  string_of (default [] (last (split_on is_slash (trim_slashes (bytes_of path))))).

(** [Path::file_name]: the last component, if it is a name *)
Definition file_name (path : string) : option string :=
  match last (filter (λ c, c ≠ [] ∧ c ≠ ["."%byte]) (split_on is_slash (bytes_of path))) with
  | None => None
  | Some c => if bool_decide (c = bytes_of "..") then None else Some (string_of c)
  end.

Definition UNITS : list string := ["B"; "KB"; "MB"; "GB"; "TB"].
(** The loop, for the units that are left. *)
Fixpoint scale (v : Float.f64) (unit : string) (more : list string) : Float.f64 * string :=
  match more with
  | [] => (v, unit)
  | u :: more =>
      if Float.F64.leb (Float.F64.of_Z 1024) v
      then scale (Float.F64.div v (Float.F64.of_Z 1024)) u more
      else (v, unit)
  end.
Definition human_size (bytes : Z) : list byte :=
  let '(v, unit) := scale (Float.F64.of_Z bytes) "B" (tail UNITS) in
  if bool_decide (unit = "B"%string) then dec bytes ++ bytes_of " B"
  else Float.F64.fixed 1 v ++ bytes_of " " ++ bytes_of unit.

Definition type_str (t : FileType) : string :=
  match t with
  | Regular => "file" | Directory => "directory" | Symlink => "symlink" | Other => "other"
  end.

(** ** What is printed *)

Record AfcEntry : Type := MkAfcEntry {
  e_name : string;
  e_kind : string;
  e_size : option Z;
  e_mtime : option Z
}.
Definition jnum (o : option Z) : jval := match o with Some n => JInt n | None => JNull end.
Definition entry_json (e : AfcEntry) : jval :=
  JObject ["name" =:> JString (e_name e); "type" =:> JString (e_kind e);
           "size" =:> jnum (e_size e); "mtime" =:> jnum (e_mtime e)].
Definition entry_of (name : string) (info : Lockdown.Error + FileInfo) : AfcEntry :=
  match info with
  | inr info =>
      MkAfcEntry name (type_str (file_type info))
        (if bool_decide (file_type info = Regular) then Some (size info) else None)
        (Some (modified_nanos info / 1000000000))
  | inl _ => MkAfcEntry name "unknown" None None
  end.
Definition long_line (name : string) (info : Lockdown.Error + FileInfo) : list byte :=
  match info with
  | inr info =>
      let size_col := if bool_decide (file_type info = Regular) then human_size (size info)
                      else replicate 9 " "%byte in
      let extra := match link_target info with
                   | Some t => bytes_of " -> " ++ bytes_of t
                   | None => []
                   end in
      line (indicator (file_type info) :: bytes_of " " ++ size_col ++ bytes_of "  "
            ++ dec (modified_nanos info / 1000000000) ++ bytes_of "  " ++ bytes_of name ++ extra)
  | inl _ => line ("?"%byte :: replicate 20 " "%byte ++ bytes_of name)
  end.
Definition stat_json (info : FileInfo) : jval :=
  JObject ["type" =:> JString (type_str (file_type info)); "size" =:> JInt (size info);
           "mtime" =:> JInt (modified_nanos info / 1000000000)].
Definition stat_text (info : FileInfo) : list byte :=
  println ("type:     " ++ type_str (file_type info))
  ++ line (bytes_of "size:     " ++ human_size (size info) ++ bytes_of " (" ++ dec (size info)
           ++ bytes_of " bytes)")
  ++ line (bytes_of "modified: " ++ dec (modified_nanos info) ++ bytes_of " (unix ns)")
  ++ match link_target info with Some t => println ("target:   " ++ t) | None => [] end.
Definition info_json (d : AfcDeviceInfo) : jval :=
  JObject ["model" =:> JString (model d); "total_bytes" =:> JInt (total_bytes d);
           "free_bytes" =:> JInt (free_bytes d)].
Definition info_text (d : AfcDeviceInfo) : list byte :=
  println ("model:      " ++ model d)
  ++ line (bytes_of "total:      " ++ human_size (total_bytes d))
  ++ line (bytes_of "free:       " ++ human_size (free_bytes d))
  ++ line (bytes_of "block size: " ++ dec (block_size d) ++ bytes_of " bytes").
Definition pull_json (path : string) : jval := JObject ["ok" =:> JBool true; "path" =:> JString path].

Definition quiet : jval := action_json ActionResult_ok.
Definition arrow (dest : string) : string := "→ " ++ dest.

Section files.
Context `{BP : BuildProfile} `{PL : PlistLib} `{T : Lockdown.Tls} `{SJ : CdTunnel.SerdeJson}
  {W : Type} `{OS : Os W} `{TS : TunnelStack W} `{Y : Sys W} `{LF : LocalFs W}
  `{TM : Terminal} `{J : JsonLib}.

(** ** The connection *)

Definition HOUSE_ARREST_SHIM : string := "com.apple.mobile.house_arrest.shim.remote".
Definition with_context {S A} (t : string) (args : list fmt_arg) (m : ST S Lockdown.Error A) :
    ST S anyhow A :=
  Daemon.ctx (Msg t args) Lockdown.Error_fmt m.

Definition connect (app : option string) : ST (W * DeviceSession) anyhow AfcClient :=
  match app with
  | Some bundle_id =>
      let! ws := sget in
      if DeviceSession.ds_is_rsd ws.2 then
        let! stream := on_outer (Daemon.ctx (Msg "connect house_arrest shim for {bundle_id}" [FStr bundle_id])
                                   Error_fmt (DeviceSession.connect_rsd_shim ws.2 HOUSE_ARREST_SHIM)) in
        with_context "house_arrest handshake for {bundle_id}" [FStr bundle_id]
          (lift (connect_app_shim stream bundle_id))
      else
        Cli.on_lockdown (with_context "connect app container {bundle_id}" [FStr bundle_id]
                           (connect_app bundle_id))
  | None => Cli.on_lockdown (Cli.ld_context "connect AFC" afc_connect)
  end.

(** A command on the connection, which ends before the session. *)
Definition with_client {A} (udid : option string) (mode : ConnectionMode)
    (open : ST (W * DeviceSession) anyhow AfcClient) (body : ST (W * AfcClient) anyhow A) : ST W anyhow A :=
  Cli.with_session udid mode (
    let! afc := open in on_outer (scoped (λ _ w, w) afc body)).
Definition on_afc {A} (t : string) (args : list fmt_arg) (m : ST AfcClient Lockdown.Error A) :
    ST (W * AfcClient) anyhow A :=
  with_context t args (Afc.on_client m).

(** ** The commands of [afc.rs] *)

Definition full_path (path name : string) : string := remote_join path name.
Definition info_of (path name : string) : ST (W * AfcClient) anyhow (Lockdown.Error + FileInfo) :=
  stry (Afc.on_client (get_file_info (full_path path name))).

Definition ls_body (path : string) (long : bool) (output : OutputMode) :
    ST (W * AfcClient) anyhow (list byte) :=
  let! entries := on_afc "ls {path}" [FStr path] (list_dir path) in
  let entries := sort_strings entries in
  if is_json output then
    let! json_entries := traverse (λ name, let! i := info_of path name in sret (entry_of name i)) entries in
    lift (print_json (JArray (entry_json <$> json_entries)))
  else
    let! lines := traverse (λ name,
      if long then let! i := info_of path name in sret (long_line name i)
      else sret (println name)) entries in
    sret (concat lines).
Definition ls (udid : option string) (mode : ConnectionMode) (path : string) (long : bool)
    (app : option string) (output : OutputMode) : ST W anyhow (list byte) :=
  with_client udid mode (connect app) (ls_body path long output).

Definition stat (udid : option string) (mode : ConnectionMode) (path : string) (app : option string)
    (output : OutputMode) : ST W anyhow (list byte) :=
  with_client udid mode (connect app) (
    let! info := on_afc "stat {path}" [FStr path] (get_file_info path) in
    lift (report output (stat_json info) (stat_text info))).

Definition info (udid : option string) (mode : ConnectionMode) (app : option string)
    (output : OutputMode) : ST W anyhow (list byte) :=
  with_client udid mode (connect app) (
    let! dev := on_afc "device_info" [] device_info in
    lift (report output (info_json dev) (info_text dev))).

(** [Path::is_dir] and [Path::exists]: a failure is [false] *)
Definition is_dir {E} (p : string) : ST W E bool :=
  let! r := stry (fs_is_dir p) in sret (match r with inr b => b | inl _ => false end).
Definition path_exists {E} (p : string) : ST W E bool :=
  let! r := stry (fs_is_dir p) in sret (match r with inr _ => true | inl _ => false end).

Definition pull_body (remote local : string) (output : OutputMode) : ST (W * AfcClient) anyhow (list byte) :=
  let! d := on_outer (is_dir local) in
  let dest := if (d : bool) then path_join local (leaf remote) else local in
  with_context "pull {remote}" [FStr remote] (pull_file (λ _ _ w, w) remote dest) ;;;
  lift (report output (pull_json dest) (println (arrow dest))).
Definition pull (udid : option string) (mode : ConnectionMode) (remote local : string)
    (app : option string) (output : OutputMode) : ST W anyhow (list byte) :=
  with_client udid mode (connect app) (pull_body remote local output).

Definition push_dest (local remote : string) : string :=
  if bool_decide (last (bytes_of remote) = Some "/"%byte)
  then remote_join remote (default ""%string (file_name local))
  else remote.
Definition push (udid : option string) (mode : ConnectionMode) (local remote : string)
    (app : option string) (output : OutputMode) : ST W anyhow (list byte) :=
  let! there := path_exists local in
  if negb (there : bool) then Cli.bail "{} does not exist" [FStr local]
  else
    with_client udid mode (connect app) (
      let dest := push_dest local remote in
      with_context "push {}" [FStr local] (push_file local dest) ;;;
      lift (report output (action_json (with_msg (arrow dest))) (println (arrow dest)))).

Definition rm (udid : option string) (mode : ConnectionMode) (path : string) (app : option string)
    (output : OutputMode) : ST W anyhow (list byte) :=
  with_client udid mode (connect app) (
    on_afc "rm {path}" [FStr path] (remove_path path) ;;; lift (report output quiet [])).
Definition mkdir (udid : option string) (mode : ConnectionMode) (path : string) (app : option string)
    (output : OutputMode) : ST W anyhow (list byte) :=
  with_client udid mode (connect app) (
    on_afc "mkdir {path}" [FStr path] (Afc.mkdir path) ;;; lift (report output quiet [])).
Definition mv (udid : option string) (mode : ConnectionMode) (from to : string) (app : option string)
    (output : OutputMode) : ST W anyhow (list byte) :=
  with_client udid mode (connect app) (
    on_afc "mv {from} -> {to}" [FStr from; FStr to] (rename from to) ;;; lift (report output quiet [])).
End files.

(** ** Crash reports ([crash.rs]) *)
Section crash.
Context `{BP : BuildProfile} `{PL : PlistLib} `{T : Lockdown.Tls} `{SJ : CdTunnel.SerdeJson}
  {W : Type} `{OS : Os W} `{TS : TunnelStack W} `{Y : Sys W} `{LF : LocalFs W}
  `{TM : Terminal} `{J : JsonLib}.

Definition CRASH_SHIM : string := "com.apple.crashreportcopymobile.shim.remote".
Definition crash_afc : ST (W * DeviceSession) anyhow AfcClient :=
  let! ws := sget in
  let! stream := on_outer (Cli.tn_context "connect crash report shim"
                             (DeviceSession.connect_rsd_shim ws.2 CRASH_SHIM)) in
  sret (afc_from_stream stream).

Definition crash_path (name : string) : string := "/" ++ name.
Definition crash_size (i : Lockdown.Error + FileInfo) : option Z :=
  match i with
  | inr i => if bool_decide (file_type i = Regular) then Some (size i) else None
  | inl _ => None
  end.
Definition crash_json (name : string) (i : Lockdown.Error + FileInfo) : jval :=
  JObject ["name" =:> JString name; "size" =:> jnum (crash_size i)].
Definition crash_line (name : string) (i : Lockdown.Error + FileInfo) : list byte :=
  match i with
  | inr info =>
      let size := bytes_of (pad_left 10 (match crash_size i with Some n => string_of (dec n) | None => "" end)) in
      line (indicator (file_type info) :: bytes_of " " ++ size ++ bytes_of "  " ++ bytes_of name)
  | inl _ => line ("?"%byte :: replicate 12 " "%byte ++ bytes_of name)
  end.
Definition crash_info (name : string) : ST (W * AfcClient) anyhow (Lockdown.Error + FileInfo) :=
  stry (Afc.on_client (get_file_info (crash_path name))).

Definition crash_ls_body (long : bool) (output : OutputMode) : ST (W * AfcClient) anyhow (list byte) :=
  let! entries := on_afc "list crash reports" [] (list_dir "/") in
  let entries := sort_strings entries in
  if is_json output then
    let! json_entries := traverse (λ name, let! i := crash_info name in sret (crash_json name i)) entries in
    lift (print_json (JArray json_entries))
  else
    let! lines := traverse (λ name,
      if long then let! i := crash_info name in sret (crash_line name i)
      else sret (println name)) entries in
    sret (concat lines).
Definition crash_ls (udid : option string) (mode : ConnectionMode) (long : bool) (output : OutputMode) :
    ST W anyhow (list byte) :=
  with_client udid mode crash_afc (crash_ls_body long output).

(** The text goes to standard error. *)
Definition crash_pull (udid : option string) (mode : ConnectionMode) (name : string) (local : option string)
    (output : OutputMode) : ST W anyhow (list byte) :=
  with_client udid mode crash_afc (
    let dest_str := default name local in
    with_context "pull {name}" [FStr name] (pull_file (λ _ _ w, w) (crash_path name) dest_str) ;;;
    lift (report output (pull_json dest_str) [])).
Definition crash_rm (udid : option string) (mode : ConnectionMode) (name : string) (output : OutputMode) :
    ST W anyhow (list byte) :=
  with_client udid mode crash_afc (
    on_afc "rm {name}" [FStr name] (remove_path (crash_path name)) ;;; lift (report output quiet [])).
End crash.

(** ** Listings

    Each name that the device lists is in the listing once, in the order of the
    texts, whether or not the device tells about the file. *)
Section listing.
Context `{BP : BuildProfile} {W : Type} `{TM : Terminal} `{J : JsonLib}.

Lemma on_afc_inv {A} t args (m : ST AfcClient Lockdown.Error A) (st : W * AfcClient) a st' :
  on_afc t args m st = (Ok a, st') → m st.2 = (Ok a, st'.2) ∧ st'.1 = st.1.
Proof.
  unfold on_afc, with_context, Daemon.ctx. intros H%smap_err_inv. revert H.
  unfold Afc.on_client, zoom. destruct (m st.2) as [[] ?]; intros; simplify_eq/=; done.
Qed.

Lemma names_listed {A B} (f : string → ST (W * AfcClient) anyhow B) (key : B → A) (name_of : string → A)
    names st bs st' :
  (∀ n s1 b s2, f n s1 = (Ok b, s2) → key b = name_of n) →
  traverse f names st = (Ok bs, st') → key <$> bs = name_of <$> names.
Proof.
  intros Hf Hb%traverse_inv. induction Hb as [|n b ns bs (s1 & s2 & Hnb) _ IH]; [done|].
  cbn. by rewrite IH, (Hf n s1 b s2).
Qed.

Lemma ls_entries path long output (st : W * AfcClient) out st' :
  is_json output = true → ls_body path long output st = (Ok out, st') →
  ∃ names c es, list_dir path st.2 = (Ok names, c) ∧ e_name <$> es = sort_strings names ∧
    print_json (JArray (entry_json <$> es)) = Ok out.
Proof.
  intros Hj (names & st1 & [Hn _]%on_afc_inv & Hr)%sbind_inv. cbv zeta in Hr. rewrite Hj in Hr.
  apply sbind_inv in Hr as (es & st2 & Hes & Hp). unfold lift in Hp.
  exists names, st1.2, es. split_and!; [done| |by injection Hp].
  rewrite <-(list_fmap_id (sort_strings names)).
  eapply names_listed; [|exact Hes]. cbv beta. intros n s1 b s2 (i & s3 & _ & [= <- _])%sbind_inv.
  by destruct i.
Qed.

Lemma ls_lines path output (st : W * AfcClient) out st' :
  is_json output = false → ls_body path false output st = (Ok out, st') →
  ∃ names c, list_dir path st.2 = (Ok names, c) ∧ out = concat (println <$> sort_strings names).
Proof.
  intros Hj (names & st1 & [Hn _]%on_afc_inv & Hr)%sbind_inv. cbv zeta in Hr. rewrite Hj in Hr.
  apply sbind_inv in Hr as (es & st2 & Hes & [= <- _]).
  exists names, st1.2. split; [done|]. f_equal. rewrite <-(list_fmap_id es).
  eapply names_listed; [|exact Hes]. by intros n s1 b s2 [= <- _].
Qed.
End listing.

(** ** Sizes

    A size is rounded up to "1024.0" of a unit and not to "1.0" of the next. *)
Example human_size_samples :
  human_size 1023 = bytes_of "1023 B" ∧ human_size 1024 = bytes_of "1.0 KB" ∧
  human_size 1048575 = bytes_of "1024.0 KB" ∧ human_size (3 * 2 ^ 40 + 2 ^ 39) = bytes_of "3.5 TB".
Proof. vm_compute. split_and!; reflexivity. Qed.
Example leaf_samples :
  leaf "/DCIM/100APPLE/" = "100APPLE"%string ∧ leaf "a" = "a"%string ∧ leaf "/" = ""%string ∧
  file_name "x/y/." = Some "y"%string ∧ file_name "x/.." = None.
Proof. vm_compute. split_and!; reflexivity. Qed.
