(* ===== verification/Commands.v ===== *)
(** * The commands that ask lockdown and the small services

    [src/bin/ios/cmd/info.rs], [devices.rs], [services.rs], [lang.rs],
    [timezone.rs], [deviceip.rs], [mobilegestalt.rs], [version.rs], [devmode.rs],
    [wifi.rs], [diagnostics.rs], [erase.rs], [rsd.rs], [watch.rs], [relay.rs],
    [notification.rs], [syslog.rs], and the name of a device in [main.rs].  The
    functions carry the name of their file as a prefix. *)

From S2P Require Import Prelude RustStd Text Io Plist Json Os Version CdTunnel Tunnel Output.
From S2P Require Float Lockdown DeviceSession Daemon Cli Services Rsd UsbmuxTypes UsbmuxConn.
From S2P Require Syslog OsLog Launch Afc Text.

Abbreviation DeviceSession := DeviceSession.DeviceSession.

(** ** Texts of values *)

(** [{}] of an integer of the crate *)
Definition show_bool (b : bool) : string := if b then "true" else "false".

(** [plist_display] ([info.rs]) *)
Fixpoint plist_display `{Terminal} (v : pval) : list byte :=
  match v with
  | PString s => bytes_of s
  | PBool b => bytes_of (show_bool b)
  | PInt i => dec_signed i
  | PReal f => Float.F64.display (Float.F64.of_bits f)
  | PArray arr => join (bytes_of ", ") (plist_display <$> arr)
  | PDict d => bytes_of "{" ++ dec (lenZ d) ++ bytes_of "  keys}"
  | PData b => bytes_of "<" ++ dec (lenZ b) ++ bytes_of " bytes>"
  | PDate d => bytes_of (debug_date d)
  | PUid _ => bytes_of (debug_plist v)
  end.

(** The XML text of a value; what the writer leaves behind when it fails is left
    out. *)
Definition xml_text `{PlistLib} (v : pval) : list byte :=
  bytes_of (from_utf8_lossy (default [] (to_writer_xml v))).

(** [print_value] ([mobilegestalt.rs]) *)
Definition print_value `{PlistLib} (v : pval) : list byte :=
  match v with
  | PString s => println s
  | PInt i => line (dec_signed i)
  | PReal f => line (Float.F64.display (Float.F64.of_bits f))
  | PBool b => println (show_bool b)
  | PData b => println (hex_text b)
  | _ => xml_text v
  end.

Section lockdown.
Context `{BP : BuildProfile} `{PL : PlistLib} `{T : Lockdown.Tls} `{SJ : CdTunnel.SerdeJson}
  {W : Type} `{OS : Os W} `{TS : TunnelStack W} `{Y : Sys W} `{TM : Terminal} `{J : JsonLib}.

(** An operation of [session.lockdown()], and its device. *)
Definition on_ld {E A} (m : ST Lockdown.LockdownSession E A) : ST (W * DeviceSession) E A :=
  Cli.on_lockdown (on_local m).
Definition the_device {E} : ST (W * DeviceSession) E UsbmuxTypes.Device :=
  let! ws := sget in sret (DeviceSession.ds_device ws.2).

(** [get_value(..).ok().and_then(..)]: a text, if there is one *)
Definition text_value {E} (domain : option string) (key : string) :
    ST (W * DeviceSession) E (option string) :=
  let! r := stry (on_ld (Lockdown.get_value domain key)) in
  sret (match r with inr v => as_string v | inl _ => None end).

(** ** [info.rs] *)

Definition info_udid (d : UsbmuxTypes.Device) (i : Lockdown.DeviceInfo) : string :=
  if bool_decide (Lockdown.unique_device_id i = ""%string) then UsbmuxTypes.serial d
  else Lockdown.unique_device_id i.
Definition info_json (d : UsbmuxTypes.Device) (p : DeviceSession.ActivePath) (i : Lockdown.DeviceInfo) : jval :=
  JObject (jmap (
    ["UDID" =:> JString (info_udid d i); "Name" =:> JString (Lockdown.device_name i);
     "Product" =:> JString (Lockdown.product_type i);
     "iOSVersion" =:> JString (Lockdown.product_version i);
     "HardwareModel" =:> JString (Lockdown.hardware_model i);
     "SerialNumber" =:> JString (Lockdown.serial_number i);
     "CPUArchitecture" =:> JString (Lockdown.cpu_architecture i);
     "Path" =:> JString (DeviceSession.ActivePath_fmt p)]
    ++ ((λ kv, (kv.1, plist_to_json kv.2)) <$> Lockdown.extra i))).
Definition skipped_keys : list string :=
  ["ProductVersion"; "HumanReadableProductVersionString"; "ProductName"]%string.
Definition info_rows (d : UsbmuxTypes.Device) (p : DeviceSession.ActivePath) (i : Lockdown.DeviceInfo) :
    list (list string) :=
  [["UDID"; info_udid d i]; ["Name"; Lockdown.device_name i]; ["Product"; Lockdown.product_type i];
   ["iOS version"; Lockdown.product_version i]; ["Hardware model"; Lockdown.hardware_model i];
   ["Serial number"; if bool_decide (Lockdown.serial_number i = "") then "(requires pairing)"
                     else Lockdown.serial_number i];
   ["CPU arch"; Lockdown.cpu_architecture i]; ["Path"; DeviceSession.ActivePath_fmt p]]%string
  ++ ((λ kv, [kv.1; string_of (plist_display kv.2)])
        <$> sort_by fst (filter (λ kv, kv.1 ∉ skipped_keys) (Lockdown.extra i))).
Definition info_run (udid : option string) (mode : ConnectionMode) (output : OutputMode) :
    ST W anyhow (list byte) :=
  Cli.with_session udid mode (
    let! info := Cli.ld_any (on_ld Lockdown.get_all_values) in
    let! ws := sget in
    let d := DeviceSession.ds_device ws.2 in
    let p := DeviceSession.active_path ws.2 in
    lift (report output (info_json d p info)
            (line (table_text ["Field"; "Value"]%string (info_rows d p info))))).

(** ** [services.rs] *)

Definition services_run (udid : option string) (mode : ConnectionMode) (output : OutputMode) :
    ST W anyhow (list byte) :=
  Cli.with_session udid mode (
    let! services := Cli.ld_any (on_ld Lockdown.list_services) in
    let services := sort_strings services in
    lift (report output (JArray (JString <$> services)) (concat (println <$> services)))).

(** ** [lang.rs] *)

Definition INTERNATIONAL : string := "com.apple.international".
Definition lang_show (output : OutputMode) : ST (W * DeviceSession) anyhow (list byte) :=
  let! lang := text_value (Some INTERNATIONAL) "Language" in
  let! locale := text_value (Some INTERNATIONAL) "Locale" in
  lift (report output (JObject ["language" =:> jopt lang; "locale" =:> jopt locale])
          (line (table_text ["Setting"; "Value"]%string
             [["Language"; default "-" lang]; ["Locale"; default "-" locale]]%string))).
Definition set_text (domain : option string) (key : string) (v : option string) :
    ST (W * DeviceSession) anyhow unit :=
  match v with
  | Some v => Cli.ld_any (on_ld (Lockdown.set_value domain key (PString v)))
  | None => sret tt
  end.
Definition lang_text (set_lang set_locale : option string) : list byte :=
  match set_lang with
  | Some l => println ("Language set to '" ++ l ++ "' — device will restart SpringBoard.")
  | None => []
  end
  ++ match set_locale with Some l => println ("Locale set to '" ++ l ++ "'.") | None => [] end.
Definition lang_run (udid set_lang set_locale : option string) (mode : ConnectionMode)
    (output : OutputMode) : ST W anyhow (list byte) :=
  Cli.with_session udid mode (
    match set_lang, set_locale with
    | None, None => lang_show output
    | _, _ =>
        set_text (Some INTERNATIONAL) "Language" set_lang ;;;
        set_text (Some INTERNATIONAL) "Locale" set_locale ;;;
        lift (report output (action_json ActionResult_ok) (lang_text set_lang set_locale))
    end).

(** ** [deviceip.rs] *)

Definition deviceip_json (ipv6 wifi bluetooth ethernet : option string) : jval :=
  JObject ["cdtunnel_ipv6" =:> jopt ipv6; "wifi_mac" =:> jopt wifi;
           "bluetooth_mac" =:> jopt bluetooth; "ethernet_mac" =:> jopt ethernet].
Definition labelled (label : string) (v : option string) : list byte :=
  match v with Some v => println (label ++ v) | None => [] end.
(** [ipv6_text] is the [Display] of [Ipv6Addr]. *)
Definition deviceip_run (ipv6_text : list Z → string) (udid : option string) (output : OutputMode) :
    ST W anyhow (list byte) :=
  Cli.with_session udid RsdMode (
    let! ws := sget in
    let ipv6 := (λ t, ipv6_text (server_addr (stack_params t)))
                  <$> DeviceSession.smoltcp_tunnel_ref ws.2 in
    let! wifi := text_value None "WiFiAddress" in
    let! bluetooth := text_value None "BluetoothAddress" in
    let! ethernet := text_value None "EthernetAddress" in
    lift (report output (deviceip_json ipv6 wifi bluetooth ethernet)
            (labelled "CDTunnel IPv6:  " ipv6 ++ labelled "WiFi MAC:      " wifi
             ++ labelled "Bluetooth MAC: " bluetooth ++ labelled "Ethernet MAC:  " ethernet))).

(** ** [mobilegestalt.rs] *)

Definition mobilegestalt_query (udid : option string) (mode : ConnectionMode) (key : string)
    (output : OutputMode) : ST W anyhow (list byte) :=
  Cli.with_session udid mode (
    let! val := Daemon.ctx (Msg "MobileGestalt key {key:?}" [FStr key]) Lockdown.Error_fmt
                  (on_ld (Lockdown.get_value None key)) in
    lift (report output (JObject ["key" =:> JString key; "value" =:> plist_to_json val])
            (print_value val))).

(** ** The name of the device ([main.rs]); [debug_str] is [{:?}] of a text. *)

Definition ld_display {S A} (m : ST S Lockdown.Error A) : ST S anyhow A :=
  smap_err (λ e, [Msg "{e}" [FDisplay (Lockdown.Error_fmt e)]]) m.
Definition devicename_run (debug_str : string → string) (udid : option string) (mode : ConnectionMode)
    (name : option string) (output : OutputMode) : ST W anyhow (list byte) :=
  Cli.with_session udid mode (
    match name with
    | None =>
        let! v := ld_display (on_ld (Lockdown.get_value None "DeviceName")) in
        let s := default "(unknown)"%string (as_string v) in
        lift (report output (JObject ["name" =:> JString s]) (println s))
    | Some n =>
        ld_display (on_ld (Lockdown.set_value None "DeviceName" (PString n))) ;;;
        lift (report output (action_json (with_msg ("device name set to " ++ debug_str n))) [])
    end).

(** ** [version.rs] *)

Definition path_text (v : IosVersion) : bool * string :=
  if is_legacy_version v then (false, "usbmux → lockdownd")
  else if supports_core_device_proxy v
       then (true, "usbmux → lockdownd → CoreDeviceProxy → CDTunnel → RSD")
       else (true, "USB-Ethernet (CDC-NCM) → RSD → QUIC tunnel")%string.
Definition version_json (d : UsbmuxTypes.Device) (v : IosVersion) : jval :=
  let '(rsd_capable, active_path) := path_text v in
  JObject ["udid" =:> JString (UsbmuxTypes.serial d); "ios_version" =:> JString (string_of (version_fmt v));
           "rsd_capable" =:> JBool rsd_capable; "active_path" =:> JString active_path].
Definition version_text (d : UsbmuxTypes.Device) (v : IosVersion) : list byte :=
  println ("Device:      " ++ UsbmuxTypes.serial d)
  ++ line (bytes_of "iOS version: " ++ version_fmt v) ++ println ""
  ++ concat (println <$>
       if is_legacy_version v then
         ["Path: usbmux → lockdownd (iOS < 17)";
          "  All services reachable directly via lockdownd StartService."]%string
       else if supports_core_device_proxy v then
         ["Path: usbmux → lockdownd → CoreDeviceProxy → CDTunnel → RSD (iOS 17.4+)";
          "  Tunnel available without USB-Ethernet driver.";
          "  Developer services require the RSD service catalogue."]%string
       else
         ["Path: USB-Ethernet (CDC-NCM) → RSD → QUIC tunnel (iOS 17.0–17.3)";
          "  Requires USB-Ethernet driver and RemotePairing handshake.";
          "  CoreDeviceProxy shortcut not available on this iOS version."]%string).
Definition version_run (udid : option string) (output : OutputMode) : ST W anyhow (list byte) :=
  let! device := Cli.resolve_device udid in
  let! ver := smap_err (λ e, [Error_fmt e]) (detect_version (UsbmuxTypes.device_id device)) in
  lift (report output (version_json device ver) (version_text device ver)).
End lockdown.

(** ** [timezone.rs] *)
Section timezone.
Context `{BP : BuildProfile} `{PL : PlistLib} `{T : Lockdown.Tls} `{SJ : CdTunnel.SerdeJson}
  {W : Type} `{OS : Os W} `{TS : TunnelStack W} `{Y : Sys W} `{TM : Terminal} `{J : JsonLib}
  `{C : Launch.WallClock W}.

(** [as_secs() as i64] *)
Definition unix_secs {E} : ST W E Z := λ w,
  let (n, w) := Launch.unix_nanos w in (Ok (swrap 64 (n / 1000000000)), w).

Definition timezone_show (output : OutputMode) : ST (W * DeviceSession) anyhow (list byte) :=
  let! tz := text_value None "TimeZone" in
  lift (report output (JObject ["timezone" =:> jopt tz]) (println ("TimeZone: " ++ default "-" tz))).
Definition sync_clock : ST (W * DeviceSession) anyhow (list byte) :=
  let! secs := on_outer unix_secs in
  Cli.ld_any (on_ld (Lockdown.set_value None "TimeIntervalSince1970" (PInt secs))) ;;;
  sret (line (bytes_of "Device time synced to host time (" ++ dec_signed secs ++ bytes_of ").")).
Definition timezone_run (udid timezone : option string) (sync_time : bool) (mode : ConnectionMode)
    (output : OutputMode) : ST W anyhow (list byte) :=
  Cli.with_session udid mode (
    match timezone, sync_time with
    | None, false => timezone_show output
    | _, _ =>
        let! synced := (if sync_time then sync_clock else sret []) in
        set_text None "TimeZone" timezone ;;;
        let zone := match timezone with
                    | Some tz => println ("TimeZone set to '" ++ tz ++ "'.")
                    | None => []
                    end in
        lift (report output (action_json ActionResult_ok) (synced ++ zone))
    end).
End timezone.

Section services.
Context `{BP : BuildProfile} `{PL : PlistLib} `{T : Lockdown.Tls} `{SJ : CdTunnel.SerdeJson}
  {W : Type} `{OS : Os W} `{TS : TunnelStack W} `{Y : Sys W} `{TM : Terminal} `{J : JsonLib}.

(** A service of lockdown and one operation on it. *)
Definition on_service {A} (connect : ST (W * Lockdown.LockdownSession) Lockdown.Error MuxSocket)
    (connect_context : string) (t : string) (m : ST stream Lockdown.Error A) :
    ST (W * DeviceSession) anyhow A :=
  let! socket := Cli.on_lockdown (Cli.ld_context connect_context connect) in
  let! (a, _) := srun (Cli.ld_context t m) (mux_stream socket) in
  sret a.

(** ** [devmode.rs] *)

Definition devmode_status (udid : option string) (mode : ConnectionMode) (output : OutputMode) :
    ST W anyhow (list byte) :=
  Cli.with_session udid mode (
    let! enabled := on_service Services.amfi_connect "connect amfi" "developer mode status"
                      Services.developer_mode_status in
    lift (report output (JObject ["enabled" =:> JBool enabled])
            (println ("developer mode: " ++ if enabled then "enabled" else "disabled")))).
Definition devmode_enable (udid : option string) (mode : ConnectionMode) (output : OutputMode) :
    ST W anyhow (list byte) :=
  Cli.with_session udid mode (
    let! reboot := on_service Services.amfi_connect "connect amfi" "enable developer mode"
                     Services.enable_developer_mode in
    lift (report output (JObject ["ok" =:> JBool true; "reboot_required" =:> JBool reboot])
            (println (if reboot then "developer mode enabled — reboot required"
                      else "developer mode enabled")))).

(** ** [wifi.rs] *)

Definition WIFI_CONTEXT : string := "connect wireless_lockdown (not available on iOS 18+)".
Definition wifi_text (enabled : bool) : list byte :=
  println ("wifi connections: " ++ if enabled then "enabled" else "disabled").
Definition wifi_status (udid : option string) (mode : ConnectionMode) (output : OutputMode) :
    ST W anyhow (list byte) :=
  Cli.with_session udid mode (
    let! enabled := on_service Services.wireless_connect WIFI_CONTEXT "get wifi status"
                      Services.get_wifi_enabled in
    lift (report output (JObject ["enabled" =:> JBool enabled]) (wifi_text enabled))).
Definition wifi_set (udid : option string) (mode : ConnectionMode) (enabled : bool) (output : OutputMode) :
    ST W anyhow (list byte) :=
  Cli.with_session udid mode (
    on_service Services.wireless_connect WIFI_CONTEXT "set wifi" (Services.set_wifi_enabled enabled) ;;;
    lift (report output (action_json (with_msg (if enabled then "wifi enabled" else "wifi disabled")))
            (wifi_text enabled))).

(** ** [diagnostics.rs] *)

Definition diagnostics_client : ST (W * DeviceSession) anyhow stream :=
  let! m := Cli.shim_or_lockdown "com.apple.mobile.diagnostics_relay.shim.remote"
              "connect diagnostics shim" Services.diagnostics_connect "connect diagnostics" in
  sret (mux_stream m).
Definition with_diagnostics {A} (udid : option string) (mode : ConnectionMode) (t : string)
    (m : ST stream Lockdown.Error A) : ST W anyhow A :=
  Cli.with_session udid mode (
    let! diag := diagnostics_client in
    let! (a, _) := srun (Cli.ld_context t m) diag in
    sret a).
Definition reboot (udid : option string) (mode : ConnectionMode) (output : OutputMode) :
    ST W anyhow (list byte) :=
  with_diagnostics udid mode "reboot" Services.restart ;;;
  lift (report output (action_json (with_msg "rebooting")) []).
Definition shutdown (udid : option string) (mode : ConnectionMode) (output : OutputMode) :
    ST W anyhow (list byte) :=
  with_diagnostics udid mode "shutdown" Services.shutdown ;;;
  lift (report output (action_json (with_msg "shutting down")) []).

Definition battery_json (i : Services.BatteryInfo) : jval :=
  JObject ["capacity_pct" =:> JInt (Services.capacity_pct i); "voltage_mv" =:> JInt (Services.voltage_mv i);
           "cycle_count" =:> JInt (Services.cycle_count i);
           "design_capacity" =:> JInt (Services.design_capacity i);
           "full_capacity" =:> JInt (Services.full_capacity i);
           "is_charging" =:> JBool (Services.is_charging i);
           "external_connected" =:> JBool (Services.external_connected i);
           "fully_charged" =:> JBool (Services.fully_charged i)].
Definition if_positive (label : string) (n : Z) (unit : string) : list byte :=
  if 0 <? n then line (bytes_of label ++ dec n ++ bytes_of unit) else [].
Definition if_true (label : string) (b : bool) : list byte := if b then println label else [].
Definition battery_text (i : Services.BatteryInfo) : list byte :=
  if_positive "capacity:    " (Services.capacity_pct i) "%"
  ++ if_positive "voltage:     " (Services.voltage_mv i) " mV"
  ++ if_positive "cycle count: " (Services.cycle_count i) ""
  ++ if_positive "design cap:  " (Services.design_capacity i) " mAh"
  ++ if_positive "health:      " (Services.full_capacity i) "%"
  ++ if_true "charging:    true" (Services.is_charging i)
  ++ if_true "plugged in:  true" (Services.external_connected i)
  ++ if_true "full charge: true" (Services.fully_charged i).
Definition battery (udid : option string) (mode : ConnectionMode) (output : OutputMode) :
    ST W anyhow (list byte) :=
  let! info := with_diagnostics udid mode "battery info" Services.battery in
  lift (report output (battery_json info) (battery_text info)).
Definition diagnostics_all (udid : option string) (mode : ConnectionMode) (output : OutputMode) :
    ST W anyhow (list byte) :=
  let! d := with_diagnostics udid mode "diagnostics all" Services.all in
  if is_json output then lift (print_json (plist_to_json (PDict d)))
  else
    let! buf := lift (ok_or (to_writer_xml (PDict d)) [msg0 "{e}"]) in
    sret (bytes_of (from_utf8_lossy buf)).

(** ** [erase.rs] *)

(** A request to a service that answers nothing. *)
Definition send_only (v : pval) : ST stream anyhow unit :=
  let! body := lift (ok_or (to_writer_xml v) [msg0 "{e}"]) in
  Daemon.any_io (write_all (be_bytes 4 (wrap 32 (lenZ body)))) ;;;
  Daemon.any_io (write_all body) ;;;
  Daemon.any_io flush.
(** [answer]: the line that is read from standard input *)
Definition confirm {S} (yes : bool) (answer : ST S io_error string) : ST S anyhow unit :=
  if yes then sret tt
  else
    let! s := Daemon.any_io answer in
    if bool_decide (Text.trim s = "YES"%string) then sret tt else Cli.bail "aborted" [].
Definition obliterate : pval := PDict (dict ["Request" =>> PString "ObliterateDevice"]).
Definition erase_run (answer : ST W io_error string) (udid : option string) (mode : ConnectionMode)
    (yes : bool) (output : OutputMode) : ST W anyhow (list byte) :=
  confirm yes answer ;;;
  Cli.with_session udid mode (
    let! socket := Cli.on_lockdown (Cli.ld_context "connect obliteration service"
                     (Lockdown.connect_service "com.apple.mobile.obliteration")) in
    let! _ := srun (send_only obliterate) (mux_stream socket) in
    lift (report output (action_json (with_msg "erase initiated")) [])).

(** ** [rsd.rs] *)

Definition rsd_json (e : string * Rsd.ServiceEntry) : jval :=
  JObject ["name" =:> JString e.1; "port" =:> JInt (Rsd.port e.2);
           "uses_remote_xpc" =:> JBool (Rsd.uses_remote_xpc e.2)].
Definition rsd_row (name port last : string) : list byte :=
  line (bytes_of (OsLog.pad_right 60 name) ++ bytes_of " " ++ bytes_of (Text.pad_left 6 port)
        ++ bytes_of "  " ++ bytes_of last).
Definition rsd_text (i : Rsd.PeerInfo) (svcs : list (string * Rsd.ServiceEntry)) : list byte :=
  println ("RSD peer: " ++ Rsd.product_type i ++ " " ++ Rsd.os_version i ++ " (" ++ Rsd.udid i ++ ")")
  ++ println "" ++ rsd_row "Service" "Port" "remote-xpc"
  ++ line (concat (replicate 72 (bytes_of "─")))
  ++ concat ((λ e : string * Rsd.ServiceEntry,
       rsd_row e.1 (string_of (dec (Rsd.port e.2))) (if Rsd.uses_remote_xpc e.2 then "yes" else "no")) <$> svcs).
Definition rsd_run (udid : option string) (output : OutputMode) : ST W anyhow (list byte) :=
  Cli.with_session udid RsdMode (
    let! ws := sget in
    let! rsd := smap_err (λ e, [Error_fmt e]) (on_outer (DeviceSession.connect_rsd ws.2)) in
    let svcs := sort_by fst (Rsd.services rsd) in
    lift (report output (JArray (rsd_json <$> svcs)) (rsd_text (Rsd.peer_info rsd) svcs))).
End services.

(** ** [devices.rs] *)
Section devices.
Context `{BP : BuildProfile} `{PL : PlistLib} `{T : Lockdown.Tls} {W : Type} `{OS : Os W}
  `{TM : Terminal} `{J : JsonLib}.

Definition mux_error (e : UsbmuxTypes.Error) : anyhow := [UsbmuxTypes.Error_fmt e].
(** [Connection::open()?] *)
Definition open_connection : ST W anyhow UsbmuxConn.Conn :=
  let! m := smap_err (λ e, mux_error (UsbmuxTypes.EIo e)) mux_connect in
  sret (UsbmuxConn.from_stream (mux_stream m)).

Definition unknown : string := "—".
(** What an unpaired session gives away, as far as it does. *)
Definition value_or_dash (key : string) : ST Lockdown.LockdownSession anyhow string :=
  let! r := stry (Lockdown.get_value None key) in
  sret (match r with inr v => default unknown (as_string v) | inl _ => unknown end).
Definition fetch_display_info (device_id : Z) : ST W anyhow (string * string) :=
  let! r := stry (Lockdown.ld_connect device_id) in
  match r with
  | inl _ => sret (unknown, unknown)
  | inr s =>
      let! (nv, _) := srun (let! n := value_or_dash "DeviceName" in
                            let! v := value_or_dash "ProductVersion" in
                            sret (n, v)) s in
      sret nv
  end.

Definition connection_text (d : UsbmuxTypes.Device) : string :=
  UsbmuxTypes.ConnectionType_fmt (UsbmuxTypes.connection_type d).
Definition device_json (d : UsbmuxTypes.Device) (nv : string * string) : jval :=
  JObject ["udid" =:> JString (UsbmuxTypes.serial d); "name" =:> JString nv.1;
           "connection" =:> JString (connection_text d); "ios_version" =:> JString nv.2].
Definition devices_run (output : OutputMode) : ST W anyhow (list byte) :=
  let! conn := open_connection in
  let! (devices, _) := srun (smap_err mux_error UsbmuxConn.conn_list_devices) conn in
  match devices with
  | [] => lift (report output (JArray []) (println "No devices connected."))
  | _ =>
      let! infos := traverse (λ d, fetch_display_info (UsbmuxTypes.device_id d)) devices in
      lift (report output (JArray (zip_with device_json devices infos))
        (line (table_text ["Name"; "UDID"; "Connection"; "iOS"]%string
           (zip_with (λ d nv, [nv.1; UsbmuxTypes.serial d; connection_text d; nv.2]) devices infos))))
  end.
End devices.

(** ** [watch.rs]

    The state is the connection and what has been printed. *)
Section watch.
Context `{PL : PlistLib} {W : Type} `{OS : Os W} `{TM : Terminal} `{J : JsonLib}.

(** A document on a line of its own *)
Definition json_line (v : jval) : outcome anyhow (list byte) :=
  let? l := ok_or (json_to_vec v) [msg0 "{e}"] in Ok (line l).
(** [{:#06x}] on a [u16] *)
Definition hex4 (n : Z) : list byte :=
  bytes_of "0x" ++ ((λ i, hex_digit false (Z.shiftr n (4 * i) `mod` 16)) <$> [3; 2; 1; 0]).
Definition event_json (ev : UsbmuxTypes.Event) : option jval :=
  match ev with
  | UsbmuxTypes.DeviceAttached d =>
      Some (JObject ["type" =:> JString "attached"; "udid" =:> JString (UsbmuxTypes.serial d);
                     "connection" =:> JString (connection_text d);
                     "product_id" =:> JInt (UsbmuxTypes.product_id d)])
  | UsbmuxTypes.DeviceDetached id =>
      Some (JObject ["type" =:> JString "detached"; "device_id" =:> JInt id])
  | _ => None
  end.
Definition event_text (ev : UsbmuxTypes.Event) : list byte :=
  match ev with
  | UsbmuxTypes.DeviceAttached d =>
      line (bytes_of "+ " ++ bytes_of (UsbmuxTypes.serial d) ++ bytes_of " ["
            ++ bytes_of (connection_text d) ++ bytes_of "] product=" ++ hex4 (UsbmuxTypes.product_id d))
  | UsbmuxTypes.DeviceDetached id => line (bytes_of "- device_id=" ++ dec id)
  | _ => []
  end.
Definition event_line (json : bool) (ev : UsbmuxTypes.Event) : outcome anyhow (list byte) :=
  if json then match event_json ev with Some v => json_line v | None => Ok [] end
  else Ok (event_text ev).

Definition print {S} (l : list byte) : ST (S * list byte) anyhow unit :=
  smodify (λ st, (st.1, st.2 ++ l)).
Fixpoint watch_loop (fuel : nat) (json : bool) : ST (UsbmuxConn.Conn * list byte) anyhow unit :=
  let! ev := on_outer (smap_err mux_error UsbmuxConn.listener_next) in
  let! l := lift (event_line json ev) in
  print l ;;;
  match fuel with O => lift OutOfFuel | S fuel => watch_loop fuel json end.
(** It ends with an error only: every turn takes an event from the connection. *)
Definition watch_listener (json : bool) : ST (UsbmuxConn.Conn * list byte) anyhow unit := λ st,
  watch_loop (UsbmuxConn.pending_size st.1) json st.
Definition watch_run (output : OutputMode) : ST (W * list byte) anyhow unit :=
  let! conn := on_outer open_connection in
  let! (_, listener) := srun (smap_err mux_error UsbmuxConn.conn_listen) conn in
  (λ wo, let '(r, (_, out)) := watch_listener (is_json output) (listener, wo.2) in (r, (wo.1, out))).
End watch.

(** ** [relay.rs] *)
Section relay.
Context `{BP : BuildProfile} `{PL : PlistLib} `{T : Lockdown.Tls} `{SJ : CdTunnel.SerdeJson}
  {W : Type} `{OS : Os W} `{TS : TunnelStack W} `{Y : Sys W}.

(** One client on its thread: the tunnel, then a copying thread for each
    direction, which touch different halves of the two streams. *)
Definition relay_copy (client tunnel : stream) : option (stream * stream) :=
  '(client, tunnel) ← Rsd.copy_half client tunnel;
  '(tunnel, client) ← Rsd.copy_half tunnel client;
  Some (client, tunnel).
Definition relay_handle (client : stream) (device_id device_port : Z) : ST W anyhow (stream * stream) :=
  let! mux := open_connection in
  let! (tunnel, _) := srun (smap_err mux_error (UsbmuxConn.open_tunnel device_id device_port)) mux in
  lift (match relay_copy client tunnel with Some st => Ok st | None => OutOfFuel end).

(** The listener and the device of its clients *)
Definition relay_listen (udid : option string) (listen_port : Z) : ST W anyhow (UsbmuxTypes.Device * listener) :=
  let! device := Cli.resolve_device udid in
  let! l := Daemon.any_io (tcp_bind "127.0.0.1" listen_port) in
  let! _ := lift (match local_addr l with
                  | Ok a => Ok a | Err e => Err [Daemon.io_fmt e] | Panic => Panic | OutOfFuel => OutOfFuel
                  end) in
  sret (device, l).
(** The work of a thread, whose error or panic is its own. *)
Definition threaded {S E F A} (m : ST S E A) : ST S F (option A) := λ s,
  match m s with
  | (Ok a, s) => (Ok (Some a), s)
  | (OutOfFuel, s) => (OutOfFuel, s)
  | (_, s) => (Ok None, s)
  end.
(** What the listener accepts: a thread for each client, until it fails.  The
    result is the two streams of each client that was served, at their ends. *)
Fixpoint relay_accept (device_id device_port : Z) (incoming : list (io_error + stream)) :
    ST W anyhow (list (option (stream * stream))) :=
  match incoming with
  | [] => sret []
  | inl e :: _ => sfail [Daemon.io_fmt e]
  | inr client :: incoming =>
      let! served := threaded (relay_handle client device_id device_port) in
      let! more := relay_accept device_id device_port incoming in
      sret (served :: more)
  end.
Definition relay_run (incoming : list (io_error + stream)) (udid : option string) (device_port listen_port : Z) :
    ST W anyhow (list (option (stream * stream))) :=
  let! (device, _) := relay_listen udid listen_port in
  relay_accept (UsbmuxTypes.device_id device) device_port incoming.
End relay.

(** ** [notification.rs] *)
Section notification.
Context `{BP : BuildProfile} `{PL : PlistLib} `{T : Lockdown.Tls} `{SJ : CdTunnel.SerdeJson}
  {W : Type} `{OS : Os W} `{TS : TunnelStack W} `{Y : Sys W} `{TM : Terminal} `{J : JsonLib}.

Definition NOTIFICATION_SHIM : string := "com.apple.mobile.insecure_notification_proxy.shim.remote".
Definition notification_command (command : string) (name : option string) : pval :=
  PDict (dict (("Command" =>> PString command)
               :: match name with Some n => ["Name" =>> PString n] | None => [] end)).
Definition send_cmd (command : string) (name : option string) : ST stream anyhow unit :=
  send_only (notification_command command name).

Definition notification_read_exact (n : Z) : ST stream anyhow (list byte) :=
  read_exact_retry (λ e, [Daemon.io_fmt e]) [msg0 "connection closed"] n.
Definition notification_recv : ST stream anyhow pval :=
  let! len_buf := notification_read_exact 4 in
  let len := be_val len_buf in
  if (len =? 0) || (1024 * 1024 <? len) then
    Cli.bail "implausible notification length {len}" [FNum len]
  else
    let! body := notification_read_exact len in
    lift (ok_or (from_bytes body) [msg0 "{e}"]).

Definition notification_connect : ST (W * DeviceSession) anyhow stream :=
  let! ws := sget in
  let! m := on_outer (Cli.tn_context "connect notification proxy"
                        (DeviceSession.connect_rsd_shim ws.2 NOTIFICATION_SHIM)) in
  sret (mux_stream m).
Definition notification_post (udid : option string) (mode : ConnectionMode) (name : string)
    (output : OutputMode) : ST W anyhow (list byte) :=
  Cli.with_session udid mode (
    let! stream := notification_connect in
    let! _ := srun (send_cmd "PostNotification" (Some name)) stream in
    lift (report output (action_json (with_msg ("posted: " ++ name))) [])).

(** The notification that a message relays *)
Definition notified (msg : pval) : option string :=
  d ← as_dictionary msg;
  if bool_decide (dget "Command" d ≫= as_string = Some "RelayNotification"%string)
  then Some (default ""%string (dget "Name" d ≫= as_string)) else None.
Definition note_line (json : bool) (note : string) : outcome anyhow (list byte) :=
  if json then json_line (JObject ["name" =:> JString note]) else Ok (println note).

(** The state is the connection and what has been printed; the loop ends when a
    message cannot be read, whatever the reason. *)
Fixpoint observe_loop (fuel : nat) (json : bool) : ST (stream * list byte) anyhow unit :=
  let! r := stry (on_outer notification_recv) in
  match r with
  | inl _ => sret tt
  | inr msg =>
      match notified msg with
      | Some note => let! l := lift (note_line json note) in print l
      | None => sret tt
      end ;;;
      match fuel with O => lift OutOfFuel | S fuel => observe_loop fuel json end
  end.
Definition observe_stream (json : bool) : ST (stream * list byte) anyhow unit := λ st,
  observe_loop (stream_size st.1) json st.
Definition observe_request (name : option string) : ST stream anyhow unit :=
  match name with
  | Some n => send_cmd "ObserveNotification" (Some n)
  | None => send_cmd "ObserveAllNotifications" None
  end.
Definition notification_observe (udid : option string) (mode : ConnectionMode) (name : option string)
    (output : OutputMode) : ST W anyhow (list byte) :=
  Cli.with_session udid mode (
    let! stream := notification_connect in
    let! (_, stream) := srun (observe_request name) stream in
    let! (_, st) := srun (observe_stream (is_json output)) (stream, []) in
    sret st.2).
End notification.

(** ** [syslog.rs] *)
Section syslog.
Context `{BP : BuildProfile} `{PL : PlistLib} `{T : Lockdown.Tls} `{SJ : CdTunnel.SerdeJson}
  {W : Type} `{OS : Os W} `{TS : TunnelStack W} `{Y : Sys W} `{TM : Terminal}.
(** [str::to_lowercase] *)
Context (to_lowercase : string → string).

Definition contains_ignoring_case (pat text : string) : bool :=
  contains_sub (bytes_of (to_lowercase pat)) (bytes_of (to_lowercase text)).
Definition matches_filters (entry : Syslog.SyslogEntry) (process filter : option string) : bool :=
  match process with Some p => contains_ignoring_case p (Syslog.process entry) | None => true end
  && match filter with Some p => contains_ignoring_case p (Syslog.raw entry) | None => true end.

Definition syslog_json (e : Syslog.SyslogEntry) : list byte :=
  bytes_of "{" ++ join [","%byte] [
    OsLog.json_field "timestamp" (OsLog.json_str (Syslog.timestamp e));
    OsLog.json_field "process" (OsLog.json_str (Syslog.process e));
    OsLog.json_field "level" (OsLog.json_str (Syslog.level e));
    OsLog.json_field "message" (OsLog.json_str (Syslog.message e))] ++ bytes_of "}".
Definition syslog_line (json : bool) (e : Syslog.SyslogEntry) : list byte :=
  line (if json then syslog_json e else bytes_of (Syslog.raw e)).

(** The callback writes to the output, a file or standard output, and stops the
    stream when it cannot. *)
Definition syslog_callback (json : bool) (process filter : option string) (e : Syslog.SyslogEntry)
    (out : stream) : bool * stream :=
  if matches_filters e process filter then
    match (write_all (syslog_line json e) ;;; flush) out with
    | (Ok _, out) => (true, out)
    | (_, out) => (false, out)
    end
  else (true, out).

(** [out]: standard output, or the file that is created; what was written to it *)
Definition syslog_run (udid : option string) (mode : ConnectionMode) (process filter : option string)
    (output : OutputMode) (out : ST W anyhow stream) : ST W anyhow stream :=
  Cli.with_session udid mode (
    let! m := Cli.shim_or_lockdown "com.apple.syslog_relay.shim.remote" "connect syslog shim"
                Syslog.syslog_connect "connect syslog" in
    let! out := on_outer out in
    let! (_, st) := srun (Cli.ld_context "syslog stream"
                       (Syslog.syslog_stream (syslog_callback (is_json output) process filter)))
                      (mux_stream m, out) in
    sret st.2).
End syslog.

(** ** Watching

    What is printed is one line for every attachment and detachment that the
    daemon reports, in order, however its bytes are cut into reads. *)
Section watching.
Context `{PL : PlistLib} `{J : JsonLib}.
Import UsbmuxConn.

Lemma told_text es : concat (event_text <$> filter presence es) = concat (event_text <$> es).
Proof.
  induction es as [|e es IH]; [done|].
  destruct e; first [rewrite filter_cons_True by done|rewrite filter_cons_False by (by intros [])];
    cbn [fmap list_fmap concat]; by rewrite IH.
Qed.

Lemma watch_loop_prints fuel c kf out :
  (length (told kf) ≤ fuel)%nat → sees c kf [] → no_refusal kf →
  ∃ c', watch_loop fuel false (c, out) =
    (Err (mux_error UsbmuxTypes.EConnectionClosed), (c', out ++ concat (event_text <$> told kf))).
Proof.
  revert c kf out. induction fuel as [|fuel IH]; intros c kf out Hf Hs Hr;
    pose proof (listener_next_told c kf Hs Hr) as Hn;
    destruct (told kf) as [|e es]; cbn [watch_loop]; try (cbn in Hf; lia).
  1, 2: destruct Hn as (c' & Hn); exists c'; unfold sbind at 1, on_outer, zoom, smap_err; cbn [fst];
    rewrite Hn; by rewrite app_nil_r.
  destruct Hn as (c' & kf' & Hn & Hs' & Hr' & Ht).
  erewrite sbind_ok; [|unfold on_outer, zoom, smap_err; cbn [fst]; rewrite Hn; reflexivity].
  erewrite sbind_ok by reflexivity. erewrite sbind_ok by reflexivity. cbn [fst snd].
  destruct (IH c' kf' (out ++ event_text e)) as (c2 & ->); [rewrite Ht; cbn in Hf; lia|done|done|].
  exists c2. rewrite Ht. cbn [fmap list_fmap concat]. by rewrite (assoc_L (++)).
Qed.

Lemma watch_prints c kf out :
  sees c kf [] → no_refusal kf →
  ∃ c', watch_listener false (c, out) =
    (Err (mux_error UsbmuxTypes.EConnectionClosed),
     (c', out ++ concat (event_text <$> UsbmuxCodec.c_events kf))).
Proof.
  intros Hs. unfold watch_listener. cbn [fst]. rewrite <-told_text.
  apply watch_loop_prints; [by eapply told_size|done].
Qed.
End watching.

(** ** Relaying

    What a client sends reaches the device and what the device sends reaches the
    client, until each has ended. *)
Lemma relay_copies client tunnel up down :
  healthy client → healthy tunnel → delivers (rx client) up [] → delivers (rx tunnel) down [] →
  ∃ client' tunnel', relay_copy client tunnel = Some (client', tunnel') ∧
    tx client' = tx client ++ down ∧ tx tunnel' = tx tunnel ++ up.
Proof.
  intros Hc Ht Hup Hdown. unfold relay_copy.
  destruct (Rsd.copy_half_fuel_relays false 16384 client tunnel up []) as (client1 & H1 & Hq & Hx);
    [done|done|done|by left|].
  change (Rsd.copy_half client tunnel = Some (client1, append_tx up tunnel)) in H1. rewrite H1.
  cbn [mbind option_bind].
  destruct (Rsd.copy_half_fuel_relays false 16384 (append_tx up tunnel) client1 down []) as (tunnel1 & H2 & _ & Hx2);
    [done|unfold healthy in *; congruence|done|by left|].
  change (Rsd.copy_half (append_tx up tunnel) client1 = Some (tunnel1, append_tx down client1)) in H2.
  rewrite H2. cbn [mbind option_bind].
  eexists _, _. split; [done|]. by rewrite Hx2, <-Hx.
Qed.

(** ** Observing notifications *)
Section observing.
Context `{PL : PlistLib} `{PLL : !PlistLaws PL} `{J : JsonLib}.

Definition message_ok (v : pval) : Prop := plain v = true ∧ 0 < lenZ (xml v) ≤ 1024 * 1024.

Lemma notification_recv_frame v s l r :
  message_ok v → delivers (rx s) (Lockdown.ld_frame v ++ l) r →
  ∃ r1, notification_recv s = (Ok v, set_rx r1 s) ∧ delivers r1 l r.
Proof.
  intros [Hp Hl] Hd. unfold Lockdown.ld_frame in Hd. rewrite <-(assoc_L (++)) in Hd.
  unfold notification_recv, notification_read_exact.
  destruct (read_exact_retry_delivers (λ e, [Daemon.io_fmt e]) [msg0 "connection closed"] 4 s _ _ r Hd)
    as (r1 & Hr1 & Hd1); [len|].
  erewrite sbind_ok by exact Hr1. rewrite be_val_be_bytes_small by (unfold in_u; lia).
  rewrite (proj2 (Z.eqb_neq _ _)), (proj2 (Z.ltb_ge _ _)) by lia. cbn [orb].
  destruct (read_exact_retry_delivers (λ e, [Daemon.io_fmt e]) [msg0 "connection closed"]
    (lenZ (xml v)) (set_rx r1 s) _ _ r Hd1) as (r2 & Hr2 & Hd2); [done|].
  erewrite sbind_ok by exact Hr2. exists r2. unfold lift. by rewrite from_bytes_xml.
Qed.
Lemma notification_recv_end s :
  rx s = [] → ∃ e s', notification_recv s = (Err e, s').
Proof.
  intros Hr. unfold notification_recv, notification_read_exact, read_exact_retry, sbind at 1.
  rewrite Hr. cbn [length retry_loop]. change (lenZ [] <? 4) with true. cbn match.
  unfold sbind, stry, read. rewrite Hr. eauto.
Qed.

Definition note_text (msg : pval) : list byte :=
  match notified msg with Some n => println n | None => [] end.

Lemma observe_loop_prints fuel s out msgs :
  Forall message_ok msgs → (length msgs ≤ fuel)%nat →
  delivers (rx s) (concat (Lockdown.ld_frame <$> msgs)) [] →
  ∃ s', observe_loop fuel false (s, out) = (Ok tt, (s', out ++ concat (note_text <$> msgs))).
Proof.
  intros Hm. revert fuel s out. induction Hm as [|v msgs Hv _ IH]; intros fuel s out Hf Hd;
    cbn [fmap list_fmap concat] in Hd.
  - apply delivers_inv in Hd as [[_ Hd]|([] & ? & ? & ? & _ & _ & ?)]; [|done..].
    destruct (notification_recv_end s Hd) as (e & s' & He).
    exists s'. rewrite app_nil_r. destruct fuel; cbn [observe_loop];
      (erewrite sbind_ok; [|unfold stry, on_outer, zoom; cbn [fst]; rewrite He; reflexivity]); done.
  - destruct (notification_recv_frame v s _ [] Hv Hd) as (r1 & Hr1 & Hd1).
    destruct fuel as [|fuel]; [cbn in Hf; lia|]. cbn [observe_loop].
    erewrite sbind_ok; [|unfold stry, on_outer, zoom; cbn [fst]; rewrite Hr1; reflexivity].
    destruct (IH fuel (set_rx r1 s) (out ++ note_text v)) as (s' & Hs'); [cbn in Hf; lia|done|].
    exists s'. cbn [fmap list_fmap concat]. rewrite (assoc_L (++)), <-Hs'.
    unfold note_text. cbv beta iota. destruct (notified v) as [n|].
    + erewrite sbind_ok; [|reflexivity]. done.
    + erewrite sbind_ok; [|reflexivity]. by rewrite app_nil_r.
Qed.

(** The notifications that the device relays before it closes the connection are
    printed, one line each and in order; other messages are passed over. *)
Lemma observe_prints s out msgs :
  Forall message_ok msgs → delivers (rx s) (concat (Lockdown.ld_frame <$> msgs)) [] →
  ∃ s', observe_stream false (s, out) = (Ok tt, (s', out ++ concat (note_text <$> msgs))).
Proof.
  intros Hm Hd. unfold observe_stream. apply observe_loop_prints; [done| |done]. cbn [fst].
  apply delivers_size in Hd. unfold stream_size. clear Hm.
  enough (length msgs ≤ length (concat (Lockdown.ld_frame <$> msgs)))%nat by lia. clear Hd.
  induction msgs as [|v msgs IH]; [done|]. cbn [fmap list_fmap concat length]. unfold Lockdown.ld_frame at 1.
  rewrite !length_app, length_be_bytes. lia.
Qed.
End observing.

(** ** The system log *)
Section logging.
Context (to_lowercase : string → string).

(** Where the output takes everything, the lines of the entries that pass the
    filters are written. *)
Lemma feed_prints json process filter_ es out :
  healthy out →
  Syslog.feed (syslog_callback to_lowercase json process filter_) es out =
    (true, append_tx (concat (syslog_line json <$>
       filter (λ e, matches_filters to_lowercase e process filter_ = true) es)) out).
Proof.
  intros Ho. revert out Ho. induction es as [|e es IH]; intros out Ho; cbn [Syslog.feed].
  - rewrite filter_nil. cbn. unfold append_tx. rewrite app_nil_r. by destruct out.
  - unfold syslog_callback at 1. destruct (matches_filters _ e process filter_) eqn:Hm.
    + rewrite filter_cons_True by done. unfold sbind at 1. rewrite write_all_healthy by done.
      rewrite flush_healthy by done. rewrite IH by done. cbn [fmap list_fmap concat].
      unfold append_tx. cbn [rx tx wq]. by rewrite <-(assoc_L (++)).
    + rewrite filter_cons_False by congruence. by apply IH.
Qed.

(** Every line of the device that passes the filters is written to the output,
    however the bytes arrive, and nothing else. *)
Lemma syslog_prints json process filter_ s out :
  healthy out →
  ∃ s', Syslog.syslog_stream (syslog_callback to_lowercase json process filter_) (s, out) =
    (Syslog.end_result (Syslog.received (rx s)).2,
     (s', append_tx (concat (syslog_line json <$>
            filter (λ e, matches_filters to_lowercase e process filter_ = true)
              (Syslog.entries (Syslog.received (rx s)).1))) out)).
Proof.
  intros Ho. unfold Syslog.syslog_stream. cbn [fst].
  destruct (Syslog.stream_loop_entries (syslog_callback to_lowercase json process filter_)
    (rx_size (rx s)) [] s out) as (s' & _ & ->); [done..|].
  exists s'. destruct (Syslog.received (rx s)) as [l e]. cbn [app fst snd].
  by rewrite feed_prints.
Qed.
End logging.

(** ** Both loops end *)
Section ends.
Context `{PL : PlistLib} `{J : JsonLib}.

Lemma ends_notification_recv : ends stream_size 4 notification_recv.
Proof.
  apply (ends_bind _ 4 0); [by apply (ends_read_exact_retry (λ e, [Daemon.io_fmt e]) [msg0 "connection closed"] 4)|].
  intros b. cbv zeta. destruct (_ || _); [apply ends_fail|]. apply (ends_bind _ 0 0).
  { eapply ends_le; [apply ends_read_exact_retry, be_val_range|lia]. }
  intros body. apply ends_lift. by destruct (from_bytes body).
Qed.

Lemma json_line_fuel v : json_line v ≠ OutOfFuel.
Proof. unfold json_line. by destruct (json_to_vec v). Qed.
Lemma note_line_fuel json n : note_line json n ≠ OutOfFuel.
Proof. destruct json; [apply json_line_fuel|done]. Qed.

Lemma observe_ends json st : (observe_stream json st).1 ≠ OutOfFuel.
Proof.
  destruct st as [s out]. unfold observe_stream. cbn [fst]. assert (stream_size s ≤ stream_size s)%nat as Hf by lia.
  revert Hf. generalize (stream_size s) at 2 3. intros fuel. revert s out.
  induction fuel as [|fuel IH]; intros s out Hf; cbn [observe_loop];
    pose proof (ends_notification_recv s) as He; unfold ends_at in He;
    unfold sbind at 1, stry at 1, on_outer, zoom; cbn [fst snd];
    destruct (notification_recv s) as [[v|e| |] s1]; try done; [lia|]. cbv beta iota.
  assert (∀ out, (observe_loop fuel json (s1, out)).1 ≠ OutOfFuel) as Hn by (intros; apply IH; lia).
  unfold sbind at 1. destruct (notified v) as [n|]; [|apply Hn]. unfold sbind at 1, lift.
  pose proof (note_line_fuel json n). destruct (note_line json n) as [l| | |]; try done. apply Hn.
Qed.

Lemma event_loop_shrinks {A} (h : UsbmuxTypes.Event → option (outcome UsbmuxTypes.Error A)) c a c' :
  UsbmuxConn.event_loop h c = (Ok a, c') → (UsbmuxConn.pending_size c' < UsbmuxConn.pending_size c)%nat.
Proof.
  unfold UsbmuxConn.event_loop. generalize (S (UsbmuxConn.pending_size c)). intros fuel.
  revert c. induction fuel as [|fuel IH]; intros c; cbn [UsbmuxConn.event_loop_fuel]; [done|].
  unfold sbind, UsbmuxConn.next_event.
  pose proof (UsbmuxConn.next_event_fuel_total (S (rx_size (rx (UsbmuxConn.socket c)))) c ltac:(lia)) as Ht.
  destruct (UsbmuxConn.next_event_fuel _ c) as [[ev| | |] c1]; try done.
  destruct (h ev) as [r|]; [unfold lift; intros [= -> <-]; done|]. intros H%IH. lia.
Qed.

(** The command runs until the daemon fails or closes the connection. *)
Lemma watch_ends json st : ∀ r st', watch_listener json st = (r, st') → ∃ e, r = Err e.
Proof.
  destruct st as [c out]. unfold watch_listener. cbn [fst].
  assert (UsbmuxConn.pending_size c ≤ UsbmuxConn.pending_size c)%nat as Hf by lia.
  revert Hf. generalize (UsbmuxConn.pending_size c) at 2 3. intros fuel. revert c out.
  induction fuel as [|fuel IH]; intros c out Hf r st'; cbn [watch_loop];
    unfold sbind at 1, on_outer, zoom, smap_err, UsbmuxConn.listener_next; cbn [fst snd];
    match goal with |- context [UsbmuxConn.event_loop ?h c] =>
      assert ((UsbmuxConn.event_loop h c).1 ≠ OutOfFuel ∧ (UsbmuxConn.event_loop h c).1 ≠ Panic) as [Ht1 Ht2]
        by (apply UsbmuxConn.event_loop_total; by intros [] ? ?; simplify_eq);
      pose proof (event_loop_shrinks h c) as Hs;
      destruct (UsbmuxConn.event_loop h c) as [[ev|e| |] c1] eqn:E end;
    try done;
    try (intros [= <- _]; eauto; fail); specialize (Hs _ _ eq_refl); [lia|].
  unfold sbind at 1, lift. cbn [omap_err].
  assert (event_line json ev ≠ OutOfFuel ∧ event_line json ev ≠ Panic) as [Hl Hp].
  { unfold event_line, json_line. destruct json; [|done]. destruct (event_json ev) as [v|]; [|done].
    by destruct (json_to_vec v). }
  destruct (event_line json ev) as [l|e| |]; try done; [|intros [= <- _]; eauto].
  unfold sbind at 1, print, smodify. cbn [fst snd]. apply IH. lia.
Qed.
End ends.
