(* ===== verification/Apps.v ===== *)
(** * Applications and tests from the command line

    [src/bin/ios/cmd/apps/] ([launch.rs], [kill.rs], [list.rs], [install.rs],
    [uninstall.rs]), [orientation.rs] and [runtest.rs].  A test run is that of
    [Xctest], for a schedule of its threads.  The functions carry the name of
    their file as a prefix. *)

From stdpp Require Import gmap.
From S2P Require Import Prelude RustStd Text Io Plist Json Os Version CdTunnel Tunnel Afc Output.
From S2P Require Import Xpc Launch.
From S2P Require Float Lockdown DeviceSession Daemon Cli Services Rsd RemoteXpc H2 RpCredentials FileCmd Xctest.

Abbreviation DeviceSession := DeviceSession.DeviceSession.

(** [map_err(|e| anyhow!(t, e))], where [f] is the text of the error *)
Definition anyhow_err {S E A} (t : string) (f : E → Prelude.message) (m : ST S E A) : ST S anyhow A :=
  smap_err (λ e, [Msg t [FDisplay (f e)]]) m.

(** ** Requests to the service of applications *)
Section request.
Context `{HashOrder}.

Definition launch_app_options (terminate_existing : bool) (platform_opts : list byte) : Value :=
  xdict [("arguments", VArray []); ("environmentVariables", xdict []);
         ("platformSpecificOptions", VData platform_opts);
         ("standardIOUsesPseudoterminals", VBool true); ("startStopped", VBool false);
         ("terminateExisting", VBool terminate_existing); ("user", xdict [("active", VBool true)]);
         ("workingDirectory", Null)]%string.
Definition launch_app_input (bundle_id : string) (terminate_existing : bool) (platform_opts : list byte) :
    Value :=
  xdict [("applicationSpecifier", xdict [("bundleIdentifier", xdict [("_0", VString bundle_id)])]);
         ("options", launch_app_options terminate_existing platform_opts);
         ("standardIOIdentifiers", xdict [])]%string.
Definition SIGKILL : Z := 9.
Definition kill_input (pid : Z) : Value :=
  xdict [("process", xdict [("processIdentifier", Int64 pid)]); ("signal", Int64 SIGKILL)]%string.

(** The error in a reply to the signal *)
Definition kill_reply (reply : Value) : outcome anyhow unit :=
  match xfield "CoreDevice.error" reply with
  | Some _ => Err [msg0 "device error: {err:?}"]
  | None => Ok tt
  end.
End request.

Section apps.
Context `{HO : HashOrder} `{BP : BuildProfile} `{PL : PlistLib} `{T : Lockdown.Tls} `{SJ : CdTunnel.SerdeJson}
  {W : Type} `{OS : Os W} `{TS : TunnelStack W} `{Y : Sys W} `{LF : LocalFs W} `{FS : RpCredentials.Files W}
  `{C : WallClock W} `{TM : Terminal} `{J : JsonLib}.

Definition random_uuid_string {E} : ST W E string :=
  let! b := rand_uuid in sret (uuid_to_upper_string b).
Definition coredevice_request (device_id feature : string) (input : option Value) : ST W anyhow Value :=
  let! invocation := random_uuid_string in
  sret (build_coredevice_request device_id feature invocation input).

(** The relay starts with a thread that waits for the connection. *)
Definition connect_appservice : ST (W * DeviceSession) anyhow RemoteXpc.RemoteXpcConn :=
  let! ws := sget in
  on_outer (
    let! stream := anyhow_err "coredevice.appservice: {e}" Error_fmt
                     (DeviceSession.connect_rsd_service ws.2 "com.apple.coredevice.appservice") in
    let! listener := Daemon.any_io (tcp_bind "127.0.0.1" 0) in
    let! relay_addr := Daemon.any_io (lift (local_addr listener)) in
    anyhow_err "remotexpc connect: {e}" H2.Error_fmt (xpc_connect listener relay_addr stream)).

(** One request of a feature, with identifiers drawn from the clock. *)
Definition app_request (t feature : string) (input : Value) (conn : RemoteXpc.RemoteXpcConn) :
    ST W anyhow Value :=
  let! device_id := random_uuid_string in
  let! payload := coredevice_request device_id feature (Some input) in
  let! (reply, _) := srun (anyhow_err t H2.Error_fmt (RemoteXpc.request payload)) conn in
  sret reply.

Definition launch_run (bundle_id : string) (terminate_existing : bool) : ST (W * DeviceSession) anyhow Z :=
  let! xpc_conn := connect_appservice in
  let! plat_buf := lift (or_panic (to_writer_binary (PDict []))) in
  let! reply := on_outer (app_request "appservice request: {e}"
                  "com.apple.coredevice.feature.launchapplication"
                  (launch_app_input bundle_id terminate_existing plat_buf) xpc_conn) in
  lift (ok_or (launched_pid reply) [msg0 "no PID in appservice reply: {reply:?}"]).
Definition kill_run (pid : Z) : ST (W * DeviceSession) anyhow unit :=
  let! xpc_conn := connect_appservice in
  let! reply := on_outer (app_request "appservice kill request: {e}"
                  "com.apple.coredevice.feature.sendsignaltoprocess" (kill_input pid) xpc_conn) in
  lift (kill_reply reply).

(** ** [list.rs] *)

Definition INSTALLATION_SHIM : string := "com.apple.mobile.installation_proxy.shim.remote".
Definition list_proxy : ST (W * DeviceSession) anyhow MuxSocket :=
  let! ws := sget in
  if DeviceSession.ds_is_rsd ws.2 then
    on_outer (anyhow_err "{e}" Error_fmt (DeviceSession.connect_rsd_shim ws.2 INSTALLATION_SHIM))
  else Cli.on_lockdown (anyhow_err "{e}" Lockdown.Error_fmt Services.installation_connect).
Definition list_type (system all : bool) : Services.AppType :=
  if all then Services.Any else if system then Services.System else Services.User.
Definition app_json (a : Services.AppInfo) : jval :=
  JObject ["bundle_id" =:> JString (Services.bundle_id a); "name" =:> JString (Services.app_name a);
           "version" =:> JString (Services.short_version a)].
Definition app_row (a : Services.AppInfo) : list string :=
  [Services.bundle_id a; Services.app_name a; Services.short_version a].
Definition apps_text (apps : list Services.AppInfo) : list byte :=
  match apps with
  | [] => println "No apps found."
  | _ =>
      line (table_text ["Bundle ID"; "Name"; "Version"]%string (app_row <$> apps))
      ++ line (bytes_of "(" ++ dec (lenZ apps) ++ bytes_of " apps)")
  end.
Definition list_body (system all : bool) (output : OutputMode) : ST (W * DeviceSession) anyhow (list byte) :=
  let! m := list_proxy in
  let! (apps, _) := srun (Cli.ld_any (Services.list_apps (list_type system all))) (mux_stream m) in
  let apps := sort_by Services.app_name apps in
  lift (report output (JArray (app_json <$> apps)) (apps_text apps)).
Definition list_run (udid : option string) (system all : bool) (mode : ConnectionMode)
    (output : OutputMode) : ST W anyhow (list byte) :=
  Cli.with_session udid mode (list_body system all output).

(** ** [install.rs] and [uninstall.rs] *)

(** [Path::extension]: what follows the last dot, unless nothing is before it *)
Definition extension (path : string) : option string :=
  name ← FileCmd.file_name path;
  match reverse (split_on (λ b, bool_decide (b = "."%byte)) (bytes_of name)) with
  | _ :: ([] | [[]]) | [] => None
  | ext :: _ => Some (string_of ext)
  end.
Definition staged_path (filename : string) : string := "/PublicStaging/" ++ filename.
Definition install_on (staged : string) (data : list byte) : ST (W * DeviceSession) anyhow unit :=
  let! afc := Cli.on_lockdown (Cli.ld_any afc_connect) in
  let! _ := srun (Cli.ld_any (put_file staged data)) afc in
  let! proxy := Cli.on_lockdown (Cli.ld_any Services.installation_connect) in
  let! _ := srun (Cli.ld_any (Services.install_staged staged)) (mux_stream proxy) in
  sret tt.
Definition install_run (udid : option string) (ipa_path : string) (mode : ConnectionMode)
    (output : OutputMode) : ST W anyhow (list byte) :=
  let! there := FileCmd.path_exists ipa_path in
  if negb (there : bool) then Cli.bail "IPA not found: {ipa_path}" [FStr ipa_path]
  else if bool_decide (extension ipa_path ≠ Some "ipa"%string) then
    Cli.bail "expected a .ipa file, got: {ipa_path}" [FStr ipa_path]
  else
    let! data := Daemon.any_io (RpCredentials.file_read ipa_path) in
    let! filename := lift (or_panic (FileCmd.file_name ipa_path)) in
    Cli.with_session udid mode (
      install_on (staged_path filename) data ;;;
      lift (report output (action_json (with_msg "installed")) (println "Done."))).

Definition uninstall_run (udid : option string) (bundle_id : string) (mode : ConnectionMode)
    (output : OutputMode) : ST W anyhow (list byte) :=
  Cli.with_session udid mode (
    let! proxy := Cli.on_lockdown (Cli.ld_any Services.installation_connect) in
    let! _ := srun (Cli.ld_any (Services.uninstall bundle_id)) (mux_stream proxy) in
    lift (report output (action_json (with_msg "uninstalled")) (println "Done."))).

(** ** A test run

    The schedule is the order in which the threads of the run get their turns. *)

Definition schedule : Type := Xctest.setting → Xctest.session W → list Xctest.thread.
Definition xctest_run (sched : schedule) (t : stack) (rsd : Rsd.RsdClient)
    (app_bundles : list (string * Rsd.ServiceEntry)) (config : Xctest.RunConfig) (log : stream) :
    ST W Version.Error (bool * stream) :=
  let! (env, x) := Xctest.run_open t rsd app_bundles config log in
  λ w, match Xctest.run_threads env (sched env x) x with
       | Some y =>
           (match Xctest.main y with
            | Xctest.MDone r => let? b := r in Ok (b, Xctest.log_out y)
            | _ => OutOfFuel
            end, Xctest.x_world y)
       | None => (OutOfFuel, w)
       end.

(** The applications with their paths, as entries of a catalogue *)
Definition app_entry (a : Services.AppInfo) : string * Rsd.ServiceEntry :=
  (Services.bundle_id a,
   Rsd.MkServiceEntry 0 false [("Path", VString (Services.app_path a))]%string).
Definition app_bundles : ST (W * DeviceSession) anyhow (list (string * Rsd.ServiceEntry)) :=
  let! ws := sget in
  let! m := on_outer (anyhow_err "installation_proxy shim: {e}" Error_fmt
                        (DeviceSession.connect_rsd_shim ws.2 INSTALLATION_SHIM)) in
  let! (apps, _) := srun (anyhow_err "list apps: {e}" Lockdown.Error_fmt
                            (Services.list_apps Services.Any)) (mux_stream m) in
  sret (hmap (app_entry <$> apps)).
Definition the_tunnel : ST (W * DeviceSession) anyhow stack :=
  let! ws := sget in
  lift (ok_or (DeviceSession.smoltcp_tunnel_ref ws.2) [msg0 "no tunnel"]).
Definition rsd_client (t : string) : ST (W * DeviceSession) anyhow Rsd.RsdClient :=
  let! ws := sget in on_outer (anyhow_err t Error_fmt (DeviceSession.connect_rsd ws.2)).
Definition must_be_rsd (t : string) : ST (W * DeviceSession) anyhow unit :=
  let! ws := sget in if DeviceSession.ds_is_rsd ws.2 then sret tt else Cli.bail t [].

(** *** [runtest.rs] *)

Definition env_map (extra_env : list string) : list (string * string) :=
  hmap (omap (λ kv, '(k, v) ← split_once "="%byte (bytes_of kv); Some (string_of k, string_of v)) extra_env).
Definition test_config (bundle_id test_runner_bundle_id xctest_config : string)
    (tests_to_run tests_to_skip : list string) (is_xctest : bool) (extra_env : list string) : Xctest.RunConfig :=
  Xctest.MkRunConfig bundle_id "" test_runner_bundle_id xctest_config tests_to_run tests_to_skip
    is_xctest (negb is_xctest) (env_map extra_env).

(** The result is standard output, where the run has its log. *)
(** [println!] panics when it cannot write. *)
Definition print_to (l : list byte) (out : stream) : outcome anyhow stream :=
  match write_all l out with (Ok _, out) => Ok out | _ => Panic end.
Definition run_test_body (sched : schedule) (config : Xctest.RunConfig) (stdout : stream) :
    ST (W * DeviceSession) anyhow stream :=
  must_be_rsd "runtest requires iOS 17.4+ with RSD path (CDTunnel). Use --rsd or check device version." ;;;
  let! rsd := rsd_client "RSD connect: {e}" in
  let! bundles := app_bundles in
  let! tunnel := the_tunnel in
  let! (passed, stdout) := on_outer (anyhow_err "test run failed: {e}" Error_fmt
                             (xctest_run sched tunnel rsd bundles config stdout)) in
  if (passed : bool) then
    lift (print_to (x0a :: println "✓ Tests passed") stdout)
  else Cli.bail "✗ Tests failed" [].
Definition run_test (sched : schedule) (udid : option string)
    (bundle_id test_runner_bundle_id xctest_config : string) (tests_to_run tests_to_skip : list string)
    (is_xctest : bool) (extra_env : list string) (stdout : stream) : ST W anyhow stream :=
  Cli.with_session udid RsdMode (run_test_body sched
    (test_config bundle_id test_runner_bundle_id xctest_config tests_to_run tests_to_skip is_xctest extra_env)
    stdout).
(** A run that lasts until it is killed *)
Definition run_wda (sched : schedule) (udid : option string)
    (bundle_id test_runner_bundle_id xctest_config : string) (stdout : stream) : ST W anyhow stream :=
  run_test sched udid bundle_id test_runner_bundle_id xctest_config [] [] false [] stdout.

(** ** [orientation.rs] *)

Definition orientation_text (o : Services.Orientation) : list byte :=
  line (bytes_of (Services.Orientation_as_str o) ++ bytes_of "  (" ++ dec (Services.orientation_value o)
        ++ bytes_of ")").
Definition orientation_get (udid : option string) (mode : ConnectionMode) (output : OutputMode) :
    ST W anyhow (list byte) :=
  Cli.with_session udid mode (
    let! sbs := Cli.on_lockdown (anyhow_err "springboardservices: {e}" Lockdown.Error_fmt
                                   Services.springboard_connect) in
    let! (orientation, _) := srun (anyhow_err "{e}" Lockdown.Error_fmt Services.get_orientation)
                               (mux_stream sbs) in
    lift (report output
            (JObject ["orientation" =:> JString (Services.Orientation_as_str orientation)])
            (orientation_text orientation))).

Definition UNKNOWN_ORIENTATION : string :=
  "unknown orientation '{direction}'. Valid values: portrait, portrait_upside_down, landscape_left, landscape_right".

(** The service itself, on a session of its own: whether it took the request. *)
Definition set_direct (udid : option string) (target : Services.Orientation) : ST W anyhow bool :=
  Cli.with_session udid Legacy (
    let! r := stry (Cli.on_lockdown Services.springboard_connect) in
    match r with
    | inl _ => sret false
    | inr sbs =>
        let! r := stry (srun (Services.set_orientation target) (mux_stream sbs)) in
        sret (match r with inr _ => true | inl _ => false end)
    end).

(** The application in front, unless it is the home screen. *)
Definition user_app (bid : string) : bool :=
  negb (bool_decide (is_Some (strip_prefix (bytes_of "com.apple.springboard") (bytes_of bid))))
  && negb (bool_decide (bid = ""%string)).
Definition foreground_app : ST (W * DeviceSession) anyhow (option string) :=
  let! r := stry (Cli.on_lockdown Services.springboard_connect) in
  match r with
  | inl _ => sret None
  | inr sbs =>
      let! r := stry (srun Services.get_foreground_app (mux_stream sbs)) in
      sret (match r with
            | inr (bid, _) => if user_app bid then Some bid else None
            | inl _ => None
            end)
  end.

Definition target_path (bundles : list (string * Rsd.ServiceEntry)) (target_bid : string) : string :=
  if bool_decide (target_bid = ""%string) then ""%string
  else default ""%string (e ← al_lookup target_bid bundles;
                          v ← al_lookup "Path"%string (Rsd.properties e); as_str v).
Definition orientation_config (direction target_bid : string)
    (bundles : list (string * Rsd.ServiceEntry)) (runner_bundle_id xctest_config : string) :
    Xctest.RunConfig :=
  Xctest.MkRunConfig target_bid (target_path bundles target_bid) runner_bundle_id xctest_config [] []
    false true [("ORIENTATION"%string, direction)].

(** The helper on the device, as a test run; its log goes to standard error. *)
Definition set_with_helper (sched : schedule) (direction : string) (bundle_id : option string)
    (runner_bundle_id xctest_config : string) (stderr : stream) : ST (W * DeviceSession) anyhow unit :=
  must_be_rsd "orientation set requires iOS 17.4+ RSD path (CDTunnel)" ;;;
  let! rsd := rsd_client "RSD: {e}" in
  let! bundles := app_bundles in
  let! foreground_bid := (match bundle_id with None => foreground_app | Some _ => sret None end) in
  let! tunnel := the_tunnel in
  let target_bid := match bundle_id with Some b => b | None => default ""%string foreground_bid end in
  let! _ := on_outer (anyhow_err "test run: {e}" Error_fmt
              (xctest_run sched tunnel rsd bundles
                 (orientation_config direction target_bid bundles runner_bundle_id xctest_config) stderr)) in
  sret tt.

Definition orientation_done (direction : string) : string := "Orientation set to '" ++ direction ++ "'.".
Definition orientation_set (sched : schedule) (udid : option string) (direction : string)
    (bundle_id : option string) (runner_bundle_id xctest_config : string) (output : OutputMode)
    (stderr : stream) : ST W anyhow (list byte) :=
  let! target := lift (ok_or (Services.Orientation_parse direction)
                         [Msg UNKNOWN_ORIENTATION [FStr direction]]) in
  let! direct := set_direct udid target in
  (if (direct : bool) then sret tt
   else Cli.with_session udid RsdMode
          (set_with_helper sched direction bundle_id runner_bundle_id xctest_config stderr)) ;;;
  lift (report output (action_json (with_msg (orientation_done direction)))
          (println (orientation_done direction))).
End apps.

(** ** What is asked for

    In whatever order the maps are iterated, the service reads the application
    that is to be started and whether a running one is to end, or the process
    and the signal. *)
Section read.
Context `{O : HashOrder} `{!HashOrderLaws O}.

Definition input_of (feature : string) (input : Value) (di inv : string) : Value :=
  build_coredevice_request di feature inv (Some input).

Lemma input_of_at feature input di inv ks :
  xpath ("CoreDevice.input"%string :: ks) (input_of feature input di inv) = xpath ks input.
Proof. unfold input_of, build_coredevice_request. by erewrite xpath_xdict by reflexivity. Qed.
Lemma input_of_feature feature input di inv :
  xpath ["CoreDevice.featureIdentifier"]%string (input_of feature input di inv) = Some (VString feature).
Proof. unfold input_of, build_coredevice_request. by erewrite xpath_xdict by reflexivity. Qed.

Lemma launch_app_read di inv feature b terminate po :
  let v := input_of feature (launch_app_input b terminate po) di inv in
  xpath ["CoreDevice.input"; "applicationSpecifier"; "bundleIdentifier"; "_0"]%string v = Some (VString b) ∧
  xpath ["CoreDevice.input"; "options"; "terminateExisting"]%string v = Some (VBool terminate) ∧
  xpath ["CoreDevice.input"; "options"; "startStopped"]%string v = Some (VBool false) ∧
  xpath ["CoreDevice.input"; "options"; "platformSpecificOptions"]%string v = Some (VData po).
Proof.
  cbn zeta. rewrite !input_of_at. unfold launch_app_input, launch_app_options.
  split_and!; by repeat (erewrite xpath_xdict by reflexivity).
Qed.
Lemma kill_read di inv feature pid :
  let v := input_of feature (kill_input pid) di inv in
  xpath ["CoreDevice.input"; "process"; "processIdentifier"]%string v = Some (Int64 pid) ∧
  xpath ["CoreDevice.input"; "signal"]%string v = Some (Int64 9).
Proof.
  cbn zeta. rewrite !input_of_at. unfold kill_input.
  split; by repeat (erewrite xpath_xdict by reflexivity).
Qed.
End read.

(** ** The list of applications

    It has every application of the reply once, ordered by name. *)
Section listing.
Context `{HO : HashOrder} `{BP : BuildProfile} `{PL : PlistLib} `{T : Lockdown.Tls} `{SJ : CdTunnel.SerdeJson}
  {W : Type} `{OS : Os W} `{TS : TunnelStack W} `{Y : Sys W} `{TM : Terminal} `{J : JsonLib}.

Lemma list_body_sorted system all output (st : W * DeviceSession) out st' :
  list_body system all output st = (Ok out, st') →
  ∃ m st1 apps s sorted, list_proxy st = (Ok m, st1) ∧
    Services.list_apps (list_type system all) (mux_stream m) = (Ok apps, s) ∧ sorted ≡ₚ apps ∧
    Sorted.StronglySorted (λ a b, str_leb (Services.app_name a) (Services.app_name b) = true) sorted ∧
    report output (JArray (app_json <$> sorted)) (apps_text sorted) = Ok out.
Proof.
  intros (m & st1 & Hm & Hr)%sbind_inv. apply sbind_inv in Hr as ([apps s] & st2 & Hl & Hp).
  exists m, st1, apps, s, (sort_by Services.app_name apps). split_and!; [done| |apply sort_by_perm|apply sort_by_sorted|].
  - unfold srun in Hl. revert Hl. unfold Cli.ld_any, smap_err.
    destruct (Services.list_apps _ _) as [[] ?]; intros; simplify_eq/=; done.
  - unfold lift in Hp. by injection Hp.
Qed.
End listing.

(** ** Test runs *)
Section runs.
Context `{HO : HashOrder} `{BP : BuildProfile} `{PL : PlistLib} `{T : Lockdown.Tls} `{SJ : CdTunnel.SerdeJson}
  {W : Type} `{OS : Os W} `{TS : TunnelStack W} `{Y : Sys W} `{C : WallClock W}.

Lemma test_threads_steps env l x0 x y :
  Xctest.steps_from env x0 x → Xctest.run_threads env l x = Some y → Xctest.steps_from env x0 y.
Proof.
  revert x. induction l as [|t l IH]; intros x Hs; cbn; [by intros [= <-]|].
  destruct (Xctest.step env t x) as [z|] eqn:Ez; [|done]. cbn. apply IH. by eapply Xctest.steps_snoc.
Qed.

(** However its threads are scheduled and whatever the runner reports, a run that
    returns says that the tests have passed; "Tests failed" is never printed. *)
Lemma xctest_run_passes sched t rsd bundles cfg log w b log' w' :
  xctest_run sched t rsd bundles cfg log w = (Ok (b, log'), w') → b = true.
Proof.
  intros ([env x] & w1 & Ho%Xctest.run_open_fresh & Hr)%sbind_inv. cbn beta iota in Hr.
  destruct (Xctest.run_threads env (sched env x) x) as [y|] eqn:Er; [|done].
  destruct (Xctest.main y) as [| | | | | | | | |r] eqn:Em; try done. injection Hr as Hr _.
  destruct r as [b'| | |]; try done. injection Hr as -> _.
  eapply Xctest.run_always_passes; [exact Ho| |exact Em].
  eapply test_threads_steps; [apply Xctest.steps_refl|exact Er].
Qed.

(** *** Through the daemon

    A session through the daemon has no tunnel of its own: a test is refused, after
    the catalogue and the applications have been fetched. *)
Lemma the_tunnel_daemon (st : W * DeviceSession) l u :
  DeviceSession.ds_inner st.2 = DeviceSession.IDaemon l u → the_tunnel st = (Err [msg0 "no tunnel"], st).
Proof. intros Hi. unfold the_tunnel, sbind, sget, DeviceSession.smoltcp_tunnel_ref. by rewrite Hi. Qed.

Lemma rsd_client_keeps t : keeps snd (rsd_client (W:=W) t).
Proof. intros st. unfold rsd_client, sbind, sget, on_outer, zoom. by destruct (anyhow_err _ _ _ _) as [[] ?]. Qed.
Lemma app_bundles_keeps : keeps snd (app_bundles (W:=W)).
Proof.
  intros st. unfold app_bundles, sbind at 1, sget at 1. unfold sbind at 1, on_outer, zoom.
  destruct (anyhow_err _ _ _ _) as [[m| | |] w]; try done. unfold sbind, srun.
  by destruct (anyhow_err _ _ _ _) as [[] ?].
Qed.

Lemma run_test_through_daemon sched cfg stdout (st : W * DeviceSession) l u r st' :
  DeviceSession.ds_inner st.2 = DeviceSession.IDaemon l u →
  run_test_body sched cfg stdout st = (Ok r, st') → False.
Proof.
  intros Hi (? & st1 & H1 & Hr)%sbind_inv.
  assert (st1 = st) as ->.
  { unfold must_be_rsd, sbind, sget in H1. by destruct (DeviceSession.ds_is_rsd st.2); injection H1. }
  apply sbind_inv in Hr as (rsd & st2 & H2 & Hr).
  pose proof (rsd_client_keeps "RSD connect: {e}" st) as Hk. rewrite H2 in Hk. cbn in Hk.
  apply sbind_inv in Hr as (bundles & st3 & H3 & Hr).
  pose proof (app_bundles_keeps st2) as Hk'. rewrite H3 in Hk'. cbn in Hk'.
  apply sbind_inv in Hr as (tunnel & st4 & H4 & _).
  rewrite (the_tunnel_daemon st3 l u) in H4 by congruence. done.
Qed.
End runs.

Example extension_samples :
  extension "a/App.ipa" = Some "ipa"%string ∧ extension ".ipa" = None ∧ extension "x.tar.gz" = Some "gz"%string ∧
  extension "noext" = None ∧ extension "App.ipa/" = Some "ipa"%string ∧ extension "App." = Some ""%string.
Proof. vm_compute. split_and!; reflexivity. Qed.
Example env_map_sample :
  env_map ["A=1"; "B"; "A=2=3"]%string = [("A", "2=3")]%string.
Proof. reflexivity. Qed.
