(* ===== verification/Dialog.v ===== *)
(** * Clients of a DTX connection

    A command that talks to the instruments service is a program of calls on one
    connection ([src/dtx/mod.rs]), which runs on the main thread while the
    reading thread of [DtxConn] delivers what the device sends, and threads that
    forward the messages of a channel to the program.  A program is a tree whose
    nodes are its critical sections; the steps of the threads interleave in any
    order, and the passing of a deadline is a choice of the schedule.

    [client_follows] is the refinement of the threads by the program alone: what
    has been sent is what the program asks for, in its order, and the replies it
    goes on with are those to its own calls. *)

From stdpp Require Import gmap.
From S2P Require Import Prelude RustStd Text Io Plist Os Version CdTunnel Tunnel Dtx DtxConn.
From S2P Require Daemon Launch Xctest.

Abbreviation anyhow := Daemon.anyhow.
Abbreviation request := Xctest.request.
Abbreviation reqs := Xctest.reqs.

(** ** Programs *)

(** The calls of [DtxConn]; [call] and [call_full] make the same one. *)
Inductive call_spec : Type :=
  | SHandshake
  | SChannel (identifier : string)
  | SCall (channel : Z) (selector : string) (aux : list AuxValue)
  | SAsync (channel : Z) (selector : string) (aux : list AuxValue).

Inductive program (A : Type) : Type :=
  | Return (r : outcome anyhow A)
  (** a call, and what follows its error or its result *)
  | Begin (s : call_spec) (k : Error + ret → program A)
  (** [register_channel]: the number of the queue *)
  | Register (channel : Z) (k : nat → program A)
  (** threads that forward the messages of these queues to the program *)
  | Forward (qs : list nat) (p : program A)
  (** [recv_timeout] on what is forwarded *)
  | Receive (k : option DtxMessage → program A)
  (** [ack], whose error is ignored *)
  | Acknowledge (m : DtxMessage) (p : program A)
  (** the wall clock, in seconds *)
  | Now (k : Z → program A)
  (** whether the deadline of the program has passed *)
  | Deadline (k : bool → program A).
Arguments Return {A}. Arguments Begin {A}. Arguments Register {A}. Arguments Forward {A}.
Arguments Receive {A}. Arguments Acknowledge {A}. Arguments Now {A}. Arguments Deadline {A}.

Section client.
Context `{BuildProfile} `{PlistLib} {W : Type} `{WC : Launch.WallClock W} {A : Type}.
Implicit Types (p : program A).

Definition begin (s : call_spec) (c : DtxConn) : outcome Error unit * DtxConn :=
  match s with
  | SHandshake => handshake c
  | SChannel name => request_channel name c
  | SCall ch sel aux => (Ok tt, call ch sel aux c)
  | SAsync ch sel aux => (Ok tt, call_async ch sel aux c)
  end.

(** ** Threads *)

(** A thread that forwards a queue through the bounded channel of the program *)
Inductive forward_pc : Type := FRecv | FSend (m : DtxMessage) | FEnded.
Record forwarder : Type := MkForwarder { f_queue : nat; f_pc : forward_pc }.

Inductive main_pc : Type :=
  | Run (p : program A)
  | InCall (t : nat) (k : Error + ret → program A).

(** [c_data]: the [sync_channel(64)] of what is forwarded *)
Record client : Type := MkClient {
  c_world : W;
  c_conn : DtxConn;
  c_main : main_pc;
  c_forward : list forwarder;
  c_data : list DtxMessage
}.
Definition set_main m (x : client) : client := MkClient (c_world x) (c_conn x) m (c_forward x) (c_data x).
Definition set_conn c (x : client) : client := MkClient (c_world x) c (c_main x) (c_forward x) (c_data x).
Definition set_world w (x : client) : client := MkClient w (c_conn x) (c_main x) (c_forward x) (c_data x).
Definition set_forward f (x : client) : client := MkClient (c_world x) (c_conn x) (c_main x) f (c_data x).
Definition set_data d (x : client) : client := MkClient (c_world x) (c_conn x) (c_main x) (c_forward x) d.

(** The error of a call is for the program; a panic ends it. *)
Definition resume (k : Error + ret → program A) (r : outcome Error ret) : main_pc :=
  match r with
  | Ok b => Run (k (inr b))
  | Err e => Run (k (inl e))
  | Panic => Run (Return Panic)
  | OutOfFuel => Run (Return OutOfFuel)
  end.
Definition main_begin (s : call_spec) (k : Error + ret → program A) (x : client) : client :=
  let t := length (callers (c_conn x)) in
  let '(r, c) := begin s (c_conn x) in
  set_main (match r with
            | Ok _ => InCall t k
            | Err e => resume k (Err e)
            | Panic => resume k Panic
            | OutOfFuel => resume k OutOfFuel
            end) (set_conn c x).

Definition main_step (expired : bool) (x : client) : option client :=
  match c_main x with
  | InCall t k =>
      match Xctest.call_result t (c_conn x) with
      | Some r => Some (set_main (resume k r) x)
      | None => (λ c, set_conn c x) <$> Xctest.drive_call expired t (c_conn x)
      end
  | Run (Return _) => None
  | Run (Begin s k) => Some (main_begin s k x)
  | Run (Register ch k) =>
      (λ c, set_main (Run (k (length (queues (c_conn x))))) (set_conn c x)) <$> register_channel ch (c_conn x)
  | Run (Forward qs p) =>
      Some (set_main (Run p) (set_forward (c_forward x ++ ((λ q, MkForwarder q FRecv) <$> qs)) x))
  | Run (Receive k) =>
      match c_data x with
      | m :: l => Some (set_main (Run (k (Some m))) (set_data l x))
      | [] => if expired then Some (set_main (Run (k None)) x) else None
      end
  | Run (Acknowledge m p) =>
      let '(r, c) := ack m (c_conn x) in
      Some (set_main (Run (match r with Panic => Return Panic | _ => p end)) (set_conn c x))
  | Run (Now k) =>
      let (t, w) := Launch.unix_nanos (c_world x) in
      Some (set_main (Run (k (t / 1000000000))) (set_world w x))
  | Run (Deadline k) => Some (set_main (Run (k expired)) x)
  end.

(** The receiver is gone when the program has returned. *)
Definition program_over (x : client) : bool := match c_main x with Run (Return _) => true | _ => false end.
Definition forward_step (i : nat) (x : client) : option client :=
  f ← c_forward x !! i;
  let goto pc x := set_forward (<[i := MkForwarder (f_queue f) pc]> (c_forward x)) x in
  match f_pc f with
  | FRecv =>
      mc ← queue_recv (f_queue f) (c_conn x);
      Some (goto (FSend mc.1) (set_conn mc.2 x))
  | FSend m =>
      if program_over x then Some (goto FEnded (set_conn (Xctest.drop_queue (f_queue f) (c_conn x)) x))
      else if lenZ (c_data x) <? 64 then Some (goto FRecv (set_data (c_data x ++ [m]) x))
      else None
  | FEnded => None
  end.

Inductive thread : Type := TMain (expired : bool) | TReader | TForward (i : nat).
Definition step (t : thread) (x : client) : option client :=
  match t with
  | TMain expired => main_step expired x
  | TReader => (λ c, set_conn c x) <$> reader_step (c_conn x)
  | TForward i => forward_step i x
  end.
Inductive steps_from (x : client) : client → Prop :=
  | steps_refl : steps_from x x
  | steps_snoc t y z : steps_from x y → step t y = Some z → steps_from x z.
Fixpoint run_threads (l : list thread) (x : client) : option client :=
  match l with
  | [] => Some x
  | t :: l => y ← step t x; run_threads l y
  end.

Definition client_start (w : W) (c : DtxConn) p : client := MkClient w c (Run p) [] [].
(** A program on a connection, for a schedule of its threads. *)
Definition dialog (schedule : client → list thread) (c : DtxConn) p : ST W anyhow A := λ w,
  let x := client_start w c p in
  match run_threads (schedule x) x with
  | Some y => (match c_main y with Run (Return r) => r | _ => OutOfFuel end, c_world y)
  | None => (OutOfFuel, w)
  end.
End client.
Arguments client W A : clear implicits.
Arguments main_pc A : clear implicits.

(** [f(..).map_err(|e| anyhow!(t, e))?] in a program *)
Definition attempt {A} (s : call_spec) (t : string) (k : ret → program A) : program A :=
  Begin s (λ r, match r with
                | inl e => Return (Err [Msg t [FDisplay (Dtx.Error_fmt e)]])
                | inr r => k r
                end).
(** [let _ = f(..);] *)
Definition attempt_ignored {A} (s : call_spec) (p : program A) : program A := Begin s (λ _, p).

(** ** What a program does by itself *)
Section follow.
Context `{BuildProfile} `{PL : PlistLib} {A : Type} (rx : stream).
Implicit Types (p q : program A) (s : call_spec).

(** The request of a call when [n] is the next channel, and the channel after it. *)
Definition spec_req (n : Z) s : request :=
  match s with
  | SHandshake => (KAsync, 0, "_notifyOfPublishedCapabilities:"%string, [Xctest.the_arg archive_capabilities_dict])
  | SChannel name => Xctest.channel_req n name
  | SCall ch sel aux => (KCall, ch, sel, aux)
  | SAsync ch sel aux => (KAsync, ch, sel, aux)
  end.
Definition next_code (n : Z) s : Z :=
  match s with SChannel _ => swrap 32 (wrap 32 (n + 1)) | _ => n end.

(** A result of the [t]-th call: an error, or a reply that has been read from the
    stream of the device and has the identifier of that call, or the channel it
    asked for. *)
Definition reply_for (t : nat) (n : Z) s (r : Error + ret) : Prop :=
  match r with
  | inl _ => True
  | inr r =>
      (∀ m, r = RetReply m → received rx m ∧ msg_id m = nth_id t ∧ 0 < conv_id m) ∧
      (∀ name, s = SChannel name → r = RetChannel n)
  end.

(** One node of a program, after [t] calls: what it sends, and where it goes on. *)
Inductive takes (t : nat) (n : Z) : program A → list request → Z → program A → Prop :=
  | takes_call s k r : reply_for t n s r → takes t n (Begin s k) [spec_req n s] (next_code n s) (k r)
  | takes_refused s k n' r : r = Panic ∨ r = OutOfFuel → takes t n (Begin s k) [] n' (Return r)
  | takes_crash s k r : r = Panic ∨ r = OutOfFuel → takes t n (Begin s k) [spec_req n s] (next_code n s) (Return r)
  | takes_register ch k i : takes t n (Register ch k) [] n (k i)
  | takes_forward qs p : takes t n (Forward qs p) [] n p
  | takes_receive k o : takes t n (Receive k) [] n (k o)
  | takes_ack m p : takes t n (Acknowledge m p) [] n p
  | takes_ack_panic m p : takes t n (Acknowledge m p) [] n (Return Panic)
  | takes_now k z : takes t n (Now k) [] n (k z)
  | takes_deadline k b : takes t n (Deadline k) [] n (k b).

Inductive runs (t : nat) (n : Z) (p : program A) : list request → Z → program A → Prop :=
  | runs_nil : runs t n p [] n p
  | runs_cons rs1 n1 p1 rs2 n2 p2 :
      takes t n p rs1 n1 p1 → runs (t + length rs1) n1 p1 rs2 n2 p2 → runs t n p (rs1 ++ rs2) n2 p2.

Lemma runs_snoc t n p rs n1 q rs' n2 q' :
  runs t n p rs n1 q → takes (t + length rs) n1 q rs' n2 q' → runs t n p (rs ++ rs') n2 q'.
Proof.
  induction 1 as [t n p|t n p rs1 n1 p1 rs2 n2' p2 Ht Hr IH]; intros Hq.
  - cbn [length] in Hq. rewrite Nat.add_0_r in Hq. rewrite <-(app_nil_r ([] ++ rs')).
    eapply runs_cons; [exact Hq|constructor].
  - rewrite length_app, Nat.add_assoc in Hq. rewrite <-(assoc_L (++)).
    eapply runs_cons; [exact Ht|by apply IH].
Qed.

(** ** The threads follow the program *)

Lemma begin_spec s c r c' n :
  begin s c = (r, c') → next_chan c = Some n →
  (r = Ok tt ∧ Xctest.extends c (spec_req n s) (next_code n s) c') ∨ (r = Panic ∧ callers c' = callers c).
Proof.
  intros Hb Hn. destruct s as [|name|ch sel aux|ch sel aux]; cbn [begin] in Hb.
  - unfold handshake in Hb. unfold spec_req, Xctest.the_arg.
    destruct archive_capabilities_dict as [l|e0| |]; injection Hb as <- <-; [left|by right..].
    split; [done|]. by split; [eexists|].
  - unfold request_channel in Hb. rewrite Hn in Hb. unfold spec_req, Xctest.channel_req, Xctest.the_arg.
    destruct (_ && _); [injection Hb as <- <-; by right|].
    destruct (archive_string name) as [l|e0| |]; injection Hb as <- <-; [left|by right..].
    split; [done|]. by split; [eexists|].
  - injection Hb as <- <-. left. split; [done|]. by split; [eexists|].
  - injection Hb as <- <-. left. split; [done|]. by split; [eexists|].
Qed.

Lemma begin_exec s c : (∃ a, exec a c = Some (begin s c).2).
Proof.
  destruct s as [|name|ch sel aux|ch sel aux];
    [exists AHandshake|exists (ARequestChannel name)|exists (ACall ch sel aux)|exists (AAsync ch sel aux)]; done.
Qed.
(** A connection that reads [rx], at some point of some interleaving *)
Definition reached (c : DtxConn) : Prop := ∃ tx l, steps (new_conn rx tx) l c.
Lemma reached_exec c a c' : reached c → exec a c = Some c' → reached c'.
Proof.
  intros (tx & l & Hs) Ha. exists tx, (l ++ [a]). induction Hs as [c|c a0 c1 l c2 Ha0 _ IH].
  - econstructor; [exact Ha|constructor].
  - econstructor; [exact Ha0|by apply IH].
Qed.
Lemma drive_exec e t c c' : Xctest.drive_call e t c = Some c' → ∃ a, exec a c = Some c'.
Proof.
  unfold Xctest.drive_call. destruct (callers c !! t) as [k|]; [|done].
  destruct (k_pc k); intros Hc; [by exists (AInsert t)|by exists (ASend t)|by exists (ARecv e t)|done].
Qed.

Definition no_return q : Prop := match q with Return _ => False | _ => True end.
(** The calls are those of the program so far, and it is at the node it has
    come to; a call that is under way is the last. *)
Definition at_node p (c : DtxConn) (m : main_pc A) : Prop :=
  match m with
  | Run q => ∃ n, runs 0 1 p (reqs c) n q ∧ (no_return q → next_chan c = Some n)
  | InCall t k =>
      ∃ rs n s, runs 0 1 p rs n (Begin s k) ∧ reqs c = rs ++ [spec_req n s] ∧ t = length rs ∧
        next_chan c = Some (next_code n s)
  end.
Record followed p (c : DtxConn) (m : main_pc A) : Prop := {
  fol_node : at_node p c m;
  fol_rets : Forall Xctest.ret_ok (callers c);
  fol_reached : reached c
}.

Lemma followed_frame p c c' m :
  Xctest.frame c c' → reached c' → followed p c m → followed p c' m.
Proof.
  intros Hf Hr [Hn Hrets _]. pose proof (Xctest.frame_reqs _ _ Hf) as Hreqs.
  split; [|by eapply Xctest.frame_rets|done]. destruct Hf as [_ Hch]. unfold at_node. by rewrite Hreqs, Hch.
Qed.

(** A node that sends nothing. *)
Lemma followed_quiet p c q q' :
  followed p c (Run q) → no_return q → (∀ t n, takes t n q [] n q') → followed p c (Run q').
Proof.
  intros [(n & Hr & Hch) Hrets Hreach] Hq Ht. split; [|done..]. exists n. split; [|auto].
  rewrite <-(app_nil_r (reqs c)). eapply runs_snoc; [exact Hr|apply Ht].
Qed.

(** The result of the last call *)
Lemma result_for p c t k r rs n s :
  followed p c (InCall t k) → reqs c = rs ++ [spec_req n s] → t = length rs →
  Xctest.call_result t c = Some (Ok r) → reply_for t n s (inr r).
Proof.
  intros [_ Hrets Hreach] Hreqs -> Hres. unfold Xctest.call_result in Hres.
  destruct (callers c !! length rs) as [k0|] eqn:Ek; [|done]. destruct (k_pc k0) as [| | |r0] eqn:Epc; [done..|].
  injection Hres as ->. destruct Hreach as (tx & l & Hsteps).
  assert (inv c) as Hinv by (apply reachable_inv; by exists rx, tx, l).
  pose proof (ok_callers _ _ _ (inv_calls _ Hinv) _ _ Ek) as Hok.
  assert (Xctest.req_of k0 = spec_req n s) as Hq.
  { assert (reqs c !! length rs = Some (Xctest.req_of k0)) as Hl
      by (unfold reqs, Xctest.reqs; by rewrite list_lookup_fmap, Ek).
    rewrite Hreqs, lookup_app_r, Nat.sub_diag in Hl by lia. by injection Hl as <-. }
  split.
  - intros m ->. split; [by eapply reply_received|].
    destruct (ok_done _ _ Hok m Epc) as [Hid Hconv]. by rewrite Hid, (ok_id _ _ Hok).
  - intros name ->. pose proof (Forall_lookup_1 _ _ _ _ Hrets Ek) as Hret.
    unfold Xctest.ret_ok in Hret. rewrite Epc in Hret.
    assert (k_kind k0 = KChannel n) as Hkind by (by injection Hq).
    by rewrite Hkind in Hret.
Qed.

Lemma followed_begin p c s k r c' :
  begin s c = (r, c') → followed p c (Run (Begin s k)) →
  followed p c' (match r with
                 | Ok _ => InCall (length (callers c)) k
                 | Err e => resume k (Err e) | Panic => resume k Panic | OutOfFuel => resume k OutOfFuel
                 end).
Proof.
  intros Hb [(n & Hr & Hch) Hrets Hreach]. specialize (Hch I).
  assert (reached c') as Hreach'.
  { destruct (begin_exec s c) as [a Ha]. rewrite Hb in Ha. by eapply reached_exec. }
  destruct (begin_spec _ _ _ _ _ Hb Hch) as [[-> [(k0 & Hc & Hreq & Hok) Hn]]|[-> Hc]].
  - split; [|rewrite Hc; apply Forall_app; split; [done|by constructor]|done].
    exists (reqs c), n, s. split_and!; [done| |by unfold reqs, Xctest.reqs; rewrite length_fmap|done].
    unfold reqs, Xctest.reqs. by rewrite Hc, fmap_app, <-Hreq.
  - split; [|by rewrite Hc|done]. exists n. split; [|done].
    assert (reqs c' = reqs c ++ []) as -> by (unfold reqs, Xctest.reqs; by rewrite Hc, app_nil_r).
    eapply runs_snoc; [exact Hr|]. by apply takes_refused; left.
Qed.

Lemma followed_result p c t k r :
  Xctest.call_result t c = Some r → followed p c (InCall t k) → followed p c (resume k r).
Proof.
  intros Hres Hf. pose proof Hf as [(rs & n & s & Hr & Hreqs & Ht & Hch) Hrets Hreach].
  split; [|done..]. destruct r as [r|e| |]; exists (next_code n s); rewrite Hreqs.
  - split; [|done]. eapply runs_snoc; [exact Hr|]. apply (takes_call _ _ s k (inr r)).
    cbn [Nat.add]. subst t. by eapply result_for.
  - split; [|done]. eapply runs_snoc; [exact Hr|]. by apply (takes_call _ _ s k (inl e)).
  - split; [|done]. eapply runs_snoc; [exact Hr|]. apply takes_crash. by left.
  - split; [|done]. eapply runs_snoc; [exact Hr|]. apply takes_crash. by right.
Qed.
End follow.

Section refinement.
Context `{BuildProfile} `{PL : PlistLib} {W : Type} `{WC : Launch.WallClock W} {A : Type} (rx : stream).
Implicit Types (p : program A) (x y : client W A).

Abbreviation follows p x := (followed rx p (c_conn x) (c_main x)).

Lemma main_step_follows p expired x y : main_step expired x = Some y → follows p x → follows p y.
Proof.
  unfold main_step. intros Hs Hf. destruct (c_main x) as [q|t k] eqn:Em.
  - destruct q as [r|s k|ch k|qs q|k|m q|k|k].
    + done.
    + injection Hs as <-. unfold main_begin. destruct (begin s (c_conn x)) as [r c'] eqn:Eb.
      by apply (followed_begin _ _ _ _ _ _ _ Eb) in Hf.
    + destruct (register_channel ch (c_conn x)) as [c'|] eqn:Er; [|done]. injection Hs as <-.
      eapply followed_frame; [by eapply Xctest.register_channel_frame| |].
      * eapply (reached_exec _ _ (ARegister ch)); [apply (fol_reached _ _ _ _ Hf)|done].
      * eapply followed_quiet; [exact Hf|done|]. intros. apply takes_register.
    + injection Hs as <-. eapply followed_quiet; [exact Hf|done|]. intros. apply takes_forward.
    + destruct (c_data x) as [|m l]; [destruct expired; [|done]|]; injection Hs as <-;
        (eapply followed_quiet; [exact Hf|done|]); intros; apply takes_receive.
    + destruct (ack m (c_conn x)) as [r c'] eqn:Ea. injection Hs as <-.
      eapply followed_frame; [| |].
      * pose proof (Xctest.lift_writer_frames (let! frame := lift (encode_ack m) in write_bytes frame) (c_conn x)) as Hl.
        unfold ack in Ea. rewrite Ea in Hl. exact Hl.
      * eapply (reached_exec _ _ (AAck m)); [apply (fol_reached _ _ _ _ Hf)|]. cbn [exec]. by rewrite Ea.
      * eapply followed_quiet; [exact Hf|done|]. intros. destruct r; try apply takes_ack. apply takes_ack_panic.
    + destruct (Launch.unix_nanos (c_world x)) as [z w]. injection Hs as <-.
      eapply followed_quiet; [exact Hf|done|]. intros. apply (takes_now _ _ _ k).
    + injection Hs as <-. eapply followed_quiet; [exact Hf|done|]. intros. apply takes_deadline.
  - destruct (Xctest.call_result t (c_conn x)) as [r|] eqn:Er.
    + injection Hs as <-. by eapply followed_result.
    + destruct (Xctest.drive_call expired t (c_conn x)) as [c'|] eqn:Ed; [|done]. injection Hs as <-.
      cbn [set_conn c_conn c_main]. rewrite Em.
      eapply followed_frame; [by eapply Xctest.drive_call_frame| |exact Hf].
      destruct (drive_exec _ _ _ _ Ed) as [a Ha]. eapply reached_exec; [apply (fol_reached _ _ _ _ Hf)|exact Ha].
Qed.

Lemma forward_step_follows p i x y : forward_step i x = Some y → follows p x → follows p y.
Proof.
  unfold forward_step. intros Hs Hf. destruct (c_forward x !! i) as [f|]; [|done]. cbn [mbind option_bind] in Hs.
  destruct (f_pc f) as [|m|]; [| |done].
  - destruct (queue_recv (f_queue f) (c_conn x)) as [[m c']|] eqn:Eq; [|done]. injection Hs as <-.
    eapply followed_frame; [by eapply Xctest.queue_recv_frame| |exact Hf].
    eapply (reached_exec _ _ (AQueueRecv (f_queue f))); [apply (fol_reached _ _ _ _ Hf)|].
    cbn [exec]. by rewrite Eq.
  - destruct (program_over x).
    + injection Hs as <-. eapply followed_frame; [apply Xctest.drop_queue_frame| |exact Hf].
      unfold Xctest.drop_queue. destruct (queue_drop (f_queue f) (c_conn x)) as [c'|] eqn:Ed;
        [|apply (fol_reached _ _ _ _ Hf)].
      eapply (reached_exec _ _ (AQueueDrop (f_queue f))); [apply (fol_reached _ _ _ _ Hf)|done].
    + destruct (lenZ (c_data x) <? 64); [|done]. by injection Hs as <-.
Qed.

Lemma step_follows p t x y : step t x = Some y → follows p x → follows p y.
Proof.
  destruct t as [e| |i]; cbn [step].
  - apply main_step_follows.
  - destruct (reader_step (c_conn x)) as [c'|] eqn:Er; [|done]. intros [= <-] Hf.
    eapply followed_frame; [by eapply Xctest.reader_step_frame| |exact Hf].
    eapply (reached_exec _ _ AReader); [apply (fol_reached _ _ _ _ Hf)|done].
  - apply forward_step_follows.
Qed.

Lemma start_follows p (w : W) tx : follows p (client_start w (new_conn rx tx) p).
Proof.
  split; [|constructor|].
  - exists 1. split; [apply runs_nil|done].
  - exists tx, []. constructor.
Qed.

Lemma steps_follow p (w : W) tx x : steps_from (client_start w (new_conn rx tx) p) x → follows p x.
Proof. induction 1 as [|t y z _ IH Ht]; [apply start_follows|by eapply step_follows]. Qed.

(** C28. Whatever the device sends and in whatever order the threads get their turns,
    the calls on the connection are those the program makes by itself, up to where
    it is, and each reply it has gone on with has been read from the stream and
    has the identifier of its call. *)
Theorem client_follows p (w : W) tx x :
  steps_from (client_start w (new_conn rx tx) p) x →
  match c_main x with
  | Run q => ∃ n, runs rx 0 1 p (reqs (c_conn x)) n q
  | InCall t k =>
      ∃ rs n s, runs rx 0 1 p rs n (Begin s k) ∧ reqs (c_conn x) = rs ++ [spec_req n s] ∧ t = length rs
  end.
Proof.
  intros Hs%steps_follow. destruct Hs as [Hn _ _]. unfold at_node in Hn. destruct (c_main x); naive_solver.
Qed.

Lemma run_threads_steps (x0 x y : client W A) l :
  steps_from x0 x → run_threads l x = Some y → steps_from x0 y.
Proof.
  revert x. induction l as [|t l IH]; intros x Hs; cbn; [by intros [= <-]|].
  destruct (step t x) as [z|] eqn:Ez; [|done]. cbn. apply IH. by eapply steps_snoc.
Qed.

(** What a dialog returns is what its program returns by itself, and the calls
    that have been made then are those of the program. *)
Lemma dialog_asks sched tx p w a w' :
  dialog sched (new_conn rx tx) p w = (Ok a, w') →
  ∃ y n, run_threads (sched (client_start w (new_conn rx tx) p)) (client_start w (new_conn rx tx) p) = Some y ∧
    runs rx 0 1 p (reqs (c_conn y)) n (Return (Ok a)).
Proof.
  unfold dialog. destruct (run_threads _ _) as [y|] eqn:Er; [|done].
  intros Hr. apply (run_threads_steps _ _ _ _ (steps_refl _)), steps_follow in Er.
  destruct Er as [Hn _ _]. unfold at_node in Hn. destruct (c_main y) as [q|]; [|done].
  destruct q; try done. injection Hr as -> _. destruct Hn as (n & Hn & _). by exists y, n.
Qed.
Lemma dialog_runs sched tx p w a w' :
  dialog sched (new_conn rx tx) p w = (Ok a, w') → ∃ rs n, runs rx 0 1 p rs n (Return (Ok a)).
Proof. intros (y & n & _ & Hr)%dialog_asks. eauto. Qed.
End refinement.

(** ** Programs by themselves

    How a program that returns a value can have come there. *)
Section inversion.
Context `{BuildProfile} `{PL : PlistLib} {A : Type} {rx : stream}.

Lemma runs_return t n (r r' : outcome anyhow A) rs n' : runs rx t n (Return r) rs n' (Return r') → r' = r.
Proof. inversion 1 as [|???????Ht]; [done|]. inversion Ht. Qed.
Lemma runs_return_nil t n (r : outcome anyhow A) rs n' q : runs rx t n (Return r) rs n' q → rs = [].
Proof. inversion 1 as [|???????Ht]; [done|]. inversion Ht. Qed.
Lemma runs_attempt t n s text k rs n' (a : A) :
  runs rx t n (attempt s text k) rs n' (Return (Ok a)) →
  ∃ r rs', reply_for rx t n s (inr r) ∧ rs = spec_req n s :: rs' ∧
    runs rx (S t) (next_code n s) (k r) rs' n' (Return (Ok a)).
Proof.
  unfold attempt. intros Hr. inversion Hr as [|rs1 n1 p1 rs2 n2 p2 Ht Hr2]; subst.
  inversion Ht as [s0 k0 r Hf|s0 k0 n0 r [->| ->]|s0 k0 r [->| ->]| | | | | | |]; subst.
  - destruct r as [e|r]; [by apply runs_return in Hr2|]. cbn [length] in Hr2. rewrite Nat.add_1_r in Hr2.
    by exists r, rs2.
  - by apply runs_return in Hr2.
  - by apply runs_return in Hr2.
  - by apply runs_return in Hr2.
  - by apply runs_return in Hr2.
Qed.
Lemma runs_ignored t n s (p : program A) rs n' (a : A) :
  runs rx t n (attempt_ignored s p) rs n' (Return (Ok a)) →
  ∃ rs', rs = spec_req n s :: rs' ∧ runs rx (S t) (next_code n s) p rs' n' (Return (Ok a)).
Proof.
  unfold attempt_ignored. intros Hr. inversion Hr as [|rs1 n1 p1 rs2 n2 p2 Ht Hr2]; subst.
  inversion Ht; subst; cbn [length] in Hr2; rewrite ?Nat.add_1_r in Hr2;
    [by exists rs2|by apply runs_return in Hr2; subst; naive_solver..].
Qed.

(** The nodes that send nothing *)
Definition quiet (p : program A) : Prop :=
  match p with Return _ | Begin _ _ => False | _ => True end.
Lemma runs_quiet t n (p : program A) rs n' q :
  quiet p → runs rx t n p rs n' (Return q) →
  ∃ p', takes rx t n p [] n p' ∧ runs rx t n p' rs n' (Return q).
Proof.
  intros Hq Hr. inversion Hr as [|rs1 n1 p1 rs2 n2 p2 Ht Hr2]; subst; [done|].
  destruct p; try done; inversion Ht; subst; cbn [length app] in Hr2; rewrite Nat.add_0_r in Hr2; eauto.
Qed.
End inversion.

(** ** A channel that is asked for and given *)
Section witnesses.
Import ToyTunnel.
#[local] Existing Instance debug_profile.
#[local] Existing Instance BitPlist.lib.
#[local] Existing Instance Xctest.Demo.clock.

Definition sample_program : program Z :=
  attempt SHandshake "handshake: {e}" (λ _,
    attempt (SChannel "c") "channel: {e}" (λ r, Return (Ok (Xctest.ret_channel r)))).
Definition sample_rx : stream := idle [Xctest.Demo.dtx_reply 6].
Definition sample_start : client world Z :=
  client_start (World (Script.World []) 1000 (idle [])) (new_conn sample_rx (idle [])) sample_program.
Definition sample_steps : list thread :=
  replicate 7 (TMain false) ++ [TReader; TReader] ++ replicate 2 (TMain false).
Definition sample_end : client world Z :=
  match run_threads sample_steps sample_start with Some x => x | None => sample_start end.

Lemma sample_run : run_threads sample_steps sample_start = Some sample_end.
Proof.
  assert (bool_decide (is_Some (run_threads sample_steps sample_start)) = true) as Hs by (vm_compute; reflexivity).
  unfold sample_end. apply bool_decide_eq_true in Hs as [x Hx]. by rewrite Hx.
Qed.
Lemma sample_returns : c_main sample_end = Run (Return (Ok 1)).
Proof. vm_compute. reflexivity. Qed.
Lemma client_follows_witness :
  ∃ n, runs sample_rx 0 1 sample_program (reqs (c_conn sample_end)) n (Return (Ok 1)).
Proof.
  pose proof (client_follows sample_rx sample_program _ _ sample_end
    (run_threads_steps _ _ _ _ (steps_refl sample_start) sample_run)) as Hf.
  rewrite sample_returns in Hf. exact Hf.
Defined.
End witnesses.
