(* ===== verification/Instruments.v ===== *)
(** * Commands of the instruments service

    [src/bin/ios/cmd/ps.rs], [location.rs] and [screenshot.rs]: what they ask of the
    device on a DTX connection, as programs of [Dialog], and what they print. *)

From Stdlib Require Import Sorted.
From S2P Require Import Prelude RustStd Text Io Plist Json Os Version CdTunnel Tunnel Dtx DtxConn Output Dialog.
From S2P Require Float Lockdown DeviceSession Daemon Cli Services RpCredentials OsLog Apps Archive Launch Xctest.

Abbreviation DeviceSession := DeviceSession.DeviceSession.

(** ** Programs *)

(** The handshake, and the channel of a service *)
Definition on_channel {A} (name t : string) (k : Z → program A) : program A :=
  attempt SHandshake "handshake: {e}" (λ _,
    attempt (SChannel name) t (λ r, k (Xctest.ret_channel r))).
(** A call whose arguments are archives *)
Definition call_archived {A} (ch : Z) (sel : string) (args : outcome Error (list (list byte))) (t : string)
    (k : ret → program A) : program A :=
  match args with
  | Ok l => attempt (SCall ch sel (ABytes <$> l)) t k
  | _ => Return Panic
  end.
(** [call_full] returns the message of the reply. *)
Definition call_full {A} (ch : Z) (sel t : string) (k : DtxMessage → program A) : program A :=
  attempt (SCall ch sel []) t (λ r, match r with RetReply reply => k reply | _ => Return Panic end).

Definition DEVICEINFO : string := "com.apple.instruments.server.services.deviceinfo".
Definition LOCATION_SIMULATION : string := "com.apple.instruments.server.services.LocationSimulation".
Definition SCREENSHOT : string := "com.apple.instruments.server.services.screenshot".

(** ** [ps.rs] *)
Section ps.
Context `{PL : PlistLib} `{TM : Terminal} (depth : nat).

Definition as_anyhow {A} (r : outcome string A) : outcome anyhow A := omap_err (λ t, [msg0 t]) r.
Definition list_processes : program (list Archive.ProcessInfo) :=
  on_channel DEVICEINFO "deviceinfo channel: {e}" (λ ch,
    call_full ch "runningProcesses" "runningProcesses: {e}" (λ reply,
      Return (as_anyhow (Archive.processes_of_reply debug_plist depth reply)))).

Definition process_json (p : Archive.ProcessInfo) : jval :=
  JObject ["pid" =:> JInt (Archive.pid p); "name" =:> JString (Archive.name p);
           "real_app_name" =:> JString (Archive.real_app_name p);
           "is_application" =:> JBool (Archive.is_application p)].
(** The column of names: its longest name, from 10 to 40 *)
Definition name_width (procs : list Archive.ProcessInfo) : nat :=
  let w := foldr Nat.max 0%nat ((λ p, length (bytes_of (Archive.name p))) <$> procs) in
  Nat.min 40 (Nat.max 10 w).
Definition ps_row (w : nat) (pid name last : string) : list byte :=
  line (bytes_of (pad_left 6 pid) ++ bytes_of "  " ++ bytes_of (OsLog.pad_right w name)
        ++ bytes_of "  " ++ bytes_of last).
Definition bundle_text (p : Archive.ProcessInfo) : string :=
  if bool_decide (Archive.real_app_name p = ""%string)
  then if Archive.is_application p then "app" else "daemon"
  else Archive.real_app_name p.
Definition ps_text (procs : list Archive.ProcessInfo) : list byte :=
  let w := name_width procs in
  ps_row w "PID" "Name" "Bundle ID / Type"
  ++ line (replicate (6 + 2 + w + 2 + 20) "-"%byte)
  ++ concat ((λ p, ps_row w (string_of (dec (Archive.pid p))) (Archive.name p) (bundle_text p)) <$> procs)
  ++ line (bytes_of "(" ++ dec (lenZ procs) ++ bytes_of " processes)").
Definition ps_report `{JsonLib} (output : OutputMode) (procs : list Archive.ProcessInfo) :
    outcome anyhow (list byte) :=
  match procs with
  | [] => Ok []
  | _ => report output (JArray (process_json <$> procs)) (ps_text procs)
  end.
End ps.

(** ** [location.rs]; a coordinate is the bits of an [f64] *)
Section location.
Context `{PL : PlistLib}.

Definition set_location (lat lon : Z) : program unit :=
  on_channel LOCATION_SIMULATION "LocationSimulation channel: {e}" (λ ch,
    call_archived ch "simulateLocationWithLatitude:longitude:"
      (let? lat := archive_primitive (PReal lat) in
       let? lon := archive_primitive (PReal lon) in
       Ok [lat; lon]) "simulateLocation: {e}" (λ _, Return (Ok tt))).
Definition clear_location : program unit :=
  on_channel LOCATION_SIMULATION "LocationSimulation channel: {e}" (λ ch,
    attempt (SCall ch "stopLocationSimulation" []) "stopLocationSimulation: {e}" (λ _, Return (Ok tt))).
Definition location_text (lat lon : Z) : string :=
  let f x := string_of (Float.F64.fixed 6 (Float.F64.of_bits x)) in
  "location set to " ++ f lat ++ ", " ++ f lon.
End location.

(** ** [screenshot.rs] *)
Section screenshot.
Context `{PL : PlistLib}.

Definition PNG : list byte := [x89; "P"; "N"; "G"]%byte.
Definition has_prefix (p l : list byte) : bool := bool_decide (is_Some (strip_prefix p l)).

(** A picture, an archive of one, or a plist that has one; the depth is that of
    the recursion. *)
Fixpoint extract_png_bytes (depth : nat) (bytes : list byte) : outcome anyhow (option (list byte)) :=
  if has_prefix PNG bytes then Ok (Some bytes)
  else
    match depth, from_bytes bytes with
    | _, None => Ok None
    | O, _ => OutOfFuel
    | S depth, Some v => extract_png_value depth v
    end
with extract_png_value (depth : nat) (v : pval) : outcome anyhow (option (list byte)) :=
  match depth with
  | O => OutOfFuel
  | S depth =>
      match v with
      | PData bytes => extract_png_bytes depth bytes
      | PDict d =>
          if bool_decide (dget "$archiver" d ≫= as_string = Some "NSKeyedArchiver"%string) then
            match Archive.archive_parts v with
            | Some (_, root) => extract_png_value depth root
            | None => Ok None
            end
          else Ok None
      | _ => Ok None
      end
  end.

(** The first argument with a picture, or else the payload *)
Fixpoint png_of_aux (depth : nat) (aux : list AuxValue) : outcome anyhow (option (list byte)) :=
  match aux with
  | [] => Ok None
  | ABytes bytes :: aux =>
      let? png := extract_png_bytes depth bytes in
      match png with Some png => Ok (Some png) | None => png_of_aux depth aux end
  | _ :: aux => png_of_aux depth aux
  end.
Definition NO_PNG : string := "takeScreenshot: no PNG in reply (aux={} payload={:?})".
Definition png_of_reply (depth : nat) (reply : DtxMessage) : outcome anyhow (list byte) :=
  let? png := png_of_aux depth (Dtx.aux reply) in
  match png with
  | Some png => Ok png
  | None =>
      let? png := (match Dtx.payload reply with
                   | Some v => extract_png_value depth v
                   | None => Ok None
                   end) in
      ok_or png [Msg NO_PNG [FNum (lenZ (Dtx.aux reply))]]
  end.
Definition take_modern (depth : nat) : program (list byte) :=
  on_channel SCREENSHOT "screenshot channel: {e}" (λ ch,
    call_full ch "takeScreenshot" "takeScreenshot: {e}" (λ reply, Return (png_of_reply depth reply))).
Definition screenshot_json (path : string) (bytes : Z) : jval :=
  JObject ["ok" =:> JBool true; "path" =:> JString path; "bytes" =:> JInt bytes].
End screenshot.

(** ** The commands *)
Section commands.
Context `{BP : BuildProfile} `{PL : PlistLib} `{T : Lockdown.Tls} `{SJ : CdTunnel.SerdeJson}
  {W : Type} `{OS : Os W} `{TS : TunnelStack W} `{Y : Sys W} `{FS : RpCredentials.Files W}
  `{C : Launch.WallClock W} `{TM : Terminal} `{J : JsonLib}.
(** The order in which the threads of a dialog get their turns, and the depth of
    the recursion on archives. *)
Context (schedule : ∀ A, client W A → list thread) (depth : nat).

Definition HUB : string := "com.apple.instruments.dtservicehub".
Definition connect_hub (t : string) : ST (W * DeviceSession) anyhow DtxConn :=
  let! ws := sget in
  let! stream := on_outer (Apps.anyhow_err t Version.Error_fmt (DeviceSession.connect_rsd_service ws.2 HUB)) in
  sret (new_conn stream stream).
Definition on_hub {A} (t : string) (p : program A) : ST (W * DeviceSession) anyhow A :=
  let! conn := connect_hub t in
  on_outer (dialog (schedule A) conn p).
Definition DEVELOPER_MODE : string := "dtservicehub (is Developer Mode enabled?): {e}".

Definition ps_run (udid : option string) (output : OutputMode) : ST W anyhow (list byte) :=
  Cli.with_session udid RsdMode (
    let! procs := on_hub DEVELOPER_MODE (list_processes depth) in
    lift (ps_report output procs)).

Definition location_set (udid : option string) (lat lon : Z) (output : OutputMode) : ST W anyhow (list byte) :=
  Cli.with_session udid RsdMode (
    on_hub DEVELOPER_MODE (set_location lat lon) ;;;
    lift (report output (action_json (with_msg (location_text lat lon))) [])).
Definition location_clear (udid : option string) (output : OutputMode) : ST W anyhow (list byte) :=
  Cli.with_session udid RsdMode (
    on_hub DEVELOPER_MODE clear_location ;;;
    lift (report output (action_json (with_msg "location simulation cleared")) [])).

Definition screenshot_png : ST (W * DeviceSession) anyhow (list byte) :=
  let! ws := sget in
  if DeviceSession.ds_is_rsd ws.2 then on_hub "dtservicehub: {e}" (take_modern depth)
  else
    let! m := Cli.on_lockdown (Cli.ld_context "connect screenshotr (legacy, iOS < 17)" Services.screenshot_connect) in
    let! (png, _) := srun (Cli.ld_context "take screenshot" Services.take_screenshot) (mux_stream m) in
    sret png.
Definition screenshot_run (udid : option string) (mode : ConnectionMode) (output_path : string)
    (output : OutputMode) : ST W anyhow (list byte) :=
  Cli.with_session udid mode (
    let! png := screenshot_png in
    if bool_decide (output_path = "-"%string) then sret png
    else
      on_outer (Daemon.ctx (Msg "write {output_path}" [FStr output_path]) Daemon.io_fmt
                  (RpCredentials.file_write output_path png)) ;;;
      lift (report output (screenshot_json output_path (lenZ png)) [])).
End commands.

(** ** What a program has asked for when it returns *)
Section answers.
Context `{BP : BuildProfile} `{PL : PlistLib} {A : Type} {rx : stream}.

Definition hello : request :=
  (KAsync, 0, "_notifyOfPublishedCapabilities:"%string, [Xctest.the_arg archive_capabilities_dict]).
Lemma runs_on_channel name t (k : Z → program A) rs n' a :
  runs rx 0 1 (on_channel name t k) rs n' (Return (Ok a)) →
  ∃ rs', rs = hello :: Xctest.channel_req 1 name :: rs' ∧ runs rx 2 2 (k 1) rs' n' (Return (Ok a)).
Proof.
  unfold on_channel. intros (r1 & rs1 & _ & -> & Hr)%runs_attempt.
  apply runs_attempt in Hr as (r2 & rs2 & [_ Hch] & -> & Hr).
  specialize (Hch name eq_refl) as ->. by exists rs2.
Qed.
Lemma runs_call_full t n ch sel text (k : DtxMessage → program A) rs n' a :
  runs rx t n (call_full ch sel text k) rs n' (Return (Ok a)) →
  ∃ reply rs', received rx reply ∧ msg_id reply = nth_id t ∧ 0 < conv_id reply ∧ rs = (KCall, ch, sel, []) :: rs' ∧
    runs rx (S t) n (k reply) rs' n' (Return (Ok a)).
Proof.
  unfold call_full. intros (r & rs' & [Hm _] & -> & Hr)%runs_attempt.
  destruct r as [m| |code]; [|by apply runs_return in Hr..].
  destruct (Hm m eq_refl) as (Hin & Hid & Hconv). by exists m, rs'.
Qed.
End answers.

Section theorems.
Context `{BP : BuildProfile} `{PL : PlistLib} {W : Type} `{C : Launch.WallClock W} `{TM : Terminal}.

(** C38. When the command returns a list, the connection has asked for the handshake,
    for the channel of the device information and for [runningProcesses] on the
    channel that was given, in this order and for nothing else; and the list is
    made from a reply that has been read from the stream of the device and that
    has the identifier of that third call, in whatever order the threads get their
    turns: every process of the archive in it is listed once, by its number. *)
Theorem processes_answered sched depth rx tx w l w' :
  dialog sched (new_conn rx tx) (list_processes depth) w = (Ok l, w') →
  (∃ y, let x := client_start w (new_conn rx tx) (list_processes depth) in
     run_threads (sched x) x = Some y ∧
     reqs (c_conn y) =
       [(KAsync, 0, "_notifyOfPublishedCapabilities:", [Xctest.the_arg archive_capabilities_dict]);
        (KChannel 1, 0, "_requestChannelWithCode:identifier:",
           [AInt32 1; Xctest.the_arg (archive_string "com.apple.instruments.server.services.deviceinfo")]);
        (KCall, 1, "runningProcesses", [])]%string) ∧
  ∃ ms s reply v items, reads rx ms s ∧ reply ∈ ms ∧ msg_id reply = 7 ∧ 0 < conv_id reply ∧
    Archive.reply_value reply = Some v ∧
    Archive.nska_root_array debug_plist depth v = inr (Some items) ∧
    l ≡ₚ omap Archive.process_of items ∧ StronglySorted Archive.by_pid l.
Proof.
  intros (y & n & Hy & Hr)%dialog_asks. unfold list_processes in Hr.
  apply runs_on_channel in Hr as (rs1 & Hrs1 & Hr).
  apply runs_call_full in Hr as (reply & rs2 & (ms & s & Hms & Hin) & Hid & Hconv & -> & Hr).
  apply runs_return_nil in Hr as Hnil. apply runs_return in Hr. subst rs2.
  split; [exists y; split; [exact Hy|exact Hrs1]|].
  unfold as_anyhow, Archive.processes_of_reply, Archive.parse_process_list in Hr.
  destruct (Archive.reply_value reply) as [v|] eqn:Ev; [|done]. cbn [ok_or obind] in Hr.
  destruct (Archive.nska_root_array _ _ v) as [[]|[items|]] eqn:Ei; try done. injection Hr as ->.
  exists ms, s, reply, v, items.
  split_and!; [done..|apply Archive.sort_by_pid_perm|apply Archive.sort_by_pid_sorted].
Qed.

(** A picture that is saved begins as a PNG file does. *)
Lemma png_found depth :
  (∀ bytes png, extract_png_bytes depth bytes = Ok (Some png) → has_prefix PNG png = true) ∧
  (∀ v png, extract_png_value depth v = Ok (Some png) → has_prefix PNG png = true).
Proof.
  induction depth as [|depth [IHb IHv]]; (split; [intros bytes|intros v]); intros png; cbn.
  - destruct (has_prefix PNG bytes) eqn:E; [by intros [= <-]|]. by destruct (from_bytes bytes).
  - done.
  - destruct (has_prefix PNG bytes) eqn:E; [by intros [= <-]|].
    destruct (from_bytes bytes); [apply IHv|done].
  - destruct v; try done; [|apply IHb]. case_bool_decide; [|done].
    destruct (Archive.archive_parts _) as [[objects root]|]; [apply IHv|done].
Qed.
Lemma png_of_aux_found depth aux png : png_of_aux depth aux = Ok (Some png) → has_prefix PNG png = true.
Proof.
  induction aux as [|a aux IH]; [done|]. destruct a; cbn; try exact IH.
  destruct (extract_png_bytes depth _) as [[p|]| | |] eqn:E; cbn; try done.
  intros [= <-]. exact (proj1 (png_found depth) _ _ E).
Qed.
Lemma take_modern_png sched depth rx tx w png w' :
  dialog sched (new_conn rx tx) (take_modern depth) w = (Ok png, w') → has_prefix PNG png = true.
Proof.
  intros (rs & n & Hr)%dialog_runs. unfold take_modern in Hr.
  apply runs_on_channel in Hr as (rs1 & _ & Hr).
  apply runs_call_full in Hr as (reply & rs2 & _ & _ & _ & _ & Hr). apply runs_return in Hr.
  unfold png_of_reply in Hr. destruct (png_of_aux depth (Dtx.aux reply)) as [[p|]| | |] eqn:Ea; try done; cbn in Hr.
  - injection Hr as ->. by eapply png_of_aux_found.
  - destruct (Dtx.payload reply) as [v|]; [|done].
    destruct (extract_png_value depth v) as [[p|]| | |] eqn:Ev; try done; cbn in Hr. injection Hr as ->.
    exact (proj2 (png_found depth) _ _ Ev).
Qed.

(** A location is set by the archives of the two numbers, on the channel of the
    service, or else the command fails. *)
Lemma location_asked rx lat lon rs n :
  runs rx 0 1 (set_location lat lon) rs n (Return (Ok tt)) →
  ∃ a b, archive_primitive (E:=Error) (PReal lat) = Ok a ∧ archive_primitive (E:=Error) (PReal lon) = Ok b ∧
    rs = [hello; Xctest.channel_req 1 LOCATION_SIMULATION;
          (KCall, 1, "simulateLocationWithLatitude:longitude:"%string, [ABytes a; ABytes b])].
Proof.
  intros (rs' & -> & Hr)%runs_on_channel. unfold call_archived in Hr.
  destruct (archive_primitive (PReal lat)) as [a| | |] eqn:Ea; cbn [obind] in Hr;
    [|by apply runs_return in Hr..].
  destruct (archive_primitive (PReal lon)) as [b| | |] eqn:Eb; cbn [obind] in Hr;
    [|by apply runs_return in Hr..].
  apply runs_attempt in Hr as (r & rs2 & _ & -> & Hr). exists a, b. split_and!; [done..|].
  by apply runs_return_nil in Hr as ->.
Qed.
End theorems.

(** ** A device that answers *)
Section witnesses.
Import ToyTunnel.
#[local] Existing Instance debug_profile.
#[local] Existing Instance BitPlist.lib.
#[local] Existing Instance Xctest.Demo.clock.
#[local] Instance terminal : Terminal := {|
  is_terminal := true; table_text _ _ := []; debug_date _ := ""%string; debug_plist _ := ""%string |}.

(** The archive of two processes as the payload of the third reply *)
Definition ps_archive : pval := archive_root (PUid 2) Archive.proc_objects.
Definition dtx_answer (id : Z) (payload : list byte) : rd_event :=
  RData (encode_raw id 1 0 false Reply [] payload).
Definition ps_says : stream :=
  idle [dtx_answer 6 []; dtx_answer 7 (default [] (to_writer_binary ps_archive))].
Definition mains (n : nat) : list thread := replicate n (TMain false).
(** Handshake, channel, call: each is begun, entered and sent; two of them wait. *)
Definition ps_schedule : list thread :=
  mains 4 ++ mains 3 ++ [TReader; TReader] ++ mains 2 ++ mains 3 ++ [TReader; TReader] ++ mains 2.
Definition ps_world : world := World (Script.World []) 1000 (idle []).
Definition ps_processes : list Archive.ProcessInfo :=
  [Archive.MkProcessInfo 5 "a" "" false; Archive.MkProcessInfo 77 "b" "" false].

Lemma ps_dialog :
  dialog (λ _, ps_schedule) (new_conn ps_says (idle [])) (list_processes 6) ps_world = (Ok ps_processes, ps_world).
Proof. vm_compute. reflexivity. Qed.
Lemma processes_answered_witness :
  ∃ ms s reply v items, reads ps_says ms s ∧ reply ∈ ms ∧ msg_id reply = 7 ∧ 0 < conv_id reply ∧
    Archive.reply_value reply = Some v ∧
    Archive.nska_root_array debug_plist 6 v = inr (Some items) ∧
    ps_processes ≡ₚ omap Archive.process_of items ∧ StronglySorted Archive.by_pid ps_processes.
Proof. exact (proj2 (processes_answered _ _ _ _ _ _ _ ps_dialog)). Defined.
End witnesses.

Example ps_text_sample :
  ps_text [Archive.MkProcessInfo 1 "launchd" "" false] =
    concat (line ∘ bytes_of <$>
      ["   PID  Name        Bundle ID / Type";
       "----------------------------------------";
       "     1  launchd     daemon"; "(1 processes)"]%string).
Proof. reflexivity. Qed.
Example location_text_sample :
  location_text 0x4042f0a3d70a3d71 0xc0f86a0000000000 = "location set to 37.880000, -100000.000000"%string.
Proof. vm_compute. reflexivity. Qed.
