(* ===== verification/Perf.v ===== *)
(** * The performance monitor ([src/bin/ios/cmd/perf.rs])

    Samples of the system and its processes, one connection for each, and the two
    forms in which they are printed.  The configuration the monitor sends is built
    in [Archive]. *)

From S2P Require Import Prelude RustStd Text Io Plist Json Os Version CdTunnel Tunnel Dtx DtxConn Output Dialog Instruments.
From S2P Require Float Lockdown DeviceSession Daemon Cli RpCredentials OsLog Apps Archive Launch Xctest.

Abbreviation f64 := Float.f64.
Abbreviation zero := (Float.F64.of_Z 0).
Abbreviation hundred := (Float.F64.of_Z 100).

Record ProcSnap : Type := MkProcSnap {
  pid : Z;
  name : string;
  cpu : f64;
  phys : Z;
  virt : Z
}.
Record Snapshot : Type := MkSnapshot {
  ts : Z;
  cpu_total : f64;
  phys_mem : Z;
  mem_used : Z;
  processes : list ProcSnap
}.

(** ** Reading a sample *)

(** The number of an attribute in the device's list of names *)
Definition attr_index (schema : list pval) (name : string) : option nat :=
  fst <$> list_find (λ v, as_string v = Some name) schema.
Definition as_real (v : pval) : option f64 :=
  match v with PReal bits => Some (Float.F64.of_bits bits) | _ => None end.
Definition real_or_int (v : pval) : option f64 :=
  match as_real v with
  | Some x => Some x
  | None =>
      match as_signed_integer v with
      | Some i => Some (Float.F64.of_Z i)
      | None => Float.F64.of_Z <$> as_unsigned_integer v
      end
  end.

Definition PAGE : Z := 16384.
Definition total_load (d : dictionary) : f64 :=
  Float.F64.fmax
    (default zero (u ← dget "SystemCPUUsage" d ≫= as_dictionary; dget "CPU_TotalLoad" u ≫= as_real)) zero.
(** The closure [lookup] *)
Definition lookup_attr (d : dictionary) (key : string) : Z :=
  default 0 (s ← dget "SystemAttributes" d ≫= as_array; v ← dget "System" d ≫= as_array;
             i ← attr_index s key; v !! i ≫= as_unsigned_integer).

Definition default_cpu : nat := 1.
Definition default_phys : nat := 4.
Definition default_virt : nat := 0.
(** One process, from its values and the names of the attributes *)
Definition proc_snap (schema : list pval) (val : pval) : option ProcSnap :=
  arr ← as_array val;
  let at_ i := arr !! i in
  let i_cpu := default default_cpu (attr_index schema "cpuUsage") in
  let i_phys := default default_phys
    (match attr_index schema "physFootprint" with
     | Some i => Some i
     | None => attr_index schema "memPhysFootprint"
     end) in
  let i_virt := default default_virt (attr_index schema "memVirtualSize") in
  Some (MkProcSnap
    (match attr_index schema "pid" ≫= at_ with
     | Some v => wrap 32 (default 0 (as_unsigned_integer v))
     | None => 0
     end)
    (match attr_index schema "name" ≫= at_ with
     | Some v => default "?"%string (as_string v)
     | None => "?"
     end)
    (default zero (at_ i_cpu ≫= real_or_int))
    (default 0 (at_ i_phys ≫= as_unsigned_integer))
    (default 0 (at_ i_virt ≫= as_unsigned_integer))).

(** The most loaded first *)
Definition by_cpu (a b : ProcSnap) : bool := Float.F64.leb (cpu b) (cpu a).
Definition is_nan (x : f64) : bool := match x with SpecFloat.S754_nan => true | _ => false end.

Section sampling.
Context `{BP : BuildProfile} `{PL : PlistLib} `{TM : Terminal} (depth : nat).
(** [sort_by] when the comparison is no order, because of a load that is not a
    number: the library promises no order then, and may panic. *)
Context (sort_unordered : list ProcSnap → outcome anyhow (list ProcSnap)).

Definition memory (d : dictionary) : outcome anyhow (Z * Z) :=
  let phys := lookup_attr d "physMemSize" in
  let used := lookup_attr d "vmUsedCount" in
  let free := lookup_attr d "vmFreeCount" in
  let? phys_b := (if 0 <? phys then mul_w 64 phys PAGE
                  else Ok (default 0 (dget "physMemory" d ≫= as_unsigned_integer))) in
  let? known := add_w 64 used free in
  let? used_b := (if 0 <? known then mul_w 64 used PAGE else Ok 0) in
  Ok (phys_b, used_b).
Definition sort_procs (l : list ProcSnap) : outcome anyhow (list ProcSnap) :=
  if existsb (λ p, is_nan (cpu p)) l then sort_unordered l else Ok (sort by_cpu l).
Definition processes_of (d : dictionary) : outcome anyhow (list ProcSnap) :=
  match dget "ProcessesAttributes" d ≫= as_array, dget "Processes" d ≫= as_dictionary with
  | Some schema, Some procs => sort_procs (omap (λ kv, proc_snap schema kv.2) procs)
  | _, _ => Ok []
  end.

(** A sample but for its time, which is read from the clock. *)
Definition pending : Type := Z → Snapshot.
Definition try_parse_snapshot (v : pval) : outcome anyhow (option pending) :=
  match as_dictionary v with
  | None => Ok None
  | Some d =>
      if negb (Archive.has_key "SystemCPUUsage" d) && negb (Archive.has_key "Processes" d) then Ok None
      else
        let? mem := memory d in
        let? procs := processes_of d in
        Ok (Some (λ ts, MkSnapshot ts (total_load d) mem.1 mem.2 procs))
  end.

(** The first that is there *)
Definition or_try {A} (o : outcome anyhow (option A)) (next : outcome anyhow (option A)) :
    outcome anyhow (option A) :=
  let? r := o in match r with Some a => Ok (Some a) | None => next end.
Fixpoint first_parsed (l : list pval) (next : outcome anyhow (option pending)) :
    outcome anyhow (option pending) :=
  match l with
  | [] => next
  | v :: l => or_try (try_parse_snapshot v) (first_parsed l next)
  end.
Definition decode (objects : list pval) (v : pval) : outcome anyhow pval :=
  match Archive.nska_decode_value debug_plist depth objects v with Some v => Ok v | None => OutOfFuel end.
Fixpoint try_items (objects arr : list pval) : outcome anyhow (option pending) :=
  match arr with
  | [] => Ok None
  | item :: arr =>
      match (i ← Archive.as_uid item; objects !! Z.to_nat i) with
      | None => Ok None
      | Some v =>
          let? decoded := decode objects v in
          or_try (try_parse_snapshot decoded) (try_items objects arr)
      end
  end.
Definition nska_try_array (v : pval) (objects : list pval) : outcome anyhow (option pending) :=
  match (d ← as_dictionary v; dget "NS.objects" d ≫= as_array) with
  | Some arr => try_items objects arr
  | None => Ok None
  end.
Definition nska_extract_snapshot (v : pval) : outcome anyhow (option pending) :=
  match Archive.archive_parts v with
  | None => Ok None
  | Some (objects, root) =>
      let? decoded := decode objects root in
      match decoded with
      | PDict _ => try_parse_snapshot decoded
      | PArray arr => first_parsed arr (nska_try_array root objects)
      | _ => Ok None
      end
  end.
(** The payload of a message, and its arguments that are property lists *)
Definition candidates (msg : DtxMessage) : list pval :=
  match Dtx.payload msg with Some v => [v] | None => [] end
  ++ omap (λ a, match a with ABytes bytes => from_bytes bytes | _ => None end) (Dtx.aux msg).
Fixpoint first_candidate (l : list pval) : outcome anyhow (option pending) :=
  match l with
  | [] => Ok None
  | v :: l => or_try (try_parse_snapshot v) (or_try (nska_extract_snapshot v) (first_candidate l))
  end.
Definition extract_snapshot (msg : DtxMessage) : outcome anyhow (option pending) :=
  first_candidate (candidates msg).

(** ** One sample *)

Definition SYSMONTAP : string := "com.apple.instruments.server.services.sysmontap".
Definition stop_with {A} (tap : Z) (r : outcome anyhow A) : program A :=
  attempt_ignored (SAsync tap "stop" []) (Return r).
(** [turns]: how many messages come before the deadline *)
Fixpoint sample_loop (turns : nat) (tap : Z) : program Snapshot :=
  Deadline (λ expired,
    if (expired : bool) then stop_with tap (Err [msg0 "no snapshot within 20s"])
    else Receive (λ o,
      match o with
      | None => stop_with tap (Err [msg0 "connection closed without snapshot"])
      | Some msg =>
          let rest :=
            match extract_snapshot msg with
            | Ok (Some f) => Now (λ ts, stop_with tap (Ok (f ts)))
            | Ok None => match turns with O => Return OutOfFuel | S turns => sample_loop turns tap end
            | Err e => Return (Err e)
            | Panic => Return Panic
            | OutOfFuel => Return OutOfFuel
            end in
          if expects_reply msg then Acknowledge msg rest else rest
      end)).
Definition tap_program (turns : nat) (config : list byte) : program Snapshot :=
  attempt (SChannel SYSMONTAP) "sysmontap channel: {e}" (λ r,
    let tap := Xctest.ret_channel r in
    Register tap (λ q_pos,
      if (tap =? - 2 ^ 31) && overflow_checks then Return Panic
      else Register (swrap 32 (- tap)) (λ q_neg,
        Forward [q_pos; q_neg] (
          attempt (SAsync tap "setConfig:" [ABytes config]) "setConfig: {e}" (λ _,
            attempt (SAsync tap "start" []) "start: {e}" (λ _, sample_loop turns tap)))))).
(** The two requests for the names of attributes are sent without waiting. *)
Definition sample_program (turns : nat) (config : list byte) : program Snapshot :=
  attempt SHandshake "handshake: {e}" (λ _,
    Begin (SChannel DEVICEINFO) (λ r,
      match r with
      | inl _ => tap_program turns config
      | inr r =>
          let di := Xctest.ret_channel r in
          attempt_ignored (SAsync di "sysmonProcessAttributes" [])
            (attempt_ignored (SAsync di "sysmonSystemAttributes" []) (tap_program turns config))
      end)).
End sampling.

(** ** Printing *)

Definition esc (s : string) : list byte := x1b :: bytes_of s.
Definition fmt_bytes (n : Z) : string :=
  let over k := Float.F64.div (Float.F64.of_Z n) (Float.F64.of_Z (2 ^ k)) in
  string_of (if 2 ^ 30 <=? n then Float.F64.fixed 1 (over 30) ++ bytes_of "G"
             else if 2 ^ 20 <=? n then Float.F64.fixed 0 (over 20) ++ bytes_of "M"
             else if 2 ^ 10 <=? n then Float.F64.fixed 0 (over 10) ++ bytes_of "K"
             else dec n ++ bytes_of "B").
Definition two (n : Z) : list byte := Float.F64.pad_digits 2 (dec n).
Definition time_text (ts : Z) : list byte :=
  let secs := ts mod 86400 in
  two (secs / 3600) ++ bytes_of ":" ++ two (secs mod 3600 / 60) ++ bytes_of ":" ++ two (secs mod 60).

Definition saturating_sub (a b : Z) : Z := Z.max 0 (a - b).
(** A bar of [bar_w] places for a percentage *)
Definition bar_of (bar_w : Z) (pc : f64) : list byte :=
  let f := Float.F64.to_usize (Float.F64.mul (Float.F64.div pc hundred) (Float.F64.of_Z bar_w)) in
  bytes_of "[" ++ concat (replicate (Z.to_nat f) (bytes_of "█"))
  ++ concat (replicate (Z.to_nat (saturating_sub bar_w f)) (bytes_of "░")) ++ bytes_of "] ".
Definition percent (x : f64) : f64 := Float.F64.clamp x zero hundred.

Section printing.
Context `{BP : BuildProfile} `{PL : PlistLib}.

(** [sum()] on [u64] *)
Fixpoint sum_w (l : list Z) (acc : Z) : outcome anyhow Z :=
  match l with
  | [] => Ok acc
  | n :: l => let? acc := add_w 64 acc n in sum_w l acc
  end.
Definition memory_line (snap : Snapshot) (bar_w : Z) : outcome anyhow (list byte) :=
  if 0 <? phys_mem snap then
    let? used := (if 0 <? mem_used snap then Ok (mem_used snap) else sum_w (phys <$> processes snap) 0) in
    let mem_pc := percent (Float.F64.mul (Float.F64.div (Float.F64.of_Z used) (Float.F64.of_Z (phys_mem snap)))
                             hundred) in
    Ok (line (bytes_of "MEM: " ++ bar_of bar_w mem_pc ++ bytes_of (fmt_bytes used) ++ bytes_of " / "
              ++ bytes_of (fmt_bytes (phys_mem snap))))
  else Ok [].
(** A name that is too long is cut, at a byte of it. *)
Definition short_name (name_w : nat) (name : string) : outcome anyhow string :=
  if (name_w <? length (bytes_of name))%nat then
    let? cut := RpCredentials.str_slice (bytes_of name) 0 (name_w - 1) in
    Ok (string_of (cut ++ bytes_of "…"))
  else Ok name.
Definition htop_row (name_w : nat) (pid name cpu mem virt : string) : list byte :=
  bytes_of " " ++ bytes_of (pad_left 6 pid) ++ bytes_of "  " ++ bytes_of (OsLog.pad_right name_w name)
  ++ bytes_of "  " ++ bytes_of cpu ++ bytes_of "  " ++ bytes_of (pad_left 8 mem) ++ bytes_of "  "
  ++ bytes_of (pad_left 8 virt).
Definition proc_row (name_w : nat) (p : ProcSnap) : outcome anyhow (list byte) :=
  let? name := short_name name_w (name p) in
  let load := string_of (Float.F64.fixed 1 (Float.F64.mul (cpu p) hundred)) in
  Ok (line (htop_row name_w (string_of (dec (pid p))) name (pad_left 5 load ++ "%")
              (fmt_bytes (phys p)) (fmt_bytes (virt p)))).
Fixpoint rows_of (name_w : nat) (l : list ProcSnap) : outcome anyhow (list byte) :=
  match l with
  | [] => Ok []
  | p :: l => let? row := proc_row name_w p in let? more := rows_of name_w l in Ok (row ++ more)
  end.
Definition clear_screen : list byte := esc "[H" ++ esc "[2J".
Definition print_htop (snap : Snapshot) (cols rows : Z) : outcome anyhow (list byte) :=
  let bar_w := Z.min (saturating_sub cols 20) 40 in
  let cpu_pc := percent (cpu_total snap) in
  let name_w := Z.to_nat (Z.min 28 (Z.max 10 (saturating_sub cols 42))) in
  let shown := Z.to_nat (Z.max 1 (saturating_sub rows 7)) in
  let? mem := memory_line snap bar_w in
  let? procs := rows_of name_w (take shown (processes snap)) in
  Ok (clear_screen ++ esc "[1miOS Performance Monitor  [" ++ time_text (ts snap) ++ bytes_of "]"
      ++ line (esc "[0m")
      ++ line (bytes_of "CPU: " ++ bar_of bar_w cpu_pc
               ++ bytes_of (pad_left 5 (string_of (Float.F64.fixed 1 cpu_pc))) ++ bytes_of "%")
      ++ mem
      ++ x0a :: esc "[7m" ++ htop_row name_w "PID" "Name" (pad_left 6 "CPU%") "MEM" "VIRT" ++ line (esc "[0m")
      ++ procs).
Definition print_status (msg : list byte) : list byte :=
  clear_screen ++ esc "[1miOS Performance Monitor" ++ line (esc "[0m") ++ line msg.

Definition json_object (l : list (list byte)) : list byte := bytes_of "{" ++ join (bytes_of ",") l ++ bytes_of "}".
Definition process_json (p : ProcSnap) : list byte :=
  json_object [OsLog.json_field "pid" (dec (pid p)); OsLog.json_field "name" (OsLog.json_str (name p));
               OsLog.json_field "cpu_pct" (Float.F64.fixed 2 (Float.F64.mul (cpu p) hundred));
               OsLog.json_field "mem_bytes" (dec (phys p)); OsLog.json_field "virt_bytes" (dec (virt p))].
Definition print_json (snap : Snapshot) : list byte :=
  line (json_object [
    OsLog.json_field "ts" (dec (ts snap));
    OsLog.json_field "cpu_total_pct" (Float.F64.fixed 2 (cpu_total snap));
    OsLog.json_field "phys_mem_bytes" (dec (phys_mem snap));
    OsLog.json_field "mem_used_bytes" (dec (mem_used snap));
    OsLog.json_field "processes" (bytes_of "[" ++ join (bytes_of ",") (process_json <$> processes snap)
                                  ++ bytes_of "]")]).
End printing.

(** ** The command *)
Section command.
Context `{BP : BuildProfile} `{PL : PlistLib} `{T : Lockdown.Tls} `{SJ : CdTunnel.SerdeJson}
  {W : Type} `{OS : Os W} `{TS : TunnelStack W} `{Y : Sys W}
  `{C : Launch.WallClock W} `{TM : Terminal}.
Context (schedule : ∀ A, client W A → list thread) (depth turns : nat).
Context (sort_unordered : list ProcSnap → outcome anyhow (list ProcSnap)).

(** Without the path of services the hub is asked for through lockdown first. *)
Definition connect_hub : ST (W * DeviceSession) anyhow DtxConn :=
  let! ws := sget in
  let! direct := (if DeviceSession.ds_is_rsd ws.2 then sret None
                  else
                    let! r := stry (Cli.on_lockdown (Lockdown.connect_service HUB)) in
                    sret (match r with inr socket => Some socket | inl _ => None end)) in
  match direct with
  | Some socket =>
      let! r := lift (omap_err (λ e, [Msg "clone: {e}" [FStr (what e)]]) (try_clone socket)) in
      sret (new_conn (mux_stream r) (mux_stream socket))
  | None => Instruments.connect_hub DEVELOPER_MODE
  end.
(** [{e}] of an [anyhow] error: its first message *)
Definition anyhow_fmt (e : anyhow) : Prelude.message := default (msg0 "") (head e).
Definition sample_once (config : list byte) : ST (W * DeviceSession) anyhow Snapshot :=
  let! conn := smap_err (λ e, [Msg "connect: {e}" [FDisplay (anyhow_fmt e)]]) connect_hub in
  on_outer (dialog (schedule Snapshot) conn (sample_program depth sort_unordered turns config)).

Definition delay_ms (failures : Z) : Z := 500 * 2 ^ Z.min failures 4.
(** The session, the failures in a row, and what has been printed *)
Abbreviation monitor := ((W * DeviceSession) * (Z * list byte))%type.
Definition set_monitor {S} (failures : Z) (text : list byte) : ST (S * (Z * list byte)) anyhow unit :=
  smodify (λ st, (st.1, (failures, st.2.2 ++ text))).
Definition status_text (e : anyhow) : list byte :=
  print_status (bytes_of "reconnecting… (" ++ bytes_of (to_string (anyhow_fmt e)) ++ bytes_of ")").
(** One turn of the loop *)
Definition perf_turn (json : bool) (cols rows : Z) (config : list byte) : ST monitor anyhow unit :=
  let! st := sget in
  let failures := st.2.1 in
  (if 0 <? failures then on_outer (on_outer (smodify (sleep_ns (delay_ms failures * 1000000)))) else sret tt) ;;;
  let! r := stry (F:=anyhow) (on_outer (sample_once config)) in
  match r with
  | inr snap =>
      let! text := lift (if json then Ok (print_json snap) else print_htop snap cols rows) in
      set_monitor 0 text
  | inl e =>
      let! failures := lift (add_w 32 failures 1) in
      set_monitor failures (if json then [] else status_text e)
  end.
(** The first turns of the loop, which has no end *)
Fixpoint perf_turns (n : nat) (json : bool) (cols rows : Z) (config : list byte) : ST monitor anyhow unit :=
  match n with
  | O => sret tt
  | S n => perf_turn json cols rows config ;;; perf_turns n json cols rows config
  end.

Definition term_size : Z * Z :=
  let read k n := default n (getenv k ≫= parse_uint 64) in (read "COLUMNS"%string 80, read "LINES"%string 24).
Definition hide_cursor : list byte := esc "[?25l".
Definition perf_run (n : nat) (udid : option string) (output : OutputMode) (interval_ms : Z) :
    ST W anyhow (list byte) :=
  let json_mode := is_json output in
  Cli.with_session udid RsdMode (
    let '(cols, rows) := term_size in
    let! config := lift (Archive.build_config interval_ms Archive.FALLBACK_PROC_ATTRS Archive.FALLBACK_SYS_ATTRS) in
    let! (_, st) := (λ ws, let '(r, st) := perf_turns n json_mode cols rows config
                                            (ws, (0, if json_mode then [] else hide_cursor)) in
                           (let? u := r in Ok (u, st), st.1)) in
    sret st.2.2).
End command.

(** ** A sample

    What a sample has asked for, and where it comes from. *)
Section sample.
Context `{BP : BuildProfile} `{PL : PlistLib} `{TM : Terminal} (depth : nat)
  (sort_unordered : list ProcSnap → outcome anyhow (list ProcSnap)) {rx : stream}.

Abbreviation extract := (extract_snapshot depth sort_unordered).
Definition async (ch : Z) (sel : string) (aux : list AuxValue) : request := (KAsync, ch, sel, aux).

Lemma runs_stop {A} t n tap (a : A) rs n' r :
  runs rx t n (stop_with tap r) rs n' (Return (Ok a)) → rs = [async tap "stop" []] ∧ r = Ok a.
Proof.
  unfold stop_with. intros (rs' & -> & Hr)%runs_ignored.
  pose proof (runs_return_nil _ _ _ _ _ _ Hr) as ->. by apply runs_return in Hr as ->.
Qed.

Lemma sample_loop_returns turns tap t n rs n' snap :
  runs rx t n (sample_loop depth sort_unordered turns tap) rs n' (Return (Ok snap)) →
  rs = [async tap "stop" []] ∧ ∃ msg f time, extract msg = Ok (Some f) ∧ snap = f time.
Proof.
  revert t n rs. induction turns as [|turns IH]; intros t n rs Hr; cbn [sample_loop] in Hr.
  all: apply runs_quiet in Hr as (p1 & Ht & Hr); [|done]; inversion Ht; subst; clear Ht.
  all: destruct b; [by apply runs_stop in Hr as [_ [=]]|].
  all: apply runs_quiet in Hr as (p2 & Ht & Hr); [|done]; inversion Ht as [| | | | |k0 o| | | |]; subst; clear Ht.
  all: destruct o as [msg|]; [|by apply runs_stop in Hr as [_ [=]]].
  all: set (rest := match extract msg with Ok _ => _ | _ => _ end) in Hr;
    assert (runs rx t n rest rs n' (Return (Ok snap))) as Hrest;
    [destruct (expects_reply msg); [|done]; apply runs_quiet in Hr as (p3 & Ht & Hr); [|done];
     inversion Ht; subst; [done|by apply runs_return in Hr]|].
  all: subst rest; clear Hr; destruct (extract msg) as [[f|]| | |] eqn:Ex; try by apply runs_return in Hrest.
  - apply runs_quiet in Hrest as (p4 & Ht & Hr); [|done]. inversion Ht; subst.
    apply runs_stop in Hr as [-> [= <-]]. split; [done|by exists msg, f, z].
  - apply runs_quiet in Hrest as (p4 & Ht & Hr); [|done]. inversion Ht; subst.
    apply runs_stop in Hr as [-> [= <-]]. split; [done|by exists msg, f, z].
  - by eapply IH.
Qed.

Lemma tap_program_returns turns config t n rs n' snap :
  n < 100 →
  runs rx t n (tap_program depth sort_unordered turns config) rs n' (Return (Ok snap)) →
  rs = [Xctest.channel_req n SYSMONTAP; async n "setConfig:" [ABytes config]; async n "start" [];
        async n "stop" []] ∧
  ∃ msg f time, extract msg = Ok (Some f) ∧ snap = f time.
Proof.
  intros Hn (r & rs1 & [_ Hch] & -> & Hr)%runs_attempt. specialize (Hch _ eq_refl) as ->.
  cbv zeta in Hr. cbn [Xctest.ret_channel] in Hr.
  apply runs_quiet in Hr as (p1 & Ht & Hr); [|done]. inversion Ht; subst; clear Ht.
  destruct (_ && _); [by apply runs_return in Hr|].
  apply runs_quiet in Hr as (p2 & Ht & Hr); [|done]. inversion Ht; subst; clear Ht.
  apply runs_quiet in Hr as (p3 & Ht & Hr); [|done]. inversion Ht; subst; clear Ht.
  apply runs_attempt in Hr as (r1 & rs2 & _ & -> & Hr). apply runs_attempt in Hr as (r2 & rs3 & _ & -> & Hr).
  apply sample_loop_returns in Hr as [-> Hm]. split; [done|exact Hm].
Qed.

(** A sample is what a message of the device means, at the time of the clock.
    Until then the device has been told to send samples with the configuration,
    and before the command goes on it has been told to stop. *)
Lemma sample_program_returns turns config rs n' snap :
  runs rx 0 1 (sample_program depth sort_unordered turns config) rs n' (Return (Ok snap)) →
  (∃ before, rs = before ++ [Xctest.channel_req 2 SYSMONTAP; async 2 "setConfig:" [ABytes config];
                             async 2 "start" []; async 2 "stop" []]) ∧
  ∃ msg f time, extract msg = Ok (Some f) ∧ snap = f time.
Proof.
  unfold sample_program. intros (r & rs1 & _ & -> & Hr)%runs_attempt.
  inversion Hr as [|rs2 n2 p2 rs3 n3 p3 Ht Hr2]; subst. clear Hr.
  inversion Ht as [s0 k0 r0 _|s0 k0 n0 r0 [->| ->]|s0 k0 r0 [->| ->]| | | | | | |]; subst; clear Ht;
    try by apply runs_return in Hr2.
  destruct r0 as [e|r0].
  - apply tap_program_returns in Hr2 as [-> Hm]; [|vm_compute; done]. split; [|exact Hm].
    by eexists [_; _].
  - cbv zeta in Hr2. apply runs_ignored in Hr2 as (rs4 & -> & Hr). apply runs_ignored in Hr as (rs5 & -> & Hr).
    apply tap_program_returns in Hr as [-> Hm]; [|vm_compute; done]. split; [|exact Hm].
    by eexists [_; _; _; _].
Qed.

Lemma sample_dialog {W : Type} `{C : Launch.WallClock W} sched turns config tx (w : W) snap w' :
  dialog sched (new_conn rx tx) (sample_program depth sort_unordered turns config) w = (Ok snap, w') →
  ∃ msg f time, extract msg = Ok (Some f) ∧ snap = f time.
Proof. intros (rs & n & Hr)%dialog_runs. by apply sample_program_returns in Hr as [_ Hm]. Qed.
End sample.

(** ** The wait after failures *)

Lemma delay_ms_bounds n : 0 < n → 1000 ≤ delay_ms n ≤ 8000.
Proof.
  intros Hn. unfold delay_ms. assert (Z.min n 4 = 1 ∨ Z.min n 4 = 2 ∨ Z.min n 4 = 3 ∨ Z.min n 4 = 4) as Hm by lia.
  destruct Hm as [->|[->|[->| ->]]]; lia.
Qed.

(** ** Names

    A name that fits its column is left as it is; a longer one is cut to it, if
    the cut is at the end of a character, and ends the command if not. *)
Lemma short_name_result w s :
  (1 ≤ w)%nat → RpCredentials.is_char_boundary (bytes_of s) 0 = true →
  short_name w s =
    if (length (bytes_of s) <=? w)%nat then Ok s
    else if RpCredentials.is_char_boundary (bytes_of s) (w - 1)
         then Ok (string_of (take (w - 1) (bytes_of s) ++ bytes_of "…")) else Panic.
Proof.
  intros Hw H0. unfold short_name, RpCredentials.str_slice.
  destruct (Nat.ltb_spec w (length (bytes_of s))), (Nat.leb_spec (length (bytes_of s)) w); try lia; [|done].
  rewrite (proj2 (Nat.leb_le (w - 1) (length (bytes_of s)))) by lia. rewrite andb_true_r.
  rewrite H0. cbn [andb].
  destruct (RpCredentials.is_char_boundary (bytes_of s) (w - 1)); [|done].
  cbn [obind].
  by rewrite Nat.sub_0_r.
Qed.

(** Two processes of a device that does not report the virtual size, so that the
    first column, the number of the process, is taken for it. *)
Definition sample_schema : list pval := PString <$> ["pid"; "name"; "cpuUsage"; "physFootprint"]%string.
Definition sample_value : pval := PDict [
  "SystemCPUUsage" =>> PDict ["CPU_TotalLoad" =>> PReal 0x4049000000000000];
  "SystemAttributes" =>> PArray (PString <$> ["vmUsedCount"; "physMemSize"]%string);
  "System" =>> PArray [PInt 65536; PInt 262144];
  "ProcessesAttributes" =>> PArray sample_schema;
  "Processes" =>> PDict [
    "1" =>> PArray [PInt 1; PString "launchd"; PReal 0x3fc0000000000000; PInt 3145728];
    "7" =>> PArray [PInt 7; PString "backboardd"; PInt 2; PInt 1500000000]]].
Definition sample_terminal : Terminal := {|
  is_terminal := true; table_text _ _ := []; debug_date _ := ""%string; debug_plist _ := ""%string |}.
Definition sample_of (v : pval) : outcome anyhow Snapshot :=
  let? f := try_parse_snapshot (BP:=debug_profile) (λ l, Ok l) v in
  match f with Some f => Ok (f 45296) | None => Err [] end.
Example sample_json :
  (let? s := sample_of sample_value in Ok (print_json s)) =
    Ok (line (bytes_of "{" ++ join (bytes_of ",") [
      OsLog.json_field "ts" (bytes_of "45296"); OsLog.json_field "cpu_total_pct" (bytes_of "50.00");
      OsLog.json_field "phys_mem_bytes" (bytes_of "4294967296");
      OsLog.json_field "mem_used_bytes" (bytes_of "1073741824");
      OsLog.json_field "processes" (bytes_of "[" ++ join (bytes_of ",") [
        json_object [OsLog.json_field "pid" (bytes_of "7"); OsLog.json_field "name" (OsLog.json_str "backboardd");
                     OsLog.json_field "cpu_pct" (bytes_of "200.00");
                     OsLog.json_field "mem_bytes" (bytes_of "1500000000"); OsLog.json_field "virt_bytes" (bytes_of "7")];
        json_object [OsLog.json_field "pid" (bytes_of "1"); OsLog.json_field "name" (OsLog.json_str "launchd");
                     OsLog.json_field "cpu_pct" (bytes_of "12.50");
                     OsLog.json_field "mem_bytes" (bytes_of "3145728"); OsLog.json_field "virt_bytes" (bytes_of "1")]]
        ++ bytes_of "]")] ++ bytes_of "}")).
Proof. vm_compute. reflexivity. Qed.
Example sample_row :
  (let? s := sample_of sample_value in rows_of 10 (processes s)) =
    Ok (line (bytes_of "      7  backboardd  200.0%      1.4G        7B")
        ++ line (bytes_of "      1  launchd      12.5%        3M        1B")).
Proof. vm_compute. reflexivity. Qed.
Example sample_bar : bar_of 10 (percent (Float.F64.of_Z 37)) = bytes_of "[███░░░░░░░] ".
Proof. vm_compute. reflexivity. Qed.
Example sample_time : time_text (86400 + 45296) = bytes_of "12:34:56".
Proof. vm_compute. reflexivity. Qed.
(** The cut is inside the letter. *)
Example name_cut_panics : short_name 10 "aaaaaaaaéxx" = Panic.
Proof. vm_compute. reflexivity. Qed.
(** The number of pages times their size is too large. *)
Example memory_overflow :
  memory (BP:=debug_profile) ["SystemAttributes" =>> PArray [PString "physMemSize"];
                              "System" =>> PArray [PInt (2 ^ 50)]] = Panic.
Proof. vm_compute. reflexivity. Qed.
