(* ===== verification/Results.v ===== *)
(** * What provisioning, the disk image and the tunnel commands print

    The texts and documents of the commands in [src/bin/ios/cmd/pair.rs],
    [setup.rs], [activate.rs], [mounter.rs] and [tunnel.rs], whose work is in
    [Provision], [Mounter] and [Daemon]. *)

From S2P Require Import Prelude RustStd Text Io Plist Json Os Version CdTunnel Tunnel Output.
From S2P Require Lockdown DeviceSession Daemon RpCredentials Pairing Launch Provision Mounter Commands.

(** A command that ends with a message: in a document, or as a line of its own *)
Definition conclude `{Terminal} `{JsonLib} (output : OutputMode) (msg text : string) : outcome anyhow (list byte) :=
  report output (action_json (with_msg msg)) (println text).

Section provision.
Context `{BP : BuildProfile} `{PL : PlistLib} `{T : Lockdown.Tls} `{SJ : CdTunnel.SerdeJson}
  {W : Type} `{OS : Os W} `{TS : TunnelStack W} `{Y : Sys W} `{FS : RpCredentials.Files W}
  `{PE : Pairing.PairingEnv W} `{C : Launch.WallClock W} `{WB : Provision.Web W} `{TM : Terminal} `{J : JsonLib}.
(** [{:?}] of a text *)
Context (debug_str : string → string).

(** ** [pair.rs] *)

Definition export_json (path : string) : jval := JObject ["ok" =:> JBool true; "path" =:> JString path].
Definition pair_export (udid path : option string) (output : OutputMode) : ST W anyhow (list byte) :=
  let! out_path := Provision.export udid path in
  lift (report output (export_json out_path) (println ("pair record saved to " ++ out_path))).
Definition pair_import (udid : option string) (path : string) (output : OutputMode) : ST W anyhow (list byte) :=
  Provision.import udid path ;;;
  let msg := ("pair record imported from " ++ path)%string in lift (conclude output msg msg).
Definition paired (output : OutputMode) (supervised : bool) : outcome anyhow (list byte) :=
  if supervised then
    conclude output "supervised pair complete" "supervised pair complete — pair record saved to usbmuxd"
  else conclude output "paired successfully" "paired successfully — pair record saved to usbmuxd".
Definition pair_run (udid supervision_cert supervision_key : option string) (output : OutputMode) :
    ST W anyhow (list byte) :=
  Provision.pair udid supervision_cert supervision_key ;;;
  lift (paired output (match supervision_cert with Some _ => true | None => false end)).
Definition unpair_run (udid : option string) (output : OutputMode) : ST W anyhow (list byte) :=
  Provision.unpair udid ;;;
  lift (conclude output "unpaired" "unpaired — pair record deleted").

(** ** [setup.rs] *)

Definition setup_json (s : Provision.SetupStatus) : jval :=
  JObject ["supervised" =:> JBool (Provision.supervised s); "organization" =:> jopt (Provision.organization s);
           "complete" =:> JBool (Provision.complete s)].
Definition setup_text (s : Provision.SetupStatus) : list byte :=
  println ("supervised:    " ++ Commands.show_bool (Provision.supervised s))
  ++ match Provision.organization s with Some name => println ("organization:  " ++ name) | None => [] end
  ++ println ("setup complete: " ++ Commands.show_bool (Provision.complete s)).
Definition setup_status_run (udid : option string) (mode : ConnectionMode) (output : OutputMode) :
    ST W anyhow (list byte) :=
  let! s := Provision.setup_status udid mode in lift (report output (setup_json s) (setup_text s)).
Definition setup_skip (udid : option string) (mode : ConnectionMode) (output : OutputMode) :
    ST W anyhow (list byte) :=
  Provision.skip udid mode ;;;
  lift (conclude output "Setup Assistant skipped"
          "Setup Assistant skipped — device will proceed past first-run screens").
Definition setup_enroll (udid : option string) (mode : ConnectionMode) (org cert_path key_path : string)
    (output : OutputMode) : ST W anyhow (list byte) :=
  Provision.enroll udid mode org cert_path key_path ;;;
  let msg := ("supervised enrollment complete — org=" ++ debug_str org)%string in
  lift (conclude output msg msg).

(** ** [activate.rs] *)

Definition activate_run (udid : option string) (mode : ConnectionMode) (output : OutputMode) :
    ST W anyhow (list byte) :=
  let! activated := Provision.activate udid mode in
  let msg := if (activated : bool) then "device activated successfully"%string
             else "device is already activated"%string in
  lift (conclude output msg msg).
Definition deactivate_run (udid : option string) (mode : ConnectionMode) (output : OutputMode) :
    ST W anyhow (list byte) :=
  Provision.deactivate udid mode ;;;
  lift (conclude output "device deactivated" "device deactivated").
End provision.

(** ** [mounter.rs] *)
Section mounter.
Context `{BP : BuildProfile} `{PL : PlistLib} `{T : Lockdown.Tls} `{SJ : CdTunnel.SerdeJson}
  {W : Type} `{OS : Os W} `{TS : TunnelStack W} `{Y : Sys W} `{FS : RpCredentials.Files W}
  `{ME : Mounter.MountEnv W} `{TM : Terminal} `{J : JsonLib}.
Context (macos : bool).

(** An image that is there already is not reported, in either form. *)
Definition mount_run (udid : option string) (output : OutputMode) : ST W anyhow (list byte) :=
  let! (mounted, _) := Mounter.mount macos udid in
  lift (if (mounted : bool) then report output (action_json (with_msg "mounted")) [] else Ok []).

Definition image_line (a : string * bool) : list byte :=
  println ("Developer disk image (" ++ a.1 ++ "): " ++ (if a.2 then "mounted" else "not mounted")).
Definition mounter_json (mounted : bool) : jval := JObject ["mounted" =:> JBool mounted].
Definition mounter_status (udid : option string) (output : OutputMode) : ST W anyhow (list byte) :=
  let! answers := Mounter.status udid in
  lift (report output (mounter_json (existsb snd answers)) (concat (image_line <$> answers))).
End mounter.

(** ** [tunnel.rs] *)
Section tunnel.
Context `{BP : BuildProfile} `{PL : PlistLib} {W : Type} `{OS : Os W} `{Y : Sys W} `{TM : Terminal} `{J : JsonLib}.

Definition at_socket (t : string) : string := t ++ "  socket=" ++ DeviceSession.DAEMON_SOCKET.
Definition tunnel_start (output : OutputMode) : ST W anyhow (list byte) :=
  let! already := Daemon.dm_start in
  let msg := if (already : bool) then "daemon already running"%string else "daemon started"%string in
  lift (conclude output msg (at_socket msg)).
Definition tunnel_stop (output : OutputMode) : ST W anyhow (list byte) :=
  Daemon.dm_stop ;;; lift (conclude output "daemon stopped" "daemon stopped").

Definition tunnel_json (e : string * Z) : jval := JObject ["udid" =:> JString e.1; "services" =:> JInt e.2].
Definition tunnel_line (e : string * Z) : list byte :=
  line (bytes_of e.1 ++ bytes_of "  (" ++ dec e.2 ++ bytes_of " services)").
Definition tunnels_text (devices : list pval) : list byte :=
  match devices with
  | [] => println "no active tunnels"
  | _ => concat (tunnel_line <$> omap Daemon.list_entry devices)
  end.
Definition tunnel_list (output : OutputMode) : ST W anyhow (list byte) :=
  let! devices := Daemon.dm_devices in
  lift (report output (JArray (tunnel_json <$> omap Daemon.list_entry devices)) (tunnels_text devices)).
End tunnel.

(** ** What the daemon answers is what is printed

    A line for every tunnel of the map with the number of its services, or one that
    says there is none. *)
Section listed.
Context `{BP : BuildProfile} `{PL : PlistLib} `{T : Lockdown.Tls} `{SJ : CdTunnel.SerdeJson}
  {W : Type} `{OS : Os W} `{FS : RpCredentials.Files W} `{TS : TunnelStack W} `{Y : Sys W}.

Lemma tunnels_printed (st : Daemon.State (W:=W)) :
  Forall (λ kv, lenZ (Daemon.dt_services kv.2) < 2 ^ 63) st →
  tunnels_text (Daemon.listed_devices st) =
    match st with
    | [] => println "no active tunnels"
    | _ => concat ((λ kv, tunnel_line (kv.1, lenZ (Daemon.dt_services kv.2))) <$> st)
    end.
Proof.
  intros Hst. pose proof (Daemon.list_entries_response st Hst) as He.
  destruct st as [|kv st]; [done|]. unfold tunnels_text.
  change (Daemon.listed_devices (kv :: st)) with
    (PDict (dict ["UDID"%string =>> PString kv.1;
       "Services"%string =>> PInt (swrap 64 (lenZ (Daemon.dt_services kv.2)))]) :: Daemon.listed_devices st) in *.
  by rewrite He, <-list_fmap_compose.
Qed.
End listed.
