(* ===== verification/Main.v ===== *)
(** * The command line ([src/bin/ios/main.rs])

    The commands with their arguments, as the parser leaves them, and which
    function each of them runs.  A command runs in a world with its standard
    output. *)

From S2P Require Import Prelude RustStd Text Io Plist Json Os Version CdTunnel Tunnel Output Launch.
From S2P Require Lockdown DeviceSession Daemon Cli RpCredentials Afc OsLog Pairing Mounter Provision FileCmd.
From S2P Require Commands Apps Dialog Instruments Perf Results.

(** ** Commands and their arguments *)

Inductive TunnelAction : Type :=
  | TunnelAction_Start
  | TunnelAction_Stop
  | TunnelAction_List
  | TunnelAction_Daemon.
Inductive CrashAction : Type :=
  | CrashAction_Ls (long : bool) (udid : option string)
  | CrashAction_Pull (name : string) (local udid : option string)
  | CrashAction_Rm (name : string) (udid : option string).
(** The coordinates are the bits of floating-point numbers. *)
Inductive LocationAction : Type :=
  | LocationAction_Set (lat lon : Z) (udid : option string)
  | LocationAction_Clear (udid : option string).
Inductive NotificationAction : Type :=
  | NotificationAction_Post (name : string) (udid : option string)
  | NotificationAction_Observe (name udid : option string).
Inductive DevmodeAction : Type :=
  | DevmodeAction_Status (udid : option string)
  | DevmodeAction_Enable (udid : option string).
Inductive WifiAction : Type :=
  | WifiAction_Status (udid : option string)
  | WifiAction_On (udid : option string)
  | WifiAction_Off (udid : option string).
Inductive SetupAction : Type :=
  | SetupAction_Status (udid : option string)
  | SetupAction_Skip (udid : option string)
  | SetupAction_Enroll (org supervision_cert supervision_key : string) (udid : option string).
Inductive DiagnosticsAction : Type :=
  | DiagnosticsAction_Battery (udid : option string)
  | DiagnosticsAction_All (udid : option string).
Inductive AfcAction : Type :=
  | AfcAction_Ls (long : bool) (path : string) (app udid : option string)
  | AfcAction_Stat (path : string) (app udid : option string)
  | AfcAction_Info (app udid : option string)
  | AfcAction_Pull (remote local : string) (app udid : option string)
  | AfcAction_Push (local remote : string) (app udid : option string)
  | AfcAction_Rm (path : string) (app udid : option string)
  | AfcAction_Mkdir (path : string) (app udid : option string)
  | AfcAction_Mv (from to : string) (app udid : option string).
Inductive MounterAction : Type :=
  | MounterAction_Mount (udid : option string)
  | MounterAction_Status (udid : option string).
Inductive AppsAction : Type :=
  | AppsAction_List (udid : option string) (system all : bool)
  | AppsAction_Install (ipa : string) (udid : option string)
  | AppsAction_Uninstall (bundle_id : string) (udid : option string)
  | AppsAction_Launch (bundle_id : string) (terminate_existing : bool) (udid : option string)
  | AppsAction_Kill (pid : Z) (udid : option string).
Inductive OrientationAction : Type :=
  | OrientationAction_Get (udid : option string)
  | OrientationAction_Set (direction : string) (bundle_id : option string)
      (runner_bundle_id xctest_config : string) (udid : option string).

Inductive Cmd : Type :=
  | Cmd_Devices
  | Cmd_Info (udid : option string)
  | Cmd_Services (udid : option string)
  | Cmd_Relay (port listen : Z) (udid : option string)
  | Cmd_Watch
  | Cmd_Screenshot (path : string) (udid : option string)
  | Cmd_Reboot (udid : option string)
  | Cmd_Shutdown (udid : option string)
  | Cmd_Diagnostics (action : DiagnosticsAction)
  | Cmd_Syslog (process filter output_file udid : option string)
  | Cmd_Crash (action : CrashAction)
  | Cmd_Notification (action : NotificationAction)
  | Cmd_Ps (udid : option string)
  | Cmd_Location (action : LocationAction)
  | Cmd_Oslog (process level udid : option string)
  | Cmd_Deviceip (udid : option string)
  | Cmd_Pair (supervision_cert supervision_key udid : option string)
  | Cmd_Unpair (udid : option string)
  | Cmd_PairExport (path udid : option string)
  | Cmd_PairImport (path : string) (udid : option string)
  | Cmd_Devmode (action : DevmodeAction)
  | Cmd_Erase (yes : bool) (udid : option string)
  | Cmd_Wifi (action : WifiAction)
  | Cmd_Mobilegestalt (key : string) (udid : option string)
  | Cmd_Activate (udid : option string)
  | Cmd_Deactivate (udid : option string)
  | Cmd_Setup (action : SetupAction)
  | Cmd_Devicename (name udid : option string)
  | Cmd_Version (udid : option string)
  | Cmd_Afc (action : AfcAction)
  | Cmd_Apps (action : AppsAction)
  | Cmd_Orientation (action : OrientationAction)
  | Cmd_Lang (set_lang set_locale udid : option string)
  | Cmd_Date (timezone : option string) (sync : bool) (udid : option string)
  | Cmd_Rsd (udid : option string)
  | Cmd_Tunnel (action : TunnelAction)
  | Cmd_Mounter (action : MounterAction)
  | Cmd_Perf (interval : Z) (udid : option string)
  | Cmd_Runtest (bundle_id : option string) (test_runner_bundle_id xctest_config : string)
      (tests_to_run tests_to_skip : list string) (xctest : bool) (env : list string) (udid : option string)
  | Cmd_Runwda (bundle_id test_runner_bundle_id xctest_config : string) (udid : option string).

Record Cli : Type := MkCli { legacy : bool; output : OutputMode; command : Cmd }.

(** ** Running a command

    The state is the world and the standard output. *)
Section main.
Context `{HO : HashOrder} `{BP : BuildProfile} `{PL : PlistLib} `{T : Lockdown.Tls} `{SJ : CdTunnel.SerdeJson}
  {W : Type} `{OS : Os W} `{TS : TunnelStack W} `{Y : Sys W} `{LF : Afc.LocalFs W} `{FS : RpCredentials.Files W}
  `{C : WallClock W} `{PE : Pairing.PairingEnv W} `{WB : Provision.Web W} `{ME : Mounter.MountEnv W}
  `{TM : Terminal} `{J : JsonLib}.
(** The order in which the threads of test runs and of the clients of the
    instruments get their turns; the depth of archives; the turns of the monitor
    and of its wait for a sample *)
Context (tests : Apps.schedule (W:=W)) (dialogs : ∀ A, Dialog.client W A → list Dialog.thread) (depth turns : nat)
  (sort_unordered : list Perf.ProcSnap → outcome anyhow (list Perf.ProcSnap)).
(** Texts of the standard library *)
Context (to_lowercase debug_str : string → string) (ipv6_text : list Z → string).
(** The line on standard input, the files that are created, standard error; what
    the relay and the daemon accept *)
Context (answer : ST W io_error string) (create_file : string → ST W io_error stream) (stderr : stream)
  (incoming : list (io_error + stream)) (unix_bind : ST W io_error unit)
  (clients : Daemon.daemon (W:=W) → list Daemon.action) (macos : bool).

Abbreviation run := (ST (W * stream) anyhow unit).
(** [println!], which panics when standard output does not take the text *)
Definition put (l : list byte) : run := on_local (λ out,
  match write_all l out with (Ok _, out) => (Ok tt, out) | (_, out) => (Panic, out) end).
(** A command that ends with what it prints *)
Definition shows (m : ST W anyhow (list byte)) : run := let! l := on_outer m in put l.
(** A command that writes to standard output itself *)
Definition writes (m : stream → ST W anyhow stream) : run :=
  let! st := sget in
  let! out := on_outer (m st.2) in
  on_local (smodify (λ _, out)).
(** [watch]: what is printed before the error that ends it *)
Definition watches (m : ST (W * list byte) anyhow unit) : run := λ st,
  let '(r, (w, l)) := m (st.1, []) in
  match put l (w, st.2) with
  | (Ok _, st) => (r, st)
  | (_, st) => (Panic, st)
  end.

Section dispatch.
Context (mode : ConnectionMode) (output : OutputMode).

Definition run_diagnostics (action : DiagnosticsAction) : run :=
  match action with
  | DiagnosticsAction_Battery udid => shows (Commands.battery udid mode output)
  | DiagnosticsAction_All udid => shows (Commands.diagnostics_all udid mode output)
  end.
(** The picture itself on standard output, or the report of its file *)
Definition run_screenshot (path : string) (udid : option string) : run :=
  let m := Instruments.screenshot_run dialogs depth udid mode path output in
  if bool_decide (path = "-"%string) then
    let! png := on_outer m in
    Cli.context "write PNG to stdout" (on_local (Daemon.any_io (write_all png)))
  else shows m.
(** The log goes to a file when there is one. *)
Definition run_syslog (process filter output_file udid : option string) : run :=
  match output_file with
  | Some path =>
      let! _ := on_outer (Commands.syslog_run to_lowercase udid mode process filter output
                 (Daemon.ctx (Msg "create {path}" [FStr path]) Daemon.io_fmt (create_file path))) in
      sret tt
  | None => writes (λ out, Commands.syslog_run to_lowercase udid mode process filter output (sret out))
  end.
Definition run_crash (action : CrashAction) : run :=
  match action with
  | CrashAction_Ls long udid => shows (FileCmd.crash_ls udid mode long output)
  | CrashAction_Pull name local udid => shows (FileCmd.crash_pull udid mode name local output)
  | CrashAction_Rm name udid => shows (FileCmd.crash_rm udid mode name output)
  end.
Definition run_notification (action : NotificationAction) : run :=
  match action with
  | NotificationAction_Post name udid => shows (Commands.notification_post udid mode name output)
  | NotificationAction_Observe name udid => shows (Commands.notification_observe udid mode name output)
  end.
Definition run_location (action : LocationAction) : run :=
  match action with
  | LocationAction_Set lat lon udid => shows (Instruments.location_set dialogs udid lat lon output)
  | LocationAction_Clear udid => shows (Instruments.location_clear dialogs udid output)
  end.
Definition run_devmode (action : DevmodeAction) : run :=
  match action with
  | DevmodeAction_Status udid => shows (Commands.devmode_status udid mode output)
  | DevmodeAction_Enable udid => shows (Commands.devmode_enable udid mode output)
  end.
Definition run_wifi (action : WifiAction) : run :=
  match action with
  | WifiAction_Status udid => shows (Commands.wifi_status udid mode output)
  | WifiAction_On udid => shows (Commands.wifi_set udid mode true output)
  | WifiAction_Off udid => shows (Commands.wifi_set udid mode false output)
  end.
Definition run_setup (action : SetupAction) : run :=
  match action with
  | SetupAction_Status udid => shows (Results.setup_status_run udid mode output)
  | SetupAction_Skip udid => shows (Results.setup_skip udid mode output)
  | SetupAction_Enroll org cert key udid => shows (Results.setup_enroll debug_str udid mode org cert key output)
  end.
Definition run_orientation (action : OrientationAction) : run :=
  match action with
  | OrientationAction_Get udid => shows (Apps.orientation_get udid mode output)
  | OrientationAction_Set direction bundle_id runner config udid =>
      shows (Apps.orientation_set tests udid direction bundle_id runner config output stderr)
  end.
Definition run_tunnel (action : TunnelAction) : run :=
  match action with
  | TunnelAction_Start => shows (Results.tunnel_start output)
  | TunnelAction_Stop => shows (Results.tunnel_stop output)
  | TunnelAction_List => shows (Results.tunnel_list output)
  | TunnelAction_Daemon => on_outer (Daemon.dm_daemon unix_bind clients)
  end.
Definition run_mounter (action : MounterAction) : run :=
  match action with
  | MounterAction_Mount udid => shows (Results.mount_run macos udid output)
  | MounterAction_Status udid => shows (Results.mounter_status udid output)
  end.
Definition run_afc (action : AfcAction) : run :=
  match action with
  | AfcAction_Ls long path app udid => shows (FileCmd.ls udid mode path long app output)
  | AfcAction_Stat path app udid => shows (FileCmd.stat udid mode path app output)
  | AfcAction_Info app udid => shows (FileCmd.info udid mode app output)
  | AfcAction_Pull remote local app udid => shows (FileCmd.pull udid mode remote local app output)
  | AfcAction_Push local remote app udid => shows (FileCmd.push udid mode local remote app output)
  | AfcAction_Rm path app udid => shows (FileCmd.rm udid mode path app output)
  | AfcAction_Mkdir path app udid => shows (FileCmd.mkdir udid mode path app output)
  | AfcAction_Mv from to app udid => shows (FileCmd.mv udid mode from to app output)
  end.

Definition launched_json (pid : Z) : jval := JObject ["ok" =:> JBool true; "pid" =:> JInt pid].
Definition launched_text (bundle_id : string) (pid : Z) : list byte :=
  line (bytes_of ("launched " ++ bundle_id ++ " → pid ") ++ dec_signed pid).
Definition killed_text (pid : Z) : string := "sent SIGKILL to pid " ++ string_of (dec_signed pid).
Definition run_apps (action : AppsAction) : run :=
  match action with
  | AppsAction_List udid system all => shows (Apps.list_run udid system all mode output)
  | AppsAction_Install ipa udid => shows (Apps.install_run udid ipa mode output)
  | AppsAction_Uninstall bundle_id udid => shows (Apps.uninstall_run udid bundle_id mode output)
  | AppsAction_Launch bundle_id terminate_existing udid =>
      shows (Cli.with_session udid mode (
        let! pid := Apps.launch_run bundle_id terminate_existing in
        lift (report output (launched_json pid) (launched_text bundle_id pid))))
  | AppsAction_Kill pid udid =>
      shows (Cli.with_session udid mode (
        Apps.kill_run pid ;;;
        lift (report output (action_json (with_msg (killed_text pid))) (println (killed_text pid)))))
  end.

Definition dispatch (c : Cmd) : run :=
  match c with
  | Cmd_Devices => shows (Commands.devices_run output)
  | Cmd_Info udid => shows (Commands.info_run udid mode output)
  | Cmd_Services udid => shows (Commands.services_run udid mode output)
  | Cmd_Relay port listen udid =>
      let! _ := on_outer (Commands.relay_run incoming udid port listen) in sret tt
  | Cmd_Watch => watches (Commands.watch_run output)
  | Cmd_Screenshot path udid => run_screenshot path udid
  | Cmd_Reboot udid => shows (Commands.reboot udid mode output)
  | Cmd_Shutdown udid => shows (Commands.shutdown udid mode output)
  | Cmd_Diagnostics action => run_diagnostics action
  | Cmd_Syslog process filter output_file udid => run_syslog process filter output_file udid
  | Cmd_Crash action => run_crash action
  | Cmd_Notification action => run_notification action
  | Cmd_Ps udid => shows (Instruments.ps_run dialogs depth udid output)
  | Cmd_Location action => run_location action
  | Cmd_Oslog process level udid =>
      writes (OsLog.oslog to_lowercase udid process level (is_json output))
  | Cmd_Deviceip udid => shows (Commands.deviceip_run ipv6_text udid output)
  | Cmd_Pair cert key udid => shows (Results.pair_run udid cert key output)
  | Cmd_Unpair udid => shows (Results.unpair_run udid output)
  | Cmd_PairExport path udid => shows (Results.pair_export udid path output)
  | Cmd_PairImport path udid => shows (Results.pair_import udid path output)
  | Cmd_Devmode action => run_devmode action
  | Cmd_Erase yes udid => shows (Commands.erase_run answer udid mode yes output)
  | Cmd_Wifi action => run_wifi action
  | Cmd_Mobilegestalt key udid => shows (Commands.mobilegestalt_query udid mode key output)
  | Cmd_Activate udid => shows (Results.activate_run udid mode output)
  | Cmd_Deactivate udid => shows (Results.deactivate_run udid mode output)
  | Cmd_Setup action => run_setup action
  | Cmd_Devicename name udid => shows (Commands.devicename_run debug_str udid mode name output)
  | Cmd_Version udid => shows (Commands.version_run udid output)
  | Cmd_Afc action => run_afc action
  | Cmd_Apps action => run_apps action
  | Cmd_Orientation action => run_orientation action
  | Cmd_Lang set_lang set_locale udid => shows (Commands.lang_run udid set_lang set_locale mode output)
  | Cmd_Date timezone sync udid => shows (Commands.timezone_run udid timezone sync mode output)
  | Cmd_Rsd udid => shows (Commands.rsd_run udid output)
  | Cmd_Tunnel action => run_tunnel action
  | Cmd_Mounter action => run_mounter action
  | Cmd_Perf interval udid => shows (Perf.perf_run dialogs depth turns sort_unordered turns udid output interval)
  | Cmd_Runtest bundle_id runner config to_run to_skip xctest env udid =>
      writes (Apps.run_test tests udid (default "" bundle_id)%string runner config to_run to_skip xctest env)
  | Cmd_Runwda bundle_id runner config udid => writes (Apps.run_wda tests udid bundle_id runner config)
  end.
End dispatch.

(** [main], after the arguments have been parsed *)
Definition connection_mode (cli : Cli) : ConnectionMode :=
  with_legacy_flag (from_env (getenv "IOS_LEGACY")) (legacy cli).
Definition main (cli : Cli) : run := dispatch (connection_mode cli) (output cli) (command cli).
End main.

(** ** What commands print, from end to end *)
Section printed.
Context `{HO : HashOrder} `{BP : BuildProfile} `{PL : PlistLib} `{PLL : !PlistLaws PL} `{T : Lockdown.Tls}
  `{SJ : CdTunnel.SerdeJson}
  {W : Type} `{OS : Os W} `{TS : TunnelStack W} `{Y : Sys W} `{LF : Afc.LocalFs W} `{FS : RpCredentials.Files W}
  `{C : WallClock W} `{PE : Pairing.PairingEnv W} `{WB : Provision.Web W} `{ME : Mounter.MountEnv W}
  `{TM : Terminal} `{J : JsonLib}.
Context (tests : Apps.schedule (W:=W)) (dialogs : ∀ A, Dialog.client W A → list Dialog.thread) (depth turns : nat)
  (sort_unordered : list Perf.ProcSnap → outcome anyhow (list Perf.ProcSnap)).
Context (to_lowercase debug_str : string → string) (ipv6_text : list Z → string).
Context (answer : ST W io_error string) (create_file : string → ST W io_error stream) (stderr : stream)
  (incoming : list (io_error + stream)) (unix_bind : ST W io_error unit)
  (clients : Daemon.daemon (W:=W) → list Daemon.action) (macos : bool).
Abbreviation ios := (main tests dialogs depth turns sort_unordered to_lowercase debug_str ipv6_text answer
  create_file stderr incoming unix_bind clients macos).

Lemma shows_ok (m : ST W anyhow (list byte)) w w' out l :
  healthy out → m w = (Ok l, w') → shows m (w, out) = (Ok tt, (w', append_tx l out)).
Proof.
  intros Ho Hm. unfold shows. erewrite sbind_ok by (apply on_outer_run, Hm).
  unfold put. apply on_local_run. by rewrite write_all_healthy.
Qed.

(** C23. [ios tunnel list] while the daemon holds the tunnels [st], where the output
    is text (asked for, or automatic on a terminal) and the request and the answer
    are within the size of a frame: the daemon's answer is printed as one line for
    every tunnel with the number of its services, in the order of its map, or as
    the line that there is none. *)
Theorem tunnel_list_printed cli st k w w' out r :
  command cli = Cmd_Tunnel TunnelAction_List → is_json (output cli) = false →
  Forall (λ kv, lenZ (Daemon.dt_services kv.2) < 2 ^ 63) st →
  Daemon.small_frame Daemon.list_request → Daemon.small_frame (Daemon.list_response st) →
  unix_connect DeviceSession.DAEMON_SOCKET w = (Ok k, w') →
  healthy k → delivers (rx k) (Lockdown.ld_frame (Daemon.list_response st)) r → healthy out →
  main tests dialogs depth turns sort_unordered to_lowercase debug_str ipv6_text answer create_file stderr
    incoming unix_bind clients macos cli (w, out) = (Ok tt, (w', append_tx
    (match st with
     | [] => println "no active tunnels"
     | _ => concat ((λ kv, Results.tunnel_line (kv.1, lenZ (Daemon.dt_services kv.2))) <$> st)
     end) out)).
Proof.
  intros Hc Hj Hst Hreq Hresp Hconn Hk Hdk Ho. unfold main. rewrite Hc. cbn [dispatch run_tunnel].
  apply shows_ok; [done|]. unfold Results.tunnel_list.
  erewrite sbind_ok by (by eapply Daemon.dm_devices_ok). unfold report. rewrite Hj.
  by rewrite Results.tunnels_printed.
Qed.

(** [ios watch]: a line for every attachment and detachment, until the daemon
    closes the connection, which is an error. *)
Lemma watch_printed cli m c kf w w' out :
  command cli = Cmd_Watch → is_json (output cli) = false →
  mux_connect w = (Ok m, w') →
  UsbmuxConn.conn_listen (UsbmuxConn.from_stream (mux_stream m)) = (Ok tt, c) →
  UsbmuxConn.sees c kf [] → UsbmuxConn.no_refusal kf → healthy out →
  ios cli (w, out) =
    (Err (Commands.mux_error UsbmuxTypes.EConnectionClosed),
     (w', append_tx (concat (Commands.event_text <$> UsbmuxCodec.c_events kf)) out)).
Proof.
  intros Hc Hj Hm Hl Hs Hr Ho. unfold main. rewrite Hc. cbn [dispatch]. unfold watches. cbn [fst snd].
  destruct (Commands.watch_prints c kf [] Hs Hr) as (c' & Hw).
  assert (Commands.watch_run (output cli) (w, []) =
    (Err (Commands.mux_error UsbmuxTypes.EConnectionClosed),
     (w', concat (Commands.event_text <$> UsbmuxCodec.c_events kf)))) as ->.
  { unfold Commands.watch_run, Commands.open_connection.
    erewrite sbind_ok; [|apply on_outer_run; erewrite sbind_ok by (apply smap_err_ok, Hm); reflexivity].
    erewrite sbind_ok by (unfold srun; erewrite smap_err_ok by exact Hl; reflexivity). cbv beta iota.
    rewrite Hj. cbn [fst snd]. by rewrite Hw. }
  unfold put, on_local, zoom. cbn [fst snd]. by rewrite write_all_healthy.
Qed.

(** *** The flag and the variable

    The documentation calls [IOS_LEGACY=1] another way to give [--legacy]; for the
    commands that do not take the mode, the flag has no effect, while the variable
    is read again when a session is opened. *)
Definition modeless (c : Cmd) : bool :=
  match c with
  | Cmd_Devices | Cmd_Relay _ _ _ | Cmd_Watch | Cmd_Ps _ | Cmd_Location _ | Cmd_Oslog _ _ _ | Cmd_Deviceip _
  | Cmd_Pair _ _ _ | Cmd_Unpair _ | Cmd_PairExport _ _ | Cmd_PairImport _ _ | Cmd_Version _ | Cmd_Rsd _
  | Cmd_Tunnel _ | Cmd_Mounter _ | Cmd_Perf _ _ | Cmd_Runtest _ _ _ _ _ _ _ _ | Cmd_Runwda _ _ _ _
  | Cmd_Orientation (OrientationAction_Set _ _ _ _ _) => true
  | _ => false
  end.
Lemma legacy_flag_ignored cli b :
  modeless (command cli) = true → ios (MkCli b (output cli) (command cli)) = ios cli.
Proof.
  intros Hc. unfold main. cbn [output command legacy].
  destruct (command cli) as [| | | | | | | | | | | | | | | | | | | | | | | | | | | | | | |[]| | | | | | | |];
    try discriminate Hc; reflexivity.
Qed.
End printed.

(** ** A computer without anything but the daemon *)
Section witnesses.
Import Tunnel.ToyTunnel.
#[local] Existing Instance debug_profile.
#[local] Existing Instance BitPlist.lib.
#[local] Existing Instance BitPlist.laws.
#[local] Existing Instance Lockdown.ToyTls.lib.
#[local] Existing Instance toy_json.
#[local] Existing Instance Json.BitJson.lib.
#[local] Existing Instance Launch.backwards.
#[local] Existing Instance Instruments.terminal.
#[local] Existing Instance Xctest.Demo.clock.
#[local] Existing Instance Daemon.toy_files.

#[local] Instance bare_fs : Afc.LocalFs world := {|
  Afc.File := unit;
  Afc.create_dir_all _ := sfail refused;
  Afc.file_create _ := sfail refused;
  Afc.fs_open _ := sfail refused;
  Afc.fs_write_all _ _ := sfail refused;
  Afc.fs_read _ _ := sfail refused;
  Afc.fs_is_dir _ := sret false;
  Afc.fs_read_dir _ := sfail refused
|}.
#[local] Instance bare_pairing : Pairing.PairingEnv world := {|
  Pairing.rsa_private := unit;
  Pairing.rsa_public := unit;
  Pairing.rsa_generate := sfail "no"%string;
  Pairing.to_public_key k := k;
  Pairing.from_pkcs1_pem _ := inl "no"%string;
  Pairing.to_public_key_der _ := inl "no"%string;
  Pairing.to_pkcs1_pem _ := inl "no"%string;
  Pairing.private_pkcs8_pem _ := inl "no"%string;
  Pairing.private_pkcs1_pem _ := inl "no"%string;
  Pairing.private_pkcs8_der _ := inl "no"%string;
  Pairing.private_pkcs1_der _ := inl "no"%string;
  Pairing.sign_sha1 _ _ := None;
  Pairing.sha1 l := l;
  Pairing.debug_value _ := ""%string;
  Pairing.clock w := (None, w);
  Pairing.hang_up _ w := w
|}.
#[local] Instance bare_web : Provision.Web world := {|
  Provision.Response := unit;
  Provision.headers_names _ := [];
  Provision.header _ _ := None;
  Provision.web_post _ _ _ := sfail (msg0 "no");
  Provision.read_to_end _ := sfail refused
|}.
#[local] Instance bare_mounter : Mounter.MountEnv world := {|
  Mounter.sha384 l := l;
  Mounter.path_exists _ _ := false;
  Mounter.command _ _ := sfail refused;
  Mounter.http_get _ := sfail (msg0 "no");
  Mounter.http_post _ _ _ := sfail (msg0 "no")
|}.

Definition bare_main (cli : Cli) : ST (world * stream) anyhow unit :=
  main (λ _ _, []) (λ _ _, []) 0 0 (λ l, Ok l) id id (λ _, ""%string) (sfail refused) (λ _, sfail refused)
    (idle []) [] (sfail refused) (λ _, []) false cli.

Lemma tunnel_list_printed_witness :
  bare_main (MkCli true Text (Cmd_Tunnel TunnelAction_List)) (Daemon.up_world, idle []) =
    (Ok tt, (set_now (daemon_from + 1000) Daemon.up_world,
             append_tx (line (bytes_of "u1  (1 services)")) (idle []))).
Proof.
  refine (tunnel_list_printed _ _ _ _ _ _ _ _ _ _ _ _ _ _ _ (MkCli true Text (Cmd_Tunnel TunnelAction_List))
    [("u1"%string, Daemon.toy_tunnel 5)] Daemon.listed Daemon.up_world
    (set_now (daemon_from + 1000) Daemon.up_world) (idle []) [] _ _ _ _ _ _ _ _ _); try reflexivity;
    try (split; [reflexivity|split; vm_compute; reflexivity]).
  - repeat constructor.
  - apply delivers_one. vm_compute. discriminate.
Defined.
End witnesses.
